(* ===== verification/_CoqProject ===== *)
-Q . S2P
Prelude.v
PyStr.v
Base64.v
Schema.v
Auth.v
Traffic.v
Sessions.v
Mgmt.v
StatusFile.v
Regex.v
LogLines.v
Collector.v
Accounting.v
ConfigEdit.v
Ipv4.v
Addressing.v
Network.v
Relay.v
Access.v
Clients.v
IndexFile.v
Lifecycle.v
RelayHistory.v
Watchdog.v
Ipv6.v
Url.v
Gateway.v
Shlex.v
SearchLines.v
ServerConf.v
Plist.v
Signing.v
Backups.v
Recovery.v
Settings.v
Handlers.v
Discovery.v
Pages.v
Profiles.v
Console.v
Endpoint.v
Startup.v
Migration.v
Routes.v
LiveFeed.v
RelayExport.v
Services.v
SetupEnv.v
Locks.v
Connections.v
Caches.v
SharePage.v
PrivateFiles.v
Views.v
