(* ===== verification/Prelude.v ===== *)
(** * openvpn-server: a verification library of its Python parts

    The repository runs an OpenVPN server in a container with a web UI beside it.  The UI
    ([ui/app/]) signs administrators and clients in, issues and revokes certificates with easy-rsa,
    edits server.conf, collects traffic and sessions from OpenVPN's management interface into
    PostgreSQL, and hands out profiles for OpenVPN and for an Apple network relay.  A second
    process answers the relay's questions who may use it ([policy_server.py]), a third one, on
    another host, signs relay profiles ([signer/service.py]); [bin/recover-checkout.py] repairs a
    deployment checkout, [bin/export-relay-cert.py] hands a certificate to the relay's host.

    ** How the code is represented

    A function that may raise is a function into [result] (below): a value or the exception.  State
    is passed explicitly: the tables are the record [Schema.database], the directories are finite
    maps, a handler of [main.py] is a function from a server state to a server state and a result.
    Threads and concurrent requests are step relations or lists of steps.  What the repository does
    not contain is an argument: digests, scrypt, HMAC, random values, clocks, [openssl], easy-rsa and
    the other scripts, PostgreSQL's failures, the answers of OpenVPN, of the relay and of the signer.
    What the sources use of Python's own library is modelled: strings ([PyStr], code points up to
    U+00FF), [base64], [re], [ipaddress], [urllib.parse], [shlex], [plistlib.dumps].
    Integers are [Z]; Python's do not wrap.  The sizes that matter are explicit: prefix lengths and
    addresses, the 255 bytes of a configuration line, the 2^64 limit of a property list.

    ** Parts, files and their sources

    - Python's library: [PyStr], [Base64], [Regex] with [SearchLines], [Ipv4], [Ipv6], [Url], [Shlex],
      [Plist].
    - The tables and settings rows of [ui/app/db.py]: [Schema]; traffic buckets, roll-up and charts:
      [Traffic]; VPN sessions, visits and the archive of a name: [Sessions].  How the tables come to be,
      at a start and out of a legacy SQLite file ([migrate_db.py]), is in [Migration], on rows of cells;
      the parameters of a connection and the policy service's view of the settings in [Services];
      the connections of the threads, transactions and what happens when they are lost in [Connections].
    - Accounts, cookies, throttling ([ui/app/auth.py]): [Auth].  Who may do what ([main.py],
      [portal_boundary.py]): [Access], and for CSRF, the other handlers, the network form and the
      live stream [Handlers]; the application around them, its table of routes, answers and headers:
      [Routes]; the page behind a one-time link in [SharePage], the pages that only show the state in
      [Views].  The start of the UI, with the fixes of earlier releases' data: [Startup].
    - The management client ([mgmt.py]): [Mgmt], and what its status parser recovers: [StatusFile].
    - The collector ([collector.py]): its log patterns in [LogLines], one turn of its thread in
      [Collector], the transition system of turns, failures, restarts and roll-ups in [Accounting],
      its feed to the open streams in [LiveFeed].
      [relay_history.py]: [RelayHistory].  The watchdog over it ([watchdog.py]): [Watchdog].
    - [ui/app/pki.py]: the configuration editor in [ConfigEdit], addresses and guests in [Addressing],
      certificates and the client list in [Clients] and [IndexFile], profiles, the second factor, the
      control channel and the CRL (with [collector.Maintenance], which keeps it fresh) in [Profiles],
      the public endpoint's round trip in [Endpoint].  The life of a client across [main.py] and
      [pki.py] (create, renew, revoke, delete): [Lifecycle].  The administrator's operations on the
      server as a whole: [Console].  What the pages show (clients, overview, sessions): [Pages].
    - [ui/app/network.py]: the address plan in [Network], the gateway's settings, guest links and
      export in [Gateway], server.conf and settings.conf in [ServerConf]; [settings.py]: [Settings];
      [network_discovery.py]: [Discovery].
    - The relay: credentials and the policy service ([relay.py], [policy_server.py]) in [Relay];
      the profile, its signature and both ends of the signing connection ([relay.py],
      [relay_services.py], [signer/service.py]) in [Signing].
    - The lock of [pki.py] and requests that run at the same time: [Locks].  The caches of certificates and
      of index.txt, which [pki.cert_info] and [relay.eligible] read: [Caches].  How settings are written so
      that nobody else can read them, and the records of a recovery: [PrivateFiles].
    - [ui/app/backup.py]: [Backups].  [bin/recover-checkout.py]: [Recovery].  [bin/export-relay-cert.py],
      and how [pki.py] runs commands: [RelayExport].  [bin/setup-env.py]: [SetupEnv].

    The parts meet in a few places, and there the theorems are about the composition: [Lifecycle]
    runs on the state of [Access], [Relay], [Clients] and [Mgmt] together (revoking a client takes
    every way in away); [ServerConf] reads what it saved with the readers of [Addressing] and
    [Settings]; [Signing] connects the UI's client to the signer's handler, and [Handlers] the
    resulting profile to the client's download; [Accounting] runs [Collector]'s turns on the tables
    of [Traffic] and [Sessions]; [Routes] puts the boundary, the CSRF checks and the sessions in front
    of every handler; [Locks] runs the creation of [Lifecycle] step by step, other requests in between, and
    shows that it has the effect of the whole handler; [Caches] shows that [Relay]'s decision on cached
    files is that on the files, as long as every change of a file changes its time stamp; [Startup] runs the operations of [Sessions], [Addressing], [Auth] and [Endpoint]
    one after the other.

    ** What the theorems show

    - Safety of access: sign-in, cookies, CSRF, one-time links, relay credentials, the guest
      listener; revocation and the end of portal access; the stream that ends with its session.
    - Exactness of the books: bytes stored are the bytes OpenVPN reported, counters that start again at
      zero included, whatever writes fail and whenever the collector starts again; roll-ups keep totals; open rows are the active connections; visits and charts lose nothing.
    - Configuration: no edit brings in a privileged option, in the lines as OpenVPN reads them, except by
      padding a comment ([padded_comment_runs_option]); an accepted network plan is consistent,
      is the one in force after it was saved, and is read back; static addresses stay apart.
    - Parsers: status, index.txt, log lines and settings are read back as they were written, and
      the framing of management commands does not depend on how TCP cuts them.
    - Signing: only relay profiles are signed, only verified files are delivered, errors close.
    - Operations: a migration imports everything or nothing, a start keeps accounts and makes its fixes
      once, an exported certificate was verified, a live stream shows snapshots in order; backups are
      complete or absent, a recovery overwrites no independent change, the
      preparation of the host replaces no secret, a transaction that fails anywhere leaves all or nothing and
      the next one works, secrets are never in a file others can read; a hung collector is noticed in bounded time.
    - Theorems on concrete inputs show where the code does not do what it means to
      ([padded_comment_runs_option], [nel_comment_becomes_option], [no_break_space_kept],
      [host_port_superscript], [restored_without_marker],
      [resync_stuck_without_clients], [ipv6_source_truncated], [scope_adds_a_field],
      [huge_integer_unanswered], [one_address_server]).

    ** Fuel

    A definition with fuel runs on a measure of its input, and its theorem says that it gets a
    result: the loops of [Mgmt] end because every turn takes a chunk from the socket's script
    ([command_outcome]); [Traffic.fill_from] takes one unit of fuel per point of the chart, and
    [chart_total] sums all of them; [PyStr.dec_digits], [Ipv4.right_zeros], [Plist.base64_lines],
    [Signing.pem_blocks], [SetupEnv.sub_url] and [Regex.findall_m] consume a character or bit per unit and are started
    with the length or width of their input.  [Watchdog.run_at] and [Handlers.stream_loop] are loops
    without an end; their fuel is the number of turns looked at, and the theorems hold for each.

    ** Not modelled

    The life of the threads and the static pages of [main.py], and its handlers that only hand on what
    another part returns; the routing of paths, JSON bodies and dependency injection of the framework;
    the upgrade of network settings that development builds of 1.9 saved, which depends on what [dict] makes
    of arbitrary JSON; command lines, logging and printed reports; the scripts around easy-rsa, the relay in
    Go, the front end in JavaScript.  Outside [Locks] an operation is a sequence of whole calls. *)

(** ** Prelude

    What every file shares: exceptions and results, lists, sums over maps, tactics. *)

From stdpp Require Export base gmap strings list fin_maps sorting.
From Stdlib Require Export ZArith Lia Ascii.

Open Scope Z_scope.

#[global] Arguments String.append : simpl nomatch.

(** ** Exceptions and results

    A Python function that may raise is a function into [result]: [Ok v] for a
    return value, [Raise e] for an exception that leaves the function.  The
    constructors are the exception classes the sources raise or catch. *)

Inductive exn :=
| PkiError (msg : string)
| SigningUnavailable (msg : string)
| ManagementError (msg : string)
| HTTPException (status : Z) (detail : string)
| ValueError
| KeyError
| IndexError
| TypeError
| OSError
| RuntimeError (msg : string)
| DatabaseError (msg : string)      (* psycopg.Error *)
| AttributeError
| OverflowError
| SSLError                           (* of OpenSSL; an OSError *)
| SubprocessError                    (* a command failed or timed out *)
| SqliteError                        (* sqlite3.Error *)
| RecoveryError (msg : string).      (* bin/recover-checkout.py *)

Inductive result (A : Type) :=
| Ok (a : A)
| Raise (e : exn).
Arguments Ok {A} a.
Arguments Raise {A} e.

#[export] Instance result_ret : MRet result := fun A a => Ok a.
#[export] Instance result_bind : MBind result := fun A B f r =>
  match r with Ok a => f a | Raise e => Raise e end.
#[export] Instance result_map : FMap result := fun A B f r =>
  match r with Ok a => Ok (f a) | Raise e => Raise e end.

#[export] Instance exn_eq_dec : EqDecision exn.
Proof. solve_decision. Defined.

Lemma Ok_inj {A} (x y : A) : Ok x = Ok y → x = y.
Proof. congruence. Qed.

Definition is_ok {A} (r : result A) : bool :=
  match r with Ok _ => true | Raise _ => false end.

Definition of_option {A} (e : exn) (o : option A) : result A :=
  match o with Some a => Ok a | None => Raise e end.

(** [raise_if c e]: the statement [if c: raise e]. *)
Definition raise_if (c : bool) (e : exn) : result unit :=
  if c then Raise e else Ok tt.

(** Whether an exception is caught by [except PkiError] ([SigningUnavailable]
    is a subclass). *)
Definition is_pki_error (e : exn) : bool :=
  match e with PkiError _ | SigningUnavailable _ => true | _ => false end.

(** Python's truth value of an optional string ([None] and the empty string are
    false). *)
Definition truthy (o : option string) : bool :=
  match o with Some s => negb (String.eqb s "") | None => false end.

(** [mapM] for results: a list comprehension whose body may raise. *)
Fixpoint map_result {A B} (f : A → result B) (l : list A) : result (list B) :=
  match l with
  | [] => Ok []
  | x :: l => y ← f x; ys ← map_result f l; Ok (y :: ys)
  end.

(** ** Tactics *)

(** Split a hypothesis about a [result] computation that succeeded, or a boolean
    conjunction/comparison, into its parts. *)
Ltac inv_result :=
  repeat match goal with
  | H : Ok _ = Ok _ |- _ => apply Ok_inj in H; subst
  | H : Raise _ = Ok _ |- _ => discriminate H
  | H : Ok _ = Raise _ |- _ => discriminate H
  | H : mbind _ ?r = Ok _ |- _ => unfold mbind, result_bind in H; cbn beta iota in H
  | H : match ?r with Ok _ => _ | Raise _ => Raise _ end = Ok _ |- _ =>
      let E := fresh "E" in destruct r eqn:E; [|discriminate H]
  | H : raise_if ?c _ = Ok _ |- _ =>
      unfold raise_if in H; let E := fresh "E" in destruct c eqn:E; [discriminate H|clear H]
  end.

(** Turn boolean comparisons on integers in the context into propositions. *)
Ltac bool_to_prop :=
  repeat match goal with
  | H : (_ && _)%bool = true |- _ => apply andb_true_iff in H as [? ?]
  | H : (_ || _)%bool = false |- _ => apply orb_false_iff in H as [? ?]
  | H : negb _ = true |- _ => apply negb_true_iff in H
  | H : negb _ = false |- _ => apply negb_false_iff in H
  | H : (_ <=? _) = true |- _ => apply Z.leb_le in H
  | H : (_ <=? _) = false |- _ => apply Z.leb_gt in H
  | H : (_ <? _) = true |- _ => apply Z.ltb_lt in H
  | H : (_ <? _) = false |- _ => apply Z.ltb_ge in H
  | H : (_ =? _) = true |- _ => apply Z.eqb_eq in H
  | H : (_ =? _) = false |- _ => apply Z.eqb_neq in H
  | H : String.eqb _ _ = true |- _ => apply String.eqb_eq in H
  | H : String.eqb _ _ = false |- _ => apply String.eqb_neq in H
  | H : bool_decide _ = true |- _ => apply bool_decide_eq_true_1 in H
  | H : bool_decide _ = false |- _ => apply bool_decide_eq_false_1 in H
  end.

(** ** Lists with a sum *)

Fixpoint sumZ {A} (f : A → Z) (l : list A) : Z :=
  match l with [] => 0 | x :: l => f x + sumZ f l end.

Section sums.
Context {A : Type}.
Implicit Types (f g : A → Z) (l : list A).

Lemma sumZ_app f l l' : sumZ f (l ++ l') = sumZ f l + sumZ f l'.
Proof. induction l; simpl; lia. Qed.

Lemma sumZ_perm f l l' : l ≡ₚ l' → sumZ f l = sumZ f l'.
Proof. induction 1; simpl; lia. Qed.

Lemma sumZ_ext f g l : (∀ x, x ∈ l → f x = g x) → sumZ f l = sumZ g l.
Proof.
  induction l as [|x l IH]; intros H; simpl; [done|].
  rewrite H by set_solver. rewrite IH; [done|]. intros y Hy. apply H. set_solver.
Qed.

Lemma sumZ_add f g l : sumZ (fun x => f x + g x) l = sumZ f l + sumZ g l.
Proof. induction l; simpl; lia. Qed.

Lemma sumZ_zero f l : (∀ x, x ∈ l → f x = 0) → sumZ f l = 0.
Proof.
  induction l as [|x l IH]; intros H; simpl; [done|].
  rewrite H by set_solver. rewrite IH; [done|]. intros y Hy. apply H. set_solver.
Qed.

Lemma sumZ_filter f (P : A → Prop) `{∀ x, Decision (P x)} l :
  sumZ f (filter P l) = sumZ (fun x => if decide (P x) then f x else 0) l.
Proof.
  induction l as [|x l IH]; [done|]. rewrite filter_cons. simpl.
  destruct (decide (P x)); simpl; rewrite IH; lia.
Qed.

Lemma sumZ_nonneg f l : (∀ x, x ∈ l → 0 <= f x) → 0 <= sumZ f l.
Proof.
  induction l as [|x l IH]; intros H; simpl; [lia|].
  specialize (H x ltac:(set_solver)) as Hx.
  assert (0 <= sumZ f l); [|lia]. apply IH. intros y Hy. apply H. set_solver.
Qed.
End sums.

Lemma sumZ_fmap {A B} (h : A → B) (f : B → Z) l : sumZ f (h <$> l) = sumZ (fun x => f (h x)) l.
Proof. induction l as [|x l IH]; [done|]. rewrite fmap_cons. simpl. by rewrite IH. Qed.

Lemma NoDup_fst_filter_list {A B} (P : A * B → Prop) `{∀ x, Decision (P x)} (l : list (A * B)) :
  NoDup l.*1 → NoDup (filter P l).*1.
Proof.
  induction l as [|p l IH]; [done|]. simpl. intros [Hp Hnd]%NoDup_cons. rewrite filter_cons.
  case_decide; [|auto]. simpl. apply NoDup_cons. split; [|auto].
  intros Hin. apply Hp. apply list_elem_of_fmap in Hin as (q & -> & [_ Hq]%list_elem_of_filter).
  by apply list_elem_of_fmap_2.
Qed.

(** Sum over the entries of a finite map. *)
Definition map_sum {K A} `{Countable K} (f : K → A → Z) (m : gmap K A) : Z :=
  sumZ (fun p => f p.1 p.2) (map_to_list m).

Section map_sum.
Context {K A : Type} `{Countable K}.
Implicit Types (m : gmap K A) (f : K → A → Z).

Lemma map_sum_empty f : map_sum f (∅ : gmap K A) = 0.
Proof. unfold map_sum. by rewrite map_to_list_empty. Qed.

Lemma map_sum_insert f m k v :
  m !! k = None → map_sum f (<[k := v]> m) = f k v + map_sum f m.
Proof.
  intros Hk. unfold map_sum. erewrite sumZ_perm by (by apply map_to_list_insert). done.
Qed.

Lemma map_sum_delete f m k v :
  m !! k = Some v → map_sum f m = f k v + map_sum f (delete k m).
Proof.
  intros Hk. rewrite <- (insert_delete_id m k v Hk) at 1.
  apply map_sum_insert. apply lookup_delete_eq.
Qed.

Lemma map_sum_overwrite f m k v w :
  m !! k = Some v → map_sum f (<[k := w]> m) = map_sum f m - f k v + f k w.
Proof.
  intros Hk. rewrite (map_sum_delete f m k v Hk).
  rewrite (map_sum_delete f (<[k:=w]> m) k w (lookup_insert_eq _ _ _)).
  rewrite delete_insert_eq. lia.
Qed.

Lemma map_sum_add f g m : map_sum (fun k v => f k v + g k v) m = map_sum f m + map_sum g m.
Proof. unfold map_sum. apply sumZ_add. Qed.

Lemma map_sum_filter f (P : K * A → Prop) `{∀ x, Decision (P x)} m :
  map_sum f (filter P m) = map_sum (fun k v => if decide (P (k, v)) then f k v else 0) m.
Proof.
  unfold map_sum. rewrite map_filter_alt.
  erewrite sumZ_perm; [|apply map_to_list_to_map].
  - rewrite sumZ_filter. apply sumZ_ext. by intros [k v] _.
  - apply NoDup_fst_filter_list. apply NoDup_fst_map_to_list.
Qed.

Lemma map_sum_ext f g m :
  (∀ k v, m !! k = Some v → f k v = g k v) → map_sum f m = map_sum g m.
Proof.
  intros Hfg. unfold map_sum. apply sumZ_ext. intros [k v] Hin.
  apply elem_of_map_to_list in Hin. by apply Hfg.
Qed.
End map_sum.

Lemma elem_of_drop_1 {A} (x : A) n l : x ∈ drop n l → x ∈ l.
Proof. intros Hx. rewrite <- (take_drop n l). set_solver. Qed.

Lemma filter_all_id {A} (P : A → Prop) `{∀ x, Decision (P x)} (l : list A) :
  (∀ x, x ∈ l → P x) → filter P l = l.
Proof.
  induction l as [|x l IH]; intros Hall; [done|].
  rewrite filter_cons, decide_True by (apply Hall; set_solver). f_equal. apply IH. set_solver.
Qed.

Lemma NoDup_fmap_eq {A B} (f : A → B) (l : list A) x y :
  NoDup (f <$> l) → x ∈ l → y ∈ l → f x = f y → x = y.
Proof.
  induction l as [|z l IH]; [by intros _ ?%not_elem_of_nil|]. rewrite fmap_cons. intros [Hz Hnd]%NoDup_cons.
  intros [->|Hx]%elem_of_cons [->|Hy]%elem_of_cons Hxy; [done| | |by apply IH].
  - destruct Hz. rewrite Hxy. by apply list_elem_of_fmap_2.
  - destruct Hz. rewrite <- Hxy. by apply list_elem_of_fmap_2.
Qed.

Lemma map_Forall_filter_keep {K A} `{Countable K} (P : K → A → Prop) (Q : K * A → Prop)
    `{∀ x, Decision (Q x)} (m : gmap K A) : map_Forall P m → map_Forall P (filter Q m).
Proof. intros HP k a [Hk _]%map_lookup_filter_Some. by apply HP. Qed.

(** ** The hint database of the development *)

Create HintDb ovpn.
Create Rewrite HintDb ovpn.
#[export] Hint Resolve sumZ_nonneg : ovpn.
#[export] Hint Rewrite @sumZ_app @map_sum_empty : ovpn.
