(* ===== verification/PyStr.v ===== *)
(** * Python's [str], as far as the sources use it

    A Python string is a [string] whose characters are the code points U+0000 to
    U+00FF (one [ascii] per code point).  On that range the predicates below are
    the ones of the Unicode database, so [isspace], [isdigit], [lower],
    [splitlines] and [int] agree with CPython; code points above U+00FF are not
    represented. *)

From S2P Require Import Prelude.

Open Scope string_scope.
Open Scope list_scope.
Open Scope Z_scope.

Definition code (c : ascii) : Z := Z.of_N (N_of_ascii c).
Definition chr (n : Z) : ascii := ascii_of_N (Z.to_N n).

Definition in_range (lo hi : Z) (c : ascii) : bool := (lo <=? code c) && (code c <=? hi).

(** [str.isspace] of one character: U+0009-U+000D, U+001C-U+0020, U+0085, U+00A0. *)
Definition is_space (c : ascii) : bool :=
  in_range 9 13 c || in_range 28 32 c || (code c =? 133) || (code c =? 160).
(** The decimal digits; also the category Nd, which a backslash-d matches. *)
Definition is_decimal (c : ascii) : bool := in_range 48 57 c.
(** [str.isdigit] of one character: the decimal digits and the superscripts
    U+00B2, U+00B3 and U+00B9. *)
Definition is_digit (c : ascii) : bool :=
  is_decimal c || (code c =? 178) || (code c =? 179) || (code c =? 185).
Definition is_upper_az (c : ascii) : bool := in_range 65 90 c.
Definition is_lower_az (c : ascii) : bool := in_range 97 122 c.
Definition is_alpha_az (c : ascii) : bool := is_upper_az c || is_lower_az c.
Definition is_alnum_az (c : ascii) : bool := is_alpha_az c || is_decimal c.

(** [str.lower] of one character. *)
Definition lower_char (c : ascii) : ascii :=
  if is_upper_az c || (in_range 192 222 c && negb (code c =? 215)) then chr (code c + 32) else c.

Fixpoint str_map (f : ascii → ascii) (s : string) : string :=
  match s with EmptyString => EmptyString | String c s => String (f c) (str_map f s) end.
Fixpoint str_forall (p : ascii → bool) (s : string) : bool :=
  match s with EmptyString => true | String c s => p c && str_forall p s end.
Definition str_exists (p : ascii → bool) (s : string) : bool :=
  negb (str_forall (fun c => negb (p c)) s).
Definition lower : string → string := str_map lower_char.

(** [str.upper] of ASCII text. *)
Definition upper_char (c : ascii) : ascii := if is_lower_az c then chr (code c - 32) else c.
Definition upper : string → string := str_map upper_char.

Definition strlen (s : string) : Z := Z.of_nat (String.length s).
Definition empty (s : string) : bool := String.eqb s "".

(** [s.isdigit()] is false for the empty string. *)
Definition isdigit (s : string) : bool := negb (empty s) && str_forall is_digit s.

Fixpoint lstrip_by (p : ascii → bool) (s : string) : string :=
  match s with
  | EmptyString => EmptyString
  | String c s' => if p c then lstrip_by p s' else s
  end.
Fixpoint rstrip_by (p : ascii → bool) (s : string) : string :=
  match s with
  | EmptyString => EmptyString
  | String c s' =>
      match rstrip_by p s' with
      | EmptyString => if p c then EmptyString else String c EmptyString
      | t => String c t
      end
  end.
Definition strip_by (p : ascii → bool) (s : string) : string := rstrip_by p (lstrip_by p s).
Definition strip : string → string := strip_by is_space.
Definition rstrip_char (c : ascii) : string → string := rstrip_by (Ascii.eqb c).

Fixpoint startswith (p s : string) : bool :=
  match p, s with
  | EmptyString, _ => true
  | String a p, String b s => Ascii.eqb a b && startswith p s
  | _, _ => false
  end.
Fixpoint str_rev_app (s acc : string) : string :=
  match s with EmptyString => acc | String c s => str_rev_app s (String c acc) end.
Definition str_rev (s : string) : string := str_rev_app s "".
Definition endswith (p s : string) : bool := startswith (str_rev p) (str_rev s).

Fixpoint str_drop (n : nat) (s : string) : string :=
  match n, s with
  | O, _ => s
  | S n, String _ s => str_drop n s
  | S _, EmptyString => EmptyString
  end.
Fixpoint str_take (n : nat) (s : string) : string :=
  match n, s with
  | S n, String c s => String c (str_take n s)
  | _, _ => EmptyString
  end.
Definition removeprefix (p s : string) : string :=
  if startswith p s then str_drop (String.length p) s else s.

(** [c in s] for one character. *)
Definition mem_char (c : ascii) (s : string) : bool := str_exists (Ascii.eqb c) s.

(** [s.partition(c)]: the part before the first [c], whether there is one, the rest. *)
Fixpoint partition (c : ascii) (s : string) : string * bool * string :=
  match s with
  | EmptyString => (EmptyString, false, EmptyString)
  | String d s' =>
      if Ascii.eqb c d then (EmptyString, true, s')
      else let '(h, f, t) := partition c s' in (String d h, f, t)
  end.
(** [s.rpartition(c)]: without a [c] the whole string is the last component. *)
Fixpoint rpartition (c : ascii) (s : string) : string * bool * string :=
  match s with
  | EmptyString => (EmptyString, false, EmptyString)
  | String d s' =>
      let '(h, f, t) := rpartition c s' in
      if f then (String d h, true, t)
      else if Ascii.eqb c d then (EmptyString, true, s')
      else (EmptyString, false, s)
  end.

(** [s.split(c)] for a one-character separator. *)
Fixpoint split (c : ascii) (s : string) : list string :=
  match s with
  | EmptyString => [EmptyString]
  | String d s' =>
      if Ascii.eqb c d then EmptyString :: split c s'
      else match split c s' with
           | [] => [String d EmptyString]
           | w :: ws => String d w :: ws
           end
  end.
(** [sep.join(l)]. *)
Fixpoint join (sep : string) (l : list string) : string :=
  match l with
  | [] => ""
  | [w] => w
  | w :: l => w +:+ sep +:+ join sep l
  end.

(** [s.replace("\r\n", "\n")]. *)
Definition cr : ascii := chr 13.
Definition lf : ascii := chr 10.
Definition tab : ascii := chr 9.
Fixpoint crlf_to_lf (s : string) : string :=
  match s with
  | EmptyString => EmptyString
  | String c s' =>
      match s' with
      | String d t => if Ascii.eqb c cr && Ascii.eqb d lf then crlf_to_lf s' else String c (crlf_to_lf s')
      | EmptyString => String c EmptyString
      end
  end.

(** [s.splitlines()]: U+000A-U+000D, U+001C-U+001E and U+0085 end a line, a CR LF
    pair ends one line, and there is no empty line after a final line end. *)
Definition is_line_end (c : ascii) : bool := in_range 10 13 c || in_range 28 30 c || (code c =? 133).
Fixpoint splitlines (s : string) : list string :=
  match s with
  | EmptyString => []
  | String c s' =>
      if is_line_end c then
        match s' with
        | String d t => if Ascii.eqb c cr && Ascii.eqb d lf then splitlines s' else EmptyString :: splitlines s'
        | EmptyString => [EmptyString]
        end
      else match s' with
           | EmptyString => [String c EmptyString]
           | String d _ =>
               if is_line_end d then String c EmptyString ::
                 match splitlines s' with _ :: ls => ls | [] => [] end
               else match splitlines s' with
                    | w :: ws => String c w :: ws
                    | [] => [String c EmptyString]
                    end
           end
  end.

(** [s.split()]: the maximal runs of characters that are not white space. *)
Fixpoint words_by (p : ascii → bool) (s : string) : list string :=
  match s with
  | EmptyString => []
  | String c s' =>
      if p c then words_by p s'
      else match s' with
           | EmptyString => [String c EmptyString]
           | String d _ =>
               if p d then String c EmptyString :: words_by p s'
               else match words_by p s' with
                    | w :: ws => String c w :: ws
                    | [] => [String c EmptyString]
                    end
           end
  end.
Definition words : string → list string := words_by is_space.

(** [int(s)] in base 10: surrounding white space, a sign, digits, single
    underscores between digits. [None] is ValueError. *)
Definition digit_val (c : ascii) : Z := code c - 48.
Fixpoint digits_val (acc : Z) (s : string) : option Z :=
  match s with
  | EmptyString => Some acc
  | String c s' =>
      if is_decimal c then digits_val (acc * 10 + digit_val c) s'
      else if Ascii.eqb c "_"%char then
        match s' with
        | String d s'' => if is_decimal d then digits_val (acc * 10 + digit_val d) s'' else None
        | EmptyString => None
        end
      else None
  end.
Definition unsigned_int (s : string) : option Z :=
  match s with
  | String c s' => if is_decimal c then digits_val (digit_val c) s' else None
  | EmptyString => None
  end.
Definition py_int (s : string) : option Z :=
  match strip s with
  | String c s' =>
      if Ascii.eqb c "-"%char then Z.opp <$> unsigned_int s'
      else if Ascii.eqb c "+"%char then unsigned_int s'
      else unsigned_int (String c s')
  | EmptyString => None
  end.

(** [str(n)] for an integer. *)
Fixpoint dec_digits (fuel : nat) (n : Z) (acc : string) : string :=
  match fuel with
  | O => acc
  | S fuel =>
      let acc := String (chr (48 + n mod 10)) acc in
      if n / 10 =? 0 then acc else dec_digits fuel (n / 10) acc
  end.
Definition nat_str (n : Z) : string := dec_digits (S (Z.to_nat (Z.log2 n))) n "".
Definition str_of_int (n : Z) : string := if n <? 0 then String "-"%char (nat_str (- n)) else nat_str n.

(** [s.encode()]: a code point from U+0080 on takes two bytes. *)
Fixpoint utf8 (s : string) : string :=
  match s with
  | EmptyString => EmptyString
  | String c s =>
      if code c <? 128 then String c (utf8 s)
      else String (chr (192 + code c / 64)) (String (chr (128 + code c mod 64)) (utf8 s))
  end.

(** The number of bytes of [s.encode()]. *)
Fixpoint utf8_len (s : string) : Z :=
  match s with
  | EmptyString => 0
  | String c s => (if code c <? 128 then 1 else 2) + utf8_len s
  end.

(** ** Lemmas *)

Lemma code_bounds c : 0 <= code c < 256.
Proof.
  unfold code. pose proof (N_ascii_bounded c). lia.
Qed.

Lemma chr_code c : chr (code c) = c.
Proof. unfold chr, code. rewrite N2Z.id. apply ascii_N_embedding. Qed.

Lemma code_chr n : 0 <= n < 256 → code (chr n) = n.
Proof. intros. unfold chr, code. rewrite N_ascii_embedding by lia. lia. Qed.

Lemma code_inj c d : code c = code d → c = d.
Proof. intros H. by rewrite <- (chr_code c), H, chr_code. Qed.

Lemma chr_eq n c : n = code c → chr n = c.
Proof. intros ->. apply chr_code. Qed.

Lemma str_app_nil_r s : s +:+ "" = s.
Proof. induction s as [|c s IH]; [done|]. simpl. by rewrite IH. Qed.

Lemma str_app_assoc s t u : (s +:+ t) +:+ u = s +:+ (t +:+ u).
Proof. induction s as [|c s IH]; [done|]. simpl. by rewrite IH. Qed.

Lemma str_length_app s t : String.length (s +:+ t) = (String.length s + String.length t)%nat.
Proof. induction s as [|c s IH]; [done|]. simpl. by rewrite IH. Qed.

Lemma str_app_inj_l s t u : s +:+ t = s +:+ u → t = u.
Proof. induction s as [|c s IH]; simpl; [done|]. intros [=]. auto. Qed.

Lemma startswith_iff p s : startswith p s = true ↔ ∃ t, s = p +:+ t.
Proof.
  revert s. induction p as [|a p IH]; intros s; simpl; [naive_solver|].
  destruct s as [|b s].
  - split; [done|]. intros [t [=]].
  - rewrite andb_true_iff, Ascii.eqb_eq, IH. split.
    + intros [-> [t ->]]. by exists t.
    + intros [t [=]]. subst. eauto.
Qed.

Lemma str_drop_app p t : str_drop (String.length p) (p +:+ t) = t.
Proof. induction p; simpl; auto. Qed.

Lemma removeprefix_app p t : removeprefix p (p +:+ t) = t.
Proof.
  unfold removeprefix. rewrite (proj2 (startswith_iff p (p +:+ t))) by eauto.
  apply str_drop_app.
Qed.

Lemma str_forall_app p s t : str_forall p (s +:+ t) = str_forall p s && str_forall p t.
Proof. induction s as [|c s IH]; simpl; [done|]. by rewrite IH, andb_assoc. Qed.

Lemma str_forall_impl (p q : ascii → bool) s :
  (∀ c, p c = true → q c = true) → str_forall p s = true → str_forall q s = true.
Proof.
  intros Hpq. induction s as [|c s IH]; [done|]. cbn [str_forall]. intros [Hc Hs]%andb_true_iff.
  by rewrite Hpq, IH.
Qed.

Lemma split_not_nil c s : split c s ≠ [].
Proof. destruct s as [|d s]; simpl; [done|]. destruct (Ascii.eqb c d); [done|]. by destruct (split c s). Qed.

(** Splitting and joining again with the separator gives the string back. *)
Lemma join_split c s : join (String c "") (split c s) = s.
Proof.
  induction s as [|d s IH]; [done|]. simpl.
  destruct (Ascii.eqb_spec c d) as [->|Hne].
  - pose proof (split_not_nil d s). destruct (split d s) as [|w ws] eqn:E; [done|].
    change (String d (join (String d "") (w :: ws)) = String d s). by rewrite IH.
  - destruct (split c s) as [|w ws] eqn:E; [by destruct (split_not_nil c s)|].
    rewrite <- IH. by destruct ws.
Qed.

(** A piece of [split c s] holds no separator. *)
Lemma split_no_sep c s w : w ∈ split c s → mem_char c w = false.
Proof.
  unfold mem_char, str_exists. revert w. induction s as [|d s IH]; intros w; simpl.
  { intros Hw. by apply list_elem_of_singleton in Hw as ->. }
  destruct (Ascii.eqb_spec c d) as [->|Hne].
  - intros [->|Hw]%elem_of_cons; [done|]. auto.
  - destruct (split c s) as [|v vs] eqn:E; [by destruct (split_not_nil c s)|].
    intros [->|Hw]%elem_of_cons; [|apply IH; set_solver].
    specialize (IH v ltac:(set_solver)). simpl.
    rewrite (proj2 (Ascii.eqb_neq c d) Hne). done.
Qed.

Lemma split_nosep c s : mem_char c s = false → split c s = [s].
Proof.
  unfold mem_char, str_exists. induction s as [|d s IH]; simpl; [done|].
  destruct (Ascii.eqb c d); [done|]. simpl. intros H. by rewrite (IH H).
Qed.

Lemma split_app_sep c s t : split c (s +:+ String c t) = split c s ++ split c t.
Proof.
  induction s as [|d s IH]; simpl.
  - by rewrite Ascii.eqb_refl.
  - destruct (Ascii.eqb c d); [by rewrite IH|]. rewrite IH.
    by destruct (split c s) eqn:E; [destruct (split_not_nil c s)|].
Qed.

(** Joining pieces without separators and splitting again gives the pieces back. *)
Lemma split_join c l :
  l ≠ [] → Forall (fun w => mem_char c w = false) l → split c (join (String c "") l) = l.
Proof.
  induction l as [|w l IH]; [done|]. intros _ HF. apply Forall_cons in HF as [Hw HF].
  destruct l as [|v l]; [by apply split_nosep|].
  change (join _ (w :: v :: l)) with (w +:+ String c "" +:+ join (String c "") (v :: l)).
  change (w +:+ String c "" +:+ join (String c "") (v :: l)) with (w +:+ String c (join (String c "") (v :: l))).
  rewrite split_app_sep, split_nosep, IH by done. done.
Qed.

Lemma partition_spec c s h f t :
  partition c s = (h, f, t) →
  mem_char c h = false ∧ s = (if f then h +:+ String c t else h) ∧ (f = false → t = "").
Proof.
  unfold mem_char, str_exists. revert h t. induction s as [|d s IH]; intros h t; simpl.
  { intros [= <- <- <-]. done. }
  destruct (Ascii.eqb_spec c d) as [->|Hne].
  { intros [= <- <- <-]. done. }
  destruct (partition c s) as [[h' f'] t'] eqn:E. intros [= <- <- <-].
  destruct (IH h' t' eq_refl) as (Hh & -> & Ht). simpl.
  rewrite (proj2 (Ascii.eqb_neq c d) Hne). split; [done|]. split; [|done]. by destruct f'.
Qed.

Lemma partition_app c h t :
  mem_char c h = false → partition c (h +:+ String c t) = (h, true, t).
Proof.
  unfold mem_char, str_exists. induction h as [|d h IH]; simpl.
  - by rewrite Ascii.eqb_refl.
  - destruct (Ascii.eqb c d); [done|]. simpl. intros H. by rewrite IH.
Qed.

Lemma partition_none c s : mem_char c s = false → partition c s = (s, false, "").
Proof.
  unfold mem_char, str_exists. induction s as [|d s IH]; [done|]. simpl.
  destruct (Ascii.eqb c d); [done|]. simpl. intros H. by rewrite IH.
Qed.

Lemma lower_char_idemp c : lower_char (lower_char c) = lower_char c.
Proof. destruct c as [[] [] [] [] [] [] [] []]; vm_compute; reflexivity. Qed.

Lemma lower_idemp s : lower (lower s) = lower s.
Proof. unfold lower. induction s as [|c s IH]; simpl; [done|]. by rewrite lower_char_idemp, IH. Qed.

Lemma dec_digits_app fuel n acc : dec_digits fuel n acc = dec_digits fuel n "" +:+ acc.
Proof.
  revert n acc. induction fuel as [|fuel IH]; intros n acc; simpl; [done|].
  destruct (n / 10 =? 0); [done|].
  rewrite (IH _ (String _ acc)), (IH _ (String _ "")). rewrite str_app_assoc. done.
Qed.

Lemma digits_val_app acc s t v :
  digits_val acc s = Some v → str_forall is_decimal s = true →
  digits_val acc (s +:+ t) = digits_val v t.
Proof.
  revert acc. induction s as [|c s IH]; intros acc; simpl.
  { by intros [= ->]. }
  intros H [Hc Hs]%andb_true_iff. rewrite Hc in H |- *. auto.
Qed.

Lemma is_decimal_chr k : 0 <= k < 10 → is_decimal (chr (48 + k)) = true.
Proof. intros. unfold is_decimal, in_range. rewrite code_chr by lia. lia. Qed.

Lemma dec_digits_spec fuel n :
  0 <= n → (Z.to_nat (Z.log2 n) < fuel)%nat →
  str_forall is_decimal (dec_digits fuel n "") = true ∧
  (∀ acc, ∃ k, 0 <= k ∧ digits_val acc (dec_digits fuel n "") = Some (acc * 10 ^ k + n)) ∧
  dec_digits fuel n "" ≠ "".
Proof.
  revert n. induction fuel as [|fuel IH]; intros n Hn Hf; [lia|].
  assert (0 <= n mod 10 < 10) by (apply Z.mod_pos_bound; lia).
  cbn [dec_digits]. destruct (Z.eqb_spec (n / 10) 0) as [Hz|Hz].
  - split_and!; [|intros acc; exists 1|done].
    + simpl. by rewrite is_decimal_chr.
    + split; [lia|]. simpl. rewrite is_decimal_chr by done. unfold digit_val. rewrite code_chr by lia.
      f_equal. pose proof (Z.div_mod n 10 ltac:(lia)). lia.
  - assert (Hdiv : 0 <= n / 10) by (apply Z.div_pos; lia).
    assert (Hlog : (Z.to_nat (Z.log2 (n / 10)) < fuel)%nat).
    { pose proof (Z.log2_nonneg (n / 10)). assert (Hl : Z.log2 (n / 10) < Z.log2 n); [|lia].
      pose proof (Z.mul_div_le n 10 ltac:(lia)). assert (n / 10 * 2 <= n) by lia.
      assert (Hm : Z.log2 (n / 10 * 2) <= Z.log2 n) by (apply Z.log2_le_mono; lia).
      rewrite (Z.mul_comm _ 2), Z.log2_double in Hm by lia. lia. }
    rewrite dec_digits_app.
    destruct (IH (n / 10) Hdiv Hlog) as (Hall & Hval & Hne). split_and!.
    + rewrite str_forall_app, Hall. simpl. by rewrite is_decimal_chr.
    + intros acc. destruct (Hval acc) as (k & Hk & Hv). exists (k + 1). split; [lia|].
      rewrite (digits_val_app _ _ _ _ Hv Hall). simpl. rewrite is_decimal_chr by done.
      unfold digit_val. rewrite code_chr by lia. f_equal.
      rewrite Z.pow_add_r by lia. pose proof (Z.div_mod n 10 ltac:(lia)). lia.
    + by destruct (dec_digits fuel (n / 10) "").
Qed.

Lemma nat_str_decimal n : 0 <= n → str_forall is_decimal (nat_str n) = true.
Proof. intros. unfold nat_str. apply dec_digits_spec; lia. Qed.

Lemma nat_str_nonempty n : 0 <= n → nat_str n ≠ "".
Proof. intros. unfold nat_str. apply dec_digits_spec; lia. Qed.

(** Printing and reading a number gives the number back. *)
Lemma unsigned_int_nat_str n : 0 <= n → unsigned_int (nat_str n) = Some n.
Proof.
  intros Hn. pose proof (nat_str_decimal n Hn) as Hd. pose proof (nat_str_nonempty n Hn) as Hne.
  destruct (dec_digits_spec (S (Z.to_nat (Z.log2 n))) n Hn ltac:(lia)) as (_ & Hv & _).
  destruct (Hv 0) as (k & _ & Hk). fold (nat_str n) in Hk.
  destruct (nat_str n) as [|c s]; [done|]. simpl in *.
  apply andb_true_iff in Hd as [Hc _]. rewrite Hc in *. done.
Qed.

Lemma decimal_not_space c : is_decimal c = true → is_space c = false.
Proof. unfold is_decimal, is_space, in_range. intros. pose proof (code_bounds c). lia. Qed.

Lemma rstrip_decimal s : str_forall is_decimal s = true → rstrip_by is_space s = s.
Proof.
  induction s as [|c s IH]; simpl; [done|]. intros [Hc Hs]%andb_true_iff.
  rewrite (IH Hs), (decimal_not_space c Hc). by destruct s.
Qed.

Lemma strip_decimal s : str_forall is_decimal s = true → strip s = s.
Proof.
  intros H. unfold strip, strip_by. destruct s as [|c s]; [done|].
  simpl lstrip_by. pose proof H as H'. simpl in H'. apply andb_true_iff in H' as [Hc _].
  rewrite (decimal_not_space c Hc). by apply rstrip_decimal.
Qed.

Lemma py_int_nat_str n : 0 <= n → py_int (nat_str n) = Some n.
Proof.
  intros Hn. unfold py_int. rewrite strip_decimal by (by apply nat_str_decimal).
  pose proof (unsigned_int_nat_str n Hn) as Hu. pose proof (nat_str_decimal n Hn) as Hd.
  destruct (nat_str n) as [|c s] eqn:E; [done|].
  simpl in Hd. apply andb_true_iff in Hd as [Hc _]. unfold is_decimal, in_range in Hc.
  destruct (Ascii.eqb_spec c "-"%char) as [->|]; [done|].
  destruct (Ascii.eqb_spec c "+"%char) as [->|]; done.
Qed.

Lemma nat_str_inj n m : 0 <= n → 0 <= m → nat_str n = nat_str m → n = m.
Proof.
  intros Hn Hm H. apply (f_equal unsigned_int) in H.
  rewrite !unsigned_int_nat_str in H by done. congruence.
Qed.

Lemma digits_val_nonneg acc s v : 0 <= acc → digits_val acc s = Some v → 0 <= v.
Proof.
  remember (String.length s) as n eqn:Hn. assert (Hle : (String.length s <= n)%nat) by lia. clear Hn.
  revert acc s Hle. induction n as [|n IH]; intros acc s Hle Hacc; (destruct s as [|c s]; simpl in *; [by intros [= <-]|]);
    [lia|].
  destruct (is_decimal c) eqn:Hc.
  - apply IH; [lia|]. unfold is_decimal, in_range, digit_val in *. lia.
  - destruct (Ascii.eqb c "_"); [|done]. destruct s as [|d s]; [done|]. simpl in Hle.
    destruct (is_decimal d) eqn:Hd; [|done]. apply IH; [lia|]. unfold is_decimal, in_range, digit_val in *. lia.
Qed.

Lemma unsigned_int_nonneg s v : unsigned_int s = Some v → 0 <= v.
Proof.
  destruct s as [|c s]; [done|]. simpl. destruct (is_decimal c) eqn:Hc; [|done].
  apply digits_val_nonneg. unfold is_decimal, in_range, digit_val in *. lia.
Qed.

Lemma splitlines_line w s :
  str_forall (fun c => negb (is_line_end c)) w = true → splitlines (w +:+ String lf s) = w :: splitlines s.
Proof.
  induction w as [|c w IH]; [intros _; by destruct s|]. cbn [str_forall]. intros [Hc Hw]%andb_true_iff.
  apply negb_true_iff in Hc. specialize (IH Hw). cbn [String.append splitlines]. rewrite Hc.
  destruct w as [|d w].
  - cbn [String.append] in *. change (is_line_end lf) with true. cbn iota. by rewrite IH.
  - cbn [String.append] in *. cbn [str_forall] in Hw. apply andb_true_iff in Hw as [Hd _]. apply negb_true_iff in Hd.
    rewrite Hd. by rewrite IH.
Qed.

Lemma str_rev_app_snoc s c acc : str_rev_app (s +:+ String c "") acc = String c (str_rev_app s acc).
Proof. revert acc. induction s as [|d s IH]; intros acc; [done|]. cbn. apply IH. Qed.

(** A text is empty or has a last character. *)
Lemma str_snoc_cases s : s = EmptyString ∨ ∃ u c, s = u +:+ String c EmptyString.
Proof.
  induction s as [|c s [->|(u & d & ->)]]; [by left|right..]; [by exists EmptyString, c|by exists (String c u), d].
Qed.
Lemma endswith_char c s : endswith (String c EmptyString) s = true → ∃ u, s = u +:+ String c EmptyString.
Proof.
  destruct (str_snoc_cases s) as [->|(u & d & ->)]; [done|]. unfold endswith, str_rev. rewrite str_rev_app_snoc. cbn.
  destruct (Ascii.eqb_spec c d); [subst; eauto|done].
Qed.
