(* ===== verification/Base64.v ===== *)
(** * Python's [base64.b64encode] and [base64.b64decode]

    Bytes are [string]s, one [ascii] per byte.  Decoding follows the lenient mode
    of [binascii.a2b_base64], the one [b64decode(s)] uses: characters outside the
    alphabet are skipped, a complete padding ends the input, and an incomplete
    quantum is an error ([binascii.Error], a ValueError). *)

From S2P Require Import Prelude PyStr.

Open Scope string_scope.
Open Scope list_scope.
Open Scope Z_scope.

Definition b64_char (i : Z) : ascii :=
  if i <? 26 then chr (65 + i)
  else if i <? 52 then chr (97 + (i - 26))
  else if i <? 62 then chr (48 + (i - 52))
  else if i =? 62 then "+"%char else "/"%char.

Definition b64_val (c : ascii) : option Z :=
  if is_upper_az c then Some (code c - 65)
  else if is_lower_az c then Some (code c - 97 + 26)
  else if is_decimal c then Some (code c - 48 + 52)
  else if Ascii.eqb c "+"%char then Some 62
  else if Ascii.eqb c "/"%char then Some 63
  else None.

Fixpoint b64encode (s : string) : string :=
  match s with
  | String a (String b (String c t)) =>
      String (b64_char (code a / 4))
        (String (b64_char (code a mod 4 * 16 + code b / 16))
           (String (b64_char (code b mod 16 * 4 + code c / 64))
              (String (b64_char (code c mod 64)) (b64encode t))))
  | String a (String b EmptyString) =>
      String (b64_char (code a / 4))
        (String (b64_char (code a mod 4 * 16 + code b / 16))
           (String (b64_char (code b mod 16 * 4)) "="))
  | String a EmptyString =>
      String (b64_char (code a / 4)) (String (b64_char (code a mod 4 * 16)) "==")
  | EmptyString => EmptyString
  end.

(** The state of the decoder: position in the quantum, the bits left over from
    the previous character, the padding characters in a row. *)
Fixpoint a2b (quad_pos left pads : Z) (s : string) : option string :=
  match s with
  | EmptyString => if quad_pos =? 0 then Some "" else None
  | String ch t =>
      if Ascii.eqb ch "="%char then
        if quad_pos <? 2 then a2b quad_pos left pads t
        else if 4 <=? quad_pos + (pads + 1) then Some ""
        else a2b quad_pos left (pads + 1) t
      else
        match b64_val ch with
        | None => a2b quad_pos left pads t
        | Some v =>
            if quad_pos =? 0 then a2b 1 v 0 t
            else if quad_pos =? 1 then String (chr (left * 4 + v / 16)) <$> a2b 2 (v mod 16) 0 t
            else if quad_pos =? 2 then String (chr (left * 16 + v / 4)) <$> a2b 3 (v mod 4) 0 t
            else String (chr (left * 64 + v)) <$> a2b 0 0 0 t
        end
  end.
(** A string argument must be ASCII, else ValueError. *)
Definition b64decode (s : string) : option string :=
  if str_forall (in_range 0 127) s then a2b 0 0 0 s else None.

(** ** Round trip *)

Lemma b64_char_val i : 0 <= i < 64 → b64_val (b64_char i) = Some i ∧ Ascii.eqb (b64_char i) "="%char = false.
Proof.
  intros Hi.
  assert (Hall : Forall (fun n => b64_val (b64_char (Z.of_nat n)) = Some (Z.of_nat n) ∧
                                  Ascii.eqb (b64_char (Z.of_nat n)) "="%char = false) (seq 0 64)).
  { repeat (constructor; [split; vm_compute; reflexivity|]). constructor. }
  rewrite Forall_forall in Hall. specialize (Hall (Z.to_nat i)).
  rewrite Z2Nat.id in Hall by lia. apply Hall. apply elem_of_seq. lia.
Qed.

Ltac b64_step :=
  match goal with
  | |- context [b64_val (b64_char ?i)] =>
      let H := fresh in
      assert (H : 0 <= i < 64) by (Z.to_euclidean_division_equations; lia);
      rewrite (proj1 (b64_char_val i H)), (proj2 (b64_char_val i H)); clear H
  end.

Ltac b64_simpl := cbn -[b64_char b64_val chr Z.mul Z.div Z.modulo Z.add b64encode].
Ltac b64_pads :=
  change (4 <=? 2 + (0 + 1)) with false; change (4 <=? 2 + (0 + 1 + 1)) with true;
  change (4 <=? 3 + (0 + 1)) with true; b64_simpl.
Ltac b64_byte := apply chr_eq; Z.to_euclidean_division_equations; lia.

(** String induction in steps of three characters, the quantum of the encoder. *)
Lemma string_ind3 (P : string → Prop) :
  P "" → (∀ a, P (String a "")) → (∀ a b, P (String a (String b ""))) →
  (∀ a b c t, P t → P (String a (String b (String c t)))) → ∀ s, P s.
Proof.
  intros H0 H1 H2 H3 s.
  assert (Hs : P s ∧ (∀ a, P (String a s)) ∧ (∀ a b, P (String a (String b s)))).
  { induction s as [|c s (Ha & Hb & Hc)]; [done|]. split_and!; auto. }
  apply Hs.
Qed.

(** What every output character satisfies holds of the encoded string. *)
Lemma b64encode_forall p s :
  (∀ i, 0 <= i < 64 → p (b64_char i) = true) → p "="%char = true → str_forall p (b64encode s) = true.
Proof.
  intros Hp Heq.
  induction s as [|a|a b|a b c t IH] using string_ind3;
    [done|pose proof (code_bounds a)|pose proof (code_bounds a); pose proof (code_bounds b)
    |pose proof (code_bounds a); pose proof (code_bounds b); pose proof (code_bounds c)];
    cbn [b64encode str_forall]; rewrite ?Heq, !Hp by (Z.to_euclidean_division_equations; lia); [done..|].
  rewrite IH. done.
Qed.

Lemma b64_char_forall p i :
  Forall (fun n => p (b64_char (Z.of_nat n)) = true) (seq 0 64) → 0 <= i < 64 → p (b64_char i) = true.
Proof.
  rewrite Forall_forall. intros Hall Hi. specialize (Hall (Z.to_nat i)).
  rewrite Z2Nat.id in Hall by lia. apply Hall. apply elem_of_seq. lia.
Qed.

Ltac b64_table p := intros i; apply (b64_char_forall p); repeat (constructor; [vm_compute; reflexivity|]); constructor.

Lemma b64encode_ascii s : str_forall (in_range 0 127) (b64encode s) = true.
Proof. apply b64encode_forall; [b64_table (in_range 0 127)|done]. Qed.

(** The alphabet and the padding do not contain the dollar sign. *)
Lemma b64encode_no_dollar s : mem_char "$"%char (b64encode s) = false.
Proof.
  unfold mem_char, str_exists. rewrite negb_false_iff.
  apply b64encode_forall; [b64_table (fun c => negb (Ascii.eqb "$"%char c))|done].
Qed.

Lemma b64_roundtrip s : b64decode (b64encode s) = Some s.
Proof.
  unfold b64decode. rewrite b64encode_ascii.
  induction s as [|a|a b|a b c t IH] using string_ind3;
    [done|pose proof (code_bounds a)|pose proof (code_bounds a); pose proof (code_bounds b)
    |pose proof (code_bounds a); pose proof (code_bounds b); pose proof (code_bounds c)];
    cbn [b64encode]; b64_simpl; repeat (b64_step; b64_simpl); b64_pads.
  - f_equal. f_equal. b64_byte.
  - f_equal. f_equal; [|f_equal]; b64_byte.
  - rewrite IH. b64_simpl. f_equal. f_equal; [|f_equal; [|f_equal]]; b64_byte.
Qed.
