(* ===== verification/Schema.v ===== *)
(** * The PostgreSQL schema of [ui/app/db.py]

    One record per table row and one record, [database], for the tables.  A table
    with a primary key is a finite map from the key to the other columns, so the
    key constraint holds by construction; [events], an append-only log read by
    descending id, is a list.  BIGINT columns are integers, nullable columns are
    options.  [*_seq] is the next value of an identity column.

    A transaction ([Database.tx]) is atomic: a definition that runs inside one
    returns the new tables, and a caller that sees an exception keeps the old
    ones. *)

From S2P Require Import Prelude PyStr.

Open Scope string_scope.
Open Scope list_scope.
Open Scope Z_scope.

Record user_row := UserRow {
  u_username : string;
  u_password_hash : string;
  u_created_at : Z;
  u_last_login : option Z;
  u_client_name : option string;
  u_client_serial : option string;
}.

Record web_session := WebSession {
  ws_user_id : Z;
  ws_created_at : Z;
  ws_expires_at : Z;
  ws_ip : option string;
  ws_user_agent : string;
}.

Record client_row := ClientRow { c_note : string; c_created_at : Z }.

Record hidden_cert := HiddenCert { h_name : option string; h_hidden_at : Z }.

Record vpn_session := VpnSession {
  v_client_name : string;
  v_cid : option Z;
  v_real_address : option string;
  v_vpn_ip : option string;
  v_username : option string;
  v_cipher : option string;
  v_connected_at : Z;
  v_last_seen : Z;
  v_disconnected_at : option Z;
  v_bytes_in : Z;
  v_bytes_out : Z;
  v_proto : option string;
  v_platform : option string;
  v_client_ver : option string;
  v_end_reason : option string;
  v_grp : option Z;
}.

Record relay_session := RelaySession {
  rs_grp : string;
  rs_client_name : string;
  rs_credential_id : string;
  rs_transport : string;
  rs_started_at : Z;
  rs_last_seen : Z;
  rs_sampled_at : Z;
  rs_active : Z;
  rs_accepted : Z;
  rs_denied : Z;
  rs_failed : Z;
  rs_bytes_up : Z;
  rs_bytes_down : Z;
  rs_uncounted : Z;
}.

(** A row of [traffic_minute], [traffic_hour] or [traffic_day]: the key is
    [(ts, client_name)], the value [(bytes_in, bytes_out)]. *)
Abbreviation traffic := (gmap (Z * string) (Z * Z)).

Record event_row := EventRow {
  e_ts : Z;
  e_kind : string;
  e_client_name : option string;
  e_actor : option string;
  e_detail : option string;
}.

Record archived_client := ArchivedClient { a_name : string; a_archived_at : Z }.

(** [rejections]: key [(day, client_name, reason, address)], value [(count, last_ts)]. *)
Abbreviation rejection_table := (gmap (Z * string * string * string) (Z * Z)).

Record share_token := ShareToken {
  st_client_name : string;
  st_created_at : Z;
  st_expires_at : Z;
  st_used_at : option Z;
  st_created_by : option string;
}.

Record database := Database {
  users : gmap Z user_row;
  users_seq : Z;
  web_sessions : gmap string web_session;
  settings : gmap string string;
  clients : gmap string client_row;
  hidden_certs : gmap string hidden_cert;
  vpn_sessions : gmap Z vpn_session;
  vpn_seq : Z;
  relay_sessions : gmap string relay_session;
  traffic_minute : traffic;
  traffic_hour : traffic;
  traffic_day : traffic;
  events : list event_row;
  archived_clients : gmap string archived_client;
  rejections : rejection_table;
  share_tokens : gmap string share_token;
}.

(** The tables right after [CREATE TABLE IF NOT EXISTS]. *)
Definition empty_db : database :=
  Database ∅ 1 ∅ ∅ ∅ ∅ ∅ 1 ∅ ∅ ∅ ∅ [] ∅ ∅ ∅.

(** ** Updates of one table *)

Definition upd_users (f : gmap Z user_row → gmap Z user_row) (d : database) : database :=
  Database (f (users d)) (users_seq d) (web_sessions d) (settings d) (clients d) (hidden_certs d)
    (vpn_sessions d) (vpn_seq d) (relay_sessions d) (traffic_minute d) (traffic_hour d) (traffic_day d)
    (events d) (archived_clients d) (rejections d) (share_tokens d).

Definition insert_user (r : user_row) (d : database) : database :=
  Database (<[users_seq d := r]> (users d)) (users_seq d + 1) (web_sessions d) (settings d) (clients d)
    (hidden_certs d) (vpn_sessions d) (vpn_seq d) (relay_sessions d) (traffic_minute d) (traffic_hour d)
    (traffic_day d) (events d) (archived_clients d) (rejections d) (share_tokens d).

Definition upd_web_sessions (f : gmap string web_session → gmap string web_session) (d : database) : database :=
  Database (users d) (users_seq d) (f (web_sessions d)) (settings d) (clients d) (hidden_certs d)
    (vpn_sessions d) (vpn_seq d) (relay_sessions d) (traffic_minute d) (traffic_hour d) (traffic_day d)
    (events d) (archived_clients d) (rejections d) (share_tokens d).

Definition upd_settings (f : gmap string string → gmap string string) (d : database) : database :=
  Database (users d) (users_seq d) (web_sessions d) (f (settings d)) (clients d) (hidden_certs d)
    (vpn_sessions d) (vpn_seq d) (relay_sessions d) (traffic_minute d) (traffic_hour d) (traffic_day d)
    (events d) (archived_clients d) (rejections d) (share_tokens d).

Definition upd_clients (f : gmap string client_row → gmap string client_row) (d : database) : database :=
  Database (users d) (users_seq d) (web_sessions d) (settings d) (f (clients d)) (hidden_certs d)
    (vpn_sessions d) (vpn_seq d) (relay_sessions d) (traffic_minute d) (traffic_hour d) (traffic_day d)
    (events d) (archived_clients d) (rejections d) (share_tokens d).

Definition upd_hidden (f : gmap string hidden_cert → gmap string hidden_cert) (d : database) : database :=
  Database (users d) (users_seq d) (web_sessions d) (settings d) (clients d) (f (hidden_certs d))
    (vpn_sessions d) (vpn_seq d) (relay_sessions d) (traffic_minute d) (traffic_hour d) (traffic_day d)
    (events d) (archived_clients d) (rejections d) (share_tokens d).

Definition upd_vpn (f : gmap Z vpn_session → gmap Z vpn_session) (d : database) : database :=
  Database (users d) (users_seq d) (web_sessions d) (settings d) (clients d) (hidden_certs d)
    (f (vpn_sessions d)) (vpn_seq d) (relay_sessions d) (traffic_minute d) (traffic_hour d) (traffic_day d)
    (events d) (archived_clients d) (rejections d) (share_tokens d).

Definition insert_vpn (r : vpn_session) (d : database) : database :=
  Database (users d) (users_seq d) (web_sessions d) (settings d) (clients d) (hidden_certs d)
    (<[vpn_seq d := r]> (vpn_sessions d)) (vpn_seq d + 1) (relay_sessions d) (traffic_minute d)
    (traffic_hour d) (traffic_day d) (events d) (archived_clients d) (rejections d) (share_tokens d).

Definition upd_relay (f : gmap string relay_session → gmap string relay_session) (d : database) : database :=
  Database (users d) (users_seq d) (web_sessions d) (settings d) (clients d) (hidden_certs d)
    (vpn_sessions d) (vpn_seq d) (f (relay_sessions d)) (traffic_minute d) (traffic_hour d) (traffic_day d)
    (events d) (archived_clients d) (rejections d) (share_tokens d).

Definition upd_traffic (fm fh fd : traffic → traffic) (d : database) : database :=
  Database (users d) (users_seq d) (web_sessions d) (settings d) (clients d) (hidden_certs d)
    (vpn_sessions d) (vpn_seq d) (relay_sessions d) (fm (traffic_minute d)) (fh (traffic_hour d))
    (fd (traffic_day d)) (events d) (archived_clients d) (rejections d) (share_tokens d).

Definition upd_events (f : list event_row → list event_row) (d : database) : database :=
  Database (users d) (users_seq d) (web_sessions d) (settings d) (clients d) (hidden_certs d)
    (vpn_sessions d) (vpn_seq d) (relay_sessions d) (traffic_minute d) (traffic_hour d) (traffic_day d)
    (f (events d)) (archived_clients d) (rejections d) (share_tokens d).

Definition upd_archived (f : gmap string archived_client → gmap string archived_client) (d : database) : database :=
  Database (users d) (users_seq d) (web_sessions d) (settings d) (clients d) (hidden_certs d)
    (vpn_sessions d) (vpn_seq d) (relay_sessions d) (traffic_minute d) (traffic_hour d) (traffic_day d)
    (events d) (f (archived_clients d)) (rejections d) (share_tokens d).

Definition upd_rejections (f : rejection_table → rejection_table) (d : database) : database :=
  Database (users d) (users_seq d) (web_sessions d) (settings d) (clients d) (hidden_certs d)
    (vpn_sessions d) (vpn_seq d) (relay_sessions d) (traffic_minute d) (traffic_hour d) (traffic_day d)
    (events d) (archived_clients d) (f (rejections d)) (share_tokens d).

Definition upd_share (f : gmap string share_token → gmap string share_token) (d : database) : database :=
  Database (users d) (users_seq d) (web_sessions d) (settings d) (clients d) (hidden_certs d)
    (vpn_sessions d) (vpn_seq d) (relay_sessions d) (traffic_minute d) (traffic_hour d) (traffic_day d)
    (events d) (archived_clients d) (rejections d) (f (share_tokens d)).

(** ** [Database.get_setting], [set_setting] and [add_event] *)

Definition get_setting (d : database) (key : string) : option string := settings d !! key.

Definition set_setting (key value : string) (d : database) : database :=
  upd_settings (<[key := value]>) d.

(** [now] is [int(time.time())]; the newest event is the last one. *)
Definition add_event (now : Z) (kind : string) (client_name actor detail : option string)
    (d : database) : database :=
  upd_events (fun l => l ++ [EventRow now kind client_name actor detail]) d.

(** ** Selecting one row by a condition

    [SELECT ... WHERE p LIMIT 1] for a condition that a unique column makes match
    at most one row. *)
Definition find_row {K A} `{Countable K} (p : A → bool) (m : gmap K A) : option (K * A) :=
  head (filter (fun kv => p kv.2 = true) (map_to_list m)).

Lemma find_row_Some {K A} `{Countable K} (p : A → bool) (m : gmap K A) k a :
  find_row p m = Some (k, a) → m !! k = Some a ∧ p a = true.
Proof.
  unfold find_row. intros Hh. apply head_Some_elem_of in Hh.
  apply list_elem_of_filter in Hh as [Hp Hin]. by apply elem_of_map_to_list in Hin.
Qed.

Lemma find_row_None {K A} `{Countable K} (p : A → bool) (m : gmap K A) :
  find_row p m = None ↔ ∀ k a, m !! k = Some a → p a = false.
Proof.
  unfold find_row. rewrite head_None. split.
  - intros Hf k a Hk. apply not_true_is_false. intros Hp.
    assert (Hin : (k, a) ∈ filter (fun kv : K * A => p kv.2 = true) (map_to_list m)).
    { apply list_elem_of_filter. split; [done|]. by apply elem_of_map_to_list. }
    rewrite Hf in Hin. by apply not_elem_of_nil in Hin.
  - intros Hall. apply elem_of_nil_inv. intros [k a] Hin.
    apply list_elem_of_filter in Hin as [Hp Hin]. apply elem_of_map_to_list in Hin.
    apply Hall in Hin. simpl in Hp. congruence.
Qed.
