(* ===== verification/Auth.v ===== *)
(** * Accounts, sessions and login throttling: [ui/app/auth.py]

    [hashlib.scrypt] and SHA-256 are parameters of the definitions that use them;
    random salts and tokens are arguments.  Clock readings are arguments too:
    [now] of the session functions is [int(time.time())] in seconds, [now] of the
    limiter is [time.monotonic()] in nanoseconds, so that fractions of a second
    are represented. *)

From S2P Require Import Prelude PyStr Base64 Schema.

Open Scope string_scope.
Open Scope list_scope.
Open Scope Z_scope.

(** ** Password hashes *)

Definition SCRYPT_N : Z := 2 ^ 15.
Definition SCRYPT_R : Z := 8.
Definition SCRYPT_P : Z := 3.

(** [scrypt password salt n r p dklen] is [hashlib.scrypt]; [None] is the
    ValueError it raises for parameters it does not accept. *)
Abbreviation scrypt_fn := (string → string → Z → Z → Z → Z → option string).

Definition hash_password (scrypt : scrypt_fn) (salt password : string) : result string :=
  digest ← of_option ValueError (scrypt password salt SCRYPT_N SCRYPT_R SCRYPT_P 32);
  Ok (join "$" ["scrypt"; str_of_int SCRYPT_N; str_of_int SCRYPT_R; str_of_int SCRYPT_P;
                b64encode salt; b64encode digest]).

(** Every ValueError of the body (a wrong number of fields, bad base64, a
    parameter that is not a number, parameters scrypt refuses) returns False. *)
Definition verify_password (scrypt : scrypt_fn) (password stored : string) : bool :=
  match split "$"%char stored with
  | [algo; n; r; p; salt_b64; digest_b64] =>
      if negb (String.eqb algo "scrypt") then false
      else
        match b64decode salt_b64, b64decode digest_b64, py_int n, py_int r, py_int p with
        | Some salt, Some expected, Some n, Some r, Some p =>
            match scrypt password salt n r p (strlen expected) with
            | Some digest => String.eqb digest expected
            | None => false
            end
        | _, _, _, _, _ => false
        end
  | _ => false
  end.

Definition needs_rehash (stored : string) : bool :=
  negb (bool_decide (take 3 (drop 1 (split "$"%char stored))
                     = [str_of_int SCRYPT_N; str_of_int SCRYPT_R; str_of_int SCRYPT_P])).

(** ** Cookie sessions *)

Inductive role := Admin | Client.

Record session_user := SessionUser {
  su_id : Z;
  su_username : string;
  su_client_name : option string;
  su_client_serial : option string;
  su_role : role;
}.

(** [sha] is the hexadecimal SHA-256 digest, [token_hash] of the source. *)
Definition create_session (sha : string → string) (token : string) (now : Z) (user_id ttl : Z)
    (ip user_agent : option string) (d : database) : database :=
  upd_web_sessions
    (<[sha token := WebSession user_id now (now + ttl) ip (str_take 200 (default "" user_agent))]>) d.

Definition get_session_user (sha : string → string) (now : Z) (token : option string) (ttl : Z)
    (extend : bool) (d : database) : database * option session_user :=
  if negb (truthy token) then (d, None)
  else
    let h := sha (default "" token) in
    match web_sessions d !! h with
    | None => (d, None)
    | Some s =>
        match users d !! ws_user_id s with
        | None => (d, None)                    (* the JOIN finds no user *)
        | Some u =>
            if ws_expires_at s <? now then (d, None)
            else
              let d' :=
                if extend && (ws_expires_at s - now <? ttl / 2)
                then upd_web_sessions
                       (<[h := WebSession (ws_user_id s) (ws_created_at s) (now + ttl) (ws_ip s) (ws_user_agent s)]>) d
                else d in
              (d', Some (SessionUser (ws_user_id s) (u_username u) (u_client_name u) (u_client_serial u)
                                     (match u_client_name u with Some _ => Client | None => Admin end)))
        end
    end.

Definition delete_session (sha : string → string) (token : option string) (d : database) : database :=
  if truthy token then upd_web_sessions (delete (sha (default "" token))) d else d.

Definition delete_user_sessions (sha : string → string) (user_id : Z) (keep_token : option string)
    (d : database) : database :=
  if truthy keep_token
  then upd_web_sessions
         (filter (fun kv => ¬ (ws_user_id kv.2 = user_id ∧ kv.1 ≠ sha (default "" keep_token)))) d
  else upd_web_sessions (filter (fun kv => ws_user_id kv.2 ≠ user_id)) d.

(** ** Login throttling

    [_state] is a dict in insertion order: key, (failures, blocked until). *)

Abbreviation limiter_state := (list (string * (Z * Z))).

Record limiter := Limiter { threshold : Z; max_delay : Z; max_keys : nat; forget : Z }.

(** [LoginLimiter()] with the defaults of [__init__]. *)
Definition default_limiter : limiter := Limiter 5 300 5000 900.

Definition ns : Z := 1000000000.

Fixpoint dict_get (k : string) (l : limiter_state) : option (Z * Z) :=
  match l with
  | [] => None
  | (k', v) :: l => if String.eqb k k' then Some v else dict_get k l
  end.
Definition dict_del (k : string) (l : limiter_state) : limiter_state :=
  filter (fun p => String.eqb k p.1 = false) l.

Definition entry_of (k : string) (l : limiter_state) : Z * Z := default (0, 0) (dict_get k l).

(** [wait], before it is compared with 0: the maximum over the keys. *)
Fixpoint max_wait (now : Z) (st : limiter_state) (limits : list (string * Z)) (acc : Z) : Z :=
  match limits with
  | [] => acc
  | (k, _) :: limits => max_wait now st limits (Z.max acc ((entry_of k st).2 - now))
  end.

Definition backoff (L : limiter) (limit failures : Z) : Z :=
  if limit <=? failures then Z.min (max_delay L) (2 ^ (failures - limit + 1)) else 0.

(** One turn of the loop over [limits.items()]: pop, count, append. *)
Definition count_attempt (L : limiter) (now : Z) (st : limiter_state) (kl : string * Z) : limiter_state :=
  let '(k, limit) := kl in
  let '(failures, until) := entry_of k st in
  let failures := (if forget L * ns <? now - until then 0 else failures) + 1 in
  dict_del k st ++ [(k, (failures, now + backoff L limit failures * ns))].

(** The loop that drops the oldest entries beyond [max_keys]. *)
Definition evict (L : limiter) (st : limiter_state) : limiter_state :=
  drop (length st - max_keys L)%nat st.

(** [attempt]; [limits] has at least one key ([max] of nothing is a ValueError). *)
Definition attempt (L : limiter) (st : limiter_state) (limits : list (string * Z)) (now : Z)
    : result (limiter_state * Z) :=
  match limits with
  | [] => Raise ValueError
  | (k, _) :: rest =>
      let wait := max_wait now st rest ((entry_of k st).2 - now) in
      if 0 <? wait then Ok (st, wait / ns + 1)
      else Ok (evict L (foldl (count_attempt L now) st limits), 0)
  end.

Definition success (st : limiter_state) (key : string) : limiter_state := dict_del key st.

(** ** Password hashes: theorems *)

Lemma str_no_char_decimal c s :
  is_decimal c = false → str_forall is_decimal s = true → mem_char c s = false.
Proof.
  intros Hc. unfold mem_char, str_exists. rewrite negb_false_iff.
  induction s as [|d s IH]; simpl; [done|]. intros [Hd Hs]%andb_true_iff.
  rewrite (IH Hs), andb_true_r, negb_true_iff. apply Ascii.eqb_neq. intros ->. congruence.
Qed.

Lemma split_hash salt digest :
  split "$"%char (join "$" ["scrypt"; str_of_int SCRYPT_N; str_of_int SCRYPT_R; str_of_int SCRYPT_P;
                            b64encode salt; b64encode digest])
  = ["scrypt"; str_of_int SCRYPT_N; str_of_int SCRYPT_R; str_of_int SCRYPT_P;
     b64encode salt; b64encode digest].
Proof.
  apply split_join; [done|].
  repeat (constructor; [first [vm_compute; reflexivity | apply b64encode_no_dollar]|]). constructor.
Qed.

(** What a stored hash accepts. *)
Lemma verify_stored (scrypt : scrypt_fn) (salt password stored : string)
    (Hlen : ∀ pw s n r p k d, scrypt pw s n r p k = Some d → strlen d = k)
    (Hhash : hash_password scrypt salt password = Ok stored) other :
  verify_password scrypt other stored = true ↔
  scrypt other salt SCRYPT_N SCRYPT_R SCRYPT_P 32 = scrypt password salt SCRYPT_N SCRYPT_R SCRYPT_P 32.
Proof.
  unfold hash_password in Hhash. destruct (scrypt password salt _ _ _ _) as [digest|] eqn:E; [|done].
  unfold of_option, mbind, result_bind in Hhash. cbn beta iota in Hhash.
  apply Ok_inj in Hhash as <-. unfold verify_password. rewrite split_hash, !b64_roundtrip.
  change (py_int (str_of_int SCRYPT_N)) with (Some SCRYPT_N).
  change (py_int (str_of_int SCRYPT_R)) with (Some SCRYPT_R).
  change (py_int (str_of_int SCRYPT_P)) with (Some SCRYPT_P).
  rewrite (Hlen _ _ _ _ _ _ _ E). change (negb (String.eqb "scrypt" "scrypt")) with false. cbn iota.
  destruct (scrypt other _ _ _ _ _) as [d|]; [|done]. rewrite String.eqb_eq. split; congruence.
Qed.

(** A stored hash verifies exactly the passwords whose scrypt digest equals the one it was made
    from: the password itself always verifies, any other one only on a scrypt collision; and a fresh
    hash is never due for a re-hash. [Hlen] is the documented length of the digest ([dklen] bytes). *)
Theorem verify_password_hash (scrypt : scrypt_fn) (salt password stored : string)
    (Hlen : ∀ pw s n r p k d, scrypt pw s n r p k = Some d → strlen d = k)
    (Hhash : hash_password scrypt salt password = Ok stored) :
  verify_password scrypt password stored = true ∧
  (∀ other, verify_password scrypt other stored = true ↔
            scrypt other salt SCRYPT_N SCRYPT_R SCRYPT_P 32 = scrypt password salt SCRYPT_N SCRYPT_R SCRYPT_P 32) ∧
  needs_rehash stored = false.
Proof.
  pose proof (verify_stored scrypt salt password stored Hlen Hhash) as Hv.
  unfold hash_password in Hhash. destruct (scrypt password salt _ _ _ _) as [digest|] eqn:E; [|done].
  apply Ok_inj in Hhash as <-. split_and!.
  - by apply Hv.
  - intros other. apply Hv.
  - unfold needs_rehash. rewrite split_hash. vm_compute. reflexivity.
Qed.

(** A stand-in for scrypt with the right output length, for the witness. *)
Fixpoint str_repeat (c : ascii) (n : nat) : string :=
  match n with O => "" | S n => String c (str_repeat c n) end.
Definition toy_scrypt : scrypt_fn := fun pw _ _ _ _ k =>
  if 0 <=? k then Some (str_repeat (if String.eqb pw "hunter22" then "a"%char else "b"%char) (Z.to_nat k))
  else None.

Lemma verify_password_hash_witness :
  ∃ stored, hash_password toy_scrypt "0123456789abcdef" "hunter22" = Ok stored ∧
            verify_password toy_scrypt "hunter22" stored = true ∧
            verify_password toy_scrypt "guess" stored ≠ true.
Proof.
  assert (Hlen : ∀ pw s n r p k d, toy_scrypt pw s n r p k = Some d → strlen d = k).
  { intros pw s n r p k d. unfold toy_scrypt. destruct (Z.leb_spec 0 k); [|done]. intros [= <-].
    unfold strlen. enough (∀ c m, String.length (str_repeat c m) = m) as -> by lia.
    intros c m. induction m; simpl; auto. }
  eexists. split; [reflexivity|].
  destruct (verify_password_hash toy_scrypt "0123456789abcdef" "hunter22" _ Hlen eq_refl) as (H1 & H2 & _).
  split; [exact H1|]. intros H. apply H2 in H. vm_compute in H. discriminate H.
Defined.

(** ** Cookie sessions: theorems *)

Inductive session_op :=
| OpCreate (token : string) (user_id : Z) (ip user_agent : option string)
| OpGet (token : option string) (extend : bool)
| OpDelete (token : option string)
| OpDeleteUser (user_id : Z) (keep : option string).

Definition session_apply (sha : string → string) (ttl now : Z) (op : session_op) (d : database) : database :=
  match op with
  | OpCreate token user_id ip ua => create_session sha token now user_id ttl ip ua d
  | OpGet token extend => (get_session_user sha now token ttl extend d).1
  | OpDelete token => delete_session sha token d
  | OpDeleteUser user_id keep => delete_user_sessions sha user_id keep d
  end.

(** Databases reachable by session operations at non-decreasing times; the index
    is the time of the latest one. *)
Inductive session_reach (sha : string → string) (ttl : Z) : Z → database → Prop :=
| session_start now d : web_sessions d = ∅ → session_reach sha ttl now d
| session_step now now' op d :
    session_reach sha ttl now d → now <= now' →
    session_reach sha ttl now' (session_apply sha ttl now' op d).

Definition sessions_within (ttl now : Z) (d : database) : Prop :=
  map_Forall (fun _ s => ws_expires_at s <= now + ttl) (web_sessions d).

Lemma session_apply_within sha ttl now now' op d :
  0 <= ttl → now <= now' → sessions_within ttl now d →
  sessions_within ttl now' (session_apply sha ttl now' op d).
Proof.
  intros Httl Hnow Hd.
  assert (Hd' : sessions_within ttl now' d).
  { eapply map_Forall_impl; [exact Hd|]. simpl. intros. lia. }
  unfold sessions_within in *. destruct op as [token uid ip ua|token extend|token|uid keep]; simpl.
  - apply map_Forall_insert_2; [simpl; lia|done].
  - unfold get_session_user. destruct (negb _); [done|].
    destruct (web_sessions d !! _) as [s|]; [|done].
    destruct (users d !! _) as [u|]; [|done].
    destruct (_ <? now'); [done|]. destruct (_ && _); [|done]. simpl.
    apply map_Forall_insert_2; [simpl; lia|done].
  - unfold delete_session. destruct (truthy token); [|done]. simpl. by apply map_Forall_delete.
  - unfold delete_user_sessions. destruct (truthy keep); simpl; by apply map_Forall_filter_keep.
Qed.

Lemma session_reach_within sha ttl now d :
  0 <= ttl → session_reach sha ttl now d → sessions_within ttl now d.
Proof.
  intros Httl. induction 1 as [now d He|now now' op d _ IH Hle].
  - unfold sessions_within. rewrite He. apply map_Forall_empty.
  - by eapply session_apply_within.
Qed.

(** Whatever was done with the sessions up to time [now], a session cookie that is not used for
    longer than the session lifetime is refused: the sliding expiry never reaches beyond [ttl] after
    the last operation. *)
Theorem session_idle_timeout (sha : string → string) (ttl now later : Z) (d : database)
    (token : option string) (extend : bool)
    (Httl : 0 <= ttl) (Hreach : session_reach sha ttl now d) (Hidle : now + ttl < later) :
  get_session_user sha later token ttl extend d = (d, None).
Proof.
  pose proof (session_reach_within sha ttl now d Httl Hreach) as Hw.
  unfold get_session_user. destruct (negb _); [done|].
  destruct (web_sessions d !! _) as [s|] eqn:Es; [|done].
  destruct (users d !! _) as [u|]; [|done].
  apply Hw in Es. destruct (Z.ltb_spec (ws_expires_at s) later); [done|lia].
Qed.

(** A database with one administrator, for the witnesses. *)
Definition one_admin : database :=
  insert_user (UserRow "admin" "" 0 None None None) empty_db.

Lemma session_idle_timeout_witness :
  let d := create_session (fun t => t) "tok" 100 1 43200 None None one_admin in
  session_reach (fun t => t) 43200 100 d ∧
  get_session_user (fun t => t) 43301 (Some "tok") 43200 true d = (d, None).
Proof.
  intros d. assert (Hr : session_reach (fun t => t) 43200 100 d).
  { apply (session_step _ _ 100 100 (OpCreate "tok" 1 None None)); [|lia]. by apply session_start. }
  split; [exact Hr|].
  apply (session_idle_timeout (fun t => t) 43200 100 43301 d (Some "tok") true); [lia|exact Hr|lia].
Defined.

(** A session that is accepted (with the sliding expiry on) is accepted again, for the same user
    and role, at every later time within half of the session lifetime. *)
Theorem session_sliding_expiry (sha : string → string) (ttl now later : Z) (d d' : database)
    (token : option string) (u : session_user)
    (Httl : 0 <= ttl) (Hget : get_session_user sha now token ttl true d = (d', Some u))
    (Hlater : now <= later <= now + ttl / 2) :
  (get_session_user sha later token ttl true d').2 = Some u.
Proof.
  unfold get_session_user in *. destruct (negb _); [done|].
  destruct (web_sessions d !! _) as [s|] eqn:Es; [|done].
  destruct (users d !! _) as [r|] eqn:Er; [|done].
  assert (ttl / 2 <= ttl) by (Z.to_euclidean_division_equations; lia).
  destruct (Z.ltb_spec (ws_expires_at s) now); [done|]. simpl in Hget.
  destruct (Z.ltb_spec (ws_expires_at s - now) (ttl / 2)); injection Hget as <- <-; simpl.
  - rewrite lookup_insert_eq. simpl. rewrite Er. destruct (Z.ltb_spec (now + ttl) later); [lia|done].
  - rewrite Es, Er. destruct (Z.ltb_spec (ws_expires_at s) later); [lia|done].
Qed.

Lemma session_sliding_expiry_witness :
  let d := create_session (fun t => t) "tok" 100 1 43200 None None one_admin in
  let d' := (get_session_user (fun t => t) 40000 (Some "tok") 43200 true d).1 in
  (get_session_user (fun t => t) 61600 (Some "tok") 43200 true d').2
  = Some (SessionUser 1 "admin" None None Admin).
Proof.
  intros d d'.
  apply (session_sliding_expiry (fun t => t) 43200 40000 61600 d d' (Some "tok")
           (SessionUser 1 "admin" None None Admin)); [lia|vm_compute; reflexivity|].
  change (43200 / 2) with 21600. lia.
Defined.

(** [delete_user_sessions], the end of every password change, leaves the user no session but the
    one of the kept token, and touches nobody else's. *)
Theorem delete_user_sessions_spec (sha : string → string) (user_id : Z) (keep : option string) (d : database)
    (h : string) (s : web_session) :
  web_sessions (delete_user_sessions sha user_id keep d) !! h = Some s ↔
  web_sessions d !! h = Some s ∧
  (ws_user_id s = user_id → truthy keep = true ∧ h = sha (default "" keep)).
Proof.
  unfold delete_user_sessions. destruct (truthy keep); simpl; rewrite map_lookup_filter_Some; simpl.
  - destruct (decide (h = sha (default "" keep))); naive_solver.
  - naive_solver.
Qed.

(** ** Login throttling: theorems *)

Lemma dict_get_app k l l' :
  dict_get k (l ++ l') = match dict_get k l with Some v => Some v | None => dict_get k l' end.
Proof. induction l as [|[k' v] l IH]; simpl; [done|]. by destruct (String.eqb k k'). Qed.

Lemma dict_get_None k l : dict_get k l = None ↔ k ∉ l.*1.
Proof.
  induction l as [|[k' v] l IH]; simpl; [split; [intros; apply not_elem_of_nil|done]|].
  destruct (String.eqb_spec k k') as [->|Hne]; [set_solver|]. rewrite IH. set_solver.
Qed.

Lemma dict_get_filter_ne (P : string * (Z * Z) → Prop) `{∀ x, Decision (P x)} k l :
  (∀ v, P (k, v)) → dict_get k (filter P l) = dict_get k l.
Proof.
  intros HP. induction l as [|[k' v] l IH]; [done|]. rewrite filter_cons. simpl.
  destruct (String.eqb_spec k k') as [->|Hne].
  - rewrite decide_True by done. simpl. by rewrite String.eqb_refl.
  - case_decide; [|done]. simpl. by rewrite (proj2 (String.eqb_neq k k') Hne).
Qed.

Lemma dict_get_del_ne k k' l : k ≠ k' → dict_get k (dict_del k' l) = dict_get k l.
Proof. intros Hne. apply dict_get_filter_ne. intros v. simpl. by apply String.eqb_neq. Qed.

(** The entry one turn of the loop appends for a key. *)
Definition new_entry (L : limiter) (now : Z) (st : limiter_state) (kl : string * Z) : string * (Z * Z) :=
  let '(failures, until) := entry_of kl.1 st in
  let failures := (if forget L * ns <? now - until then 0 else failures) + 1 in
  (kl.1, (failures, now + backoff L kl.2 failures * ns)).

Lemma count_attempt_eq L now st kl :
  count_attempt L now st kl = dict_del kl.1 st ++ [new_entry L now st kl].
Proof. destruct kl as [k limit]. unfold count_attempt, new_entry. simpl. by destruct (entry_of k st). Qed.

Lemma new_entry_key L now st kl : (new_entry L now st kl).1 = kl.1.
Proof. unfold new_entry. by destruct (entry_of kl.1 st). Qed.

Lemma new_entry_other L now st k e kl :
  kl.1 ≠ k → new_entry L now (dict_del k st ++ [(k, e)]) kl = new_entry L now st kl.
Proof.
  intros Hne. unfold new_entry, entry_of. rewrite dict_get_app, dict_get_del_ne by done.
  simpl. rewrite (proj2 (String.eqb_neq _ _) Hne). by destruct (dict_get kl.1 st).
Qed.

(** The loop of [attempt]: the keys of [limits] move to the end of the dict, each
    with its new entry; the other entries keep their order. *)
Lemma count_attempts L now st limits :
  NoDup limits.*1 →
  foldl (count_attempt L now) st limits =
  filter (fun p => p.1 ∉ limits.*1) st ++ (new_entry L now st <$> limits).
Proof.
  revert st. induction limits as [|kl limits IH]; intros st Hnd; simpl.
  { rewrite app_nil_r, filter_all_id; [done|]. intros p _. apply not_elem_of_nil. }
  apply NoDup_cons in Hnd as [Hk Hnd]. rewrite count_attempt_eq, IH by done.
  rewrite filter_app, <- app_assoc. f_equal.
  - unfold dict_del. rewrite list_filter_filter. apply list_filter_iff. intros p.
    rewrite String.eqb_neq. set_solver.
  - rewrite filter_cons, decide_True by (rewrite new_entry_key; done).
    rewrite filter_nil. simpl. f_equal. apply list_fmap_ext. intros i kl' Hi.
    destruct (new_entry L now st kl) as [k e] eqn:Ene.
    pose proof (new_entry_key L now st kl) as Hkey. rewrite Ene in Hkey. simpl in Hkey. subst k.
    apply new_entry_other. intros Heq. apply Hk. rewrite <- Heq.
    apply list_elem_of_fmap_2. by eapply list_elem_of_lookup_2.
Qed.

Lemma dict_get_In k v l : NoDup l.*1 → (k, v) ∈ l → dict_get k l = Some v.
Proof.
  induction l as [|[k' v'] l IH]; intros Hnd Hin; [by apply not_elem_of_nil in Hin|].
  simpl in *. apply NoDup_cons in Hnd as [Hk Hnd].
  apply elem_of_cons in Hin as [[= -> ->]|Hin]; [by rewrite String.eqb_refl|].
  destruct (String.eqb_spec k k') as [->|]; [|auto].
  destruct Hk. change k' with (k', v).1. by apply list_elem_of_fmap_2.
Qed.

Lemma new_entries_keys L now st limits : (new_entry L now st <$> limits).*1 = limits.*1.
Proof. rewrite <- list_fmap_compose. apply list_fmap_ext. intros. apply new_entry_key. Qed.

Lemma entry_after L now st limits k lim :
  NoDup limits.*1 → (length limits <= max_keys L)%nat → (k, lim) ∈ limits →
  dict_get k (evict L (foldl (count_attempt L now) st limits)) = Some (new_entry L now st (k, lim)).2.
Proof.
  intros Hnd Hlen Hin. rewrite count_attempts by done. unfold evict.
  rewrite drop_app_le by (rewrite length_app, length_fmap; lia).
  rewrite dict_get_app.
  replace (dict_get k (drop _ _)) with (@None (Z * Z)).
  - apply dict_get_In; [by rewrite new_entries_keys|].
    apply list_elem_of_fmap_2' with (x := (k, lim)); [done|].
    pose proof (new_entry_key L now st (k, lim)) as Hk.
    destruct (new_entry L now st (k, lim)) as [k' e]. simpl in *. by subst.
  - symmetry. apply dict_get_None. intros Hk.
    apply list_elem_of_fmap in Hk as (p & Heq & Hp%elem_of_drop_1).
    apply list_elem_of_filter in Hp as [Hp _]. apply Hp. rewrite <- Heq.
    change k with (k, lim).1. by apply list_elem_of_fmap_2.
Qed.

Lemma max_wait_spec now st limits acc b :
  max_wait now st limits acc <= b ↔ acc <= b ∧ Forall (fun kl => (entry_of kl.1 st).2 - now <= b) limits.
Proof.
  revert acc. induction limits as [|[k lim] limits IH]; intros acc; simpl.
  - split; [auto|tauto].
  - rewrite IH, Forall_cons. simpl. rewrite Z.max_lub_iff. tauto.
Qed.

(** [attempt] in one equation: it lets an attempt pass exactly when no key of
    [limits] is blocked. *)
Lemma attempt_cases L st limits now :
  limits ≠ [] →
  (attempt L st limits now = Ok (evict L (foldl (count_attempt L now) st limits), 0) ∧
   Forall (fun kl => (entry_of kl.1 st).2 <= now) limits) ∨
  (∃ w, attempt L st limits now = Ok (st, w) ∧ 0 < w ∧
        Exists (fun kl => now < (entry_of kl.1 st).2) limits ∧
        ∀ b, (Forall (fun kl => (entry_of kl.1 st).2 - now <= b) limits → w <= b / ns + 1) ∧
             (b = w * ns → Forall (fun kl => (entry_of kl.1 st).2 - now <= b) limits)).
Proof.
  destruct limits as [|[k lim] rest]; [done|]. intros _. unfold attempt.
  set (wait := max_wait now st rest _).
  assert (Hw : ∀ b, wait <= b ↔ Forall (fun kl => (entry_of kl.1 st).2 - now <= b) ((k, lim) :: rest)).
  { intros b. unfold wait. rewrite max_wait_spec, Forall_cons. done. }
  destruct (Z.ltb_spec 0 wait) as [Hpos|Hneg].
  - right. exists (wait / ns + 1). split; [done|].
    assert (0 <= wait / ns) by (apply Z.div_pos; unfold ns; lia). split; [lia|]. split.
    + apply (Exists_impl (not ∘ (fun kl => (entry_of kl.1 st).2 <= now))); [|simpl; intros; lia].
      apply not_Forall_Exists; [intros; apply _|]. intros HF.
      assert (wait <= 0); [|lia]. apply Hw. eapply Forall_impl; [exact HF|]. simpl. intros. lia.
    + intros b. split.
      * intros HF%Hw. assert (wait / ns <= b / ns); [|lia]. apply Z.div_le_mono; [unfold ns; lia|done].
      * intros ->. apply Hw. unfold ns. Z.to_euclidean_division_equations; lia.
  - left. split; [done|]. apply Hw in Hneg. eapply Forall_impl; [exact Hneg|]. simpl. intros. lia.
Qed.

(** Limiter states reachable by attempts and successes at non-decreasing times
    ([time.monotonic()] is not negative).
    The limits of one call are a dict: its keys are distinct. *)
Inductive limiter_reach (L : limiter) : Z → limiter_state → Prop :=
| limiter_start now : 0 <= now → limiter_reach L now []
| limiter_attempt now now' st limits st' w :
    limiter_reach L now st → now <= now' → NoDup limits.*1 →
    attempt L st limits now' = Ok (st', w) → limiter_reach L now' st'
| limiter_success now now' st key :
    limiter_reach L now st → now <= now' → limiter_reach L now' (success st key).

(** What holds of every entry: at least one failure counted, and blocked for at
    most [max_delay] seconds from now. *)
Definition entry_ok (L : limiter) (now : Z) (p : string * (Z * Z)) : Prop :=
  1 <= p.2.1 ∧ p.2.2 <= now + max_delay L * ns.

Definition limiter_ok (L : limiter) (now : Z) (st : limiter_state) : Prop :=
  NoDup st.*1 ∧ (length st <= max_keys L)%nat ∧ Forall (entry_ok L now) st.

Lemma backoff_bounds L limit failures :
  0 <= max_delay L → 0 <= backoff L limit failures <= max_delay L.
Proof.
  intros H. unfold backoff. destruct (Z.leb_spec limit failures); [|lia].
  pose proof (Z.pow_nonneg 2 (failures - limit + 1)). lia.
Qed.

Lemma entry_ok_later L now now' p : now <= now' → entry_ok L now p → entry_ok L now' p.
Proof. unfold entry_ok. lia. Qed.

Lemma NoDup_fst_drop n (l : limiter_state) : NoDup l.*1 → NoDup (drop n l).*1.
Proof. intros H. rewrite <- (take_drop n l), fmap_app in H. apply NoDup_app in H. tauto. Qed.

Lemma entry_of_nonneg L now st k : Forall (entry_ok L now) st → 0 <= (entry_of k st).1.
Proof.
  intros HF. unfold entry_of. induction HF as [|[k' v] st [Hv _] HF IH]; simpl; [lia|].
  destruct (String.eqb k k'); [simpl in *; lia|done].
Qed.

Lemma new_entry_ok L now st kl :
  0 <= max_delay L → 0 <= (entry_of kl.1 st).1 → entry_ok L now (new_entry L now st kl).
Proof.
  intros Hd Hf. unfold new_entry, entry_ok. destruct (entry_of kl.1 st) as [f u]. simpl in *.
  set (f' := _ + 1). assert (1 <= f') by (unfold f'; destruct (_ <? _); lia).
  pose proof (backoff_bounds L kl.2 f' Hd). unfold ns. lia.
Qed.

Lemma limiter_reach_ok L now st :
  0 <= max_delay L → limiter_reach L now st → limiter_ok L now st.
Proof.
  intros Hd. induction 1 as [now _|now now' st limits st' w _ (Hnd & Hlen & HF) Hle Hlim Hatt
                            |now now' st key _ (Hnd & Hlen & HF) Hle].
  - split_and!; simpl; [constructor|lia|constructor].
  - assert (HF' : Forall (entry_ok L now') st).
    { eapply Forall_impl; [exact HF|]. intros. by eapply entry_ok_later. }
    assert (Hne : limits ≠ []) by (by intros ->).
    destruct (attempt_cases L st limits now' Hne) as [[Heq _]|(w' & Heq & _)];
      rewrite Heq in Hatt; injection Hatt as <- <-; [|done].
    unfold limiter_ok, evict. rewrite count_attempts by done. split_and!.
    + apply NoDup_fst_drop. rewrite fmap_app, new_entries_keys. apply NoDup_app.
      split_and!; [by apply NoDup_fst_filter_list| |done].
      intros k Hk. apply list_elem_of_fmap in Hk as (p & -> & [Hp _]%list_elem_of_filter). done.
    + rewrite length_drop. lia.
    + apply Forall_drop, Forall_app. split.
      * rewrite Forall_forall in HF' |- *. intros p [_ Hp]%list_elem_of_filter. auto.
      * apply Forall_fmap. apply Forall_forall. intros kl _. apply new_entry_ok; [done|].
        by eapply entry_of_nonneg.
  - split_and!; [by apply NoDup_fst_filter_list| |].
    + unfold success, dict_del. pose proof (length_filter (fun p : string * (Z * Z) => String.eqb key p.1 = false) st). lia.
    + unfold success, dict_del. rewrite Forall_forall in HF |- *.
      intros p [_ Hp]%list_elem_of_filter. eapply entry_ok_later; eauto.
Qed.

Lemma limiter_reach_time L now st : limiter_reach L now st → 0 <= now.
Proof. induction 1; lia. Qed.

Lemma entry_of_blocked L now st k :
  0 <= now → 0 <= max_delay L → Forall (entry_ok L now) st → (entry_of k st).2 - now <= max_delay L * ns.
Proof.
  intros Hn Hd HF. unfold entry_of.
  induction HF as [|[k' v] st [_ Hv] HF IH]; simpl; [unfold ns; lia|].
  destruct (String.eqb k k'); [simpl in *; lia|done].
Qed.

(** In every state the limiter can reach it holds at most [max_keys] keys, each once, and no
    key is blocked for longer than [max_delay]; a refused attempt changes nothing, is told to wait
    at most [max_delay + 1] seconds, and waiting that long is enough to be let through. *)
Theorem limiter_bounded_wait (L : limiter) (now : Z) (st st' : limiter_state) (limits : list (string * Z)) (w : Z)
    (Hdelay : 0 <= max_delay L) (Hreach : limiter_reach L now st)
    (Hatt : attempt L st limits now = Ok (st', w)) :
  limiter_ok L now st ∧
  (w ≠ 0 → st' = st ∧ 0 < w <= max_delay L + 1 ∧
           ∃ st'', attempt L st limits (now + w * ns) = Ok (st'', 0)).
Proof.
  pose proof (limiter_reach_ok L now st Hdelay Hreach) as Hok. split; [done|]. intros Hw.
  assert (Hne : limits ≠ []) by (by intros ->).
  destruct (attempt_cases L st limits now Hne) as [[Heq _]|(w' & Heq & Hpos & _ & Hb)];
    rewrite Heq in Hatt; injection Hatt as <- <-; [done|].
  split; [done|]. split; [split; [done|]|].
  - rewrite <- (Z.div_mul (max_delay L) ns) by (unfold ns; lia). apply Hb.
    apply Forall_true. intros kl. eapply entry_of_blocked; [by eapply limiter_reach_time|done|apply Hok].
  - destruct (attempt_cases L st limits (now + w' * ns) Hne) as [[Heq' _]|(w'' & _ & _ & Hex & _)]; [eauto|].
    exfalso. destruct (Hb (w' * ns)) as [_ Hall]. specialize (Hall eq_refl).
    apply Exists_exists in Hex as (kl & Hin & Hlt). rewrite Forall_forall in Hall.
    specialize (Hall kl Hin). simpl in *. lia.
Qed.

Lemma limiter_bounded_wait_witness :
  let st := [("10.0.0.9", (5, 2 * ns))] in
  limiter_reach default_limiter 0 st ∧
  ∃ st', attempt default_limiter st [("10.0.0.9", 5)] 0 = Ok (st, 3) ∧
         attempt default_limiter st [("10.0.0.9", 5)] (0 + 3 * ns) = Ok (st', 0).
Proof.
  assert (Hreach : limiter_reach default_limiter 0 [("10.0.0.9", (5, 2 * ns))]).
  { apply (limiter_attempt default_limiter 0 0 [("10.0.0.9", (4, 0))] [("10.0.0.9", 5)] _ 0);
      [|lia|apply NoDup_singleton|vm_compute; reflexivity].
    apply (limiter_attempt default_limiter 0 0 [("10.0.0.9", (3, 0))] [("10.0.0.9", 5)] _ 0);
      [|lia|apply NoDup_singleton|vm_compute; reflexivity].
    apply (limiter_attempt default_limiter 0 0 [("10.0.0.9", (2, 0))] [("10.0.0.9", 5)] _ 0);
      [|lia|apply NoDup_singleton|vm_compute; reflexivity].
    apply (limiter_attempt default_limiter 0 0 [("10.0.0.9", (1, 0))] [("10.0.0.9", 5)] _ 0);
      [|lia|apply NoDup_singleton|vm_compute; reflexivity].
    apply (limiter_attempt default_limiter 0 0 [] [("10.0.0.9", 5)] _ 0);
      [|lia|apply NoDup_singleton|vm_compute; reflexivity].
    by apply limiter_start. }
  split; [exact Hreach|].
  destruct (limiter_bounded_wait default_limiter 0 [("10.0.0.9", (5, 2 * ns))] [("10.0.0.9", (5, 2 * ns))]
              [("10.0.0.9", 5)] 3 ltac:(vm_compute; discriminate) Hreach eq_refl) as [_ H].
  destruct (H ltac:(discriminate)) as (_ & _ & st'' & Hst). by exists st''.
Defined.

(** A run of the limiter: attempts, and successes of keys. *)
Inductive limiter_op := Attempt (now : Z) (limits : list (string * Z)) | Success (key : string).

(** The times of the attempts on a key that were let through. *)
Fixpoint allowed_times (L : limiter) (k : string) (st : limiter_state) (ops : list limiter_op) : list Z :=
  match ops with
  | [] => []
  | Attempt now limits :: ops =>
      match attempt L st limits now with
      | Ok (st', w) =>
          if (w =? 0) && existsb (String.eqb k) limits.*1 then now :: allowed_times L k st' ops else allowed_times L k st' ops
      | Raise _ => allowed_times L k st ops
      end
  | Success key :: ops => allowed_times L k (success st key) ops
  end.

(** All keys of a run. *)
Definition run_keys (ops : list limiter_op) : list string :=
  concat ((fun op => match op with Attempt _ limits => limits.*1 | Success _ => [] end) <$> ops).

(** Seconds of waiting that [n] failures in a row cost. *)
Fixpoint total_backoff (L : limiter) (limit : Z) (n : nat) : Z :=
  match n with O => 0 | S m => total_backoff L limit m + backoff L limit (Z.of_nat n) end.

Lemma backoff_mono L limit f g : 0 <= max_delay L → f <= g → backoff L limit f <= backoff L limit g.
Proof.
  intros Hd Hfg. unfold backoff. destruct (Z.leb_spec limit f), (Z.leb_spec limit g); try lia.
  apply Z.min_le_compat_l, Z.pow_le_mono_r; lia.
Qed.

Lemma total_backoff_mono L limit m n :
  0 <= max_delay L → (m <= n)%nat → total_backoff L limit m <= total_backoff L limit n.
Proof.
  intros Hd. induction 1 as [|n _ IH]; [lia|]. simpl.
  pose proof (backoff_bounds L limit (Z.of_nat (S n)) Hd). lia.
Qed.

(** One key under observation, with its threshold: the attempts on it lie in a window as long as the limiter's memory,
    and none of them succeeds; the attempts on other keys are arbitrary.  The limits of a call are a dict. *)
Definition watched (L : limiter) (k : string) (lim t0 : Z) (op : limiter_op) : Prop :=
  match op with
  | Attempt now limits => NoDup limits.*1 ∧ (k ∈ limits.*1 → (k, lim) ∈ limits ∧ t0 <= now <= t0 + forget L * ns)
  | Success key => key ≠ k
  end.

(** *** A key that no [max_keys] others push out *)

Section held.
Context (L : limiter) (k : string) (U : list string).
Hypothesis Hcap : (length (remove_dups U) <= max_keys L)%nat.

(** The key is in the dict, and behind it are only other keys of the run. *)
Definition held (e : Z * Z) (st : limiter_state) : Prop :=
  ∃ a b, st = a ++ (k, e) :: b ∧ k ∉ a.*1 ∧ NoDup (k :: b.*1) ∧ k :: b.*1 ⊆ U.

Lemma held_entry e st : held e st → entry_of k st = e.
Proof.
  intros (a & b & -> & Ha & _). unfold entry_of. rewrite dict_get_app, (proj2 (dict_get_None _ _) Ha). cbn [dict_get].
  by rewrite String.eqb_refl.
Qed.

Lemma fst_filter_sub (P : string * (Z * Z) → Prop) `{∀ x, Decision (P x)} (l : limiter_state) : (filter P l).*1 ⊆ l.*1.
Proof. intros x (p & -> & [_ Hp]%list_elem_of_filter)%list_elem_of_fmap. by apply list_elem_of_fmap_2. Qed.

Lemma held_filter (P : string * (Z * Z) → Prop) `{∀ x, Decision (P x)} e st : (∀ v, P (k, v)) → held e st → held e (filter P st).
Proof.
  intros HP (a & b & -> & Ha & Hnd & Hsub). exists (filter P a), (filter P b).
  rewrite filter_app, filter_cons_True by done. apply NoDup_cons in Hnd as [Hk Hnd]. split_and!; [done| | |].
  - intros Hin%fst_filter_sub. done.
  - apply NoDup_cons. split; [by intros Hin%fst_filter_sub|]. by apply NoDup_fst_filter_list.
  - intros x [->|Hx%fst_filter_sub]%elem_of_cons; apply Hsub; [left|by right].
Qed.

Lemma held_append e st new : held e st → NoDup new.*1 → (∀ x, x ∈ new.*1 → x ∉ st.*1) → new.*1 ⊆ U → held e (st ++ new).
Proof.
  intros (a & b & -> & Ha & Hnd & Hsub) Hn Hdis HU. exists a, (b ++ new). rewrite <- app_assoc.
  apply NoDup_cons in Hnd as [Hk Hnd]. rewrite fmap_app. split_and!; [done|done| |].
  - assert (Hout : ∀ x, x ∈ new.*1 → x ≠ k ∧ x ∉ b.*1).
    { intros x Hx. apply Hdis in Hx. rewrite fmap_app, fmap_cons in Hx. cbn [fst] in Hx. set_solver. }
    apply NoDup_cons. split; [rewrite elem_of_app; intros [?|Hx%Hout]; naive_solver|].
    apply NoDup_app. split_and!; [done| |done]. intros x Hx Hx'%Hout. naive_solver.
  - set_solver.
Qed.

Lemma held_evict e st : held e st → held e (evict L st).
Proof.
  intros (a & b & -> & Ha & Hnd & Hsub). unfold evict.
  assert (Hlen : (S (length b) <= max_keys L)%nat).
  { etrans; [|exact Hcap]. replace (S (length b)) with (length (k :: b.*1)) by (cbn; by rewrite length_fmap).
    apply submseteq_length, NoDup_submseteq; [done|]. intros x Hx. apply elem_of_remove_dups. by apply Hsub. }
  rewrite drop_app_le by (rewrite length_app; cbn [length]; lia).
  eexists _, b. split; [reflexivity|]. split_and!; [|done|done].
  intros Hin. apply Ha. apply list_elem_of_fmap in Hin as (p & -> & Hp%elem_of_drop_1). by apply list_elem_of_fmap_2.
Qed.

Lemma held_other now e st limits : held e st → NoDup limits.*1 → k ∉ limits.*1 → limits.*1 ⊆ U →
  held e (evict L (foldl (count_attempt L now) st limits)).
Proof.
  intros Hh Hnd Hk HU. rewrite count_attempts by done. apply held_evict, held_append.
  - by apply held_filter.
  - by rewrite new_entries_keys.
  - rewrite new_entries_keys. intros x Hx (p & -> & [Hp _]%list_elem_of_filter)%list_elem_of_fmap. done.
  - by rewrite new_entries_keys.
Qed.

Lemma held_own now st limits lim : NoDup limits.*1 → (k, lim) ∈ limits → limits.*1 ⊆ U →
  held (new_entry L now st (k, lim)).2 (evict L (foldl (count_attempt L now) st limits)).
Proof.
  intros Hnd Hin HU. rewrite count_attempts by done. apply held_evict.
  apply list_elem_of_split in Hin as (l1 & l2 & ->). rewrite fmap_app, fmap_cons in Hnd, HU. cbn [fst] in Hnd, HU.
  apply NoDup_app in Hnd as (_ & Hdis & Hnd2). pose proof (new_entry_key L now st (k, lim)) as Hkey.
  destruct (new_entry L now st (k, lim)) as [k' e] eqn:He. cbn [fst snd] in *. subst k'.
  exists (filter (fun p => p.1 ∉ (l1 ++ (k, lim) :: l2).*1) st ++ (new_entry L now st <$> l1)), (new_entry L now st <$> l2).
  rewrite (fmap_app (new_entry L now st)), (fmap_cons (new_entry L now st)), He, <- app_assoc. split; [done|].
  rewrite (fmap_app fst (filter _ st)), !new_entries_keys. split_and!.
  - rewrite elem_of_app. intros [(p & -> & [Hp _]%list_elem_of_filter)%list_elem_of_fmap|Hx].
    + apply Hp. rewrite fmap_app, fmap_cons. apply elem_of_app. right. left.
    + apply (Hdis k Hx). left.
  - done.
  - set_solver.
Qed.
End held.

Lemma existsb_key k (l : list string) : existsb (String.eqb k) l = true ↔ k ∈ l.
Proof.
  rewrite existsb_exists, list_elem_of_In. split; [by intros (x & Hx & ->%String.eqb_eq)|].
  intros H. exists k. split; [done|apply String.eqb_refl].
Qed.

Lemma allowed_after L k lim t0 U ops : 0 <= max_delay L → (length (remove_dups U) <= max_keys L)%nat →
  Forall (watched L k lim t0) ops → run_keys ops ⊆ U →
  ∀ st (m : nat) e, held k U e st → (0 < m)%nat → Z.of_nat m <= e.1 → t0 + total_backoff L lim m * ns <= e.2 →
  allowed_times L k st ops ≠ [] →
  total_backoff L lim (m + length (allowed_times L k st ops) - 1) <= forget L.
Proof.
  intros Hd Hcap. induction 1 as [|[now limits|key] ops Hop HF IH]; intros HU st m e Hh Hm Hf Hu; cbn [allowed_times]; [done| |].
  2: { apply (IH HU) with (e := e); [|done..]. apply held_filter; [|done]. intros v. cbn. by apply String.eqb_neq. }
  destruct Hop as [Hnd Hwin]. unfold run_keys in HU. rewrite fmap_cons in HU. cbn [concat] in HU.
  assert (HU1 : limits.*1 ⊆ U) by set_solver. assert (HU2 : run_keys ops ⊆ U) by (unfold run_keys; set_solver). clear HU. specialize (IH HU2).
  destruct (decide (limits = [])) as [->|Hne]; [cbn [attempt]; by eapply IH|].
  destruct (attempt_cases L st limits now Hne) as [[-> Hall]|(w & -> & Hw & _)].
  2: { destruct (Z.eqb_spec w 0); [lia|]. by eapply IH. }
  cbn [Z.eqb andb]. destruct (existsb (String.eqb k) limits.*1) eqn:Hk.
  2: { apply IH with (e := e); [|done..]. apply held_other; try done. rewrite <- existsb_key. by rewrite Hk. }
  apply existsb_key in Hk. destruct (Hwin Hk) as [Hin Htime]. intros _. rewrite Forall_forall in Hall.
  specialize (Hall _ Hin). cbn [fst] in Hall. pose proof (held_entry k U e st Hh) as He. rewrite He in Hall.
  pose proof (held_own L k U Hcap now st limits lim Hnd Hin HU1) as Hh'. set (st' := evict _ _) in *.
  destruct (allowed_times L k st' ops) as [|t ts] eqn:Ets; simpl.
  { replace (m + 1 - 1)%nat with m by lia. unfold ns in *. lia. }
  assert (Htb : 0 <= total_backoff L lim m) by (pose proof (total_backoff_mono L lim 0 m Hd); simpl in *; lia).
  assert (Hnew : (new_entry L now st (k, lim)).2 = (e.1 + 1, now + backoff L lim (e.1 + 1) * ns)).
  { unfold new_entry. cbn [fst snd]. rewrite He. destruct e as [f u]. cbn [fst snd] in *.
    destruct (Z.ltb_spec (forget L * ns) (now - u)); [unfold ns in *; lia|done]. }
  rewrite Hnew in Hh'. specialize (IH st' (S m) _ Hh'). rewrite Ets in IH. cbn [fst snd length] in IH.
  replace (m + S (S (length ts)) - 1)%nat with (S m + S (length ts) - 1)%nat by lia.
  apply IH; [lia|lia| |done].
  pose proof (backoff_mono L lim (Z.of_nat (S m)) (e.1 + 1) Hd ltac:(lia)).
  unfold ns in *. cbn [total_backoff] in *. lia.
Qed.

(** Failure counts are never negative. *)
Lemma attempt_nonneg L k now st limits :
  0 <= max_delay L → NoDup limits.*1 → Forall (fun p => 0 <= p.2.1) st →
  Forall (fun p => 0 <= p.2.1) (evict L (foldl (count_attempt L now) st limits)) ∧ 0 <= (entry_of k st).1.
Proof.
  intros Hd Hnd HF. assert (Hent : ∀ j, 0 <= (entry_of j st).1).
  { intros j. unfold entry_of. induction HF as [|[k' v] st Hv HF IH]; simpl; [lia|]. destruct (String.eqb j k'); [done|exact IH]. }
  split; [|apply Hent]. rewrite count_attempts by done. apply Forall_drop, Forall_app. split.
  - rewrite Forall_forall in HF |- *. intros p [_ Hp]%list_elem_of_filter. auto.
  - apply Forall_fmap, Forall_forall. intros kl _. destruct (new_entry_ok L now st kl Hd (Hent _)) as [H _]. cbn. lia.
Qed.

(** C18. The login throttle bounds guessing: for one key (a user name from one address) at most 14
    attempts go ahead within any 15 minutes, from whatever state of the limiter, whatever the other
    keys of each attempt are and whatever attempts on other keys, and successes of them, lie in between, as long
    as no attempt on the key succeeds and the run is about at most 5000 different keys, which is what the
    limiter can hold: a key that 5000 others have pushed out is forgotten and starts anew. *)
Theorem limiter_rate (st : limiter_state) (ops : list limiter_op) (k : string) (t0 : Z)
    (Hst : Forall (fun p => 0 <= p.2.1) st) (Hops : Forall (watched default_limiter k 5 t0) ops)
    (Hkeys : (length (remove_dups (run_keys ops)) <= 5000)%nat) :
  (length (allowed_times default_limiter k st ops) <= 14)%nat.
Proof.
  set (L := default_limiter) in *. assert (Hd : 0 <= max_delay L) by (vm_compute; discriminate).
  change 5000%nat with (max_keys L) in Hkeys. assert (HU : run_keys ops ⊆ run_keys ops) by done. revert Hkeys HU.
  generalize (run_keys ops) at 1 3. intros U Hkeys. revert st Hst.
  induction Hops as [|[now limits|key] ops Hop HF IH]; intros st Hst HU; cbn [allowed_times]; [cbn; lia| |].
  2: { apply IH; [|done]. apply Forall_forall. intros p [_ Hp]%list_elem_of_filter. rewrite Forall_forall in Hst. auto. }
  destruct Hop as [Hnd Hwin]. unfold run_keys in HU. rewrite fmap_cons in HU. cbn [concat] in HU.
  assert (HU1 : limits.*1 ⊆ U) by set_solver. assert (HU2 : run_keys ops ⊆ U) by (unfold run_keys; set_solver). clear HU.
  destruct (decide (limits = [])) as [->|Hne]; [cbn [attempt]; by apply IH|].
  destruct (attempt_nonneg L k now st limits Hd Hnd Hst) as [Hst' Hk0].
  destruct (attempt_cases L st limits now Hne) as [[-> Hall]|(w & -> & Hw & _)].
  2: { destruct (Z.eqb_spec w 0); [lia|]. by apply IH. }
  cbn [Z.eqb andb]. destruct (existsb (String.eqb k) limits.*1) eqn:Hk; [|by apply IH].
  apply existsb_key in Hk. destruct (Hwin Hk) as [Hin Htime].
  pose proof (held_own L k U Hkeys now st limits 5 Hnd Hin HU1) as Hh. set (st' := evict _ _) in *.
  destruct (allowed_times L k st' ops) as [|t ts] eqn:Ets; [cbn; lia|].
  pose proof (new_entry_ok L now st (k, 5) Hd Hk0) as [Hf _].
  pose proof (allowed_after L k 5 t0 U ops Hd Hkeys HF HU2 st' 1 _ Hh) as Hb. rewrite Ets in Hb. cbn [length] in Hb.
  assert (Htb : total_backoff L 5 (1 + S (length ts) - 1) <= 900).
  { apply Hb; [lia|lia| |done]. change (total_backoff L 5 1) with 0.
    unfold new_entry. cbn [fst snd]. destruct (entry_of k st) as [f u]. cbn [fst snd] in *.
    match goal with |- context [backoff L 5 ?x] => pose proof (backoff_bounds L 5 x Hd) end.
    unfold ns in *. lia. }
  cbn [length]. destruct (decide (length ts <= 12)%nat); [lia|]. exfalso.
  pose proof (total_backoff_mono L 5 14 (1 + S (length ts) - 1) Hd ltac:(lia)) as Hmono.
  change (total_backoff L 5 14) with 1110 in Hmono. lia.
Qed.

(** With more keys than it holds, a limiter forgets: here one that holds one key. *)
Example pushed_out :
  let L := Limiter 5 300 1 900 in
  length (allowed_times L "a" [] (concat (replicate 20 [Attempt 0 [("a", 5)]; Attempt 0 [("b", 5)]]))) = 20%nat.
Proof. vm_compute. reflexivity. Qed.

Lemma limiter_rate_witness :
  let login now user := Attempt now [("10.0.0.9", 20); ("10.0.0.9|" +:+ user, 5)] in
  let ops := [login 0 "admin"; login ns "admin"; login (2 * ns) "admin"; login (3 * ns) "admin"; login (3 * ns) "bob"; Success "10.0.0.9|bob";
              login (4 * ns) "admin"; login (5 * ns) "admin"; login (7 * ns) "admin"] in
  allowed_times default_limiter "10.0.0.9|admin" [] ops = [0; ns; 2 * ns; 3 * ns; 4 * ns; 7 * ns] ∧
  (length (allowed_times default_limiter "10.0.0.9|admin" [] ops) <= 14)%nat.
Proof.
  intros login ops. split; [vm_compute; reflexivity|].
  apply (limiter_rate [] ops "10.0.0.9|admin" 0); [constructor| |].
  - assert (Hl : ∀ now, 0 <= now <= 900 * ns → watched default_limiter "10.0.0.9|admin" 5 0 (login now "admin")).
    { intros now Hn. split; [apply (bool_decide_unpack (NoDup _)); vm_compute; exact I|]. intros _. split; [right; left|exact Hn]. }
    assert (Hb : watched default_limiter "10.0.0.9|admin" 5 0 (login (3 * ns) "bob")).
    { split; [apply (bool_decide_unpack (NoDup _)); vm_compute; exact I|]. cbn. intros Hin. exfalso. revert Hin.
      apply (bool_decide_unpack (_ ∉ _)). vm_compute. exact I. }
    repeat (apply Forall_cons; split; [first [exact Hb|apply Hl; unfold ns; lia|discriminate]|]). constructor.
  - vm_compute. lia.
Defined.
