(* ===== verification/Traffic.v ===== *)
(** * Traffic buckets: the traffic part of [ui/app/db.py], and the charts of
    [ui/app/main.py]

    Bytes are counted per client in minute buckets; [rollup] folds old minute
    buckets into hourly ones and old hourly buckets into daily ones.  Integer
    division in SQL truncates ([Z.quot]); Python's [//] rounds down ([Z.div]). *)

From S2P Require Import Prelude PyStr Schema.

Open Scope string_scope.
Open Scope list_scope.
Open Scope Z_scope.

Definition MINUTE_RETENTION : Z := 2 * 86400.
Definition HOUR_RETENTION : Z := 90 * 86400.
Definition EVENT_RETENTION : Z := 365 * 86400.

Definition add_bytes (a b : Z * Z) : Z * Z := (a.1 + b.1, a.2 + b.2).

(** [INSERT ... ON CONFLICT DO UPDATE SET bytes = bytes + excluded.bytes]. *)
Definition upsert (k : Z * string) (v : Z * Z) (m : traffic) : traffic :=
  <[k := match m !! k with Some w => add_bytes w v | None => v end]> m.

Definition add_traffic (ts_minute : Z) (client_name : string) (d_in d_out : Z) (d : database) : database :=
  if (d_in <=? 0) && (d_out <=? 0) then d
  else upd_traffic (upsert (ts_minute, client_name) (Z.max d_in 0, Z.max d_out 0)) id id d.

(** [INSERT INTO dst SELECT (ts / width) * width, client_name, SUM(..), SUM(..) FROM src
    WHERE ts < cutoff GROUP BY 1, 2 ON CONFLICT ... add]: one upsert per group. *)
Definition bucket_start (width ts : Z) : Z := Z.quot ts width * width.

Definition group_rows (width cutoff : Z) (src : traffic) : traffic :=
  foldr (fun kv acc => if kv.1.1 <? cutoff then upsert (bucket_start width kv.1.1, kv.1.2) kv.2 acc else acc)
        ∅ (map_to_list src).

Definition fold_into (width cutoff : Z) (src dst : traffic) : traffic :=
  foldr (fun kv acc => upsert kv.1 kv.2 acc) dst (map_to_list (group_rows width cutoff src)).

Definition drop_before (cutoff : Z) (m : traffic) : traffic := filter (fun kv => cutoff <= kv.1.1) m.

(** [rollup]: both folds, then the expired web sessions, rejections, share links
    and events, in one transaction. *)
Definition rollup (now : Z) (d : database) : database :=
  let d := upd_traffic id (fold_into 3600 (now - MINUTE_RETENTION) (traffic_minute d)) id d in
  let d := upd_traffic (drop_before (now - MINUTE_RETENTION)) id id d in
  let d := upd_traffic id id (fold_into 86400 (now - HOUR_RETENTION) (traffic_hour d)) d in
  let d := upd_traffic id (drop_before (now - HOUR_RETENTION)) id d in
  let d := upd_web_sessions (filter (fun kv => now <= ws_expires_at kv.2)) d in
  let d := upd_rejections (filter (fun kv => now - HOUR_RETENTION <= kv.1.1.1.1)) d in
  let d := upd_share (filter (fun kv => now <= st_expires_at kv.2)) d in
  upd_events (filter (fun e => now - EVENT_RETENTION <= e_ts e)) d.

(** [_TRAFFIC_UNION]: the rows of the three tables with [start <= ts < end]. *)
Definition in_window (start fin : Z) (kv : (Z * string) * (Z * Z)) : bool :=
  (start <=? kv.1.1) && (kv.1.1 <? fin).

Definition traffic_union (start fin : Z) (d : database) : list ((Z * string) * (Z * Z)) :=
  filter (fun kv => in_window start fin kv = true)
    (map_to_list (traffic_minute d) ++ map_to_list (traffic_hour d) ++ map_to_list (traffic_day d)).

(** [WHERE client_name = ?], present only for a non-empty name. *)
Definition for_client (client_name : option string) (kv : (Z * string) * (Z * Z)) : bool :=
  if truthy client_name then String.eqb (default "" client_name) kv.1.2 else true.

Definition sum_bytes (l : list ((Z * string) * (Z * Z))) : Z * Z :=
  (sumZ (fun kv => kv.2.1) l, sumZ (fun kv => kv.2.2) l).

Definition totals (d : database) (start fin : Z) (client_name : option string) : Z * Z :=
  sum_bytes (filter (fun kv => for_client client_name kv = true) (traffic_union start fin d)).

Definition totals_by_client (d : database) (start fin : Z) : gmap string (Z * Z) :=
  foldr (fun kv acc => <[kv.1.2 := add_bytes kv.2 (default (0, 0) (acc !! kv.1.2))]> acc)
        ∅ (traffic_union start fin d).

(** [series]: grouped by the local bucket and ordered by it. *)
Definition local_bucket (bucket tz ts : Z) : Z := Z.quot (ts + tz) bucket * bucket - tz.

Definition series_map (d : database) (start fin bucket : Z) (client_name : option string) (tz : Z)
    : gmap Z (Z * Z) :=
  foldr (fun kv acc => let b := local_bucket bucket tz kv.1.1 in
                       <[b := add_bytes kv.2 (default (0, 0) (acc !! b))]> acc)
        ∅ (filter (fun kv => for_client client_name kv = true) (traffic_union start fin d)).

Definition by_ts (a b : Z * (Z * Z)) : Prop := a.1 <= b.1.
#[export] Instance by_ts_dec : RelDecision by_ts.
Proof. intros a b. unfold by_ts. apply _. Defined.

Definition series (d : database) (start fin bucket : Z) (client_name : option string) (tz : Z)
    : list (Z * (Z * Z)) :=
  merge_sort by_ts (map_to_list (series_map d start fin bucket client_name tz)).

Definition min_ts (m : traffic) : option Z :=
  foldr (fun kv acc => Some (match acc with Some t => Z.min kv.1.1 t | None => kv.1.1 end))
        None (map_to_list m).

Definition first_traffic_ts (d : database) : option Z :=
  foldr (fun o acc => match o, acc with
                      | Some a, Some b => Some (Z.min a b) | Some a, None => Some a | None, b => b end)
        None [min_ts (traffic_minute d); min_ts (traffic_hour d); min_ts (traffic_day d)].

(** ** The charts: [range_bounds], [bucket_for] and [fill_series] of main.py *)

Definition RANGES : list (string * option Z) :=
  [("today", None); ("24h", Some 86400); ("7d", Some (7 * 86400)); ("30d", Some (30 * 86400));
   ("90d", Some (90 * 86400)); ("all", None)].

Fixpoint assoc {A} (k : string) (l : list (string * A)) : option A :=
  match l with [] => None | (k', v) :: l => if String.eqb k k' then Some v else assoc k l end.

Definition range_bounds (d : database) (now : Z) (name : string) (tz : Z) : result (Z * Z) :=
  match assoc name RANGES with
  | None => Raise (HTTPException 400 "Unknown range")
  | Some secs =>
      let start :=
        if String.eqb name "today" then (now + tz) / 86400 * 86400 - tz
        else if String.eqb name "all" then
          match first_traffic_ts d with
          | Some t => if t =? 0 then now - 86400 else t
          | None => now - 86400
          end
        else now - default 0 secs in
      Ok (start, now + 1)
  end.

Definition bucket_for (name : string) : Z :=
  default 86400 (assoc name [("today", 600); ("24h", 600); ("7d", 3600)]).

(** The dict [by_ts] of the source: a later point with the same ts wins. *)
Definition point_at (points : list (Z * (Z * Z))) (t : Z) : Z * Z :=
  default (0, 0) (foldl (fun acc p => if p.1 =? t then Some p.2 else acc) None points).

Fixpoint fill_from (fuel : nat) (points : list (Z * (Z * Z))) (t fin bucket : Z) : list (Z * (Z * Z)) :=
  match fuel with
  | O => []
  | S fuel => if t <? fin then (t, point_at points t) :: fill_from fuel points (t + bucket) fin bucket else []
  end.

(** The [while] loop makes [ceil ((fin - first) / bucket)] turns for a positive
    bucket width; the callers pass 60, 600, 3600 or 86400. *)
Definition fill_series (points : list (Z * (Z * Z))) (start fin bucket tz : Z) : list (Z * (Z * Z)) :=
  let first := (start + tz) / bucket * bucket - tz in
  fill_from (Z.to_nat ((fin - first) / bucket + 1)) points first fin bucket.

(** ** Sums over traffic tables *)

(** A column of a traffic table, restricted to the rows whose key satisfies [P]. *)
Definition weight (P : Z * string → bool) (c : Z * Z → Z) (k : Z * string) (v : Z * Z) : Z :=
  if P k then c v else 0.

Definition additive (c : Z * Z → Z) : Prop := ∀ a b, c (add_bytes a b) = c a + c b.

Lemma additive_fst : additive fst.
Proof. done. Qed.
Lemma additive_snd : additive snd.
Proof. done. Qed.

Section sums.
Context (P : Z * string → bool) (c : Z * Z → Z) (Hc : additive c).

Lemma upsert_sum k v m : map_sum (weight P c) (upsert k v m) = map_sum (weight P c) m + weight P c k v.
Proof.
  unfold upsert. destruct (m !! k) as [w|] eqn:E.
  - rewrite (map_sum_overwrite _ _ _ _ _ E). unfold weight. destruct (P k); [rewrite Hc|]; lia.
  - rewrite map_sum_insert by done. lia.
Qed.

Lemma group_rows_sum width cutoff src :
  map_sum (weight P c) (group_rows width cutoff src) =
  map_sum (fun k v => if k.1 <? cutoff then weight P c (bucket_start width k.1, k.2) v else 0) src.
Proof.
  unfold group_rows. unfold map_sum at 2.
  induction (map_to_list src) as [|[k v] l IH]; [apply map_sum_empty|]. simpl.
  destruct (k.1 <? cutoff); [|by rewrite IH]. rewrite upsert_sum, IH. lia.
Qed.

Lemma fold_into_sum width cutoff src dst :
  map_sum (weight P c) (fold_into width cutoff src dst) =
  map_sum (weight P c) dst + map_sum (weight P c) (group_rows width cutoff src).
Proof.
  unfold fold_into. unfold map_sum at 3.
  induction (map_to_list (group_rows width cutoff src)) as [|[k v] l IH]; simpl; [lia|].
  rewrite upsert_sum, IH. lia.
Qed.

(** Folding the old rows of a table into a coarser one and dropping them keeps
    every sum whose condition does not distinguish the times of one bucket. *)
Lemma fold_drop_sum width cutoff src dst :
  (∀ ts n, is_Some (src !! (ts, n)) → P (bucket_start width ts, n) = P (ts, n)) →
  map_sum (weight P c) (drop_before cutoff src) + map_sum (weight P c) (fold_into width cutoff src dst) =
  map_sum (weight P c) src + map_sum (weight P c) dst.
Proof.
  intros HP. rewrite fold_into_sum, group_rows_sum. unfold drop_before. rewrite map_sum_filter.
  match goal with |- ?a + (?b + ?d) = ?s + _ => enough (a + d = s) by lia end.
  rewrite <- map_sum_add. apply map_sum_ext. intros [ts n] v Hv. simpl.
  unfold weight. rewrite (HP ts n) by eauto.
  destruct (Z.ltb_spec ts cutoff); [rewrite decide_False by lia|rewrite decide_True by lia]; lia.
Qed.
End sums.

(** The key condition of [totals]. *)
Definition counted (start fin : Z) (client_name : option string) (k : Z * string) : bool :=
  in_window start fin (k, (0, 0)) && for_client client_name (k, (0, 0)).

Definition table_sum (c : Z * Z → Z) (start fin : Z) (client_name : option string) (m : traffic) : Z :=
  map_sum (weight (counted start fin client_name) c) m.

Lemma union_sum (c : Z * Z → Z) start fin client_name d :
  sumZ (fun kv => c kv.2) (filter (fun kv => for_client client_name kv = true) (traffic_union start fin d)) =
  table_sum c start fin client_name (traffic_minute d) + table_sum c start fin client_name (traffic_hour d)
  + table_sum c start fin client_name (traffic_day d).
Proof.
  unfold traffic_union. rewrite list_filter_filter, sumZ_filter, !sumZ_app. unfold table_sum, map_sum.
  rewrite Z.add_assoc. f_equal; [f_equal|];
    (apply sumZ_ext; intros [k v] _; unfold weight; simpl;
     change (counted start fin client_name k) with (in_window start fin (k, v) && for_client client_name (k, v));
     destruct (in_window start fin (k, v)), (for_client client_name (k, v)); done).
Qed.

Lemma totals_sum d start fin client_name :
  totals d start fin client_name =
  (table_sum fst start fin client_name (traffic_minute d) + table_sum fst start fin client_name (traffic_hour d)
   + table_sum fst start fin client_name (traffic_day d),
   table_sum snd start fin client_name (traffic_minute d) + table_sum snd start fin client_name (traffic_hour d)
   + table_sum snd start fin client_name (traffic_day d)).
Proof. unfold totals, sum_bytes. by rewrite !union_sum. Qed.

(** No bucket starts before 1970. *)
Definition nonneg_ts (m : traffic) : Prop := ∀ ts n, is_Some (m !! (ts, n)) → 0 <= ts.

Lemma bucket_start_nonneg width ts : 0 < width → 0 <= ts → 0 <= bucket_start width ts <= ts.
Proof.
  intros. unfold bucket_start. rewrite Z.quot_div_nonneg by lia.
  pose proof (Z.mul_div_le ts width). assert (0 <= ts / width) by (apply Z.div_pos; lia). nia.
Qed.

Lemma bucket_start_aligned width ts b :
  0 < width → 0 <= ts → (width | b) → (b <= bucket_start width ts ↔ b <= ts).
Proof.
  intros Hw Hts [q ->]. pose proof (bucket_start_nonneg width ts Hw Hts). split; [lia|].
  intros Hle. unfold bucket_start. rewrite Z.quot_div_nonneg by lia.
  apply Z.mul_le_mono_nonneg_r; [lia|]. apply Z.div_le_lower_bound; lia.
Qed.

Lemma counted_bucket width start fin client_name ts n :
  0 < width → 0 <= ts → (width | start) → (width | fin) →
  counted start fin client_name (bucket_start width ts, n) = counted start fin client_name (ts, n).
Proof.
  intros Hw Hts Hs Hf. unfold counted, in_window, for_client. simpl. f_equal.
  pose proof (bucket_start_aligned width ts start Hw Hts Hs).
  pose proof (bucket_start_aligned width ts fin Hw Hts Hf).
  destruct (Z.leb_spec start (bucket_start width ts)), (Z.leb_spec start ts), (Z.ltb_spec (bucket_start width ts) fin),
    (Z.ltb_spec ts fin); simpl; lia.
Qed.

Lemma upsert_lookup k v m k' : is_Some (upsert k v m !! k') ↔ k' = k ∨ is_Some (m !! k').
Proof.
  unfold upsert. destruct (decide (k = k')) as [->|Hne].
  - rewrite lookup_insert_eq. naive_solver.
  - rewrite lookup_insert_ne by done. naive_solver.
Qed.

(** The keys of a table after a sequence of upserts. *)
Lemma upserts_keys {A} (f : A → option ((Z * string) * (Z * Z))) (l : list A) m k :
  is_Some (foldr (fun x acc => match f x with Some kv => upsert kv.1 kv.2 acc | None => acc end) m l !! k) →
  is_Some (m !! k) ∨ ∃ x v, x ∈ l ∧ f x = Some (k, v).
Proof.
  induction l as [|x l IH]; simpl; [auto|].
  destruct (f x) as [[k' v]|] eqn:E.
  - rewrite upsert_lookup. intros [->|Hk]; [right; exists x, v; split; [set_solver|done]|].
    apply IH in Hk as [Hk|(y & w & Hy & Hf)]; [auto|]. right. exists y, w. split; [set_solver|done].
  - intros Hk. apply IH in Hk as [Hk|(y & w & Hy & Hf)]; [auto|]. right. exists y, w. split; [set_solver|done].
Qed.

Lemma group_rows_keys width cutoff src k :
  is_Some (group_rows width cutoff src !! k) →
  ∃ ts n, is_Some (src !! (ts, n)) ∧ ts < cutoff ∧ k = (bucket_start width ts, n).
Proof.
  intros Hk.
  assert (Heq : group_rows width cutoff src =
    foldr (fun x acc => match (if x.1.1 <? cutoff then Some ((bucket_start width x.1.1, x.1.2), x.2) else None) with
                        | Some kv => upsert kv.1 kv.2 acc | None => acc end) ∅ (map_to_list src)).
  { unfold group_rows. induction (map_to_list src) as [|x l IH]; simpl; [done|].
    rewrite IH. by destruct (x.1.1 <? cutoff). }
  rewrite Heq in Hk. apply upserts_keys in Hk as [[? ?%lookup_empty_Some]|([[ts n] w] & v & Hin & Hf)]; [done|].
  simpl in Hf. destruct (Z.ltb_spec ts cutoff); [|done]. injection Hf as <- <-.
  apply elem_of_map_to_list in Hin. exists ts, n. eauto.
Qed.

Lemma fold_into_keys width cutoff src dst k :
  is_Some (fold_into width cutoff src dst !! k) →
  is_Some (dst !! k) ∨ ∃ ts n, is_Some (src !! (ts, n)) ∧ ts < cutoff ∧ k = (bucket_start width ts, n).
Proof.
  intros Hk. apply (upserts_keys Some) in Hk as [Hk|([k' w] & v & Hin & [= -> ->])]; [auto|].
  right. apply group_rows_keys. apply elem_of_map_to_list in Hin. eauto.
Qed.

Lemma fold_into_nonneg width cutoff src dst :
  0 < width → nonneg_ts src → nonneg_ts dst → nonneg_ts (fold_into width cutoff src dst).
Proof.
  intros Hw Hsrc Hdst ts n Hk. apply fold_into_keys in Hk as [Hk|(t & m & Hs & _ & [= -> ->])]; [eauto|].
  apply bucket_start_nonneg; eauto.
Qed.

(** C11. [rollup] loses no traffic: for every client (or all of them) and every period that starts and
    ends at a UTC midnight, the totals are the same before and after folding minutes into hours and
    hours into days. *)
Theorem rollup_preserves_totals (d : database) (now start fin : Z) (client_name : option string)
    (Hm : nonneg_ts (traffic_minute d)) (Hh : nonneg_ts (traffic_hour d))
    (Hstart : (86400 | start)) (Hfin : (86400 | fin)) :
  totals (rollup now d) start fin client_name = totals d start fin client_name.
Proof.
  assert (H3600 : (3600 | 86400)) by (by exists 24).
  rewrite !totals_sum. unfold rollup. simpl. unfold id, table_sum.
  assert (Hsum : ∀ c, additive c →
    map_sum (weight (counted start fin client_name) c) (drop_before (now - MINUTE_RETENTION) (traffic_minute d))
    + map_sum (weight (counted start fin client_name) c)
        (drop_before (now - HOUR_RETENTION)
           (fold_into 3600 (now - MINUTE_RETENTION) (traffic_minute d) (traffic_hour d)))
    + map_sum (weight (counted start fin client_name) c)
        (fold_into 86400 (now - HOUR_RETENTION)
           (fold_into 3600 (now - MINUTE_RETENTION) (traffic_minute d) (traffic_hour d)) (traffic_day d))
    = map_sum (weight (counted start fin client_name) c) (traffic_minute d)
      + map_sum (weight (counted start fin client_name) c) (traffic_hour d)
      + map_sum (weight (counted start fin client_name) c) (traffic_day d)).
  { intros c Hc. rewrite <- Z.add_assoc, fold_drop_sum; [|done|].
    - rewrite Z.add_assoc, fold_drop_sum; [lia|done|].
      intros ts n Hk. apply counted_bucket; [lia|eauto| |]; by etransitivity.
    - intros ts n Hk. apply counted_bucket; [lia| |done..].
      eapply (fold_into_nonneg 3600 _ (traffic_minute d) (traffic_hour d)); [lia|done..|exact Hk]. }
  by rewrite !Hsum.
Qed.

Lemma rollup_preserves_totals_witness :
  let d := add_traffic 600 "phone" 5 7 (add_traffic 90000 "phone" 1 2 empty_db) in
  let now := 90000 + 172800 + 1 in
  traffic_minute (rollup now d) = ∅ ∧
  totals (rollup now d) 0 86400 (Some "phone") = totals d 0 86400 (Some "phone") ∧
  totals d 0 86400 (Some "phone") = (5, 7).
Proof.
  intros d now. split; [vm_compute; reflexivity|]. split; [|vm_compute; reflexivity].
  apply (rollup_preserves_totals d now 0 86400 (Some "phone")).
  - intros ts n [v Hv]. unfold d in Hv.
    change (traffic_minute _) with (upsert (600, "phone") (5, 7) (upsert (90000, "phone") (1, 2) ∅)) in Hv.
    assert (H : is_Some (upsert (600, "phone") (5, 7) (upsert (90000, "phone") (1, 2) ∅) !! (ts, n))) by eauto.
    rewrite !upsert_lookup in H. destruct H as [[= -> _]|[[= -> _]|[w Hw]]]; [lia|lia|].
    by apply lookup_empty_Some in Hw.
  - intros ts n [v Hv]. change (traffic_hour d) with (∅ : traffic) in Hv. by apply lookup_empty_Some in Hv.
  - by exists 0.
  - by exists 1.
Defined.

(** After [rollup] only the retention periods are left: no minute bucket older than two days, no
    hour bucket older than 90 days, no expired session or share link, no event older than a year. *)
Theorem rollup_retention (d : database) (now : Z) :
  (∀ ts n, is_Some (traffic_minute (rollup now d) !! (ts, n)) → now - MINUTE_RETENTION <= ts) ∧
  (∀ ts n, is_Some (traffic_hour (rollup now d) !! (ts, n)) → now - HOUR_RETENTION <= ts) ∧
  (∀ h s, web_sessions (rollup now d) !! h = Some s ↔ web_sessions d !! h = Some s ∧ now <= ws_expires_at s) ∧
  (∀ h s, share_tokens (rollup now d) !! h = Some s ↔ share_tokens d !! h = Some s ∧ now <= st_expires_at s) ∧
  (∀ e, e ∈ events (rollup now d) ↔ e ∈ events d ∧ now - EVENT_RETENTION <= e_ts e).
Proof.
  unfold rollup. simpl. unfold id, drop_before.
  split_and!; [| |intros h s; rewrite map_lookup_filter_Some; naive_solver
              |intros h s; rewrite map_lookup_filter_Some; naive_solver
              |intros e; rewrite list_elem_of_filter; tauto];
    intros ts n [v [_ Hv]%map_lookup_filter_Some]; done.
Qed.

(** [add_traffic] adds the bytes, negative counts as zero, to the totals of exactly the periods
    and clients that contain its minute, and to nothing else. *)
Theorem add_traffic_totals (d : database) (ts : Z) (name : string) (d_in d_out start fin : Z)
    (client_name : option string) :
  totals (add_traffic ts name d_in d_out d) start fin client_name =
  if counted start fin client_name (ts, name)
  then add_bytes (totals d start fin client_name) (Z.max d_in 0, Z.max d_out 0)
  else totals d start fin client_name.
Proof.
  unfold add_traffic. destruct ((d_in <=? 0) && (d_out <=? 0)) eqn:E.
  - bool_to_prop. rewrite !Z.max_r by lia. unfold add_bytes. simpl. rewrite !Z.add_0_r.
    destruct (counted _ _ _ _); [|done]. apply surjective_pairing.
  - rewrite !totals_sum. simpl. unfold table_sum, id.
    rewrite (upsert_sum _ _ additive_fst), (upsert_sum _ _ additive_snd). unfold weight at 2 6. simpl.
    destruct (counted _ _ _ _); unfold add_bytes; simpl; f_equal; lia.
Qed.

(** ** Series and charts *)

Lemma grouped_sum (c : Z * Z → Z) (Hc : additive c) (Hc0 : c (0, 0) = 0)
    (key : (Z * string) * (Z * Z) → Z) (l : list ((Z * string) * (Z * Z))) :
  map_sum (fun _ v => c v)
    (foldr (fun kv acc => <[key kv := add_bytes kv.2 (default (0, 0) (acc !! key kv))]> acc) (∅ : gmap Z (Z * Z)) l)
  = sumZ (fun kv => c kv.2) l.
Proof.
  induction l as [|kv l IH]; simpl; [apply map_sum_empty|].
  set (m := foldr _ _ _) in *. destruct (m !! key kv) as [w|] eqn:E; simpl.
  - rewrite (map_sum_overwrite _ _ _ _ _ E), Hc. lia.
  - rewrite map_sum_insert, Hc by done. lia.
Qed.

Lemma series_sum (c : Z * Z → Z) (Hc : additive c) (Hc0 : c (0, 0) = 0) d start fin bucket client_name tz :
  sumZ (fun p => c p.2) (series d start fin bucket client_name tz) =
  sumZ (fun kv => c kv.2) (filter (fun kv => for_client client_name kv = true) (traffic_union start fin d)).
Proof.
  unfold series. erewrite sumZ_perm by apply merge_sort_Permutation.
  unfold series_map. symmetry. rewrite <- (grouped_sum c Hc Hc0 (fun kv => local_bucket bucket tz kv.1.1)).
  reflexivity.
Qed.

Lemma series_NoDup d start fin bucket client_name tz : NoDup (series d start fin bucket client_name tz).*1.
Proof.
  unfold series. erewrite merge_sort_Permutation. apply NoDup_fst_map_to_list.
Qed.

Lemma series_keys d start fin bucket client_name tz b v :
  (b, v) ∈ series d start fin bucket client_name tz →
  ∃ ts, start <= ts < fin ∧ b = local_bucket bucket tz ts.
Proof.
  unfold series. rewrite merge_sort_Permutation, elem_of_map_to_list. unfold series_map, traffic_union.
  rewrite list_filter_filter. intros Hv. assert (Hs : is_Some (foldr
    (fun kv acc => <[local_bucket bucket tz kv.1.1 := add_bytes kv.2 (default (0, 0) (acc !! local_bucket bucket tz kv.1.1))]> acc)
    (∅ : gmap Z (Z * Z))
    (filter (fun kv => for_client client_name kv = true ∧ in_window start fin kv = true)
       (map_to_list (traffic_minute d) ++ map_to_list (traffic_hour d) ++ map_to_list (traffic_day d))) !! b)) by eauto.
  clear Hv. induction (_ ++ _) as [|kv l IH]; [rewrite filter_nil in Hs; simpl in Hs; by destruct Hs as [? ?%lookup_empty_Some]|].
  rewrite filter_cons in Hs. case_decide as Hd; [|by apply IH]. simpl in Hs.
  destruct (decide (local_bucket bucket tz kv.1.1 = b)) as [<-|Hne].
  - exists kv.1.1. split; [|done]. destruct Hd as [_ Hd]. unfold in_window in Hd. bool_to_prop. lia.
  - rewrite lookup_insert_ne in Hs by done. by apply IH.
Qed.

(** [point_at] on points with distinct times. *)
Lemma foldl_point_None points t acc :
  t ∉ points.*1 → foldl (fun acc (p : Z * (Z * Z)) => if p.1 =? t then Some p.2 else acc) acc points = acc.
Proof.
  revert acc. induction points as [|p points IH]; intros acc Hn; simpl; [done|].
  simpl in Hn. destruct (Z.eqb_spec p.1 t); [set_solver|]. apply IH. set_solver.
Qed.

Lemma point_at_cons p points t :
  p.1 ∉ points.*1 → point_at (p :: points) t = if p.1 =? t then p.2 else point_at points t.
Proof.
  intros Hp. unfold point_at. simpl. destruct (Z.eqb_spec p.1 t) as [<-|]; [|done].
  by rewrite foldl_point_None.
Qed.

Lemma point_at_None points t : t ∉ points.*1 → point_at points t = (0, 0).
Proof. intros Hn. unfold point_at. by rewrite foldl_point_None. Qed.

Lemma sumZ_indicator (grid : list Z) (t v : Z) :
  NoDup grid → t ∈ grid → sumZ (fun x => if t =? x then v else 0) grid = v.
Proof.
  induction grid as [|g grid IH]; [by intros _ ?%not_elem_of_nil|].
  intros [Hg Hnd]%NoDup_cons Ht. simpl. apply elem_of_cons in Ht as [->|Ht].
  - rewrite Z.eqb_refl, sumZ_zero; [lia|]. intros x Hx. destruct (Z.eqb_spec g x); [set_solver|done].
  - destruct (Z.eqb_spec t g); [set_solver|]. rewrite IH by done. lia.
Qed.

Lemma points_on_grid (c : Z * Z → Z) (Hc0 : c (0, 0) = 0) (points : list (Z * (Z * Z))) (grid : list Z) :
  NoDup points.*1 → NoDup grid → (∀ p, p ∈ points → p.1 ∈ grid) →
  sumZ (fun t => c (point_at points t)) grid = sumZ (fun p => c p.2) points.
Proof.
  intros Hnd Hgrid. induction points as [|p points IH]; intros Hin.
  { rewrite sumZ_zero; [done|]. intros t _. by rewrite point_at_None by apply not_elem_of_nil. }
  simpl in Hnd. apply NoDup_cons in Hnd as [Hp Hnd].
  rewrite (sumZ_ext _ (fun t => (if p.1 =? t then c p.2 else 0) + c (point_at points t))).
  - rewrite sumZ_add, IH by set_solver. rewrite sumZ_indicator; [done|done|]. apply Hin. set_solver.
  - intros t _. rewrite point_at_cons by done. destruct (Z.eqb_spec p.1 t) as [<-|]; [|done].
    rewrite (point_at_None points) by done. lia.
Qed.

Lemma fill_from_spec points fin bucket : 0 < bucket → ∀ fuel t,
  fill_from fuel points t fin bucket = (fun s => (s, point_at points s)) <$> (fill_from fuel points t fin bucket).*1.
Proof.
  intros Hb fuel. induction fuel as [|fuel IH]; intros t; simpl; [done|].
  destruct (t <? fin); [|done]. simpl. f_equal. apply IH.
Qed.

Lemma fill_from_ge points fin bucket s fuel t : 0 < bucket →
  s ∈ (fill_from fuel points t fin bucket).*1 → t <= s.
Proof.
  intros Hb. revert t. induction fuel as [|fuel IH]; intros t; simpl; [by intros ?%not_elem_of_nil|].
  destruct (t <? fin); simpl; [|by intros ?%not_elem_of_nil].
  intros [->|Hs]%elem_of_cons; [lia|]. apply IH in Hs. lia.
Qed.

Lemma fill_from_NoDup points fin bucket fuel t :
  0 < bucket → NoDup (fill_from fuel points t fin bucket).*1.
Proof.
  intros Hb. revert t. induction fuel as [|fuel IH]; intros t; simpl; [constructor|].
  destruct (t <? fin); simpl; [|constructor]. apply NoDup_cons. split; [|apply IH].
  intros Hs. apply fill_from_ge in Hs; lia.
Qed.

Lemma fill_from_covers points fin bucket fuel t (i : nat) :
  0 < bucket → (i < fuel)%nat → t + Z.of_nat i * bucket < fin →
  t + Z.of_nat i * bucket ∈ (fill_from fuel points t fin bucket).*1.
Proof.
  intros Hb. revert t i. induction fuel as [|fuel IH]; intros t i Hi Hlt; [lia|]. simpl.
  assert (t < fin) by nia. destruct (Z.ltb_spec t fin); [|lia]. simpl.
  destruct i as [|i]; [replace (t + _) with t by lia; left|]. right.
  replace (t + Z.of_nat (S i) * bucket) with (t + bucket + Z.of_nat i * bucket) by lia.
  apply IH; lia.
Qed.

(** The chart shows all the traffic of its period: the points of [fill_series] over [series] add
    up to [totals], for every bucket width and time zone. *)
Theorem chart_total (d : database) (start fin bucket tz : Z) (client_name : option string)
    (Hb : 0 < bucket) (Hs : 0 <= start + tz) :
  sum_bytes ((fun p => ((p.1, ""), p.2)) <$> fill_series (series d start fin bucket client_name tz) start fin bucket tz)
  = totals d start fin client_name.
Proof.
  unfold sum_bytes. rewrite !sumZ_fmap. simpl. unfold totals, sum_bytes, fill_series.
  set (points := series _ _ _ _ _ _). set (first := (start + tz) / bucket * bucket - tz).
  set (fuel := Z.to_nat _).
  assert (Hgrid : ∀ p, p ∈ points → p.1 ∈ (fill_from fuel points first fin bucket).*1).
  { intros [b v] Hp. apply series_keys in Hp as (ts & Hts & ->). simpl. unfold local_bucket.
    rewrite Z.quot_div_nonneg by lia.
    assert (Hle : (start + tz) / bucket <= (ts + tz) / bucket) by (apply Z.div_le_mono; lia).
    assert (Hmul : (ts + tz) / bucket * bucket <= ts + tz) by (pose proof (Z.mul_div_le (ts + tz) bucket); lia).
    set (i := (ts + tz) / bucket - (start + tz) / bucket).
    replace ((ts + tz) / bucket * bucket - tz) with (first + Z.of_nat (Z.to_nat i) * bucket)
      by (unfold first, i; rewrite Z2Nat.id by lia; lia).
    apply fill_from_covers; [done| |unfold first, i; rewrite Z2Nat.id by lia; lia].
    unfold fuel. assert (i <= (fin - first) / bucket); [|lia].
    apply Z.div_le_lower_bound; [done|]. unfold i, first. nia. }
  f_equal.
  - rewrite fill_from_spec, sumZ_fmap by done. simpl.
    rewrite (points_on_grid fst) by (done || apply series_NoDup || by apply fill_from_NoDup).
    by apply (series_sum fst).
  - rewrite fill_from_spec, sumZ_fmap by done. simpl.
    rewrite (points_on_grid snd) by (done || apply series_NoDup || by apply fill_from_NoDup).
    by apply (series_sum snd).
Qed.

Lemma chart_total_witness :
  let d := add_traffic 7260 "phone" 5 7 (add_traffic 7200 "phone" 1 2 empty_db) in
  sum_bytes ((fun p => ((p.1, ""), p.2)) <$> fill_series (series d 3600 9000 600 None 3600) 3600 9000 600 3600)
  = totals d 3600 9000 None ∧ totals d 3600 9000 None = (6, 9).
Proof.
  intros d. split; [|vm_compute; reflexivity].
  apply (chart_total d 3600 9000 600 3600 None); lia.
Defined.
