(* ===== verification/Sessions.v ===== *)
(** * VPN sessions, visits, history and rejections: the session part of [ui/app/db.py] *)

From S2P Require Import Prelude PyStr Schema Traffic.

Open Scope string_scope.
Open Scope list_scope.
Open Scope Z_scope.

Definition MERGE_GAP : Z := 15 * 60.
Definition SHORT_SESSION : Z := 60.

(** ** Addresses as OpenVPN prints them *)

Definition split_address (address : option string) : option string * string :=
  let address := default "" address in
  let '(head, sep, rest) := partition ":"%char address in
  let p := str_take 3 head in
  if sep && (String.eqb p "udp" || String.eqb p "tcp") then (Some p, rest) else (None, address).

Definition real_ip (address : option string) : string :=
  (rpartition ":"%char (split_address address).2).1.1.

(** ** Rejected connection attempts *)

Definition add_rejection (ts : Z) (client reason address : string) (d : database) : database :=
  let k := (ts - ts mod 86400, client, reason, address) in
  upd_rejections (fun m => <[k := match m !! k with
                                  | Some (n, last) => (n + 1, Z.max last ts)
                                  | None => (1, ts)
                                  end]> m) d.

(** ** Sessions *)

(** [COALESCE(disconnected_at, last_seen)]. *)
Definition ended (r : vpn_session) : Z := default (v_last_seen r) (v_disconnected_at r).

Definition set_disconnected (at_ : option Z) (r : vpn_session) : vpn_session :=
  VpnSession (v_client_name r) (v_cid r) (v_real_address r) (v_vpn_ip r) (v_username r) (v_cipher r)
    (v_connected_at r) (v_last_seen r) at_ (v_bytes_in r) (v_bytes_out r) (v_proto r) (v_platform r)
    (v_client_ver r) (v_end_reason r) (v_grp r).

Definition set_end_reason (reason : option string) (r : vpn_session) : vpn_session :=
  VpnSession (v_client_name r) (v_cid r) (v_real_address r) (v_vpn_ip r) (v_username r) (v_cipher r)
    (v_connected_at r) (v_last_seen r) (v_disconnected_at r) (v_bytes_in r) (v_bytes_out r) (v_proto r)
    (v_platform r) (v_client_ver r) reason (v_grp r).

Definition set_grp (grp : option Z) (proto : option string) (r : vpn_session) : vpn_session :=
  VpnSession (v_client_name r) (v_cid r) (v_real_address r) (v_vpn_ip r) (v_username r) (v_cipher r)
    (v_connected_at r) (v_last_seen r) (v_disconnected_at r) (v_bytes_in r) (v_bytes_out r) proto
    (v_platform r) (v_client_ver r) (v_end_reason r) grp.

(** [UPDATE vpn_sessions SET ... WHERE id = ?]. *)
Definition update_session (id : Z) (f : vpn_session → vpn_session) (d : database) : database :=
  upd_vpn (alter f id) d.

Definition is_open (r : vpn_session) : bool := match v_disconnected_at r with None => true | Some _ => false end.

(** [close_stale_sessions]: the new tables and [rowcount]. *)
Definition close_stale_sessions (at_ : option Z) (d : database) : database * nat :=
  (upd_vpn (fmap (fun r => if is_open r then set_disconnected (Some (default (v_last_seen r) at_)) r else r)) d,
   size (filter (fun kv => is_open kv.2 = true) (vpn_sessions d))).

(** [ORDER BY connected_at DESC, id DESC] and [ORDER BY id DESC]. *)
Definition newest (a b : Z * vpn_session) : Prop :=
  v_connected_at b.2 < v_connected_at a.2 ∨ (v_connected_at a.2 = v_connected_at b.2 ∧ b.1 <= a.1).
#[export] Instance newest_dec : RelDecision newest.
Proof. intros a b. unfold newest. apply _. Defined.

Definition highest_id (a b : Z * vpn_session) : Prop := b.1 <= a.1.
#[export] Instance highest_id_dec : RelDecision highest_id.
Proof. intros a b. unfold highest_id. apply _. Defined.

Definition select_sessions (p : vpn_session → bool) (d : database) : list (Z * vpn_session) :=
  filter (fun kv => p kv.2 = true) (map_to_list (vpn_sessions d)).

Definition find_session (d : database) (client_name : string) (cid connected_at : Z) : option (Z * vpn_session) :=
  head (merge_sort highest_id
          (select_sessions (fun r => String.eqb (v_client_name r) client_name
                                     && bool_decide (v_cid r = Some cid)
                                     && (v_connected_at r =? connected_at)) d)).

Definition latest_session (d : database) (client_name : string) (address : option string) (since : Z)
    : option (Z * vpn_session) :=
  let want := (split_address address).2 in
  head (filter (fun kv => (split_address (v_real_address kv.2)).2 = want)
          (take 20 (merge_sort newest
             (select_sessions (fun r => String.eqb (v_client_name r) client_name
                                        && ((since <=? v_connected_at r) || is_open r)) d)))).

Definition session_group (d : database) (client_name : string) (address : option string) (connected_at : Z)
    : option Z :=
  let ip := real_ip address in
  match head (filter (fun kv => real_ip (v_real_address kv.2) = ip)
                (take 20 (merge_sort newest
                   (select_sessions (fun r => String.eqb (v_client_name r) client_name) d)))) with
  | Some (_, r) => if connected_at - ended r <=? MERGE_GAP then v_grp r else None
  | None => None
  end.

(** The keyword arguments of [insert_session]; a column that is not given is NULL
    (0 for the byte counts). *)
Record session_fields := SessionFields {
  f_cid : option Z;
  f_vpn_ip : option string;
  f_username : option string;
  f_cipher : option string;
  f_last_seen : option Z;
  f_disconnected_at : option Z;
  f_end_reason : option string;
  f_bytes_in : Z;
  f_bytes_out : Z;
}.

(** The new tables and the id of the row; a row without a visit starts one of its own. *)
Definition insert_session (d : database) (client_name : string) (real_address : option string)
    (connected_at : Z) (f : session_fields) : database * Z :=
  let identity := vpn_seq d in
  let grp := session_group d client_name real_address connected_at in
  let row :=
    VpnSession client_name (f_cid f) real_address (f_vpn_ip f) (f_username f) (f_cipher f) connected_at
      (default connected_at (f_last_seen f)) (f_disconnected_at f) (f_bytes_in f) (f_bytes_out f)
      (split_address real_address).1 None None (f_end_reason f) grp in
  let d := insert_vpn row d in
  (match grp with
   | None => update_session identity (fun r => set_grp (Some identity) (v_proto r) r) d
   | Some _ => d
   end, identity).

(** [group_sessions]: the rows without a visit, oldest first; [last] maps
    [(client, ip)] to the visit and the end of its latest session. *)
Definition oldest (a b : Z * vpn_session) : Prop :=
  v_connected_at a.2 < v_connected_at b.2 ∨ (v_connected_at a.2 = v_connected_at b.2 ∧ a.1 <= b.1).
#[export] Instance oldest_dec : RelDecision oldest.
Proof. intros a b. unfold oldest. apply _. Defined.

(** [SET grp = ?, proto = COALESCE(proto, ?)]. *)
Definition regroup (grp : Z) (r : vpn_session) : vpn_session :=
  set_grp (Some grp) (match v_proto r with Some p => Some p | None => (split_address (v_real_address r)).1 end) r.

Definition group_row (acc : gmap (string * string) (Z * Z) * database) (kv : Z * vpn_session)
    : gmap (string * string) (Z * Z) * database :=
  let '(last, d) := acc in
  let '(id, r) := kv in
  let key := (v_client_name r, real_ip (v_real_address r)) in
  let '(grp, e) := match last !! key with
                   | Some (g, e) => (if MERGE_GAP <? v_connected_at r - e then id else g, e)
                   | None => (id, 0)
                   end in
  (<[key := (grp, Z.max e (ended r))]> last,
   update_session id (regroup grp) d).

Definition group_sessions (d : database) : database * nat :=
  let rows := merge_sort oldest (filter (fun kv => v_grp kv.2 = None) (map_to_list (vpn_sessions d))) in
  ((foldl group_row (∅, d) rows).2, length rows).

(** ** Visits *)

Record visit := Visit {
  vi_grp : option Z;
  vi_connected_at : Z;
  vi_connections : nat;
  vi_disconnected_at : option Z;
  vi_tcp : nat;
  vi_online_seconds : Z;
  vi_bytes_in : Z;
  vi_bytes_out : Z;
  vi_last_id : Z;
  vi_last : vpn_session;
}.

(** The groups of [GROUP BY grp], each a non-empty list of rows. *)
Definition grp_rows (rows : list (Z * vpn_session)) (g : option Z) : list (Z * vpn_session) :=
  filter (fun kv => v_grp kv.2 = g) rows.

Definition groups (rows : list (Z * vpn_session)) : list (option Z) :=
  remove_dups ((fun kv => v_grp kv.2) <$> rows).

Definition visit_of (g : option Z) (rows : list (Z * vpn_session)) : option visit :=
  match rows with
  | [] => None
  | r0 :: rest =>
      let last := foldl (fun a b => if a.1 <=? b.1 then b else a) r0 rest in     (* MAX(id) *)
      let open := length (filter (fun kv => is_open kv.2 = true) rows) in
      Some (Visit g
        (foldl (fun a kv => Z.min a (v_connected_at kv.2)) (v_connected_at r0.2) rest)
        (length rows)
        (if (0 <? Z.of_nat open) then None
         else Some (foldl (fun a kv => Z.max a (ended kv.2)) (ended r0.2) rest))
        (length (filter (fun kv => v_proto kv.2 = Some "tcp") rows))
        (sumZ (fun kv => ended kv.2 - v_connected_at kv.2) rows)
        (sumZ (fun kv => v_bytes_in kv.2) rows)
        (sumZ (fun kv => v_bytes_out kv.2) rows)
        last.1 last.2)
  end.

(** [ORDER BY connected_at DESC, grp DESC]; PostgreSQL sorts NULL first when descending. *)
Definition grp_ge (a b : option Z) : Prop :=
  match a, b with None, _ => True | Some _, None => False | Some x, Some y => y <= x end.
#[export] Instance grp_ge_dec : RelDecision grp_ge.
Proof. intros [x|] [y|]; simpl; apply _. Defined.

Definition visit_order (a b : visit) : Prop :=
  vi_connected_at b < vi_connected_at a ∨ (vi_connected_at a = vi_connected_at b ∧ grp_ge (vi_grp a) (vi_grp b)).
#[export] Instance visit_order_dec : RelDecision visit_order.
Proof. intros a b. unfold visit_order. apply _. Defined.

(** [visits], for the WHERE clauses its callers pass: all clients, or one. *)
Definition visits (d : database) (client_name : option string) (limit offset : nat) (active : bool)
    : nat * list visit :=
  let rows := select_sessions (fun r => match client_name with
                                        | Some n => String.eqb (v_client_name r) n
                                        | None => true end) d in
  let all := omap (fun g => visit_of g (grp_rows rows g)) (groups rows) in
  let kept := filter (fun v => active = true → vi_disconnected_at v = None) all in
  (length kept, take limit (drop offset (merge_sort visit_order kept))).

(** ** History of a client whose name is given to a new certificate *)

Definition before_ok (before : option Z) (t : Z) : bool :=
  match before with Some b => t <? b | None => true end.

Definition rename_vpn (name key : string) (before : option Z) (r : vpn_session) : vpn_session :=
  if String.eqb (v_client_name r) name && before_ok before (v_connected_at r)
  then VpnSession key (v_cid r) (v_real_address r) (v_vpn_ip r) (v_username r) (v_cipher r)
         (v_connected_at r) (v_last_seen r) (v_disconnected_at r) (v_bytes_in r) (v_bytes_out r) (v_proto r)
         (v_platform r) (v_client_ver r) (v_end_reason r) (v_grp r)
  else r.

Definition rename_relay (name key : string) (before : option Z) (r : relay_session) : relay_session :=
  if String.eqb (rs_client_name r) name && before_ok before (rs_started_at r)
  then RelaySession (rs_grp r) key (rs_credential_id r) (rs_transport r) (rs_started_at r) (rs_last_seen r)
         (rs_sampled_at r) (rs_active r) (rs_accepted r) (rs_denied r) (rs_failed r) (rs_bytes_up r)
         (rs_bytes_down r) (rs_uncounted r)
  else r.

Definition matches_row (name : string) (before : option Z) (kv : (Z * string) * (Z * Z)) : bool :=
  String.eqb kv.1.2 name && before_ok before kv.1.1.

(** [UPDATE traffic_x SET client_name = key WHERE ...]: a row that would get the
    primary key of another one is a UniqueViolation. *)
Definition rename_traffic (name key : string) (before : option Z) (m : traffic) : result traffic :=
  let rest := filter (fun kv => matches_row name before kv = false) m in
  let moved := map_to_list (filter (fun kv => matches_row name before kv = true) m) in
  foldr (fun kv acc =>
           t ← acc;
           match t !! (kv.1.1, key) with
           | Some _ => Raise (DatabaseError "UniqueViolation")
           | None => Ok (<[(kv.1.1, key) := kv.2]> t)
           end) (Ok rest) moved.

Definition has_history (name : string) (before : option Z) (d : database) : bool :=
  bool_decide (select_sessions (fun r => String.eqb (v_client_name r) name && before_ok before (v_connected_at r)) d ≠ []
    ∨ filter (fun kv => (String.eqb (rs_client_name kv.2) name && before_ok before (rs_started_at kv.2)) = true)
        (relay_sessions d) ≠ ∅
    ∨ filter (fun kv => matches_row name before kv = true) (traffic_minute d) ≠ ∅
    ∨ filter (fun kv => matches_row name before kv = true) (traffic_hour d) ≠ ∅
    ∨ filter (fun kv => matches_row name before kv = true) (traffic_day d) ≠ ∅).

Definition archive_client_history (now : Z) (name : string) (before : option Z) (d : database)
    : result (database * option string) :=
  if negb (has_history name before d) then Ok (d, None)
  else
    let key := name +:+ "#" +:+ str_of_int now in
    let d := upd_vpn (fmap (rename_vpn name key before)) d in
    let d := upd_relay (fmap (rename_relay name key before)) d in
    m ← rename_traffic name key before (traffic_minute d);
    h ← rename_traffic name key before (traffic_hour d);
    y ← rename_traffic name key before (traffic_day d);
    let d := upd_traffic (const m) (const h) (const y) d in
    Ok (upd_archived (<[key := ArchivedClient name now]>) d, Some key).

Definition purge_client (name : string) (d : database) : database :=
  let d := upd_vpn (filter (fun kv => v_client_name kv.2 ≠ name)) d in
  let d := upd_relay (filter (fun kv => rs_client_name kv.2 ≠ name)) d in
  let keep := filter (fun kv : (Z * string) * (Z * Z) => kv.1.2 ≠ name) in
  let d := upd_traffic keep keep keep d in
  upd_events (filter (fun e => e_client_name e ≠ Some name)) d.

(** ** Statistics *)

Record conn_stats := ConnStats {
  cs_name : string;
  cs_sessions : nat;
  cs_short : nat;
  cs_tcp : nat;
  cs_left : nat;
  cs_timed_out : nat;
  cs_closed : nat;
  cs_other : nat;
  cs_durations : list Z;
  cs_platform : option string;
  cs_client_ver : option string;
}.

Definition b2n (b : bool) : nat := if b then 1%nat else 0%nat.

(** One row of the loop of [connection_stats]. *)
Definition count_session (s : conn_stats) (r : vpn_session) : conn_stats :=
  let seconds := ended r - v_connected_at r in
  let closed := negb (is_open r) in
  let ends (w : string) := closed && bool_decide (v_end_reason r = Some w) in
  let named := ends "left" || ends "timed out" || ends "closed" in
  ConnStats (cs_name s) (cs_sessions s + 1)
    (cs_short s + b2n (closed && (seconds <? SHORT_SESSION)))
    (cs_tcp s + b2n (bool_decide (v_proto r = Some "tcp")))
    (cs_left s + b2n (ends "left"))
    (cs_timed_out s + b2n (ends "timed out"))
    (cs_closed s + b2n (ends "closed"))
    (cs_other s + b2n (closed && negb named))
    (if closed then cs_durations s ++ [Z.max seconds 0] else cs_durations s)
    (if truthy (v_platform r) then v_platform r else cs_platform s)
    (if truthy (v_platform r) then v_client_ver r else cs_client_ver s).

Definition new_stats (name : string) : conn_stats := ConnStats name 0 0 0 0 0 0 0 [] None None.

(** [d[(len(d) - 1) // 2]] of the sorted durations, [None] without any. *)
Definition median (durations : list Z) : option Z :=
  match durations with
  | [] => None
  | _ => merge_sort Z.le durations !! ((length durations - 1) / 2)%nat
  end.

(** The dict of [connection_stats] in insertion order. *)
Definition count_into (stats : list conn_stats) (r : vpn_session) : list conn_stats :=
  if existsb (fun s => String.eqb (cs_name s) (v_client_name r)) stats
  then (fun s => if String.eqb (cs_name s) (v_client_name r) then count_session s r else s) <$> stats
  else stats ++ [count_session (new_stats (v_client_name r)) r].

Definition by_connected (a b : Z * vpn_session) : Prop := v_connected_at a.2 <= v_connected_at b.2.
#[export] Instance by_connected_dec : RelDecision by_connected.
Proof. intros a b. unfold by_connected. apply _. Defined.

Definition most_sessions (a b : conn_stats * option Z) : Prop := (cs_sessions b.1 <= cs_sessions a.1)%nat.
#[export] Instance most_sessions_dec : RelDecision most_sessions.
Proof. intros a b. unfold most_sessions. apply _. Defined.

(** Each client's counters with the median, most sessions first. *)
Definition connection_stats (d : database) (start fin : Z) : list (conn_stats * option Z) :=
  let rows := merge_sort by_connected
    (select_sessions (fun r => (start <=? v_connected_at r) && (v_connected_at r <? fin)) d) in
  let stats := foldl count_into [] rows.*2 in
  merge_sort most_sessions ((fun s => (s, median (cs_durations s))) <$> stats).

(** ** Lemmas *)

(** The rows in the tables are numbered below the next id. *)
Definition ids_fresh (d : database) : Prop := ∀ k r, vpn_sessions d !! k = Some r → k < vpn_seq d.

(** A visit is named by one of its rows, and all its rows are of one client at one
    address. *)
Definition visits_ok (d : database) : Prop := ∀ k r g,
  vpn_sessions d !! k = Some r → v_grp r = Some g →
  ∃ r0, vpn_sessions d !! g = Some r0 ∧ v_grp r0 = Some g ∧ v_client_name r0 = v_client_name r
    ∧ real_ip (v_real_address r0) = real_ip (v_real_address r).

Lemma elem_of_select p d k r :
  (k, r) ∈ select_sessions p d ↔ vpn_sessions d !! k = Some r ∧ p r = true.
Proof. unfold select_sessions. rewrite list_elem_of_filter, elem_of_map_to_list. simpl. tauto. Qed.

Lemma elem_of_merge_sort {A} (R : relation A) `{∀ x y, Decision (R x y)} x l : x ∈ merge_sort R l ↔ x ∈ l.
Proof. by rewrite (merge_sort_Permutation R l). Qed.

Lemma elem_of_take_1 {A} (x : A) n l : x ∈ take n l → x ∈ l.
Proof. intros Hx. rewrite <- (take_drop n l). set_solver. Qed.

Lemma session_group_Some d client address at_ g :
  session_group d client address at_ = Some g →
  ∃ k r, vpn_sessions d !! k = Some r ∧ v_client_name r = client ∧ real_ip (v_real_address r) = real_ip address
    ∧ v_grp r = Some g ∧ at_ - ended r <= MERGE_GAP.
Proof.
  unfold session_group. destruct (head _) as [[k r]|] eqn:Hh; [|done].
  apply head_Some_elem_of in Hh. apply list_elem_of_filter in Hh as [Hip Hin].
  apply elem_of_take_1 in Hin. apply elem_of_merge_sort, elem_of_select in Hin as [Hk Hc].
  bool_to_prop. simpl in Hip. case_match; [|done]. bool_to_prop. intros Hg. exists k, r. auto.
Qed.

(** What [insert_session] does to the tables. *)
Lemma insert_session_rows d client address at_ f :
  let d' := (insert_session d client address at_ f).1 in
  ∃ row, vpn_sessions d' = <[vpn_seq d := row]> (vpn_sessions d) ∧ vpn_seq d' = vpn_seq d + 1
    ∧ v_client_name row = client ∧ v_real_address row = address ∧ v_connected_at row = at_
    ∧ ((v_grp row = Some (vpn_seq d) ∧ session_group d client address at_ = None)
       ∨ (∃ g, v_grp row = Some g ∧ session_group d client address at_ = Some g)).
Proof.
  unfold insert_session. cbn [fst].
  destruct (session_group d client address at_) as [g|] eqn:Hg.
  - eexists. split; [reflexivity|]. cbn. eauto 10.
  - eexists. cbn [update_session upd_vpn insert_vpn vpn_sessions]. rewrite alter_insert_eq.
    split; [reflexivity|]. cbn. auto 10.
Qed.

(** A new session joins a visit only when it continues it: [insert_session] adds
    one row under a fresh id and changes no other; the row's visit is either its own
    id or that of an existing session of the same client, from the same IP, that ended
    at most fifteen minutes before it; and visits stay those of one client at one
    address. *)
Theorem insert_session_visit d client address at_ f d' id :
  ids_fresh d → visits_ok d → insert_session d client address at_ f = (d', id) →
  id = vpn_seq d ∧ (∀ k, k ≠ id → vpn_sessions d' !! k = vpn_sessions d !! k) ∧ ids_fresh d' ∧ visits_ok d' ∧
  ∃ r g, vpn_sessions d' !! id = Some r ∧ v_client_name r = client ∧ v_real_address r = address
    ∧ v_connected_at r = at_ ∧ v_grp r = Some g
    ∧ (g = id ∨ ∃ k r0, vpn_sessions d !! k = Some r0 ∧ v_client_name r0 = client
          ∧ real_ip (v_real_address r0) = real_ip address ∧ v_grp r0 = Some g ∧ at_ - ended r0 <= MERGE_GAP).
Proof.
  intros Hf Hv Hi.
  pose proof (insert_session_rows d client address at_ f) as (row & Hd & Hseq & Hc & Ha & Ht & Hg).
  assert (id = vpn_seq d) as -> by (by injection Hi). rewrite Hi in Hd, Hseq. simpl in Hd, Hseq.
  split; [done|].
  assert (Hnew : vpn_sessions d !! vpn_seq d = None).
  { destruct (vpn_sessions d !! vpn_seq d) eqn:E; [|done]. apply Hf in E. lia. }
  rewrite Hd. split; [intros k Hk; by apply lookup_insert_ne|]. split.
  { intros k r. rewrite Hd, Hseq, lookup_insert_Some. intros [[<- _]|[_ ?%Hf]]; lia. }
  split.
  - intros k r g. rewrite Hd, lookup_insert_Some.
    intros [[<- <-]|[Hne Hk]] Hgrp.
    + destruct Hg as [[Hg _]|(g' & Hg & Hs)]; rewrite Hg in Hgrp; injection Hgrp as <-.
      * exists row. rewrite lookup_insert_eq. auto.
      * apply session_group_Some in Hs as (k & r & Hk & Hcr & Hip & Hgr & _).
        destruct (Hv _ _ _ Hk Hgr) as (r0 & Hr0 & ? & ? & ?). exists r0.
        rewrite lookup_insert_ne by congruence. split_and!; [done..| |]; congruence.
    + destruct (Hv _ _ _ Hk Hgrp) as (r0 & Hr0 & ?). exists r0. rewrite lookup_insert_ne by congruence. auto.
  - exists row. rewrite lookup_insert_eq. destruct Hg as [[Hg _]|(g & Hg & Hs)].
    + exists (vpn_seq d). auto 10.
    + exists g. split_and!; [done..|]. right. by apply session_group_Some in Hs.
Qed.

Definition no_fields : session_fields := SessionFields (Some 1) None None None None None None 0 0.

(** Alice was connected from one address from second 1000 to second 2000. *)
Definition alice_session : vpn_session :=
  VpnSession "alice" (Some 0) (Some "udp4:203.0.113.9:4711") None None None 1000 2000 (Some 2000) 10 20
    (Some "udp") None None (Some "left") (Some 1).
Definition alice_db : database := insert_vpn alice_session empty_db.

Lemma alice_rows k r : vpn_sessions alice_db !! k = Some r → k = 1 ∧ r = alice_session.
Proof.
  unfold alice_db. cbn. rewrite insert_empty. by intros [<- <-]%lookup_singleton_Some.
Qed.
Lemma alice_ids : ids_fresh alice_db.
Proof. intros k r [-> _]%alice_rows. reflexivity. Qed.
Lemma alice_visits : visits_ok alice_db.
Proof.
  intros k r g [-> ->]%alice_rows Hg. injection Hg as <-. exists alice_session.
  split_and!; reflexivity.
Qed.

Lemma insert_session_visit_witness :
  ∃ d', insert_session alice_db "alice" (Some "tcp4-server:203.0.113.9:9999") 2600 no_fields = (d', 2)
    ∧ 2 = vpn_seq alice_db ∧ visits_ok d'.
Proof.
  eexists. split; [reflexivity|].
  destruct (insert_session_visit alice_db "alice" (Some "tcp4-server:203.0.113.9:9999") 2600 no_fields _ 2
    alice_ids alice_visits eq_refl) as (? & _ & _ & ? & _). split; assumption.
Defined.

(** *** [group_sessions] *)

Definition group_inv (last : gmap (string * string) (Z * Z)) (d : database) : Prop :=
  visits_ok d ∧ ∀ key g e, last !! key = Some (g, e) →
    ∃ r0, vpn_sessions d !! g = Some r0 ∧ v_grp r0 = Some g ∧ (v_client_name r0, real_ip (v_real_address r0)) = key.

Lemma update_session_rows id f d k :
  vpn_sessions (update_session id f d) !! k = (if decide (k = id) then f <$> vpn_sessions d !! k else vpn_sessions d !! k).
Proof.
  unfold update_session. cbn. case_decide as Hk; [subst; by rewrite lookup_alter_eq|by rewrite lookup_alter_ne].
Qed.

Lemma group_row_step last d id r last' d' :
  group_inv last d → vpn_sessions d !! id = Some r → v_grp r = None →
  group_row (last, d) (id, r) = (last', d') →
  group_inv last' d' ∧ (∃ g p, vpn_sessions d' !! id = Some (set_grp (Some g) p r)) ∧
  (∀ k, k ≠ id → vpn_sessions d' !! k = vpn_sessions d !! k).
Proof.
  intros [Hv Hl] Hid Hnone. unfold group_row.
  set (key := (v_client_name r, real_ip (v_real_address r))).
  destruct (match last !! key with
            | Some (g, e) => (if MERGE_GAP <? v_connected_at r - e then id else g, e)
            | None => (id, 0) end) as [grp e] eqn:Hgrp.
  assert (Hcase : grp = id ∨ ∃ r0, vpn_sessions d !! grp = Some r0 ∧ v_grp r0 = Some grp
      ∧ (v_client_name r0, real_ip (v_real_address r0)) = key).
  { destruct (last !! key) as [[g0 e0]|] eqn:Hk; [|injection Hgrp as <- <-; auto].
    destruct (MERGE_GAP <? _); injection Hgrp as <- <-; [auto|]. right. eauto. }
  intros [= <- <-].
  assert (Hat : ∃ p, vpn_sessions (update_session id (regroup grp) d) !! id
      = Some (set_grp (Some grp) p r)).
  { rewrite update_session_rows, decide_True by done. rewrite Hid. simpl. eauto. }
  destruct Hat as [p Hat].
  assert (Hother : ∀ k, k ≠ id → vpn_sessions (update_session id (regroup grp) d) !! k
      = vpn_sessions d !! k).
  { intros k Hk. by rewrite update_session_rows, decide_False. }
  assert (Hkeep : ∀ g r0, vpn_sessions d !! g = Some r0 → v_grp r0 = Some g → g ≠ id) by congruence.
  assert (Hgr : ∃ r0, vpn_sessions (update_session id (regroup grp) d) !! grp = Some r0
      ∧ v_grp r0 = Some grp ∧ (v_client_name r0, real_ip (v_real_address r0)) = key).
  { destruct Hcase as [->|(r0 & H0 & Hg0 & Hk0)]; [eauto|]. exists r0. rewrite Hother by eauto. auto. }
  split; [split|split; [eauto|done]].
  - intros k rk g. destruct (decide (k = id)) as [->|Hk].
    + rewrite Hat. intros [= <-] [= <-]. destruct Hgr as (r0 & ? & ? & [= ? ?]). exists r0. auto.
    + rewrite Hother by done. intros Hrk Hg. destruct (Hv _ _ _ Hrk Hg) as (r0 & H0 & Hg0 & ?).
      exists r0. rewrite Hother by eauto. auto.
  - intros key' g e'. rewrite lookup_insert_Some. intros [[<- [= <- <-]]|[_ Hk]]; [done|].
    destruct (Hl _ _ _ Hk) as (r0 & H0 & Hg0 & ?). exists r0. rewrite Hother by eauto. auto.
Qed.

Lemma group_rows_fold rows : ∀ last d,
  group_inv last d → NoDup rows.*1 →
  (∀ id r, (id, r) ∈ rows → vpn_sessions d !! id = Some r ∧ v_grp r = None) →
  let d' := (foldl group_row (last, d) rows).2 in
  visits_ok d' ∧ (∀ id r, (id, r) ∈ rows → ∃ g p, vpn_sessions d' !! id = Some (set_grp (Some g) p r))
  ∧ (∀ k, k ∉ rows.*1 → vpn_sessions d' !! k = vpn_sessions d !! k).
Proof.
  induction rows as [|[id r] rows IH]; intros last d Hinv Hnd Hrows; [by split_and!; [apply Hinv|set_solver|]|].
  cbn [foldl]. destruct (group_row (last, d) (id, r)) as [last' d'] eqn:Hstep.
  rewrite fmap_cons in Hnd. apply NoDup_cons in Hnd as [Hnin Hnd]. simpl in Hnin.
  destruct (Hrows id r) as [Hid Hnone]; [set_solver|].
  destruct (group_row_step _ _ _ _ _ _ Hinv Hid Hnone Hstep) as (Hinv' & (g & p & Hat) & Hother).
  destruct (IH last' d' Hinv' Hnd) as (Hv & Hdone & Hrest).
  { intros k rk Hk. rewrite Hother; [apply Hrows; set_solver|].
    intros ->. apply Hnin. apply list_elem_of_fmap. by exists (id, rk). }
  split_and!; [done| |].
  - intros k rk [[= -> ->]|Hk]%elem_of_cons; [|by apply Hdone]. exists g, p. rewrite Hrest by done. done.
  - intros k Hk. rewrite fmap_cons, not_elem_of_cons in Hk. destruct Hk as [Hne Hk].
    rewrite Hrest by done. by apply Hother.
Qed.

(** [group_sessions] gives every session a visit: afterwards no row is without
    one, a row that already had one is untouched, the others keep every column but
    the visit and the transport, visits are still those of one client at one address,
    and a second run finds nothing to do. *)
Theorem group_sessions_complete d d' n :
  visits_ok d → group_sessions d = (d', n) →
  visits_ok d' ∧
  (∀ k r, vpn_sessions d !! k = Some r → v_grp r ≠ None → vpn_sessions d' !! k = Some r) ∧
  (∀ k r, vpn_sessions d !! k = Some r → v_grp r = None → ∃ g p, vpn_sessions d' !! k = Some (set_grp (Some g) p r)) ∧
  dom (vpn_sessions d') = dom (vpn_sessions d) ∧
  group_sessions d' = (d', 0%nat).
Proof.
  intros Hv [= <- <-].
  set (rows := merge_sort oldest (filter (fun kv => v_grp kv.2 = None) (map_to_list (vpn_sessions d)))).
  assert (Hrows : ∀ id r, (id, r) ∈ rows ↔ vpn_sessions d !! id = Some r ∧ v_grp r = None).
  { intros id r. unfold rows. rewrite elem_of_merge_sort, list_elem_of_filter, elem_of_map_to_list. simpl. tauto. }
  assert (Hnd : NoDup rows.*1).
  { unfold rows. rewrite merge_sort_Permutation. apply NoDup_fst_filter_list, NoDup_fst_map_to_list. }
  destruct (group_rows_fold rows ∅ d) as (Hv' & Hdone & Hrest); [by split|done|naive_solver|].
  set (d' := (foldl group_row (∅, d) rows).2) in *.
  assert (Hkeep : ∀ k r, vpn_sessions d !! k = Some r → v_grp r ≠ None → vpn_sessions d' !! k = Some r).
  { intros k r Hk Hg. rewrite Hrest; [done|]. intros ([k' r'] & -> & Hin)%list_elem_of_fmap.
    apply Hrows in Hin as [Hin ?]. simpl in *. congruence. }
  assert (Hset : ∀ k r, vpn_sessions d !! k = Some r → v_grp r = None →
    ∃ g p, vpn_sessions d' !! k = Some (set_grp (Some g) p r)).
  { intros k r Hk Hg. apply Hdone. by apply Hrows. }
  assert (Hnone : ∀ k, vpn_sessions d !! k = None → vpn_sessions d' !! k = None).
  { intros k Hk. rewrite Hrest; [done|]. intros ([k' r'] & -> & Hin)%list_elem_of_fmap.
    apply Hrows in Hin as [Hin ?]. simpl in *. congruence. }
  split_and!; [done..| |].
  - apply set_eq. intros k. rewrite !elem_of_dom. destruct (vpn_sessions d !! k) as [r|] eqn:Hk.
    + destruct (v_grp r) eqn:Hg; [by rewrite (Hkeep k r) by congruence|].
      destruct (Hset k r Hk Hg) as (g & p & ->). split; eauto.
    + by rewrite Hnone.
  - unfold group_sessions. assert (filter (fun kv => v_grp kv.2 = None) (map_to_list (vpn_sessions d')) = []) as ->; [|done].
    apply elem_of_nil_inv. intros [k r] [Hg Hk]%list_elem_of_filter. apply elem_of_map_to_list in Hk. simpl in Hg.
    destruct (vpn_sessions d !! k) as [r0|] eqn:Hk0; [|by rewrite Hnone in Hk].
    destruct (v_grp r0) eqn:Hg0; [rewrite (Hkeep k r0) in Hk by congruence; congruence|].
    destruct (Hset k r0 Hk0 Hg0) as (g & p & Hk'). rewrite Hk in Hk'. injection Hk' as ->. done.
Qed.

Lemma group_sessions_complete_witness :
  let d := insert_vpn (set_grp None None alice_session) (insert_vpn (set_grp None None alice_session) empty_db) in
  visits_ok (group_sessions d).1.
Proof.
  intros d. apply (group_sessions_complete d (group_sessions d).1 (group_sessions d).2).
  - intros k r g Hk Hg. unfold d in Hk. cbn in Hk.
    apply lookup_insert_Some in Hk as [[_ <-]|[_ Hk]]; [discriminate Hg|].
    apply lookup_insert_Some in Hk as [[_ <-]|[_ Hk]]; [discriminate Hg|]. rewrite lookup_empty in Hk. discriminate Hk.
  - destruct (group_sessions d). reflexivity.
Defined.

(** *** [connection_stats] *)

Definition stats_ok (s : conn_stats) : Prop :=
  (cs_left s + cs_timed_out s + cs_closed s + cs_other s = length (cs_durations s)
   ∧ length (cs_durations s) <= cs_sessions s ∧ cs_short s <= length (cs_durations s)
   ∧ cs_tcp s <= cs_sessions s)%nat ∧ Forall (fun t => 0 <= t) (cs_durations s).

Lemma count_session_ok s r : stats_ok s → stats_ok (count_session s r).
Proof.
  intros [(H1 & H2 & H3 & H4) HF]. unfold stats_ok, count_session.
  destruct (negb (is_open r)); cbn [andb orb negb b2n cs_left cs_timed_out cs_closed cs_other cs_durations cs_sessions
    cs_short cs_tcp].
  - rewrite length_app. simpl length. split; [|apply Forall_app; split; [done|]; constructor; [lia|done]].
    split_and!; [|lia|destruct (_ <? _); simpl; lia|destruct (bool_decide _); simpl; lia].
    destruct (bool_decide (v_end_reason r = Some "left")) eqn:E1;
      destruct (bool_decide (v_end_reason r = Some "timed out")) eqn:E2;
      destruct (bool_decide (v_end_reason r = Some "closed")) eqn:E3; simpl; bool_to_prop; try congruence; lia.
  - split; [|done]. simpl. split_and!; [lia..|]. destruct (bool_decide _); simpl; lia.
Qed.

Lemma new_stats_ok n : stats_ok (new_stats n).
Proof. split; [simpl; lia|constructor]. Qed.

(** The counters of a table of clients: one entry per client, each consistent, with
    the number of sessions of [rows] that are the client's. *)
Definition table_ok (stats : list conn_stats) (rows : list vpn_session) : Prop :=
  NoDup (cs_name <$> stats) ∧ Forall stats_ok stats ∧
  (∀ s, s ∈ stats → cs_sessions s = length (filter (fun r => v_client_name r = cs_name s) rows)) ∧
  (∀ r, r ∈ rows → v_client_name r ∈ cs_name <$> stats).

Lemma count_session_name s r : cs_name (count_session s r) = cs_name s.
Proof. done. Qed.

Lemma count_into_ok stats rows r : table_ok stats rows → table_ok (count_into stats r) (rows ++ [r]).
Proof.
  intros (Hnd & Hok & Hn & Hall). unfold count_into.
  destruct (existsb _ stats) eqn:He.
  - apply existsb_exists in He as (s0 & Hs0 & Heq%String.eqb_eq). apply list_elem_of_In in Hs0.
    assert (Hnames : cs_name <$> ((fun s => if String.eqb (cs_name s) (v_client_name r) then count_session s r else s) <$> stats)
      = cs_name <$> stats).
    { rewrite <- list_fmap_compose. apply list_fmap_ext. intros i s _. simpl. by destruct (String.eqb _ _). }
    split_and!.
    + by rewrite Hnames.
    + apply Forall_fmap. eapply Forall_impl; [exact Hok|]. intros s Hs. simpl. destruct (String.eqb _ _); [|done].
      by apply count_session_ok.
    + intros s (s' & -> & Hs')%list_elem_of_fmap. rewrite filter_app, length_app.
      destruct (String.eqb_spec (cs_name s') (v_client_name r)) as [E|E]; cbn [cs_sessions cs_name count_session].
      * rewrite (Hn s' Hs'). rewrite filter_cons, decide_True by done. done.
      * rewrite (Hn s' Hs'). rewrite filter_cons, decide_False by congruence. simpl. lia.
    + intros r' [Hr'| ->%list_elem_of_singleton]%elem_of_app; rewrite Hnames; [by apply Hall|].
      apply list_elem_of_fmap. by exists s0.
  - assert (Hnew : v_client_name r ∉ cs_name <$> stats).
    { intros (s & Hs & Hin)%list_elem_of_fmap. apply not_true_iff_false in He. apply He.
      apply existsb_exists. exists s. split; [by apply list_elem_of_In|]. by apply String.eqb_eq. }
    split_and!.
    + rewrite fmap_app. apply NoDup_app. split_and!; [done| |apply NoDup_singleton].
      intros x Hx ->%list_elem_of_singleton. by apply Hnew.
    + apply Forall_app. split; [done|]. constructor; [|done]. by apply count_session_ok, new_stats_ok.
    + intros s [Hs| ->%list_elem_of_singleton]%elem_of_app; rewrite filter_app, length_app, filter_cons, filter_nil.
      * rewrite decide_False; [rewrite (Hn s Hs); simpl; lia|]. intros Heq. apply Hnew. rewrite Heq.
        apply list_elem_of_fmap. by exists s.
      * rewrite decide_True by done. cbn [cs_sessions cs_name count_session new_stats].
        assert (filter (fun r0 => v_client_name r0 = v_client_name r) rows = []) as ->; [|done].
        apply elem_of_nil_inv. intros r' [Heq Hin]%list_elem_of_filter. apply Hall in Hin. by rewrite Heq in Hin.
    + intros r' [Hr'| ->%list_elem_of_singleton]%elem_of_app; rewrite fmap_app; apply elem_of_app; [left; by apply Hall|].
      right. by apply list_elem_of_singleton.
Qed.

Lemma count_fold_ok rows : ∀ stats done_, table_ok stats done_ → table_ok (foldl count_into stats rows) (done_ ++ rows).
Proof.
  induction rows as [|r rows IH]; intros stats done_ H; simpl; [by rewrite app_nil_r|].
  rewrite cons_middle, app_assoc. apply IH. by apply count_into_ok.
Qed.

Lemma fmap_pair_fst {A B} (f : A → B) l : ((fun x => (x, f x)) <$> l).*1 = l.
Proof. induction l as [|x l IH]; [done|]. rewrite !fmap_cons. by rewrite IH. Qed.

(** The reconnect statistics add up: [connection_stats] has one entry per client
    that connected in the range, its number of sessions is the number of rows of that
    client, every ended session is counted under exactly one of left, timed out,
    closed and other, short and TCP sessions are among them, and durations are never
    negative. *)
Theorem connection_stats_consistent d start fin :
  let stats := (connection_stats d start fin).*1 in
  let rows := select_sessions (fun r => (start <=? v_connected_at r) && (v_connected_at r <? fin)) d in
  NoDup (cs_name <$> stats) ∧
  (∀ s, s ∈ stats → stats_ok s ∧ cs_sessions s = length (filter (fun kv => v_client_name kv.2 = cs_name s) rows)) ∧
  (∀ kv, kv ∈ rows → v_client_name kv.2 ∈ cs_name <$> stats).
Proof.
  intros stats rows. set (srows := merge_sort by_connected rows).
  assert (Hp : stats ≡ₚ foldl count_into [] srows.*2).
  { unfold stats, connection_stats. rewrite (merge_sort_Permutation most_sessions). by rewrite fmap_pair_fst. }
  assert (Hsr : srows ≡ₚ rows) by apply merge_sort_Permutation.
  destruct (count_fold_ok srows.*2 [] []) as (Hnd & Hok & Hn & Hall); [by split_and!; [constructor| |set_solver..]|].
  simpl in *. split_and!; [by rewrite Hp| |].
  - intros s Hs. rewrite Hp in Hs. split; [by rewrite Forall_forall in Hok; apply Hok|]. rewrite (Hn s Hs), <- Hsr.
    clear. induction srows as [|[k r] l IH]; [done|]. rewrite fmap_cons, !filter_cons. simpl. case_decide; simpl; auto.
  - intros kv Hkv. rewrite Hp. apply Hall. apply list_elem_of_fmap. exists kv. by rewrite Hsr.
Qed.

(** *** [visits] *)

Lemma sumZ_if_none {A} (f : A → Z) (P : A → Prop) `{∀ x, Decision (P x)} l :
  (∀ x, x ∈ l → ¬ P x) → sumZ f (filter P l) = 0.
Proof.
  intros Hn. rewrite sumZ_filter. apply sumZ_zero. intros x Hx. rewrite decide_False; [done|]. by apply Hn.
Qed.

(** Summing group by group is summing over all rows. *)
Lemma sumZ_groups {A K} `{EqDecision K} (key : A → K) (f : A → Z) (keys : list K) (l : list A) :
  NoDup keys → (∀ x, x ∈ l → key x ∈ keys) →
  sumZ (fun k => sumZ f (filter (fun x => key x = k) l)) keys = sumZ f l.
Proof.
  intros Hnd. induction l as [|x l IH]; intros Hin.
  { simpl. apply sumZ_zero. done. }
  rewrite (sumZ_ext _ (fun k => (if decide (key x = k) then f x else 0) + sumZ f (filter (fun x => key x = k) l))).
  2:{ intros k _. rewrite filter_cons. case_decide; simpl; lia. }
  rewrite sumZ_add, IH by set_solver. simpl. f_equal.
  assert (Hx : key x ∈ keys) by set_solver. clear Hin IH. induction keys as [|k keys IHk]; [set_solver|].
  apply NoDup_cons in Hnd as [Hk Hnd]. simpl. case_decide as Heq.
  - rewrite sumZ_zero; [lia|]. intros k' Hk'. rewrite decide_False; [done|]. congruence.
  - rewrite IHk; [lia|done|]. set_solver.
Qed.

Lemma sumZ_one {A} (l : list A) : sumZ (fun _ => 1) l = Z.of_nat (length l).
Proof. induction l as [|x l IH]; [reflexivity|]. cbn [length sumZ]. lia. Qed.

Lemma visit_of_sum g rows v :
  visit_of g rows = Some v →
  Z.of_nat (vi_connections v) = sumZ (fun _ => 1) rows ∧ vi_bytes_in v = sumZ (fun kv => v_bytes_in kv.2) rows
  ∧ vi_bytes_out v = sumZ (fun kv => v_bytes_out kv.2) rows
  ∧ vi_online_seconds v = sumZ (fun kv => ended kv.2 - v_connected_at kv.2) rows.
Proof.
  destruct rows as [|r0 rest]; [done|]. unfold visit_of. intros [= <-].
  cbn [vi_connections vi_bytes_in vi_bytes_out vi_online_seconds]. split_and!; try reflexivity.
  by rewrite sumZ_one.
Qed.

Lemma sumZ_omap_visits (h : visit → Z) (f : Z * vpn_session → Z) rows gs :
  (∀ g v, visit_of g (grp_rows rows g) = Some v → h v = sumZ f (grp_rows rows g)) →
  sumZ h (omap (fun g => visit_of g (grp_rows rows g)) gs) = sumZ (fun g => sumZ f (grp_rows rows g)) gs.
Proof.
  intros Hh. induction gs as [|g gs IH]; [done|].
  change (omap ?f (g :: gs)) with (match f g with Some y => y :: omap f gs | None => omap f gs end).
  cbn [sumZ]. destruct (visit_of g (grp_rows rows g)) as [v|] eqn:Hv; cbn [sumZ]; rewrite IH.
  - by rewrite (Hh g v Hv).
  - by destruct (grp_rows rows g).
Qed.

(** Visits partition the sessions: over all pages, the connections, bytes and
    seconds online of the listed visits add up to those of the sessions of the client
    (or of all clients), and the count that comes with a page is the number of visits. *)
Theorem visits_partition d client limit :
  let '(n, page) := visits d client limit 0 false in
  let rows := select_sessions (fun r => match client with Some c => String.eqb (v_client_name r) c | None => true end) d in
  (n <= limit)%nat →
  length page = n ∧ sumZ (fun v => Z.of_nat (vi_connections v)) page = Z.of_nat (length rows) ∧
  sumZ vi_bytes_in page = sumZ (fun kv => v_bytes_in kv.2) rows ∧
  sumZ vi_bytes_out page = sumZ (fun kv => v_bytes_out kv.2) rows ∧
  sumZ vi_online_seconds page = sumZ (fun kv => ended kv.2 - v_connected_at kv.2) rows.
Proof.
  unfold visits. set (rows := select_sessions _ d).
  set (all := omap (fun g => visit_of g (grp_rows rows g)) (groups rows)).
  rewrite (filter_all_id _ all) by (intros v _ ?; discriminate). intros Hn. rewrite drop_0.
  assert (Hlen : length (merge_sort visit_order all) = length all) by (by rewrite merge_sort_Permutation).
  rewrite take_ge by lia.
  assert (Hsum : ∀ h f, (∀ g v, visit_of g (grp_rows rows g) = Some v → h v = sumZ f (grp_rows rows g)) →
    sumZ h (merge_sort visit_order all) = sumZ f rows).
  { intros h f Hh. rewrite (sumZ_perm _ _ _ (merge_sort_Permutation visit_order all)).
    unfold all. rewrite (sumZ_omap_visits h f) by done. apply sumZ_groups; [apply NoDup_remove_dups|].
    intros kv Hkv. apply elem_of_remove_dups, list_elem_of_fmap. by exists kv. }
  split_and!; [done| |apply Hsum; intros; by eapply visit_of_sum..].
  rewrite (Hsum _ (fun _ => 1)); [apply sumZ_one|intros; by eapply visit_of_sum].
Qed.

Lemma visits_partition_witness : ∃ v, visits alice_db (Some "alice") 10 0 false = (1%nat, [v]) ∧ vi_bytes_in v + 0 = 10 + 0.
Proof.
  eexists. split; [reflexivity|].
  pose proof (visits_partition alice_db (Some "alice") 10) as H. cbv beta iota zeta in H.
  destruct H as (_ & _ & H & _); [vm_compute; lia|exact H].
Defined.

(** *** [archive_client_history] *)

Definition moved_row (name : string) (before : option Z) (key : string) (k : Z * string) : Z * string :=
  if String.eqb k.2 name && before_ok before k.1 then (k.1, key) else k.

Lemma rename_fold key moved : ∀ rest t (f : Z * string → Z * Z → Z),
  foldr (fun kv acc => t ← acc;
           match t !! (kv.1.1, key) with Some _ => Raise (DatabaseError "UniqueViolation") | None => Ok (<[(kv.1.1, key) := kv.2]> t) end)
    (Ok rest) moved = Ok t →
  map_sum f t = map_sum f rest + sumZ (fun kv : (Z * string) * (Z * Z) => f (kv.1.1, key) kv.2) moved ∧
  ∀ k, is_Some (t !! k) → is_Some (rest !! k) ∨ k.2 = key.
Proof.
  induction moved as [|kv moved IH]; intros rest t f; cbn [foldr].
  { intros [= <-]. simpl. split; [lia|auto]. }
  intros H. inv_result. destruct (a !! (kv.1.1, key)) eqn:Hk; [done|]. inv_result.
  destruct (IH _ _ f E) as [Hs Hkeys]. split.
  - rewrite map_sum_insert by done. simpl. lia.
  - intros k' [v Hv]. apply lookup_insert_Some in Hv as [[<- _]|[_ Hv]]; [by right|]. apply Hkeys. eauto.
Qed.

Lemma rename_traffic_sum name key before m t f :
  rename_traffic name key before m = Ok t →
  map_sum f t = map_sum (fun k v => f (moved_row name before key k) v) m ∧
  (key ≠ name → ∀ ts v, t !! (ts, name) = Some v → before_ok before ts = false).
Proof.
  unfold rename_traffic. intros H. destruct (rename_fold _ _ _ _ f H) as [Hs Hkeys]. split.
  - rewrite Hs. rewrite map_sum_filter.
    change (sumZ _ (map_to_list ?m')) with (map_sum (fun k v => f (k.1, key) v) m').
    rewrite map_sum_filter, <- map_sum_add. apply map_sum_ext. intros [ts n] v _. unfold matches_row, moved_row. simpl.
    destruct (String.eqb n name && before_ok before ts); repeat case_decide; simpl; congruence || lia.
  - intros Hne ts v Hv. destruct (Hkeys (ts, name)) as [[w Hw]|Heq]; [eauto| |simpl in Heq; congruence].
    apply map_lookup_filter_Some in Hw as [_ Hw]. unfold matches_row in Hw. simpl in Hw.
    by rewrite String.eqb_refl in Hw.
Qed.

(** Archiving loses no traffic: when the history of a name is moved to its archive
    key, every byte that was counted for the name (before the given time) is counted
    for the key, bytes of other clients and of later times stay where they were, and
    nothing of the name from that time is left; sessions move the same way. *)
Theorem archive_moves_history d now name before d' key (weight : Z * string → Z * Z → Z) :
  archive_client_history now name before d = Ok (d', Some key) →
  key = name +:+ "#" +:+ str_of_int now ∧
  (∀ table, table = traffic_minute ∨ table = traffic_hour ∨ table = traffic_day →
     map_sum weight (table d') = map_sum (fun k v => weight (moved_row name before key k) v) (table d)
     ∧ ∀ ts v, table d' !! (ts, name) = Some v → before_ok before ts = false) ∧
  vpn_sessions d' = rename_vpn name key before <$> vpn_sessions d ∧
  archived_clients d' !! key = Some (ArchivedClient name now).
Proof.
  unfold archive_client_history. destruct (negb (has_history name before d)); [done|]. intros H.
  inv_result. injection H as <- <-. cbn in *. split; [done|].
  assert (Hne : name +:+ "#" +:+ str_of_int now ≠ name).
  { intros Heq%(f_equal String.length). rewrite !str_length_app in Heq. simpl in Heq. lia. }
  split_and!; [|done|apply lookup_insert_eq].
  intros table [->|[->| ->]]; cbn;
    match goal with H : rename_traffic _ _ _ (?t d) = Ok _ |- context [map_sum _ (?t d)] =>
      destruct (rename_traffic_sum _ _ _ _ _ weight H) as [-> Hr] end; (split; [reflexivity|by apply Hr]).
Qed.

Lemma archive_moves_history_witness :
  ∃ d', archive_client_history 5000 "alice" None (add_traffic 1020 "alice" 7 9 alice_db) = Ok (d', Some "alice#5000")
    ∧ "alice#5000" = "alice" +:+ "#" +:+ str_of_int 5000.
Proof.
  eexists. split; [vm_compute; reflexivity|].
  eapply (archive_moves_history (add_traffic 1020 "alice" 7 9 alice_db) 5000 "alice" None _ "alice#5000" (fun _ v => v.1)).
  vm_compute. reflexivity.
Defined.
