(* ===== verification/Mgmt.v ===== *)
(** * The OpenVPN management client: [ui/app/mgmt.py]

    The socket is modelled by what it delivers.  [conn_script] is one TCP
    connection: the results of the [recv] calls in order and the results of the
    [sendall] calls; a script that is used up behaves like a silent peer, whose
    [recv] ends in a timeout (an OSError) after [settimeout].  The environment is
    the list of connections that [socket.create_connection] will make, [None] for
    one that fails.

    Bytes are [string]s.  [decode] stands for [bytes.decode("utf-8", "replace")];
    it is a parameter, because code points above U+00FF are not represented. *)

From S2P Require Import Prelude PyStr.

Open Scope string_scope.
Open Scope list_scope.
Open Scope Z_scope.

(** ** The NAME_RE pattern: a letter or digit, then up to 63 of letters, digits and _ . @ - *)

Definition name_char (c : ascii) : bool :=
  is_alnum_az c || Ascii.eqb c "_"%char || Ascii.eqb c "."%char || Ascii.eqb c "@"%char || Ascii.eqb c "-"%char.
Definition name_re (s : string) : bool :=
  match s with
  | String c t => is_alnum_az c && str_forall name_char t && (strlen t <=? 63)
  | EmptyString => false
  end.

(** ** The client and its environment *)

Inductive recv_result :=
| Data (b : string)        (* bytes arrived; [""] is the end of the stream *)
| Timeout                  (* socket.timeout *)
| Failure.                 (* another OSError *)

Record conn_script := ConnScript { recvs : list recv_result; sends : list bool }.

(** [Management]: the socket, the buffer and the time stamp; [m_net] are the
    connections still to come and [m_log] is every payload given to [sendall]. *)
Record mgmt := Mgmt {
  m_sock : option conn_script;
  m_buf : string;
  m_since : option Z;
  m_net : list (option conn_script);
  m_log : list string;
}.

(** Statements that read and change the client and may raise: an exception keeps
    the state it was raised in. *)
Definition M (A : Type) : Type := mgmt → result A * mgmt.
#[export] Instance M_ret : MRet M := fun A a m => (Ok a, m).
#[export] Instance M_bind : MBind M := fun A B f c m =>
  match c m with
  | (Ok a, m) => f a m
  | (Raise e, m) => (Raise e, m)
  end.
Definition raise {A} (e : exn) : M A := fun m => (Raise e, m).
Definition lift {A} (r : result A) : M A := fun m => (r, m).
Definition gets {A} (f : mgmt → A) : M A := fun m => (Ok (f m), m).
Definition modify (f : mgmt → mgmt) : M unit := fun m => (Ok tt, f m).

Definition set_conn (sock : option conn_script) (buf : string) (m : mgmt) : mgmt :=
  Mgmt sock buf (m_since m) (m_net m) (m_log m).

Definition connected (m : mgmt) : bool := match m_sock m with Some _ => true | None => false end.

(** [close] drops the socket, the buffer and the time stamp. *)
Definition closed (m : mgmt) : mgmt := Mgmt None "" None (m_net m) (m_log m).
Definition close : M unit := modify closed.

(** [sock.recv(4096)]. *)
Definition recv : M recv_result := fun m =>
  match m_sock m with
  | Some (ConnScript (r :: rs) ss) => (Ok r, set_conn (Some (ConnScript rs ss)) (m_buf m) m)
  | _ => (Ok Timeout, m)
  end.

(** [sock.sendall(data)]. *)
Definition sendall (data : string) : M unit := fun m =>
  let m := Mgmt (m_sock m) (m_buf m) (m_since m) (m_net m) (m_log m ++ [data]) in
  match m_sock m with
  | Some (ConnScript rs (ok :: ss)) =>
      (if ok then Ok tt else Raise OSError, set_conn (Some (ConnScript rs ss)) (m_buf m) m)
  | Some (ConnScript _ []) => (Ok tt, m)
  | None => (Raise OSError, m)
  end.

Definition has_lf (b : string) : bool := mem_char lf b.

(** The number of [recv] results left on the connection. *)
Definition pending_recvs (m : mgmt) : nat :=
  match m_sock m with Some s => length (recvs s) | None => 0 end.

(** The number of bytes that are still to be read. *)
Definition input_size (m : mgmt) : nat :=
  String.length (m_buf m)
  + match m_sock m with
    | Some s => foldr (fun r n => match r with Data b => String.length b | _ => 0 end + n)%nat 0%nat (recvs s)
    | None => 0
    end.

Section protocol.
Context (decode : string → string) (password : option string) (now : Z) (ticks : nat).

(** The text of one received line: decoded, without the carriage return. *)
Definition line_text (raw : string) : string := rstrip_char cr (decode raw).

(** [while b"\n" not in self._buf] of [_readline]: the fuel is the number of
    results the connection has left, plus the timeout of a silent one. *)
Fixpoint fill_line (fuel : nat) : M unit :=
  buf ← gets m_buf;
  if has_lf buf then mret tt
  else
    match fuel with
    | O => raise OSError
    | S fuel =>
        r ← recv;
        match r with
        | Data b =>
            if empty b then raise (ManagementError "management connection closed")
            else _ ← modify (fun m => set_conn (m_sock m) (m_buf m +:+ b) m); fill_line fuel
        | Timeout | Failure => raise OSError
        end
    end.

Definition readline : M string :=
  n ← gets pending_recvs;
  _ ← fill_line (S n);
  buf ← gets m_buf;
  let '(line, _, rest) := partition lf buf in
  _ ← modify (fun m => set_conn (m_sock m) rest m);
  mret (line_text line).

(** [b"ENTER PASSWORD:" in buf], and the buffer after it. *)
Fixpoint after_prompt (b : string) : option string :=
  let prompt := "ENTER PASSWORD:" in
  if startswith prompt b then Some (str_drop (String.length prompt) b)
  else match b with EmptyString => None | String _ b => after_prompt b end.

(** The greeting loop of [_connect]; [ticks] is the number of turns that start
    within its three seconds. *)
Fixpoint greeting (ticks : nat) : M unit :=
  buf ← gets m_buf;
  if has_lf buf || bool_decide (is_Some (after_prompt buf)) then mret tt
  else
    match ticks with
    | O => mret tt
    | S ticks =>
        r ← recv;
        match r with
        | Timeout => mret tt
        | Failure => raise OSError
        | Data b =>
            if empty b then raise (ManagementError "management connection closed by server")
            else _ ← modify (fun m => set_conn (m_sock m) (m_buf m +:+ b) m); greeting ticks
        end
    end.

(** [while line.startswith(">")]: every line read takes at least one byte of the
    input, so its size is enough fuel. *)
Fixpoint skip_notes (fuel : nat) : M string :=
  match fuel with
  | O => raise (RuntimeError "out of fuel")
  | S fuel => line ← readline; if startswith ">" line then skip_notes fuel else mret line
  end.

Definition lf_str : string := String lf "".

(** [socket.create_connection]: the next connection of the environment. *)
Definition create_connection : M unit := fun m =>
  let m' := Mgmt (m_sock m) (m_buf m) (m_since m) (tail (m_net m)) (m_log m) in
  match m_net m with
  | Some s :: _ => (Ok tt, set_conn (Some s) "" m')
  | _ => (Raise OSError, m')
  end.

Definition authenticate (rest : string) : M unit :=
  _ ← modify (fun m => set_conn (m_sock m) rest m);
  if negb (truthy password) then
    _ ← close; raise (ManagementError "management interface requires a password but none is configured")
  else
    _ ← sendall (default "" password +:+ lf_str);
    n ← gets input_size;
    line ← skip_notes (S n);
    if startswith "SUCCESS:" line then mret tt
    else _ ← close; raise (ManagementError ("management password rejected: " +:+ line)).

Definition connect : M unit :=
  _ ← create_connection;
  _ ← greeting ticks;
  buf ← gets m_buf;
  _ ← match after_prompt buf with Some rest => authenticate rest | None => mret tt end;
  modify (fun m => Mgmt (m_sock m) (m_buf m) (Some now) (m_net m) (m_log m)).

(** ** Commands *)

(** The response loop of [command]: notifications are skipped, END ends the
    response, and so does a SUCCESS: or ERROR: line when it is the first one. *)
Fixpoint read_response (fuel : nat) (lines : list string) : M (list string) :=
  match fuel with
  | O => raise (RuntimeError "out of fuel")
  | S fuel =>
      line ← readline;
      if startswith ">" line then read_response fuel lines
      else if String.eqb line "END" then mret lines
      else
        if (startswith "SUCCESS:" line || startswith "ERROR:" line) && bool_decide (lines = [])
        then mret (lines ++ [line])
        else read_response fuel (lines ++ [line])
  end.

(** The body of the [try] of [command]. *)
Definition attempt_command (cmd : string) : M (list string) :=
  c ← gets connected;
  _ ← (if c : bool then mret tt else connect);
  _ ← sendall (cmd +:+ lf_str);
  n ← gets input_size;
  read_response (S n) [].

(** [str(exc)]; the text of an OSError is the system's. *)
Definition exn_text (e : exn) : string :=
  match e with
  | PkiError s | SigningUnavailable s | ManagementError s | RuntimeError s | DatabaseError s | HTTPException _ s => s
  | _ => ""
  end.

Definition command (cmd : string) : M (list string) := fun m =>
  match attempt_command cmd m with
  | (Ok lines, m) => (Ok lines, m)
  | (Raise _, m) =>
      match attempt_command cmd (closed m) with
      | (Ok lines, m) => (Ok lines, m)
      | (Raise e, m) => (Raise (ManagementError (exn_text e)), closed m)
      end
  end.

(** [self.command(cmd)[0]], which must start with SUCCESS:. *)
Definition first_line (lines : list string) : result string := of_option IndexError (head lines).
Definition expect_success (line : string) : result string :=
  if startswith "SUCCESS:" line then Ok line else Raise (ManagementError line).

Definition kill (common_name : string) : M string :=
  if negb (name_re common_name) then raise (ManagementError "invalid common name")
  else lines ← command ("kill " +:+ common_name);
       line ← lift (first_line lines);
       lift (expect_success line).

Definition client_kill (cid : Z) : M string :=
  lines ← command ("client-kill " +:+ str_of_int cid);
  line ← lift (first_line lines);
  lift (expect_success line).

(** [signal]: the connection is closed whatever the command did. *)
Definition signal (name : string) : M string :=
  if negb (existsb (String.eqb name) ["SIGHUP"; "SIGTERM"; "SIGUSR1"; "SIGUSR2"])
  then raise (ManagementError "unsupported signal")
  else
    line ← (fun m => let '(r, m) := (lines ← command ("signal " +:+ name); lift (first_line lines)) m in
                     (r, closed m));
    lift (expect_success line).

(** [load_stats]: the numbers of a line like SUCCESS: a=1,b=2; entries that are not
    digits are left out ([int] of a superscript digit, which [isdigit] accepts, is a ValueError). *)
Definition load_entry (acc : result (gmap string Z)) (kv : string) : result (gmap string Z) :=
  out ← acc;
  let '(k, _, v) := partition "="%char (strip kv) in
  if isdigit v then n ← of_option ValueError (py_int v); Ok (<[k := n]> out) else Ok out.

Definition load_stats : M (gmap string Z) :=
  lines ← command "load-stats";
  line ← lift (first_line lines);
  _ ← lift (expect_success line);
  lift (foldl load_entry (Ok ∅) (split ","%char (partition ":"%char line).2)).

Definition version : M string :=
  lines ← command "version";
  mret match head (filter (fun l => startswith "OpenVPN Version:" l = true) lines) with
       | Some l => strip (partition ":"%char l).2
       | None => "unknown"
       end.
End protocol.

(** ** The status output *)

Record status_client := StatusClient {
  cl_cn : string;
  cl_real_address : string;
  cl_vpn_ip : string;
  cl_vpn_ipv6 : string;
  cl_bytes_in : Z;
  cl_bytes_out : Z;
  cl_connected_since : Z;
  cl_username : string;
  cl_cid : Z;
  cl_peer_id : Z;
  cl_cipher : string;
}.

Record status := Status {
  s_time : Z;
  s_clients : list status_client;
  s_stats : gmap string string;
  s_from_file : bool;
}.

(** [_int]: 0 for None, an empty string or anything that is not a number. *)
Definition int_or_0 (value : option string) : Z :=
  if truthy value then default 0 (py_int (default "" value)) else 0.

(** [dict(zip(keys, values))]: a later key wins. *)
Fixpoint zip_dict (ks vs : list string) (acc : gmap string string) : gmap string string :=
  match ks, vs with
  | k :: ks, v :: vs => zip_dict ks vs (<[k := v]> acc)
  | _, _ => acc
  end.

Definition normalise_client (rec : gmap string string) : status_client :=
  let field k := default "" (rec !! k) in
  StatusClient (field "Common Name") (field "Real Address") (field "Virtual Address")
    (field "Virtual IPv6 Address") (int_or_0 (rec !! "Bytes Received")) (int_or_0 (rec !! "Bytes Sent"))
    (int_or_0 (rec !! "Connected Since (time_t)")) (field "Username") (int_or_0 (rec !! "Client ID"))
    (int_or_0 (rec !! "Peer ID")) (field "Data Channel Cipher").

Record status_acc := StatusAcc {
  sa_headers : gmap string (list string);
  sa_clients : list status_client;
  sa_time : option Z;
  sa_stats : gmap string string;
}.

(** One line of [parse_status]. *)
Definition status_line (acc : status_acc) (line : string) : status_acc :=
  let parts := split (if mem_char tab line then tab else ","%char) line in
  match parts with
  | [] => acc
  | tag :: rest =>
      if String.eqb tag "HEADER" && Nat.ltb 2 (length parts) then
        match rest with
        | name :: cols => StatusAcc (<[name := cols]> (sa_headers acc)) (sa_clients acc) (sa_time acc) (sa_stats acc)
        | [] => acc
        end
      else if String.eqb tag "CLIENT_LIST" then
        let rec := zip_dict (default [] (sa_headers acc !! "CLIENT_LIST")) rest ∅ in
        StatusAcc (sa_headers acc) (sa_clients acc ++ [normalise_client rec]) (sa_time acc) (sa_stats acc)
      else if String.eqb tag "TIME" && Nat.ltb 2 (length parts) then
        match py_int (nth 1 rest "") with
        | Some t => StatusAcc (sa_headers acc) (sa_clients acc) (Some t) (sa_stats acc)
        | None => acc
        end
      else if String.eqb tag "GLOBAL_STATS" && Nat.ltb 2 (length parts) then
        StatusAcc (sa_headers acc) (sa_clients acc) (sa_time acc)
          (<[nth 0 rest "" := nth 1 rest ""]> (sa_stats acc))
      else acc
  end.

(** [server_time or int(time.time())]. *)
Definition parse_status (now : Z) (lines : list string) : status :=
  let acc := foldl status_line (StatusAcc ∅ [] None ∅) lines in
  Status (match sa_time acc with Some t => if t =? 0 then now else t | None => now end)
    (sa_clients acc) (sa_stats acc) false.

(** One turn of [read_status_file]: what [stat] and the two reads returned. *)
Record file_look := FileLook { fl_age : Z; fl_first : string; fl_second : string }.

Definition status_complete (text : string) : bool :=
  let lines := splitlines text in
  match lines, last lines with
  | l :: _, Some e => String.eqb (strip e) "END" && startswith "TITLE" l
  | _, _ => false
  end.

(** [read_status_file] over the (at most three) looks; [None] in a look is an OSError. *)
Fixpoint read_status_looks (now max_age : Z) (looks : list (option file_look)) : option status :=
  match looks with
  | [] => None
  | None :: _ => None
  | Some l :: looks =>
      if max_age <? fl_age l then None
      else if String.eqb (fl_first l) (fl_second l) && status_complete (fl_first l)
      then Some (parse_status now (splitlines (fl_first l)))
      else read_status_looks now max_age looks
  end.
Definition read_status_file (now max_age : Z) (looks : list (option file_look)) : option status :=
  read_status_looks now max_age (take 3 looks).

(** [status]: the status over the management interface. *)
Definition mgmt_status (decode : string → string) (password : option string) (now : Z) (ticks : nat) : M status :=
  lines ← command decode password now ticks "status 3"; mret (parse_status now lines).

(** ** The byte stream of a connection *)

Fixpoint data_of (rs : list recv_result) : string :=
  match rs with
  | Data b :: rs => b +:+ data_of rs
  | _ => ""
  end.
Definition is_data (r : recv_result) : bool := match r with Data b => negb (empty b) | _ => false end.

(** What the client has not read yet. *)
Definition stream (m : mgmt) : string :=
  m_buf m +:+ match m_sock m with Some s => data_of (recvs s) | None => "" end.

(** Connected to a peer that delivers data and accepts every payload. *)
Definition healthy (m : mgmt) : bool :=
  match m_sock m with
  | Some s => forallb is_data (recvs s) && forallb id (sends s)
  | None => false
  end.

(** Lines on the wire. *)
Fixpoint wire (raws : list string) : string :=
  match raws with [] => "" | raw :: raws => raw +:+ String lf (wire raws) end.

Definition is_note (l : string) : bool := startswith ">" l.
Definition is_reply (l : string) : bool := startswith "SUCCESS:" l || startswith "ERROR:" l.

(** [texts] are the lines up to the one that completes the response [resp]: without
    the notifications, one SUCCESS: or ERROR: line, or the response and END. *)
Definition response_to (texts resp : list string) : Prop :=
  let shown := filter (fun l => is_note l = false) texts in
  (∃ l, last texts = Some l ∧ is_note l = false) ∧
  ((∃ l, shown = [l] ∧ is_reply l = true ∧ l ≠ "END" ∧ resp = [l]) ∨
   (shown = resp ++ ["END"] ∧ "END" ∉ resp ∧ ∀ l, head resp = Some l → is_reply l = false)).

Lemma mem_char_app c s t : mem_char c (s +:+ t) = mem_char c s || mem_char c t.
Proof. unfold mem_char, str_exists. rewrite str_forall_app. by destruct (str_forall _ s). Qed.

Lemma mem_char_cons c d s : mem_char c (String d s) = Ascii.eqb c d || mem_char c s.
Proof. unfold mem_char, str_exists. simpl. by destruct (Ascii.eqb c d). Qed.

(** Two ways to cut one string at a first line feed are the same. *)
Lemma partition_lf_stream buf data raw rest :
  has_lf buf = true → buf +:+ data = raw +:+ String lf rest → mem_char lf raw = false →
  ∃ rest', partition lf buf = (raw, true, rest') ∧ rest' +:+ data = rest.
Proof.
  unfold has_lf. revert buf. induction raw as [|c raw IH]; intros [|d buf]; try done.
  - simpl. intros _ [= -> <-] _. eauto.
  - rewrite !mem_char_cons. simpl. intros Hb [= -> Heq] [Hc Hraw]%orb_false_iff.
    rewrite Hc in *. simpl in Hb. destruct (IH buf Hb Heq Hraw) as (r' & -> & ?). eauto.
Qed.

Section framing.
Context (decode : string → string).

Lemma fill_line_stream rs ss m raw rest :
  m_sock m = Some (ConnScript rs ss) → forallb is_data rs = true →
  m_buf m +:+ data_of rs = raw +:+ String lf rest →
  ∃ rs' buf', fill_line (S (length rs)) m = (Ok tt, set_conn (Some (ConnScript rs' ss)) buf' m)
    ∧ forallb is_data rs' = true ∧ has_lf buf' = true ∧ buf' +:+ data_of rs' = raw +:+ String lf rest.
Proof.
  revert m. induction rs as [|r rs IH]; intros m Hs Hall Hst.
  - exists [], (m_buf m). simpl in Hst. rewrite str_app_nil_r in *.
    assert (Hlf : has_lf (m_buf m) = true).
    { unfold has_lf. rewrite Hst, mem_char_app, mem_char_cons, Ascii.eqb_refl. apply orb_true_r. }
    simpl. unfold mbind, M_bind, gets. rewrite Hlf. simpl. rewrite ?str_app_nil_r.
    destruct m; simpl in *; subst. done.
  - change (fill_line (S (length (r :: rs)))) with
      (buf ← gets m_buf; if has_lf buf then mret tt else
         r ← recv; match r with
         | Data b => if empty b then raise (ManagementError "management connection closed")
             else _ ← modify (fun m => set_conn (m_sock m) (m_buf m +:+ b) m); fill_line (S (length rs))
         | Timeout | Failure => raise OSError end : M unit).
    unfold mbind at 1, M_bind at 1, gets at 1. destruct (has_lf (m_buf m)) eqn:Hlf.
    { exists (r :: rs), (m_buf m). split_and!; [|done..]. destruct m; simpl in *; subst. done. }
    simpl in Hall. apply andb_true_iff in Hall as [Hr Hall]. destruct r as [b| |]; try done.
    simpl in Hr. apply negb_true_iff in Hr.
    unfold mbind, M_bind, recv. rewrite Hs. rewrite Hr. unfold modify.
    destruct (IH (set_conn (Some (ConnScript rs ss)) (m_buf m +:+ b) m)) as (rs' & buf' & Hf & ?); [done..| |].
    { simpl. rewrite str_app_assoc. done. }
    exists rs', buf'. split; [|done]. apply Hf.
Qed.

Lemma readline_stream m raw rest :
  healthy m = true → stream m = raw +:+ String lf rest → mem_char lf raw = false →
  ∃ m', readline decode m = (Ok (line_text decode raw), m') ∧ healthy m' = true ∧ stream m' = rest
    ∧ m_log m' = m_log m ∧ m_net m' = m_net m ∧ m_since m' = m_since m.
Proof.
  unfold healthy, stream. destruct (m_sock m) as [[rs ss]|] eqn:Hs; [|done]. simpl.
  intros [Hall Hss]%andb_true_iff Hst Hraw.
  destruct (fill_line_stream rs ss m raw rest Hs Hall Hst) as (rs' & buf' & Hf & Hall' & Hlf & Hst').
  destruct (partition_lf_stream buf' (data_of rs') raw rest Hlf Hst' Hraw) as (rest' & Hp & Hr).
  eexists. unfold readline, mbind, M_bind, gets, pending_recvs. rewrite Hs. cbn [recvs].
  rewrite Hf. cbn [m_buf set_conn]. rewrite Hp. unfold modify, mret, M_ret. split; [done|].
  simpl. by rewrite Hall', Hss.
Qed.

Lemma wire_length raws : (length raws <= String.length (wire raws))%nat.
Proof. induction raws; simpl; [lia|]. rewrite str_length_app. simpl. lia. Qed.

Lemma data_of_length rs :
  forallb is_data rs = true →
  foldr (fun r n => match r with Data b => String.length b | _ => 0 end + n)%nat 0%nat rs = String.length (data_of rs).
Proof.
  induction rs as [|[b| |] rs IH]; simpl; try done. intros [_ H]%andb_true_iff.
  by rewrite str_length_app, IH.
Qed.

Lemma input_size_stream m : healthy m = true → input_size m = String.length (stream m).
Proof.
  unfold healthy, input_size, stream. destruct (m_sock m) as [[rs ss]|]; [|done]. simpl.
  intros [H _]%andb_true_iff. by rewrite str_length_app, data_of_length.
Qed.

(** The loop, one line at a time: notifications are passed over, and the lines of a
    body are collected up to END. *)
Lemma read_response_wire fuel raws : ∀ acc todo rest m,
  (length raws <= fuel)%nat → healthy m = true → stream m = wire raws +:+ rest →
  Forall (fun raw => mem_char lf raw = false) raws →
  (∃ l, last (line_text decode <$> raws) = Some l ∧ is_note l = false) →
  filter (fun l => is_note l = false) (line_text decode <$> raws) = todo ++ ["END"] → "END" ∉ todo →
  (∀ l, head (acc ++ todo) = Some l → is_reply l = false) →
  ∃ m', read_response decode fuel acc m = (Ok (acc ++ todo), m') ∧ stream m' = rest ∧ healthy m' = true
    ∧ m_log m' = m_log m ∧ m_net m' = m_net m.
Proof.
  revert fuel. induction raws as [|raw raws IH]; intros fuel acc todo rest m Hfuel Hm Hst HF Hlast Hsh Hend Hhd.
  { simpl in Hsh. by destruct todo. }
  destruct fuel as [|fuel]; [simpl in Hfuel; lia|]. simpl in Hst. rewrite str_app_assoc in Hst.
  apply Forall_cons in HF as [Hraw HF].
  destruct (readline_stream m raw _ Hm Hst Hraw) as (m1 & Hrl & Hm1 & Hst1 & Hlog1 & Hnet1 & _).
  simpl in Hfuel. rewrite fmap_cons, filter_cons in Hsh.
  cbn [read_response]. unfold mbind, M_bind. rewrite Hrl.
  change (startswith ">" (line_text decode raw)) with (is_note (line_text decode raw)).
  destruct (is_note (line_text decode raw)) eqn:Hn.
  - assert (raws ≠ []). { intros ->. simpl in Hlast. naive_solver congruence. }
    destruct (IH fuel acc todo rest m1) as (m' & ? & ? & ? & ? & ?); try done; [lia| |].
    { destruct Hlast as (l & Hl & Hnl). exists l. split; [|done]. rewrite fmap_cons in Hl.
      destruct raws; [done|]. by rewrite fmap_cons in *. }
    exists m'. split_and!; [done..| |]; congruence.
  - change (decide (false = false)) with (decide (@eq bool false false)) in Hsh.
    rewrite decide_True in Hsh by done.
    destruct todo as [|l todo].
    + injection Hsh as Hl Hnil. rewrite Hl. simpl. rewrite app_nil_r.
      assert (raws = []) as ->.
      { destruct raws as [|r' raws]; [done|]. destruct Hlast as (l & Hl' & Hnl). exfalso.
        rewrite !fmap_cons, last_cons_cons in Hl'. rewrite <- fmap_cons in Hl'. apply last_Some_elem_of in Hl'.
        assert (Hin : l ∈ filter (fun l => is_note l = false) (line_text decode <$> r' :: raws))
          by (by apply list_elem_of_filter).
        rewrite Hnil in Hin. by apply not_elem_of_nil in Hin. }
      simpl in Hst1. exists m1. split_and!; done.
    + injection Hsh as Hl Hsh. rewrite Hl in *.
      assert (Hne : String.eqb l "END" = false) by (apply String.eqb_neq; set_solver).
      rewrite Hne. fold (is_reply l).
      assert (is_reply l && bool_decide (acc = []) = false) as ->.
      { destruct acc as [|a acc]; [|by rewrite andb_false_r]. rewrite (Hhd l) by done. done. }
      destruct (IH fuel (acc ++ [l]) todo rest m1) as (m' & Hrr & ? & ? & ? & ?);
        try done; [lia| |set_solver| |].
      { destruct raws as [|r' raws]; [by destruct todo|]. destruct Hlast as (l0 & Hl0 & ?).
        exists l0. split; [|done]. rewrite !fmap_cons, last_cons_cons in Hl0. by rewrite fmap_cons. }
      { by rewrite <- app_assoc. }
      exists m'. rewrite <- app_assoc in Hrr. split_and!; [done..| |]; congruence.
Qed.
End framing.

(** ** What is sent *)

(** Every payload that [c] gives to [sendall] satisfies [P]. *)
Definition sends_only (P : string → Prop) {A} (c : M A) : Prop :=
  ∀ m, ∃ l, m_log (c m).2 = m_log m ++ l ∧ Forall P l.

Section sends.
Context (P : string → Prop).

Lemma sends_silent {A} (c : M A) : (∀ m, m_log (c m).2 = m_log m) → sends_only P c.
Proof. intros Hc m. exists []. by rewrite Hc, app_nil_r. Qed.

Lemma sends_bind {A B} (c : M A) (f : A → M B) :
  sends_only P c → (∀ a, sends_only P (f a)) → sends_only P (c ≫= f).
Proof.
  intros Hc Hf m. unfold mbind, M_bind. destruct (Hc m) as (l1 & Hl1 & HP1).
  destruct (c m) as [[a|e] m1]; simpl in *; [|eauto].
  destruct (Hf a m1) as (l2 & Hl2 & HP2). exists (l1 ++ l2).
  rewrite Hl2, Hl1, app_assoc. by rewrite Forall_app.
Qed.

Lemma sends_sendall data : P data → sends_only P (sendall data).
Proof.
  intros HP m. exists [data]. split; [|by constructor]. unfold sendall. simpl.
  destruct (m_sock m) as [[rs [|[] ss]]|]; done.
Qed.
End sends.

#[export] Hint Resolve sends_bind sends_sendall : ovpn.
#[export] Hint Extern 1 (sends_only _ _) => (apply sends_silent; intros; reflexivity) : ovpn.

Section sends_commands.
Context (decode : string → string) (password : option string) (now : Z) (ticks : nat) (P : string → Prop).

Lemma sends_recv : sends_only P recv.
Proof. apply sends_silent. intros m. unfold recv. by destruct (m_sock m) as [[[|] ?]|]. Qed.
Hint Resolve sends_recv : ovpn.

Lemma sends_fill_line n : sends_only P (fill_line n).
Proof.
  induction n as [|n IH]; simpl; apply sends_bind; auto with ovpn; intros buf;
    destruct (has_lf buf); auto with ovpn.
  apply sends_bind; auto with ovpn. intros [b| |]; auto with ovpn.
  destruct (empty b); auto with ovpn.
Qed.
Hint Resolve sends_fill_line : ovpn.

Lemma sends_readline : sends_only P (readline decode).
Proof.
  unfold readline. do 3 (apply sends_bind; auto with ovpn; intros).
  destruct (partition lf _) as [[? ?] ?]. auto with ovpn.
Qed.
Hint Resolve sends_readline : ovpn.

Lemma sends_greeting n : sends_only P (greeting n).
Proof.
  induction n as [|n IH]; simpl; apply sends_bind; auto with ovpn; intros buf;
    destruct (has_lf buf || _); auto with ovpn.
  apply sends_bind; auto with ovpn. intros [b| |]; auto with ovpn.
  destruct (empty b); auto with ovpn.
Qed.

Lemma sends_skip_notes n : sends_only P (skip_notes decode n).
Proof.
  induction n as [|n IH]; cbn [skip_notes]; [auto with ovpn|]. apply sends_bind; [auto with ovpn|].
  intros l. destruct (startswith ">" l); auto with ovpn.
Qed.

Lemma sends_read_response n acc : sends_only P (read_response decode n acc).
Proof.
  revert acc. induction n as [|n IH]; intros acc; cbn [read_response]; [auto with ovpn|].
  apply sends_bind; [auto with ovpn|]. intros l. repeat case_match; auto with ovpn.
Qed.

Context (HP : truthy password = true → P (default "" password +:+ lf_str)).

Lemma sends_authenticate rest : sends_only P (authenticate decode password rest).
Proof.
  unfold authenticate. apply sends_bind; [auto with ovpn|]. intros _.
  destruct (truthy password) eqn:E; cbn [negb]; [|auto with ovpn].
  apply sends_bind; [auto with ovpn|]. intros _. apply sends_bind; [auto with ovpn|]. intros n.
  apply (sends_bind P (skip_notes decode (S n))); [apply sends_skip_notes|].
  intros l. destruct (startswith "SUCCESS:" l); auto with ovpn.
Qed.

Lemma sends_connect : sends_only P (connect decode password now ticks).
Proof.
  unfold connect. apply sends_bind.
  { apply sends_silent. intros m. unfold create_connection. by destruct (m_net m) as [|[] ?]. }
  intros _. apply sends_bind; [apply sends_greeting|]. intros _. apply sends_bind; [auto with ovpn|].
  intros buf. apply sends_bind; [|auto with ovpn].
  destruct (after_prompt buf); [apply sends_authenticate|auto with ovpn].
Qed.

Lemma sends_command cmd : P (cmd +:+ lf_str) → sends_only P (command decode password now ticks cmd).
Proof.
  intros Hcmd.
  assert (Ha : sends_only P (attempt_command decode password now ticks cmd)).
  { unfold attempt_command. apply sends_bind; [auto with ovpn|]. intros c. apply sends_bind.
    { destruct c; [auto with ovpn|]. apply sends_connect. }
    intros _. apply sends_bind; [auto with ovpn|]. intros _. apply sends_bind; [auto with ovpn|].
    intros n. apply sends_read_response. }
  intros m. unfold command. destruct (Ha m) as (l1 & Hl1 & H1).
  destruct (attempt_command _ _ _ _ cmd m) as [[ls|e] m1]; simpl in *; [eauto|].
  destruct (Ha (closed m1)) as (l2 & Hl2 & H2).
  destruct (attempt_command _ _ _ _ cmd (closed m1)) as [[ls|e'] m2]; simpl in *;
    (exists (l1 ++ l2); rewrite Hl2, Hl1, app_assoc; by rewrite Forall_app).
Qed.
End sends_commands.

(** ** Every loop ends *)

Lemma fill_line_size n m m' :
  fill_line n m = (Ok tt, m') → input_size m' = input_size m ∧ has_lf (m_buf m') = true.
Proof.
  revert m. induction n as [|n IH]; intros m; simpl; unfold mbind, M_bind, gets;
    destruct (has_lf (m_buf m)) eqn:Hlf; try (by intros [= <-]).
  unfold recv. destruct (m_sock m) as [[[|[b| |] rs] ss]|] eqn:Hs; try done.
  destruct (empty b); [done|]. simpl. intros H. apply IH in H as [H ?]. split; [|done]. rewrite H.
  unfold input_size. simpl. rewrite Hs. simpl. rewrite str_length_app. lia.
Qed.

Lemma readline_size decode m l m' : readline decode m = (Ok l, m') → (input_size m' < input_size m)%nat.
Proof.
  unfold readline, mbind, M_bind, gets. destruct (fill_line _ m) as [[[]|e] m1] eqn:Hf; [|done].
  apply fill_line_size in Hf as [<- Hlf].
  destruct (partition lf (m_buf m1)) as [[h f] t] eqn:Hp. intros [= <- <-].
  apply partition_spec in Hp as (Hh & Hb & _). unfold input_size. simpl.
  destruct f; subst.
  - rewrite Hb, str_length_app. simpl. lia.
  - unfold has_lf in Hlf. congruence.
Qed.

Lemma sendall_healthy data m :
  healthy m = true →
  ∃ m', sendall data m = (Ok tt, m') ∧ healthy m' = true ∧ stream m' = stream m ∧ m_log m' = m_log m ++ [data].
Proof.
  unfold healthy, sendall, stream. cbn [m_sock m_buf]. destruct (m_sock m) as [[rs ss]|] eqn:Hs; [|done].
  cbn [recvs sends]. intros [Hr Hss]%andb_true_iff. destruct ss as [|[] ss]; [| |done].
  - eexists. split; [done|]. cbn [m_sock m_buf m_log recvs sends]. by rewrite Hr.
  - eexists. split; [done|]. cbn. by rewrite Hr.
Qed.

(** The same for a response of one SUCCESS: or ERROR: line. *)
Lemma read_response_reply decode fuel raws l : ∀ rest m,
  (length raws <= fuel)%nat → healthy m = true → stream m = wire raws +:+ rest →
  Forall (fun raw => mem_char lf raw = false) raws →
  (∃ l, last (line_text decode <$> raws) = Some l ∧ is_note l = false) →
  filter (fun l => is_note l = false) (line_text decode <$> raws) = [l] → is_reply l = true → l ≠ "END" →
  ∃ m', read_response decode fuel [] m = (Ok [l], m') ∧ stream m' = rest ∧ healthy m' = true ∧ m_log m' = m_log m.
Proof.
  revert fuel. induction raws as [|raw raws IH]; intros fuel rest m Hfuel Hm Hst HF Hlast Hsh Hrep Hend; [done|].
  destruct fuel as [|fuel]; [simpl in Hfuel; lia|]. simpl in Hst. rewrite str_app_assoc in Hst.
  apply Forall_cons in HF as [Hraw HF].
  destruct (readline_stream decode m raw _ Hm Hst Hraw) as (m1 & Hrl & Hm1 & Hst1 & Hlog1 & _).
  simpl in Hfuel. rewrite fmap_cons, filter_cons in Hsh.
  cbn [read_response]. unfold mbind, M_bind. rewrite Hrl.
  change (startswith ">" (line_text decode raw)) with (is_note (line_text decode raw)).
  destruct (is_note (line_text decode raw)) eqn:Hn.
  - assert (raws ≠ []). { intros ->. simpl in Hlast. naive_solver congruence. }
    destruct (IH fuel rest m1) as (m' & ? & ? & ? & ?); try done; [lia| |].
    { destruct Hlast as (l0 & Hl & Hnl). exists l0. split; [|done]. rewrite fmap_cons in Hl.
      destruct raws; [done|]. by rewrite fmap_cons in *. }
    exists m'. split_and!; [done..|]. congruence.
  - rewrite decide_True in Hsh by done. injection Hsh as Hl Hnil. rewrite Hl.
    rewrite (proj2 (String.eqb_neq l "END") Hend). fold (is_reply l). rewrite Hrep. cbn.
    exists m1. split_and!; [done| |done..].
    destruct raws as [|r' raws]; [done|]. exfalso. destruct Hlast as (l0 & Hl' & Hnl).
    rewrite !fmap_cons, last_cons_cons in Hl'. rewrite <- fmap_cons in Hl'. apply last_Some_elem_of in Hl'.
    assert (Hin : l0 ∈ filter (fun l => is_note l = false) (line_text decode <$> r' :: raws))
      by (by apply list_elem_of_filter).
    rewrite Hnil in Hin. by apply not_elem_of_nil in Hin.
Qed.

(** [readline] and the loops over it keep the connection and report no other
    exceptions than their own. *)
Lemma fill_line_connected n m m' : fill_line n m = (Ok tt, m') → connected m' = connected m.
Proof.
  revert m. induction n as [|n IH]; intros m; simpl; unfold mbind, M_bind, gets;
    destruct (has_lf (m_buf m)); try (by intros [= <-]).
  unfold recv. destruct (m_sock m) as [[[|[b| |] rs] ss]|] eqn:Hs; try done.
  destruct (empty b); [done|]. simpl. intros H. apply IH in H. rewrite H. unfold connected. by rewrite Hs.
Qed.

Lemma readline_connected decode m l m' : readline decode m = (Ok l, m') → connected m' = connected m.
Proof.
  unfold readline, mbind, M_bind, gets. destruct (fill_line _ m) as [[[]|e] m1] eqn:Hf; [|done].
  apply fill_line_connected in Hf as <-.
  destruct (partition lf (m_buf m1)) as [[h f] t]. by intros [= <- <-].
Qed.

Lemma read_response_connected decode fuel acc m ls m' :
  read_response decode fuel acc m = (Ok ls, m') → connected m' = connected m.
Proof.
  revert acc m. induction fuel as [|fuel IH]; intros acc m; [done|].
  cbn [read_response]. unfold mbind, M_bind. destruct (readline decode m) as [[l|e] m1] eqn:E; [|done].
  apply readline_connected in E as <-. repeat case_match; try (by intros [= <- <-]); apply IH.
Qed.

Lemma attempt_command_connected decode password now ticks cmd m ls m' :
  attempt_command decode password now ticks cmd m = (Ok ls, m') → connected m' = true.
Proof.
  unfold attempt_command, mbind at 1 2 3 4, M_bind at 1 2 3 4, gets.
  destruct ((if connected m then mret tt else connect decode password now ticks) m) as [[[]|e] m1]; [|done].
  destruct (sendall (cmd +:+ lf_str) m1) as [[[]|e] m2] eqn:Hs; [|done].
  intros Hr. apply read_response_connected in Hr as ->. unfold sendall in Hs. simpl in Hs.
  unfold connected. destruct (m_sock m1) as [[rs [|[] ss]]|] eqn:Hm; try done; injection Hs as <-; simpl; by rewrite ?Hm.
Qed.

(** The text of an exception is never the one of a loop that ran out of fuel. *)
Definition fuelled {A} (r : result A) : Prop := ∀ e, r = Raise e → exn_text e ≠ "out of fuel".

Lemma fuelled_bind {A B} (c : M A) (f : A → M B) m :
  fuelled (c m).1 → (∀ a m', c m = (Ok a, m') → fuelled (f a m').1) → fuelled ((c ≫= f) m).1.
Proof.
  unfold mbind, M_bind. intros Hc Hf. destruct (c m) as [[a|e] m'] eqn:E; [by apply Hf|].
  intros e' [= <-]. by apply Hc.
Qed.

Lemma fill_line_fuelled n m : fuelled (fill_line n m).1.
Proof.
  revert m. induction n as [|n IH]; intros m; simpl; unfold mbind, M_bind, gets; destruct (has_lf _);
    try (by intros e [= <-]).
  unfold recv. destruct (m_sock m) as [[[|[b| |] rs] ss]|]; try (by intros e [= <-]).
  destruct (empty b); [by intros e [= <-]|]. apply IH.
Qed.

Lemma readline_fuelled decode m : fuelled (readline decode m).1.
Proof.
  unfold readline. apply (fuelled_bind (gets pending_recvs)); [done|]. intros n m0 [= <- <-].
  apply fuelled_bind; [apply fill_line_fuelled|]. intros ? m2 _. unfold mbind, M_bind, gets.
  by destruct (partition lf _) as [[? ?] ?].
Qed.

Lemma skip_notes_fuelled decode fuel m : (input_size m < fuel)%nat → fuelled (skip_notes decode fuel m).1.
Proof.
  revert m. induction fuel as [|fuel IH]; intros m Hf; [lia|]. cbn [skip_notes].
  apply fuelled_bind; [apply readline_fuelled|]. intros l m' E%readline_size.
  case_match; [apply IH; lia|done].
Qed.

Lemma read_response_fuelled decode fuel acc m :
  (input_size m < fuel)%nat → fuelled (read_response decode fuel acc m).1.
Proof.
  revert acc m. induction fuel as [|fuel IH]; intros acc m Hf; [lia|]. cbn [read_response].
  apply fuelled_bind; [apply readline_fuelled|]. intros l m' E%readline_size.
  repeat case_match; try done; apply IH; lia.
Qed.

Lemma sendall_fuelled data m : fuelled (sendall data m).1.
Proof. unfold sendall. simpl. destruct (m_sock m) as [[rs [|[] ss]]|]; by intros e [= <-]. Qed.

Lemma authenticate_fuelled decode password rest m : fuelled (authenticate decode password rest m).1.
Proof.
  unfold authenticate. apply fuelled_bind; [done|]. intros _ m0 _.
  destruct (truthy password); cbn [negb]; [|by intros e [= <-]].
  apply fuelled_bind; [apply sendall_fuelled|]. intros _ m1 _.
  apply (fuelled_bind (gets input_size)); [done|]. intros n m2 [= <- <-].
  apply fuelled_bind; [apply skip_notes_fuelled; lia|]. intros l m3 _. case_match; [done|]. by intros e [= <-].
Qed.

Lemma greeting_fuelled ticks m : fuelled (greeting ticks m).1.
Proof.
  revert m. induction ticks as [|n IH]; intros m; simpl; unfold mbind, M_bind, gets; destruct (has_lf _ || _);
    try (by intros e [= <-]).
  unfold recv. destruct (m_sock m) as [[[|[b| |] rs] ss]|]; try (by intros e [= <-]).
  destruct (empty b); [by intros e [= <-]|]. apply IH.
Qed.

Lemma connect_fuelled decode password now ticks m : fuelled (connect decode password now ticks m).1.
Proof.
  unfold connect. apply fuelled_bind.
  { unfold create_connection. destruct (m_net m) as [|[] ?]; by intros e [= <-]. }
  intros _ m1 _. apply fuelled_bind; [apply greeting_fuelled|]. intros _ m2 _.
  apply fuelled_bind; [done|]. intros buf m3 _. apply fuelled_bind; [|done].
  destruct (after_prompt buf); [apply authenticate_fuelled|done].
Qed.

Lemma attempt_command_fuelled decode password now ticks cmd m :
  fuelled (attempt_command decode password now ticks cmd m).1.
Proof.
  unfold attempt_command. apply fuelled_bind; [done|]. intros c m0 _.
  apply fuelled_bind; [destruct c; [done|apply connect_fuelled]|]. intros _ m1 _.
  apply fuelled_bind; [apply sendall_fuelled|]. intros _ m2 _.
  apply (fuelled_bind (gets input_size)); [done|]. intros n m3 [= <- <-].
  apply read_response_fuelled. lia.
Qed.

Lemma name_char_lf c : name_char c = true → Ascii.eqb lf c = false.
Proof. destruct (Ascii.eqb_spec lf c) as [<-|]; [|done]. by vm_compute. Qed.

Lemma name_re_no_lf s : name_re s = true → has_lf s = false.
Proof.
  destruct s as [|c s]; [done|]. simpl. intros [[Hc Hs]%andb_true_iff _]%andb_true_iff.
  unfold has_lf. rewrite mem_char_cons, (name_char_lf c) by (unfold name_char; by rewrite Hc). simpl. clear Hc.
  induction s as [|d s IH]; [done|]. simpl in Hs. apply andb_true_iff in Hs as [Hd Hs].
  by rewrite mem_char_cons, name_char_lf, IH.
Qed.

(** ** Theorems *)

(** C13. A response is independent of how TCP cuts it into pieces and of the
    notifications between its lines: for a connected client whose peer delivers the
    lines of a response (and [rest] after it), in whatever chunks and whatever part of
    it is already buffered, [command] sends the command once, returns exactly the
    lines of the response, and leaves exactly [rest] for the next command. *)
Theorem command_framing decode password now ticks cmd m raws rest resp :
  healthy m = true →
  stream m = wire raws +:+ rest → Forall (fun raw => mem_char lf raw = false) raws →
  response_to (line_text decode <$> raws) resp →
  ∃ m', command decode password now ticks cmd m = (Ok resp, m') ∧ stream m' = rest ∧ connected m' = true
    ∧ m_log m' = m_log m ++ [cmd +:+ lf_str].
Proof.
  intros Hm Hst HF [Hlast Hresp].
  destruct (sendall_healthy (cmd +:+ lf_str) m Hm) as (m1 & Hsend & Hm1 & Hst1 & Hlog1).
  assert (Hc : connected m = true) by (unfold healthy, connected in *; by destruct (m_sock m)).
  rewrite Hst in Hst1.
  assert (Hn : (length raws <= S (input_size m1))%nat).
  { rewrite input_size_stream, Hst1, str_length_app by done. pose proof (wire_length raws). lia. }
  assert (Hrr : ∃ m', read_response decode (S (input_size m1)) [] m1 = (Ok resp, m') ∧ stream m' = rest
    ∧ healthy m' = true ∧ m_log m' = m_log m1).
  { destruct Hresp as [(l & Hsh & Hrep & Hend & ->)|(Hsh & Hend & Hhd)].
    - by eapply read_response_reply.
    - destruct (read_response_wire decode _ raws [] resp rest m1 Hn Hm1 Hst1 HF Hlast Hsh Hend Hhd)
        as (m' & ? & ? & ? & ? & ?). eauto. }
  destruct Hrr as (m' & Hr & Hst' & Hm' & Hlog'). exists m'. split_and!; [|done| |congruence].
  - unfold command, attempt_command, mbind, M_bind, gets. rewrite Hc. unfold mret, M_ret. rewrite Hsend.
    by rewrite Hr.
  - unfold healthy, connected in *. by destruct (m_sock m').
Qed.

(** A peer that sends a notification, one line and END in three pieces. *)
Definition chunked_peer : mgmt :=
  Mgmt (Some (ConnScript [Data "S"; Data ("USPEND" +:+ lf_str +:+ "TITLE" +:+ String cr lf_str +:+ "E");
                          Data ("ND" +:+ lf_str +:+ ">HO")] [true])) ">" (Some 5) [] [].

Lemma command_framing_witness :
  ∃ m', command id None 7 3 "status 3" chunked_peer = (Ok ["TITLE"], m') ∧ stream m' = ">HO"
    ∧ connected m' = true ∧ m_log m' = m_log chunked_peer ++ ["status 3" +:+ lf_str].
Proof.
  apply (command_framing id None 7 3 "status 3" _ [">SUSPEND"; "TITLE" +:+ String cr ""; "END"] ">HO" ["TITLE"]).
  - reflexivity.
  - reflexivity.
  - repeat constructor.
  - split; [by exists "END"|]. right. split; [reflexivity|]. split; [|by intros l [= <-]].
    intros Hin. apply list_elem_of_singleton in Hin. discriminate Hin.
Defined.

(** Every call of [command] ends, and ends in one of two states: the response
    with the connection kept, or a ManagementError with the connection closed and the
    buffer empty, so that no later command reads a late response of this one.  In
    particular no loop runs out of the bound given by the input that is left. *)
Theorem command_outcome decode password now ticks cmd m :
  match command decode password now ticks cmd m with
  | (Ok _, m') => connected m' = true
  | (Raise e, m') => ∃ msg, e = ManagementError msg ∧ msg ≠ "out of fuel" ∧ m' = closed m'
  end.
Proof.
  unfold command. destruct (attempt_command _ _ _ _ cmd m) as [[ls|e] m1] eqn:E1.
  { by eapply attempt_command_connected. }
  destruct (attempt_command _ _ _ _ cmd (closed m1)) as [[ls|e2] m2] eqn:E2.
  { by eapply attempt_command_connected. }
  exists (exn_text e2). split_and!; [done| |done].
  eapply attempt_command_fuelled. by rewrite E2.
Qed.

(** A name cannot smuggle a second command into the management channel: whatever
    the name, [kill] sends nothing but the password line and one line made of the
    word kill and the name, which then has no line feed; a name that is refused sends nothing. *)
Theorem kill_no_injection decode password now ticks name :
  sends_only (fun data => (truthy password = true ∧ data = default "" password +:+ lf_str)
                          ∨ (data = "kill " +:+ name +:+ lf_str ∧ has_lf name = false))
    (kill decode password now ticks name)
  ∧ (name_re name = false → ∀ m, m_log (kill decode password now ticks name m).2 = m_log m).
Proof.
  split.
  - unfold kill. destruct (name_re name) eqn:Hn; cbn [negb]; [|auto with ovpn].
    apply sends_bind; [|auto with ovpn]. apply sends_command; [auto|].
    right. split; [by rewrite <- str_app_assoc|]. by apply name_re_no_lf.
  - intros Hn m. unfold kill. by rewrite Hn.
Qed.

Lemma kill_no_injection_witness :
  name_re (String "a" (String "010" "kill bob")) = false ∧
  ∀ m, m_log (kill id None 0 0 (String "a" (String "010" "kill bob")) m).2 = m_log m.
Proof.
  split; [vm_compute; reflexivity|].
  apply (proj2 (kill_no_injection id None 0 0 (String "a" (String "010" "kill bob")))).
  vm_compute. reflexivity.
Defined.
