(* ===== verification/StatusFile.v ===== *)
(** * The status output of OpenVPN: reading back what it prints

    [parse_status] and [read_status_file] of [ui/app/mgmt.py] are defined in
    [Mgmt]; this file states what they recover. *)

From S2P Require Import Prelude PyStr Mgmt.

Open Scope string_scope.
Open Scope list_scope.
Open Scope Z_scope.

(** ** What OpenVPN prints

    Status version 2 separates with commas, version 3 with tabs. *)

Definition client_columns : list string :=
  ["Common Name"; "Real Address"; "Virtual Address"; "Virtual IPv6 Address"; "Bytes Received"; "Bytes Sent";
   "Connected Since"; "Connected Since (time_t)"; "Username"; "Client ID"; "Peer ID"; "Data Channel Cipher"].

(** [since]: the time of the connection in words, which the parser does not read. *)
Definition client_cells (since : string) (c : status_client) : list string :=
  [cl_cn c; cl_real_address c; cl_vpn_ip c; cl_vpn_ipv6 c; nat_str (cl_bytes_in c); nat_str (cl_bytes_out c);
   since; nat_str (cl_connected_since c); cl_username c; nat_str (cl_cid c); nat_str (cl_peer_id c); cl_cipher c].

Definition row (sep : ascii) (cells : list string) : string := join (String sep "") cells.

(** The lines after the columns of the client list: clients, global statistics, and any
    other line of text. *)
Inductive status_item := ClientItem (since : string) (c : status_client) | StatItem (name value : string) | TextItem (line : string).

Record status_output := StatusOutput {
  so_first : list string;          (* TITLE and the like *)
  so_time_text : string;
  so_time : Z;
  so_second : list string;         (* what stands between the time and the client list *)
  so_items : list status_item;     (* the clients and everything after them *)
}.

Definition print_item (sep : ascii) (i : status_item) : string :=
  match i with
  | ClientItem since c => row sep ("CLIENT_LIST" :: client_cells since c)
  | StatItem name value => row sep ["GLOBAL_STATS"; name; value]
  | TextItem line => line
  end.

Definition print_status (sep : ascii) (o : status_output) : list string :=
  so_first o ++ row sep ["TIME"; so_time_text o; nat_str (so_time o)]
  :: so_second o ++ row sep ("HEADER" :: "CLIENT_LIST" :: client_columns)
  :: (print_item sep <$> so_items o).

(** What the output says. *)
Definition so_clients (o : status_output) : list status_client :=
  omap (fun i => match i with ClientItem _ c => Some c | _ => None end) (so_items o).
Definition so_stats (o : status_output) : gmap string string :=
  foldl (fun m i => match i with StatItem name value => <[name := value]> m | _ => m end) ∅ (so_items o).

(** Any other line: one whose first cell is none of the four words, or the columns of
    another section. *)
Definition other_line (line : string) : bool :=
  match split (if mem_char tab line then tab else ","%char) line with
  | "HEADER" :: name :: _ => negb (String.eqb name "CLIENT_LIST")
  | tag :: _ => negb (existsb (String.eqb tag) ["CLIENT_LIST"; "TIME"; "GLOBAL_STATS"])
  | [] => true
  end.

(** A cell that fits a status line: it holds neither separator. *)
Definition plain_cell (w : string) : bool := negb (mem_char tab w) && negb (mem_char ","%char w).

Definition printable_client (c : status_client) : bool :=
  forallb plain_cell [cl_cn c; cl_real_address c; cl_vpn_ip c; cl_vpn_ipv6 c; cl_username c; cl_cipher c]
  && forallb (fun n => 0 <=? n) [cl_bytes_in c; cl_bytes_out c; cl_connected_since c; cl_cid c; cl_peer_id c].

Definition item_ok (i : status_item) : bool :=
  match i with
  | ClientItem since c => plain_cell since && printable_client c
  | StatItem name value => plain_cell name && plain_cell value
  | TextItem line => other_line line
  end.

Definition output_ok (o : status_output) : bool :=
  forallb other_line (so_first o) && plain_cell (so_time_text o) && (0 <? so_time o)
  && forallb other_line (so_second o) && forallb item_ok (so_items o).

(** ** Cells *)

Lemma mem_char_decimal c s : is_decimal c = false → str_forall is_decimal s = true → mem_char c s = false.
Proof.
  intros Hc. induction s as [|d s IH]; [done|]. simpl. intros [Hd Hs]%andb_true_iff.
  rewrite mem_char_cons, IH by done. destruct (Ascii.eqb_spec c d) as [->|]; [congruence|done].
Qed.

Lemma plain_nat_str n : 0 <= n → plain_cell (nat_str n) = true.
Proof.
  intros Hn. unfold plain_cell. by rewrite !mem_char_decimal by (done || by apply nat_str_decimal).
Qed.

Lemma mem_char_join c sep l :
  c ≠ sep → Forall (fun w => mem_char c w = false) l → mem_char c (join (String sep "") l) = false.
Proof.
  intros Hne. induction l as [|w l IH]; intros HF; [done|]. apply Forall_cons in HF as [Hw HF].
  destruct l as [|v l]; [done|]. cbn [join]. rewrite !mem_char_app, Hw, mem_char_cons. simpl.
  destruct (Ascii.eqb_spec c sep); [done|]. by apply IH.
Qed.

Definition is_sep (sep : ascii) : bool := Ascii.eqb sep tab || Ascii.eqb sep ","%char.

(** A printed line is cut into its cells again. *)
Lemma row_split sep cells :
  is_sep sep = true → (2 <= length cells)%nat → forallb plain_cell cells = true →
  split (if mem_char tab (row sep cells) then tab else ","%char) (row sep cells) = cells.
Proof.
  intros Hsep Hlen Hp. pose proof (proj1 (List.forallb_forall _ _) Hp) as Hp0. clear Hp. rename Hp0 into Hp.
  assert (Hno : ∀ c, c = tab ∨ c = ","%char → Forall (fun w => mem_char c w = false) cells).
  { intros c Hc. apply List.Forall_forall. intros w Hw. apply Hp in Hw. unfold plain_cell in Hw.
    apply andb_true_iff in Hw as [H1 H2]. apply negb_true_iff in H1, H2. by destruct Hc as [->| ->]. }
  assert (Hne : cells ≠ []) by (by destruct cells; simpl in *; [lia|]).
  unfold is_sep in Hsep. apply orb_true_iff in Hsep as [->%Ascii.eqb_eq| ->%Ascii.eqb_eq].
  - assert (mem_char tab (row tab cells) = true) as ->.
    { destruct cells as [|a [|b cells]]; simpl in Hlen; [lia|lia|]. unfold row. cbn [join].
      rewrite !mem_char_app, (mem_char_cons tab tab), Ascii.eqb_refl. simpl. apply orb_true_r. }
    apply split_join; auto.
  - assert (mem_char tab (row "," cells) = false) as -> by (apply mem_char_join; auto).
    apply split_join; auto.
Qed.

Lemma status_line_row sep acc cells :
  is_sep sep = true → (2 <= length cells)%nat → forallb plain_cell cells = true →
  ∀ tag rest, cells = tag :: rest →
  status_line acc (row sep cells) =
    (if String.eqb tag "HEADER" && Nat.ltb 2 (length cells) then
       match rest with
       | name :: cols => StatusAcc (<[name := cols]> (sa_headers acc)) (sa_clients acc) (sa_time acc) (sa_stats acc)
       | [] => acc
       end
     else if String.eqb tag "CLIENT_LIST" then
       StatusAcc (sa_headers acc)
         (sa_clients acc ++ [normalise_client (zip_dict (default [] (sa_headers acc !! "CLIENT_LIST")) rest ∅)])
         (sa_time acc) (sa_stats acc)
     else if String.eqb tag "TIME" && Nat.ltb 2 (length cells) then
       match py_int (nth 1 rest "") with
       | Some t => StatusAcc (sa_headers acc) (sa_clients acc) (Some t) (sa_stats acc)
       | None => acc
       end
     else if String.eqb tag "GLOBAL_STATS" && Nat.ltb 2 (length cells) then
       StatusAcc (sa_headers acc) (sa_clients acc) (sa_time acc) (<[nth 0 rest "" := nth 1 rest ""]> (sa_stats acc))
     else acc).
Proof. intros Hsep Hlen Hp tag rest ->. unfold status_line. by rewrite row_split. Qed.

Lemma int_or_0_nat_str n : 0 <= n → int_or_0 (Some (nat_str n)) = n.
Proof.
  intros Hn. unfold int_or_0. simpl. rewrite py_int_nat_str by done.
  destruct (nat_str n) eqn:E; [by destruct (nat_str_nonempty n)|done].
Qed.

(** The dictionary of a printed client is normalised to the client. *)
Lemma normalise_printed since c :
  printable_client c = true → normalise_client (zip_dict client_columns (client_cells since c) ∅) = c.
Proof.
  unfold printable_client. intros [_ Hn]%andb_true_iff. simpl in Hn. bool_to_prop.
  unfold normalise_client, client_columns, client_cells. cbn [zip_dict].
  repeat (rewrite lookup_insert_eq || rewrite lookup_insert_ne by discriminate).
  rewrite !int_or_0_nat_str by lia. by destruct c.
Qed.

Lemma printable_cells since c :
  plain_cell since = true → printable_client c = true → forallb plain_cell ("CLIENT_LIST" :: client_cells since c) = true.
Proof.
  unfold printable_client. intros Hs [Hp Hn]%andb_true_iff. simpl in Hp, Hn. bool_to_prop.
  unfold client_cells. cbn [forallb]. rewrite !plain_nat_str by lia.
  repeat match goal with H : plain_cell _ = true |- _ => rewrite H; clear H end. done.
Qed.

(** Other lines leave the clients, the time, the statistics and the columns of the
    client list alone. *)
Definition same_reading (acc acc' : status_acc) : Prop :=
  sa_headers acc' !! "CLIENT_LIST" = sa_headers acc !! "CLIENT_LIST" ∧ sa_clients acc' = sa_clients acc
  ∧ sa_time acc' = sa_time acc ∧ sa_stats acc' = sa_stats acc.

Lemma other_line_kept acc line : other_line line = true → same_reading acc (status_line acc line).
Proof.
  unfold other_line, status_line, same_reading. destruct (split _ line) as [|tag rest]; [done|].
  destruct (String.eqb_spec tag "HEADER") as [->|Hh].
  - cbn [andb]. destruct rest as [|name cols]; [done|]. intros Hn%negb_true_iff%String.eqb_neq.
    destruct (Nat.ltb _ _); [|done]. split_and!; try done. cbn [sa_headers]. by rewrite lookup_insert_ne.
  - intros Ho. assert (Hx : negb (existsb (String.eqb tag) ["CLIENT_LIST"; "TIME"; "GLOBAL_STATS"]) = true).
    { destruct rest; revert Ho; repeat case_match; simplify_eq; done. }
    clear Ho. cbn [existsb] in Hx. apply negb_true_iff in Hx. rewrite !orb_false_iff in Hx.
    destruct Hx as (-> & -> & -> & _). done.
Qed.

Lemma other_lines_kept lines : ∀ acc, forallb other_line lines = true → same_reading acc (foldl status_line acc lines).
Proof.
  induction lines as [|l lines IH]; intros acc H; [done|]. cbn in H. apply andb_true_iff in H as [Hl H].
  destruct (other_line_kept acc l Hl) as (? & ? & ? & ?). destruct (IH (status_line acc l) H) as (? & ? & ? & ?).
  unfold same_reading. cbn [foldl]. split_and!; congruence.
Qed.

Lemma status_items sep items : ∀ acc,
  is_sep sep = true → sa_headers acc !! "CLIENT_LIST" = Some client_columns → forallb item_ok items = true →
  let acc' := foldl status_line acc (print_item sep <$> items) in
  sa_clients acc' = sa_clients acc ++ omap (fun i => match i with ClientItem _ c => Some c | _ => None end) items
  ∧ sa_time acc' = sa_time acc
  ∧ sa_stats acc' = foldl (fun m i => match i with StatItem name value => <[name := value]> m | _ => m end) (sa_stats acc) items.
Proof.
  induction items as [|i items IH]; intros acc Hsep Hh Hok; [by rewrite app_nil_r|].
  cbn [forallb] in Hok. apply andb_true_iff in Hok as [Hi Hok]. rewrite fmap_cons. cbn [foldl].
  destruct i as [since c|name value|line]; cbn [print_item item_ok] in *.
  - apply andb_true_iff in Hi as [Hs Hc].
    rewrite (status_line_row sep acc _ Hsep) with (tag := "CLIENT_LIST") (rest := client_cells since c);
      [|simpl; lia|by apply printable_cells|done].
    cbn [String.eqb Ascii.eqb Bool.eqb andb]. rewrite Hh. cbn [default from_option id].
    rewrite normalise_printed by done. edestruct IH as (-> & -> & ->); [done|exact Hh|done|]. cbn [sa_clients sa_time sa_stats]. by rewrite <- app_assoc.
  - rewrite (status_line_row sep acc _ Hsep) with (tag := "GLOBAL_STATS") (rest := [name; value]);
      [|simpl; lia|cbn [forallb]; by rewrite andb_true_r|done].
    cbn [String.eqb Ascii.eqb Bool.eqb andb length Nat.ltb Nat.leb nth].
    edestruct IH as (-> & -> & ->); [done|exact Hh|done|]. done.
  - destruct (other_line_kept acc line Hi) as (E1 & E2 & E3 & E4). rewrite <- E2, <- E3, <- E4.
    edestruct IH as (-> & -> & ->); [done|by rewrite E1|done|]. done.
Qed.

(** C27. Reading a status gives back what OpenVPN printed: for both formats (version 2
    with commas, version 3 with tabs), the server time, every field of every client in
    order and the global statistics, whatever other lines and sections stand in front of
    the time, in front of the client list, between the clients and after them (the title,
    the routing table with its columns, END, lines of any other kind). The printed cells
    hold no separator, the counters are not negative and the time is positive. *)
Theorem parse_status_roundtrip sep now o :
  is_sep sep = true → output_ok o = true →
  parse_status now (print_status sep o) = Status (so_time o) (so_clients o) (so_stats o) false.
Proof.
  intros Hsep Hok. unfold output_ok in Hok. rewrite !andb_true_iff in Hok.
  destruct Hok as [[[[Hf Htt] Ht%Z.ltb_lt] Hs] Hi]. unfold parse_status, print_status.
  rewrite foldl_app. cbn [foldl]. rewrite foldl_app. cbn [foldl].
  destruct (other_lines_kept (so_first o) (StatusAcc ∅ [] None ∅) Hf) as (_ & Hc1 & _ & Hs1). revert Hc1 Hs1.
  generalize (foldl status_line (StatusAcc ∅ [] None ∅) (so_first o)). intros a1 Hc1 Hs1.
  rewrite (status_line_row sep _ ["TIME"; so_time_text o; nat_str (so_time o)] Hsep)
    with (tag := "TIME") (rest := [so_time_text o; nat_str (so_time o)]);
    [|simpl; lia|cbn [forallb]; rewrite Htt, plain_nat_str by lia; reflexivity|reflexivity].
  cbn [nth String.eqb Ascii.eqb Bool.eqb andb length Nat.ltb Nat.leb]. rewrite py_int_nat_str by lia.
  destruct (other_lines_kept (so_second o) (StatusAcc (sa_headers a1) (sa_clients a1) (Some (so_time o)) (sa_stats a1)) Hs)
    as (_ & Hc2 & Ht2 & Hs2). revert Hc2 Ht2 Hs2. generalize (foldl status_line (StatusAcc (sa_headers a1) (sa_clients a1) (Some (so_time o)) (sa_stats a1)) (so_second o)).
  cbn [sa_clients sa_time sa_stats]. intros a2 Hc2 Ht2 Hs2.
  rewrite (status_line_row sep a2 ("HEADER" :: "CLIENT_LIST" :: client_columns) Hsep)
    with (tag := "HEADER") (rest := "CLIENT_LIST" :: client_columns); [|simpl; lia|reflexivity|reflexivity].
  cbn [String.eqb Ascii.eqb Bool.eqb andb length Nat.ltb Nat.leb client_columns].
  edestruct (status_items sep (so_items o)) as (-> & -> & ->); [done|apply lookup_insert_eq|done|].
  cbn [sa_clients sa_time sa_stats]. rewrite Hc2, Ht2, Hs2, Hc1, Hs1. destruct (Z.eqb_spec (so_time o) 0); [lia|]. done.
Qed.

Definition sample_client : status_client :=
  StatusClient "alice" "udp4:203.0.113.9:51820" "10.8.0.6" "" 1024 2048 1700000000 "UNDEF" 7 0 "AES-256-GCM".

Definition sample_output : status_output :=
  StatusOutput [row tab ["TITLE"; "OpenVPN 2.6"]] "now" 1700000100 [row tab ["HEADER"; "OTHER"; "X"]]
    [ClientItem "then" sample_client; TextItem (row tab ["HEADER"; "ROUTING_TABLE"; "Virtual Address"]);
     TextItem (row tab ["ROUTING_TABLE"; "10.8.0.6"; "alice"]); StatItem "Max bcast/mcast queue length" "0"; TextItem "END"].

Lemma parse_status_roundtrip_witness :
  parse_status 5 (print_status tab sample_output)
  = Status 1700000100 [sample_client] {["Max bcast/mcast queue length" := "0"]} false.
Proof. apply (parse_status_roundtrip tab 5 sample_output); vm_compute; reflexivity. Defined.

(** A status that [read_status_file] returns was never torn: it is the parse of a
    text that was fresh, that two consecutive reads agree on, that starts with TITLE
    and whose last line is END; and it comes from one of the first three looks, all
    earlier of which were fresh but rejected. *)
Theorem read_status_file_trusted now max_age looks st :
  read_status_file now max_age looks = Some st ↔
  ∃ before l after, take 3 looks = before ++ Some l :: after
    ∧ Forall (fun o => ∃ l', o = Some l' ∧ fl_age l' <= max_age
                ∧ (String.eqb (fl_first l') (fl_second l') && status_complete (fl_first l')) = false) before
    ∧ fl_age l <= max_age ∧ fl_first l = fl_second l ∧ status_complete (fl_first l) = true
    ∧ st = parse_status now (splitlines (fl_first l)).
Proof.
  unfold read_status_file. generalize (take 3 looks). clear looks. intros looks. split.
  - induction looks as [|[l|] looks IH]; cbn [read_status_looks]; try done.
    destruct (Z.ltb_spec max_age (fl_age l)) as [|Hage]; [done|].
    destruct (String.eqb (fl_first l) (fl_second l) && status_complete (fl_first l)) eqn:E.
    + intros [= <-]. bool_to_prop. exists [], l, looks. by split_and!.
    + intros (before & l' & after & -> & HF & ?)%IH. exists (Some l :: before), l', after.
      split; [done|]. split; [|done]. constructor; [|done]. eauto.
  - intros (before & l & after & -> & HF & Hage & Heq & Hc & ->). induction before as [|o before IH]; cbn.
    + rewrite (proj2 (Z.ltb_ge _ _) Hage), Hc, <- Heq, String.eqb_refl. done.
    + apply Forall_cons in HF as [(l' & -> & Hage' & E) HF]. cbn. rewrite (proj2 (Z.ltb_ge _ _) Hage'), E. auto.
Qed.
