(* ===== verification/Regex.v ===== *)
(** * Regular expressions of Python's [re]

    The constructs the patterns of the sources use: a backtracking matcher with
    greedy and lazy repetition, alternatives tried from the left, capture groups and
    word boundaries.  [re_match] is [Pattern.match], [re_fullmatch] is
    [Pattern.fullmatch], [re_search_m] and [re_findall_m] are [search] and [findall]
    of a pattern that begins with a caret, under [re.M]. *)

From S2P Require Import Prelude PyStr.

Open Scope string_scope.
Open Scope list_scope.
Open Scope Z_scope.

(** ** The matcher *)

Inductive regex :=
| RChar (p : ascii → bool)
| REps
| RSeq (a b : regex)
| RAlt (a b : regex)
| RStar (greedy : bool) (a : regex)
| RGroup (i : nat) (a : regex)
| RWordB.

(** The position of the matcher: the character before it, what is left of the
    subject, and the groups captured so far. *)
Record re_state := ReState { re_prev : option ascii; re_rest : string; re_caps : gmap nat string }.

(** [str.isalnum] or an underscore, for the code points up to U+00FF: also the
    Latin-1 letters, superscript digits and vulgar fractions. *)
Definition is_word (c : ascii) : bool :=
  is_alpha_az c || is_decimal c || Ascii.eqb c "_"%char
  || existsb (Z.eqb (code c)) [170; 178; 179; 181; 185; 186; 188; 189; 190]
  || (in_range 192 255 c && negb (code c =? 215) && negb (code c =? 247)).

Definition at_boundary (st : re_state) : bool :=
  let before := match re_prev st with Some c => is_word c | None => false end in
  let after := match re_rest st with String c _ => is_word c | EmptyString => false end in
  xorb before after.

Definition or_else {A} (x y : option A) : option A := match x with Some _ => x | None => y end.

Fixpoint rmatch (r : regex) (st : re_state) (k : re_state → option (gmap nat string)) : option (gmap nat string) :=
  match r with
  | REps => k st
  | RChar p =>
      match re_rest st with
      | String c t => if p c then k (ReState (Some c) t (re_caps st)) else None
      | EmptyString => None
      end
  | RSeq a b => rmatch a st (fun st => rmatch b st k)
  | RAlt a b => or_else (rmatch a st k) (rmatch b st k)
  | RStar greedy a =>
      (fix loop (n : nat) (st : re_state) : option (gmap nat string) :=
         match n with
         | O => k st
         | S n =>
             let more := rmatch a st (fun st' =>
               if Nat.ltb (String.length (re_rest st')) (String.length (re_rest st)) then loop n st' else None) in
             if greedy then or_else more (k st) else or_else (k st) more
         end) (S (String.length (re_rest st))) st
  | RGroup i a =>
      rmatch a st (fun st' =>
        let taken := str_take (String.length (re_rest st) - String.length (re_rest st')) (re_rest st) in
        k (ReState (re_prev st') (re_rest st') (<[i := taken]> (re_caps st'))))
  | RWordB => if at_boundary st then k st else None
  end.

(** [rx.match(line)]: anchored at the start, the rest of the line is not looked at. *)
Definition re_match (r : regex) (s : string) : option (gmap nat string) :=
  rmatch r (ReState None s ∅) (fun st => Some (re_caps st)).

(** Pattern notations. *)
Fixpoint lit (s : string) : regex :=
  match s with EmptyString => REps | String c s => RSeq (RChar (Ascii.eqb c)) (lit s) end.
Fixpoint rseq (l : list regex) : regex := match l with [] => REps | [r] => r | r :: l => RSeq r (rseq l) end.
Definition plus (a : regex) : regex := RSeq a (RStar true a).
Definition lazy_plus (a : regex) : regex := RSeq a (RStar false a).
Definition opt (a : regex) : regex := RAlt a REps.
Fixpoint times (n : nat) (a : regex) : regex := match n with O => REps | S n => RSeq a (times n a) end.

Definition one_of (s : string) (c : ascii) : bool := mem_char c s.
Definition is_hex (c : ascii) : bool := is_decimal c || in_range 97 102 c || in_range 65 70 c.

Definition rd : regex := RChar is_decimal.                                           (* \d *)
Definition rw : regex := RChar is_word.                                              (* \w *)
Definition rS : regex := RChar (fun c => negb (is_space c)).                         (* \S *)
Definition rdot : regex := RChar (fun c => negb (Ascii.eqb c lf)).                   (* . *)
Definition raddr : regex := RChar (fun c => is_hex c || one_of ".:" c).              (* [0-9a-fA-F.:] *)
Definition rnot (s : string) : regex := RChar (fun c => negb (one_of s c)).          (* [^s] *)
Definition rfirst : regex := RChar (fun c => negb (Ascii.eqb c "/"%char || is_space c)).   (* [^/\s] *)

Definition rs_ : regex := RChar is_space.                                             (* \s *)

(** [rx.fullmatch(s)]. *)
Definition re_fullmatch (r : regex) (s : string) : bool :=
  match rmatch r (ReState None s ∅) (fun st => if empty (re_rest st) then Some (re_caps st) else None) with
  | Some _ => true | None => false
  end.

(** The matches of [^r] under [re.M], from the left and not overlapping; group 0 is
    the whole match.  [bol] is whether the position is the start of a line. *)
Fixpoint findall_m (fuel : nat) (r : regex) (prev : option ascii) (s : string) : list (gmap nat string) :=
  match fuel with
  | O => []
  | S fuel =>
      let bol := match prev with None => true | Some c => Ascii.eqb c lf end in
      let next := match s with EmptyString => [] | String c t => findall_m fuel r (Some c) t end in
      if bol then
        match rmatch (RGroup 0 r) (ReState prev s ∅) (fun st => Some (re_caps st)) with
        | Some m =>
            let n := String.length (default "" (m !! 0%nat)) in
            match n with
            | O => m :: next
            | S k => let t := str_drop k s in
                     m :: findall_m fuel r (match t with String c _ => Some c | EmptyString => prev end) (str_drop n s)
            end
        | None => next
        end
      else next
  end.
Definition re_findall_m (r : regex) (s : string) : list (gmap nat string) :=
  findall_m (S (String.length s)) r None s.
Definition re_search_m (r : regex) (s : string) : option (gmap nat string) := head (re_findall_m r s).

(** ** Lemmas about the matcher *)

Fixpoint last_char (prev : option ascii) (w : string) : option ascii :=
  match w with EmptyString => prev | String c w => last_char (Some c) w end.

Definition starts_in (p : ascii → bool) (s : string) : bool :=
  match s with String c _ => p c | EmptyString => false end.

Definition star_loop (greedy : bool) (a : regex) (k : re_state → option (gmap nat string)) :=
  fix loop (n : nat) (st : re_state) : option (gmap nat string) :=
    match n with
    | O => k st
    | S n =>
        let more := rmatch a st (fun st' =>
          if Nat.ltb (String.length (re_rest st')) (String.length (re_rest st)) then loop n st' else None) in
        if greedy then or_else more (k st) else or_else (k st) more
    end.

Lemma rmatch_star greedy a st k :
  rmatch (RStar greedy a) st k = star_loop greedy a k (S (String.length (re_rest st))) st.
Proof. done. Qed.

Lemma rmatch_seq a b st k : rmatch (RSeq a b) st k = rmatch a st (fun st => rmatch b st k).
Proof. done. Qed.

Lemma rmatch_char p prev c t caps k :
  rmatch (RChar p) (ReState prev (String c t) caps) k = (if p c then k (ReState (Some c) t caps) else None).
Proof. done. Qed.

Lemma rmatch_group i a st k :
  rmatch (RGroup i a) st k =
  rmatch a st (fun st' =>
    k (ReState (re_prev st') (re_rest st')
         (<[i := str_take (String.length (re_rest st) - String.length (re_rest st')) (re_rest st)]> (re_caps st')))).
Proof. done. Qed.

Lemma star_loop_char greedy p k n prev c t caps :
  p c = true →
  star_loop greedy (RChar p) k (S n) (ReState prev (String c t) caps) =
  (if greedy then or_else (star_loop greedy (RChar p) k n (ReState (Some c) t caps)) (k (ReState prev (String c t) caps))
   else or_else (k (ReState prev (String c t) caps)) (star_loop greedy (RChar p) k n (ReState (Some c) t caps))).
Proof.
  intros Hp. cbn [star_loop rmatch re_rest re_caps]. rewrite Hp.
  replace (Nat.ltb (String.length t) (String.length (String c t))) with true; [done|].
  symmetry. apply Nat.ltb_lt. simpl. lia.
Qed.

(** A greedy run of a class takes the longest prefix, when what follows matches there. *)
Lemma star_run p w rest k x : ∀ prev caps,
  str_forall p w = true → starts_in p rest = false →
  k (ReState (last_char prev w) rest caps) = Some x →
  rmatch (RStar true (RChar p)) (ReState prev (w +:+ rest) caps) k = Some x.
Proof.
  intros prev caps. rewrite rmatch_star. cbn [re_rest].
  assert (Hlen : (String.length w < S (String.length (w +:+ rest)))%nat) by (rewrite str_length_app; lia).
  revert prev Hlen. generalize (S (String.length (w +:+ rest))). intros n. revert n.
  induction w as [|c w IH]; intros n prev Hlen Hw Hrest Hk; (destruct n as [|n]; [simpl in Hlen; lia|]).
  - simpl in *. destruct rest as [|c t]; simpl in *; [done|]. by rewrite Hrest.
  - simpl in Hw. apply andb_true_iff in Hw as [Hc Hw]. change (String c w +:+ rest) with (String c (w +:+ rest)).
    rewrite star_loop_char by done. simpl in Hlen. rewrite (IH n (Some c)); [done|lia|done..].
Qed.

Lemma plus_run p c w rest k x prev caps :
  p c = true → str_forall p w = true → starts_in p rest = false →
  k (ReState (last_char (Some c) w) rest caps) = Some x →
  rmatch (plus (RChar p)) (ReState prev (String c w +:+ rest) caps) k = Some x.
Proof. intros Hc Hw Hr Hk. cbn [plus rmatch re_rest re_caps String.append]. rewrite Hc. by apply star_run. Qed.

(** A literal text is consumed character by character. *)
Lemma lit_run s rest k prev caps :
  rmatch (lit s) (ReState prev (s +:+ rest) caps) k = k (ReState (last_char prev s) rest caps).
Proof. revert prev. induction s as [|c s IH]; intros prev; simpl; [done|]. by rewrite Ascii.eqb_refl, IH. Qed.

Lemma str_take_app w rest : str_take (String.length (w +:+ rest) - String.length rest) (w +:+ rest) = w.
Proof.
  rewrite str_length_app. replace (String.length w + String.length rest - String.length rest)%nat with (String.length w) by lia.
  induction w as [|c w IH]; simpl; [by destruct rest|]. by rewrite IH.
Qed.

(** A greedy run fails when what follows fails at every place it could stop. *)
Lemma star_none p w rest k : ∀ prev caps,
  str_forall p w = true → starts_in p rest = false →
  (∀ prev', k (ReState prev' rest caps) = None) →
  (∀ prev' c t, p c = true → k (ReState prev' (String c t) caps) = None) →
  rmatch (RStar true (RChar p)) (ReState prev (w +:+ rest) caps) k = None.
Proof.
  intros prev caps. rewrite rmatch_star. cbn [re_rest]. generalize (S (String.length (w +:+ rest))). intros n. revert n prev.
  induction w as [|c w IH]; intros n prev Hw Hrest Hk1 Hk2.
  - simpl. destruct n as [|n]; simpl; [done|]. destruct rest as [|c t]; simpl in *; [apply Hk1|]. rewrite Hrest. apply Hk1.
  - simpl in Hw. apply andb_true_iff in Hw as [Hc Hw]. change (String c w +:+ rest) with (String c (w +:+ rest)).
    destruct n as [|n]; [by apply Hk2|]. rewrite star_loop_char by done. rewrite (IH n (Some c)) by done. by apply Hk2.
Qed.

Lemma one_of_single d c : one_of (String d "") c = Ascii.eqb c d.
Proof. unfold one_of, mem_char, str_exists. simpl. by destruct (Ascii.eqb c d). Qed.

(** The characters a pattern can consume. *)
Fixpoint within (p : ascii → bool) (r : regex) : Prop :=
  match r with
  | RChar q => ∀ c, q c = true → p c = true
  | REps | RWordB => True
  | RSeq a b | RAlt a b => within p a ∧ within p b
  | RStar _ a | RGroup _ a => within p a
  end.

Lemma rmatch_within p r : within p r → ∀ st k x,
  rmatch r st k = Some x →
  ∃ w st', re_rest st = w +:+ re_rest st' ∧ str_forall p w = true ∧ k st' = Some x.
Proof.
  induction r as [q| |a IHa b IHb|a IHa b IHb|g a IHa|i a IHa|]; cbn [within]; intros Hw st k x.
  - cbn [rmatch]. destruct (re_rest st) as [|c t] eqn:E; [done|]. destruct (q c) eqn:Hq; [|done].
    intros Hk. exists (String c ""), (ReState (Some c) t (re_caps st)). cbn. by rewrite (Hw c Hq).
  - intros Hk. by exists "", st.
  - destruct Hw as [Ha Hb]. rewrite rmatch_seq. intros (w1 & st1 & H1 & Hw1 & H)%(IHa Ha).
    apply (IHb Hb) in H as (w2 & st2 & H2 & Hw2 & Hk). exists (w1 +:+ w2), st2.
    by rewrite str_app_assoc, <- H2, str_forall_app, Hw1.
  - destruct Hw as [Ha Hb]. cbn [rmatch]. unfold or_else.
    destruct (rmatch a st k) as [y|] eqn:E; [intros [= ->]; by apply IHa|by apply IHb].
  - rewrite rmatch_star. generalize (S (String.length (re_rest st))). intros n. revert st.
    induction n as [|n IHn]; intros st; [intros Hk; by exists "", st|].
    cbn [star_loop].
    assert (Hmore : rmatch a st (fun st' =>
        if Nat.ltb (String.length (re_rest st')) (String.length (re_rest st)) then star_loop g a k n st' else None) = Some x →
      ∃ w st', re_rest st = w +:+ re_rest st' ∧ str_forall p w = true ∧ k st' = Some x).
    { intros (w1 & st1 & H1 & Hw1 & H)%(IHa Hw). destruct (Nat.ltb _ _); [|done].
      apply IHn in H as (w2 & st2 & H2 & Hw2 & Hk).
      exists (w1 +:+ w2), st2. by rewrite str_app_assoc, <- H2, str_forall_app, Hw1. }
    assert (Hstop : k st = Some x → ∃ w st', re_rest st = w +:+ re_rest st' ∧ str_forall p w = true ∧ k st' = Some x)
      by (intros Hk; by exists "", st).
    change ((fix loop (n : nat) (st : re_state) {struct n} := _) n) with (star_loop g a k n).
    destruct g; unfold or_else.
    + destruct (rmatch a st _) as [y|]; [intros [= ->]; by apply Hmore|by apply Hstop].
    + destruct (k st) as [y|]; [intros [= ->]; by apply Hstop|by apply Hmore].
  - rewrite rmatch_group. intros (w & st' & H & Hw' & Hk)%(IHa Hw).
    eexists w, (ReState (re_prev st') (re_rest st') _). by split_and!.
  - cbn [rmatch]. destruct (at_boundary st); [|done]. intros Hk. by exists "", st.
Qed.
