(* ===== verification/LogLines.v ===== *)
(** * Lines of the OpenVPN logs: the parsers of [ui/app/collector.py]

    The patterns of the source, group by group, and what they read from the lines that
    OpenVPN and the access scripts write. *)

From S2P Require Import Prelude PyStr Regex.

Open Scope string_scope.
Open Scope list_scope.
Open Scope Z_scope.

(** ** The patterns *)

Definition _TS : regex :=
  rseq [RGroup 1 (rseq [times 4 rd; lit "-"; rd; rd; lit "-"; rd; rd; lit " "; rd; rd; lit ":"; rd; rd; lit ":"; rd; rd]);
        lit " "].

Definition rx_verify : regex :=
  rseq [_TS; plus (RChar (fun c => is_word c || Ascii.eqb c "-"%char)); lit ":"; RGroup 2 (lazy_plus raddr); lit ":";
        plus rd; lit " VERIFY ERROR: depth=0, error="; RGroup 3 (plus (rnot ":")); lit ":"; RStar false rdot; RWordB;
        lit "CN="; RGroup 4 (plus (rnot ",/"))].

Definition rx_tls : regex :=
  rseq [_TS; lit "TLS Error: ";
        RAlt (RSeq (RAlt (lit "tls-crypt unwrapping") (lit "incoming packet authentication")) (lit " failed"))
             (lit "could not determine wrapping");
        lit " from [AF_INET"; opt (lit "6"); lit "]"; RGroup 2 (lazy_plus raddr); lit ":"; plus rd].

Definition rx_2fa : regex :=
  rseq [_TS; lit "2FA FAIL user='"; RStar true (rnot "'"); lit "' cn='"; RGroup 2 (RStar true (rnot "'"));
        lit "' from='"; RGroup 3 (RStar true (rnot "'")); lit "' reason="; RGroup 4 (plus rS)].

Definition rx_access : regex :=
  rseq [_TS; lit "client-access: refused cn='"; RGroup 2 (RStar true (rnot "'")); lit "' from='";
        RGroup 3 (RStar true (rnot "'")); lit "' reason="; RGroup 4 (plus rS)].

Definition dashes_to_spaces : string → string := str_map (fun c => if Ascii.eqb c "-"%char then " "%char else c).

Definition cap (m : gmap nat string) (i : nat) : string := default "" (m !! i).

(** [_REJECTS]: pattern, then (client, reason, source address) of a match. *)
Definition _REJECTS : list (regex * (gmap nat string → string * string * string)) :=
  [(rx_verify, fun m => (cap m 4, cap m 3, cap m 2));
   (rx_tls, fun m => ("", "unknown control channel key", cap m 2));
   (rx_2fa, fun m => (cap m 2, "2FA: " +:+ dashes_to_spaces (cap m 4), cap m 3));
   (rx_access, fun m => (cap m 2, dashes_to_spaces (cap m 4), cap m 3))].

(** ** Time stamps

    [time.strptime] of the captured text: the fields in their ranges and a day that
    exists.  [mktime] is the platform's local time. *)

Definition civil : Type := Z * Z * Z * Z * Z * Z.
Definition leap (y : Z) : bool := (y mod 4 =? 0) && (negb (y mod 100 =? 0) || (y mod 400 =? 0)).
Definition month_days (y m : Z) : Z :=
  if m =? 2 then (if leap y then 29 else 28)
  else if existsb (Z.eqb m) [4; 6; 9; 11] then 30 else 31.

Definition digits_at (i n : nat) (s : string) : Z := default 0 (unsigned_int (str_take n (str_drop i s))).

Definition strptime (s : string) : result civil :=
  let y := digits_at 0 4 s in let mo := digits_at 5 2 s in let dd := digits_at 8 2 s in
  let h := digits_at 11 2 s in let mi := digits_at 14 2 s in let sec := digits_at 17 2 s in
  if (1 <=? y) && (1 <=? mo) && (mo <=? 12) && (1 <=? dd) && (dd <=? month_days y mo)
     && (h <=? 23) && (mi <=? 59) && (sec <=? 61)
  then Ok (y, mo, dd, h, mi, sec) else Raise ValueError.

Section parsers.
Context (mktime : civil → Z).

Definition stamp (m : gmap nat string) : result Z := mktime <$> strptime (cap m 1).

Record rejection := Rejection { rj_ts : Z; rj_client : string; rj_reason : string; rj_address : string }.

Fixpoint first_reject (rxs : list (regex * (gmap nat string → string * string * string))) (line : string)
    : result (option rejection) :=
  match rxs with
  | [] => Ok None
  | (rx, fields) :: rxs =>
      match re_match rx line with
      | Some m => let '(client, reason, address) := fields m in
                  ts ← stamp m; Ok (Some (Rejection ts client reason address))
      | None => first_reject rxs line
      end
  end.
Definition parse_rejection (line : string) : result (option rejection) := first_reject _REJECTS line.

Definition _PEER_INFO : regex :=
  rseq [_TS; RGroup 2 (plus rfirst); lit " peer info: IV_"; RGroup 3 (RAlt (lit "PLAT") (RAlt (lit "VER") (lit "GUI_VER")));
        lit "="; RGroup 4 (RStar true rS)].
Definition _PEER_OPEN : regex :=
  rseq [_TS; RGroup 2 (plus rfirst); lit " ["; RGroup 3 (plus (rnot "]")); lit "] Peer Connection Initiated with "].
Definition _PEER_END : regex :=
  rseq [_TS; opt (rseq [RGroup 2 (plus rfirst); lit "/"]); RGroup 3 (plus rS); lit " SIG";
        plus (RChar (fun c => is_upper_az c || is_decimal c)); lit "["; plus rw; lit ",";
        RGroup 4 (RStar true (rnot "]")); lit "] received, client-instance "].

Definition _END_REASONS : list (string * string) :=
  [("delayed-exit", "left"); ("remote-exit", "left"); ("ping-restart", "timed out");
   ("ovpn-dco: ping expired", "timed out"); ("connection-reset", "closed");
   ("ovpn-dco: transport disconnected", "closed")].

Definition end_reason (word : string) : string :=
  match find (fun p => String.eqb p.1 word) _END_REASONS with
  | Some p => p.2
  | None => if empty word then "ended" else word
  end.

Inductive info_key := PLAT | VER | GUI_VER.
Definition info_key_of (s : string) : info_key :=
  if String.eqb s "PLAT" then PLAT else if String.eqb s "VER" then VER else GUI_VER.

(** What a line says about a connection. *)
Inductive conn_line :=
| LInfo (ts : Z) (address : string) (key : info_key) (value : string)
| LOpen (ts : Z) (address : string) (name : string)
| LEnd (ts : Z) (address : string) (name : option string) (reason : string).

Definition parse_connection (line : string) : result (option conn_line) :=
  match re_match _PEER_INFO line with
  | Some m => ts ← stamp m; Ok (Some (LInfo ts (cap m 2) (info_key_of (cap m 3)) (cap m 4)))
  | None =>
      match re_match _PEER_OPEN line with
      | Some m => ts ← stamp m; Ok (Some (LOpen ts (cap m 2) (cap m 3)))
      | None =>
          match re_match _PEER_END line with
          | Some m => ts ← stamp m; Ok (Some (LEnd ts (cap m 3) (m !! 2%nat) (end_reason (cap m 4))))
          | None => Ok None
          end
      end
  end.
End parsers.

(** ** Time stamps of log lines *)

(** The text of a time stamp, from its fourteen digits. *)
Definition stamp_text (ds : list ascii) : string :=
  match ds with
  | [y1; y2; y3; y4; m1; m2; d1; d2; h1; h2; i1; i2; s1; s2] =>
      String y1 (String y2 (String y3 (String y4 (String "-" (String m1 (String m2 (String "-" (String d1 (String d2
        (String " " (String h1 (String h2 (String ":" (String i1 (String i2 (String ":" (String s1 (String s2 EmptyString))))))))))))))))))
  | _ => EmptyString
  end%char.

Lemma stamp_run ds rest k :
  length ds = 14%nat → forallb is_decimal ds = true →
  rmatch _TS (ReState None (stamp_text ds +:+ " " +:+ rest) ∅) k
  = k (ReState (Some " "%char) rest {[1%nat := stamp_text ds]}).
Proof.
  intros Hlen Hd. do 14 (destruct ds as [|? ds]; [done|]). destruct ds; [|done]. clear Hlen.
  cbn [forallb] in Hd. rewrite !andb_true_iff in Hd. destruct_and!.
  cbn -[is_decimal insert singletonM String.length str_take].
  repeat match goal with H : is_decimal ?c = true |- _ => rewrite H; clear H end.
  cbn -[insert singletonM String.length str_take].
  rewrite <- insert_empty.
  do 3 f_equal.
  change (String " " rest) with (" " +:+ rest).
  match goal with |- str_take (String.length ?a - String.length ?b) ?a = ?w => change a with (w +:+ b) end.
  apply str_take_app.
Qed.

(** ** Lines written by the access scripts *)

Definition no_quote (s : string) : bool := negb (mem_char "'"%char s).
Definition word_like (s : string) : bool := negb (empty s) && str_forall (fun c => negb (is_space c)) s.

Definition access_line (ds : list ascii) (cn from reason : string) : string :=
  stamp_text ds +:+ " " +:+ "client-access: refused cn='" +:+ cn +:+ "' from='" +:+ from +:+ "' reason=" +:+ reason.
Definition tfa_line (ds : list ascii) (user cn from reason : string) : string :=
  stamp_text ds +:+ " " +:+ "2FA FAIL user='" +:+ user +:+ "' cn='" +:+ cn +:+ "' from='" +:+ from
  +:+ "' reason=" +:+ reason.

Lemma quote_class s : no_quote s = true → str_forall (fun c => negb (one_of "'" c)) s = true.
Proof.
  unfold no_quote, mem_char, str_exists. rewrite negb_involutive. induction s as [|c s IH]; [done|].
  cbn [str_forall]. intros [Hc Hs]%andb_true_iff. rewrite IH, one_of_single, Ascii.eqb_sym, Hc by done. done.
Qed.

(** A quoted field: the group captures the text up to the quote. *)
Lemma quoted_group i s rest k x prev caps :
  no_quote s = true →
  (∀ prev', k (ReState prev' (String "'" rest) (<[i := s]> caps)) = Some x) →
  rmatch (RGroup i (RStar true (rnot "'"))) (ReState prev (s +:+ String "'" rest) caps) k = Some x.
Proof.
  intros Hs Hk. rewrite rmatch_group. unfold rnot. apply star_run; [by apply quote_class|done|].
  cbn [re_rest re_prev re_caps]. rewrite str_take_app. apply Hk.
Qed.

(** The last field: a word up to the end of the line. *)
Lemma last_word_group i s k x prev caps :
  word_like s = true → (∀ prev', k (ReState prev' "" (<[i := s]> caps)) = Some x) →
  rmatch (RGroup i (plus rS)) (ReState prev s caps) k = Some x.
Proof.
  intros Hs Hk. apply andb_true_iff in Hs as [Hne Hs]. destruct s as [|c s]; [done|].
  simpl in Hs. apply andb_true_iff in Hs as [Hc Hs].
  rewrite <- (str_app_nil_r (String c s)) at 1. rewrite rmatch_group. unfold rS. apply plus_run; [done..|].
  cbn [re_rest re_prev re_caps]. rewrite (str_take_app (String c s) ""). apply Hk.
Qed.

Lemma rx_access_run ds cn from reason :
  length ds = 14%nat → forallb is_decimal ds = true → no_quote cn = true → no_quote from = true →
  word_like reason = true →
  re_match rx_access (access_line ds cn from reason) =
  Some (<[4%nat := reason]> (<[3%nat := from]> (<[2%nat := cn]> {[1%nat := stamp_text ds]}))).
Proof.
  intros Hlen Hd Hcn Hfrom Hr. unfold re_match, rx_access, access_line. cbn [rseq]. rewrite rmatch_seq.
  rewrite stamp_run by done. rewrite rmatch_seq. rewrite lit_run. rewrite rmatch_seq.
  change ("' from='" +:+ ?r) with (String "'" (" from='" +:+ r)).
  apply quoted_group; [done|]. intros p1. rewrite rmatch_seq.
  change (String "'" (" from='" +:+ ?r)) with ("' from='" +:+ r). rewrite lit_run. rewrite rmatch_seq.
  change ("' reason=" +:+ ?r) with (String "'" (" reason=" +:+ r)).
  apply quoted_group; [done|]. intros p2. rewrite rmatch_seq.
  change (String "'" (" reason=" +:+ ?r)) with ("' reason=" +:+ r). rewrite lit_run.
  by apply last_word_group.
Qed.

(** The patterns that are tried first do not match these lines. *)
Lemma rx_verify_prefix ds c w rest :
  length ds = 14%nat → forallb is_decimal ds = true →
  str_forall (fun c => is_word c || Ascii.eqb c "-"%char) (String c w) = true →
  starts_in (fun c => is_word c || Ascii.eqb c "-"%char) rest = false →
  starts_in (fun c => Ascii.eqb ":"%char c) rest = false ∨ startswith ": " rest = true →
  re_match rx_verify (stamp_text ds +:+ " " +:+ String c w +:+ rest) = None.
Proof.
  intros Hlen Hd Hw Hrest Hnext. simpl in Hw. apply andb_true_iff in Hw as [Hc Hw].
  unfold re_match, rx_verify. cbn [rseq]. rewrite rmatch_seq, stamp_run, rmatch_seq by done.
  unfold plus at 1. rewrite rmatch_seq.
  change (String c w +:+ rest) with (String c (w +:+ rest)). rewrite rmatch_char, Hc.
  apply star_none; [done..| |].
  - intros prev'. rewrite rmatch_seq. destruct rest as [|c1 rest]; [done|]. cbn [lit]. rewrite rmatch_seq.
    destruct Hnext as [Hn|Hn].
    + cbn [starts_in] in Hn. rewrite rmatch_char. by rewrite Hn.
    + apply startswith_iff in Hn as [t Heq]. injection Heq as -> ->. reflexivity.
  - intros prev' c1 t Hc1. rewrite rmatch_seq. cbn [lit]. rewrite rmatch_seq, rmatch_char.
    destruct (Ascii.eqb_spec ":" c1) as [<-|]; [done|done].
Qed.

Lemma rx_verify_other ds rest :
  length ds = 14%nat → forallb is_decimal ds = true →
  re_match rx_verify (stamp_text ds +:+ " " +:+ "client-access: refused cn='" +:+ rest) = None ∧
  re_match rx_verify (stamp_text ds +:+ " " +:+ "2FA FAIL user='" +:+ rest) = None ∧
  re_match rx_verify (stamp_text ds +:+ " " +:+ "TLS Error: " +:+ rest) = None.
Proof.
  intros Hlen Hd. split_and!.
  - apply (rx_verify_prefix ds "c"%char "lient-access" (": refused cn='" +:+ rest)); auto.
  - apply (rx_verify_prefix ds "2"%char "FA" (" FAIL user='" +:+ rest)); auto.
  - apply (rx_verify_prefix ds "T"%char "LS" (" Error: " +:+ rest)); auto.
Qed.

Lemma rx_tls_other ds rest :
  length ds = 14%nat → forallb is_decimal ds = true →
  re_match rx_tls (stamp_text ds +:+ " " +:+ "client-access: refused cn='" +:+ rest) = None ∧
  re_match rx_tls (stamp_text ds +:+ " " +:+ "2FA FAIL user='" +:+ rest) = None ∧
  re_match rx_2fa (stamp_text ds +:+ " " +:+ "client-access: refused cn='" +:+ rest) = None.
Proof.
  intros Hlen Hd. unfold re_match, rx_tls, rx_2fa. cbn [rseq]. rewrite !rmatch_seq, !stamp_run by done.
  split_and!; reflexivity.
Qed.

Lemma rx_2fa_run ds user cn from reason :
  length ds = 14%nat → forallb is_decimal ds = true → no_quote user = true → no_quote cn = true →
  no_quote from = true → word_like reason = true →
  re_match rx_2fa (tfa_line ds user cn from reason) =
  Some (<[4%nat := reason]> (<[3%nat := from]> (<[2%nat := cn]> {[1%nat := stamp_text ds]}))).
Proof.
  intros Hlen Hd Hu Hcn Hfrom Hr. unfold re_match, rx_2fa, tfa_line. cbn [rseq]. rewrite rmatch_seq.
  rewrite stamp_run by done. rewrite rmatch_seq. rewrite lit_run. rewrite rmatch_seq.
  change ("' cn='" +:+ ?r) with (String "'" (" cn='" +:+ r)).
  unfold rnot at 1. apply star_run; [by apply quote_class|done|]. rewrite rmatch_seq.
  change (String "'" (" cn='" +:+ ?r)) with ("' cn='" +:+ r). rewrite lit_run. rewrite rmatch_seq.
  change ("' from='" +:+ ?r) with (String "'" (" from='" +:+ r)).
  apply quoted_group; [done|]. intros p1. rewrite rmatch_seq.
  change (String "'" (" from='" +:+ ?r)) with ("' from='" +:+ r). rewrite lit_run. rewrite rmatch_seq.
  change ("' reason=" +:+ ?r) with (String "'" (" reason=" +:+ r)).
  apply quoted_group; [done|]. intros p2. rewrite rmatch_seq.
  change (String "'" (" reason=" +:+ ?r)) with ("' reason=" +:+ r). rewrite lit_run.
  by apply last_word_group.
Qed.

Lemma caps_read (s cn from reason : string) :
  let m : gmap nat string := <[4%nat := reason]> (<[3%nat := from]> (<[2%nat := cn]> {[1%nat := s]})) in
  cap m 1 = s ∧ cap m 2 = cn ∧ cap m 3 = from ∧ cap m 4 = reason.
Proof. unfold cap. split_and!; by simplify_map_eq. Qed.

(** A refusal is read back as it was written: for the lines the access script and
    the second-factor script append to their logs, whatever the client name and source
    address (without a single quote) and the reason (one word), the parser returns
    the time, the name, the address and the reason with its dashes as spaces. *)
Theorem refusal_lines_read mktime ds user cn from reason t :
  length ds = 14%nat → forallb is_decimal ds = true → strptime (stamp_text ds) = Ok t →
  no_quote user = true → no_quote cn = true → no_quote from = true → word_like reason = true →
  parse_rejection mktime (access_line ds cn from reason)
    = Ok (Some (Rejection (mktime t) cn (dashes_to_spaces reason) from)) ∧
  parse_rejection mktime (tfa_line ds user cn from reason)
    = Ok (Some (Rejection (mktime t) cn ("2FA: " +:+ dashes_to_spaces reason) from)).
Proof.
  intros Hlen Hd Ht Hu Hcn Hfrom Hr. unfold parse_rejection, _REJECTS. cbn [first_reject].
  destruct (rx_verify_other ds (cn +:+ "' from='" +:+ from +:+ "' reason=" +:+ reason) Hlen Hd) as (V1 & _ & _).
  destruct (rx_verify_other ds (user +:+ "' cn='" +:+ cn +:+ "' from='" +:+ from +:+ "' reason=" +:+ reason) Hlen Hd)
    as (_ & V2 & _).
  destruct (rx_tls_other ds (cn +:+ "' from='" +:+ from +:+ "' reason=" +:+ reason) Hlen Hd) as (T1 & _ & F1).
  destruct (rx_tls_other ds (user +:+ "' cn='" +:+ cn +:+ "' from='" +:+ from +:+ "' reason=" +:+ reason) Hlen Hd)
    as (_ & T2 & _).
  fold (access_line ds cn from reason) in V1, T1, F1. fold (tfa_line ds user cn from reason) in V2, T2.
  rewrite V1, V2, T1, T2, F1, rx_access_run, rx_2fa_run by done.
  destruct (caps_read (stamp_text ds) cn from reason) as (C1 & C2 & C3 & C4). cbv zeta in C1, C2, C3, C4.
  unfold stamp. rewrite C1, C2, C3, C4, Ht. done.
Qed.

(** The digits of 2026-07-08 09:10:11. *)
Definition sample_digits : list ascii :=
  ["2"; "0"; "2"; "6"; "0"; "7"; "0"; "8"; "0"; "9"; "1"; "0"; "1"; "1"]%char.

Lemma refusal_lines_read_witness :
  parse_rejection (fun _ => 5) (access_line sample_digits "bob" "198.51.100.7" "too-many-devices")
  = Ok (Some (Rejection 5 "bob" "too many devices" "198.51.100.7")).
Proof.
  apply (refusal_lines_read (fun _ => 5) sample_digits "x" "bob" "198.51.100.7" "too-many-devices" (2026, 7, 8, 9, 10, 11));
    reflexivity.
Defined.

(** ** Control channel key mismatches *)

Definition tls_line (ds : list ascii) (family address port : string) : string :=
  stamp_text ds +:+ " " +:+ "TLS Error: tls-crypt unwrapping failed from [" +:+ family +:+ "]" +:+ address +:+ ":" +:+ port.

(** The source of an IPv6 control-channel mismatch is cut off: the shortest match of the
    address is followed by any digits, so it ends at the first group that starts with a
    digit. Two scanners behind different IPv4-mapped addresses are counted as one source,
    written ::ffff, and 2001:db8::1 is recorded as 2001:db8: . *)
Theorem ipv6_source_truncated mktime :
  parse_rejection mktime (tls_line sample_digits "AF_INET6" "::ffff:198.51.100.7" "40000")
    = Ok (Some (Rejection (mktime (2026, 7, 8, 9, 10, 11)) "" "unknown control channel key" "::ffff")) ∧
  parse_rejection mktime (tls_line sample_digits "AF_INET6" "::ffff:203.0.113.9" "40000")
    = Ok (Some (Rejection (mktime (2026, 7, 8, 9, 10, 11)) "" "unknown control channel key" "::ffff")) ∧
  parse_rejection mktime (tls_line sample_digits "AF_INET6" "2001:db8::1" "40000")
    = Ok (Some (Rejection (mktime (2026, 7, 8, 9, 10, 11)) "" "unknown control channel key" "2001:db8:")).
Proof. split_and!; reflexivity. Qed.
