(* ===== verification/Collector.v ===== *)
(** * The collector thread: [ui/app/collector.py]

    One turn of [Collector.run] is [run_turn]: [poll], the handling of its exceptions
    and [read_logs].  What the turn meets outside (the answers of the management
    interface, clocks, whether a transaction commits) is the record [turn_input].
    A transaction that fails is rolled back: the tables stay as they were.

    Rates are exact rationals, where the code has floats. *)

From S2P Require Import Prelude PyStr Schema Traffic Sessions Mgmt Regex LogLines.
From Stdlib Require Import QArith.

Open Scope string_scope.
Open Scope list_scope.
Open Scope Z_scope.

(** ** State *)

(** A value of [_active]: the row and the counters of a connection. *)
Record entry := Entry {
  en_session_id : Z;
  en_bytes_in : Z;
  en_bytes_out : Z;
  en_ts : Z;
  en_rate_in : Q;
  en_rate_out : Q;
}.

(** The key of a connection: client id, start time, common name. *)
Abbreviation conn_key := (Z * Z * string)%type.

(** A value of [_pending]: a handshake read from the log. *)
Record peer := Peer {
  pe_ts : Z;
  pe_cn : option string;
  pe_plat : option string;
  pe_ver : option string;
  pe_gui_ver : option string;
}.

Record live_client := LiveClient { lc_client : status_client; lc_session_id : Z; lc_rate_in : Q; lc_rate_out : Q }.

Record live_state := Live {
  l_connected : bool;
  l_error : option string;
  l_version : option string;
  l_server_time : option Z;
  l_updated_at : option Z;
  l_connected_since : option Z;
  l_clients : list live_client;
  l_load : gmap string Z;
  l_stats : gmap string string;
  l_rate_in : Q;
  l_rate_out : Q;
}.

Record collector := Collector {
  status_time : option Z;
  active : gmap conn_key entry;
  pending : list (string * peer);       (* a dict, in insertion order *)
  resync : bool;
  live : live_state;
}.

(** [__init__]. *)
Definition initial_live : live_state := Live false None None None None None [] ∅ ∅ 0 0.
Definition new_collector : collector := Collector None ∅ [] false initial_live.

(** ** [poll] *)

Record turn_input := TurnInput {
  i_was_connected : bool;                (* self.mgmt.connected before the poll *)
  i_load : result (gmap string Z);       (* self.mgmt.load_stats() *)
  i_version : result string;             (* self.mgmt.version() *)
  i_status : result status;              (* self._status() *)
  i_since : option Z;                    (* self.mgmt.connected_since after the commands *)
  i_now : Z;                             (* int(time.time()) *)
  i_commit : bool;                       (* whether the transaction of the turn commits *)
}.

(** [_status]: the file when it is configured and trusted, else the command.  The
    argument [from_command] is the answer of the management interface. *)
Definition choose_status (now : Z) (path : option Z) (looks : list (option file_look)) (from_command : result status)
    : result status :=
  match path with
  | Some every =>
      match read_status_file now (3 * every + 5) looks with
      | Some s => Ok (Status (s_time s) (s_clients s) (s_stats s) true)
      | None => from_command
      end
  | None => from_command
  end.

Definition handshaking (cl : status_client) : bool :=
  String.eqb (cl_cn cl) "" || String.eqb (cl_cn cl) "UNDEF" || String.eqb (cl_vpn_ip cl) "".

Definition key_of (cl : status_client) : conn_key := (cl_cid cl, cl_connected_since cl, cl_cn cl).

(** [UPDATE ... SET disconnected_at = NULL, last_seen, bytes_in, bytes_out]. *)
Definition reopen (now bi bo : Z) (r : vpn_session) : vpn_session :=
  VpnSession (v_client_name r) (v_cid r) (v_real_address r) (v_vpn_ip r) (v_username r) (v_cipher r)
    (v_connected_at r) now None bi bo (v_proto r) (v_platform r) (v_client_ver r) (v_end_reason r) (v_grp r).

(** [UPDATE ... SET last_seen, bytes_in, bytes_out, vpn_ip, cipher] (the last two
    only when they are not empty). *)
Definition touch (now : Z) (cl : status_client) (r : vpn_session) : vpn_session :=
  VpnSession (v_client_name r) (v_cid r) (v_real_address r)
    (if String.eqb (cl_vpn_ip cl) "" then v_vpn_ip r else Some (cl_vpn_ip cl)) (v_username r)
    (if String.eqb (cl_cipher cl) "" then v_cipher r else Some (cl_cipher cl))
    (v_connected_at r) now (v_disconnected_at r) (cl_bytes_in cl) (cl_bytes_out cl) (v_proto r) (v_platform r)
    (v_client_ver r) (v_end_reason r) (v_grp r).

(** The variables of the loop over the clients of a status. *)
Record poll_acc := PollAcc {
  a_active : gmap conn_key entry;
  a_db : database;
  a_live : list live_client;
}.

Definition per_second (n dt : Z) : Q := Qmake n (Z.to_pos dt).

(** One client that is past its handshake. *)
Definition poll_client (now server_now : Z) (acc : poll_acc) (cl : status_client) : poll_acc :=
  let minute := now - now mod 60 in
  let key := key_of cl in
  let '(e, d) :=
    match a_active acc !! key with
    | None =>
        let connected_at := if cl_connected_since cl =? 0 then now else cl_connected_since cl in
        let '(session_id, d_in, d_out, d) :=
          match find_session (a_db acc) (cl_cn cl) (cl_cid cl) connected_at with
          | Some (id, prev) =>
              (id, Z.max (cl_bytes_in cl - v_bytes_in prev) 0, Z.max (cl_bytes_out cl - v_bytes_out prev) 0,
               update_session id (reopen now (cl_bytes_in cl) (cl_bytes_out cl)) (a_db acc))
          | None =>
              let '(d, id) :=
                insert_session (a_db acc) (cl_cn cl) (Some (cl_real_address cl)) connected_at
                  (SessionFields (Some (cl_cid cl)) (Some (cl_vpn_ip cl)) (Some (cl_username cl)) (Some (cl_cipher cl))
                     (Some now) None None (cl_bytes_in cl) (cl_bytes_out cl)) in
              (id, cl_bytes_in cl, cl_bytes_out cl, d)
          end in
        (Entry session_id (cl_bytes_in cl) (cl_bytes_out cl) server_now 0 0,
         add_traffic minute (cl_cn cl) d_in d_out d)
    | Some e =>
        let d_in := cl_bytes_in cl - en_bytes_in e in
        let d_out := cl_bytes_out cl - en_bytes_out e in
        let d_in := if d_in <? 0 then cl_bytes_in cl else d_in in
        let d_out := if d_out <? 0 then cl_bytes_out cl else d_out in
        let dt := Z.max (server_now - en_ts e) 1 in
        (Entry (en_session_id e) (cl_bytes_in cl) (cl_bytes_out cl) server_now (per_second d_in dt) (per_second d_out dt),
         add_traffic minute (cl_cn cl) d_in d_out (update_session (en_session_id e) (touch now cl) (a_db acc)))
    end in
  PollAcc (<[key := e]> (a_active acc)) d
    (a_live acc ++ [LiveClient cl (en_session_id e) (en_rate_in e) (en_rate_out e)]).

(** [_close_sessions] for one entry: [WHERE id = ? AND disconnected_at IS NULL]. *)
Definition end_session (now : Z) (reason : option string) (r : vpn_session) : vpn_session :=
  if is_open r
  then set_disconnected (Some now) (set_end_reason (match v_end_reason r with Some x => Some x | None => reason end) r)
  else r.

Definition close_sessions (keys : list conn_key) (now : Z) (reason : option string)
    (act : gmap conn_key entry) (d : database) : gmap conn_key entry * database :=
  foldl (fun '(act, d) key =>
           match act !! key with
           | Some e => (delete key act, update_session (en_session_id e) (end_session now reason) d)
           | None => (act, d)
           end) (act, d) keys.

(** The statement of a resync, [... WHERE disconnected_at IS NULL AND id NOT IN (...)];
    PostgreSQL's grammar has no empty list after IN, so without an active session it
    is a syntax error. *)
Definition close_unlisted (ids : list Z) (d : database) : result database :=
  match ids with
  | [] => Raise (DatabaseError "syntax error")
  | _ => Ok (upd_vpn (map_imap (fun id r => Some (if is_open r && negb (bool_decide (id ∈ ids))
                                                 then set_disconnected (Some (v_last_seen r)) r else r))) d)
  end.

(** The transaction of [poll]. *)
Definition poll_tx (c : collector) (st : status) (now : Z) (d : database) : result poll_acc :=
  let seen := key_of <$> filter (fun cl => handshaking cl = false) (s_clients st) in
  let acc := foldl (poll_client now (s_time st)) (PollAcc (active c) d [])
               (filter (fun cl => handshaking cl = false) (s_clients st)) in
  let gone := filter (fun k => k ∉ seen) (map_to_list (a_active acc)).*1 in
  let '(act, d) := close_sessions gone now None (a_active acc) (a_db acc) in
  d ← (if resync c then close_unlisted ((fun p => en_session_id p.2) <$> map_to_list act) d else Ok d);
  Ok (PollAcc act d (a_live acc)).

(** [live_clients.sort(key=lambda c: (c["cn"], c["connected_since"]))]. *)
Definition live_order (a b : live_client) : Prop :=
  match String.compare (cl_cn (lc_client a)) (cl_cn (lc_client b)) with
  | Lt => True
  | Eq => cl_connected_since (lc_client a) <= cl_connected_since (lc_client b)
  | Gt => False
  end.
#[export] Instance live_order_dec : RelDecision live_order.
Proof. intros a b. unfold live_order. destruct (String.compare _ _); apply _. Defined.

Definition set_status_time (t : option Z) (c : collector) : collector :=
  Collector t (active c) (pending c) (resync c) (live c).
Definition set_pending (p : list (string * peer)) (c : collector) : collector :=
  Collector (status_time c) (active c) p (resync c) (live c).

Definition poll_version (inp : turn_input) (c : collector) : result (option string) :=
  if negb (i_was_connected inp) || negb (truthy (l_version (live c))) then
    match i_version inp with
    | Ok v => Ok (Some v)
    | Raise (ManagementError _) => Ok None
    | Raise e => Raise e
    end
  else Ok (l_version (live c)).

Definition poll (inp : turn_input) (c : collector) (d : database) : result (collector * database) :=
  load ← i_load inp;
  version ← poll_version inp c;
  st ← i_status inp;
  if s_from_file st && bool_decide (Some (s_time st) = status_time c) && l_connected (live c) then
    let l := live c in
    Ok (Collector (status_time c) (active c) (pending c) (resync c)
          (Live (l_connected l) (l_error l) (l_version l) (l_server_time l) (Some (i_now inp)) (l_connected_since l)
             (l_clients l) load (l_stats l) (l_rate_in l) (l_rate_out l)), d)
  else
    acc ← poll_tx c st (i_now inp) d;
    _ ← raise_if (negb (i_commit inp)) (DatabaseError "transaction failed");
    Ok (Collector (Some (s_time st)) (a_active acc) (pending c) false
          (Live true None version (Some (s_time st)) (Some (i_now inp)) (i_since inp)
             (merge_sort live_order (a_live acc)) load (s_stats st)
             (foldl Qplus 0 (lc_rate_in <$> a_live acc))%Q (foldl Qplus 0 (lc_rate_out <$> a_live acc))%Q), a_db acc).

(** ** Failures *)

Definition down_live (l : live_state) (error : string) (now : Z) : live_state :=
  Live false (Some error) (l_version l) (l_server_time l) (Some now) None [] ∅ (l_stats l) 0 0.

Definition handle_down (error : string) (now : Z) (commit : bool) (c : collector) (d : database)
    : result (collector * database) :=
  let '(act, d') := close_sessions (map_to_list (active c)).*1 now (Some "server down") (active c) d in
  _ ← raise_if (negb (bool_decide (active c = ∅)) && negb commit) (DatabaseError "transaction failed");
  Ok (Collector None act (pending c) (resync c) (down_live (live c) error now), d').

(** The outer [except Exception] of the loop. *)
Definition forget (c : collector) : collector := Collector None ∅ (pending c) true (live c).

(** [poll] with the exception handlers of [run]. *)
Definition run_turn (inp : turn_input) (c : collector) (d : database) : collector * database :=
  match poll inp c d with
  | Ok cd => cd
  | Raise e =>
      match e with
      | ManagementError _ | OSError =>
          match handle_down (exn_text e) (i_now inp) (i_commit inp) c d with
          | Ok cd => cd
          | Raise _ => (forget c, d)
          end
      | _ => (forget c, d)
      end
  end.

(** The start of [run]: the sessions of a previous run are closed; a failure is only logged. *)
Definition start (ok : bool) (d : database) : collector * database :=
  (new_collector, if ok then (close_stale_sessions None d).1 else d).

(** [heartbeat]-based liveness, and the pauses between turns (in milliseconds). *)
Definition alive (is_alive : bool) (clock heartbeat interval : Z) : bool :=
  is_alive && (clock - heartbeat <? 180000 + 2 * interval).
Definition next_backoff (backoff : Q) : Q := if Qle_bool (backoff * (3 # 2)) 15 then (backoff * (3 # 2))%Q else 15%Q.

(** ** The logs *)

Definition get_peer (address : string) (l : list (string * peer)) : option peer :=
  snd <$> find (fun p => String.eqb p.1 address) l.
(** [d[k] = v]: in place, or at the end. *)
Definition put_peer (address : string) (p : peer) (l : list (string * peer)) : list (string * peer) :=
  if existsb (fun q => String.eqb q.1 address) l
  then (fun q => if String.eqb q.1 address then (q.1, p) else q) <$> l
  else l ++ [(address, p)].
Definition pop_peer (address : string) (l : list (string * peer)) : list (string * peer) :=
  filter (fun q => String.eqb q.1 address = false) l.

Definition set_info (key : info_key) (value : string) (p : peer) : peer :=
  match key with
  | PLAT => Peer (pe_ts p) (pe_cn p) (Some value) (pe_ver p) (pe_gui_ver p)
  | VER => Peer (pe_ts p) (pe_cn p) (pe_plat p) (Some value) (pe_gui_ver p)
  | GUI_VER => Peer (pe_ts p) (pe_cn p) (pe_plat p) (pe_ver p) (Some value)
  end.

Definition set_device (session_id : Z) (address : string) (p : peer) (d : database) : database :=
  update_session session_id
    (fun r => VpnSession (v_client_name r) (v_cid r) (v_real_address r) (v_vpn_ip r) (v_username r) (v_cipher r)
       (v_connected_at r) (v_last_seen r) (v_disconnected_at r) (v_bytes_in r) (v_bytes_out r)
       (match (split_address (Some address)).1 with Some x => Some x | None => v_proto r end)
       (pe_plat p) (if truthy (pe_gui_ver p) then pe_gui_ver p else pe_ver p) (v_end_reason r) (v_grp r)) d.

(** [_connection_line]. *)
Definition connection_line (l : conn_line) (pend : list (string * peer)) (d : database)
    : list (string * peer) * database :=
  match l with
  | LInfo ts address key value =>
      (put_peer address (set_info key value (default (Peer ts None None None None) (get_peer address pend))) pend, d)
  | LOpen ts address name =>
      let p := default (Peer ts None None None None) (get_peer address pend) in
      (put_peer address (Peer ts (Some name) (pe_plat p) (pe_ver p) (pe_gui_ver p)) pend, d)
  | LEnd ts address cn reason =>
      let p := get_peer address pend in
      let pend := pop_peer address pend in
      match cn with
      | None => (pend, d)
      | Some cn =>
          match latest_session d cn (Some address) (match p with Some p => pe_ts p - 30 | None => 0 end) with
          | Some (id, _) =>
              let d := update_session id (set_end_reason (Some reason)) d in
              (pend, match p with Some p => set_device id address p d | None => d end)
          | None =>
              match p with
              | Some p =>
                  if bool_decide (pe_cn p = Some cn) then
                    let '(d, sid) := insert_session d cn (Some address) (pe_ts p)
                      (SessionFields None None None None (Some ts) (Some ts) (Some reason) 0 0) in
                    (pend, set_device sid address p d)
                  else (pend, d)
              | None => (pend, d)
              end
          end
      end
  end.

(** [_describe_sessions] for one pending handshake: kept, or described and dropped. *)
Definition describe_peer (now : Z) (acc : list (string * peer) * database) (q : string * peer)
    : list (string * peer) * database :=
  let '(kept, d) := acc in
  let '(address, p) := q in
  let row := match pe_cn p with
             | Some cn => if empty cn then None else latest_session d cn (Some address) (pe_ts p - 30)
             | None => None
             end in
  match row with
  | Some (id, _) => (kept, set_device id address p d)
  | None => if 600 <? now - pe_ts p then (kept, d) else (kept ++ [q], d)
  end.
Definition describe_sessions (now : Z) (pend : list (string * peer)) (d : database) : list (string * peer) * database :=
  foldl (describe_peer now) ([], d) pend.

Section logs.
Context (mktime : civil → Z) (decode : string → string).

(** One line: a rejected attempt, or a line about a connection.  The tables of a
    failing transaction are dropped, [_pending] keeps what was done to it. *)
Definition log_line (line : string) (pend : list (string * peer)) (d : database)
    : list (string * peer) * result database :=
  match parse_rejection mktime line with
  | Raise e => (pend, Raise e)
  | Ok (Some hit) => (pend, Ok (add_rejection (rj_ts hit) (rj_client hit) (rj_reason hit) (rj_address hit) d))
  | Ok None =>
      match parse_connection mktime line with
      | Raise e => (pend, Raise e)
      | Ok (Some hit) => let '(pend, d) := connection_line hit pend d in (pend, Ok d)
      | Ok None => (pend, Ok d)
      end
  end.

Fixpoint log_lines (lines : list string) (pend : list (string * peer)) (d : database)
    : list (string * peer) * result database :=
  match lines with
  | [] => (pend, Ok d)
  | line :: lines =>
      match log_line line pend d with
      | (pend, Ok d) => log_lines lines pend d
      | (pend, Raise e) => (pend, Raise e)
      end
  end.

(** A log file as [open] finds it: name, inode and bytes. *)
Record log_file := LogFile { lg_name : string; lg_inode : Z; lg_bytes : string }.

Definition log_key (f : log_file) : string := "logpos:" +:+ lg_name f.

(** The stored position, when it is of this file and inside it; [None] when the
    setting is not two numbers. *)
Definition log_pos (f : log_file) (d : database) : option Z :=
  let '(inode, _, offset) :=
    partition ":"%char (match get_setting d (log_key f) with
                        | Some s => if empty s then "0:0" else s | None => "0:0" end) in
  inode ← py_int inode;
  if inode =? lg_inode f then
    offset ← py_int offset;
    let pos := if offset <=? strlen (lg_bytes f) then offset else 0 in
    if pos <? 0 then None else Some pos        (* seek of a negative position: ValueError *)
  else Some 0.

(** [data.rfind(b"\n") + 1]: the length up to and with the last line feed. *)
Fixpoint whole_lines (s : string) : nat :=
  match s with
  | EmptyString => O
  | String c s' => match whole_lines s' with
                   | O => if Ascii.eqb c lf then 1%nat else O
                   | n => S n
                   end
  end.

Definition read_log (max_bytes : nat) (commit : bool) (f : log_file) (pend : list (string * peer)) (d : database)
    : list (string * peer) * result database :=
  match log_pos f d with
  | None => (pend, Ok d)
  | Some pos =>
      let data := str_take max_bytes (str_drop (Z.to_nat pos) (lg_bytes f)) in
      let fin := whole_lines data in
      if Nat.eqb fin 0 then (pend, Ok d)
      else
        match log_lines (splitlines (decode (str_take fin data))) pend d with
        | (pend, Ok d') =>
            if commit
            then (pend, Ok (set_setting (log_key f) (str_of_int (lg_inode f) +:+ ":" +:+ str_of_int (pos + Z.of_nat fin)) d'))
            else (pend, Raise (DatabaseError "transaction failed"))
        | (pend, Raise e) => (pend, Raise e)
        end
  end.

(** [read_logs]: a failure ends it, with the transactions before it committed. *)
Fixpoint read_files (max_bytes : nat) (commit : bool) (fs : list log_file) (pend : list (string * peer)) (d : database)
    : list (string * peer) * database * bool :=
  match fs with
  | [] => (pend, d, true)
  | f :: fs =>
      match read_log max_bytes commit f pend d with
      | (pend, Ok d) => read_files max_bytes commit fs pend d
      | (pend, Raise _) => (pend, d, false)
      end
  end.

Definition read_logs (now : Z) (max_bytes : nat) (commit : bool) (fs : list log_file) (c : collector) (d : database)
    : collector * database :=
  let '(pend, d, ok) := read_files max_bytes commit fs (pending c) d in
  if ok && negb (bool_decide (length pend = 0%nat)) then
    let '(pend', d') := describe_sessions now pend d in
    (set_pending pend' c, if commit then d' else d)
  else (set_pending pend c, d).
End logs.
