(* ===== verification/Accounting.v ===== *)
(** * What the collector guarantees: accounting and open sessions

    The transition system of the collector ([reach]) has the turns of [run] with any
    answer of OpenVPN and any failure, the reading of the logs, the hourly roll-up and
    restarts; a ghost component records, per connection, the counters of the last
    status that was committed and by how much they grew over all committed ones. *)

From S2P Require Import Prelude PyStr Schema Traffic Sessions Mgmt Regex LogLines Collector.

Open Scope string_scope.
Open Scope list_scope.
Open Scope Z_scope.

(** ** Totals per client *)

(** All bytes counted for a client, in whichever bucket they are. *)
Definition traffic_total (c : Z * Z → Z) (d : database) (n : string) : Z :=
  let w := weight (fun k => String.eqb k.2 n) c in
  map_sum w (traffic_minute d) + map_sum w (traffic_hour d) + map_sum w (traffic_day d).

(** *** The reference: what OpenVPN reported of a connection

    The counters of the last committed status, what they grew by in all, and whether one of
    them ever went back. *)
Record count := Count { ct_last : Z * Z; ct_total : Z * Z; ct_back : bool }.
Abbreviation counters := (gmap conn_key count).

(** The growth of a counter between two statuses.  A counter that is lower than before has started again at
    zero when the connection was also seen by the poll before ([polled]); after a restart of the UI or an outage
    nothing can be said of it, and nothing is counted. *)
Definition grown (polled : bool) (last new : Z) : Z :=
  if new <? last then (if polled then new else 0) else new - last.

Definition recount (polled : bool) (o : option count) (new : Z * Z) : count :=
  match o with
  | None => Count new new false
  | Some ct =>
      Count new (add_bytes (ct_total ct) (grown polled (ct_last ct).1 new.1, grown polled (ct_last ct).2 new.2))
        (ct_back ct || (new.1 <? (ct_last ct).1) || (new.2 <? (ct_last ct).2))
  end.

Definition counted_for (c : Z * Z → Z) (g : counters) (n : string) : Z :=
  map_sum (fun k b => if String.eqb k.2 n then c (ct_total b) else 0) g.

Lemma grown_nonneg polled last new : 0 <= new → 0 <= grown polled last new.
Proof. intros H. unfold grown. destruct (Z.ltb_spec new last); [destruct polled|]; lia. Qed.

Lemma add_traffic_total c ts n d_in d_out d m :
  additive c → c (0, 0) = 0 → 0 <= d_in → 0 <= d_out →
  traffic_total c (add_traffic ts n d_in d_out d) m = traffic_total c d m + (if String.eqb n m then c (d_in, d_out) else 0).
Proof.
  intros Hc Hc0 Hi Ho. unfold add_traffic. destruct ((d_in <=? 0) && (d_out <=? 0)) eqn:E.
  - bool_to_prop. assert (d_in = 0) as -> by lia. assert (d_out = 0) as -> by lia. rewrite Hc0. case_match; lia.
  - unfold traffic_total. cbn. rewrite upsert_sum by done. unfold weight at 2. simpl.
    rewrite !Z.max_l by lia. destruct (String.eqb n m); lia.
Qed.

Lemma counted_insert c g k b n :
  counted_for c (<[k := b]> g) n =
  counted_for c g n + (if String.eqb k.2 n then c (ct_total b) - match g !! k with Some b0 => c (ct_total b0) | None => 0 end else 0).
Proof.
  unfold counted_for. destruct (g !! k) as [b0|] eqn:E.
  - rewrite (map_sum_overwrite _ _ _ _ _ E). destruct (String.eqb k.2 n); lia.
  - rewrite map_sum_insert by done. destruct (String.eqb k.2 n); lia.
Qed.

(** ** The invariant *)

(** The connection a row belongs to; a row made from the log has none. *)
Definition row_key (r : vpn_session) : option conn_key :=
  (fun cid => (cid, v_connected_at r, v_client_name r)) <$> v_cid r.

Definition row_bytes (r : vpn_session) : Z * Z := (v_bytes_in r, v_bytes_out r).

Record acct (act : gmap conn_key entry) (d : database) (g : counters) : Prop := {
  acct_fresh : ids_fresh d;
  acct_rows : ∀ id r key, vpn_sessions d !! id = Some r → row_key r = Some key → ct_last <$> g !! key = Some (row_bytes r);
  acct_unique : ∀ id1 id2 r1 r2 key,
    vpn_sessions d !! id1 = Some r1 → vpn_sessions d !! id2 = Some r2 →
    row_key r1 = Some key → row_key r2 = Some key → id1 = id2;
  acct_stored : ∀ key b, g !! key = Some b → ∃ id r, vpn_sessions d !! id = Some r ∧ row_key r = Some key;
  acct_active : ∀ key e, act !! key = Some e →
    ∃ r, vpn_sessions d !! en_session_id e = Some r ∧ row_key r = Some key
       ∧ row_bytes r = (en_bytes_in e, en_bytes_out e);
  acct_traffic : ∀ n, traffic_total fst d n = counted_for fst g n ∧ traffic_total snd d n = counted_for snd g n;
  acct_exact : ∀ key b, g !! key = Some b → ct_back b = false → ct_total b = ct_last b;
}.

Lemma find_session_row d n cid at_ id r :
  find_session d n cid at_ = Some (id, r) → vpn_sessions d !! id = Some r ∧ row_key r = Some (cid, at_, n).
Proof.
  unfold find_session. intros H%head_Some_elem_of. apply elem_of_merge_sort, elem_of_select in H as [H1 H2].
  bool_to_prop. split; [done|]. unfold row_key. destruct (v_cid r); simpl; congruence.
Qed.

Lemma find_session_none d n cid at_ id r :
  find_session d n cid at_ = None → vpn_sessions d !! id = Some r → row_key r ≠ Some (cid, at_, n).
Proof.
  unfold find_session. rewrite head_None. intros Hn Hid Hk.
  assert (Hin : (id, r) ∈ merge_sort highest_id (select_sessions (fun r => String.eqb (v_client_name r) n
    && bool_decide (v_cid r = Some cid) && (v_connected_at r =? at_)) d)).
  { apply elem_of_merge_sort, elem_of_select. split; [done|]. unfold row_key in Hk.
    destruct (v_cid r); simplify_eq/=. rewrite String.eqb_refl, bool_decide_true, Z.eqb_refl by done. done. }
  rewrite Hn in Hin. by apply not_elem_of_nil in Hin.
Qed.

(** Changing columns other than the connection and the counters keeps the books. *)
Lemma acct_map act d d' g (f : Z → vpn_session → vpn_session) :
  acct act d g → vpn_seq d' = vpn_seq d → (∀ id, vpn_sessions d' !! id = f id <$> vpn_sessions d !! id) →
  (∀ id r, row_key (f id r) = row_key r ∧ row_bytes (f id r) = row_bytes r) →
  (∀ c n, additive c → c (0, 0) = 0 → traffic_total c d' n = traffic_total c d n) →
  acct act d' g.
Proof.
  intros [Hf Hr Hu Hs Ha Ht Hn] Hseq Hv Hkeep Htr. split.
  - intros k r. rewrite Hv, Hseq. intros (r0 & Hk & _)%fmap_Some. by eapply Hf.
  - intros id r key. rewrite Hv. intros (r0 & Hk & ->)%fmap_Some. destruct (Hkeep id r0) as [-> ->]. by eapply Hr.
  - intros id1 id2 r1 r2 key. rewrite !Hv. intros (r3 & H3 & ->)%fmap_Some (r4 & H4 & ->)%fmap_Some.
    rewrite (proj1 (Hkeep id1 r3)), (proj1 (Hkeep id2 r4)). by eapply Hu.
  - intros key b (id & r & Hid & Hk)%Hs. exists id, (f id r). rewrite Hv, Hid. simpl.
    by rewrite (proj1 (Hkeep id r)).
  - intros key e (r & Hid & Hk & Hb)%Ha. exists (f (en_session_id e) r). rewrite Hv, Hid. simpl.
    destruct (Hkeep (en_session_id e) r) as [-> ->]. done.
  - intros n. rewrite !Htr by (apply additive_fst || apply additive_snd || done). apply Ht.
  - done.
Qed.

(** What is reported of a connection keeps its last counters and, as long as none went back, the total at them. *)
Lemma report_last polled o new : ct_last (recount polled o new) = new.
Proof. by destruct o. Qed.

Lemma report_exact polled o new : (∀ ct, o = Some ct → ct_back ct = false → ct_total ct = ct_last ct) →
  ct_back (recount polled o new) = false → ct_total (recount polled o new) = new.
Proof.
  intros Ho. destruct o as [[last total back]|]; [|done]. cbn. rewrite !orb_false_iff. intros [[-> H1] H2].
  pose proof (Ho (Count last total false) eq_refl eq_refl) as E. cbn in E. subst total. unfold grown. rewrite H1, H2. unfold add_bytes. cbn. destruct new. cbn. f_equal; lia.
Qed.

(** Booking new counters for a connection whose row exists. *)
Lemma acct_book polled act d g id r key e (f : vpn_session → vpn_session) ts bi bo :
  acct act d g → vpn_sessions d !! id = Some r → row_key r = Some key →
  row_key (f r) = Some key → row_bytes (f r) = (bi, bo) → 0 <= bi → 0 <= bo →
  en_session_id e = id → en_bytes_in e = bi → en_bytes_out e = bo →
  acct (<[key := e]> act)
    (add_traffic ts key.2 (grown polled (v_bytes_in r) bi) (grown polled (v_bytes_out r) bo) (update_session id f d))
    (<[key := recount polled (g !! key) (bi, bo)]> g).
Proof.
  intros [Hf Hr Hu Hs Ha Ht Hx] Hid Hk Hfk Hfb Hbi Hbo He Hei Heo.
  pose proof (Hr _ _ _ Hid Hk) as Hg. apply fmap_Some in Hg as (ct & Hg & Hct).
  set (d' := add_traffic _ _ _ _ _).
  assert (Hv : vpn_sessions d' = alter f id (vpn_sessions d)).
  { unfold d', add_traffic. by destruct (_ && _). }
  assert (Hseq : vpn_seq d' = vpn_seq d) by (unfold d', add_traffic; by destruct (_ && _)).
  assert (Hrow : ∀ id' r', vpn_sessions d' !! id' = Some r' →
    (id' = id ∧ r' = f r) ∨ (id' ≠ id ∧ vpn_sessions d !! id' = Some r')).
  { intros id' r'. rewrite Hv, lookup_alter_Some. intros [(-> & r0 & H0 & ->)|[? ?]]; [|auto]. left. split; congruence. }
  assert (Hother : ∀ id' r', id' ≠ id → vpn_sessions d !! id' = Some r' → row_key r' ≠ Some key).
  { intros id' r' Hne H' Hk'. apply Hne. by eapply Hu. }
  split.
  - intros k r'. rewrite Hseq. intros [[-> ->]|[_ H']]%Hrow; by eapply Hf.
  - intros id' r' key' [[-> ->]|[Hne H']]%Hrow Hk'.
    + assert (key' = key) as -> by congruence. rewrite lookup_insert_eq, Hfb. cbn [fmap option_fmap option_map]. by rewrite report_last.
    + rewrite lookup_insert_ne; [by eapply Hr|]. intros <-. by eapply Hother.
  - intros id1 id2 r1 r2 key' [[-> ->]|[Hne1 H1]]%Hrow [[-> ->]|[Hne2 H2]]%Hrow Hk1 Hk2; [done| | |by eapply Hu].
    + assert (key' = key) as -> by congruence. by destruct (Hother _ _ Hne2 H2).
    + assert (key' = key) as -> by congruence. by destruct (Hother _ _ Hne1 H1).
  - intros key' b [[<- <-]|[Hne Hb]]%lookup_insert_Some.
    + exists id, (f r). rewrite Hv, lookup_alter_eq, Hid. done.
    + destruct (Hs _ _ Hb) as (id' & r' & H' & Hk'). exists id', r'. rewrite Hv, lookup_alter_ne; [done|].
      intros <-. congruence.
  - intros key' e' [[<- <-]|[Hne He']]%lookup_insert_Some.
    + exists (f r). rewrite He, Hv, lookup_alter_eq, Hid. by rewrite Hfb, Hei, Heo.
    + destruct (Ha _ _ He') as (r' & H' & Hk' & Hb'). exists r'. rewrite Hv, lookup_alter_ne; [done|].
      intros Heq. rewrite <- Heq in H'. congruence.
  - intros n. unfold d'. rewrite !add_traffic_total by (apply additive_fst || apply additive_snd || done || by apply grown_nonneg).
    rewrite !counted_insert. rewrite Hg.
    destruct (Ht n) as [Ht1 Ht2]. unfold traffic_total, row_bytes in *. cbn [recount ct_total]. rewrite <- Hct.
    cbn in *. rewrite Ht1, Ht2. split; case_match; lia.
  - intros key' b [[<- <-]|[_ Hb]]%lookup_insert_Some; [|by eapply Hx]. rewrite report_last. apply report_exact. intros ct' Hct'. by eapply Hx.
Qed.

(** Booking the counters of a connection that has no row yet. *)
Lemma acct_book_new act d g id row key e d1 ts bi bo :
  acct act d g → vpn_sessions d1 = <[id := row]> (vpn_sessions d) → vpn_seq d1 = vpn_seq d + 1 → id = vpn_seq d →
  (∀ c n, traffic_total c d1 n = traffic_total c d n) →
  (∀ id r, vpn_sessions d !! id = Some r → row_key r ≠ Some key) →
  row_key row = Some key → row_bytes row = (bi, bo) → 0 <= bi → 0 <= bo →
  en_session_id e = id → en_bytes_in e = bi → en_bytes_out e = bo →
  acct (<[key := e]> act) (add_traffic ts key.2 bi bo d1) (<[key := Count (bi, bo) (bi, bo) false]> g).
Proof.
  intros [Hf Hr Hu Hs Ha Ht Hx] Hd1 Hseq1 -> Htr Hno Hk Hb Hbi Hbo He Hei Heo.
  set (d' := add_traffic _ _ _ _ _).
  assert (Hv : vpn_sessions d' = <[vpn_seq d := row]> (vpn_sessions d)).
  { unfold d', add_traffic. by destruct (_ && _). }
  assert (Hseq : vpn_seq d' = vpn_seq d + 1) by (unfold d', add_traffic; by destruct (_ && _)).
  assert (Hg : g !! key = None).
  { destruct (g !! key) eqn:E; [|done]. destruct (Hs _ _ E) as (id & r & H & ?). by destruct (Hno _ _ H). }
  assert (Hold : ∀ id r, vpn_sessions d !! id = Some r → vpn_seq d ≠ id) by (intros id r H%Hf; lia).
  split.
  - intros k r. rewrite Hv, Hseq. intros [[<- <-]|[_ H]]%lookup_insert_Some; [lia|]. apply Hf in H. lia.
  - intros id r key'. rewrite Hv. intros [[<- <-]|[Hne H]]%lookup_insert_Some Hk'.
    + assert (key' = key) as -> by congruence. by rewrite lookup_insert_eq, Hb.
    + rewrite lookup_insert_ne; [by eapply Hr|]. intros <-. by eapply Hno.
  - intros id1 id2 r1 r2 key'. rewrite Hv.
    intros [[<- <-]|[Hne1 H1]]%lookup_insert_Some [[<- <-]|[Hne2 H2]]%lookup_insert_Some Hk1 Hk2; [done| | |by eapply Hu].
    + assert (key' = key) as -> by congruence. by destruct (Hno _ _ H2).
    + assert (key' = key) as -> by congruence. by destruct (Hno _ _ H1).
  - intros key' b [[<- <-]|[Hne Hb']]%lookup_insert_Some.
    + exists (vpn_seq d), row. by rewrite Hv, lookup_insert_eq.
    + destruct (Hs _ _ Hb') as (id & r & H & Hk'). exists id, r. rewrite Hv, lookup_insert_ne; [done|]. by eapply Hold.
  - intros key' e' [[<- <-]|[Hne He']]%lookup_insert_Some.
    + exists row. rewrite He, Hv, lookup_insert_eq. by rewrite Hb, Hei, Heo.
    + destruct (Ha _ _ He') as (r & H & Hk' & Hb'). exists r. rewrite Hv, lookup_insert_ne; [done|]. by eapply Hold.
  - intros n. unfold d'. rewrite !add_traffic_total, !counted_insert, Hg, !Htr
      by (apply additive_fst || apply additive_snd || done || lia).
    destruct (Ht n) as [-> ->]. simpl. split; case_match; lia.
  - intros key' b [[<- <-]|[_ Hb']]%lookup_insert_Some; [done|by eapply Hx].
Qed.

(** A row that belongs to no connection does not touch the books. *)
Lemma acct_insert_other act d g d1 row :
  acct act d g → vpn_sessions d1 = <[vpn_seq d := row]> (vpn_sessions d) → vpn_seq d1 = vpn_seq d + 1 →
  (∀ c n, traffic_total c d1 n = traffic_total c d n) → row_key row = None → acct act d1 g.
Proof.
  intros [Hf Hr Hu Hs Ha Ht Hn] Hv Hseq Htr Hk.
  assert (Hold : ∀ id r, vpn_sessions d !! id = Some r → vpn_seq d ≠ id) by (intros id r H%Hf; lia).
  split.
  - intros k r. rewrite Hv, Hseq. intros [[<- <-]|[_ H]]%lookup_insert_Some; [lia|]. apply Hf in H. lia.
  - intros id r key'. rewrite Hv. intros [[<- <-]|[Hne H]]%lookup_insert_Some Hk'; [congruence|]. by eapply Hr.
  - intros id1 id2 r1 r2 key'. rewrite Hv.
    intros [[<- <-]|[Hne1 H1]]%lookup_insert_Some [[<- <-]|[Hne2 H2]]%lookup_insert_Some Hk1 Hk2; try congruence.
    by eapply Hu.
  - intros key' b (id & r & H & Hk')%Hs. exists id, r. rewrite Hv, lookup_insert_ne; [done|]. by eapply Hold.
  - intros key' e (r & H & Hk' & Hb)%Ha. exists r. rewrite Hv, lookup_insert_ne; [done|]. by eapply Hold.
  - intros n. rewrite !Htr. apply Ht.
  - done.
Qed.

(** ** Open sessions *)

(** Every active connection has an open row, and every open row is of an active
    connection or was left over ([stale]). *)
Definition opened (stale : Z → Prop) (act : gmap conn_key entry) (d : database) : Prop :=
  (∀ key e, act !! key = Some e → ∃ r, vpn_sessions d !! en_session_id e = Some r ∧ is_open r = true) ∧
  (∀ id r, vpn_sessions d !! id = Some r → is_open r = true →
     stale id ∨ ∃ key e, act !! key = Some e ∧ en_session_id e = id).

Lemma add_traffic_vpn ts n i o d : vpn_sessions (add_traffic ts n i o d) = vpn_sessions d.
Proof. unfold add_traffic. by destruct (_ && _). Qed.

(** A row is written and becomes that of the connection [key]. *)
Lemma opened_write stale act d d' key e row :
  opened stale act d → vpn_sessions d' = <[en_session_id e := row]> (vpn_sessions d) → is_open row = true →
  (∀ e0, act !! key = Some e0 → en_session_id e0 = en_session_id e) →
  opened stale (<[key := e]> act) d'.
Proof.
  intros [Ho Hc] Hv Hrow Hsame. split.
  - intros key' e' [[<- <-]|[Hne He']]%lookup_insert_Some; rewrite Hv.
    + exists row. by rewrite lookup_insert_eq.
    + destruct (decide (en_session_id e = en_session_id e')) as [<-|Hid].
      * exists row. by rewrite lookup_insert_eq.
      * rewrite lookup_insert_ne by done. by eapply Ho.
  - intros id r. rewrite Hv. intros [[<- <-]|[Hne Hr]]%lookup_insert_Some Hopen.
    + right. exists key, e. by rewrite lookup_insert_eq.
    + destruct (Hc _ _ Hr Hopen) as [?|(key' & e' & He' & Hid)]; [by left|]. right.
      destruct (decide (key' = key)) as [->|Hk].
      * apply Hsame in He'. congruence.
      * exists key', e'. by rewrite lookup_insert_ne.
Qed.

Lemma alter_as_insert {A} (f : A → A) (m : gmap Z A) i x : m !! i = Some x → alter f i m = <[i := f x]> m.
Proof.
  intros Hi. apply map_eq. intros j. destruct (decide (i = j)) as [->|Hne].
  - by rewrite lookup_alter_eq, lookup_insert_eq, Hi.
  - by rewrite lookup_alter_ne, lookup_insert_ne.
Qed.

(** ** One client of a status *)

(** What OpenVPN prints of a client: when it connected, and counters that are not negative. *)
Definition plausible (cl : status_client) : Prop := 0 < cl_connected_since cl ∧ 0 <= cl_bytes_in cl ∧ 0 <= cl_bytes_out cl.

(** The connections that were seen, and what was reported of all. *)
Definition count_client (s : gset conn_key * counters) (cl : status_client) : gset conn_key * counters :=
  ({[key_of cl]} ∪ s.1,
   <[key_of cl := recount (bool_decide (key_of cl ∈ s.1)) (s.2 !! key_of cl) (cl_bytes_in cl, cl_bytes_out cl)]> s.2).

Lemma grown_polled last new : (if new - last <? 0 then new else new - last) = grown true last new.
Proof. unfold grown. destruct (Z.ltb_spec (new - last) 0), (Z.ltb_spec new last); lia. Qed.
Lemma grown_reopened last new : Z.max (new - last) 0 = grown false last new.
Proof. unfold grown. destruct (Z.ltb_spec new last); lia. Qed.

Lemma insert_session_traffic d n a t f c m :
  traffic_total c (insert_session d n a t f).1 m = traffic_total c d m.
Proof. unfold insert_session. simpl. by destruct (session_group d n a t). Qed.

Lemma insert_session_row d n a t f :
  ∃ row, vpn_sessions (insert_session d n a t f).1 = <[vpn_seq d := row]> (vpn_sessions d)
    ∧ row_key row = (fun cid => (cid, t, n)) <$> f_cid f ∧ row_bytes row = (f_bytes_in f, f_bytes_out f)
    ∧ v_disconnected_at row = f_disconnected_at f ∧ vpn_seq (insert_session d n a t f).1 = vpn_seq d + 1
    ∧ (insert_session d n a t f).2 = vpn_seq d.
Proof.
  unfold insert_session. cbn [fst snd]. destruct (session_group d n a t) as [g|].
  - eexists. split; [reflexivity|]. cbn. by destruct f.
  - eexists. cbn [update_session upd_vpn insert_vpn vpn_sessions]. rewrite alter_insert_eq.
    split; [reflexivity|]. cbn. by destruct f.
Qed.

Definition entries_match (act : gmap conn_key entry) (d : database) (g : counters) (stale : Z → Prop) : Prop :=
  acct act d g ∧ opened stale act d.

(** The three ways [poll_client] can find a connection. *)
Lemma poll_client_inv now server_now acc cl g stale :
  entries_match (a_active acc) (a_db acc) g stale → plausible cl →
  let acc' := poll_client now server_now acc cl in
  let s' := count_client (dom (a_active acc), g) cl in
  entries_match (a_active acc') (a_db acc') s'.2 stale ∧ dom (a_active acc') = s'.1.
Proof.
  intros [Hacct Hop] (Hsince & Hin & Hout). unfold poll_client, count_client. cbn [fst snd]. split; cycle 1.
  { destruct (a_active acc !! key_of cl) as [e|]; [cbn; set_solver|]. destruct (find_session _ _ _ _) as [[id r]|]; [cbn; set_solver|].
    destruct (insert_session _ _ _ _ _). cbn. set_solver. }
  destruct (a_active acc !! key_of cl) as [e|] eqn:Hact.
  - rewrite bool_decide_eq_true_2 by (by eapply elem_of_dom_2).
    destruct (acct_active _ _ _ Hacct _ _ Hact) as (r & Hr & Hk & Hb). injection Hb as Hbi Hbo.
    cbv zeta. cbn [a_active a_db]. rewrite !grown_polled, <- Hbi, <- Hbo.
    destruct Hop as [Ho Hc]. destruct (Ho _ _ Hact) as (r' & Hr' & Hopen). assert (r' = r) as -> by congruence.
    split.
    + by apply (acct_book true (a_active acc) (a_db acc) g _ r (key_of cl)).
    + eapply (opened_write _ _ _ _ _ _ (touch now cl r)); [done| | |naive_solver].
      * rewrite add_traffic_vpn. cbn. by apply alter_as_insert.
      * done.
  - rewrite bool_decide_eq_false_2 by (by apply not_elem_of_dom). rewrite (proj2 (Z.eqb_neq _ 0)) by lia. cbv zeta.
    destruct (find_session (a_db acc) (cl_cn cl) (cl_cid cl) (cl_connected_since cl)) as [[id r]|] eqn:Hfind.
    + destruct (find_session_row _ _ _ _ _ _ Hfind) as [Hr Hk]. fold (key_of cl) in Hk.
      cbn [a_active a_db]. rewrite !grown_reopened. split.
      * by apply (acct_book false (a_active acc) (a_db acc) g id r (key_of cl)).
      * eapply (opened_write _ _ _ _ _ _ (reopen now (cl_bytes_in cl) (cl_bytes_out cl) r)); [done| |done|naive_solver].
        rewrite add_traffic_vpn. cbn. by apply alter_as_insert.
    + destruct (insert_session _ _ _ _ _) as [d1 id] eqn:Hi.
      pose proof (insert_session_row (a_db acc) (cl_cn cl) (Some (cl_real_address cl)) (cl_connected_since cl)
        (SessionFields (Some (cl_cid cl)) (Some (cl_vpn_ip cl)) (Some (cl_username cl)) (Some (cl_cipher cl))
                     (Some now) None None (cl_bytes_in cl) (cl_bytes_out cl))) as (row & Hrow & Hk & Hb & Hd & Hseq & Hid).
      pose proof (fun c n => insert_session_traffic (a_db acc) (cl_cn cl) (Some (cl_real_address cl)) (cl_connected_since cl)
        (SessionFields (Some (cl_cid cl)) (Some (cl_vpn_ip cl)) (Some (cl_username cl)) (Some (cl_cipher cl))
                     (Some now) None None (cl_bytes_in cl) (cl_bytes_out cl)) c n) as Htr.
      rewrite Hi in Hrow, Hseq, Hid, Htr. simpl in Hrow, Hseq, Hid, Htr, Hk, Hb, Hd.
      assert (Hno : ∀ id r, vpn_sessions (a_db acc) !! id = Some r → row_key r ≠ Some (key_of cl))
        by (intros ? ?; by apply find_session_none).
      assert (Hnone : g !! key_of cl = None).
      { destruct (g !! key_of cl) as [b|] eqn:Hg; [|done].
        destruct (acct_stored _ _ _ Hacct _ _ Hg) as (? & ? & H & ?). by destruct (Hno _ _ H). }
      rewrite Hnone. cbn [recount a_active a_db]. split.
      * eapply (acct_book_new (a_active acc) (a_db acc) g id row (key_of cl)); try done. by rewrite Hid.
      * eapply (opened_write _ _ _ _ _ _ row); [done| | |naive_solver].
        -- cbn [en_session_id]. by rewrite add_traffic_vpn, Hrow, Hid.
        -- unfold is_open. by rewrite Hd.
Qed.

(** All clients of a status, one after the other. *)
Lemma poll_clients_inv now server_now cls : ∀ acc g stale,
  entries_match (a_active acc) (a_db acc) g stale → Forall plausible cls →
  let acc' := foldl (poll_client now server_now) acc cls in
  entries_match (a_active acc') (a_db acc') (foldl count_client (dom (a_active acc), g) cls).2 stale.
Proof.
  induction cls as [|cl cls IH]; intros acc g stale Hm Hadv; [done|]. apply Forall_cons in Hadv as [Ha Hadv].
  cbn [foldl]. destruct (poll_client_inv now server_now acc cl g stale Hm Ha) as [Hm' Hd].
  specialize (IH _ _ stale Hm' Hadv). cbv zeta in IH. rewrite Hd in IH.
  by destruct (count_client (dom (a_active acc), g) cl).
Qed.

(** ** Closing *)

Lemma end_session_keeps now reason r :
  row_key (end_session now reason r) = row_key r ∧ row_bytes (end_session now reason r) = row_bytes r.
Proof. unfold end_session. by destruct (is_open r). Qed.

Lemma acct_update act d g id f :
  acct act d g → (∀ r, row_key (f r) = row_key r ∧ row_bytes (f r) = row_bytes r) →
  acct act (update_session id f d) g.
Proof.
  intros Ha Hf. apply (acct_map _ _ _ _ (fun id' r => if decide (id' = id) then f r else r) Ha); [done| | |done].
  - intros id'. rewrite update_session_rows. case_decide; [done|]. by destruct (vpn_sessions d !! id').
  - intros id' r. by case_decide.
Qed.

Lemma acct_delete act d g key : acct act d g → acct (delete key act) d g.
Proof.
  intros [Hf Hr Hu Hs Ha Ht Hn]. split; try done. intros key' e [_ He]%lookup_delete_Some. by apply Ha.
Qed.

Lemma close_one_inv act d g stale key e now reason :
  entries_match act d g stale → act !! key = Some e →
  entries_match (delete key act) (update_session (en_session_id e) (end_session now reason) d) g stale.
Proof.
  intros [Hacct [Ho Hc]] He. split.
  - apply acct_update; [by apply acct_delete|]. apply end_session_keeps.
  - assert (Hdist : ∀ key' e', act !! key' = Some e' → key' ≠ key → en_session_id e' ≠ en_session_id e).
    { intros key' e' He' Hne Hid. destruct (acct_active _ _ _ Hacct _ _ He') as (r' & Hr' & Hk' & _).
      destruct (acct_active _ _ _ Hacct _ _ He) as (r & Hr & Hk & _). congruence. }
    split.
    + intros key' e' [Hne He']%lookup_delete_Some. rewrite update_session_rows, decide_False by (by eapply Hdist).
      by eapply Ho.
    + intros id r. rewrite update_session_rows. case_decide as Hid.
      * intros (r0 & Hr0 & ->)%fmap_Some. unfold end_session. by destruct (is_open r0) eqn:E; rewrite ?E.
      * intros Hr Hopen. destruct (Hc _ _ Hr Hopen) as [?|(key' & e' & He' & Hid')]; [by left|]. right.
        exists key', e'. rewrite lookup_delete_ne; [done|]. intros <-. congruence.
Qed.

Lemma close_sessions_inv keys now reason : ∀ act d g stale act' d',
  entries_match act d g stale → close_sessions keys now reason act d = (act', d') → entries_match act' d' g stale.
Proof.
  unfold close_sessions. induction keys as [|key keys IH]; intros act d g stale act' d' Hm; cbn [foldl].
  { by intros [= <- <-]. }
  destruct (act !! key) as [e|] eqn:He; [|by apply IH]. apply IH. by apply close_one_inv.
Qed.

Lemma close_sessions_active keys now reason : ∀ act d key,
  (close_sessions keys now reason act d).1 !! key = if decide (key ∈ keys) then None else act !! key.
Proof.
  unfold close_sessions. induction keys as [|k keys IH]; intros act d key; cbn [foldl].
  { by rewrite decide_False by apply not_elem_of_nil. }
  destruct (act !! k) as [e|] eqn:He; rewrite IH; destruct (decide (key ∈ keys)) as [Hin|Hin].
  - rewrite decide_True by set_solver. done.
  - destruct (decide (key = k)) as [->|Hne].
    + rewrite lookup_delete_eq, decide_True by set_solver. done.
    + rewrite lookup_delete_ne, decide_False by set_solver. done.
  - rewrite decide_True by set_solver. done.
  - destruct (decide (key = k)) as [->|Hne].
    + rewrite decide_True by set_solver. done.
    + rewrite decide_False by set_solver. done.
Qed.

Lemma opened_weaken (P Q : Z → Prop) act d : (∀ id, P id → Q id) → opened P act d → opened Q act d.
Proof. intros HPQ [Ho Hc]. split; [done|]. intros id r Hr Hopen. destruct (Hc _ _ Hr Hopen); auto. Qed.

(** [close_unlisted] leaves no row open but those of active connections. *)
Lemma close_unlisted_inv act d d' g stale :
  entries_match act d g stale → close_unlisted ((fun p => en_session_id p.2) <$> map_to_list act) d = Ok d' →
  entries_match act d' g (fun _ => False).
Proof.
  set (ids := (fun p => en_session_id p.2) <$> map_to_list act). intros [Hacct [Ho Hc]] Hd.
  set (h := fun id r => if is_open r && negb (bool_decide (id ∈ ids)) then set_disconnected (Some (v_last_seen r)) r else r).
  assert (Hd' : d' = upd_vpn (map_imap (fun id r => Some (h id r))) d).
  { unfold close_unlisted in Hd. fold ids in Hd. destruct ids; [done|]. by inv_result. }
  assert (Hv : ∀ id, vpn_sessions d' !! id = h id <$> vpn_sessions d !! id).
  { intros id. subst d'. cbn. rewrite map_lookup_imap. by destruct (vpn_sessions d !! id). }
  assert (Hids : ∀ id, id ∈ ids ↔ ∃ key e, act !! key = Some e ∧ en_session_id e = id).
  { intros id. unfold ids. rewrite list_elem_of_fmap. split.
    - intros ([key e] & -> & He%elem_of_map_to_list). eauto.
    - intros (key & e & He & <-). exists (key, e). by rewrite elem_of_map_to_list. }
  split.
  - eapply (acct_map _ _ _ _ h Hacct); [by subst d'|done| |by subst d'].
    intros id r. unfold h. by destruct (_ && _).
  - split.
    + intros key e He. destruct (Ho _ _ He) as (r & Hr & Hopen). exists r. rewrite Hv, Hr. simpl. unfold h.
      rewrite (bool_decide_true (en_session_id e ∈ ids)) by (apply Hids; eauto). by rewrite andb_false_r.
    + intros id r. rewrite Hv. intros (r0 & Hr0 & ->)%fmap_Some. unfold h.
      destruct (bool_decide_reflect (id ∈ ids)) as [Hin|Hnin]; [intros _; right; by apply Hids|].
      destruct (is_open r0) eqn:E; simpl; rewrite ?E; done.
Qed.

Lemma poll_tx_inv c st now d acc g stale :
  entries_match (active c) d g stale →
  Forall plausible (filter (fun cl => handshaking cl = false) (s_clients st)) →
  poll_tx c st now d = Ok acc →
  entries_match (a_active acc) (a_db acc)
    (foldl count_client (dom (active c), g) (filter (fun cl => handshaking cl = false) (s_clients st))).2
    (fun id => resync c = false ∧ stale id).
Proof.
  intros Hm Hadv. unfold poll_tx.
  pose proof (poll_clients_inv now (s_time st) _ (PollAcc (active c) d []) g stale Hm Hadv) as Hm1.
  cbv zeta in Hm1. destruct (close_sessions _ now None _ _) as [act' d'] eqn:Hcl.
  pose proof (close_sessions_inv _ _ _ _ _ _ _ _ _ Hm1 Hcl) as Hm2.
  destruct (resync c) eqn:Hre; intros H; inv_result; cbn.
  - destruct (close_unlisted_inv _ _ _ _ _ Hm2 E) as [? ?]. split; [done|]. eapply opened_weaken; [|done]; naive_solver.
  - destruct Hm2 as [? ?]. split; [done|]. eapply opened_weaken; [|done]; naive_solver.
Qed.

(** ** The transition system *)

(** The clients whose counters a turn commits. *)
Definition observed (inp : turn_input) (c : collector) (d : database) : list status_client :=
  match poll inp c d, i_status inp with
  | Ok _, Ok st =>
      if s_from_file st && bool_decide (Some (s_time st) = status_time c) && l_connected (live c) then []
      else filter (fun cl => handshaking cl = false) (s_clients st)
  | _, _ => []
  end.

(** [clean] restricts the restarts to those whose first statement succeeds. *)
Inductive reach (clean : bool) : collector → database → counters → Prop :=
| reach_start : reach clean new_collector empty_db ∅
| reach_restart c d g ok :
    reach clean c d g → (clean = true → ok = true) → reach clean (start ok d).1 (start ok d).2 g
| reach_turn c d g inp :
    reach clean c d g → Forall plausible (observed inp c d) →
    reach clean (run_turn inp c d).1 (run_turn inp c d).2 (foldl count_client (dom (active c), g) (observed inp c d)).2
| reach_logs c d g mktime decode now max_bytes commit fs :
    reach clean c d g →
    reach clean (read_logs mktime decode now max_bytes commit fs c d).1
      (read_logs mktime decode now max_bytes commit fs c d).2 g
| reach_rollup c d g now : reach clean c d g → reach clean c (rollup now d) g.

(** The rows that may be open without being active. *)
Definition leftover (clean : bool) (c : collector) (_ : Z) : Prop := clean = false ∨ resync c = true.

Definition cinv (clean : bool) (c : collector) (d : database) (g : counters) : Prop :=
  entries_match (active c) d g (leftover clean c).

Lemma handle_down_inv clean error now commit c d g c' d' :
  cinv clean c d g → handle_down error now commit c d = Ok (c', d') → cinv clean c' d' g.
Proof.
  unfold handle_down. intros Hm. destruct (close_sessions _ now _ _ _) as [act d1] eqn:Hcl.
  intros H. inv_result. injection H as <- <-. apply (close_sessions_inv _ _ _ _ _ _ _ _ _ Hm Hcl).
Qed.

Lemma forget_inv clean c d g : cinv clean c d g → cinv clean (forget c) d g.
Proof.
  intros [[Hf Hr Hu Hs Ha Ht Hn] _]. split.
  - split; try done.
  - split; [intros key e He; simpl in He; by rewrite lookup_empty in He|]. intros id r _ _. left. by right.
Qed.

Lemma poll_inv clean inp c d g c' d' :
  cinv clean c d g → Forall plausible (observed inp c d) → poll inp c d = Ok (c', d') →
  cinv clean c' d' (foldl count_client (dom (active c), g) (observed inp c d)).2.
Proof.
  intros Hm Hadv Hp. unfold observed in *. rewrite Hp in *.
  unfold poll in Hp. inv_result. destruct (s_from_file _ && _ && _); [by injection Hp as <- <-|].
  inv_result. injection Hp as <- <-.
  destruct (poll_tx_inv _ _ _ _ _ _ _ Hm Hadv E2) as [Ha Hop]. split; [done|].
  eapply opened_weaken; [|done]. intros id [Hre [?|?]]; [by left|congruence].
Qed.

Lemma run_turn_inv clean inp c d g :
  cinv clean c d g → Forall plausible (observed inp c d) →
  cinv clean (run_turn inp c d).1 (run_turn inp c d).2 (foldl count_client (dom (active c), g) (observed inp c d)).2.
Proof.
  intros Hm Hadv. unfold run_turn. destruct (poll inp c d) as [[c' d']|e] eqn:Hp.
  { by apply poll_inv. }
  assert (observed inp c d = []) as -> by (unfold observed; by rewrite Hp).
  cbn [foldl]. destruct e; try (by apply forget_inv);
    (destruct (handle_down _ _ _ c d) as [[c' d']|e'] eqn:Hd; [by eapply handle_down_inv|by apply forget_inv]).
Qed.

(** Tables the invariant does not look at. *)
Lemma entries_match_ext act d d' g stale :
  entries_match act d g stale → vpn_sessions d' = vpn_sessions d → vpn_seq d' = vpn_seq d →
  (∀ c n, additive c → c (0, 0) = 0 → traffic_total c d' n = traffic_total c d n) → entries_match act d' g stale.
Proof.
  intros [Ha [Ho Hc]] Hv Hs Ht. split.
  - eapply (acct_map _ _ _ _ (fun _ r => r) Ha); [done| |done|done]. intros id. rewrite Hv. by destruct (_ !! id).
  - split; intros; rewrite Hv in *; eauto.
Qed.

Lemma start_inv clean c d g ok :
  cinv clean c d g → (clean = true → ok = true) → cinv clean (start ok d).1 (start ok d).2 g.
Proof.
  intros [[Hf Hr Hu Hs Ha Ht Hn] _] Hok.
  assert (Ha0 : acct ∅ d g) by (split; try done).
  unfold start. destruct ok; cbn [fst snd].
  - set (h := fun (_ : Z) r => if is_open r then set_disconnected (Some (default (v_last_seen r) None)) r else r).
    split.
    + eapply (acct_map _ _ _ _ h Ha0); [done| | |done].
      * intros id. cbn. by rewrite lookup_fmap.
      * intros id r. unfold h. by destruct (is_open r).
    + split; [done|]. intros id r. cbn. rewrite lookup_fmap. intros (r0 & Hr0 & ->)%fmap_Some.
      destruct (is_open r0) eqn:E; simpl; rewrite ?E; done.
  - split; [done|]. split; [done|]. intros id r _ _. left. left. destruct clean; [by specialize (Hok eq_refl)|done].
Qed.

Lemma rollup_traffic now d c n : additive c → traffic_total c (rollup now d) n = traffic_total c d n.
Proof.
  intros Hc. unfold traffic_total, rollup. cbn.
  set (w := weight (fun k => String.eqb k.2 n) c).
  pose proof (fold_drop_sum (fun k => String.eqb k.2 n) c Hc 3600 (now - MINUTE_RETENTION) (traffic_minute d)
    (traffic_hour d) ltac:(done)) as H1.
  pose proof (fold_drop_sum (fun k => String.eqb k.2 n) c Hc 86400 (now - HOUR_RETENTION)
    (fold_into 3600 (now - MINUTE_RETENTION) (traffic_minute d) (traffic_hour d)) (traffic_day d) ltac:(done)) as H2.
  fold w in H1, H2. lia.
Qed.

(** A change of a row that keeps its connection, its counters and whether it is open. *)
Lemma entries_match_update act d g stale id f :
  entries_match act d g stale →
  (∀ r, row_key (f r) = row_key r ∧ row_bytes (f r) = row_bytes r ∧ is_open (f r) = is_open r) →
  entries_match act (update_session id f d) g stale.
Proof.
  intros [Ha [Ho Hc]] Hf. split; [apply acct_update; [done|]; intros r; by destruct (Hf r) as (? & ? & ?)|].
  split.
  - intros key e (r & Hr & Hopen)%Ho. rewrite update_session_rows. case_decide; [|eauto].
    rewrite Hr. simpl. exists (f r). by rewrite (proj2 (proj2 (Hf r))).
  - intros id' r. rewrite update_session_rows. case_decide.
    + intros (r0 & Hr0 & ->)%fmap_Some. rewrite (proj2 (proj2 (Hf r0))). by apply Hc.
    + by apply Hc.
Qed.

Lemma set_device_inv act d g stale id address p :
  entries_match act d g stale → entries_match act (set_device id address p d) g stale.
Proof. intros Hm. by apply entries_match_update. Qed.

Lemma insert_closed_inv act d g stale n a t f at_ :
  entries_match act d g stale → f_cid f = None → f_disconnected_at f = Some at_ →
  entries_match act (insert_session d n a t f).1 g stale.
Proof.
  intros [Ha [Ho Hc]] Hcid Hdis.
  destruct (insert_session_row d n a t f) as (row & Hv & Hk & _ & Hd & Hseq & _).
  assert (Hold : ∀ id r, vpn_sessions d !! id = Some r → vpn_seq d ≠ id).
  { intros id r H%(acct_fresh _ _ _ Ha). lia. }
  split.
  - eapply acct_insert_other; [done..| |].
    + intros. apply insert_session_traffic.
    + by rewrite Hk, Hcid.
  - split.
    + intros key e (r & Hr & Hopen)%Ho. exists r. rewrite Hv, lookup_insert_ne by (by eapply Hold). done.
    + intros id r. rewrite Hv. intros [[<- <-]|[_ Hr]]%lookup_insert_Some; [|by apply Hc].
      unfold is_open. by rewrite Hd, Hdis.
Qed.

Lemma connection_line_inv act d g stale l pend :
  entries_match act d g stale → entries_match act (connection_line l pend d).2 g stale.
Proof.
  intros Hm. destruct l as [| |ts address [cn|] reason]; try done. cbn [connection_line].
  destruct (latest_session d cn _ _) as [[id r]|].
  - assert (Hm' : entries_match act (update_session id (set_end_reason (Some reason)) d) g stale)
      by (by apply entries_match_update).
    cbn [snd]. destruct (get_peer address pend); [by apply set_device_inv|done].
  - destruct (get_peer address pend) as [p|]; [|done]. case_match; [|done].
    destruct (insert_session d cn _ _ _) as [d1 sid] eqn:Hi. cbn [snd]. apply set_device_inv.
    replace d1 with (insert_session d cn (Some address) (pe_ts p)
      (SessionFields None None None None (Some ts) (Some ts) (Some reason) 0 0)).1 by (by rewrite Hi).
    by eapply insert_closed_inv.
Qed.

Section log_invariants.
Context (mktime : civil → Z) (decode : string → string) (act : gmap conn_key entry) (g : counters) (stale : Z → Prop).

Lemma log_lines_inv lines : ∀ pend d,
  entries_match act d g stale →
  ∀ d', (log_lines mktime lines pend d).2 = Ok d' → entries_match act d' g stale.
Proof.
  induction lines as [|line lines IH]; intros pend d Hm d'; cbn [log_lines]; [by intros [= <-]|].
  destruct (log_line mktime line pend d) as [pend' [d1|e]] eqn:Hl; [|done]. apply IH.
  unfold log_line in Hl. destruct (parse_rejection mktime line) as [[hit|]|e]; simplify_eq.
  - by eapply entries_match_ext.
  - destruct (parse_connection mktime line) as [[hit|]|e]; simplify_eq; [|done].
    pose proof (connection_line_inv act d g stale hit pend Hm) as Hc.
    destruct (connection_line hit pend d) as [pend1 d2]. by simplify_eq/=.
Qed.

Lemma read_files_inv max_bytes commit fs : ∀ pend d pend' d' ok,
  entries_match act d g stale → read_files mktime decode max_bytes commit fs pend d = (pend', d', ok) →
  entries_match act d' g stale.
Proof.
  induction fs as [|f fs IH]; intros pend d pend' d' ok Hm; cbn [read_files]; [by intros [= <- <- <-]|].
  destruct (read_log mktime decode max_bytes commit f pend d) as [pend1 [d1|e]] eqn:Hr;
    [|by intros [= <- <- <-]].
  apply IH. unfold read_log in Hr. destruct (log_pos f d) as [pos|]; [|by simplify_eq].
  destruct (Nat.eqb _ 0); [by simplify_eq|].
  destruct (log_lines mktime _ pend d) as [pend2 [d2|e]] eqn:Hl; [|done].
  destruct commit; simplify_eq. apply (entries_match_ext act d2); [|done..].
  apply (f_equal snd) in Hl. by eapply log_lines_inv.
Qed.

Lemma describe_sessions_inv now pend : ∀ kept d,
  entries_match act d g stale → entries_match act (foldl (describe_peer now) (kept, d) pend).2 g stale.
Proof.
  induction pend as [|[address p] pend IH]; intros kept d Hm; [done|]. cbn [foldl describe_peer].
  destruct (match pe_cn p with Some cn => _ | None => _ end) as [[id r]|]; [apply IH; by apply set_device_inv|].
  case_match; by apply IH.
Qed.
End log_invariants.

Lemma read_logs_inv clean mktime decode now max_bytes commit fs c d g :
  cinv clean c d g →
  cinv clean (read_logs mktime decode now max_bytes commit fs c d).1
    (read_logs mktime decode now max_bytes commit fs c d).2 g.
Proof.
  intros Hm. unfold read_logs. destruct (read_files _ _ _ _ fs (pending c) d) as [[pend d1] ok] eqn:Hr.
  assert (Hm1 : cinv clean c d1 g) by (by eapply read_files_inv).
  destruct (_ && _); [|done]. pose proof (describe_sessions_inv (active c) g (leftover clean c) now pend [] d1 Hm1) as Hm2.
  unfold describe_sessions. destruct (foldl (describe_peer now) ([], d1) pend) as [pend' d2]. simpl in *.
  by destruct commit.
Qed.

Lemma reach_cinv clean c d g : reach clean c d g → cinv clean c d g.
Proof.
  induction 1 as [|c d g ok _ IH Hok|c d g inp _ IH Hadv|c d g mk dec now mb commit fs _ IH|c d g now _ IH].
  - split; [|split; [done|]; intros id r Hr; cbn in Hr; by rewrite lookup_empty in Hr].
    split; try (intros *; simpl; rewrite ?lookup_empty; done).
  - by eapply start_inv.
  - by apply run_turn_inv.
  - by apply read_logs_inv.
  - eapply entries_match_ext; [exact IH|done|done|]. intros. by apply rollup_traffic.
Qed.

(** C5. Every byte that OpenVPN reports is counted exactly once: through polls, failed and rolled-back
    transactions, management outages, restarts of the process, log reading and roll-ups, the traffic counted
    for a client (over the minute, hour and day tables) is the sum, over its connections, of the growth of
    the counters that committed statuses reported ([recount]).  For a connection whose counters never
    went back this is the last reported value.  A counter that is lower than at the poll before has started
    again at zero, and its new value is counted on top; one that is lower than before a restart or an outage
    adds nothing.  The clients a status lists have the time they connected at and counters that are
    not negative, as OpenVPN prints them. *)
Theorem traffic_exact clean c d g n :
  reach clean c d g →
  (traffic_total fst d n = counted_for fst g n ∧ traffic_total snd d n = counted_for snd g n) ∧
  (∀ key ct, g !! key = Some ct → ct_back ct = false → ct_total ct = ct_last ct).
Proof. intros [Ha _]%reach_cinv. split; [apply (acct_traffic _ _ _ Ha)|apply (acct_exact _ _ _ Ha)]. Qed.

(** C19. The session table mirrors OpenVPN: after a start that could close the previous
    run's sessions, whenever no failed write is waiting to be repaired, the rows without an
    end are exactly the rows of the active connections, each connection has one row of its
    own with the counters last reported. *)
Theorem open_rows_are_active c d g :
  reach true c d g → resync c = false →
  (∀ id, (∃ r, vpn_sessions d !! id = Some r ∧ is_open r = true) ↔
         ∃ key e, active c !! key = Some e ∧ en_session_id e = id) ∧
  (∀ key e, active c !! key = Some e → ∃ r, vpn_sessions d !! en_session_id e = Some r
     ∧ row_key r = Some key ∧ row_bytes r = (en_bytes_in e, en_bytes_out e)) ∧
  (∀ k1 k2 e1 e2, active c !! k1 = Some e1 → active c !! k2 = Some e2 →
     en_session_id e1 = en_session_id e2 → k1 = k2).
Proof.
  intros [Ha [Ho Hc]]%reach_cinv Hre. split_and!.
  - intros id. split.
    + intros (r & Hr & Hopen). destruct (Hc _ _ Hr Hopen) as [[?|?]|?]; [done|congruence|done].
    + intros (key & e & He & <-). by eapply Ho.
  - apply (acct_active _ _ _ Ha).
  - intros k1 k2 e1 e2 H1 H2 Hid.
    destruct (acct_active _ _ _ Ha _ _ H1) as (r1 & Hr1 & Hk1 & _).
    destruct (acct_active _ _ _ Ha _ _ H2) as (r2 & Hr2 & Hk2 & _). congruence.
Qed.

(** A turn with a status of the given clients over the management interface. *)
Definition turn_with (now : Z) (commit : bool) (cls : list status_client) : turn_input :=
  TurnInput true (Ok ∅) (Ok "2.6.14") (Ok (Status now cls ∅ false)) (Some 1) now commit.

Definition bob (bi bo : Z) : status_client :=
  StatusClient "bob" "udp4:203.0.113.9:51820" "10.8.0.6" "" bi bo 1700000000 "UNDEF" 7 0 "AES-256-GCM".

(** Two polls, the second rolled back, and a restart of the process. *)
Definition bob_run : collector * database :=
  let '(c, d) := run_turn (turn_with 1700000100 true [bob 1000 50]) new_collector empty_db in
  let '(c, d) := run_turn (turn_with 1700000160 false [bob 4000 70]) c d in
  start true d.

Lemma bob_plausible bi bo : 0 <= bi → 0 <= bo → Forall plausible [bob bi bo].
Proof. intros Hi Ho. repeat constructor; cbn; lia. Qed.

Lemma reach_turn_to clean c d g inp cls g' : reach clean c d g → observed inp c d = cls → Forall plausible cls →
  (foldl count_client (dom (active c), g) cls).2 = g' → reach clean (run_turn inp c d).1 (run_turn inp c d).2 g'.
Proof. intros H <- Hp <-. by apply reach_turn. Qed.

Definition bob_count (ct : count) : counters := <[(7, 1700000000, "bob") := ct]> ∅.

Lemma count_bob act ct bi bo ct' : recount (bool_decide ((7, 1700000000, "bob") ∈ act)) (Some ct) (bi, bo) = ct' →
  (foldl count_client (act, bob_count ct) [bob bi bo]).2 = bob_count ct'.
Proof.
  intros H. cbn [foldl]. unfold count_client, bob_count. cbn [fst snd].
  change (key_of (bob bi bo)) with (7, 1700000000, "bob"). cbn [cl_bytes_in cl_bytes_out bob].
  rewrite lookup_insert_eq, H. apply insert_insert_eq.
Qed.

(** A committed poll that sees bob. *)
Lemma bob_poll c d ct now bi bo ct' : reach true c d (bob_count ct) → 0 <= bi → 0 <= bo →
  observed (turn_with now true [bob bi bo]) c d = [bob bi bo] →
  recount (bool_decide ((7, 1700000000, "bob") ∈ dom (active c))) (Some ct) (bi, bo) = ct' →
  reach true (run_turn (turn_with now true [bob bi bo]) c d).1 (run_turn (turn_with now true [bob bi bo]) c d).2 (bob_count ct').
Proof. intros Hr Hi Ho Hobs Hct. eapply reach_turn_to; [exact Hr|exact Hobs|by apply bob_plausible|by apply count_bob]. Qed.

Lemma bob_reach : reach true bob_run.1 bob_run.2 (bob_count (Count (1000, 50) (1000, 50) false)).
Proof.
  assert (H1 := reach_turn_to true _ _ _ (turn_with 1700000100 true [bob 1000 50]) [bob 1000 50] (bob_count (Count (1000, 50) (1000, 50) false))
    (reach_start true) ltac:(vm_compute; reflexivity) ltac:(by apply bob_plausible) eq_refl).
  assert (H2 := reach_turn_to true _ _ _ (turn_with 1700000160 false [bob 4000 70]) [] (bob_count (Count (1000, 50) (1000, 50) false)) H1
    ltac:(vm_compute; reflexivity) (Forall_nil_2 _) eq_refl).
  exact (reach_restart true _ _ _ true H2 ltac:(done)).
Qed.

(** After it, a poll, and one at which the counters have started again. *)
Definition bob_again : collector * database := run_turn (turn_with 1700000220 true [bob 4000 70]) bob_run.1 bob_run.2.
Definition bob_back : collector * database := run_turn (turn_with 1700000280 true [bob 300 80]) bob_again.1 bob_again.2.

Lemma bob_back_reach : reach true bob_back.1 bob_back.2 (bob_count (Count (300, 80) (4300, 80) true)).
Proof.
  apply (bob_poll bob_again.1 bob_again.2 (Count (4000, 70) (4000, 70) false)); [|lia|lia|vm_compute; reflexivity..].
  apply (bob_poll bob_run.1 bob_run.2 (Count (1000, 50) (1000, 50) false)); [exact bob_reach|lia|lia|vm_compute; reflexivity..].
Qed.

Lemma traffic_exact_witness :
  traffic_total fst bob_run.2 "bob" = 1000 ∧ traffic_total fst bob_back.2 "bob" = 4000 + 300.
Proof.
  split.
  - rewrite (proj1 (proj1 (traffic_exact true _ _ _ "bob" bob_reach))). vm_compute. reflexivity.
  - rewrite (proj1 (proj1 (traffic_exact true _ _ _ "bob" bob_back_reach))). vm_compute. reflexivity.
Defined.

Lemma open_rows_are_active_witness :
  resync bob_run.1 = false ∧ ∀ id, (∃ r, vpn_sessions bob_run.2 !! id = Some r ∧ is_open r = true) ↔
         ∃ key e, active bob_run.1 !! key = Some e ∧ en_session_id e = id.
Proof.
  split; [reflexivity|]. apply (open_rows_are_active _ _ _ bob_reach). reflexivity.
Defined.

(** ** Recovery after a failed write *)

(** The state [forget] leaves behind. *)
Definition forgotten (c : collector) : Prop := resync c = true ∧ active c = ∅ ∧ status_time c = None.

(** OpenVPN answers every command and lists no client past its handshake. *)
Definition idle_server (inp : turn_input) : Prop :=
  is_ok (i_load inp) = true ∧ is_ok (i_version inp) = true ∧
  ∃ st, i_status inp = Ok st ∧ forallb handshaking (s_clients st) = true.

(** A failed write is never repaired while nobody is connected: after it, as long as
    OpenVPN lists no client, every poll fails in turn (the statement that closes the
    ended sessions has an empty IN list, a syntax error in PostgreSQL), so the rows
    stay open and the published state keeps its old content however many polls run. *)
Theorem resync_stuck_without_clients c d inps :
  forgotten c → Forall idle_server inps →
  foldl (fun cd inp => run_turn inp cd.1 cd.2) (c, d) inps = (c, d).
Proof.
  intros Hc. induction 1 as [|inp inps (Hload & Hver & st & Hst & Hcl) _ IH]; [done|]. cbn [foldl fst snd].
  assert (run_turn inp c d = (c, d)) as ->; [|done].
  destruct Hc as (Hre & Hact & Htime). destruct c as [t act pend re lv]. simpl in *. subst.
  unfold run_turn, poll, poll_version. rewrite Hst. destruct (i_load inp) as [load|]; [|done].
  destruct (i_version inp) as [v|]; [|done].
  assert (Hnone : filter (fun cl => handshaking cl = false) (s_clients st) = []).
  { apply elem_of_nil_inv. intros cl [Hh Hin]%list_elem_of_filter. apply list_elem_of_In in Hin.
    pose proof (proj1 (List.forallb_forall _ _) Hcl cl Hin). congruence. }
  assert (Htx : ∀ now, poll_tx (Collector None ∅ pend true lv) st now d = Raise (DatabaseError "syntax error")).
  { intros now. unfold poll_tx. rewrite Hnone. cbn. by rewrite map_to_list_empty. }
  cbn. destruct (negb _ || negb _); cbn; rewrite (bool_decide_false (Some _ = None)) by done;
    rewrite andb_false_r; cbn; by rewrite Htx.
Qed.

(** The failed second poll of [bob_run] is such a write: the session stays open. *)
Definition bob_stuck : collector * database :=
  let '(c, d) := run_turn (turn_with 1700000100 true [bob 1000 50]) new_collector empty_db in
  run_turn (turn_with 1700000160 false [bob 4000 70]) c d.

Lemma resync_stuck_witness :
  (∃ r, vpn_sessions bob_stuck.2 !! 1 = Some r ∧ is_open r = true) ∧
  foldl (fun cd inp => run_turn inp cd.1 cd.2) (bob_stuck.1, bob_stuck.2)
    [turn_with 1700000220 true []; turn_with 1700000280 true []] = (bob_stuck.1, bob_stuck.2).
Proof.
  split; [eexists; split; vm_compute; reflexivity|]. apply resync_stuck_without_clients.
  - split_and!; reflexivity.
  - repeat constructor; (reflexivity || (eexists; split; reflexivity)).
Defined.
