(* ===== verification/ConfigEdit.v ===== *)
(** * Editing the configuration files: [ui/app/pki.py] and [put_config] of [ui/app/main.py]

    OpenVPN runs as root, so the editor of the web UI refuses lines that name programs
    to run, code to load or files to write.  The files are a finite map from path to
    content; the byte order mark that [check_edit] drops is outside the represented
    code points. *)

From S2P Require Import Prelude PyStr Schema Regex.

Open Scope string_scope.
Open Scope list_scope.
Open Scope Z_scope.

Abbreviation files := (gmap string string).

Definition TFA_LINES : list string :=
  ["auth-user-pass-verify /opt/app/bin/oath.sh via-file"; "auth-gen-token 43200"].

Definition CONFIG_FILES : list (string * string) :=
  [("server", "server.conf"); ("client", "config/client.conf"); ("vars", "pki/vars")].

(** [settings.vars_template]. *)
Definition vars_template : string := "config/easy-rsa.vars".

Definition config_path (which : string) (fs : files) : result string :=
  match find (fun p => String.eqb p.1 which) CONFIG_FILES with
  | None => Raise (PkiError "Unknown configuration file")
  | Some (_, path) =>
      if String.eqb which "vars" && bool_decide (fs !! path = None) then Ok vars_template else Ok path
  end.

(** Text mode reads a carriage return, alone or before a line feed, as a line feed. *)
Definition universal_newlines (s : string) : string :=
  str_map (fun c => if Ascii.eqb c cr then lf else c) (crlf_to_lf s).

(** [read_config]: a file that cannot be read is empty. *)
Definition read_config (which : string) (fs : files) : result string :=
  path ← config_path which fs; Ok (universal_newlines (default "" (fs !! path))).

(** ** The options of a line *)

Definition PRIVILEGED : list string :=
  ["up"; "down"; "ipchange"; "route-up"; "route-pre-down"; "tls-verify"; "auth-user-pass-verify";
   "client-connect"; "client-disconnect"; "client-crresponse"; "learn-address"; "dns-updown";
   "tls-crypt-v2-verify"; "tls-export-cert"; "plugin";
   "engine"; "providers"; "pkcs11-providers"; "iproute";
   "script-security"; "setenv"; "setenv-safe"; "config"; "cd"; "chroot"; "daemon";
   "log"; "log-append"; "status"; "writepid"; "ifconfig-pool-persist"; "replay-persist"; "tmp-dir";
   "management-client-user"; "management-client-group"].

Definition MAX_LINE : Z := 255.

(** [_C_SPACE]: space, tab, line feed, vertical tab, form feed, carriage return. *)
Definition c_space (c : ascii) : bool := (code c =? 32) || in_range 9 13 c.
Definition c_strip : string → string := strip_by c_space.

Definition backslash : ascii := chr 92.
Definition dquote : ascii := chr 34.
Definition squote : ascii := chr 39.
Definition nul : ascii := chr 0.

Inductive lex := LStart | LPlain | LDouble | LSingle.
Definition is_single (s : lex) : bool := match s with LSingle => true | _ => false end.

(** The loop of [option_name] over the line and a final NUL: the characters of the
    first parameter. *)
Fixpoint scan (st : lex) (esc : bool) (s : string) : string :=
  match s with
  | EmptyString => EmptyString
  | String ch s =>
      let space := Ascii.eqb ch nul || c_space ch in
      if Ascii.eqb ch backslash && negb esc && negb (is_single st) then scan st true s
      else
        match st with
        | LStart =>
            if space then scan LStart false s
            else if Ascii.eqb ch ";"%char || Ascii.eqb ch "#"%char then EmptyString
            else if Ascii.eqb ch dquote && negb esc then scan LDouble false s
            else if Ascii.eqb ch squote && negb esc then scan LSingle false s
            else String ch (scan LPlain false s)
        | _ =>
            if (match st with LPlain => space && negb esc
                            | LDouble => Ascii.eqb ch dquote && negb esc
                            | _ => Ascii.eqb ch squote end)
            then EmptyString
            else if Ascii.eqb ch nul then scan st false s
            else String ch (scan st false s)
        end
  end.

(** [word[2:]] after a leading "--", and the text inside angle brackets. *)
Definition undash (w : string) : string :=
  if (3 <=? strlen w) && startswith "--" w then str_drop 2 w else w.
Definition unbracket (w : string) : string :=
  if startswith "<" w && endswith ">" w then str_take (String.length w - 2) (str_drop 1 w) else w.

Definition option_name (line : string) : string :=
  unbracket (undash (scan LStart false (line +:+ String nul ""))).

Definition privileged (w : string) : bool := existsb (String.eqb w) PRIVILEGED.

(** ** The pattern of easy-rsa variables *)

Definition any_of (ws : list string) : regex := foldr (fun w r => RAlt (lit w) r) (RChar (fun _ => false)) ws.
Definition blank : regex := RChar (fun c => Ascii.eqb c " "%char || Ascii.eqb c tab).

Definition _VARS_LINE : regex :=
  rseq [lit "set_var"; plus blank; lit "EASYRSA_";
        RAlt (lit "DN")
          (RAlt (RSeq (lit "REQ_") (any_of ["COUNTRY"; "PROVINCE"; "CITY"; "ORG"; "EMAIL"; "OU"; "CN"; "SERIAL"]))
             (any_of ["ALGO"; "CURVE"; "KEY_SIZE"; "DIGEST"; "CA_EXPIRE"; "CERT_EXPIRE"; "CRL_DAYS"; "CERT_RENEW";
                      "PRE_EXPIRY_WINDOW"; "RAND_SN"; "NS_SUPPORT"; "NS_COMMENT"]));
        plus blank;
        RAlt (rseq [RChar (Ascii.eqb dquote);
                    RStar true (RChar (fun c => negb (existsb (Ascii.eqb c) [dquote; "$"; "`"; backslash]%char)));
                    RChar (Ascii.eqb dquote)])
             (plus (RChar (fun c => is_alnum_az c || one_of "_.,@:/+-" c)));
        opt (rseq [plus blank; lit "#"; RStar true rdot])].

(** ** [check_edit] *)

(** The refused control characters: all but tab and line feed, and DEL. *)
Definition control (c : ascii) : bool := in_range 0 8 c || in_range 11 31 c || (code c =? 127).

Definition known_lines (which : string) (fs : files) : result (list string) :=
  text ← read_config which fs; Ok ((c_strip <$> split lf text) ++ TFA_LINES).

Definition check_line (which : string) (known : list string) (n : Z) (raw : string) : result unit :=
  let line := c_strip raw in
  if existsb (String.eqb line) known then Ok tt
  else if String.eqb which "vars" then
    raise_if (negb (empty line) && negb (startswith "#" line) && negb (re_fullmatch _VARS_LINE line))
      (PkiError ("Line " +:+ str_of_int n +:+ ": only comments and 'set_var EASYRSA_... value' lines for the certificate " +:+
                "fields, key type and lifetimes can be added here"))
  else if MAX_LINE <? utf8_len raw then
    Raise (PkiError ("Line " +:+ str_of_int n +:+ " is longer than " +:+ str_of_int MAX_LINE +:+
      " bytes, which OpenVPN does not read as one line"))
  else
    raise_if (privileged (option_name raw))
      (PkiError ("Line " +:+ str_of_int n +:+ ": '" +:+ option_name raw +:+ "' runs a program or redirects a file. Such a line cannot " +:+
        "be added or changed here - edit " +:+ default "" (snd <$> find (fun p => String.eqb p.1 which) CONFIG_FILES)
        +:+ " on the server instead.")).

Fixpoint check_lines (which : string) (known : list string) (n : Z) (raws : list string) : result unit :=
  match raws with
  | [] => Ok tt
  | raw :: raws => _ ← check_line which known n raw; check_lines which known (n + 1) raws
  end.

Definition check_edit (which content : string) (fs : files) : result unit :=
  let content := crlf_to_lf content in
  _ ← raise_if (str_exists control content) (PkiError "The file contains control characters");
  known ← known_lines which fs;
  check_lines which known 1 (split lf content).

(** ** [write_config] *)

(** The line of the management interface, [^\s*management\s+]. *)
Definition rx_management : regex := rseq [RStar true rs_; lit "management"; plus rs_].

Definition lf_text : string := String lf "".

(** [io_ok] is whether the file system lets the files be written. *)
Definition write_config (which content : string) (io_ok : bool) (fs : files) : result files :=
  path ← config_path which fs;
  _ ← raise_if (200000 <? strlen content) (PkiError "Configuration file too large");
  let content := crlf_to_lf content in
  let content := if endswith lf_text content then content else content +:+ lf_text in
  _ ← raise_if (String.eqb which "server" && bool_decide (re_search_m rx_management content = None))
        (PkiError "server.conf must keep the 'management' line - the UI needs it");
  _ ← raise_if (negb io_ok) (PkiError ("cannot write " +:+ path));
  let fs := match fs !! path with
            | Some old => <[path +:+ ".bak" := universal_newlines old]> fs
            | None => fs
            end in
  Ok (<[path := content]> fs).

(** [put_config] under its lock: the check and the write. *)
Definition put_config (which content : string) (io_ok : bool) (fs : files) : result files :=
  _ ← check_edit which content fs;
  write_config which content io_ok fs.

(** ** The public endpoint of the profiles *)

Definition rx_proto : regex := rseq [RStar true rs_; lit "proto"; plus rs_; RGroup 1 (RAlt (lit "udp") (lit "tcp"))].
Definition rx_port : regex := rseq [RStar true rs_; lit "port"; plus rs_; RGroup 1 (plus rd)].
Definition proto_suffix (i : nat) : regex :=
  opt (rseq [plus rs_; RGroup i (RAlt (lit "udp") (lit "tcp")); RStar true rS]).
Definition rx_remote : regex :=
  rseq [RStar true rs_; lit "remote"; plus rs_; RGroup 1 (plus rS); plus rs_; RGroup 2 (plus rd); proto_suffix 3].
Definition rx_local : regex :=
  rseq [RStar true rs_; lit "local"; plus rs_; plus rS; opt (rseq [plus rs_; RGroup 1 (plus rd)]); proto_suffix 2].

Definition group (m : gmap nat string) (i : nat) : string := default "" (m !! i).
Definition or_default (s default_ : string) : string := if empty s then default_ else s.

(** A port and a protocol. *)
Definition endpoint : Type := string * string.

Definition found_proto (text : string) : string :=
  match re_search_m rx_proto text with Some m => group m 1 | None => "udp" end.

Definition get_remote (fs : files) : result (string * list endpoint) :=
  text ← read_config "client" fs;
  let found := re_findall_m rx_remote text in
  Ok (match found with m :: _ => group m 1 | [] => "" end,
      (fun m => (group m 2, or_default (group m 3) (found_proto text))) <$> found).

Definition server_listen (fs : files) : result (list endpoint) :=
  text ← read_config "server" fs;
  let proto := found_proto text in
  let port := match re_search_m rx_port text with Some m => group m 1 | None => "1194" end in
  let local := (fun m => (or_default (group m 1) port, or_default (group m 2) proto)) <$> re_findall_m rx_local text in
  Ok match local with [] => [(port, proto)] | _ => local end.

Definition host_char (c : ascii) : bool := is_alnum_az c || one_of ".-:" c.
(** [HOST_RE]; the host has been stripped, so the dollar matches only at the end. *)
Definition host_re (h : string) : bool := (1 <=? strlen h) && (strlen h <=? 253) && str_forall host_char h.

(** [dict(...)] of the current remotes: the last port of a protocol wins. *)
Definition current_port (proto : string) (remotes : list endpoint) : option string :=
  snd <$> last (filter (fun q => String.eqb q.1 proto = true) ((fun r => (r.2, r.1)) <$> remotes)).

(** [sorted(..., key=lambda l: l["proto"] != "udp")]: stable, UDP first. *)
Definition udp_first (l : list endpoint) : list endpoint :=
  filter (fun r => r.2 = "udp") l ++ filter (fun r => r.2 ≠ "udp") l.

Definition port_ok (port : string) : result bool :=
  if negb (isdigit port) then Ok false
  else n ← of_option ValueError (py_int port); Ok ((1 <=? n) && (n <=? 65535)).

(** [ports] maps a protocol to the wanted port, already as text. *)
Definition validate_remote (host : string) (ports : list (string * string)) (fs : files) : result (list string) :=
  let host := strip host in
  _ ← raise_if (negb (host_re host)) (PkiError "Invalid host name or IP address");
  remote ← get_remote fs;
  listen ← server_listen fs;
  map_result (fun sock : endpoint =>
    let wanted := snd <$> find (fun q => String.eqb q.1 sock.2) ports in
    let current := default "" (current_port sock.2 remote.2) in
    let port := default (or_default current sock.1) wanted in
    ok ← port_ok port;
    _ ← raise_if (negb ok) (PkiError ("Invalid " +:+ upper sock.2 +:+ " port"));
    Ok ("remote " +:+ host +:+ " " +:+ port +:+ " " +:+ sock.2)) (udp_first listen).

Definition rx_endpoint : regex := rseq [RStar true rs_; RAlt (lit "remote") (lit "proto"); plus rs_].

(** The new lines go after the line that only says "client". *)
Fixpoint after_client (lines : list string) : option nat :=
  match lines with
  | [] => None
  | l :: lines => if String.eqb (strip l) "client" then Some 1%nat else S <$> after_client lines
  end.

Definition set_remote (host : string) (ports : list (string * string)) (io_ok : bool) (fs : files) : result files :=
  remotes ← validate_remote host ports fs;
  text ← read_config "client" fs;
  let lines := filter (fun l => re_match rx_endpoint l = None) (splitlines text) in
  let at_ := default 0%nat (after_client lines) in
  write_config "client" (join lf_text (take at_ lines ++ remotes ++ drop at_ lines) +:+ lf_text) io_ok fs.

(** [sorted] of a list of protocols. *)
Definition str_le (a b : string) : Prop := String.compare a b ≠ Gt.
#[export] Instance str_le_dec a b : Decision (str_le a b) := _.

(** [sync_remotes]: whether the protocols of the profiles had to follow server.conf. *)
Definition sync_remotes (io_ok : bool) (fs : files) : result (files * bool) :=
  remote ← get_remote fs;
  listen ← server_listen fs;
  if empty remote.1 || bool_decide (merge_sort str_le remote.2.*2 = merge_sort str_le listen.*2) then Ok (fs, false)
  else fs ← set_remote remote.1 [] io_ok fs; Ok (fs, true).

(** [set_tfa_enforced]. *)
Definition rx_tfa : regex :=
  rseq [RStar true rs_; opt (lit "#"); RStar true rs_; RAlt (lit "auth-user-pass-verify") (lit "auth-gen-token"); plus rs_].

Definition set_tfa_enforced (enabled io_ok : bool) (fs : files) : result files :=
  text ← read_config "server" fs;
  let lines := filter (fun l => re_match rx_tfa l = None) (splitlines text) in
  let lines := lines ++ (if enabled then TFA_LINES else (fun l => "#" +:+ l) <$> TFA_LINES) in
  write_config "server" (join lf_text lines +:+ lf_text) io_ok fs.

Definition rx_tfa_on : regex := rseq [RStar true rs_; lit "auth-user-pass-verify"; plus rs_].
Definition tfa_enforced (fs : files) : result bool :=
  text ← read_config "server" fs; Ok (bool_decide (is_Some (re_search_m rx_tfa_on text))).

(** ** What a line spells *)

(** A word written with a backslash before the characters that are flagged. *)
Fixpoint spell (flags : list bool) (w : string) : string :=
  match w with
  | EmptyString => EmptyString
  | String c w =>
      let rest := spell (tail flags) w in
      match flags with true :: _ => String backslash (String c rest) | _ => String c rest end
  end.

(** The characters of option names, with the dashes and brackets around them. *)
Definition word_char (c : ascii) : bool := is_alnum_az c || one_of "-<>" c.

Lemma word_char_plain c :
  word_char c = true →
  Ascii.eqb c backslash = false ∧ Ascii.eqb c nul = false ∧ c_space c = false ∧ Ascii.eqb c ";" = false
  ∧ Ascii.eqb c "#" = false ∧ Ascii.eqb c dquote = false ∧ Ascii.eqb c squote = false.
Proof. destruct c as [[] [] [] [] [] [] [] []]; vm_compute; intros; split_and!; congruence. Qed.

Ltac word_facts c H :=
  let F := fresh "F" in
  pose proof (word_char_plain c H) as F; destruct F as (? & ? & ? & ? & ? & ? & ?).

(** In the middle of a parameter: the word is read, escaped or not. *)
Lemma scan_spell st flags w rest :
  st = LPlain ∨ st = LDouble → str_forall word_char w = true →
  scan st false (spell flags w +:+ rest) = w +:+ scan st false rest.
Proof.
  intros Hst. revert flags. induction w as [|c w IH]; intros flags; [done|]. cbn [str_forall].
  intros [Hc Hw]%andb_true_iff. word_facts c Hc.
  assert (Hstep : scan st false (String c (spell (tail flags) w +:+ rest)) = String c (w +:+ scan st false rest)).
  { cbn [scan]. rewrite H, H0, H1, H4. rewrite <- (IH (tail flags) Hw). by destruct Hst as [->| ->]. }
  assert (Hesc : scan st true (String c (spell (tail flags) w +:+ rest)) = String c (w +:+ scan st false rest)).
  { cbn [scan]. rewrite H, H0, H1, H4. rewrite <- (IH (tail flags) Hw). by destruct Hst as [->| ->]. }
  cbn [spell]. destruct flags as [|[] flags]; cbn [String.append]; [exact Hstep| |exact Hstep].
  rewrite <- Hesc. cbn [scan]. rewrite Ascii.eqb_refl. by destruct Hst as [->| ->].
Qed.

Lemma scan_spell_start flags c w rest :
  str_forall word_char (String c w) = true →
  scan LStart false (spell flags (String c w) +:+ rest) = String c (w +:+ scan LPlain false rest).
Proof.
  cbn [str_forall]. intros [Hc Hw]%andb_true_iff. word_facts c Hc.
  assert (Hstep : ∀ e, scan LStart e (String c (spell (tail flags) w +:+ rest)) = String c (w +:+ scan LPlain false rest)).
  { intros e. cbn [scan]. rewrite H, H0, H1, H2, H3, H4, H5. cbn. by rewrite scan_spell by auto. }
  cbn [spell]. destruct flags as [|[] flags]; cbn [String.append]; [apply Hstep| |apply Hstep].
  rewrite <- (Hstep true). cbn [scan]. by rewrite Ascii.eqb_refl.
Qed.

Lemma c_space_plain c :
  c_space c = true → Ascii.eqb c backslash = false ∧ Ascii.eqb c nul = false ∧ Ascii.eqb c dquote = false
    ∧ Ascii.eqb c squote = false.
Proof. destruct c as [[] [] [] [] [] [] [] []]; vm_compute; intros; split_and!; congruence. Qed.

Lemma scan_leading pad s : str_forall c_space pad = true → scan LStart false (pad +:+ s) = scan LStart false s.
Proof.
  induction pad as [|c pad IH]; [done|]. cbn [str_forall]. intros [Hc Hp]%andb_true_iff.
  destruct (c_space_plain c Hc) as (H1 & H2 & _). cbn [String.append scan]. rewrite H1, H2, Hc. cbn. by apply IH.
Qed.

Lemma scan_single w rest :
  str_forall word_char w = true → scan LSingle false (w +:+ rest) = w +:+ scan LSingle false rest.
Proof.
  induction w as [|c w IH]; [done|]. cbn [str_forall]. intros [Hc Hw]%andb_true_iff. word_facts c Hc.
  cbn [String.append scan]. rewrite H, H0, H5. cbn. by rewrite IH.
Qed.

(** An option cannot be hidden from the check: whatever the leading white space, the
    backslashes between its letters and the quotes around it, [option_name] reads the
    word that OpenVPN will read, and drops a leading -- and the brackets of an inline
    block from it. *)
Theorem option_name_spelled pad flags c w tail :
  str_forall c_space pad = true → str_forall word_char (String c w) = true →
  starts_in c_space tail = true ∨ tail = "" →
  let word := unbracket (undash (String c w)) in
  option_name (pad +:+ spell flags (String c w) +:+ tail) = word ∧
  option_name (pad +:+ String dquote (spell flags (String c w) +:+ String dquote tail)) = word ∧
  option_name (pad +:+ String squote (String c w +:+ String squote tail)) = word.
Proof.
  intros Hpad Hw Htail word. unfold option_name.
  assert (Hend : scan LPlain false (tail +:+ String nul "") = "").
  { destruct tail as [|t tail]; [done|]. destruct Htail as [Ht|]; [|done]. cbn [starts_in] in Ht.
    destruct (c_space_plain t Ht) as (H1 & H2 & _). cbn [String.append scan]. rewrite H1, H2, Ht. done. }
  split_and!.
  - rewrite !str_app_assoc, scan_leading, scan_spell_start, Hend, str_app_nil_r by done. done.
  - rewrite str_app_assoc, scan_leading by done. cbn [String.append].
    change (scan LStart false (String dquote ?s)) with (scan LDouble false s).
    rewrite str_app_assoc, scan_spell by auto. cbn [String.append].
    change (scan LDouble false (String dquote _)) with "". by rewrite str_app_nil_r.
  - rewrite str_app_assoc, scan_leading by done.
    change (scan LStart false (String squote ?s +:+ ?t)) with (scan LSingle false (s +:+ t)).
    rewrite str_app_assoc, scan_single by done. cbn [String.append].
    change (scan LSingle false (String squote _)) with "". by rewrite str_app_nil_r.
Qed.

Lemma option_name_spelled_witness :
  privileged (option_name (" " +:+ spell [false; true] "--up" +:+ " /tmp/x")) = true.
Proof.
  rewrite (proj1 (option_name_spelled " " [false; true] "-"%char "-up" " /tmp/x" eq_refl eq_refl (or_introl eq_refl))).
  reflexivity.
Defined.

(** ** Sequences of edits *)

(** Whether the first parameter of a line is complete: no quote is left open and no
    backslash at the end. *)
Fixpoint finished (st : lex) (esc : bool) (s : string) : bool :=
  match s with
  | EmptyString => negb esc && match st with LStart | LPlain => true | _ => false end
  | String ch s =>
      let space := Ascii.eqb ch nul || c_space ch in
      if Ascii.eqb ch backslash && negb esc && negb (is_single st) then finished st true s
      else
        match st with
        | LStart =>
            if space then finished LStart false s
            else if Ascii.eqb ch ";"%char || Ascii.eqb ch "#"%char then true
            else if Ascii.eqb ch dquote && negb esc then finished LDouble false s
            else if Ascii.eqb ch squote && negb esc then finished LSingle false s
            else finished LPlain false s
        | _ =>
            if (match st with LPlain => space && negb esc
                            | LDouble => Ascii.eqb ch dquote && negb esc
                            | _ => Ascii.eqb ch squote end)
            then true
            else finished st false s
        end
  end.

Lemma scan_trailing s : ∀ st esc pad,
  finished st esc s = true → str_forall c_space pad = true →
  scan st esc (s +:+ pad +:+ String nul "") = scan st esc (s +:+ String nul "").
Proof.
  induction s as [|ch s IH]; intros st esc pad Hf Hp.
  - cbn [finished] in Hf. apply andb_true_iff in Hf as [He Hst]. apply negb_true_iff in He as ->.
    cbn [String.append]. destruct st; try done.
    + by rewrite scan_leading.
    + destruct pad as [|c pad]; [done|]. cbn [str_forall] in Hp. apply andb_true_iff in Hp as [Hc Hp].
      destruct (c_space_plain c Hc) as (H1 & H2 & _). cbn [String.append scan]. rewrite H1, H2, Hc. done.
  - cbn [finished] in Hf. cbn [String.append scan].
    destruct (Ascii.eqb ch backslash && negb esc && negb (is_single st)); [by apply IH|].
    destruct st; repeat case_match; try done; try (by apply IH); f_equal; by apply IH.
Qed.

Lemma strip_by_spec p s : ∃ pre post,
  s = pre +:+ strip_by p s +:+ post ∧ str_forall p pre = true ∧ str_forall p post = true.
Proof.
  assert (Hr : ∀ t, ∃ post, t = rstrip_by p t +:+ post ∧ str_forall p post = true).
  { induction t as [|c t (post & Ht & Hp)]; [by exists ""|]. cbn [rstrip_by].
    destruct (rstrip_by p t) as [|d u] eqn:E.
    - destruct (p c) eqn:Hc; [|by exists post; rewrite Ht].
      exists (String c t). split; [done|]. cbn [str_forall]. rewrite Hc, Ht. done.
    - exists post. split; [|done]. by rewrite Ht at 1. }
  induction s as [|c s IH]; [by exists "", ""|]. unfold strip_by in *. cbn [lstrip_by].
  destruct (p c) eqn:Hc.
  - destruct IH as (pre & post & Hs & Hpre & Hpost). exists (String c pre), post. split_and!; [|by cbn; rewrite Hc|done].
    cbn [String.append]. by rewrite <- Hs.
  - destruct (Hr (String c s)) as (post & Hs & Hp). by exists "", post.
Qed.

(** The option of a complete line does not depend on the white space around it. *)
Lemma option_name_strip raw :
  finished LStart false (c_strip raw) = true → option_name raw = option_name (c_strip raw).
Proof.
  intros Hf. destruct (strip_by_spec c_space raw) as (pre & post & Hraw & Hpre & Hpost). fold (c_strip raw) in Hraw.
  unfold option_name. rewrite Hraw at 1. rewrite !str_app_assoc, scan_leading, scan_trailing by done. done.
Qed.

(** The lines of a configuration file, as [read_config] gives them. *)
Definition config_lines (path : string) (fs : files) : list string :=
  split lf (universal_newlines (default "" (fs !! path))).

Inductive edits : files → files → Prop :=
| edits_none fs : edits fs fs
| edits_one fs fs' fs'' which content io_ok :
    edits fs fs' → put_config which content io_ok fs' = Ok fs'' → edits fs fs''.

Lemma crlf_to_lf_no_cr s : mem_char cr s = false → crlf_to_lf s = s.
Proof.
  induction s as [|c s IH]; [done|]. unfold mem_char, str_exists in *. cbn [str_forall crlf_to_lf].
  rewrite negb_false_iff, andb_true_iff, negb_true_iff. intros [Hc Hs].
  assert (Ascii.eqb c cr = false) as -> by (by rewrite Ascii.eqb_sym). cbn.
  rewrite IH by (by rewrite Hs). by destruct s.
Qed.

Lemma universal_newlines_no_cr s : mem_char cr s = false → universal_newlines s = s.
Proof.
  intros H. unfold universal_newlines. rewrite crlf_to_lf_no_cr by done.
  induction s as [|c s IH]; [done|]. unfold mem_char, str_exists in *. cbn [str_forall str_map] in *.
  rewrite negb_false_iff, andb_true_iff, negb_true_iff in H. destruct H as [Hc Hs].
  rewrite Ascii.eqb_sym, Hc, IH by (by rewrite Hs). done.
Qed.

Lemma control_no_cr s : str_exists control s = false → mem_char cr s = false.
Proof.
  unfold mem_char, str_exists. rewrite !negb_false_iff. induction s as [|c s IH]; [done|]. cbn [str_forall].
  rewrite !andb_true_iff. intros [Hc Hs]. split; [|by apply IH]. apply negb_true_iff in Hc.
  apply negb_true_iff, Ascii.eqb_neq. intros <-. by vm_compute in Hc.
Qed.

Lemma check_lines_each which known raws : ∀ n,
  check_lines which known n raws = Ok tt → ∀ raw, raw ∈ raws → ∃ m, check_line which known m raw = Ok tt.
Proof.
  induction raws as [|r raws IH]; intros n; cbn [check_lines]; [set_solver|].
  intros H raw [->|Hin]%elem_of_cons; inv_result; [destruct a; eauto|by eapply IH].
Qed.

(** The written file has the lines that were checked, and perhaps a last empty one. *)
Lemma put_config_lines which content io_ok fs fs' path :
  config_path which fs = Ok path → put_config which content io_ok fs = Ok fs' →
  (∃ known, known_lines which fs = Ok known ∧
     ∀ l, l ∈ config_lines path fs' → l = "" ∨ ∃ n, check_line which known n l = Ok tt) ∧
  (∀ p, p ≠ path → p ≠ path +:+ ".bak" → fs' !! p = fs !! p).
Proof.
  intros Hpath. unfold put_config, check_edit, write_config. intros H. inv_result.
  destruct a. rename E5 into Hk, E into Hchk, E1 into Hctl. clear E2 E3.
  set (text := crlf_to_lf content) in *.
  set (new := if endswith lf_text text then text else text +:+ lf_text) in *.
  assert (Hnocr : mem_char cr text = false) by (by apply control_no_cr).
  assert (Hnew : mem_char cr new = false).
  { unfold new. destruct (endswith _ _); [done|]. unfold mem_char, str_exists in *.
    rewrite str_forall_app. apply negb_false_iff in Hnocr. by rewrite Hnocr. }
  split.
  - exists a4. split; [done|]. intros l. unfold config_lines. rewrite lookup_insert_eq. simpl default.
    rewrite universal_newlines_no_cr by done. unfold new.
    assert (Hin : l ∈ split lf text → l = "" ∨ ∃ n, check_line which a4 n l = Ok tt).
    { intros Hl. right. by eapply check_lines_each. }
    destruct (endswith _ _); [done|]. unfold lf_text. rewrite split_app_sep.
    intros [Hl|Hl]%elem_of_app; [by apply Hin|]. left. by apply list_elem_of_singleton in Hl.
  - intros p Hp Hb. rewrite lookup_insert_ne by done. destruct (fs !! path); [|done]. by rewrite lookup_insert_ne.
Qed.

(** Different files have different paths, and no path is a backup's. *)
Lemma config_path_cases which fs p :
  config_path which fs = Ok p →
  (which = "server" ∧ p = "server.conf") ∨ (which = "client" ∧ p = "config/client.conf")
  ∨ (which = "vars" ∧ (p = "pki/vars" ∨ p = vars_template)).
Proof.
  unfold config_path, CONFIG_FILES. cbn [find fst].
  destruct (String.eqb_spec "server" which) as [<-|]; [intros [= <-]; auto|].
  destruct (String.eqb_spec "client" which) as [<-|]; [intros [= <-]; auto|].
  destruct (String.eqb_spec "vars" which) as [<-|]; [|done]. cbn.
  case_bool_decide; intros [= <-]; auto 10.
Qed.

(** What [write_config] leaves: the text with a final line feed, the old text beside it, and every
    other file as it was. *)
Lemma write_config_spec which path content io_ok fs fs' :
  mem_char cr content = false → config_path which fs = Ok path → write_config which content io_ok fs = Ok fs' →
  fs' !! path = Some (if endswith lf_text content then content else content +:+ lf_text) ∧
  (∀ old, fs !! path = Some old → fs' !! (path +:+ ".bak") = Some (universal_newlines old)) ∧
  ∀ f, f ≠ path → f ≠ path +:+ ".bak" → fs' !! f = fs !! f.
Proof.
  intros Hcr Hp. unfold write_config. rewrite Hp, crlf_to_lf_no_cr by done. intros H. inv_result.
  assert (Hne : path ≠ path +:+ ".bak").
  { intros He%(f_equal String.length). rewrite str_length_app in He. cbn in He. lia. }
  split_and!.
  - by rewrite lookup_insert_eq.
  - intros old ->. rewrite lookup_insert_ne by done. by rewrite lookup_insert_eq.
  - intros f H1 H2. rewrite lookup_insert_ne by done. destruct (fs !! path); [by rewrite lookup_insert_ne|done].
Qed.

(** ** The lines OpenVPN reads

    OpenVPN reads at most [MAX_LINE] bytes as one line and takes the rest as a line of
    its own (the comment at [MAX_LINE] in the source). *)

Fixpoint pieces (fuel : nat) (line : string) : list string :=
  match fuel with
  | O => [line]
  | S fuel =>
      if strlen line <=? MAX_LINE then [line]
      else str_take 255 line :: pieces fuel (str_drop 255 line)
  end.

(** What OpenVPN reads of a line of the file: its bytes, cut at [MAX_LINE]. *)
Definition openvpn_reads (line : string) : list string := pieces (String.length (utf8 line)) (utf8 line).
Definition openvpn_lines (path : string) (fs : files) : list string := mjoin (openvpn_reads <$> config_lines path fs).

(** White space around a text that fits in one line makes the line longer than one. *)
Definition padded (line : string) : bool := (MAX_LINE <? utf8_len line) && (utf8_len (c_strip line) <=? MAX_LINE).

Lemma utf8_len_app s t : utf8_len (s +:+ t) = utf8_len s + utf8_len t.
Proof. induction s as [|c s IH]; [done|]. cbn [String.append utf8_len]. rewrite IH. lia. Qed.
Lemma utf8_len_nonneg s : 0 <= utf8_len s.
Proof. induction s as [|c s IH]; [done|]. cbn [utf8_len]. case_match; lia. Qed.
Lemma strlen_utf8 s : strlen (utf8 s) = utf8_len s.
Proof.
  unfold strlen. induction s as [|c s IH]; [done|]. cbn [utf8 utf8_len]. rewrite <- IH.
  case_match; cbn [String.length]; lia.
Qed.

Lemma utf8_len_strip s : utf8_len (c_strip s) <= utf8_len s.
Proof.
  destruct (strip_by_spec c_space s) as (pre & post & Hs & _). fold (c_strip s) in Hs. rewrite Hs at 2.
  rewrite !utf8_len_app. pose proof (utf8_len_nonneg pre). pose proof (utf8_len_nonneg post). lia.
Qed.

(** The characters the scanner and [strip] look for. *)
Definition syntax (c : ascii) : bool :=
  c_space c || Ascii.eqb c nul || Ascii.eqb c backslash || Ascii.eqb c dquote || Ascii.eqb c squote
  || Ascii.eqb c ";" || Ascii.eqb c "#".

(** A character beyond ASCII and the two bytes it is written as are none of them. *)
Lemma utf8_char c :
  (code c <? 128) = true ∨
  ((code c <? 128) = false ∧ syntax c = false ∧ syntax (chr (192 + code c / 64)) = false ∧
   syntax (chr (128 + code c mod 64)) = false ∧ (code (chr (192 + code c / 64)) <? 128) = false).
Proof. destruct c as [[] [] [] [] [] [] [] []]; vm_compute; auto 10. Qed.

Lemma syntax_not c :
  syntax c = false →
  c_space c = false ∧ Ascii.eqb c nul = false ∧ Ascii.eqb c backslash = false ∧ Ascii.eqb c dquote = false
  ∧ Ascii.eqb c squote = false ∧ Ascii.eqb c ";" = false ∧ Ascii.eqb c "#" = false.
Proof. unfold syntax. rewrite !orb_false_iff. tauto. Qed.

(** One step of the scanner over a character it does not look for. *)
Definition in_word (st : lex) : lex := match st with LStart => LPlain | _ => st end.
Lemma scan_other st esc c s : syntax c = false → scan st esc (String c s) = String c (scan (in_word st) false s).
Proof. intros (H1 & H2 & H3 & H4 & H5 & H6 & H7)%syntax_not. cbn [scan]. rewrite H1, H2, H3, H4, H5, H6, H7. by destruct st. Qed.
Lemma finished_other st esc c s : syntax c = false → finished st esc (String c s) = finished (in_word st) false s.
Proof. intros (H1 & H2 & H3 & H4 & H5 & H6 & H7)%syntax_not. cbn [finished]. rewrite H1, H2, H3, H4, H5, H6, H7. by destruct st. Qed.

Lemma scan_utf8 s : ∀ st esc, scan st esc (utf8 s) = utf8 (scan st esc s).
Proof.
  induction s as [|c s IH]; intros st esc; [done|]. cbn [utf8].
  destruct (utf8_char c) as [Hc|(Hc & H0 & H1 & H2 & _)]; rewrite Hc.
  - cbn [scan]. repeat (case_match; try done); cbn [utf8]; rewrite ?Hc; f_equal; apply IH.
  - rewrite !scan_other by done. cbn [utf8]. rewrite Hc, IH. by destruct st.
Qed.

Lemma finished_utf8 s : ∀ st esc, finished st esc (utf8 s) = finished st esc s.
Proof.
  induction s as [|c s IH]; intros st esc; [done|]. cbn [utf8].
  destruct (utf8_char c) as [Hc|(Hc & H0 & H1 & H2 & _)]; rewrite Hc.
  - cbn [finished]. repeat (case_match; try done); apply IH.
  - rewrite !finished_other by done. rewrite IH. by destruct st.
Qed.

Lemma utf8_app s t : utf8 (s +:+ t) = utf8 s +:+ utf8 t.
Proof. induction s as [|c s IH]; [done|]. cbn [String.append utf8]. rewrite IH. by case_match. Qed.

Lemma utf8_empty s : utf8 s = "" → s = "".
Proof. destruct s; [done|]. cbn [utf8]. by case_match. Qed.

Lemma rstrip_utf8 s : rstrip_by c_space (utf8 s) = utf8 (rstrip_by c_space s).
Proof.
  induction s as [|c s IH]; [done|]. cbn [utf8 rstrip_by].
  destruct (utf8_char c) as [Hc|(Hc & H0 & H1 & H2 & _)]; rewrite Hc; cbn [rstrip_by]; rewrite IH.
  - destruct (rstrip_by c_space s) as [|d t] eqn:E; [cbn; destruct (c_space c); cbn [utf8]; by rewrite ?Hc|].
    destruct (utf8 (String d t)) eqn:Hu; [by apply utf8_empty in Hu|]. cbn [utf8] in *. by rewrite Hc, Hu.
  - apply syntax_not in H0 as [H0 _], H1 as [H1 _], H2 as [H2 _]. rewrite H0, H1, H2.
    destruct (rstrip_by c_space s) as [|d t] eqn:E; [cbn [utf8]; by rewrite Hc|].
    destruct (utf8 (String d t)) eqn:Hu; [by apply utf8_empty in Hu|]. cbn [utf8] in *. by rewrite Hc, Hu.
Qed.

Lemma c_strip_utf8 s : c_strip (utf8 s) = utf8 (c_strip s).
Proof.
  unfold c_strip, strip_by. rewrite <- rstrip_utf8. f_equal. induction s as [|c s IH]; [done|]. cbn [utf8 lstrip_by].
  destruct (utf8_char c) as [Hc|(Hc & H0 & H1 & _)]; rewrite Hc; cbn [lstrip_by].
  - destruct (c_space c); [done|]. cbn [utf8]. by rewrite Hc.
  - apply syntax_not in H0 as [H0 _], H1 as [H1 _]. rewrite H0, H1. cbn [utf8]. by rewrite Hc.
Qed.

(** The bytes spell a privileged option only where the characters do. *)
Definition ascii_text : string → bool := str_forall (fun c => code c <? 128).

Lemma utf8_ascii s : ascii_text (utf8 s) = true → utf8 s = s.
Proof.
  unfold ascii_text. induction s as [|c s IH]; [done|]. cbn [utf8].
  destruct (utf8_char c) as [Hc|(Hc & _ & _ & _ & H)]; rewrite Hc; cbn [str_forall]; rewrite ?H; [|done].
  rewrite Hc. intros Hs. by rewrite IH.
Qed.

Lemma privileged_ascii w : privileged w = true → ascii_text w = true.
Proof.
  intros (k & Hin & Heq%String.eqb_eq)%existsb_exists. subst k.
  assert (Hall : forallb ascii_text PRIVILEGED = true) by (vm_compute; reflexivity).
  exact (proj1 (forallb_forall _ _) Hall w Hin).
Qed.

Lemma str_take_length w t : str_take (String.length w) (w +:+ t) = w.
Proof. induction w as [|c w IH]; [by destruct t|]. cbn [String.append String.length str_take]. by rewrite IH. Qed.

Lemma ascii_undash w : ascii_text (undash w) = true → ascii_text w = true.
Proof.
  unfold undash, ascii_text. destruct (3 <=? strlen w); [|done]. destruct (startswith "--" w) eqn:Hs; [|done].
  apply startswith_iff in Hs as [t ->]. by cbn.
Qed.

Lemma ascii_unbracket w : ascii_text (unbracket w) = true → ascii_text w = true.
Proof.
  unfold unbracket, ascii_text. destruct (startswith "<" w) eqn:Hs; [|done]. destruct (endswith ">" w) eqn:He; [|done].
  apply startswith_iff in Hs as [t ->]. apply endswith_char in He as [[|a u] Hu]; [by injection Hu as [=]|].
  injection Hu as <- ->. cbn [String.append andb String.length str_drop str_forall].
  rewrite str_length_app. replace (S (String.length u + String.length ">") - 2)%nat with (String.length u) by (cbn; lia).
  rewrite str_take_length, str_forall_app. intros ->. done.
Qed.

Lemma privileged_utf8 s : privileged (option_name (utf8 s)) = true → privileged (option_name s) = true.
Proof.
  unfold option_name. change (String nul "") with (utf8 (String nul "")) at 1. rewrite <- utf8_app, scan_utf8. intros H.
  by rewrite utf8_ascii in H by (by apply ascii_undash, ascii_unbracket, privileged_ascii).
Qed.

(** A line that an edit may leave: it was there before, or it fits in one line that OpenVPN reads and
    sets no privileged option. *)
Definition harmless (line : string) : Prop :=
  utf8_len (c_strip line) <= MAX_LINE ∧
  (finished LStart false (c_strip line) = true → privileged (option_name (c_strip line)) = false).

Lemma check_line_harmless which known n raw :
  which ≠ "vars" → check_line which known n raw = Ok tt → c_strip raw ∈ known ∨ harmless raw ∧ padded raw = false.
Proof.
  intros Hw%String.eqb_neq. unfold check_line. rewrite Hw. destruct (existsb _ _) eqn:Hex.
  - apply existsb_exists in Hex as (k & Hin & ->%String.eqb_eq). left. by apply list_elem_of_In.
  - destruct (Z.ltb_spec MAX_LINE (utf8_len raw)); [done|]. intros H'. inv_result. right.
    split; [split; [pose proof (utf8_len_strip raw); lia|intros Hf; by rewrite <- option_name_strip]|].
    unfold padded. apply andb_false_iff. left. by apply Z.ltb_ge.
Qed.

(** A text that stood in the file, on a line without so much white space around it, after the first
    of the edits. *)
Definition stood_unpadded (path text : string) (fs fs' : files) : Prop :=
  ∃ fs1 l, edits fs fs1 ∧ edits fs1 fs' ∧ l ∈ config_lines path fs1 ∧ c_strip l = text ∧ padded l = false.

Lemma edits_lines which path fs fs' line :
  (which = "server" ∧ path = "server.conf") ∨ (which = "client" ∧ path = "config/client.conf") →
  edits fs fs' → line ∈ config_lines path fs' →
  c_strip line ∈ (c_strip <$> config_lines path fs) ++ TFA_LINES ∨
  harmless line ∧ (padded line = true → stood_unpadded path (c_strip line) fs fs').
Proof.
  intros Hw He. assert (Hpath : ∀ fs, config_path which fs = Ok path) by (by intros fs0; destruct Hw as [[-> ->]|[-> ->]]).
  revert line. induction He as [fs|fs fs1 fs2 which' content io_ok He IH Hput]; intros line Hin.
  { left. apply elem_of_app. left. apply list_elem_of_fmap. eauto. }
  assert (Hlater : ∀ text, stood_unpadded path text fs fs1 → stood_unpadded path text fs fs2).
  { intros text (f & l & ? & ? & ?). exists f, l. split_and!; [done|by eapply edits_one|naive_solver..]. }
  destruct (decide (which' = which)) as [->|Hne].
  - destruct (put_config_lines _ _ _ _ _ _ (Hpath fs1) Hput) as [(known & Hk & Hlines) _].
    unfold known_lines, read_config in Hk. rewrite Hpath in Hk. cbn in Hk. inv_result.
    destruct (Hlines line Hin) as [->|[n Hc]]; [by right|].
    apply check_line_harmless in Hc as [Hin'|[Hh Hu]]; [|right; split; [done|congruence]|by destruct Hw as [[-> _]|[-> _]]].
    apply elem_of_app in Hin' as [Hin'|Hin']; [|left; apply elem_of_app; by right].
    apply list_elem_of_fmap in Hin' as (l & Hl & Hin'). unfold harmless. rewrite Hl.
    destruct (IH l Hin') as [|[Hh Hs]]; [by left|]. right. split; [done|]. intros _.
    destruct (padded l) eqn:Hpl; [by apply Hlater, Hs|].
    exists fs1, l. split_and!; [done|eapply edits_one; [constructor|done]|done..].
  - assert (Hsame : fs2 !! path = fs1 !! path).
    { unfold put_config in Hput. inv_result. destruct (config_path which' fs1) as [p'|] eqn:Hp';
        [|unfold write_config in Hput; by rewrite Hp' in Hput].
      assert (Hput' : put_config which' content io_ok fs1 = Ok fs2) by (unfold put_config; by rewrite E).
      destruct (put_config_lines _ _ _ _ _ _ Hp' Hput') as [_ Ho].
      apply config_path_cases in Hp' as [[-> ->]|[[-> ->]|[-> [->| ->]]]];
        destruct Hw as [[-> ->]|[-> ->]]; first [done | by apply Ho]. }
    destruct (IH line) as [|[? Hs]]; [unfold config_lines in *; by rewrite <- Hsame|by left|right].
    split; [done|]. intros Hpl. by apply Hlater, Hs.
Qed.

(** C2. The configuration editor never brings in a privileged option: after any sequence of edits it
    accepted of any of the files, take every line OpenVPN reads of server.conf or of the client
    template, where a line of more than 255 bytes is read in pieces. One that names a program to run,
    code to load or a file to write, and is complete (its white space aside, no quote is left open
    around its first parameter and no backslash ends it), comes from a line that, but for the white
    space around it, was a line of the file the administrator set up or is one of the two lines of the
    second-factor switch. The one exception, which is real ([padded_comment_runs_option]), is a piece of
    a line whose text fits in 255 bytes and stood in the file after an earlier edit, and that a later
    edit padded with white space beyond 255 bytes. *)
Theorem edits_keep_privileges which path fs fs' line piece :
  (which = "server" ∧ path = "server.conf") ∨ (which = "client" ∧ path = "config/client.conf") →
  edits fs fs' → line ∈ config_lines path fs' → piece ∈ openvpn_reads line →
  finished LStart false (c_strip piece) = true → privileged (option_name piece) = true →
  c_strip line ∈ (c_strip <$> config_lines path fs) ++ TFA_LINES ∨
  padded line = true ∧ stood_unpadded path (c_strip line) fs fs'.
Proof.
  intros Hw He Hin Hpiece Hf Hp.
  destruct (edits_lines _ _ _ _ _ Hw He Hin) as [|[[Hlen Hh] Hs]]; [by left|right].
  cut (padded line = true); [by eauto|].
  unfold padded. apply andb_true_iff. split; [|lia]. apply Z.ltb_lt, Z.nle_gt. intros Hle.
  assert (piece = utf8 line) as ->.
  { unfold openvpn_reads in Hpiece. rewrite <- strlen_utf8 in Hle. apply Z.leb_le in Hle.
    destruct (String.length (utf8 line)); cbn [pieces] in Hpiece; [|rewrite Hle in Hpiece];
      by apply list_elem_of_singleton in Hpiece. }
  rewrite c_strip_utf8, finished_utf8 in Hf. apply privileged_utf8 in Hp.
  rewrite option_name_strip in Hp by done. rewrite Hh in Hp; [done..].
Qed.

Definition sample_conf : string := "management 127.0.0.1 2080" +:+ lf_text +:+ "up /opt/up.sh" +:+ lf_text.
Definition sample_files : files := {["server.conf" := sample_conf]}.
Definition sample_edit : string := "management 127.0.0.1 2080" +:+ lf_text +:+ "  up /opt/up.sh" +:+ lf_text +:+ "verb 3".

Definition edited (fs : files) (content : string) : files :=
  match put_config "server" content true fs with Ok fs' => fs' | Raise _ => fs end.

Lemma edits_keep_privileges_witness :
  "up /opt/up.sh" ∈ (c_strip <$> config_lines "server.conf" sample_files) ++ TFA_LINES ∨
  padded "  up /opt/up.sh" = true ∧
  stood_unpadded "server.conf" "up /opt/up.sh" sample_files (edited sample_files sample_edit).
Proof.
  apply (edits_keep_privileges "server" "server.conf" sample_files (edited sample_files sample_edit) "  up /opt/up.sh" "  up /opt/up.sh").
  - left. split; reflexivity.
  - apply (edits_one _ _ _ "server" sample_edit true (edits_none _)). vm_compute. reflexivity.
  - vm_compute. do 2 constructor.
  - vm_compute. constructor.
  - reflexivity.
  - reflexivity.
Defined.

(** ** Padded comments *)

Fixpoint spaces (n : nat) : string := match n with O => "" | S n => String " " (spaces n) end.

Definition plain_conf : string := "management 127.0.0.1 2080" +:+ lf_text.
Definition plain_files : files := {["server.conf" := plain_conf]}.
(** First a harmless comment, then the same comment moved to the right by 254 spaces. *)
Definition first_edit : string := plain_conf +:+ "#up /tmp/x".
Definition second_edit : string := plain_conf +:+ spaces 254 +:+ "#up /tmp/x".

(** The length check can be passed by: a line that equals a known one after stripping is
    accepted before its length is looked at, so a comment saved in a first edit can be
    padded in a second one until the option in it starts at byte 256, which OpenVPN
    reads as a line of its own. Both edits are accepted, no line OpenVPN read before them set
    the option, and one it reads after them does. *)
Theorem padded_comment_runs_option :
  put_config "server" first_edit true plain_files = Ok (edited plain_files first_edit) ∧
  put_config "server" second_edit true (edited plain_files first_edit)
    = Ok (edited (edited plain_files first_edit) second_edit) ∧
  forallb (fun l => negb (privileged (option_name l))) (openvpn_lines "server.conf" plain_files) = true ∧
  existsb (fun l => privileged (option_name l)) (openvpn_lines "server.conf" (edited (edited plain_files first_edit) second_edit)) = true.
Proof. split_and!; vm_compute; reflexivity. Qed.

(** ** Line ends the check does not see

    [check_edit] splits at line feeds and lets U+0085 pass; [splitlines], with which the
    second-factor switch and the public endpoint rewrite the files, ends a line there. *)
Definition nel_edit : string := plain_conf +:+ "#" +:+ String (chr 133) "up /tmp/x".
Definition nel_files : files := edited plain_files nel_edit.

(** A comment can become an option: an accepted edit puts the option behind a U+0085 in a comment,
    where no line sets it, and turning the second factor on afterwards writes it as a line of its
    own. *)
Theorem nel_comment_becomes_option :
  put_config "server" nel_edit true plain_files = Ok nel_files ∧
  forallb (fun l => negb (privileged (option_name l))) (config_lines "server.conf" nel_files) = true ∧
  ∃ fs, set_tfa_enforced true true nel_files = Ok fs ∧ "up /tmp/x" ∈ config_lines "server.conf" fs.
Proof.
  split_and!; [vm_compute; reflexivity..|].
  destruct (set_tfa_enforced true true nel_files) as [fs|] eqn:E; [|vm_compute in E; discriminate E].
  exists fs. split; [done|]. vm_compute in E. injection E as <-. vm_compute. do 2 right. left.
Qed.
