(* ===== verification/Ipv4.v ===== *)
(** * IPv4 addresses and networks: the part of Python's [ipaddress] the sources use

    An address is an integer below 2^32; [None] stands for the ValueError of the
    constructors. *)

From S2P Require Import Prelude PyStr.

Open Scope string_scope.
Open Scope list_scope.
Open Scope Z_scope.

Definition ALL_ONES : Z := 2 ^ 32 - 1.

(** ** Addresses *)

(** [_parse_octet]: one to three ASCII digits, no leading zero, at most 255. *)
Definition parse_octet (s : string) : option Z :=
  if negb (empty s) && str_forall is_decimal s && (strlen s <=? 3)
     && negb (negb (String.eqb s "0") && startswith "0" s)
  then match unsigned_int s with Some n => if n <=? 255 then Some n else None | None => None end
  else None.

(** [IPv4Address(s)]. *)
Definition parse_ip (s : string) : option Z :=
  match split "."%char s with
  | [a; b; c; d] =>
      a ← parse_octet a; b ← parse_octet b; c ← parse_octet c; d ← parse_octet d;
      Some (a * 2 ^ 24 + b * 2 ^ 16 + c * 2 ^ 8 + d)
  | _ => None
  end.

(** [str(IPv4Address(n))]. *)
Definition octet (n i : Z) : Z := (n / 2 ^ (8 * i)) mod 256.
Definition print_ip (n : Z) : string :=
  join "." [nat_str (octet n 3); nat_str (octet n 2); nat_str (octet n 1); nat_str (octet n 0)].

(** ** Networks *)

Record network := Network { net_addr : Z; net_prefix : Z }.

Definition netmask (p : Z) : Z := 2 ^ 32 - 2 ^ (32 - p).
Definition net_mask (n : network) : Z := netmask (net_prefix n).
Definition broadcast (n : network) : Z := net_addr n + 2 ^ (32 - net_prefix n) - 1.

(** [_prefix_from_prefix_string]: ASCII digits, at most 32. *)
Definition parse_prefix (s : string) : option Z :=
  if negb (empty s) && str_forall is_decimal s then
    match unsigned_int s with Some n => if n <=? 32 then Some n else None | None => None end
  else None.

(** The number of zero bits on the right, at most 32. *)
Fixpoint right_zeros (fuel : nat) (n : Z) : Z :=
  match fuel with
  | O => 0
  | S fuel => if n mod 2 =? 0 then 1 + right_zeros fuel (n / 2) else 0
  end.
Definition prefix_of_mask (n : Z) : option Z :=
  let z := right_zeros 32 n in
  if n / 2 ^ z =? 2 ^ (32 - z) - 1 then Some (32 - z) else None.

(** [_make_netmask]: a prefix length, a netmask or a host mask. *)
Definition parse_mask (s : string) : option Z :=
  match parse_prefix s with
  | Some p => Some p
  | None =>
      n ← parse_ip s;
      match prefix_of_mask n with
      | Some p => Some p
      | None => prefix_of_mask (Z.lxor n ALL_ONES)
      end
  end.

(** [IPv4Network(s, strict)]. *)
Definition make_network (strict : bool) (addr p : Z) : option network :=
  let base := Z.land addr (netmask p) in
  if strict && negb (base =? addr) then None else Some (Network base p).

Definition parse_network (strict : bool) (s : string) : option network :=
  match split "/"%char s with
  | [a] => a ← parse_ip a; make_network strict a 32
  | [a; m] => a ← parse_ip a; p ← parse_mask m; make_network strict a p
  | _ => None
  end.

Definition print_network (n : network) : string := print_ip (net_addr n) +:+ "/" +:+ nat_str (net_prefix n).

(** [addr in net]. *)
Definition in_network (addr : Z) (n : network) : bool := Z.land addr (net_mask n) =? net_addr n.

(** [a.subnet_of(b)]. *)
Definition subnet_of (a b : network) : bool := (net_addr b <=? net_addr a) && (broadcast a <=? broadcast b).

(** Properties of an address. *)
Definition is_loopback (a : Z) : bool := octet a 3 =? 127.
Definition is_link_local (a : Z) : bool := (octet a 3 =? 169) && (octet a 2 =? 254).
Definition is_multicast (a : Z) : bool := (224 <=? octet a 3) && (octet a 3 <=? 239).
Definition is_reserved (a : Z) : bool := 240 <=? octet a 3.

(** ** Lemmas *)

Lemma octet_bounds n i : 0 <= octet n i < 256.
Proof. unfold octet. apply Z.mod_pos_bound. lia. Qed.

Lemma dec_digits_len fuel n acc :
  0 <= n → (Z.to_nat (Z.log2 n) < fuel)%nat → n < 1000 →
  (String.length (dec_digits fuel n acc) <= 3 + String.length acc)%nat.
Proof.
  intros Hn Hf H. destruct fuel as [|fuel]; [lia|]. cbn [dec_digits].
  destruct (Z.eqb_spec (n / 10) 0) as [?|H1]; [simpl; lia|].
  destruct fuel as [|fuel]; [simpl; lia|]. cbn [dec_digits].
  destruct (Z.eqb_spec (n / 10 / 10) 0) as [?|H2]; [simpl; lia|].
  destruct fuel as [|fuel]; [simpl; lia|]. cbn [dec_digits].
  destruct (Z.eqb_spec (n / 10 / 10 / 10) 0) as [?|H3]; [simpl; lia|].
  exfalso. apply H3. rewrite !Z.div_div by lia. apply Z.div_small. lia.
Qed.

(** A printed number has no leading zero. *)
Lemma dec_digits_first fuel n acc :
  0 < n → (Z.to_nat (Z.log2 n) < fuel)%nat → startswith "0" (dec_digits fuel n acc) = false.
Proof.
  revert n acc. induction fuel as [|fuel IH]; intros n acc Hn Hf; [lia|]. cbn [dec_digits].
  destruct (Z.eqb_spec (n / 10) 0) as [Hz|Hz].
  - assert (n mod 10 = n) as -> by (apply Z.mod_small; apply Z.div_small_iff in Hz; lia).
    assert (n < 10) by (apply Z.div_small_iff in Hz; lia).
    cbn [startswith]. destruct (Ascii.eqb_spec "0" (chr (48 + n))) as [He|]; [|done].
    apply (f_equal code) in He. rewrite code_chr in He by lia. change (code "0") with 48 in He. lia.
  - apply IH.
    + assert (0 <= n / 10) by (apply Z.div_pos; lia). lia.
    + pose proof (Z.log2_nonneg (n / 10)). assert (Hl : Z.log2 (n / 10) < Z.log2 n); [|lia].
      assert (0 < n / 10) by (assert (0 <= n / 10) by (apply Z.div_pos; lia); lia).
      pose proof (Z.mul_div_le n 10 ltac:(lia)). assert (n / 10 * 2 <= n) by lia.
      assert (Hm : Z.log2 (n / 10 * 2) <= Z.log2 n) by (apply Z.log2_le_mono; lia).
      rewrite (Z.mul_comm _ 2), Z.log2_double in Hm by lia. lia.
Qed.

Lemma parse_octet_print n : 0 <= n < 256 → parse_octet (nat_str n) = Some n.
Proof.
  intros Hn. unfold parse_octet. rewrite (nat_str_decimal n), unsigned_int_nat_str by lia.
  assert (empty (nat_str n) = false) as ->.
  { unfold empty. apply String.eqb_neq. apply nat_str_nonempty. lia. }
  assert (strlen (nat_str n) <=? 3 = true) as ->.
  { apply Z.leb_le. unfold strlen, nat_str. pose proof (dec_digits_len (S (Z.to_nat (Z.log2 n))) n "" ltac:(lia) ltac:(lia) ltac:(lia)).
    simpl in *. lia. }
  assert (negb (String.eqb (nat_str n) "0") && startswith "0" (nat_str n) = false) as ->.
  { destruct (decide (n = 0)) as [->|]; [done|]. rewrite andb_comm. unfold nat_str.
    by rewrite dec_digits_first by lia. }
  cbn. rewrite (proj2 (Z.leb_le n 255)) by lia. done.
Qed.

Lemma no_dot n : 0 <= n → mem_char "." (nat_str n) = false.
Proof.
  intros Hn. pose proof (nat_str_decimal n Hn) as H. revert H. unfold mem_char, str_exists.
  induction (nat_str n) as [|c s IH]; [done|]. cbn [str_forall]. intros [Hc Hs]%andb_true_iff.
  destruct (Ascii.eqb_spec "." c) as [<-|]; [done|]. cbn. by apply IH.
Qed.

Lemma octets_sum n : 0 <= n < 2 ^ 32 → octet n 3 * 2 ^ 24 + octet n 2 * 2 ^ 16 + octet n 1 * 2 ^ 8 + octet n 0 = n.
Proof.
  intros Hn. unfold octet.
  change (2 ^ (8 * 3)) with (256 * 256 * 256). change (2 ^ (8 * 2)) with (256 * 256). change (2 ^ (8 * 1)) with 256.
  change (2 ^ (8 * 0)) with 1. rewrite Z.div_1_r. rewrite <- !Z.div_div by lia.
  pose proof (Z.div_mod n 256 ltac:(lia)). pose proof (Z.div_mod (n / 256) 256 ltac:(lia)).
  pose proof (Z.div_mod (n / 256 / 256) 256 ltac:(lia)).
  assert (0 <= n / 256 / 256 / 256 < 256).
  { rewrite !Z.div_div by lia. split; [apply Z.div_pos; lia|]. apply Z.div_lt_upper_bound; lia. }
  rewrite (Z.mod_small (n / 256 / 256 / 256) 256) by lia. lia.
Qed.

Lemma parse_print_ip n : 0 <= n < 2 ^ 32 → parse_ip (print_ip n) = Some n.
Proof.
  intros Hn. unfold parse_ip, print_ip. rewrite split_join; [|done|].
  - rewrite !parse_octet_print by apply octet_bounds. cbn. f_equal. by apply octets_sum.
  - repeat constructor; apply no_dot; apply octet_bounds.
Qed.

(** ** The text of an address is canonical *)

Definition octet_ok (s : string) : bool :=
  match parse_octet s with Some n => String.eqb (nat_str n) s && (0 <=? n) && (n <=? 255) | None => true end.

Definition digits : list ascii := ["0"; "1"; "2"; "3"; "4"; "5"; "6"; "7"; "8"; "9"]%char.

Lemma decimal_digits c : is_decimal c = true → In c digits.
Proof. destruct c as [[] [] [] [] [] [] [] []]; vm_compute; intros; try discriminate; tauto. Qed.

(** All texts of at most three digits. *)
Lemma octets_checked :
  forallb (fun a => octet_ok (String a "")
    && forallb (fun b => octet_ok (String a (String b ""))
      && forallb (fun c => octet_ok (String a (String b (String c "")))) digits) digits) digits = true.
Proof. vm_compute. reflexivity. Qed.

Lemma parse_octet_canonical s n : parse_octet s = Some n → nat_str n = s ∧ 0 <= n < 256.
Proof.
  intros Hp. assert (Hok : octet_ok s = true).
  { pose proof octets_checked as Hall. unfold parse_octet in Hp.
    destruct (negb (empty s) && str_forall is_decimal s && (strlen s <=? 3) && _) eqn:E; [|done]. bool_to_prop.
    destruct s as [|a s]; [done|]. cbn [str_forall] in *. bool_to_prop.
    rewrite forallb_forall in Hall. specialize (Hall a (decimal_digits a ltac:(done))).
    apply andb_true_iff in Hall as [Ha Hall]. destruct s as [|b s]; [done|]. cbn [str_forall] in *. bool_to_prop.
    rewrite forallb_forall in Hall. specialize (Hall b (decimal_digits b ltac:(done))).
    apply andb_true_iff in Hall as [Hb Hall]. destruct s as [|c s]; [done|]. cbn [str_forall] in *. bool_to_prop.
    rewrite forallb_forall in Hall. specialize (Hall c (decimal_digits c ltac:(done))).
    destruct s as [|d s]; [done|]. exfalso. unfold strlen in *. cbn [String.length] in *. lia. }
  unfold octet_ok in Hok. rewrite Hp in Hok. bool_to_prop. split; [done|lia].
Qed.

Lemma octets_of a b c d :
  0 <= a < 256 → 0 <= b < 256 → 0 <= c < 256 → 0 <= d < 256 →
  let n := a * 2 ^ 24 + b * 2 ^ 16 + c * 2 ^ 8 + d in
  octet n 3 = a ∧ octet n 2 = b ∧ octet n 1 = c ∧ octet n 0 = d ∧ 0 <= n < 2 ^ 32.
Proof.
  intros Ha Hb Hc Hd n. unfold octet, n.
  change (2 ^ (8 * 3)) with (256 * 256 * 256). change (2 ^ (8 * 2)) with (256 * 256). change (2 ^ (8 * 1)) with 256.
  change (2 ^ (8 * 0)) with 1. change (2 ^ 24) with (256 * 256 * 256). change (2 ^ 16) with (256 * 256).
  change (2 ^ 8) with 256. change (2 ^ 32) with (256 * 256 * 256 * 256). rewrite Z.div_1_r.
  rewrite <- !Z.div_div by lia.
  assert (E1 : (a * (256 * 256 * 256) + b * (256 * 256) + c * 256 + d) / 256 = a * (256 * 256) + b * 256 + c).
  { symmetry. apply Z.div_unique with d; lia. }
  assert (E2 : (a * (256 * 256) + b * 256 + c) / 256 = a * 256 + b) by (symmetry; apply Z.div_unique with c; lia).
  assert (E3 : (a * 256 + b) / 256 = a) by (symmetry; apply Z.div_unique with b; lia).
  rewrite E1, E2, E3. split_and!; [apply Z.mod_small; lia| | | |lia|lia].
  - symmetry. apply Z.mod_unique with a; lia.
  - symmetry. apply Z.mod_unique with (a * 256 + b); lia.
  - symmetry. apply Z.mod_unique with (a * (256 * 256) + b * 256 + c); lia.
Qed.

(** An address has one text: what is read prints as it was written. *)
Lemma parse_ip_canonical s n : parse_ip s = Some n → print_ip n = s ∧ 0 <= n < 2 ^ 32.
Proof.
  unfold parse_ip. intros H. destruct (split "." s) as [|a [|b [|c [|d [|]]]]] eqn:Hs; try done.
  destruct (parse_octet a) as [na|] eqn:Ea; [|done]. destruct (parse_octet b) as [nb|] eqn:Eb; [|done].
  destruct (parse_octet c) as [nc|] eqn:Ec; [|done]. destruct (parse_octet d) as [nd|] eqn:Ed; [|done].
  cbn in H. apply parse_octet_canonical in Ea as [Ea ?], Eb as [Eb ?], Ec as [Ec ?], Ed as [Ed ?].
  pose proof (octets_of na nb nc nd) as (O3 & O2 & O1 & O0 & Hb); try lia.
  assert (na * 2 ^ 24 + nb * 2 ^ 16 + nc * 2 ^ 8 + nd = n) as <- by (injection H as <-; done).
  split; [|done]. unfold print_ip. cbv zeta in O3, O2, O1, O0. rewrite O3, O2, O1, O0, Ea, Eb, Ec, Ed, <- Hs. apply join_split.
Qed.

Lemma parse_ip_inj s t n : parse_ip s = Some n → parse_ip t = Some n → s = t.
Proof. intros [<- _]%parse_ip_canonical [<- _]%parse_ip_canonical. done. Qed.

(** ** Networks as ranges *)

Definition net_ok (n : network) : Prop :=
  0 <= net_prefix n <= 32 ∧ 0 <= net_addr n < 2 ^ 32 ∧ net_addr n mod 2 ^ (32 - net_prefix n) = 0.

Lemma land_netmask a p : 0 <= a < 2 ^ 32 → 0 <= p <= 32 → Z.land a (netmask p) = a - a mod 2 ^ (32 - p).
Proof.
  intros Ha Hp. unfold netmask.
  assert (Hm : 2 ^ 32 - 2 ^ (32 - p) = Z.ldiff (Z.ones 32) (Z.ones (32 - p))).
  { rewrite Z.ldiff_ones_r by lia. rewrite Z.shiftr_div_pow2, Z.shiftl_mul_pow2 by lia.
    replace (32 - (32 - p)) with p by lia. rewrite !Z.ones_equiv.
    assert (Hdiv : Z.pred (2 ^ 32) / 2 ^ (32 - p) = 2 ^ p - 1).
    { assert (0 < 2 ^ (32 - p)) by (apply Z.pow_pos_nonneg; lia).
      symmetry. apply Z.div_unique with (2 ^ (32 - p) - 1); [lia|].
      replace (2 ^ 32) with (2 ^ (32 - p) * 2 ^ p); [lia|]. rewrite <- Z.pow_add_r by lia. f_equal. lia. }
    rewrite Hdiv. replace (2 ^ 32) with (2 ^ p * 2 ^ (32 - p)); [lia|].
    rewrite <- Z.pow_add_r by lia. f_equal. lia. }
  rewrite Hm, Z.land_comm. 
  assert (Hl : Z.land (Z.ldiff (Z.ones 32) (Z.ones (32 - p))) a = Z.ldiff (Z.land a (Z.ones 32)) (Z.ones (32 - p))).
  { apply Z.bits_inj'. intros i Hi. rewrite !Z.land_spec, !Z.ldiff_spec, !Z.land_spec.
    destruct (Z.testbit a i), (Z.testbit (Z.ones 32) i), (Z.testbit (Z.ones (32 - p)) i); done. }
  rewrite Hl, Z.land_ones, Z.mod_small by lia. rewrite Z.ldiff_ones_r by lia.
  rewrite Z.shiftr_div_pow2, Z.shiftl_mul_pow2 by lia.
  pose proof (Z.div_mod a (2 ^ (32 - p)) ltac:(apply Z.pow_nonzero; lia)). lia.
Qed.

(** Membership is being between the network and the broadcast address. *)
Lemma in_network_range a n : net_ok n → 0 <= a < 2 ^ 32 →
  in_network a n = true ↔ net_addr n <= a <= broadcast n.
Proof.
  intros (Hp & Hn & Hal) Ha. unfold in_network, net_mask, broadcast. rewrite land_netmask by done.
  rewrite Z.eqb_eq. set (w := 2 ^ (32 - net_prefix n)) in *.
  assert (0 < w) by (apply Z.pow_pos_nonneg; lia). pose proof (Z.mod_pos_bound a w ltac:(lia)).
  split; [lia|]. intros Hr. pose proof (Z.div_mod a w ltac:(lia)). pose proof (Z.div_mod (net_addr n) w ltac:(lia)).
  rewrite Hal in *. assert (a / w = net_addr n / w); [|nia].
  symmetry. apply Z.div_unique with (a - net_addr n); nia.
Qed.

Lemma make_network_ok strict a p n :
  0 <= a < 2 ^ 32 → 0 <= p <= 32 → make_network strict a p = Some n →
  net_ok n ∧ net_prefix n = p ∧ (strict = true → net_addr n = a).
Proof.
  intros Ha Hp. unfold make_network. rewrite land_netmask by done.
  destruct (strict && negb _) eqn:E; [done|]. intros [= <-]. unfold net_ok. cbn.
  set (w := 2 ^ (32 - p)). assert (0 < w) by (apply Z.pow_pos_nonneg; lia).
  pose proof (Z.mod_pos_bound a w ltac:(lia)). pose proof (Z.div_mod a w ltac:(lia)).
  assert (0 <= a / w) by (apply Z.div_pos; lia).
  split_and!; try nia.
  - replace (a - a mod w) with (a / w * w) by lia. apply Z.mod_mul. lia.
  - intros ->. cbn in E. apply negb_false_iff, Z.eqb_eq in E. done.
Qed.

Lemma right_zeros_bounds fuel m : 0 <= right_zeros fuel m <= Z.of_nat fuel.
Proof.
  revert m. induction fuel as [|f IH]; intros m; cbn [right_zeros]; [lia|].
  destruct (_ =? _); [|lia]. specialize (IH (m / 2)). lia.
Qed.

Lemma prefix_of_mask_bounds n p : prefix_of_mask n = Some p → 0 <= p <= 32.
Proof.
  unfold prefix_of_mask. pose proof (right_zeros_bounds 32 n) as Hz. revert Hz.
  generalize (right_zeros 32 n). intros z Hz. destruct (_ =? _); [|done]. intros [= <-]. lia.
Qed.

Lemma parse_mask_bounds s p : parse_mask s = Some p → 0 <= p <= 32.
Proof.
  unfold parse_mask. destruct (parse_prefix s) as [q|] eqn:E.
  - intros [= <-]. unfold parse_prefix in E. destruct (negb _ && _) eqn:Hd; [|done].
    destruct (unsigned_int s) as [m|] eqn:Hu; [|done]. destruct (Z.leb_spec m 32); [|done]. injection E as <-.
    split; [|lia]. by eapply unsigned_int_nonneg.
  - destruct (parse_ip s) as [n|]; [|done]. cbn. destruct (prefix_of_mask n) eqn:H1.
    + intros [= <-]. by eapply prefix_of_mask_bounds.
    + intros H. by eapply prefix_of_mask_bounds.
Qed.

Lemma parse_network_ok strict s n : parse_network strict s = Some n → net_ok n.
Proof.
  unfold parse_network. destruct (split "/" s) as [|a [|m [|]]]; try done.
  - destruct (parse_ip a) as [x|] eqn:Ha; [|done]. cbn. apply parse_ip_canonical in Ha as [_ Ha].
    intros H. by apply make_network_ok in H as (? & _); [|lia..].
  - destruct (parse_ip a) as [x|] eqn:Ha; [|done]. destruct (parse_mask m) as [p|] eqn:Hm; [|done]. cbn.
    apply parse_ip_canonical in Ha as [_ Ha]. apply parse_mask_bounds in Hm.
    intros H. by apply make_network_ok in H as (? & _).
Qed.
