(* ===== verification/Addressing.v ===== *)
(** * Client addresses: static addresses, guests and the network settings

    [ui/app/pki.py] (static addresses and guest markers) and [validate_addressing] of
    [ui/app/network.py].  The directories staticclients/ and guests/ are a map from file
    name to text and a set of names; [guest_sub] is [settings.guest_sub] and [conf] the
    text of server.conf. *)

From S2P Require Import Prelude PyStr Regex Mgmt ConfigEdit Ipv4.

Open Scope string_scope.
Open Scope list_scope.
Open Scope Z_scope.

Definition RESERVED : list string := ["server"; "ca"].

(** [validate_name]. *)
Definition validate_name (name : string) : result string :=
  _ ← raise_if (negb (name_re name))
        (PkiError "Invalid client name: use 1-64 characters from letters, digits, _ . @ -");
  _ ← raise_if (existsb (String.eqb (lower name)) RESERVED) (PkiError ("'" +:+ name +:+ "' is a reserved name"));
  Ok name.

Record access := Access { static_dir : gmap string string; guests_dir : gset string }.

(** ** Reading *)

Definition rx_push : regex := rseq [RStar true rs_; lit "ifconfig-push"; plus rs_; RGroup 1 (plus rS)].

(** The address of the first ifconfig-push line of a file. *)
Definition pushed_ip (text : string) : option string :=
  head (omap (fun line => m ← re_match rx_push line; m !! 1%nat) (splitlines (universal_newlines text))).

Definition static_ips (a : access) : gmap string string :=
  map_imap (fun name text => if startswith "." name then None else pushed_ip text) (static_dir a).

Definition guests (a : access) : gset string := filter (fun n => name_re n = true) (guests_dir a).

Definition dotted : regex := RChar (fun c => is_decimal c || Ascii.eqb c "."%char).
Definition rx_server : regex :=
  rseq [RStar true rs_; lit "server"; plus rs_; RGroup 1 (plus dotted); plus rs_; RGroup 2 (plus dotted);
        opt (RGroup 3 (RSeq (plus rs_) (lit "nopool")))].
Definition rx_pool : regex :=
  rseq [RStar true rs_; lit "ifconfig-pool"; plus rs_; RGroup 1 (plus dotted); plus rs_; RGroup 2 (plus dotted)].

(** The server network and its dynamic pool (first and last address). *)
Definition vpn_subnet (conf : string) : option (network * (Z * Z)) :=
  m ← re_search_m rx_server conf;
  net ← parse_network false (group m 1 +:+ "/" +:+ group m 2);
  if truthy (m !! 3%nat) then
    match re_search_m rx_pool conf with
    | Some p => first ← parse_ip (group p 1); last ← parse_ip (group p 2); Some (net, (first, last))
    | None => Some (net, (0, -1))
    end
  else Some (net, (net_addr net + 2, broadcast net - 1)).

Definition in_guest_range (guest_sub : string) (ip : option string) : bool :=
  match parse_ip (default "" ip), parse_network false guest_sub with
  | Some a, Some n => truthy ip && in_network a n
  | _, _ => false
  end.

(** [addr in (network, network + 1, broadcast)]; the address after the last one is a ValueError. *)
Definition is_reserved_in (addr : Z) (net : network) : result bool :=
  if ALL_ONES <=? net_addr net then Raise ValueError
  else Ok ((addr =? net_addr net) || (addr =? net_addr net + 1) || (addr =? broadcast net)).

(** Why a static address cannot be given, or [None]. *)
Definition static_ip_problem (conf guest_sub : string) (a : access) (name ip : string) : result (option string) :=
  match parse_ip ip with
  | None => Ok (Some "Invalid IPv4 address")
  | Some addr =>
      problem ← match vpn_subnet conf with
                | None => Ok None
                | Some (net, (first, last)) =>
                    outside ← (if negb (in_network addr net) then Ok true else is_reserved_in addr net);
                    if outside : bool
                    then Ok (Some (ip +:+ " is not a client address in the VPN subnet " +:+ print_network net))
                    else if (first <=? addr) && (addr <=? last)
                    then Ok (Some (ip +:+ " is in the dynamic pool " +:+ print_ip first +:+ "-" +:+ print_ip last +:+ "; use a free address outside it"))
                    else Ok None
                end;
      match problem with
      | Some p => Ok (Some p)
      | None =>
          if in_guest_range guest_sub (Some ip)
          then Ok (Some (ip +:+ " is in the guest range " +:+ guest_sub +:+ ", where guests get their addresses"))
          else
            match head (filter (fun na => na.2 = ip ∧ na.1 ≠ name) (map_to_list (static_ips a))) with
            | Some (other, _) => Ok (Some (ip +:+ " is already assigned to " +:+ other))
            | None => Ok None
            end
      end
  end.

(** ** Changing *)

Definition set_guest (name : string) (guest : bool) (a : access) : result access :=
  _ ← validate_name name;
  if guest then Ok (Access (delete name (static_dir a)) ({[name]} ∪ guests_dir a))
  else Ok (Access (static_dir a) (guests_dir a ∖ {[name]})).

Definition push_line (ip mask : string) : string := "ifconfig-push " +:+ ip +:+ " " +:+ mask +:+ lf_text.

Definition set_static_ip (conf guest_sub : string) (name : string) (ip : option string) (a : access) : result access :=
  _ ← validate_name name;
  _ ← raise_if (truthy ip && bool_decide (name ∈ guests a))
        (PkiError ("Guests get an address from the guest range for each device; make the client " +:+ "a full-access one to give it a static IP"));
  if negb (truthy ip) then Ok (Access (delete name (static_dir a)) (guests_dir a))
  else
    let ip := default "" ip in
    problem ← static_ip_problem conf guest_sub a name ip;
    match problem with
    | Some p => Raise (PkiError p)
    | None =>
        let mask := match vpn_subnet conf with Some (net, _) => print_ip (net_mask net) | None => "255.255.255.0" end in
        Ok (Access (<[name := push_line ip mask]> (static_dir a)) (guests_dir a))
    end.

(** [migrate_guest_static_ips]: static addresses in the guest range become guests. *)
Fixpoint mark_guests (names : list string) (a : access) : result access :=
  match names with
  | [] => Ok a
  | n :: names => a ← set_guest n true a; mark_guests names a
  end.
Definition migrate_guest_static_ips (guest_sub : string) (a : access) : result (access * list string) :=
  let moved := (filter (fun na => in_guest_range guest_sub (Some na.2) = true ∧ name_re na.1 = true)
                  (map_to_list (static_ips a))).*1 in
  a ← mark_guests moved a; Ok (a, moved).

(** ** The file that is written is read back *)

Lemma splitlines_one s :
  s ≠ "" → str_forall (fun c => negb (is_line_end c)) s = true → splitlines (s +:+ lf_text) = [s].
Proof.
  intros Hne Hs. destruct s as [|c s]; [done|]. clear Hne. revert c Hs.
  induction s as [|d s IH]; intros c; cbn [str_forall]; intros [Hc Hs]%andb_true_iff; apply negb_true_iff in Hc.
  - cbn. by rewrite Hc.
  - specialize (IH d Hs). change (String c (String d s) +:+ lf_text) with (String c (String d s +:+ lf_text)).
    cbn [splitlines]. rewrite Hc. change (String d s +:+ lf_text) with (String d (s +:+ lf_text)) in *.
    cbn [str_forall] in Hs. apply andb_true_iff in Hs as [Hd _]. apply negb_true_iff in Hd. rewrite Hd.
    by rewrite IH.
Qed.

Definition ip_char (c : ascii) : bool := is_decimal c || Ascii.eqb c "."%char.

Lemma nat_str_ip_chars n : 0 <= n → str_forall ip_char (nat_str n) = true.
Proof.
  intros Hn. pose proof (nat_str_decimal n Hn) as H. revert H. induction (nat_str n) as [|c s IH]; [done|].
  cbn [str_forall]. intros [Hc Hs]%andb_true_iff. unfold ip_char at 1. by rewrite Hc, IH.
Qed.

Lemma print_ip_chars n : str_forall ip_char (print_ip n) = true ∧ print_ip n ≠ "".
Proof.
  unfold print_ip. cbn [join]. rewrite !str_forall_app. pose proof (octet_bounds n) as Hb.
  rewrite !nat_str_ip_chars by apply Hb. split; [done|].
  pose proof (nat_str_nonempty (octet n 3) ltac:(apply Hb)). by destruct (nat_str (octet n 3)).
Qed.

Lemma parse_ip_chars ip a : parse_ip ip = Some a → str_forall ip_char ip = true ∧ ip ≠ "".
Proof. intros [<- _]%parse_ip_canonical. apply print_ip_chars. Qed.

Lemma ip_char_facts c : ip_char c = true → is_line_end c = false ∧ Ascii.eqb cr c = false ∧ is_space c = false.
Proof. destruct c as [[] [] [] [] [] [] [] []]; vm_compute; intros; split_and!; congruence. Qed.

Lemma push_line_read ip mask :
  str_forall ip_char ip = true → ip ≠ "" → str_forall ip_char mask = true → pushed_ip (push_line ip mask) = Some ip.
Proof.
  intros Hip Hne Hmask. unfold pushed_ip, push_line.
  set (line := "ifconfig-push " +:+ ip +:+ " " +:+ mask).
  assert (Hline : "ifconfig-push " +:+ ip +:+ " " +:+ mask +:+ lf_text = line +:+ lf_text)
    by (unfold line; by rewrite !str_app_assoc).
  rewrite Hline.
  assert (Hends : str_forall (fun c => negb (is_line_end c)) line = true).
  { assert (Hi : ∀ c, ip_char c = true → negb (is_line_end c) = true)
      by (intros c Hc; by rewrite (proj1 (ip_char_facts c Hc))).
    unfold line. by rewrite !str_forall_app, (str_forall_impl _ _ ip Hi Hip), (str_forall_impl _ _ mask Hi Hmask). }
  assert (Hcr : str_forall (fun c => negb (Ascii.eqb cr c)) line = true).
  { assert (Hi : ∀ c, ip_char c = true → negb (Ascii.eqb cr c) = true)
      by (intros c Hc; by rewrite (proj1 (proj2 (ip_char_facts c Hc)))).
    unfold line. by rewrite !str_forall_app, (str_forall_impl _ _ ip Hi Hip), (str_forall_impl _ _ mask Hi Hmask). }
  rewrite universal_newlines_no_cr.
  2:{ unfold mem_char, str_exists. rewrite str_forall_app, Hcr. done. }
  rewrite splitlines_one by done. cbn [omap list_omap]. unfold re_match, rx_push. cbn [rseq].
  rewrite rmatch_seq. unfold rs_ at 1.
  destruct ip as [|c ip]; [done|]. cbn [str_forall] in Hip. apply andb_true_iff in Hip as [Hc Hip].
  assert (Hns : ∀ s, str_forall ip_char s = true → str_forall (fun c => negb (is_space c)) s = true).
  { intros s. apply str_forall_impl. intros d Hd. by rewrite (proj2 (proj2 (ip_char_facts d Hd))). }
  destruct (ip_char_facts c Hc) as (_ & _ & Hcs).
  rewrite (star_run is_space "" line _ (<[1%nat := String c ip]> ∅)); [cbn; by rewrite lookup_insert_eq|done|done|].
  cbn [last_char]. rewrite rmatch_seq. unfold line.
  change ("ifconfig-push " +:+ ?r) with ("ifconfig-push" +:+ (" " +:+ r)). rewrite lit_run, rmatch_seq.
  apply (plus_run is_space " "%char "" _); [done|done|cbn; by rewrite Hcs|].
  rewrite rmatch_group. unfold rS.
  apply (plus_run (fun c => negb (is_space c)) c ip (" " +:+ mask)); [by rewrite Hcs|by apply Hns|done|].
  cbn [re_rest re_prev re_caps]. by rewrite (str_take_app (String c ip)).
Qed.

(** ** The invariant of the client addresses *)

Section addresses.
Context (conf guest_sub : string).

(** An address OpenVPN can hand out as a static one. *)
Definition assignable (ip : string) : Prop :=
  ∃ addr, parse_ip ip = Some addr ∧ in_guest_range guest_sub (Some ip) = false ∧
    ∀ net first last, vpn_subnet conf = Some (net, (first, last)) →
      net_addr net + 1 < addr < broadcast net ∧ ¬ (first <= addr <= last).

Definition access_ok (a : access) : Prop :=
  (∀ n ip, static_ips a !! n = Some ip → n ∉ guests a ∧ assignable ip) ∧
  (∀ n1 n2 ip, static_ips a !! n1 = Some ip → static_ips a !! n2 = Some ip → n1 = n2).

Inductive configured : access → Prop :=
| configured_start marked : configured (Access ∅ marked)
| configured_static a a' name ip :
    configured a → set_static_ip conf guest_sub name ip a = Ok a' → configured a'
| configured_guest a a' name guest :
    configured a → set_guest name guest a = Ok a' → configured a'
| configured_migrate a a' moved :
    configured a → migrate_guest_static_ips guest_sub a = Ok (a', moved) → configured a'.

Lemma vpn_subnet_ok net pool : vpn_subnet conf = Some (net, pool) → net_ok net.
Proof.
  unfold vpn_subnet. destruct (re_search_m rx_server conf) as [m|]; [|done]. cbn [mbind option_bind].
  destruct (parse_network false _) as [n|] eqn:E; [|done]. apply parse_network_ok in E. cbn [mbind option_bind].
  destruct (truthy _); [|by intros H; simplify_eq].
  destruct (re_search_m rx_pool conf) as [p|]; [|by intros H; simplify_eq].
  destruct (parse_ip (group p 1)); [|done]. destruct (parse_ip (group p 2)); [|done]. by intros H; simplify_eq/=.
Qed.

(** What [static_ip_problem] has checked when it finds nothing. *)
Lemma no_problem a name ip :
  static_ip_problem conf guest_sub a name ip = Ok None →
  assignable ip ∧ ∀ n, static_ips a !! n = Some ip → n = name.
Proof.
  unfold static_ip_problem. destruct (parse_ip ip) as [addr|] eqn:Hip; [|done]. intros H.
  destruct (parse_ip_canonical _ _ Hip) as [_ Hb].
  destruct (match vpn_subnet conf with Some _ => _ | None => _ end) as [problem|] eqn:Hsub; [|done].
  cbn in H. destruct problem; [done|]. destruct (in_guest_range guest_sub (Some ip)) eqn:Hg; [done|].
  destruct (head _) as [[other ?]|] eqn:Hh; [done|]. split.
  - exists addr. split_and!; [done..|]. intros net first last Hv. rewrite Hv in Hsub.
    pose proof (vpn_subnet_ok _ _ Hv) as Hnet.
    destruct (in_network addr net) eqn:Hin; cbn in Hsub; [|done].
    apply in_network_range in Hin; [|done..]. unfold is_reserved_in in Hsub.
    destruct (ALL_ONES <=? net_addr net); [done|]. cbn in Hsub.
    destruct ((addr =? _) || _ || _) eqn:Hres; [done|]. destruct ((first <=? addr) && _) eqn:Hpool; [done|].
    bool_to_prop. split; [lia|]. intros [? ?]. apply andb_false_iff in Hpool as [Hp|Hp]; bool_to_prop; lia.
  - intros n Hn. destruct (decide (n = name)) as [|Hne]; [done|]. exfalso.
    apply head_None in Hh. assert (Hin : (n, ip) ∈ filter (fun na => na.2 = ip ∧ na.1 ≠ name) (map_to_list (static_ips a))).
    { apply list_elem_of_filter. split; [done|]. by apply elem_of_map_to_list. }
    rewrite Hh in Hin. by apply not_elem_of_nil in Hin.
Qed.

Lemma validate_name_ok name x : validate_name name = Ok x → name_re name = true ∧ startswith "." name = false.
Proof.
  unfold validate_name. destruct (name_re name) eqn:E; [|done]. intros _. split; [done|].
  destruct name as [|c name]; [done|]. cbn [name_re] in E. bool_to_prop. cbn [startswith].
  destruct (Ascii.eqb_spec "." c) as [<-|]; [done|done].
Qed.

Lemma static_ips_delete sd g name : static_ips (Access (delete name sd) g) = delete name (static_ips (Access sd g)).
Proof.
  apply map_eq. intros n. unfold static_ips. rewrite map_lookup_imap. cbn.
  destruct (decide (n = name)) as [->|Hne].
  - by rewrite !lookup_delete_eq.
  - by rewrite !lookup_delete_ne, map_lookup_imap by done.
Qed.

Lemma static_ips_write sd g name ip mask :
  startswith "." name = false → str_forall ip_char ip = true → ip ≠ "" → str_forall ip_char mask = true →
  static_ips (Access (<[name := push_line ip mask]> sd) g) = <[name := ip]> (static_ips (Access sd g)).
Proof.
  intros Hn Hip Hne Hm. apply map_eq. intros n. unfold static_ips. rewrite map_lookup_imap. cbn [static_dir].
  destruct (decide (n = name)) as [->|Hd].
  - rewrite !lookup_insert_eq. cbn [mbind option_bind]. by rewrite Hn, push_line_read.
  - by rewrite !lookup_insert_ne, map_lookup_imap by done.
Qed.

Lemma access_ok_delete a name : access_ok a → access_ok (Access (delete name (static_dir a)) (guests_dir a)).
Proof.
  intros [H1 H2]. split.
  - intros n ip. rewrite static_ips_delete. intros [_ H]%lookup_delete_Some. by apply H1.
  - intros n1 n2 ip. rewrite static_ips_delete. intros [_ Ha]%lookup_delete_Some [_ Hb]%lookup_delete_Some. by eapply H2.
Qed.

Lemma set_guest_ok a a' name guest : access_ok a → set_guest name guest a = Ok a' → access_ok a'.
Proof.
  intros Ha. unfold set_guest. intros H. inv_result. destruct guest; inv_result.
  - destruct (access_ok_delete a name Ha) as [H1 H2]. split; [|done]. intros n ip Hn.
    destruct (H1 _ _ Hn) as [Hg Hs]. split; [|done]. unfold guests in *. cbn in *.
    rewrite static_ips_delete in Hn. apply lookup_delete_Some in Hn as [Hne _]. set_solver.
  - destruct Ha as [H1 H2]. split; [|done]. intros n ip Hn. destruct (H1 _ _ Hn) as [Hg Hs].
    split; [|done]. unfold guests in *. cbn in *. set_solver.
Qed.

Lemma set_static_ip_ok a a' name ip :
  access_ok a → set_static_ip conf guest_sub name ip a = Ok a' → access_ok a'.
Proof.
  intros Ha. unfold set_static_ip. destruct (validate_name name) as [x|] eqn:E; [|done]. cbn [mbind result_bind].
  destruct (truthy ip) eqn:Ht; cbn [negb andb].
  2:{ intros [= <-]. by apply access_ok_delete. }
  destruct (bool_decide (name ∈ guests a)) eqn:E0; [done|]. cbn [raise_if mbind result_bind]. intros H.
  destruct ip as [ip|]; [|done]. cbn [default from_option id] in H.
  destruct (static_ip_problem conf guest_sub a name ip) as [[p|]|] eqn:Hp; [done| |done]. cbn [mbind result_bind] in H. injection H as <-.
  apply no_problem in Hp as [Hass Hother].
  destruct Hass as (addr & Hip & Hrest). destruct (parse_ip_chars _ _ Hip) as [Hchars Hne].
  apply validate_name_ok in E as [_ Hdot]. apply bool_decide_eq_false_1 in E0.
  assert (Hst : static_ips (Access (<[name := push_line ip
      match vpn_subnet conf with Some (net, _) => print_ip (net_mask net) | None => "255.255.255.0" end]> (static_dir a))
      (guests_dir a)) = <[name := ip]> (static_ips a)).
  { rewrite static_ips_write; [by destruct a|done..|].
    destruct (vpn_subnet conf) as [[net ?]|]; [apply print_ip_chars|done]. }
  destruct Ha as [H1 H2]. split.
  - intros n i. rewrite Hst. intros [[<- <-]|[_ Hn]]%lookup_insert_Some; [|by apply H1].
    split; [done|]. exists addr. auto.
  - intros n1 n2 i. rewrite Hst.
    intros [[<- <-]|[Hne1 Hn1]]%lookup_insert_Some [[<- ?]|[Hne2 Hn2]]%lookup_insert_Some; subst; [done| | |by eapply H2].
    + symmetry. by apply Hother.
    + by apply Hother.
Qed.

Lemma mark_guests_ok names : ∀ a a', access_ok a → mark_guests names a = Ok a' → access_ok a'.
Proof.
  induction names as [|n names IH]; intros a a' Ha; cbn [mark_guests]; [by intros [= <-]|].
  intros H. inv_result. eapply IH; [|done]. by eapply set_guest_ok.
Qed.

(** C29. Two clients never get the same address, and no address is handed out twice in
    another way: after any sequence of accepted changes of static addresses and guest
    markers, every static address belongs to one client, is a host address of the VPN
    subnet, is neither the server's address nor in the dynamic pool nor in the guest
    range, and its client is not a guest. *)
Theorem static_addresses_safe a :
  configured a →
  (∀ n1 n2 ip, static_ips a !! n1 = Some ip → static_ips a !! n2 = Some ip → n1 = n2) ∧
  (∀ n ip, static_ips a !! n = Some ip → n ∉ guests a ∧
     ∃ addr, parse_ip ip = Some addr ∧ in_guest_range guest_sub (Some ip) = false ∧
       ∀ net first last, vpn_subnet conf = Some (net, (first, last)) →
         net_addr net + 1 < addr < broadcast net ∧ ¬ (first <= addr <= last)).
Proof.
  intros Hc. enough (Ha : access_ok a) by (destruct Ha; auto).
  induction Hc as [marked|a a' name ip _ IH H|a a' name guest _ IH H|a a' moved _ IH H].
  - assert (He : static_ips (Access ∅ marked) = ∅).
    { apply map_eq. intros n. unfold static_ips. by rewrite map_lookup_imap, !lookup_empty. }
    split; intros *; rewrite He, lookup_empty; done.
  - by eapply set_static_ip_ok.
  - by eapply set_guest_ok.
  - unfold migrate_guest_static_ips in H. inv_result. injection H as <- <-. by eapply mark_guests_ok.
Qed.
End addresses.

Definition sample_server_conf : string := "server 10.8.0.0 255.255.255.0 nopool" +:+ lf_text
  +:+ "ifconfig-pool 10.8.0.2 10.8.0.99" +:+ lf_text.
Definition alice_access : access :=
  Access {["alice" := push_line "10.8.0.100" "255.255.255.0"]} ∅.

Lemma static_addresses_safe_witness :
  set_static_ip sample_server_conf "10.8.0.128/25" "alice" (Some "10.8.0.100") (Access ∅ ∅) = Ok alice_access ∧
  ("alice" ∉ guests alice_access ∧
     ∃ addr, parse_ip "10.8.0.100" = Some addr ∧ in_guest_range "10.8.0.128/25" (Some "10.8.0.100") = false ∧
       ∀ net first last, vpn_subnet sample_server_conf = Some (net, (first, last)) →
         net_addr net + 1 < addr < broadcast net ∧ ¬ (first <= addr <= last)).
Proof.
  assert (H : set_static_ip sample_server_conf "10.8.0.128/25" "alice" (Some "10.8.0.100") (Access ∅ ∅) = Ok alice_access)
    by (vm_compute; reflexivity).
  split; [exact H|].
  apply (static_addresses_safe sample_server_conf "10.8.0.128/25" alice_access
    (configured_static _ _ _ _ "alice" _ (configured_start _ _ ∅) H)).
  vm_compute. reflexivity.
Defined.
