(* ===== verification/Network.v ===== *)
(** * Network settings: the validators of [ui/app/network.py]

    [validate_ranges] is the first part of [validate_addressing], up to the check of
    the existing static addresses; lists of networks of either IP version
    ([cidrs]) and the rest of the settings are in [Gateway]. *)

From S2P Require Import Prelude PyStr Regex Mgmt ConfigEdit Ipv4 Addressing.

Open Scope string_scope.
Open Scope list_scope.
Open Scope Z_scope.

(** ** Addressing *)

Record net_settings := NetSettings {
  ns_vpn_subnet : string;
  ns_pool_first : string;
  ns_pool_last : string;
  ns_guest_subnet : string;
  ns_dns_servers : list string;
}.

(** [list(dict.fromkeys(l))]: the first occurrence of every value, in order. *)
Fixpoint dedupe (seen : list string) (l : list string) : list string :=
  match l with
  | [] => []
  | x :: l => if existsb (String.eqb x) seen then dedupe seen l else x :: dedupe (x :: seen) l
  end.

Fixpoint parse_all (l : list string) : option (list string) :=
  match l with
  | [] => Some []
  | x :: l => a ← parse_ip x; rest ← parse_all l; Some (print_ip a :: rest)
  end.

(** The ranges of the settings. *)
Record ranges := Ranges { rg_net : network; rg_guest : network; rg_first : Z; rg_last : Z }.

Definition ranges_ok (r : ranges) : bool :=
  let net := rg_net r in let guest := rg_guest r in
  negb (28 <? net_prefix net) && subnet_of guest net && (net_prefix net <? net_prefix guest) && (net_prefix guest <=? 30)
  && (net_addr net + 1 <? rg_first r) && (rg_first r <=? rg_last r) && (rg_last r <? broadcast net)
  && negb ((rg_first r <=? broadcast guest) && (net_addr guest <=? rg_last r))
  && negb (in_network (net_addr net + 1) guest).

(** The body of the [try]; [None] is its ValueError. *)
Definition read_ranges (s : net_settings) : option (ranges * net_settings) :=
  net ← parse_network true (ns_vpn_subnet s);
  guest ← parse_network true (ns_guest_subnet s);
  first ← parse_ip (ns_pool_first s);
  last ← parse_ip (ns_pool_last s);
  let r := Ranges net guest first last in
  if ranges_ok r then
    dns ← parse_all (ns_dns_servers s);
    Some (r, NetSettings (print_network net) (print_ip first) (print_ip last) (print_network guest) (dedupe [] dns))
  else None.

(** The check of one existing static address. *)
Definition static_fits (r : ranges) (ip : string) : result unit :=
  addr ← of_option ValueError (parse_ip ip);
  raise_if (negb (in_network addr (rg_net r)) || in_network addr (rg_guest r)
            || ((rg_first r <=? addr) && (addr <=? rg_last r))
            || existsb (Z.eqb addr) [net_addr (rg_net r); net_addr (rg_net r) + 1; broadcast (rg_net r)])
    (PkiError "Move existing static client addresses before changing these networks").

Definition validate_ranges (s : net_settings) (a : access) : result (ranges * net_settings) :=
  p ← of_option (PkiError "Use a valid VPN subnet, a client pool inside it and a separate guest subnet inside it")
        (read_ranges s);
  _ ← map_result (static_fits p.1) (map_to_list (static_ips a)).*2;
  Ok p.

(** ** Hosts and ports *)

(** At most [n] repetitions, as many as possible. *)
Fixpoint upto (n : nat) (a : regex) : regex :=
  match n with O => REps | S n => opt (RSeq a (upto n a)) end.

Definition az09 (c : ascii) : bool := is_lower_az c || is_decimal c.
Definition label : regex :=
  RSeq (RChar az09) (opt (RSeq (upto 61 (RChar (fun c => az09 c || Ascii.eqb c "-"%char))) (RChar az09))).
Definition HOSTNAME : regex := RSeq (plus (RSeq label (lit "."))) label.

Definition hostname (value : string) : result string :=
  let value := rstrip_char "."%char (lower (strip value)) in
  if (253 <? strlen value) || negb (re_fullmatch HOSTNAME value)
  then Raise (PkiError "Enter a DNS hostname without a scheme, path or port") else Ok value.

(** Characters refused in the host of [host_port]. *)
Definition unsafe_host_char (c : ascii) : bool := is_space c || one_of "`{}\/@?#" c.

(** [host_port]; [int] of digits that are not decimal is a ValueError. *)
Definition host_port (value : string) : result string :=
  let '(host, _, port) := rpartition ":"%char value in
  let refuse := PkiError "Enter an address and port, such as 192.0.2.20:8444" in
  _ ← raise_if (empty host || negb (isdigit port)) refuse;
  n ← of_option ValueError (py_int port);
  _ ← raise_if (negb ((1 <=? n) && (n <=? 65535)) || str_exists unsafe_host_char host) refuse;
  Ok (host +:+ ":" +:+ str_of_int n).

Definition portal_listener (value : string) : result string :=
  let '(host, _, port) := rpartition ":"%char value in
  let refuse := PkiError ("Guest portal listener: enter the gateway's LAN IPv4 address and a port of 1024 or "
                          +:+ "higher, such as 192.0.2.10:9443") in
  match parse_ip host, (if isdigit port then py_int port else None) with
  | Some ip, Some n =>
      if (1024 <=? n) && (n <=? 65535) && negb (octet ip 3 =? 0) && negb (is_loopback ip) && negb (is_link_local ip)
         && negb (is_multicast ip) && negb (is_reserved ip)
      then Ok (print_ip ip +:+ ":" +:+ str_of_int n) else Raise refuse
  | _, _ => Raise refuse
  end.

(** ** Lemmas *)

Lemma map_result_each {A B} (f : A → result B) l ys x :
  map_result f l = Ok ys → x ∈ l → ∃ y, f x = Ok y.
Proof.
  revert ys. induction l as [|z l IH]; intros ys; cbn [map_result]; [set_solver|].
  intros H [->|Hin]%elem_of_cons; inv_result; [eauto|by eapply IH].
Qed.

(** What the accepted ranges satisfy. *)
Lemma read_ranges_ok s r s' :
  read_ranges s = Some (r, s') →
  net_ok (rg_net r) ∧ net_ok (rg_guest r) ∧
  (net_prefix (rg_net r) <= 28 ∧ net_addr (rg_net r) <= net_addr (rg_guest r)
   ∧ broadcast (rg_guest r) <= broadcast (rg_net r)
   ∧ net_addr (rg_net r) + 1 < rg_first r ∧ rg_first r <= rg_last r ∧ rg_last r < broadcast (rg_net r)
   ∧ ¬ (rg_first r <= broadcast (rg_guest r) ∧ net_addr (rg_guest r) <= rg_last r)
   ∧ ¬ (net_addr (rg_guest r) <= net_addr (rg_net r) + 1 <= broadcast (rg_guest r))).
Proof.
  unfold read_ranges. intros H.
  destruct (parse_network true (ns_vpn_subnet s)) as [net|] eqn:E1; [|done].
  destruct (parse_network true (ns_guest_subnet s)) as [guest|] eqn:E2; [|done].
  destruct (parse_ip (ns_pool_first s)) as [first|] eqn:E3; [|done].
  destruct (parse_ip (ns_pool_last s)) as [last|] eqn:E4; [|done]. cbn [mbind option_bind] in H.
  apply parse_network_ok in E1, E2. apply parse_ip_canonical in E3 as [_ E3], E4 as [_ E4].
  destruct (ranges_ok _) eqn:Hok; [|discriminate H]. destruct (parse_all _) as [dns|]; [|discriminate H].
  cbn [mbind option_bind] in H. injection H as <- _. cbn [rg_net rg_guest rg_first rg_last]. split; [done|]. split; [done|].
  unfold ranges_ok, subnet_of in Hok. cbn [rg_net rg_guest rg_first rg_last] in Hok. bool_to_prop. split_and!; try lia.
  match goal with H : in_network _ _ = false |- _ => apply not_true_iff_false in H; rename H into Hin end.
  intros Hr. apply Hin. apply in_network_range; [done| |done]. destruct E1 as (? & ? & _). lia.
Qed.

Lemma static_fits_spec r ip x :
  net_ok (rg_net r) → net_ok (rg_guest r) → parse_ip ip = Some x → (∃ u, static_fits r ip = Ok u) →
  net_addr (rg_net r) + 1 < x < broadcast (rg_net r) ∧ ¬ (net_addr (rg_guest r) <= x <= broadcast (rg_guest r))
  ∧ ¬ (rg_first r <= x <= rg_last r).
Proof.
  intros Hn Hg Hip [u Hu]. unfold static_fits in Hu. rewrite Hip in Hu. cbn [of_option mbind result_bind] in Hu.
  pose proof (parse_ip_canonical _ _ Hip) as [_ Hb]. unfold raise_if in Hu.
  destruct (_ || _) eqn:E; [done|]. clear Hu. cbn [existsb] in E. bool_to_prop.
  match goal with H : in_network x (rg_net r) = true |- _ => apply in_network_range in H; [|done..] end.
  match goal with H : in_network x (rg_guest r) = false |- _ => apply not_true_iff_false in H; rename H into Hg' end.
  rewrite in_network_range in Hg' by done. split_and!; [lia|lia|done|].
  intros [? ?]. match goal with H : _ && _ = false |- _ => apply andb_false_iff in H as [?|?] end; bool_to_prop; lia.
Qed.

(** ** Theorems *)

(** The address plan that is accepted is free of overlaps: the VPN subnet holds the
    dynamic pool, the guest range and every existing static address, and any address is
    in at most one of the four uses (the server's own address, the pool, the guest
    range, a static client); network and broadcast address are in none. *)
Theorem accepted_plan_disjoint s a r s' x :
  validate_ranges s a = Ok (r, s') →
  let net := rg_net r in
  let pool := rg_first r <= x <= rg_last r in
  let guest := net_addr (rg_guest r) <= x <= broadcast (rg_guest r) in
  let server := x = net_addr net + 1 in
  let static := ∃ n ip, static_ips a !! n = Some ip ∧ parse_ip ip = Some x in
  (pool ∨ guest ∨ server ∨ static → net_addr net <= x <= broadcast net) ∧
  ¬ (pool ∧ guest) ∧ ¬ (pool ∧ server) ∧ ¬ (pool ∧ static) ∧ ¬ (guest ∧ server) ∧ ¬ (guest ∧ static)
  ∧ ¬ (server ∧ static) ∧
  ((pool ∨ static) → x ≠ net_addr net ∧ x ≠ broadcast net).
Proof.
  unfold validate_ranges. intros H.
  destruct (read_ranges s) as [[r0 s0]|] eqn:Hr; [|done]. cbn [of_option mbind result_bind fst] in H.
  destruct (map_result _ _) as [us|] eqn:Hst; [|done]. cbn [mbind result_bind] in H. injection H as -> ->.
  destruct (read_ranges_ok _ _ _ Hr) as (Hnet & Hguest & Hok).
  assert (Hstatic : ∀ n ip, static_ips a !! n = Some ip → parse_ip ip = Some x →
    net_addr (rg_net r) + 1 < x < broadcast (rg_net r) ∧ ¬ (net_addr (rg_guest r) <= x <= broadcast (rg_guest r))
    ∧ ¬ (rg_first r <= x <= rg_last r)).
  { intros n ip Hn Hip. eapply static_fits_spec; [done..|].
    eapply map_result_each; [exact Hst|]. apply list_elem_of_fmap. exists (n, ip). by rewrite elem_of_map_to_list. }
  cbv zeta.
  destruct Hok as (Hp & Hsub1 & Hsub2 & Hf1 & Hf2 & Hf3 & Hpg & Hsg). clear Hst Hr.
  split_and!.
  - intros [?|[?|[?|(n & ip & Hn & Hip)]]]; [lia|lia|lia|]. specialize (Hstatic _ _ Hn Hip). lia.
  - lia.
  - lia.
  - intros [? (n & ip & Hn & Hip)]. specialize (Hstatic _ _ Hn Hip). tauto.
  - lia.
  - intros [? (n & ip & Hn & Hip)]. specialize (Hstatic _ _ Hn Hip). tauto.
  - intros [? (n & ip & Hn & Hip)]. specialize (Hstatic _ _ Hn Hip). lia.
  - intros [?|(n & ip & Hn & Hip)]; [lia|]. specialize (Hstatic _ _ Hn Hip). lia.
Qed.

Definition sample_settings : net_settings :=
  NetSettings "10.8.0.0/24" "10.8.0.2" "10.8.0.99" "10.8.0.128/25" ["1.1.1.1"; "9.9.9.9"; "1.1.1.1"].
Definition sample_ranges : ranges := Ranges (Network 168296448 24) (Network 168296576 25) 168296450 168296547.

Lemma accepted_plan_disjoint_witness :
  ¬ (168296450 <= 168296548 <= 168296547 ∧
     ∃ n ip, static_ips alice_access !! n = Some ip ∧ parse_ip ip = Some 168296548).
Proof.
  apply (accepted_plan_disjoint sample_settings alice_access sample_ranges
    (NetSettings "10.8.0.0/24" "10.8.0.2" "10.8.0.99" "10.8.0.128/25" ["1.1.1.1"; "9.9.9.9"]) 168296548).
  vm_compute. reflexivity.
Defined.

(** ** The characters of validated values *)

(** Characters of host names, and those that are harmless in the gateway's templates. *)
Definition host_safe (c : ascii) : bool := az09 c || one_of ".-" c.
Definition template_safe (c : ascii) : bool := negb (is_space c || one_of "`{}\" c).

Lemma host_safe_facts c :
  host_safe c = true → is_space c = false ∧ lower_char c = c ∧ template_safe c = true.
Proof. destruct c as [[] [] [] [] [] [] [] []]; vm_compute; intros; split_and!; congruence. Qed.

Lemma within_upto p n a : within p a → within p (upto n a).
Proof. intros Ha. induction n as [|n IH]; [done|]. cbn. done. Qed.

Lemma hostname_within : within host_safe HOSTNAME.
Proof.
  assert (Haz : ∀ c, az09 c = true → host_safe c = true) by (intros c Hc; unfold host_safe; by rewrite Hc).
  assert (Hdash : ∀ c, az09 c || Ascii.eqb c "-" = true → host_safe c = true).
  { intros c [Hc|Hc%Ascii.eqb_eq]%orb_true_iff; [by apply Haz|by subst]. }
  assert (Hdot : within host_safe (lit ".")).
  { change ((∀ c, Ascii.eqb "." c = true → host_safe c = true) ∧ True). split; [|done].
    intros c Hc. apply Ascii.eqb_eq in Hc as <-. done. }
  assert (Hl : within host_safe label).
  { unfold label. split; [exact Haz|]. split; [|done]. split; [|exact Haz]. by apply within_upto. }
  assert (Hld : within host_safe (RSeq label (lit "."))) by (split; [exact Hl|exact Hdot]).
  split; [|exact Hl]. split; exact Hld.
Qed.

Lemma fullmatch_within p r s : within p r → re_fullmatch r s = true → str_forall p s = true.
Proof.
  unfold re_fullmatch. intros Hr. destruct (rmatch r _ _) as [m|] eqn:E; [|done]. intros _.
  apply (rmatch_within p r Hr) in E as (w & st' & Hs & Hw & Hk). cbn in Hs.
  destruct (empty (re_rest st')) eqn:He; [|done]. apply String.eqb_eq in He. rewrite Hs, He, str_app_nil_r. done.
Qed.

Lemma rstrip_by_idemp p s : rstrip_by p (rstrip_by p s) = rstrip_by p s.
Proof.
  induction s as [|c s IH]; [done|]. cbn [rstrip_by]. destruct (rstrip_by p s) as [|d t] eqn:E.
  - destruct (p c) eqn:Hc; [done|]. cbn. by rewrite Hc.
  - cbn [rstrip_by] in *. by rewrite IH.
Qed.

Lemma strip_none p s : str_forall (fun c => negb (p c)) s = true → strip_by p s = s.
Proof.
  intros Hs. unfold strip_by.
  assert (Hl : lstrip_by p s = s).
  { destruct s as [|c s]; [done|]. cbn in *. apply andb_true_iff in Hs as [Hc _]. apply negb_true_iff in Hc. by rewrite Hc. }
  rewrite Hl. clear Hl. induction s as [|c s IH]; [done|]. cbn in *. apply andb_true_iff in Hs as [Hc Hs].
  apply negb_true_iff in Hc. rewrite IH by done. rewrite Hc. by destruct s.
Qed.

Lemma lower_safe s : str_forall host_safe s = true → lower s = s.
Proof.
  unfold lower. induction s as [|c s IH]; [done|]. cbn. intros [Hc Hs]%andb_true_iff.
  by rewrite (proj1 (proj2 (host_safe_facts c Hc))), IH.
Qed.

Lemma unsafe_template c : negb (unsafe_host_char c) = true → template_safe c = true.
Proof. destruct c as [[] [] [] [] [] [] [] []]; vm_compute; congruence. Qed.

Lemma decimal_template c : is_decimal c = true → template_safe c = true.
Proof. destruct c as [[] [] [] [] [] [] [] []]; vm_compute; congruence. Qed.

(** An accepted host name. *)
Lemma hostname_ok value h :
  hostname value = Ok h → str_forall host_safe h = true ∧ strlen h <= 253 ∧ hostname h = Ok h ∧ h ≠ "".
Proof.
  intros Hh.
  assert (Hs : str_forall host_safe h = true ∧ strlen h <= 253 ∧ hostname h = Ok h).
  { revert Hh. unfold hostname. set (v := rstrip_char "." (lower (strip value))).
    destruct (_ || _) eqn:E; [done|]. intros [= <-]. apply orb_false_iff in E as [Hlen Hm].
    apply negb_false_iff in Hm. pose proof (fullmatch_within _ _ _ hostname_within Hm) as Hs.
    assert (Hv : rstrip_char "." (lower (strip v)) = v).
    { unfold strip. rewrite strip_none.
      - rewrite lower_safe by done. apply rstrip_by_idemp.
      - eapply str_forall_impl; [|exact Hs]. intros c Hc. by rewrite (proj1 (host_safe_facts c Hc)). }
    split_and!; [done|lia|]. rewrite Hv, Hlen, Hm. done. }
  destruct Hs as (? & ? & Hok). split_and!; [done..|]. intros ->. vm_compute in Hok. discriminate Hok.
Qed.

(** What the gateway receives cannot break out of its templates: an accepted host name
    consists of lower-case letters, digits, dots and dashes, has at most 253 characters
    and is accepted again unchanged; an accepted backend address holds no white space
    and none of the template characters, and its port is between 1 and 65535. *)
Theorem gateway_values_safe value :
  (∀ h, hostname value = Ok h → str_forall host_safe h = true ∧ strlen h <= 253 ∧ hostname h = Ok h) ∧
  (∀ a, host_port value = Ok a → str_forall template_safe a = true ∧
     ∃ host n, a = host +:+ ":" +:+ str_of_int n ∧ host ≠ "" ∧ 1 <= n <= 65535).
Proof.
  split.
  - intros h (? & ? & ? & _)%hostname_ok. done.
  - intros a. unfold host_port. destruct (rpartition ":" value) as [[host ?] port].
    destruct (empty host || negb (isdigit port)) eqn:E; [done|]. cbn [raise_if mbind result_bind].
    destruct (py_int port) as [n|]; [|done]. cbn [of_option mbind result_bind].
    destruct (negb _ || _) eqn:E2; [done|]. intros [= <-].
    apply orb_false_iff in E as [He _], E2 as [Hn Hc]. apply negb_false_iff in Hn. bool_to_prop.
    split.
    + rewrite str_forall_app. change (":" +:+ str_of_int n) with (String ":" (str_of_int n)). cbn [str_forall].
      apply andb_true_iff. split; [|apply andb_true_iff; split; [done|]].
      * unfold str_exists in Hc. apply negb_false_iff in Hc. eapply str_forall_impl; [|exact Hc].
        intros c. by apply unsafe_template.
      * unfold str_of_int. rewrite (proj2 (Z.ltb_ge n 0)) by lia.
        eapply str_forall_impl; [|apply nat_str_decimal; lia]. intros c. by apply decimal_template.
    + exists host, n. split_and!; [done| |lia|lia]. intros ->. done.
Qed.

Lemma gateway_values_safe_witness :
  hostname "vpn.example.com" = Ok "vpn.example.com" ∧
  ∃ host n, "192.0.2.20:8444" = host +:+ ":" +:+ str_of_int n ∧ host ≠ "" ∧ 1 <= n <= 65535.
Proof.
  split.
  - apply (gateway_values_safe " VPN.example.com. "). vm_compute. reflexivity.
  - apply (gateway_values_safe "192.0.2.20:08444"). vm_compute. reflexivity.
Defined.

(** A backend address whose port is written with a superscript digit is not refused with
    a PkiError, as every other bad address is: [isdigit] accepts the digit and [int]
    raises the ValueError that no caller catches. *)
Theorem host_port_superscript host :
  host_port (host +:+ ":" +:+ String (chr 178) "") = Raise ValueError ∨ host = "".
Proof.
  destruct host as [|c host]; [by right|]. left. unfold host_port.
  assert (Hr : rpartition ":" (String c host +:+ ":" +:+ String (chr 178) "") = (String c host, true, String (chr 178) "")).
  { generalize (String c host). intros s. induction s as [|d s IH]; [done|].
    change (String d s +:+ ?t) with (String d (s +:+ t)). cbn [rpartition]. by rewrite IH. }
  rewrite Hr. reflexivity.
Qed.
