(* ===== verification/Relay.v ===== *)
(** * Relay credentials and the policy service: [ui/app/relay.py], [ui/app/policy_server.py]

    The settings rows [relay_client:NAME] hold a JSON object with the serial and the
    secret of a credential; they are the map [grants], by name.  What [openssl] says
    about issued/NAME.crt ([cert_info]) and the status column of the PKI index are
    the record [pki_view].  [sha] is the hexadecimal SHA-256 digest.  [profile] is
    the credential of a profile; the property list around it and its signature are in [Signing]. *)

From S2P Require Import Prelude PyStr Mgmt Addressing.

Open Scope string_scope.
Open Scope list_scope.
Open Scope Z_scope.

(** ** Eligible certificates *)

Record cert := Cert {
  ce_cn : string;
  ce_serial : string;
  ce_not_before : option Z;
  ce_not_after : option Z;
}.

Record pki_view := PkiView {
  pv_issued : gmap string cert;                   (* cert_info of issued/NAME.crt *)
  pv_index : option (gmap string string);         (* serial to status; None: not readable *)
}.

(** The truth value of an optional number: [None] and 0 are false. *)
Definition or_zero (o : option Z) : Z := default 0 o.

Definition eligible (now : Z) (v : pki_view) (name : string) : result (option cert) :=
  _ ← validate_name name;
  match pv_issued v !! name with
  | None => Ok None
  | Some c =>
      if negb (String.eqb (ce_cn c) name) then Ok None
      else
        match pv_index v with
        | None => Ok None
        | Some index =>
            if negb (bool_decide (index !! ce_serial c = Some "V")) || (or_zero (ce_not_after c) =? 0)
               || (or_zero (ce_not_after c) <=? now) || (now <? or_zero (ce_not_before c))
            then Ok None else Ok (Some c)
        end
  end.

(** ** Credentials *)

Record grant := Grant { gr_serial : string; gr_secret : string }.

Record relay_config := RelayConfig { rc_enabled : bool; rc_url : string; rc_transport : string }.

Record relay_db := RelayDb {
  rd_config : relay_config;              (* the setting apple_relay *)
  rd_instance : option string;           (* the setting relay_instance *)
  rd_grants : gmap string grant;         (* the settings relay_client:NAME *)
}.

Definition revoke (name : string) (d : relay_db) : relay_db :=
  RelayDb (rd_config d) (rd_instance d) (delete name (rd_grants d)).

Definition credential_id (sha : string → string) (d : relay_db) (name : string) : string :=
  match rd_grants d !! name with Some g => sha (gr_secret g) | None => "" end.

(** [profile]: the new state and the bearer token; [uuid] and [secret] are the random
    values it may draw. *)
Definition profile (now : Z) (v : pki_view) (uuid secret : string) (name : string) (d : relay_db)
    : result (relay_db * string) :=
  c ← eligible now v name;
  _ ← raise_if (negb (rc_enabled (rd_config d))) (PkiError "Configure and enable Apple Network Relay in Settings first");
  match c with
  | None => Raise (PkiError "Relay profiles require a valid client certificate")
  | Some c =>
      let instance := default uuid (rd_instance d) in
      let g := match rd_grants d !! name with
               | Some g => if String.eqb (gr_serial g) (ce_serial c) then g else Grant (ce_serial c) secret
               | None => Grant (ce_serial c) secret
               end in
      Ok (RelayDb (rd_config d) (Some instance) (<[name := g]> (rd_grants d)), name +:+ ":" +:+ gr_secret g)
  end.

(** [renewed]: an explicit renewal keeps the credential and binds it to the new serial. *)
Definition renewed (now : Z) (v : pki_view) (name previous_serial : string) (d : relay_db) : result relay_db :=
  c ← eligible now v name;
  match c, rd_grants d !! name with
  | Some c, Some g =>
      if String.eqb (gr_serial g) previous_serial
      then Ok (RelayDb (rd_config d) (rd_instance d) (<[name := Grant (ce_serial c) (gr_secret g)]> (rd_grants d)))
      else Ok d
  | _, _ => Ok d
  end.

(** ** Authorization *)

Record portal := Portal { po_host : string; po_target : string; po_hosts : list (option string) }.

Record policy := Policy {
  pl_client : string;
  pl_credential_id : string;
  pl_guest : bool;
  pl_url : string;
  pl_allowed_cidrs : list string;
  pl_blocked_cidrs : list string;
  pl_portal : option portal;
}.

(** The network settings a guest's policy needs: the portal and the routes, or the
    exception their reading raises. *)
Abbreviation network_view := (result (option portal * list string)).

Definition authorize (sha : string → string) (now : Z) (v : pki_view) (guests_dir : gset string) (net : network_view)
    (strict_state : bool) (authorization : string) (d : relay_db) : result (option policy) :=
  if negb (startswith "Bearer " authorization) || (512 <? strlen authorization) then Ok None
  else
    let '(name, sep, secret) := partition ":"%char (str_drop 7 authorization) in
    if negb sep then Ok None
    else
      match rd_grants d !! name with
      | None => Ok None
      | Some g =>
          if negb (String.eqb secret (gr_secret g)) then Ok None
          else
            c ← eligible now v name;
            match c with
            | None => Ok None
            | Some c =>
                let guest := bool_decide (name ∈ guests_dir) in
                if negb (rc_enabled (rd_config d)) || negb (String.eqb (ce_serial c) (gr_serial g)) then Ok None
                else
                  match (if guest then net else Ok (None, [])) with
                  | Raise e =>
                      match e with
                      | OSError | ValueError => if strict_state then Raise e else Ok None
                      | _ => Raise e
                      end
                  | Ok (portal, routes) =>
                      Ok (Some (Policy name (sha (gr_secret g)) guest (rc_url (rd_config d)) ["0.0.0.0/0"; "::/0"] routes portal))
                  end
            end
      end.

(** ** The policy service *)

(** The answer of [do_POST]: a status and, for 200, the policy.  [state] is what the
    read-only connection and [check_metadata] give: the settings, or the exception. *)
Definition do_POST (sha : string → string) (now : Z) (v : pki_view) (guests_dir : gset string) (net : network_view)
    (path : string) (authorization : option string) (state : result relay_db) : result (Z * option policy) :=
  if negb (String.eqb path "/api/relay/authorize") then Ok (404, None)
  else
    match (d ← state; authorize sha now v guests_dir net true (default "" authorization) d) with
    | Ok (Some p) => Ok (200, Some p)
    | Ok None => Ok (403, None)
    | Raise e =>
        match e with
        | OSError | DatabaseError _ | ValueError | KeyError | TypeError => Ok (503, None)
        | _ => Raise e
        end
    end.

Definition do_GET (path : string) (state : result unit) : result Z :=
  if negb (String.eqb path "/healthz") then Ok 404
  else
    match state with
    | Ok _ => Ok 200
    | Raise e =>
        match e with
        | OSError | DatabaseError _ | ValueError => Ok 503
        | _ => Raise e
        end
    end.

(** [BoundedSemaphore(64)] of [PolicyServer]: the slots in use. *)
Definition SLOTS : nat := 64.
Inductive slot_event := Arrive | Finish.
(** A connection that finds no slot is shut down ([false]); a finished one frees its slot. *)
Definition process_request (used : nat) (ev : slot_event) : nat * option bool :=
  match ev with
  | Arrive => if Nat.ltb used SLOTS then (S used, Some true) else (used, Some false)
  | Finish => (Nat.pred used, None)
  end.

(** ** Lemmas *)

Lemma name_re_chars s : name_re s = true → str_forall name_char s = true.
Proof.
  destruct s as [|c s]; [done|]. cbn [name_re str_forall]. intros [[Hc Hs]%andb_true_iff _]%andb_true_iff.
  unfold name_char at 1. by rewrite Hc, Hs.
Qed.

Lemma name_re_no_colon s : name_re s = true → mem_char ":" s = false.
Proof.
  intros H%name_re_chars. revert H. unfold mem_char, str_exists.
  induction s as [|c s IH]; [done|]. cbn [str_forall]. intros [Hc Hs]%andb_true_iff.
  destruct (Ascii.eqb_spec ":" c) as [<-|]; [done|]. cbn. by apply IH.
Qed.

Lemma eligible_Some now v name c :
  eligible now v name = Ok (Some c) →
  name_re name = true ∧ pv_issued v !! name = Some c ∧ ce_cn c = name ∧
  (∃ index, pv_index v = Some index ∧ index !! ce_serial c = Some "V") ∧
  or_zero (ce_not_before c) <= now < or_zero (ce_not_after c).
Proof.
  unfold eligible. destruct (validate_name name) eqn:Hn; [|done]. cbn [mbind result_bind].
  apply validate_name_ok in Hn as [Hn _].
  destruct (pv_issued v !! name) as [c'|] eqn:Hi; [|done].
  destruct (String.eqb_spec (ce_cn c') name) as [Hcn|]; [|done]. cbn [negb].
  destruct (pv_index v) as [index|] eqn:Hx; [|done].
  destruct (_ || _) eqn:E; [done|]. intros [= <-]. bool_to_prop. split_and!; try done; try lia. eauto.
Qed.

(** What a granted request has shown. *)
Lemma authorize_Some sha now v guests_dir net strict h d p :
  authorize sha now v guests_dir net strict h d = Ok (Some p) →
  ∃ g c, h = "Bearer " +:+ pl_client p +:+ ":" +:+ gr_secret g ∧ mem_char ":" (pl_client p) = false ∧
    rd_grants d !! pl_client p = Some g ∧ eligible now v (pl_client p) = Ok (Some c) ∧
    ce_serial c = gr_serial g ∧ rc_enabled (rd_config d) = true ∧
    pl_guest p = bool_decide (pl_client p ∈ guests_dir) ∧
    (pl_guest p = true → net = Ok (pl_portal p, pl_blocked_cidrs p)) ∧
    (pl_guest p = false → pl_portal p = None ∧ pl_blocked_cidrs p = []) ∧
    pl_credential_id p = sha (gr_secret g) ∧ pl_url p = rc_url (rd_config d) ∧ pl_allowed_cidrs p = ["0.0.0.0/0"; "::/0"] ∧
    strlen h <= 512.
Proof.
  unfold authorize. destruct (startswith "Bearer " h) eqn:Hb; [|done]. apply startswith_iff in Hb as [t ->].
  cbn [negb orb]. destruct (Z.ltb_spec 512 (strlen ("Bearer " +:+ t))) as [|Hlen]; [done|]. change (str_drop 7 ("Bearer " +:+ t)) with t.
  destruct (partition ":" t) as [[name sep] secret] eqn:Hp. apply partition_spec in Hp as (Hname & Ht & _).
  destruct sep; [|done]. cbn [negb]. destruct (rd_grants d !! name) as [g|] eqn:Hg; [|done].
  destruct (String.eqb_spec secret (gr_secret g)) as [->|]; [|done]. cbn [negb].
  destruct (eligible now v name) as [[c|]|] eqn:Hc; [|done|done]. cbn [mbind result_bind].
  destruct (rc_enabled (rd_config d)) eqn:Hen; [|done]. destruct (String.eqb_spec (ce_serial c) (gr_serial g)); [|done].
  cbn [negb orb]. destruct (bool_decide (name ∈ guests_dir)) eqn:Hgst.
  - destruct net as [[po ro]|ex]; [|by destruct ex, strict]. intros [= <-]. exists g, c. cbn. subst t. by split_and!.
  - intros [= <-]. exists g, c. cbn. subst t. by split_and!.
Qed.

(** ** Theorems *)

(** C7. A relay request is granted only to the holder of a live credential: the policy
    names a client whose stored secret is the one presented, whose certificate is the
    one the credential is bound to, unrevoked and within its dates, while the relay is
    enabled; the policy carries the hash of that secret and the relay's own URL. A client
    in the guests' directory gets the portal and the blocked routes of the network settings,
    anybody else gets no portal and no blocked routes. *)
Theorem authorize_sound sha now v guests_dir net strict h d p :
  authorize sha now v guests_dir net strict h d = Ok (Some p) →
  ∃ g c index, h = "Bearer " +:+ pl_client p +:+ ":" +:+ gr_secret g ∧
    rd_grants d !! pl_client p = Some g ∧ gr_serial g = ce_serial c ∧
    pv_issued v !! pl_client p = Some c ∧ ce_cn c = pl_client p ∧
    pv_index v = Some index ∧ index !! ce_serial c = Some "V" ∧
    or_zero (ce_not_before c) <= now < or_zero (ce_not_after c) ∧
    rc_enabled (rd_config d) = true ∧
    pl_credential_id p = sha (gr_secret g) ∧ pl_url p = rc_url (rd_config d) ∧ strlen h <= 512 ∧
    (pl_client p ∈ guests_dir → pl_guest p = true ∧ net = Ok (pl_portal p, pl_blocked_cidrs p)) ∧
    (pl_client p ∉ guests_dir → pl_guest p = false ∧ pl_portal p = None ∧ pl_blocked_cidrs p = []).
Proof.
  intros (g & c & Hh & _ & Hg & Hc & Hs & Hen & Hgst & Hnet & Hnone & Hid & Hurl & _ & Hlen)%authorize_Some.
  apply eligible_Some in Hc as (_ & Hi & Hcn & (index & Hx & HV) & Ht).
  exists g, c, index. split_and!; try done; try lia.
  - intros Hin. rewrite bool_decide_eq_true_2 in Hgst by done. auto.
  - intros Hin. rewrite bool_decide_eq_false_2 in Hgst by done. auto.
Qed.

(** The credential of a profile works, and only until it is revoked or the
    certificate is replaced: the token of [profile] is accepted as the client it was
    made for, in any later state that keeps the credential; after [revoke] it is refused. *)
Theorem profile_token_authorizes sha now v uuid secret name d d' token guests_dir net :
  profile now v uuid secret name d = Ok (d', token) → is_ok net = true →
  strlen token <= 505 →
  (∃ p, authorize sha now v guests_dir net true ("Bearer " +:+ token) d' = Ok (Some p) ∧ pl_client p = name) ∧
  authorize sha now v guests_dir net true ("Bearer " +:+ token) (revoke name d') = Ok None ∧
  (∀ c, pv_issued v !! name = Some c → (∃ g, rd_grants d' !! name = Some g ∧ gr_serial g = ce_serial c)).
Proof.
  unfold profile. intros H Hnet Hlen. destruct (eligible now v name) as [oc|] eqn:Hc; [|done]. cbn [mbind result_bind] in H.
  destruct (rc_enabled (rd_config d)) eqn:Hen; [|done]. cbn [negb raise_if mbind result_bind] in H.
  destruct oc as [c|]; [|done]. injection H as <- <-.
  set (g := match rd_grants d !! name with Some g => _ | None => _ end).
  assert (Hser : gr_serial g = ce_serial c).
  { unfold g. destruct (rd_grants d !! name) as [g0|]; [|done]. by destruct (String.eqb_spec (gr_serial g0) (ce_serial c)). }
  pose proof (eligible_Some _ _ _ _ Hc) as (Hn & Hi & _). fold g in Hlen.
  assert (Hhead : ∀ dd, authorize sha now v guests_dir net true ("Bearer " +:+ name +:+ ":" +:+ gr_secret g) dd =
    match rd_grants dd !! name with
    | None => Ok None
    | Some g' => if negb (String.eqb (gr_secret g) (gr_secret g')) then Ok None
        else c ← eligible now v name;
            match c with
            | None => Ok None
            | Some c =>
                let guest := bool_decide (name ∈ guests_dir) in
                if negb (rc_enabled (rd_config dd)) || negb (String.eqb (ce_serial c) (gr_serial g')) then Ok None
                else
                  match (if guest then net else Ok (None, [])) with
                  | Raise e => match e with OSError | ValueError => Raise e | _ => Raise e end
                  | Ok (portal, routes) =>
                      Ok (Some (Policy name (sha (gr_secret g')) guest (rc_url (rd_config dd)) ["0.0.0.0/0"; "::/0"] routes portal))
                  end
            end
    end).
  { intros dd. unfold authorize. rewrite (proj2 (startswith_iff _ _)) by eauto. cbn [negb orb].
    assert (512 <? strlen ("Bearer " +:+ name +:+ ":" +:+ gr_secret g) = false) as ->.
    { apply Z.ltb_ge. unfold strlen in *. rewrite str_length_app. change (String.length "Bearer ") with 7%nat. change (":" +:+ gr_secret g) with (String ":" (gr_secret g)). lia. }
    change (str_drop 7 ("Bearer " +:+ ?t)) with t. change (":" +:+ gr_secret g) with (String ":" (gr_secret g)).
    rewrite partition_app by (by apply name_re_no_colon). done. }
  split_and!.
  - rewrite Hhead. cbn [rd_grants rd_config]. rewrite lookup_insert_eq, String.eqb_refl, Hc. cbn [negb mbind result_bind].
    rewrite Hen, Hser, String.eqb_refl. cbn [negb orb].
    destruct (bool_decide (name ∈ guests_dir)); [|eauto]. destruct net as [[po ro]|]; [eauto|done].
  - rewrite Hhead. cbn [revoke rd_grants]. by rewrite lookup_delete_eq.
  - intros c' Hc'. assert (c' = c) as -> by congruence. exists g. cbn. by rewrite lookup_insert_eq.
Qed.

Definition demo_cert : cert := Cert "alice" "A1" (Some 100) (Some 900).
Definition demo_pki : pki_view := PkiView {["alice" := demo_cert]} (Some {["A1" := "V"]}).
Definition demo_relay : relay_db := RelayDb (RelayConfig true "https://relay.example.com" "http2") None ∅.

Definition demo_granted : relay_db := RelayDb (RelayConfig true "u" "http2") None {["alice" := Grant "A1" "s3"]}.

Lemma authorize_sound_witness :
  authorize (fun s => s) 500 demo_pki ∅ (Ok (None, ["10.0.0.0/8"])) true "Bearer alice:s3" demo_granted
    = Ok (Some (Policy "alice" "s3" false "u" ["0.0.0.0/0"; "::/0"] [] None)) ∧
  ∃ g c (index : gmap string string), rd_grants demo_granted !! "alice" = Some g ∧ gr_serial g = ce_serial c
    ∧ index !! ce_serial c = Some "V".
Proof.
  split; [vm_compute; reflexivity|].
  destruct (authorize_sound (fun s => s) 500 demo_pki ∅ (Ok (None, ["10.0.0.0/8"])) true "Bearer alice:s3" demo_granted
    (Policy "alice" "s3" false "u" ["0.0.0.0/0"; "::/0"] [] None))
    as (g & c & index & _ & Hg & Hs & _ & _ & _ & HV & _).
  - vm_compute. reflexivity.
  - exists g, c, index. split; [exact Hg|]. split; [exact Hs|exact HV].
Defined.

Lemma profile_token_authorizes_witness :
  ∃ d', profile 500 demo_pki "id" "s3cr3t" "alice" demo_relay = Ok (d', "alice:s3cr3t") ∧
    authorize (fun s => s) 500 demo_pki ∅ (Ok (None, [])) true "Bearer alice:s3cr3t" (revoke "alice" d') = Ok None.
Proof.
  eexists. split; [vm_compute; reflexivity|].
  eapply (profile_token_authorizes (fun s => s) 500 demo_pki "id" "s3cr3t" "alice" demo_relay _ "alice:s3cr3t" ∅ (Ok (None, []))).
  - vm_compute. reflexivity.
  - reflexivity.
  - vm_compute. discriminate.
Defined.

(** A credential follows an explicit renewal and nothing else: when the certificate of
    a name is another one than the credential is bound to, every request with the
    credential is refused; [renewed] binds it to the new certificate exactly when it was bound
    to the previous serial, and keeps the secret. *)
Theorem renewal_keeps_credential sha now v guests_dir net strict name c g d d' previous h :
  eligible now v name = Ok (Some c) → rd_grants d !! name = Some g →
  renewed now v name previous d = Ok d' →
  rd_grants d' !! name = Some (if String.eqb (gr_serial g) previous then Grant (ce_serial c) (gr_secret g) else g) ∧
  (∀ other, other ≠ name → rd_grants d' !! other = rd_grants d !! other) ∧
  (gr_serial g ≠ ce_serial c → ∀ p, authorize sha now v guests_dir net strict h d = Ok (Some p) → pl_client p ≠ name).
Proof.
  intros Hc Hg. unfold renewed. rewrite Hc. cbn [mbind result_bind]. rewrite Hg. intros H. split_and!.
  - destruct (String.eqb (gr_serial g) previous); injection H as <-; [cbn; by rewrite lookup_insert_eq|done].
  - intros other Hne. destruct (String.eqb (gr_serial g) previous); injection H as <-; [|done].
    cbn. by rewrite lookup_insert_ne.
  - intros Hser p (g' & c' & _ & _ & Hg' & Hc' & Hs' & _)%authorize_Some Hp. subst name. congruence.
Qed.

Lemma renewal_keeps_credential_witness :
  ∃ d', renewed 500 demo_pki "alice" "A0" (RelayDb (RelayConfig true "u" "http2") None {["alice" := Grant "A0" "s3"]}) = Ok d'
    ∧ rd_grants d' !! "alice" = Some (Grant "A1" "s3").
Proof.
  eexists. split; [vm_compute; reflexivity|].
  refine (proj1 (renewal_keeps_credential (fun s => s) 500 demo_pki ∅ (Ok (None, [])) true "alice" demo_cert (Grant "A0" "s3")
    (RelayDb (RelayConfig true "u" "http2") None {["alice" := Grant "A0" "s3"]}) _ "A0" "" _ _ _)); vm_compute; reflexivity.
Defined.

(** The policy service fails closed: it answers 200 only with a policy that
    [authorize] gave on state it could read; state that cannot be read is 503, a refused
    credential 403, another path 404. *)
Theorem policy_service_fails_closed sha now v guests_dir net path h state r :
  do_POST sha now v guests_dir net path h state = Ok r →
  (r.1 = 200 ∧ path = "/api/relay/authorize" ∧
     ∃ d p, state = Ok d ∧ r.2 = Some p ∧ authorize sha now v guests_dir net true (default "" h) d = Ok (Some p)) ∨
  (r.2 = None ∧ (r.1 = 403 ∨ r.1 = 404 ∨ r.1 = 503) ∧ (r.1 = 404 ↔ path ≠ "/api/relay/authorize") ∧
     (r.1 = 403 → ∃ d, state = Ok d)).
Proof.
  unfold do_POST. destruct (String.eqb_spec path "/api/relay/authorize") as [->|Hp]; cbn [negb].
  - destruct state as [d|e].
    + cbn [mbind result_bind]. destruct (authorize _ _ _ _ _ _ _ d) as [[p|]|e] eqn:Ha.
      * intros [= <-]. left. cbn. eauto 10.
      * intros [= <-]. right. cbn. split_and!; [done|auto|done|eauto].
      * destruct e; intros [= <-]; right; cbn; (split_and!; [done|auto|done|done]).
    + cbn [mbind result_bind]. destruct e; intros [= <-]; right; cbn; (split_and!; [done|auto|done|done]).
  - intros [= <-]. right. cbn. split_and!; [done|auto|done|done].
Qed.

Lemma policy_service_fails_closed_witness :
  do_POST (fun s => s) 500 demo_pki ∅ (Ok (None, [])) "/api/relay/authorize" None (Raise OSError) = Ok (503, None) ∧
  ((503, @None policy).1 = 404 ↔ "/api/relay/authorize" ≠ "/api/relay/authorize").
Proof.
  split; [reflexivity|].
  destruct (policy_service_fails_closed (fun s => s) 500 demo_pki ∅ (Ok (None, [])) "/api/relay/authorize" None (Raise OSError)
    (503, None) eq_refl) as [(H & _)|(_ & _ & H & _)]; [discriminate H|exact H].
Defined.
