(* ===== verification/Access.v ===== *)
(** * Who may do what: signing in, the guest portal listener, one-time links

    The request handlers of [ui/app/main.py] around accounts and shared profiles, and
    [ui/app/portal_boundary.py].  [sha], [scrypt] and the random values are arguments,
    as in [Auth]; [issued] is whether issued/NAME.crt exists. *)

From S2P Require Import Prelude PyStr Schema Auth Traffic Mgmt Addressing Relay.

Open Scope string_scope.
Open Scope list_scope.
Open Scope Z_scope.

(** ** Requests *)

(** Header names are in lower case; a name can occur more than once. *)
Record request := Request {
  rq_ip : option string;
  rq_headers : list (string * string);
  rq_cookie : option string;               (* the cookie ovpn_session *)
  rq_path : string;
}.

Definition header (r : request) (k : string) : option string :=
  snd <$> find (fun h => String.eqb h.1 k) (rq_headers r).

Definition client_ip (r : request) : string := default "?" (rq_ip r).
Definition portal_only (r : request) : bool := bool_decide (header r "x-openvpn-portal-only" = Some "1").

(** ** The portal boundary *)

Definition portal_path (path : string) : bool :=
  String.eqb path "/portal" || String.eqb path "/api/portal"
  || startswith "/api/portal/" path || startswith "/static/" path.

Inductive boundary := Pass | Redirect | NotFound.

(** [PortalBoundary.__call__]: any header of that name with the value 1 restricts. *)
Definition portal_boundary (http : bool) (r : request) : boundary :=
  let restricted := http && existsb (fun h => String.eqb h.1 "x-openvpn-portal-only" && String.eqb h.2 "1") (rq_headers r) in
  if restricted && negb (portal_path (rq_path r))
  then if String.eqb (rq_path r) "/" then Redirect else NotFound
  else Pass.

(** ** Sessions *)

Section access.
Context (sha : string → string) (scrypt : scrypt_fn) (ttl : Z).

(** [signed_in_user]: the tables change when the session is extended or ended. *)
Definition signed_in_user (now : Z) (v : pki_view) (r : request) (d : database) : database * result session_user :=
  let '(d, user) := get_session_user sha now (rq_cookie r) ttl true d in
  match user with
  | None => (d, Raise (HTTPException 401 "Not authenticated"))
  | Some u =>
      match su_role u with
      | Admin => (d, if portal_only r then Raise (HTTPException 401 "Not authenticated") else Ok u)
      | Client =>
          match eligible now v (default "" (su_client_name u)) with
          | Raise e => (d, Raise e)
          | Ok c =>
              if match c with Some c => bool_decide (su_client_serial u = Some (ce_serial c)) | None => false end
              then (d, Ok u)
              else (delete_session sha (rq_cookie r) d, Raise (HTTPException 401 "Client access is no longer valid"))
          end
      end
  end.

Definition current_user (now : Z) (v : pki_view) (r : request) (d : database) : database * result session_user :=
  match signed_in_user now v r d with
  | (d, Ok u) => (d, match su_role u with Admin => Ok u | Client => Raise (HTTPException 403 "Administrator access required") end)
  | (d, Raise e) => (d, Raise e)
  end.

(** ** Signing in *)

Definition IP_ATTEMPTS : Z := 20.

Record site := Site { si_db : database; si_limiter : limiter_state }.

Definition user_named (username : string) (d : database) : option (Z * user_row) :=
  find_row (fun u => String.eqb (u_username u) username) (users d).

Definition set_password (hash : string) (u : user_row) : user_row :=
  UserRow (u_username u) hash (u_created_at u) (u_last_login u) (u_client_name u) (u_client_serial u).
Definition set_last_login (now : Z) (u : user_row) : user_row :=
  UserRow (u_username u) (u_password_hash u) (u_created_at u) (Some now) (u_client_name u) (u_client_serial u).

(** What a login draws and reads: the clocks, the salt and the token. *)
Record login_env := LoginEnv { le_now : Z; le_ns : Z; le_salt : string; le_token : string }.

(** Whether the account of a client is of its current certificate. *)
Definition valid_client (now : Z) (v : pki_view) (u : user_row) : result bool :=
  match u_client_name u with
  | None => Ok true
  | Some n =>
      c ← eligible now v n;
      Ok match c with Some c => bool_decide (u_client_serial u = Some (ce_serial c)) | None => false end
  end.

(** The part of [login] after the password was accepted. *)
Definition finish_login (env : login_env) (r : request) (id : Z) (u : user_row) (password : string) (d : database)
    : result database :=
  d ← (if needs_rehash (u_password_hash u)
       then h ← hash_password scrypt (le_salt env) password; Ok (upd_users (alter (set_password h) id) d)
       else Ok d);
  let d := create_session sha (le_token env) (le_now env) id ttl (Some (client_ip r)) (header r "user-agent") d in
  let d := upd_users (alter (set_last_login (le_now env)) id) d in
  Ok (add_event (le_now env) "login" None (Some (u_username u)) (Some (client_ip r)) d).

(** [login]: the new state, and the role and client name of the answer. *)
Definition login (L : limiter) (env : login_env) (v : pki_view) (r : request) (username password : string) (s : site)
    : site * result (role * option string) :=
  let ip := client_ip r in
  let key := ip +:+ "|" +:+ lower username in
  match attempt L (si_limiter s) [(ip, IP_ATTEMPTS); (key, threshold L)] (le_ns env) with
  | Raise e => (s, Raise e)
  | Ok (lim, wait) =>
      let s := Site (si_db s) lim in
      if negb (wait =? 0) then (s, Raise (HTTPException 429 ("Too many attempts, try again in " +:+ str_of_int wait +:+ "s")))
      else
        let refused :=
          (Site (add_event (le_now env) "login_failed" None (Some (str_take 64 username)) (Some ip) (si_db s)) lim,
           Raise (HTTPException 401 "Invalid username or password")) in
        match user_named username (si_db s) with
        | None => refused
        | Some (id, u) =>
            match valid_client (le_now env) v u with
            | Raise e => (s, Raise e)
            | Ok valid =>
                let admin_on_guest_listener := bool_decide (u_client_name u = None) && portal_only r in
                if negb (verify_password scrypt password (u_password_hash u)) || negb valid || admin_on_guest_listener
                then refused
                else
                  let lim := success (success lim ip) key in
                  match finish_login env r id u password (si_db s) with
                  | Raise e => (Site (si_db s) lim, Raise e)
                  | Ok d => (Site d lim, Ok (match u_client_name u with Some _ => Client | None => Admin end, u_client_name u))
                  end
            end
        end
  end.

Definition logout (r : request) (d : database) : database := delete_session sha (rq_cookie r) d.

(** [change_password] for the signed-in user [u]. *)
Definition change_password (now : Z) (salt : string) (r : request) (u : session_user) (current new : string) (d : database)
    : result database :=
  let row := users d !! su_id u in
  _ ← raise_if (negb match row with Some x => verify_password scrypt current (u_password_hash x) | None => false end)
        (HTTPException 400 "Current password is incorrect");
  h ← hash_password scrypt salt new;
  let d := upd_users (alter (set_password h) (su_id u)) d in
  let d := delete_user_sessions sha (su_id u) (rq_cookie r) d in
  Ok (add_event now "password_changed" None (Some (su_username u)) None d).

(** [disable_portal]: the account of a client and its sessions. *)
Definition client_account (name : string) (d : database) : option (Z * user_row) :=
  find_row (fun u => bool_decide (u_client_name u = Some name)) (users d).

Definition disable_portal (name : string) (d : database) : database :=
  match client_account name d with
  | Some (id, _) => upd_users (delete id) (delete_user_sessions sha id None d)
  | None => d
  end.

(** [set_portal_account] behind [find_client]; [actor] is the administrator. *)
Definition set_portal_account (now : Z) (v : pki_view) (salt name username password actor : string) (d : database)
    : result database :=
  c ← eligible now v name;
  match c with
  | None => Raise (HTTPException 400 "Portal access requires a valid client certificate")
  | Some c =>
      h ← hash_password scrypt salt password;
      _ ← raise_if (match user_named username d with
                    | Some (_, u) => negb (bool_decide (u_client_name u = Some name))
                    | None => false
                    end) (HTTPException 400 "This username is already in use");
      let d :=
        match client_account name d with
        | Some (id, _) =>
            let d := upd_web_sessions (filter (fun kv => ws_user_id kv.2 ≠ id)) d in
            upd_users (alter (fun u => UserRow username h (u_created_at u) (u_last_login u) (u_client_name u)
                                         (Some (ce_serial c))) id) d
        | None => insert_user (UserRow username h now None (Some name) (Some (ce_serial c))) d
        end in
      Ok (add_event now "portal_access_set" (Some name) (Some actor) None d)
  end.

(** ** One-time profile links *)

(** [share_profile]; [state] is the state column of the row [find_client] found. *)
Definition share_profile (now hours : Z) (token name state actor : string) (d : database) : result database :=
  _ ← raise_if (negb (String.eqb state "valid")) (HTTPException 400 "Only a client with a valid certificate can be shared");
  match share_tokens d !! sha token with
  | Some _ => Raise (DatabaseError "UniqueViolation")
  | None =>
      let d := upd_share (<[sha token := ShareToken name now (now + hours * 3600) None (Some actor)]>) d in
      Ok (add_event now "profile_link_created" (Some name) (Some actor) (Some ("valid " +:+ str_of_int hours +:+ " h")) d)
  end.

(** The look-up of [shared_client], after the throttle. *)
Definition link_client (now : Z) (issued : string → bool) (token : string) (d : database) : result string :=
  match share_tokens d !! sha token with
  | Some t =>
      if bool_decide (st_used_at t = None) && (now <? st_expires_at t) && issued (st_client_name t)
      then Ok (st_client_name t)
      else Raise (HTTPException 404 "This link is invalid, expired or already used")
  | None => Raise (HTTPException 404 "This link is invalid, expired or already used")
  end.

Definition shared_client (L : limiter) (now now_ns : Z) (issued : string → bool) (token : string) (r : request) (s : site)
    : site * result string :=
  let key := "share|" +:+ client_ip r in
  match attempt L (si_limiter s) [(key, threshold L)] now_ns with
  | Raise e => (s, Raise e)
  | Ok (lim, wait) =>
      if negb (wait =? 0)
      then (Site (si_db s) lim, Raise (HTTPException 429 ("Too many attempts, try again in " +:+ str_of_int wait +:+ "s")))
      else
        match link_client now issued token (si_db s) with
        | Ok name => (Site (si_db s) (success lim key), Ok name)
        | Raise e => (Site (si_db s) lim, Raise e)
        end
  end.

(** The transaction of [shared_profile]: [UPDATE ... WHERE used_at IS NULL] and the event. *)
Definition spend_link (now : Z) (token name : string) (ip : string) (d : database) : database * bool :=
  match share_tokens d !! sha token with
  | Some t =>
      if bool_decide (st_used_at t = None)
      then (add_event now "profile_link_used" (Some name) None (Some ip)
              (upd_share (<[sha token := ShareToken (st_client_name t) (st_created_at t) (st_expires_at t) (Some now)
                                            (st_created_by t)]>) d), true)
      else (d, false)
  | None => (d, false)
  end.

(** [shared_profile]: look up, build the profile, spend the link; [now2] is the second
    reading of the clock. *)
Definition shared_profile (L : limiter) (now now_ns now2 : Z) (issued : string → bool)
    (build_profile : string → result string) (token : string) (r : request) (s : site) : site * result string :=
  match shared_client L now now_ns issued token r s with
  | (s, Raise e) => (s, Raise e)
  | (s, Ok name) =>
      match build_profile name with
      | Raise e => (s, Raise e)
      | Ok content =>
          let '(d, spent) := spend_link now2 token name (client_ip r) (si_db s) in
          (Site d (si_limiter s),
           if spent then Ok content else Raise (HTTPException 404 "This link is invalid, expired or already used"))
      end
  end.

Definition drop_share_links (name : string) (d : database) : database :=
  upd_share (filter (fun kv => st_client_name kv.2 ≠ name)) d.
End access.

(** ** Account tables: unique names *)

(** The constraints of the table users: UNIQUE (username), the index users_client and
    an identity column that has not been reached. *)
Record accounts_ok (d : database) : Prop := AccountsOk {
  ao_seq : ∀ id u, users d !! id = Some u → id < users_seq d;
  ao_username : ∀ i j u w, users d !! i = Some u → users d !! j = Some w → u_username u = u_username w → i = j;
  ao_client : ∀ i j u w n, users d !! i = Some u → users d !! j = Some w →
    u_client_name u = Some n → u_client_name w = Some n → i = j;
}.

Lemma user_named_Some username d id u :
  user_named username d = Some (id, u) → users d !! id = Some u ∧ u_username u = username.
Proof. intros [Hu Hn]%find_row_Some. by apply String.eqb_eq in Hn. Qed.

Lemma user_named_None username d id u :
  user_named username d = None → users d !! id = Some u → u_username u ≠ username.
Proof. intros Hn Hu. by apply String.eqb_neq, (proj1 (find_row_None _ _) Hn id). Qed.

Lemma client_account_Some name d id u :
  client_account name d = Some (id, u) → users d !! id = Some u ∧ u_client_name u = Some name.
Proof. intros [Hu Hn]%find_row_Some. by apply bool_decide_eq_true in Hn. Qed.

Lemma client_account_None name d id u :
  client_account name d = None → users d !! id = Some u → u_client_name u ≠ Some name.
Proof. intros Hn Hu. by eapply bool_decide_eq_false_1, (proj1 (find_row_None _ _) Hn id). Qed.

Lemma accounts_ok_users d d' : users d' = users d → users_seq d' = users_seq d → accounts_ok d → accounts_ok d'.
Proof. intros Hu Hs [H1 H2 H3]. split; rewrite ?Hu, ?Hs; assumption. Qed.

Lemma accounts_ok_event now kind c a t d : accounts_ok d → accounts_ok (add_event now kind c a t d).
Proof. by apply accounts_ok_users. Qed.

Lemma accounts_ok_sessions f d : accounts_ok d → accounts_ok (upd_web_sessions f d).
Proof. by apply accounts_ok_users. Qed.

(** A change of one row that keeps its names keeps the constraints. *)
Lemma accounts_ok_alter d f id :
  (∀ u, u_username (f u) = u_username u ∧ u_client_name (f u) = u_client_name u) →
  accounts_ok d → accounts_ok (upd_users (alter f id) d).
Proof.
  intros Hf [Hs Hu Hc].
  assert (Hl : ∀ i u, alter f id (users d) !! i = Some u →
             ∃ w, users d !! i = Some w ∧ u_username u = u_username w ∧ u_client_name u = u_client_name w).
  { intros i u. rewrite lookup_alter_Some. intros [(-> & w & Hw & ->)|[_ Hi]]; [|eauto].
    exists w. by destruct (Hf w). }
  split; simpl.
  - intros i u (w & Hw & _)%Hl. eauto.
  - intros i j u w (u' & Hu' & -> & _)%Hl (w' & Hw' & -> & _)%Hl. eauto.
  - intros i j u w n (u' & Hu' & _ & ->)%Hl (w' & Hw' & _ & ->)%Hl. eauto.
Qed.

Lemma accounts_ok_delete d id : accounts_ok d → accounts_ok (upd_users (delete id) d).
Proof.
  intros [Hs Hu Hc]. split; simpl.
  - intros i u [_ Hi]%lookup_delete_Some. eauto.
  - intros i j u w [_ Hi]%lookup_delete_Some [_ Hj]%lookup_delete_Some. eauto.
  - intros i j u w n [_ Hi]%lookup_delete_Some [_ Hj]%lookup_delete_Some. eauto.
Qed.

Lemma user_named_unique d username id u :
  accounts_ok d → users d !! id = Some u → u_username u = username → user_named username d = Some (id, u).
Proof.
  intros Hok Hu Hn. destruct (user_named username d) as [[j w]|] eqn:Hj.
  - apply user_named_Some in Hj as [Hj Hw]. assert (j = id) as -> by (eapply (ao_username d Hok); eauto; congruence).
    congruence.
  - by destruct (user_named_None _ _ _ _ Hj Hu).
Qed.

Lemma client_account_unique d name id u :
  accounts_ok d → users d !! id = Some u → u_client_name u = Some name → client_account name d = Some (id, u).
Proof.
  intros Hok Hu Hn. destruct (client_account name d) as [[j w]|] eqn:Hj.
  - apply client_account_Some in Hj as [Hj Hw]. assert (j = id) as -> by (eapply (ao_client d Hok); eauto).
    congruence.
  - by destruct (client_account_None _ _ _ _ Hj Hu).
Qed.

(** The two writes of [set_portal_account]. *)
Lemma accounts_ok_rename d id name username h serial u :
  accounts_ok d → users d !! id = Some u → u_client_name u = Some name →
  (∀ j w, users d !! j = Some w → u_username w = username → u_client_name w = Some name) →
  accounts_ok (upd_users (alter (fun u => UserRow username h (u_created_at u) (u_last_login u) (u_client_name u) serial) id) d).
Proof.
  intros Hok Hid Hname Hfree.
  set (f := fun u => UserRow username h (u_created_at u) (u_last_login u) (u_client_name u) serial).
  assert (Hl : ∀ i w, alter f id (users d) !! i = Some w →
     ∃ w0, users d !! i = Some w0 ∧ u_client_name w = u_client_name w0 ∧
           u_username w = if decide (i = id) then username else u_username w0).
  { intros i w. rewrite lookup_alter_Some. intros [(-> & w0 & Hw & ->)|[Hne Hi]].
    - exists w0. by rewrite decide_True.
    - exists w. rewrite decide_False by congruence. done. }
  assert (Hmine : ∀ j w, users d !! j = Some w → u_username w = username → j = id).
  { intros j w Hj Hw. eapply (ao_client d Hok); eauto. }
  split; simpl.
  - intros i w (w0 & Hw & _)%Hl. by eapply ao_seq.
  - intros i j w x (w0 & Hw & _ & ->)%Hl (x0 & Hx & _ & ->)%Hl.
    repeat case_decide; subst; auto; intros Heq; first [symmetry; by eapply Hmine | by eapply Hmine | by eapply (ao_username d Hok)].
  - intros i j w x n (w0 & Hw & -> & _)%Hl (x0 & Hx & -> & _)%Hl. by eapply ao_client.
Qed.

Lemma accounts_ok_insert d row :
  accounts_ok d → (∀ j w, users d !! j = Some w → u_username w ≠ u_username row) →
  (∀ j w n, users d !! j = Some w → u_client_name row = Some n → u_client_name w ≠ Some n) →
  accounts_ok (insert_user row d).
Proof.
  intros [Hs Hu Hc] Hun Hcn. split; simpl.
  - intros i w [[<- <-]|[_ Hi]]%lookup_insert_Some; [lia|]. apply Hs in Hi. lia.
  - intros i j w x [[<- <-]|[_ Hi]]%lookup_insert_Some [[<- <-]|[_ Hj]]%lookup_insert_Some Heq; [done| | |by eapply Hu].
    + by destruct (Hun _ _ Hj).
    + by destruct (Hun _ _ Hi).
  - intros i j w x n [[<- <-]|[_ Hi]]%lookup_insert_Some [[<- <-]|[_ Hj]]%lookup_insert_Some Hw Hx; [done| | |by eapply Hc].
    + by destruct (Hcn _ _ _ Hj Hw).
    + by destruct (Hcn _ _ _ Hi Hx).
Qed.

Lemma set_portal_account_ok scrypt now v salt name username password actor d d' :
  set_portal_account scrypt now v salt name username password actor d = Ok d' →
  accounts_ok d → accounts_ok d' ∧
  ∃ c id u, eligible now v name = Ok (Some c) ∧ users d' !! id = Some u ∧ u_username u = username ∧
    u_client_name u = Some name ∧ u_client_serial u = Some (ce_serial c) ∧
    hash_password scrypt salt password = Ok (u_password_hash u) ∧
    (∀ h s, web_sessions d' !! h = Some s → users d !! id ≠ None → ws_user_id s ≠ id).
Proof.
  unfold set_portal_account. intros H Hok. inv_result. destruct a as [c|]; [|done]. inv_result.
  assert (Hfree : ∀ j w, users d !! j = Some w → u_username w = username → u_client_name w = Some name).
  { intros j w Hj Hw. match goal with E : match user_named _ _ with _ => _ end = false |- _ => rewrite (user_named_unique d username j w Hok Hj Hw) in E end. by bool_to_prop. }
  destruct (client_account name d) as [[id u]|] eqn:Ha.
  - apply client_account_Some in Ha as [Hid Hname]. split.
    + apply accounts_ok_event.
      apply (accounts_ok_rename (upd_web_sessions _ d) id name username _ _ u); [by apply accounts_ok_sessions|done..].
    + exists c, id, (UserRow username a (u_created_at u) (u_last_login u) (u_client_name u) (Some (ce_serial c))).
      cbn. rewrite lookup_alter_eq, Hid. split_and!; try done.
      intros h s [_ Hs]%map_lookup_filter_Some _. exact Hs.
  - split.
    + apply accounts_ok_event, accounts_ok_insert; [done| |]; cbn.
      * intros j w Hj Hw. destruct (client_account_None _ _ _ _ Ha Hj). eauto.
      * intros j w n Hj [= <-]. by eapply client_account_None.
    + exists c, (users_seq d), (UserRow username a now None (Some name) (Some (ce_serial c))).
      cbn. rewrite lookup_insert_eq. split_and!; try done.
      intros h s _ []. destruct (users d !! users_seq d) eqn:Hseq; [|done]. apply (ao_seq d Hok) in Hseq. lia.
Qed.

(** ** The handlers, branch by branch *)

Lemma finish_login_Ok sha scrypt ttl env r id u password d d' :
  finish_login sha scrypt ttl env r id u password d = Ok d' → users d !! id = Some u →
  web_sessions d' = <[sha (le_token env) :=
      WebSession id (le_now env) (le_now env + ttl) (Some (client_ip r)) (str_take 200 (default "" (header r "user-agent")))]>
      (web_sessions d) ∧
  (∃ h, (h = u_password_hash u ∧ needs_rehash h = false ∨ hash_password scrypt (le_salt env) password = Ok h) ∧
        users d' = <[id := UserRow (u_username u) h (u_created_at u) (Some (le_now env)) (u_client_name u) (u_client_serial u)]> (users d)) ∧
  users_seq d' = users_seq d ∧ share_tokens d' = share_tokens d.
Proof.
  unfold finish_login. intros H Hid. destruct (needs_rehash (u_password_hash u)) eqn:Hn.
  - destruct (hash_password scrypt (le_salt env) password) as [h|] eqn:Hh; [|done]. cbn [mbind result_bind] in H.
    injection H as <-. cbn. split_and!; try done. exists h. split; [by right|].
    apply map_eq. intros i. destruct (decide (i = id)) as [->|Hne].
    + by rewrite !lookup_alter_eq, Hid, lookup_insert_eq.
    + by rewrite !lookup_alter_ne, lookup_insert_ne by done.
  - cbn [mbind result_bind] in H. injection H as <-. cbn. split_and!; try done. exists (u_password_hash u). split; [by left|].
    apply map_eq. intros i. destruct (decide (i = id)) as [->|Hne].
    + by rewrite lookup_alter_eq, Hid, lookup_insert_eq.
    + by rewrite lookup_alter_ne, lookup_insert_ne by done.
Qed.

Lemma valid_client_true now v u :
  valid_client now v u = Ok true →
  ∀ n, u_client_name u = Some n → ∃ c, eligible now v n = Ok (Some c) ∧ u_client_serial u = Some (ce_serial c).
Proof.
  unfold valid_client. intros H n Hn. rewrite Hn in H.
  destruct (eligible now v n) as [[c|]|]; [|done|done]. cbn [mbind result_bind] in H. injection H as H.
  apply bool_decide_eq_true in H. eauto.
Qed.

(** What [login] has checked when it answers, and what it has changed. *)
Lemma login_Ok sha scrypt ttl L env v r username password s s' ro cn :
  login sha scrypt ttl L env v r username password s = (s', Ok (ro, cn)) →
  ∃ id u, user_named username (si_db s) = Some (id, u) ∧ users (si_db s) !! id = Some u ∧
    verify_password scrypt password (u_password_hash u) = true ∧ cn = u_client_name u ∧
    ro = match cn with Some _ => Client | None => Admin end ∧
    (cn = None → portal_only r = false) ∧
    valid_client (le_now env) v u = Ok true ∧
    finish_login sha scrypt ttl env r id u password (si_db s) = Ok (si_db s').
Proof.
  unfold login. intros H. destruct (attempt _ _ _ _) as [[lim wait]|]; [|done].
  destruct (wait =? 0); [|done]. cbn [negb] in H.
  cbn [si_db] in H. destruct (user_named username (si_db s)) as [[id u]|] eqn:Hu; [|done].
  destruct (valid_client (le_now env) v u) as [valid|] eqn:Hv; [|done].
  destruct (verify_password scrypt password (u_password_hash u)) eqn:Hpw; [|done].
  destruct valid; [|done]. cbn [negb orb] in H.
  destruct (bool_decide (u_client_name u = None) && portal_only r) eqn:Hadm; [done|].
  destruct (finish_login _ _ _ _ _ _ _ _ _) as [d|] eqn:Hf; [|done]. injection H as <- <- <-.
  exists id, u. split_and!; try done; [by apply user_named_Some in Hu as [? _]|].
  intros Hc. rewrite Hc in Hadm. by rewrite bool_decide_eq_true_2 in Hadm.
Qed.

Lemma login_Raise sha scrypt ttl L env v r username password s s' e :
  login sha scrypt ttl L env v r username password s = (s', Raise e) →
  users (si_db s') = users (si_db s) ∧ web_sessions (si_db s') = web_sessions (si_db s) ∧
  users_seq (si_db s') = users_seq (si_db s).
Proof.
  unfold login. intros H. destruct (attempt _ _ _ _) as [[lim wait]|]; [|by injection H as <- _].
  destruct (wait =? 0); [|by injection H as <- _]. cbn [negb si_db] in H.
  destruct (user_named username (si_db s)) as [[id u]|]; [|by injection H as <- _].
  destruct (valid_client (le_now env) v u) as [valid|]; [|by injection H as <- _].
  destruct (_ || _); [by injection H as <- _|].
  destruct (finish_login _ _ _ _ _ _ _ _ _) as [d|]; [done|by injection H as <- _].
Qed.

(** C3. Signing in: the answer names an account that exists under the given name, whose password
    was given, which is not an administrator's on the guest listener and, for a client, belongs to
    its current, valid certificate; it leaves exactly one new session, of that account. A refusal
    leaves accounts and sessions as they were. *)
Theorem login_sound sha scrypt ttl L env v r username password s s' a
    (H : login sha scrypt ttl L env v r username password s = (s', a)) :
  match a with
  | Ok (ro, cn) =>
      ∃ id u, users (si_db s) !! id = Some u ∧ u_username u = username ∧ u_client_name u = cn ∧
        verify_password scrypt password (u_password_hash u) = true ∧
        (ro = Admin ↔ cn = None) ∧ (ro = Admin → portal_only r = false) ∧
        (∀ n, cn = Some n → ∃ c, eligible (le_now env) v n = Ok (Some c) ∧ u_client_serial u = Some (ce_serial c)) ∧
        (∃ ws, web_sessions (si_db s') = <[sha (le_token env) := ws]> (web_sessions (si_db s)) ∧
               ws_user_id ws = id ∧ ws_expires_at ws = le_now env + ttl) ∧
        (∀ j, j ≠ id → users (si_db s') !! j = users (si_db s) !! j)
  | Raise _ => users (si_db s') = users (si_db s) ∧ web_sessions (si_db s') = web_sessions (si_db s)
  end.
Proof.
  destruct a as [[ro cn]|e].
  - apply login_Ok in H as (id & u & Hn & Hid & Hpw & -> & -> & Hadm & Hv & Hf).
    apply user_named_Some in Hn as [_ Hn].
    destruct (finish_login_Ok _ _ _ _ _ _ _ _ _ _ Hf Hid) as (Hws & (h & _ & Hus) & _).
    exists id, u. split_and!; try done.
    + by destruct (u_client_name u).
    + intros Ha. apply Hadm. by destruct (u_client_name u).
    + by apply valid_client_true.
    + eexists. by split_and!.
    + intros j Hj. rewrite Hus. by rewrite lookup_insert_ne.
  - by apply login_Raise in H as (? & ? & _).
Qed.

Lemma get_session_user_Some sha now tok ttl ext d d' u :
  get_session_user sha now tok ttl ext d = (d', Some u) →
  ∃ s row, truthy tok = true ∧ web_sessions d !! sha (default "" tok) = Some s ∧ now <= ws_expires_at s ∧
    ws_user_id s = su_id u ∧ users d !! su_id u = Some row ∧ u_username row = su_username u ∧
    u_client_name row = su_client_name u ∧ u_client_serial row = su_client_serial u ∧
    su_role u = match su_client_name u with Some _ => Client | None => Admin end ∧ users d' = users d.
Proof.
  unfold get_session_user. intros H. destruct (truthy tok) eqn:Ht; [|done]. cbn [negb] in H.
  destruct (web_sessions d !! _) as [s|] eqn:Hs; [|done].
  destruct (users d !! ws_user_id s) as [row|] eqn:Hr; [|done].
  destruct (Z.ltb_spec (ws_expires_at s) now); [done|]. injection H as <- <-. exists s, row. cbn.
  split_and!; try done. by destruct (ext && _).
Qed.

(** C14. Who a request speaks for: a live session cookie of an existing account; a client account
    only while its certificate is the current, valid one, an administrator never through the guest
    listener. The administrator endpoints accept nobody else than an administrator, and nobody
    at all through the guest listener. *)
Theorem request_identity_sound sha ttl now v r d d' u
    (H : signed_in_user sha ttl now v r d = (d', Ok u)) :
  (∃ s row, web_sessions d !! sha (default "" (rq_cookie r)) = Some s ∧ now <= ws_expires_at s ∧
     ws_user_id s = su_id u ∧ users d !! su_id u = Some row ∧ u_client_name row = su_client_name u) ∧
  match su_client_name u with
  | Some n => su_role u = Client ∧ ∃ c, eligible now v n = Ok (Some c) ∧ su_client_serial u = Some (ce_serial c)
  | None => su_role u = Admin ∧ portal_only r = false
  end ∧
  (∀ d'' w, current_user sha ttl now v r d = (d'', Ok w) →
     w = u ∧ su_client_name u = None ∧ portal_only r = false).
Proof.
  pose proof H as H0. unfold signed_in_user in H. destruct (get_session_user sha now (rq_cookie r) ttl true d) as [d1 user] eqn:Hg.
  destruct user as [u'|]; [|done].
  destruct (get_session_user_Some _ _ _ _ _ _ _ _ Hg) as (s & row & _ & Hs & Hexp & Hid & Hrow & _ & Hcn & Hser & Hrole & _).
  assert (u' = u) as ->.
  { destruct (su_role u'); [destruct (portal_only r)|destruct (eligible _ _ _) as [[c|]|]; [destruct (bool_decide _)|..]]; by simplify_eq. }
  rewrite Hrole in H. split_and!.
  - exists s, row. by split_and!.
  - destruct (su_client_name u) as [n|] eqn:Hn; [|by destruct (portal_only r)]. split; [done|]. change (default "" (Some n)) with n in H.
    destruct (eligible now v n) as [[c|]|]; [|done|done]. destruct (bool_decide _) eqn:Hb; [|done].
    apply bool_decide_eq_true in Hb. eauto.
  - intros d'' w. unfold current_user. rewrite H0, Hrole.
    destruct (su_client_name u) eqn:Hn; [done|]. intros [= _ <-]. split_and!; try done.
    by destruct (portal_only r).
Qed.

Lemma current_user_not_restricted sha ttl now v r d d' u :
  current_user sha ttl now v r d = (d', Ok u) → portal_only r = false.
Proof.
  unfold current_user, signed_in_user. intros H. destruct (get_session_user _ _ _ _ _ _) as [d1 [u'|]]; [|done].
  destruct (su_role u') eqn:Hr.
  - by destruct (portal_only r).
  - destruct (eligible _ _ _) as [[c|]|]; [|done|done]. destruct (bool_decide _); [|done]. by rewrite Hr in H.
Qed.

Lemma portal_only_header r :
  portal_only r = true → existsb (fun h => String.eqb h.1 "x-openvpn-portal-only" && String.eqb h.2 "1") (rq_headers r) = true.
Proof.
  unfold portal_only, header. intros H. bool_to_prop. apply fmap_Some in H as ([k w] & Hf & Hv). cbn in Hv. subst w.
  apply find_some in Hf as [Hin Hk]. apply existsb_exists. exists (k, "1"). by rewrite Hk.
Qed.

(** Behind the gateway's guest listener, whatever path and method a request has: it reaches no
    administrator endpoint (the check of every one of them refuses it), and it reaches the
    application at all only under the portal's own paths. Without the header the boundary does
    nothing, so the header can only take rights away. *)
Theorem guest_listener_restricted sha ttl now v r d :
  (portal_only r = true →
    is_ok (current_user sha ttl now v r d).2 = false ∧
    (portal_boundary true r = Pass → portal_path (rq_path r) = true)) ∧
  ((∀ h, h ∈ rq_headers r → h.1 ≠ "x-openvpn-portal-only") → portal_boundary true r = Pass ∧ portal_only r = false).
Proof.
  split; intros H.
  - split.
    + destruct (current_user sha ttl now v r d) as [d' [u|]] eqn:Hc; [|done].
      apply current_user_not_restricted in Hc. congruence.
    + unfold portal_boundary. rewrite (portal_only_header r H). cbn [andb].
      destruct (portal_path (rq_path r)); [done|]. cbn. by destruct (String.eqb _ _).
  - assert (Hno : existsb (fun h => String.eqb h.1 "x-openvpn-portal-only" && String.eqb h.2 "1") (rq_headers r) = false).
    { apply not_true_is_false. intros (h & Hin & Hh)%existsb_exists. bool_to_prop.
      destruct (H h); [by apply list_elem_of_In|done]. }
    split; [unfold portal_boundary; by rewrite Hno|].
    apply not_true_is_false. intros Hp%portal_only_header. congruence.
Qed.

Lemma delete_user_sessions_users sha id keep d :
  users (delete_user_sessions sha id keep d) = users d ∧ users_seq (delete_user_sessions sha id keep d) = users_seq d.
Proof. unfold delete_user_sessions. by destruct (truthy keep). Qed.

Lemma delete_session_users sha tok d :
  users (delete_session sha tok d) = users d ∧ users_seq (delete_session sha tok d) = users_seq d.
Proof. unfold delete_session. by destruct (truthy tok). Qed.

Lemma change_password_Ok sha scrypt now salt r u current new d d' :
  change_password sha scrypt now salt r u current new d = Ok d' →
  ∃ row h, users d !! su_id u = Some row ∧ verify_password scrypt current (u_password_hash row) = true ∧
    hash_password scrypt salt new = Ok h ∧
    users d' = alter (set_password h) (su_id u) (users d) ∧ users_seq d' = users_seq d ∧
    web_sessions d' = web_sessions (delete_user_sessions sha (su_id u) (rq_cookie r) d).
Proof.
  unfold change_password. intros H. inv_result. bool_to_prop.
  destruct (users d !! su_id u) as [row|] eqn:Hrow; [|done]. exists row, a0.
  pose proof (delete_user_sessions_users sha (su_id u) (rq_cookie r) (upd_users (alter (set_password a0) (su_id u)) d)) as [Hu Hs].
  cbn [add_event upd_events users users_seq web_sessions]. rewrite Hu, Hs. split_and!; try done.
  unfold delete_user_sessions. by destruct (truthy (rq_cookie r)).
Qed.

(** Turning portal access off ends it at once: no cookie, whenever it was issued, signs in as the
    client any more, and its user name no longer logs in as the client's account. *)
Theorem disable_portal_ends_access sha scrypt ttl name d now v r L env username password lim :
  accounts_ok d →
  (∀ u, su_client_name u = Some name → (signed_in_user sha ttl now v r (disable_portal sha name d)).2 ≠ Ok u) ∧
  (∀ ro, (login sha scrypt ttl L env v r username password (Site (disable_portal sha name d) lim)).2 ≠ Ok (ro, Some name)).
Proof.
  intros Hok.
  assert (Hgone : ∀ id u, users (disable_portal sha name d) !! id = Some u → u_client_name u ≠ Some name).
  { intros id u. unfold disable_portal. destruct (client_account name d) as [[i w]|] eqn:Ha; [|by apply client_account_None].
    cbn. intros [Hne Hid]%lookup_delete_Some Hn.
    rewrite (client_account_unique d name id u Hok Hid Hn) in Ha. by simplify_eq. }
  split.
  - intros u Hu. destruct (signed_in_user _ _ _ _ _ _) as [d' a] eqn:Hs. cbn. intros ->. revert Hs.
    unfold signed_in_user. destruct (get_session_user _ _ _ _ _ _) as [d1 [u'|]] eqn:Hg; [|done].
    apply get_session_user_Some in Hg as (s & row & _ & _ & _ & _ & Hrow & _ & Hcn & _).
    intros Hs. assert (u' = u) as ->; [|by apply (Hgone _ _ Hrow); congruence].
    destruct (su_role u'); [destruct (portal_only r)|destruct (eligible _ _ _) as [[c|]|]; [destruct (bool_decide _)|..]]; by simplify_eq.
  - intros ro. destruct (login _ _ _ _ _ _ _ _ _ _) as [s' a] eqn:Hl. cbn. intros ->.
    apply login_Ok in Hl as (id & u & _ & Hid & _ & Hcn & _). by apply (Hgone _ _ Hid).
Qed.

(** Changing the password: it takes the current one; afterwards the account's stored hash accepts
    the new one, and of the account's sessions only the one that asked remains; other accounts
    keep their password and their sessions. [Hlen] is the documented length of a scrypt digest. *)
Theorem change_password_effect sha scrypt now salt r u current new d d'
    (Hlen : ∀ pw s n r p k g, scrypt pw s n r p k = Some g → strlen g = k)
    (H : change_password sha scrypt now salt r u current new d = Ok d') :
  (∃ row row', users d !! su_id u = Some row ∧ verify_password scrypt current (u_password_hash row) = true ∧
     users d' !! su_id u = Some row' ∧ verify_password scrypt new (u_password_hash row') = true ∧
     u_username row' = u_username row) ∧
  (∀ h s, web_sessions d' !! h = Some s → ws_user_id s = su_id u → h = sha (default "" (rq_cookie r))) ∧
  (∀ id, id ≠ su_id u → users d' !! id = users d !! id) ∧
  (∀ h s, ws_user_id s ≠ su_id u → web_sessions d' !! h = Some s ↔ web_sessions d !! h = Some s).
Proof.
  apply change_password_Ok in H as (row & h & Hrow & Hcur & Hh & Hu & _ & Hws).
  rewrite Hu, Hws. unfold delete_user_sessions. split_and!.
  - exists row, (set_password h row). rewrite lookup_alter_eq, Hrow. split_and!; try done.
    by apply (verify_stored scrypt salt new).
  - intros k s. destruct (truthy (rq_cookie r)); cbn.
    + intros [_ Hn]%map_lookup_filter_Some Hid. cbn in Hn. apply dec_stable. naive_solver.
    + intros [_ Hn]%map_lookup_filter_Some Hid. done.
  - intros id Hne. by rewrite lookup_alter_ne.
  - intros k s Hne. destruct (truthy (rq_cookie r)); cbn; rewrite map_lookup_filter_Some; naive_solver.
Qed.

(** ** One-time links *)

(** The state of the downloads: requests that found the link valid and built the profile but have
    not spent it yet, the profiles handed out, and every link ever made.  The last two only record
    what happened. *)
Record downloads := Downloads {
  dl_site : site;
  dl_pending : list (string * string);       (* token, client *)
  dl_delivered : list (string * string);     (* token, client *)
  dl_made : gmap string string;              (* token hash, client *)
}.

(** What can happen between two statements of the database.  A fresh token is a random value whose
    hash was never used; [build] and [issued] are whatever the PKI directory says at that time. *)
Inductive download_step (sha : string → string) (w : downloads) : downloads → Prop :=
| step_share now hours token name state actor d :
    dl_made w !! sha token = None →
    share_profile sha now hours token name state actor (si_db (dl_site w)) = Ok d →
    download_step sha w (Downloads (Site d (si_limiter (dl_site w))) (dl_pending w) (dl_delivered w)
                           (<[sha token := name]> (dl_made w)))
| step_look_up L now now_ns (issued : string → bool) token r s name :
    shared_client sha L now now_ns issued token r (dl_site w) = (s, Ok name) →
    download_step sha w (Downloads s ((token, name) :: dl_pending w) (dl_delivered w) (dl_made w))
| step_refused L now now_ns (issued : string → bool) token r s e :
    shared_client sha L now now_ns issued token r (dl_site w) = (s, Raise e) →
    download_step sha w (Downloads s (dl_pending w) (dl_delivered w) (dl_made w))
| step_build_failed p pending :
    dl_pending w ≡ₚ p :: pending →
    download_step sha w (Downloads (dl_site w) pending (dl_delivered w) (dl_made w))
| step_spend now token name ip pending d spent :
    dl_pending w ≡ₚ (token, name) :: pending →
    spend_link sha now token name ip (si_db (dl_site w)) = (d, spent) →
    download_step sha w (Downloads (Site d (si_limiter (dl_site w))) pending
                           (if spent then (token, name) :: dl_delivered w else dl_delivered w) (dl_made w))
| step_drop name :
    download_step sha w (Downloads (Site (drop_share_links name (si_db (dl_site w))) (si_limiter (dl_site w)))
                           (dl_pending w) (dl_delivered w) (dl_made w))
| step_rollup now :
    download_step sha w (Downloads (Site (rollup now (si_db (dl_site w))) (si_limiter (dl_site w)))
                           (dl_pending w) (dl_delivered w) (dl_made w))
| step_other s :
    share_tokens (si_db s) = share_tokens (si_db (dl_site w)) →
    download_step sha w (Downloads s (dl_pending w) (dl_delivered w) (dl_made w)).

Inductive download_reach (sha : string → string) : downloads → Prop :=
| reach_start s : share_tokens (si_db s) = ∅ → download_reach sha (Downloads s [] [] ∅)
| reach_step w w' : download_reach sha w → download_step sha w w' → download_reach sha w'.

(** Rows and requests are of made links; a delivered link has no unspent row. *)
Record links_ok (sha : string → string) (w : downloads) : Prop := LinksOk {
  lo_rows : ∀ h t, share_tokens (si_db (dl_site w)) !! h = Some t → dl_made w !! h = Some (st_client_name t);
  lo_pending : ∀ token name, (token, name) ∈ dl_pending w → dl_made w !! sha token = Some name;
  lo_delivered : ∀ token name, (token, name) ∈ dl_delivered w → dl_made w !! sha token = Some name;
  lo_spent : ∀ token name t, (token, name) ∈ dl_delivered w → share_tokens (si_db (dl_site w)) !! sha token = Some t →
    st_used_at t ≠ None;
  lo_once : NoDup ((fun p => sha p.1) <$> dl_delivered w);
}.

Lemma links_ok_sub sha w s pending :
  links_ok sha w → (∀ p, p ∈ pending → p ∈ dl_pending w) →
  (∀ h t, share_tokens (si_db s) !! h = Some t → share_tokens (si_db (dl_site w)) !! h = Some t) →
  links_ok sha (Downloads s pending (dl_delivered w) (dl_made w)).
Proof. intros [H1 H2 H3 H4 H5] Hp Hs. split; cbn; eauto. Qed.

Lemma shared_client_spec sha L now now_ns issued token r s s' a :
  shared_client sha L now now_ns issued token r s = (s', a) →
  si_db s' = si_db s ∧
  (∀ name, a = Ok name → ∃ t, share_tokens (si_db s) !! sha token = Some t ∧ st_client_name t = name ∧
     st_used_at t = None ∧ now < st_expires_at t ∧ issued name = true).
Proof.
  unfold shared_client. destruct (attempt _ _ _ _) as [[lim wait]|]; [|by intros [= <- <-]].
  destruct (wait =? 0); [|by intros [= <- <-]]. cbn [negb]. unfold link_client.
  destruct (share_tokens (si_db s) !! sha token) as [t|]; [|by intros [= <- <-]].
  destruct (_ && issued _) eqn:E; intros [= <- <-]; [|done]. split; [done|]. intros name [= <-]. bool_to_prop.
  exists t. by split_and!.
Qed.

Lemma spend_link_spec sha now token name ip d d' spent :
  spend_link sha now token name ip d = (d', spent) →
  if spent then ∃ t, share_tokens d !! sha token = Some t ∧ st_used_at t = None ∧
      share_tokens d' = <[sha token := ShareToken (st_client_name t) (st_created_at t) (st_expires_at t) (Some now) (st_created_by t)]>
                          (share_tokens d) ∧
      events d' = events d ++ [EventRow now "profile_link_used" (Some name) None (Some ip)]
  else d' = d.
Proof.
  unfold spend_link. destruct (share_tokens d !! sha token) as [t|] eqn:Ht; [|by intros [= <- <-]].
  destruct (bool_decide _) eqn:Hb; intros [= <- <-]; [|done]. bool_to_prop. by exists t.
Qed.

Lemma step_links_ok sha w w' : download_step sha w w' → links_ok sha w → links_ok sha w'.
Proof.
  intros Hstep Hok. pose proof Hok as [H1 H2 H3 H4 H5].
  destruct Hstep as [now hours token name state actor d Hf Hs|L now now_ns issued token r s name Hs|L now now_ns issued token r s e Hs
    |p pending Hp|now token name ip pending d spent Hp Hs|name|now|s Hs].
  - unfold share_profile in Hs. inv_result. destruct (share_tokens _ !! sha token) eqn:Ht; [done|]. injection Hs as <-.
    assert (Hne : ∀ tok n, dl_made w !! sha tok = Some n → sha token ≠ sha tok) by (intros tok n Hm Heq; rewrite Heq in Hf; congruence).
    split; cbn.
    + intros h t. rewrite lookup_insert_Some. intros [[<- <-]|[Hn Hr]]; [by rewrite lookup_insert_eq|].
      rewrite lookup_insert_ne by done. eauto.
    + intros tok n Hin. rewrite lookup_insert_ne by eauto. eauto.
    + intros tok n Hin. rewrite lookup_insert_ne by eauto. eauto.
    + intros tok n t Hin. rewrite lookup_insert_ne by eauto. eauto.
    + done.
  - apply shared_client_spec in Hs as [Hdb Hs]. destruct (Hs name eq_refl) as (t & Ht & Hn & _).
    split; cbn; rewrite ?Hdb; try done.
    intros tok n [[= -> ->]|Hin]%elem_of_cons; [|eauto]. rewrite <- Hn. eauto.
  - apply shared_client_spec in Hs as [Hdb _]. apply (links_ok_sub sha w); [done|done|by rewrite Hdb].
  - apply (links_ok_sub sha w); [done| |done]. intros q Hq. rewrite Hp. by apply elem_of_cons; right.
  - apply spend_link_spec in Hs. destruct spent.
    + destruct Hs as (t & Ht & Hu & Hs & _).
      assert (Hm : dl_made w !! sha token = Some name) by (apply H2; rewrite Hp; by apply elem_of_cons; left).
      split; cbn; rewrite ?Hs.
      * intros h t'. rewrite lookup_insert_Some. intros [[<- <-]|[_ Hr]]; cbn; eauto.
      * intros tok n Hin. apply H2. rewrite Hp. by apply elem_of_cons; right.
      * intros tok n [[= -> ->]|Hin]%elem_of_cons; [done|eauto].
      * intros tok n t' Hin. rewrite lookup_insert_Some. intros [[Heq <-]|[Hne Hr]]; [done|].
        apply elem_of_cons in Hin as [[= -> ->]|Hin]; [done|eauto].
      * apply NoDup_cons. split; [|done]. cbn.
        intros ([tok n] & Heq & Hin)%list_elem_of_fmap. cbn in Heq. rewrite Heq in Ht. by apply (H4 tok n t).
    + subst d. apply (links_ok_sub sha w); [done| |done]. intros q Hq. rewrite Hp. by apply elem_of_cons; right.
  - apply (links_ok_sub sha w); [done|done|]. cbn. by intros h t [Hr _]%map_lookup_filter_Some.
  - apply (links_ok_sub sha w); [done|done|]. cbn. by intros h t [Hr _]%map_lookup_filter_Some.
  - apply (links_ok_sub sha w); [done|done|]. by rewrite Hs.
Qed.

(** C4. A one-time link hands out its profile at most once, to nobody but the client it was made
    for, whatever requests for it run at the same time and however they interleave with the
    deletion of links and the nightly clean-up: the look-up alone does not protect it, the
    conditional update does. *)
Theorem link_delivered_once sha w :
  download_reach sha w →
  NoDup ((fun p => sha p.1) <$> dl_delivered w) ∧
  ∀ token name, (token, name) ∈ dl_delivered w → dl_made w !! sha token = Some name ∧
    (∀ L now now_ns issued r, is_ok (shared_client sha L now now_ns issued token r (dl_site w)).2 = false).
Proof.
  intros Hr. assert (Hok : links_ok sha w).
  { induction Hr as [s Hs|w w' _ IH Hst]; [|by eapply step_links_ok].
    split; cbn; rewrite ?Hs; [done| | | |constructor]; by intros ?? **; set_solver. }
  split; [apply (lo_once sha w Hok)|]. intros token name Hin. split; [by apply (lo_delivered sha w Hok)|].
  intros L now now_ns issued r. destruct (shared_client _ _ _ _ _ _ _ _) as [s' [n|e]] eqn:Hc; [|done].
  apply shared_client_spec in Hc as [_ Hs]. destruct (Hs n eq_refl) as (t & Ht & _ & Hu & _).
  by destruct (lo_spent sha w Hok token name t Hin Ht).
Qed.

(** ** Witnesses: one administrator, one portal account *)

Definition portal_pki : pki_view := PkiView {["alice" := Cert "alice" "01" (Some 0) (Some 1000000)]} (Some {["01" := "V"]}).
Definition demo_request (headers : list (string * string)) (cookie : option string) : request :=
  Request (Some "192.0.2.7") headers cookie "/portal".
Definition demo_env : login_env := LoginEnv 1000 (1000 * ns) "0123456789abcdef" "tok".

(** The administrator signs in, gives alice portal access; alice signs in through the guest listener. *)
Definition demo_db : database :=
  match set_portal_account toy_scrypt 500 portal_pki "0123456789abcdef" "alice" "alice" "hunter22" "admin" one_admin with
  | Ok d => d | Raise _ => one_admin
  end.
Definition demo_login : site * result (role * option string) :=
  login id toy_scrypt 43200 default_limiter demo_env portal_pki (demo_request [("x-openvpn-portal-only", "1")] None)
    "alice" "hunter22" (Site demo_db []).

Lemma login_sound_witness :
  demo_login.2 = Ok (Client, Some "alice") ∧
  ∃ c, eligible 1000 portal_pki "alice" = Ok (Some c) ∧ ce_serial c = "01".
Proof.
  split; [vm_compute; reflexivity|].
  destruct (login_sound id toy_scrypt 43200 default_limiter demo_env portal_pki
    (demo_request [("x-openvpn-portal-only", "1")] None) "alice" "hunter22" (Site demo_db [])
    demo_login.1 (Ok (Client, Some "alice"))) as (i & u & _ & _ & _ & _ & _ & _ & Hc & _); [vm_compute; reflexivity|].
  destruct (Hc "alice" eq_refl) as (c & Hc1 & _). exists c. split; [exact Hc1|].
  vm_compute in Hc1. injection Hc1 as <-. reflexivity.
Defined.

Lemma request_identity_sound_witness :
  (signed_in_user id 43200 1001 portal_pki (demo_request [] (Some "tok")) (si_db demo_login.1)).2
    = Ok (SessionUser 2 "alice" (Some "alice") (Some "01") Client) ∧
  is_ok (current_user id 43200 1001 portal_pki (demo_request [] (Some "tok")) (si_db demo_login.1)).2 = false.
Proof.
  split; [vm_compute; reflexivity|].
  destruct (current_user id 43200 1001 portal_pki (demo_request [] (Some "tok")) (si_db demo_login.1)) as [d [w|e]] eqn:Hc;
    [|reflexivity].
  destruct (request_identity_sound id 43200 1001 portal_pki (demo_request [] (Some "tok")) (si_db demo_login.1)
    (signed_in_user id 43200 1001 portal_pki (demo_request [] (Some "tok")) (si_db demo_login.1)).1
    (SessionUser 2 "alice" (Some "alice") (Some "01") Client)) as (_ & _ & H); [vm_compute; reflexivity|].
  destruct (H _ _ Hc) as (_ & Hn & _). discriminate Hn.
Defined.

Lemma one_admin_ok : accounts_ok one_admin.
Proof.
  assert (Hl : ∀ i u, users one_admin !! i = Some u → i = 1 ∧ u_client_name u = None).
  { intros i u. cbn. rewrite lookup_insert_Some. intros [[<- <-]|[_ H]]; [done|]. by rewrite lookup_empty in H. }
  split.
  - intros i u [-> _]%Hl. vm_compute. reflexivity.
  - intros i j u w [-> _]%Hl [-> _]%Hl. done.
  - intros i j u w n [_ Hu]%Hl. congruence.
Qed.

Lemma demo_db_ok : accounts_ok demo_db.
Proof.
  destruct (set_portal_account toy_scrypt 500 portal_pki "0123456789abcdef" "alice" "alice" "hunter22" "admin" one_admin)
    as [d|e] eqn:H; [|vm_compute in H; discriminate H].
  unfold demo_db. rewrite H. by apply set_portal_account_ok in H as [? _]; [|apply one_admin_ok].
Qed.

Lemma disable_portal_ends_access_witness :
  (signed_in_user id 43200 1001 portal_pki (demo_request [] (Some "tok")) (disable_portal id "alice" (si_db demo_login.1))).2
    = Raise (HTTPException 401 "Not authenticated") ∧
  (login id toy_scrypt 43200 default_limiter demo_env portal_pki (demo_request [] None) "alice" "hunter22"
     (Site (disable_portal id "alice" demo_db) [])).2 ≠ Ok (Client, Some "alice").
Proof.
  split; [vm_compute; reflexivity|].
  apply (disable_portal_ends_access id toy_scrypt 43200 "alice" demo_db 1001 portal_pki (demo_request [] None)
    default_limiter demo_env "alice" "hunter22" []). exact demo_db_ok.
Defined.

Lemma toy_scrypt_len : ∀ pw s n r p k g, toy_scrypt pw s n r p k = Some g → strlen g = k.
Proof.
  intros pw s n r p k g. unfold toy_scrypt. destruct (Z.leb_spec 0 k); [|done]. intros [= <-].
  unfold strlen. enough (∀ c m, String.length (str_repeat c m) = m) as -> by lia.
  intros c m. induction m; simpl; auto.
Qed.

Definition demo_change : result database :=
  change_password id toy_scrypt 2000 "0123456789abcdef" (demo_request [] (Some "tok"))
    (SessionUser 2 "alice" (Some "alice") (Some "01") Client) "hunter22" "hunter23" (si_db demo_login.1).

Lemma change_password_effect_witness :
  ∃ d' row', demo_change = Ok d' ∧ users d' !! 2 = Some row' ∧
    verify_password toy_scrypt "hunter23" (u_password_hash row') = true.
Proof.
  destruct demo_change as [d'|e] eqn:H; [|vm_compute in H; discriminate H].
  destruct (change_password_effect id toy_scrypt 2000 "0123456789abcdef" (demo_request [] (Some "tok"))
    (SessionUser 2 "alice" (Some "alice") (Some "01") Client) "hunter22" "hunter23" (si_db demo_login.1) d'
    toy_scrypt_len H) as ((row & row' & _ & _ & Hr & Hv & _) & _).
  exists d', row'. split; [reflexivity|]. split; [exact Hr|exact Hv].
Defined.

(** Two requests look the link up before either spends it. *)
Definition link_made : database :=
  match share_profile id 100 24 "secret" "alice" "valid" "admin" one_admin with Ok d => d | Raise _ => one_admin end.
Definition link_issued (n : string) : bool := String.eqb n "alice".
Definition looked_up (s : site) : site :=
  (shared_client id default_limiter 200 (200 * ns) link_issued "secret" (demo_request [] None) s).1.
Definition link_spent : database := (spend_link id 201 "secret" "alice" "192.0.2.7" link_made).1.
Definition race : downloads :=
  Downloads (Site link_spent (si_limiter (looked_up (looked_up (Site link_made []))))) []
    [("secret", "alice")] {["secret" := "alice"]}.

Lemma race_reach : download_reach id race.
Proof.
  set (s0 := Site one_admin []). set (s1 := Site link_made []).
  assert (H0 : download_reach id (Downloads s0 [] [] ∅)) by (by apply reach_start).
  assert (H1 : download_reach id (Downloads s1 [] [] {["secret" := "alice"]})).
  { apply (reach_step _ _ _ H0). apply (step_share id (Downloads s0 [] [] ∅) 100 24 "secret" "alice" "valid" "admin" link_made); done. }
  assert (H2 : download_reach id (Downloads (looked_up s1) [("secret", "alice")] [] {["secret" := "alice"]})).
  { apply (reach_step _ _ _ H1).
    apply (step_look_up id (Downloads s1 [] [] _) default_limiter 200 (200 * ns) link_issued "secret" (demo_request [] None)).
    vm_compute. reflexivity. }
  assert (H3 : download_reach id (Downloads (looked_up (looked_up s1)) [("secret", "alice"); ("secret", "alice")] []
                                    {["secret" := "alice"]})).
  { apply (reach_step _ _ _ H2).
    apply (step_look_up id (Downloads (looked_up s1) _ [] _) default_limiter 200 (200 * ns) link_issued "secret" (demo_request [] None)).
    vm_compute. reflexivity. }
  assert (H4 : download_reach id (Downloads (Site link_spent (si_limiter (looked_up (looked_up s1)))) [("secret", "alice")]
                                    [("secret", "alice")] {["secret" := "alice"]})).
  { apply (reach_step _ _ _ H3).
    apply (step_spend id (Downloads (looked_up (looked_up s1)) _ [] _) 201 "secret" "alice" "192.0.2.7"
             [("secret", "alice")] link_spent true); [done|]. vm_compute. reflexivity. }
  apply (reach_step _ _ _ H4).
  apply (step_spend id (Downloads (Site link_spent _) [("secret", "alice")] [("secret", "alice")] _)
           202 "secret" "alice" "192.0.2.8" [] link_spent false); [done|]. vm_compute. reflexivity.
Qed.

Lemma link_delivered_once_witness :
  download_reach id race ∧ NoDup ((fun p => id p.1) <$> dl_delivered race) ∧
  is_ok (shared_client id default_limiter 300 (300 * ns) link_issued "secret" (demo_request [] None) (dl_site race)).2 = false.
Proof.
  split; [exact race_reach|]. destruct (link_delivered_once id race race_reach) as [H1 H2]. split; [exact H1|].
  apply (H2 "secret" "alice"). apply list_elem_of_singleton. reflexivity.
Defined.
