(* ===== verification/Clients.v ===== *)
(** * Certificates and the client list: the parsers and [list_clients] of [ui/app/pki.py]

    The texts that [openssl] and easy-rsa write are arguments; [zones] are the time
    zone names [time.strptime] knows on the platform, in lower case.  A certificate
    file is its name and what [cert_info] says about it. *)

From S2P Require Import Prelude PyStr Schema Mgmt Regex LogLines Addressing Relay.

Open Scope string_scope.
Open Scope list_scope.
Open Scope Z_scope.

(** ** Times

    [datetime(...)] in UTC, as seconds since 1970. *)

Definition days_before_year (y : Z) : Z := 365 * (y - 1) + (y - 1) / 4 - (y - 1) / 100 + (y - 1) / 400.
Definition days_before_month (y m : Z) : Z :=
  sumZ (fun k => month_days y (Z.of_nat k)) (seq 1 (Z.to_nat (m - 1))).
Definition timestamp (c : civil) : Z :=
  let '(y, mo, dd, h, mi, sec) := c in
  (days_before_year y + days_before_month y mo + dd - 1 - 719162) * 86400 + h * 3600 + mi * 60 + sec.

(** The ValueErrors of [datetime]. *)
Definition civil_ok (c : civil) : bool :=
  let '(y, mo, dd, h, mi, sec) := c in
  (1 <=? y) && (1 <=? mo) && (mo <=? 12) && (1 <=? dd) && (dd <=? month_days y mo)
  && (0 <=? h) && (h <=? 23) && (0 <=? mi) && (mi <=? 59) && (0 <=? sec) && (sec <=? 59).

Definition rch (lo hi : Z) : regex := RChar (in_range lo hi).
Definition c_ (c : ascii) : regex := RChar (Ascii.eqb c).

(** The directives of [strptime]; a group for each. *)
Definition dir_y : regex := RGroup 1 (RSeq rd rd).
Definition dir_Y : regex := RGroup 1 (times 4 rd).
Definition dir_m : regex :=
  RGroup 2 (RAlt (RSeq (c_ "1") (rch 48 50)) (RAlt (RSeq (c_ "0") (rch 49 57)) (rch 49 57))).
Definition dir_d : regex :=
  RGroup 3 (RAlt (RSeq (c_ "3") (rch 48 49)) (RAlt (RSeq (rch 49 50) rd) (RAlt (RSeq (c_ "0") (rch 49 57))
              (RAlt (rch 49 57) (RSeq (c_ " ") (rch 49 57)))))).
Definition dir_H : regex := RGroup 4 (RAlt (RSeq (c_ "2") (rch 48 51)) (RAlt (RSeq (rch 48 49) rd) rd)).
Definition dir_M : regex := RGroup 5 (RAlt (RSeq (rch 48 53) rd) rd).
Definition dir_S : regex := RGroup 6 (RAlt (RSeq (c_ "6") (rch 48 49)) (RAlt (RSeq (rch 48 53) rd) rd)).

(** Literals and names are matched without regard to case. *)
Fixpoint lit_i (s : string) : regex :=
  match s with EmptyString => REps | String c s => RSeq (RChar (fun d => Ascii.eqb (lower_char d) c)) (lit_i s) end.
Definition names_i (i : nat) (l : list string) : regex :=
  RGroup i (foldr (fun w r => RAlt (lit_i w) r) (RChar (fun _ => false)) l).

Definition rx_utctime : regex := RGroup 0 (rseq [dir_y; dir_m; dir_d; dir_H; dir_M; dir_S; lit_i "z"]).
Definition rx_generalized : regex := RGroup 0 (rseq [dir_Y; dir_m; dir_d; dir_H; dir_M; dir_S; lit_i "z"]).

(** The match has to end where the text ends, or strptime raises ValueError. *)
Definition whole_match (rx : regex) (s : string) : option (gmap nat string) :=
  match re_match rx s with
  | Some m => if String.eqb (cap m 0) s then Some m else None
  | None => None
  end.

Definition num (m : gmap nat string) (i : nat) : Z := default 0 (py_int (cap m i)).

Definition utc (year month : Z) (m : gmap nat string) : option Z :=
  let c := (year, month, num m 3, num m 4, num m 5, num m 6) in
  if civil_ok c then Some (timestamp c) else None.

Definition century (y : Z) : Z := if y <=? 68 then y + 2000 else y + 1900.

Definition or_else_time (a b : option Z) : option Z := match a with Some t => Some t | None => b end.

Definition parse_asn1_time (value : string) : option Z :=
  let value := strip value in
  or_else_time (m ← whole_match rx_utctime value; utc (century (num m 1)) (num m 2) m)
               (m ← whole_match rx_generalized value; utc (num m 1) (num m 2) m).

Definition MONTHS : list string := ["jan"; "feb"; "mar"; "apr"; "may"; "jun"; "jul"; "aug"; "sep"; "oct"; "nov"; "dec"].
Fixpoint index_of (w : string) (l : list string) : Z :=
  match l with [] => 0 | x :: l => if String.eqb x w then 0 else 1 + index_of w l end.

Section openssl_time.
Context (zones : list string).

Definition rx_openssl : regex :=
  RGroup 0 (rseq [names_i 2 MONTHS; plus rs_; dir_d; plus rs_; dir_H; lit ":"; dir_M; lit ":"; dir_S; plus rs_; dir_Y;
                  plus rs_; names_i 7 zones]).

Definition parse_openssl_time (value : string) : option Z :=
  m ← whole_match rx_openssl (join " " (words value));
  utc (num m 1) (1 + index_of (lower (cap m 2)) MONTHS) m.

(** ** Certificates *)

Fixpoint search_from (r : regex) (prev : option ascii) (s : string) : option (gmap nat string) :=
  match rmatch r (ReState prev s ∅) (fun st => Some (re_caps st)) with
  | Some m => Some m
  | None => match s with String c s => search_from r (Some c) s | EmptyString => None end
  end.

Definition rx_cn : regex := RSeq (lit "CN=") (RGroup 1 (plus (rnot "/,"))).

Definition _cn_from_dn (dn : string) : string :=
  match or_else (re_match rx_cn dn) (search_from (RSeq (RChar (one_of "/,")) rx_cn) None dn) with
  | Some m => strip (cap m 1)
  | None => ""
  end.

Record info := Info {
  in_serial : string;
  in_not_before : option Z;
  in_not_after : option Z;
  in_cn : string;
  in_fingerprint : string;
}.

Fixpoint contains (w s : string) : bool :=
  startswith w s || match s with String _ s => contains w s | EmptyString => false end.

Definition info_line (i : info) (line : string) : info :=
  let '(key, _, val) := partition "="%char line in
  let key := lower (strip key) in
  if String.eqb key "serial" then Info (upper (strip val)) (in_not_before i) (in_not_after i) (in_cn i) (in_fingerprint i)
  else if String.eqb key "notbefore"
  then Info (in_serial i) (parse_openssl_time val) (in_not_after i) (in_cn i) (in_fingerprint i)
  else if String.eqb key "notafter"
  then Info (in_serial i) (in_not_before i) (parse_openssl_time val) (in_cn i) (in_fingerprint i)
  else if String.eqb key "subject"
  then Info (in_serial i) (in_not_before i) (in_not_after i) (_cn_from_dn val) (in_fingerprint i)
  else if contains "fingerprint" key
  then Info (in_serial i) (in_not_before i) (in_not_after i) (in_cn i) (strip val)
  else i.

(** [cert_info] without its cache: [out] is the answer of openssl, [None] its failure. *)
Definition cert_info (out : option string) : option info :=
  (fun out => foldl info_line (Info "" None None "" "") (splitlines out)) <$> out.
End openssl_time.

(** ** pki/index.txt *)

Record index_entry := IndexEntry {
  ie_status : string;
  ie_expires : option Z;
  ie_revoked_at : option Z;
  ie_reason : option string;
  ie_serial : string;
  ie_cn : string;
}.

Definition index_line (entries : gmap string index_entry) (line : string) : gmap string index_entry :=
  match split tab line with
  | status :: expiry :: revocation :: serial :: _ :: dn :: _ =>
      if negb (existsb (String.eqb status) ["V"; "R"; "E"]) then entries
      else
        let '(revoked_at, reason) :=
          if empty revocation then (None, None)
          else let '(date_part, _, reason) := partition ","%char revocation in
               (parse_asn1_time date_part, if empty reason then None else Some reason) in
        <[upper serial := IndexEntry status (parse_asn1_time expiry) revoked_at reason (upper serial) (_cn_from_dn dn)]> entries
  | _ => entries
  end.

Definition parse_index (text : string) : gmap string index_entry := foldl index_line ∅ (splitlines text).

(** ** [list_clients] *)

Inductive cstate := Revoked | Expired | Valid.

Record cert_row := CertRow {
  cr_serial : string;
  cr_cn : string;
  cr_state : cstate;
  cr_not_before : option Z;
  cr_not_after : option Z;
  cr_revoked_at : option Z;
  cr_reason : option string;
  cr_fingerprint : string;
}.

Record client := ClientInfo {
  cl_name : string;
  cl_cert : cert_row;
  cl_previous : option cert_row;
  cl_history : list cert_row;
}.

(** [info.get("not_after") or entry.get("expires")]. *)
Definition or_time (a b : option Z) : option Z :=
  match a with Some t => if t =? 0 then b else Some t | None => b end.

Definition cert_state (now : Z) (index : gmap string index_entry) (i : info) : cert_row :=
  let e := index !! in_serial i in
  let status := match e with Some e => ie_status e | None => "V" end in
  let expires := or_time (in_not_after i) (e ≫= ie_expires) in
  let state :=
    if String.eqb status "R" then Revoked
    else match expires with
         | Some t => if t <=? now then Expired else Valid
         | None => Valid
         end in
  CertRow (in_serial i) (in_cn i) state (in_not_before i) expires (e ≫= ie_revoked_at) (e ≫= ie_reason) (in_fingerprint i).

(** A directory of certificates in the order of [sorted]: file stem and [cert_info]. *)
Abbreviation cert_dir := (list (string * option info)).

Definition cert_in (dir : cert_dir) (name : string) : option info :=
  match find (fun f => String.eqb f.1 name) dir with Some f => f.2 | None => None end.

Definition reserved (name : string) : bool := existsb (String.eqb name) RESERVED.

Definition issued_row (now : Z) (index : gmap string index_entry) (renewed : cert_dir) (f : string * option info)
    : option client :=
  if reserved f.1 then None
  else i ← f.2;
       Some (ClientInfo f.1 (cert_state now index i) (cert_state now index <$> cert_in renewed f.1) []).

Definition list_issued (now : Z) (index : gmap string index_entry) (renewed issued : cert_dir) : list client :=
  omap (issued_row now index renewed) issued.

Definition add_history (c : cert_row) (x : client) : client :=
  ClientInfo (cl_name x) (cl_cert x) (cl_previous x) (cl_history x ++ [c]).

(** One revoked certificate: into the history of its name, or a client of its own. *)
Definition add_revoked (now : Z) (index : gmap string index_entry) (hidden : gset string) (clients : list client) (f : string * option info)
    : list client :=
  match f.2 with
  | None => clients
  | Some i =>
      if bool_decide (in_serial i ∈ hidden) then clients
      else
        let name := if empty (in_cn i) then in_serial i else in_cn i in
        let c := cert_state now index i in
        if existsb (fun x => String.eqb (cl_name x) name) clients
        then (fun x => if String.eqb (cl_name x) name then add_history c x else x) <$> clients
        else clients ++ [ClientInfo name c None []]
  end.

(** [sort(key=..., reverse=True)]: the newest first, equal ones as they were. *)
Definition newest_first (a b : cert_row) : Prop := or_zero (cr_not_before b) <= or_zero (cr_not_before a).
#[export] Instance newest_first_dec : RelDecision newest_first.
Proof. intros a b. unfold newest_first. apply _. Defined.

Definition sort_history (x : client) : client :=
  ClientInfo (cl_name x) (cl_cert x) (cl_previous x) (merge_sort newest_first (cl_history x)).

Definition list_clients (now : Z) (index : gmap string index_entry) (hidden : gset string) (issued renewed revoked : cert_dir)
    : list client :=
  sort_history <$> foldl (add_revoked now index hidden) (list_issued now index renewed issued) revoked.

(** [identity_start]: [pubkey] is the key of the file, an empty one when it cannot be read. *)
Definition identity_start (name : string) (current : option (info * string)) (others : list (option info * string)) : option Z :=
  match current with
  | None => None
  | Some (i, key) =>
      if or_zero (in_not_before i) =? 0 then None
      else Some (foldl (fun start '(o, k) =>
             match o with
             | Some o => if String.eqb (in_cn o) name && negb (or_zero (in_not_before o) =? 0) && String.eqb k key
                         then Z.min start (or_zero (in_not_before o)) else start
             | None => start
             end) (or_zero (in_not_before i)) others)
  end.

(** ** Lemmas *)

Lemma cert_in_Some dir name i : NoDup dir.*1 → (name, Some i) ∈ dir → cert_in dir name = Some i.
Proof.
  unfold cert_in. induction dir as [|[n o] dir IH]; intros Hnd Hin; [by apply not_elem_of_nil in Hin|].
  cbn in Hnd. apply NoDup_cons in Hnd as [Hn Hnd]. cbn [find fst].
  apply elem_of_cons in Hin as [[= <- <-]|Hin]; [by rewrite String.eqb_refl|].
  destruct (String.eqb_spec n name) as [->|]; [|auto]. destruct Hn. by apply (list_elem_of_fmap_2 fst _ (name, Some i)).
Qed.

(** The certificates of a client, its own first. *)
Definition certs_of (x : client) : list cert_row := cl_cert x :: cl_history x.

(** What the two directories hold for the list. *)
Definition shown_issued (issued : cert_dir) : list info :=
  omap (fun f : string * option info => if reserved f.1 then None else f.2) issued.
Definition shown_revoked (hidden : gset string) (revoked : cert_dir) : list info :=
  omap (fun f : string * option info => i ← f.2; if bool_decide (in_serial i ∈ hidden) then None else Some i) revoked.

Section listing.
Context (now : Z) (index : gmap string index_entry) (hidden : gset string).

Lemma omap_cons {A B} (g : A → option B) x l :
  omap g (x :: l) = match g x with Some y => y :: omap g l | None => omap g l end.
Proof. done. Qed.

Lemma list_issued_certs renewed issued :
  (list_issued now index renewed issued ≫= certs_of) = cert_state now index <$> shown_issued issued.
Proof.
  unfold list_issued, shown_issued. induction issued as [|[n o] issued IH]; [done|].
  rewrite !omap_cons. unfold issued_row at 1. cbn [fst snd]. destruct (reserved n); [exact IH|].
  destruct o as [i|]; [|exact IH]. cbn [mbind option_bind]. rewrite bind_cons, fmap_cons, <- IH. done.
Qed.

Lemma list_issued_names renewed issued :
  (cl_name <$> list_issued now index renewed issued) `sublist_of` issued.*1.
Proof.
  unfold list_issued. induction issued as [|[n o] issued IH]; [done|].
  rewrite omap_cons, fmap_cons. unfold issued_row at 1. cbn [fst snd]. destruct (reserved n); [by apply sublist_cons|].
  destruct o as [i|]; cbn [mbind option_bind]; [rewrite fmap_cons; by apply sublist_skip|by apply sublist_cons].
Qed.

Lemma add_history_names c name (l : list client) :
  cl_name <$> ((fun x => if String.eqb (cl_name x) name then add_history c x else x) <$> l) = cl_name <$> l.
Proof.
  rewrite <- list_fmap_compose. apply list_fmap_ext. intros j x _. cbn. by destruct (String.eqb (cl_name x) name).
Qed.

Lemma add_history_certs c name (l : list client) :
  NoDup (cl_name <$> l) → existsb (fun x => String.eqb (cl_name x) name) l = true →
  (((fun x => if String.eqb (cl_name x) name then add_history c x else x) <$> l) ≫= certs_of) ≡ₚ (l ≫= certs_of) ++ [c].
Proof.
  induction l as [|x l IH]; [done|]. rewrite !fmap_cons. intros [Hx Hnd]%NoDup_cons. cbn [existsb].
  rewrite !bind_cons. destruct (String.eqb_spec (cl_name x) name) as [Heq|Hne]; cbn [orb].
  - intros _. assert (Hid : (fun y => if String.eqb (cl_name y) name then add_history c y else y) <$> l = l).
    { rewrite <- (list_fmap_id l) at 2. apply list_fmap_ext. intros j y Hy. cbn.
      destruct (String.eqb_spec (cl_name y) name) as [Hyn|]; [|done]. destruct Hx. rewrite Heq, <- Hyn.
      apply list_elem_of_fmap_2. by eapply list_elem_of_lookup_2. }
    rewrite Hid. unfold certs_of at 1, add_history. cbn [cl_cert cl_history]. unfold certs_of at 2.
    rewrite <- !app_comm_cons, <- !app_assoc. constructor. apply Permutation_app_head, Permutation_app_comm.
  - intros Hin. rewrite (IH Hnd Hin). by rewrite app_assoc.
Qed.

Lemma add_revoked_spec (l : list client) f :
  NoDup (cl_name <$> l) →
  NoDup (cl_name <$> add_revoked now index hidden l f) ∧
  (add_revoked now index hidden l f ≫= certs_of) ≡ₚ
    (l ≫= certs_of) ++ (cert_state now index <$> shown_revoked hidden [f]).
Proof.
  intros Hnd. unfold add_revoked, shown_revoked. destruct f as [n [i|]]; cbn; [|by rewrite app_nil_r].
  case_bool_decide; cbn; [by rewrite app_nil_r|].
  set (name := if empty (in_cn i) then in_serial i else in_cn i).
  destruct (existsb (fun x => String.eqb (cl_name x) name) l) eqn:Hex; split.
  - by rewrite add_history_names.
  - by apply add_history_certs.
  - rewrite fmap_app. apply NoDup_app. split_and!; [done| |apply NoDup_singleton].
    intros y Hy ->%list_elem_of_singleton. cbn in Hy. apply list_elem_of_fmap in Hy as (x & Hx & Hin).
    enough (existsb (fun x => String.eqb (cl_name x) name) l = true) by congruence.
    apply existsb_exists. exists x. split; [by apply list_elem_of_In|]. rewrite <- Hx. apply String.eqb_refl.
  - by rewrite bind_app.
Qed.

Lemma revoked_fold (l : list client) revoked :
  NoDup (cl_name <$> l) →
  NoDup (cl_name <$> foldl (add_revoked now index hidden) l revoked) ∧
  (foldl (add_revoked now index hidden) l revoked ≫= certs_of) ≡ₚ
    (l ≫= certs_of) ++ (cert_state now index <$> shown_revoked hidden revoked).
Proof.
  revert l. induction revoked as [|f revoked IH]; intros l Hnd; [by rewrite app_nil_r|]. cbn [foldl].
  destruct (add_revoked_spec l f Hnd) as [Hnd' Hp]. destruct (IH _ Hnd') as [Hn Hq]. split; [done|].
  rewrite Hq, Hp, <- app_assoc. unfold shown_revoked. change (f :: revoked) with ([f] ++ revoked).
  by rewrite omap_app, fmap_app.
Qed.

Lemma sort_history_certs (l : list client) : ((sort_history <$> l) ≫= certs_of) ≡ₚ (l ≫= certs_of).
Proof.
  induction l as [|x l IH]; [done|]. rewrite fmap_cons, !bind_cons, IH. apply Permutation_app_tail.
  unfold certs_of. cbn. constructor. apply merge_sort_Permutation.
Qed.
End listing.

(** The name a revoked certificate is listed under. *)
Definition revoked_name (i : info) : string := if empty (in_cn i) then in_serial i else in_cn i.

Definition visible (hidden : gset string) (revoked : cert_dir) (i : info) : Prop :=
  (∃ n, (n, Some i) ∈ revoked) ∧ in_serial i ∉ hidden.

Lemma list_clients_names now index hidden issued renewed revoked :
  NoDup issued.*1 → NoDup (cl_name <$> list_clients now index hidden issued renewed revoked).
Proof.
  intros Hnd. unfold list_clients. rewrite <- list_fmap_compose.
  erewrite list_fmap_ext; [apply (revoked_fold now index hidden (list_issued now index renewed issued) revoked)|done].
  eapply sublist_NoDup; [exact Hnd|apply list_issued_names].
Qed.

Lemma add_revoked_names now index hidden l f name :
  name ∈ cl_name <$> add_revoked now index hidden l f →
  name ∈ cl_name <$> l ∨ ∃ i, f.2 = Some i ∧ in_serial i ∉ hidden ∧ revoked_name i = name.
Proof.
  unfold add_revoked. destruct f.2 as [i|]; [|by left]. case_bool_decide; [by left|].
  destruct (existsb _ l); [rewrite add_history_names; by left|].
  rewrite fmap_app. intros [Hin|Hin]%elem_of_app; [by left|right].
  apply list_elem_of_singleton in Hin. exists i. by split_and!.
Qed.

(** A listed name comes from a file of pki/issued or from a visible revoked certificate. *)
Lemma listed_from now index hidden issued renewed revoked name :
  name ∈ cl_name <$> list_clients now index hidden issued renewed revoked →
  (∃ o, (name, o) ∈ issued) ∨ ∃ i, visible hidden revoked i ∧ revoked_name i = name.
Proof.
  unfold list_clients. rewrite <- list_fmap_compose. intros Hin.
  assert (Hin' : name ∈ cl_name <$> foldl (add_revoked now index hidden) (list_issued now index renewed issued) revoked) by done.
  clear Hin. revert Hin'. enough (Hgen : ∀ l, name ∈ cl_name <$> foldl (add_revoked now index hidden) l revoked →
    name ∈ cl_name <$> l ∨ ∃ i, visible hidden revoked i ∧ revoked_name i = name).
  { intros [Hin|?]%Hgen; [left|by right]. eapply elem_of_sublist in Hin; [|apply list_issued_names].
    apply list_elem_of_fmap in Hin as ([n o] & -> & Hin). eauto. }
  induction revoked as [|f revoked IH]; intros l Hin; [by left|]. cbn [foldl] in Hin.
  destruct (IH _ Hin) as [Hl|(i & ((n & Hn) & Hh) & Hi)].
  - destruct (add_revoked_names _ _ _ _ _ _ Hl) as [?|(i & Hf & Hh & Hi)]; [by left|right]. exists i. split; [|done].
    split; [|done]. exists f.1. rewrite <- Hf, <- surjective_pairing. by apply elem_of_cons; left.
  - right. exists i. split; [|done]. split; [|done]. exists n. by apply elem_of_cons; right.
Qed.

Lemma add_revoked_has now index hidden l f :
  (∀ x, x ∈ l → ∃ y, y ∈ add_revoked now index hidden l f ∧ cl_name y = cl_name x ∧ cl_cert y = cl_cert x ∧
     ∀ c, c ∈ cl_history x → c ∈ cl_history y) ∧
  (∀ i, f.2 = Some i → in_serial i ∉ hidden →
     ∃ y, y ∈ add_revoked now index hidden l f ∧ cl_name y = revoked_name i ∧ cert_state now index i ∈ certs_of y).
Proof.
  unfold add_revoked. destruct f.2 as [i|]; [|split; [intros x Hx; by exists x|done]].
  case_bool_decide; [split; [intros x Hx; by exists x|intros j [= <-]; done]|].
  change (if empty (in_cn i) then in_serial i else in_cn i) with (revoked_name i). cbv zeta.
  destruct (existsb (fun x => String.eqb (cl_name x) (revoked_name i)) l) eqn:Hex; split.
  - intros x Hx. eexists. split; [apply list_elem_of_fmap_2, Hx|]. cbn.
    destruct (String.eqb (cl_name x) (revoked_name i)); [|done]. cbn. split_and!; try done. intros c Hc. apply elem_of_app. by left.
  - intros j [= <-] _. apply existsb_exists in Hex as (x & Hx%list_elem_of_In & Heq).
    exists (add_history (cert_state now index i) x). split_and!.
    + apply list_elem_of_fmap. exists x. by rewrite Heq.
    + cbn. by apply String.eqb_eq in Heq.
    + unfold certs_of. cbn. apply elem_of_cons. right. apply elem_of_app. right. by apply list_elem_of_singleton.
  - intros x Hx. exists x. split_and!; try done. apply elem_of_app. by left.
  - intros j [= <-] _. eexists. split; [apply elem_of_app; right; by apply list_elem_of_singleton|]. split; [done|].
    by apply elem_of_cons; left.
Qed.

Lemma revoked_fold_has now index hidden l revoked :
  (∀ x, x ∈ l → ∃ y, y ∈ foldl (add_revoked now index hidden) l revoked ∧ cl_name y = cl_name x ∧ cl_cert y = cl_cert x ∧
     ∀ c, c ∈ cl_history x → c ∈ cl_history y) ∧
  (∀ i, visible hidden revoked i →
     ∃ y, y ∈ foldl (add_revoked now index hidden) l revoked ∧ cl_name y = revoked_name i ∧ cert_state now index i ∈ certs_of y).
Proof.
  revert l. induction revoked as [|f revoked IH]; intros l; cbn [foldl].
  { split; [intros x Hx; by exists x|]. by intros i ((n & ?%not_elem_of_nil) & _). }
  destruct (add_revoked_has now index hidden l f) as [Hkeep Hnew].
  destruct (IH (add_revoked now index hidden l f)) as [IHkeep IHnew]. split.
  - intros x Hx. destruct (Hkeep x Hx) as (y & Hy & Hn & Hc & Hh). destruct (IHkeep y Hy) as (z & Hz & Hzn & Hzc & Hzh).
    exists z. split_and!; [done|congruence|congruence|auto].
  - intros i ((n & Hin) & Hh). apply elem_of_cons in Hin as [<-|Hin]; [|apply IHnew; split; [by exists n|done]].
    destruct (Hnew i eq_refl Hh) as (y & Hy & Hn & Hc). destruct (IHkeep y Hy) as (z & Hz & Hzn & Hzc & Hzh).
    exists z. split; [done|]. split; [congruence|]. unfold certs_of in *. rewrite Hzc.
    apply elem_of_cons in Hc as [->|Hc]; [by apply elem_of_cons; left|]. apply elem_of_cons. auto.
Qed.

(** Every visible revoked certificate is among those of the client of its name. *)
Lemma visible_listed now index hidden issued renewed revoked i :
  visible hidden revoked i →
  ∃ x, x ∈ list_clients now index hidden issued renewed revoked ∧ cl_name x = revoked_name i ∧
    in_serial i ∈ cr_serial <$> certs_of x.
Proof.
  intros Hv. destruct (revoked_fold_has now index hidden (list_issued now index renewed issued) revoked) as [_ H].
  destruct (H i Hv) as (y & Hy & Hn & Hc). exists (sort_history y). split; [by apply list_elem_of_fmap_2|]. split; [done|].
  apply (list_elem_of_fmap_2' _ _ (cert_state now index i)); [|done]. unfold certs_of in *. cbn.
  apply elem_of_cons in Hc as [->|Hc]; [by apply elem_of_cons; left|]. apply elem_of_cons. right. by rewrite merge_sort_Permutation.
Qed.

(** C28. The client list neither loses nor repeats a certificate: the certificates of its clients,
    current and former, are exactly the readable ones of pki/issued that have no reserved name
    and of pki/revoked that were not hidden, each once and with its own state; and every client
    name occurs once. *)
Theorem listing_complete now index hidden issued renewed revoked :
  NoDup issued.*1 →
  NoDup (cl_name <$> list_clients now index hidden issued renewed revoked) ∧
  (list_clients now index hidden issued renewed revoked ≫= certs_of) ≡ₚ
    cert_state now index <$> (shown_issued issued ++ shown_revoked hidden revoked).
Proof.
  intros Hnd. assert (Hni : NoDup (cl_name <$> list_issued now index renewed issued)).
  { eapply sublist_NoDup; [exact Hnd|apply list_issued_names]. }
  destruct (revoked_fold now index hidden _ revoked Hni) as [_ Hp]. split; [by apply list_clients_names|].
  unfold list_clients. by rewrite sort_history_certs, Hp, list_issued_certs, fmap_app.
Qed.

Lemma listing_complete_witness :
  let i serial cn := Info serial (Some 10) (Some 1000) cn "" in
  NoDup (cl_name <$> list_clients 100 ∅ {["09"]} [("alice", Some (i "01" "alice")); ("ca", Some (i "00" "ca"))] []
           [("02", Some (i "02" "alice")); ("09", Some (i "09" "bob"))]).
Proof.
  intros i. apply (listing_complete 100 ∅ {["09"]} [("alice", Some (i "01" "alice")); ("ca", Some (i "00" "ca"))] []
    [("02", Some (i "02" "alice")); ("09", Some (i "09" "bob"))]).
  apply (bool_decide_unpack _). vm_compute. exact I.
Defined.

(** ** The list and the relay *)

(** What [relay.eligible] reads in the same directory. *)
Definition cert_of (i : info) : cert := Cert (in_cn i) (in_serial i) (in_not_before i) (in_not_after i).
Definition pki_of (index : gmap string index_entry) (issued : cert_dir) : pki_view :=
  PkiView (list_to_map (omap (fun f : string * option info => i ← f.2; Some (f.1, cert_of i)) issued))
    (Some (ie_status <$> index)).

Lemma pki_of_issued index issued name c :
  pv_issued (pki_of index issued) !! name = Some c → ∃ i, (name, Some i) ∈ issued ∧ c = cert_of i.
Proof.
  cbn. intros Hc%elem_of_list_to_map_2. apply list_elem_of_omap in Hc as ([n o] & Hin & Ho). cbn in Ho.
  destruct o as [i|]; [|done]. cbn in Ho. injection Ho as <- <-. eauto.
Qed.

Lemma listed_issued now index hidden issued renewed revoked name i :
  (name, Some i) ∈ issued → reserved name = false →
  ∃ x, x ∈ list_clients now index hidden issued renewed revoked ∧ cl_name x = name ∧ cl_cert x = cert_state now index i.
Proof.
  intros Hin Hr.
  set (x0 := ClientInfo name (cert_state now index i) (cert_state now index <$> cert_in renewed name) []).
  assert (Hx0 : x0 ∈ list_issued now index renewed issued).
  { apply list_elem_of_omap. exists (name, Some i). split; [done|]. unfold issued_row. cbn [fst snd]. by rewrite Hr. }
  destruct (proj1 (revoked_fold_has now index hidden _ revoked) x0 Hx0) as (y & Hy & Hn & Hc & _).
  exists (sort_history y). split; [by apply list_elem_of_fmap_2|]. done.
Qed.

Lemma eligible_dated now v name c : eligible now v name = Ok (Some c) → or_zero (ce_not_after c) ≠ 0.
Proof.
  unfold eligible. destruct (validate_name name); [|done]. cbn [mbind result_bind].
  destruct (pv_issued v !! name) as [c'|]; [|done]. destruct (negb (String.eqb _ _)); [done|].
  destruct (pv_index v) as [index|]; [|done]. destruct (_ || _) eqn:E; [done|]. intros [= <-]. by bool_to_prop.
Qed.

Lemma validate_name_not_reserved name x : validate_name name = Ok x → reserved name = false.
Proof.
  unfold validate_name. destruct (name_re name); [|done]. cbn [negb raise_if mbind result_bind].
  intros H. apply not_true_is_false. intros (w & Hw & Heq)%existsb_exists. apply String.eqb_eq in Heq as ->.
  destruct Hw as [<-|[<-|[]]]; discriminate H.
Qed.

(** The relay and the portal never serve a client the list shows as expired or revoked: a client
    that [relay.eligible] accepts is in the list, in state valid, with the same certificate. (The
    converse fails by design: the list also calls a certificate valid that index.txt does not name.) *)
Theorem eligible_listed_valid now index hidden issued renewed revoked name c :
  eligible now (pki_of index issued) name = Ok (Some c) →
  ∃ x, x ∈ list_clients now index hidden issued renewed revoked ∧ cl_name x = name ∧
    cr_state (cl_cert x) = Valid ∧ cr_serial (cl_cert x) = ce_serial c ∧ cr_not_after (cl_cert x) = ce_not_after c.
Proof.
  intros Hel. assert (Hres : reserved name = false).
  { unfold eligible in Hel. destruct (validate_name name) eqn:Hn; [|done]. by eapply validate_name_not_reserved. }
  pose proof (eligible_dated _ _ _ _ Hel) as Hna0.
  apply eligible_Some in Hel as (_ & Hi & _ & (idx & Hidx & HV) & Ht). cbn in Hidx. injection Hidx as <-.
  apply pki_of_issued in Hi as (i & Hin & ->).
  destruct (listed_issued now index hidden issued renewed revoked name i Hin Hres) as (x & Hx & Hn & Hc).
  exists x. rewrite Hc. cbn in HV, Ht |- *. rewrite lookup_fmap in HV.
  destruct (index !! in_serial i) as [e|]; [|done]. cbn in HV |- *. injection HV as ->.
  unfold or_time. destruct (in_not_after i) as [t|] eqn:Hna; cbn in Ht, Hna0; rewrite ?Hna in *; cbn in *; [|done].
  destruct (Z.eqb_spec t 0) as [->|]; [lia|]. destruct (Z.leb_spec t now); [lia|]. by split_and!.
Qed.

Definition demo_issued : cert_dir := [("alice", Some (Info "01" (Some 10) (Some 1000) "alice" "AA"))].
Definition demo_index : gmap string index_entry :=
  parse_index ("V" +:+ String tab "700101001640Z" +:+ String tab "" +:+ String tab "01" +:+ String tab "unknown" +:+ String tab "/CN=alice").

Lemma eligible_listed_valid_witness :
  ∃ x, x ∈ list_clients 100 demo_index ∅ demo_issued [] [] ∧ cl_name x = "alice" ∧ cr_state (cl_cert x) = Valid ∧
    cr_serial (cl_cert x) = "01" ∧ cr_not_after (cl_cert x) = Some 1000.
Proof.
  apply (eligible_listed_valid 100 demo_index ∅ demo_issued [] [] "alice" (Cert "alice" "01" (Some 10) (Some 1000))).
  vm_compute. reflexivity.
Defined.
