(* ===== verification/IndexFile.v ===== *)
(** * pki/index.txt: reading back what OpenSSL writes

    [parse_asn1_time] and [parse_index] of [ui/app/pki.py] are defined in [Clients];
    this file prints times and lines as OpenSSL does and states what they recover. *)

From S2P Require Import Prelude PyStr Regex LogLines Clients.

Open Scope string_scope.
Open Scope list_scope.
Open Scope Z_scope.

(** ** The times of index.txt *)

Definition digit (n : Z) : ascii := chr (48 + n).
Definition pad2 (n : Z) : string := String (digit (n / 10)) (String (digit (n mod 10)) "").
Definition pad4 (n : Z) : string := pad2 (n / 100) +:+ pad2 (n mod 100).

(** UTCTime and GeneralizedTime, as OpenSSL writes them. *)
Definition after_year (c : civil) : string :=
  let '(_, mo, dd, h, mi, sec) := c in pad2 mo +:+ pad2 dd +:+ pad2 h +:+ pad2 mi +:+ pad2 sec +:+ "Z".
Definition utctime_text (c : civil) : string := let '(y, _, _, _, _, _) := c in pad2 (y mod 100) +:+ after_year c.
Definition generalized_text (c : civil) : string := let '(y, _, _, _, _, _) := c in pad4 y +:+ after_year c.

(** A directive reads the two digits of its value. *)
Definition reads2 (r : regex) (lo hi : Z) : Prop :=
  ∀ n rest prev caps k x, lo <= n <= hi →
    k (ReState (Some (digit (n mod 10))) rest caps) = Some x → rmatch r (ReState prev (pad2 n +:+ rest) caps) k = Some x.

Ltac by_cases_2 n lo k :=
  lazymatch k with
  | O => idtac
  | S ?k => destruct (Z.eq_dec n lo) as [->|]; [|let lo' := eval vm_compute in (lo + 1) in by_cases_2 n lo' k]
  end.

Lemma reads2_m : reads2 (RAlt (RSeq (c_ "1") (rch 48 50)) (RAlt (RSeq (c_ "0") (rch 49 57)) (rch 49 57))) 1 12.
Proof.
  intros n rest prev caps k x Hn Hk. by_cases_2 n 1 12%nat; [..|lia].
  all: cbn in Hk |- *; rewrite ?Hk; done.
Qed.

Lemma reads2_d :
  reads2 (RAlt (RSeq (c_ "3") (rch 48 49)) (RAlt (RSeq (rch 49 50) rd) (RAlt (RSeq (c_ "0") (rch 49 57))
            (RAlt (rch 49 57) (RSeq (c_ " ") (rch 49 57)))))) 1 31.
Proof.
  intros n rest prev caps k x Hn Hk. by_cases_2 n 1 31%nat; [..|lia].
  all: cbn in Hk |- *; rewrite ?Hk; done.
Qed.

Lemma reads2_H : reads2 (RAlt (RSeq (c_ "2") (rch 48 51)) (RAlt (RSeq (rch 48 49) rd) rd)) 0 23.
Proof.
  intros n rest prev caps k x Hn Hk. by_cases_2 n 0 24%nat; [..|lia].
  all: cbn in Hk |- *; rewrite ?Hk; done.
Qed.

Lemma reads2_M : reads2 (RAlt (RSeq (rch 48 53) rd) rd) 0 59.
Proof.
  intros n rest prev caps k x Hn Hk. by_cases_2 n 0 60%nat; [..|lia].
  all: cbn in Hk |- *; rewrite ?Hk; done.
Qed.

Lemma reads2_S : reads2 (RAlt (RSeq (c_ "6") (rch 48 49)) (RAlt (RSeq (rch 48 53) rd) rd)) 0 59.
Proof.
  intros n rest prev caps k x Hn Hk. by_cases_2 n 0 60%nat; [..|lia].
  all: cbn in Hk |- *; rewrite ?Hk; done.
Qed.

Lemma digit_decimal n : is_decimal (digit (n mod 10)) = true.
Proof. apply is_decimal_chr. apply Z.mod_pos_bound. lia. Qed.

Lemma reads2_digits : reads2 (RSeq rd rd) 0 99.
Proof.
  intros n rest prev caps k x Hn Hk. unfold pad2. cbn [String.append]. rewrite rmatch_seq. unfold rd. rewrite rmatch_char.
  unfold digit at 1. rewrite is_decimal_chr by (Z.to_euclidean_division_equations; lia).
  rewrite rmatch_char. by rewrite digit_decimal.
Qed.

Lemma group_reads i r lo hi n rest prev caps k x :
  reads2 r lo hi → lo <= n <= hi →
  k (ReState (Some (digit (n mod 10))) rest (<[i := pad2 n]> caps)) = Some x →
  rmatch (RGroup i r) (ReState prev (pad2 n +:+ rest) caps) k = Some x.
Proof.
  intros Hr Hn Hk. rewrite rmatch_group. apply Hr; [done|]. cbn [re_prev re_rest re_caps]. by rewrite str_take_app.
Qed.

Lemma py_int_pad2 n : 0 <= n <= 99 → py_int (pad2 n) = Some n.
Proof. intros Hn. by_cases_2 n 0 100%nat; [vm_compute; reflexivity..|lia]. Qed.

(** The groups of the part after the year. *)
Definition caps_of (year : string) (c : civil) : gmap nat string :=
  let '(_, mo, dd, h, mi, sec) := c in
  <[6%nat := pad2 sec]> (<[5%nat := pad2 mi]> (<[4%nat := pad2 h]> (<[3%nat := pad2 dd]> (<[2%nat := pad2 mo]> {[1%nat := year]})))).

Lemma civil_ok_bounds y mo dd h mi sec :
  civil_ok (y, mo, dd, h, mi, sec) = true →
  1 <= y ∧ 1 <= mo <= 12 ∧ 1 <= dd <= 31 ∧ 0 <= h <= 23 ∧ 0 <= mi <= 59 ∧ 0 <= sec <= 59.
Proof.
  unfold civil_ok. intros H. bool_to_prop. split_and!; try lia. unfold month_days in *.
  repeat match goal with H : context [if ?b then _ else _] |- _ => destruct b end; lia.
Qed.

Lemma after_year_reads c prev year k x :
  civil_ok c = true →
  k (ReState (Some "Z"%char) "" (caps_of year c)) = Some x →
  rmatch (rseq [dir_m; dir_d; dir_H; dir_M; dir_S; lit_i "z"]) (ReState prev (after_year c) {[1%nat := year]}) k = Some x.
Proof.
  destruct c as [[[[[y mo] dd] h] mi] sec]. intros (Hy & Hmo & Hdd & Hh & Hmi & Hsec)%civil_ok_bounds Hk.
  cbn [rseq after_year].
  rewrite rmatch_seq. apply (group_reads 2 _ 1 12); [apply reads2_m|done|].
  rewrite rmatch_seq. apply (group_reads 3 _ 1 31); [apply reads2_d|done|].
  rewrite rmatch_seq. apply (group_reads 4 _ 0 23); [apply reads2_H|done|].
  rewrite rmatch_seq. apply (group_reads 5 _ 0 59); [apply reads2_M|done|].
  rewrite rmatch_seq. apply (group_reads 6 _ 0 59); [apply reads2_S|done|]. exact Hk.
Qed.

(** A pattern that begins with a year, on a text that begins with one. *)
Lemma time_match dir_year year c :
  civil_ok c = true →
  (∀ k x, k (ReState (last_char None year) (after_year c) {[1%nat := year]}) = Some x →
          rmatch dir_year (ReState None (year +:+ after_year c) ∅) k = Some x) →
  whole_match (RGroup 0 (rseq [dir_year; dir_m; dir_d; dir_H; dir_M; dir_S; lit_i "z"])) (year +:+ after_year c)
  = Some (<[0%nat := year +:+ after_year c]> (caps_of year c)).
Proof.
  intros Hc Hy. unfold whole_match, re_match. rewrite rmatch_group. cbn [re_rest re_caps re_prev].
  change (rseq (dir_year :: ?l)) with (RSeq dir_year (rseq l)). rewrite rmatch_seq.
  erewrite Hy; [|apply after_year_reads; [exact Hc|cbn [re_rest re_caps re_prev]; reflexivity]].
  unfold cap. rewrite lookup_insert_eq. cbn [default from_option id].
  replace (str_take _ _) with (year +:+ after_year c); [by rewrite String.eqb_refl|].
  rewrite <- (str_app_nil_r (year +:+ after_year c)) at 2 3. symmetry. apply str_take_app.
Qed.

Lemma utc_caps s year c y mo :
  civil_ok c = true → y = c.1.1.1.1.1 → mo = c.1.1.1.1.2 →
  num (<[0%nat := s]> (caps_of year c)) 2 = mo ∧
  utc y mo (<[0%nat := s]> (caps_of year c)) = Some (timestamp c).
Proof.
  destruct c as [[[[[y' mo'] dd] h] mi] sec]. cbn [fst snd]. intros Hc -> ->.
  pose proof (civil_ok_bounds _ _ _ _ _ _ Hc) as (Hy & Hmo & Hdd & Hh & Hmi & Hsec).
  unfold utc, num, cap, caps_of. repeat first [rewrite lookup_insert_eq | rewrite lookup_insert_ne by done].
  cbn [default from_option id].
  rewrite !py_int_pad2 by lia. cbn [default from_option id]. by rewrite Hc.
Qed.

Lemma num_year s year c : num (<[0%nat := s]> (caps_of year c)) 1 = default 0 (py_int year).
Proof.
  destruct c as [[[[[y mo] dd] h] mi] sec]. unfold num, cap, caps_of.
  repeat rewrite lookup_insert_ne by done. by rewrite lookup_singleton_eq.
Qed.

(** A text that begins with a decimal digit and ends in Z has nothing to strip. *)
Lemma strip_time n s : 0 <= n <= 99 → strip (pad2 n +:+ s +:+ "Z") = pad2 n +:+ s +:+ "Z".
Proof.
  intros Hn. unfold strip, strip_by, pad2. cbn [String.append lstrip_by].
  assert (Hd : is_space (digit (n / 10)) = false).
  { apply decimal_not_space. apply is_decimal_chr. Z.to_euclidean_division_equations; lia. }
  rewrite Hd. clear Hd. generalize (digit (n / 10)), (digit (n mod 10)). intros a b.
  assert (Hz : rstrip_by is_space (s +:+ "Z") = s +:+ "Z").
  { induction s as [|c s IH]; [reflexivity|]. cbn [String.append rstrip_by]. rewrite IH. by destruct s. }
  cbn [rstrip_by]. rewrite Hz. by destruct s.
Qed.

Lemma utctime_parsed c :
  civil_ok c = true → 1969 <= c.1.1.1.1.1 <= 2068 → parse_asn1_time (utctime_text c) = Some (timestamp c).
Proof.
  destruct c as [[[[[y mo] dd] h] mi] sec]. cbn [fst]. intros Hc Hy. unfold parse_asn1_time, utctime_text.
  set (c := (y, mo, dd, h, mi, sec)) in *.
  assert (Hyy : 0 <= y mod 100 <= 99) by (pose proof (Z.mod_pos_bound y 100); lia).
  assert (Hs : strip (pad2 (y mod 100) +:+ after_year c) = pad2 (y mod 100) +:+ after_year c).
  { unfold c, after_year. rewrite <- !str_app_assoc. rewrite !str_app_assoc. rewrite <- (str_app_assoc (pad2 mi)).
    rewrite <- (str_app_assoc (pad2 h)), <- (str_app_assoc (pad2 dd)), <- (str_app_assoc (pad2 mo)). by apply strip_time. }
  rewrite Hs. unfold rx_utctime. rewrite time_match; [|done|].
  - cbn [mbind option_bind]. rewrite num_year, py_int_pad2 by done. cbn [default from_option id].
    assert (Hcen : century (y mod 100) = y).
    { unfold century. destruct (Z.leb_spec (y mod 100) 68); Z.to_euclidean_division_equations; lia. }
    rewrite Hcen. destruct (utc_caps (pad2 (y mod 100) +:+ after_year c) (pad2 (y mod 100)) c y mo Hc eq_refl eq_refl) as [Hm Hu].
    rewrite Hm, Hu. done.
  - intros k x Hk. apply (group_reads 1 _ 0 99); [apply reads2_digits|done|]. exact Hk.
Qed.

(** The length a pattern without repetition can match. *)
Fixpoint max_len (r : regex) : option nat :=
  match r with
  | RChar _ => Some 1%nat
  | REps | RWordB => Some 0%nat
  | RSeq a b => n ← max_len a; m ← max_len b; Some (n + m)%nat
  | RAlt a b => n ← max_len a; m ← max_len b; Some (Nat.max n m)
  | RStar _ _ => None
  | RGroup _ a => max_len a
  end.

Lemma rmatch_len r : ∀ n st k x, max_len r = Some n → rmatch r st k = Some x →
  ∃ st', k st' = Some x ∧ (String.length (re_rest st) <= n + String.length (re_rest st'))%nat.
Proof.
  induction r as [q| |a IHa b IHb|a IHa b IHb|g a IHa|i a IHa|]; intros n st k x Hn; cbn [max_len] in Hn.
  - injection Hn as <-. cbn [rmatch]. destruct (re_rest st) as [|c t] eqn:E; [done|]. destruct (q c); [|done].
    intros Hk. eexists. split; [exact Hk|]. cbn. lia.
  - injection Hn as <-. intros Hk. exists st. split; [exact Hk|lia].
  - destruct (max_len a) as [na|]; [|done]. destruct (max_len b) as [nb|]; [|done]. injection Hn as <-.
    rewrite rmatch_seq. intros (st1 & H1 & L1)%(IHa na); [|done]. apply (IHb nb) in H1 as (st2 & H2 & L2); [|done].
    exists st2. split; [done|lia].
  - destruct (max_len a) as [na|]; [|done]. destruct (max_len b) as [nb|]; [|done]. injection Hn as <-.
    cbn [rmatch]. unfold or_else. destruct (rmatch a st k) as [y|] eqn:E.
    + intros [= ->]. apply (IHa na) in E as (st1 & H1 & L1); [|done]. exists st1. split; [done|lia].
    + intros (st1 & H1 & L1)%(IHb nb); [|done]. exists st1. split; [done|lia].
  - done.
  - rewrite rmatch_group. intros (st1 & H1 & L1)%(IHa n); [|done]. eexists. split; [exact H1|]. done.
  - injection Hn as <-. cbn [rmatch]. destruct (at_boundary st); [|done]. intros Hk. exists st. split; [exact Hk|lia].
Qed.

Lemma str_length_take n s : (String.length (str_take n s) <= n)%nat.
Proof. revert s. induction n as [|n IH]; intros [|c s]; cbn; try lia. specialize (IH s). lia. Qed.

Lemma whole_match_len r n s m : max_len r = Some n → whole_match (RGroup 0 r) s = Some m → (String.length s <= n)%nat.
Proof.
  unfold whole_match, re_match. intros Hn. rewrite rmatch_group. destruct (rmatch r _ _) as [y|] eqn:E; [|done].
  apply (rmatch_len r n) in E as (st & Hk & L); [|done]. cbn [re_rest] in *. injection Hk as <-.
  unfold cap. rewrite lookup_insert_eq. cbn [default from_option id].
  destruct (String.eqb_spec (str_take (String.length s - String.length (re_rest st)) s) s) as [Heq|]; [|done]. intros _.
  pose proof (str_length_take (String.length s - String.length (re_rest st)) s). rewrite Heq in *. lia.
Qed.

Lemma digit_val_digit n : 0 <= n < 10 → digit_val (digit n) = n.
Proof. intros Hn. unfold digit_val, digit. rewrite code_chr; lia. Qed.

Lemma py_int_digits a b c d :
  0 <= a < 10 → 0 <= b < 10 → 0 <= c < 10 → 0 <= d < 10 →
  py_int (String (digit a) (String (digit b) (String (digit c) (String (digit d) ""))))
  = Some (((a * 10 + b) * 10 + c) * 10 + d).
Proof.
  intros Ha Hb Hc Hd. unfold py_int.
  assert (Hdec : ∀ n, 0 <= n < 10 → is_decimal (digit n) = true) by (intros; by apply is_decimal_chr).
  rewrite strip_decimal by (cbn [str_forall]; by rewrite !Hdec).
  assert (Hns : ∀ e, is_decimal e = false → Ascii.eqb (digit a) e = false).
  { intros e He. apply Ascii.eqb_neq. intros <-. rewrite Hdec in He; done. }
  rewrite !Hns by done. cbn [unsigned_int digits_val]. rewrite !Hdec by done. by rewrite !digit_val_digit.
Qed.

Lemma generalized_parsed c :
  civil_ok c = true → c.1.1.1.1.1 <= 9999 → parse_asn1_time (generalized_text c) = Some (timestamp c).
Proof.
  destruct c as [[[[[y mo] dd] h] mi] sec]. cbn [fst]. intros Hc Hy. unfold parse_asn1_time, generalized_text.
  set (c := (y, mo, dd, h, mi, sec)) in *.
  pose proof (civil_ok_bounds _ _ _ _ _ _ Hc) as (Hy1 & _).
  assert (H1 : 0 <= y / 100 <= 99) by (Z.to_euclidean_division_equations; lia).
  assert (H2 : 0 <= y mod 100 <= 99) by (pose proof (Z.mod_pos_bound y 100); lia).
  assert (Hs : strip (pad4 y +:+ after_year c) = pad4 y +:+ after_year c).
  { unfold pad4, c, after_year. rewrite !str_app_assoc, <- (str_app_assoc (pad2 mi)).
    rewrite <- (str_app_assoc (pad2 h)), <- (str_app_assoc (pad2 dd)), <- (str_app_assoc (pad2 mo)).
    rewrite <- (str_app_assoc (pad2 (y mod 100))). by apply strip_time. }
  rewrite Hs.
  destruct (whole_match rx_utctime (pad4 y +:+ after_year c)) as [m|] eqn:Em.
  { apply (whole_match_len _ 13) in Em; [|vm_compute; reflexivity]. unfold pad4, c, after_year in Em.
    rewrite !str_length_app in Em. cbn in Em. lia. }
  cbn [mbind option_bind or_else_time]. unfold rx_generalized. rewrite time_match; [|done|].
  - cbn [mbind option_bind]. rewrite num_year.
    assert (Hn : py_int (pad4 y) = Some y).
    { unfold pad4, pad2. cbn [String.append]. rewrite py_int_digits by (Z.to_euclidean_division_equations; lia).
      f_equal. Z.to_euclidean_division_equations. lia. }
    rewrite Hn. cbn [default from_option id].
    destruct (utc_caps (pad4 y +:+ after_year c) (pad4 y) c y mo Hc eq_refl eq_refl) as [Hm Hu].
    rewrite Hm, Hu. done.
  - intros k x Hk. unfold dir_Y. rewrite rmatch_group. cbn [re_rest]. unfold pad4 at 1. rewrite str_app_assoc.
    unfold pad2 at 1 2. cbn [String.append times]. unfold rd.
    do 4 (rewrite rmatch_seq, rmatch_char; unfold digit at 1; rewrite is_decimal_chr by (Z.to_euclidean_division_equations; lia)).
    cbn [rmatch re_prev re_rest re_caps]. rewrite str_take_app. exact Hk.
Qed.

(** ** index.txt: reading back what OpenSSL writes *)

(** The subject of a certificate, in the one-line form of OpenSSL: the attributes in
    front of the common name, the common name, and what follows it. *)
Record subject := Subject { sj_before : list (string * string); sj_name : string; sj_after : string }.

Definition attribute_text (a : string * string) : string := "/" +:+ a.1 +:+ "=" +:+ a.2.
Definition subject_text (d : subject) : string :=
  foldr (fun a s => attribute_text a +:+ s) ("/CN=" +:+ sj_name d +:+ sj_after d) (sj_before d).

(** A line of the database of OpenSSL's [ca] command. *)
Record index_row := IndexRow {
  ir_status : string;
  ir_expires : civil;
  ir_revoked : option (civil * string);     (* time and reason, an empty reason for none *)
  ir_serial : string;
  ir_subject : subject;
}.
Definition ir_dn (r : index_row) : string := subject_text (ir_subject r).

Definition time_text (c : civil) : string := if c.1.1.1.1.1 <=? 2049 then utctime_text c else generalized_text c.
Definition time_ok (c : civil) : bool := civil_ok c && (1969 <=? c.1.1.1.1.1) && (c.1.1.1.1.1 <=? 9999).

Definition revocation_text (r : index_row) : string :=
  match ir_revoked r with
  | None => ""
  | Some (t, reason) => if empty reason then time_text t else time_text t +:+ "," +:+ reason
  end.

Definition print_row (r : index_row) : string :=
  join (String tab "") [ir_status r; time_text (ir_expires r); revocation_text r; ir_serial r; "unknown"; ir_dn r].
Definition print_index (rows : list index_row) : string := foldr (fun r s => print_row r +:+ String lf s) "" rows.

(** A field: no tab and nothing that ends a line. *)
Definition plain_field (s : string) : bool := str_forall (fun c => negb (is_line_end c) && negb (Ascii.eqb tab c)) s.

(** The attributes in front have names of their own (not CN), no value holds a
    separator, the common name is not empty and has no white space around it, and what
    follows it begins with a separator: further attributes, or the fields that older
    tooling appended. *)
Definition no_separator (s : string) : bool := str_forall (fun c => negb (one_of "/," c)) s.
Definition attribute_ok (a : string * string) : bool :=
  negb (String.eqb a.1 "CN") && negb (mem_char "=" a.1) && no_separator a.1 && no_separator a.2.
Definition subject_ok (d : subject) : bool :=
  forallb attribute_ok (sj_before d) && negb (empty (sj_name d)) && no_separator (sj_name d)
  && String.eqb (strip (sj_name d)) (sj_name d) && negb (starts_in (fun c => negb (one_of "/," c)) (sj_after d)).

Definition row_ok (r : index_row) : bool :=
  existsb (String.eqb (ir_status r)) ["V"; "R"; "E"] && time_ok (ir_expires r)
  && match ir_revoked r with Some (t, reason) => time_ok t && plain_field reason | None => true end
  && plain_field (ir_serial r) && String.eqb (upper (ir_serial r)) (ir_serial r) && subject_ok (ir_subject r) && plain_field (ir_dn r).

Definition row_entry (r : index_row) : index_entry :=
  IndexEntry (ir_status r) (Some (timestamp (ir_expires r))) ((fun t => timestamp t.1) <$> ir_revoked r)
    (t ← ir_revoked r; if empty t.2 then None else Some t.2) (ir_serial r) (sj_name (ir_subject r)).

(** *** The common name of a subject *)

Lemma lit_absent s st k : startswith s (re_rest st) = false → rmatch (lit s) st k = None.
Proof.
  revert st. induction s as [|c s IH]; intros [prev [|d t] caps]; cbn [re_rest lit rmatch startswith]; try done.
  destruct (Ascii.eqb c d); [|done]. intros H. by apply IH.
Qed.

(** Where the text does not go on with the literal, the search moves on. *)
Lemma search_skip (r : regex) w : ∀ prev rest,
  no_separator w = true →
  ∃ prev', search_from (RSeq (RChar (one_of "/,")) r) prev (w +:+ rest) = search_from (RSeq (RChar (one_of "/,")) r) prev' rest.
Proof.
  induction w as [|c w IH]; intros prev rest Hw; [by exists prev|].
  apply andb_true_iff in Hw as [Hc%negb_true_iff Hw]. destruct (IH (Some c) rest Hw) as [prev' Heq].
  exists prev'. rewrite <- Heq. cbn [String.append search_from]. by rewrite rmatch_seq, rmatch_char, Hc.
Qed.

Lemma attribute_skip a prev rest :
  attribute_ok a = true →
  ∃ prev', search_from (RSeq (RChar (one_of "/,")) rx_cn) prev (attribute_text a +:+ rest)
           = search_from (RSeq (RChar (one_of "/,")) rx_cn) prev' rest.
Proof.
  destruct a as [t v]. unfold attribute_ok, attribute_text. cbn [fst snd]. intros H. bool_to_prop.
  destruct (search_skip rx_cn (t +:+ "=" +:+ v) (Some "/"%char) rest) as [prev' Heq].
  { unfold no_separator in *. rewrite !str_forall_app. repeat (apply andb_true_iff; split); done. }
  exists prev'. rewrite <- Heq. cbn [String.append]. cbn [search_from]. rewrite rmatch_seq, rmatch_char.
  change (one_of "/," "/") with true. cbv iota. unfold rx_cn. rewrite rmatch_seq, lit_absent; [done|].
  cbn [re_rest]. rewrite !str_app_assoc.
  assert (Hne : mem_char "=" t = false) by done. assert (Hcn : t ≠ "CN") by done. clear -Hne Hcn.
  destruct t as [|c1 [|c2 [|c3 t]]]; cbn [String.append startswith]; try done.
  - by destruct (Ascii.eqb "C" c1).
  - destruct (Ascii.eqb_spec "C" c1) as [<-|]; [|done]. destruct (Ascii.eqb_spec "N" c2) as [<-|]; [|done]. done.
  - destruct (Ascii.eqb "C" c1); [|done]. destruct (Ascii.eqb "N" c2); [|done].
    destruct (Ascii.eqb_spec "=" c3) as [<-|]; [|done]. exfalso. revert Hne.
    unfold mem_char, str_exists. cbn [str_forall]. rewrite Ascii.eqb_refl. by destruct (Ascii.eqb "=" c1), (Ascii.eqb "=" c2).
Qed.

Lemma name_found prev name after :
  negb (empty name) && no_separator name = true → starts_in (fun c => negb (one_of "/," c)) after = false →
  ∃ m, search_from (RSeq (RChar (one_of "/,")) rx_cn) prev ("/CN=" +:+ name +:+ after) = Some m ∧ cap m 1 = name.
Proof.
  intros Hn Ha. destruct name as [|c w]; [done|]. apply andb_true_iff in Hn as [_ Hn].
  unfold no_separator in Hn. cbn [str_forall] in Hn. apply andb_true_iff in Hn as [Hc Hw].
  eexists. change ("/CN=" +:+ ?t) with (String "/" ("CN=" +:+ t)). cbn [search_from]. rewrite rmatch_seq, rmatch_char.
  change (one_of "/," "/") with true. cbv iota. unfold rx_cn at 1. rewrite rmatch_seq, lit_run, rmatch_group. unfold rnot.
  erewrite plus_run; [|exact Hc|exact Hw|exact Ha|reflexivity]. split; [reflexivity|].
  unfold cap. cbn [re_caps re_rest]. rewrite lookup_insert_eq. cbn [default from_option id]. apply str_take_app.
Qed.

Lemma subject_name d : subject_ok d = true → _cn_from_dn (subject_text d) = sj_name d.
Proof.
  destruct d as [before name after]. unfold subject_ok, subject_text. cbn [sj_before sj_name sj_after]. intros H.
  rewrite !andb_true_iff in H. destruct H as [[[[Hb Hn] Hs] Ht%String.eqb_eq] Ha%negb_true_iff].
  assert (Hname : negb (empty name) && no_separator name = true) by (by rewrite Hn, Hs).
  set (text := foldr _ _ before).
  assert (Hm : re_match rx_cn text = None).
  { unfold re_match, rx_cn. rewrite rmatch_seq. apply lit_absent. unfold text. by destruct before. }
  unfold _cn_from_dn. rewrite Hm. cbn [or_else]. clear Hm.
  assert (Hf : ∀ prev, ∃ m, search_from (RSeq (RChar (one_of "/,")) rx_cn) prev text = Some m ∧ cap m 1 = name).
  { unfold text. clear text. induction before as [|a before IH]; intros prev; [by apply name_found|].
    cbn [forallb] in Hb. apply andb_true_iff in Hb as [Ha' Hb]. cbn [foldr].
    destruct (attribute_skip a prev (foldr (fun a s => attribute_text a +:+ s) ("/CN=" +:+ name +:+ after) before) Ha') as [prev' ->].
    by apply IH. }
  destruct (Hf None) as (m & -> & ->). done.
Qed.

Lemma time_parsed c : time_ok c = true → parse_asn1_time (time_text c) = Some (timestamp c).
Proof.
  unfold time_ok, time_text. intros H. bool_to_prop. destruct (Z.leb_spec c.1.1.1.1.1 2049).
  - apply utctime_parsed; [done|lia].
  - by apply generalized_parsed.
Qed.

Lemma plain_field_app s t : plain_field (s +:+ t) = plain_field s && plain_field t.
Proof. apply str_forall_app. Qed.

Lemma digit_in n : 0 <= n <= 99 → is_decimal (digit (n / 10)) = true ∧ is_decimal (digit (n mod 10)) = true.
Proof. intros Hn. split; [apply is_decimal_chr; Z.to_euclidean_division_equations; lia|apply digit_decimal]. Qed.

(** The characters of a time: digits and the final Z, so no tab, no line end and no comma. *)
Definition time_char (c : ascii) : bool := is_decimal c || Ascii.eqb "Z" c.

Lemma time_chars c : time_ok c = true → str_forall time_char (time_text c) = true.
Proof.
  destruct c as [[[[[y mo] dd] h] mi] sec]. unfold time_ok. cbn [fst]. intros H. bool_to_prop.
  match goal with H : civil_ok _ = true |- _ => pose proof (civil_ok_bounds _ _ _ _ _ _ H) as (? & ? & ? & ? & ? & ?) end.
  assert (Hp : ∀ n, 0 <= n <= 99 → str_forall time_char (pad2 n) = true).
  { intros n Hn. destruct (digit_in n Hn) as [Hd1 Hd2]. unfold pad2. cbn [str_forall]. unfold time_char. by rewrite Hd1, Hd2. }
  assert (Ha : str_forall time_char (after_year (y, mo, dd, h, mi, sec)) = true).
  { cbn [after_year]. rewrite !str_forall_app, !Hp by lia. reflexivity. }
  assert (0 <= y mod 100 <= 99) by (pose proof (Z.mod_pos_bound y 100); lia).
  unfold time_text. cbn [fst]. destruct (y <=? 2049).
  - unfold utctime_text. by rewrite str_forall_app, Hp, Ha.
  - unfold generalized_text, pad4. rewrite !str_forall_app, !Hp, Ha; [done|done|].
    Z.to_euclidean_division_equations; lia.
Qed.

Lemma time_char_range c : time_char c = true → 48 <= code c <= 57 ∨ c = "Z"%char.
Proof.
  unfold time_char, is_decimal, in_range. intros [H|H]%orb_true_iff; [left; bool_to_prop; lia|right].
  by apply Ascii.eqb_eq in H.
Qed.

Lemma time_plain c : time_ok c = true → plain_field (time_text c) = true ∧ mem_char "," (time_text c) = false.
Proof.
  intros H%time_chars. split.
  - eapply str_forall_impl; [|exact H]. intros d [Hd| ->]%time_char_range; [|reflexivity].
    unfold is_line_end, in_range. destruct (Ascii.eqb_spec tab d) as [<-|_]; [by vm_compute in Hd; destruct Hd|].
    apply andb_true_iff. split; [|done]. apply negb_true_iff.
    repeat (apply orb_false_iff; split); first [apply andb_false_iff; right; apply Z.leb_gt; lia | apply Z.eqb_neq; lia].
  - unfold mem_char, str_exists. apply negb_false_iff. eapply str_forall_impl; [|exact H].
    intros d [Hd| ->]%time_char_range; [|reflexivity]. apply negb_true_iff, Ascii.eqb_neq. intros <-. vm_compute in Hd. by destruct Hd.
Qed.

Lemma plain_no_tab s : plain_field s = true → mem_char tab s = false.
Proof.
  intros H. unfold mem_char, str_exists. apply negb_false_iff. eapply str_forall_impl; [|exact H].
  intros c [_ Hc]%andb_true_iff. done.
Qed.

Lemma row_fields_plain r : row_ok r = true →
  Forall (fun w => plain_field w = true)
    [ir_status r; time_text (ir_expires r); revocation_text r; ir_serial r; "unknown"; ir_dn r].
Proof.
  unfold row_ok. intros H. bool_to_prop.
  repeat (apply Forall_cons; split); try done.
  - match goal with H : existsb _ _ = true |- _ => apply existsb_exists in H as (w & Hw & Heq) end.
    apply String.eqb_eq in Heq as ->. destruct Hw as [<-|[<-|[<-|[]]]]; reflexivity.
  - by apply time_plain.
  - unfold revocation_text. destruct (ir_revoked r) as [[t reason]|]; [|done]. bool_to_prop.
    destruct (empty reason); [by apply time_plain|]. rewrite !plain_field_app. cbn.
    apply andb_true_iff. split; [by apply time_plain|done].
Qed.

Lemma print_row_line r : row_ok r = true → str_forall (fun c => negb (is_line_end c)) (print_row r) = true.
Proof.
  intros H%row_fields_plain. unfold print_row.
  assert (Hl : ∀ w, plain_field w = true → str_forall (fun c => negb (is_line_end c)) w = true).
  { intros w. apply str_forall_impl. by intros c [Hc _]%andb_true_iff. }
  repeat (apply Forall_cons in H as [?Hw H]). cbn [join]. rewrite !str_forall_app. rewrite (Hl _ Hw), (Hl _ Hw0), (Hl _ Hw1), (Hl _ Hw2), (Hl _ Hw4). reflexivity.
Qed.

Lemma index_line_row entries r :
  row_ok r = true → index_line entries (print_row r) = <[ir_serial r := row_entry r]> entries.
Proof.
  intros H. unfold index_line, print_row. rewrite split_join; [|done|].
  2: { eapply Forall_impl; [by apply row_fields_plain|]. intros w. apply plain_no_tab. }
  unfold row_ok in H. bool_to_prop.
  match goal with H : existsb _ _ = true |- _ => rewrite H end. cbn [negb].
  rewrite time_parsed by done.
  match goal with H : upper _ = _ |- _ => rewrite H end.
  unfold ir_dn. rewrite subject_name by done.
  unfold revocation_text, row_entry. destruct (ir_revoked r) as [[t reason]|]; [|done]. bool_to_prop.
  match goal with H : time_ok t = true |- _ => pose proof (time_parsed t H) as Ht; destruct (time_plain t H) as [_ Hc] end.
  assert (Hne : ∀ s, empty (time_text t +:+ s) = false).
  { intros s. destruct (time_text t) eqn:Et; [|done]. by change (parse_asn1_time "") with (@None Z) in Ht. }
  destruct (empty reason) eqn:Er.
  - rewrite <- (str_app_nil_r (time_text t)) at 1. rewrite Hne, partition_none by done.
    cbn [fmap option_fmap option_map mbind option_bind fst snd]. by rewrite Ht, Er.
  - rewrite Hne. change ("," +:+ reason) with (String "," reason). rewrite partition_app by done.
    cbn [fmap option_fmap option_map mbind option_bind fst snd]. by rewrite Ht, Er.
Qed.


Definition sample_rows : list index_row :=
  [IndexRow "V" (2034, 2, 28, 23, 59, 59) None "0A1B" (Subject [] "alice" "");
   IndexRow "R" (2051, 1, 1, 0, 0, 0) (Some ((2024, 2, 29, 12, 0, 0), "keyCompromise")) "0A1C" (Subject [("C", "DE"); ("O", "Acme CN=x")] "bob" "/name=Server,extra")].

