(* ===== verification/Lifecycle.v ===== *)
(** * The life of a client: create, renew, revoke, delete

    The handlers of [ui/app/main.py] around a client certificate, with the operations of
    [ui/app/pki.py] they call.  The scripts of bin/ (bash around easy-rsa) are arguments:
    functions on the PKI directory that can fail.  [sha], clocks and the file of the 2FA
    secrets are arguments too. *)

From S2P Require Import Prelude PyStr Schema Auth Traffic Sessions Mgmt Addressing Relay Access Clients.

Open Scope string_scope.
Open Scope list_scope.
Open Scope Z_scope.

(** ** State *)

Record pki_dir := PkiDir {
  pd_index : gmap string index_entry;      (* index.txt *)
  pd_issued : cert_dir;
  pd_renewed : cert_dir;
  pd_revoked : cert_dir;
}.

Record server := Server {
  sv_db : database;
  sv_relay : relay_db;          (* the settings of the relay *)
  sv_pki : pki_dir;
  sv_access : access;           (* staticclients/ and guests/ *)
  sv_mgmt : mgmt;
}.

Definition set_db (d : database) (s : server) : server := Server d (sv_relay s) (sv_pki s) (sv_access s) (sv_mgmt s).
Definition set_relay (r : relay_db) (s : server) : server := Server (sv_db s) r (sv_pki s) (sv_access s) (sv_mgmt s).
Definition set_pki (p : pki_dir) (s : server) : server := Server (sv_db s) (sv_relay s) p (sv_access s) (sv_mgmt s).
Definition set_access_dirs (a : access) (s : server) : server := Server (sv_db s) (sv_relay s) (sv_pki s) a (sv_mgmt s).
Definition set_mgmt (m : mgmt) (s : server) : server := Server (sv_db s) (sv_relay s) (sv_pki s) (sv_access s) m.

(** What [relay.eligible] sees. *)
Definition view (s : server) : pki_view := pki_of (pd_index (sv_pki s)) (pd_issued (sv_pki s)).

Definition hidden_serials (d : database) : gset string := dom (hidden_certs d).

Definition listing (now : Z) (hidden : gset string) (s : server) : list client :=
  list_clients now (pd_index (sv_pki s)) hidden (pd_issued (sv_pki s)) (pd_renewed (sv_pki s)) (pd_revoked (sv_pki s)).

Definition find_client (now : Z) (name : string) (s : server) : result client :=
  _ ← validate_name name;
  of_option (HTTPException 404 "Client not found")
    (find (fun x => String.eqb (cl_name x) name) (listing now (hidden_serials (sv_db s)) s)).

Definition event (now : Z) (kind : string) (actor : string) (client detail : option string) (s : server) : server :=
  set_db (add_event now kind client (Some actor) detail (sv_db s)) s.

(** ** The operations of [pki] *)

Definition REVOKE_REASONS : list string :=
  ["unspecified"; "keyCompromise"; "CACompromise"; "affiliationChanged"; "superseded"; "cessationOfOperation";
   "certificateHold"].

Definition days_ok (days : option Z) : bool :=
  match days with Some n => (1 <=? n) && (n <=? 3650) | None => true end.

(** A script that works on the PKI directory. *)
Abbreviation script := (pki_dir → result pki_dir).

Definition revoke_client (sh : option string → script) (name : string) (reason : option string) (p : pki_dir) : result pki_dir :=
  _ ← validate_name name;
  _ ← raise_if (truthy reason && negb (existsb (String.eqb (default "" reason)) REVOKE_REASONS))
        (PkiError "Invalid revocation reason");
  sh (if truthy reason then reason else None) p.

Definition renew_client (sh : option Z → script) (name : string) (days : option Z) (p : pki_dir) : result pki_dir :=
  _ ← validate_name name;
  _ ← raise_if (negb (days_ok days)) (PkiError "Validity must be between 1 and 3650 days");
  sh days p.

(** rmcert.sh also takes the static address and the guest marker away. *)
Definition remove_client (sh : access → result access) (name : string) (a : access) : result access :=
  _ ← validate_name name; sh a.

(** genclient.sh also writes the static address. *)
Definition pki_create_client (sh : option Z → option string → pki_dir * access → result (pki_dir * access))
    (conf guest_sub name : string) (days : option Z) (passphrase static_ip : option string) (pa : pki_dir * access)
    : result (pki_dir * access) :=
  _ ← validate_name name;
  _ ← raise_if (negb (days_ok days)) (PkiError "Validity must be between 1 and 3650 days");
  problem ← (if truthy static_ip then static_ip_problem conf guest_sub pa.2 name (default "" static_ip) else Ok None);
  _ ← raise_if (match problem with Some _ => true | None => false end) (PkiError (default "" problem));
  _ ← raise_if (truthy passphrase && (strlen (default "" passphrase) <? 4))
        (PkiError "Passphrase must be at least 4 characters");
  sh days static_ip pa.

(** ** The handlers

    A handler returns the state it leaves and its answer or exception: what it did before an
    exception stays done. *)

Section handlers.
Context (sha : string → string) (decode : string → string) (mgmt_password : option string).

(** [revoke]; [ticks] is the argument of the management connection. *)
Definition revoke (now : Z) (ticks : nat) (sh : option string → script) (name : string) (reason : option string) (actor : string)
    (s : server) : server * result (client * string) :=
  match find_client now name s with
  | Raise e => (s, Raise e)
  | Ok row =>
      match cr_state (cl_cert row) with
      | Revoked => (s, Raise (HTTPException 400 "Already revoked"))
      | _ =>
          match revoke_client sh name reason (sv_pki s) with
          | Raise e => (s, Raise e)
          | Ok p =>
              let s := set_pki p s in
              let s := set_relay (Relay.revoke name (sv_relay s)) s in
              let s := set_db (drop_share_links name (sv_db s)) s in
              let '(killed, m) := kill decode mgmt_password now ticks name (sv_mgmt s) in
              let s := set_mgmt m s in
              match (match killed with Ok t => Ok t | Raise (ManagementError _) => Ok "" | Raise e => Raise e end) with
              | Raise e => (s, Raise e)
              | Ok killed =>
                  let s := event now "client_revoked" actor (Some name) (if truthy reason then reason else None) s in
                  (s, row ← find_client now name s; Ok (row, killed))
              end
          end
      end
  end.

(** The statement of [renew] on the portal account. *)
Definition follow_serial (name old new : string) (d : database) : database :=
  upd_users (fmap (fun u => if bool_decide (u_client_name u = Some name ∧ u_client_serial u = Some old)
                            then UserRow (u_username u) (u_password_hash u) (u_created_at u) (u_last_login u) (u_client_name u) (Some new)
                            else u)) d.

Definition renew (now : Z) (sh : option Z → script) (name : string) (days : option Z) (actor : string) (s : server)
    : server * result client :=
  match find_client now name s with
  | Raise e => (s, Raise e)
  | Ok row =>
      let previous := cr_serial (cl_cert row) in
      match cr_state (cl_cert row) with
      | Revoked => (s, Raise (HTTPException 400 "Cannot renew a revoked certificate; create a new client instead"))
      | _ =>
          match renew_client sh name days (sv_pki s) with
          | Raise e => (s, Raise e)
          | Ok p =>
              let s := set_pki p s in
              match renewed now (view s) name previous (sv_relay s) with
              | Raise e => (s, Raise e)
              | Ok r =>
                  let s := set_relay r s in
                  match eligible now (view s) name with
                  | Raise e => (s, Raise e)
                  | Ok c =>
                      let s := match c with
                               | Some c => set_db (follow_serial name previous (ce_serial c) (sv_db s)) s
                               | None => s
                               end in
                      let s := event now "client_renewed" actor (Some name) None s in
                      (s, find_client now name s)
                  end
              end
          end
      end
  end.

(** The transaction of [delete_client]: ON CONFLICT DO NOTHING keeps an older row. *)
Definition hide_certs (now : Z) (name : string) (serials : list string) (d : database) : database :=
  let d := foldl (fun d serial =>
    match hidden_certs d !! serial with
    | Some _ => d
    | None => upd_hidden (<[serial := HiddenCert (Some name) now]>) d
    end) d serials in
  upd_clients (delete name) d.

Definition delete_client (now : Z) (sh : access → result access) (name actor : string) (s : server) : server * result unit :=
  match find_client now name s with
  | Raise e => (s, Raise e)
  | Ok row =>
      match cr_state (cl_cert row) with
      | Revoked =>
          match remove_client sh name (sv_access s) with
          | Raise e => (s, Raise e)
          | Ok a =>
              let s := set_access_dirs a s in
              let s := set_db (disable_portal sha name (sv_db s)) s in
              let s := set_relay (Relay.revoke name (sv_relay s)) s in
              let s := set_db (drop_share_links name (sv_db s)) s in
              let s := set_db (hide_certs now name (cr_serial (cl_cert row) :: (cr_serial <$> cl_history row)) (sv_db s)) s in
              (event now "client_deleted" actor (Some name) None s, Ok tt)
          end
      | _ => (s, Raise (HTTPException 400 "Revoke the certificate before deleting the client"))
      end
  end.

Record new_client := NewClient {
  nc_name : string;
  nc_days : option Z;
  nc_passphrase : option string;
  nc_static_ip : option string;
  nc_tfa : bool;
  nc_guest : bool;
  nc_note : string;
}.

(** Why a name cannot be given to a new client, from the state of the listed one. *)
Definition taken (existing : option cstate) : option exn :=
  match existing with
  | Some Valid => Some (HTTPException 409 "A client with this name already exists")
  | Some Expired => Some (HTTPException 409 "This client's certificate has expired - renew it on the client's page")
  | _ => None
  end.

Definition str_of_bool (b : bool) : string := if b then "True" else "False".

(** [_create_client]; [tfa] stands for the part on the 2FA secrets, [None] for its failure. *)
Definition create_client (now : Z) (conf guest_sub : string)
    (sh : option Z → option string → pki_dir * access → result (pki_dir * access)) (tfa : result (option string))
    (body : new_client) (actor : string) (s : server) : server * result (client * option string) :=
  match validate_name (strip (nc_name body)) with
  | Raise e => (s, Raise e)
  | Ok name =>
      let existing := (fun x => cr_state (cl_cert x)) <$> find (fun x => String.eqb (cl_name x) name) (listing now ∅ s) in
      match taken existing with
      | Some e => (s, Raise e)
      | None =>
          let ip := strip (default "" (nc_static_ip body)) in
          let static_ip := if empty ip then None else Some ip in
          if nc_guest body && truthy static_ip
          then (s, Raise (HTTPException 400 "Guests get an address from the guest range for each device, not a static IP"))
          else
            match pki_create_client sh conf guest_sub name (nc_days body)
                    (if truthy (nc_passphrase body) then nc_passphrase body else None) static_ip (sv_pki s, sv_access s) with
            | Raise e => (s, Raise e)
            | Ok (p, a) =>
                let s := set_access_dirs a (set_pki p s) in
                match archive_client_history now name None (sv_db s) with
                | Raise e => (s, Raise e)
                | Ok (d, _) =>
                    let s := set_db (drop_share_links name d) s in
                    match set_guest name (nc_guest body) (sv_access s) with
                    | Raise e => (s, Raise e)
                    | Ok a =>
                        let s := set_access_dirs a s in
                        match (if truthy static_ip then Ok (sv_access s)
                               else set_static_ip conf guest_sub name None (sv_access s)) with
                        | Raise e => (s, Raise e)
                        | Ok a =>
                            let s := set_access_dirs a s in
                            let s := set_db (upd_clients (<[name := ClientRow (strip (nc_note body)) now]>) (sv_db s)) s in
                            match tfa with
                            | Raise e => (s, Raise e)
                            | Ok uri =>
                                let s := event now "client_created" actor (Some name)
                                  (Some ("static_ip=" +:+ default "-" static_ip +:+ " guest=" +:+ str_of_bool (nc_guest body)
                                         +:+ " tfa=" +:+ str_of_bool (nc_tfa body))) s in
                                (s, row ← find_client now name s; Ok (row, uri))
                            end
                        end
                    end
                end
            end
      end
  end.
End handlers.

(** ** Lemmas *)

Lemma find_some_client (l : list client) name x :
  find (fun x => String.eqb (cl_name x) name) l = Some x → x ∈ l ∧ cl_name x = name.
Proof. intros [Hin Hn]%find_some. split; [by apply list_elem_of_In|]. by apply String.eqb_eq in Hn. Qed.

Lemma find_client_Ok now name s row :
  find_client now name s = Ok row → row ∈ listing now (hidden_serials (sv_db s)) s ∧ cl_name row = name.
Proof.
  unfold find_client. intros H. inv_result. destruct (find _ _) as [x|] eqn:Hf; [|done].
  injection H as <-. by apply find_some_client.
Qed.

Lemma find_client_name now name s row : find_client now name s = Ok row → ∃ n, validate_name name = Ok n.
Proof. unfold find_client. destruct (validate_name name); [eauto|done]. Qed.

(** What a successful revocation has done. *)
Lemma revoke_Ok decode pw now ticks sh name reason actor s s' a :
  revoke decode pw now ticks sh name reason actor s = (s', Ok a) →
  (∃ p reason', sh reason' p = Ok (sv_pki s')) ∧
  rd_grants (sv_relay s') = delete name (rd_grants (sv_relay s)) ∧
  share_tokens (sv_db s') = filter (fun kv => st_client_name kv.2 ≠ name) (share_tokens (sv_db s)) ∧
  users (sv_db s') = users (sv_db s).
Proof.
  unfold revoke. destruct (find_client now name s) as [row|]; [|done].
  assert (Hgo : ∀ P : Prop, (match revoke_client sh name reason (sv_pki s) with
    | Ok p => (∃ p0 reason', sh reason' p0 = Ok p) → P | Raise _ => P end) → P).
  { intros P. destruct (revoke_client sh name reason (sv_pki s)) as [p|] eqn:E; [|done]. intros HP. apply HP.
    unfold revoke_client in E. inv_result. eauto. }
  destruct (cr_state (cl_cert row)); [done|..]; apply Hgo;
    (destruct (revoke_client sh name reason (sv_pki s)) as [p|]; [|done]); intros Hsh; cbn [set_pki set_relay set_db sv_mgmt sv_db sv_relay sv_pki];
    (destruct (kill _ _ _ _ _ _) as [killed m]);
    (destruct (match killed with Ok t => _ | Raise _ => _ end) as [t|]; [|done]); intros [= <- _]; cbn; by split_and!.
Qed.

Lemma link_client_Ok sha now issued token d n :
  link_client sha now issued token d = Ok n → ∃ t, share_tokens d !! sha token = Some t ∧ st_client_name t = n.
Proof.
  unfold link_client. destruct (share_tokens d !! sha token) as [t|]; [|done]. destruct (_ && issued _); [|done].
  intros [= <-]. by exists t.
Qed.

(** A client without an eligible certificate has no session and cannot sign in. *)
Lemma not_eligible_signed_in sha ttl now v r d u name :
  (∀ c, eligible now v name ≠ Ok (Some c)) → (signed_in_user sha ttl now v r d).2 = Ok u → su_client_name u ≠ Some name.
Proof.
  intros Hne. unfold signed_in_user. destruct (get_session_user _ _ _ _ _ _) as [d1 [u'|]] eqn:Hg; [|done].
  apply get_session_user_Some in Hg as (s & row & _ & _ & _ & _ & _ & _ & _ & _ & Hrole & _).
  intros H Hn. destruct (su_role u') eqn:Hr.
  - destruct (portal_only r); [done|]. cbn in H. injection H as ->. by rewrite Hn in Hrole.
  - destruct (eligible now v (default "" (su_client_name u'))) as [[c|]|] eqn:He; [|done|done].
    destruct (bool_decide _); [|done]. cbn in H. injection H as ->. rewrite Hn in He. by apply (Hne c).
Qed.

Lemma not_eligible_login sha scrypt ttl L env v r username password s ro name :
  (∀ c, eligible (le_now env) v name ≠ Ok (Some c)) →
  (login sha scrypt ttl L env v r username password s).2 ≠ Ok (ro, Some name).
Proof.
  intros Hne. destruct (login _ _ _ _ _ _ _ _ _ _) as [s' a] eqn:Hl. cbn. intros ->.
  apply login_Ok in Hl as (id & u & _ & _ & _ & Hcn & _ & _ & Hv & _). symmetry in Hcn.
  destruct (valid_client_true _ _ _ Hv name Hcn) as (c & Hc & _). by apply (Hne c).
Qed.

(** C1. Revoking a client takes every way in away, at once and for good: no relay request is granted as
    the client, no one-time link yields its profile, no cookie speaks for it and its password no
    longer signs in. The hypothesis is what [easyrsa revoke] promises of bin/revoke.sh: a
    certificate it leaves in pki/issued is not a valid one of index.txt. *)
Theorem revoke_locks_out sha decode pw now ticks sh name reason actor s s' a
    (Hrevoke : ∀ reason p p', sh reason p = Ok p' → ∀ i, (name, Some i) ∈ pd_issued p' →
       ie_status <$> pd_index p' !! in_serial i ≠ Some "V")
    (H : revoke decode pw now ticks sh name reason actor s = (s', Ok a)) :
  (∀ later guests_dir net strict h pol,
     authorize sha later (view s') guests_dir net strict h (sv_relay s') = Ok (Some pol) → pl_client pol ≠ name) ∧
  (∀ later issued token n, link_client sha later issued token (sv_db s') = Ok n → n ≠ name) ∧
  (∀ ttl later r u, (signed_in_user sha ttl later (view s') r (sv_db s')).2 = Ok u → su_client_name u ≠ Some name) ∧
  (∀ scrypt ttl L env r username password lim ro,
     (login sha scrypt ttl L env (view s') r username password (Site (sv_db s') lim)).2 ≠ Ok (ro, Some name)).
Proof.
  apply revoke_Ok in H as ((p & reason' & Hsh) & Hg & Hl & _).
  assert (Hne : ∀ later c, eligible later (view s') name ≠ Ok (Some c)).
  { intros later c Hc. apply eligible_Some in Hc as (_ & Hi & _ & (idx & Hidx & HV) & _).
    apply pki_of_issued in Hi as (i & Hin & ->). cbn in Hidx. injection Hidx as <-. rewrite lookup_fmap in HV.
    by apply (Hrevoke _ _ _ Hsh i Hin). }
  split_and!.
  - intros later gd net strict h pol (g & c & _ & _ & Hgr & _)%authorize_Some Heq.
    by rewrite Heq, Hg, lookup_delete_eq in Hgr.
  - intros later issued token n (t & Ht & <-)%link_client_Ok. rewrite Hl in Ht.
    by apply map_lookup_filter_Some in Ht as [_ Ht].
  - intros ttl later r u. by apply not_eligible_signed_in.
  - intros. by apply not_eligible_login.
Qed.

Lemma hide_certs_dom now name serials d :
  hidden_serials (hide_certs now name serials d) = hidden_serials d ∪ list_to_set serials.
Proof.
  unfold hide_certs, hidden_serials. cbn. revert d. induction serials as [|x serials IH]; intros d; cbn [foldl].
  { by rewrite list_to_set_nil, union_empty_r_L. }
  rewrite IH. rewrite list_to_set_cons. destruct (hidden_certs d !! x) as [h|] eqn:Hx.
  - apply elem_of_dom_2 in Hx. set_solver.
  - cbn. rewrite dom_insert_L. set_solver.
Qed.

Lemma hide_certs_users now name serials d :
  users (hide_certs now name serials d) = users d ∧ share_tokens (hide_certs now name serials d) = share_tokens d.
Proof.
  unfold hide_certs. cbn. revert d. induction serials as [|x serials IH]; intros d; cbn [foldl]; [done|].
  destruct (IH (match hidden_certs d !! x with Some _ => d | None => upd_hidden <[x:=HiddenCert (Some name) now]> d end)) as [-> ->].
  by destruct (hidden_certs d !! x).
Qed.

Lemma disable_portal_users sha name d id u :
  accounts_ok d → users (disable_portal sha name d) !! id = Some u → u_client_name u ≠ Some name.
Proof.
  intros Hok. unfold disable_portal. destruct (client_account name d) as [[i w]|] eqn:Ha; [|by apply client_account_None].
  cbn. intros [Hne Hid]%lookup_delete_Some Hn. rewrite (client_account_unique d name id u Hok Hid Hn) in Ha. by simplify_eq.
Qed.

Lemma disable_portal_hidden sha name d : hidden_certs (disable_portal sha name d) = hidden_certs d.
Proof. unfold disable_portal. by destruct (client_account name d) as [[i w]|]. Qed.

Lemma delete_client_Ok sha now sh name actor s s' :
  delete_client sha now sh name actor s = (s', Ok tt) →
  ∃ row, find_client now name s = Ok row ∧ cr_state (cl_cert row) = Revoked ∧
    hidden_serials (sv_db s') = hidden_serials (sv_db s) ∪ list_to_set (cr_serial <$> certs_of row) ∧
    users (sv_db s') = users (disable_portal sha name (sv_db s)) ∧
    rd_grants (sv_relay s') = delete name (rd_grants (sv_relay s)) ∧ sv_pki s' = sv_pki s.
Proof.
  unfold delete_client. destruct (find_client now name s) as [row|] eqn:Hf; [|done].
  destruct (cr_state (cl_cert row)) eqn:Hs; [|done|done].
  destruct (remove_client sh name (sv_access s)) as [a|]; [|done]. intros [= <-]. exists row.
  split_and!; try done.
  - unfold event. cbn [set_db set_relay set_access_dirs sv_db]. unfold hidden_serials at 1. cbn [add_event upd_events hidden_certs].
    fold (hidden_serials (hide_certs now name (cr_serial (cl_cert row) :: (cr_serial <$> cl_history row))
      (drop_share_links name (disable_portal sha name (sv_db s))))).
    rewrite hide_certs_dom. unfold hidden_serials at 1. cbn [drop_share_links upd_share hidden_certs].
    by rewrite disable_portal_hidden.
  - unfold event. cbn [set_db set_relay set_access_dirs sv_db add_event upd_events users].
    by rewrite (proj1 (hide_certs_users _ _ _ _)).
Qed.

(** C31. Deleting a revoked client removes it for good: as long as its name has no certificate in pki/issued
    it is not listed any more, whatever its earlier certificates, and it keeps no portal account, no
    relay credential. *)
Theorem deleted_client_gone sha now sh name actor s s'
    (Hissued : ∀ o, (name, o) ∉ pd_issued (sv_pki s)) (Hnd : NoDup (pd_issued (sv_pki s)).*1)
    (Hok : accounts_ok (sv_db s))
    (H : delete_client sha now sh name actor s = (s', Ok tt)) :
  (∀ later, is_ok (find_client later name s') = false) ∧
  (∀ id u, users (sv_db s') !! id = Some u → u_client_name u ≠ Some name) ∧
  rd_grants (sv_relay s') !! name = None.
Proof.
  apply delete_client_Ok in H as (row & Hf & _ & Hhid & Hus & Hgr & Hpki). split_and!.
  - intros later. destruct (find_client later name s') as [x|] eqn:Hx; [|done].
    apply find_client_Ok in Hx as [Hin Hxn]. apply find_client_Ok in Hf as [Hrow Hrn].
    apply (list_elem_of_fmap_2 cl_name) in Hin. rewrite Hxn in Hin. unfold listing in Hin. rewrite Hpki in Hin.
    apply listed_from in Hin as [[o Ho]|(i & (Hex & Hvis) & Hi)]; [by destruct (Hissued o)|].
    rewrite Hhid in Hvis. apply not_elem_of_union in Hvis as [Hvis1 Hvis2].
    assert (Hv : visible (hidden_serials (sv_db s)) (pd_revoked (sv_pki s)) i) by done.
    destruct (visible_listed now (pd_index (sv_pki s)) _ (pd_issued (sv_pki s)) (pd_renewed (sv_pki s)) _ i Hv)
      as (y & Hy & Hyn & Hser).
    assert (y = row) as ->.
    { pose proof (list_clients_names now (pd_index (sv_pki s)) (hidden_serials (sv_db s)) (pd_issued (sv_pki s))
        (pd_renewed (sv_pki s)) (pd_revoked (sv_pki s)) Hnd) as Hnames.
      eapply (NoDup_fmap_eq cl_name); [exact Hnames|done|done|congruence]. }
    destruct Hvis2. by apply elem_of_list_to_set.
  - intros id u. rewrite Hus. by apply disable_portal_users.
  - rewrite Hgr. apply lookup_delete_eq.
Qed.

(** *** Creation *)

(** Nothing is left under a name: sessions, traffic, links. *)
Record no_history (name : string) (d : database) : Prop := NoHistory {
  nh_vpn : ∀ id r, vpn_sessions d !! id = Some r → v_client_name r ≠ name;
  nh_relay : ∀ id r, relay_sessions d !! id = Some r → rs_client_name r ≠ name;
  nh_traffic : ∀ table ts, table = traffic_minute ∨ table = traffic_hour ∨ table = traffic_day → table d !! (ts, name) = None;
}.

Lemma filter_empty_none {K A} `{Countable K} (p : K * A → bool) (m : gmap K A) k a :
  filter (fun kv => p kv = true) m = ∅ → m !! k = Some a → p (k, a) = false.
Proof.
  intros He Hk. destruct (p (k, a)) eqn:Hp; [|done]. exfalso.
  assert (Hf : filter (fun kv => p kv = true) m !! k = Some a) by (by apply map_lookup_filter_Some).
  by rewrite He, lookup_empty in Hf.
Qed.

Lemma archive_no_history now name d d' key :
  archive_client_history now name None d = Ok (d', key) → no_history name d' ∧ share_tokens d' = share_tokens d.
Proof.
  unfold archive_client_history. destruct (has_history name None d) eqn:Hh; cbn [negb].
  - intros H. inv_result. injection H as <- <-.
    assert (Hne : name +:+ "#" +:+ str_of_int now ≠ name).
    { intros Heq%(f_equal String.length). rewrite !str_length_app in Heq. simpl in Heq. lia. }
    split; [|done]. split; cbn in *.
    + intros id r. rewrite lookup_fmap. intros (r0 & Hr & ->)%fmap_Some. unfold rename_vpn. cbn [before_ok].
      destruct (String.eqb_spec (v_client_name r0) name); cbn; [done|done].
    + intros id r. rewrite lookup_fmap. intros (r0 & Hr & ->)%fmap_Some. unfold rename_relay. cbn [before_ok].
      destruct (String.eqb_spec (rs_client_name r0) name); cbn; [done|done].
    + intros table ts Ht. destruct (table _ !! (ts, name)) as [v|] eqn:Hv; [exfalso|done].
      destruct Ht as [->|[->| ->]]; cbn in Hv;
        match goal with H : rename_traffic _ _ _ (?t d) = Ok ?m, Hv : ?m !! _ = Some _ |- _ =>
          pose proof (proj2 (rename_traffic_sum _ _ _ _ _ (fun _ _ => 0) H) Hne _ _ Hv) end; done.
  - unfold has_history in Hh. intros [= <- _]. split; [|done].
    apply bool_decide_eq_false in Hh.
    assert (Hs : ∀ P Q R S T : Prop, ¬ (P ∨ Q ∨ R ∨ S ∨ T) → ¬ P ∧ ¬ Q ∧ ¬ R ∧ ¬ S ∧ ¬ T) by tauto.
    apply Hs in Hh as (H1 & H2 & H3 & H4 & H5). apply dec_stable in H1, H2, H3, H4, H5. split.
    + intros id r Hr Hn. assert (Hin : (id, r) ∈ select_sessions (fun r => String.eqb (v_client_name r) name && before_ok None (v_connected_at r)) d).
      { unfold select_sessions. apply list_elem_of_filter. cbn. rewrite Hn, String.eqb_refl. split; [done|]. by apply elem_of_map_to_list. }
      rewrite H1 in Hin. by apply not_elem_of_nil in Hin.
    + intros id r Hr Hn. pose proof (filter_empty_none (fun kv : string * relay_session => String.eqb (rs_client_name kv.2) name && before_ok None (rs_started_at kv.2)) _ _ _ H2 Hr) as Hf.
      cbn in Hf. by rewrite Hn, String.eqb_refl in Hf.
    + intros table ts Ht. destruct (table d !! (ts, name)) as [v|] eqn:Hv; [exfalso|done].
      assert (Hf : matches_row name None (ts, name, v) = false).
      { destruct Ht as [->|[->| ->]]; [by apply (filter_empty_none (matches_row name None) _ _ _ H3)
          |by apply (filter_empty_none (matches_row name None) _ _ _ H4)|by apply (filter_empty_none (matches_row name None) _ _ _ H5)]. }
      unfold matches_row in Hf. cbn in Hf. by rewrite String.eqb_refl in Hf.
Qed.

(** A new client starts clean, also under a name that was used before: no session and no traffic of
    an earlier client is left under the name, no one-time link of it works, and the new client is a
    guest, or has a static address, exactly as asked. *)
Theorem created_client_clean sha now conf guest_sub sh tfa body actor s s' row uri
    (H : create_client now conf guest_sub sh tfa body actor s = (s', Ok (row, uri))) :
  let name := strip (nc_name body) in
  cl_name row = name ∧ no_history name (sv_db s') ∧
  (∀ later issued token n, link_client sha later issued token (sv_db s') = Ok n → n ≠ name) ∧
  (name ∈ guests_dir (sv_access s') ↔ nc_guest body = true) ∧
  (strip (default "" (nc_static_ip body)) = "" → static_dir (sv_access s') !! name = None) ∧
  clients (sv_db s') !! name = Some (ClientRow (strip (nc_note body)) now).
Proof.
  intros name. unfold create_client in H. fold name in H.
  destruct (validate_name name) as [n|] eqn:Hv; [|done]. assert (n = name) as ->.
  { unfold validate_name in Hv. inv_result. congruence. }
  cbv zeta in H. set (ip := strip (default "" (nc_static_ip body))) in H.
  set (static_ip := if empty ip then None else Some ip) in H.
  destruct (taken _); [done|]. destruct (nc_guest body && truthy static_ip); [done|].
  destruct (pki_create_client _ _ _ _ _ _ _ _) as [[p a]|]; [|done].
  destruct (archive_client_history _ _ _ _) as [[d key]|] eqn:Ha; [|done].
  destruct (set_guest name (nc_guest body) _) as [a1|] eqn:Hg; [|done].
  destruct (if truthy static_ip then _ else _) as [a2|] eqn:Hst; [|done].
  destruct tfa as [u|]; [|done]. injection H as <- H.
  destruct (find_client now name _) as [x|] eqn:Hf; [|done]. injection H as <- <-.
  apply find_client_Ok in Hf as [_ Hx]. apply archive_no_history in Ha as [Hclean _].
  unfold event. cbn [set_db set_pki set_access_dirs sv_db sv_access sv_pki] in *. split_and!.
  - done.
  - destruct Hclean as [Hc1 Hc2 Hc3]. split; [done|done|]. intros table ts [->|[->| ->]]; apply Hc3; auto.
  - intros later issued token n (t & Ht & <-)%link_client_Ok. cbn in Ht. by apply map_lookup_filter_Some in Ht as [_ Ht].
  - assert (Hgd : guests_dir a2 = guests_dir a1).
    { destruct (truthy static_ip); [by injection Hst as <-|]. unfold set_static_ip in Hst. inv_result. change (negb (truthy None)) with true in Hst. by injection Hst as <-. }
    rewrite Hgd. unfold set_guest in Hg. inv_result. destruct (nc_guest body); inv_result; cbn; set_solver.
  - intros Hno. assert (Hn : truthy static_ip = false) by (unfold static_ip, ip; by rewrite Hno).
    rewrite Hn in Hst. unfold set_static_ip in Hst. inv_result. change (negb (truthy None)) with true in Hst.
    injection Hst as <-. cbn. apply lookup_delete_eq.
  - cbn. apply lookup_insert_eq.
Qed.

(** *** Renewal *)

Lemma renew_Ok now sh name days actor s s' row' :
  renew now sh name days actor s = (s', Ok row') →
  ∃ row oc, find_client now name s = Ok row ∧ eligible now (view s') name = Ok oc ∧
    users (sv_db s') = match oc with
                       | Some c => users (follow_serial name (cr_serial (cl_cert row)) (ce_serial c) (sv_db s))
                       | None => users (sv_db s)
                       end ∧
    web_sessions (sv_db s') = web_sessions (sv_db s).
Proof.
  unfold renew. destruct (find_client now name s) as [row|]; [|done].
  destruct (cr_state (cl_cert row)); [done|..];
    (destruct (renew_client sh name days (sv_pki s)) as [p|]; [|done]);
    (destruct (renewed now _ name _ _) as [r|]; [|done]);
    (destruct (eligible now _ name) as [oc|] eqn:Hel; [|done]); intros [= <- _]; exists row, oc;
    unfold event; destruct oc as [c|]; by split_and!.
Qed.

(** The row of a client whose certificate is eligible is of that certificate. *)
Lemma eligible_row now name s c row :
  NoDup (pd_issued (sv_pki s)).*1 → eligible now (view s) name = Ok (Some c) → find_client now name s = Ok row →
  cr_serial (cl_cert row) = ce_serial c.
Proof.
  intros Hnd Hel Hrow. assert (Hres : reserved name = false).
  { unfold eligible in Hel. destruct (validate_name name) eqn:Hn; [|done]. by eapply validate_name_not_reserved. }
  apply eligible_Some in Hel as (_ & Hi & _). apply pki_of_issued in Hi as (i & Hin & ->).
  apply find_client_Ok in Hrow as [Hrow Hn].
  destruct (listed_issued now (pd_index (sv_pki s)) (hidden_serials (sv_db s)) _ (pd_renewed (sv_pki s))
    (pd_revoked (sv_pki s)) name i Hin Hres) as (x & Hx & Hxn & Hxc).
  assert (x = row) as ->; [|by rewrite Hxc].
  eapply (NoDup_fmap_eq cl_name); [by apply list_clients_names|done|done|congruence].
Qed.

(** Renewing a certificate does not sign the client out: a cookie that spoke for the client before
    the renewal speaks for it afterwards, with the new certificate, provided the renewed certificate
    is a valid one. *)
Theorem renewal_keeps_sign_in sha ttl now sh name days actor s s' row' r u c
    (Hnd : NoDup (pd_issued (sv_pki s)).*1)
    (Hrenew : renew now sh name days actor s = (s', Ok row'))
    (Hnew : eligible now (view s') name = Ok (Some c))
    (Hin : (signed_in_user sha ttl now (view s) r (sv_db s)).2 = Ok u) (Hname : su_client_name u = Some name) :
  ∃ u', (signed_in_user sha ttl now (view s') r (sv_db s')).2 = Ok u' ∧
    su_id u' = su_id u ∧ su_client_name u' = Some name ∧ su_client_serial u' = Some (ce_serial c).
Proof.
  apply renew_Ok in Hrenew as (row & oc & Hrow & Hoc & Hus & Hws). rewrite Hnew in Hoc. injection Hoc as <-.
  revert Hin. unfold signed_in_user. unfold get_session_user. rewrite Hws, Hus.
  destruct (negb (truthy (rq_cookie r))) eqn:Hck; [done|].
  destruct (web_sessions (sv_db s) !! _) as [ws|]; [|done].
  destruct (users (sv_db s) !! ws_user_id ws) as [x|] eqn:Hx; [|done].
  destruct (ws_expires_at ws <? now); [done|]. cbn [su_role su_client_name su_client_serial].
  destruct (u_client_name x) as [n|] eqn:Hn; cbn [su_client_name].
  2: { destruct (portal_only r); [done|]. cbn. intros [= <-]. by cbn in Hname. }
  change (default "" (Some n)) with n.
  destruct (eligible now (view s) n) as [[c0|]|] eqn:He; [|done|done].
  destruct (bool_decide (u_client_serial x = Some (ce_serial c0))) eqn:Hb; [|done]. apply bool_decide_eq_true in Hb.
  cbn. intros [= <-]. cbn in Hname. injection Hname as ->.
  pose proof (eligible_row now name s c0 row Hnd He Hrow) as Hser.
  rewrite lookup_fmap, Hx. cbn. rewrite Hn, Hb, Hser. rewrite bool_decide_eq_true_2 by done. cbn.
  rewrite Hnew. rewrite bool_decide_eq_true_2 by done. cbn. by eexists.
Qed.

(** ** Witnesses: alice is created, renewed, revoked and deleted *)

Definition quiet_mgmt : mgmt := Mgmt None "" None [] [].
Definition info_1 : info := Info "01" (Some 10) (Some 1000000) "alice" "AA".
Definition info_2 : info := Info "02" (Some 900) (Some 2000000) "alice" "BB".
Definition demo_entry (status serial : string) : index_entry := IndexEntry status (Some 1000000) None None serial "alice".

Definition dir_valid : pki_dir := PkiDir {["01" := demo_entry "V" "01"]} [("alice", Some info_1)] [] [].
Definition dir_renewed : pki_dir :=
  PkiDir (<["02" := demo_entry "V" "02"]> {["01" := demo_entry "V" "01"]}) [("alice", Some info_2)] [("alice", Some info_1)] [].
Definition dir_revoked : pki_dir := PkiDir {["01" := demo_entry "R" "01"]} [] [] [("01", Some info_1)].

Definition demo_server : server :=
  Server (create_session id "tok" 1000 2 43200 None None demo_db) (RelayDb (RelayConfig true "https://relay" "http2") None ∅) dir_valid (Access ∅ ∅) quiet_mgmt.

(** Scripts that do what easy-rsa does to these directories. *)
Definition toy_revoke : option string → script := fun _ _ => Ok dir_revoked.
Definition toy_renew : option Z → script := fun _ _ => Ok dir_renewed.

Definition demo_revoked : server * result (client * string) :=
  revoke id None 2000 0 toy_revoke "alice" (Some "superseded") "admin" demo_server.

Lemma revoke_locks_out_witness :
  is_ok demo_revoked.2 = true ∧
  ∀ ttl later r u, (signed_in_user id ttl later (view demo_revoked.1) r (sv_db demo_revoked.1)).2 = Ok u →
    su_client_name u ≠ Some "alice".
Proof.
  assert (Hok : is_ok demo_revoked.2 = true) by (vm_compute; reflexivity). split; [exact Hok|].
  destruct demo_revoked as [s' [a|e]] eqn:Hr; [|discriminate Hok].
  apply (revoke_locks_out id id None 2000 0 toy_revoke "alice" (Some "superseded") "admin" demo_server s' a); [|exact Hr].
  intros reason p p' [= <-] i Hi. by apply not_elem_of_nil in Hi.
Defined.

Definition demo_deleted : server * result unit :=
  delete_client id 2100 (fun a => Ok a) "alice" "admin" demo_revoked.1.

Lemma deleted_client_gone_witness :
  demo_deleted.2 = Ok tt ∧ ∀ later, is_ok (find_client later "alice" demo_deleted.1) = false.
Proof.
  split; [vm_compute; reflexivity|].
  apply (deleted_client_gone id 2100 (fun a => Ok a) "alice" "admin" demo_revoked.1 demo_deleted.1).
  - intros o Ho. vm_compute in Ho. by apply not_elem_of_nil in Ho.
  - vm_compute. constructor.
  - apply (accounts_ok_users demo_db); [vm_compute; reflexivity|vm_compute; reflexivity|exact demo_db_ok].
  - vm_compute. reflexivity.
Defined.

Definition toy_create : option Z → option string → pki_dir * access → result (pki_dir * access) :=
  fun _ _ pa => Ok (dir_renewed, pa.2).
Definition demo_created : server * result (client * option string) :=
  create_client 3000 "" "10.8.0.128/25" toy_create (Ok None) (NewClient " alice " None None None false true "phone") "admin"
    demo_deleted.1.

Lemma created_client_clean_witness :
  ∃ row uri, demo_created = (demo_created.1, Ok (row, uri)) ∧ no_history "alice" (sv_db demo_created.1) ∧
    "alice" ∈ guests_dir (sv_access demo_created.1).
Proof.
  destruct demo_created as [s' [[row uri]|e]] eqn:Hc; [|vm_compute in Hc; discriminate Hc].
  exists row, uri. split; [reflexivity|].
  destruct (created_client_clean id 3000 "" "10.8.0.128/25" toy_create (Ok None)
    (NewClient " alice " None None None false true "phone") "admin" demo_deleted.1 s' row uri Hc) as (_ & Hn & _ & Hg & _).
  split; [exact Hn|]. apply Hg. reflexivity.
Defined.

Definition demo_renewed : server * result client := renew 1500 toy_renew "alice" None "admin" demo_server.

Lemma renewal_keeps_sign_in_witness :
  ∃ u', (signed_in_user id 43200 1500 (view demo_renewed.1) (demo_request [] (Some "tok")) (sv_db demo_renewed.1)).2 = Ok u' ∧
    su_client_serial u' = Some "02".
Proof.
  destruct demo_renewed as [s' [row'|e]] eqn:Hr; [|vm_compute in Hr; discriminate Hr].
  destruct (renewal_keeps_sign_in id 43200 1500 toy_renew "alice" None "admin" demo_server s' row'
    (demo_request [] (Some "tok")) (SessionUser 2 "alice" (Some "alice") (Some "01") Client)
    (Cert "alice" "02" (Some 900) (Some 2000000))) as (u' & Hu & _ & _ & Hs).
  - apply (bool_decide_unpack _). vm_compute. exact I.
  - exact Hr.
  - replace s' with demo_renewed.1 by (rewrite Hr; reflexivity). vm_compute. reflexivity.
  - vm_compute. reflexivity.
  - reflexivity.
  - exists u'. split; [exact Hu|exact Hs].
Defined.
