(* ===== verification/RelayHistory.v ===== *)
(** * Visits through the relay: [ui/app/relay_history.py]

    A row of the relay's status is a [snapshot]; the table relay_sessions is in
    [Schema].  The relay itself (relay/, in Go) is not modelled: its status is an
    argument. *)

From S2P Require Import Prelude PyStr Schema Sessions.

Open Scope string_scope.
Open Scope list_scope.
Open Scope Z_scope.

Definition IDLE_SECONDS : Z := 300.
Definition POLL_SECONDS : Z := 5.
Definition RETENTION : Z := 365 * 86400.

Record snapshot := Snapshot {
  sn_id : string;
  sn_client : option string;
  sn_credential : option string;
  sn_transport : string;
  sn_started_at : Z;
  sn_last_seen : Z;
  sn_active : Z;
  sn_accepted : Z;
  sn_denied : Z;
  sn_failed : Z;
  sn_bytes_up : Z;
  sn_bytes_down : Z;
  sn_uncounted : Z;
}.

#[export] Instance snapshot_eq_dec : EqDecision snapshot.
Proof. solve_decision. Defined.

Record relay_status := RelayStatus { rst_ready : bool; rst_instance : option string; rst_sessions : list snapshot }.

(** SQL's LIKE with its default escape character. *)
Fixpoint like (p s : string) : bool :=
  match p with
  | EmptyString => empty s
  | String c p' =>
      if Ascii.eqb c "%"%char then
        (fix any (s : string) : bool :=
           like p' s || match s with String _ s => any s | EmptyString => false end) s
      else if Ascii.eqb c "_"%char then match s with String _ s => like p' s | EmptyString => false end
      else if Ascii.eqb c "\"%char then
        match p' with
        | String d p'' => match s with String e s => Ascii.eqb d e && like p'' s | EmptyString => false end
        | EmptyString => false
        end
      else match s with String e s => Ascii.eqb c e && like p' s | EmptyString => false end
  end.

Definition set_active (n : Z) (r : relay_session) : relay_session :=
  RelaySession (rs_grp r) (rs_client_name r) (rs_credential_id r) (rs_transport r) (rs_started_at r) (rs_last_seen r)
    (rs_sampled_at r) n (rs_accepted r) (rs_denied r) (rs_failed r) (rs_bytes_up r) (rs_bytes_down r) (rs_uncounted r).

(** A new relay process has no flows of its predecessor. *)
Definition deactivate (instance : string) (d : database) : database :=
  upd_relay (map_imap (fun id r => Some (if (0 <? rs_active r) && negb (like (instance +:+ ":%") id) then set_active 0 r else r))) d.

(** [ORDER BY last_seen DESC LIMIT 1]. *)
Definition later_seen (a b : relay_session) : Prop := rs_last_seen b <= rs_last_seen a.
#[export] Instance later_seen_dec : RelDecision later_seen.
Proof. intros a b. unfold later_seen. apply _. Defined.

Definition previous_visit (client credential : string) (started_at : Z) (d : database) : option relay_session :=
  head (merge_sort later_seen
    (filter (fun r => rs_client_name r = client ∧ rs_credential_id r = credential ∧
                      started_at - IDLE_SECONDS <= rs_last_seen r ∧ rs_started_at r <= started_at)
       (map_to_list (relay_sessions d)).*2)).

(** The row that INSERT ... ON CONFLICT (id) DO UPDATE leaves. *)
Definition merged (now : Z) (group client credential : string) (row : snapshot) (existing : option relay_session) : relay_session :=
  match existing with
  | None =>
      RelaySession group client credential (sn_transport row) (sn_started_at row) (sn_last_seen row) now (sn_active row)
        (sn_accepted row) (sn_denied row) (sn_failed row) (sn_bytes_up row) (sn_bytes_down row) (sn_uncounted row)
  | Some r =>
      RelaySession (rs_grp r) (rs_client_name r) (rs_credential_id r) (rs_transport r) (rs_started_at r)
        (Z.max (rs_last_seen r) (sn_last_seen row)) now (sn_active row) (Z.max (rs_accepted r) (sn_accepted row))
        (Z.max (rs_denied r) (sn_denied row)) (Z.max (rs_failed r) (sn_failed row)) (Z.max (rs_bytes_up r) (sn_bytes_up row))
        (Z.max (rs_bytes_down r) (sn_bytes_down row)) (Z.max (rs_uncounted r) (sn_uncounted row))
  end.

(** One row of the loop; a row without a client or a credential is not recorded. *)
Definition record_row (now : Z) (d : database) (row : snapshot) : database :=
  match sn_client row, sn_credential row with
  | Some client, Some credential =>
      if empty client || empty credential then d
      else
        let existing := relay_sessions d !! sn_id row in
        let group :=
          match existing with
          | Some r => rs_grp r
          | None => match previous_visit client credential (sn_started_at row) d with
                    | Some r => rs_grp r
                    | None => sn_id row
                    end
          end in
        upd_relay (<[sn_id row := merged now group client credential row existing]>) d
  | _, _ => d
  end.

Definition record (now : Z) (st : relay_status) (d : database) : database :=
  if negb (rst_ready st) then d
  else
    let d := if truthy (rst_instance st) then deactivate (default "" (rst_instance st)) d else d in
    let d := foldl (record_row now) d (rst_sessions st) in
    upd_relay (filter (fun kv => now - RETENTION <= rs_last_seen kv.2)) d.

(** ** [sessions] *)

Inductive visit_state := VActive | VIdle | VEnded.

Record relay_visit := RelayVisit {
  rv_id : string;
  rv_member_ids : list string;
  rv_client : string;
  rv_started_at : Z;
  rv_last_seen : Z;
  rv_active : Z;
  rv_accepted : Z;
  rv_denied : Z;
  rv_failed : Z;
  rv_bytes_up : Z;
  rv_bytes_down : Z;
  rv_uncounted_flows : Z;
  rv_state : visit_state;
  rv_ended_at : option Z;
}.

Definition min_list (x : Z) (l : list Z) : Z := foldl Z.min x l.
Definition max_list (x : Z) (l : list Z) : Z := foldl Z.max x l.

(** One row of GROUP BY grp, client_name and the columns Python adds. *)
Definition visit_row (now : Z) (key : string * string) (rows : list (string * relay_session)) : option relay_visit :=
  match rows.*2 with
  | [] => None
  | r :: rs =>
      let sum f := sumZ (fun p : string * relay_session => f p.2) rows in
      let active := sum (fun r => if now - 3 * POLL_SECONDS <=? rs_sampled_at r then rs_active r else 0) in
      let last_seen := max_list (rs_last_seen r) (rs_last_seen <$> rs) in
      let state := if negb (active =? 0) then VActive else if now - last_seen <=? IDLE_SECONDS then VIdle else VEnded in
      Some (RelayVisit key.1 rows.*1 key.2 (min_list (rs_started_at r) (rs_started_at <$> rs)) last_seen active
              (sum rs_accepted) (sum rs_denied) (sum rs_failed) (sum rs_bytes_up) (sum rs_bytes_down) (sum rs_uncounted)
              state (match state with VEnded => Some last_seen | _ => None end))
  end.

Definition group_key (p : string * relay_session) : string * string := (rs_grp p.2, rs_client_name p.2).

(** [ORDER BY MIN(started_at) DESC, grp DESC]. *)
Definition visit_before (a b : relay_visit) : Prop :=
  rv_started_at b < rv_started_at a ∨ rv_started_at a = rv_started_at b ∧ String.compare (rv_id b) (rv_id a) ≠ Gt.
#[export] Instance visit_before_dec : RelDecision visit_before.
Proof. intros a b. unfold visit_before. apply _. Defined.

Definition all_visits (now : Z) (client credential : option string) (d : database) : list relay_visit :=
  let rows := filter (fun p : string * relay_session =>
      (match client with Some c => String.eqb (rs_client_name p.2) c | None => true end
       && match credential with Some c => String.eqb (rs_credential_id p.2) c | None => true end) = true)
    (map_to_list (relay_sessions d)) in
  merge_sort visit_before
    (omap (fun key => visit_row now key (filter (fun p => group_key p = key) rows)) (remove_dups (group_key <$> rows))).

Definition sessions (now : Z) (client credential : option string) (d : database) : list relay_visit :=
  take 200 (all_visits now client credential d).

(** ** The collector thread

    [_seen]: the rows of the last status that was recorded, by id. *)
Definition snapshots (rows : list snapshot) : list snapshot :=
  foldl (fun acc row =>
           if existsb (fun r => String.eqb (sn_id r) (sn_id row)) acc
           then (fun r => if String.eqb (sn_id r) (sn_id row) then row else r) <$> acc
           else acc ++ [row]) [] rows.

Definition seen_row (seen : list snapshot) (id : string) : option snapshot :=
  find (fun r => String.eqb (sn_id r) id) seen.

(** One turn of [run]; [commit] is whether [record] succeeds, its failure is logged. *)
Definition relay_turn (now : Z) (st : relay_status) (commit : bool) (seen : list snapshot) (d : database)
    : list snapshot * database :=
  if negb (rst_ready st) then (seen, d)
  else
    let snaps := snapshots (rst_sessions st) in
    let changed := filter (fun row => seen_row seen (sn_id row) ≠ Some row) snaps in
    if commit then (snaps, record now (RelayStatus true (rst_instance st) changed) d) else (seen, d).

(** ** Recording: what a status changes *)

(** The counters of the relay only grow; the identity of a row stays. *)
Record grows (r r' : relay_session) : Prop := Grows {
  gw_id : rs_grp r' = rs_grp r ∧ rs_client_name r' = rs_client_name r ∧ rs_credential_id r' = rs_credential_id r ∧
          rs_transport r' = rs_transport r ∧ rs_started_at r' = rs_started_at r;
  gw_counts : rs_last_seen r <= rs_last_seen r' ∧ rs_accepted r <= rs_accepted r' ∧ rs_denied r <= rs_denied r' ∧
    rs_failed r <= rs_failed r' ∧ rs_bytes_up r <= rs_bytes_up r' ∧ rs_bytes_down r <= rs_bytes_down r' ∧
    rs_uncounted r <= rs_uncounted r';
}.

#[export] Instance grows_preorder : PreOrder grows.
Proof.
  split.
  - intros r. split; [done|]. lia.
  - intros a b c [(? & ? & ? & ? & ?) ?] [(? & ? & ? & ? & ?) ?]. split; [|lia]. split_and!; congruence.
Qed.

(** What a status row reports is in the table. *)
Definition reported (row : snapshot) (r : relay_session) : Prop :=
  sn_last_seen row <= rs_last_seen r ∧ sn_accepted row <= rs_accepted r ∧ sn_denied row <= rs_denied r ∧
  sn_failed row <= rs_failed r ∧ sn_bytes_up row <= rs_bytes_up r ∧ sn_bytes_down row <= rs_bytes_down r ∧
  sn_uncounted row <= rs_uncounted r.

Lemma merged_grows now group client credential row r : grows r (merged now group client credential row (Some r)).
Proof. split; [done|]. cbn. lia. Qed.

Lemma merged_reported now group client credential row o : reported row (merged now group client credential row o).
Proof. destruct o as [r|]; unfold reported; cbn; lia. Qed.

Lemma reported_grows row r r' : reported row r → grows r r' → reported row r'.
Proof. unfold reported. intros H [_ ?]. lia. Qed.

Definition identified (row : snapshot) : bool := truthy (sn_client row) && truthy (sn_credential row).

Lemma record_row_spec now d row :
  (∀ id r, relay_sessions d !! id = Some r → ∃ r', relay_sessions (record_row now d row) !! id = Some r' ∧ grows r r') ∧
  (identified row = true → ∃ r, relay_sessions (record_row now d row) !! sn_id row = Some r ∧ reported row r ∧ rs_active r = sn_active row) ∧
  (∀ id, id ≠ sn_id row → relay_sessions (record_row now d row) !! id = relay_sessions d !! id).
Proof.
  assert (Hsame : ∀ id r, relay_sessions d !! id = Some r → ∃ r', relay_sessions d !! id = Some r' ∧ grows r r').
  { intros id r Hr. exists r. split; [done|reflexivity]. }
  unfold record_row, identified, truthy, empty.
  destruct (sn_client row) as [c|]; [|split_and!; [exact Hsame|done|done]].
  destruct (sn_credential row) as [k|]; [|split_and!; [exact Hsame|by rewrite andb_false_r|done]].
  destruct (String.eqb c "") eqn:Hc; cbn [orb negb andb]; [split_and!; [exact Hsame|done|done]|].
  destruct (String.eqb k "") eqn:Hk; cbn [negb]; [split_and!; [exact Hsame|done|done]|].
  cbn [upd_relay relay_sessions].
  set (group := match relay_sessions d !! sn_id row with Some r => rs_grp r | None => _ end).
  split_and!.
  - intros id r Hr. destruct (decide (id = sn_id row)) as [->|Hne].
    + rewrite lookup_insert_eq. eexists. split; [done|]. rewrite Hr. apply merged_grows.
    + rewrite lookup_insert_ne by done. exists r. split; [done|reflexivity].
  - intros _. rewrite lookup_insert_eq. eexists. split; [done|]. split; [apply merged_reported|].
    by destruct (relay_sessions d !! sn_id row).
  - intros id Hne. by rewrite lookup_insert_ne.
Qed.

Lemma record_rows_spec now rows : NoDup (sn_id <$> rows) → ∀ d,
  (∀ id r, relay_sessions d !! id = Some r → ∃ r', relay_sessions (foldl (record_row now) d rows) !! id = Some r' ∧ grows r r') ∧
  (∀ row, row ∈ rows → identified row = true →
     ∃ r, relay_sessions (foldl (record_row now) d rows) !! sn_id row = Some r ∧ reported row r ∧ rs_active r = sn_active row) ∧
  (∀ id, id ∉ sn_id <$> rows → relay_sessions (foldl (record_row now) d rows) !! id = relay_sessions d !! id).
Proof.
  induction rows as [|row rows IH]; intros Hnd d.
  { split_and!; [intros id r Hr; exists r; split; [done|reflexivity]|by intros row ?%not_elem_of_nil|done]. }
  rewrite fmap_cons in Hnd. apply NoDup_cons in Hnd as [Hrow Hnd]. cbn [foldl].
  destruct (record_row_spec now d row) as (Ha & Hb & Hc). destruct (IH Hnd (record_row now d row)) as (IHa & IHb & IHc).
  split_and!.
  - intros id r Hr. destruct (Ha id r Hr) as (r1 & H1 & G1). destruct (IHa id r1 H1) as (r2 & H2 & G2).
    exists r2. split; [done|]. by transitivity r1.
  - intros row' [->|Hin]%elem_of_cons Hid; [|by apply IHb].
    destruct (Hb Hid) as (r & Hr & Hrep). exists r. by rewrite IHc.
  - intros id Hid. rewrite fmap_cons, not_elem_of_cons in Hid. destruct Hid. by rewrite IHc, Hc.
Qed.

Lemma deactivate_grows instance d id r :
  relay_sessions d !! id = Some r → ∃ r', relay_sessions (deactivate instance d) !! id = Some r' ∧ grows r r'.
Proof.
  intros Hr. cbn. rewrite map_lookup_imap, Hr. cbn. eexists. split; [done|].
  destruct (_ && _); [|reflexivity]. split; [done|]. cbn. lia.
Qed.

(** Recording a status of the relay never loses what was recorded: every row of the last year stays,
    keeps its visit, client, credential and start, and no counter of it goes back, also when the
    relay restarts and counts from zero; and every session the status reports for a named client and
    credential is in the table with at least the reported counts and the reported number of flows. *)
Theorem record_never_loses now st d
    (Hready : rst_ready st = true) (Hids : NoDup (sn_id <$> rst_sessions st)) :
  (∀ id r, relay_sessions d !! id = Some r → now - RETENTION <= rs_last_seen r →
     ∃ r', relay_sessions (record now st d) !! id = Some r' ∧ grows r r') ∧
  (∀ row, row ∈ rst_sessions st → identified row = true → now - RETENTION <= sn_last_seen row →
     ∃ r, relay_sessions (record now st d) !! sn_id row = Some r ∧ reported row r ∧ rs_active r = sn_active row).
Proof.
  unfold record. rewrite Hready. cbn [negb].
  set (d1 := if truthy (rst_instance st) then deactivate (default "" (rst_instance st)) d else d).
  assert (H1 : ∀ id r, relay_sessions d !! id = Some r → ∃ r', relay_sessions d1 !! id = Some r' ∧ grows r r').
  { intros id r Hr. unfold d1. destruct (truthy (rst_instance st)); [by apply deactivate_grows|].
    exists r. split; [done|reflexivity]. }
  destruct (record_rows_spec now (rst_sessions st) Hids d1) as (Ha & Hb & _). cbn [upd_relay relay_sessions]. split.
  - intros id r Hr Hkeep. destruct (H1 id r Hr) as (r1 & Hr1 & G1). destruct (Ha id r1 Hr1) as (r2 & Hr2 & G2).
    assert (G : grows r r2) by (by transitivity r1). exists r2. split; [|done]. apply map_lookup_filter_Some. split; [done|].
    cbn. destruct G as [_ ?]. lia.
  - intros row Hin Hid Hkeep. destruct (Hb row Hin Hid) as (r & Hr & Hrep & Hact). exists r. split; [|done].
    apply map_lookup_filter_Some. split; [done|]. cbn. unfold reported in Hrep. lia.
Qed.

(** ** Visits *)

Lemma visit_row_sum now key rows v :
  visit_row now key rows = Some v →
  rv_accepted v = sumZ (fun p => rs_accepted p.2) rows ∧ rv_denied v = sumZ (fun p => rs_denied p.2) rows ∧
  rv_failed v = sumZ (fun p => rs_failed p.2) rows ∧ rv_bytes_up v = sumZ (fun p => rs_bytes_up p.2) rows ∧
  rv_bytes_down v = sumZ (fun p => rs_bytes_down p.2) rows ∧ rv_uncounted_flows v = sumZ (fun p => rs_uncounted p.2) rows ∧
  Z.of_nat (length (rv_member_ids v)) = sumZ (fun _ => 1) rows.
Proof.
  unfold visit_row. destruct rows.*2 as [|r rs]; [done|]. intros [= <-]. cbn. split_and!; try done.
  by rewrite length_fmap, sumZ_one.
Qed.

Lemma visit_row_None now key rows : visit_row now key rows = None → rows = [].
Proof. unfold visit_row. by destruct rows. Qed.

(** The relay visits add up: over the listed visits the connections, refusals, failures, bytes and
    flows are those of all recorded rows of the client and credential asked for, each row in exactly
    one visit (unless there are more than the 200 listed). *)
Theorem relay_visits_total now client credential d :
  let rows := filter (fun p : string * relay_session =>
      (match client with Some c => String.eqb (rs_client_name p.2) c | None => true end
       && match credential with Some c => String.eqb (rs_credential_id p.2) c | None => true end) = true)
    (map_to_list (relay_sessions d)) in
  let page := sessions now client credential d in
  (length (all_visits now client credential d) <= 200)%nat →
  sumZ rv_accepted page = sumZ (fun p => rs_accepted p.2) rows ∧ sumZ rv_denied page = sumZ (fun p => rs_denied p.2) rows ∧
  sumZ rv_failed page = sumZ (fun p => rs_failed p.2) rows ∧ sumZ rv_bytes_up page = sumZ (fun p => rs_bytes_up p.2) rows ∧
  sumZ rv_bytes_down page = sumZ (fun p => rs_bytes_down p.2) rows ∧
  sumZ rv_uncounted_flows page = sumZ (fun p => rs_uncounted p.2) rows ∧
  sumZ (fun v => Z.of_nat (length (rv_member_ids v))) page = Z.of_nat (length rows).
Proof.
  intros rows page Hlen. unfold page, sessions. rewrite take_ge by done. unfold all_visits. fold rows.
  assert (Hsum : ∀ (h : relay_visit → Z) (f : string * relay_session → Z),
    (∀ key l v, visit_row now key l = Some v → h v = sumZ f l) →
    sumZ h (merge_sort visit_before (omap (fun key => visit_row now key (filter (fun p => group_key p = key) rows))
      (remove_dups (group_key <$> rows)))) = sumZ f rows).
  { intros h f Hh. rewrite (sumZ_perm _ _ _ (merge_sort_Permutation visit_before _)).
    rewrite <- (sumZ_groups group_key f (remove_dups (group_key <$> rows)) rows).
    - generalize (remove_dups (group_key <$> rows)). intros keys. induction keys as [|key keys IH]; [done|].
      change (omap ?g (key :: keys)) with (match g key with Some y => y :: omap g keys | None => omap g keys end).
      cbn [sumZ]. destruct (visit_row now key _) as [v|] eqn:Hv; cbn [sumZ]; rewrite IH.
      + by rewrite (Hh _ _ _ Hv).
      + by apply visit_row_None in Hv as ->.
    - apply NoDup_remove_dups.
    - intros p Hp. apply elem_of_remove_dups. by apply list_elem_of_fmap_2. }
  split_and!; [apply Hsum; intros key l v Hv; apply visit_row_sum in Hv; tauto..|].
  rewrite (Hsum _ (fun _ => 1)); [apply sumZ_one|]. intros key l v Hv. apply visit_row_sum in Hv. tauto.
Qed.

Definition demo_snap (id : string) (up : Z) : snapshot :=
  Snapshot id (Some "alice") (Some "cred") "http2" 1000 1100 1 2 0 0 up 20 0.
Definition demo_status : relay_status := RelayStatus true (Some "XYZ") [demo_snap "XYZ:1" 10; demo_snap "XYZ:2" 30].

Lemma record_never_loses_witness :
  ∃ r, relay_sessions (record 1200 demo_status empty_db) !! "XYZ:2" = Some r ∧ reported (demo_snap "XYZ:2" 30) r ∧ rs_active r = 1.
Proof.
  apply (proj2 (record_never_loses 1200 demo_status empty_db eq_refl ltac:(apply (bool_decide_unpack _); vm_compute; exact I))
           (demo_snap "XYZ:2" 30)).
  - apply elem_of_cons. right. apply list_elem_of_singleton. reflexivity.
  - reflexivity.
  - vm_compute. discriminate.
Defined.

Lemma relay_visits_total_witness :
  sumZ rv_bytes_up (sessions 1200 (Some "alice") None (record 1200 demo_status empty_db)) = 40.
Proof.
  pose proof (relay_visits_total 1200 (Some "alice") None (record 1200 demo_status empty_db)) as H. cbv zeta in H.
  destruct H as (_ & _ & _ & H & _); [vm_compute; lia|]. rewrite H. vm_compute. reflexivity.
Defined.
