(* ===== verification/Watchdog.v ===== *)
(** * The watchdog: [ui/app/watchdog.py], with [/healthz] of [ui/app/main.py]

    [run] takes what the turns of the loop meet; [run_at] runs the same loop on a clock
    (in milliseconds), with the answers and durations of the checks as functions of the
    time a check begins. *)

From S2P Require Import Prelude PyStr Schema Collector.

Open Scope string_scope.
Open Scope list_scope.
Open Scope Z_scope.

(** ** The program *)

(** [__init__], with its defaults. *)
Record watchdog := Watchdog { wd_interval : Z; wd_failures : Z; wd_grace : Z }.
Definition default_watchdog : watchdog := Watchdog 30000 4 120000.

(** [/healthz]: the collector as [alive] judges it, and [live["connected"]]. *)
Definition healthz (collector_alive connected : bool) : result bool :=
  if collector_alive then Ok connected else Raise (HTTPException 503 "The collector is not running").

(** The status line a response has: a raised HTTPException is answered with its status. *)
Definition http_status {A} (r : result A) : Z :=
  match r with Ok _ => 200 | Raise (HTTPException s _) => s | Raise _ => 500 end.

(** [probe]: [opener.open] raises for statuses from 400 on, and for a request that
    fails or times out. *)
Definition probe (response : result Z) : bool :=
  match response with Ok s => (s <? 400) && (s =? 200) | Raise _ => false end.

(** A turn: the event was set while [_stop.wait(interval)] waited, or a check was made. *)
Inductive turn := Stop | Checked (ok : bool).
(** How the thread is left: stopped, [die] called, or in the loop with [failed]. *)
Inductive outcome := Stopped | Died | Running (failed : Z).

Fixpoint run_loop (failures failed : Z) (turns : list turn) : outcome :=
  match turns with
  | [] => Running failed
  | Stop :: _ => Stopped
  | Checked ok :: turns =>
      let failed := if ok then 0 else failed + 1 in
      if failures <=? failed then Died else run_loop failures failed turns
  end.
Definition run (w : watchdog) (turns : list turn) : outcome := run_loop (wd_failures w) 0 turns.

(** [start]: the address the watchdog asks, for the value of UVICORN_HOST. *)
Definition probe_host (host : string) : string :=
  if String.eqb host "0.0.0.0" then "127.0.0.1"
  else if String.eqb host "::" then "[::1]"
  else if mem_char ":" host then "[" +:+ host +:+ "]" else host.
Definition start (uvicorn_host : option string) : option (string * watchdog) :=
  match uvicorn_host with
  | Some host => if empty host then None else Some ("http://" +:+ probe_host host +:+ ":8080/healthz", default_watchdog)
  | None => None
  end.

(** ** On the clock *)

Section clock.
Context (w : watchdog) (healthy : Z → bool) (duration : Z → Z).

(** The loop from [now] on, without a stop: the time [die] is called, if [fuel] turns
    are enough. *)
Fixpoint run_at (fuel : nat) (now failed : Z) : option Z :=
  match fuel with
  | O => None
  | S fuel =>
      let t := now + wd_interval w in
      let failed := if healthy t then 0 else failed + 1 in
      if wd_failures w <=? failed then Some (t + duration t) else run_at fuel (t + duration t) failed
  end.
Definition run_clock (fuel : nat) (started : Z) : option Z := run_at fuel (started + wd_grace w) 0.

(** The times the checks begin, with what they see: the turns of [run]. *)
Fixpoint turns_at (fuel : nat) (now : Z) : list turn :=
  match fuel with
  | O => []
  | S fuel => let t := now + wd_interval w in Checked (healthy t) :: turns_at fuel (t + duration t)
  end.

Lemma run_at_loop fuel now failed :
  is_Some (run_at fuel now failed) ↔ run_loop (wd_failures w) failed (turns_at fuel now) = Died.
Proof.
  revert now failed. induction fuel as [|fuel IH]; intros now failed; cbn [run_at turns_at run_loop].
  { split; [by intros [? ?]|done]. }
  destruct (_ <=? _); [split; eauto|apply IH].
Qed.

(** Once no check succeeds any more, the missing failures are counted one turn each. *)
Lemma run_at_dies D fuel now failed :
  0 < wd_interval w → (∀ t, 0 <= duration t <= D) → (∀ t, now <= t → healthy t = false) →
  0 <= failed < wd_failures w → wd_failures w - failed <= Z.of_nat fuel →
  ∃ t, run_at fuel now failed = Some t ∧ t <= now + (wd_failures w - failed) * (wd_interval w + D).
Proof.
  intros Hi Hd. revert now failed. induction fuel as [|fuel IH]; intros now failed Hh Hf Hfuel; [lia|].
  cbn [run_at]. rewrite Hh by lia. pose proof (Hd (now + wd_interval w)) as Hdt.
  destruct (Z.leb_spec (wd_failures w) (failed + 1)).
  - eexists. split; [done|]. nia.
  - destruct (IH (now + wd_interval w + duration (now + wd_interval w)) (failed + 1)) as (t & Ht & Hb);
      [intros t Ht; apply Hh; lia|lia|lia|].
    exists t. split; [done|]. nia.
Qed.

(** As [run_at_dies], when the checks fail from [dead] on only. *)
Lemma run_at_bound D fuel now failed dead :
  0 < wd_interval w → 0 < wd_failures w → (∀ t, 0 <= duration t <= D) → (∀ t, dead <= t → healthy t = false) →
  0 <= failed < wd_failures w → wd_failures w + Z.max 0 (dead - now) <= Z.of_nat fuel →
  ∃ t, run_at fuel now failed = Some t ∧
       t <= Z.max now (dead + wd_interval w + D) + wd_failures w * (wd_interval w + D).
Proof.
  intros Hi Hw Hd Hh. revert now failed. induction fuel as [|fuel IH]; intros now failed Hf Hfuel; [lia|].
  destruct (Z.le_gt_cases dead now) as [Hle|Hgt].
  { destruct (run_at_dies D (S fuel) now failed) as (t & Ht & Hb); [done|done|intros t Ht; apply Hh; lia|done|lia|].
    exists t. split; [done|]. pose proof (Hd 0). nia. }
  cbn [run_at]. pose proof (Hd (now + wd_interval w)) as Hdt. set (n := now + wd_interval w + duration (now + wd_interval w)).
  set (failed' := if healthy (now + wd_interval w) then 0 else failed + 1).
  assert (0 <= failed') by (unfold failed'; destruct (healthy _); lia).
  destruct (Z.leb_spec (wd_failures w) failed').
  - eexists. split; [done|]. nia.
  - destruct (IH n failed') as (t & Ht & Hb); [lia|lia|]. exists t. split; [done|]. nia.
Qed.
End clock.

(** ** The reference: a run of failures *)

Fixpoint fails_first (k : nat) (l : list turn) : bool :=
  match k, l with
  | O, _ => true
  | S k, Checked false :: l => fails_first k l
  | _, _ => false
  end.
Fixpoint failure_run (k : nat) (l : list turn) : bool :=
  match l with
  | Checked _ :: l' => fails_first k l || failure_run k l'
  | _ => false
  end.

Lemma fails_first_spec k l : fails_first k l = true ↔ ∃ post, l = repeat (Checked false) k ++ post.
Proof.
  revert l. induction k as [|k IH]; intros l; cbn [fails_first repeat app].
  { split; [|done]. intros _. by exists l. }
  destruct l as [|[|[]] l]; try (split; [done|]; by intros [post [=]]).
  rewrite IH. split; [intros [post ->]; by exists post|]. intros [post [= ->]]. by exists post.
Qed.

Lemma fails_first_le k k' l : (k' <= k)%nat → fails_first k l = true → fails_first k' l = true.
Proof.
  revert k' l. induction k as [|k IH]; intros [|k'] l Hle; try done; [lia|]. cbn [fails_first].
  destruct l as [|[|[]] l]; try done. apply IH. lia.
Qed.

Lemma fails_first_run k l : (0 < k)%nat → fails_first k l = true → failure_run k l = true.
Proof.
  intros Hk Hl. destruct k as [|k]; [lia|]. destruct l as [|[|[]] l]; try done. cbn [failure_run]. by rewrite Hl.
Qed.

Lemma failure_run_spec k l : (0 < k)%nat →
  failure_run k l = true ↔ ∃ pre post, l = pre ++ repeat (Checked false) k ++ post ∧ Stop ∉ pre.
Proof.
  intros Hk. split.
  - induction l as [|[|ok] l IH]; cbn [failure_run]; [done|done|]. intros [Hf|Hr]%orb_true_iff.
    + apply fails_first_spec in Hf as [post ->]. exists [], post. split; [done|set_solver].
    + destruct (IH Hr) as (pre & post & -> & Hs). exists (Checked ok :: pre), post. split; [done|set_solver].
  - intros (pre & post & -> & Hs). induction pre as [|[|ok] pre IH]; [|set_solver|].
    + apply fails_first_run; [done|]. apply fails_first_spec. by exists post.
    + cbn [app failure_run]. rewrite IH by set_solver. apply orb_true_r.
Qed.

Lemma run_loop_reference (K : nat) f l : (f < K)%nat →
  run_loop (Z.of_nat K) (Z.of_nat f) l = Died ↔ fails_first (K - f) l || failure_run K l = true.
Proof.
  revert f. induction l as [|[|ok] l IH]; intros f Hf; cbn [run_loop failure_run].
  - destruct (K - f)%nat eqn:E; [lia|]. done.
  - destruct (K - f)%nat eqn:E; [lia|]. done.
  - destruct (K - f)%nat as [|d] eqn:E; [lia|]. destruct ok.
    + rewrite (proj2 (Z.leb_gt _ _)) by lia. replace 0 with (Z.of_nat 0) by done. rewrite IH, Nat.sub_0_r by lia.
      destruct K as [|K]; [lia|]. cbn [fails_first orb]. rewrite orb_true_iff. split; [|by right].
      intros [?|?]; [by apply fails_first_run; [lia|]|done].
    + cbn [fails_first]. destruct (Z.leb_spec (Z.of_nat K) (Z.of_nat f + 1)).
      * replace d with 0%nat by lia. cbn [fails_first]. done.
      * replace (Z.of_nat f + 1) with (Z.of_nat (S f)) by lia. rewrite IH by lia. replace (K - S f)%nat with d by lia.
        destruct K as [|K]; [lia|]. cbn [fails_first]. rewrite !orb_true_iff. split; [intros [?|?]; auto|].
        intros [?|[Hk|?]]; [auto| |auto]. left. eapply fails_first_le; [|exact Hk]. lia.
Qed.

(** ** Theorems *)

(** The watchdog ends the process exactly when the health check failed [failures] times in a row
    before it was stopped, wherever the run of failures begins; a success in between starts the
    count again. *)
Theorem dies_on_failure_run w l : 0 < wd_failures w →
  run w l = Died ↔
  ∃ pre post, l = pre ++ repeat (Checked false) (Z.to_nat (wd_failures w)) ++ post ∧ Stop ∉ pre.
Proof.
  intros Hw. unfold run. rewrite <- failure_run_spec by lia.
  replace (wd_failures w) with (Z.of_nat (Z.to_nat (wd_failures w))) at 1 by lia.
  replace 0 with (Z.of_nat 0) by done. rewrite run_loop_reference, Nat.sub_0_r by lia.
  rewrite orb_true_iff. split; [|by right]. intros [?|?]; [apply fails_first_run; [lia|]|]; done.
Qed.

Lemma dies_on_failure_run_witness :
  run default_watchdog [Checked false; Checked false; Checked false; Checked true; Checked false] ≠ Died ∧
  run default_watchdog [Checked true; Checked false; Checked false; Checked false; Checked false] = Died.
Proof.
  split; [vm_compute; discriminate|]. apply dies_on_failure_run; [reflexivity|].
  exists [Checked true], []. split; [vm_compute; reflexivity|]. intros H. apply list_elem_of_singleton in H. discriminate H.
Defined.

(** What a check meets that begins at [t]: the request fails on its way, or [/healthz] answers it,
    at [asked t], with what it sees of the collector's thread and of its heartbeat. *)
Record checks := Checks {
  ch_failure : Z → option exn;
  ch_asked : Z → Z;
  ch_running : Z → bool;
  ch_heartbeat : Z → Z;
  ch_connected : Z → bool;
}.
Definition check (c : checks) (poll_interval t : Z) : bool :=
  probe (match ch_failure c t with
         | Some e => Raise e
         | None => Ok (http_status (healthz (alive (ch_running c t) (ch_asked c t) (ch_heartbeat c t) poll_interval) (ch_connected c t)))
         end).

(** No check succeeds once the heartbeat is too old. *)
Lemma hung_check c poll_interval h t :
  (∀ t, t <= ch_asked c t) → (∀ t, ch_heartbeat c t <= h) →
  h + 180000 + 2 * poll_interval <= t → check c poll_interval t = false.
Proof.
  intros Ha Hh Ht. unfold check. destruct (ch_failure c t); [done|]. unfold alive, healthz.
  specialize (Ha t). specialize (Hh t). rewrite (proj2 (Z.ltb_ge _ _)) by lia. by rewrite andb_false_r.
Qed.

Lemma run_loop_app failures failed a b :
  run_loop failures failed (a ++ b) =
  match run_loop failures failed a with Running failed => run_loop failures failed b | o => o end.
Proof.
  revert failed. induction a as [|[|ok] a IH]; intros failed; cbn [app run_loop]; [done|done|].
  destruct (_ <=? _); [done|apply IH].
Qed.

Lemma run_loop_failed failures n : ∀ failed, 0 <= failed → failures - failed <= Z.of_nat n → 0 < failures →
  run_loop failures failed (repeat (Checked false) n) = Died ∨ failures <= failed.
Proof.
  induction n as [|n IH]; intros failed Hf Hn Hp; [right; lia|]. cbn [repeat run_loop]. left.
  destruct (Z.leb_spec failures (failed + 1)); [done|]. destruct (IH (failed + 1)); [lia..|done|lia].
Qed.

Lemma run_loop_no_stop failures l : ∀ failed, 0 <= failed < failures → Stop ∉ l →
  run_loop failures failed l = Died ∨ ∃ k, run_loop failures failed l = Running k ∧ 0 <= k < failures.
Proof.
  induction l as [|[|ok] l IH]; intros failed Hf Hs; cbn [run_loop]; [eauto|set_solver|].
  destruct (Z.leb_spec failures (if ok then 0 else failed + 1)); [by left|]. apply IH; [destruct ok; lia|set_solver].
Qed.

(** C40. A collector that hangs is restarted: when its heartbeat never goes past [h], /healthz answers 503
    once that is longer ago than [alive] allows. Whatever the turns [pre]
    before that met, the watchdog has ended the process after at most [failures] further checks, each of
    which may also fail on its way. On the clock, with checks that take at most [D], it ends the process
    in the loop of [run], at a time that is bounded by the later of the end of the grace period and the
    first check after the heartbeat is too old, and [failures] turns. *)
Theorem hung_collector_restarted w c h poll_interval started (duration : Z → Z) D :
  0 < wd_interval w → 0 < wd_failures w → (∀ t, 0 <= duration t <= D) →
  (∀ t, t <= ch_asked c t) → (∀ t, ch_heartbeat c t <= h) →
  let healthy := check c poll_interval in
  let dead := h + 180000 + 2 * poll_interval in
  (∀ pre times, Stop ∉ pre → Forall (fun t => dead <= t) times → Z.of_nat (length times) = wd_failures w →
     run w (pre ++ ((fun t => Checked (healthy t)) <$> times)) = Died) ∧
  (∃ fuel t, run_clock w healthy duration fuel started = Some t ∧
     run w (turns_at w healthy duration fuel (started + wd_grace w)) = Died ∧
     t <= Z.max (started + wd_grace w) (dead + wd_interval w + D) + wd_failures w * (wd_interval w + D)).
Proof.
  intros Hi Hw Hd Ha Hh healthy dead.
  assert (Hno : ∀ t, dead <= t → healthy t = false) by (intros t; by apply hung_check).
  split.
  - intros pre times Hs Ht Hl. unfold run. rewrite run_loop_app.
    assert ((fun t => Checked (healthy t)) <$> times = repeat (Checked false) (length times)) as ->.
    { clear Hl. induction Ht as [|t times Ht _ IH]; [done|]. rewrite fmap_cons, Hno, IH by done. done. }
    destruct (run_loop_no_stop (wd_failures w) pre 0) as [->|(k & -> & Hk)]; [lia|done|done|].
    destruct (run_loop_failed (wd_failures w) (length times) k) as [->|]; [lia..|done|lia].
  - destruct (run_at_bound w healthy duration D (Z.to_nat (wd_failures w + Z.max 0 (dead - (started + wd_grace w))))
      (started + wd_grace w) 0 dead) as (t & Ht & Hb); [done|done|done|done|lia|lia|].
    eexists _, t. split; [exact Ht|]. split; [|exact Hb]. unfold run. apply run_at_loop. by rewrite Ht.
Qed.

(** A collector whose heartbeat follows the clock up to 1000 s, behind a web server that does not
    answer the check at 600 s. *)
Definition hung_checks : checks :=
  Checks (fun t => if t =? 600000 then Some OSError else None) (fun t => t + 5) (fun _ => true)
    (fun t => Z.min t 1000000) (fun _ => true).

Lemma hung_collector_restarted_witness :
  run default_watchdog ([Checked true; Checked false; Checked false; Checked false]
    ++ ((fun t => Checked (check hung_checks 5000 t)) <$> [1200000; 1230000; 1260000; 1290000])) = Died ∧
  check hung_checks 5000 900000 = true ∧ check hung_checks 5000 600000 = false.
Proof.
  split; [|by vm_compute].
  destruct (hung_collector_restarted default_watchdog hung_checks 1000000 5000 0 (fun _ => 100) 10000) as [H _];
    [cbn; lia..|]. apply H; [|repeat constructor; lia|reflexivity].
  rewrite !elem_of_cons. intros [?|[?|[?|[?|?%not_elem_of_nil]]]]; done.
Defined.
