(* ===== verification/Ipv6.v ===== *)
(** * IPv6 addresses and networks: the part of Python's [ipaddress] the sources use

    An address is an integer below 2^128 with an optional scope (the text after a
    percent sign, which [ipaddress] does not restrict any further); [None] stands for
    the ValueError of the constructors.  [ip_network] and [ip_address] try IPv4 first. *)

From S2P Require Import Prelude PyStr Regex Ipv4.

Open Scope string_scope.
Open Scope list_scope.
Open Scope Z_scope.

(** ** Reading an address *)

Definition hex_val (c : ascii) : Z :=
  if is_decimal c then code c - 48 else if in_range 97 102 c then code c - 87 else code c - 55.
Fixpoint hex_digits (acc : Z) (s : string) : Z :=
  match s with EmptyString => acc | String c s => hex_digits (acc * 16 + hex_val c) s end.

(** [_parse_hextet]. *)
Definition parse_hextet (s : string) : option Z :=
  if negb (empty s) && str_forall is_hex s && (strlen s <=? 4) then Some (hex_digits 0 s) else None.

Fixpoint hextets (acc : Z) (parts : list string) : option Z :=
  match parts with
  | [] => Some acc
  | p :: parts => h ← parse_hextet p; hextets (Z.lor (Z.shiftl acc 16) h) parts
  end.

(** ['%x' % n] for a hextet. *)
Definition hex_char (n : Z) : ascii := chr (if n <? 10 then 48 + n else 87 + n).
Definition print_hextet (n : Z) : string :=
  let ds := [n / 4096 mod 16; n / 256 mod 16; n / 16 mod 16; n mod 16] in
  let fix go (k : nat) (l : list Z) : string :=
    match k, l with
    | S (S k), 0 :: l => go (S k) l
    | _, l => foldr (fun d s => String (hex_char d) s) "" l
    end in
  go 4%nat ds.

(** The indices of the empty parts between the first and the last. *)
Definition skips (parts : list string) : list nat :=
  filter (fun i => nth i parts "x" = "" ∧ (1 <= i < length parts - 1)%nat) (seq 0 (length parts)).

(** [_ip_int_from_string]. *)
Definition ipv6_int (s : string) : option Z :=
  if empty s || (45 <? strlen s) then None
  else
    let parts := split ":"%char s in
    if Nat.ltb (length parts) 3 then None
    else
      let last_part := default "" (last parts) in
      parts ← (if mem_char "."%char last_part
               then n ← parse_ip last_part;
                    Some (take (length parts - 1) parts
                          ++ [print_hextet (Z.land (Z.shiftr n 16) 65535); print_hextet (Z.land n 65535)])
               else Some parts);
      let n := length parts in
      if Nat.ltb 9 n then None
      else
        match skips parts with
        | [] =>
            if negb (Nat.eqb n 8) || empty (nth 0 parts "") || empty (nth (n - 1) parts "") then None
            else hextets 0 parts
        | [i] =>
            let hi := if empty (nth 0 parts "") then (i - 1)%nat else i in
            let lo := if empty (nth (n - 1) parts "") then (n - i - 2)%nat else (n - i - 1)%nat in
            if (empty (nth 0 parts "") && negb (Nat.eqb hi 0)) || (empty (nth (n - 1) parts "") && negb (Nat.eqb lo 0))
               || Nat.leb 8 (hi + lo)
            then None
            else
              high ← hextets 0 (take hi parts);
              hextets (Z.shiftl high (16 * Z.of_nat (8 - (hi + lo)))) (drop (n - lo) parts)
        | _ => None
        end.

Record ipv6 := Ipv6 { v6_int : Z; v6_scope : option string }.

(** [_split_scope_id]. *)
Definition split_scope (s : string) : option (string * option string) :=
  let '(addr, sep, scope) := partition "%"%char s in
  if negb sep then Some (addr, None)
  else if empty scope || mem_char "%"%char scope then None else Some (addr, Some scope).

(** [IPv6Address(s)]. *)
Definition parse_ipv6 (s : string) : option ipv6 :=
  if mem_char "/"%char s then None
  else '(addr, scope) ← split_scope s; n ← ipv6_int addr; Some (Ipv6 n scope).

(** ** Printing *)

Definition hextet (n i : Z) : Z := (n / 2 ^ (16 * i)) mod 65536.

(** The longest run of zeros, the first of several: (start, length). *)
Definition longest_run (l : list string) : nat * nat :=
  (foldl (fun '(best_start, best_len, start, len, index) h =>
     if String.eqb h "0"
     then let len := S len in
          let start := if Nat.eqb len 1 then index else start in
          if Nat.ltb best_len len then (start, len, start, len, S index) else (best_start, best_len, start, len, S index)
     else (best_start, best_len, 0, 0, S index))%nat (0, 0, 0, 0, 0)%nat l).1.1.1.

(** [_compress_hextets]. *)
Definition compress (l : list string) : list string :=
  let '(start, len) := longest_run l in
  if Nat.ltb 1 len then
    let fin := (start + len)%nat in
    (if Nat.eqb start 0 then [""] else []) ++ take start l ++ [""] ++ drop fin l
    ++ (if Nat.eqb fin (length l) then [""] else [])
  else l.

(** [_string_from_ip_int]. *)
Definition ipv6_text (n : Z) : string :=
  join ":" (compress ((fun i => print_hextet (hextet n i)) <$> [7; 6; 5; 4; 3; 2; 1; 0])).

(** [str]: an IPv4-mapped address ends in dotted decimals. *)
Definition print_ipv6 (a : ipv6) : string :=
  let n := v6_int a in
  (if n / 2 ^ 32 =? 65535 then ipv6_text (n / 2 ^ 32) +:+ ":" +:+ print_ip (n mod 2 ^ 32) else ipv6_text n)
  +:+ match v6_scope a with Some s => "%" +:+ s | None => "" end.

(** ** Networks *)

Definition prefix6 (s : string) : option Z :=
  if negb (empty s) && str_forall is_decimal s then
    match unsigned_int s with Some n => if n <=? 128 then Some n else None | None => None end
  else None.

(** [IPv6Network(s, strict)]: an address without host bits keeps its scope. *)
Definition parse_network6 (strict : bool) (s : string) : option (ipv6 * Z) :=
  let build (a : ipv6) (p : Z) :=
    let host := v6_int a mod 2 ^ (128 - p) in
    if host =? 0 then Some (a, p) else if strict then None else Some (Ipv6 (v6_int a - host) None, p) in
  match split "/"%char s with
  | [a] => a ← parse_ipv6 a; build a 128
  | [a; m] => a ← parse_ipv6 a; p ← prefix6 m; build a p
  | _ => None
  end.

(** [ip_network(s, strict)], and [ip_address(s)] as far as the sources look at it. *)
Inductive any_network := Net4 (n : network) | Net6 (a : ipv6) (p : Z).
Definition ip_network (strict : bool) (s : string) : option any_network :=
  match parse_network strict s with
  | Some n => Some (Net4 n)
  | None => '(a, p) ← parse_network6 strict s; Some (Net6 a p)
  end.
Definition any_prefix (n : any_network) : Z := match n with Net4 n => net_prefix n | Net6 _ p => p end.
Definition print_any_network (n : any_network) : string :=
  match n with Net4 n => print_network n | Net6 a p => print_ipv6 a +:+ "/" +:+ nat_str p end.
Definition is_ip (s : string) : bool :=
  match parse_ip s, parse_ipv6 s with None, None => false | _, _ => true end.

(** ** Examples *)

Example reads_ipv6 :
  ipv6_int "2001:db8::1" = Some 42540766411282592856903984951653826561 ∧ ipv6_int "::" = Some 0
  ∧ ipv6_int "::ffff:1.2.3.4" = Some 281470698652420 ∧ ipv6_int "1:2:3:4:5:6:7:8" = Some 5192455318486707404433266433261576
  ∧ ipv6_int "1:2:3:4:5:6:7" = None ∧ ipv6_int ":1:2:3:4:5:6:7" = None ∧ ipv6_int "1::2::3" = None
  ∧ ipv6_int "1:2:3:4:5:6:7::" = Some 5192455318486707404433266433261568 ∧ ipv6_int ":::" = None.
Proof. vm_compute. split_and!; reflexivity. Qed.

Example prints_ipv6 :
  print_ipv6 (Ipv6 42540766411282592856903984951653826561 None) = "2001:db8::1" ∧ print_ipv6 (Ipv6 0 None) = "::"
  ∧ print_ipv6 (Ipv6 281470698652420 None) = "::ffff:1.2.3.4" ∧ print_ipv6 (Ipv6 1 (Some "eth0")) = "::1%eth0"
  ∧ print_ipv6 (Ipv6 5192455318486707404433266433261568 None) = "1:2:3:4:5:6:7:0"
  ∧ print_ipv6 (Ipv6 (2 ^ 112) None) = "1::".
Proof. vm_compute. split_and!; reflexivity. Qed.
