(* ===== verification/Url.v ===== *)
(** * Python's [urllib.parse.urlsplit] and [urlunsplit]

    A split URL is a record of its five components; [None] stands for the ValueError.
    The normalisation check of the network location has nothing to refuse among the
    code points that are represented. *)

From S2P Require Import Prelude PyStr Regex Ipv4 Ipv6.

Open Scope string_scope.
Open Scope list_scope.
Open Scope Z_scope.

(** ** Splitting *)

Record url := Url { u_scheme : string; u_netloc : string; u_path : string; u_query : string; u_fragment : string }.

(** The text before the first character with [p], and the text from it on. *)
Fixpoint span (p : ascii → bool) (s : string) : string * string :=
  match s with
  | EmptyString => ("", "")
  | String c s' => if p c then ("", s) else let '(a, b) := span p s' in (String c a, b)
  end.

Fixpoint str_filter (p : ascii → bool) (s : string) : string :=
  match s with EmptyString => "" | String c s => if p c then String c (str_filter p s) else str_filter p s end.

Definition c0_or_space (c : ascii) : bool := code c <=? 32.
(** Tabulators and line ends are dropped wherever they are. *)
Definition dropped (c : ascii) : bool := one_of (String tab (String cr (String lf ""))) c.
Definition scheme_char (c : ascii) : bool := is_alnum_az c || one_of "+-." c.

(** [_check_bracketed_host]. *)
Definition ip_future : regex :=
  rseq [RChar (Ascii.eqb "v"); plus (RChar is_hex); lit "."; plus rdot].
Definition bracketed_host (h : string) : bool :=
  if startswith "v" h then re_fullmatch ip_future h
  else match parse_ip h with Some _ => false | None => match parse_ipv6 h with Some _ => true | None => false end end.

(** [_check_bracketed_netloc]. *)
Definition bracketed_netloc (netloc : string) : bool :=
  let '(_, _, hp) := rpartition "@"%char netloc in
  let '(before, open, bracketed) := partition "["%char hp in
  if open then
    let '(h, _, port) := partition "]"%char bracketed in
    empty before && (empty port || startswith ":" port) && bracketed_host h
  else let '(h, _, _) := partition ":"%char hp in bracketed_host h.

Definition netloc_ok (netloc : string) : bool :=
  let o := mem_char "["%char netloc in let c := mem_char "]"%char netloc in
  negb (xorb o c) && (negb (o && c) || bracketed_netloc netloc).

Definition split_scheme (u : string) : string * string :=
  let '(h, found, rest) := partition ":"%char u in
  match h with
  | String c _ => if found && is_alpha_az c && str_forall scheme_char h then (lower h, rest) else ("", u)
  | EmptyString => ("", u)
  end.

Definition urlsplit (u : string) : option url :=
  let u := str_filter (fun c => negb (dropped c)) (lstrip_by c0_or_space u) in
  let '(scheme, u) := split_scheme u in
  let '(netloc, u) := if startswith "//" u then span (one_of "/?#") (str_drop 2 u) else ("", u) in
  if negb (netloc_ok netloc) then None
  else
    let '(u, _, fragment) := partition "#"%char u in
    let '(path, _, query) := partition "?"%char u in
    Some (Url scheme netloc path query fragment).

(** ** The parts of the network location *)

Definition userinfo (u : url) : option string * option string :=
  let '(info, have, _) := rpartition "@"%char (u_netloc u) in
  if have then let '(user, have_password, password) := partition ":"%char info in
               (Some user, if have_password then Some password else None)
  else (None, None).
Definition username (u : url) : option string := (userinfo u).1.
Definition password (u : url) : option string := (userinfo u).2.

(** [_hostinfo]; an empty port is None. *)
Definition hostinfo (u : url) : string * option string :=
  let '(_, _, hp) := rpartition "@"%char (u_netloc u) in
  let '(_, open, bracketed) := partition "["%char hp in
  let '(h, port) :=
    if open then let '(h, _, port) := partition "]"%char bracketed in
                 let '(_, _, port) := partition ":"%char port in (h, port)
    else let '(h, _, port) := partition ":"%char hp in (h, port) in
  (h, if empty port then None else Some port).

(** [url.hostname]: lower case, but for the scope of an IPv6 address. *)
Definition url_hostname (u : url) : option string :=
  let h := (hostinfo u).1 in
  if empty h then None
  else let '(h, percent, zone) := partition "%"%char h in
       Some (lower h +:+ (if percent then "%" else "") +:+ zone).

(** [url.port]; a port that is no number or too large is a ValueError. *)
Definition url_port (u : url) : result (option Z) :=
  match (hostinfo u).2 with
  | None => Ok None
  | Some p =>
      if negb (empty p) && str_forall is_decimal p
      then match unsigned_int p with
           | Some n => if n <=? 65535 then Ok (Some n) else Raise ValueError
           | None => Raise ValueError
           end
      else Raise ValueError
  end.

(** ** Joining *)

Definition uses_netloc : list string :=
  [""; "ftp"; "http"; "gopher"; "nntp"; "telnet"; "imap"; "wais"; "file"; "mms"; "https"; "shttp"; "snews"; "prospero";
   "rtsp"; "rtsps"; "rtspu"; "rsync"; "svn"; "svn+ssh"; "sftp"; "nfs"; "git"; "git+ssh"; "ws"; "wss"; "itms-services"].

Definition urlunsplit (u : url) : string :=
  let path := u_path u in
  let s :=
    if negb (empty (u_netloc u)) then
      "//" +:+ u_netloc u +:+ (if negb (empty path) && negb (startswith "/" path) then "/" +:+ path else path)
    else if startswith "//" path then "//" +:+ path
    else if negb (empty (u_scheme u)) && existsb (String.eqb (u_scheme u)) uses_netloc
            && (empty path || startswith "/" path) then "//" +:+ path
    else path in
  let s := if empty (u_scheme u) then s else u_scheme u +:+ ":" +:+ s in
  let s := if empty (u_query u) then s else s +:+ "?" +:+ u_query u in
  if empty (u_fragment u) then s else s +:+ "#" +:+ u_fragment u.

(** ** Characters of the components *)

Definition url_forall (p : ascii → bool) (u : url) : bool :=
  str_forall p (u_netloc u) && str_forall p (u_path u) && str_forall p (u_query u) && str_forall p (u_fragment u).

Lemma mem_char_false c s : mem_char c s = false ↔ str_forall (fun d => negb (Ascii.eqb c d)) s = true.
Proof. unfold mem_char, str_exists. by rewrite negb_false_iff. Qed.

Lemma partition_forall c s h f t p : partition c s = (h, f, t) → str_forall p s = true →
  str_forall p h = true ∧ str_forall p t = true.
Proof.
  intros (_ & -> & Ht)%partition_spec. destruct f.
  - rewrite str_forall_app. cbn [str_forall]. rewrite !andb_true_iff. tauto.
  - rewrite (Ht eq_refl). done.
Qed.

Lemma span_spec p s a b : span p s = (a, b) →
  s = a +:+ b ∧ str_forall (fun c => negb (p c)) a = true ∧ (b = "" ∨ starts_in p b = true).
Proof.
  revert a b. induction s as [|c s IH]; intros a b; cbn [span].
  { intros [= <- <-]. auto. }
  destruct (p c) eqn:Hc.
  { intros [= <- <-]. split_and!; [done|done|]. right. done. }
  destruct (span p s) as [a' b']. intros [= <- <-]. destruct (IH a' b' eq_refl) as (-> & Ha & Hb).
  split_and!; [done| |done]. cbn [str_forall]. by rewrite Hc.
Qed.

Lemma span_stop p a b : str_forall (fun c => negb (p c)) a = true → b = "" ∨ starts_in p b = true →
  span p (a +:+ b) = (a, b).
Proof.
  intros Ha Hb. induction a as [|c a IH].
  - cbn [String.append]. destruct Hb as [->|Hb]; [done|]. destruct b as [|c b]; [done|]. cbn in *. by rewrite Hb.
  - cbn [str_forall] in Ha. apply andb_true_iff in Ha as [Hc Ha]. apply negb_true_iff in Hc.
    change (String c a +:+ b) with (String c (a +:+ b)). cbn [span]. by rewrite Hc, IH.
Qed.

Lemma str_filter_forall p q s : str_forall q s = true → str_forall q (str_filter p s) = true.
Proof.
  induction s as [|c s IH]; [done|]. cbn [str_forall str_filter]. intros [Hc Hs]%andb_true_iff.
  destruct (p c); [|auto]. cbn [str_forall]. rewrite Hc. auto.
Qed.

Lemma str_filter_all p s : str_forall p (str_filter p s) = true.
Proof. induction s as [|c s IH]; [done|]. cbn [str_filter]. destruct (p c) eqn:Hc; [|done]. cbn. by rewrite Hc. Qed.

Lemma str_filter_id p s : str_forall p s = true → str_filter p s = s.
Proof. induction s as [|c s IH]; [done|]. cbn. intros [Hc Hs]%andb_true_iff. by rewrite Hc, IH. Qed.

Lemma lstrip_forall p q s : str_forall q s = true → str_forall q (lstrip_by p s) = true.
Proof.
  induction s as [|c s IH]; [done|]. intros H. pose proof H as H'. cbn [str_forall] in H. apply andb_true_iff in H as [_ Hs].
  cbn [lstrip_by]. destruct (p c); [auto|exact H'].
Qed.

Lemma str_drop_forall p n s : str_forall p s = true → str_forall p (str_drop n s) = true.
Proof.
  revert s. induction n as [|n IH]; [done|]. intros [|c s]; [done|]. cbn. intros [_ Hs]%andb_true_iff. auto.
Qed.

Lemma split_scheme_forall p u : str_forall p u = true → str_forall p (split_scheme u).2 = true.
Proof.
  intros Hu. unfold split_scheme. destruct (partition ":" u) as [[h f] t] eqn:E.
  destruct (partition_forall _ _ _ _ _ _ E Hu) as [_ Ht]. destruct h as [|c h]; [done|]. by destruct (_ && _).
Qed.

(** What the components are made of: characters of the text, without those that are
    dropped or that end a component. *)
Lemma urlsplit_parts p s u : urlsplit s = Some u → str_forall p s = true →
  url_forall (fun c => p c && negb (dropped c)) u = true ∧
  (u_netloc u ≠ "" → str_forall (fun c => negb (one_of "/?#" c)) (u_netloc u) = true
                      ∧ (u_path u = "" ∨ startswith "/" (u_path u) = true)) ∧
  mem_char "#" (u_path u) = false ∧ mem_char "?" (u_path u) = false ∧ mem_char "#" (u_query u) = false.
Proof.
  unfold urlsplit. intros H Hp.
  set (s1 := str_filter (fun c => negb (dropped c)) (lstrip_by c0_or_space s)) in *.
  assert (H1 : str_forall (fun c => p c && negb (dropped c)) s1 = true).
  { assert (Ha : str_forall p s1 = true) by (apply str_filter_forall, lstrip_forall, Hp).
    assert (Hb : str_forall (fun c => negb (dropped c)) s1 = true) by apply str_filter_all.
    clearbody s1. clear -Ha Hb. induction s1 as [|c s IH]; [done|]. cbn in *.
    apply andb_true_iff in Ha as [-> ?], Hb as [-> ?]. auto. }
  clearbody s1. clear Hp. pose proof (split_scheme_forall _ s1 H1) as H2.
  destruct (split_scheme s1) as [scheme s2]. cbn [snd] in H2.
  assert (Hnet : ∃ n r, (if startswith "//" s2 then span (one_of "/?#") (str_drop 2 s2) else ("", s2)) = (n, r) ∧
    str_forall (fun c => p c && negb (dropped c)) n = true ∧ str_forall (fun c => p c && negb (dropped c)) r = true ∧
    (n ≠ "" → str_forall (fun c => negb (one_of "/?#" c)) n = true ∧ (r = "" ∨ starts_in (one_of "/?#") r = true))).
  { destruct (startswith "//" s2).
    - destruct (span _ (str_drop 2 s2)) as [n r] eqn:E. exists n, r. pose proof (span_spec _ _ _ _ E) as (Hs & Hn & Hr).
      pose proof (str_drop_forall _ 2 _ H2) as H3. rewrite Hs, str_forall_app in H3. apply andb_true_iff in H3 as [? ?].
      split_and!; auto.
    - exists "", s2. split_and!; [done|done|done|]. done. }
  destruct Hnet as (n & r & E & Hn & Hr & Hnr). rewrite E in H. destruct (negb (netloc_ok n)); [done|].
  destruct (partition "#" r) as [[s3 f1] fragment] eqn:E1. destruct (partition "?" s3) as [[path f2] query] eqn:E2.
  injection H as <-. unfold url_forall. cbn [u_netloc u_path u_query u_fragment].
  destruct (partition_forall _ _ _ _ _ _ E1 Hr) as [Hs3 Hf]. destruct (partition_forall _ _ _ _ _ _ E2 Hs3) as [Hpa Hq].
  destruct (partition_spec _ _ _ _ _ E1) as (Hm1 & Hr1 & _). destruct (partition_spec _ _ _ _ _ E2) as (Hm2 & Hs4 & Hq0).
  rewrite Hn, Hpa, Hq, Hf.
  assert (Hmp : mem_char "#" path = false ∧ mem_char "#" query = false).
  { rewrite mem_char_false in Hm1 |- *. rewrite mem_char_false. by eapply partition_forall. }
  split_and!; try tauto. intros Hne. destruct (Hnr Hne) as [? Hrs]. split; [done|].
  clear -Hr1 Hs4 Hrs Hm1 Hm2. destruct path as [|c path]; [by left|]. right.
  assert (Hrc : starts_in (one_of "/?#") (String c path) = true).
  { destruct Hrs as [->|Hrs].
    - destruct f1; destruct s3; try discriminate Hr1; subst; destruct f2; discriminate Hs4.
    - destruct f1, f2; subst; exact Hrs. }
  cbn [starts_in] in Hrc. cbn [startswith]. unfold mem_char, str_exists in Hm1, Hm2. rewrite negb_false_iff in Hm1, Hm2.
  assert (Hc1 : Ascii.eqb "#" c = false).
  { destruct s3 as [|d s3]; [by destruct f2|]. assert (d = c) as -> by (destruct f2; by injection Hs4).
    cbn in Hm1. by apply andb_true_iff in Hm1 as [?%negb_true_iff _]. }
  assert (Hc2 : Ascii.eqb "?" c = false) by (cbn in Hm2; by apply andb_true_iff in Hm2 as [?%negb_true_iff _]).
  unfold one_of, mem_char, str_exists in Hrc. cbn in Hrc. rewrite (Ascii.eqb_sym c "/"), (Ascii.eqb_sym c "?"), (Ascii.eqb_sym c "#"), Hc1, Hc2 in Hrc.
  destruct (Ascii.eqb "/" c); [done|]. discriminate Hrc.
Qed.

(** ** Splitting what was joined *)

Lemma partition_of c h t f : mem_char c h = false → (f = false → t = "") →
  partition c (h +:+ (if f then String c t else "")) = (h, f, t).
Proof.
  intros Hh Ht. destruct f; [by apply partition_app|]. rewrite str_app_nil_r, partition_none by done. by rewrite Ht.
Qed.

(** An https URL without brackets in its network location, with a path from the root,
    is split into the components it was joined from. *)
Lemma urlsplit_urlunsplit n path q f :
  n ≠ "" → str_forall (fun c => negb (one_of "/?#[]" c)) n = true → startswith "/" path = true →
  mem_char "#" path = false → mem_char "?" path = false → mem_char "#" q = false →
  url_forall (fun c => negb (dropped c)) (Url "https" n path q f) = true →
  urlsplit (urlunsplit (Url "https" n path q f)) = Some (Url "https" n path q f).
Proof.
  intros Hn Hnc Hpath Hp1 Hp2 Hq Hall.
  destruct path as [|c path']; [done|].
  assert (c = "/"%char) as -> by (cbn [startswith] in Hpath; apply andb_true_iff in Hpath as [Hs _]; by apply Ascii.eqb_eq in Hs).
  set (path := String "/" path') in *.
  assert (Hslash : startswith "/" path = true) by done.
  set (tail := path +:+ (if negb (empty q) then String "?" q else "")).
  set (rest := tail +:+ (if negb (empty f) then String "#" f else "")).
  assert (Htext : urlunsplit (Url "https" n path q f) = "https://" +:+ (n +:+ rest)).
  { unfold urlunsplit, rest, tail. cbn [u_scheme u_netloc u_path u_query u_fragment].
    rewrite Hslash. change (negb true) with false. rewrite andb_false_r.
    unfold empty. rewrite (proj2 (String.eqb_neq n "") Hn). change (negb false) with true. change (String.eqb "https" "") with false.
    cbn match.
    destruct (String.eqb q ""), (String.eqb f ""); cbn [negb]; rewrite ?str_app_nil_r, ?str_app_assoc; try done;
      cbn [String.append]; rewrite ?str_app_assoc; done. }
  rewrite Htext. unfold urlsplit.
  assert (Hd : str_forall (fun c => negb (dropped c)) ("https://" +:+ (n +:+ rest)) = true).
  { unfold url_forall in Hall. cbn [u_netloc u_path u_query u_fragment] in Hall. bool_to_prop.
    rewrite !str_forall_app. unfold rest, tail. rewrite !str_forall_app.
    repeat match goal with H : str_forall _ _ = true |- _ => rewrite H; clear H end.
    destruct (negb (empty q)), (negb (empty f)); cbn [str_forall];
      repeat match goal with H : str_forall _ _ = true |- _ => rewrite H end; done. }
  change (lstrip_by c0_or_space ("https://" +:+ (n +:+ rest))) with ("https://" +:+ (n +:+ rest)).
  rewrite (str_filter_id _ _ Hd).
  change (split_scheme ("https://" +:+ (n +:+ rest))) with ("https", "//" +:+ (n +:+ rest)).
  cbn match. change (startswith "//" ("//" +:+ (n +:+ rest))) with true. change (str_drop 2 ("//" +:+ (n +:+ rest))) with (n +:+ rest).
  cbn match.
  assert (Hnb : str_forall (fun c => negb (one_of "/?#" c)) n = true).
  { eapply str_forall_impl; [|exact Hnc]. intros [[] [] [] [] [] [] [] []]; vm_compute; congruence. }
  rewrite (span_stop _ n rest) by by (done || by right).
  assert (Hbr : netloc_ok n = true).
  { unfold netloc_ok. assert (mem_char "[" n = false ∧ mem_char "]" n = false) as [-> ->]; [|done].
    rewrite !mem_char_false. split; (eapply str_forall_impl; [|exact Hnc]); intros [[] [] [] [] [] [] [] []]; vm_compute; congruence. }
  rewrite Hbr. cbn [negb]. unfold rest.
  rewrite (partition_of "#" tail f); [|..]; cycle 1.
  { rewrite mem_char_false in *. unfold tail. rewrite str_forall_app, Hp1. destruct (negb (empty q)); cbn [str_forall]; [|done].
    by rewrite Hq. }
  { unfold empty. intros ?%negb_false_iff%String.eqb_eq. done. }
  unfold tail. rewrite (partition_of "?" path q); [done|done|].
  unfold empty. intros ?%negb_false_iff%String.eqb_eq. done.
Qed.
