(* ===== verification/Gateway.v ===== *)
(** * The gateway: what [ui/app/network.py] validates, derives and exports for it

    The network settings and their gateway part as records, the validation of every
    field, the rules of the guests' links and the file for the gateway. *)

From S2P Require Import Prelude PyStr Regex Ipv4 Ipv6 Url Addressing Network Relay.

Open Scope string_scope.
Open Scope list_scope.
Open Scope Z_scope.

(** ** Data *)

Record service := Service {
  sv_name : string; sv_host : string; sv_url : string; sv_public : bool; sv_paths : list string; sv_insecure_tls : bool;
}.

Record guest_link := GuestLink { gl_url : string; gl_whole_site : bool }.

Record gateway := Gateway {
  gw_domain : string;
  gw_openvpn_host : string;
  gw_openvpn_backend : string;
  gw_relay_host : string;
  gw_relay_backend : string;
  gw_relay_public_url : string;
  gw_portal_listener : string;
  gw_trusted_cidrs : list string;
  gw_guest_links : list guest_link;
  gw_replace_services : bool;
  gw_services : list service;
}.

(** [NetworkSettings]: the addressing part is [net_settings]. *)
Record network_settings := NetworkSettings {
  nw_addressing : net_settings;
  nw_routes : list string;
  nw_proxy_cidrs : list string;
  nw_gateway : gateway;
}.

(** ** Validation helpers *)

Definition UNSAFE (c : ascii) : bool := is_space c || one_of "`{}\" c.

Fixpoint all_some {A} (l : list (option A)) : option (list A) :=
  match l with [] => Some [] | o :: l => x ← o; xs ← all_some l; Some (x :: xs) end.

Definition cidrs (ipv4 : bool) (values : list string) : result (list string) :=
  let refuse := PkiError "Enter network CIDRs such as 192.0.2.0/24; /0 networks are not allowed" in
  match all_some ((fun v => ip_network true (strip v)) <$> values) with
  | None => Raise refuse
  | Some networks =>
      if existsb (fun n => (any_prefix n =? 0) || (ipv4 && match n with Net6 _ _ => true | Net4 _ => false end)) networks
      then Raise refuse
      else Ok (dedupe [] (print_any_network <$> networks))
  end.

(** Python's truth value of a string that may be None. *)
Definition given (o : option string) : bool := negb (empty (default "" o)).

Definition backend_url (value : string) : result string :=
  let refuse := PkiError "Enter an HTTP(S) address without credentials, such as http://192.0.2.20:8080" in
  match urlsplit value with
  | None => Raise refuse
  | Some u =>
      if negb (existsb (String.eqb (u_scheme u)) ["http"; "https"]) || negb (given (url_hostname u))
         || given (username u) || given (password u) || str_exists UNSAFE value
      then Raise refuse
      else match url_port u with Ok _ => Ok value | Raise _ => Raise refuse end
  end.

(** [url_host]: the DNS name in a URL, or the empty string. *)
Definition url_host (u : string) : string :=
  match urlsplit u with
  | None => ""
  | Some u => match hostname (default "" (url_hostname u)) with
              | Ok h => if is_ip h then "" else h
              | Raise _ => ""
              end
  end.

(** [relay.validate_url]: the public HTTPS origin of the relay. *)
Definition validate_url (value : string) : result string :=
  let value := rstrip_char "/"%char (strip value) in
  let refuse := PkiError "Relay URL must be an HTTPS origin, e.g. https://relay.example.com:8443" in
  match urlsplit value with
  | None => Raise refuse
  | Some u =>
      match url_port u with
      | Raise _ => Raise refuse
      | Ok port =>
          if negb (String.eqb (u_scheme u) "https") || negb (given (url_hostname u))
             || bool_decide (username u ≠ None) || bool_decide (password u ≠ None)
             || negb (empty (u_query u)) || negb (empty (u_fragment u)) || negb (empty (u_path u))
             || bool_decide (port = Some 0) || str_exists (fun c => is_space c || one_of "{}\" c) value
          then Raise refuse else Ok value
      end
  end.

(** [repr] of a string. *)
Definition hex2 (n : Z) : string := String (hex_char (n / 16)) (String (hex_char (n mod 16)) "").
Definition repr_char (quote c : ascii) : string :=
  if Ascii.eqb c "\"%char || Ascii.eqb c quote then String "\" (String c "")
  else if Ascii.eqb c lf then "\n" else if Ascii.eqb c cr then "\r" else if Ascii.eqb c tab then "\t"
  else if (code c <? 32) || in_range 127 160 c || (code c =? 173) then "\x" +:+ hex2 (code c)
  else String c "".
Fixpoint concat_map (f : ascii → string) (s : string) : string :=
  match s with EmptyString => "" | String c s => f c +:+ concat_map f s end.
Definition repr (s : string) : string :=
  let dq := ascii_of_nat 34 in
  let q := if mem_char "'"%char s && negb (mem_char dq s) then dq else "'"%char in
  String q (concat_map (repr_char q) s) +:+ String q "".

(** ** Guest links *)

(** [validate_guest_link]: the link with its normalised URL. *)
Definition validate_guest_link (domain : string) (reserved : list string) (link : guest_link) : result guest_link :=
  let raw := strip (gl_url link) in
  let refuse text := PkiError ("Guest link " +:+ repr raw +:+ ": " +:+ text) in
  let bad := refuse "enter an https:// address without a port or credentials" in
  match urlsplit raw with
  | None => Raise bad
  | Some u =>
      match hostname (default "" (url_hostname u)), url_port u with
      | Ok host, Ok port =>
          if negb (String.eqb (u_scheme u) "https") || negb (bool_decide (port = None ∨ port = Some 443))
             || given (username u) || given (password u) || str_exists UNSAFE raw
          then Raise bad
          else if empty domain || negb (endswith ("." +:+ domain) host)
          then Raise (refuse ("only websites under your domain (" +:+ (if empty domain then "not set" else domain)
                              +:+ ") can be opened by guests"))
          else if existsb (String.eqb host) reserved
          then Raise (refuse "this hostname cannot be a guest link")
          else Ok (GuestLink (urlunsplit (Url "https" host (if empty (u_path u) then "/" else u_path u) (u_query u) (u_fragment u)))
                     (gl_whole_site link))
      | _, _ => Raise bad
      end
  end.

(** [link_rule]: the host and the path a link opens on the gateway. *)
Definition link_rule (link : guest_link) : result (option string * string) :=
  u ← of_option ValueError (urlsplit (gl_url link));
  Ok (url_hostname u, if gl_whole_site link || empty (u_path u) then "/" else u_path u).

(** [sorted] of a set of hosts: strings and None do not compare. *)
Definition host_le (a b : option string) : Prop := String.compare (default "" a) (default "" b) ≠ Gt.
#[export] Instance host_le_dec a b : Decision (host_le a b) := _.
Definition sorted_hosts (l : list (option string)) : result (list (option string)) :=
  let l := remove_dups l in
  if Nat.ltb 1 (length l) && existsb (fun h => match h with None => true | Some _ => false end) l then Raise TypeError
  else Ok (merge_sort host_le l).

(** [guest_portal]; [saved] is the gateway of the saved settings, if there are any. *)
Definition guest_portal (saved : option gateway) : result (option portal) :=
  match saved with
  | None => Ok None
  | Some g =>
      if empty (gw_openvpn_host g) || empty (gw_portal_listener g) then Ok None
      else
        rules ← map_result link_rule (gw_guest_links g);
        hosts ← sorted_hosts rules.*1;
        Ok (Some (Portal (gw_openvpn_host g) (gw_portal_listener g) hosts))
  end.
Definition guest_links (saved : option gateway) : list string :=
  match saved with Some g => gl_url <$> gw_guest_links g | None => [] end.

(** ** Empty fields *)

Definition RELAY_BACKEND_PORT : Z := 8444.

(** [a or b] for strings. *)
Definition or_else_str (a b : string) : string := if empty a then b else a.

(** The domain, from what is configured: only a familiar prefix is dropped. [remote_host] is
    [pki.get_remote()["host"]]. *)
Definition domain_of (relay_host openvpn_host : string) (remote_host : result string) : result string :=
  if negb (empty relay_host) then Ok (removeprefix "relay." relay_host)
  else if startswith "openvpn." openvpn_host || startswith "vpn." openvpn_host then Ok (partition "."%char openvpn_host).2
  else match (h ← remote_host; hostname h) with
       | Ok h => if existsb (String.eqb h) ["example.com"; "vpn.example.com"] || is_ip h then Ok ""
                 else Ok (removeprefix "vpn." (removeprefix "openvpn." h))
       | Raise OSError | Raise (PkiError _) => Ok ""
       | Raise e => Raise e
       end.

(** The relay backend, on the host of the backend of the website. *)
Definition default_relay_backend (relay_backend openvpn_backend : string) : result string :=
  if negb (empty relay_backend) || empty openvpn_backend then Ok relay_backend
  else
    u ← of_option ValueError (urlsplit openvpn_backend);
    match url_hostname u with
    | Some b => if empty b then Ok relay_backend
                else Ok ((if mem_char ":" b then "[" +:+ b +:+ "]" else b) +:+ ":" +:+ str_of_int RELAY_BACKEND_PORT)
    | None => Ok relay_backend
    end.

(** [with_defaults], for the URLs of the relay, the portal and the signing service that are
    configured elsewhere. *)
Definition with_defaults (relay_url profile_base_url signing_url : string) (remote_host : result string) (g : gateway)
    : result gateway :=
  let public_url := or_else_str relay_url (gw_relay_public_url g) in
  let relay_host := or_else_str (gw_relay_host g) (url_host relay_url) in
  let openvpn_host := or_else_str (gw_openvpn_host g) (or_else_str (url_host profile_base_url) (url_host signing_url)) in
  domain ← (if negb (empty (gw_domain g)) then Ok (gw_domain g) else domain_of relay_host openvpn_host remote_host);
  let openvpn_host := if empty openvpn_host && negb (empty domain) then "openvpn." +:+ domain else openvpn_host in
  relay_backend ← default_relay_backend (gw_relay_backend g) (gw_openvpn_backend g);
  Ok (Gateway domain openvpn_host (gw_openvpn_backend g) relay_host relay_backend public_url (gw_portal_listener g)
        (gw_trusted_cidrs g) (gw_guest_links g) (gw_replace_services g) (gw_services g)).

(** ** Validating the settings *)

(** [if value: value = f(value)], with the message of an own error. *)
Definition checked (f : string → result string) (value : string) : result string :=
  if empty value then Ok value else f value.
Definition with_message (text : string) (f : string → result string) (value : string) : result string :=
  match f value with Raise (PkiError _) => Raise (PkiError text) | r => r end.

Definition service_name : regex := RSeq (RChar is_lower_az) (upto 39 (RChar (fun c => az09 c || Ascii.eqb c "-"))).

(** One turn of the loop over the services, with the names seen so far. *)
Definition validate_service (reserved : list string) (names : list string) (s : service) : result service :=
  _ ← raise_if (negb (re_fullmatch service_name (sv_name s)) || existsb (String.eqb (sv_name s)) names)
        (PkiError "Give each service a unique lowercase name");
  host ← hostname (sv_host s);
  u ← backend_url (sv_url s);
  _ ← raise_if (existsb (String.eqb host) reserved)
        (PkiError "Additional services cannot use the OpenVPN website or dashboard hostname");
  _ ← raise_if (existsb (fun path => negb (startswith "/" path) || str_exists UNSAFE path) (sv_paths s))
        (PkiError "Service paths must start with / and contain no whitespace or template characters");
  Ok (Service (sv_name s) host u (sv_public s) (sv_paths s) (sv_insecure_tls s)).
Fixpoint validate_services (reserved names : list string) (l : list service) : result (list service) :=
  match l with
  | [] => Ok []
  | s :: l =>
      s' ← validate_service reserved names s;
      rest ← validate_services reserved (sv_name s :: names) l;
      Ok (s' :: rest)
  end.

Definition validate_gateway (g : gateway) : result gateway :=
  domain ← checked hostname (gw_domain g);
  openvpn_host ← checked hostname (gw_openvpn_host g);
  relay_host ← checked hostname (gw_relay_host g);
  openvpn_backend ← checked (with_message ("VPN server web address: enter an HTTP(S) URL with the web UI port, "
                              +:+ "such as http://192.0.2.20:8080") backend_url) (gw_openvpn_backend g);
  relay_backend ← checked (with_message ("Relay backend: enter this server's address and relay port, such as "
                            +:+ "192.0.2.20:8444") host_port) (gw_relay_backend g);
  relay_public_url ← checked validate_url (gw_relay_public_url g);
  listener ← checked portal_listener (gw_portal_listener g);
  _ ← raise_if (negb (empty (gw_portal_listener g)) && empty openvpn_host)
        (PkiError "Set the website hostname before the guest portal listener");
  trusted ← cidrs false (gw_trusted_cidrs g);
  let reserved := [openvpn_host; "dashboard." +:+ domain] in
  links ← map_result (validate_guest_link domain (relay_host :: reserved)) (gw_guest_links g);
  services ← validate_services reserved [] (gw_services g);
  Ok (Gateway domain openvpn_host openvpn_backend relay_host relay_backend relay_public_url listener trusted links
        (match services with [] => gw_replace_services g | _ => true end) services).

(** [validate_addressing] is [validate_ranges] and the lists of networks. *)
Definition validate_addressing (a : access) (s : network_settings) : result (ranges * network_settings) :=
  '(r, addressing) ← validate_ranges (nw_addressing s) a;
  routes ← cidrs true (nw_routes s);
  proxies ← cidrs false (nw_proxy_cidrs s);
  _ ← raise_if (match proxies with [] => true | _ => false end) (PkiError "Keep at least one trusted proxy address");
  Ok (r, NetworkSettings addressing routes proxies (nw_gateway s)).

Definition validate (a : access) (s : network_settings) : result (ranges * network_settings) :=
  '(r, s) ← validate_addressing a s;
  g ← validate_gateway (nw_gateway s);
  Ok (r, NetworkSettings (nw_addressing s) (nw_routes s) (nw_proxy_cidrs s) g).

(** ** The export *)

Record gateway_file := GatewayFile {
  gf_version : Z;
  gf_domain : string; gf_openvpn_host : string; gf_openvpn_backend : string; gf_relay_host : string;
  gf_relay_backend : string; gf_relay_public_url : string; gf_portal_listener : string; gf_trusted_cidrs : list string;
  gf_guest_links : list (option string * string);
  gf_services : option (list service);
}.
Definition EXPORT_VERSION : Z := 2.

(** [export_gateway], for the gateway that [get_settings] returns. *)
Definition export_gateway (g : gateway) : result gateway_file :=
  let missing := snd <$> filter (fun p => empty p.1 = true)
    [(gw_domain g, "Domain"); (gw_openvpn_host g, "Website hostname"); (gw_openvpn_backend g, "VPN server web address")] in
  _ ← raise_if (match missing with [] => false | _ => true end)
        (PkiError ("Complete these settings before downloading the gateway file: " +:+ join ", " missing));
  rules ← map_result link_rule (gw_guest_links g);
  Ok (GatewayFile EXPORT_VERSION (gw_domain g) (gw_openvpn_host g) (gw_openvpn_backend g) (gw_relay_host g)
        (gw_relay_backend g) (gw_relay_public_url g) (gw_portal_listener g) (gw_trusted_cidrs g) rules
        (if gw_replace_services g then Some (gw_services g) else None)).

(** ** Lemmas *)

Lemma or_else_str_idem a b : or_else_str (or_else_str a b) b = or_else_str a b.
Proof. unfold or_else_str. destruct (empty a) eqn:Ea; [|by rewrite Ea]. by destruct (empty b). Qed.

Lemma or_else_str_same a b : or_else_str a (or_else_str a b) = or_else_str a b.
Proof. unfold or_else_str. by destruct (empty a). Qed.

Lemma default_relay_backend_idem r o r' : default_relay_backend r o = Ok r' → default_relay_backend r' o = Ok r'.
Proof.
  unfold default_relay_backend. destruct (negb (empty r) || empty o) eqn:E; [intros <-%Ok_inj; by rewrite E|].
  destruct (urlsplit o) as [u|]; [|done]. cbn [of_option mbind result_bind].
  destruct (url_hostname u) as [h|] eqn:Eh; [destruct (empty h) eqn:Ee|]; intros <-%Ok_inj; rewrite ?E, ?Eh, ?Ee; [done| |done].
  destruct (mem_char ":" h); [done|]. by destruct h.
Qed.

Lemma template_safe_unsafe c : template_safe c = negb (UNSAFE c).
Proof. done. Qed.

Lemma safe_value v : str_exists UNSAFE v = false → str_forall template_safe v = true.
Proof. unfold str_exists. by rewrite negb_false_iff. Qed.

Lemma rpartition_none c s : mem_char c s = false → rpartition c s = ("", false, s).
Proof.
  rewrite mem_char_false. induction s as [|d s IH]; [done|]. cbn [str_forall rpartition]. intros [Hd Hs]%andb_true_iff.
  rewrite (IH Hs). apply negb_true_iff in Hd. by rewrite Hd.
Qed.

(** Characters a host name does not have. *)
Lemma host_safe_not s h : str_forall host_safe h = true → str_forall (fun c => negb (host_safe c)) s = true →
  str_forall (fun c => negb (one_of s c)) h = true.
Proof.
  intros Hh Hs. eapply str_forall_impl; [|exact Hh]. intros c Hc. unfold one_of, mem_char, str_exists. rewrite negb_involutive.
  eapply str_forall_impl; [|exact Hs]. intros d Hd. destruct (Ascii.eqb_spec c d) as [<-|]; [|done]. by rewrite Hc in Hd.
Qed.

Lemma host_safe_without c h : str_forall host_safe h = true → host_safe c = false → mem_char c h = false.
Proof.
  intros Hh Hc. rewrite mem_char_false. eapply str_forall_impl; [|exact Hh]. intros d Hd.
  destruct (Ascii.eqb_spec c d) as [->|]; [|done]. by rewrite Hc in Hd.
Qed.

(** The host name of a URL whose network location is an accepted host name. *)
Lemma hostname_of_host scheme h path q f : str_forall host_safe h = true → h ≠ "" →
  url_hostname (Url scheme h path q f) = Some h.
Proof.
  intros Hh Hne. unfold url_hostname, hostinfo. cbn [u_netloc].
  rewrite rpartition_none by (by apply host_safe_without).
  rewrite (partition_none "[") by (by apply host_safe_without). cbn match.
  rewrite (partition_none ":") by (by apply host_safe_without). cbn [fst snd].
  rewrite (partition_none "%") by (by apply host_safe_without).
  unfold empty. rewrite (proj2 (String.eqb_neq h "") Hne), lower_safe by done. cbn [String.append]. by rewrite str_app_nil_r.
Qed.

Lemma hostname_netloc u h : hostname (default "" (url_hostname u)) = Ok h → u_netloc u ≠ "".
Proof.
  intros Hh Hn. unfold url_hostname, hostinfo in Hh. rewrite Hn in Hh. vm_compute in Hh. discriminate Hh.
Qed.

(** What a validated link opens. *)
Lemma validate_guest_link_ok domain reserved link link' :
  validate_guest_link domain reserved link = Ok link' →
  ∃ host path, link_rule link' = Ok (Some host, path) ∧
    str_forall host_safe host = true ∧ host ≠ "" ∧ domain ≠ "" ∧ endswith ("." +:+ domain) host = true ∧ host ∉ reserved ∧
    startswith "/" path = true ∧ str_forall template_safe path = true ∧ (gl_whole_site link' = true → path = "/").
Proof.
  unfold validate_guest_link. set (raw := strip (gl_url link)).
  destruct (urlsplit raw) as [u|] eqn:Hu; [|done].
  destruct (hostname (default "" (url_hostname u))) as [host|] eqn:Hh; [|done].
  destruct (url_port u) as [port|]; [|done].
  destruct (negb (String.eqb (u_scheme u) "https") || _ || _ || _ || str_exists UNSAFE raw) eqn:Ec; [done|].
  destruct (empty domain || negb (endswith ("." +:+ domain) host)) eqn:Ed; [done|].
  destruct (existsb (String.eqb host) reserved) eqn:Er; [done|]. intros [= <-].
  apply orb_false_iff in Ec as [_ Hraw]. apply safe_value in Hraw. apply orb_false_iff in Ed as [Hd Hend].
  apply negb_false_iff in Hend. pose proof (hostname_netloc _ _ Hh) as Hnet. apply hostname_ok in Hh as (Hsafe & _ & _ & Hne).
  destruct (urlsplit_parts _ _ _ Hu Hraw) as (Hall & Hnl & Hp1 & Hp2 & Hq). destruct (Hnl Hnet) as [_ Hslash].
  set (path := if empty (u_path u) then "/" else u_path u).
  assert (Hpath : startswith "/" path = true ∧ mem_char "#" path = false ∧ mem_char "?" path = false
    ∧ str_forall (fun c => template_safe c && negb (dropped c)) path = true).
  { unfold url_forall in Hall. bool_to_prop. unfold path, empty. destruct (String.eqb_spec (u_path u) "") as [He|He].
    - split_and!; reflexivity.
    - destruct Hslash; [done|]. split_and!; done. }
  destruct Hpath as (Hsl & Hm1 & Hm2 & Hpc).
  assert (Hre : urlsplit (urlunsplit (Url "https" host path (u_query u) (u_fragment u)))
                = Some (Url "https" host path (u_query u) (u_fragment u))).
  { apply urlsplit_urlunsplit; [done|by apply host_safe_not|done..|].
    unfold url_forall in *. cbn [u_netloc u_path u_query u_fragment]. bool_to_prop.
    rewrite !andb_true_iff. split_and!.
    - eapply str_forall_impl; [|exact Hsafe]. intros [[] [] [] [] [] [] [] []]; vm_compute; congruence.
    - eapply str_forall_impl; [|exact Hpc]. by intros c [_ ?]%andb_true_iff.
    - eapply str_forall_impl; [|eassumption]. by intros c [_ ?]%andb_true_iff.
    - eapply str_forall_impl; [|eassumption]. by intros c [_ ?]%andb_true_iff. }
  exists host, (if gl_whole_site link then "/" else path).
  split_and!; [|done|done| |done| | | |].
  - unfold link_rule. cbn [gl_url gl_whole_site]. rewrite Hre. cbn [of_option mbind result_bind u_path].
    rewrite hostname_of_host by done. destruct (gl_whole_site link); [done|]. cbn [orb].
    destruct path; [discriminate Hsl|done].
  - intros ->. discriminate Hd.
  - intros Hin. apply not_true_iff_false in Er. apply Er. apply existsb_exists. exists host.
    split; [by apply list_elem_of_In|apply String.eqb_refl].
  - by destruct (gl_whole_site link).
  - destruct (gl_whole_site link); [done|]. eapply str_forall_impl; [|exact Hpc]. by intros c [? _]%andb_true_iff.
  - cbn [gl_whole_site]. by intros ->.
Qed.

Lemma map_result_elem {A B} (f : A → result B) l ys y :
  map_result f l = Ok ys → y ∈ ys → ∃ x, x ∈ l ∧ f x = Ok y.
Proof.
  revert ys. induction l as [|x l IH]; intros ys; cbn [map_result].
  { intros [= <-] []%not_elem_of_nil. }
  intros H. inv_result. intros [->|Hy]%elem_of_cons; [exists x; set_solver|].
  destruct (IH _ eq_refl Hy) as (z & ? & ?). exists z. set_solver.
Qed.

(** The links of validated settings. *)
Lemma validate_gateway_links g g' : validate_gateway g = Ok g' →
  map_result (validate_guest_link (gw_domain g') [gw_relay_host g'; gw_openvpn_host g'; "dashboard." +:+ gw_domain g'])
    (gw_guest_links g) = Ok (gw_guest_links g').
Proof. unfold validate_gateway. intros H. inv_result. cbn. done. Qed.

Lemma validated_link_rule g g' link : validate_gateway g = Ok g' → link ∈ gw_guest_links g' →
  ∃ host path, link_rule link = Ok (Some host, path) ∧
    str_forall host_safe host = true ∧ gw_domain g' ≠ "" ∧ endswith ("." +:+ gw_domain g') host = true ∧
    host ∉ [gw_relay_host g'; gw_openvpn_host g'; "dashboard." +:+ gw_domain g'] ∧
    startswith "/" path = true ∧ str_forall template_safe path = true ∧ (gl_whole_site link = true → path = "/").
Proof.
  intros Hg Hl. apply validate_gateway_links in Hg. destruct (map_result_elem _ _ _ _ Hg Hl) as (l0 & _ & Hv).
  apply validate_guest_link_ok in Hv as (host & path & ? & ? & _ & ? & ? & ? & ? & ? & ?). by exists host, path.
Qed.

(** The link rules of validated settings exist, and every one has a host. *)
Lemma validated_rules g g' : validate_gateway g = Ok g' →
  ∃ hosts paths, map_result link_rule (gw_guest_links g') = Ok (zip (Some <$> hosts) paths) ∧ length hosts = length paths ∧
    Forall (fun h => endswith ("." +:+ gw_domain g') h = true) hosts.
Proof.
  intros Hg. assert (Hall : ∀ link, link ∈ gw_guest_links g' → ∃ host path, link_rule link = Ok (Some host, path) ∧
    endswith ("." +:+ gw_domain g') host = true).
  { intros link Hl. destruct (validated_link_rule _ _ _ Hg Hl) as (host & path & ? & _ & _ & ? & _). eauto. }
  clear Hg. induction (gw_guest_links g') as [|l ls IH]; [by exists [], []|].
  destruct (Hall l ltac:(set_solver)) as (h & p & Hl & Hend).
  destruct IH as (hosts & paths & Hr & Hlen & HF); [intros; apply Hall; set_solver|].
  exists (h :: hosts), (p :: paths). cbn [map_result]. rewrite Hl, Hr. cbn [mbind result_bind].
  split_and!; [done|cbn; lia|by constructor].
Qed.

Lemma remove_dups_some (l : list string) : ∃ l', remove_dups (Some <$> l) = Some <$> l' ∧ ∀ x, x ∈ l' ↔ x ∈ l.
Proof.
  induction l as [|x l (l' & Hl & Hin)]; [exists []; set_solver|]. rewrite fmap_cons. cbn [remove_dups].
  destruct (decide_rel elem_of (Some x) (Some <$> l)) as [He|He]; rewrite Hl.
  - exists l'. split; [done|]. apply list_elem_of_fmap in He as (y & [= <-] & Hy). set_solver.
  - exists (x :: l'). split; [done|]. set_solver.
Qed.

(** ** Theorems *)

(** C23. Guests are sent nowhere but to websites under the configured domain: for settings that were
    validated, every guest link opens one host, a proper subdomain of the domain that is neither the
    portal's own website, the relay nor the dashboard, on a path from the root that holds none of the
    characters of the gateway's templates; "whole site" opens the root. *)
Theorem guest_links_confined g g' link : validate_gateway g = Ok g' → link ∈ gw_guest_links g' →
  ∃ host path, link_rule link = Ok (Some host, path) ∧
    str_forall host_safe host = true ∧ gw_domain g' ≠ "" ∧ endswith ("." +:+ gw_domain g') host = true ∧
    host ∉ [gw_relay_host g'; gw_openvpn_host g'; "dashboard." +:+ gw_domain g'] ∧
    startswith "/" path = true ∧ str_forall template_safe path = true ∧ (gl_whole_site link = true → path = "/").
Proof. apply validated_link_rule. Qed.

Definition sample_gateway : gateway :=
  Gateway "Example.com" "openvpn.example.com." "http://192.0.2.20:8080" "relay.example.com" "192.0.2.20:8444"
    "https://relay.example.com:8443/" "192.0.2.10:9443" ["192.0.2.0/24"; "2001:db8::/32"]
    [GuestLink " https://Wiki.example.com/guests/start?lang=en#top" false; GuestLink "https://cam.example.com" true] false
    [Service "wiki" "wiki.example.com" "http://192.0.2.30:3000" true ["/guests"] false].
Definition sample_validated : gateway :=
  Gateway "example.com" "openvpn.example.com" "http://192.0.2.20:8080" "relay.example.com" "192.0.2.20:8444"
    "https://relay.example.com:8443" "192.0.2.10:9443" ["192.0.2.0/24"; "2001:db8::/32"]
    [GuestLink "https://wiki.example.com/guests/start?lang=en#top" false; GuestLink "https://cam.example.com/" true] true
    [Service "wiki" "wiki.example.com" "http://192.0.2.30:3000" true ["/guests"] false].

Lemma guest_links_confined_witness :
  ∃ host path, link_rule (GuestLink "https://wiki.example.com/guests/start?lang=en#top" false) = Ok (Some host, path) ∧
    str_forall host_safe host = true ∧ gw_domain sample_validated ≠ "" ∧ endswith ".example.com" host = true ∧
    host ∉ [gw_relay_host sample_validated; gw_openvpn_host sample_validated; "dashboard.example.com"] ∧
    startswith "/" path = true ∧ str_forall template_safe path = true ∧
    (gl_whole_site (GuestLink "https://wiki.example.com/guests/start?lang=en#top" false) = true → path = "/").
Proof.
  apply (guest_links_confined sample_gateway sample_validated (GuestLink "https://wiki.example.com/guests/start?lang=en#top" false)).
  - vm_compute. reflexivity.
  - left.
Defined.

(** The portal of validated settings can always be read: [guest_portal] raises nothing, so a guest's
    relay request is never refused for a malformed link, and every host it lets through is under the
    domain. *)
Theorem guest_portal_total g g' : validate_gateway g = Ok g' →
  ∃ r, guest_portal (Some g') = Ok r ∧
    ∀ p, r = Some p → po_host p = gw_openvpn_host g' ∧ po_target p = gw_portal_listener g' ∧
      ∀ h, h ∈ po_hosts p → ∃ host, h = Some host ∧ endswith ("." +:+ gw_domain g') host = true.
Proof.
  intros Hg. destruct (validated_rules _ _ Hg) as (hosts & paths & Hr & Hlen & HF). unfold guest_portal.
  destruct (_ || _); [exists None; split; [done|]; done|]. rewrite Hr. cbn [mbind result_bind].
  rewrite fst_zip by (rewrite length_fmap; lia).
  destruct (remove_dups_some hosts) as (l' & Hl' & Hin). unfold sorted_hosts. rewrite Hl'.
  assert (Hno : existsb (fun h : option string => match h with None => true | Some _ => false end) (Some <$> l') = false).
  { clear. induction l' as [|x l IH]; [done|]. exact IH. }
  rewrite Hno, andb_false_r. cbn [mbind result_bind]. eexists. split; [reflexivity|].
  intros p [= <-]. cbn [po_host po_target po_hosts]. split_and!; [done|done|].
  intros h Hh. rewrite merge_sort_Permutation in Hh. apply list_elem_of_fmap in Hh as (host & -> & Hh).
  exists host. split; [done|]. rewrite Hin in Hh. rewrite Forall_forall in HF. by apply HF.
Qed.

Lemma guest_portal_total_witness :
  guest_portal (Some sample_validated)
    = Ok (Some (Portal "openvpn.example.com" "192.0.2.10:9443" [Some "cam.example.com"; Some "wiki.example.com"])) ∧
  ∃ r, guest_portal (Some sample_validated) = Ok r ∧
    ∀ p, r = Some p → po_host p = gw_openvpn_host sample_validated ∧ po_target p = gw_portal_listener sample_validated ∧
      ∀ h, h ∈ po_hosts p → ∃ host, h = Some host ∧ endswith ".example.com" host = true.
Proof.
  split; [vm_compute; reflexivity|].
  apply (guest_portal_total sample_gateway sample_validated). vm_compute. reflexivity.
Defined.

(** Filling the empty fields is stable: the settings that are shown, sent back and shown again are
    the same, as long as what they are derived from is. *)
Theorem with_defaults_stable relay_url profile_base_url signing_url remote_host g g' :
  with_defaults relay_url profile_base_url signing_url remote_host g = Ok g' →
  with_defaults relay_url profile_base_url signing_url remote_host g' = Ok g'.
Proof.
  unfold with_defaults. set (urls := or_else_str (url_host profile_base_url) (url_host signing_url)).
  set (rh := or_else_str (gw_relay_host g) (url_host relay_url)). set (oh := or_else_str (gw_openvpn_host g) urls).
  destruct (if negb (empty (gw_domain g)) then _ else _) as [d|] eqn:Hd; [|done]. cbn [mbind result_bind].
  destruct (default_relay_backend _ _) as [rb|] eqn:Hb; [|done]. cbn [mbind result_bind]. intros <-%Ok_inj.
  cbn [gw_domain gw_openvpn_host gw_openvpn_backend gw_relay_host gw_relay_backend gw_relay_public_url gw_portal_listener
       gw_trusted_cidrs gw_guest_links gw_replace_services gw_services].
  rewrite (default_relay_backend_idem _ _ _ Hb), or_else_str_same. unfold rh. rewrite or_else_str_idem. fold rh.
  assert (Hoh : or_else_str oh urls = oh) by apply or_else_str_idem. destruct (empty d) eqn:Ed; cbn [negb].
  - rewrite andb_false_r, Hoh. destruct (negb (empty (gw_domain g))) eqn:Eg.
    { apply Ok_inj in Hd. by rewrite Hd, Ed in Eg. }
    rewrite Hd. cbn [mbind result_bind]. rewrite Ed. cbn [negb]. by rewrite andb_false_r.
  - rewrite andb_true_r. cbn [mbind result_bind]. rewrite Ed. cbn [negb]. rewrite andb_true_r.
    destruct (empty oh) eqn:Eo; [done|]. by rewrite Hoh, Eo.
Qed.

Definition shown_gateway (remote_host : result string) : result gateway :=
  with_defaults "https://relay.example.com:8443" "" "" remote_host
    (Gateway "" "" "http://192.0.2.20:8080" "" "" "" "" [] [] false []).

Lemma with_defaults_stable_witness :
  ∃ g, shown_gateway (Ok "vpn.example.org") = Ok g ∧ gw_domain g = "example.com" ∧ gw_openvpn_host g = "openvpn.example.com" ∧
    gw_relay_backend g = "192.0.2.20:8444" ∧
    with_defaults "https://relay.example.com:8443" "" "" (Ok "vpn.example.org") g = Ok g.
Proof.
  eexists. split; [vm_compute; reflexivity|]. split_and!; [reflexivity..|].
  eapply (with_defaults_stable "https://relay.example.com:8443" "" "" (Ok "vpn.example.org")
    (Gateway "" "" "http://192.0.2.20:8080" "" "" "" "" [] [] false [])).
  vm_compute. reflexivity.
Defined.
