(* ===== verification/Shlex.v ===== *)
(** * Python's [shlex.split]

    The POSIX mode of the lexer with [whitespace_split]; [None] is its ValueError (an
    open quotation, or nothing after a backslash). *)

From S2P Require Import Prelude PyStr Regex ConfigEdit.

Open Scope string_scope.
Open Scope list_scope.
Open Scope Z_scope.

(** The states of [read_token]: between tokens, in a comment, in a quotation, after a
    backslash (with the quotation it is in), in a word. *)
Inductive lex_state := Blank | Comment | Quoted (q : ascii) | Escaped (q : option ascii) | Word.

Definition shell_space (c : ascii) : bool := one_of (String " " (String tab (String cr (String lf "")))) c.
Definition is_quote (c : ascii) : bool := Ascii.eqb c squote || Ascii.eqb c dquote.

Definition append_char (tok : string) (c : ascii) : string := tok +:+ String c "".

(** [quoted]: the token had a quotation, so it counts even when it is empty. *)
Fixpoint lex_from (comments : bool) (st : lex_state) (quoted : bool) (tok : string) (s : string) : option (list string) :=
  let emit (rest : option (list string)) := if negb (empty tok) || quoted then cons tok <$> rest else rest in
  match s with
  | EmptyString =>
      match st with
      | Blank | Comment => Some []
      | Word => emit (Some [])
      | Quoted _ | Escaped _ => None
      end
  | String c s =>
      match st with
      | Blank =>
          if shell_space c then lex_from comments Blank false "" s
          else if comments && Ascii.eqb c "#"%char then lex_from comments Comment false "" s
          else if Ascii.eqb c backslash then lex_from comments (Escaped None) false "" s
          else if is_quote c then lex_from comments (Quoted c) false "" s
          else lex_from comments Word false (String c "") s
      | Comment => lex_from comments (if Ascii.eqb c lf then Blank else Comment) false "" s
      | Quoted q =>
          if Ascii.eqb c q then lex_from comments Word true tok s
          else if Ascii.eqb c backslash && Ascii.eqb q dquote then lex_from comments (Escaped (Some q)) true tok s
          else lex_from comments (Quoted q) true (append_char tok c) s
      | Escaped None => lex_from comments Word quoted (append_char tok c) s
      | Escaped (Some q) =>
          let tok := if negb (Ascii.eqb c backslash) && negb (Ascii.eqb c q) then append_char tok backslash else tok in
          lex_from comments (Quoted q) quoted (append_char tok c) s
      | Word =>
          if shell_space c then emit (lex_from comments Blank false "" s)
          else if comments && Ascii.eqb c "#"%char then emit (lex_from comments Comment false "" s)
          else if is_quote c then lex_from comments (Quoted c) quoted tok s
          else if Ascii.eqb c backslash then lex_from comments (Escaped None) quoted tok s
          else lex_from comments Word quoted (append_char tok c) s
      end
  end.

(** [shlex.split(s, comments)]. *)
Definition shlex_split (comments : bool) (s : string) : option (list string) := lex_from comments Blank false "" s.


(** ** The first word *)

(** Characters that a word keeps as they are. *)
Definition plain_char (c : ascii) : bool :=
  negb (shell_space c || is_quote c || Ascii.eqb c backslash || Ascii.eqb c "#"%char).

Lemma lex_word comments w tok s : str_forall plain_char w = true →
  lex_from comments Word false tok (w +:+ s) = lex_from comments Word false (tok +:+ w) s.
Proof.
  revert tok. induction w as [|c w IH]; intros tok; [by rewrite str_app_nil_r|]. cbn [str_forall]. intros [Hc Hw]%andb_true_iff.
  cbn [String.append]. unfold plain_char in Hc. apply negb_true_iff in Hc. bool_to_prop.
  cbn [lex_from]. repeat match goal with H : _ = false |- _ => rewrite H end. rewrite andb_false_r.
  rewrite IH by done. unfold append_char. by rewrite str_app_assoc.
Qed.

(** A line that begins with a plain word has it as its first word. *)
Lemma shlex_first comments ws w rest : str_forall shell_space ws = true → str_forall plain_char w = true → w ≠ "" →
  rest = "" ∨ starts_in shell_space rest = true →
  ∀ words, shlex_split comments (ws +:+ w +:+ rest) = Some words → head words = Some w.
Proof.
  intros Hws Hw Hne Hrest words. unfold shlex_split.
  assert (Hskip : lex_from comments Blank false "" (ws +:+ w +:+ rest) = lex_from comments Blank false "" (w +:+ rest)).
  { induction ws as [|c ws IH]; [done|]. cbn [str_forall] in Hws. apply andb_true_iff in Hws as [Hc Hws].
    cbn [String.append lex_from]. by rewrite Hc, IH. }
  rewrite Hskip. clear Hskip Hws ws. destruct w as [|c w]; [done|]. pose proof Hw as Hcw. cbn [str_forall] in Hw.
  apply andb_true_iff in Hw as [Hc Hw]. cbn [String.append lex_from]. unfold plain_char in Hc. apply negb_true_iff in Hc. bool_to_prop.
  repeat match goal with H : _ = false |- _ => rewrite H end. rewrite andb_false_r.
  rewrite lex_word by done. cbn [String.append].
  destruct Hrest as [->|Hrest]; [intros [= <-]; done|]. destruct rest as [|d rest]; [done|]. cbn [starts_in] in Hrest.
  cbn [lex_from]. rewrite Hrest. cbn [empty negb orb].
  destruct (lex_from comments Blank false "" rest) as [l|]; [|done]. intros [= <-]. done.
Qed.
