(* ===== verification/SearchLines.v ===== *)
(** * Searching a text line by line

    Lemmas about [re.search] with a pattern that begins with white space and a keyword,
    [^\s*KEYWORD\s+...] under [re.M]: the lines that do not begin with the keyword are
    passed over. *)

From S2P Require Import Prelude PyStr Regex.

Open Scope string_scope.
Open Scope list_scope.
Open Scope Z_scope.

Definition keyword_rx (kw : string) (tl : regex) : regex :=
  RSeq (RStar true rs_) (RSeq (lit kw) (RSeq (plus rs_) tl)).

(** Lines, each ended by a line feed, before a final text. *)
Definition lines_before (ls : list string) (s : string) : string := foldr (fun l s => l +:+ String lf s) s ls.

Lemma str_snoc_app a c b : a +:+ String c b = (a +:+ String c "") +:+ b.
Proof. by rewrite str_app_assoc. Qed.

Definition bol (prev : option ascii) : bool := match prev with None => true | Some c => Ascii.eqb c lf end.

Lemma last_char_app prev a b : last_char prev (a +:+ b) = last_char (last_char prev a) b.
Proof. revert prev. induction a as [|c a IH]; intros prev; [done|]. apply IH. Qed.

Section search.
Context (kw : string) (tl : regex).
Context (kw_plain : str_forall (fun c => negb (is_space c)) kw = true) (kw_nonempty : kw ≠ "").
Let rx := keyword_rx kw tl.
Let body := RSeq (lit kw) (RSeq (plus rs_) tl).

(** The keyword with white space behind it. *)
Definition keyword_first (r : string) : Prop := ∃ c t, r = kw +:+ String c t ∧ is_space c = true.

Lemma lit_none w r prev caps k : (∀ t, r ≠ w +:+ t) → rmatch (lit w) (ReState prev r caps) k = None.
Proof.
  revert r prev. induction w as [|c w IH]; intros r prev Hr; [by destruct (Hr r)|].
  destruct r as [|d r]; [done|]. cbn [lit rmatch re_rest re_caps]. destruct (Ascii.eqb_spec c d) as [->|]; [|done].
  apply IH. intros t ->. by destruct (Hr t).
Qed.

Lemma body_none r prev caps k : ¬ keyword_first r → rmatch body (ReState prev r caps) k = None.
Proof.
  intros Hr. unfold body. rewrite rmatch_seq. destruct (startswith kw r) eqn:E.
  - apply startswith_iff in E as [t ->]. rewrite lit_run. rewrite rmatch_seq. unfold plus. rewrite rmatch_seq.
    destruct t as [|c t]; [done|]. unfold rs_ at 1. rewrite rmatch_char. destruct (is_space c) eqn:Hc; [|done].
    destruct Hr. by exists c, t.
  - apply lit_none. intros t ->. assert (startswith kw (kw +:+ t) = true) by (apply startswith_iff; eauto). congruence.
Qed.

Lemma body_space c t prev caps k : is_space c = true → rmatch body (ReState prev (String c t) caps) k = None.
Proof.
  intros Hc. apply body_none. intros (d & u & He & _). destruct kw as [|e w]; [done|]. injection He as <- _.
  cbn [str_forall] in kw_plain. apply andb_true_iff in kw_plain as [Hn _]. by rewrite Hc in Hn.
Qed.

Lemma rx_none w r prev caps k : str_forall is_space w = true → starts_in is_space r = false → ¬ keyword_first r →
  rmatch rx (ReState prev (w +:+ r) caps) k = None.
Proof.
  intros Hw Hr Hk. unfold rx, keyword_rx. rewrite rmatch_seq. unfold rs_ at 1. apply star_none; [done|done| |].
  - intros prev'. by apply body_none.
  - intros prev' c t Hc. by apply body_space.
Qed.

Lemma rx_some w r prev caps k x : str_forall is_space w = true → starts_in is_space r = false →
  (∀ prev, rmatch body (ReState prev r caps) k = Some x) → rmatch rx (ReState prev (w +:+ r) caps) k = Some x.
Proof. intros Hw Hr Hk. unfold rx, keyword_rx. rewrite rmatch_seq. unfold rs_ at 1. apply star_run; [done|done|]. apply Hk. Qed.

(** ** [findall_m] over lines *)

Let find (prev : option ascii) (s : string) := head (findall_m (S (String.length s)) rx prev s).

Lemma find_step prev c t : (bol prev = true → rmatch (RGroup 0 rx) (ReState prev (String c t) ∅) (fun st => Some (re_caps st)) = None) →
  find prev (String c t) = find (Some c) t.
Proof.
  intros Hm. unfold find. cbn [String.length findall_m].
  change (match prev with None => true | Some c0 => Ascii.eqb c0 lf end) with (bol prev).
  destruct (bol prev); [|done]. by rewrite Hm.
Qed.

Lemma find_to_line_end line t c : mem_char lf line = false → bol (Some c) = false →
  find (Some c) (line +:+ String lf t) = find (Some lf) t.
Proof.
  unfold mem_char, str_exists. rewrite negb_false_iff. revert c. induction line as [|d line IH]; intros c Hl Hc.
  - cbn [String.append]. apply find_step. by rewrite Hc.
  - cbn [str_forall] in Hl. apply andb_true_iff in Hl as [Hd Hl]. cbn [String.append].
    rewrite find_step by (by rewrite Hc). apply IH; [done|]. cbn [bol]. apply negb_true_iff in Hd. by rewrite Ascii.eqb_sym.
Qed.

(** A line where the pattern does not match is passed over. *)
Lemma find_line prev line t : mem_char lf line = false →
  rmatch (RGroup 0 rx) (ReState prev (line +:+ String lf t) ∅) (fun st => Some (re_caps st)) = None →
  find prev (line +:+ String lf t) = find (Some lf) t.
Proof.
  intros Hl Hm. destruct line as [|d line].
  - cbn [String.append] in *. apply find_step. auto.
  - cbn [String.append] in *. rewrite find_step by auto. unfold mem_char, str_exists in Hl. rewrite negb_false_iff in Hl.
    cbn [str_forall] in Hl. apply andb_true_iff in Hl as [Hd Hl]. apply find_to_line_end.
    + unfold mem_char, str_exists. by rewrite Hl.
    + cbn [bol]. apply negb_true_iff in Hd. by rewrite Ascii.eqb_sym.
Qed.

Lemma find_hit prev s m : bol prev = true →
  rmatch (RGroup 0 rx) (ReState prev s ∅) (fun st => Some (re_caps st)) = Some m → find prev s = Some m.
Proof.
  intros Hb Hm. unfold find. cbn [findall_m]. change (match prev with None => true | Some c0 => Ascii.eqb c0 lf end) with (bol prev).
  rewrite Hb, Hm. by destruct (String.length _).
Qed.

(** ** The first line with the keyword *)

(** A line that does not begin with the keyword as a word. *)
Definition without_keyword (l : string) : Prop :=
  mem_char lf l = false ∧ ∀ w r, l = w +:+ kw +:+ r → str_forall is_space w = true → r = "" ∨ starts_in is_space r = true → False.

Lemma space_split l : ∃ w r, l = w +:+ r ∧ str_forall is_space w = true ∧ starts_in is_space r = false.
Proof.
  induction l as [|c l (w & r & -> & Hw & Hr)]; [by exists "", ""|]. destruct (is_space c) eqn:Hc.
  - exists (String c w), r. split_and!; [done| |done]. cbn [str_forall]. by rewrite Hc.
  - exists "", (String c (w +:+ r)). done.
Qed.

Lemma keyword_in_line r rest : r ≠ "" → ∀ c t, r +:+ String lf rest = kw +:+ String c t → is_space c = true →
  ∃ r', r = kw +:+ r' ∧ (r' = "" ∨ starts_in is_space r' = true).
Proof.
  intros _ c t He Hc. clear kw_nonempty rx body find. revert r He. induction kw as [|d w IH]; intros r He.
  - destruct r as [|e r]; [exists ""; auto|]. cbn in He. injection He as <- _. exists (String e r). split; [done|]. by right.
  - cbn [str_forall] in kw_plain. apply andb_true_iff in kw_plain as [Hd Hw]. destruct r as [|e r].
    + cbn in He. injection He as Hlf _. rewrite <- Hlf in Hd. done.
    + cbn in He. injection He as -> He. destruct (IH Hw r He) as (r' & -> & Hr'). by exists r'.
Qed.

(** Where the white space at the start of the lines ends: at the final text, or at a
    line that does not begin with the keyword. *)
Lemma lines_lead ls hit : Forall without_keyword ls → starts_in is_space hit = false →
  ∃ w r, lines_before ls hit = w +:+ r ∧ str_forall is_space w = true ∧ starts_in is_space r = false ∧
         (r = hit ∨ ¬ keyword_first r).
Proof.
  intros Hls Hhit. induction Hls as [|l ls [Hlf Hl] _ IH]; [exists "", hit; auto|].
  change (lines_before (l :: ls) hit) with (l +:+ String lf (lines_before ls hit)).
  destruct (space_split l) as (w & r & Hwr & Hw & Hr). destruct r as [|c r].
  - destruct IH as (w' & r' & -> & Hw' & Hr' & Hend). exists (w +:+ String lf w'), r'.
    rewrite Hwr, str_app_nil_r. split_and!; [by rewrite str_app_assoc| |done|done].
    rewrite str_forall_app. cbn [str_forall]. by rewrite Hw, Hw'.
  - exists w, (String c r +:+ String lf (lines_before ls hit)). split_and!; [by rewrite Hwr, str_app_assoc|done|done|]. right.
    intros (d & t & He & Hd). destruct (keyword_in_line (String c r) _ ltac:(done) _ _ He Hd) as (r' & Hr' & Hsp).
    apply (Hl w r'); [by rewrite Hwr, Hr'|done|done].
Qed.

(** The search finds the final text, whatever lines without the keyword are before it. *)
Lemma search_lines ls hit pf rf cf : Forall without_keyword ls → starts_in is_space hit = false →
  (∀ prev k x, k (ReState pf rf cf) = Some x → rmatch body (ReState prev hit ∅) k = Some x) →
  ∃ t, re_search_m rx (lines_before ls hit) = Some (<[0%nat := t]> cf).
Proof.
  intros Hls Hhit Hbody. change (re_search_m rx (lines_before ls hit)) with (find None (lines_before ls hit)).
  assert (Hb : bol None = true) by done. revert Hb. generalize (@None ascii) as prev.
  induction Hls as [|l ls Hl Hls IH]; intros prev Hb.
  { eexists. apply find_hit; [done|]. rewrite rmatch_group. cbn [lines_before foldr].
    change hit with ("" +:+ hit) at 1. apply rx_some; [done|done|]. intros p. by apply Hbody. }
  destruct (lines_lead (l :: ls) hit) as (w & r & Hwr & Hw & Hr & Hend); [by constructor|done|].
  destruct Hend as [->|Hno].
  - eexists. apply find_hit; [done|]. rewrite rmatch_group, Hwr. apply rx_some; [done|done|]. intros p. by apply Hbody.
  - change (lines_before (l :: ls) hit) with (l +:+ String lf (lines_before ls hit)) in *.
    rewrite find_line; [by apply IH|apply Hl|]. rewrite Hwr, rmatch_group. by apply rx_none.
Qed.
End search.
