(* ===== verification/ServerConf.v ===== *)
(** * server.conf and the network settings: saving and first reading

    [server_conf_lines], [from_server_conf] and [save_settings] of [ui/app/network.py].
    The JSON text of the settings is [json.dumps] of the whole record; it is an argument,
    since only its line in settings.conf is looked at here. *)

From S2P Require Import Prelude PyStr Regex Mgmt ConfigEdit Ipv4 Ipv6 Shlex SearchLines Addressing Network Relay Gateway.

Open Scope string_scope.
Open Scope list_scope.
Open Scope Z_scope.

(** ** The lines of server.conf *)

(** Whether a line is replaced by the saved settings; [None] is a ValueError of shlex. *)
Definition replaced (line : string) : option bool :=
  words ← shlex_split true line;
  match words with
  | [] => Some false
  | w :: more =>
      if existsb (String.eqb w) ["server"; "ifconfig-pool"] then Some true
      else
        match more with
        | arg :: _ =>
            if String.eqb w "push" then
              pushed ← shlex_split false arg;
              Some match pushed with
                   | [] => false
                   | p :: rest =>
                       existsb (String.eqb p) ["route"; "dns"]
                       || (String.eqb p "dhcp-option" && match rest with q :: _ => String.eqb q "DNS" | [] => false end)
                   end
            else Some false
        | [] => Some false
        end
  end.

Fixpoint kept_lines (lines : list string) : option (list string) :=
  match lines with
  | [] => Some []
  | l :: lines => r ← replaced l; rest ← kept_lines lines; Some (if r : bool then rest else l :: rest)
  end.

Definition quoted (s : string) : string := String dquote s +:+ String dquote "".
Definition dns_lines (i : nat) (dns : string) : list string :=
  ["push " +:+ quoted ("dns server " +:+ nat_str (Z.of_nat i) +:+ " address " +:+ dns);
   "push " +:+ quoted ("dhcp-option DNS " +:+ dns)].
Definition route_line (value : string) : result string :=
  route ← of_option ValueError (parse_network true value);
  Ok ("push " +:+ quoted ("route " +:+ print_ip (net_addr route) +:+ " " +:+ print_ip (net_mask route))).

(** [server_conf_lines]; [conf] is the text of server.conf. *)
Definition server_conf_lines (s : network_settings) (conf : string) : result (list string) :=
  kept ← of_option ValueError (kept_lines (splitlines conf));
  net ← of_option ValueError (parse_network true (ns_vpn_subnet (nw_addressing s)));
  routes ← map_result route_line (nw_routes s);
  Ok (kept
      ++ ["server " +:+ print_ip (net_addr net) +:+ " " +:+ print_ip (net_mask net) +:+ " nopool";
          "ifconfig-pool " +:+ ns_pool_first (nw_addressing s) +:+ " " +:+ ns_pool_last (nw_addressing s)]
      ++ mjoin (imap dns_lines (ns_dns_servers (nw_addressing s)))
      ++ routes).

(** ** First reading *)

(** The DNS servers and the routes that server.conf pushes. *)
Definition pushed_line (acc : list string * list string) (line : string) : result (list string * list string) :=
  words ← of_option ValueError (shlex_split true line);
  match words with
  | w :: arg :: _ =>
      if negb (String.eqb w "push") then Ok acc
      else
        pushed ← of_option ValueError (shlex_split false arg);
        match pushed with
        | p :: q :: rest =>
            if String.eqb p "dhcp-option" && String.eqb q "DNS" then
              ip ← of_option IndexError (head rest); Ok (acc.1 ++ [ip], acc.2)
            else if String.eqb p "route" then
              net ← of_option ValueError (ip_network false (q +:+ "/" +:+ default "32" (head rest)));
              Ok (acc.1, acc.2 ++ [print_any_network net])
            else Ok acc
        | [p] => if String.eqb p "route" then Raise IndexError else Ok acc
        | [] => Ok acc
        end
  | _ => Ok acc
  end.
Fixpoint pushed_lines (acc : list string * list string) (lines : list string) : result (list string * list string) :=
  match lines with [] => Ok acc | l :: lines => acc ← pushed_line acc l; pushed_lines acc lines end.

Definition empty_gateway : gateway := Gateway "" "" "" "" "" "" "" [] [] false [].

(** [from_server_conf]; [proxies] are the words of FORWARDED_ALLOW_IPS, [guest_sub] is
    [settings.guest_sub]. *)
Definition from_server_conf (conf guest_sub : string) (proxies : list string) : result network_settings :=
  '(net, (first, last)) ← of_option (PkiError "Fix the server subnet and pool in Server → Configuration first")
                            (vpn_subnet conf);
  '(dns, routes) ← pushed_lines ([], []) (splitlines conf);
  _ ← raise_if (negb ((0 <=? first) && (first <=? ALL_ONES) && (0 <=? last) && (last <=? ALL_ONES))) ValueError;
  proxies ← cidrs false proxies;
  let dns := dedupe [] dns in
  _ ← raise_if (Nat.ltb 10 (length dns) || Nat.ltb 100 (length routes) || Nat.ltb 100 (length proxies)) ValueError;
  Ok (NetworkSettings (NetSettings (print_network net) (print_ip first) (print_ip last) guest_sub dns) routes proxies
        empty_gateway).

(** ** Saving *)

Definition network_file : string := "config/network/settings.conf".
Definition proxies_file : string := "config/network/proxies.conf".

(** The fields of settings.conf, in order. *)
Definition fields (s : network_settings) (json : string) : list (string * string) :=
  [("TRUST_SUB", ns_vpn_subnet (nw_addressing s)); ("GUEST_SUB", ns_guest_subnet (nw_addressing s));
   ("PROXY_CIDRS", join " " (nw_proxy_cidrs s)); ("GUEST_PORTAL_TARGET", gw_portal_listener (nw_gateway s));
   ("NETWORK_JSON", json)].
Definition field_text (f : string * string) : string := f.1 +:+ "=" +:+ f.2 +:+ lf_text.
Definition file_text (fs : list (string * string)) : string := foldr (fun f s => field_text f +:+ s) "" fs.

(** [save_settings]: the settings that were validated and the files; [dumps] is
    [json.dumps] of the settings. *)
Definition save_settings (dumps : network_settings → string) (a : access) (io_ok : bool) (body : network_settings) (fs : files)
    : result (network_settings * files) :=
  '(_, data) ← validate a body;
  conf ← of_option OSError (universal_newlines <$> fs !! "server.conf");
  lines ← server_conf_lines data conf;
  fs ← write_config "server" (join lf_text lines +:+ lf_text) io_ok fs;
  Ok (data, <[proxies_file := field_text ("PROXY_CIDRS", join " " (nw_proxy_cidrs data))]>
              (<[network_file := file_text (fields data (dumps data))]> fs)).

(** [settings.read_network], up to [json.loads]: the text after the first NETWORK_JSON=. *)
Definition read_network (fs : files) : result (option string) :=
  match fs !! network_file with
  | None => Ok None
  | Some text =>
      match find (startswith "NETWORK_JSON=") (splitlines (universal_newlines text)) with
      | Some line => Ok (Some (partition "="%char line).2)
      | None => Raise ValueError
      end
  end.

(** [get_settings]: [loads] is [json.loads] with the model of the settings, [defaults] is
    [with_defaults] for what is configured elsewhere. An empty object counts as not saved. *)
Definition get_settings (loads : string → result (option network_settings)) (first : result network_settings)
    (defaults : gateway → result gateway) (fs : files) : result network_settings :=
  json ← read_network fs;
  saved ← match json with Some json => loads json | None => Ok None end;
  s ← match saved with Some s => Ok s | None => first end;
  g ← defaults (nw_gateway s);
  Ok (NetworkSettings (nw_addressing s) (nw_routes s) (nw_proxy_cidrs s) g).

(** ** Lemmas: the texts that are written *)

Definition dot_or_digit (c : ascii) : bool := is_decimal c || Ascii.eqb c "."%char.

Lemma print_ip_dotted n : 0 <= n < 2 ^ 32 → str_forall dot_or_digit (print_ip n) = true ∧ print_ip n ≠ "".
Proof.
  intros Hn. assert (Hd : ∀ i, str_forall dot_or_digit (nat_str (octet n i)) = true).
  { intros i. eapply str_forall_impl; [|apply nat_str_decimal; apply octet_bounds]. intros c Hc. unfold dot_or_digit. by rewrite Hc. }
  split.
  - unfold print_ip. cbn [join]. rewrite !str_forall_app. rewrite !Hd. done.
  - unfold print_ip. cbn [join]. pose proof (nat_str_nonempty (octet n 3)) as H3. pose proof (octet_bounds n 3).
    destruct (nat_str (octet n 3)); [by destruct H3; [lia|]|done].
Qed.

Lemma dotted_facts c : dot_or_digit c = true → is_space c = false ∧ Ascii.eqb c cr = false ∧ Ascii.eqb c lf = false.
Proof. destruct c as [[] [] [] [] [] [] [] []]; vm_compute; intros; split_and!; congruence. Qed.

(** The netmask that was printed is read as its prefix length. *)
Lemma parse_mask_print p : 0 <= p <= 32 → parse_mask (print_ip (netmask p)) = Some p.
Proof.
  intros Hp. assert (Hall : forallb (fun i => bool_decide (parse_mask (print_ip (netmask (Z.of_nat i))) = Some (Z.of_nat i))) (seq 0 33) = true)
    by (vm_compute; reflexivity).
  rewrite forallb_forall in Hall. specialize (Hall (Z.to_nat p)). rewrite in_seq in Hall.
  specialize (Hall ltac:(lia)). apply bool_decide_eq_true_1 in Hall. by rewrite Z2Nat.id in Hall by lia.
Qed.

Lemma dotted_no_slash s : str_forall dot_or_digit s = true → mem_char "/" s = false.
Proof.
  intros Hs. unfold mem_char, str_exists. apply negb_false_iff. eapply str_forall_impl; [|exact Hs].
  intros [[] [] [] [] [] [] [] []]; vm_compute; congruence.
Qed.

Lemma netmask_range p : 0 <= p <= 32 → 0 <= netmask p < 2 ^ 32.
Proof.
  intros Hp. unfold netmask. assert (0 < 2 ^ (32 - p)) by (apply Z.pow_pos_nonneg; lia).
  assert (2 ^ (32 - p) <= 2 ^ 32) by (apply Z.pow_le_mono_r; lia). lia.
Qed.

(** A network is read back from its address and netmask. *)
Lemma parse_network_printed n : net_ok n →
  parse_network false (print_ip (net_addr n) +:+ "/" +:+ print_ip (net_mask n)) = Some n.
Proof.
  intros (Hp & Ha & Hal). unfold parse_network.
  destruct (print_ip_dotted (net_addr n) Ha) as [Hd _]. destruct (print_ip_dotted (net_mask n)) as [Hm _].
  { apply netmask_range, Hp. }
  change (print_ip (net_addr n) +:+ "/" +:+ print_ip (net_mask n)) with (print_ip (net_addr n) +:+ String "/" (print_ip (net_mask n))).
  rewrite split_app_sep, !split_nosep by (by apply dotted_no_slash). cbn [app].
  rewrite parse_print_ip by done. unfold net_mask. rewrite parse_mask_print by done. cbn [mbind option_bind].
  unfold make_network. rewrite land_netmask, Hal by done. cbn [andb]. rewrite Z.sub_0_r. by destruct n.
Qed.

(** ** Lemmas: what the patterns read from the new lines *)

Section reading.
Context (a b : string).
Context (Ha : str_forall dot_or_digit a = true) (Ha0 : a ≠ "") (Hb : str_forall dot_or_digit b = true) (Hb0 : b ≠ "").

Lemma dotted_start s t : str_forall dot_or_digit s = true → s ≠ "" → starts_in is_space (s +:+ t) = false.
Proof.
  destruct s as [|c s]; [done|]. cbn. intros [Hc _]%andb_true_iff _. by apply dotted_facts.
Qed.

(** One dotted field behind a space. *)
Lemma dotted_run i s rest prev caps k x : str_forall dot_or_digit s = true → s ≠ "" → starts_in dot_or_digit rest = false →
  (∀ prev', k (ReState prev' rest (<[i := s]> caps)) = Some x) →
  rmatch (RSeq (plus rs_) (RGroup i (plus dotted))) (ReState prev (" " +:+ s +:+ rest) caps) k = Some x.
Proof.
  intros Hs Hne Hrest Hk. rewrite rmatch_seq. unfold rs_. change (" " +:+ s +:+ rest) with (String " " "" +:+ (s +:+ rest)).
  apply plus_run; [done|done|by apply dotted_start|]. cbn [last_char]. rewrite rmatch_group.
  destruct s as [|c s]; [done|]. cbn [str_forall] in Hs. apply andb_true_iff in Hs as [Hc Hs]. unfold dotted.
  apply plus_run; [done|done|done|]. cbn [re_prev re_rest re_caps].
  rewrite str_take_app. apply Hk.
Qed.

Lemma seq_assoc r1 r2 r3 st k : rmatch (RSeq r1 (RSeq r2 r3)) st k = rmatch (RSeq (RSeq r1 r2) r3) st k.
Proof. done. Qed.

Definition server_tail : regex :=
  rseq [RGroup 1 (plus dotted); plus rs_; RGroup 2 (plus dotted); opt (RGroup 3 (RSeq (plus rs_) (lit "nopool")))].
Definition pool_tail : regex := rseq [RGroup 1 (plus dotted); plus rs_; RGroup 2 (plus dotted)].

(** The captures of the server line, and of the pool line. *)
Definition server_caps : gmap nat string := <[3%nat := " nopool"]> (<[2%nat := b]> (<[1%nat := a]> ∅)).
Definition pool_caps : gmap nat string := <[2%nat := b]> (<[1%nat := a]> ∅).

Lemma server_hit tail prev k x :
  k (ReState (Some "l"%char) (String lf tail) server_caps) = Some x →
  rmatch (RSeq (lit "server") (RSeq (plus rs_) server_tail))
    (ReState prev ("server" +:+ (" " +:+ a +:+ (" " +:+ b +:+ (" nopool" +:+ String lf tail)))) ∅) k = Some x.
Proof.
  intros Hk. rewrite rmatch_seq, lit_run. unfold server_tail, rseq. rewrite seq_assoc, rmatch_seq.
  apply dotted_run; [done..|]. intros p1. rewrite seq_assoc, rmatch_seq.
  apply dotted_run; [done..|]. intros p2. unfold opt. cbn [rmatch or_else].
  match goal with |- or_else ?m _ = _ => assert (m = Some x) as ->; [|done] end.
  change (" nopool" +:+ String lf tail) with (String " " "" +:+ ("nopool" +:+ String lf tail)).
  match goal with |- rmatch (plus rs_) ?st ?k' = _ => apply (plus_run is_space " " "" ("nopool" +:+ String lf tail) k' x) end; [done..|].
  rewrite lit_run. cbn [re_prev re_rest re_caps last_char].
  change (String " " "" +:+ "nopool" +:+ String lf tail) with (" nopool" +:+ String lf tail).
  rewrite str_take_app. exact Hk.
Qed.

Lemma pool_hit tail prev k x :
  k (ReState (last_char (Some " "%char) b) (String lf tail) pool_caps) = Some x →
  rmatch (RSeq (lit "ifconfig-pool") (RSeq (plus rs_) pool_tail))
    (ReState prev ("ifconfig-pool" +:+ (" " +:+ a +:+ (" " +:+ b +:+ String lf tail))) ∅) k = Some x.
Proof.
  unfold pool_caps. intros Hk. rewrite rmatch_seq, lit_run. unfold pool_tail, rseq. rewrite seq_assoc, rmatch_seq.
  apply dotted_run; [done..|]. intros p1. rewrite rmatch_seq.
  change (" " +:+ b +:+ String lf tail) with (String " " "" +:+ (b +:+ String lf tail)).
  apply plus_run; [done|done|by apply dotted_start|]. cbn [last_char]. rewrite rmatch_group.
  destruct b as [|c s] eqn:E; [done|]. cbn [str_forall] in Hb. apply andb_true_iff in Hb as [Hc Hs]. unfold dotted.
  apply plus_run; [done|done|done|]. cbn [re_prev re_rest re_caps]. rewrite str_take_app. exact Hk.
Qed.
End reading.

(** ** Lemmas: the lines that are kept *)

(** Whether a line begins with a keyword, set off by white space of a kind. *)
Definition keyword_line (space : ascii → bool) (kw l : string) : bool :=
  let t := lstrip_by space l in
  startswith kw t && (let r := str_drop (String.length kw) t in empty r || starts_in space r).

(** The lines that the patterns of [vpn_subnet] take for server and pool lines are lines that
    [shlex], and OpenVPN, take for such: neither U+001F nor U+00A0, which are white space for the
    patterns only, stands before the keyword or right behind it. *)
Definition plain_keywords (conf : string) : bool :=
  forallb (fun l => forallb (fun kw => implb (keyword_line is_space kw l) (keyword_line shell_space kw l))
             ["server"; "ifconfig-pool"]) (splitlines conf).

Lemma keyword_line_intro space w kw r :
  str_forall space w = true → starts_in space kw = false → kw ≠ "" → r = "" ∨ starts_in space r = true →
  keyword_line space kw (w +:+ kw +:+ r) = true.
Proof.
  intros Hw Hkw Hne Hr. unfold keyword_line.
  assert (lstrip_by space (w +:+ kw +:+ r) = kw +:+ r) as ->.
  { induction w as [|c w IH]; cbn [String.append lstrip_by str_forall] in *.
    - destruct kw as [|c kw]; [done|]. cbn [starts_in] in Hkw. cbn [String.append lstrip_by]. by rewrite Hkw.
    - apply andb_true_iff in Hw as [Hc Hw]. rewrite Hc. by apply IH. }
  assert (str_drop (String.length kw) (kw +:+ r) = r) as -> by (clear; induction kw; [done|by cbn]).
  assert (startswith kw (kw +:+ r) = true) as -> by (apply startswith_iff; eauto). destruct Hr as [->| ->]; [done|].
  by rewrite orb_true_r.
Qed.

Lemma keyword_line_elim space kw l : keyword_line space kw l = true →
  ∃ w r, l = w +:+ kw +:+ r ∧ str_forall space w = true ∧ (r = "" ∨ starts_in space r = true).
Proof.
  unfold keyword_line. intros [Hs Hr]%andb_true_iff.
  assert (Hw : ∃ w, l = w +:+ lstrip_by space l ∧ str_forall space w = true).
  { clear. induction l as [|c l (w & Hl & Hw)]; [by exists ""|]. cbn [lstrip_by]. destruct (space c) eqn:Hc; [|by exists ""].
    exists (String c w). cbn [String.append str_forall]. by rewrite <- Hl, Hc. }
  destruct Hw as (w & Hl & Hw). apply startswith_iff in Hs as [r Hs]. rewrite Hs in *. exists w, r. split_and!; [done|done|].
  assert (Hd : str_drop (String.length kw) (kw +:+ r) = r) by (clear; induction kw; [done|by cbn]). rewrite Hd in Hr.
  apply orb_true_iff in Hr as [Hr|]; [left; by destruct r|by right].
Qed.

Lemma splitlines_forall p s : str_forall p s = true →
  Forall (fun l => str_forall (fun c => p c && negb (is_line_end c)) l = true) (splitlines s).
Proof.
  induction s as [|c s IH]; [constructor|]. cbn [str_forall]. intros [Hc Hs]%andb_true_iff. specialize (IH Hs).
  cbn [splitlines]. destruct (is_line_end c) eqn:Hle.
  - destruct s as [|d t]; [by repeat constructor|]. destruct (_ && _); [done|]. by constructor.
  - assert (H1 : str_forall (fun c => p c && negb (is_line_end c)) (String c "") = true) by (cbn; by rewrite Hc, Hle).
    destruct s as [|d t]; [by repeat constructor|]. destruct (is_line_end d).
    + constructor; [done|]. destruct (splitlines (String d t)) as [|w ws]; [constructor|]. by apply Forall_cons in IH as [_ ?].
    + destruct (splitlines (String d t)) as [|w ws]; [by repeat constructor|]. apply Forall_cons in IH as [Hw Hws].
      constructor; [|done]. cbn [str_forall] in *. rewrite Hc, Hle. by rewrite Hw.
Qed.

Lemma kept_lines_elem ls kept l : kept_lines ls = Some kept → l ∈ kept → l ∈ ls ∧ replaced l = Some false.
Proof.
  revert kept. induction ls as [|x ls IH]; intros kept; cbn [kept_lines]; [intros [= <-] []%not_elem_of_nil|].
  destruct (replaced x) as [r|] eqn:Hr; [|done]. destruct (kept_lines ls) as [rest|]; [|done]. cbn [mbind option_bind].
  destruct r; intros [= <-] Hl; [destruct (IH _ eq_refl Hl); set_solver|].
  apply elem_of_cons in Hl as [->|Hl]; [set_solver|]. destruct (IH _ eq_refl Hl). set_solver.
Qed.

Lemma line_no_lf l p : str_forall (fun c => p c && negb (is_line_end c)) l = true → mem_char lf l = false ∧ mem_char cr l = false.
Proof.
  intros Hl. unfold mem_char, str_exists. rewrite !negb_false_iff.
  split; (eapply str_forall_impl; [|exact Hl]); intros c [_ Hc]%andb_true_iff; apply negb_true_iff, Ascii.eqb_neq;
    intros <-; discriminate Hc.
Qed.

(** A kept line does not begin with a keyword that is replaced. *)
Lemma kept_without kw conf kept :
  kw ∈ ["server"; "ifconfig-pool"] → plain_keywords conf = true → kept_lines (splitlines conf) = Some kept →
  Forall (without_keyword kw) kept.
Proof.
  intros Hkw Hconf Hk. rewrite Forall_forall. intros l Hl.
  destruct (kept_lines_elem _ _ _ Hk Hl) as [Hin Hr].
  assert (Hall : str_forall (fun _ => true) conf = true) by (clear; by induction conf).
  apply splitlines_forall in Hall. rewrite Forall_forall in Hall. specialize (Hall l Hin). split; [exact (proj1 (line_no_lf l (fun _ => true) Hall))|].
  intros w r -> Hw Hrest.
  assert (Hfacts : starts_in is_space kw = false ∧ kw ≠ "" ∧ str_forall plain_char kw = true ∧ existsb (String.eqb kw) ["server"; "ifconfig-pool"] = true).
  { apply elem_of_cons in Hkw as [->|Hkw]; [done|]. by apply list_elem_of_singleton in Hkw as ->. }
  destruct Hfacts as (Hs0 & Hne & Hpl & Hex).
  unfold plain_keywords in Hconf. rewrite forallb_forall in Hconf. specialize (Hconf _ (proj1 (list_elem_of_In _ _) Hin)).
  cbv beta in Hconf. rewrite forallb_forall in Hconf. specialize (Hconf kw (proj1 (list_elem_of_In _ _) Hkw)). cbv beta in Hconf.
  rewrite keyword_line_intro in Hconf by done. cbn [implb] in Hconf.
  apply keyword_line_elim in Hconf as (w' & r' & Heq & Hw' & Hr'). rewrite Heq in Hr.
  unfold replaced in Hr. destruct (shlex_split true (w' +:+ kw +:+ r')) as [words|] eqn:Hs; [|done].
  pose proof (shlex_first true w' kw r' Hw' Hpl Hne Hr' words Hs) as Hhead. cbn [mbind option_bind] in Hr.
  destruct words as [|w0 words]; [done|]. cbn [head] in Hhead. injection Hhead as ->. by rewrite Hex in Hr.
Qed.

Lemma join_lines ls : ls ≠ [] → join lf_text ls +:+ lf_text = lines_before ls "".
Proof.
  induction ls as [|l ls IH]; [done|]. intros _. destruct ls as [|m ls]; [done|].
  change (join lf_text (l :: m :: ls)) with (l +:+ lf_text +:+ join lf_text (m :: ls)).
  rewrite str_app_assoc. change (lf_text +:+ join lf_text (m :: ls)) with (String lf (join lf_text (m :: ls))).
  cbn [String.append]. by rewrite IH.
Qed.

Lemma lines_before_app l1 l2 s : lines_before (l1 ++ l2) s = lines_before l1 (lines_before l2 s).
Proof. unfold lines_before. by rewrite foldr_app. Qed.

Lemma server_caps_groups a b t : group (<[0%nat := t]> (server_caps a b)) 1 = a
  ∧ group (<[0%nat := t]> (server_caps a b)) 2 = b ∧ truthy (<[0%nat := t]> (server_caps a b) !! 3%nat) = true.
Proof. done. Qed.
Lemma pool_caps_groups a b t : group (<[0%nat := t]> (pool_caps a b)) 1 = a ∧ group (<[0%nat := t]> (pool_caps a b)) 2 = b.
Proof. done. Qed.

(** What [vpn_subnet] reads from a text with the new server and pool lines. *)
Lemma vpn_subnet_new kept tail net first last :
  Forall (without_keyword "server") kept → Forall (without_keyword "ifconfig-pool") kept →
  net_ok net → 0 <= first < 2 ^ 32 → 0 <= last < 2 ^ 32 →
  vpn_subnet (lines_before (kept ++ ["server " +:+ print_ip (net_addr net) +:+ " " +:+ print_ip (net_mask net) +:+ " nopool";
    "ifconfig-pool " +:+ print_ip first +:+ " " +:+ print_ip last]) tail) = Some (net, (first, last)).
Proof.
  intros Hk1 Hk2 Hnet Hf Hl. destruct Hnet as (Hp & Ha & Hal).
  destruct (print_ip_dotted (net_addr net) Ha) as [Da Na]. destruct (print_ip_dotted (net_mask net)) as [Dm Nm].
  { apply netmask_range, Hp. }
  destruct (print_ip_dotted first Hf) as [Df Nf]. destruct (print_ip_dotted last Hl) as [Dl Nl].
  unfold vpn_subnet. rewrite !lines_before_app. set (A := print_ip (net_addr net)) in *. set (M := print_ip (net_mask net)) in *.
  set (F := print_ip first) in *. set (L := print_ip last) in *.
  set (pool_line := "ifconfig-pool " +:+ F +:+ " " +:+ L). set (server_line := "server " +:+ A +:+ " " +:+ M +:+ " nopool").
  assert (Hs : lines_before [server_line; pool_line] tail
    = "server" +:+ (" " +:+ A +:+ (" " +:+ M +:+ (" nopool" +:+ String lf (pool_line +:+ String lf tail))))).
  { unfold lines_before, server_line. cbn [foldr]. rewrite !str_app_assoc. cbn [String.append]. rewrite ?str_app_assoc. done. }
  assert (Hpl : pool_line +:+ String lf tail = "ifconfig-pool" +:+ (" " +:+ F +:+ (" " +:+ L +:+ String lf tail))).
  { unfold pool_line. rewrite !str_app_assoc. cbn [String.append]. rewrite ?str_app_assoc. done. }
  destruct (search_lines "server" server_tail ltac:(reflexivity) ltac:(done) kept
    (lines_before [server_line; pool_line] tail) (Some "l"%char) (String lf (pool_line +:+ String lf tail)) (server_caps A M))
    as [t Ht]; [done|by rewrite Hs| |].
  { intros prev k x Hk. rewrite Hs. by apply server_hit. }
  change (keyword_rx "server" server_tail) with rx_server in Ht. rewrite Ht. cbn [mbind option_bind].
  destruct (server_caps_groups A M t) as (-> & -> & ->). unfold A, M.
  rewrite parse_network_printed by done. cbn [mbind option_bind]. fold A M.
  assert (Hkw : Forall (without_keyword "ifconfig-pool") (kept ++ [server_line])).
  { apply Forall_app. split; [done|]. constructor; [|constructor]. split.
    - unfold server_line. unfold mem_char, str_exists. rewrite !str_forall_app. apply negb_false_iff.
      assert (Hd : ∀ s, str_forall dot_or_digit s = true → str_forall (fun d => negb (Ascii.eqb lf d)) s = true).
      { intros s Hs'. eapply str_forall_impl; [|exact Hs']. intros c Hc. apply negb_true_iff.
        rewrite Ascii.eqb_sym. by apply dotted_facts. }
      rewrite (Hd A Da), (Hd M Dm). done.
    - intros w r He Hw _. destruct w as [|c w]; [discriminate He|]. cbn in He. injection He as <- _. discriminate Hw. }
  destruct (search_lines "ifconfig-pool" pool_tail ltac:(reflexivity) ltac:(done) (kept ++ [server_line])
    (pool_line +:+ String lf tail) (last_char (Some " "%char) L) (String lf tail) (pool_caps F L)) as [t' Ht']; [done|by rewrite Hpl| |].
  { intros prev k x Hk. rewrite Hpl. by apply pool_hit. }
  change (keyword_rx "ifconfig-pool" pool_tail) with rx_pool in Ht'. rewrite lines_before_app in Ht'.
  change (lines_before [server_line] (pool_line +:+ String lf tail)) with (lines_before [server_line; pool_line] tail) in Ht'.
  rewrite Ht'. destruct (pool_caps_groups F L t') as [-> ->]. unfold F, L.
  rewrite !parse_print_ip by done. done.
Qed.

(** ** Lemmas: the lines that are written *)

Definition one_line (s : string) : bool := str_forall (fun c => negb (is_line_end c)) s.

Lemma one_line_app s t : one_line (s +:+ t) = one_line s && one_line t.
Proof. apply str_forall_app. Qed.

Lemma dotted_one_line s : str_forall dot_or_digit s = true → one_line s = true.
Proof.
  apply str_forall_impl. intros c. destruct c as [[] [] [] [] [] [] [] []]; vm_compute; congruence.
Qed.

Lemma decimal_one_line s : str_forall is_decimal s = true → one_line s = true.
Proof.
  apply str_forall_impl. intros c. destruct c as [[] [] [] [] [] [] [] []]; vm_compute; congruence.
Qed.

Lemma nat_str_one_line n : 0 <= n → one_line (nat_str n) = true.
Proof. intros Hn. by apply decimal_one_line, nat_str_decimal. Qed.

Lemma print_ip_one_line n : 0 <= n < 2 ^ 32 → one_line (print_ip n) = true.
Proof. intros Hn. by apply dotted_one_line, print_ip_dotted. Qed.

Lemma print_network_one_line n : net_ok n → one_line (print_network n) = true.
Proof.
  intros (Hp & Ha & _). unfold print_network. rewrite !one_line_app, print_ip_one_line by done.
  rewrite nat_str_one_line by lia. done.
Qed.

Lemma one_line_no_cr s : one_line s = true → mem_char cr s = false.
Proof. intros Hs. apply (line_no_lf s (fun _ => true)). exact Hs. Qed.

Lemma lines_before_no_cr ls s : Forall (fun l => one_line l = true) ls → mem_char cr s = false →
  mem_char cr (lines_before ls s) = false.
Proof.
  intros Hls Hs. induction Hls as [|l ls Hl _ IH]; [exact Hs|]. apply one_line_no_cr in Hl.
  change (lines_before (l :: ls) s) with (l +:+ String lf (lines_before ls s)).
  unfold mem_char, str_exists in *. rewrite negb_false_iff in *. rewrite str_forall_app, Hl. exact IH.
Qed.

Lemma map_result_forall {A B} (f : A → result B) (P : B → Prop) l ys :
  (∀ x y, f x = Ok y → P y) → map_result f l = Ok ys → Forall P ys.
Proof.
  intros Hf. revert ys. induction l as [|x l IH]; intros ys; cbn [map_result]; intros H; inv_result; [constructor|].
  constructor; [by eapply Hf|by apply IH].
Qed.

Lemma one_line_quoted s : one_line (quoted s) = one_line s.
Proof.
  unfold quoted. change (String dquote s +:+ String dquote "") with (String dquote (s +:+ String dquote "")).
  change (one_line (String dquote (s +:+ String dquote ""))) with (one_line (s +:+ String dquote "")).
  rewrite one_line_app. apply andb_true_r.
Qed.

Lemma route_line_one_line v l : route_line v = Ok l → one_line l = true.
Proof.
  unfold route_line. destruct (parse_network true v) as [n|] eqn:E; [|done]. cbn [of_option mbind result_bind].
  intros <-%Ok_inj. apply parse_network_ok in E as (Hp & Ha & _). rewrite one_line_app, one_line_quoted, !one_line_app.
  rewrite !print_ip_one_line by (try apply netmask_range; done). done.
Qed.

Lemma dns_lines_one_line l : Forall (fun d => one_line d = true) l →
  ∀ i, Forall (fun d => one_line d = true) (mjoin (imap (fun j => dns_lines (i + j)) l)).
Proof.
  induction 1 as [|d l Hd _ IH]; intros i; [constructor|]. cbn [imap mjoin]. apply Forall_app. split.
  - unfold dns_lines. repeat constructor; rewrite one_line_app, one_line_quoted, !one_line_app, Hd,
      ?nat_str_one_line by lia; done.
  - rewrite (imap_ext _ (fun j => dns_lines (S i + j))); [apply IH|].
    intros j x _. cbn [compose]. f_equal. lia.
Qed.

(** The printed settings. *)
Definition printed_plan (r : ranges) (s : net_settings) : Prop :=
  net_ok (rg_net r) ∧ net_ok (rg_guest r) ∧ 0 <= rg_first r < 2 ^ 32 ∧ 0 <= rg_last r < 2 ^ 32 ∧
  ns_vpn_subnet s = print_network (rg_net r) ∧ ns_guest_subnet s = print_network (rg_guest r) ∧
  ns_pool_first s = print_ip (rg_first r) ∧ ns_pool_last s = print_ip (rg_last r) ∧
  Forall (fun d => one_line d = true) (ns_dns_servers s).

Lemma parse_all_printed l l' : parse_all l = Some l' → Forall (fun d => one_line d = true) l'.
Proof.
  revert l'. induction l as [|x l IH]; intros l'; cbn [parse_all]; [by intros [= <-]|].
  destruct (parse_ip x) as [n|] eqn:E; [|done]. cbn [mbind option_bind]. destruct (parse_all l) as [t|]; [|done].
  cbn [mbind option_bind]. intros [= <-]. constructor; [|by apply IH]. apply parse_ip_canonical in E as [_ Hn].
  by apply print_ip_one_line.
Qed.

Lemma dedupe_forall (P : string → Prop) l : Forall P l → ∀ seen, Forall P (dedupe seen l).
Proof. induction 1 as [|x l Hx _ IH]; intros seen; cbn [dedupe]; [constructor|]. destruct (existsb _ _); [done|by constructor]. Qed.

(** The validated settings come from the ranges that were read. *)
Lemma validate_ranges_of a s r data : validate a s = Ok (r, data) →
  read_ranges (nw_addressing s) = Some (r, nw_addressing data) ∧
  cidrs true (nw_routes s) = Ok (nw_routes data) ∧ cidrs false (nw_proxy_cidrs s) = Ok (nw_proxy_cidrs data) ∧
  validate_gateway (nw_gateway s) = Ok (nw_gateway data).
Proof.
  unfold validate, validate_addressing, validate_ranges. intros H. inv_result.
  destruct (read_ranges (nw_addressing s)) as [[r0 s0]|]; [|done]. apply Ok_inj in E1 as <-.
  destruct (cidrs true _) as [routes|]; [|done]. destruct (cidrs false _) as [proxies|]; [|done].
  destruct (raise_if _ _); [|done]. apply Ok_inj in E as <-. cbn [nw_gateway] in H.
  destruct (validate_gateway _) as [g|]; [|done]. apply Ok_inj in H as [= <- <-]. done.
Qed.

Lemma read_ranges_printed s r s' : read_ranges s = Some (r, s') → printed_plan r s'.
Proof.
  intros H. destruct (read_ranges_ok _ _ _ H) as (Hn & Hg & _). unfold read_ranges in H.
  destruct (parse_network true (ns_vpn_subnet s)) as [net|]; [|done].
  destruct (parse_network true (ns_guest_subnet s)) as [guest|]; [|done].
  destruct (parse_ip (ns_pool_first s)) as [first|] eqn:E3; [|done].
  destruct (parse_ip (ns_pool_last s)) as [last|] eqn:E4; [|done]. cbn [mbind option_bind] in H.
  destruct (ranges_ok _); [|done]. destruct (parse_all (ns_dns_servers s)) as [dns|] eqn:E5; [|done].
  cbn [mbind option_bind] in H. injection H as <- <-. apply parse_ip_canonical in E3 as [_ ?], E4 as [_ ?].
  unfold printed_plan. cbn. split_and!; try done; try lia. apply dedupe_forall. by eapply parse_all_printed.
Qed.

Lemma parse_print_network n : net_ok n → parse_network true (print_network n) = Some n.
Proof.
  intros (Hp & Ha & Hal). unfold parse_network, print_network. destruct (print_ip_dotted (net_addr n) Ha) as [Hd _].
  assert (Hs : mem_char "/" (nat_str (net_prefix n)) = false).
  { apply dotted_no_slash. eapply str_forall_impl; [|apply nat_str_decimal; lia]. intros c Hc. unfold dot_or_digit. by rewrite Hc. }
  change (print_ip (net_addr n) +:+ "/" +:+ nat_str (net_prefix n)) with (print_ip (net_addr n) +:+ String "/" (nat_str (net_prefix n))).
  rewrite split_app_sep, !split_nosep by (try done; by apply dotted_no_slash). cbn [app].
  rewrite parse_print_ip by done. cbn [mbind option_bind].
  assert (Hall : forallb (fun i => bool_decide (parse_mask (nat_str (Z.of_nat i)) = Some (Z.of_nat i))) (seq 0 33) = true)
    by (vm_compute; reflexivity).
  rewrite forallb_forall in Hall. specialize (Hall (Z.to_nat (net_prefix n))). rewrite in_seq in Hall.
  specialize (Hall ltac:(lia)). apply bool_decide_eq_true_1 in Hall. rewrite Z2Nat.id in Hall by lia. rewrite Hall. cbn [mbind option_bind].
  unfold make_network. rewrite land_netmask, Hal, Z.sub_0_r, Z.eqb_refl by done. by destruct n.
Qed.

Lemma kept_one_line conf kept : kept_lines (splitlines conf) = Some kept → Forall (fun l => one_line l = true) kept.
Proof.
  intros Hk. rewrite Forall_forall. intros l Hl. destruct (kept_lines_elem _ _ _ Hk Hl) as [Hin _].
  assert (Ht : str_forall (fun _ => true) conf = true) by (clear; by induction conf).
  pose proof (splitlines_forall _ _ Ht) as Hall. rewrite Forall_forall in Hall. exact (Hall l Hin).
Qed.

(** The lines for validated settings: those kept, the two ranges and others, each a single line. *)
Lemma server_conf_lines_form r s conf lines : printed_plan r (nw_addressing s) → server_conf_lines s conf = Ok lines →
  ∃ kept more, kept_lines (splitlines conf) = Some kept ∧
    lines = (kept ++ ["server " +:+ print_ip (net_addr (rg_net r)) +:+ " " +:+ print_ip (net_mask (rg_net r)) +:+ " nopool";
                      "ifconfig-pool " +:+ print_ip (rg_first r) +:+ " " +:+ print_ip (rg_last r)]) ++ more ∧
    Forall (fun l => one_line l = true) lines.
Proof.
  intros (Hn & _ & Hf & Hl & Es & _ & Ef & El & Hd). unfold server_conf_lines.
  destruct (kept_lines (splitlines conf)) as [kept|] eqn:Hk; [|done]. cbn [of_option mbind result_bind].
  rewrite Es, parse_print_network by done. cbn [of_option mbind result_bind].
  destruct (map_result route_line (nw_routes s)) as [routes|] eqn:Hr; [|done]. cbn [mbind result_bind]. rewrite Ef, El.
  intros <-%Ok_inj. exists kept, (mjoin (imap dns_lines (ns_dns_servers (nw_addressing s))) ++ routes).
  split_and!; [done|by rewrite <-!app_assoc|]. destruct Hn as (Hp & Ha & _). repeat rewrite Forall_app. split_and!.
  - by eapply kept_one_line.
  - repeat constructor; rewrite !one_line_app, !print_ip_one_line by (try apply netmask_range; done); done.
  - by apply (dns_lines_one_line _ Hd 0).
  - eapply map_result_forall; [|done]. apply route_line_one_line.
Qed.

(** What [write_config] leaves in server.conf. *)
Lemma write_server_conf ls io_ok fs fs' : ls ≠ [] → Forall (fun l => one_line l = true) ls →
  write_config "server" (join lf_text ls +:+ lf_text) io_ok fs = Ok fs' →
  ∃ tail, fs' !! "server.conf" = Some (lines_before ls tail) ∧ mem_char cr (lines_before ls tail) = false.
Proof.
  intros Hne Hls. rewrite join_lines by done. unfold write_config. intros H. inv_result.
  match goal with E : config_path _ _ = Ok ?p |- _ => vm_compute in E; injection E as <- end.
  pose proof (lines_before_no_cr ls "" Hls eq_refl) as Hcr. rewrite crlf_to_lf_no_cr by done.
  assert (Ht : ∃ tail, (if endswith lf_text (lines_before ls "") then lines_before ls "" else lines_before ls "" +:+ lf_text)
    = lines_before ls tail ∧ mem_char cr tail = false).
  { clear. destruct (endswith lf_text (lines_before ls "")); [by exists ""|]. exists lf_text. split; [|done].
    induction ls as [|l ls IH]; [done|]. unfold lines_before in *. cbn [foldr]. rewrite <-IH, str_app_assoc. done. }
  destruct Ht as (tail & -> & Htail). exists tail. split; [by rewrite lookup_insert_eq|by apply lines_before_no_cr].
Qed.

(** ** Theorems *)

(** C9. The saved plan is in force: after settings that pass validation are saved, server.conf as it
    is then read has the validated subnet and pool, whatever server and ifconfig-pool lines it had
    before, on condition that these keywords were set off by white space as OpenVPN knows it: neither
    U+001F nor U+00A0 stands before such a keyword or right behind it (OpenVPN does not start with such
    a line; [no_break_space_kept] shows what saving does to it). The plan's ranges keep their relation:
    the pool is inside the subnet, above the server's address, and apart from the guests' subnet. *)
Theorem saved_plan_in_force dumps a io_ok body fs data fs' :
  (∀ old, fs !! "server.conf" = Some old → plain_keywords (universal_newlines old) = true) →
  save_settings dumps a io_ok body fs = Ok (data, fs') →
  ∃ r conf, validate a body = Ok (r, data) ∧ read_config "server" fs' = Ok conf ∧
    vpn_subnet conf = Some (rg_net r, (rg_first r, rg_last r)) ∧
    net_addr (rg_net r) + 1 < rg_first r ∧ rg_first r <= rg_last r ∧ rg_last r < broadcast (rg_net r) ∧
    ¬ (rg_first r <= broadcast (rg_guest r) ∧ net_addr (rg_guest r) <= rg_last r).
Proof.
  intros Hplain. unfold save_settings. destruct (validate a body) as [[r data']|] eqn:Hv; [|done].
  cbn [mbind result_bind]. destruct (fs !! "server.conf") as [old|] eqn:Hold; [|done].
  specialize (Hplain old eq_refl). cbn [fmap option_fmap option_map of_option mbind result_bind].
  destruct (server_conf_lines data' (universal_newlines old)) as [lines|] eqn:Hls; [|done]. cbn [mbind result_bind].
  destruct (write_config _ _ _ _) as [fs1|] eqn:Hw; [|done]. cbn [mbind result_bind]. intros [-> <-]%Ok_inj%pair_equal_spec.
  destruct (validate_ranges_of _ _ _ _ Hv) as (Hr & _). pose proof (read_ranges_printed _ _ _ Hr) as Hpr.
  destruct (server_conf_lines_form _ _ _ _ Hpr Hls) as (kept & more & Hk & -> & Hone).
  match type of Hone with Forall _ ?ls => assert (Hne : ls ≠ []) by (by destruct kept) end.
  destruct (write_server_conf _ _ _ _ Hne Hone Hw) as (tail & Hconf & Hcr).
  destruct (read_ranges_ok _ _ _ Hr) as (_ & _ & Hok). destruct Hpr as (Hn & _ & Hf & Hl & _).
  exists r. eexists. split; [done|]. split.
  { unfold read_config. change (config_path "server" _) with (Ok "server.conf" : result string). cbn [mbind result_bind].
    rewrite !lookup_insert_ne by done. rewrite Hconf. cbn [default]. by rewrite universal_newlines_no_cr. }
  split; [|tauto]. rewrite lines_before_app. apply vpn_subnet_new; try done.
  - eapply (kept_without "server"); [set_solver|done..].
  - eapply (kept_without "ifconfig-pool"); [set_solver|done..].
Qed.

(** A server.conf whose ranges and pushed route are replaced, and the settings that replace them. *)
Definition old_conf : string := join lf_text
  ["port 443"; " server 10.8.0.0 255.255.255.0  # old"; "management 127.0.0.1 2080"; "ifconfig-pool 10.8.0.2 10.8.0.99";
   "push " +:+ quoted "route 192.0.2.0 255.255.255.0"; "push " +:+ quoted "block-outside-dns"].
Definition new_settings : network_settings :=
  NetworkSettings (NetSettings "10.9.0.0/24" "10.9.0.10" "10.9.0.99" "10.9.0.128/25" ["192.0.2.53"]) ["198.51.100.0/24"]
    ["127.0.0.1/32"] empty_gateway.
Definition no_json (s : network_settings) : string := "{}".
Definition new_conf : string := join lf_text
  ["port 443"; "management 127.0.0.1 2080"; "push " +:+ quoted "block-outside-dns"; "server 10.9.0.0 255.255.255.0 nopool";
   "ifconfig-pool 10.9.0.10 10.9.0.99"; "push " +:+ quoted "dns server 0 address 192.0.2.53";
   "push " +:+ quoted "dhcp-option DNS 192.0.2.53"; "push " +:+ quoted "route 198.51.100.0 255.255.255.0"; ""].
Definition saved_files : files :=
  match save_settings no_json (Access ∅ ∅) true new_settings {["server.conf" := old_conf]} with Ok (_, fs) => fs | Raise _ => ∅ end.

Example saved_server_conf : saved_files !! "server.conf" = Some new_conf ∧ saved_files !! "server.conf.bak" = Some old_conf.
Proof. vm_compute. done. Qed.

Lemma saved_plan_in_force_witness :
  save_settings no_json (Access ∅ ∅) true new_settings {["server.conf" := old_conf]} = Ok (new_settings, saved_files) ∧
  ∃ r conf, validate (Access ∅ ∅) new_settings = Ok (r, new_settings) ∧ read_config "server" saved_files = Ok conf ∧
    vpn_subnet conf = Some (rg_net r, (rg_first r, rg_last r)) ∧
    net_addr (rg_net r) + 1 < rg_first r ∧ rg_first r <= rg_last r ∧ rg_last r < broadcast (rg_net r) ∧
    ¬ (rg_first r <= broadcast (rg_guest r) ∧ net_addr (rg_guest r) <= rg_last r).
Proof.
  assert (H : save_settings no_json (Access ∅ ∅) true new_settings {["server.conf" := old_conf]} = Ok (new_settings, saved_files))
    by (vm_compute; reflexivity).
  split; [exact H|].
  apply (saved_plan_in_force no_json (Access ∅ ∅) true new_settings {["server.conf" := old_conf]} new_settings saved_files); [|exact H].
  intros old Hold. vm_compute in Hold. injection Hold as <-. vm_compute. reflexivity.
Defined.

(** A server line behind a no-break space is white space and a keyword for the patterns, but not for
    [shlex]: saving keeps it in front of the new line, and the old subnet is what is read. *)
Definition no_break_conf : string := join lf_text
  ["management 127.0.0.1 2080"; String (chr 160) "server 10.8.0.0 255.255.255.0"; "ifconfig-pool 10.8.0.2 10.8.0.99"; ""].
Definition no_break_saved : files :=
  match save_settings no_json (Access ∅ ∅) true new_settings {["server.conf" := no_break_conf]} with Ok (_, fs) => fs | Raise _ => ∅ end.

Theorem no_break_space_kept :
  plain_keywords no_break_conf = false ∧
  save_settings no_json (Access ∅ ∅) true new_settings {["server.conf" := no_break_conf]} = Ok (new_settings, no_break_saved) ∧
  (conf ← of_option OSError (no_break_saved !! "server.conf"); of_option ValueError (print_network ∘ fst <$> vpn_subnet conf))
    = Ok "10.8.0.0/24".
Proof. split_and!; vm_compute; reflexivity. Qed.

(** ** Lemmas: the settings are read back *)

Lemma hex_digit_line d : 0 <= d < 16 → is_line_end (hex_char d) = false.
Proof.
  intros Hd. assert (Hall : forallb (fun i => negb (is_line_end (hex_char (Z.of_nat i)))) (seq 0 16) = true) by (vm_compute; reflexivity).
  rewrite forallb_forall in Hall. specialize (Hall (Z.to_nat d)). rewrite in_seq in Hall. specialize (Hall ltac:(lia)).
  rewrite Z2Nat.id in Hall by lia. by apply negb_true_iff in Hall.
Qed.

Lemma print_hextet_one_line n : one_line (print_hextet n) = true.
Proof.
  unfold print_hextet.
  assert (H1 := Z.mod_pos_bound (n / 4096) 16 ltac:(lia)). assert (H2 := Z.mod_pos_bound (n / 256) 16 ltac:(lia)).
  assert (H3 := Z.mod_pos_bound (n / 16) 16 ltac:(lia)). assert (H4 := Z.mod_pos_bound n 16 ltac:(lia)).
  apply hex_digit_line in H1, H2, H3, H4.
  destruct ((n / 4096) mod 16), ((n / 256) mod 16), ((n / 16) mod 16); cbn [foldr one_line str_forall];
    rewrite ?H1, ?H2, ?H3, ?H4; done.
Qed.

Lemma one_line_join sep l : one_line sep = true → Forall (fun s => one_line s = true) l → one_line (join sep l) = true.
Proof.
  intros Hsep Hl. induction Hl as [|s l Hs Hl IH]; [done|]. destruct l as [|t l]; [done|].
  change (join sep (s :: t :: l)) with (s +:+ sep +:+ join sep (t :: l)). by rewrite !one_line_app, Hs, Hsep, IH.
Qed.

Lemma compress_forall (P : string → Prop) l : P "" → Forall P l → Forall P (compress l).
Proof.
  intros H0 Hl. unfold compress. destruct (longest_run l) as [start len]. destruct (Nat.ltb _ _); [|done].
  repeat rewrite Forall_app. split_and!.
  - destruct (Nat.eqb _ _); by repeat constructor.
  - by apply Forall_take.
  - by repeat constructor.
  - by apply Forall_drop.
  - destruct (Nat.eqb _ _); by repeat constructor.
Qed.

Lemma ipv6_text_one_line n : one_line (ipv6_text n) = true.
Proof.
  apply one_line_join; [done|]. apply compress_forall; [done|]. apply Forall_fmap, Forall_true.
  intros i. apply print_hextet_one_line.
Qed.

Lemma print_ipv6_one_line n : one_line (print_ipv6 (Ipv6 n None)) = true.
Proof.
  unfold print_ipv6. cbn [v6_int v6_scope]. rewrite one_line_app. apply andb_true_iff. split; [|done].
  destruct (_ =? _); [|apply ipv6_text_one_line]. rewrite !one_line_app, ipv6_text_one_line.
  rewrite print_ip_one_line by (apply Z.mod_pos_bound; lia). done.
Qed.

(** A network without a scope is printed on one line. *)
Lemma parse_ipv6_scope s a : mem_char "%" s = false → parse_ipv6 s = Some a → v6_scope a = None.
Proof.
  intros Hs. unfold parse_ipv6, split_scope. destruct (mem_char "/" s); [done|]. rewrite partition_none by done.
  cbn [negb mbind option_bind]. destruct (ipv6_int s); [|done]. cbn [mbind option_bind]. by intros [= <-].
Qed.

Lemma prefix6_nonneg s p : prefix6 s = Some p → 0 <= p.
Proof.
  unfold prefix6. destruct (_ && _); [|done]. destruct (unsigned_int s) as [n|] eqn:E; [|done].
  apply unsigned_int_nonneg in E. destruct (_ <=? _); [|done]. by intros [= <-].
Qed.

Lemma split_mem c d s w : mem_char d s = false → w ∈ split c s → mem_char d w = false.
Proof.
  revert w. induction s as [|x s IH]; intros w Hs; cbn [split]; [by intros ->%list_elem_of_singleton|].
  unfold mem_char, str_exists in Hs. cbn [str_forall] in Hs. apply negb_false_iff, andb_true_iff in Hs as [Hx Hs].
  assert (Hs' : mem_char d s = false) by (unfold mem_char, str_exists; by rewrite Hs).
  destruct (Ascii.eqb c x).
  - intros [->|Hw]%elem_of_cons; [done|by apply IH].
  - destruct (split c s) as [|v vs] eqn:E; [by apply split_not_nil in E|]. intros [->|Hw]%elem_of_cons.
    + specialize (IH v Hs' ltac:(left)). unfold mem_char, str_exists in *. cbn [str_forall]. rewrite Hx. exact IH.
    + apply IH; [done|by right].
Qed.

Lemma strip_forall p s : str_forall p s = true → str_forall p (strip s) = true.
Proof.
  assert (Hl : ∀ q t, str_forall p t = true → str_forall p (lstrip_by q t) = true).
  { intros q t. induction t as [|c t IH]; [done|]. cbn [lstrip_by]. destruct (q c); [|done].
    cbn [str_forall]. intros [_ Ht]%andb_true_iff. by apply IH. }
  assert (Hr : ∀ q t, str_forall p t = true → str_forall p (rstrip_by q t) = true).
  { intros q t. induction t as [|c t IH]; [done|]. cbn [str_forall]. intros [Hc Ht]%andb_true_iff. specialize (IH Ht).
    cbn [rstrip_by]. destruct (rstrip_by q t) as [|d u]; [|cbn [str_forall] in *; by rewrite Hc].
    destruct (q c); [done|]. cbn [str_forall]. by rewrite Hc. }
  intros Hs. unfold strip, strip_by. auto.
Qed.

Lemma ip_network_one_line v n : mem_char "%" v = false → ip_network true (strip v) = Some n → one_line (print_any_network n) = true.
Proof.
  intros Hv. assert (Hs : mem_char "%" (strip v) = false).
  { unfold mem_char, str_exists in *. apply negb_false_iff. apply negb_false_iff in Hv. by apply strip_forall. }
  unfold ip_network. destruct (parse_network true (strip v)) as [m|] eqn:E.
  { intros [= <-]. apply print_network_one_line. by eapply parse_network_ok. }
  destruct (parse_network6 true (strip v)) as [[a p]|] eqn:E6; [|done]. cbn [mbind option_bind]. intros [= <-].
  assert (Ha : v6_scope a = None ∧ 0 <= p).
  { unfold parse_network6 in E6. pose proof (λ w, split_mem "/" "%" (strip v) w Hs) as Hw.
    destruct (split "/" (strip v)) as [|x [|y [|]]]; try done.
    - destruct (parse_ipv6 x) as [b|] eqn:Eb; [|done]. cbn [mbind option_bind] in E6. destruct (_ =? 0); [|done].
      injection E6 as <- <-. split; [|lia]. eapply parse_ipv6_scope; [|done]. apply Hw. left.
    - destruct (parse_ipv6 x) as [b|] eqn:Eb; [|done]. cbn [mbind option_bind] in E6.
      destruct (prefix6 y) as [q|] eqn:Eq; [|done]. cbn [mbind option_bind] in E6. destruct (_ =? 0); [|done].
      injection E6 as <- <-. apply prefix6_nonneg in Eq. split; [|lia]. eapply parse_ipv6_scope; [|done]. apply Hw. left. }
  destruct Ha as [Hsc Hp], a as [n sc]. cbn [v6_scope] in Hsc. subst sc. cbn [print_any_network].
  rewrite !one_line_app, print_ipv6_one_line, nat_str_one_line by done. done.
Qed.

Lemma cidrs_one_line ipv4 l l' : Forall (fun v => mem_char "%" v = false) l → cidrs ipv4 l = Ok l' →
  Forall (fun v => one_line v = true) l'.
Proof.
  intros Hl. unfold cidrs. destruct (all_some _) as [ns|] eqn:E; [|done]. destruct (existsb _ _); [done|].
  intros <-%Ok_inj. apply dedupe_forall, Forall_fmap. revert ns E.
  induction Hl as [|v l Hv _ IH]; intros ns; cbn [fmap list_fmap all_some]; [intros [= <-]; constructor|].
  destruct (ip_network true (strip v)) as [n|] eqn:En; [|done]. destruct (all_some _) as [ms|]; [|done].
  cbn [mbind option_bind]. intros [= <-]. constructor; [by eapply ip_network_one_line|by apply IH].
Qed.

Lemma listener_one_line v l : checked portal_listener v = Ok l → one_line l = true.
Proof.
  unfold checked. destruct (empty v) eqn:Ev; [apply String.eqb_eq in Ev as ->; by intros <-%Ok_inj|].
  unfold portal_listener. destruct (rpartition ":" v) as [[host sep] port].
  destruct (parse_ip host) as [ip|] eqn:E; [|done]. apply parse_ip_canonical in E as [_ Hip].
  destruct (if isdigit port then _ else _) as [n|]; [|done]. destruct (_ && _) eqn:Hok; [|done].
  intros <-%Ok_inj. bool_to_prop. rewrite !one_line_app, print_ip_one_line by done.
  unfold str_of_int. destruct (Z.ltb_spec n 0); [lia|]. rewrite nat_str_one_line by lia. done.
Qed.

Lemma validated_listener g g' : validate_gateway g = Ok g' →
  checked portal_listener (gw_portal_listener g) = Ok (gw_portal_listener g').
Proof. unfold validate_gateway. intros H. inv_result. done. Qed.

(** The fields of settings.conf, each on its own line. *)
Definition field_lines (s : network_settings) (json : string) : list string :=
  (fun f => f.1 +:+ "=" +:+ f.2) <$> fields s json.

Lemma file_text_lines fs : file_text fs = lines_before ((fun f => f.1 +:+ "=" +:+ f.2) <$> fs) "".
Proof.
  unfold file_text, lines_before. induction fs as [|f l IH]; [done|]. cbn [foldr fmap list_fmap].
  rewrite IH. unfold field_text. rewrite !str_app_assoc. done.
Qed.

Lemma splitlines_lines ls : Forall (fun l => one_line l = true) ls → splitlines (lines_before ls "") = ls.
Proof.
  induction 1 as [|l ls Hl _ IH]; [done|].
  change (lines_before (l :: ls) "") with (l +:+ String lf (lines_before ls "")). by rewrite splitlines_line, IH.
Qed.

Lemma field_lines_one_line s json : Forall (fun f => one_line f.2 = true) (fields s json) →
  Forall (fun l => one_line l = true) (field_lines s json).
Proof.
  intros Hf. unfold field_lines, fields in *. apply Forall_fmap. repeat rewrite Forall_cons in *.
  destruct Hf as (H1 & H2 & H3 & H4 & H5 & _). cbn [compose fst snd] in *. rewrite !one_line_app, H1, H2, H3, H4, H5. done.
Qed.

(** C25. Saved settings are read back: when no proxy address has a scope, settings.conf is one line
    per field, and [read_network] gives exactly the JSON text that was written ([json.dumps] writes
    no line end). *)
Theorem saved_settings_read_back dumps a io_ok body fs data fs' :
  Forall (fun v => mem_char "%" v = false) (nw_proxy_cidrs body) →
  one_line (dumps data) = true →
  save_settings dumps a io_ok body fs = Ok (data, fs') →
  read_network fs' = Ok (Some (dumps data)) ∧
  ∃ text, fs' !! network_file = Some text ∧ splitlines text = field_lines data (dumps data).
Proof.
  intros Hscope Hjson. unfold save_settings. destruct (validate a body) as [[r data']|] eqn:Hv; [|done].
  cbn [mbind result_bind]. destruct (universal_newlines <$> _) as [old|]; [|done]. cbn [of_option mbind result_bind].
  destruct (server_conf_lines data' old) as [lines|]; [|done]. cbn [mbind result_bind].
  destruct (write_config _ _ _ _) as [fs1|]; [|done]. cbn [mbind result_bind]. intros [-> <-]%Ok_inj%pair_equal_spec.
  destruct (validate_ranges_of _ _ _ _ Hv) as (Hr & _ & Hc & Hg). apply read_ranges_printed in Hr as (Hn & Hgn & _ & _ & Es & Eg & _).
  assert (Hf : Forall (fun f => one_line f.2 = true) (fields data (dumps data))).
  { unfold fields. repeat (apply Forall_cons; split); [| | | |done|constructor]; cbn [snd].
    - rewrite Es. by apply print_network_one_line.
    - rewrite Eg. by apply print_network_one_line.
    - apply one_line_join; [done|]. by eapply cidrs_one_line.
    - apply validated_listener in Hg. by eapply listener_one_line. }
  apply field_lines_one_line in Hf. pose proof (splitlines_lines _ Hf) as Hs.
  pose proof (file_text_lines (fields data (dumps data))) as Ht. fold (field_lines data (dumps data)) in Ht.
  rewrite <-Ht in Hs. split.
  - unfold read_network. rewrite lookup_insert_ne, lookup_insert_eq by done.
    rewrite universal_newlines_no_cr by (rewrite Ht; by apply lines_before_no_cr).
    rewrite Hs. reflexivity.
  - exists (file_text (fields data (dumps data))). rewrite lookup_insert_ne, lookup_insert_eq by done. done.
Qed.

Lemma saved_settings_read_back_witness :
  read_network saved_files = Ok (Some "{}") ∧
  ∃ text, saved_files !! network_file = Some text ∧ splitlines text = field_lines new_settings "{}".
Proof.
  apply (saved_settings_read_back no_json (Access ∅ ∅) true new_settings {["server.conf" := old_conf]} new_settings saved_files).
  - repeat constructor.
  - reflexivity.
  - vm_compute. reflexivity.
Defined.

(** With a scope the same file has more lines than fields: a proxy address whose scope holds a line
    feed is accepted, and puts a second GUEST_SUB into settings.conf, behind the validated one. *)
Definition scoped_settings : network_settings :=
  NetworkSettings (nw_addressing new_settings) [] ["fe80::%x" +:+ lf_text +:+ "GUEST_SUB=10.9.0.0"] empty_gateway.

Definition guest_lines (saved : result (network_settings * files)) : option (string * list string) :=
  match saved with
  | Ok (data, fs) =>
      text ← fs !! network_file;
      Some (ns_guest_subnet (nw_addressing data), List.filter (startswith "GUEST_SUB=") (splitlines text))
  | Raise _ => None
  end.

Theorem scope_adds_a_field :
  guest_lines (save_settings no_json (Access ∅ ∅) true scoped_settings {["server.conf" := old_conf]})
    = Some ("10.9.0.128/25", ["GUEST_SUB=10.9.0.128/25"; "GUEST_SUB=10.9.0.0/128"]).
Proof. vm_compute. reflexivity. Qed.
