(* ===== verification/Plist.v ===== *)
(** * Python's [plistlib]: the property list values and [dumps]

    [plistlib.dumps(value, sort_keys=False)] in the XML format, as the bytes of its UTF-8
    text; [loads] (an expat parser) is an argument where it is used. *)

From S2P Require Import Prelude PyStr Base64 Regex ConfigEdit.

Open Scope string_scope.
Open Scope list_scope.
Open Scope Z_scope.

(** A value of a property list; a real and a date are their text, a dict its items in order. *)
Inductive plist :=
| PString (s : string)
| PInteger (n : Z)
| PBool (b : bool)
| PReal (text : string)
| PDate (text : string)
| PData (bytes : string)
| PArray (items : list plist)
| PDict (items : list (string * plist)).

(** ** Text *)

(** [_controlCharPat]. *)
Definition control_char (c : ascii) : bool := (code c <? 32) && negb (one_of (String tab (String lf (String cr ""))) c).

Definition escape_char (c : ascii) : string :=
  if Ascii.eqb c "&" then "&amp;" else if Ascii.eqb c "<" then "&lt;" else if Ascii.eqb c ">" then "&gt;" else String c "".
Fixpoint escape_text (s : string) : string :=
  match s with EmptyString => "" | String c s => escape_char c +:+ escape_text s end.
(** [_escape]: control characters are a ValueError. *)
Definition escape (s : string) : result string :=
  _ ← raise_if (str_exists control_char s) ValueError; Ok (escape_text (universal_newlines s)).

Fixpoint tabs (n : nat) : string := match n with O => "" | S n => String tab (tabs n) end.
Definition writeln (level : nat) (line : string) : string := tabs level +:+ line +:+ String lf "".
Definition open_tag (e : string) : string := "<" +:+ e +:+ ">".
Definition close_tag (e : string) : string := "</" +:+ e +:+ ">".
Definition simple_element (level : nat) (e value : string) : result string :=
  text ← escape value; Ok (writeln level (open_tag e +:+ utf8 text +:+ close_tag e)).

(** [_encode_base64]: the encoded chunks of [n] bytes, a line each. *)
Fixpoint base64_lines (fuel n : nat) (s : string) : list string :=
  match fuel with
  | O => []
  | S fuel => if empty s then [] else b64encode (str_take n s) :: base64_lines fuel n (str_drop n s)
  end.
Definition max_bin_size (level : nat) : nat := Nat.mul (Nat.div (Nat.max 16 (76 - 8 * level)) 4) 3.

(** ** Values *)

Fixpoint write_value (level : nat) (v : plist) {struct v} : result string :=
  match v with
  | PString s => simple_element level "string" s
  | PBool b => Ok (writeln level (if b then "<true/>" else "<false/>"))
  | PInteger n =>
      if (- 2 ^ 63 <=? n) && (n <? 2 ^ 64) then simple_element level "integer" (str_of_int n) else Raise OverflowError
  | PReal text => simple_element level "real" text
  | PDate text => simple_element level "date" text
  | PData bytes =>
      Ok (writeln level "<data>"
          +:+ foldr (fun l s => writeln level l +:+ s) "" (base64_lines (String.length bytes) (max_bin_size level) bytes)
          +:+ writeln level "</data>")
  | PArray [] => Ok (writeln level "<array/>")
  | PArray items =>
      body ← (fix go (l : list plist) : result string :=
        match l with [] => Ok "" | x :: l => a ← write_value (S level) x; b ← go l; Ok (a +:+ b) end) items;
      Ok (writeln level "<array>" +:+ body +:+ writeln level "</array>")
  | PDict [] => Ok (writeln level "<dict/>")
  | PDict items =>
      body ← (fix go (l : list (string * plist)) : result string :=
        match l with
        | [] => Ok ""
        | (k, x) :: l =>
            key ← simple_element (S level) "key" k; a ← write_value (S level) x; b ← go l; Ok (key +:+ a +:+ b)
        end) items;
      Ok (writeln level "<dict>" +:+ body +:+ writeln level "</dict>")
  end.

Definition attribute (s : string) : string := String dquote s +:+ String dquote "".
Definition PLISTHEADER : string :=
  "<?xml version=" +:+ attribute "1.0" +:+ " encoding=" +:+ attribute "UTF-8" +:+ "?>" +:+ lf_text
  +:+ "<!DOCTYPE plist PUBLIC " +:+ attribute "-//Apple//DTD PLIST 1.0//EN" +:+ " "
  +:+ attribute "http://www.apple.com/DTDs/PropertyList-1.0.dtd" +:+ ">" +:+ lf_text.
Definition dumps (v : plist) : result string :=
  body ← write_value 0 v;
  Ok (PLISTHEADER +:+ writeln 0 ("<plist version=" +:+ attribute "1.0" +:+ ">") +:+ body +:+ writeln 0 "</plist>").

(** ** Reading a value *)

(** [d.get(k)]: only a dict has it. *)
Definition get (v : plist) (k : string) : result (option plist) :=
  match v with
  | PDict items => Ok (snd <$> find (fun p => String.eqb p.1 k) items)
  | _ => Raise AttributeError
  end.

(** [len(v)]. *)
Definition py_len (v : plist) : result nat :=
  match v with
  | PString s | PData s => Ok (String.length s)
  | PArray l => Ok (length l)
  | PDict d => Ok (length d)
  | _ => Raise TypeError
  end.

(** [v[0]]. *)
Definition first_item (v : plist) : result plist :=
  match v with
  | PString (String c _) => Ok (PString (String c ""))
  | PData (String c _) => Ok (PInteger (code c))
  | PArray (x :: _) => Ok x
  | PDict _ => Raise KeyError
  | PString EmptyString | PData EmptyString | PArray [] => Raise IndexError
  | _ => Raise TypeError
  end.

(** [v == s] for a text. *)
Definition is_text (v : option plist) (s : string) : bool :=
  match v with Some (PString t) => String.eqb t s | _ => false end.

(** [v.startswith(s)]; bytes do not take a text. *)
Definition text_startswith (v : plist) (s : string) : result bool :=
  match v with
  | PString t => Ok (startswith s t)
  | PData _ => Raise TypeError
  | _ => Raise AttributeError
  end.

(** ** Examples *)

Example dumps_example :
  (n ← dumps (PDict [("A", PString ("x" +:+ String (chr 183) "<&>")); ("B", PArray []); ("D", PArray [PDict [("k", PInteger 1); ("t", PBool true)]]);
                     ("E", PData "abcabc")]);
   Ok (drop 3 (splitlines n)))
  = Ok ["<dict>"; String tab "<key>A</key>";
        String tab ("<string>x" +:+ String (chr 194) (String (chr 183) "&lt;&amp;&gt;</string>"));
        String tab "<key>B</key>"; String tab "<array/>"; String tab "<key>D</key>"; String tab "<array>";
        tabs 2 +:+ "<dict>"; tabs 3 +:+ "<key>k</key>"; tabs 3 +:+ "<integer>1</integer>"; tabs 3 +:+ "<key>t</key>";
        tabs 3 +:+ "<true/>"; tabs 2 +:+ "</dict>"; String tab "</array>"; String tab "<key>E</key>"; String tab "<data>";
        String tab "YWJjYWJj"; String tab "</data>"; "</dict>"; "</plist>"].
Proof. vm_compute. reflexivity. Qed.
