(* ===== verification/Signing.v ===== *)
(** * Profile signing: [ui/app/relay_services.py], [signer/service.py] and the profile of
    [ui/app/relay.py]

    The UI asks a signer on another host for the CMS signature of a relay profile.  The
    signer's handler ([dispatch]) and the UI's client ([signing_request], [sign_profile]) are
    modelled on both sides of the connection.  OpenSSL, the HTTP transport, [json] and the
    expat parser of [plistlib] are arguments.  Clocks are in milliseconds. *)

From S2P Require Import Prelude PyStr Base64 Regex ConfigEdit Mgmt Addressing Relay Url Gateway Plist.

Open Scope string_scope.
Open Scope list_scope.
Open Scope Z_scope.

(** ** The signer *)

Definition MAX_PROFILE : Z := 128 * 1024.

Record signer := SignerOf { sg_hostname : string; sg_relay_url : string; sg_token : string }.

(** [Signer.__init__]. *)
Definition Signer (hostname relay_url token : string) : result signer :=
  _ ← raise_if (strlen token <? 32) ValueError; Ok (SignerOf hostname (rstrip_char "/"%char relay_url) token).

(** [Signer.sign] up to the signature: what is signed at all. *)
Definition url_keys : list string := ["HTTP2RelayURL"; "HTTP3RelayURL"].
Definition relay_path : string := "/.well-known/masque/udp/{target_host}/{target_port}/".
Definition check_profile (relay_url : string) (profile : plist) : result unit :=
  payloads ← get profile "PayloadContent";
  let payloads := default (PArray []) payloads in
  kind ← get profile "PayloadType";
  n ← (if is_text kind "Configuration" then py_len payloads else Ok 1%nat);
  _ ← raise_if (negb (is_text kind "Configuration") || negb (Nat.eqb n 1)) ValueError;
  payload ← first_item payloads;
  kind ← get payload "PayloadType";
  own ← (if is_text kind "com.apple.relay.managed" then
           identifier ← get profile "PayloadIdentifier";
           text_startswith (default (PString "") identifier) "org.openvpn.apple-relay."
         else Ok false);
  _ ← raise_if (negb own) ValueError;
  relays ← get payload "Relays";
  let relays := default (PArray []) relays in
  n ← py_len relays;
  _ ← raise_if (negb (Nat.eqb n 1)) ValueError;
  relay ← first_item relays;
  items ← match relay with PDict items => Ok items | _ => Raise AttributeError end;
  let urls := snd <$> List.filter (fun p => existsb (String.eqb p.1) url_keys) items in
  raise_if (bool_decide (urls = []) || existsb (fun u => negb (is_text (Some u) (relay_url +:+ relay_path))) urls) ValueError.

(** *** The identity *)

(** An entry of the ACME store, and the file's [stat]. *)
Record acme_entry := AcmeEntry { ae_main : string; ae_sans : list string; ae_certificate : option string; ae_key : option string }.
Record acme_stat := AcmeStat { as_inode : Z; as_mtime : Z; as_size : Z }.
Record metadata := Metadata { md_subject : string; md_expires_at : Z; md_fingerprint : string }.
Record identity := Identity { id_certs : list string; id_key : string; id_metadata : metadata }.
#[export] Instance acme_stat_eq_dec : EqDecision acme_stat.
Proof. solve_decision. Defined.

(** [self.cached]. *)
Record cache := Cached { ca_signature : acme_stat; ca_until : Z; ca_identity : identity }.

Definition covers (hostname name : string) : bool :=
  String.eqb name hostname || (startswith "*." name && String.eqb (partition "."%char hostname).2 (str_drop 2 name)).

(** [b64decode(s, validate=True)]: the alphabet, and then the padding it needs. *)
Definition b64decode_strict (s : string) : option string :=
  let body := rstrip_char "="%char s in
  let pads := strlen s - strlen body in
  if str_forall (fun c => is_alnum_az c || one_of "+/" c) body && (pads <=? 2) && (strlen s mod 4 =? 0)
  then b64decode s else None.

(** The first occurrence of a text: what is before it and what follows it. *)
Fixpoint str_find (needle s : string) : option (string * string) :=
  if startswith needle s then Some ("", str_drop (String.length needle) s)
  else match s with
       | EmptyString => None
       | String c s => '(a, b) ← str_find needle s; Some (String c a, b)
       end.
Definition begin_cert : string := "-----BEGIN CERTIFICATE-----".
Definition end_cert : string := "-----END CERTIFICATE-----".
(** [re.findall] of the certificates: from a begin to the next end. *)
Fixpoint pem_blocks (fuel : nat) (s : string) : list string :=
  match fuel with
  | O => []
  | S fuel =>
      match str_find begin_cert s with
      | None => []
      | Some (_, rest) =>
          match str_find end_cert rest with
          | None => []
          | Some (body, rest) => (begin_cert +:+ body +:+ end_cert) :: pem_blocks fuel rest
          end
      end
  end.

Definition caught_entry (e : exn) : bool :=
  match e with KeyError | ValueError | SSLError | SubprocessError => true | _ => false end.

Section identity.
(** What OpenSSL says: that key and leaf belong together, that the chain verifies for the
    host name, and the description of the leaf. *)
Context (load_cert_chain : string → string → result unit) (verify : string → list string → string → result unit)
        (describe : string → result metadata).

(** The body of the [try] for an entry; [None] skips it. *)
Definition examine_entry (hostname : string) (e : acme_entry) : result (option identity) :=
  certificate ← of_option KeyError (ae_certificate e);
  fullchain ← of_option ValueError (b64decode_strict certificate);
  key ← of_option KeyError (ae_key e);
  key ← of_option ValueError (b64decode_strict key);
  match pem_blocks (String.length fullchain) fullchain with
  | [] => Ok None
  | leaf :: chain =>
      _ ← load_cert_chain leaf key;
      _ ← verify hostname chain leaf;
      info ← describe leaf;
      Ok (Some (Identity (leaf :: chain) key info))
  end.
Definition examine (hostname : string) (e : acme_entry) : result (option identity) :=
  match examine_entry hostname e with
  | Raise x => if caught_entry x then Ok None else Raise x
  | r => r
  end.

(** The candidates of the store; a resolver that is no dict is [None]. *)
Definition candidates (hostname : string) (store : list (option (list acme_entry))) : result (list identity) :=
  let entries : list acme_entry := mjoin (map (default []) store) in
  found ← map_result (examine hostname) (List.filter (fun e => existsb (covers hostname) (ae_main e :: ae_sans e)) entries);
  Ok (omap (M:=list) id (found : list (option identity))).

(** [max(candidates, key=...)]: the first with the latest end. *)
Fixpoint latest (best : identity) (l : list identity) : identity :=
  match l with
  | [] => best
  | x :: l => latest (if md_expires_at (id_metadata best) <? md_expires_at (id_metadata x) then x else best) l
  end.

(** [Signer.identity]: the identity and the cache. [stat] and [read] are the ACME file. *)
Definition get_identity (sg : signer) (stat : result acme_stat) (read : result (list (option (list acme_entry))))
    (monotonic now : Z) (cached : option cache) : result identity * option cache :=
  match stat with
  | Raise e => (Raise e, cached)
  | Ok signature =>
      let fresh := match cached with
                   | Some c => bool_decide (ca_signature c = signature) && (monotonic <? ca_until c)
                               && (now <? md_expires_at (id_metadata (ca_identity c)) * 1000)
                   | None => false
                   end in
      match cached, fresh with
      | Some c, true => (Ok (ca_identity c), cached)
      | _, _ =>
          match (store ← read; candidates (sg_hostname sg) store) with
          | Raise e => (Raise e, cached)
          | Ok [] => (Raise ValueError, cached)
          | Ok (x :: l) => let i := latest x l in (Ok i, Some (Cached signature (monotonic + 60000) i))
          end
      end
  end.
End identity.

(** *** The handler *)

Record sign_request := SignRequest {
  rq_path : string;
  rq_authorization : string;               (* the empty text when the header is missing *)
  rq_length : option string;               (* Content-Length *)
  rq_chunked : option string;              (* Transfer-Encoding *)
  rq_body : result string;                 (* the bytes that arrive, or the error of reading them *)
}.
Record response := Response { rs_status : Z; rs_body : string; rs_type : string }.
Definition json_type : string := "application/json".
Definition profile_type : string := "application/x-apple-aspen-config".
Definition SIGN_SLOTS : nat := 4.
Definition json_error (message : string) : string :=
  "{" +:+ attribute "error" +:+ ":" +:+ attribute message +:+ "}".

Definition unprocessable (e : exn) : bool :=
  match e with ValueError | TypeError | KeyError | AttributeError => true | _ => false end.
Definition unavailable (e : exn) : bool :=
  match e with OSError | SSLError | SubprocessError => true | _ => false end.

Section handler.
(** [plistlib.loads], [openssl cms -sign] with an identity, and [json.dumps] of the metadata. *)
Context (loads : string → result plist) (cms : identity → string → result string) (ready_json : metadata → string).

(** [Signer.sign], for what [identity()] returns. *)
Definition sign (sg : signer) (get_id : result identity) (content : string) : result string :=
  _ ← raise_if (MAX_PROFILE <? strlen content) ValueError;
  profile ← loads content;
  canonical ← dumps profile;
  _ ← raise_if (negb (String.eqb canonical content)) ValueError;
  _ ← check_profile (sg_relay_url sg) profile;
  id ← get_id;
  cms id content.

(** The body of the [try]. *)
Definition sign_body (sg : signer) (get_id : result identity) (signing : bool) (rq : sign_request) : result response :=
  if signing then
    length ← of_option ValueError (py_int (default "0" (rq_length rq)));
    if negb ((0 <? length) && (length <=? MAX_PROFILE)) || truthy (rq_chunked rq)
    then Ok (Response 400 (json_error "Invalid profile length") json_type)
    else
      content ← (str_take (Z.to_nat length) <$> rq_body rq);
      if negb (strlen content =? length) then Ok (Response 400 (json_error "Incomplete profile") json_type)
      else signed ← sign sg get_id content; Ok (Response 200 signed profile_type)
  else i ← get_id; Ok (Response 200 (ready_json (id_metadata i)) json_type).

Definition answer_of (r : result response) : result response :=
  match r with
  | Raise e =>
      if unprocessable e then Ok (Response 422 (json_error "Profile or signing identity is invalid") json_type)
      else if unavailable e then Ok (Response 503 (json_error "Profile signer is unavailable") json_type)
      else Raise e
  | r => r
  end.

(** [dispatch] when writing a response works; [used] of the slots are taken. An exception that
    leaves it closes the connection without a response. *)
Definition dispatch (sg : signer) (get_id : result identity) (used : nat) (signing : bool) (rq : sign_request) : result response :=
  if negb (String.eqb (rq_path rq) "/internal/relay-sign") then Ok (Response 404 "{}" json_type)
  else if negb (String.eqb (rq_authorization rq) ("Bearer " +:+ sg_token sg))
  then Ok (Response 403 (json_error "Signing access denied") json_type)
  else if Nat.leb SIGN_SLOTS used then Ok (Response 503 (json_error "Signer is busy; retry shortly") json_type)
  else answer_of (sign_body sg get_id signing rq).
End handler.

(** *** Connections and slots *)

(** What a connection's thread is at: before the slot, in the body of the [try], done. *)
Inductive sign_phase := Accepted | Inside | Answered.
Record sign_server := SignServer { ss_connections : nat; ss_slots : nat; ss_threads : gmap nat sign_phase }.
Definition CONNECTIONS : nat := 16.
Definition empty_server : sign_server := SignServer 0 0 ∅.

(** The steps of the threads: [process_request] takes a connection or shuts the request down,
    the handler answers without a slot or takes one, its [finally] gives it back, and so does
    [process_request_thread] with the connection. *)
Inductive sign_step : sign_server → sign_server → Prop :=
| step_accept s t : (ss_connections s < CONNECTIONS)%nat → ss_threads s !! t = None →
    sign_step s (SignServer (S (ss_connections s)) (ss_slots s) (<[t := Accepted]> (ss_threads s)))
| step_shut s : (CONNECTIONS <= ss_connections s)%nat → sign_step s s
| step_spawn_failed s : (ss_connections s < CONNECTIONS)%nat → sign_step s s
| step_refuse s t : ss_threads s !! t = Some Accepted →
    sign_step s (SignServer (ss_connections s) (ss_slots s) (<[t := Answered]> (ss_threads s)))
| step_enter s t : ss_threads s !! t = Some Accepted → (ss_slots s < SIGN_SLOTS)%nat →
    sign_step s (SignServer (ss_connections s) (S (ss_slots s)) (<[t := Inside]> (ss_threads s)))
| step_leave s t : ss_threads s !! t = Some Inside →
    sign_step s (SignServer (ss_connections s) (pred (ss_slots s)) (<[t := Answered]> (ss_threads s)))
| step_close s t : ss_threads s !! t = Some Answered →
    sign_step s (SignServer (pred (ss_connections s)) (ss_slots s) (delete t (ss_threads s))).

Inductive sign_reachable : sign_server → Prop :=
| sign_start : sign_reachable empty_server
| sign_next s s' : sign_reachable s → sign_step s s' → sign_reachable s'.

(** ** The client *)

(** The setting relay_signing, or the environment. *)
Record signing := Signing { sc_url : string; sc_token : string; sc_required : bool; sc_source : string }.
Record saved_signing := SavedSigning { sv_url : option string; sv_token : option string; sv_required : option bool }.
Record signing_body := SigningBody { sb_url : string; sb_token : option string; sb_required : bool; sb_use_environment : bool }.

Section client.
(** The environment, and [json] for the setting. An empty object counts as not saved. *)
Context (env : signing) (json_of : saved_signing → string) (json_loads : string → result saved_signing).

Definition nothing_saved : saved_signing := SavedSigning None None None.
Definition signing_config (setting : option string) : result signing :=
  saved ← match setting with Some text => json_loads text | None => Ok nothing_saved end;
  let given := match saved with SavedSigning None None None => false | _ => true end in
  Ok (Signing (default (sc_url env) (sv_url saved)) (default (sc_token env) (sv_token saved))
        (default (sc_required env) (sv_required saved)) (if given then "ui" else "environment")).

Definition backslash_char : ascii := "\"%char.
Definition validate_signer_url (url : string) : result unit :=
  let invalid := PkiError "Signing URL must be a valid HTTPS URL" in
  u ← of_option invalid (urlsplit url);
  port ← match url_port u with Ok p => Ok p | Raise _ => Raise invalid end;
  raise_if (negb (String.eqb (u_scheme u) "https") || negb (given (url_hostname u)) || bool_decide (username u ≠ None)
            || bool_decide (password u ≠ None) || negb (empty (u_query u)) || negb (empty (u_fragment u))
            || bool_decide (port = Some 0) || negb (String.eqb (u_path u) "/internal/relay-sign")
            || str_exists is_space url || mem_char backslash_char url)
    (PkiError "Signing URL must be HTTPS and end in /internal/relay-sign").

Definition token_ok (token : string) : bool :=
  (32 <=? strlen token) && (strlen token <=? 512) && negb (str_exists (fun c => (code c <? 33) || (126 <? code c)) token).

(** [save_signing] up to the status it returns: the new value of the setting. *)
Definition save_signing (body : signing_body) (setting : option string) : result (option string) :=
  if sb_use_environment body then Ok None
  else
    current ← signing_config setting;
    let url := strip (sb_url body) in
    _ ← (if empty url then Ok tt else validate_signer_url url);
    let token := match sb_token body with None => sc_token current | Some t => strip t end in
    _ ← raise_if (negb (empty token) && negb (token_ok token))
          (PkiError "Use the shared signing token from Traefik (32–512 printable characters)");
    Ok (Some (json_of (SavedSigning (Some url) (Some token) (Some (sb_required body))))).

(** What opening a request gives: the body, the error status of a response, or an exception. *)
Inductive reply := Body (body : string) | HTTPError (status : Z) | Failed (e : exn).

(** The opener, for the URL, the Authorization header and the content (a POST) or none (a GET);
    [verify] is [openssl cms -verify] for a host name. *)
Context (opener : string → string → option string → reply) (verify : string → string → result string).

Definition reason (status : Z) : string :=
  if status =? 403 then "check the shared token and allowed source IP"
  else if status =? 404 then "the Traefik signing route was not found"
  else if status =? 422 then "check the signing certificate and ACME store on the Pi"
  else if status =? 503 then "the signer is temporarily unavailable"
  else "check the signer service".

Definition MAX_REPLY : Z := 256 * 1024.
Definition signing_request (content : option string) (config : signing) : result string :=
  _ ← validate_signer_url (sc_url config);
  _ ← raise_if (negb (token_ok (sc_token config)))
        (PkiError "Configure the valid shared profile signing token on both hosts");
  match opener (sc_url config) ("Bearer " +:+ sc_token config) content with
  | Body body => if MAX_REPLY <? strlen body then Raise (PkiError "Profile signer returned an oversized response") else Ok body
  | HTTPError status => Raise (PkiError ("Cannot reach the profile signer: " +:+ reason status))
  | Failed e =>
      match e with
      | OSError | SSLError => Raise (PkiError "Cannot reach the profile signer; check its certificate, token and Traefik route")
      | _ => Raise e
      end
  end.

(** [str(exc)] of an own error. *)
Definition message (e : exn) : string :=
  match e with PkiError m | SigningUnavailable m => m | _ => "" end.

(** [sign_profile], for the setting relay_signing. *)
Definition sign_profile (content hostname : string) (setting : option string) : result string :=
  config ← signing_config setting;
  if empty (sc_url config) then
    if sc_required config
    then Raise (SigningUnavailable ("Signed relay downloads require setup in Relay → Profile signing. "
                                    +:+ "Configure the HTTPS signer URL and shared Traefik token."))
    else Ok content
  else
    signed ← match signing_request (Some content) config with
             | Raise e => if is_pki_error e then Raise (SigningUnavailable (message e)) else Raise e
             | r => r
             end;
    verified ← match verify hostname signed with
               | Raise e =>
                   if unavailable e
                   then Raise (SigningUnavailable "Profile signature could not be verified; no unsigned profile was returned")
                   else Raise e
               | r => r
               end;
    if String.eqb verified content then Ok signed
    else Raise (SigningUnavailable "Profile signer changed the profile contents").

(** [signing_status]: whether the signer is ready, with its metadata or a message;
    [metadata_of] reads the JSON of the reply. *)
Definition signing_status (metadata_of : string → result (bool * metadata)) (setting : option string)
    : result (signing * (bool * option metadata * string)) :=
  config ← signing_config setting;
  if empty (sc_url config) then
    Ok (config, (false, None, if sc_required config
      then "Set the signer URL and shared Traefik token; signed downloads are blocked until setup is complete"
      else "Unsigned downloads explicitly allowed"))
  else
    match (reply ← signing_request None config; metadata_of reply) with
    | Ok (ready, info) => Ok (config, (ready, Some info, ""))
    | Raise e =>
        if is_pki_error e then Ok (config, (false, None, message e))
        else match e with
             | ValueError | KeyError | TypeError => Ok (config, (false, None, "Invalid signer status"))
             | _ => Raise e
             end
    end.
End client.

(** ** The relay settings and the profile *)

Record relay_body := RelayBody { rb_enabled : bool; rb_url : string }.

(** [validate_settings]. *)
Definition validate_settings (body : relay_body) : result relay_body :=
  url ← (if empty (strip (rb_url body)) then Ok "" else validate_url (rb_url body));
  _ ← raise_if (rb_enabled body && empty url) (PkiError "Enabling Apple relay profiles requires the relay's public HTTPS URL");
  Ok (RelayBody (rb_enabled body) url).

(** [save_settings], on the relay's part of the database. *)
Definition save_relay_settings (body : relay_body) (d : relay_db) : result relay_db :=
  config ← validate_settings body;
  Ok (RelayDb (RelayConfig (rb_enabled config) (rb_url config) (rc_transport (rd_config d))) (rd_instance d) (rd_grants d)).

Section profile.
(** The hexadecimal SHA-256 digest, and [str(uuid.uuid5(NAMESPACE_URL, ...)).upper()]. *)
Context (sha uuid5 : string → string).

Definition payload (identifier kind suffix title : string) : list (string * plist) :=
  [("PayloadType", PString kind); ("PayloadVersion", PInteger 1); ("PayloadIdentifier", PString (identifier +:+ suffix));
   ("PayloadUUID", PString (uuid5 (identifier +:+ suffix))); ("PayloadDisplayName", PString title)].

Definition middle_dot : string := String " " (String (chr 183) " ").
Definition relay_payload (config : relay_config) (identifier title token : string) : list (string * plist) :=
  payload identifier "com.apple.relay.managed" ".relay" title
  ++ [("Relays", PArray [PDict
        [(if String.eqb (rc_transport config) "http2" then "HTTP2RelayURL" else "HTTP3RelayURL",
          PString (rc_url config +:+ relay_path));
         ("AdditionalHTTPHeaderFields", PDict [("Authorization", PString ("Bearer " +:+ token))])]]);
      ("MatchDomains", PArray [])].

(** The property list of [profile], for the credential [token]. *)
Definition profile_plist (config : relay_config) (instance name token : string) (guest : bool) : plist :=
  let identifier := "org.openvpn.apple-relay." +:+ sha (instance +:+ "/" +:+ name) in
  let title := (if guest then "Guest Relay" else "Full Access Relay") +:+ middle_dot +:+ name in
  PDict (payload identifier "Configuration" "" title
         ++ [("PayloadContent", PArray [PDict (relay_payload config identifier title token)]);
             ("PayloadDescription", PString
               ((if guest then "Internet access through your server, without your local network. "
                 else "Internet and LAN access through your server. ")
                +:+ "This profile contains a personal access credential."))]).

(** [profile]: the file that is delivered and the new state; the transaction of the credential
    is committed before the signer is asked. [sign] is [sign_profile] for the same database. *)
Definition relay_profile (sign : string → string → result string) (now : Z) (v : pki_view) (guests_dir : gset string)
    (uuid secret name : string) (d : relay_db) : result string * relay_db :=
  match Relay.profile now v uuid secret name d with
  | Raise e => (Raise e, d)
  | Ok (d, token) =>
      (content ← dumps (profile_plist (rd_config d) (default "" (rd_instance d)) name token (bool_decide (name ∈ guests_dir)));
       u ← of_option ValueError (urlsplit (rc_url (rd_config d)));
       sign content (default "" (url_hostname u)), d)
  end.
End profile.

(** ** Lemmas: what is signed *)

Lemma raise_if_Ok c e u : raise_if c e = Ok u → c = false.
Proof. by destruct c. Qed.

Lemma get_Ok v k r : get v k = Ok r → ∃ items, v = PDict items.
Proof. destruct v; try done. eauto. Qed.

Lemma one_item l n x : py_len l = Ok n → Nat.eqb n 1 = true → first_item l = Ok (PDict x) → l = PArray [PDict x].
Proof.
  intros Hl Hn Hf. apply Nat.eqb_eq in Hn as ->. destruct l as [[|c s]|?|?|?|?|[|c s]|[|y l]|?]; try done.
  cbn in Hl, Hf. injection Hf as ->. by destruct l.
Qed.

(** What a profile that passes the checks is. *)
Definition relay_only (relay_url : string) (profile : plist) : Prop :=
  ∃ payload items,
    get profile "PayloadType" = Ok (Some (PString "Configuration")) ∧
    get profile "PayloadContent" = Ok (Some (PArray [PDict payload])) ∧
    (∃ i, get profile "PayloadIdentifier" = Ok (Some (PString i)) ∧ startswith "org.openvpn.apple-relay." i = true) ∧
    get (PDict payload) "PayloadType" = Ok (Some (PString "com.apple.relay.managed")) ∧
    get (PDict payload) "Relays" = Ok (Some (PArray [PDict items])) ∧
    (∃ k v, (k, v) ∈ items ∧ k ∈ url_keys) ∧
    ∀ k v, (k, v) ∈ items → k ∈ url_keys → v = PString (relay_url +:+ relay_path).

Lemma is_text_eq v s : is_text v s = true → v = Some (PString s).
Proof. destruct v as [[]|]; try done. cbn. by intros ->%String.eqb_eq. Qed.

Lemma url_keys_elem k : existsb (String.eqb k) url_keys = true ↔ k ∈ url_keys.
Proof.
  rewrite existsb_exists. setoid_rewrite <-list_elem_of_In. split.
  - by intros (x & Hx & ->%String.eqb_eq).
  - intros Hk. exists k. by rewrite String.eqb_refl.
Qed.

Lemma only_urls relay_url items :
  bool_decide (snd <$> List.filter (fun p : string * plist => existsb (String.eqb p.1) url_keys) items = []) = false →
  existsb (fun u => negb (is_text (Some u) (relay_url +:+ relay_path)))
    (snd <$> List.filter (fun p : string * plist => existsb (String.eqb p.1) url_keys) items) = false →
  (∃ k v, (k, v) ∈ items ∧ k ∈ url_keys) ∧
  ∀ k v, (k, v) ∈ items → k ∈ url_keys → v = PString (relay_url +:+ relay_path).
Proof.
  intros Hne Hall. split.
  - apply bool_decide_eq_false_1 in Hne. destruct (List.filter _ items) as [|[k v] l] eqn:Ef; [done|].
    assert (Hin : (k, v) ∈ List.filter (fun p : string * plist => existsb (String.eqb p.1) url_keys) items) by (rewrite Ef; left).
    apply list_elem_of_In, filter_In in Hin as [Hin Hk]. exists k, v. split; [by apply list_elem_of_In|]. by apply url_keys_elem.
  - intros k v Hin Hk%url_keys_elem. apply not_true_iff_false in Hall. rewrite existsb_exists in Hall.
    destruct (is_text (Some v) (relay_url +:+ relay_path)) eqn:Ht.
    + apply is_text_eq in Ht. by injection Ht.
    + exfalso. apply Hall. exists v. split; [|by rewrite Ht]. apply list_elem_of_In, list_elem_of_fmap.
      exists (k, v). split; [done|]. apply list_elem_of_In, filter_In. split; [by apply list_elem_of_In|done].
Qed.

Lemma check_profile_ok relay_url profile : check_profile relay_url profile = Ok tt → relay_only relay_url profile.
Proof.
  unfold check_profile. destruct (get profile "PayloadContent") as [payloads|] eqn:Epc; [|done]. cbn [mbind result_bind].
  destruct (get profile "PayloadType") as [kind|] eqn:Ept; [|done]. cbn [mbind result_bind].
  destruct (is_text kind "Configuration") eqn:Ek; [|done]. apply is_text_eq in Ek as ->. cbn [negb orb].
  destruct (py_len _) as [n|] eqn:En; [|done]. cbn [mbind result_bind].
  destruct (Nat.eqb n 1) eqn:E1; [|done]. cbn [negb raise_if mbind result_bind].
  destruct (first_item _) as [p|] eqn:Ep; [|done]. cbn [mbind result_bind].
  destruct (get p "PayloadType") as [kind|] eqn:Epk; [|done]. cbn [mbind result_bind].
  destruct (is_text kind _) eqn:Ek; [|done]. apply is_text_eq in Ek as ->.
  destruct (get profile "PayloadIdentifier") as [identifier|] eqn:Ei; [|done]. cbn [mbind result_bind].
  destruct (text_startswith _ _) as [[]|] eqn:Es; [|done|done]. cbn [negb raise_if mbind result_bind].
  destruct (get p "Relays") as [relays|] eqn:Er; [|done]. cbn [mbind result_bind].
  destruct (py_len (default (PArray []) relays)) as [m|] eqn:Em; [|done]. cbn [mbind result_bind].
  destruct (Nat.eqb m 1) eqn:Em1; [|done]. cbn [negb raise_if mbind result_bind].
  destruct (first_item (default (PArray []) relays)) as [relay|] eqn:Efr; [|done]. cbn [mbind result_bind].
  destruct relay as [| | | | | | |items]; try done. cbn [mbind result_bind]. intros H%raise_if_Ok.
  apply orb_false_iff in H as [Hne Hall]. destruct (get_Ok _ _ _ Epk) as [payload ->].
  pose proof (one_item _ _ _ En E1 Ep) as Hp. pose proof (one_item _ _ _ Em Em1 Efr) as Hr.
  destruct payloads as [payloads|]; [|done]. destruct relays as [relays|]; [|done]. simpl in Hp, Hr. subst payloads relays.
  destruct (only_urls _ _ Hne Hall). exists payload, items. split_and!; [done|done| |done..].
  destruct identifier as [[s| | | | | | |]|]; try done. exists s. split; [done|]. by injection Es.
Qed.

(** ** Theorems *)

(** C12. The signer signs nothing but relay profiles: a signature is made only of the canonical XML of
    one property list with a single relay payload of this program, and every relay URL in it is the
    configured one. *)
Theorem signs_only_relay_profiles loads cms sg get_id content signed :
  sign loads cms sg get_id content = Ok signed →
  strlen content <= MAX_PROFILE ∧
  (∃ id, get_id = Ok id ∧ cms id content = Ok signed) ∧
  ∃ profile, dumps profile = Ok content ∧ relay_only (sg_relay_url sg) profile.
Proof.
  unfold sign. destruct (MAX_PROFILE <? strlen content) eqn:Hlen; [done|]. cbn [raise_if mbind result_bind].
  destruct (loads content) as [profile|]; [|done]. cbn [mbind result_bind].
  destruct (dumps profile) as [canonical|] eqn:Hd; [|done]. cbn [mbind result_bind].
  destruct (String.eqb canonical content) eqn:Hc; [|done]. apply String.eqb_eq in Hc as ->. cbn [negb raise_if mbind result_bind].
  destruct (check_profile _ _) as [[]|] eqn:Hchk; [|done]. cbn [mbind result_bind].
  destruct get_id as [id|]; [|done]. cbn [mbind result_bind]. intros Hcms. bool_to_prop.
  split_and!; [lia|eauto|]. exists profile. split; [done|]. by apply check_profile_ok.
Qed.

Section client_theorems.
Context (env : signing) (json_loads : string → result saved_signing).
Context (opener : string → string → option string → reply) (verify : string → string → result string).
Abbreviation signed_profile := (sign_profile env json_loads opener verify).
Abbreviation config_of := (signing_config env json_loads).

Lemma signing_request_Ok content config s : signing_request opener content config = Ok s →
  validate_signer_url (sc_url config) = Ok tt ∧ token_ok (sc_token config) = true ∧
  opener (sc_url config) ("Bearer " +:+ sc_token config) content = Body s ∧ strlen s <= MAX_REPLY.
Proof.
  unfold signing_request. destruct (validate_signer_url _) as [[]|]; [|done]. cbn [mbind result_bind].
  destruct (token_ok _); [|done]. cbn [negb raise_if mbind result_bind].
  destruct (opener _ _ _) as [body|status|e]; [|done|by destruct e].
  destruct (MAX_REPLY <? strlen body) eqn:El; [done|]. intros <-%Ok_inj. bool_to_prop. split_and!; [done..|lia].
Qed.

(** The two ways a profile is delivered. *)
Lemma sign_profile_Ok content hostname setting file :
  signed_profile content hostname setting = Ok file →
  ∃ config, config_of setting = Ok config ∧
    ((sc_url config = "" ∧ sc_required config = false ∧ file = content) ∨
     (validate_signer_url (sc_url config) = Ok tt ∧ token_ok (sc_token config) = true ∧
      opener (sc_url config) ("Bearer " +:+ sc_token config) (Some content) = Body file ∧ strlen file <= MAX_REPLY ∧
      verify hostname file = Ok content)).
Proof.
  unfold Signing.sign_profile. destruct (config_of setting) as [config|]; [|done]. cbn [mbind result_bind]. intros H.
  exists config. split; [done|]. destruct (empty (sc_url config)) eqn:Eu.
  { apply String.eqb_eq in Eu. destruct (sc_required config); [done|]. apply Ok_inj in H. by left. }
  right. destruct (signing_request opener (Some content) config) as [signed|e] eqn:Er; [|by destruct (is_pki_error e)].
  cbn [mbind result_bind] in H. apply signing_request_Ok in Er as (? & ? & ? & ?).
  destruct (verify hostname signed) as [verified|e] eqn:Ev; [|by destruct (unavailable e)]. cbn [mbind result_bind] in H.
  destruct (String.eqb verified content) eqn:Ec; [|done]. apply String.eqb_eq in Ec as ->. apply Ok_inj in H as <-. done.
Qed.

(** C15. No unsigned profile leaves the UI once signing is required or a signer is set: what
    [sign_profile] returns is a reply of the configured signer, at a valid https URL and with a valid
    token, that OpenSSL verified for the relay's host name and whose content is the profile. *)
Theorem delivered_is_verified content hostname setting file :
  signed_profile content hostname setting = Ok file →
  ∃ config, config_of setting = Ok config ∧
    ((sc_url config = "" ∧ sc_required config = false ∧ file = content) ∨
     (validate_signer_url (sc_url config) = Ok tt ∧ token_ok (sc_token config) = true ∧
      opener (sc_url config) ("Bearer " +:+ sc_token config) (Some content) = Body file ∧ strlen file <= MAX_REPLY ∧
      verify hostname file = Ok content)).
Proof. apply sign_profile_Ok. Qed.

(** Signing fails closed and always with the same error: whatever the signer answers and whatever
    OpenSSL says, a profile that is not delivered is a [SigningUnavailable], which the handlers turn
    into a message; nothing else leaves [sign_profile]. *)
Theorem signing_fails_closed content hostname setting config e :
  (∀ u a c x, opener u a c = Failed x → x = OSError ∨ x = SSLError) →
  (∀ h s x, verify h s = Raise x → unavailable x = true) →
  config_of setting = Ok config →
  signed_profile content hostname setting = Raise e → ∃ m, e = SigningUnavailable m.
Proof.
  intros Hopen Hverify Hc. unfold Signing.sign_profile. rewrite Hc. cbn [mbind result_bind].
  destruct (empty (sc_url config)). { destruct (sc_required config); [|done]. intros [= <-]. eauto. }
  assert (Hreq : ∀ x, signing_request opener (Some content) config = Raise x → is_pki_error x = true).
  { intros x. unfold signing_request. destruct (validate_signer_url _) as [[]|y] eqn:Ev.
    2:{ unfold validate_signer_url in Ev. intros [= <-]. destruct (urlsplit _) as [u|]; [|by injection Ev as <-].
        cbn [of_option mbind result_bind] in Ev. destruct (url_port u); [|by injection Ev as <-].
        cbn [mbind result_bind] in Ev. destruct (_ || _ : bool); [by injection Ev as <-|done]. }
    cbn [mbind result_bind]. destruct (token_ok _); [|by intros [= <-]]. cbn [negb raise_if mbind result_bind].
    destruct (opener _ _ _) as [body|status|y] eqn:Eo.
    - destruct (_ <? _); [by intros [= <-]|done].
    - by intros [= <-].
    - destruct (Hopen _ _ _ _ Eo) as [->| ->]; by intros [= <-]. }
  destruct (signing_request _ _ _) as [signed|x] eqn:Er.
  - cbn [mbind result_bind]. destruct (verify hostname signed) as [verified|x] eqn:Ev.
    + cbn [mbind result_bind]. destruct (String.eqb _ _); [done|]. intros [= <-]. eauto.
    + rewrite (Hverify _ _ _ Ev). intros [= <-]. eauto.
  - rewrite (Hreq x eq_refl). cbn [mbind result_bind]. intros [= <-]. eauto.
Qed.
End client_theorems.

(** ** Saving the settings *)

(** Signing settings that are saved are the ones in use, and can be used: the URL is empty or a
    valid signer URL, the token empty or valid, and a token that is not sent stays the current one. *)
Theorem saved_signing_in_use env json_of json_loads body setting text :
  (∀ u t r, let x := SavedSigning (Some u) (Some t) (Some r) in json_loads (json_of x) = Ok x) →
  save_signing env json_of json_loads body setting = Ok (Some text) →
  ∃ old new, signing_config env json_loads setting = Ok old ∧ signing_config env json_loads (Some text) = Ok new ∧
    sc_url new = strip (sb_url body) ∧ sc_required new = sb_required body ∧ sc_source new = "ui" ∧
    sc_token new = match sb_token body with None => sc_token old | Some t => strip t end ∧
    (sc_url new = "" ∨ validate_signer_url (sc_url new) = Ok tt) ∧ (sc_token new = "" ∨ token_ok (sc_token new) = true).
Proof.
  intros Hjson. unfold save_signing. destruct (sb_use_environment body); [done|].
  destruct (signing_config _ _ setting) as [old|]; [|done]. cbn [mbind result_bind].
  destruct (if empty (strip (sb_url body)) then _ else _) as [[]|] eqn:Eu; [|done]. cbn [mbind result_bind].
  set (token := match sb_token body with None => _ | Some _ => _ end).
  destruct (negb (empty token) && negb (token_ok token)) eqn:Et; [done|]. cbn [raise_if mbind result_bind].
  intros H. apply Ok_inj in H. injection H as <-. exists old.
  eexists (Signing (strip (sb_url body)) token (sb_required body) "ui"). unfold signing_config. rewrite Hjson.
  cbn [mbind result_bind sv_url sv_token sv_required sc_url sc_token sc_required sc_source]. split_and!; try done.
  - destruct (empty _) eqn:E; [apply String.eqb_eq in E; by left|by right].
  - destruct (empty token) eqn:E; [apply String.eqb_eq in E; by left|]. right. by destruct (token_ok token).
Qed.

(** ** The slots *)

#[export] Instance sign_phase_eq_dec : EqDecision sign_phase.
Proof. solve_decision. Defined.

(** How many threads are at a phase. *)
Definition threads_at (p : sign_phase) (s : sign_server) : Z :=
  map_sum (fun _ q => if bool_decide (q = p) then 1 else 0) (ss_threads s).

Definition counted (s : sign_server) : Prop :=
  Z.of_nat (ss_connections s) = threads_at Accepted s + threads_at Inside s + threads_at Answered s ∧
  Z.of_nat (ss_slots s) = threads_at Inside s ∧ (ss_connections s <= CONNECTIONS)%nat ∧ (ss_slots s <= SIGN_SLOTS)%nat.

Lemma threads_at_nonneg p s : 0 <= threads_at p s.
Proof. unfold threads_at, map_sum. apply sumZ_nonneg. intros [? ?] _. cbn. by destruct (bool_decide _). Qed.

Ltac phases :=
  repeat match goal with
  | |- context [bool_decide (?p = ?p)] => rewrite (bool_decide_eq_true_2 (p = p)) by done
  | |- context [bool_decide (?p = ?q)] => rewrite (bool_decide_eq_false_2 (p = q)) by done
  end.

(** The threads without one of them. *)
Lemma threads_without s t q p : ss_threads s !! t = Some q →
  threads_at p s = (if bool_decide (q = p) then 1 else 0)
    + threads_at p (SignServer (ss_connections s) (ss_slots s) (delete t (ss_threads s))).
Proof. intros Ht. unfold threads_at. cbn [ss_threads]. by rewrite (map_sum_delete _ _ _ _ Ht). Qed.

Lemma counted_step s s' : counted s → sign_step s s' → counted s'.
Proof.
  intros (Hc & Hs & Hmax & Hslots) Hstep. unfold counted.
  assert (Hmove : ∀ t q r p, ss_threads s !! t = Some q → ∀ n m,
    threads_at p (SignServer n m (<[t := r]> (ss_threads s)))
    = threads_at p s - (if bool_decide (q = p) then 1 else 0) + (if bool_decide (r = p) then 1 else 0)).
  { intros t q r p Ht n m. unfold threads_at. cbn [ss_threads]. by rewrite (map_sum_overwrite _ _ _ _ _ Ht). }
  pose proof (λ p, threads_at_nonneg p s) as Hn. pose proof (Hn Accepted). pose proof (Hn Inside). pose proof (Hn Answered).
  destruct Hstep as [s t Hlt Ht|s|s|s t Ht|s t Ht Hlt|s t Ht|s t Ht]; [|done|done|..].
  - assert (Hnew : ∀ p n m, threads_at p (SignServer n m (<[t := Accepted]> (ss_threads s)))
      = (if bool_decide (Accepted = p) then 1 else 0) + threads_at p s).
    { intros p n m. unfold threads_at. cbn [ss_threads]. by rewrite map_sum_insert. }
    rewrite !Hnew. cbn [ss_connections ss_slots]. phases. lia.
  - rewrite !(Hmove t _ _ _ Ht). cbn [ss_connections ss_slots]. phases. lia.
  - rewrite !(Hmove t _ _ _ Ht). cbn [ss_connections ss_slots]. phases. lia.
  - pose proof (threads_without s t Inside Inside Ht) as Hw. rewrite bool_decide_eq_true_2 in Hw by done.
    match type of Hw with _ = _ + threads_at _ ?x => pose proof (threads_at_nonneg Inside x) end.
    rewrite !(Hmove t _ _ _ Ht). cbn [ss_connections ss_slots]. phases. lia.
  - pose proof (λ p, threads_without s t Answered p Ht) as Hw.
    pose proof (Hw Accepted) as Hw1. pose proof (Hw Inside) as Hw2. pose proof (Hw Answered) as Hw3.
    rewrite bool_decide_eq_false_2 in Hw1, Hw2 by done. rewrite bool_decide_eq_true_2 in Hw3 by done.
    match type of Hw3 with _ = _ + threads_at _ ?x => pose proof (threads_at_nonneg Answered x) end.
    unfold threads_at in *. cbn [ss_connections ss_slots ss_threads] in *. lia.
Qed.

(** The signer's limits hold and nothing leaks: whatever the order in which connections come,
    take a slot, fail and end, at most 16 connections and 4 slots are in use, the slots are exactly
    those of the threads inside, and once every thread has ended all of them are free again. *)
Theorem signer_slots_conserved s : sign_reachable s →
  (ss_connections s <= CONNECTIONS)%nat ∧ (ss_slots s <= SIGN_SLOTS)%nat ∧ Z.of_nat (ss_slots s) = threads_at Inside s ∧
  (ss_threads s = ∅ → s = empty_server).
Proof.
  intros Hr. assert (Hc : counted s).
  { induction Hr as [|s s' _ IH Hstep]; [|by eapply counted_step]. unfold counted, threads_at, empty_server. cbn.
    rewrite !map_sum_empty. cbn. unfold CONNECTIONS, SIGN_SLOTS. lia. }
  destruct Hc as (Hc & Hs & Hmax & Hslots). split_and!; [done..|]. intros He. unfold threads_at in *. rewrite He in *.
  rewrite !map_sum_empty in *. destruct s as [n m th]. cbn in *. subst th. unfold empty_server. f_equal; lia.
Qed.

Lemma signer_slots_conserved_witness :
  ∃ s, sign_reachable s ∧ ss_slots s = 1%nat ∧
    ((ss_connections s <= CONNECTIONS)%nat ∧ (ss_slots s <= SIGN_SLOTS)%nat ∧ Z.of_nat (ss_slots s) = threads_at Inside s ∧
     (ss_threads s = ∅ → s = empty_server)).
Proof.
  assert (H : sign_reachable (SignServer 1 1 (<[0%nat := Inside]> (<[0%nat := Accepted]> ∅)))).
  { apply (sign_next (SignServer 1 0 (<[0%nat := Accepted]> ∅))).
    - apply (sign_next empty_server); [apply sign_start|]. apply (step_accept empty_server 0); [unfold CONNECTIONS; cbn; lia|reflexivity].
    - refine (step_enter (SignServer 1 0 (<[0%nat := Accepted]> ∅)) 0 eq_refl _). unfold SIGN_SLOTS. cbn. lia. }
  eexists. split; [exact H|]. split; [reflexivity|]. exact (signer_slots_conserved _ H).
Defined.

(** ** Both sides together *)

Section both_sides.
Context (loads : string → result plist) (cms : identity → string → result string) (ready_json : metadata → string).

(** The signer behind its URL: what a request of the UI is answered when the transport works. *)
Definition through_signer (sg : signer) (get_id : result identity) (used : nat) (url authorization : string)
    (content : option string) : reply :=
  let path := match urlsplit url with Some u => u_path u | None => "" end in
  let request := SignRequest path authorization (match content with Some c => Some (nat_str (strlen c)) | None => None end)
                   None (Ok (default "" content)) in
  match dispatch loads cms ready_json sg get_id used (match content with Some _ => true | None => false end) request with
  | Ok r => if rs_status r <? 400 then Body (rs_body r) else HTTPError (rs_status r)
  | Raise _ => Failed OSError
  end.

Lemma valid_signer_path url : validate_signer_url url = Ok tt →
  ∃ u, urlsplit url = Some u ∧ u_path u = "/internal/relay-sign".
Proof.
  unfold validate_signer_url. destruct (urlsplit url) as [u|]; [|done]. cbn [of_option mbind result_bind].
  destruct (url_port u); [|done]. cbn [mbind result_bind]. intros H%raise_if_Ok. exists u. split; [done|].
  rewrite !orb_false_iff in H. destruct H as [[[_ Hp] _] _]. by apply negb_false_iff, String.eqb_eq in Hp.
Qed.

Lemma str_take_all s : str_take (String.length s) s = s.
Proof. induction s as [|c s IH]; [done|]. cbn. by rewrite IH. Qed.

Lemma through_signer_signs sg id used url content file :
  validate_signer_url url = Ok tt → (used < SIGN_SLOTS)%nat → content ≠ "" → strlen content <= MAX_PROFILE →
  sign loads cms sg (Ok id) content = Ok file →
  through_signer sg (Ok id) used url ("Bearer " +:+ sg_token sg) (Some content) = Body file.
Proof.
  intros Hurl Hused Hne Hlen Hsign. unfold through_signer. destruct (valid_signer_path _ Hurl) as (u & -> & ->).
  unfold dispatch. cbn [rq_path rq_authorization]. rewrite !String.eqb_refl. cbn [negb].
  destruct (Nat.leb_spec SIGN_SLOTS used); [lia|]. unfold sign_body. cbn [rq_length rq_chunked rq_body].
  assert (0 < strlen content) by (destruct content; [done|unfold strlen; cbn; lia]).
  change (default "0" (Some (nat_str (strlen content)))) with (nat_str (strlen content)).
  rewrite py_int_nat_str by lia. cbn [of_option mbind result_bind].
  destruct (Z.ltb_spec 0 (strlen content)); [|lia]. destruct (Z.leb_spec (strlen content) MAX_PROFILE); [|lia].
  cbn [negb andb orb truthy fmap result_map]. change (default "" (Some content)) with content.
  assert (Ht : str_take (Z.to_nat (strlen content)) content = content).
  { unfold strlen. rewrite Nat2Z.id. apply str_take_all. }
  rewrite Ht. cbn [mbind result_bind]. rewrite Z.eqb_refl. cbn [negb]. rewrite Hsign. done.
Qed.

(** The profiles of the UI are what the signer signs. *)
Lemma own_profile_passes sha uuid5 config instance name token guest :
  check_profile (rc_url config) (profile_plist sha uuid5 config instance name token guest) = Ok tt.
Proof.
  unfold profile_plist, relay_payload, payload. set (i := sha _).
  destruct (String.eqb (rc_transport config) "http2"); unfold check_profile; cbn; rewrite String.eqb_refl; done.
Qed.

End both_sides.

(** ** A concrete pair of hosts *)

Definition demo_token : string := "0123456789abcdef0123456789abcdef".
Definition demo_signer : signer := SignerOf "relay.example.com" "https://relay.example.com" demo_token.
Definition demo_identity : identity := Identity ["certificate"] "key" (Metadata "CN=relay.example.com" 900 "ff").
Definition demo_cms (_ : identity) (content : string) : result string := Ok ("signed:" +:+ content).
Definition demo_verify (_ signed : string) : result string :=
  if startswith "signed:" signed then Ok (removeprefix "signed:" signed) else Raise SubprocessError.
Definition demo_digest (_ : string) : string := "0a1b".
Definition demo_profile : plist :=
  profile_plist demo_digest demo_digest (RelayConfig true "https://relay.example.com" "http2") "instance" "alice" "alice:s3cret" false.
Definition demo_content : string := match dumps demo_profile with Ok c => c | Raise _ => "" end.
Definition demo_loads (content : string) : result plist :=
  if String.eqb content demo_content then Ok demo_profile else Raise ValueError.
Definition demo_ready (_ : metadata) : string := "{}".
Definition demo_env : signing := Signing "https://sign.example.com/internal/relay-sign" demo_token true "environment".
Definition demo_json (_ : string) : result saved_signing := Ok nothing_saved.
Definition demo_opener : string → string → option string → reply :=
  through_signer demo_loads demo_cms demo_ready demo_signer (Ok demo_identity) 3.

Lemma demo_dumps : dumps demo_profile = Ok demo_content.
Proof. vm_compute. reflexivity. Qed.

Lemma signs_only_relay_profiles_witness :
  sign demo_loads demo_cms demo_signer (Ok demo_identity) demo_content = Ok ("signed:" +:+ demo_content) ∧
  (strlen demo_content <= MAX_PROFILE ∧
   (∃ id, Ok demo_identity = Ok id ∧ demo_cms id demo_content = Ok ("signed:" +:+ demo_content)) ∧
   ∃ profile, dumps profile = Ok demo_content ∧ relay_only "https://relay.example.com" profile).
Proof.
  assert (H : sign demo_loads demo_cms demo_signer (Ok demo_identity) demo_content = Ok ("signed:" +:+ demo_content))
    by (vm_compute; reflexivity).
  split; [exact H|]. exact (signs_only_relay_profiles _ _ _ _ _ _ H).
Defined.

Lemma delivered_is_verified_witness :
  sign_profile demo_env demo_json demo_opener demo_verify demo_content "relay.example.com" None = Ok ("signed:" +:+ demo_content) ∧
  ∃ config, signing_config demo_env demo_json None = Ok config ∧
    ((sc_url config = "" ∧ sc_required config = false ∧ "signed:" +:+ demo_content = demo_content) ∨
     (validate_signer_url (sc_url config) = Ok tt ∧ token_ok (sc_token config) = true ∧
      demo_opener (sc_url config) ("Bearer " +:+ sc_token config) (Some demo_content) = Body ("signed:" +:+ demo_content) ∧
      strlen ("signed:" +:+ demo_content) <= MAX_REPLY ∧
      demo_verify "relay.example.com" ("signed:" +:+ demo_content) = Ok demo_content)).
Proof.
  assert (H : sign_profile demo_env demo_json demo_opener demo_verify demo_content "relay.example.com" None
    = Ok ("signed:" +:+ demo_content)) by (vm_compute; reflexivity).
  split; [exact H|]. exact (delivered_is_verified _ _ _ _ _ _ _ _ H).
Defined.

(** The signer turns a profile down; the client gets the one error. *)
Lemma signing_fails_closed_witness :
  sign_profile demo_env demo_json demo_opener demo_verify "other" "relay.example.com" None
    = Raise (SigningUnavailable "Cannot reach the profile signer: check the signing certificate and ACME store on the Pi") ∧
  ∃ m, SigningUnavailable "Cannot reach the profile signer: check the signing certificate and ACME store on the Pi"
       = SigningUnavailable m.
Proof.
  assert (H : sign_profile demo_env demo_json demo_opener demo_verify "other" "relay.example.com" None
    = Raise (SigningUnavailable "Cannot reach the profile signer: check the signing certificate and ACME store on the Pi"))
    by (vm_compute; reflexivity).
  split; [exact H|].
  apply (signing_fails_closed demo_env demo_json demo_opener demo_verify "other" "relay.example.com" None
    (Signing (sc_url demo_env) demo_token true "environment")); [| |reflexivity|exact H].
  - intros u a c x. unfold demo_opener, through_signer. destruct (dispatch _ _ _ _ _ _ _ _) as [r|e].
    + by destruct (rs_status r <? 400).
    + intros [= <-]. by left.
  - intros h s x. unfold demo_verify. destruct (startswith _ _); [done|]. by intros [= <-].
Defined.

(** An encoding of the setting, in the place of [json]. *)
Fixpoint demo_enc (s rest : string) : string :=
  match s with EmptyString => String "." rest | String c s => String "," (String c (demo_enc s rest)) end.
Fixpoint demo_dec (s : string) : string * string :=
  match s with
  | String "," (String c s) => let '(a, b) := demo_dec s in (String c a, b)
  | String _ rest => ("", rest)
  | EmptyString => ("", "")
  end.
Definition demo_json_of (x : saved_signing) : string :=
  demo_enc (default "" (sv_url x)) (demo_enc (default "" (sv_token x)) (if default false (sv_required x) then "1" else "0")).
Definition demo_json_loads (s : string) : result saved_signing :=
  let '(u, s) := demo_dec s in let '(t, s) := demo_dec s in Ok (SavedSigning (Some u) (Some t) (Some (String.eqb s "1"))).

Lemma demo_dec_enc s rest : demo_dec (demo_enc s rest) = (s, rest).
Proof. induction s as [|c s IH]; [done|]. cbn [demo_enc demo_dec]. by rewrite IH. Qed.

Definition demo_body : signing_body := SigningBody " https://sign.example.com/internal/relay-sign" None false false.
Definition demo_saved : string := demo_enc "https://sign.example.com/internal/relay-sign" (demo_enc demo_token "0").

Lemma saved_signing_in_use_witness :
  ∃ old new, signing_config demo_env demo_json_loads None = Ok old ∧ signing_config demo_env demo_json_loads (Some demo_saved) = Ok new ∧
    sc_url new = strip (sb_url demo_body) ∧ sc_required new = sb_required demo_body ∧ sc_source new = "ui" ∧
    sc_token new = match sb_token demo_body with None => sc_token old | Some t => strip t end ∧
    (sc_url new = "" ∨ validate_signer_url (sc_url new) = Ok tt) ∧ (sc_token new = "" ∨ token_ok (sc_token new) = true).
Proof.
  apply (saved_signing_in_use demo_env demo_json_of demo_json_loads demo_body None demo_saved).
  - intros u t r. unfold demo_json_of, demo_json_loads. cbn [sv_url sv_token sv_required].
    change (default "" (Some u)) with u. change (default "" (Some t)) with t. rewrite !demo_dec_enc. by destruct r.
  - vm_compute. reflexivity.
Defined.

Definition demo_db : relay_db :=
  RelayDb (RelayConfig true "https://relay.example.com" "http2") (Some "instance") {["alice" := Grant "A1" "s3cret"]}.

(** ** The identity stays current *)

Section current.
Context (load_cert_chain : string → string → result unit) (verify : string → list string → string → result unit)
        (describe : string → result metadata).
Abbreviation candidates_of := (candidates load_cert_chain verify describe).
Abbreviation identity_of := (get_identity load_cert_chain verify describe).

(** A call of [identity()]: the file it meets and the two clocks. *)
Record call := Call { k_stat : result acme_stat; k_read : result (list (option (list acme_entry))); k_monotonic : Z; k_now : Z }.
Definition after_call (sg : signer) (cached : option cache) (k : call) : option cache :=
  (identity_of sg (k_stat k) (k_read k) (k_monotonic k) (k_now k) cached).2.

(** What OpenSSL confirmed of an identity. *)
Definition confirmed (hostname : string) (i : identity) : Prop :=
  ∃ leaf chain, id_certs i = leaf :: chain ∧ load_cert_chain leaf (id_key i) = Ok tt ∧ verify hostname chain leaf = Ok tt ∧
    describe leaf = Ok (id_metadata i).

(** [i] is the best identity of the store that [k] read. *)
Definition best_of (sg : signer) (k : call) (i : identity) : Prop :=
  ∃ store l, k_read k = Ok store ∧ candidates_of (sg_hostname sg) store = Ok l ∧ i ∈ l ∧ confirmed (sg_hostname sg) i ∧
    ∀ j, j ∈ l → md_expires_at (id_metadata j) <= md_expires_at (id_metadata i).

Lemma latest_spec l : ∀ best, latest best l ∈ best :: l ∧
  ∀ j, j ∈ best :: l → md_expires_at (id_metadata j) <= md_expires_at (id_metadata (latest best l)).
Proof.
  induction l as [|x l IH]; intros best; cbn [latest].
  { split; [left|]. intros j ->%list_elem_of_singleton. lia. }
  set (b := if _ <? _ then x else best). destruct (IH b) as [Hin Hmax]. clear IH.
  assert (Hb : (b = x ∨ b = best) ∧ md_expires_at (id_metadata x) <= md_expires_at (id_metadata b)
               ∧ md_expires_at (id_metadata best) <= md_expires_at (id_metadata b)).
  { unfold b. destruct (Z.ltb_spec (md_expires_at (id_metadata best)) (md_expires_at (id_metadata x))); split_and!; auto; lia. }
  destruct Hb as (Hb & Hbx & Hbb). pose proof (Hmax b ltac:(left)) as Hlb. split.
  - apply elem_of_cons in Hin as [Hin|Hin]; [rewrite Hin; destruct Hb as [->| ->]; set_solver|set_solver].
  - intros j. rewrite !elem_of_cons. intros [->|[->|Hj]]; [lia|lia|]. apply Hmax. by right.
Qed.

Lemma examine_confirmed hostname e i : examine load_cert_chain verify describe hostname e = Ok (Some i) → confirmed hostname i.
Proof.
  unfold examine. destruct (examine_entry _ _ _ _ _) as [r|x] eqn:E; [|by destruct (caught_entry x)].
  intros [= ->]. unfold examine_entry in E. inv_result.
  destruct (pem_blocks _ _) as [|leaf chain]; [done|]. inv_result.
  match goal with H : Some _ = Some i |- _ => injection H as <- end.
  repeat match goal with u : unit |- _ => destruct u end. by exists leaf, chain.
Qed.

Lemma candidates_confirmed hostname store l i : candidates_of hostname store = Ok l → i ∈ l → confirmed hostname i.
Proof.
  unfold Signing.candidates. intros H Hi. inv_result. apply list_elem_of_omap in Hi as (o & Ho & Hi). cbn in Hi. subst o.
  match goal with E : map_result _ ?es = Ok _ |- _ => revert E; generalize es end.
  intros es. revert a Ho. induction es as [|e es IH]; intros found Ho E; cbn [map_result] in E; inv_result; [by apply not_elem_of_nil in Ho|].
  apply elem_of_cons in Ho as [<-|Ho]; [by eapply examine_confirmed|by eapply IH].
Qed.

(** A call that does not use the cache. *)
Lemma get_identity_best sg k i store l :
  k_read k = Ok store → candidates_of (sg_hostname sg) store = Ok l →
  (match l with [] => None | x :: l => Some (latest x l) end) = Some i → best_of sg k i.
Proof.
  intros Hr Hc Hl. destruct l as [|x l]; [done|]. injection Hl as <-. destruct (latest_spec l x) as [Hin Hmax].
  exists store, (x :: l). split_and!; [done..| |done]. by eapply candidates_confirmed.
Qed.

(** The cache holds the best identity of a call with the same file, at most a minute old. *)
Definition cache_ok (sg : signer) (calls : list call) (cached : option cache) : Prop :=
  ∀ c, cached = Some c → ∃ k, k ∈ calls ∧ k_stat k = Ok (ca_signature c) ∧ ca_until c = k_monotonic k + 60000 ∧ best_of sg k (ca_identity c).

Lemma call_spec sg calls cached k : cache_ok sg calls cached →
  cache_ok sg (k :: calls) (after_call sg cached k) ∧
  ∀ i, (identity_of sg (k_stat k) (k_read k) (k_monotonic k) (k_now k) cached).1 = Ok i →
    ∃ k0, k0 ∈ k :: calls ∧ is_Some (match k_stat k with Ok s => Some s | Raise _ => None end) ∧ k_stat k0 = k_stat k ∧
      best_of sg k0 i ∧ (k0 = k ∨ k_monotonic k < k_monotonic k0 + 60000 ∧ k_now k < md_expires_at (id_metadata i) * 1000).
Proof.
  intros Hok. assert (Hkeep : cache_ok sg (k :: calls) cached).
  { intros c Hc. destruct (Hok c Hc) as (k0 & Hin & ?). exists k0. split; [by right|done]. }
  unfold after_call, Signing.get_identity. destruct (k_stat k) as [st|e] eqn:Hst; [|done].
  assert (Hload : ∀ r,
    match (store ← k_read k; candidates_of (sg_hostname sg) store) with
    | Raise e => (Raise e, cached)
    | Ok [] => (Raise ValueError, cached)
    | Ok (x :: l) => let i := latest x l in (Ok i, Some (Cached st (k_monotonic k + 60000) i))
    end = r →
    cache_ok sg (k :: calls) r.2 ∧ ∀ i, r.1 = Ok i → ∃ k0, k0 ∈ k :: calls ∧ is_Some (Some st) ∧ k_stat k0 = Ok st ∧
      best_of sg k0 i ∧ (k0 = k ∨ k_monotonic k < k_monotonic k0 + 60000 ∧ k_now k < md_expires_at (id_metadata i) * 1000)).
  { intros r <-. destruct (k_read k) as [store|e] eqn:Hr; [|done]. cbn [mbind result_bind].
    destruct (candidates_of (sg_hostname sg) store) as [[|x l]|e] eqn:Hc; [done| |done]. cbn [fst snd].
    assert (Hbest : best_of sg k (latest x l)) by (by eapply get_identity_best). split.
    - intros c [= <-]. exists k. split; [left|done].
    - intros i [= <-]. exists k. split; [left|]. split_and!; eauto. }
  destruct cached as [c|]; [|by apply Hload].
  destruct (bool_decide _ && _ && _) eqn:Hf; [|by apply Hload]. split; [exact Hkeep|]. cbn [fst]. intros i [= <-].
  destruct (Hok c eq_refl) as (k0 & Hin & Hk0 & Hu & Hb).
  apply andb_true_iff in Hf as [[Hs%bool_decide_eq_true_1 ?]%andb_true_iff ?]. subst st. bool_to_prop.
  exists k0. split_and!; [by right|eauto|done|done|right]. lia.
Qed.

(** The signer signs with a current identity: whatever the earlier calls, the identity that is
    returned was confirmed by OpenSSL for the host name, is the one that expires last in the store the
    ACME file held with its present inode, time and size, and was read by this call, or less than a
    minute ago and has not expired. *)
Theorem identity_current sg calls k i cached :
  cached = foldr (fun k cached => after_call sg cached k) None calls →
  (identity_of sg (k_stat k) (k_read k) (k_monotonic k) (k_now k) cached).1 = Ok i →
  ∃ k0, k0 ∈ k :: calls ∧ k_stat k0 = k_stat k ∧ best_of sg k0 i ∧
    (k0 = k ∨ k_monotonic k < k_monotonic k0 + 60000 ∧ k_now k < md_expires_at (id_metadata i) * 1000).
Proof.
  intros -> Hi. assert (Hok : cache_ok sg calls (foldr (fun k cached => after_call sg cached k) None calls)).
  { clear Hi. induction calls as [|k0 calls IH]; [by intros c|]. cbn [foldr]. by apply call_spec. }
  destruct (call_spec sg calls _ k Hok) as [_ H]. destruct (H i Hi) as (k0 & ? & _ & ? & ? & ?). by exists k0.
Qed.
End current.

Definition demo_entry : acme_entry :=
  AcmeEntry "example.com" ["*.example.com"] (Some (b64encode (begin_cert +:+ "leaf" +:+ end_cert))) (Some (b64encode "key")).
Definition demo_call : call :=
  Call (Ok (AcmeStat 1 2 3)) (Ok [None; Some [demo_entry]]) 1000 5000.
Definition demo_described (_ : string) : result metadata := Ok (Metadata "CN=example.com" 900 "ff").
Definition demo_leaf : identity := Identity [begin_cert +:+ "leaf" +:+ end_cert] "key" (Metadata "CN=example.com" 900 "ff").

(** The second of two calls, half a minute later, gets the identity of the first from the cache. *)
Lemma identity_current_witness :
  ∃ k0, k0 ∈ [Call (Ok (AcmeStat 1 2 3)) (Raise OSError) 31000 35000; demo_call] ∧ k_stat k0 = Ok (AcmeStat 1 2 3) ∧
    best_of (fun _ _ => Ok tt) (fun _ _ _ => Ok tt) demo_described demo_signer k0 demo_leaf ∧
    (k0 = Call (Ok (AcmeStat 1 2 3)) (Raise OSError) 31000 35000 ∨ 31000 < k_monotonic k0 + 60000 ∧ 35000 < 900 * 1000).
Proof.
  apply (identity_current (fun _ _ => Ok tt) (fun _ _ _ => Ok tt) demo_described demo_signer [demo_call]
    (Call (Ok (AcmeStat 1 2 3)) (Raise OSError) 31000 35000) demo_leaf
    (after_call (fun _ _ => Ok tt) (fun _ _ _ => Ok tt) demo_described demo_signer None demo_call)).
  - reflexivity.
  - vm_compute. reflexivity.
Defined.

(** ** From the button to the phone *)

Section delivery.
Context (loads : string → result plist) (cms : identity → string → result string) (ready_json : metadata → string).
Context (load_cert_chain : string → string → result unit) (verify_chain : string → list string → string → result unit)
        (describe : string → result metadata).
Context (env : signing) (json_loads : string → result saved_signing) (verify : string → string → result string).
Context (sha uuid5 : string → string).

(** OpenSSL: the CMS that an identity signs verifies under every name for which the chain of its
    certificate verified, and the verification gives the content back. *)
Definition cms_verifies : Prop :=
  ∀ id host content file, confirmed load_cert_chain verify_chain describe host id → cms id content = Ok file →
    verify host file = Ok content.

(** The identity of a call of the signer, after earlier calls. *)
Definition served_identity (sg : signer) (calls : list call) (k : call) : result identity :=
  (get_identity load_cert_chain verify_chain describe sg (k_stat k) (k_read k) (k_monotonic k) (k_now k)
     (foldr (fun k cached => after_call load_cert_chain verify_chain describe sg cached k) None calls)).1.

Lemma served_confirmed sg calls k id :
  served_identity sg calls k = Ok id → confirmed load_cert_chain verify_chain describe (sg_hostname sg) id.
Proof.
  unfold served_identity. set (cached := foldr _ _ _). intros Hid.
  assert (Hok : cache_ok load_cert_chain verify_chain describe sg calls cached).
  { subst cached. clear Hid. induction calls as [|k0 calls IH]; [by intros c|]. cbn [foldr]. by apply call_spec. }
  destruct (call_spec load_cert_chain verify_chain describe sg calls cached k Hok) as [_ H].
  destruct (H id Hid) as (k0 & _ & _ & _ & (store & l & _ & _ & _ & Hc & _) & _). exact Hc.
Qed.

(** C17. Both sides together: the profile the UI builds for a client is one the signer signs, its
    signature passes the UI's own verification, and the client receives it. The conditions are those
    of a working installation: both hosts have the same token and relay URL, the signer's host name is
    the host of that URL, a signing slot is free, and the signer finds an identity in the ACME store,
    whatever calls came before; the client is entitled to a credential; plistlib writes the profile and
    reads back what it wrote; the profile is at most 128 KiB and the signed file at most 256 KiB; and
    OpenSSL signs, and verifies under a host name what was signed by an identity whose chain it had
    confirmed for that name ([cms_verifies]). *)
Theorem relay_profile_delivered sg calls k id used setting config now v guests_dir uuid secret name d d' token u content file :
  let profile := profile_plist sha uuid5 (rd_config d') (default "" (rd_instance d')) name token (bool_decide (name ∈ guests_dir)) in
  (* the settings of both hosts *)
  signing_config env json_loads setting = Ok config → validate_signer_url (sc_url config) = Ok tt →
  token_ok (sc_token config) = true → sg_token sg = sc_token config → sg_relay_url sg = rc_url (rd_config d') →
  urlsplit (rc_url (rd_config d')) = Some u → url_hostname u = Some (sg_hostname sg) → (used < SIGN_SLOTS)%nat →
  served_identity sg calls k = Ok id →
  (* the credential and its file *)
  Relay.profile now v uuid secret name d = Ok (d', token) → dumps profile = Ok content → strlen content <= MAX_PROFILE →
  (* plistlib and OpenSSL *)
  loads content = Ok profile → cms id content = Ok file → strlen file <= MAX_REPLY → cms_verifies →
  relay_profile sha uuid5
    (fun c h => sign_profile env json_loads (through_signer loads cms ready_json sg (served_identity sg calls k) used) verify c h setting)
    now v guests_dir uuid secret name d = (Ok file, d').
Proof.
  intros profile Hconfig Hurl Htoken Hsame Hrelay Hu Hhost Hused Hid Hprofile Hdumps Hlen Hloads Hcms Hreply Hlaw.
  assert (Hverify : verify (sg_hostname sg) file = Ok content) by (eapply Hlaw; [by eapply served_confirmed|done]).
  assert (Hsign : sign loads cms sg (Ok id) content = Ok file).
  { unfold sign. destruct (Z.ltb_spec MAX_PROFILE (strlen content)); [lia|]. cbn [raise_if mbind result_bind].
    rewrite Hloads. cbn [mbind result_bind]. rewrite Hdumps. cbn [mbind result_bind]. rewrite String.eqb_refl, Hrelay.
    cbn [negb raise_if mbind result_bind]. unfold profile. by rewrite own_profile_passes. }
  assert (Hne : content ≠ "").
  { intros ->. unfold dumps in Hdumps. destruct (write_value 0 profile); [|done]. by vm_compute in Hdumps. }
  unfold relay_profile. rewrite Hprofile. fold profile. f_equal. rewrite Hdumps. cbn [mbind result_bind].
  rewrite Hu. cbn [of_option mbind result_bind]. rewrite Hhost. change (default "" (Some (sg_hostname sg))) with (sg_hostname sg).
  unfold sign_profile. rewrite Hconfig. cbn [mbind result_bind].
  destruct (empty (sc_url config)) eqn:Ee; [apply String.eqb_eq in Ee; by rewrite Ee in Hurl|].
  unfold signing_request. rewrite Hurl, Htoken. cbn [negb raise_if mbind result_bind]. rewrite <-Hsame, Hid.
  rewrite (through_signer_signs loads cms ready_json sg id used (sc_url config) content file) by done.
  destruct (Z.ltb_spec MAX_REPLY (strlen file)); [lia|]. cbn [mbind result_bind]. rewrite Hverify. cbn [mbind result_bind].
  by rewrite String.eqb_refl.
Qed.
End delivery.

(** A store for the host of the relay, and a call that meets it after half a minute. *)
Definition relay_entry : acme_entry :=
  AcmeEntry "relay.example.com" [] (Some (b64encode (begin_cert +:+ "leaf" +:+ end_cert))) (Some (b64encode "key")).
Definition relay_call (t : Z) : call := Call (Ok (AcmeStat 1 2 3)) (Ok [Some [relay_entry]]) t (4000 + t).

Lemma relay_profile_delivered_witness :
  relay_profile demo_digest demo_digest
    (fun c h => sign_profile demo_env demo_json
       (through_signer demo_loads demo_cms demo_ready demo_signer
          (served_identity (fun _ _ => Ok tt) (fun _ _ _ => Ok tt) demo_described demo_signer [relay_call 1000] (relay_call 31000)) 3)
       demo_verify c h None)
    500 demo_pki ∅ "uuid" "secret" "alice" demo_db = (Ok ("signed:" +:+ demo_content), demo_db).
Proof.
  apply (relay_profile_delivered demo_loads demo_cms demo_ready (fun _ _ => Ok tt) (fun _ _ _ => Ok tt) demo_described
    demo_env demo_json demo_verify demo_digest demo_digest
    demo_signer [relay_call 1000] (relay_call 31000) demo_leaf 3 None (Signing (sc_url demo_env) demo_token true "environment")
    500 demo_pki ∅ "uuid" "secret" "alice" demo_db demo_db "alice:s3cret" (Url "https" "relay.example.com" "" "" "") demo_content).
  all: try (vm_compute; reflexivity).
  all: try (vm_compute; discriminate).
  intros i host content file _ Hf. unfold demo_cms in Hf. apply Ok_inj in Hf as <-. unfold demo_verify.
  rewrite (proj2 (startswith_iff "signed:" ("signed:" +:+ content))) by eauto. reflexivity.
Defined.

(** A profile with an integer that no property list can hold again is answered by nothing: the
    OverflowError of [dumps] is none of the exceptions that [dispatch] turns into a response. *)
Theorem huge_integer_unanswered cms ready_json sg get_id content :
  content ≠ "" → strlen content <= MAX_PROFILE →
  dispatch (fun _ => Ok (PDict [("PayloadVersion", PInteger (2 ^ 64))])) cms ready_json sg get_id 0 true
    (SignRequest "/internal/relay-sign" ("Bearer " +:+ sg_token sg) (Some (nat_str (strlen content))) None (Ok content))
  = Raise OverflowError.
Proof.
  intros Hne Hlen. unfold dispatch. cbn [rq_path rq_authorization]. rewrite !String.eqb_refl. cbn [negb Nat.leb SIGN_SLOTS].
  unfold sign_body. cbn [rq_length rq_chunked rq_body]. assert (0 < strlen content) by (destruct content; [done|unfold strlen; cbn; lia]).
  change (default "0" (Some (nat_str (strlen content)))) with (nat_str (strlen content)). rewrite py_int_nat_str by lia.
  cbn [of_option mbind result_bind]. destruct (Z.ltb_spec 0 (strlen content)); [|lia].
  destruct (Z.leb_spec (strlen content) MAX_PROFILE); [|lia]. cbn [negb andb orb truthy fmap result_map].
  assert (Ht : str_take (Z.to_nat (strlen content)) content = content) by (unfold strlen; rewrite Nat2Z.id; apply str_take_all).
  rewrite Ht. cbn [mbind result_bind]. rewrite Z.eqb_refl. cbn [negb]. unfold sign.
  destruct (Z.ltb_spec MAX_PROFILE (strlen content)); [lia|]. reflexivity.
Qed.
