(* ===== verification/Backups.v ===== *)
(** * Backup archives: [ui/app/backup.py]

    The backup directory is a map of names to files.  What goes into an archive ([pg_dump],
    [tar] and [age]) and the time stamp of its name are arguments; a failing copy leaves a part
    of it under the partial name, and removing that may fail as well. *)

From S2P Require Import Prelude PyStr Regex Network.

Open Scope string_scope.
Open Scope list_scope.
Open Scope Z_scope.

Definition ITEMS : list string :=
  ["server.conf"; "config"; "pki"; "clients"; "staticclients"; "guests"; "fw-rules.sh"; "docker-compose.yml"; ".env"].
Definition PREFIX : string := "openvpn-backup-".
Definition SUFFIX : string := ".tar.gz".
Definition MAX_AGE : Z := 86400.

(** A file: its content and its modification time (seconds). *)
Record file := File { f_content : string; f_mtime : Z }.
Abbreviation directory := (gmap string file).

Record backup_settings := BackupSettings { bs_keep : Z; bs_recipient : string }.

Fixpoint str_contains (needle s : string) : bool :=
  startswith needle s || match s with EmptyString => false | String _ s => str_contains needle s end.

(** The glob [openvpn-backup-*.tar.gz*]. *)
Definition is_archive (name : string) : bool :=
  startswith PREFIX name && str_contains SUFFIX (str_drop (String.length PREFIX) name).

(** [archives()], sorted by name. *)
Definition archives (dir : directory) : list string :=
  merge_sort String.le (filter (fun n => is_archive n = true) (map_to_list dir).*1).

Record backup_status := BackupStatus { st_enabled : bool; st_count : nat; st_last : option Z; st_encrypted : bool }.
Definition status (s : backup_settings) (dir : directory) : backup_status :=
  let found := archives dir in
  BackupStatus (0 <? bs_keep s) (length found) (match last found with Some n => f_mtime <$> dir !! n | None => None end) (negb (empty (bs_recipient s))).

(** The names an archive holds: the items that exist, and the snapshot of the database. *)
Definition archive_members (exists_ : string → bool) (snapshot : bool) : list string :=
  List.filter exists_ ITEMS ++ (if snapshot then ["db/openvpn-ui.pgdump"] else []).

(** [RECIPIENT_RE.fullmatch]. *)
Definition recipient_ok (r : string) : bool := startswith "age1" r && (strlen r =? 62) && str_forall az09 (str_drop 4 r).

Definition target_name (stamp recipient : string) : string :=
  PREFIX +:+ stamp +:+ SUFFIX +:+ (if empty recipient then "" else ".age").

Definition partial_name (pid thread : Z) : string := ".partial-" +:+ nat_str pid +:+ "-" +:+ nat_str thread.

(** How far the copy into the directory comes: the part cannot be opened, is not written
    as a whole or not synced, does not get its final name (or gets it, and the answer is lost),
    or everything goes well. *)
Inductive copy_outcome := OpenFailed | WriteFailed (written : string) | RenameFailed (renamed : bool) | CopyDone.

Definition copy_over (target partial built : string) (now : Z) (copy : copy_outcome) (dir : directory) : result unit * directory :=
  let renamed := delete partial (<[target := File built now]> dir) in
  match copy with
  | OpenFailed => (Raise OSError, dir)
  | WriteFailed written => (Raise OSError, <[partial := File written now]> dir)
  | RenameFailed done => (Raise OSError, if done then renamed else <[partial := File built now]> dir)
  | CopyDone => (Ok tt, renamed)
  end.

(** [old.unlink()] for each; [unlink_ok] is whether it works. *)
Fixpoint unlink_all (unlink_ok : string → bool) (names : list string) (dir : directory) : result unit * directory :=
  match names with
  | [] => (Ok tt, dir)
  | n :: names => if unlink_ok n then unlink_all unlink_ok names (delete n dir) else (Raise OSError, dir)
  end.

(** [partial.unlink(missing_ok=True)]. *)
Definition remove_partial (unlink_ok : string → bool) (partial : string) (dir : directory) : result unit * directory :=
  if unlink_ok partial then (Ok tt, delete partial dir) else (Raise OSError, dir).

(** [create]: [build] is the archive, or the error of making it; [partial] is [partial_name].
    An error of the [finally] takes the place of the copy's. *)
Definition create (s : backup_settings) (stamp partial : string) (now : Z) (build : result string) (copy : copy_outcome)
    (unlink_ok : string → bool) (dir : directory) : result string * directory :=
  if negb (empty (bs_recipient s)) && negb (recipient_ok (bs_recipient s)) then (Raise ValueError, dir)
  else
    let target := target_name stamp (bs_recipient s) in
    match build with
    | Raise e => (Raise e, dir)
    | Ok built =>
        let '(copied, dir) := copy_over target partial built now copy dir in
        let '(removed, dir) := remove_partial unlink_ok partial dir in
        match removed, copied with
        | Raise e, _ | _, Raise e => (Raise e, dir)
        | Ok _, Ok _ =>
            if 0 <? bs_keep s then
              let found := archives dir in
              match unlink_all unlink_ok (take (length found - Z.to_nat (bs_keep s)) found) dir with
              | (Raise e, dir) => (Raise e, dir)
              | (Ok _, dir) => (Ok target, dir)
              end
            else (Ok target, dir)
        end
    end.

(** [ensure_recent], for a call of [create]. *)
Definition ensure_recent (s : backup_settings) (now : Z) (do_create : directory → result string * directory) (dir : directory)
    : result (option string) * directory :=
  let st := status s dir in
  if st_enabled st && match st_last st with None => true | Some t => MAX_AGE <=? now - t end
  then match do_create dir with
       | (Ok target, dir) => (Ok (Some target), dir)
       | (Raise e, dir) => (Raise e, dir)
       end
  else (Ok None, dir).

(** ** Lemmas *)

#[export] Instance string_le_total : Total String.le := String.le_total.

Lemma elem_of_archives n dir : n ∈ archives dir ↔ is_archive n = true ∧ is_Some (dir !! n).
Proof.
  unfold archives. rewrite merge_sort_Permutation, list_elem_of_filter, list_elem_of_fmap. split.
  - intros [Ha ((k & f) & -> & Hin%elem_of_map_to_list)]. eauto.
  - intros [Ha [f Hf]]. split; [done|]. exists (n, f). by rewrite elem_of_map_to_list.
Qed.

Lemma NoDup_archives dir : NoDup (archives dir).
Proof.
  unfold archives. rewrite merge_sort_Permutation. apply NoDup_filter, NoDup_fst_map_to_list.
Qed.

Lemma Sorted_archives dir : StronglySorted String.le (archives dir).
Proof. unfold archives. apply (StronglySorted_merge_sort String.le); apply _. Qed.

(** A sorted list without duplicates of the archives is [archives]. *)
Lemma archives_unique l dir :
  StronglySorted String.le l → NoDup l → (∀ n, n ∈ l ↔ is_archive n = true ∧ is_Some (dir !! n)) → archives dir = l.
Proof.
  intros Hs Hn Hin. apply (StronglySorted_unique String.le); [apply Sorted_archives|done|].
  apply NoDup_Permutation; [apply NoDup_archives|done|]. intros n. by rewrite elem_of_archives, Hin.
Qed.

Lemma unlink_all_Ok ok names dir dir' : unlink_all ok names dir = (Ok tt, dir') →
  ∀ n, dir' !! n = if bool_decide (n ∈ names) then None else dir !! n.
Proof.
  revert dir. induction names as [|m names IH]; intros dir; cbn [unlink_all]; [by intros [= <-]|].
  destruct (ok m); [|done]. intros H n. rewrite (IH _ H). destruct (decide (n = m)) as [->|Hne].
  - rewrite (bool_decide_eq_true_2 (m ∈ m :: names)) by left. case_bool_decide; [done|by rewrite lookup_delete_eq].
  - rewrite lookup_delete_ne by done. repeat case_bool_decide; set_solver.
Qed.

(** What unlinking leaves, however far it comes. *)
Lemma unlink_all_keeps ok names dir n : n ∉ names → (unlink_all ok names dir).2 !! n = dir !! n.
Proof.
  revert dir. induction names as [|m names IH]; intros dir Hn; [done|]. cbn [unlink_all]. destruct (ok m); [|done].
  rewrite IH by set_solver. apply lookup_delete_ne. set_solver.
Qed.
Lemma unlink_all_subset ok names dir n : (unlink_all ok names dir).2 !! n = dir !! n ∨ (unlink_all ok names dir).2 !! n = None.
Proof.
  revert dir. induction names as [|m names IH]; intros dir; [by left|]. cbn [unlink_all]. destruct (ok m); [|by left].
  destruct (IH (delete m dir)) as [->| ->]; [|by right]. destruct (decide (n = m)) as [->|]; [right; apply lookup_delete_eq|].
  left. by apply lookup_delete_ne.
Qed.

Lemma str_contains_here needle s t : str_contains needle (s +:+ needle +:+ t) = true.
Proof.
  induction s as [|c s IH].
  - assert (H : startswith needle (needle +:+ t) = true) by (apply startswith_iff; eauto). cbn [String.append].
    destruct (needle +:+ t) as [|d u] eqn:E; cbn [str_contains]; rewrite H; done.
  - cbn [String.append str_contains]. rewrite IH. apply orb_true_r.
Qed.

Lemma is_archive_target stamp recipient : is_archive (target_name stamp recipient) = true.
Proof.
  unfold is_archive, target_name. apply andb_true_iff. split; [apply startswith_iff; eauto|].
  rewrite str_drop_app. apply str_contains_here.
Qed.

Lemma is_archive_partial pid thread : is_archive (partial_name pid thread) = false.
Proof. reflexivity. Qed.

Lemma drop_take_elem {A} (l : list A) k x : NoDup l → x ∈ l → (x ∈ drop k l ↔ x ∉ take k l).
Proof.
  intros Hn Hx. rewrite <-(take_drop k l) in Hn, Hx. apply NoDup_app in Hn as (_ & Hd & _). apply elem_of_app in Hx. naive_solver.
Qed.

Lemma last_greatest l x : StronglySorted String.le l → x ∈ l → (∀ y, y ∈ l → String.le y x) → last l = Some x.
Proof.
  intros Hs Hx Hmax. destruct (last l) as [y|] eqn:Hl; [|apply last_None in Hl as ->; set_solver].
  assert (Hy : y ∈ l) by (by apply last_Some_elem_of). f_equal. apply (anti_symm String.le); [by apply Hmax|].
  apply last_Some in Hl as [l' ->]. apply elem_of_app in Hx as [Hx| ->%list_elem_of_singleton]; [|done].
  eapply StronglySorted_app_1_elem_of; [exact Hs|done|by left].
Qed.

(** The newest archive of a directory is the one with the last name. *)
Lemma status_last s dir x f : dir !! x = Some f → is_archive x = true → (∀ n, n ∈ archives dir → String.le n x) →
  st_last (status s dir) = Some (f_mtime f).
Proof.
  intros Hx Ha Hmax. unfold status. cbn [st_last]. rewrite (last_greatest (archives dir) x); [by rewrite Hx|apply Sorted_archives| |done].
  apply elem_of_archives. eauto.
Qed.

(** ** Theorems *)

Section create_theorems.
Context (s : backup_settings) (stamp partial : string) (now : Z) (unlink_ok : string → bool).
Context (Hpartial : is_archive partial = false).
Abbreviation create_at := (create s stamp partial now).
Abbreviation target := (target_name stamp (bs_recipient s)).

Lemma target_not_partial : target ≠ partial.
Proof. intros He. pose proof (is_archive_target stamp (bs_recipient s)) as Ht. by rewrite He, Hpartial in Ht. Qed.

Lemma copy_over_spec built copy dir r dir' :
  copy_over target partial built now copy dir = (r, dir') →
  (∀ n, n ≠ partial → dir' !! n = dir !! n ∨ (dir' = delete partial (<[target := File built now]> dir))) ∧
  (r = Ok tt → copy = CopyDone ∧ dir' = delete partial (<[target := File built now]> dir)) ∧
  (copy ≠ CopyDone → copy ≠ RenameFailed true → ∀ n, n ≠ partial → dir' !! n = dir !! n).
Proof.
  destruct copy as [|written|[]|]; cbn [copy_over]; intros [= <- <-]; split_and!; try done; intros; try (by right);
    try (left; by rewrite lookup_insert_ne by done); try (by left); by rewrite lookup_insert_ne by done.
Qed.

(** What a call of [create] that comes to the copy leaves. *)
Lemma create_cases build copy dir r dir' :
  create_at build copy unlink_ok dir = (r, dir') →
  (dir' = dir ∧ ∃ e, r = Raise e) ∨
  ∃ built, build = Ok built ∧ (bs_recipient s = "" ∨ recipient_ok (bs_recipient s) = true) ∧
    (unlink_ok partial = true → dir' !! partial = None) ∧
    (∀ n, n ≠ partial → dir' !! n = dir !! n ∨
       ((copy = CopyDone ∨ copy = RenameFailed true) ∧ (dir' !! n = <[target := File built now]> dir !! n ∨ dir' !! n = None))) ∧
    (∀ t, r = Ok t → t = target ∧ copy = CopyDone ∧ unlink_ok partial = true).
Proof.
  pose proof target_not_partial as Htp. unfold Backups.create.
  destruct (negb (empty (bs_recipient s)) && negb (recipient_ok (bs_recipient s))) eqn:Er; [intros [= <- <-]; eauto|].
  assert (Hrec : bs_recipient s = "" ∨ recipient_ok (bs_recipient s) = true).
  { destruct (empty (bs_recipient s)) eqn:Ee; [left; by apply String.eqb_eq|]. right. by destruct (recipient_ok _). }
  destruct build as [built|e]; [|intros [= <- <-]; eauto].
  destruct (copy_over _ _ _ _ _ _) as [copied dir1] eqn:Ec. apply copy_over_spec in Ec as (Hc1 & Hc2 & Hc3).
  assert (Hcase : ∀ n, n ≠ partial → dir1 !! n = dir !! n ∨ ((copy = CopyDone ∨ copy = RenameFailed true) ∧ dir1 !! n = <[target := File built now]> dir !! n)).
  { intros n Hn. destruct copy as [|w|[]|]; try (left; by apply Hc3); destruct (Hc1 n Hn) as [| ->]; auto;
      right; (split; [auto|by rewrite lookup_delete_ne]). }
  unfold remove_partial. destruct (unlink_ok partial) eqn:Eu; intros H; right; exists built.
  - assert (Hstep : ∀ d : directory, (∀ n, d !! n = delete partial dir1 !! n ∨ copy = CopyDone ∧ d !! n = None) →
      d !! partial = None ∧ ∀ n, n ≠ partial → d !! n = dir !! n ∨
        ((copy = CopyDone ∨ copy = RenameFailed true) ∧ (d !! n = <[target := File built now]> dir !! n ∨ d !! n = None))).
    { intros d Hd. split; [destruct (Hd partial) as [-> | [_ ->]]; [apply lookup_delete_eq|done]|]. intros n Hn.
      destruct (Hd n) as [-> | [-> ->]]; [|auto]. rewrite lookup_delete_ne by done. destruct (Hcase n Hn) as [|[? ?]]; auto. }
    destruct copied as [[]|e].
    + destruct (Hc2 eq_refl) as [-> _]. destruct (0 <? bs_keep s).
      * destruct (unlink_all _ _ _) as [[[]|e] d] eqn:Eul; injection H as <- <-;
          (destruct (Hstep d) as [? ?];
            [intros n; match type of Eul with unlink_all _ ?l ?d0 = _ => pose proof (unlink_all_subset unlink_ok l d0 n) as Hs end;
             rewrite Eul in Hs; destruct Hs; auto|split_and!; eauto; by intros t [= <-]]).
      * injection H as <- <-. destruct (Hstep (delete partial dir1)) as [? ?]; [auto|]. split_and!; auto. by intros t [= <-].
    + injection H as <- <-. destruct (Hstep (delete partial dir1)) as [? ?]; [auto|]. split_and!; auto. done.
  - injection H as <- <-. split_and!; auto; try done. intros n Hn. destruct (Hcase n Hn) as [|[? ?]]; auto.
Qed.

(** What a successful [create] leaves. *)
Lemma create_Ok build copy dir dir' r : create_at build copy unlink_ok dir = (Ok r, dir') →
  r = target ∧ copy = CopyDone ∧ ∃ built, build = Ok built ∧
    (∀ n, dir' !! n = <[target := File built now]> dir !! n ∨ dir' !! n = None).
Proof.
  intros H. pose proof target_not_partial as Htp.
  destruct (create_cases _ _ _ _ _ H) as [[_ [e ?]]|(built & -> & _ & Hpart & Hd & Hr)]; [done|].
  destruct (Hr r eq_refl) as (-> & -> & Hu). split_and!; [done..|]. exists built. split; [done|]. intros n.
  destruct (decide (n = partial)) as [->|Hn]; [right; by apply Hpart|]. destruct (Hd n Hn) as [Heq|[_ ?]]; [|done].
  unfold Backups.create in H. destruct (_ && _); [done|]. cbn [copy_over] in H. unfold remove_partial in H. rewrite Hu in H.
  destruct (0 <? bs_keep s).
  - destruct (unlink_all _ _ _) as [[[]|e] d] eqn:Eu; [|done]. injection H as <-.
    match type of Eu with unlink_all _ ?l ?d0 = _ => pose proof (unlink_all_subset unlink_ok l d0 n) as Hs end.
    rewrite Eu in Hs. cbn [snd] in Hs. rewrite !lookup_delete_ne in Hs by done. done.
  - injection H as <-. left. by rewrite !lookup_delete_ne by done.
Qed.

(** Retention: a successful backup leaves the last [keep] archives by name, of those before and
    the new one, each as it was; so the new archive is there whenever its name is the last. *)
Theorem backup_retention built dir dir' :
  create_at (Ok built) CopyDone unlink_ok dir = (Ok target, dir') → 0 < bs_keep s → dir !! partial = None →
  let before := archives (<[target := File built now]> dir) in
  archives dir' = drop (length before - Z.to_nat (bs_keep s)) before ∧
  (Z.of_nat (length (archives dir')) <= bs_keep s) ∧
  (∀ n, n ∈ archives dir' → dir' !! n = <[target := File built now]> dir !! n) ∧
  ((∀ n, n ∈ archives dir → String.le n target) → dir' !! target = Some (File built now)).
Proof.
  intros H Hkeep Hp before. pose proof target_not_partial as Htp. unfold Backups.create in H.
  destruct (_ && _); [done|]. cbn [copy_over] in H. unfold remove_partial in H.
  destruct (unlink_ok partial); [|done]. rewrite delete_delete_eq, delete_id in H by (by rewrite lookup_insert_ne).
  destruct (Z.ltb_spec 0 (bs_keep s)); [|lia]. fold before in H. set (k := (length before - Z.to_nat (bs_keep s))%nat) in *.
  destruct (unlink_all _ _ _) as [[[]|e] d] eqn:Eu; [|done]. injection H as <-.
  pose proof (unlink_all_Ok _ _ _ _ Eu) as Hd. pose proof (NoDup_archives (<[target := File built now]> dir)) as Hn. fold before in Hn.
  assert (Ha : archives d = drop k before).
  { apply archives_unique.
    - pose proof (Sorted_archives (<[target := File built now]> dir)) as Hs. fold before in Hs.
      rewrite <-(take_drop k before) in Hs. by apply StronglySorted_app_1_r in Hs.
    - rewrite <-(take_drop k before) in Hn. by apply NoDup_app in Hn as (_ & _ & ?).
    - intros n. rewrite Hd. split.
      + intros Hin. assert (Hb : n ∈ before) by (by eapply elem_of_drop_1).
        rewrite bool_decide_eq_false_2 by (by apply drop_take_elem). by apply elem_of_archives.
      + intros [Hna Hsome]. case_bool_decide as Ht; [by destruct Hsome|]. apply drop_take_elem; [done| |done].
        by apply elem_of_archives. }
  split_and!.
  - done.
  - rewrite Ha, length_drop. lia.
  - intros n. rewrite Ha. intros Hin. rewrite Hd, bool_decide_eq_false_2; [done|]. apply drop_take_elem; [done| |done].
    by eapply elem_of_drop_1.
  - intros Hmax. rewrite Hd, bool_decide_eq_false_2; [by rewrite lookup_insert_eq|]. intros Ht.
    assert (Hne : drop k before ≠ []).
    { intros He%(f_equal length). rewrite length_drop in He. cbn in He. unfold k in *.
      destruct before as [|b l]; [rewrite take_nil in Ht; set_solver|]. cbn in He. lia. }
    destruct (drop k before) as [|y l] eqn:Ey; [done|]. assert (Hyb : y ∈ before) by (eapply elem_of_drop_1; rewrite Ey; left).
    pose proof (Sorted_archives (<[target := File built now]> dir)) as Hs. fold before in Hs.
    rewrite <-(take_drop k before), Ey in Hs, Hn.
    assert (Hty : String.le target y) by (eapply StronglySorted_app_1_elem_of; [exact Hs|done|left]).
    apply NoDup_app in Hn as (_ & Hdis & _). apply (Hdis target); [done|].
    enough (y = target) as -> by left. unfold before in Hyb. apply elem_of_archives in Hyb as [Hya Hys].
    destruct (decide (y = target)) as [|Hne']; [done|]. rewrite lookup_insert_ne in Hys by done.
    apply (anti_symm String.le); [|done]. apply Hmax. by apply elem_of_archives.
Qed.
End create_theorems.

(** C20. A backup is complete or not there, whatever fails: the making of the archive, opening,
    writing, syncing or renaming the part (also when the rename happens and its answer is lost),
    removing the part, or removing old archives. Afterwards everything in the directory but the part
    was there before, unchanged, or is the new archive with all of its content under its final name.
    The part is never taken for an archive, and it is gone unless the call failed before the copy or
    its removal failed, which [create] reports. Nothing else is deleted or replaced unless the
    new archive has been copied as a whole, and a call that succeeds has done that. *)
Theorem backup_complete_or_absent s stamp pid thread now build copy unlink_ok dir r dir' :
  let partial := partial_name pid thread in
  let target := target_name stamp (bs_recipient s) in
  create s stamp partial now build copy unlink_ok dir = (r, dir') →
  (∀ n f, n ≠ partial → dir' !! n = Some f → dir !! n = Some f ∨ (n = target ∧ build = Ok (f_content f))) ∧
  (partial ∉ archives dir' ∧ (dir' !! partial = None ∨ ∃ e, r = Raise e ∧ (dir' = dir ∨ unlink_ok partial = false))) ∧
  ((∃ built, build = Ok built ∧ (copy = CopyDone ∨ copy = RenameFailed true)
      ∧ (bs_recipient s = "" ∨ recipient_ok (bs_recipient s) = true)) ∨ ∀ n, n ≠ partial → dir' !! n = dir !! n) ∧
  (∀ t, r = Ok t → t = target ∧ copy = CopyDone ∧ is_ok build = true).
Proof.
  intros partial target H. pose proof (is_archive_partial pid thread) as Hp.
  destruct (create_cases s stamp partial now unlink_ok Hp _ _ _ _ _ H) as [[-> [e ->]]|(built & -> & Hrec & Hpart & Hd & Hr)].
  { split_and!; eauto; [|done]. rewrite elem_of_archives. by intros [? _]; simplify_eq. }
  split_and!.
  - intros n f Hn Hf. destruct (Hd n Hn) as [Heq|[_ [Heq|Heq]]]; rewrite Heq in Hf; [auto| |done].
    destruct (decide (n = target)) as [->|Hne]; [rewrite lookup_insert_eq in Hf; injection Hf as <-; auto|].
    rewrite lookup_insert_ne in Hf by done. auto.
  - rewrite elem_of_archives. by intros [? _]; simplify_eq.
  - destruct (unlink_ok partial) eqn:Eu; [left; by apply Hpart|right]. destruct r as [t|e]; [|eauto].
    destruct (Hr t eq_refl) as (_ & _ & ?). done.
  - destruct copy as [|w|[]|]; try (right; intros n Hn; destruct (Hd n Hn) as [|[[|] _]]; done); left; eauto.
  - intros t ->. destruct (Hr t eq_refl) as (? & ? & _). done.
Qed.

Definition demo_settings : backup_settings := BackupSettings 2 "".
Definition demo_dir : directory :=
  {["openvpn-backup-20260101-000000.tar.gz" := File "old" 100; "openvpn-backup-20260102-000000.tar.gz" := File "new" 200;
    "notes.txt" := File "mine" 50]}.
Definition demo_after : directory :=
  {["openvpn-backup-20260103-000000.tar.gz" := File "newest" 100000; "openvpn-backup-20260102-000000.tar.gz" := File "new" 200;
    "notes.txt" := File "mine" 50]}.

Lemma demo_create : create demo_settings "20260103-000000" ".partial-1-2" 100000 (Ok "newest") CopyDone (fun _ => true) demo_dir
  = (Ok (target_name "20260103-000000" ""), demo_after).
Proof. vm_compute. reflexivity. Qed.

(** One archive a day: after the maintenance task has made one whose name is the last, the task
    makes no other for a day; when there is none, or the last is a day old, it makes one. *)
Theorem one_backup_a_day s stamp partial now unlink_ok build copy dir dir' target later do_create :
  is_archive partial = false → (∀ n, n ∈ archives dir → String.le n (target_name stamp (bs_recipient s))) →
  ensure_recent s now (create s stamp partial now build copy unlink_ok) dir = (Ok (Some target), dir') →
  dir' !! target_name stamp (bs_recipient s) ≠ None →
  (later - now < MAX_AGE → ensure_recent s later do_create dir' = (Ok None, dir')) ∧
  (MAX_AGE <= later - now → ensure_recent s later do_create dir'
     = match do_create dir' with (Ok t, d) => (Ok (Some t), d) | (Raise e, d) => (Raise e, d) end).
Proof.
  intros Hpart Hmax H Hthere. unfold ensure_recent in H. destruct (st_enabled (status s dir) && _) eqn:He; [|done].
  apply andb_true_iff in He as [He _]. cbn [status st_enabled] in He.
  destruct (create _ _ _ _ _ _ _ _) as [[t|e] d] eqn:Hc; [|done]. injection H as -> ->.
  destruct (create_Ok s stamp partial now unlink_ok Hpart _ _ _ _ _ Hc) as (-> & -> & built & -> & Hd).
  set (tg := target_name stamp (bs_recipient s)) in *. destruct (dir' !! tg) as [f|] eqn:Hf; [|done].
  assert (f = File built now) as ->.
  { destruct (Hd tg) as [Ht|Ht]; rewrite Ht in Hf; [|done]. rewrite lookup_insert_eq in Hf. by injection Hf. }
  assert (Hlast : st_last (status s dir') = Some now).
  { apply (status_last s dir' tg (File built now)); [done|apply is_archive_target|].
    intros n [Ha [g Hg]]%elem_of_archives. destruct (Hd n) as [Hn|Hn]; [|by rewrite Hn in Hg].
    destruct (decide (n = tg)) as [->|Hne]; [done|]. rewrite lookup_insert_ne in Hn by done. apply Hmax, elem_of_archives.
    split; [done|]. exists g. by rewrite <-Hn. }
  unfold ensure_recent. rewrite Hlast. change (st_enabled (status s dir')) with (0 <? bs_keep s). rewrite He. cbn [andb].
  destruct (Z.leb_spec MAX_AGE (later - now)); split; intros; try lia; done.
Qed.

Lemma demo_order n : n ∈ archives demo_dir → String.le n (target_name "20260103-000000" "").
Proof.
  assert (Ha : archives demo_dir = ["openvpn-backup-20260101-000000.tar.gz"; "openvpn-backup-20260102-000000.tar.gz"])
    by (vm_compute; reflexivity).
  rewrite Ha. intros [->|[->|[]%not_elem_of_nil]%elem_of_cons]%elem_of_cons; vm_compute; exact I.
Qed.

Definition share_lost : directory := <[partial_name 7 8 := File "new" 100000]> demo_dir.

(** The network share goes away while the archive is written. *)
Lemma backup_complete_or_absent_witness :
  create demo_settings "20260103-000000" (partial_name 7 8) 100000 (Ok "newest") (WriteFailed "new") (fun _ => false) demo_dir
    = (Raise OSError, share_lost) ∧
  (∀ n f, n ≠ partial_name 7 8 → share_lost !! n = Some f →
     demo_dir !! n = Some f ∨ (n = target_name "20260103-000000" "" ∧ Ok "newest" = Ok (f_content f))) ∧
  partial_name 7 8 ∉ archives share_lost.
Proof.
  assert (H : create demo_settings "20260103-000000" (partial_name 7 8) 100000 (Ok "newest") (WriteFailed "new") (fun _ => false) demo_dir
    = (Raise OSError, share_lost)) by (vm_compute; reflexivity).
  split; [exact H|].
  destruct (backup_complete_or_absent demo_settings "20260103-000000" 7 8 100000 (Ok "newest") (WriteFailed "new") (fun _ => false)
    demo_dir (Raise OSError) share_lost H) as (Hc & [Hp _] & _). split; [exact Hc|exact Hp].
Defined.

Lemma backup_retention_witness :
  let before := archives (<[target_name "20260103-000000" "" := File "newest" 100000]> demo_dir) in
  archives demo_after = drop (length before - 2) before ∧
  (Z.of_nat (length (archives demo_after)) <= 2) ∧
  (∀ n, n ∈ archives demo_after → demo_after !! n = <[target_name "20260103-000000" "" := File "newest" 100000]> demo_dir !! n) ∧
  ((∀ n, n ∈ archives demo_dir → String.le n (target_name "20260103-000000" "")) →
   demo_after !! target_name "20260103-000000" "" = Some (File "newest" 100000)).
Proof.
  refine (backup_retention demo_settings "20260103-000000" ".partial-1-2" 100000 (fun _ => true) eq_refl _ _ _ demo_create _ _);
    [vm_compute; reflexivity|reflexivity].
Defined.

Lemma one_backup_a_day_witness :
  ensure_recent demo_settings 186400 (fun d => (Raise OSError, d)) demo_after = (Raise OSError, demo_after) ∧
  ((186399 - 100000 < MAX_AGE → ensure_recent demo_settings 186399 (fun d => (Raise OSError, d)) demo_after = (Ok None, demo_after)) ∧
   (MAX_AGE <= 186399 - 100000 → ensure_recent demo_settings 186399 (fun d => (Raise OSError, d)) demo_after
      = (Raise OSError, demo_after))).
Proof.
  split; [vm_compute; reflexivity|].
  apply (one_backup_a_day demo_settings "20260103-000000" ".partial-1-2" 100000 (fun _ => true) (Ok "newest") CopyDone demo_dir demo_after
    (target_name "20260103-000000" "") 186399 (fun d => (Raise OSError, d))).
  - reflexivity.
  - apply demo_order.
  - vm_compute. reflexivity.
  - vm_compute. discriminate.
Defined.
