(* ===== verification/Recovery.v ===== *)
(** * Checkout recovery: [bin/recover-checkout.py]

    The update of a deployment checkout whose earlier update was interrupted.  [git] and the
    file system are arguments: what a reference holds of a file, and what stashing and merging
    make of the working tree.  The private copies the helper takes are a list of records. *)

From S2P Require Import Prelude PyStr.

Open Scope string_scope.
Open Scope list_scope.
Open Scope Z_scope.

Definition CODE_DIRS : list string := [".git"; ".github"; "bin"; "relay"; "signer"; "postgres"; "tests"; "ui"].
Definition CODE_FILES : list string :=
  [".dockerignore"; ".env.example"; ".gitignore"; "CHANGELOG.md"; "README.md"; "backup.sh"; "docker-compose.yml"; "Dockerfile";
   "docker-entrypoint.sh"; "LICENSE"].
Definition RUNTIME_CONFIGS : list string := ["server.conf"; "config/client.conf"; "config/easy-rsa.vars"; "fw-rules.sh"].
Definition RECOVERY_PREFIX : string := "openvpn-checkout-recovery-".
Definition compose : string := "docker-compose.yml".

(** [is_code]. *)
Definition is_code (name : string) : bool :=
  existsb (String.eqb name) CODE_FILES
  || existsb (fun folder => startswith (folder +:+ "/") name) (List.filter (fun f => negb (String.eqb f ".git")) CODE_DIRS).

(** A row of [git stash list]: the commit, its subject and its parent. *)
Record stash_row := StashRow { sr_commit : string; sr_subject : string; sr_parent : string }.

Fixpoint contains (needle s : string) : bool :=
  startswith needle s || match s with EmptyString => false | String _ s => contains needle s end.

(** [original_stash]: the first stash on the old head that is none of the helper's own. *)
Definition original_stash (old_head : string) (stashes : list stash_row) : option string :=
  sr_commit <$> find (fun r => negb (contains RECOVERY_PREFIX (sr_commit r +:+ " " +:+ sr_subject r)) && String.eqb (sr_parent r) old_head) stashes.

Abbreviation records := (list (string * string)).
Abbreviation plan := (list (string * string)).

Section plan.
(** [git show] of the stash's parent, the stash and the target, and the files of the working tree
    as they are read (None: there is none). *)
Context (base saved target : string → option string) (read_runtime : string → result (option string)).

(** One file of [runtime_plan]: the new private copies, and what is to be restored of it. *)
Definition plan_file (name : string) : records * result (option string) :=
  if bool_decide (saved name = base name) then ([], Ok None)
  else
    let kept := match saved name with Some s => [("previous-stash/" +:+ name, s)] | None => [] end in
    if String.eqb name compose then
      (kept, if bool_decide (saved name ∈ [base name; target name]) then Ok None
             else Raise (RecoveryError ("The previous stash contains custom Compose settings. "
                                        +:+ "Review the private saved copy before updating")))
    else
      match read_runtime name with
      | Raise e => (kept, Raise e)
      | Ok current =>
          let kept := kept ++ match current with Some c => [("working-config/" +:+ name, c)] | None => [] end in
          (kept,
           if bool_decide (current = saved name) then Ok None
           else if bool_decide (base name = None) || bool_decide (saved name = None) || bool_decide (current ≠ base name)
                   || negb (bool_decide (target name ∈ [base name; saved name]))
           then Raise (RecoveryError (name +:+ ": independent configuration changes need review; neither copy was overwritten"))
           else Ok (saved name))
      end.

Fixpoint plan_files (names : list string) : records * result plan :=
  match names with
  | [] => ([], Ok [])
  | name :: names =>
      match plan_file name with
      | (r, Raise e) => (r, Raise e)
      | (r, Ok content) =>
          let '(r', rest) := plan_files names in
          (r ++ r', rest ← rest; Ok (match content with Some c => [(name, c)] | None => [] end ++ rest))
      end
  end.

(** [runtime_plan] for a stash; without one there is nothing to restore. *)
Definition runtime_plan (stash : option string) : records * result plan :=
  match stash with None => ([], Ok []) | Some _ => plan_files (RUNTIME_CONFIGS ++ [compose]) end.
End plan.

(** The code paths that are stashed: changed ones, and untracked ones that the target brings. *)
Definition stash_paths (changed untracked remote_files : list string) : list string :=
  merge_sort String.le (remove_dups
    (List.filter (fun p => negb (empty p) && is_code p) changed
     ++ List.filter (fun p => existsb (String.eqb p) remote_files && is_code p) untracked)).

Abbreviation worktree := (gmap string string).

(** [restore_runtime], in order; [write_ok] is whether a file can be written. *)
Fixpoint restore_runtime (write_ok : string → bool) (p : plan) (w : worktree) : result unit * worktree :=
  match p with
  | [] => (Ok tt, w)
  | (name, data) :: p =>
      if write_ok name then restore_runtime write_ok p (<[name := data]> w)
      else (Raise (RecoveryError (name +:+ ": write access requires --repair-permissions")), w)
  end.

(** What [run] needs to know of the repository and its commands. *)
Record repository := Repository {
  re_head : string;
  re_stashes : list stash_row;
  re_fetch : result unit;                                       (* fetch, and that the head is an ancestor *)
  re_unreadable : string → option exn;                          (* the error of reading a file *)
  re_base : string → option string;
  re_saved : string → option string;
  re_target : string → option string;
  re_remote_files : list string;
  re_changed : list string;
  re_untracked : list string;
  re_stash : list string → worktree → result unit * worktree;
  re_merge : worktree → result unit * worktree;
  re_write_ok : string → bool;
}.

Definition read_file (g : repository) (w : worktree) (name : string) : result (option string) :=
  match re_unreadable g name with Some e => Raise e | None => Ok (w !! name) end.

(** [run] after [prepare]. *)
Definition run (g : repository) (w : worktree) : result unit * worktree :=
  match re_fetch g with
  | Raise e => (Raise e, w)
  | Ok _ =>
      match runtime_plan (re_base g) (re_saved g) (re_target g) (read_file g w) (original_stash (re_head g) (re_stashes g)) with
      | (_, Raise e) => (Raise e, w)
      | (_, Ok p) =>
          let paths := stash_paths (re_changed g) (re_untracked g) (re_remote_files g) in
          let '(stashed, w) := match paths with [] => (Ok tt, w) | _ => re_stash g paths w end in
          match stashed with
          | Raise e => (Raise e, w)
          | Ok _ => let '(merged, w) := re_merge g w in
                    match merged with Raise e => (Raise e, w) | Ok _ => restore_runtime (re_write_ok g) p w end
          end
      end
  end.

(** ** The preparation *)

(** What [prepare] sees: the .git entry, the user, the code paths, the branch and the operations under way;
    [ck_sudo] is what a command with sudo ends with. *)
Record checkout := Checkout {
  ck_git_dir : bool;
  ck_git_link : bool;
  ck_superuser : bool;
  ck_exists : string → bool;
  ck_link : string → bool;
  ck_sudo : result unit;
  ck_branch : result string;
  ck_under_way : string → bool;
}.
(** The changes of ownership: of the root directory itself, and of paths with all below them. *)
Inductive ownership := ReownRoot | ReownBelow (paths : list string).

Definition git_operations : list string := ["MERGE_HEAD"; "CHERRY_PICK_HEAD"; "REVERT_HEAD"; "rebase-merge"; "rebase-apply"].

Definition repair_ownership (c : checkout) : list ownership * result unit :=
  let paths := List.filter (ck_exists c) (CODE_DIRS ++ CODE_FILES) in
  if ck_superuser c then ([], Raise (RecoveryError "Run this helper as your normal login user; it invokes sudo only where needed"))
  else if existsb (ck_link c) paths then ([], Raise (RecoveryError "A code path is a symlink; refusing automatic ownership changes"))
  else
    match ck_sudo c with
    | Raise e => ([ReownRoot], Raise e)
    | Ok _ => ([ReownRoot; ReownBelow paths], ck_sudo c)
    end.

Definition prepare (repair_permissions : bool) (c : checkout) : list ownership * result unit :=
  if negb (ck_git_dir c) || ck_git_link c then ([], Raise (RecoveryError "Expected a regular deployment checkout with a .git directory"))
  else
    let '(done, repaired) := if repair_permissions then repair_ownership c else ([], Ok tt) in
    (done,
     _ ← repaired;
     branch ← ck_branch c;
     _ ← raise_if (negb (String.eqb branch "main")) (RecoveryError "Expected branch main; switch or review the current branch first");
     raise_if (existsb (ck_under_way c) git_operations) (RecoveryError "A Git operation is in progress; resolve it before checkout recovery")).

(** The whole helper, and the exit status of [main]. *)
Definition recover (repair_permissions : bool) (c : checkout) (g : repository) (w : worktree) : list ownership * (result Z * worktree) :=
  let '(done, prepared) := prepare repair_permissions c in
  let '(r, w) := match prepared with Raise e => (Raise e, w) | Ok _ => run g w end in
  (done, (match r with Ok _ => Ok 0 | Raise e => match e with OSError | RecoveryError _ => Ok 1 | _ => Raise e end end, w)).

(** ** Lemmas *)

Section plan_lemmas.
Context (base saved target : string → option string) (read_runtime : string → result (option string)).
Abbreviation file_plan := (plan_file base saved target read_runtime).
Abbreviation files_plan := (plan_files base saved target read_runtime).

(** What allows a file to be restored. *)
Definition restorable (name content : string) : Prop :=
  name ≠ compose ∧ ∃ b, base name = Some b ∧ saved name = Some content ∧ content ≠ b ∧ read_runtime name = Ok (Some b) ∧
    (target name = Some b ∨ target name = Some content).

Lemma plan_file_some name r c : file_plan name = (r, Ok (Some c)) → restorable name c.
Proof.
  unfold Recovery.plan_file. case_bool_decide as Hsb; [done|]. destruct (String.eqb name compose) eqn:Ec.
  { by case_bool_decide. }
  apply String.eqb_neq in Ec. destruct (read_runtime name) as [current|] eqn:Er; [|done].
  destruct (bool_decide (current = saved name)) eqn:E1; [done|].
  destruct (bool_decide (base name = None) || bool_decide (saved name = None) || bool_decide (current ≠ base name)
            || negb (bool_decide (target name ∈ [base name; saved name]))) eqn:E2; [done|]. intros [= _ Hc].
  rewrite !orb_false_iff, negb_false_iff in E2. destruct E2 as [[[Hb Hs] Hcb] Ht].
  apply bool_decide_eq_false_1 in Hb, Hs, Hcb. apply bool_decide_eq_true_1 in Ht.
  assert (Hcur : current = base name) by (destruct (decide (current = base name)); tauto).
  destruct (base name) as [b|] eqn:Eb; [|done]. rewrite Hc in *. split; [done|]. exists b. subst current. split_and!; try done.
  - intros ->. by apply Hsb.
  - rewrite !elem_of_cons in Ht. destruct Ht as [|[|[]%not_elem_of_nil]]; auto.
Qed.

(** What a file that is not restored has. *)
Lemma plan_file_none name r c : file_plan name = (r, Ok None) → name ≠ compose → saved name = Some c → saved name ≠ base name →
  read_runtime name = Ok (Some c).
Proof.
  unfold Recovery.plan_file. intros H Hn Hs Hsb. rewrite bool_decide_eq_false_2 in H by done.
  destruct (String.eqb_spec name compose); [done|]. destruct (read_runtime name) as [current|]; [|done].
  destruct (bool_decide (current = saved name)) eqn:E1; [apply bool_decide_eq_true_1 in E1; congruence|].
  destruct (_ || _ : bool); [done|]. injection H as _ H. congruence.
Qed.

Lemma plan_file_record name r o c : file_plan name = (r, o) → saved name = Some c → saved name ≠ base name →
  ("previous-stash/" +:+ name, c) ∈ r.
Proof.
  unfold Recovery.plan_file. intros H Hs Hsb. rewrite bool_decide_eq_false_2, Hs in H by done.
  destruct (String.eqb name compose); [injection H as <- _; left|].
  destruct (read_runtime name); injection H as <- _; left.
Qed.

Lemma plan_files_elem names r p : files_plan names = (r, Ok p) →
  (∀ n c, (n, c) ∈ p → n ∈ names ∧ restorable n c) ∧
  (∀ n, n ∈ names → ∃ r' o, file_plan n = (r', Ok o) ∧ (∀ x, x ∈ r' → x ∈ r) ∧ ∀ c, o = Some c → (n, c) ∈ p) ∧
  (NoDup names → NoDup p.*1).
Proof.
  revert r p. induction names as [|m names IH]; intros r p; cbn [Recovery.plan_files].
  { intros [= <- <-]. split_and!; [set_solver|set_solver|constructor]. }
  destruct (file_plan m) as [r1 [o|e]] eqn:Em; [|done]. destruct (files_plan names) as [r2 [p2|e]] eqn:Ep; [|done].
  intros [= <- <-]. destruct (IH _ _ eq_refl) as (H1 & H2 & H3). split_and!.
  - intros n c [Hin|Hin]%elem_of_app; [|destruct (H1 n c Hin); set_solver].
    destruct o as [x|]; [|set_solver]. apply list_elem_of_singleton in Hin as [= -> ->].
    split; [left|by eapply plan_file_some].
  - intros n [->|Hn]%elem_of_cons.
    + exists r1, o. split_and!; [done|set_solver|]. intros c ->. set_solver.
    + destruct (H2 n Hn) as (r' & o' & ? & ? & Ho). exists r', o'. split_and!; [done|set_solver|]. intros c Hc. specialize (Ho c Hc). set_solver.
  - intros [Hm Hnd]%NoDup_cons. destruct o as [x|]; [|by apply H3]. cbn. constructor; [|by apply H3].
    intros ((n & c) & -> & Hin)%list_elem_of_fmap. by apply H1 in Hin as [? _].
Qed.
End plan_lemmas.

Lemma restore_Ok write_ok p w w' : restore_runtime write_ok p w = (Ok tt, w') → NoDup p.*1 →
  (∀ n c, (n, c) ∈ p → w' !! n = Some c) ∧ (∀ n, n ∉ p.*1 → w' !! n = w !! n).
Proof.
  revert w. induction p as [|[m d] p IH]; intros w; cbn [restore_runtime]; [intros [= <-]; split; set_solver|].
  destruct (write_ok m); [|done]. intros H. cbn [fmap list_fmap fst]. intros [Hm Hnd]%NoDup_cons.
  destruct (IH _ H Hnd) as [H1 H2]. split.
  - intros n c [[= -> ->]|Hin]%elem_of_cons; [|by apply H1]. rewrite H2 by done. apply lookup_insert_eq.
  - intros n Hn. apply not_elem_of_cons in Hn as [Hne Hn]. rewrite H2 by done. by apply lookup_insert_ne.
Qed.

Lemma stash_paths_code p changed untracked remote_files : p ∈ stash_paths changed untracked remote_files → is_code p = true.
Proof.
  unfold stash_paths. rewrite merge_sort_Permutation, elem_of_remove_dups, elem_of_app, !list_elem_of_In, !filter_In.
  by intros [[_ [_ ?]%andb_true_iff]|[_ [_ ?]%andb_true_iff]].
Qed.

(** ** Theorems *)

(** A runtime configuration is restored only where nothing can be lost: every planned file is one
    of the four, its working copy is exactly what the stash started from, and the new version keeps
    or already has the stash's content. Every file the stash changed has a private copy, and one that
    is not planned already has that content. *)
Theorem plan_restores_only_untouched base saved target read_runtime stash r p :
  runtime_plan base saved target read_runtime (Some stash) = (r, Ok p) →
  (∀ n c, (n, c) ∈ p → n ∈ RUNTIME_CONFIGS ∧ restorable base saved target read_runtime n c) ∧
  (∀ n c, n ∈ RUNTIME_CONFIGS → saved n = Some c → saved n ≠ base n →
     ("previous-stash/" +:+ n, c) ∈ r ∧ ((n, c) ∈ p ∨ read_runtime n = Ok (Some c))).
Proof.
  intros H. destruct (plan_files_elem _ _ _ _ _ _ _ H) as (H1 & H2 & _). split.
  - intros n c Hin. destruct (H1 n c Hin) as [Hn Hr]. split; [|done]. apply elem_of_app in Hn as [|Hn]; [done|].
    apply list_elem_of_singleton in Hn as ->. by destruct Hr.
  - intros n c Hn Hs Hsb. destruct (H2 n) as (r' & o & Hf & Hsub & Ho); [apply elem_of_app; by left|]. split.
    + apply Hsub. by eapply plan_file_record.
    + assert (Hc : n ≠ compose) by (intros ->; by vm_compute in Hn; repeat (apply elem_of_cons in Hn as [Hn|Hn]; [discriminate|]); apply not_elem_of_nil in Hn).
      destruct o as [x|]; [|right; by eapply plan_file_none]. left. pose proof (Ho x eq_refl) as Hin.
      destruct (H1 n x Hin) as (_ & _ & b & _ & Hx & _). congruence.
Qed.

(** What makes a file of the stash one that has to be reviewed: the stash changed it, and it is the
    Compose file with settings that the target does not have, or a runtime configuration that cannot
    be read, or one whose working copy is not the stash's already and that was changed on its own,
    is new or removed in the stash, or has a third content in the target. *)
Definition conflict (g : repository) (w : worktree) (n : string) : Prop :=
  re_saved g n ≠ re_base g n ∧
  ((n = compose ∧ re_saved g n ≠ re_target g n) ∨
   (n ∈ RUNTIME_CONFIGS ∧
      (re_unreadable g n ≠ None ∨
       (w !! n ≠ re_saved g n ∧
          (w !! n ≠ re_base g n ∨ re_base g n = None ∨ re_saved g n = None ∨
           (re_target g n ≠ re_base g n ∧ re_target g n ≠ re_saved g n)))))).

Abbreviation plan_of g w := (plan_file (re_base g) (re_saved g) (re_target g) (read_file g w)).

Lemma compose_not_runtime : compose ∉ RUNTIME_CONFIGS.
Proof. unfold RUNTIME_CONFIGS, compose. set_solver. Qed.

(** A file fails to be planned exactly when it has to be reviewed. *)
Lemma plan_file_fails g w n : n ∈ RUNTIME_CONFIGS ++ [compose] → conflict g w n ↔ ∃ r e, plan_of g w n = (r, Raise e).
Proof.
  intros Hn. unfold conflict, plan_file. case_bool_decide as Hsb; [split; [by intros [? _]|by intros (r & e & ?)]|].
  destruct (String.eqb_spec n compose) as [->|Hc].
  - pose proof compose_not_runtime as Hnr. case_bool_decide as Ht.
    + split; [|by intros (r & e & ?)]. intros [_ [[_ H]|[H _]]]; [|done]. rewrite !elem_of_cons in Ht.
      destruct Ht as [|[|[]%not_elem_of_nil]]; done.
    + split; [eauto|]. intros _. split; [done|]. left. split; [done|]. intros Heq. apply Ht. rewrite Heq. right. left.
  - apply elem_of_app in Hn as [Hn|Hn%list_elem_of_singleton]; [|done]. unfold read_file.
    destruct (re_unreadable g n) as [e|].
    { split; [eauto|]. intros _. split; [done|]. right. split; [done|]. by left. }
    case_bool_decide as Hws; [split; [|by intros (r & e & ?)]; intros [_ [[]|[_ [|[]]]]]; done|].
    destruct (_ || _ : bool) eqn:E; [split; [eauto|]; intros _|split; [|by intros (r & e & ?)]].
    + split; [done|]. right. split; [done|]. right. split; [done|]. rewrite !orb_true_iff, negb_true_iff in E.
      destruct E as [[[E%bool_decide_eq_true_1|E%bool_decide_eq_true_1]|E%bool_decide_eq_true_1]|E%bool_decide_eq_false_1]; auto.
      do 3 right. split; intros Heq; apply E; rewrite Heq; set_solver.
    + rewrite !orb_false_iff, negb_false_iff in E. destruct E as [[[Hb Hs] Hcb] Ht].
      apply bool_decide_eq_false_1 in Hb, Hs, Hcb. apply bool_decide_eq_true_1 in Ht. rewrite !elem_of_cons in Ht.
      intros [_ [[]|[_ [|[_ [|[|[|[]]]]]]]]]; try done. destruct Ht as [|[|[]%not_elem_of_nil]]; done.
Qed.

Lemma plan_files_made base saved target read_runtime names :
  (∀ n r e, n ∈ names → plan_file base saved target read_runtime n ≠ (r, Raise e)) →
  ∃ r p, plan_files base saved target read_runtime names = (r, Ok p).
Proof.
  induction names as [|m names IH]; intros H; cbn [plan_files]; [eauto|].
  destruct (plan_file base saved target read_runtime m) as [r [o|e]] eqn:E; [|by destruct (H m r e); [left|]].
  destruct IH as (r' & p & ->); [intros n ? ? Hn; apply H; by right|]. cbn. eauto.
Qed.


(** A recovery that ends well has restored what the stash held: every runtime configuration the
    stash changed, and that did not have its content already, has it now, provided the merge went
    through; and only code paths were handed to git for stashing. *)
Theorem recovery_restores g w w' stash :
  run g w = (Ok tt, w') → original_stash (re_head g) (re_stashes g) = Some stash →
  (∀ n c, n ∈ RUNTIME_CONFIGS → re_saved g n = Some c → re_saved g n ≠ re_base g n → w !! n ≠ Some c → w' !! n = Some c) ∧
  (∀ path, path ∈ stash_paths (re_changed g) (re_untracked g) (re_remote_files g) → is_code path = true) ∧
  (∀ n, n ∈ RUNTIME_CONFIGS → is_code n = false).
Proof.
  intros H Hstash. split_and!.
  2:{ intros path. apply stash_paths_code. }
  2:{ intros n Hn. unfold RUNTIME_CONFIGS in Hn. rewrite !elem_of_cons in Hn.
      destruct Hn as [->|[->|[->|[->|[]%not_elem_of_nil]]]]; reflexivity. }
  unfold run in H. destruct (re_fetch g); [|done]. rewrite Hstash in H.
  destruct (runtime_plan _ _ _ _ (Some stash)) as [r [p|e]] eqn:Hp; [|done]. cbv zeta in H.
  match type of H with (let '(_, _) := ?m in _) = _ => destruct m as [[u|e] w1]; [|done] end.
  destruct (re_merge g w1) as [[v|e] w2]; [|done].
  destruct (plan_files_elem _ _ _ _ _ _ _ Hp) as (H1 & H2 & H3).
  assert (Hnd : NoDup (RUNTIME_CONFIGS ++ [compose])) by (apply (bool_decide_unpack _); reflexivity).
  destruct (restore_Ok _ _ _ _ H (H3 Hnd)) as [Hres _].
  intros n c Hn Hs Hsb Hw. apply Hres. destruct (H2 n) as (r' & o & Hf & _ & Ho); [apply elem_of_app; by left|].
  assert (Hc : n ≠ compose) by (intros ->; unfold RUNTIME_CONFIGS, compose in Hn; set_solver).
  destruct o as [x|].
  - pose proof (Ho x eq_refl) as Hin. destruct (H1 n x Hin) as (_ & _ & b & _ & Hx & _). congruence.
  - pose proof (plan_file_none _ _ _ _ _ _ _ Hf Hc Hs Hsb) as Hr. unfold read_file in Hr. destruct (re_unreadable g n); [done|].
    injection Hr as Hr. congruence.
Qed.

Lemma code_paths_no_runtime p n : p ∈ CODE_DIRS ++ CODE_FILES → n ∈ RUNTIME_CONFIGS → p ≠ n ∧ startswith (p +:+ "/") n = false.
Proof.
  intros Hp Hn. assert (Hb : forallb (fun p => forallb (fun n => negb (String.eqb p n) && negb (startswith (p +:+ "/") n)) RUNTIME_CONFIGS) (CODE_DIRS ++ CODE_FILES) = true)
    by (vm_compute; reflexivity).
  rewrite forallb_forall in Hb. apply list_elem_of_In, Hb in Hp. rewrite forallb_forall in Hp. apply list_elem_of_In, Hp, andb_true_iff in Hn as [H1 H2].
  apply negb_true_iff in H1, H2. split; [by apply String.eqb_neq|done].
Qed.

Definition not_ready (c : checkout) : Prop := ck_branch c ≠ Ok "main" ∨ existsb (ck_under_way c) git_operations = true ∨ ck_git_dir c = false.

Lemma reown_inj a b : ReownBelow a = ReownBelow b → a = b.
Proof. congruence. Qed.
Lemma repair_ownership_spec c l r : repair_ownership c = (l, r) →
  l = [] ∨ (ck_superuser c = false ∧ existsb (ck_link c) (List.filter (ck_exists c) (CODE_DIRS ++ CODE_FILES)) = false ∧
    (l = [ReownRoot] ∨ l = [ReownRoot; ReownBelow (List.filter (ck_exists c) (CODE_DIRS ++ CODE_FILES))])).
Proof.
  unfold repair_ownership. generalize (List.filter (ck_exists c) (CODE_DIRS ++ CODE_FILES)). intros paths.
  destruct (ck_superuser c); [intros [= <- _]; by left|]. destruct (existsb _ _); [intros [= <- _]; by left|].
  destruct (ck_sudo c); intros [= <- _]; right; auto.
Qed.

Lemma prepare_spec repair_permissions c l r : prepare repair_permissions c = (l, r) →
  (l = [] ∨ (repair_permissions = true ∧ ck_git_link c = false ∧ ∃ r', repair_ownership c = (l, r'))) ∧ (not_ready c → ∃ e, r = Raise e).
Proof.
  unfold prepare, not_ready. destruct (ck_git_dir c); cbn [negb orb]; [|intros [= <- <-]; eauto]. destruct (ck_git_link c); [intros [= <- <-]; eauto|].
  destruct (if repair_permissions then repair_ownership c else ([], Ok tt)) as [l0 repaired] eqn:Er. intros [<- <-]%pair_equal_spec. split.
  - destruct repair_permissions; [eauto|injection Er as <- _; by left].
  - intros Hbad. destruct repaired as [u|e]; cbn [mbind result_bind]; [|eauto]. destruct (ck_branch c) as [branch|e]; cbn [mbind result_bind]; [|eauto].
    destruct (String.eqb_spec branch "main") as [->|Hb]; cbn [negb raise_if mbind result_bind]; [|eauto].
    destruct (existsb (ck_under_way c) git_operations) eqn:Eu; [by eexists|]. exfalso. destruct Hbad as [Hbad|[Hbad|Hbad]]; [by apply Hbad|congruence|congruence].
Qed.

(** The helper takes nothing over that is not its own: without the option, as the superuser or with a code
    path that is a link it changes no ownership at all; otherwise that of the root directory alone and of
    existing code paths with what is below them, never of a runtime configuration.  A checkout that is
    not ready is left as it is, with status 1. *)
Theorem ownership_confined repair_permissions c g w done r w' :
  recover repair_permissions c g w = (done, (r, w')) →
  (done ≠ [] → repair_permissions = true ∧ ck_superuser c = false ∧ ck_git_link c = false ∧
     ∀ p, p ∈ CODE_DIRS ++ CODE_FILES → ck_exists c p = true → ck_link c p = false) ∧
  (∀ paths p, ReownBelow paths ∈ done → p ∈ paths →
     p ∈ CODE_DIRS ++ CODE_FILES ∧ ck_exists c p = true ∧ ∀ n, n ∈ RUNTIME_CONFIGS → p ≠ n ∧ startswith (p +:+ "/") n = false) ∧
  (not_ready c → w' = w ∧ r ≠ Ok 0).
Proof.
  unfold recover. destruct (prepare repair_permissions c) as [d prepared] eqn:Ep. apply prepare_spec in Ep as [Hown Hbad].
  destruct (match prepared with Ok _ => run g w | Raise _ => _ end) as [r0 w0] eqn:Eb. intros [= <- <- <-]. split_and!.
  - intros Hne. destruct Hown as [->|(-> & Hl & r' & Hr)]; [done|]. apply repair_ownership_spec in Hr as [->|(Hs & He & _)]; [done|]. split_and!; try done.
    intros p Hp Hex. destruct (ck_link c p) eqn:E; [|done]. rewrite <-He. symmetry. apply existsb_exists. exists p. split; [|done].
    apply filter_In. split; [by apply list_elem_of_In|done].
  - intros paths p Hin Hp. destruct Hown as [->|(_ & _ & r' & Hr)]; [by apply not_elem_of_nil in Hin|].
    apply repair_ownership_spec in Hr as [->|(_ & _ & [->| ->])]; [by apply not_elem_of_nil in Hin|by apply list_elem_of_singleton in Hin|].
    rewrite !elem_of_cons in Hin. destruct Hin as [?|[->%reown_inj|?%not_elem_of_nil]]; [done| |done].
    apply list_elem_of_In, filter_In in Hp as [Hp Hex]. apply list_elem_of_In in Hp. split_and!; [done|done|]. intros n. by apply code_paths_no_runtime.
  - intros [e ->]%Hbad. injection Eb as <- <-. split; [done|by destruct e].
Qed.

(** A checkout with an interrupted update: the stash changed server.conf, the code change is not
    in a stash yet. *)
Definition demo_files (server : string) (n : string) : option string :=
  if String.eqb n "server.conf" then Some server else if String.eqb n compose then Some "services" else None.
Definition demo_repository : repository :=
  {| re_head := "h1"; re_stashes := [StashRow "s2" "On main: openvpn-checkout-recovery-1" "h1"; StashRow "s1" "WIP on main" "h1"];
     re_fetch := Ok tt; re_unreadable := fun _ => None; re_base := demo_files "port 443"; re_saved := demo_files "port 1194";
     re_target := demo_files "port 443"; re_remote_files := ["ui/app/new.py"]; re_changed := ["ui/app/main.py"; "server.conf"];
     re_untracked := ["ui/app/new.py"; "guests/alice"; "bin/mine.sh"];
     re_stash := fun paths w => (Ok tt, foldr delete w paths); re_merge := fun w => (Ok tt, <["ui/app/new.py" := "new"]> w);
     re_write_ok := fun _ => true |}.
Definition demo_tree (server : string) : worktree :=
  {["server.conf" := server; "ui/app/main.py" := "half"; "ui/app/new.py" := "half"; "bin/mine.sh" := "own"; "guests/alice" := ""]}.
Definition demo_recovered : worktree :=
  {["server.conf" := "port 1194"; "ui/app/new.py" := "new"; "bin/mine.sh" := "own"; "guests/alice" := ""]}.

Lemma plan_restores_only_untouched_witness :
  ("server.conf", "port 1194") ∈ [("server.conf", "port 1194")] ∧
  restorable (demo_files "port 443") (demo_files "port 1194") (demo_files "port 443") (read_file demo_repository (demo_tree "port 443"))
    "server.conf" "port 1194".
Proof.
  destruct (plan_restores_only_untouched (demo_files "port 443") (demo_files "port 1194") (demo_files "port 443")
    (read_file demo_repository (demo_tree "port 443")) "s1"
    [("previous-stash/server.conf", "port 1194"); ("working-config/server.conf", "port 443")] [("server.conf", "port 1194")])
    as [H _]; [vm_compute; reflexivity|].
  split; [left|]. apply H. left.
Defined.


Lemma recovery_restores_witness :
  run demo_repository (demo_tree "port 443") = (Ok tt, demo_recovered) ∧ demo_recovered !! "server.conf" = Some "port 1194".
Proof.
  assert (H : run demo_repository (demo_tree "port 443") = (Ok tt, demo_recovered)) by (vm_compute; reflexivity).
  split; [exact H|].
  destruct (recovery_restores demo_repository (demo_tree "port 443") demo_recovered "s1" H eq_refl) as [Hr _].
  apply Hr; [left|reflexivity|vm_compute; discriminate|vm_compute; discriminate].
Defined.

Definition ready_checkout : checkout :=
  Checkout true false false (fun n => existsb (String.eqb n) [".git"; "bin"; "server.conf"; "README.md"]) (fun _ => false) (Ok tt) (Ok "main") (fun n => String.eqb n "MERGE_HEAD").

Lemma ownership_confined_witness :
  recover true ready_checkout demo_repository (demo_tree "port 443") = ([ReownRoot; ReownBelow [".git"; "bin"; "README.md"]], (Ok 1, demo_tree "port 443")) ∧
  ∀ n, n ∈ RUNTIME_CONFIGS → "bin" ≠ n ∧ startswith "bin/" n = false.
Proof.
  assert (H : recover true ready_checkout demo_repository (demo_tree "port 443") = ([ReownRoot; ReownBelow [".git"; "bin"; "README.md"]], (Ok 1, demo_tree "port 443")))
    by (vm_compute; reflexivity).
  split; [exact H|]. destruct (ownership_confined _ _ _ _ _ _ _ H) as (_ & Hp & _).
  destruct (Hp [".git"; "bin"; "README.md"] "bin") as (_ & _ & Hn); [right; left|right; left|]. exact Hn.
Defined.
