(* ===== verification/Settings.v ===== *)
(** * The readers of server.conf in [ui/app/settings.py]

    [management_endpoint], [status_file], [management_password] and [guest_sub]. Environment
    variables are options; a file that cannot be read is [None] (OSError). *)

From S2P Require Import Prelude PyStr Regex ConfigEdit Ipv4.

Open Scope string_scope.
Open Scope list_scope.
Open Scope Z_scope.

Definition rx_endpoint_line : regex :=
  rseq [RStar true rs_; lit "management"; plus rs_; RGroup 1 (plus rS); plus rs_; RGroup 2 (plus rd);
        opt (RSeq (plus rs_) (RGroup 3 (plus rS)))].
Definition rx_status : regex :=
  rseq [RStar true rs_; lit "status"; plus rs_; RGroup 1 (plus rS); opt (RSeq (plus rs_) (RGroup 2 (plus rd)))].
Definition rx_server_line : regex :=
  rseq [RStar true rs_; lit "server"; plus rs_; RGroup 1 (plus rS); plus rs_; RGroup 2 (plus rS)].

(** [path], or [openvpn_dir / path] when it is relative. *)
Definition under (dir path : string) : string := if startswith "/" path then path else dir +:+ "/" +:+ path.

Section settings.
Context (openvpn_dir : string).

(** The first management line of server.conf: host, port, password file. *)
Definition configured_endpoint (conf : option string) : result (string * Z * option string) :=
  match conf ≫= (fun text => head (omap (re_match rx_endpoint_line) (splitlines (universal_newlines text)))) with
  | None => Ok ("127.0.0.1", 2080, None)
  | Some m =>
      port ← of_option ValueError (py_int (group m 2));
      Ok (group m 1, port, if truthy (m !! 3%nat) then Some (under openvpn_dir (group m 3)) else None)
  end.

(** [management_endpoint]; [env_host] and [env_port] are MGMT_HOST and MGMT_PORT. *)
Definition management_endpoint (env_host env_port : option string) (conf : option string) : result (string * Z * option string) :=
  '(host, port, pw_file) ← configured_endpoint conf;
  port ← match env_port with Some p => of_option ValueError (py_int p) | None => Ok port end;
  let host := default host env_host in
  Ok (if String.eqb host "0.0.0.0" then "127.0.0.1" else host, port, pw_file).

(** [status_file]: the path and the interval in seconds. *)
Definition status_file (conf : option string) : result (option string * Z) :=
  match conf ≫= (fun text => re_search_m rx_status (universal_newlines text)) with
  | None => Ok (None, 0)
  | Some m =>
      every ← match m !! 2%nat with
              | Some s => if empty s then Ok 60 else of_option ValueError (py_int s)
              | None => Ok 60
              end;
      Ok (Some (under openvpn_dir (group m 1)), every)
  end.

(** [management_password], for the file that [management_endpoint] names; its text is [None]
    when it does not exist or cannot be read. *)
Definition management_password (text : option string) : option string :=
  match text with Some t => let p := strip (universal_newlines t) in if empty p then None else Some p | None => None end.

(** The upper half of a network: [list(net.subnets(prefixlen_diff=1))[1]]. *)
Definition upper_half (n : network) : option network :=
  if net_prefix n <? 32 then Some (Network (net_addr n + 2 ^ (31 - net_prefix n)) (net_prefix n + 1)) else None.

(** [guest_sub]: the saved settings, GUEST_SUB, or the upper half of the server's network; a network
    of one address has one subnet only, and its second is an IndexError that nothing catches. *)
Definition guest_sub (saved : option string) (env_guest_sub : string) (conf : option string) : result string :=
  match saved with
  | Some s => Ok s
  | None =>
      if negb (empty env_guest_sub) then Ok env_guest_sub
      else match (text ← conf; m ← re_search_m rx_server_line (universal_newlines text);
                  parse_network true (group m 1 +:+ "/" +:+ group m 2)) with
           | Some net => half ← of_option IndexError (upper_half net); Ok (print_network half)
           | None => Ok "10.8.0.128/25"
           end
  end.
End settings.

(** ** Lemmas *)

Lemma upper_half_ok n h : net_ok n → upper_half n = Some h →
  net_ok h ∧ net_addr h = net_addr n + 2 ^ (31 - net_prefix n) ∧ broadcast h = broadcast n ∧ net_prefix h = net_prefix n + 1.
Proof.
  intros (Hp & Ha & Hal). unfold upper_half. destruct (Z.ltb_spec (net_prefix n) 32); [|done]. intros [= <-].
  unfold net_ok, broadcast. cbn [net_addr net_prefix].
  assert (Hpow : 2 ^ (32 - net_prefix n) = 2 * 2 ^ (31 - net_prefix n)).
  { rewrite <-Z.pow_succ_r by lia. f_equal. lia. }
  replace (32 - (net_prefix n + 1)) with (31 - net_prefix n) by lia.
  assert (0 < 2 ^ (31 - net_prefix n)) by (apply Z.pow_pos_nonneg; lia).
  assert (Hmod : net_addr n mod 2 ^ (31 - net_prefix n) = 0).
  { apply Z.mod_divide; [lia|]. apply Z.mod_divide in Hal; [|lia]. destruct Hal as [k ->]. exists (2 * k). lia. }
  assert (Hmax : net_addr n + 2 ^ (32 - net_prefix n) <= 2 ^ 32).
  { apply Z.mod_divide in Hal; [|lia]. destruct Hal as [k Hk].
    assert (Hk32 : 2 ^ 32 = 2 ^ (32 - net_prefix n) * 2 ^ net_prefix n) by (rewrite <-Z.pow_add_r by lia; f_equal; lia).
    set (w := 2 ^ (32 - net_prefix n)) in *. set (q := 2 ^ net_prefix n) in *.
    assert (0 < w) by lia. assert (k < q) by nia. nia. }
  split_and!; try lia. rewrite Z.add_mod, Hmod, Z.mod_same by lia. done.
Qed.

(** ** Theorems *)

(** Without settings and without GUEST_SUB the guests get the upper half of the server's network:
    a network of its own inside the subnet, with the same last address, that holds neither the
    server's address nor any other of the lower half. *)
Theorem bootstrap_guest_range text m net :
  re_search_m rx_server_line (universal_newlines text) = Some m →
  parse_network true (group m 1 +:+ "/" +:+ group m 2) = Some net → net_prefix net < 32 →
  ∃ guest, guest_sub None "" (Some text) = Ok (print_network guest) ∧ net_ok guest ∧ subnet_of guest net = true ∧
    net_prefix guest = net_prefix net + 1 ∧
    ∀ a, 0 <= a < 2 ^ 32 → (in_network a guest = true ↔ net_addr net + 2 ^ (31 - net_prefix net) <= a <= broadcast net).
Proof.
  intros Hm Hn Hp. pose proof (parse_network_ok _ _ _ Hn) as Hok.
  destruct (upper_half net) as [guest|] eqn:Hu; [|unfold upper_half in Hu; destruct (Z.ltb_spec (net_prefix net) 32); [done|lia]].
  destruct (upper_half_ok _ _ Hok Hu) as (Hg & Ha & Hb & Hpre). exists guest. split_and!; [|done| |done|].
  - unfold guest_sub. cbn [negb empty String.eqb]. cbn [mbind option_bind]. rewrite Hm. cbn [mbind option_bind]. rewrite Hn.
    by rewrite Hu.
  - unfold subnet_of. apply andb_true_iff. rewrite !Z.leb_le. assert (0 < 2 ^ (31 - net_prefix net)) by (apply Z.pow_pos_nonneg; lia). lia.
  - intros a Hrange. by rewrite in_network_range, Ha, Hb.
Qed.

Lemma bootstrap_guest_range_witness :
  ∃ guest, guest_sub None "" (Some "server 10.8.0.0 255.255.255.0 nopool") = Ok (print_network guest) ∧ net_ok guest ∧
    subnet_of guest (Network 168296448 24) = true ∧ net_prefix guest = 24 + 1 ∧
    ∀ a, 0 <= a < 2 ^ 32 → (in_network a guest = true ↔ 168296448 + 2 ^ (31 - 24) <= a <= broadcast (Network 168296448 24)).
Proof.
  eapply (bootstrap_guest_range "server 10.8.0.0 255.255.255.0 nopool").
  - vm_compute. reflexivity.
  - vm_compute. reflexivity.
  - vm_compute. reflexivity.
Defined.

Example one_address_server : guest_sub None "" (Some "server 10.8.0.1 255.255.255.255") = Raise IndexError.
Proof. vm_compute. reflexivity. Qed.

Example endpoint_read :
  management_endpoint "/etc/openvpn" None None (Some ("port 443" +:+ lf_text +:+ " management 0.0.0.0 2080 pw.txt"))
  = Ok ("127.0.0.1", 2080, Some "/etc/openvpn/pw.txt").
Proof. vm_compute. reflexivity. Qed.
Example status_read : status_file "/etc/openvpn" (Some "status /run/status.log") = Ok (Some "/run/status.log", 60).
Proof. vm_compute. reflexivity. Qed.
