(* ===== verification/Handlers.v ===== *)
(** * Requests: CSRF checks, the other handlers, the live stream

    The rest of [ui/app/main.py] that decides or changes something: [csrf_check] and
    [profile_download_csrf], the handlers on a client that are not in [Access] and [Lifecycle],
    the network form ([put_network_settings]), a client's own pages and [stream].  [mac] is the
    hexadecimal HMAC-SHA-256; [form_token] is what [parse_qs] finds of the field csrf. *)

From S2P Require Import Prelude PyStr Regex Schema Auth Traffic Sessions Mgmt ConfigEdit Addressing Network Relay Access Clients Lifecycle Url Gateway ServerConf Plist Signing.

Open Scope string_scope.
Open Scope list_scope.
Open Scope Z_scope.

(** ** Checks *)

(** [origin and origin != "null"] and another host than the one asked; a URL that does not split
    is a ValueError. *)
Definition other_origin (r : Access.request) : result bool :=
  match header r "origin" with
  | Some origin =>
      if empty origin || String.eqb origin "null" then Ok false
      else u ← of_option ValueError (urlsplit origin);
           Ok (negb (String.eqb (lower (u_netloc u)) (lower (default "" (header r "host")))))
  | None => Ok false
  end.
Definition from_fetch (r : Access.request) : bool := bool_decide (header r "x-requested-with" = Some "fetch").

Definition csrf_check (r : Access.request) : result unit :=
  _ ← raise_if (negb (from_fetch r)) (HTTPException 403 "Missing X-Requested-With header");
  cross ← other_origin r;
  raise_if cross (HTTPException 403 "Cross-origin request rejected").

Section forms.
Context (mac : string → string → string) (form_token : string → result string).

Definition profile_download_token (cookie : option string) (path : string) : string :=
  mac (default "" cookie) ("profile-download:" +:+ path).

(** [profile_download_csrf]; [chunks] is the body as it arrives. The answer is whether the
    download is one of a page without scripts. *)
Fixpoint read_form (limit : Z) (got : string) (chunks : list string) : result string :=
  match chunks with
  | [] => Ok got
  | c :: chunks =>
      let got := got +:+ c in
      if limit <? strlen got then Raise (HTTPException 413 "Refresh the page before downloading your profile")
      else read_form limit got chunks
  end.
Definition profile_download_csrf (r : Access.request) (chunks : list string) : result bool :=
  if from_fetch r then _ ← csrf_check r; Ok false
  else
    cross ← other_origin r;
    _ ← raise_if cross (HTTPException 403 "Cross-origin request rejected");
    body ← read_form 256 "" chunks;
    token ← match form_token body with Ok t => Ok t | Raise ValueError => Ok "" | Raise e => Raise e end;
    _ ← raise_if (negb (truthy (rq_cookie r)) || negb (String.eqb token (profile_download_token (rq_cookie r) (Access.rq_path r))))
          (HTTPException 403 "Refresh the page before downloading your profile");
    Ok true.
End forms.

(** [cookie_secure]; [setting] is OVPN_UI_SECURE_COOKIES. *)
Definition cookie_secure (setting scheme : string) : bool :=
  if existsb (String.eqb setting) ["true"; "1"; "yes"] then true
  else if existsb (String.eqb setting) ["false"; "0"; "no"] then false
  else String.eqb scheme "https".

(** ** Routes of the administrator *)

Section routes.
Context (sha : string → string) (ttl now : Z).

(** A route with [Csrf] and [Authed]: both are resolved before the handler runs. *)
Definition admin_route {A} (csrf : bool) (r : Access.request) (handler : session_user → server → server * result A) (s : server)
    : server * result A :=
  match (if csrf then csrf_check r else Ok tt) with
  | Raise e => (s, Raise e)
  | Ok _ =>
      match current_user sha ttl now (view s) r (sv_db s) with
      | (d, Raise e) => (set_db d s, Raise e)
      | (d, Ok user) => handler user (set_db d s)
      end
  end.

(** *** Handlers *)

Definition revoke_previous (sh : string → pki_dir → result pki_dir) (name : string) (user : session_user) (s : server)
    : server * result client :=
  match find_client now name s with
  | Raise e => (s, Raise e)
  | Ok row =>
      match cl_previous row with
      | None => (s, Raise (HTTPException 400 "No previous certificate pending revocation"))
      | Some _ =>
          match sh name (sv_pki s) with
          | Raise e => (s, Raise e)
          | Ok p => let s := event now "previous_cert_revoked" (su_username user) (Some name) None (set_pki p s) in
                    (s, find_client now name s)
          end
      end
  end.

(** [static_ip]. *)
Definition static_ip_handler (conf guest_sub name : string) (ip : option string) (user : session_user) (s : server)
    : server * result (option string) :=
  match find_client now name s with
  | Raise e => (s, Raise e)
  | Ok _ =>
      let ip := strip (default "" ip) in
      let ip := if empty ip then None else Some ip in
      match set_static_ip conf guest_sub name ip (sv_access s) with
      | Raise e => (s, Raise e)
      | Ok a => (event now "static_ip_set" (su_username user) (Some name) (Some (default "removed" ip)) (set_access_dirs a s), Ok ip)
      end
  end.

Definition set_access (name : string) (guest : bool) (user : session_user) (s : server) : server * result bool :=
  match find_client now name s with
  | Raise e => (s, Raise e)
  | Ok _ =>
      match set_guest name guest (sv_access s) with
      | Raise e => (s, Raise e)
      | Ok a => (event now "access_changed" (su_username user) (Some name) (Some (if guest then "guest" else "full")) (set_access_dirs a s), Ok guest)
      end
  end.

(** The note: [INSERT ... ON CONFLICT DO UPDATE SET note]. *)
Definition set_note (name note : string) (_ : session_user) (s : server) : server * result string :=
  match find_client now name s with
  | Raise e => (s, Raise e)
  | Ok _ =>
      let note := strip note in
      let row := match clients (sv_db s) !! name with
                 | Some c => ClientRow note (c_created_at c)
                 | None => ClientRow note now
                 end in
      (set_db (upd_clients (<[name := row]>) (sv_db s)) s, Ok note)
  end.

Definition revoke_relay (name : string) (user : session_user) (s : server) : server * result unit :=
  match find_client now name s with
  | Raise e => (s, Raise e)
  | Ok _ => (event now "relay_access_revoked" (su_username user) (Some name) None (set_relay (Relay.revoke name (sv_relay s)) s), Ok tt)
  end.

Definition remove_portal_account (name : string) (user : session_user) (s : server) : server * result unit :=
  match find_client now name s with
  | Raise e => (s, Raise e)
  | Ok _ => (event now "portal_access_disabled" (su_username user) (Some name) None (set_db (disable_portal sha name (sv_db s)) s), Ok tt)
  end.

(** [portal_account]: whether there is an account, and its name. *)
Definition portal_account (name : string) (s : server) : result (bool * string) :=
  _ ← find_client now name s;
  Ok match client_account name (sv_db s) with Some (_, u) => (true, u_username u) | None => (false, name) end.

(** [disconnect]; [kill_result] is what [mgmt.client_kill] or [mgmt.kill] comes to. *)
Definition disconnect (kill_result : option Z → string → mgmt → result string * mgmt) (name : string) (cid : option Z)
    (user : session_user) (s : server) : server * result string :=
  match validate_name name with
  | Raise e => (s, Raise e)
  | Ok _ =>
      let '(killed, m) := kill_result cid name (sv_mgmt s) in
      let s := set_mgmt m s in
      match killed with
      | Raise e => (s, Raise e)
      | Ok text => (event now "client_disconnected" (su_username user) (Some name) (Some text) s, Ok text)
      end
  end.

(** The endpoint [events]: [ORDER BY id DESC LIMIT ?]; the newest row is the last of the table. *)
Definition newest_events (limit : Z) (s : server) : list event_row :=
  take (Z.to_nat (Z.max 1 (Z.min limit 1000))) (reverse (events (sv_db s))).
End routes.

(** [mgmt.client_kill(cid) if cid is not None else mgmt.kill(name)]. *)
Definition kill_one (decode : string → string) (password : option string) (now : Z) (ticks : nat) (cid : option Z) (name : string)
    (m : mgmt) : result string * mgmt :=
  match cid with
  | Some c => client_kill decode password now ticks c m
  | None => kill decode password now ticks name m
  end.

(** ** A client's own pages *)

Definition client_only (user : session_user) : result string :=
  match su_role user with
  | Client => Ok (default "" (su_client_name user))
  | Admin => Raise (HTTPException 400 "This page is for client accounts")
  end.

(** A row of the relay's status, by the client it is about. *)
Record status_row := StatusRow { sw_client : option string; sw_text : string }.
Record own_status := OwnStatus { os_sessions : list string; os_clients : list status_row; os_active : list status_row; os_events : list status_row }.

(** [own_relay_status]: [sessions] is [relay_history.sessions] for a client and a credential; the
    lists are those of the relay's answer. *)
Definition own_relay_status (sha : string → string) (sessions : string → string → list string) (user : session_user)
    (clients_ active events_ : list status_row) (d : relay_db) : result own_status :=
  name ← client_only user;
  let own := filter (fun row => sw_client row = Some name) in
  Ok (OwnStatus (sessions name (credential_id sha d name)) (own clients_) (own active) (own events_)).

Definition profile_headers (content : string) : string := if startswith "<?xml" content then "false" else "true".

(** [own_relay_profile]: the content and X-Profile-Signed; [profile] is [relay.profile]. *)
Definition own_relay_profile (now : Z) (profile : string → relay_db → result string * relay_db) (signing_wanted : bool) (user : session_user)
    (s : server) : server * result (string * string) :=
  match client_only user with
  | Raise e => (s, Raise e)
  | Ok name =>
      let '(content, d) := profile name (sv_relay s) in
      let s := set_relay d s in
      match content with
      | Raise e =>
          (s, Raise (if is_pki_error e && signing_wanted
                     then HTTPException 503 "Signed relay profiles are temporarily unavailable. Please retry or contact the administrator."
                     else e))
      | Ok content => (event now "portal_relay_downloaded" (su_username user) (Some name) None s, Ok (content, profile_headers content))
      end
  end.

(** [download_relay_profile], of the administrator. *)
Definition download_relay_profile (now : Z) (profile : string → relay_db → result string * relay_db) (name : string) (user : session_user)
    (s : server) : server * result (string * string) :=
  match find_client now name s with
  | Raise e => (s, Raise e)
  | Ok _ =>
      let '(content, d) := profile name (sv_relay s) in
      let s := set_relay d s in
      match content with
      | Raise e => (s, Raise e)
      | Ok content => (event now "relay_profile_downloaded" (su_username user) (Some name) None s, Ok (content, profile_headers content))
      end
  end.

(** ** The network form *)

Record network_update := NetworkUpdate {
  nu_settings : network_settings;
  nu_relay : option relay_body;
  nu_remote : option (string * list (string * Z));       (* the host, and ports by protocol *)
}.
Record network_state := NetworkState { ns_files : files; ns_server : server }.
Definition ns_relay (s : network_state) : relay_db := sv_relay (ns_server s).

Definition with_public_url (url : string) (s : network_settings) : network_settings :=
  let g := nw_gateway s in
  NetworkSettings (nw_addressing s) (nw_routes s) (nw_proxy_cidrs s)
    (Gateway (gw_domain g) (gw_openvpn_host g) (gw_openvpn_backend g) (gw_relay_host g) (gw_relay_backend g) url (gw_portal_listener g)
       (gw_trusted_cidrs g) (gw_guest_links g) (gw_replace_services g) (gw_services g)).
Definition port_texts (ports : list (string * Z)) : list (string * string) := (fun p => (p.1, str_of_int p.2)) <$> ports.

(** Whether the address or a port differs from the profiles'. *)
Definition remote_changed (host : string) (ports : list (string * Z)) (current : string * list endpoint) : result bool :=
  numbers ← map_result (fun r : endpoint => n ← of_option ValueError (py_int r.1); Ok (r.2, n)) current.2;
  let port_of proto := snd <$> last (List.filter (fun q => String.eqb q.1 proto) numbers) in
  Ok (negb (String.eqb current.1 (strip host)) || existsb (fun p => negb (bool_decide (port_of p.1 = Some p.2))) ports).

(** The network settings of the form: the relay's URL is that of the relay settings. *)
Definition form_settings (body : network_update) : result network_settings :=
  match nu_relay body with
  | Some b => c ← validate_settings b; Ok (with_public_url (rb_url c) (nu_settings body))
  | None => Ok (nu_settings body)
  end.

(** [put_network_settings]; what was saved before an exception stays saved. The files that
    [save_settings] writes beside server.conf are written without a failure. *)
Definition put_network_settings (dumps : network_settings → string) (now : Z) (io_ok : bool) (body : network_update) (user : session_user)
    (s : network_state) : network_state * result network_settings :=
  let done s := NetworkState (ns_files s) (event now "network_settings_changed" (su_username user) None None (ns_server s)) in
  match form_settings body with
  | Raise e => (s, Raise e)
  | Ok settings =>
      match (match nu_remote body with Some (host, ports) => _ ← validate_remote host (port_texts ports) (ns_files s); Ok tt | None => Ok tt end) with
      | Raise e => (s, Raise e)
      | Ok _ =>
          match save_settings dumps (sv_access (ns_server s)) io_ok settings (ns_files s) with
          | Raise e => (s, Raise e)
          | Ok (data, fs) =>
              let s := NetworkState fs (ns_server s) in
              match (match nu_relay body with Some b => save_relay_settings b (ns_relay s) | None => Ok (ns_relay s) end) with
              | Raise e => (s, Raise e)
              | Ok d =>
                  let s := NetworkState fs (set_relay d (ns_server s)) in
                  match nu_remote body with
                  | None => (done s, Ok data)
                  | Some (host, ports) =>
                      match (current ← get_remote fs; remote_changed host ports current) with
                      | Raise e => (s, Raise e)
                      | Ok false => (done s, Ok data)
                      | Ok true =>
                          match set_remote host (port_texts ports) io_ok fs with
                          | Raise e => (s, Raise e)
                          | Ok fs =>
                              let s := NetworkState fs (ns_server s) in
                              match get_remote fs with
                              | Raise e => (s, Raise e)
                              | Ok _ => (done s, Ok data)
                              end
                          end
                      end
                  end
              end
          end
      end
  end.

(** ** The live stream *)

Definition SESSION_RECHECK : Z := 60000.       (* milliseconds *)
Inductive chunk := Snapshot | Item | Keepalive.

Section stream.
(** Whether the session is live at a time, and what a turn that begins at a time yields and when
    it ends: an item, or nothing for 15 seconds. *)
Context (live : Z → bool) (turn : Z → Z * chunk).

(** The loop of [gen]: the chunks with the times at which they were sent. *)
Fixpoint stream_loop (fuel : nat) (now checked : Z) : list (Z * chunk) :=
  match fuel with
  | O => []
  | S fuel =>
      let recheck := SESSION_RECHECK <? now - checked in
      if recheck && negb (live now) then []
      else let '(t, c) := turn now in (t, c) :: stream_loop fuel t (if recheck then now else checked)
  end.
Definition stream (fuel : nat) (started : Z) : list (Z * chunk) := (started, Snapshot) :: stream_loop fuel started started.
End stream.

(** ** Lemmas *)

(** Only the sessions. *)
Definition same_but_sessions (d d' : database) : Prop := d' = upd_web_sessions (fun _ => web_sessions d') d.

Lemma same_sessions_refl d : same_but_sessions d d.
Proof. by destruct d. Qed.

Lemma same_sessions_upd f d : same_but_sessions d (upd_web_sessions f d).
Proof. done. Qed.

Lemma same_sessions_trans d d' f : same_but_sessions d d' → same_but_sessions d (upd_web_sessions f d').
Proof. intros H. unfold same_but_sessions in *. rewrite H. done. Qed.

Lemma delete_session_same sha token d d0 : same_but_sessions d0 d → same_but_sessions d0 (delete_session sha token d).
Proof. intros H. unfold delete_session. destruct (truthy token); [by apply same_sessions_trans|done]. Qed.

Lemma get_session_user_same sha now token ttl extend d : same_but_sessions d (get_session_user sha now token ttl extend d).1.
Proof.
  unfold get_session_user. destruct (negb _); [apply same_sessions_refl|].
  destruct (web_sessions d !! _) as [s|]; [|apply same_sessions_refl]. destruct (users d !! _); [|apply same_sessions_refl].
  destruct (_ <? now); [apply same_sessions_refl|]. cbn [fst]. destruct (_ && _); [apply same_sessions_upd|apply same_sessions_refl].
Qed.

Lemma current_user_same sha ttl now v r d : same_but_sessions d (current_user sha ttl now v r d).1.
Proof.
  unfold current_user, signed_in_user. pose proof (get_session_user_same sha now (rq_cookie r) ttl true d) as Hg.
  destruct (get_session_user _ _ _ _ _ _) as [d1 [u|]]; [|exact Hg]. cbn [fst] in Hg.
  destruct (su_role u); [destruct (portal_only r); exact Hg|].
  destruct (eligible _ _ _) as [c|]; [|exact Hg]. destruct (match c with Some _ => _ | None => _ end); [exact Hg|].
  by apply delete_session_same.
Qed.

Lemma current_user_admin sha ttl now v r d d' u :
  current_user sha ttl now v r d = (d', Ok u) → su_role u = Admin ∧ portal_only r = false.
Proof.
  intros H. split; [|by eapply current_user_not_restricted]. unfold current_user in H.
  destruct (signed_in_user _ _ _ _ _ _) as [d1 [w|]]; [|done]. destruct (su_role w) eqn:Hr; [|done]. by injection H as _ <-.
Qed.

Lemma csrf_check_Ok r : csrf_check r = Ok tt → from_fetch r = true ∧ other_origin r = Ok false.
Proof.
  unfold csrf_check. destruct (from_fetch r); [|done]. cbn [negb raise_if mbind result_bind].
  destruct (other_origin r) as [[]|]; done.
Qed.

(** An accepted relay URL is accepted again, as it is. *)
Lemma validate_url_again v u : validate_url v = Ok u → validate_url u = Ok u.
Proof.
  unfold validate_url. set (x := rstrip_char "/" (strip v)). destruct (urlsplit x) as [w|] eqn:Ew; [|done].
  destruct (url_port w) as [port|] eqn:Ep; [|done]. destruct (_ || _ : bool) eqn:Ebad; [done|]. intros <-%Ok_inj.
  assert (Hspace : str_exists is_space x = false).
  { rewrite !orb_false_iff in Ebad. destruct Ebad as [_ Hbad]. unfold str_exists in *. rewrite negb_false_iff in *.
    eapply str_forall_impl; [|exact Hbad]. intros c. rewrite !negb_true_iff, orb_false_iff. tauto. }
  assert (Hx : rstrip_char "/" (strip x) = x).
  { unfold strip. rewrite Network.strip_none by (unfold str_exists in Hspace; by apply negb_false_iff). apply rstrip_by_idemp. }
  cbv zeta. rewrite Hx, Ew, Ep, Ebad. done.
Qed.

Lemma validate_settings_again b c : validate_settings b = Ok c → rb_url c = "" ∨ validate_url (rb_url c) = Ok (rb_url c).
Proof.
  unfold validate_settings. destruct (empty (strip (rb_url b))); cbn [mbind result_bind].
  - destruct (raise_if _ _); [|done]. intros <-%Ok_inj. by left.
  - destruct (validate_url (rb_url b)) as [u|] eqn:Eu; [|done]. cbn [mbind result_bind]. destruct (raise_if _ _); [|done].
    intros <-%Ok_inj. right. by eapply validate_url_again.
Qed.

Lemma validated_public_url g g' : validate_gateway g = Ok g' →
  checked validate_url (gw_relay_public_url g) = Ok (gw_relay_public_url g').
Proof. unfold validate_gateway. intros H. inv_result. done. Qed.

Lemma save_settings_data dumps a io_ok body fs data fs' : save_settings dumps a io_ok body fs = Ok (data, fs') →
  ∃ r, validate a body = Ok (r, data).
Proof.
  unfold save_settings. destruct (validate a body) as [[r data']|]; [|done]. cbn [mbind result_bind].
  destruct (of_option _ _); [|done]. cbn [mbind result_bind]. destruct (server_conf_lines _ _); [|done]. cbn [mbind result_bind].
  destruct (write_config _ _ _ _); [|done]. cbn [mbind result_bind]. intros [-> _]%Ok_inj%pair_equal_spec. by exists r.
Qed.

(** ** Theorems *)

(** Only an administrator changes anything through the routes of the administrator: the handler
    runs for a live session of an administrator account, not behind the guest listener and, on a
    route with the CSRF check, for a request of the page's own scripts that no other origin sent;
    any other request gets an error and leaves everything but the session rows as it was. *)
Theorem admin_changes_need_admin {A} sha ttl now csrf r (handler : session_user → server → server * result A) s s' a :
  admin_route sha ttl now csrf r handler s = (s', a) →
  (∃ user d, current_user sha ttl now (view s) r (sv_db s) = (d, Ok user) ∧ su_role user = Admin ∧ portal_only r = false ∧
     same_but_sessions (sv_db s) d ∧ (csrf = true → from_fetch r = true ∧ other_origin r = Ok false) ∧
     handler user (set_db d s) = (s', a)) ∨
  (∃ e, a = Raise e ∧ s' = set_db (sv_db s') s ∧ same_but_sessions (sv_db s) (sv_db s')).
Proof.
  unfold admin_route. destruct (if csrf then csrf_check r else Ok tt) as [[]|e] eqn:Ec.
  2:{ intros [= <- <-]. right. exists e. split_and!; [done|by destruct s|apply same_sessions_refl]. }
  pose proof (current_user_same sha ttl now (view s) r (sv_db s)) as Hsame.
  destruct (current_user _ _ _ _ _ _) as [d [user|e]] eqn:Eu; cbn [fst] in Hsame.
  - intros Hh. left. exists user, d. destruct (current_user_admin _ _ _ _ _ _ _ _ Eu) as [Hr Hp].
    split_and!; try done. intros ->. by apply csrf_check_Ok.
  - intros [= <- <-]. right. by exists e.
Qed.

(** The form of a profile download cannot be sent by another page: without the header of the
    page's scripts a download goes through only with the token of this very session and this very
    path, in a short body that no other origin sent. The hypothesis is that the HMAC of different
    keys or texts differs. *)
Theorem form_token_not_transferable mac form_token r chunks cookie path :
  (∀ k m k' m', mac k m = mac k' m' → k = k' ∧ m = m') →
  profile_download_csrf mac form_token r chunks = Ok true →
  (∃ body, read_form 256 "" chunks = Ok body ∧ (form_token body = Ok (profile_download_token mac cookie path) →
     default "" cookie = default "" (rq_cookie r) ∧ path = Access.rq_path r)) ∧
  truthy (rq_cookie r) = true ∧ other_origin r = Ok false.
Proof.
  intros Hmac. unfold profile_download_csrf. destruct (from_fetch r); [by destruct (csrf_check r)|].
  destruct (other_origin r) as [[]|]; [done| |done]. cbn [raise_if mbind result_bind].
  destruct (read_form 256 "" chunks) as [body|]; [|done]. cbn [mbind result_bind].
  destruct (form_token body) as [token|e] eqn:Et.
  - cbn [mbind result_bind]. destruct (truthy (rq_cookie r)) eqn:Ek; [|done]. cbn [negb orb].
    destruct (String.eqb_spec token (profile_download_token mac (rq_cookie r) (Access.rq_path r))) as [->|]; [|done].
    intros _. split; [|done]. exists body. split; [done|]. rewrite Et. intros H. apply Ok_inj in H. unfold profile_download_token in H.
    apply Hmac in H as [Hk Hm]. split; [done|]. by apply str_app_inj_l in Hm.
  - destruct e; try done. cbn [mbind result_bind]. destruct (truthy (rq_cookie r)) eqn:Ek; [|done]. cbn [negb orb].
    destruct (String.eqb _ _); [|done]. intros _. split; [|done]. exists body. split; [done|]. by rewrite Et.
Qed.

(** The network form changes nothing unless every part of it is valid, and what it saves agrees:
    when the relay settings, the profiles' address or the network settings are refused, the files and
    the relay's settings are as before; when all goes well and the relay is part of the form, the URL
    saved for the relay is the one in the saved gateway. *)
Theorem network_form_consistent dumps now io_ok body user s s' res :
  put_network_settings dumps now io_ok body user s = (s', res) →
  ((∃ e, form_settings body = Raise e) ∨
   (∃ host ports e, nu_remote body = Some (host, ports) ∧ validate_remote host (port_texts ports) (ns_files s) = Raise e) ∨
   (∃ settings e, form_settings body = Ok settings ∧ validate (sv_access (ns_server s)) settings = Raise e) →
   s' = s ∧ ∃ e, res = Raise e) ∧
  (∀ data b, res = Ok data → nu_relay body = Some b →
     rc_url (rd_config (ns_relay s')) = gw_relay_public_url (nw_gateway data) ∧ rd_grants (ns_relay s') = rd_grants (ns_relay s)).
Proof.
  unfold put_network_settings. destruct (form_settings body) as [settings|e0] eqn:Ef; [|intros [= <- <-]; split; [eauto|done]].
  destruct (match nu_remote body with Some _ => _ | None => _ end) as [[]|e0] eqn:Er; [|intros [= <- <-]; split; [eauto|done]].
  destruct (save_settings _ _ _ _ _) as [[data fs]|e0] eqn:Es; [|intros [= <- <-]; split; [eauto|done]].
  destruct (save_settings_data _ _ _ _ _ _ _ Es) as [r Hv]. intros H. split.
  { intros [[e He]|[(host & ports & e & Hr & He)|(st & e & Hst & He)]]; [done| |congruence].
    rewrite Hr, He in Er. done. }
  destruct (match nu_relay body with Some _ => save_relay_settings _ _ | None => _ end) as [d|e0] eqn:Ed;
    [|injection H as _ <-; done].
  intros data' b -> Hb. unfold form_settings in Ef. rewrite Hb in Ef, Ed.
  destruct (validate_settings b) as [c|] eqn:Ec; [|done]. cbn [mbind result_bind] in Ef. apply Ok_inj in Ef as <-.
  unfold save_relay_settings in Ed. rewrite Ec in Ed. cbn [mbind result_bind] in Ed. apply Ok_inj in Ed as <-.
  destruct (validate_ranges_of _ _ _ _ Hv) as (_ & _ & _ & Hg). apply validated_public_url in Hg. cbn [with_public_url nw_gateway gw_relay_public_url] in Hg.
  assert (Hurl : gw_relay_public_url (nw_gateway data) = rb_url c).
  { unfold checked in Hg. destruct (empty (rb_url c)) eqn:Ee; [by apply Ok_inj in Hg|].
    destruct (validate_settings_again _ _ Ec) as [He|He]; [by rewrite He in Ee|]. rewrite He in Hg. by apply Ok_inj in Hg. }
  assert (Hend : data' = data ∧ rc_url (rd_config (ns_relay s')) = rb_url c ∧ rd_grants (ns_relay s') = rd_grants (ns_relay s)).
  { destruct (nu_remote body) as [[host ports]|]; [|by injection H as <- <-].
    case_match; [|done]. case_match; [|by injection H as <- <-]. case_match; [|done]. case_match; [|done].
    by injection H as <- <-. }
  destruct Hend as (-> & -> & ->). done.
Qed.

(** C34. A stream ends with its session: when the session is over from some time on, by signing out, a
    new password or its expiry, no chunk is sent later than a minute after it, or after the start of
    the stream if that was later, and the one turn that was still waiting then. *)
Theorem stream_ends_with_session live turn W over fuel started t c :
  (∀ now, now <= (turn now).1 <= now + W) → 0 <= W → (∀ now, over <= now → live now = false) →
  (t, c) ∈ stream live turn fuel started → t <= Z.max over started + SESSION_RECHECK + W.
Proof.
  intros Hturn HW Hover. unfold stream. intros [[= -> ->]|Hin]%elem_of_cons; [unfold SESSION_RECHECK; lia|].
  assert (Hgen : ∀ now checked, checked <= Z.max over started → (t, c) ∈ stream_loop live turn fuel now checked →
    t <= Z.max over started + SESSION_RECHECK + W).
  { clear Hin. induction fuel as [|fuel IH]; intros now checked Hc; [by intros ?%not_elem_of_nil|]. cbn [stream_loop].
    destruct (Z.ltb_spec SESSION_RECHECK (now - checked)) as [Hlate|Hrecent]; cbn [andb].
    - destruct (live now) eqn:Hl; cbn [negb]; [|by intros ?%not_elem_of_nil].
      assert (now < over). { destruct (Z.lt_ge_cases now over); [done|]. by rewrite Hover in Hl by lia. }
      pose proof (Hturn now) as Ht. destruct (turn now) as [t' c']. cbn [fst] in Ht. intros [[= -> ->]|Hin]%elem_of_cons.
      + unfold SESSION_RECHECK. lia.
      + eapply IH; [|exact Hin]. lia.
    - pose proof (Hturn now) as Ht. destruct (turn now) as [t' c']. cbn [fst] in Ht. intros [[= -> ->]|Hin]%elem_of_cons; [lia|].
      by eapply IH. }
  eapply Hgen; [|exact Hin]. lia.
Qed.

(** The header tells the truth: a relay profile that is handed out as signed is a reply of the
    signer that OpenSSL verified, for the name of the relay, as exactly the profile that was built;
    a plain profile is never announced as signed. *)
Theorem signed_header_true env json_loads opener verify setting sha uuid5 now v guests_dir uuid secret now' wanted user s s' content :
  own_relay_profile now' (fun name d => relay_profile sha uuid5 (fun c h => sign_profile env json_loads opener verify c h setting)
                                          now v guests_dir uuid secret name d) wanted user s
    = (s', Ok (content, "true")) →
  su_role user = Client ∧
  ∃ built host, verify host content = Ok built ∧ startswith PLISTHEADER built = true.
Proof.
  unfold own_relay_profile, client_only. destruct (su_role user); [done|]. unfold relay_profile.
  destruct (Relay.profile _ _ _ _ _ _) as [[d token]|e]; [|by destruct (is_pki_error e && wanted)].
  destruct (dumps _) as [built|e] eqn:Ed; [|done]. cbn [mbind result_bind].
  destruct (urlsplit _) as [u|]; [|done]. cbn [of_option mbind result_bind].
  destruct (sign_profile _ _ _ _ _ _ _) as [file|e] eqn:Es; [|by destruct (is_pki_error e && wanted)].
  intros H. injection H as _ <- Hh. split; [done|].
  assert (Hbuilt : startswith PLISTHEADER built = true).
  { unfold dumps in Ed. destruct (write_value 0 _); [|done]. apply Ok_inj in Ed as <-. apply startswith_iff. eauto. }
  destruct (sign_profile_Ok _ _ _ _ _ _ _ _ Es) as (config & _ & [(_ & _ & ->)|(_ & _ & _ & _ & Hv)]); [|eauto].
  exfalso. unfold profile_headers in Hh. apply startswith_iff in Hbuilt as [t Ht]. rewrite Ht in Hh. discriminate Hh.
Qed.


(** ** Witnesses *)

Definition fetch_request : Access.request :=
  Request (Some "192.0.2.7") [("x-requested-with", "fetch"); ("host", "vpn.example.com"); ("origin", "https://vpn.example.com")] (Some "tok") "/api/clients/alice/note".
Definition admin_server : server :=
  Server (create_session id "tok" 1000 1 43200 None None Access.demo_db) (RelayDb (RelayConfig true "https://relay" "http2") None ∅) dir_valid
    (Access ∅ ∅) quiet_mgmt.
Definition demo_note : server * result string := admin_route id 43200 1500 true fetch_request (set_note 1500 "alice" " a phone ") admin_server.

Lemma admin_changes_need_admin_witness :
  demo_note.2 = Ok "a phone" ∧
  ∃ user d, current_user id 43200 1500 (view admin_server) fetch_request (sv_db admin_server) = (d, Ok user) ∧ su_role user = Admin.
Proof.
  assert (Hok : demo_note.2 = Ok "a phone") by (vm_compute; reflexivity). split; [exact Hok|].
  destruct (admin_changes_need_admin id 43200 1500 true fetch_request (set_note 1500 "alice" " a phone ") admin_server
    demo_note.1 demo_note.2) as [(user & d & Hu & Hr & _)|(e & He & _)]; [|by exists user, d|rewrite Hok in He; discriminate He].
  unfold demo_note. destruct (admin_route _ _ _ _ _ _ _). reflexivity.
Defined.

Definition form_request : Access.request :=
  Request None [("host", "vpn.example.com"); ("origin", "null")] (Some "tok") "/api/portal/profile".
Definition csrf_field (body : string) : result string := Ok (removeprefix "csrf=" body).
Definition demo_form : list string := ["csrf="; profile_download_token demo_enc (Some "tok") "/api/portal/profile"].

Lemma form_token_not_transferable_witness :
  profile_download_csrf demo_enc csrf_field form_request demo_form = Ok true ∧ truthy (rq_cookie form_request) = true.
Proof.
  assert (H : profile_download_csrf demo_enc csrf_field form_request demo_form = Ok true) by (vm_compute; reflexivity).
  split; [exact H|].
  apply (form_token_not_transferable demo_enc csrf_field form_request demo_form (Some "tok") "/api/portal/profile"); [|exact H].
  intros k m k' m' Heq. apply (f_equal demo_dec) in Heq. rewrite !demo_dec_enc in Heq. by injection Heq.
Defined.

Definition demo_update : network_update := NetworkUpdate new_settings (Some (RelayBody true " https://relay.example.com/ ")) None.
Definition demo_network : network_state :=
  NetworkState {["server.conf" := old_conf]} (set_relay (RelayDb (RelayConfig false "" "http2") None ∅) admin_server).
Definition demo_put : network_state * result network_settings := put_network_settings no_json 1500 true demo_update (SessionUser 1 "admin" None None Admin) demo_network.

Lemma network_form_consistent_witness :
  ∃ data, demo_put = (demo_put.1, Ok data) ∧ rc_url (rd_config (ns_relay demo_put.1)) = gw_relay_public_url (nw_gateway data) ∧
    gw_relay_public_url (nw_gateway data) = "https://relay.example.com".
Proof.
  destruct demo_put as [s' [data|e]] eqn:Hp; [|vm_compute in Hp; discriminate Hp]. exists data. split; [done|].
  destruct (network_form_consistent no_json 1500 true demo_update (SessionUser 1 "admin" None None Admin) demo_network s' (Ok data) Hp) as [_ H].
  destruct (H data (RelayBody true " https://relay.example.com/ ") eq_refl eq_refl) as [Hu _]. split; [exact Hu|].
  vm_compute in Hp. injection Hp as _ <-. reflexivity.
Defined.

(** A session that is over after 100 seconds, on a stream without items. *)
Definition demo_stream : list (Z * chunk) :=
  stream (fun now => now <? 100000) (fun now => (now + 15000, Keepalive)) 100 0.

Lemma stream_ends_with_session_witness :
  length demo_stream = 11%nat ∧ ((150000, Keepalive) ∈ demo_stream ∧ 150000 <= Z.max 100000 0 + SESSION_RECHECK + 15000).
Proof.
  split; [vm_compute; reflexivity|].
  assert (Hin : (150000, Keepalive) ∈ demo_stream).
  { apply list_elem_of_In. vm_compute. tauto. }
  split; [exact Hin|].
  apply (stream_ends_with_session (fun now => now <? 100000) (fun now => (now + 15000, Keepalive)) 15000 100000 100 0 150000 Keepalive).
  - intros now. cbn. lia.
  - lia.
  - intros now Hn. apply Z.ltb_ge. exact Hn.
  - exact Hin.
Defined.

Definition relay_server : server :=
  Server Access.demo_db Signing.demo_db (sv_pki demo_server) (Access ∅ ∅) quiet_mgmt.
Definition alice : session_user := SessionUser 2 "alice" (Some "alice") (Some "01") Client.
Definition demo_own_profile : server * result (string * string) :=
  own_relay_profile 500
    (fun name d => relay_profile demo_digest demo_digest
       (fun c h => sign_profile Signing.demo_env demo_json demo_opener demo_verify c h None) 500 demo_pki ∅ "uuid" "secret" name d)
    true alice relay_server.

Lemma signed_header_true_witness :
  demo_own_profile = (demo_own_profile.1, Ok ("signed:" +:+ demo_content, "true")) ∧
  ∃ built host, demo_verify host ("signed:" +:+ demo_content) = Ok built ∧ startswith PLISTHEADER built = true.
Proof.
  assert (H : demo_own_profile.2 = Ok ("signed:" +:+ demo_content, "true")) by (vm_compute; reflexivity).
  assert (Hp : demo_own_profile = (demo_own_profile.1, Ok ("signed:" +:+ demo_content, "true"))).
  { rewrite <-H. by destruct demo_own_profile. }
  split; [exact Hp|].
  apply (signed_header_true Signing.demo_env demo_json demo_opener demo_verify None demo_digest demo_digest 500 demo_pki ∅ "uuid" "secret"
    500 true alice relay_server demo_own_profile.1 ("signed:" +:+ demo_content) Hp).
Defined.
