(* ===== verification/Discovery.v ===== *)
(** * Address suggestions: [ui/app/network_discovery.py]

    What the host answers is an argument: its interfaces with their addresses, the name service
    and the address the kernel would send from.  A suggestion is only a proposal of the form; the
    theorems are about what saving it would come to in [Gateway] and [Network]. *)

From S2P Require Import Prelude PyStr Regex Ipv4 Ipv6 Url Network Gateway ServerConf.

Open Scope string_scope.
Open Scope list_scope.
Open Scope Z_scope.

Definition PORTAL_PORT : Z := 9443.
Definition UI_PORT : Z := 8080.

Definition usable (a : Z) : bool :=
  negb (is_loopback a) && negb (a =? 0) && negb (is_link_local a) && negb (is_multicast a) && negb (is_reserved a).
Definition usable_ipv4 (value : option string) : option string :=
  match value with
  | None => None
  | Some s => match parse_ip s with
              | Some a => if usable a then Some (print_ip a) else None
              | None => None
              end
  end.

(** An interface with its network ([row["network"]] is the text of it). *)
Record interface := Interface { if_name : string; if_address : string; if_network : network }.

Definition skipped_interface (name : string) : bool :=
  existsb (fun p => startswith p name) ["lo"; "docker"; "br-"; "veth"; "tun"; "ovpn"; "wg"].

(** [interfaces]; the two ioctls of a device give its address and mask, or an OSError. *)
Fixpoint interfaces (devices : list (string * option (string * string))) : result (list interface) :=
  match devices with
  | [] => Ok []
  | (name, answer) :: devices =>
      if skipped_interface name then interfaces devices
      else
        match answer with
        | None => interfaces devices
        | Some (address, mask) =>
            if bool_decide (is_Some (usable_ipv4 (Some address))) then
              n ← of_option ValueError (parse_network false (address +:+ "/" +:+ mask));
              rest ← interfaces devices;
              Ok (Interface name address n :: rest)
            else interfaces devices
        end
  end.

(** [dns_ipv4]; [answers] is None for the OSError of [getaddrinfo]. *)
Definition dns_ipv4 (resolve : string → option (list string)) (host : string) : list string :=
  if empty host then []
  else match resolve host with
       | None => []
       | Some answers =>
           merge_sort String.le (remove_dups (List.filter (fun a => bool_decide (is_Some (usable_ipv4 (Some a)))) answers))
       end.

(** [source_ipv4]; [route] is the address of the socket after [connect], None for an OSError. *)
Definition source_ipv4 (route : string → option string) (target : string) : option string := usable_ipv4 (route target).

Definition on_network (ip : string) (row : interface) : bool :=
  match parse_ip ip with Some a => in_network a (if_network row) | None => false end.

Record discovery := Discovery {
  d_interfaces : list interface;
  d_website : list string;
  d_gateway : option string;
  d_server : option string;
  d_backend : option string;            (* the suggestion for gateway.openvpn_backend *)
  d_listener : option string;           (* gateway.portal_listener *)
  d_proxies : option (list string);     (* proxy_cidrs *)
}.

(** [gateway_ip] and [server_ip] of [discover]. *)
Definition gateway_of (local : list interface) (website : list string) (peer : option string) (proxied : bool) : option string :=
  match (if proxied then usable_ipv4 peer else None) with
  | Some ip => Some ip
  | None => match List.filter (fun ip => existsb (on_network ip) local) website with [ip] => Some ip | _ => None end
  end.
Definition server_of (route : string → option string) (local : list interface) (website : list string) (gateway : option string) : option string :=
  let probe := match gateway with Some ip => Some ip | None => head website end in
  match (match probe with Some p => source_ipv4 route p | None => None end) with
  | Some ip => Some ip
  | None => match local with [row] => Some (if_address row) | _ => None end
  end.

Definition discover (devices : list (string * option (string * string))) (resolve : string → option (list string))
    (route : string → option string) (openvpn_host : string) (peer : option string) (proxied : bool) : result discovery :=
  local ← interfaces devices;
  let website := dns_ipv4 resolve openvpn_host in
  let gateway_ip := gateway_of local website peer proxied in
  let server_ip := server_of route local website gateway_ip in
  let other := match gateway_ip with Some g => if bool_decide (server_ip = Some g) then None else Some g | None => None end in
  Ok (Discovery local website gateway_ip server_ip
        ((fun ip => "http://" +:+ ip +:+ ":" +:+ str_of_int UI_PORT) <$> server_ip)
        ((fun ip => ip +:+ ":" +:+ str_of_int PORTAL_PORT) <$> other)
        ((fun ip => [ip +:+ "/32"]) <$> other)).

(** ** Lemmas *)

(** The text of a usable address. *)
Definition usable_text (s : string) : Prop := ∃ a, 0 <= a < 2 ^ 32 ∧ usable a = true ∧ parse_ip s = Some a ∧ s = print_ip a.

Lemma usable_ipv4_text v s : usable_ipv4 v = Some s → usable_text s ∧ v = Some s.
Proof.
  unfold usable_ipv4. destruct v as [t|]; [|done]. destruct (parse_ip t) as [a|] eqn:Ha; [|done].
  destruct (usable a) eqn:Hu; [|done]. intros [= <-]. destruct (parse_ip_canonical _ _ Ha) as [He Hr]. split; [|by rewrite He].
  exists a. by rewrite He.
Qed.

Lemma interfaces_usable devices rows : interfaces devices = Ok rows →
  Forall (fun r => usable_text (if_address r) ∧ net_ok (if_network r)) rows.
Proof.
  revert rows. induction devices as [|[name answer] devices IH]; cbn [interfaces]; [by intros ? <-%Ok_inj|]. intros rows.
  destruct (skipped_interface name); [apply IH|]. destruct answer as [[address mask]|]; [|apply IH].
  case_bool_decide as Hu; [|apply IH]. intros H. inv_result. constructor; [|by apply IH]. cbn [if_address if_network].
  destruct Hu as [s Hs]. apply usable_ipv4_text in Hs as [Ht [= ->]]. split; [done|].
  match goal with E : of_option _ ?o = Ok _ |- _ => destruct o eqn:En; [|done]; apply Ok_inj in E as <- end.
  by eapply parse_network_ok.
Qed.

Lemma dns_usable resolve host : Forall usable_text (dns_ipv4 resolve host).
Proof.
  unfold dns_ipv4. destruct (empty host); [constructor|]. destruct (resolve host) as [answers|]; [|constructor].
  rewrite merge_sort_Permutation. apply Forall_forall. intros s Hs%elem_of_remove_dups%list_elem_of_In%filter_In.
  destruct Hs as [_ [t Ht]%bool_decide_eq_true]. by apply usable_ipv4_text in Ht as [? [= ->]].
Qed.

Lemma gateway_usable local website peer proxied g : Forall usable_text website →
  gateway_of local website peer proxied = Some g →
  usable_text g ∧ (proxied = true ∧ peer = Some g ∨ g ∈ website ∧ ∃ row, row ∈ local ∧ on_network g row = true).
Proof.
  intros Hw. unfold gateway_of. destruct (if proxied then usable_ipv4 peer else None) as [ip|] eqn:Hp.
  - intros [= ->]. destruct proxied; [|done]. apply usable_ipv4_text in Hp as [? ->]. auto.
  - destruct (List.filter _ website) as [|ip [|]] eqn:Hf; [done| |done]. intros [= ->].
    assert (Hin : g ∈ List.filter (fun ip => existsb (on_network ip) local) website) by (rewrite Hf; left).
    apply list_elem_of_In, filter_In in Hin as [Hin He]. apply list_elem_of_In in Hin. rewrite Forall_forall in Hw.
    split; [by apply Hw|]. right. split; [done|]. apply existsb_exists in He as (row & Hrow & Hon).
    exists row. split; [by apply list_elem_of_In|done].
Qed.

Lemma server_usable route local website gateway s :
  Forall (fun r => usable_text (if_address r) ∧ net_ok (if_network r)) local →
  server_of route local website gateway = Some s → usable_text s.
Proof.
  intros Hl. unfold server_of. destruct (match _ with Some p => source_ipv4 route p | None => None end) as [ip|] eqn:E.
  - intros [= ->]. destruct (match gateway with Some ip => _ | None => _ end); [|done]. by apply usable_ipv4_text in E as [? _].
  - destruct local as [|row [|]]; [done| |done]. intros [= <-]. by inversion Hl as [|?? [? _]].
Qed.

Lemma rpartition_app c h t : mem_char c t = false → rpartition c (h +:+ String c t) = (h, true, t).
Proof.
  intros Ht. pose proof (rpartition_none _ _ Ht) as Hn. induction h as [|d h IH]; cbn [String.append rpartition].
  - by rewrite Hn, Ascii.eqb_refl.
  - by rewrite IH.
Qed.

Lemma dotted_char d c : str_forall dot_or_digit d = true → dot_or_digit c = false → mem_char c d = false.
Proof.
  intros Hd Hc. apply mem_char_false. eapply str_forall_impl; [|exact Hd]. intros x Hx.
  destruct (Ascii.eqb_spec c x) as [->|]; [congruence|done].
Qed.

(** A plain HTTP address of a host in digits. *)
Lemma split_http_address d : str_forall dot_or_digit d = true →
  urlsplit ("http://" +:+ d +:+ ":8080") = Some (Url "http" (d +:+ ":8080") "" "" "").
Proof.
  intros Hd. unfold urlsplit.
  assert (Hn : ∀ p, (∀ c, dot_or_digit c = true → p c = true) → str_forall p ":8080" = true → str_forall p (d +:+ ":8080") = true).
  { intros p Hp H8. rewrite str_forall_app, H8, andb_true_r. by eapply str_forall_impl. }
  change (lstrip_by c0_or_space ("http://" +:+ d +:+ ":8080")) with ("http://" +:+ d +:+ ":8080").
  rewrite (str_filter_id (fun c => negb (dropped c)) ("http://" +:+ d +:+ ":8080")); cycle 1.
  { cbn [String.append str_forall]. rewrite Hn; [done| |done]. intros [[] [] [] [] [] [] [] []]; vm_compute; congruence. }
  change (split_scheme ("http://" +:+ d +:+ ":8080")) with ("http", "//" +:+ (d +:+ ":8080")). cbn match.
  change (startswith "//" ("//" +:+ (d +:+ ":8080"))) with true. cbn match.
  change (str_drop 2 ("//" +:+ (d +:+ ":8080"))) with (d +:+ ":8080").
  rewrite <-(str_app_nil_r (d +:+ ":8080")), (span_stop (one_of "/?#") (d +:+ ":8080") ""); [|..]; cycle 1.
  { apply Hn; [|done]. intros [[] [] [] [] [] [] [] []]; vm_compute; congruence. }
  { by left. }
  rewrite !str_app_nil_r. assert (netloc_ok (d +:+ ":8080") = true) as ->; [|done].
  unfold netloc_ok. assert (mem_char "[" (d +:+ ":8080") = false ∧ mem_char "]" (d +:+ ":8080") = false) as [-> ->]; [|done].
  rewrite !mem_char_false. split; (apply Hn; [|done]); intros [[] [] [] [] [] [] [] []]; vm_compute; congruence.
Qed.

Lemma backend_of_address d : str_forall dot_or_digit d = true → d ≠ "" → backend_url ("http://" +:+ d +:+ ":8080") = Ok ("http://" +:+ d +:+ ":8080").
Proof.
  intros Hd Hne. assert (Hm : ∀ c, dot_or_digit c = false → mem_char c ":8080" = false → mem_char c (d +:+ ":8080") = false).
  { intros c Hc H8. rewrite mem_char_false in *. rewrite str_forall_app, H8, andb_true_r. apply mem_char_false. by apply dotted_char. }
  assert (Hu : str_exists UNSAFE ("http://" +:+ d +:+ ":8080") = false).
  { unfold str_exists. apply negb_false_iff. cbn [String.append str_forall]. rewrite str_forall_app.
    rewrite (str_forall_impl dot_or_digit (fun c => negb (UNSAFE c)) d); [done| |done].
    intros [[] [] [] [] [] [] [] []]; vm_compute; congruence. }
  unfold backend_url. rewrite (split_http_address d Hd). cbn [u_scheme].
  unfold url_hostname, username, password, userinfo, url_port, hostinfo. cbn [u_netloc].
  rewrite (rpartition_none "@") by (by apply Hm). rewrite (partition_none "[") by (by apply Hm). cbn match.
  rewrite (partition_app ":" d "8080") by (by apply dotted_char). cbn [fst snd].
  rewrite (partition_none "%") by (by apply dotted_char).
  rewrite Hu. unfold empty at 1. rewrite (proj2 (String.eqb_neq d "") Hne).
  assert (Hl : lower d = d).
  { unfold lower. clear -Hd. induction d as [|c d IH]; [done|]. cbn in *. apply andb_true_iff in Hd as [Hc Hd]. rewrite IH by done.
    f_equal. revert Hc. destruct c as [[] [] [] [] [] [] [] []]; vm_compute; congruence. }
  cbn [String.append]. rewrite str_app_nil_r, Hl. change (given (Some d)) with (negb (empty d)). unfold empty.
  rewrite (proj2 (String.eqb_neq d "") Hne). done.
Qed.

Lemma usable_dotted s : usable_text s → str_forall dot_or_digit s = true ∧ s ≠ "".
Proof. intros (a & Hr & _ & _ & ->). by apply print_ip_dotted. Qed.

Lemma cidr_of_address s : usable_text s → cidrs true [s +:+ "/32"] = Ok [s +:+ "/32"].
Proof.
  intros Ht. destruct (usable_dotted _ Ht) as [Hd _]. destruct Ht as (a & Hr & _ & Hp & ->).
  assert (Hn : net_ok (Network a 32)) by (unfold net_ok; cbn [net_addr net_prefix]; change (2 ^ (32 - 32)) with 1; rewrite Z.mod_1_r; lia).
  assert (Hstrip : strip (print_ip a +:+ "/32") = print_ip a +:+ "/32").
  { unfold strip. apply Network.strip_none. rewrite str_forall_app. apply andb_true_iff. split; [|done].
    eapply str_forall_impl; [|exact Hd]. intros c Hc. by destruct (dotted_facts c Hc) as [-> _]. }
  unfold cidrs. cbn [fmap list_fmap]. rewrite Hstrip. unfold ip_network.
  change (print_ip a +:+ "/32") with (print_network (Network a 32)). rewrite (parse_print_network _ Hn). done.
Qed.

Lemma listener_of_address s a : usable_text s → parse_ip s = Some a → octet a 3 ≠ 0 →
  portal_listener (s +:+ ":9443") = Ok (s +:+ ":9443").
Proof.
  intros (b & Hr & Hu & Hp & ->) Hs H0. rewrite Hp in Hs. injection Hs as ->. unfold portal_listener.
  rewrite (rpartition_app ":" (print_ip a) "9443") by done. rewrite Hp.
  change (if isdigit "9443" then py_int "9443" else None) with (Some 9443). cbn match.
  unfold usable in Hu. rewrite !andb_true_iff in Hu. destruct Hu as [[[[-> _] ->] ->] ->].
  rewrite (proj2 (Z.eqb_neq (octet a 3) 0) H0). done.
Qed.

(** ** Theorems *)

(** A suggestion can be saved as it is: the address for this server is a backend address the network
    settings accept unchanged, the gateway's network is an accepted proxy network, and the portal's
    listener is accepted unless the gateway's address begins with a zero.  The listener and the proxy
    network are never those of this server itself. *)
Theorem suggestions_accepted devices resolve route host peer proxied d :
  discover devices resolve route host peer proxied = Ok d →
  (∀ v, d_backend d = Some v → backend_url v = Ok v ∧ ∃ s, d_server d = Some s ∧ v = "http://" +:+ s +:+ ":8080") ∧
  (∀ l, d_proxies d = Some l → cidrs true l = Ok l ∧ d_gateway d ≠ d_server d) ∧
  (∀ v, d_listener d = Some v → d_gateway d ≠ d_server d ∧
     ∃ g a, d_gateway d = Some g ∧ parse_ip g = Some a ∧ (octet a 3 ≠ 0 → portal_listener v = Ok v)).
Proof.
  unfold discover. destruct (interfaces devices) as [local|] eqn:Hi; [|done]. cbn [mbind result_bind]. intros <-%Ok_inj.
  cbn [d_backend d_server d_proxies d_gateway d_listener]. apply interfaces_usable in Hi.
  pose proof (dns_usable resolve host) as Hw. set (website := dns_ipv4 resolve host) in *.
  set (gw := gateway_of local website peer proxied). set (sv := server_of route local website gw).
  assert (Hother : ∀ g, (match gw with Some g => if bool_decide (sv = Some g) then None else Some g | None => None end) = Some g →
    gw = Some g ∧ gw ≠ sv ∧ usable_text g).
  { intros g. destruct gw as [x|] eqn:Hg; [|done]. case_bool_decide as Hs; [done|]. intros [= ->].
    split_and!; [done|by intros He; rewrite <-He in Hs|]. by apply (gateway_usable _ _ _ _ _ Hw Hg). }
  split_and!.
  - intros v. destruct sv as [s|] eqn:Hs; [|done]. intros [= <-]. split; [|eauto].
    apply server_usable in Hs; [|done]. destruct (usable_dotted _ Hs). by apply backend_of_address.
  - intros l. destruct (match gw with Some g => _ | None => _ end) as [g|] eqn:Ho; [|done]. intros [= <-].
    destruct (Hother g eq_refl) as (_ & Hne & Ht). split; [by apply cidr_of_address|done].
  - intros v. destruct (match gw with Some g => _ | None => _ end) as [g|] eqn:Ho; [|done]. intros [= <-].
    destruct (Hother g eq_refl) as (Hg & Hne & Ht). split; [done|]. pose proof Ht as (a & _ & _ & Hp & _).
    exists g, a. split_and!; [done..|]. intros H0. by apply (listener_of_address g a).
Qed.

(** The gateway is never a guess among several: it is the peer of a request that came through a proxy,
    or the one address of the website that lies in a network of this host's interfaces; when the site
    has several such addresses, or none, there is no gateway and nothing is suggested for it. *)
Theorem gateway_unambiguous devices resolve route host peer proxied d g :
  discover devices resolve route host peer proxied = Ok d → d_gateway d = Some g →
  (proxied = true ∧ peer = Some g) ∨
  (g ∈ d_website d ∧ (∃ row, row ∈ d_interfaces d ∧ on_network g row = true) ∧
   ∀ ip row, ip ∈ d_website d → row ∈ d_interfaces d → on_network ip row = true → ip = g).
Proof.
  unfold discover. destruct (interfaces devices) as [local|] eqn:Hi; [|done]. cbn [mbind result_bind]. intros <-%Ok_inj.
  cbn [d_gateway d_website d_interfaces]. set (website := dns_ipv4 resolve host). intros Hg.
  destruct (gateway_usable _ _ _ _ _ (dns_usable resolve host) Hg) as [_ [?|[Hin Hrow]]]; [by left|].
  unfold gateway_of in Hg. destruct (if proxied then usable_ipv4 peer else None) as [ip|] eqn:Hp.
  { left. injection Hg as ->. destruct proxied; [|done]. by apply usable_ipv4_text in Hp as [_ ->]. }
  right. split_and!; [done..|]. intros ip row Hip Hr Hon.
  assert (Hf : ip ∈ List.filter (fun ip => existsb (on_network ip) local) website).
  { apply list_elem_of_In, filter_In. split; [by apply list_elem_of_In|]. apply existsb_exists. exists row.
    split; [by apply list_elem_of_In|done]. }
  fold website in Hg. destruct (List.filter _ website) as [|x [|]]; [done| |done]. injection Hg as ->. by apply list_elem_of_singleton in Hf.
Qed.

(** ** Witnesses *)

Definition demo_devices : list (string * option (string * string)) :=
  [("lo", Some ("127.0.0.1", "255.0.0.0")); ("eth0", Some ("192.0.2.20", "255.255.255.0")); ("tun0", None)].
Definition demo_resolve (h : string) : option (list string) :=
  if String.eqb h "vpn.example.com" then Some ["203.0.113.9"; "192.0.2.10"] else None.
Definition demo_route (_ : string) : option string := Some "192.0.2.20".
Definition demo_discovery : result discovery := discover demo_devices demo_resolve demo_route "vpn.example.com" None false.

Lemma suggestions_accepted_witness :
  ∃ d, demo_discovery = Ok d ∧ d_proxies d = Some ["192.0.2.10/32"] ∧ cidrs true ["192.0.2.10/32"] = Ok ["192.0.2.10/32"] ∧
    d_backend d = Some "http://192.0.2.20:8080".
Proof.
  destruct demo_discovery as [d|e] eqn:Hd; [|vm_compute in Hd; discriminate Hd]. exists d. split; [done|].
  destruct (suggestions_accepted demo_devices demo_resolve demo_route "vpn.example.com" None false d Hd) as (_ & Hp & _).
  assert (H : d_proxies d = Some ["192.0.2.10/32"] ∧ d_backend d = Some "http://192.0.2.20:8080").
  { vm_compute in Hd. injection Hd as <-. split; reflexivity. }
  destruct H as [H1 H2]. split_and!; [done| |done]. by apply Hp.
Defined.

Lemma gateway_unambiguous_witness :
  ∃ d, demo_discovery = Ok d ∧ d_gateway d = Some "192.0.2.10" ∧ "192.0.2.10" ∈ d_website d.
Proof.
  destruct demo_discovery as [d|e] eqn:Hd; [|vm_compute in Hd; discriminate Hd]. exists d. split; [done|].
  assert (Hg : d_gateway d = Some "192.0.2.10") by (vm_compute in Hd; injection Hd as <-; reflexivity). split; [done|].
  destruct (gateway_unambiguous demo_devices demo_resolve demo_route "vpn.example.com" None false d "192.0.2.10" Hd Hg)
    as [[Hf _]|[Hin _]]; [discriminate Hf|exact Hin].
Defined.
