(* ===== verification/Pages.v ===== *)
(** * What the pages show: the read-only endpoints of [ui/app/main.py]

    [clients_payload], the counts and warnings of [overview], the list of sessions, and the queries
    of [ui/app/db.py] they use ([session_stats_by_client], [rejections]).  The order that SQL leaves
    open among equal rows is fixed here, by the key of the row. *)

From S2P Require Import Prelude PyStr Schema Traffic Sessions Mgmt Collector ConfigEdit Addressing Clients Backups.

Open Scope string_scope.
Open Scope list_scope.
Open Scope Z_scope.

#[export] Instance cstate_eq_dec : EqDecision cstate.
Proof. solve_decision. Defined.

Definition EXPIRING_DAYS : Z := 30.
Definition BACKUP_WARN_DAYS : Z := 3.

(** ** Queries *)

(** [session_stats_by_client]: one group per name. *)
Record client_stats := ClientStats {
  ct_sessions : Z; ct_last_seen : Z; ct_first_seen : Z; ct_bytes_in : Z; ct_bytes_out : Z; ct_online : Z;
}.
Definition stats_of (r : vpn_session) : client_stats :=
  ClientStats 1 (v_last_seen r) (v_connected_at r) (v_bytes_in r) (v_bytes_out r) (ended r - v_connected_at r).
Definition add_stats (a b : client_stats) : client_stats :=
  ClientStats (ct_sessions a + ct_sessions b) (Z.max (ct_last_seen a) (ct_last_seen b)) (Z.min (ct_first_seen a) (ct_first_seen b))
    (ct_bytes_in a + ct_bytes_in b) (ct_bytes_out a + ct_bytes_out b) (ct_online a + ct_online b).
Definition group_stats (rows : list vpn_session) : gmap string client_stats :=
  foldr (fun r m => <[v_client_name r := match m !! v_client_name r with Some s => add_stats (stats_of r) s | None => stats_of r end]> m)
    ∅ rows.
Definition session_stats_by_client (d : database) : gmap string client_stats := group_stats (map_to_list (vpn_sessions d)).*2.

(** [db.rejections]: the groups by client, reason and address since a time, the latest first. *)
Record rejection := Rejection { rj_client : string; rj_reason : string; rj_address : string; rj_count : Z; rj_last : Z }.
Definition later_rejection (a b : rejection) : Prop := rj_last b <= rj_last a.
#[export] Instance later_rejection_dec : RelDecision later_rejection.
Proof. intros a b. unfold later_rejection. apply _. Defined.
Definition rejection_groups (rows : list ((Z * string * string * string) * (Z * Z))) : gmap (string * string * string) (Z * Z) :=
  foldr (fun '(_, client, reason, address, (n, last)) m =>
           let k := (client, reason, address) in
           <[k := match m !! k with Some (n', last') => (n + n', Z.max last last') | None => (n, last) end]> m) ∅ rows.
Definition db_rejections (since : Z) (client : option string) (d : database) : list rejection :=
  let rows := List.filter (fun kv : (Z * string * string * string) * (Z * Z) =>
                              (since <=? kv.2.2) && match client with Some c => String.eqb kv.1.1.1.2 c | None => true end)
                (map_to_list (rejections d)) in
  take 50 (merge_sort later_rejection
    ((fun '((c, r, a), (n, last)) => Rejection c r a n last) <$> map_to_list (rejection_groups rows))).

(** ** The list of clients *)

Record client_page := ClientPage {
  cp_client : client;
  cp_days_left : option Z;
  cp_static_ip : option string;
  cp_guest : bool;
  cp_relay_available : bool;
  cp_tfa : bool;
  cp_live : list live_client;
  cp_traffic : Z * Z;
  cp_stats : option client_stats;
  cp_note : string;
}.
Definition cp_name (p : client_page) : string := cl_name (cp_client p).
Definition cp_online (p : client_page) : bool := negb (Nat.eqb (length (cp_live p)) 0).

Definition or_zero_days (now : Z) (not_after : option Z) : option Z :=
  match not_after with Some t => if t =? 0 then None else Some ((t - now) / 86400) | None => None end.

Section payload.
Context (now : Z) (live : list live_client) (d : database) (a : access) (relay_enabled : bool) (tfa : gmap string string).

Definition connections_of (name : string) : list live_client :=
  List.filter (fun c => String.eqb (cl_cn (lc_client c)) name) live.
Definition client_page_of (start fin : Z) (c : client) : client_page :=
  ClientPage c (or_zero_days now (cr_not_after (cl_cert c))) (static_ips a !! cl_name c) (bool_decide (cl_name c ∈ guests a))
    (relay_enabled && bool_decide (cr_state (cl_cert c) = Valid)) (bool_decide (is_Some (tfa !! cl_name c))) (connections_of (cl_name c))
    (default (0, 0) (totals_by_client d start fin !! cl_name c)) (session_stats_by_client d !! cl_name c)
    (match clients d !! cl_name c with Some r => c_note r | None => "" end).

(** The sort key of a row: online first, then by state and name. *)
Definition state_rank (s : cstate) : Z := match s with Valid => 0 | Expired => 1 | Revoked => 2 end.
Definition page_key (p : client_page) : Z * string :=
  ((if cp_online p then 0 else 3) + state_rank (cr_state (cl_cert (cp_client p))), lower (cp_name p)).
Definition page_before (p q : client_page) : Prop :=
  (page_key p).1 < (page_key q).1 ∨ (page_key p).1 = (page_key q).1 ∧ str_le (page_key p).2 (page_key q).2.
#[export] Instance page_before_dec : RelDecision page_before.
Proof. intros p q. unfold page_before. apply _. Defined.

Definition clients_payload (range_name : string) (tz : Z) (listed : list client) : result (list client_page) :=
  '(start, fin) ← range_bounds d now range_name tz;
  Ok (merge_sort page_before (client_page_of start fin <$> listed)).
End payload.

(** ** The overview *)

Record counts := Counts { ov_valid : Z; ov_expiring : Z; ov_expired : Z; ov_revoked : Z }.
Definition soon (now days : Z) (not_after : option Z) : bool :=
  match not_after with Some t => negb (t =? 0) && (t - now <? days * 86400) | None => false end.
Definition count_client (now : Z) (n : counts) (c : client) : counts :=
  match cr_state (cl_cert c) with
  | Valid => Counts (ov_valid n + 1) (ov_expiring n + (if soon now EXPIRING_DAYS (cr_not_after (cl_cert c)) then 1 else 0)) (ov_expired n) (ov_revoked n)
  | Expired => Counts (ov_valid n) (ov_expiring n) (ov_expired n + 1) (ov_revoked n)
  | Revoked => Counts (ov_valid n) (ov_expiring n) (ov_expired n) (ov_revoked n + 1)
  end.
Definition client_counts (now : Z) (listed : list client) : counts := foldl (count_client now) (Counts 0 0 0 0) listed.

(** The clients with most traffic. *)
Definition more_traffic (a b : string * (Z * Z)) : Prop := b.2.1 + b.2.2 <= a.2.1 + a.2.2.
#[export] Instance more_traffic_dec : RelDecision more_traffic.
Proof. intros a b. unfold more_traffic. apply _. Defined.
Definition top_clients (d : database) (start fin : Z) : list (string * (Z * Z)) :=
  take 8 (merge_sort more_traffic (map_to_list (totals_by_client d start fin))).

(** Sessions of a period, and their clients. *)
Definition sessions_in (d : database) (start fin : Z) : nat * nat :=
  let rows := select_sessions (fun r => (start <=? v_last_seen r) && (v_connected_at r <? fin)) d in
  (length rows, length (remove_dups ((fun kv : Z * vpn_session => v_client_name kv.2) <$> rows))).

(** *** The warnings *)

Definition local_host (h : string) : bool := existsb (String.eqb h) [""; "127.0.0.1"; "localhost"; "::1"].
Definition host_warning (host : string) : list string :=
  if local_host host
  then ["Client profiles point at " +:+ (if empty host then "no address" else host)
        +:+ " - set this server's public address under Settings, then hand out the profiles again"]
  else [].
Definition dial (remotes : list endpoint) (proto : string) : option string :=
  fst <$> last (List.filter (fun r : endpoint => String.eqb r.2 proto) remotes).
Definition listen_warning (remotes : list endpoint) (sock : endpoint) : list string :=
  let '(port, proto) := sock in
  match dial remotes proto with
  | None => ["OpenVPN listens on " +:+ port +:+ "/" +:+ proto +:+ " but client profiles have no " +:+ upper proto
             +:+ " address - save the public address again under Settings"]
  | Some p => if String.eqb p port then []
              else ["Client profiles dial " +:+ p +:+ "/" +:+ proto +:+ " but OpenVPN listens on " +:+ port +:+ "/" +:+ proto
                    +:+ " - correct it under Settings, unless a router forwards one port to the other"]
  end.
Definition address_warnings (remote : string * list endpoint) (listen : list endpoint) : list string :=
  host_warning remote.1 ++ (listen ≫= listen_warning remote.2).

(** The revocation list ([crl] is whether it exists and its next update), the certificates of the
    server and of the CA, and the clients' certificates. *)
Definition expiry_warnings (now : Z) (crl : bool * option Z) (server ca : option Z) (n : counts) : list string :=
  (if crl.1 && soon now EXPIRING_DAYS crl.2 then ["The certificate revocation list expires soon - regenerate it on the Server page"] else [])
  ++ (if soon now 30 server then ["The server certificate expires within 30 days"] else [])
  ++ (if soon now 90 ca then ["The certificate authority expires within 90 days"] else [])
  ++ (if ov_expiring n =? 0 then []
      else [str_of_int (ov_expiring n) +:+ " client certificate(s) expire within " +:+ str_of_int EXPIRING_DAYS +:+ " days"]).

Definition backup_warning (now started : Z) (b : backup_status) : list string :=
  let last := match st_last b with Some t => if t =? 0 then started else t | None => started end in
  if st_enabled b && (BACKUP_WARN_DAYS * 86400 <? now - last)
  then ["No backup for more than " +:+ str_of_int BACKUP_WARN_DAYS +:+ " days - see the Server page and the UI log"] else [].

Definition valid_in (listed : list client) (name : string) : bool :=
  existsb (fun c => String.eqb (cl_name c) name && bool_decide (cr_state (cl_cert c) = Valid)) listed.
Definition static_warning (conf guest_sub : string) (a : access) (listed : list client) : result (list string) :=
  bad ← map_result (fun '(n, ip) =>
          if valid_in listed n
          then problem ← static_ip_problem conf guest_sub a n ip; Ok (if truthy problem then Some (n +:+ " (" +:+ ip +:+ ")") else None)
          else Ok None)
        (merge_sort (fun p q : string * string => str_le p.1 q.1) (map_to_list (static_ips a)));
  let bad := omap id bad in
  Ok (match bad with
      | [] => []
      | _ => ["OpenVPN cannot hand out these static IPs - set new ones on the client pages: " +:+ join ", " bad]
      end).

Definition tfa_warning (enforced : bool) (tfa : gmap string string) (listed : list client) : list string :=
  let missing := cl_name <$> List.filter (fun c => bool_decide (cr_state (cl_cert c) = Valid) && bool_decide (tfa !! cl_name c = None)) listed in
  if enforced && negb (Nat.eqb (length missing) 0)
  then ["2FA is enforced but " +:+ str_of_int (Z.of_nat (length missing)) +:+ " client(s) have no TOTP secret: "
        +:+ join ", " (take 5 (merge_sort str_le missing)) +:+ (if Nat.ltb 5 (length missing) then "..." else "")]
  else [].

Definition warnings (now started : Z) (live : live_state) (remote : string * list endpoint) (listen : list endpoint) (crl : bool * option Z)
    (server ca : option Z) (n : counts) (b : backup_status) (conf guest_sub : string) (a : access) (enforced : bool)
    (tfa : gmap string string) (listed : list client) : result (list string) :=
  static ← static_warning conf guest_sub a listed;
  Ok ((if l_connected live then []
       else ["OpenVPN management interface unreachable: "
             +:+ (if truthy (l_error live) then default "" (l_error live) else "not connected")])
      ++ address_warnings remote listen ++ expiry_warnings now crl server ca n ++ backup_warning now started b ++ static
      ++ tfa_warning enforced tfa listed).

(** ** The list of sessions *)

(** [sessions] without merging: the total, and one page, newest first. *)
Definition session_rows (d : database) (name : option string) (active : bool) : list (Z * vpn_session) :=
  merge_sort newest (select_sessions (fun r => (if truthy name then String.eqb (v_client_name r) (default "" name) else true)
                                               && (negb active || is_open r)) d).
Definition sessions_page (d : database) (name : option string) (limit offset : Z) (active : bool) : result (nat * list (Z * vpn_session)) :=
  _ ← (if truthy name then validate_name (default "" name) else Ok "");
  let rows := session_rows d name active in
  Ok (length rows, take (Z.to_nat (Z.max 1 (Z.min limit 500))) (drop (Z.to_nat (Z.max 0 offset)) rows)).

(** The endpoint [sessions]: the rows, or their visits with [merge]. *)
Inductive session_list := SessionRows (rows : list (Z * vpn_session)) | SessionVisits (rows : list visit).
Definition sessions (d : database) (name : option string) (limit offset : Z) (active merge : bool) : result (nat * session_list) :=
  if merge then
    _ ← (if truthy name then validate_name (default "" name) else Ok "");
    let '(total, rows) := visits d (if truthy name then name else None) (Z.to_nat (Z.max 1 (Z.min limit 500))) (Z.to_nat (Z.max 0 offset)) active in
    Ok (total, SessionVisits rows)
  else '(total, rows) ← sessions_page d name limit offset active; Ok (total, SessionRows rows).

(** ** Traffic *)

Record traffic_page := TrafficPage { tp_bucket : Z; tp_series : list (Z * (Z * Z)); tp_totals : Z * Z }.
(** The endpoint [traffic]. *)
Definition traffic (d : database) (now : Z) (range_name : string) (name : option string) (tz : Z) : result traffic_page :=
  _ ← (if truthy name then validate_name (default "" name) else Ok "");
  '(start, fin) ← range_bounds d now range_name tz;
  let bucket := bucket_for range_name in
  Ok (TrafficPage bucket (fill_series (series d start fin bucket name tz) start fin bucket tz) (totals d start fin name)).

(** The endpoint [connections]. *)
Definition connections (d : database) (now : Z) (range_name : string) (tz : Z) : result (list (conn_stats * option Z)) :=
  '(start, fin) ← range_bounds d now range_name tz; Ok (connection_stats d start fin).

(** What [client_detail] adds to the row of a client; [uri] is its [tfa_uri]. *)
Record client_extra := ClientExtra {
  ce_visits : list visit; ce_daily : list (Z * (Z * Z)); ce_tfa_uri : option string; ce_rejections : list rejection }.
Definition client_detail (d : database) (now tz : Z) (row : client_page) (uri : option string) : client_page * client_extra :=
  let start := now - 30 * 86400 in
  (row, ClientExtra (visits d (Some (cp_name row)) 100 0 false).2
          (fill_series (series d start (now + 1) 86400 (Some (cp_name row)) tz) start (now + 1) 86400 tz)
          (if cp_tfa row then uri else None) (db_rejections (now - 30 * 86400) (Some (cp_name row)) d)).

(** The numbers of [overview]; its warnings are above. *)
Record overview_page := OverviewPage {
  op_totals : Z * Z; op_sessions : nat * nat; op_top : list (string * (Z * Z)); op_hour : list (Z * (Z * Z));
  op_series : list (Z * (Z * Z)); op_bucket : Z; op_counts : counts; op_rejections : list rejection }.
Definition overview (d : database) (now : Z) (range_name : string) (tz : Z) (listed : list client) : result overview_page :=
  '(start, fin) ← range_bounds d now range_name tz;
  let bucket := bucket_for range_name in
  let hour := now - 3600 in
  Ok (OverviewPage (totals d start fin None) (sessions_in d start fin) (top_clients d start fin)
        (fill_series (series d hour (now + 60) 60 None 0) hour (now + 60) 60 0)
        (fill_series (series d start fin bucket None tz) start fin bucket tz) bucket (client_counts now listed)
        (db_rejections (now - 86400) None d)).

(** ** Lemmas *)

Lemma str_le_total a b : str_le a b ∨ str_le b a.
Proof. unfold str_le. rewrite (String.compare_antisym a b). destruct (String.compare b a); [by left|by right|by left]. Qed.

#[export] Instance page_before_total : Total page_before.
Proof.
  intros p q. unfold page_before. destruct (Z.lt_trichotomy (page_key p).1 (page_key q).1) as [?|[->|?]]; [auto| |auto].
  destruct (str_le_total (page_key p).2 (page_key q).2); auto.
Qed.

Lemma online_key p : (cp_online p = true ↔ (page_key p).1 < 3).
Proof. unfold page_key. cbn [fst]. unfold state_rank. destruct (cp_online p), (cr_state _); split; try done; lia. Qed.

Lemma sorted_keys l : Sorted page_before l → StronglySorted (fun p q => (page_key p).1 <= (page_key q).1) l.
Proof.
  intros Hs. apply Sorted_StronglySorted; [intros x y z; lia|]. induction Hs as [|p l Hs IH Hh]; constructor; [done|].
  destruct Hh as [|q l [?|[? _]]]; constructor; lia.
Qed.

Lemma strongly_sorted_lookup {A} (R : A → A → Prop) l i j x y : StronglySorted R l → (i < j)%nat → l !! i = Some x → l !! j = Some y → R x y.
Proof.
  intros Hs. revert i j. induction Hs as [|z l Hs IH Hall]; intros i j Hij Hi Hj; [done|]. destruct j as [|j]; [lia|].
  destruct i as [|i]; cbn in *.
  - injection Hi as ->. rewrite Forall_forall in Hall. apply Hall. by eapply list_elem_of_lookup_2.
  - apply (IH i j); [lia|done|done].
Qed.

(** What is counted of each group adds up to what is counted of each row. *)
Lemma group_stats_sum (f : client_stats → Z) rows : (∀ a b, f (add_stats a b) = f a + f b) →
  map_sum (fun _ s => f s) (group_stats rows) = sumZ (fun r => f (stats_of r)) rows.
Proof.
  intros Hf. induction rows as [|r rows IH]; [apply map_sum_empty|]. cbn [group_stats foldr sumZ].
  change (foldr _ ∅ rows) with (group_stats rows). destruct (group_stats rows !! v_client_name r) as [s|] eqn:E.
  - rewrite (map_sum_overwrite _ _ _ _ _ E), Hf. lia.
  - rewrite map_sum_insert by done. lia.
Qed.

Lemma group_stats_row rows r : r ∈ rows → is_Some (group_stats rows !! v_client_name r).
Proof.
  induction rows as [|r' rows IH]; [by intros ?%not_elem_of_nil|]. cbn [group_stats foldr]. change (foldr _ ∅ rows) with (group_stats rows).
  intros [->|Hin]%elem_of_cons; [rewrite lookup_insert_eq; eauto|]. destruct (decide (v_client_name r = v_client_name r')) as [->|Hne].
  - rewrite lookup_insert_eq. eauto.
  - rewrite lookup_insert_ne by done. by apply IH.
Qed.

(** The groups of a list by a key, over all keys. *)
Lemma connections_split live names : NoDup names → (∀ c, c ∈ live → cl_cn (lc_client c) ∈ names) →
  sumZ (fun n => Z.of_nat (length (connections_of live n))) names = Z.of_nat (length live).
Proof.
  intros Hnd Hin. rewrite <-sumZ_one, <-(sumZ_groups (fun c => cl_cn (lc_client c)) (fun _ => 1) names live Hnd Hin).
  apply sumZ_ext. intros n _. rewrite sumZ_one. f_equal. unfold connections_of. clear. induction live as [|c live IH]; [done|].
  cbn [List.filter]. rewrite filter_cons. destruct (String.eqb_spec (cl_cn (lc_client c)) n); destruct (decide _); try done. cbn. by rewrite IH.
Qed.

(** The traffic of all clients is the total. *)
Lemma clients_add_up d start fin :
  (map_sum (fun _ v => v.1) (totals_by_client d start fin), map_sum (fun _ v => v.2) (totals_by_client d start fin)) = totals d start fin None.
Proof.
  unfold totals, sum_bytes. rewrite !(sumZ_filter _ (fun kv => for_client None kv = true)). unfold totals_by_client.
  induction (traffic_union start fin d) as [|[[ts n] [i o]] l IH]; [done|]. cbn [foldr sumZ fst snd].
  set (m := foldr _ ∅ l) in *. apply pair_equal_spec in IH as [IH1 IH2]. rewrite !decide_True by done.
  destruct (m !! n) as [[i' o']|] eqn:E; unfold add_bytes, default, from_option, id; cbn [fst snd].
  - rewrite !(map_sum_overwrite _ _ _ _ _ E), IH1, IH2. cbn [fst snd]. f_equal; lia.
  - rewrite !map_sum_insert by done. rewrite IH1, IH2. cbn [fst snd]. f_equal; lia.
Qed.

#[export] Instance more_traffic_trans : Transitive more_traffic.
Proof. intros a b c. unfold more_traffic. lia. Qed.
#[export] Instance more_traffic_total : Total more_traffic.
Proof. intros a b. unfold more_traffic. lia. Qed.

(** ** Theorems *)

(** The list of clients shows everybody once and every connection: its rows are the listed clients,
    those who are online before the others, and the connections shown in all rows together are those of
    OpenVPN, when each of them is of a listed client. *)
Theorem clients_payload_complete now live d a relay_enabled tfa range_name tz listed pages :
  clients_payload now live d a relay_enabled tfa range_name tz listed = Ok pages →
  NoDup (cl_name <$> listed) →
  cp_client <$> pages ≡ₚ listed ∧
  (∀ i j p q, (i < j)%nat → pages !! i = Some p → pages !! j = Some q → cp_online q = true → cp_online p = true) ∧
  ((∀ c, c ∈ live → cl_cn (lc_client c) ∈ cl_name <$> listed) →
   sumZ (fun p => Z.of_nat (length (cp_live p))) pages = Z.of_nat (length live)).
Proof.
  unfold clients_payload. destruct (range_bounds d now range_name tz) as [[start fin]|]; [|done]. cbn [mbind result_bind].
  intros <-%Ok_inj Hnd. set (rows := client_page_of now live d a relay_enabled tfa start fin <$> listed).
  assert (Hc : cp_client <$> rows = listed).
  { unfold rows. rewrite <-list_fmap_compose. rewrite <-(list_fmap_id listed) at 2. by apply list_fmap_ext. }
  split_and!.
  - by rewrite merge_sort_Permutation, Hc.
  - intros i j p q Hij Hi Hj. rewrite !online_key. pose proof (Sorted_merge_sort page_before rows) as Hs. apply sorted_keys in Hs.
    pose proof (strongly_sorted_lookup _ _ _ _ _ _ Hs Hij Hi Hj) as Hle. cbv beta in Hle. lia.
  - intros Hlive. rewrite (sumZ_perm _ _ rows) by apply merge_sort_Permutation. unfold rows. rewrite sumZ_fmap.
    rewrite <-(connections_split live (cl_name <$> listed) Hnd Hlive), sumZ_fmap. done.
Qed.

(** The statistics of the clients add up to the sessions: no session is left out or counted for two
    names, and each name with a session has its group. *)
Theorem session_stats_add_up d :
  let stats := session_stats_by_client d in
  let rows := (map_to_list (vpn_sessions d)).*2 in
  map_sum (fun _ s => ct_sessions s) stats = Z.of_nat (length rows) ∧
  map_sum (fun _ s => ct_bytes_in s) stats = sumZ v_bytes_in rows ∧
  map_sum (fun _ s => ct_bytes_out s) stats = sumZ v_bytes_out rows ∧
  map_sum (fun _ s => ct_online s) stats = sumZ (fun r => ended r - v_connected_at r) rows ∧
  ∀ k r, vpn_sessions d !! k = Some r → is_Some (stats !! v_client_name r).
Proof.
  intros stats rows. unfold stats, session_stats_by_client. fold rows.
  split_and!; [rewrite (group_stats_sum ct_sessions) by done; apply sumZ_one|by rewrite (group_stats_sum ct_bytes_in)|
    by rewrite (group_stats_sum ct_bytes_out)|by rewrite (group_stats_sum ct_online)|].
  intros k r Hk. apply group_stats_row, list_elem_of_fmap. exists (k, r). by rewrite elem_of_map_to_list.
Qed.

(** The counts of the overview are a partition of the clients, and the certificates that expire soon are
    among the valid ones. *)
Theorem counts_partition now listed :
  let n := client_counts now listed in
  ov_valid n + ov_expired n + ov_revoked n = Z.of_nat (length listed) ∧
  ov_valid n = Z.of_nat (length (List.filter (fun c => bool_decide (cr_state (cl_cert c) = Valid)) listed)) ∧
  ov_expiring n = Z.of_nat (length (List.filter (fun c =>
    bool_decide (cr_state (cl_cert c) = Valid) && soon now EXPIRING_DAYS (cr_not_after (cl_cert c))) listed)) ∧
  ov_expiring n <= ov_valid n.
Proof.
  assert (Hg : ∀ acc, let n := foldl (count_client now) acc listed in
    ov_valid n + ov_expired n + ov_revoked n = ov_valid acc + ov_expired acc + ov_revoked acc + Z.of_nat (length listed) ∧
    ov_valid n = ov_valid acc + Z.of_nat (length (List.filter (fun c => bool_decide (cr_state (cl_cert c) = Valid)) listed)) ∧
    ov_expiring n = ov_expiring acc + Z.of_nat (length (List.filter (fun c =>
      bool_decide (cr_state (cl_cert c) = Valid) && soon now EXPIRING_DAYS (cr_not_after (cl_cert c))) listed)) ∧
    ov_expiring n - ov_expiring acc <= ov_valid n - ov_valid acc).
  { induction listed as [|c l IH]; intros acc; [cbn; lia|]. cbn [foldl List.filter length]. specialize (IH (count_client now acc c)).
    cbn zeta in IH |- *. unfold count_client in *. destruct (cr_state (cl_cert c)); cbn [bool_decide decide_rel andb] in *.
    - rewrite !bool_decide_eq_false_2 by done. cbn [andb ov_valid ov_expiring ov_expired ov_revoked] in *. lia.
    - rewrite !bool_decide_eq_false_2 by done. cbn [andb ov_valid ov_expiring ov_expired ov_revoked] in *. lia.
    - rewrite !bool_decide_eq_true_2 by done. cbn [andb ov_valid ov_expiring ov_expired ov_revoked] in *.
      destruct (soon _ _ _); cbn [length]; lia. }
  intros n. destruct (Hg (Counts 0 0 0 0)) as (H1 & H2 & H3 & H4). fold (client_counts now listed) in H1, H2, H3, H4. fold n in H1, H2, H3, H4.
  cbn [ov_valid ov_expiring ov_expired ov_revoked] in *. lia.
Qed.

(** No warning about the address means that profiles work: the overview says nothing about it exactly when
    the profiles have a public host and, for every socket OpenVPN listens on, its protocol with that
    port. *)
Theorem address_warnings_exact remote listen :
  address_warnings remote listen = [] ↔
  local_host remote.1 = false ∧ ∀ port proto, (port, proto) ∈ listen → dial remote.2 proto = Some port.
Proof.
  unfold address_warnings, host_warning. rewrite app_nil. split.
  - intros [Hh Hl]. split; [by destruct (local_host remote.1)|]. intros port proto Hin.
    assert (Hw : listen_warning remote.2 (port, proto) = []).
    { destruct (listen_warning remote.2 (port, proto)) as [|w l] eqn:E; [done|]. exfalso.
      assert (Hw : w ∈ listen ≫= listen_warning remote.2) by (apply list_elem_of_bind; exists (port, proto); rewrite E; split; [left|done]).
      rewrite Hl in Hw. by apply not_elem_of_nil in Hw. }
    unfold listen_warning in Hw. destruct (dial remote.2 proto) as [p|]; [|done].
    destruct (String.eqb_spec p port) as [He|]; [by rewrite He|discriminate Hw].
  - intros [-> Hl]. split; [done|]. induction listen as [|[port proto] listen IH]; [done|].
    cbn [mbind list_bind]. change (list_bind _ _ ?f ?l) with (l ≫= f). rewrite IH by (intros; apply Hl; by right).
    unfold listen_warning. rewrite (Hl port proto) by left. by rewrite String.eqb_refl.
Qed.

(** Leafing through the sessions shows each of them once: the pages at the multiples of the limit, put
    together, are the sessions from the newest on. *)
Theorem session_pages_cover d name limit active n :
  (truthy name = true → is_ok (validate_name (default "" name)) = true) → 1 <= limit <= 500 →
  ∃ pages, map_result (fun k => r ← sessions_page d name limit (Z.of_nat k * limit) active; Ok r.2) (seq 0 n) = Ok pages ∧
    concat pages = take (n * Z.to_nat limit) (session_rows d name active) ∧
    ∀ r, r ∈ session_rows d name active ↔ r ∈ select_sessions (fun r => (if truthy name then String.eqb (v_client_name r) (default "" name) else true)
                                                                 && (negb active || is_open r)) d.
Proof.
  intros Hname Hlim. set (rows := session_rows d name active). set (L := Z.to_nat limit).
  assert (Hpage : ∀ k, sessions_page d name limit (Z.of_nat k * limit) active = Ok (length rows, take L (drop (k * L) rows))).
  { intros k. unfold sessions_page. fold rows. replace (Z.to_nat (Z.max 1 (Z.min limit 500))) with L by (unfold L; f_equal; lia).
    replace (Z.to_nat (Z.max 0 (Z.of_nat k * limit))) with (k * L)%nat by (unfold L; rewrite Z.max_r by lia; rewrite Z2Nat.inj_mul; lia).
    destruct (truthy name) eqn:Ht; [|done]. specialize (Hname eq_refl). by destruct (validate_name _). }
  exists ((fun k => take L (drop (k * L) rows)) <$> seq 0 n). split_and!.
  - generalize (seq 0 n). intros l. induction l as [|k l IH]; [done|]. cbn [map_result]. rewrite Hpage. cbn [mbind result_bind snd]. by rewrite IH.
  - induction n as [|n IH]; [done|]. rewrite seq_S, fmap_app, concat_app, IH. cbn [fmap list_fmap concat Nat.add]. rewrite app_nil_r.
    rewrite take_take_drop. f_equal. lia.
  - intros r. unfold rows, session_rows. by rewrite merge_sort_Permutation.
Qed.

(** The numbers of the overview agree: the points of its chart add up to the totals it shows, and so
    does the traffic of all clients; the clients with most traffic are shown from the highest on, and
    nobody left out had more than the last one shown. *)
Theorem overview_consistent d now range_name tz listed p :
  overview d now range_name tz listed = Ok p →
  ∃ start fin, range_bounds d now range_name tz = Ok (start, fin) ∧
    (0 <= start + tz → sum_bytes ((fun q => ((q.1, ""), q.2)) <$> op_series p) = op_totals p) ∧
    (map_sum (fun _ v => v.1) (totals_by_client d start fin), map_sum (fun _ v => v.2) (totals_by_client d start fin)) = op_totals p ∧
    StronglySorted more_traffic (op_top p) ∧ (length (op_top p) <= 8)%nat ∧
    ∀ n v w, totals_by_client d start fin !! n = Some v → (n, v) ∉ op_top p → w ∈ op_top p → more_traffic w (n, v).
Proof.
  unfold overview. destruct (range_bounds d now range_name tz) as [[start fin]|]; [|done]. cbn [mbind result_bind]. intros <-%Ok_inj.
  exists start, fin. cbn [op_series op_totals op_top]. unfold top_clients. pose proof (StronglySorted_merge_sort more_traffic (map_to_list (totals_by_client d start fin))) as Hs.
  pose proof (merge_sort_Permutation more_traffic (map_to_list (totals_by_client d start fin))) as Hp.
  set (l := merge_sort more_traffic _) in *. rewrite <-(take_drop 8 l) in Hs. split_and!; [done| | | | |].
  - intros H. apply chart_total; [|done]. unfold bucket_for, assoc, default, from_option. cbn. repeat case_match; simplify_eq; lia.
  - apply clients_add_up.
  - by eapply StronglySorted_app_1_l.
  - rewrite length_take. lia.
  - intros n v w Hn Hout Hw. assert (Hin : (n, v) ∈ l) by (rewrite Hp; by apply elem_of_map_to_list).
    rewrite <-(take_drop 8 l), elem_of_app in Hin. destruct Hin as [?|Hin]; [done|]. by eapply StronglySorted_app_1_elem_of.
Qed.

(** ** Witnesses *)

Definition listed_demo : list client :=
  [ClientInfo "bob" (CertRow "02" "bob" Valid None (Some 5000000) None None "") None [];
   ClientInfo "alice" (CertRow "01" "alice" Valid None (Some 5000000) None None "") None []].
Definition idle_rate : QArith_base.Q := l_rate_in initial_live.
Definition live_demo : list live_client :=
  [LiveClient (StatusClient "alice" "192.0.2.9:1194" "10.8.0.2" "" 1 2 900 "" 7 0 "") 1 idle_rate idle_rate].
Definition payload_demo : result (list client_page) :=
  clients_payload 1000 live_demo alice_db (Access ∅ ∅) true ∅ "24h" 0 listed_demo.

Lemma clients_payload_complete_witness :
  ∃ pages, payload_demo = Ok pages ∧ cp_name <$> pages = ["alice"; "bob"] ∧ sumZ (fun p => Z.of_nat (length (cp_live p))) pages = 1.
Proof.
  destruct payload_demo as [pages|e] eqn:Hp; [|vm_compute in Hp; discriminate Hp]. exists pages. split; [done|]. split.
  - vm_compute in Hp. injection Hp as <-. reflexivity.
  - apply (clients_payload_complete 1000 live_demo alice_db (Access ∅ ∅) true ∅ "24h" 0 listed_demo pages Hp).
    + apply NoDup_cons. split; [set_solver|]. apply NoDup_singleton.
    + intros c ->%list_elem_of_singleton. cbn. set_solver.
Defined.

Definition two_clients : database := add_traffic 99960 "alice" 5 7 (add_traffic 99900 "bob" 1 2 empty_db).

Lemma overview_consistent_witness :
  is_ok (overview two_clients 100000 "24h" 0 listed_demo) = true ∧ ∀ p, overview two_clients 100000 "24h" 0 listed_demo = Ok p →
    sum_bytes ((fun q => ((q.1, ""), q.2)) <$> op_series p) = (6, 9) ∧ op_top p = [("alice", (5, 7)); ("bob", (1, 2))] ∧
    StronglySorted more_traffic (op_top p).
Proof.
  split; [vm_compute; reflexivity|]. intros p Hp.
  destruct (overview_consistent two_clients 100000 "24h" 0 listed_demo p Hp) as (start & fin & Hr & Hc & _ & Hs & _).
  assert (Hn : (fun p => (op_totals p, op_top p)) <$> overview two_clients 100000 "24h" 0 listed_demo = Ok ((6, 9), [("alice", (5, 7)); ("bob", (1, 2))]))
    by (vm_compute; reflexivity).
  rewrite Hp in Hn. apply Ok_inj, pair_equal_spec in Hn as [H1 H2]. vm_compute in Hr. injection Hr as <- <-.
  split; [rewrite Hc by lia; exact H1|]. split; [exact H2|exact Hs].
Defined.

Lemma session_pages_cover_witness :
  ∃ pages, map_result (fun k => r ← sessions_page alice_db (Some "alice") 1 (Z.of_nat k * 1) false; Ok r.2) (seq 0 2) = Ok pages ∧
    concat pages = take 2 (session_rows alice_db (Some "alice") false) ∧ length (concat pages) = 1%nat.
Proof.
  destruct (session_pages_cover alice_db (Some "alice") 1 false 2) as (pages & Hp & Hc & _); [reflexivity|lia|].
  exists pages. split; [exact Hp|]. split; [exact Hc|]. rewrite Hc. vm_compute. reflexivity.
Defined.
