(* ===== verification/Profiles.v ===== *)
(** * Profiles, the second factor, the control channel and housekeeping: [ui/app/pki.py]

    What is left of [pki.py]: the secrets of the second factor, the regeneration of profiles, the
    switch of the control channel, the freshness of the CRL and the tails of logs, with
    [collector.Maintenance], which runs the tasks every hour.  The scripts of bin/ and easy-rsa are
    functions on the directory of profiles that can fail. *)

From S2P Require Import Prelude PyStr Regex ConfigEdit Addressing Clients SearchLines Url.

Open Scope string_scope.
Open Scope list_scope.
Open Scope Z_scope.

(** ** The secrets of the second factor *)

(** [tfa_secrets]: a later line of oath.secrets wins. *)
Definition secret_line (line : string) : option (string * string) :=
  let '(name, sep, secret) := partition ":"%char (strip line) in
  if sep && negb (empty name) && negb (empty secret) then Some (name, secret) else None.
Definition tfa_secrets (text : option string) : gmap string string :=
  match text with
  | None => ∅
  | Some text => foldl (fun m l => match secret_line l with Some (n, s) => <[n := s]> m | None => m end) ∅
                   (splitlines (universal_newlines text))
  end.

(** [bytes.fromhex]: white space between the bytes is skipped; None is the ValueError. *)
Definition hex_digit (c : ascii) : option Z :=
  if is_decimal c then Some (code c - 48)
  else if in_range 97 102 c then Some (code c - 87)
  else if in_range 65 70 c then Some (code c - 55) else None.
Definition ascii_space (c : ascii) : bool := (code c =? 32) || in_range 9 13 c.
Fixpoint fromhex (s : string) : option (list Z) :=
  match s with
  | EmptyString => Some []
  | String c s' =>
      if ascii_space c then fromhex s'
      else match s' with
           | String d s'' => h ← hex_digit c; l ← hex_digit d; rest ← fromhex s''; Some (16 * h + l :: rest)
           | EmptyString => None
           end
  end.

(** [base64.b32encode(bytes)] without its padding: the bits in groups of five, the last one filled
    with zeros. *)
Definition byte_bits (b : Z) : list bool := (fun i => Z.testbit b i) <$> [7; 6; 5; 4; 3; 2; 1; 0].
Fixpoint bits_val (acc : Z) (l : list bool) : Z :=
  match l with [] => acc | b :: l => bits_val (2 * acc + (if b : bool then 1 else 0)) l end.
Definition b32_char (n : Z) : ascii := if n <? 26 then chr (65 + n) else chr (50 + (n - 26)).
Fixpoint b32_groups (l : list bool) : string :=
  match l with
  | a :: b :: c :: d :: e :: l => String (b32_char (bits_val 0 [a; b; c; d; e])) (b32_groups l)
  | [] => ""
  | l => String (b32_char (bits_val 0 (l ++ replicate (5 - length l) false))) ""
  end.
Definition b32encode (bytes : list Z) : string := b32_groups (bytes ≫= byte_bits).

(** [tfa_uri]; [secret] is the entry of [tfa_secrets]. *)
Definition encode_spaces (s : string) : string := join "%20" (split " "%char s).
Definition tfa_uri (issuer : string) (secrets : gmap string string) (name : string) : option string :=
  secret ← secrets !! name;
  bytes ← (if empty secret then None else fromhex secret);
  let issuer := encode_spaces issuer in
  Some ("otpauth://totp/" +:+ issuer +:+ ":" +:+ name +:+ "?secret=" +:+ b32encode bytes +:+ "&issuer=" +:+ issuer
        +:+ "&algorithm=SHA1&digits=6&period=30").

(** ** Profiles *)

(** The directories the scripts work on: the issued certificates, oath.secrets and the profiles. *)
Record profile_dir := ProfileDir { pf_issued : list string; pf_secrets : option string; pf_profiles : gmap string string }.

Section scripts.
(** A script prints something or fails, and leaves the directories as they then are. *)
Context (mkovpn oath_gen oath_rm : string → profile_dir → result string * profile_dir).

(** [enable_tfa] and [disable_tfa]. *)
Definition remake_profile (name : string) (d : profile_dir) : result unit * profile_dir :=
  if bool_decide (name ∈ pf_issued d) then let '(r, d) := mkovpn name d in (_ ← r; Ok tt, d) else (Ok tt, d).
Definition enable_tfa (name : string) (d : profile_dir) : result string * profile_dir :=
  match validate_name name with
  | Raise e => (Raise e, d)
  | Ok _ =>
      match oath_gen name d with
      | (Raise e, d) => (Raise e, d)
      | (Ok out, d) =>
          let uri := if empty (strip out) then "" else default "" (head (splitlines (strip out))) in
          let '(r, d) := remake_profile name d in (_ ← r; Ok uri, d)
      end
  end.
Definition disable_tfa (name : string) (d : profile_dir) : result unit * profile_dir :=
  match validate_name name with
  | Raise e => (Raise e, d)
  | Ok _ =>
      match oath_rm name d with
      | (Raise e, d) => (Raise e, d)
      | (Ok _, d) => remake_profile name d
      end
  end.

(** [build_profile]: the script prints the path of the file it wrote last; paths are the names of
    the files in clients/. *)
Definition build_profile (name : string) (d : profile_dir) : result string * profile_dir :=
  match validate_name name with
  | Raise e => (Raise e, d)
  | Ok _ =>
      match mkovpn name d with
      | (Raise e, d) => (Raise e, d)
      | (Ok out, d) =>
          let path := match last (splitlines (strip out)) with Some p => p | None => name +:+ ".ovpn" end in
          (of_option OSError (pf_profiles d !! path), d)
      end
  end.

(** [regenerate_profiles]: the names whose script failed; another exception than a PkiError of a
    script leaves the loop. *)
Fixpoint remake_all (names : list string) (failed : list string) (d : profile_dir) : result (list string) * profile_dir :=
  match names with
  | [] => (Ok failed, d)
  | n :: names =>
      match mkovpn n d with
      | (Ok _, d) => remake_all names failed d
      | (Raise (PkiError _), d) => remake_all names (failed ++ [n]) d
      | (Raise e, d) => (Raise e, d)
      end
  end.
Definition regenerate_profiles (d : profile_dir) : result (list string) * profile_dir :=
  remake_all (List.filter (fun n => negb (reserved n)) (pf_issued d)) [] d.

(** ** The control channel *)

Definition channels : regex := RAlt (lit "tls-crypt-v2") (RAlt (lit "tls-crypt") (lit "tls-auth")).
Definition rx_channel : regex := RSeq (RStar true rs_) (RSeq (RGroup 1 channels) rs_).
(** The dot stops at the end of a line, so the final anchor holds there. *)
Definition rx_channel_line : regex := RSeq (RStar true rs_) (RSeq (RGroup 1 channels) (RSeq rs_ (RStar true rdot))).

Definition control_channel (fs : files) : result string :=
  text ← read_config "server" fs;
  Ok (match re_search_m rx_channel text with Some m => group m 1 | None => "none" end).

(** The text before the first match of a pattern at the start of a line, and the text after it. *)
Fixpoint split_first (r : regex) (prev : option ascii) (s : string) : option (string * string) :=
  match (if bol prev then rmatch (RGroup 0 r) (ReState prev s ∅) (fun st => Some (re_caps st)) else None) with
  | Some m => Some ("", str_drop (String.length (group m 0)) s)
  | None => match s with
            | EmptyString => None
            | String c t => '(a, b) ← split_first r (Some c) t; Some (String c a, b)
            end
  end.
(** [re.sub] with [count=1] and a replacement without a backslash. *)
Definition sub_first (r : regex) (line text : string) : string :=
  match split_first r None text with Some (a, b) => a +:+ line +:+ b | None => text end.

Definition channel_setting (per_client : bool) : string :=
  if per_client then "tls-crypt-v2 pki/tc2-server.key" else "tls-crypt pki/ta.key".

(** [set_control_channel]; [genkey] is [openvpn --genkey], needed when there is no key yet. *)
Definition set_control_channel (genkey : result unit) (key_exists io_ok : bool) (per_client : bool) (fs : files) (d : profile_dir)
    : result unit * (files * profile_dir) :=
  match (_ ← (if per_client && negb key_exists then genkey else Ok tt);
         text ← read_config "server" fs;
         write_config "server" (sub_first rx_channel_line (channel_setting per_client) text) io_ok fs) with
  | Raise e => (Raise e, (fs, d))
  | Ok fs => let '(r, d) := regenerate_profiles d in (_ ← r; Ok tt, (fs, d))
  end.
End scripts.

(** ** The revocation list *)

Record crl := Crl { crl_exists : bool; crl_last : option Z; crl_next : option Z; crl_revoked : nat }.

Section crl.
Context (zones : list string).

(** [crl_info]: [out] is what [openssl crl] prints (None: it failed), of a line that is repeated the
    last one counts; [index] is [read_index()]. *)
Definition crl_times (out : string) : option Z * option Z :=
  foldl (fun acc line =>
           let '(key, _, val) := partition "="%char line in
           if String.eqb key "lastUpdate" then (parse_openssl_time zones val, acc.2)
           else if String.eqb key "nextUpdate" then (acc.1, parse_openssl_time zones val) else acc)
    (None, None) (splitlines out).
Definition crl_info (exists_ : bool) (out : option string) (index : gmap string index_entry) : crl :=
  if exists_ then
    let times := match out with Some out => crl_times out | None => (None, None) end in
    Crl true times.1 times.2 (length (List.filter (fun p => String.eqb (ie_status p.2) "R") (map_to_list index)))
  else Crl false None None 0.
End crl.

(** [ensure_crl_fresh]; [gen] is what [gen_crl] leaves, or its exception. *)
Definition ensure_crl_fresh (min_days now : Z) (gen : Z → result crl) (info : crl) : result bool * crl :=
  if crl_exists info && match crl_next info with
                        | Some n => negb (n =? 0) && (min_days * 86400 <? n - now)
                        | None => false
                        end
  then (Ok false, info)
  else match gen now with Ok c => (Ok true, c) | Raise e => (Raise e, info) end.

(** ** The hourly maintenance: [collector.Maintenance] *)

Section maintenance.
Context {S : Type}.

(** A task at a time (seconds); what an exception leaves is logged, and the next task runs. *)
Abbreviation task := (Z → S → result unit * S).
Definition run_task (now : Z) (s : S) (t : task) : S := (t now s).2.
Definition maintenance_turn (rollup : task) (tasks : list task) (now : Z) (s : S) : S :=
  foldl (run_task now) (run_task now s rollup) tasks.

(** [run]: the first turn after a minute, the next ones [interval] after the end of a turn; the state
    after each turn, with the time at which it began. *)
Context (rollup : task) (tasks : list task) (duration : Z → Z) (interval : Z).
Fixpoint maintenance_from (fuel : nat) (now : Z) (s : S) : list (Z * S) :=
  match fuel with
  | O => []
  | Datatypes.S fuel =>
      let s := maintenance_turn rollup tasks now s in
      (now, s) :: maintenance_from fuel (now + duration now + interval) s
  end.
Definition maintenance_run (fuel : nat) (started : Z) (s : S) : list (Z * S) := maintenance_from fuel (started + 60) s.
End maintenance.

(** ** Logs *)

(** [l[-n:]]. *)
Definition last_items {A} (n : Z) (l : list A) : list A :=
  if 0 <? n then drop (length l - Z.to_nat n) l else drop (Z.to_nat (- n)) l.
Definition tail_file (decode : string → string) (lines max_bytes : Z) (content : option string) : string :=
  match content with
  | None => ""
  | Some s => join lf_text (last_items lines (splitlines (decode (str_drop (Z.to_nat (Z.max 0 (strlen s - max_bytes))) s))))
  end.

(** The endpoint [server_log]. *)
Definition log_files : list (string * string) :=
  [("openvpn", "openvpn.log"); ("oath", "oath.log"); ("status", "openvpn-status.log")].
Definition server_log (decode : string → string) (which : string) (lines : Z) (logs : string → option string) : result string :=
  match find (fun p => String.eqb p.1 which) log_files with
  | None => Raise (HTTPException 400 "Unknown log")
  | Some (_, name) => Ok (tail_file decode (Z.max 10 (Z.min lines 2000)) (512 * 1024) (logs name))
  end.

(** ** Lemmas: finding the line of the control channel *)

(** The keyword with white space behind it, at the start of a text. *)
Definition hit (kw r : string) : bool := startswith kw r && starts_in is_space (str_drop (String.length kw) r).
Definition channel_kw (r : string) : option string :=
  if hit "tls-crypt-v2" r then Some "tls-crypt-v2" else if hit "tls-crypt" r then Some "tls-crypt"
  else if hit "tls-auth" r then Some "tls-auth" else None.
(** The keyword of the first line that has one. *)
Fixpoint first_channel (prev : option ascii) (s : string) : option string :=
  match (if bol prev then channel_kw (lstrip_by is_space s) else None) with
  | Some kw => Some kw
  | None => match s with EmptyString => None | String c t => first_channel (Some c) t end
  end.

Lemma lit_then w r prev caps K :
  rmatch (lit w) (ReState prev r caps) K
  = if startswith w r then K (ReState (last_char prev w) (str_drop (String.length w) r) caps) else None.
Proof.
  destruct (startswith w r) eqn:E.
  - apply startswith_iff in E as [t ->]. by rewrite lit_run, str_drop_app.
  - apply lit_none. intros t ->. assert (startswith w (w +:+ t) = true) by (apply startswith_iff; eauto). congruence.
Qed.

(** A continuation that needs white space and then always succeeds. *)
Definition wants_space (K : re_state → option (gmap nat string)) : Prop :=
  ∀ st, match K st with
        | Some m => starts_in is_space (re_rest st) = true ∧ m !! 1%nat = re_caps st !! 1%nat
        | None => starts_in is_space (re_rest st) = false
        end.

Lemma str_take_startswith w r : startswith w r = true →
  str_take (String.length r - String.length (str_drop (String.length w) r)) r = w.
Proof. intros [t ->]%startswith_iff. rewrite str_drop_app. apply str_take_app. Qed.

Lemma channels_at r prev caps K : wants_space K →
  match rmatch (RGroup 1 channels) (ReState prev r caps) K with
  | Some m => channel_kw r = Some (group m 1)
  | None => channel_kw r = None
  end.
Proof.
  intros HK. rewrite rmatch_group. unfold channels. cbn [rmatch]. rewrite !lit_then. cbn [re_prev re_rest re_caps].
  unfold channel_kw, hit.
  assert (Hone : ∀ w p q, match (if startswith w r
      then K (ReState p q (<[1%nat := str_take (String.length r - String.length (str_drop (String.length w) r)) r]> caps)) else None) with
    | Some m => startswith w r = true ∧ starts_in is_space q = true ∧ m !! 1%nat = Some w
    | None => startswith w r && starts_in is_space q = false
    end).
  { intros w p q. destruct (startswith w r) eqn:E; [|done]. rewrite (str_take_startswith _ _ E).
    pose proof (HK (ReState p q (<[1%nat := w]> caps))) as H. destruct (K _) as [m|]; cbn [re_rest re_caps] in H; [|by rewrite H].
    destruct H as [-> ->]. by rewrite lookup_insert_eq. }
  pose proof (Hone "tls-crypt-v2" (last_char prev "tls-crypt-v2") (str_drop 12 r)) as H1.
  pose proof (Hone "tls-crypt" (last_char prev "tls-crypt") (str_drop 9 r)) as H2.
  pose proof (Hone "tls-auth" (last_char prev "tls-auth") (str_drop 8 r)) as H3.
  cbn [String.length] in *. unfold or_else.
  destruct (if startswith "tls-crypt-v2" r then _ else None) as [m1|].
  { destruct H1 as (-> & -> & Hm). unfold group. by rewrite Hm. }
  rewrite H1. destruct (if startswith "tls-crypt" r then _ else None) as [m2|].
  { destruct H2 as (-> & -> & Hm). unfold group. by rewrite Hm. }
  rewrite H2. destruct (if startswith "tls-auth" r then _ else None) as [m3|].
  { destruct H3 as (-> & -> & Hm). unfold group. by rewrite Hm. }
  by rewrite H3.
Qed.

Lemma run_split p l : ∃ w r, l = w +:+ r ∧ str_forall p w = true ∧ starts_in p r = false.
Proof.
  induction l as [|c l (w & r & -> & Hw & Hr)]; [by exists "", ""|]. destruct (p c) eqn:Hc.
  - exists (String c w), r. split_and!; [done| |done]. cbn [str_forall]. by rewrite Hc.
  - exists "", (String c (w +:+ r)). done.
Qed.

Lemma lstrip_run w r : str_forall is_space w = true → starts_in is_space r = false → lstrip_by is_space (w +:+ r) = r.
Proof.
  intros Hw Hr. induction w as [|c w IH]; cbn [String.append].
  - destruct r as [|c r]; [done|]. cbn [starts_in lstrip_by] in *. by rewrite Hr.
  - cbn [str_forall lstrip_by] in *. apply andb_true_iff in Hw as [-> Hw]. by apply IH.
Qed.

Lemma channel_kw_space c t : is_space c = true → channel_kw (String c t) = None.
Proof.
  intros Hc. unfold channel_kw, hit. cbn [startswith]. destruct (Ascii.eqb_spec "t" c) as [<-|]; [done|]. done.
Qed.

(** What follows the keyword in the patterns: white space, and more that never fails. *)
Definition tail_ok (T : regex) : Prop := ∀ K, (∀ st, ∃ m, K st = Some m ∧ m !! 1%nat = re_caps st !! 1%nat) → wants_space (fun st => rmatch T st K).

Lemma space_tail : tail_ok rs_.
Proof.
  intros K HK [prev r caps]. destruct r as [|c r]; [done|]. unfold rs_. rewrite rmatch_char. cbn [re_rest re_caps starts_in].
  destruct (is_space c); [|done]. by destruct (HK (ReState (Some c) r caps)) as (m & -> & ->).
Qed.

Lemma line_tail : tail_ok (RSeq rs_ (RStar true rdot)).
Proof.
  intros K HK [prev r caps]. destruct r as [|c r]; [done|]. rewrite rmatch_seq. unfold rs_. rewrite rmatch_char. cbn [re_rest re_caps starts_in].
  destruct (is_space c); [|done]. unfold rdot. destruct (run_split (fun c => negb (Ascii.eqb c lf)) r) as (w & r' & -> & Hw & Hr).
  destruct (HK (ReState (last_char (Some c) w) r' caps)) as (m & Hm & Hc). by rewrite (star_run _ w r' K m (Some c) caps Hw Hr Hm).
Qed.

(** A match of either pattern at the start of a line. *)
Lemma pattern_at T prev s : tail_ok T →
  match rmatch (RGroup 0 (RSeq (RStar true rs_) (RSeq (RGroup 1 channels) T))) (ReState prev s ∅) (fun st => Some (re_caps st)) with
  | Some m => channel_kw (lstrip_by is_space s) = Some (group m 1)
  | None => channel_kw (lstrip_by is_space s) = None
  end.
Proof.
  intros HT. destruct (run_split is_space s) as (w & r & -> & Hw & Hr). rewrite (lstrip_run _ _ Hw Hr), rmatch_group, rmatch_seq.
  match goal with |- context [rmatch (RStar true rs_) _ ?k] => set (K := k) end. unfold rs_ at 1.
  assert (HK : ∀ prev r caps, match K (ReState prev r caps) with
    | Some m => channel_kw r = Some (group m 1) | None => channel_kw r = None end).
  { intros p q caps. unfold K. rewrite rmatch_seq. apply channels_at, HT. intros st. eexists. split; [done|]. cbn [re_caps]. by rewrite lookup_insert_ne. }
  pose proof (HK (last_char prev w) r ∅) as Hhit. destruct (K (ReState (last_char prev w) r ∅)) as [m|] eqn:E.
  - by rewrite (star_run _ _ _ _ m prev ∅ Hw Hr E).
  - rewrite (star_none is_space w r K prev ∅ Hw Hr); [done| |].
    + intros p. pose proof (HK p r ∅) as H. destruct (K (ReState p r ∅)); [congruence|done].
    + intros p c t Hc. pose proof (HK p (String c t) ∅) as H. rewrite (channel_kw_space c t Hc) in H. by destruct (K (ReState p (String c t) ∅)).
Qed.

Lemma search_channel prev s fuel : (String.length s < fuel)%nat →
  match head (findall_m fuel rx_channel prev s) with Some m => Some (group m 1) | None => None end = first_channel prev s.
Proof.
  revert prev fuel. induction s as [|c s IH]; intros prev fuel Hf; (destruct fuel as [|fuel]; [cbn in Hf; lia|]); cbn [findall_m first_channel].
  - pose proof (pattern_at rs_ prev "" space_tail) as H. fold rx_channel in H.
    change (match prev with None => true | Some c => Ascii.eqb c lf end) with (bol prev). destruct (bol prev); [|done].
    destruct (rmatch _ _ _) as [m|]; rewrite H; [|done]. by destruct (String.length (default "" (m !! 0%nat))).
  - pose proof (pattern_at rs_ prev (String c s) space_tail) as H. fold rx_channel in H.
    change (match prev with None => true | Some c => Ascii.eqb c lf end) with (bol prev).
    assert (Hn : match head (findall_m fuel rx_channel (Some c) s) with Some m => Some (group m 1) | None => None end = first_channel (Some c) s)
      by (apply IH; cbn [String.length] in Hf; lia).
    destruct (bol prev); [|done]. destruct (rmatch _ _ _) as [m|]; rewrite H; [|done]. by destruct (String.length (default "" (m !! 0%nat))).
Qed.

(** Where a text with white space in it is looked at, what comes behind it does not matter. *)
Lemma hit_local kw q X : str_forall (fun c => negb (is_space c)) kw = true → str_exists is_space q = true → hit kw (q +:+ X) = hit kw q.
Proof.
  unfold hit. revert q. induction kw as [|d kw IH]; intros q Hk Hq.
  - destruct q as [|e q]; [done|]. done.
  - destruct q as [|e q]; [done|]. cbn [String.append startswith str_drop String.length str_forall] in *. apply andb_true_iff in Hk as [Hd Hk].
    destruct (Ascii.eqb_spec d e) as [->|]; [|done]. cbn [andb]. apply IH; [done|].
    unfold str_exists in *. cbn [str_forall] in Hq. by rewrite Hd in Hq.
Qed.

(** Before a match nothing changes when the match is replaced. *)
Lemma channel_local q X Y : bol (last_char None q) = true → channel_kw (lstrip_by is_space (q +:+ X)) = None →
  channel_kw (lstrip_by is_space X) ≠ None → q ≠ "" → channel_kw (lstrip_by is_space (q +:+ Y)) = None.
Proof.
  intros Hb Hn HX Hq. destruct (run_split is_space q) as (w & r & -> & Hw & Hr). destruct r as [|c r].
  { rewrite str_app_nil_r in Hn. exfalso. apply HX. rewrite <-Hn. clear -Hw. induction w as [|c w IH]; [done|].
    cbn [str_forall String.append lstrip_by] in *. apply andb_true_iff in Hw as [-> Hw]. by apply IH. }
  rewrite str_app_assoc in Hn |- *. rewrite (lstrip_run w _ Hw) in Hn by done. rewrite (lstrip_run w _ Hw) by done. cbn [String.append] in Hn |- *.
  assert (Hsp : str_exists is_space (String c r) = true).
  { assert (Hl : bol (last_char (Some c) r) = true).
    { revert Hb. clear. generalize (@None ascii). induction w as [|d w IH]; intros p; [done|]. cbn [String.append last_char]. apply IH. }
    clear -Hl. unfold str_exists. apply negb_true_iff. revert c Hl. induction r as [|d r IH]; intros c Hl.
    - cbn in Hl. apply Ascii.eqb_eq in Hl as ->. done.
    - change (str_forall (fun c => negb (is_space c)) (String c (String d r))) with
        (negb (is_space c) && str_forall (fun c => negb (is_space c)) (String d r)). rewrite (IH d Hl). apply andb_false_r. }
  assert (He : ∀ Z, channel_kw (String c (r +:+ Z)) = channel_kw (String c r)).
  { intros Z. unfold channel_kw. change (String c (r +:+ Z)) with (String c r +:+ Z). by rewrite !hit_local. }
  rewrite He in Hn. by rewrite He.
Qed.

Lemma bol_after prev c a : bol (last_char prev (String c a)) = bol (last_char None (String c a)).
Proof. done. Qed.

Lemma channel_replaced line kw' prev s a b : split_first rx_channel_line prev s = Some (a, b) →
  (∀ X, channel_kw (line +:+ X) = Some kw') → starts_in is_space line = false → line ≠ "" →
  (∀ Z, first_channel prev (a +:+ line +:+ Z) = Some kw') ∧
  ∃ rest, s = a +:+ rest ∧ bol (last_char prev a) = true ∧ channel_kw (lstrip_by is_space rest) ≠ None.
Proof.
  intros Hs Hl Hsp Hne. revert prev a Hs. induction s as [|c s IH]; intros prev a; cbn [split_first].
  - pose proof (pattern_at _ prev "" line_tail) as H. fold rx_channel_line in H. destruct (bol prev); [|done].
    destruct (rmatch _ _ _); [discriminate H|done].
  - pose proof (pattern_at _ prev (String c s) line_tail) as H. fold rx_channel_line in H.
    destruct (if bol prev then rmatch _ _ _ else None) as [m|] eqn:E.
    + intros [= <- <-]. destruct (bol prev) eqn:Hb; [|done]. rewrite E in H. split; [|exists (String c s); split_and!; [done|done|by rewrite H]].
      intros Z. cbn [String.append]. destruct line as [|d line]; [done|]. cbn [String.append first_channel]. rewrite Hb.
      assert (Hstrip : ∀ X, lstrip_by is_space (String d (line +:+ X)) = String d (line +:+ X)).
      { intros X. cbn [starts_in lstrip_by] in *. by rewrite Hsp. }
      rewrite Hstrip. specialize (Hl Z). cbn [String.append] in Hl. by rewrite Hl.
    + destruct (split_first rx_channel_line (Some c) s) as [[a' b']|] eqn:Es; [|done]. cbn [mbind option_bind]. intros [= <- ->].
      destruct (IH (Some c) a' Es) as (Hf & rest & -> & Hbr & Hrest). split; [|by exists rest].
      intros Z. cbn [String.append first_channel]. destruct (bol prev) eqn:Hb; [|done]. rewrite E in H.
      change (String c (a' +:+ rest)) with (String c a' +:+ rest) in H.
      change (String c (a' +:+ line +:+ Z)) with (String c a' +:+ (line +:+ Z)).
      by rewrite (channel_local (String c a') rest (line +:+ Z) Hbr H Hrest ltac:(done)).
Qed.

Lemma split_none prev s : split_first rx_channel_line prev s = None → first_channel prev s = None.
Proof.
  revert prev. induction s as [|c s IH]; intros prev; cbn [split_first first_channel];
    [pose proof (pattern_at _ prev "" line_tail) as H|pose proof (pattern_at _ prev (String c s) line_tail) as H];
    fold rx_channel_line in H; (destruct (bol prev); [destruct (rmatch _ _ _) as [m|]; [done|]; rewrite H|]); try done.
  all: destruct (split_first rx_channel_line (Some c) s) as [[]|] eqn:E; [done|]; intros _; by apply IH.
Qed.

(** ** Lemmas: the file is written and read back *)

Lemma control_channel_first text : match re_search_m rx_channel text with Some m => group m 1 | None => "none" end
  = default "none" (first_channel None text).
Proof.
  pose proof (search_channel None text (S (String.length text)) ltac:(lia)) as H. unfold re_search_m, re_findall_m. rewrite <-H.
  by destruct (head _).
Qed.

Lemma sub_no_cr r line text : mem_char cr line = false → mem_char cr text = false → mem_char cr (sub_first r line text) = false.
Proof.
  unfold sub_first. intros Hl. generalize (@None ascii). intros prev Ht.
  assert (Hg : ∀ s p a b, mem_char cr s = false → split_first r p s = Some (a, b) → mem_char cr a = false ∧ mem_char cr b = false).
  { clear. induction s as [|c s IH]; intros p a b Hs; cbn [split_first].
    - destruct (if bol p then _ else None); [|done]. intros [= <- <-]. split; [done|]. by destruct (String.length _).
    - destruct (if bol p then _ else None) as [m|].
      + intros [= <- <-]. split; [done|]. apply Url.mem_char_false, Url.str_drop_forall. by apply Url.mem_char_false.
      + destruct (split_first r (Some c) s) as [[a' b']|] eqn:E; [|done]. intros [= <- <-].
        unfold mem_char, str_exists in *. cbn [str_forall] in *. apply negb_false_iff, andb_true_iff in Hs as [Hc Hs].
        destruct (IH (Some c) a' b') as [Ha Hb]; [by apply negb_false_iff|done|]. split; [|done].
        apply negb_false_iff. rewrite Hc. by apply negb_false_iff in Ha. }
  destruct (split_first r prev text) as [[a b]|] eqn:E; [|done]. destruct (Hg _ _ _ _ Ht E) as [Ha Hb].
  unfold mem_char, str_exists in *. rewrite !negb_false_iff, !str_forall_app in *. by rewrite Ha, Hl, Hb.
Qed.

Lemma universal_newlines_cr s : mem_char cr (universal_newlines s) = false.
Proof.
  unfold mem_char, str_exists. rewrite negb_false_iff. unfold universal_newlines. generalize (crlf_to_lf s). clear s. intros s.
  induction s as [|c s IH]; [done|]. cbn [str_map str_forall]. rewrite IH. destruct (Ascii.eqb_spec c cr) as [->|Hc]; [done|].
  destruct (Ascii.eqb_spec cr c); [congruence|done].
Qed.

(** ** Theorems *)

(** The control channel that was asked for is in force: when server.conf says how the channel is
    protected, the switch replaces that line, whatever else is in the file and whatever it said
    before, and reading it back gives the mode that was asked for; the old file is kept beside it and
    no other file changes. *)
Theorem control_channel_in_force mkovpn genkey key_exists io_ok per_client fs d fs' d' old mode :
  set_control_channel mkovpn genkey key_exists io_ok per_client fs d = (Ok tt, (fs', d')) →
  fs !! "server.conf" = Some old → control_channel fs = Ok mode → mode ≠ "none" →
  control_channel fs' = Ok (if per_client then "tls-crypt-v2" else "tls-crypt") ∧
  (per_client = true → key_exists = true ∨ genkey = Ok tt) ∧
  fs' !! "server.conf.bak" = Some (universal_newlines old) ∧
  (∀ f, f ≠ "server.conf" → f ≠ "server.conf.bak" → fs' !! f = fs !! f) ∧
  ∃ failed, regenerate_profiles mkovpn d = (Ok failed, d').
Proof.
  intros Hset Hold Hmode Hnone. unfold set_control_channel in Hset.
  assert (Hread : read_config "server" fs = Ok (universal_newlines old)).
  { unfold read_config. change (config_path "server" fs) with (Ok "server.conf" : result string). cbn [mbind result_bind]. by rewrite Hold. }
  unfold control_channel in Hmode. rewrite Hread in Hset, Hmode. cbn [mbind result_bind] in Hset, Hmode. apply Ok_inj in Hmode.
  rewrite control_channel_first in Hmode. pose proof (universal_newlines_cr old) as Hcr. set (text := universal_newlines old) in *.
  destruct (if per_client && negb key_exists then genkey else Ok tt) as [[]|e] eqn:Hkey; [|done]. cbn [mbind result_bind] in Hset.
  destruct (write_config _ _ _ _) as [fs1|e] eqn:Hw; [|done].
  destruct (regenerate_profiles mkovpn d) as [[failed|e] d1] eqn:Hre; [|done]. injection Hset as -> ->.
  apply (write_config_spec "server" "server.conf") in Hw as (Hnew & Hbak & Hrest);
    [|apply sub_no_cr; [by destruct per_client|done]|done].
  assert (Ht : ∃ tail, fs' !! "server.conf" = Some (sub_first rx_channel_line (channel_setting per_client) text +:+ tail) ∧ mem_char cr tail = false).
  { rewrite Hnew. destruct (endswith _ _); [exists ""; by rewrite str_app_nil_r|by exists lf_text]. }
  clear Hnew. destruct Ht as (tail & Hnew & Htail).
  split_and!; [|intros ->; destruct key_exists; auto|by apply Hbak|done|eauto].
  destruct (split_first rx_channel_line None text) as [[a b]|] eqn:Hs.
  2:{ apply split_none in Hs. by rewrite Hs in Hmode. }
  assert (Hnl : universal_newlines (sub_first rx_channel_line (channel_setting per_client) text +:+ tail)
                = sub_first rx_channel_line (channel_setting per_client) text +:+ tail).
  { apply universal_newlines_no_cr. assert (Hc : mem_char cr (sub_first rx_channel_line (channel_setting per_client) text) = false)
      by (apply sub_no_cr; [by destruct per_client|done]).
    rewrite mem_char_false in *. rewrite str_forall_app. by rewrite Hc, Htail. }
  unfold control_channel, read_config. change (config_path "server" fs') with (Ok "server.conf" : result string).
  cbn [mbind result_bind]. rewrite Hnew. change (default "" (Some ?x)) with x. rewrite Hnl.
  rewrite control_channel_first. unfold sub_first. rewrite Hs, !str_app_assoc.
  destruct (channel_replaced (channel_setting per_client) (if per_client then "tls-crypt-v2" else "tls-crypt") None text a b Hs) as [Hf _];
    [by destruct per_client..|]. by rewrite Hf.
Qed.

(** ** The key in the URI *)

(** Reading base32 without padding, as an authenticator does: five bits a character, and the bytes
    that are complete. *)
Definition b32_alphabet (c : ascii) : bool := is_upper_az c || in_range 50 55 c.
Definition b32_bits (c : ascii) : list bool :=
  let n := if is_upper_az c then code c - 65 else code c - 24 in (fun i => Z.testbit n i) <$> [4; 3; 2; 1; 0].
Fixpoint whole_bytes (l : list bool) : list Z :=
  match l with
  | a :: b :: c :: d :: e :: f :: g :: h :: l => bits_val 0 [a; b; c; d; e; f; g; h] :: whole_bytes l
  | _ => []
  end.
Definition b32decode (s : string) : list Z := whole_bytes (String.list_ascii_of_string s ≫= b32_bits).

Lemma b32_char_bits a b c d e :
  b32_bits (b32_char (bits_val 0 [a; b; c; d; e])) = [a; b; c; d; e] ∧ b32_alphabet (b32_char (bits_val 0 [a; b; c; d; e])) = true.
Proof. destruct a, b, c, d, e; vm_compute; split; reflexivity. Qed.

Lemma b32_groups_bits l : ∃ pad, String.list_ascii_of_string (b32_groups l) ≫= b32_bits = l ++ pad ∧ (length pad < 8)%nat ∧
  str_forall b32_alphabet (b32_groups l) = true.
Proof.
  induction l as [l IH] using (induction_ltof1 _ (@length bool)). unfold ltof in IH.
  destruct l as [|a [|b [|c [|d [|e l]]]]].
  1:{ exists []. split_and!; [done|cbn; lia|done]. }
  5:{ destruct (IH l) as (pad & Hp & Hn & Ha); [cbn [length]; lia|]. destruct (b32_char_bits a b c d e) as [Hb Hc].
      exists pad. split_and!; [|done|]; cbn [b32_groups String.list_ascii_of_string mbind list_bind str_forall].
      - change (list_bind ascii bool b32_bits ?x) with (x ≫= b32_bits). rewrite Hb, Hp. done.
      - by rewrite Hc, Ha. }
  1: set (z := [false; false; false; false]); destruct (b32_char_bits a false false false false) as [Hb Hc].
  2: set (z := [false; false; false]); destruct (b32_char_bits a b false false false) as [Hb Hc].
  3: set (z := [false; false]); destruct (b32_char_bits a b c false false) as [Hb Hc].
  4: set (z := [false]); destruct (b32_char_bits a b c d false) as [Hb Hc].
  all: exists z; split_and!; [|subst z; cbn; lia|];
    cbn [b32_groups String.list_ascii_of_string mbind list_bind str_forall replicate length Nat.sub app]; [by rewrite Hb|by rewrite Hc].
Qed.

Lemma byte_bits_val b : 0 <= b < 256 → bits_val 0 (byte_bits b) = b.
Proof.
  intros Hb. assert (Hall : forallb (fun b => bits_val 0 (byte_bits b) =? b) (seqZ 0 256) = true) by (vm_compute; reflexivity).
  rewrite forallb_forall in Hall. apply Z.eqb_eq, Hall, list_elem_of_In, elem_of_seqZ. lia.
Qed.

Lemma whole_bytes_bits bytes pad : Forall (fun b => 0 <= b < 256) bytes → (length pad < 8)%nat →
  whole_bytes ((bytes ≫= byte_bits) ++ pad) = bytes.
Proof.
  intros Hb Hp. induction Hb as [|b bytes Hb _ IH].
  - cbn. do 8 (destruct pad as [|? pad]; [done|]). cbn in Hp. lia.
  - change ((b :: bytes) ≫= byte_bits) with (byte_bits b ++ (bytes ≫= byte_bits)). rewrite <-app_assoc.
    unfold byte_bits at 1. cbn [fmap list_fmap app whole_bytes]. rewrite IH. f_equal. by apply byte_bits_val.
Qed.

Lemma fromhex_bytes s bytes : fromhex s = Some bytes → Forall (fun b => 0 <= b < 256) bytes.
Proof.
  assert (Hd : ∀ c n, hex_digit c = Some n → 0 <= n < 16).
  { intros c n. unfold hex_digit, is_decimal, in_range. pose proof (code_bounds c).
    repeat match goal with |- context [if ?b then _ else _] => destruct b eqn:?; [intros [= <-]; bool_to_prop; lia|] end. done. }
  assert (Hlen : ∀ n s bytes, (String.length s < n)%nat → fromhex s = Some bytes → Forall (fun b => 0 <= b < 256) bytes).
  { clear s bytes. induction n as [|n IH]; intros s bytes Hn; [lia|]. destruct s as [|c s]; cbn [fromhex String.length] in *; [by intros [= <-]|].
    destruct (ascii_space c); [apply IH; lia|]. destruct s as [|d s]; [done|]. cbn [String.length] in Hn.
    destruct (hex_digit c) as [h|] eqn:Hc; [|done]. destruct (hex_digit d) as [l|] eqn:Hl; [|done]. cbn [mbind option_bind].
    destruct (fromhex s) as [rest|] eqn:Hr; [|done]. intros [= <-]. apply Hd in Hc, Hl. constructor; [lia|]. eapply IH; [|done]. lia. }
  apply (Hlen (S (String.length s))). lia.
Qed.

(** The URI for the authenticator carries the server's key: its secret is text of the base32 alphabet,
    so it ends where the next parameter begins, and read as base32 it is the key whose hexadecimal form
    is in oath.secrets. *)
Theorem uri_carries_the_key issuer secrets name uri :
  tfa_uri issuer secrets name = Some uri →
  ∃ secret bytes encoded, secrets !! name = Some secret ∧ fromhex secret = Some bytes ∧
    uri = "otpauth://totp/" +:+ encode_spaces issuer +:+ ":" +:+ name +:+ "?secret=" +:+ encoded +:+ "&issuer=" +:+ encode_spaces issuer
          +:+ "&algorithm=SHA1&digits=6&period=30" ∧
    str_forall b32_alphabet encoded = true ∧ b32decode encoded = bytes.
Proof.
  unfold tfa_uri. destruct (secrets !! name) as [secret|]; [|done]. cbn [mbind option_bind].
  destruct (empty secret); [done|]. destruct (fromhex secret) as [bytes|] eqn:Hb; [|done]. cbn [mbind option_bind]. intros [= <-]. exists secret, bytes, (b32encode bytes).
  destruct (b32_groups_bits (bytes ≫= byte_bits)) as (pad & Hp & Hn & Ha). split_and!; [done..|exact Ha|].
  unfold b32decode, b32encode. rewrite Hp. apply whole_bytes_bits; [by eapply fromhex_bytes|done].
Qed.

(** ** Housekeeping *)

Section crl_task.
(** The tasks of the process: the roll-up and others, which leave the CRL alone, and the CRL's. *)
Context {X : Type} (rollup : Z → crl * X → result unit * (crl * X)) (others : list (Z → crl * X → result unit * (crl * X))).
Context (gen : Z → result crl).
Definition crl_task (now : Z) (s : crl * X) : result unit * (crl * X) :=
  let '(r, c) := ensure_crl_fresh 30 now gen s.1 in (_ ← r; Ok tt, (c, s.2)).

Lemma other_tasks now (ts : list (Z → crl * X → result unit * (crl * X))) s : Forall (fun t => ∀ now s, (t now s).2.1 = s.1) ts → (foldl (run_task now) s ts).1 = s.1.
Proof. intros H. revert s. induction H as [|t ts Ht _ IH]; intros s; [done|]. cbn [foldl]. rewrite IH. apply Ht. Qed.

Lemma crl_after now (s : crl * X) validity : (∀ t, ∃ c, gen t = Ok c ∧ crl_exists c = true ∧ crl_next c = Some (t + validity)) →
  30 * 86400 < validity → 0 <= now →
  ∃ n, crl_next (crl_task now s).2.1 = Some n ∧ 30 * 86400 < n - now.
Proof.
  intros Hgen Hv Hnow. unfold crl_task, ensure_crl_fresh. destruct (crl_exists s.1 && _) eqn:E.
  - cbn [snd fst]. apply andb_true_iff in E as [_ E]. destruct (crl_next s.1) as [n|]; [|done].
    apply andb_true_iff in E as [_ E]. apply Z.ltb_lt in E. by exists n.
  - destruct (Hgen now) as (c & -> & _ & Hn). cbn [snd fst]. exists (now + validity). split; [done|lia].
Qed.

(** The revocation list never runs out while the maintenance runs: after every turn it is valid for more
    than 30 days, whatever the other tasks do, raise or take; so when no turn ends later than [W] after
    the one before it, with [W] of at most 30 days, it is valid at every moment. *)
Theorem crl_never_expires validity W duration interval fuel started (s : crl * X) t0 t s0 :
  (∀ t, ∃ c, gen t = Ok c ∧ crl_exists c = true ∧ crl_next c = Some (t + validity)) → 30 * 86400 < validity → W <= 30 * 86400 →
  (∀ now s, (rollup now s).2.1 = s.1) → Forall (fun t => ∀ now s, (t now s).2.1 = s.1) others →
  (∀ t, 0 <= duration t) → (∀ t, duration t + interval <= W) → 0 <= interval → 0 <= started →
  (t0, s0) ∈ maintenance_run rollup (crl_task :: others) duration interval fuel started s → t0 <= t <= t0 + W →
  ∃ n, crl_next s0.1 = Some n ∧ t < n.
Proof.
  intros Hgen Hv HW Hroll Hothers Hd HdW Hi Hs Hin Ht. unfold maintenance_run in Hin.
  assert (Hnow : 0 <= started + 60) by lia. revert Hnow Hin. generalize (started + 60) as now. clear Hs. revert s.
  induction fuel as [|fuel IH]; intros s now Hnow; cbn [maintenance_from]; [by intros ?%not_elem_of_nil|].
  intros [[= -> ->]|Hin]%elem_of_cons.
  - unfold maintenance_turn. cbn [foldl]. rewrite (other_tasks _ _ _ Hothers). unfold run_task at 1.
    destruct (crl_after now (run_task now s rollup) validity Hgen Hv Hnow) as (n & Hn & Hlt). exists n. split; [done|lia].
  - eapply IH; [|exact Hin]. pose proof (Hd now). lia.
Qed.
End crl_task.

(** Regenerating the profiles reaches every client: the script runs for each issued certificate that is
    not the server's or the CA's, in order and whatever happened to the ones before, each time on the
    directory the run before left; the names that come back are exactly those it failed for. *)
Fixpoint runs_over (mkovpn : string → profile_dir → result string * profile_dir) (names : list string) (d : profile_dir)
    : list (string * bool) * profile_dir :=
  match names with
  | [] => ([], d)
  | n :: names => let '(l, e) := runs_over mkovpn names (mkovpn n d).2 in ((n, is_ok (mkovpn n d).1) :: l, e)
  end.

Theorem regeneration_reaches_all mkovpn d :
  (∀ n d e, (mkovpn n d).1 = Raise e → ∃ m, e = PkiError m) →
  let '(runs, d') := runs_over mkovpn (List.filter (fun n => negb (reserved n)) (pf_issued d)) d in
  regenerate_profiles mkovpn d = (Ok (List.filter (fun r => negb r.2) runs).*1, d') ∧
  runs.*1 = List.filter (fun n => negb (reserved n)) (pf_issued d).
Proof.
  intros Hmk. unfold regenerate_profiles. generalize (List.filter (fun n => negb (reserved n)) (pf_issued d)) as names. intros names.
  assert (Hg : ∀ failed d, let '(runs, d') := runs_over mkovpn names d in
    remake_all mkovpn names failed d = (Ok (failed ++ (List.filter (fun r => negb r.2) runs).*1), d') ∧ runs.*1 = names); [|by apply (Hg [] d)].
  induction names as [|n names IH]; intros failed d0; cbn [runs_over remake_all]; [by rewrite app_nil_r|].
  destruct (mkovpn n d0) as [[out|e] d1] eqn:E; cbn [is_ok fst snd].
  - specialize (IH failed d1). destruct (runs_over _ _ _) as [l e]. cbn. by destruct IH as [-> ->].
  - destruct (Hmk n d0 e) as [m ->]; [by rewrite E|]. specialize (IH (failed ++ [n]) d1). destruct (runs_over _ _ _) as [l e'].
    destruct IH as [-> Hf]. cbn. rewrite Hf. by rewrite <-app_assoc.
Qed.

(** ** Witnesses *)

Definition demo_conf : string := join lf_text ["port 443"; "management 127.0.0.1 2080"; "#tls-auth old"; " tls-auth pki/ta.key 0"; "verb 3"].
Definition demo_dir : profile_dir := ProfileDir ["alice"; "server"; "bob"] None {["alice.ovpn" := "a"]}.
Definition demo_mkovpn (n : string) (d : profile_dir) : result string * profile_dir :=
  (if String.eqb n "bob" then Raise (PkiError "no key") else Ok (n +:+ ".ovpn"), d).
Definition demo_switch : result unit * (files * profile_dir) :=
  set_control_channel demo_mkovpn (Ok tt) false true true {["server.conf" := demo_conf]} demo_dir.

Lemma control_channel_in_force_witness :
  ∃ fs, demo_switch = (Ok tt, (fs, demo_switch.2.2)) ∧ control_channel fs = Ok "tls-crypt-v2" ∧
    fs !! "server.conf" = Some (join lf_text ["port 443"; "management 127.0.0.1 2080"; "#tls-auth old"; "tls-crypt-v2 pki/tc2-server.key"; "verb 3"; ""]).
Proof.
  destruct demo_switch as [[[]|e] [fs d']] eqn:Hd; [|vm_compute in Hd; discriminate Hd]. exists fs. split; [done|]. split.
  - apply (control_channel_in_force demo_mkovpn (Ok tt) false true true {["server.conf" := demo_conf]} demo_dir fs d' demo_conf "tls-auth" Hd);
      [reflexivity|vm_compute; reflexivity|discriminate].
  - vm_compute in Hd. injection Hd as <- _. reflexivity.
Defined.

Lemma uri_carries_the_key_witness :
  tfa_uri "My VPN" {["alice" := "48656c6c6f"]} "alice"
    = Some "otpauth://totp/My%20VPN:alice?secret=JBSWY3DP&issuer=My%20VPN&algorithm=SHA1&digits=6&period=30" ∧
  ∃ encoded, b32decode encoded = [72; 101; 108; 108; 111].
Proof.
  assert (H : tfa_uri "My VPN" {["alice" := "48656c6c6f"]} "alice"
    = Some "otpauth://totp/My%20VPN:alice?secret=JBSWY3DP&issuer=My%20VPN&algorithm=SHA1&digits=6&period=30") by (vm_compute; reflexivity).
  split; [exact H|].
  destruct (uri_carries_the_key "My VPN" {["alice" := "48656c6c6f"]} "alice" _ H) as (secret & bytes & encoded & Hs & Hb & _ & _ & Hd).
  exists encoded. vm_compute in Hs. injection Hs as <-. vm_compute in Hb. injection Hb as <-. exact Hd.
Defined.

Definition demo_gen (t : Z) : result crl := Ok (Crl true (Some t) (Some (t + 180 * 86400)) 0).
Definition idle (now : Z) (s : crl * unit) : result unit * (crl * unit) := (Raise OSError, s).
Definition demo_maintenance : list (Z * (crl * unit)) :=
  maintenance_run idle [crl_task demo_gen; idle] (fun _ => 5) 3600 3 0 (Crl false None None 0, tt).

Lemma crl_never_expires_witness :
  (7270, (Crl true (Some 60) (Some 15552060) 0, tt)) ∈ demo_maintenance ∧ ∃ n, Some 15552060 = Some n ∧ 7270 + 3605 < n.
Proof.
  assert (Hin : (7270, (Crl true (Some 60) (Some 15552060) 0, tt)) ∈ demo_maintenance).
  { apply list_elem_of_In. vm_compute. tauto. }
  split; [exact Hin|].
  apply (crl_never_expires idle [idle] demo_gen (180 * 86400) 3605 (fun _ => 5) 3600 3 0 (Crl false None None 0, tt) 7270 (7270 + 3605)
    (Crl true (Some 60) (Some 15552060) 0, tt)); try lia; [|done|by constructor|exact Hin].
  intros t. eexists. split; [reflexivity|]. split; reflexivity.
Defined.

Lemma regeneration_reaches_all_witness :
  regenerate_profiles demo_mkovpn demo_dir = (Ok ["bob"], demo_dir).
Proof.
  assert (Hmk : ∀ n d e, (demo_mkovpn n d).1 = Raise e → ∃ m, e = PkiError m).
  { intros n d e. unfold demo_mkovpn. cbn [fst]. destruct (String.eqb n "bob"); [|done]. intros [= <-]. eauto. }
  destruct (regeneration_reaches_all demo_mkovpn demo_dir Hmk) as [H _]. exact H.
Defined.

Example tail_of_log : tail_file id 1 9 (Some ("one" +:+ lf_text +:+ "two" +:+ lf_text +:+ "three")) = "three".
Proof. vm_compute. reflexivity. Qed.
