(* ===== verification/Console.v ===== *)
(** * The administrator's operations on the server: [ui/app/main.py]

    The handlers that are not about one client's certificate: the second factor, the configuration
    files, the public endpoint, the control channel, the revocation list, the restart, backups and
    the settings of the relay.  They are statements of a small monad over the state of the whole
    installation: an exception keeps what was done before it.  The theorem is about the audit log. *)

From S2P Require Import Prelude PyStr Regex Schema Auth Traffic Sessions Mgmt ConfigEdit Addressing Relay Clients Lifecycle Signing Backups Profiles.

Open Scope string_scope.
Open Scope list_scope.
Open Scope Z_scope.

(** ** State *)

Record console := Console {
  co_server : server;
  co_files : files;              (* server.conf, the client template, easy-rsa's vars *)
  co_profiles : profile_dir;
  co_crl : crl;
  co_backups : gmap string file;
}.

Definition set_server (v : server) (s : console) : console := Console v (co_files s) (co_profiles s) (co_crl s) (co_backups s).
Definition set_files (v : files) (s : console) : console := Console (co_server s) v (co_profiles s) (co_crl s) (co_backups s).
Definition set_profiles (v : profile_dir) (s : console) : console := Console (co_server s) (co_files s) v (co_crl s) (co_backups s).
Definition set_crl (v : crl) (s : console) : console := Console (co_server s) (co_files s) (co_profiles s) v (co_backups s).
Definition set_backups (v : gmap string file) (s : console) : console := Console (co_server s) (co_files s) (co_profiles s) (co_crl s) v.

(** ** Statements *)

Definition act (A : Type) : Type := console → result A * console.
#[export] Instance act_ret : MRet act := fun A a s => (Ok a, s).
#[export] Instance act_bind : MBind act := fun A B f c s =>
  match c s with
  | (Ok a, s) => f a s
  | (Raise e, s) => (Raise e, s)
  end.

(** Statements of the parts: what only reads and may raise, and what changes one part. *)
Definition read {A} (f : console → result A) : act A := fun s => (f s, s).
Definition on_profiles {A} (f : profile_dir → result A * profile_dir) : act A := fun s =>
  let '(r, d) := f (co_profiles s) in (r, set_profiles d s).
Definition on_files (f : files → result files) : act unit := fun s =>
  match f (co_files s) with Ok fs => (Ok tt, set_files fs s) | Raise e => (Raise e, s) end.
Definition on_mgmt {A} (f : M A) : act A := fun s =>
  let '(r, m) := f (sv_mgmt (co_server s)) in (r, set_server (set_mgmt m (co_server s)) s).
Definition on_backups {A} (f : gmap string file → result A * gmap string file) : act A := fun s =>
  let '(r, b) := f (co_backups s) in (r, set_backups b s).
Definition on_relay (f : relay_db → result relay_db) : act unit := fun s =>
  match f (sv_relay (co_server s)) with Ok d => (Ok tt, set_server (set_relay d (co_server s)) s) | Raise e => (Raise e, s) end.
Definition on_setting (key : string) (f : option string → result (option string)) : act unit := fun s =>
  match f (get_setting (sv_db (co_server s)) key) with
  | Ok None => (Ok tt, set_server (set_db (upd_settings (delete key) (sv_db (co_server s))) (co_server s)) s)
  | Ok (Some text) => (Ok tt, set_server (set_db (set_setting key text (sv_db (co_server s))) (co_server s)) s)
  | Raise e => (Raise e, s)
  end.
(** [except (OSError, ValueError)]. *)
Definition caught {A} (e' : exn) (c : act A) : act A := fun s =>
  match c s with (Raise OSError, s) | (Raise ValueError, s) | (Raise SSLError, s) => (Raise e', s) | r => r end.

(** ** The handlers *)

Section handlers.
Context (now : Z).
(** The scripts of bin/, openvpn and easy-rsa, and whether the configuration files can be written. *)
Context (mkovpn oath_gen oath_rm : string → profile_dir → result string * profile_dir) (genkey : result unit) (key_exists io_ok : bool)
        (gen_crl : result crl).
(** The backup: see [Backups.create]. *)
Context (bs : backup_settings) (stamp partial : string) (build : result string) (copy : copy_outcome) (unlink_ok : string → bool).
(** The management interface: see [Mgmt]. *)
Context (decode : string → string) (password : option string) (ticks : nat).
(** The signer's settings: see [Signing]. *)
Context (env : signing) (json_of : saved_signing → string) (json_loads : string → result saved_signing)
        (opener : string → string → option string → reply) (metadata_of : string → result (bool * metadata)).

Definition log_event (user : session_user) (kind : string) (client detail : option string) : act unit := fun s =>
  (Ok tt, set_server (Lifecycle.event now kind (su_username user) client detail (co_server s)) s).
Definition find (name : string) : act client := read (fun s => find_client now name (co_server s)).
Definition regenerate : act (list string) := on_profiles (regenerate_profiles mkovpn).

(** [pki.set_remote] and [pki.sync_remotes], with the profiles. *)
Definition save_remote (host : string) (ports : list (string * string)) : act unit :=
  _ ← on_files (ConfigEdit.set_remote host ports io_ok); _ ← regenerate; mret tt.
Definition follow_protocols : act bool :=
  remote ← read (fun s => get_remote (co_files s));
  listen ← read (fun s => server_listen (co_files s));
  if empty remote.1 || bool_decide (merge_sort ConfigEdit.str_le remote.2.*2 = merge_sort ConfigEdit.str_le listen.*2) then mret false
  else _ ← save_remote remote.1 []; mret true.

Definition set_tfa (name : string) (enabled : bool) (user : session_user) : act (bool * option string) :=
  _ ← find name;
  if enabled : bool then
    uri ← on_profiles (enable_tfa mkovpn oath_gen name);
    _ ← log_event user "tfa_enabled" (Some name) None;
    mret (true, Some uri)
  else
    _ ← on_profiles (disable_tfa mkovpn oath_rm name);
    _ ← log_event user "tfa_disabled" (Some name) None;
    mret (false, None).

Definition download_profile (name : string) (user : session_user) : act string :=
  _ ← read (fun _ => validate_name name);
  _ ← read (fun s => raise_if (bool_decide (name ∉ pf_issued (co_profiles s))) (HTTPException 404 "This client has no valid certificate"));
  content ← on_profiles (build_profile mkovpn name);
  _ ← log_event user "profile_downloaded" (Some name) None;
  mret content.

(** [put_config]: the answer is whether a restart is required. *)
Definition put_config (which content : string) (user : session_user) : act bool :=
  _ ← on_files (ConfigEdit.put_config which content io_ok);
  _ ← log_event user "config_saved" None (Some which);
  _ ← (if String.eqb which "client" then _ ← regenerate; mret tt
       else if String.eqb which "server" then
         changed ← follow_protocols;
         if changed : bool then
           listen ← read (fun s => server_listen (co_files s));
           log_event user "remote_changed" None (Some ("protocols now " +:+ join ", " listen.*2))
         else mret tt
       else mret tt);
  mret (String.eqb which "server").

Definition restart (user : session_user) : act string :=
  result ← on_mgmt (signal decode password now ticks "SIGTERM");
  _ ← log_event user "server_restart" None (Some result);
  mret result.

Definition regenerate_crl (user : session_user) : act crl :=
  new ← read (fun _ => gen_crl);
  _ ← (fun s => (Ok tt, set_crl new s));
  _ ← log_event user "crl_regenerated" None None;
  mret new.

Definition backup_now (user : session_user) : act backup_status :=
  path ← caught (HTTPException 500 "The backup failed") (on_backups (create bs stamp partial now build copy unlink_ok));
  _ ← log_event user "backup_created" None (Some path);
  read (fun s => Ok (status bs (co_backups s))).

Definition enforce_tfa (enforced : bool) (user : session_user) : act bool :=
  _ ← on_files (set_tfa_enforced enforced io_ok);
  _ ← regenerate;
  _ ← log_event user (if enforced then "tfa_enforced" else "tfa_unenforced") None None;
  mret enforced.

Definition switch_channel (per_client : bool) : act unit := fun s =>
  let '(r, (fs, d)) := set_control_channel mkovpn genkey key_exists io_ok per_client (co_files s) (co_profiles s) in
  (r, set_files fs (set_profiles d s)).
(** The handler [control_channel]. *)
Definition put_control_channel (per_client : bool) (user : session_user) : act string :=
  _ ← switch_channel per_client;
  mode ← read (fun s => control_channel (co_files s));
  _ ← log_event user "control_channel_changed" None (Some mode);
  read (fun s => control_channel (co_files s)).

Definition put_settings (host : string) (ports : list (string * string)) (user : session_user)
    : act ((string * list endpoint) * list endpoint) :=
  _ ← save_remote host ports;
  remote ← read (fun s => get_remote (co_files s));
  _ ← log_event user "remote_changed" None (Some (remote.1 +:+ " " +:+ join ", " ((fun r : endpoint => r.1 +:+ "/" +:+ r.2) <$> remote.2)));
  listen ← read (fun s => server_listen (co_files s));
  mret (remote, listen).

Definition save_relay_signing (body : signing_body) (user : session_user) : act (signing * (bool * option metadata * string)) :=
  _ ← on_setting "relay_signing" (save_signing env json_of json_loads body);
  status ← read (fun s => signing_status env json_loads opener metadata_of (get_setting (sv_db (co_server s)) "relay_signing"));
  _ ← log_event user "relay_signing_changed" None None;
  mret status.

Definition put_relay_settings (body : relay_body) (user : session_user) : act relay_config :=
  _ ← on_relay (save_relay_settings body);
  config ← read (fun s => Ok (rd_config (sv_relay (co_server s))));
  _ ← log_event user "relay_settings_changed" None None;
  mret config.

(** The routes. *)
Inductive operation :=
| SetTfa (name : string) (enabled : bool)
| DownloadProfile (name : string)
| PutConfig (which content : string)
| Restart
| RegenerateCrl
| BackupNow
| EnforceTfa (enforced : bool)
| ControlChannel (per_client : bool)
| PutSettings (host : string) (ports : list (string * string))
| SaveSigning (body : signing_body)
| PutRelaySettings (body : relay_body).

Definition ignore {A} (c : act A) : act unit := _ ← c; mret tt.
Definition run (op : operation) (user : session_user) : act unit :=
  match op with
  | SetTfa name enabled => ignore (set_tfa name enabled user)
  | DownloadProfile name => ignore (download_profile name user)
  | PutConfig which content => ignore (put_config which content user)
  | Restart => ignore (restart user)
  | RegenerateCrl => ignore (regenerate_crl user)
  | BackupNow => ignore (backup_now user)
  | EnforceTfa enforced => ignore (enforce_tfa enforced user)
  | ControlChannel per_client => ignore (put_control_channel per_client user)
  | PutSettings host ports => ignore (put_settings host ports user)
  | SaveSigning body => ignore (save_relay_signing body user)
  | PutRelaySettings body => ignore (put_relay_settings body user)
  end.
End handlers.

(** ** Lemmas: what a statement adds to the log *)

Definition audit (s : console) : list event_row := events (sv_db (co_server s)).

(** Nothing of the database changes but the settings and what is added to the log. *)
Definition kept (s : console) (new : list event_row) (s' : console) : Prop :=
  ∃ st, sv_db (co_server s') = upd_events (fun l => l ++ new) (upd_settings (fun _ => st) (sv_db (co_server s))).

Lemma kept_db s s' : sv_db (co_server s') = sv_db (co_server s) → kept s [] s'.
Proof.
  intros H. exists (settings (sv_db (co_server s))). rewrite H. unfold upd_events, upd_settings. cbn. rewrite app_nil_r.
  by destruct (sv_db (co_server s)).
Qed.

Lemma kept_trans s n1 s1 n2 s2 : kept s n1 s1 → kept s1 n2 s2 → kept s (n1 ++ n2) s2.
Proof. intros [st1 H1] [st2 H2]. exists st2. rewrite H2, H1. unfold upd_events, upd_settings. cbn. by rewrite app_assoc. Qed.

(** From any state, [c] gives a result and adds to the log as [Q] says. *)
Definition logs {A} (c : act A) (Q : result A → list event_row → Prop) : Prop := ∀ s, ∃ new, kept s new (c s).2 ∧ Q (c s).1 new.

Lemma logs_ret {A} (a : A) (Q : result A → list event_row → Prop) : Q (Ok a) [] → logs (mret a) Q.
Proof. intros H s. exists []. split; [by apply kept_db|done]. Qed.

Lemma logs_bind {A B} (c : act A) (f : A → act B) Q :
  logs c (fun r new => match r with
                       | Ok a => logs (f a) (fun r new' => Q r (new ++ new'))
                       | Raise e => Q (Raise e) new
                       end) → logs (c ≫= f) Q.
Proof.
  intros H s. destruct (H s) as (new & Hk & Hq). unfold mbind, act_bind. destruct (c s) as [[a|e] s1]; cbn [fst snd] in *; [|eauto].
  destruct (Hq s1) as (new' & Hk' & Hq'). exists (new ++ new'). split; [by eapply kept_trans|done].
Qed.

(** A statement that leaves the database alone. *)
Lemma logs_quiet {A} (c : act A) (Q : result A → list event_row → Prop) :
  (∀ s, sv_db (co_server (c s).2) = sv_db (co_server s)) → (∀ r, Q r []) → logs c Q.
Proof. intros Hc HQ s. exists []. split; [by apply kept_db|done]. Qed.

Lemma quiet_read {A} (f : console → result A) s : sv_db (co_server (read f s).2) = sv_db (co_server s).
Proof. done. Qed.
Lemma quiet_profiles {A} (f : profile_dir → result A * profile_dir) s : sv_db (co_server (on_profiles f s).2) = sv_db (co_server s).
Proof. unfold on_profiles. by destruct (f _). Qed.
Lemma quiet_files f s : sv_db (co_server (on_files f s).2) = sv_db (co_server s).
Proof. unfold on_files. by destruct (f _). Qed.
Lemma quiet_mgmt {A} (f : M A) s : sv_db (co_server (on_mgmt f s).2) = sv_db (co_server s).
Proof. unfold on_mgmt. by destruct (f _). Qed.
Lemma quiet_relay f s : sv_db (co_server (on_relay f s).2) = sv_db (co_server s).
Proof. unfold on_relay. by destruct (f _). Qed.
Lemma quiet_backups {A} e (f : gmap string file → result A * gmap string file) s :
  sv_db (co_server (caught e (on_backups f) s).2) = sv_db (co_server s).
Proof. unfold caught, on_backups. destruct (f _) as [[a|[]] b]; done. Qed.

Lemma quiet_channel mkovpn genkey key_exists io_ok per_client s :
  sv_db (co_server (switch_channel mkovpn genkey key_exists io_ok per_client s).2) = sv_db (co_server s).
Proof. unfold switch_channel. by destruct (set_control_channel _ _ _ _ _ _ _) as [? []]. Qed.
Lemma quiet_crl new s : sv_db (co_server ((fun s => (Ok tt, set_crl new s)) s : result unit * console).2) = sv_db (co_server s).
Proof. done. Qed.

Create HintDb quiet.
#[export] Hint Resolve quiet_read quiet_profiles quiet_files quiet_mgmt quiet_relay quiet_backups quiet_channel quiet_crl : quiet.

Lemma logs_setting key f (Q : result unit → list event_row → Prop) : (∀ r, Q r []) → logs (on_setting key f) Q.
Proof.
  intros HQ s. exists []. split; [|done]. unfold on_setting. destruct (f _) as [[text|]|]; cbn [snd]; [| |by apply kept_db].
  - eexists. cbn. unfold set_setting, upd_events, upd_settings. cbn. by rewrite app_nil_r.
  - eexists. cbn. unfold upd_events, upd_settings. cbn. by rewrite app_nil_r.
Qed.

Lemma logs_event now user kind client detail (Q : result unit → list event_row → Prop) :
  Q (Ok tt) [EventRow now kind client (Some (su_username user)) detail] → logs (log_event now user kind client detail) Q.
Proof.
  intros HQ s. eexists. split; [|done]. exists (settings (sv_db (co_server s))). cbn. by destruct (sv_db (co_server s)).
Qed.

(** Reading server.conf never fails. *)
Lemma server_listen_ok fs : ∃ l, server_listen fs = Ok l.
Proof. unfold server_listen, read_config. change (config_path "server" fs) with (Ok "server.conf" : result string). eexists. reflexivity. Qed.
Lemma control_channel_ok fs : ∃ m, control_channel fs = Ok m.
Proof. unfold control_channel, read_config. change (config_path "server" fs) with (Ok "server.conf" : result string). eexists. reflexivity. Qed.

Lemma logs_listen (Q : result (list endpoint) → list event_row → Prop) :
  (∀ l, Q (Ok l) []) → logs (read (fun s => server_listen (co_files s))) Q.
Proof. intros HQ s. exists []. split; [by apply kept_db|]. unfold read. cbn [fst]. destruct (server_listen_ok (co_files s)) as [l ->]. apply HQ. Qed.
Lemma logs_channel (Q : result string → list event_row → Prop) :
  (∀ m, Q (Ok m) []) → logs (read (fun s => control_channel (co_files s))) Q.
Proof. intros HQ s. exists []. split; [by apply kept_db|]. unfold read. cbn [fst]. destruct (control_channel_ok (co_files s)) as [l ->]. apply HQ. Qed.
Lemma logs_total {A} (f : console → A) (Q : result A → list event_row → Prop) :
  (∀ a, Q (Ok a) []) → logs (read (fun s => Ok (f s))) Q.
Proof. intros HQ s. exists []. split; [by apply kept_db|]. apply HQ. Qed.

(** The steps of a handler. *)
Ltac log_step :=
  lazymatch goal with
  | |- logs (mret _) _ => apply logs_ret
  | |- logs (mbind _ _) _ => apply logs_bind
  | |- logs (ignore _) _ => unfold ignore
  | |- logs (log_event _ _ _ _ _) _ => apply logs_event
  | |- logs (on_setting _ _) _ => apply logs_setting; intros []
  | |- logs (read (fun s => server_listen _)) _ => apply logs_listen; intros ?
  | |- logs (read (fun s => control_channel _)) _ => apply logs_channel; intros ?
  | |- logs (read (fun s => Ok _)) _ => apply logs_total; intros ?
  | |- logs (if ?b then _ else _) _ => destruct b
  | |- logs _ _ => apply logs_quiet; [intros; auto with quiet|intros []]
  end.

(** ** Theorems *)

(** The kinds of event of an operation, and its client. *)
Definition event_kinds (op : operation) : list string :=
  match op with
  | SetTfa _ enabled => [if enabled : bool then "tfa_enabled" else "tfa_disabled"]
  | DownloadProfile _ => ["profile_downloaded"]
  | PutConfig _ _ => ["config_saved"; "remote_changed"]
  | Restart => ["server_restart"]
  | RegenerateCrl => ["crl_regenerated"]
  | BackupNow => ["backup_created"]
  | EnforceTfa enforced => [if enforced : bool then "tfa_enforced" else "tfa_unenforced"]
  | ControlChannel _ => ["control_channel_changed"]
  | PutSettings _ _ => ["remote_changed"]
  | SaveSigning _ => ["relay_signing_changed"]
  | PutRelaySettings _ => ["relay_settings_changed"]
  end.
Definition event_client (op : operation) : option string :=
  match op with SetTfa name _ | DownloadProfile name => Some name | _ => None end.
Definition is_edit (op : operation) : bool := match op with PutConfig _ _ => true | _ => false end.
Definition about_relay (op : operation) : bool := match op with SaveSigning _ | PutRelaySettings _ => true | _ => false end.

(** What an operation with an outcome adds to the log. *)
Definition audited (now : Z) (op : operation) (user : session_user) (r : result unit) (new : list event_row) : Prop :=
  Forall (fun e => e_ts e = now ∧ e_actor e = Some (su_username user) ∧ e_client_name e = event_client op ∧ e_kind e ∈ event_kinds op ∧
                   (about_relay op = true → e_detail e = None)) new ∧
  (is_ok r = true → new ≠ []) ∧
  (is_edit op = false → length new = if is_ok r then 1%nat else 0%nat).

(** Every operation of the console leaves its trace in the audit log and nothing else in the database
    but settings: one that succeeds adds exactly one event, with the time, the administrator and the
    client concerned, and one that fails adds none; an edit of a configuration file adds one when
    the file is saved and a second one when the profiles follow its protocols, and it can fail after the
    first; what is logged about the relay never holds a value. *)
Theorem operations_audited now mkovpn oath_gen oath_rm genkey key_exists io_ok gen_crl bs stamp partial build copy unlink_ok
    decode password ticks env json_of json_loads opener metadata_of op user s r s' :
  run now mkovpn oath_gen oath_rm genkey key_exists io_ok gen_crl bs stamp partial build copy unlink_ok decode password ticks
    env json_of json_loads opener metadata_of op user s = (r, s') →
  ∃ new st, sv_db (co_server s') = upd_events (fun l => l ++ new) (upd_settings (fun _ => st) (sv_db (co_server s))) ∧
            audit s' = audit s ++ new ∧ audited now op user r new.
Proof.
  intros Hrun.
  assert (H : logs (run now mkovpn oath_gen oath_rm genkey key_exists io_ok gen_crl bs stamp partial build copy unlink_ok decode password
                      ticks env json_of json_loads opener metadata_of op user) (audited now op user)).
  { clear Hrun. destruct op; cbn [run]; unfold ignore, set_tfa, download_profile, put_config, follow_protocols, restart,
      regenerate_crl, backup_now, enforce_tfa, put_control_channel, put_settings, save_relay_signing, put_relay_settings, save_remote, find, regenerate.
    all: repeat (log_step; cbn [app]); unfold audited; cbn [is_edit about_relay event_client event_kinds is_ok length]; (split; [|split]); try done.
    all: repeat constructor; cbn; try done; set_solver. }
  destruct (H s) as (new & [st Hk] & Hq). rewrite Hrun in Hk, Hq. exists new, st. split; [done|]. split; [|done].
  unfold audit. cbn [snd] in Hk. by rewrite Hk.
Qed.

(** ** Witness *)

Definition console_files : files :=
  {["server.conf" := join lf_text ["port 1194"; "proto udp"; "management 127.0.0.1 2080"; "server 10.8.0.0 255.255.255.0"]]}
  ∪ {["config/client.conf" := join lf_text ["client"; "remote 127.0.0.1 1194"; "dev tun"]]}.
Definition demo_console : console := Console demo_server console_files demo_dir (Crl false None None 0) ∅.
Definition admin_user : session_user := SessionUser 1 "admin" None None Admin.
Definition no_json_setting : string → result saved_signing := fun _ => Raise ValueError.
Definition demo_run (op : operation) : result unit * console :=
  run 1500 demo_mkovpn demo_mkovpn demo_mkovpn (Ok tt) false true (Ok (Crl true (Some 1500) (Some 9000) 0)) (BackupSettings 0 "") "" "" (Raise OSError)
    CopyDone (fun _ => true) id None 5 (Signing "" "" false "environment") (fun _ => "") no_json_setting (fun _ _ _ => Failed OSError)
    (fun _ => Raise ValueError) op admin_user demo_console.

Lemma operations_audited_witness :
  ∃ s' e, demo_run (PutSettings "vpn.example.com" []) = (Ok tt, s') ∧ get_remote (co_files s') = Ok ("vpn.example.com", [("1194", "udp")]) ∧
    audit s' = audit demo_console ++ [e] ∧ e_kind e = "remote_changed" ∧ e_actor e = Some "admin".
Proof.
  assert (Hok : (demo_run (PutSettings "vpn.example.com" [])).1 = Ok tt) by (vm_compute; reflexivity).
  assert (Hremote : get_remote (co_files (demo_run (PutSettings "vpn.example.com" [])).2) = Ok ("vpn.example.com", [("1194", "udp")]))
    by (vm_compute; reflexivity).
  destruct (demo_run (PutSettings "vpn.example.com" [])) as [r s'] eqn:Hr. cbn [fst snd] in Hok, Hremote. subst r.
  destruct (operations_audited 1500 demo_mkovpn demo_mkovpn demo_mkovpn (Ok tt) false true (Ok (Crl true (Some 1500) (Some 9000) 0)) (BackupSettings 0 "") "" ""
    (Raise OSError) CopyDone (fun _ => true) id None 5 (Signing "" "" false "environment") (fun _ => "") no_json_setting (fun _ _ _ => Failed OSError)
    (fun _ => Raise ValueError) (PutSettings "vpn.example.com" []) admin_user demo_console (Ok tt) s' Hr) as (new & st & _ & Ha & Hf & _ & Hlen).
  specialize (Hlen eq_refl). destruct new as [|e [|]]; [discriminate Hlen| |discriminate Hlen]. exists s', e.
  apply Forall_cons in Hf as ((_ & Hact & _ & Hk & _) & _). cbn in Hk. apply list_elem_of_singleton in Hk.
  split; [reflexivity|]. split; [exact Hremote|]. split; [exact Ha|]. split; [exact Hk|exact Hact].
Defined.
