(* ===== verification/Endpoint.v ===== *)
(** * The public endpoint is read back

    [pki.set_remote] rewrites the remote lines of the client template and [pki.get_remote] reads
    them with a pattern that may match across lines.  The theorem here is the round trip, with
    the lemmas about [re.findall] over lines and about what a group can capture. *)

From S2P Require Import Prelude PyStr Regex ConfigEdit Ipv4 Addressing Network Url SearchLines ServerConf.

Open Scope string_scope.
Open Scope list_scope.
Open Scope Z_scope.

(** ** What a group captures *)

Section captures.
Context (i : nat) (P : string → Prop).

(** Every group [i] of the pattern takes a text with [P]. *)
Definition takes (a : regex) : Prop := ∀ st k x, rmatch a st k = Some x →
  ∃ w st', re_rest st = w +:+ re_rest st' ∧ P w ∧ k st' = Some x.
Fixpoint group_takes (r : regex) : Prop :=
  match r with
  | RGroup j a => if Nat.eqb j i then takes a else group_takes a
  | RSeq a b | RAlt a b => group_takes a ∧ group_takes b
  | RStar _ a => group_takes a
  | RChar _ | REps | RWordB => True
  end.
Definition captured (m m' : gmap nat string) : Prop := m' !! i = m !! i ∨ ∃ w, m' !! i = Some w ∧ P w.

Lemma captured_refl m : captured m m.
Proof. by left. Qed.
Lemma captured_trans m1 m2 m3 : captured m1 m2 → captured m2 m3 → captured m1 m3.
Proof. unfold captured. intros [H1|(w & H1 & Hw)] [H2|(v & H2 & Hv)]; rewrite ?H2, ?H1; eauto. Qed.

Lemma rmatch_captured r : group_takes r → ∀ st k x, rmatch r st k = Some x → ∃ st', captured (re_caps st) (re_caps st') ∧ k st' = Some x.
Proof.
  induction r as [q| |a IHa b IHb|a IHa b IHb|g a IHa|j a IHa|]; cbn [group_takes]; intros Hg st k x.
  - cbn [rmatch]. destruct (re_rest st); [done|]. destruct (q _); [|done]. intros Hk. eexists. split; [|exact Hk]. apply captured_refl.
  - intros Hk. exists st. split; [apply captured_refl|done].
  - destruct Hg as [Ha Hb]. rewrite rmatch_seq. intros (st1 & H1 & H)%(IHa Ha). apply (IHb Hb) in H as (st2 & H2 & Hk).
    exists st2. split; [by eapply captured_trans|done].
  - destruct Hg as [Ha Hb]. cbn [rmatch]. unfold or_else.
    destruct (rmatch a st k) as [y|] eqn:E; [intros [= ->]; by apply IHa|by apply IHb].
  - rewrite rmatch_star. generalize (S (String.length (re_rest st))). intros n. revert st.
    induction n as [|n IHn]; intros st; [intros Hk; exists st; split; [apply captured_refl|done]|]. cbn [star_loop].
    assert (Hmore : rmatch a st (fun st' =>
        if Nat.ltb (String.length (re_rest st')) (String.length (re_rest st)) then star_loop g a k n st' else None) = Some x →
      ∃ st', captured (re_caps st) (re_caps st') ∧ k st' = Some x).
    { intros (st1 & H1 & H)%(IHa Hg). destruct (Nat.ltb _ _); [|done]. apply IHn in H as (st2 & H2 & Hk).
      exists st2. split; [by eapply captured_trans|done]. }
    assert (Hstop : k st = Some x → ∃ st', captured (re_caps st) (re_caps st') ∧ k st' = Some x)
      by (intros Hk; exists st; split; [apply captured_refl|done]).
    change ((fix loop (n : nat) (st : re_state) {struct n} := _) n) with (star_loop g a k n).
    destruct g; unfold or_else.
    + destruct (rmatch a st _) as [y|]; [intros [= ->]; by apply Hmore|by apply Hstop].
    + destruct (k st) as [y|]; [intros [= ->]; by apply Hstop|by apply Hmore].
  - rewrite rmatch_group. destruct (Nat.eqb_spec j i) as [->|Hne].
    + intros (w & st' & Hr & Hw & Hk)%Hg. eexists. split; [|exact Hk]. cbn [re_caps]. right. exists w.
      rewrite lookup_insert_eq, Hr, str_take_app. done.
    + intros (st' & Hc & Hk)%(IHa Hg). eexists. split; [|exact Hk]. cbn [re_caps]. unfold captured in *.
      by rewrite lookup_insert_ne.
  - cbn [rmatch]. destruct (at_boundary st); [|done]. intros Hk. exists st. split; [apply captured_refl|done].
Qed.

Lemma matched_captured r prev s m : i ≠ 0%nat → group_takes r →
  rmatch (RGroup 0 r) (ReState prev s ∅) (fun st => Some (re_caps st)) = Some m → m !! i = None ∨ ∃ w, m !! i = Some w ∧ P w.
Proof.
  intros Hi Hr (st' & Hc & Hk)%rmatch_captured; [|cbn [group_takes]; by destruct i].
  injection Hk as <-. destruct Hc as [->|?]; [left; apply lookup_empty|by right].
Qed.

(** A pattern that ends in the group. *)
Lemma matched_last a b prev s m : i ≠ 0%nat → group_takes a → takes b →
  rmatch (RGroup 0 (RSeq a (RGroup i b))) (ReState prev s ∅) (fun st => Some (re_caps st)) = Some m → ∃ w, m !! i = Some w ∧ P w.
Proof.
  intros Hi Ha Hb. rewrite rmatch_group, rmatch_seq. intros (st1 & _ & H)%rmatch_captured; [|done].
  rewrite rmatch_group in H. apply Hb in H as (w & st2 & Hr & Hw & H). injection H as <-. exists w. split; [|done].
  cbn [re_caps]. rewrite lookup_insert_ne by done. rewrite lookup_insert_eq, Hr. by rewrite str_take_app.
Qed.
End captures.

(** Where a match found in a text comes from. *)
Lemma findall_match n r prev s m : m ∈ findall_m n r prev s →
  ∃ prev' s', rmatch (RGroup 0 r) (ReState prev' s' ∅) (fun st => Some (re_caps st)) = Some m.
Proof.
  revert prev s. induction n as [|n IH]; intros prev s; cbn [findall_m]; [by intros ?%not_elem_of_nil|].
  change (match prev with None => true | Some c0 => Ascii.eqb c0 lf end) with (bol prev).
  assert (Hnext : m ∈ match s with EmptyString => [] | String c t => findall_m n r (Some c) t end →
    ∃ prev' s', rmatch (RGroup 0 r) (ReState prev' s' ∅) (fun st => Some (re_caps st)) = Some m)
    by (destruct s; [by intros ?%not_elem_of_nil|apply IH]).
  destruct (bol prev); [|exact Hnext]. destruct (rmatch _ _ _) as [m'|] eqn:Hm; [|exact Hnext].
  destruct (String.length _) as [|k']; intros [->|Hin]%elem_of_cons; [eauto|by apply Hnext|eauto|by eapply IH].
Qed.

(** ** The protocols of the sockets *)

Definition is_proto (p : string) : Prop := p = "udp" ∨ p = "tcp".

Lemma proto_group : takes is_proto (RAlt (lit "udp") (lit "tcp")).
Proof.
  intros [prev s caps] k x. cbn [rmatch re_rest]. unfold or_else.
  assert (Hl : ∀ w, rmatch (lit w) (ReState prev s caps) k = Some x → ∃ st', s = w +:+ re_rest st' ∧ k st' = Some x).
  { intros w H. destruct (startswith w s) eqn:E.
    - apply startswith_iff in E as [t ->]. rewrite lit_run in H. eexists. split; [|exact H]. done.
    - rewrite lit_none in H; [done|]. intros t ->. assert (startswith w (w +:+ t) = true) by (apply startswith_iff; eauto). congruence. }
  destruct (rmatch (lit "udp") _ k) as [y|] eqn:E.
  - intros [= ->]. apply Hl in E as (st' & Hs & Hk). exists "udp", st'. split; [done|]. split; [by left|done].
  - intros (st' & Hs & Hk)%Hl. exists "tcp", st'. split; [done|]. split; [by right|done].
Qed.

Lemma found_proto_ok text : is_proto (found_proto text).
Proof.
  unfold found_proto, re_search_m. destruct (re_findall_m rx_proto text) as [|m l] eqn:E; [by left|]. cbn [head].
  assert (Hin : m ∈ re_findall_m rx_proto text) by (rewrite E; left). apply findall_match in Hin as (prev & s & Hm).
  destruct (matched_last 1 is_proto (rseq [RStar true rs_; lit "proto"; plus rs_]) (RAlt (lit "udp") (lit "tcp")) prev s m) as (w & Hw & Hp);
    [done|done|apply proto_group|exact Hm|]. unfold group. by rewrite Hw.
Qed.

Lemma listen_protos fs listen : server_listen fs = Ok listen → listen ≠ [] ∧ Forall (fun l => is_proto l.2) listen.
Proof.
  unfold server_listen, read_config. change (config_path "server" fs) with (Ok "server.conf" : result string). cbn [mbind result_bind].
  set (text := universal_newlines _). intros <-%Ok_inj. pose proof (found_proto_ok text) as Hf.
  assert (Hall : Forall (fun l : endpoint => is_proto l.2)
    ((fun m => (or_default (group m 1) (match re_search_m rx_port text with Some m => group m 1 | None => "1194" end), or_default (group m 2) (found_proto text)))
       <$> re_findall_m rx_local text)).
  { apply Forall_fmap, Forall_forall. intros m Hm. cbn [compose snd]. apply findall_match in Hm as (prev & s & Hm).
    unfold or_default. destruct (empty (group m 2)) eqn:He; [done|].
    destruct (matched_captured 2 is_proto rx_local prev s m) as [Hn|(w & Hw & Hp)]; [done|by repeat split; try apply proto_group|done| |].
    - unfold group in He. by rewrite Hn in He.
    - unfold group. by rewrite Hw. }
  destruct (_ <$> _) as [|l ls]; [|done]. split; [done|]. apply Forall_singleton. exact Hf.
Qed.

(** ** All matches, line by line *)

Section lines.
Context (kw : string) (tl : regex).
Context (kw_plain : str_forall (fun c => negb (is_space c)) kw = true) (kw_nonempty : kw ≠ "").
Let rx := keyword_rx kw tl.
Let body := RSeq (lit kw) (RSeq (plus rs_) tl).
Let all (prev : option ascii) (s : string) := findall_m (S (String.length s)) rx prev s.

Lemma within_any r : within (fun _ => true) r.
Proof. induction r; cbn; auto. Qed.

Lemma match_prefix r prev s m : rmatch (RGroup 0 r) (ReState prev s ∅) (fun st => Some (re_caps st)) = Some m →
  ∃ t u, s = t +:+ u ∧ m !! 0%nat = Some t.
Proof.
  rewrite rmatch_group. intros (w & st' & Hs & _ & Hk)%(rmatch_within _ _ (within_any r)). cbn [re_rest] in *.
  injection Hk as <-. exists w, (re_rest st'). split; [done|]. by rewrite lookup_insert_eq, Hs, str_take_app.
Qed.

Lemma str_drop_length n s : String.length (str_drop n s) = (String.length s - n)%nat.
Proof. revert s. induction n as [|n IH]; intros [|c s]; cbn; [done..|]. apply IH. Qed.

(** Any fuel above the length of the text gives the same matches. *)
Lemma findall_fuel n : ∀ m prev s, (String.length s < n)%nat → (String.length s < m)%nat → findall_m n rx prev s = findall_m m rx prev s.
Proof.
  induction n as [|n IH]; intros m prev s Hn Hm; [lia|]. destruct m as [|m]; [lia|]. cbn [findall_m].
  assert (Hnext : match s with EmptyString => [] | String c t => findall_m n rx (Some c) t end
                  = match s with EmptyString => [] | String c t => findall_m m rx (Some c) t end).
  { destruct s as [|c t]; [done|]. cbn [String.length] in *. apply IH; lia. }
  rewrite Hnext. destruct (match prev with None => true | Some c0 => _ end); [|done].
  destruct (rmatch _ _ _) as [x|] eqn:Hx; [|done]. apply match_prefix in Hx as (t & u & -> & Ht). rewrite Ht.
  change (default "" (Some t)) with t. destruct (String.length t) as [|k] eqn:Hl; [done|]. f_equal. apply IH;
    rewrite str_drop_length, str_length_app in *; lia.
Qed.

Lemma all_step prev c t : (bol prev = true → rmatch (RGroup 0 rx) (ReState prev (String c t) ∅) (fun st => Some (re_caps st)) = None) →
  all prev (String c t) = all (Some c) t.
Proof.
  intros Hm. unfold all. cbn [String.length findall_m].
  change (match prev with None => true | Some c0 => Ascii.eqb c0 lf end) with (bol prev). destruct (bol prev); [|done]. by rewrite Hm.
Qed.

Lemma all_to_line_end line t c : mem_char lf line = false → bol (Some c) = false → all (Some c) (line +:+ String lf t) = all (Some lf) t.
Proof.
  rewrite mem_char_false. revert c. induction line as [|d line IH]; intros c Hl Hc.
  - cbn [String.append]. apply all_step. by rewrite Hc.
  - cbn [str_forall] in Hl. apply andb_true_iff in Hl as [Hd Hl]. cbn [String.append].
    rewrite all_step by (by rewrite Hc). apply IH; [done|]. cbn [bol]. apply negb_true_iff in Hd. by rewrite Ascii.eqb_sym.
Qed.

(** A line where the pattern does not match. *)
Lemma all_line prev line t : mem_char lf line = false →
  rmatch (RGroup 0 rx) (ReState prev (line +:+ String lf t) ∅) (fun st => Some (re_caps st)) = None →
  all prev (line +:+ String lf t) = all (Some lf) t.
Proof.
  intros Hl Hm. destruct line as [|d line]; [by apply all_step|]. cbn [String.append] in *. rewrite all_step by auto.
  rewrite mem_char_false in Hl. cbn [str_forall] in Hl. apply andb_true_iff in Hl as [Hd Hl]. apply all_to_line_end.
  - by apply mem_char_false.
  - cbn [bol]. apply negb_true_iff in Hd. by rewrite Ascii.eqb_sym.
Qed.

Lemma str_drop_last k t u prev c : String.length t = S k → last_char prev t = Some c →
  str_drop k (t +:+ u) = String c u ∧ str_drop (S k) (t +:+ u) = u.
Proof.
  revert k prev. induction t as [|d t IH]; intros k prev; [done|]. cbn [String.length last_char String.append]. intros [= Hk] Hc.
  destruct t as [|e t]; [cbn in Hk; subst k; cbn in *; by injection Hc as ->|]. destruct k as [|k]; [done|].
  cbn [str_drop]. by apply (IH k (Some d)).
Qed.

(** A match that ends before a line feed. *)
Lemma all_hit prev t u m c : bol prev = true → rmatch (RGroup 0 rx) (ReState prev (t +:+ String lf u) ∅) (fun st => Some (re_caps st)) = Some m →
  m !! 0%nat = Some t → last_char None t = Some c → Ascii.eqb c lf = false →
  all prev (t +:+ String lf u) = m :: all (Some lf) u.
Proof.
  intros Hb Hm H0 Hc Hlf. unfold all at 1. cbn [findall_m].
  change (match prev with None => true | Some c0 => Ascii.eqb c0 lf end) with (bol prev). rewrite Hb, Hm, H0.
  change (default "" (Some t)) with t. destruct (String.length t) as [|k] eqn:Hl; [by destruct t|].
  destruct (str_drop_last k t (String lf u) None c Hl Hc) as [-> ->]. f_equal.
  rewrite (findall_fuel _ (S (String.length (String lf u)))) by (rewrite ?str_length_app; cbn [String.length]; lia).
  apply (all_step (Some c)). cbn [bol]. by rewrite Hlf.
Qed.

(** Lines without the keyword hold no match. *)
Lemma all_none ls prev : Forall (without_keyword kw) ls → all prev (lines_before ls "") = [].
Proof.
  intros Hls. revert prev. induction Hls as [|l ls Hl Hls IH]; intros prev.
  - unfold all. change (lines_before [] "") with "". cbn [String.length findall_m]. destruct (match prev with None => true | Some c0 => _ end); [|done].
    rewrite rmatch_group. change (ReState prev "" ∅) with (ReState prev ("" +:+ "") ∅).
    rewrite (rx_none kw tl kw_plain kw_nonempty); [done..|]. intros (c & t & He & _). by destruct kw.
  - destruct (lines_lead kw kw_plain (l :: ls) "") as (w & r & Hwr & Hw & Hr & Hend); [by constructor|done|].
    assert (Hno : ¬ keyword_first kw r).
    { destruct Hend as [->|?]; [|done]. intros (c & t & He & _). by destruct kw. }
    change (lines_before (l :: ls) "") with (l +:+ String lf (lines_before ls "")) in *. rewrite all_line; [apply IH|apply Hl|].
    rewrite Hwr, rmatch_group. by apply rx_none.
Qed.

(** The first match in lines without the keyword before a line that matches. *)
Lemma all_lines ls h u pf cf prev : Forall (without_keyword kw) ls → starts_in is_space h = false → bol prev = true →
  last_char None h = Some pf → Ascii.eqb pf lf = false →
  (∀ prev k x, k (ReState (Some pf) (String lf u) cf) = Some x → rmatch body (ReState prev (h +:+ String lf u) ∅) k = Some x) →
  ∃ t, all prev (lines_before ls (h +:+ String lf u)) = <[0%nat := t]> cf :: all (Some lf) u.
Proof.
  intros Hls Hh Hb Hpf Hlf Hbody. revert prev Hb.
  assert (Hstart : starts_in is_space (h +:+ String lf u) = false) by (by destruct h).
  assert (Hhit : ∀ w prev, str_forall is_space w = true → bol prev = true →
            all prev (w +:+ h +:+ String lf u) = <[0%nat := w +:+ h]> cf :: all (Some lf) u).
  { intros w prev Hw Hb. rewrite <-str_app_assoc. apply (all_hit _ _ _ _ pf); [done| |by rewrite lookup_insert_eq| |done].
    - rewrite rmatch_group, str_app_assoc. apply rx_some; [done|done|]. intros p. apply Hbody. cbn [re_prev re_rest re_caps].
      rewrite <-str_app_assoc. by rewrite str_take_app.
    - destruct h as [|d h]; [done|]. clear -Hpf. revert Hpf. generalize (@None ascii). induction w as [|e w IH]; [done|]. intros o Ho. cbn [last_char String.append]. by apply IH. }
  induction Hls as [|l ls Hl Hls IH]; intros prev Hb; [exists h; by apply (Hhit "")|].
  destruct (lines_lead kw kw_plain (l :: ls) (h +:+ String lf u)) as (w & r & Hwr & Hw & Hr & Hend); [by constructor|done|].
  destruct Hend as [->|Hno]; [rewrite Hwr; eauto|].
  change (lines_before (l :: ls) (h +:+ String lf u)) with (l +:+ String lf (lines_before ls (h +:+ String lf u))) in *.
  rewrite all_line; [by apply IH|apply Hl|]. rewrite Hwr, rmatch_group. by apply rx_none.
Qed.
End lines.

(** ** The remote lines *)

Definition remote_line (host : string) (r : endpoint) : string := "remote " +:+ host +:+ " " +:+ r.1 +:+ " " +:+ r.2.
Definition remote_tail : regex := rseq [RGroup 1 (plus rS); plus rs_; RGroup 2 (plus rd); proto_suffix 3].
Definition remote_caps (host : string) (r : endpoint) : gmap nat string := <[3%nat := r.2]> (<[2%nat := r.1]> (<[1%nat := host]> ∅)).

Definition port_good (p : string) : Prop := str_forall is_decimal p = true ∧ ∃ n, py_int p = Some n ∧ 1 <= n <= 65535.

(** A field of a class behind a space, up to another character. *)
Lemma field_run p i s rest prev caps k x : (∀ c, p c = true → is_space c = false) → str_forall p s = true → s ≠ "" → starts_in p rest = false →
  (∀ prev', k (ReState prev' rest (<[i := s]> caps)) = Some x) →
  rmatch (RSeq (plus rs_) (RGroup i (plus (RChar p)))) (ReState prev (" " +:+ s +:+ rest) caps) k = Some x.
Proof.
  intros Hp Hs Hne Hrest Hk. rewrite rmatch_seq. unfold rs_. change (" " +:+ s +:+ rest) with (String " " "" +:+ (s +:+ rest)).
  destruct s as [|c s]; [done|]. cbn [str_forall] in Hs. apply andb_true_iff in Hs as [Hc Hs].
  apply plus_run; [done|done|cbn; by apply Hp|]. cbn [last_char]. rewrite rmatch_group.
  apply plus_run; [done|done|done|]. cbn [re_prev re_rest re_caps]. rewrite str_take_app. apply Hk.
Qed.

Lemma rmatch_alt a b st k : rmatch (RAlt a b) st k = or_else (rmatch a st k) (rmatch b st k).
Proof. done. Qed.
Lemma or_else_some {A} (a b : option A) x : a = Some x → or_else a b = Some x.
Proof. by intros ->. Qed.

Lemma remote_hit host r u prev k x :
  str_forall (fun c => negb (is_space c)) host = true → host ≠ "" → str_forall is_decimal r.1 = true → r.1 ≠ "" → is_proto r.2 →
  k (ReState (Some "p"%char) (String lf u) (remote_caps host r)) = Some x →
  rmatch (RSeq (lit "remote") (RSeq (plus rs_) remote_tail))
    (ReState prev ("remote" +:+ (" " +:+ host +:+ (" " +:+ r.1 +:+ (" " +:+ r.2 +:+ String lf u)))) ∅) k = Some x.
Proof.
  intros Hh Hh0 Hp Hp0 Hpr Hk. rewrite rmatch_seq, lit_run. unfold remote_tail, rseq. rewrite seq_assoc, rmatch_seq. unfold rS, rd.
  apply field_run; [intros c; apply negb_true_iff|done|done|done|]. intros p1. rewrite seq_assoc, rmatch_seq.
  apply field_run; [intros c; destruct c as [[] [] [] [] [] [] [] []]; vm_compute; congruence|done|done|done|]. intros p2.
  unfold proto_suffix, opt. rewrite rmatch_alt. apply or_else_some.
  change (" " +:+ r.2 +:+ String lf u) with (String " " "" +:+ (r.2 +:+ String lf u)). unfold rseq, rs_, rS. rewrite rmatch_seq.
  apply plus_run; [done|done|by destruct Hpr as [->| ->]|]. rewrite rmatch_seq, rmatch_group, rmatch_alt. cbn [last_char re_rest].
  assert (Hend : ∀ q caps, k (ReState (Some q) (String lf u) caps) = Some x →
    rmatch (RStar true (RChar (fun c => negb (is_space c)))) (ReState (Some q) (String lf u) caps) k = Some x).
  { intros q caps Hq. change (String lf u) with ("" +:+ String lf u). by apply star_run. }
  destruct Hpr as [He|He]; unfold remote_caps in Hk; rewrite He in Hk |- *.
  - apply or_else_some. rewrite lit_run. cbn [re_prev re_rest re_caps last_char]. rewrite str_take_app. by apply Hend.
  - rewrite lit_none by (intros t Ht; discriminate Ht). cbn [or_else]. rewrite lit_run. cbn [re_prev re_rest re_caps last_char].
    rewrite str_take_app. by apply Hend.
Qed.

Lemma port_ok_good p : port_ok p = Ok true → port_good p ∧ p ≠ "".
Proof.
  unfold port_ok, isdigit. destruct (empty p) eqn:He; [done|]. cbn [negb andb]. destruct (str_forall is_digit p) eqn:Hd; [|done]. cbn [negb].
  destruct (py_int p) as [n|] eqn:Hn; [|done]. cbn [of_option mbind result_bind]. intros Hr%Ok_inj. apply andb_true_iff in Hr as [H1%Z.leb_le H2%Z.leb_le].
  split; [|intros ->; done]. split; [|by exists n]. unfold py_int, strip in Hn.
  rewrite Network.strip_none in Hn by (eapply str_forall_impl; [|exact Hd]; intros [[] [] [] [] [] [] [] []]; vm_compute; congruence).
  destruct p as [|c p]; [done|]. cbn [str_forall] in Hd. apply andb_true_iff in Hd as [Hc Hd].
  destruct (Ascii.eqb_spec c "-"%char) as [->|_]; [done|]. destruct (Ascii.eqb_spec c "+"%char) as [->|_]; [done|].
  cbn [unsigned_int str_forall] in *. destruct (is_decimal c); [|done]. cbn [andb]. revert Hn. generalize (digit_val c). clear Hc He.
  induction p as [|d p IH]; intros v; [done|]. cbn [str_forall digits_val] in *. apply andb_true_iff in Hd as [Hc Hd].
  destruct (is_decimal d); [by apply IH|]. destruct (Ascii.eqb_spec d "_"%char) as [->|]; [done|done].
Qed.

(** What the lines that [validate_remote] returns say. *)
Lemma validate_remote_lines host ports fs lines : validate_remote host ports fs = Ok lines →
  host_re (strip host) = true ∧
  ∃ listen remotes, server_listen fs = Ok listen ∧ lines = remote_line (strip host) <$> remotes ∧ remotes.*2 = (udp_first listen).*2 ∧
    Forall (fun r => port_good r.1 ∧ r.1 ≠ "" ∧ ∀ q, find (fun q => String.eqb q.1 r.2) ports = Some q → r.1 = q.2) remotes.
Proof.
  unfold validate_remote. destruct (host_re (strip host)) eqn:Hh; [|done]. cbn [negb raise_if mbind result_bind].
  destruct (get_remote fs) as [remote|]; [|done]. cbn [mbind result_bind]. destruct (server_listen fs) as [listen|]; [|done]. cbn [mbind result_bind].
  intros H. split; [done|]. exists listen. revert lines H. generalize (udp_first listen). intros l.
  induction l as [|sock l IH]; intros lines; cbn [map_result].
  { intros <-%Ok_inj. by exists []. }
  set (port := default _ (snd <$> find _ ports)). destruct (port_ok port) as [[]|] eqn:Hp; [|done..]. cbn [negb raise_if mbind result_bind].
  destruct (map_result _ l) as [rest|]; [|done]. cbn [mbind result_bind]. intros <-%Ok_inj.
  destruct (IH rest eq_refl) as (remotes & _ & -> & H2 & Hall). exists ((port, sock.2) :: remotes). split_and!; [done|done|cbn; by rewrite H2|].
  constructor; [|done]. cbn [fst snd]. apply port_ok_good in Hp as [Hg Hne]. split_and!; [done|done|]. intros q Hq. unfold port. by rewrite Hq.
Qed.

(** The lines that are kept do not begin with the keyword. *)
Lemma kept_no_remote l : one_line l = true → re_match rx_endpoint l = None → strip l ≠ "remote" → without_keyword "remote" l.
Proof.
  intros Hl Hm Hs. split; [by apply (line_no_lf l (fun _ => true))|]. intros w r -> Hw [->|Hr].
  - apply Hs. rewrite str_app_nil_r. unfold strip, strip_by. assert (Hls : lstrip_by is_space (w +:+ "remote") = "remote").
    { clear -Hw. induction w as [|c w IH]; [done|]. cbn [str_forall] in Hw. apply andb_true_iff in Hw as [Hc Hw]. cbn [String.append lstrip_by]. rewrite Hc. by apply IH. }
    by rewrite Hls.
  - destruct r as [|c r]; [done|]. cbn [starts_in] in Hr.
    assert (Hy : ∃ m, re_match rx_endpoint (w +:+ "remote" +:+ String c r) = Some m); [|destruct Hy as [m Hy]; congruence].
    destruct (space_split r) as (v & r' & -> & Hv & Hr').
    eexists. unfold re_match, rx_endpoint, rseq. rewrite rmatch_seq. unfold rs_ at 1. apply star_run; [done|done|].
    rewrite rmatch_seq, rmatch_alt. apply or_else_some. rewrite lit_run.
    change (String c (v +:+ r')) with (String c v +:+ r'). unfold rs_. by apply plus_run.
Qed.

Lemma udp_first_perm l : udp_first l ≡ₚ l.
Proof. apply filter_app_complement. Qed.

Lemma str_le_iff a b : ConfigEdit.str_le a b ↔ String.le a b.
Proof. unfold ConfigEdit.str_le, String.le, String.leb. by destruct (String.compare a b). Qed.
#[export] Instance str_le_trans : Transitive ConfigEdit.str_le.
Proof. intros a b c. rewrite !str_le_iff. intros. by etrans. Qed.
#[export] Instance str_le_antisymm : AntiSymm (=) ConfigEdit.str_le.
Proof. intros a b. rewrite !str_le_iff. apply (anti_symm String.le). Qed.
#[export] Instance str_le_total_order : Total ConfigEdit.str_le.
Proof. intros a b. rewrite !str_le_iff. apply (total String.le). Qed.

Lemma sorted_str_le l l' : l ≡ₚ l' → merge_sort ConfigEdit.str_le l = merge_sort ConfigEdit.str_le l'.
Proof. intros Hp. apply (Sorted_unique ConfigEdit.str_le); [apply Sorted_merge_sort, _..|]. by rewrite !merge_sort_Permutation. Qed.

Section found.
Context (host : string) (Hhost : str_forall (fun c => negb (is_space c)) host = true) (Hhost0 : host ≠ "").

Definition remote_ok (r : endpoint) : Prop := str_forall is_decimal r.1 = true ∧ r.1 ≠ "" ∧ is_proto r.2.
Definition found_as (r : endpoint) (m : gmap nat string) : Prop := group m 1 = host ∧ group m 2 = r.1 ∧ group m 3 = r.2.

(** All the remotes between other lines. *)
Lemma remotes_found before remotes after prev : Forall (without_keyword "remote") before → Forall (without_keyword "remote") after →
  Forall remote_ok remotes → bol prev = true →
  ∃ ms, findall_m (S (String.length (lines_before (before ++ (remote_line host <$> remotes) ++ after) ""))) rx_remote prev
          (lines_before (before ++ (remote_line host <$> remotes) ++ after) "") = ms ∧ Forall2 found_as remotes ms.
Proof.
  intros Hbefore Hafter Hr. revert before prev Hbefore. induction Hr as [|r remotes (Hp & Hp0 & Hpr) Hr IH]; intros before prev Hbefore Hb.
  { exists []. split; [|constructor]. cbn [fmap list_fmap app]. apply (all_none "remote" remote_tail); [done|done|]. by apply Forall_app. }
  destruct (IH [] (Some lf) (Forall_nil_2 _) eq_refl) as (ms & Hms & Hf). cbn [app] in Hms.
  cbn [fmap list_fmap app]. change (list_fmap _ _ ?f ?l) with (f <$> l). rewrite lines_before_app.
  change (lines_before (remote_line host r :: (remote_line host <$> remotes) ++ after) "")
    with (remote_line host r +:+ String lf (lines_before ((remote_line host <$> remotes) ++ after) "")).
  set (u := lines_before ((remote_line host <$> remotes) ++ after) "") in *.
  destruct (all_lines "remote" remote_tail eq_refl ltac:(done) before (remote_line host r) u "p" (remote_caps host r) prev) as [t Ht]; try done.
  - unfold remote_line. destruct r as [port proto]. cbn [fst snd] in *. rewrite <-!str_app_assoc. rewrite last_char_app. by destruct Hpr as [->| ->].
  - intros p k x Hk. unfold remote_line. rewrite !str_app_assoc. change "remote " with ("remote" +:+ " ") at 1. rewrite str_app_assoc.
    by apply remote_hit.
  - exists (<[0%nat := t]> (remote_caps host r) :: ms). split; [|constructor; [done|exact Hf]]. etrans; [exact Ht|]. f_equal. exact Hms.
Qed.
End found.

(** ** Theorem *)

Lemma read_client fs : read_config "client" fs = Ok (universal_newlines (default "" (fs !! "config/client.conf"))).
Proof. done. Qed.

Lemma listen_same fs fs' : fs' !! "server.conf" = fs !! "server.conf" → server_listen fs' = server_listen fs.
Proof. intros H. unfold server_listen, read_config. change (config_path "server" ?f) with (Ok "server.conf" : result string). cbn [mbind result_bind]. by rewrite H. Qed.

Lemma host_plain h : host_re h = true → str_forall (fun c => negb (is_space c)) h = true ∧ h ≠ "" ∧ one_line h = true.
Proof.
  unfold host_re. rewrite !andb_true_iff. intros [[Hl _] Hh]. split_and!.
  - eapply str_forall_impl; [|exact Hh]. intros c. destruct c as [[] [] [] [] [] [] [] []]; vm_compute; congruence.
  - intros ->. discriminate Hl.
  - eapply str_forall_impl; [|exact Hh]. intros c. destruct c as [[] [] [] [] [] [] [] []]; vm_compute; congruence.
Qed.

Lemma remote_line_one_line host r : one_line host = true → str_forall is_decimal r.1 = true → is_proto r.2 → one_line (remote_line host r) = true.
Proof. intros Hh Hp Hpr. unfold remote_line. rewrite !one_line_app, Hh, (decimal_one_line _ Hp). by destruct Hpr as [->| ->]. Qed.

(** A line that is only the keyword, which [rx_endpoint] does not match. *)
Definition bare_remote (l : string) : bool := String.eqb (strip l) "remote".
Definition no_bare_remote (fs : files) : Prop := ∀ text, read_config "client" fs = Ok text → Forall (fun l => bare_remote l = false) (splitlines text).

(** What the client template holds after [set_remote]. *)
Lemma set_remote_text host ports io_ok fs fs' :
  set_remote host ports io_ok fs = Ok fs' → (∀ text l, read_config "client" fs = Ok text → l ∈ splitlines text → strip l ≠ "remote") →
  ∃ listen remotes before after, server_listen fs = Ok listen ∧ server_listen fs' = Ok listen ∧ remotes.*2 = (udp_first listen).*2 ∧
    host_re (strip host) = true ∧ listen ≠ [] ∧
    Forall (fun r => remote_ok r ∧ port_good r.1 ∧ ∀ q, find (fun q => String.eqb q.1 r.2) ports = Some q → r.1 = q.2) remotes ∧
    Forall (without_keyword "remote") before ∧ Forall (without_keyword "remote") after ∧
    read_config "client" fs' = Ok (lines_before (before ++ (remote_line (strip host) <$> remotes) ++ after) "").
Proof.
  unfold set_remote. destruct (validate_remote host ports fs) as [lines|] eqn:Hv; [|done]. cbn [mbind result_bind].
  apply validate_remote_lines in Hv as (Hh & listen & remotes & Hl & -> & H2 & Hall). rewrite read_client. cbn [mbind result_bind].
  set (text := universal_newlines _). set (kept := filter _ (splitlines text)). set (at_ := default 0%nat (after_client kept)). intros Hw Hbare.
  destruct (listen_protos fs listen Hl) as [Hne Hprotos]. destruct (host_plain _ Hh) as (Hh1 & _ & Hh3).
  assert (Hrem : Forall (fun r => remote_ok r ∧ port_good r.1 ∧ ∀ q, find (fun q => String.eqb q.1 r.2) ports = Some q → r.1 = q.2) remotes).
  { rewrite Forall_forall in Hall. apply Forall_forall. intros r Hr. destruct (Hall r Hr) as (Hg & Hr0 & Hq). split_and!; [|done|done].
    split_and!; [by destruct Hg|done|]. rewrite Forall_forall in Hprotos.
    assert (Hin : r.2 ∈ (udp_first listen).*2) by (rewrite <-H2; by apply list_elem_of_fmap_2).
    apply list_elem_of_fmap in Hin as (x & -> & Hx). apply Hprotos. by rewrite <-(udp_first_perm listen). }
  assert (Hkept : Forall (without_keyword "remote") kept ∧ Forall (fun l => one_line l = true) kept).
  { rewrite <-Forall_and. apply Forall_forall. intros l [Hm Hin]%list_elem_of_filter.
    assert (Ho : one_line l = true).
    { pose proof (splitlines_forall (fun _ => true) text) as Hs. rewrite Forall_forall in Hs. apply Hs; [|done]. clear. by induction text. }
    split; [|done]. apply kept_no_remote; [done|done|]. by apply (Hbare text). }
  destruct Hkept as [Hwk Hone]. set (L := take at_ kept ++ (remote_line (strip host) <$> remotes) ++ drop at_ kept) in *.
  assert (HL : L ≠ []).
  { unfold L. destruct remotes as [|r rs]; [|by destruct (take at_ kept)]. cbn in H2. pose proof (udp_first_perm listen) as Hp.
    destruct (udp_first listen); [|done]. by apply Permutation_nil_l in Hp. }
  assert (HLone : Forall (fun l => one_line l = true) L).
  { unfold L. rewrite !Forall_app. split_and!; [by apply Forall_take| |by apply Forall_drop]. apply Forall_fmap. eapply Forall_impl; [exact Hrem|].
    intros r ((? & ? & ?) & _). by apply remote_line_one_line. }
  rewrite join_lines in Hw by done. pose proof (lines_before_no_cr L "" HLone eq_refl) as Hcr.
  apply (write_config_spec "client" "config/client.conf") in Hw as (Hnew & _ & Hrest); [|done|done].
  exists listen, remotes, (take at_ kept). pose proof (listen_same fs fs' (Hrest "server.conf" ltac:(done) ltac:(done))) as Hsame.
  assert (Hend : ∃ tail, fs' !! "config/client.conf" = Some (lines_before (L ++ tail) "") ∧ Forall (without_keyword "remote") tail ∧ Forall (fun l => one_line l = true) tail).
  { destruct (endswith lf_text (lines_before L "")); [exists []; by rewrite app_nil_r|]. exists [""]. rewrite Hnew. split_and!; [|by repeat constructor; apply kept_no_remote|by repeat constructor].
    f_equal. rewrite lines_before_app. clear. induction L as [|l L IH]; [done|]. cbn [lines_before foldr]. change (foldr _ ?s L) with (lines_before L s).
    rewrite str_app_assoc. cbn [String.append]. by rewrite IH. }
  clear Hnew. destruct Hend as (tail & Hnew & Htail & Htail1). exists (drop at_ kept ++ tail). rewrite Hsame. split_and!; try done.
  - by apply Forall_take.
  - apply Forall_app. split; [by apply Forall_drop|done].
  - rewrite read_client, Hnew. change (default "" (Some ?x)) with x. rewrite universal_newlines_no_cr.
    + f_equal. unfold L. by rewrite <-!app_assoc.
    + apply lines_before_no_cr; [|done]. by apply Forall_app.
Qed.

(** Reading the saved endpoint back. *)
Lemma set_remote_read_back host ports io_ok fs fs' :
  set_remote host ports io_ok fs = Ok fs' → no_bare_remote fs →
  ∃ listen remotes, server_listen fs = Ok listen ∧ server_listen fs' = Ok listen ∧
    get_remote fs' = Ok (strip host, remotes) ∧ remotes.*2 = (udp_first listen).*2 ∧
    (∀ r, r ∈ remotes → port_good r.1) ∧
    (∀ r q, r ∈ remotes → find (fun q => String.eqb q.1 r.2) ports = Some q → r.1 = q.2) ∧
    sync_remotes io_ok fs' = Ok (fs', false).
Proof.
  intros Hset Hbare. assert (Hb0 : ∀ text l, read_config "client" fs = Ok text → l ∈ splitlines text → strip l ≠ "remote").
  { intros text l Ht Hl. pose proof (Hbare text Ht) as Hf. rewrite Forall_forall in Hf. by apply String.eqb_neq, Hf. }
  destruct (set_remote_text _ _ _ _ _ Hset Hb0) as (listen & remotes & before & after & Hl & Hl' & H2 & Hh & Hne & Hr & Hb & Ha & Htext).
  destruct (host_plain _ Hh) as (Hh1 & Hh2 & _).
  assert (Hok : Forall remote_ok remotes) by (eapply Forall_impl; [exact Hr|]; by intros r (? & _)).
  destruct (remotes_found (strip host) Hh1 Hh2 before remotes after None Hb Ha Hok eq_refl) as (ms & Hms & Hf).
  assert (Hget : get_remote fs' = Ok (strip host, remotes)).
  { unfold get_remote. rewrite Htext. cbn [mbind result_bind]. unfold re_findall_m. rewrite Hms. clear Hms. f_equal. f_equal.
    - destruct Hf as [|r m rs ms (H1 & _) _]; [|done]. pose proof (udp_first_perm listen) as Hp. cbn in H2.
      destruct (udp_first listen); [|done]. by apply Permutation_nil_l in Hp.
    - match goal with |- context [found_proto ?t] => generalize (found_proto t) end. intros p0. clear H2 Hr Htext. revert Hok. induction Hf as [|r m rs ms (H1 & H2 & H3) _ IH]; intros Hok; [done|]. apply Forall_cons in Hok as [(_ & _ & Hpr) Hok].
      cbn [fmap list_fmap]. change (list_fmap _ _ ?f ?l) with (f <$> l). rewrite IH by done. f_equal. rewrite H2, H3. destruct r as [p q]. cbn [fst snd] in *.
      by destruct Hpr as [->| ->]. }
  exists listen, remotes. rewrite Forall_forall in Hr. split_and!; try done.
  - intros r Hin. by destruct (Hr r Hin) as (_ & Hg & _).
  - intros r q Hin. destruct (Hr r Hin) as (_ & _ & Hq). apply Hq.
  - unfold sync_remotes. rewrite Hget, Hl'. cbn [mbind result_bind fst snd]. rewrite H2.
    rewrite (bool_decide_eq_true_2 _ (sorted_str_le _ _ (fmap_Permutation _ _ _ (udp_first_perm listen)))). by rewrite orb_true_r.
Qed.

(** The public endpoint is saved as it was asked for: unless the client template has a line that is only
    the word remote, reading it back gives the host and, for each socket OpenVPN listens on, one remote
    with its protocol, UDP first, the port that was asked for and in any case a valid one, whatever
    remotes, protocols and other lines the template had; the profiles then follow the protocols of
    server.conf, so that [sync_remotes] has nothing to do. *)
Theorem endpoint_read_back host ports io_ok fs fs' :
  set_remote host ports io_ok fs = Ok fs' → no_bare_remote fs →
  ∃ listen remotes, server_listen fs = Ok listen ∧ server_listen fs' = Ok listen ∧
    get_remote fs' = Ok (strip host, remotes) ∧ remotes.*2 = (udp_first listen).*2 ∧
    (∀ r, r ∈ remotes → ∃ n, py_int r.1 = Some n ∧ 1 <= n <= 65535) ∧
    (∀ r q, r ∈ remotes → find (fun q => String.eqb q.1 r.2) ports = Some q → r.1 = q.2) ∧
    sync_remotes io_ok fs' = Ok (fs', false).
Proof.
  intros Hset Hbare. destruct (set_remote_read_back _ _ _ _ _ Hset Hbare) as (listen & remotes & Hl & Hl' & Hg & H2 & Hp & Hq & Hs).
  exists listen, remotes. split_and!; try done. intros r Hr. by destruct (Hp r Hr) as [_ Hn].
Qed.

Definition endpoint_files : files :=
  {["server.conf" := join lf_text ["local 0.0.0.0 1197 tcp"; "local 0.0.0.0 1194 udp"; "management 127.0.0.1 2080"]]}
  ∪ {["config/client.conf" := join lf_text ["client"; "proto udp"; " remote old.example.com 1194"; ""; "dev tun"]]}.
Definition endpoint_saved : result files := set_remote " vpn.example.com " [("tcp", "443")] true endpoint_files.

Lemma endpoint_read_back_witness :
  is_ok endpoint_saved = true ∧ ∀ fs, endpoint_saved = Ok fs → ∃ listen remotes, server_listen endpoint_files = Ok listen ∧
    listen.*2 = ["tcp"; "udp"] ∧ get_remote fs = Ok ("vpn.example.com", remotes) ∧ remotes.*2 = ["udp"; "tcp"] ∧ sync_remotes true fs = Ok (fs, false).
Proof.
  split; [vm_compute; reflexivity|]. intros fs Hs.
  destruct (endpoint_read_back " vpn.example.com " [("tcp", "443")] true endpoint_files fs Hs) as (listen & remotes & Hl & _ & Hg & H2 & _ & _ & Hsync).
  - intros text Ht. assert (Hb : (forallb (fun l => negb (bare_remote l)) ∘ splitlines) <$> read_config "client" endpoint_files = Ok true) by (vm_compute; reflexivity).
    rewrite Ht in Hb. apply Ok_inj in Hb. cbn in Hb. rewrite forallb_forall in Hb. apply Forall_forall. intros l Hl. apply negb_true_iff, Hb, list_elem_of_In, Hl.
  - assert (Hu : (fun l => (snd <$> udp_first l, snd <$> l)) <$> server_listen endpoint_files = Ok (["udp"; "tcp"], ["tcp"; "udp"])) by (vm_compute; reflexivity).
    rewrite Hl in Hu. cbn [fmap result_map] in Hu. apply Ok_inj, pair_equal_spec in Hu as [Hu1 Hu2].
    exists listen, remotes. split; [exact Hl|]. split; [exact Hu2|]. split; [exact Hg|]. split; [rewrite H2; exact Hu1|exact Hsync].
Defined.
