(* ===== verification/Startup.v ===== *)
(** * The start of the UI: settings, [bootstrap] and [migrate]

    The constructor of [ui/app/settings.py] on an environment, and the start of [ui/app/main.py]:
    the refusal of a database that was not migrated, the one-time fixes of data from earlier
    releases, the first administrator, and the public host of the environment.  The statements are
    those of [Console]; the directories that are created first exist.  [float] of the poll interval
    and the paths are not modelled. *)

From S2P Require Import Prelude PyStr Regex Schema Auth Traffic Sessions Mgmt ConfigEdit Addressing Relay Clients Lifecycle Backups Profiles Console Network SearchLines Endpoint Access.

Open Scope string_scope.
Open Scope list_scope.
Open Scope Z_scope.

(** ** Settings *)

Record ui_settings := UiSettings {
  us_session_ttl : Z;
  us_admin_username : string;
  us_admin_password : string;
  us_public_host : string;
  us_secure_cookies : string;
  us_tfa_issuer : string;
  us_guest_sub : string;
  us_relay_transport : string;
  us_relay_signer_url : string;
  us_relay_signing_required : bool;
  us_relay_signer_token : string;
  us_backup_keep : Z;
  us_backup_recipient : string;
  us_profile_base_url : string;
}.

(** [_env]. *)
Definition env_or (env : string → option string) (name default_ : string) : string := default default_ (env name).

(** The fields of [Settings.__init__] that are not paths; a number that is not one is a ValueError. *)
Definition settings_of (env : string → option string) : result ui_settings :=
  ttl ← of_option ValueError (py_int (env_or env "OVPN_UI_SESSION_TTL" (str_of_int (12 * 3600))));
  let transport := lower (strip (env_or env "OVPN_RELAY_TRANSPORT" "http2")) in
  _ ← raise_if (negb (String.eqb transport "http2") && negb (String.eqb transport "http3")) ValueError;
  keep ← of_option ValueError (py_int (env_or env "OVPN_BACKUP_KEEP" "14"));
  let required := lower (env_or env "OVPN_RELAY_REQUIRE_SIGNED" "true") in
  Ok (UiSettings ttl (or_default (strip (env_or env "OPENVPN_ADMIN_USERNAME" "admin")) "admin") (env_or env "OPENVPN_ADMIN_PASSWORD" "")
        (strip (env_or env "OVPN_PUBLIC_HOST" "")) (lower (strip (env_or env "OVPN_UI_SECURE_COOKIES" "auto")))
        (or_default (strip (env_or env "OVPN_TFA_ISSUER" "OpenVPN")) "OpenVPN") (strip (env_or env "GUEST_SUB" "")) transport
        (strip (env_or env "OVPN_RELAY_SIGNER_URL" "")) (negb (String.eqb required "0") && negb (String.eqb required "false"))
        (strip (env_or env "RELAY_PROFILE_SIGNING_TOKEN" "")) (Z.max 0 keep) (strip (env_or env "OVPN_BACKUP_RECIPIENT" ""))
        (rstrip_by (Ascii.eqb "/") (strip (env_or env "OVPN_PROFILE_BASE_URL" "")))).

(** ** Statements on the database and the directories of the clients *)

Definition db_of (s : console) : database := sv_db (co_server s).
Definition on_db (f : database → result database) : act unit := fun s =>
  match f (db_of s) with Ok d => (Ok tt, set_server (set_db d (co_server s)) s) | Raise e => (Raise e, s) end.
Definition on_access (f : access → result access) : act unit := fun s =>
  match f (sv_access (co_server s)) with Ok a => (Ok tt, set_server (set_access_dirs a (co_server s)) s) | Raise e => (Raise e, s) end.
(** [except PkiError], logged. *)
Definition catch_pki (c : act unit) : act unit := fun s =>
  match c s with (Raise e, s') => if is_pki_error e then (Ok tt, s') else (Raise e, s') | r => r end.

Section start.
(** The clock, the guest range, the public key of a certificate file (by its directory and name), the
    scripts, scrypt with the salt and the password that is made up, and whether files can be written. *)
Context (now : Z) (guest_sub : string) (pubkey : string → string → string).
Context (mkovpn : string → profile_dir → result string * profile_dir) (scrypt : scrypt_fn) (salt generated : string) (io_ok : bool).

(** ** [migrate] *)

(** [pki.identity_start] of a client, on the directories. *)
Definition client_start (name : string) (p : pki_dir) : option Z :=
  identity_start name ((fun i => (i, pubkey "issued" name)) <$> cert_in (pd_issued p) name)
    ((cert_in (pd_renewed p) name, pubkey "renewed" name) :: ((fun f : string * option info => (f.2, pubkey "revoked" f.1)) <$> pd_revoked p)).

(** The history of an earlier client of a name is archived; an identity without a start, or with the
    start 0, is left alone. *)
Fixpoint archive_earlier (names : list string) : act unit :=
  match names with
  | [] => mret tt
  | name :: names =>
      start ← read (fun s => Ok (client_start name (sv_pki (co_server s))));
      _ ← match start with
          | Some t => if t =? 0 then mret tt
                      else on_db (fun d => '(d, _) ← archive_client_history now name (Some t) d; Ok d)
          | None => mret tt
          end;
      archive_earlier names
  end.

Definition connection_event (e : event_row) : bool := String.eqb (e_kind e) "vpn_connect" || String.eqb (e_kind e) "vpn_disconnect".

Definition migrate : act unit :=
  _ ← on_db (fun d => Ok (purge_client "UNDEF" d));
  _ ← on_access (fun a => '(a, _) ← migrate_guest_static_ips guest_sub a; Ok a);
  done ← read (fun s => Ok (get_setting (db_of s) "migration:identities"));
  _ ← (if bool_decide (done = Some "1") then mret tt
       else
         names ← read (fun s => Ok (cl_name <$> listing now ∅ (co_server s)));
         _ ← archive_earlier names;
         on_db (fun d => Ok (set_setting "migration:identities" "1" d)));
  _ ← on_db (fun d => Ok (group_sessions d).1);
  on_db (fun d => Ok (upd_events (List.filter (fun e => negb (connection_event e))) d)).

(** ** [bootstrap] *)

Definition placeholder (host : string) : bool := existsb (String.eqb host) [""; "127.0.0.1"; "localhost"].

Definition first_admin (st : ui_settings) : act unit :=
  found ← read (fun s => Ok (bool_decide (users (db_of s) = ∅)));
  if found : bool then
    let password := if empty (us_admin_password st) then generated else us_admin_password st in
    on_db (fun d => h ← hash_password scrypt salt password; Ok (insert_user (UserRow (us_admin_username st) h now None None None) d))
  else mret tt.

Definition public_host (st : ui_settings) : act unit :=
  remote ← read (fun s => get_remote (co_files s));
  from_env ← read (fun s => Ok (get_setting (db_of s) "remote_from_env"));
  if negb (empty (us_public_host st)) && (placeholder remote.1 || bool_decide (from_env ≠ Some (us_public_host st))) then
    _ ← save_remote mkovpn io_ok (us_public_host st) [];
    on_db (fun d => Ok (set_setting "remote_from_env" (us_public_host st) d))
  else _ ← follow_protocols mkovpn io_ok; mret tt.

(** [legacy] is whether the SQLite file of an earlier release is there. *)
Definition bootstrap (st : ui_settings) (legacy : bool) : act unit :=
  _ ← read (fun s => raise_if (legacy && bool_decide (get_setting (db_of s) "migration:legacy_sqlite" = None)
                               && bool_decide (get_setting (db_of s) "migration:postgres_dump" = None))
                       (RuntimeError "Legacy state needs migration: run bin/upgrade-relay.sh before starting this UI"));
  _ ← migrate;
  _ ← first_admin st;
  catch_pki (public_host st).
End start.

(** ** What the fixes leave alone *)

(** Accounts, sessions of the UI, and every setting but the marker. *)
Record same_core (d d' : database) : Prop := SameCore {
  sc_users : users d' = users d;
  sc_seq : users_seq d' = users_seq d;
  sc_sessions : web_sessions d' = web_sessions d;
  sc_settings : ∀ k, k ≠ "migration:identities" → settings d' !! k = settings d !! k;
}.
#[export] Instance same_core_preorder : PreOrder same_core.
Proof.
  split; [done|]. intros d1 d2 d3 [H1 H2 H3 H4] [K1 K2 K3 K4]. split; try congruence. intros k Hk. rewrite K4, H4 by done. done.
Qed.

Definition background {A} (c : act A) : Prop := ∀ s, same_core (db_of s) (db_of (c s).2) ∧ co_files (c s).2 = co_files s.

Lemma background_ret {A} (a : A) : background (mret a).
Proof. done. Qed.
Lemma background_read {A} (f : console → result A) : background (read f).
Proof. done. Qed.
Lemma background_bind {A B} (c : act A) (f : A → act B) : background c → (∀ a, background (f a)) → background (c ≫= f).
Proof.
  intros Hc Hf s. unfold mbind, act_bind. destruct (Hc s) as [H1 H2]. destruct (c s) as [[a|e] s1]; cbn [snd] in *; [|done].
  destruct (Hf a s1) as [H3 H4]. split; [by etrans|congruence].
Qed.
Lemma background_db f : (∀ d d', f d = Ok d' → same_core d d') → background (on_db f).
Proof. intros Hf s. unfold on_db. destruct (f (db_of s)) eqn:E; [|done]. split; [by apply Hf|done]. Qed.
Lemma background_access f : background (on_access f).
Proof. intros s. unfold on_access. by destruct (f _). Qed.

Lemma group_fold_core rows : ∀ acc, same_core acc.2 (foldl group_row acc rows).2.
Proof.
  induction rows as [|[id r] rows IH]; intros [last d]; [done|]. cbn [foldl]. etrans; [|apply IH]. unfold group_row. by destruct (match last !! _ with Some _ => _ | None => _ end).
Qed.
Lemma archive_core now name before d d' k : archive_client_history now name before d = Ok (d', k) → same_core d d'.
Proof. unfold archive_client_history. destruct (negb _); [by intros [= <- <-]|]. intros H. inv_result. injection H as <- <-. done. Qed.

Create HintDb background.
#[export] Hint Resolve background_ret background_read background_access : background.

Lemma background_archive now pubkey names : background (archive_earlier now pubkey names).
Proof.
  induction names as [|n names IH]; cbn [archive_earlier]; [auto with background|]. apply background_bind; [auto with background|]. intros start.
  apply background_bind; [|done]. destruct start as [t|]; [|auto with background]. destruct (t =? 0); [auto with background|].
  apply background_db. intros d d'. destruct (archive_client_history _ _ _ d) as [[d1 k]|] eqn:E; [|done]. intros <-%Ok_inj. by eapply archive_core.
Qed.

Lemma background_migrate now guest_sub pubkey : background (migrate now guest_sub pubkey).
Proof.
  unfold migrate. apply background_bind; [apply background_db; by intros d d' <-%Ok_inj|intros _].
  apply background_bind; [auto with background|intros _]. apply background_bind; [auto with background|intros done_].
  apply background_bind; [|intros _; apply background_bind; [|intros _]].
  - case_bool_decide; [auto with background|]. apply background_bind; [auto with background|intros names].
    apply background_bind; [apply background_archive|intros _]. apply background_db. intros d d' <-%Ok_inj. split; try done.
    intros k Hk. cbn. by rewrite lookup_insert_ne.
  - apply background_db. intros d d' <-%Ok_inj. apply (group_fold_core _ (∅, d)).
  - apply background_db. by intros d d' <-%Ok_inj.
Qed.

(** Saving the endpoint touches no table. *)
Lemma save_remote_db mkovpn io_ok host ports s : db_of (save_remote mkovpn io_ok host ports s).2 = db_of s.
Proof.
  unfold save_remote, mbind, act_bind, on_files, regenerate, on_profiles. destruct (set_remote _ _ _ _); [|done].
  destruct (regenerate_profiles _ _) as [[]]; done.
Qed.
Lemma follow_protocols_db mkovpn io_ok s : db_of (follow_protocols mkovpn io_ok s).2 = db_of s.
Proof.
  unfold follow_protocols, mbind, act_bind, read. destruct (get_remote _) as [remote|]; [|done]. destruct (server_listen _); [|done].
  destruct (_ || _ : bool); [done|]. pose proof (save_remote_db mkovpn io_ok remote.1 [] s) as H.
  destruct (save_remote _ _ _ _ s) as [[]]; exact H.
Qed.
Lemma public_host_core mkovpn io_ok st s : users (db_of (catch_pki (public_host mkovpn io_ok st) s).2) = users (db_of s)
  ∧ web_sessions (db_of (catch_pki (public_host mkovpn io_ok st) s).2) = web_sessions (db_of s)
  ∧ users_seq (db_of (catch_pki (public_host mkovpn io_ok st) s).2) = users_seq (db_of s).
Proof.
  assert (H : users (db_of (public_host mkovpn io_ok st s).2) = users (db_of s) ∧ web_sessions (db_of (public_host mkovpn io_ok st s).2) = web_sessions (db_of s)
    ∧ users_seq (db_of (public_host mkovpn io_ok st s).2) = users_seq (db_of s)).
  { unfold public_host, mbind, act_bind, read. destruct (get_remote _) as [remote|]; [|done]. destruct (_ && _ : bool).
    - pose proof (save_remote_db mkovpn io_ok (us_public_host st) [] s) as H. destruct (save_remote _ _ _ _ s) as [[[]|e] s1]; cbn [snd] in H.
      + unfold on_db. cbn. by rewrite H.
      + cbn [snd]. by rewrite H.
    - pose proof (follow_protocols_db mkovpn io_ok s) as H. destruct (follow_protocols _ _ s) as [[b|e] s1]; cbn [snd] in H |- *; unfold mret, act_ret; cbn [snd]; by rewrite H. }
  unfold catch_pki. destruct (public_host _ _ _ s) as [[[]|e] s1]; [exact H|]. by destruct (is_pki_error e).
Qed.

(** ** Theorems *)

(** C35. Starting the UI never loses or changes an account and never signs anybody out: accounts stay as
    they are, and only without any account one is made, an administrator with the configured name whose
    password is the configured one or the one that was made up and logged.  A database that still waits
    for its migration is refused before anything is touched. *)
Theorem start_keeps_accounts now guest_sub pubkey mkovpn scrypt salt generated io_ok st legacy s r s' :
  (∀ pw sa n r p k d, scrypt pw sa n r p k = Some d → strlen d = k) →
  bootstrap now guest_sub pubkey mkovpn scrypt salt generated io_ok st legacy s = (r, s') →
  web_sessions (db_of s') = web_sessions (db_of s) ∧
  (users (db_of s) ≠ ∅ → users (db_of s') = users (db_of s)) ∧
  (users (db_of s) = ∅ → r = Ok tt →
     ∃ u, users (db_of s') = {[users_seq (db_of s) := u]} ∧ u_username u = us_admin_username st ∧ u_client_name u = None ∧
       verify_password scrypt (if empty (us_admin_password st) then generated else us_admin_password st) (u_password_hash u) = true) ∧
  (legacy = true → get_setting (db_of s) "migration:legacy_sqlite" = None → get_setting (db_of s) "migration:postgres_dump" = None →
     s' = s ∧ ∃ m, r = Raise (RuntimeError m)).
Proof.
  intros Hlen. unfold bootstrap. unfold mbind at 1 2 3, act_bind at 1 2 3. unfold read at 1.
  destruct (raise_if _ _) as [u0|e] eqn:Hl; cycle 1.
  { unfold raise_if in Hl. destruct (_ && _); [|done]. injection Hl as <-. intros [= <- <-]. split_and!; try done. intros _ _ _. eauto. }
  assert (Hleg : ¬ (legacy = true ∧ get_setting (db_of s) "migration:legacy_sqlite" = None ∧ get_setting (db_of s) "migration:postgres_dump" = None)).
  { intros (-> & Ha & Hb). by rewrite !bool_decide_eq_true_2 in Hl. }
  destruct (background_migrate now guest_sub pubkey s) as [[Hu Hq Hw _] _]. destruct (migrate _ _ _ s) as [[[]|e] s1]; cbn [snd] in Hu, Hq, Hw; cycle 1.
  { intros [= <- <-]. split_and!; try done. intros. by destruct Hleg. }
  unfold first_admin. unfold mbind at 1, act_bind at 1. unfold read at 1. destruct (decide (users (db_of s1) = ∅)) as [He|Hne].
  - rewrite bool_decide_eq_true_2 by done. unfold on_db. set (pw := if empty (us_admin_password st) then _ else _).
    destruct (hash_password scrypt salt pw) as [h|e] eqn:Hh; cbn [mbind result_bind].
    + set (s2 := set_server _ s1). destruct (public_host_core mkovpn io_ok st s2) as (Hu2 & Hw2 & _).
      destruct (catch_pki _ s2) as [r2 s3]; cbn [snd] in *. intros [= -> ->]. rewrite Hu2, Hw2. unfold s2. cbn. split_and!; [done|congruence| |].
      * intros _ _. rewrite He, Hq, insert_empty. eexists. split; [done|]. split; [done|]. split; [done|]. cbn. by eapply verify_stored.
      * intros. by destruct Hleg.
    + intros [= <- <-]. split_and!; [done|congruence|done|]. intros. by destruct Hleg.
  - rewrite bool_decide_eq_false_2 by done. unfold mret, act_ret. destruct (public_host_core mkovpn io_ok st s1) as (Hu2 & Hw2 & _).
    destruct (catch_pki _ s1) as [r2 s3]; cbn [snd] in *. intros [= -> ->]. split_and!; [congruence|congruence|congruence|].
    intros. by destruct Hleg.
Qed.

(** ** The account tables over time *)

(** Everything that writes the table of accounts: the requests on the own account and on portal accounts, the renewal
    and the deletion of a client, and the start. *)
Inductive account_op :=
| OpLogin (L : limiter) (env : login_env) (v : pki_view) (r : request) (username password : string) (lim : limiter_state)
| OpLogout (r : request)
| OpPassword (now : Z) (salt : string) (r : request) (u : session_user) (current new : string)
| OpPortal (now : Z) (v : pki_view) (salt name username password actor : string)
| OpDisable (name : string)
| OpRenew (now : Z) (sh : option Z → script) (name : string) (days : option Z) (actor : string)
| OpDelete (now : Z) (sh : access → result access) (name actor : string)
| OpStart (now : Z) (guest_sub : string) (pubkey : string → string → string) (mkovpn : string → profile_dir → result string * profile_dir)
    (salt generated : string) (io_ok : bool) (st : ui_settings) (legacy : bool).

(** A request that fails leaves the tables of a rolled back transaction; [login] keeps its events. *)
Definition account_apply (sha : string → string) (scrypt : scrypt_fn) (ttl : Z) (op : account_op) (s : console) : console :=
  let on_tables f := set_server (set_db (f (db_of s)) (co_server s)) s in
  match op with
  | OpLogin L env v r username password lim => on_tables (fun d => si_db (login sha scrypt ttl L env v r username password (Site d lim)).1)
  | OpLogout r => on_tables (logout sha r)
  | OpPassword now salt r u current new =>
      on_tables (fun d => match change_password sha scrypt now salt r u current new d with Ok d' => d' | Raise _ => d end)
  | OpPortal now v salt name username password actor =>
      on_tables (fun d => match set_portal_account scrypt now v salt name username password actor d with Ok d' => d' | Raise _ => d end)
  | OpDisable name => on_tables (disable_portal sha name)
  | OpRenew now sh name days actor => set_server (renew now sh name days actor (co_server s)).1 s
  | OpDelete now sh name actor => set_server (delete_client sha now sh name actor (co_server s)).1 s
  | OpStart now guest_sub pubkey mkovpn salt generated io_ok st legacy =>
      (bootstrap now guest_sub pubkey mkovpn scrypt salt generated io_ok st legacy s).2
  end.

Lemma accounts_ok_follow name old new d : accounts_ok d → accounts_ok (follow_serial name old new d).
Proof.
  intros [Hs Hu Hc].
  assert (Hl : ∀ i u, users (follow_serial name old new d) !! i = Some u →
             ∃ w, users d !! i = Some w ∧ u_username u = u_username w ∧ u_client_name u = u_client_name w).
  { intros i u. unfold follow_serial. cbn. rewrite lookup_fmap. intros (w & Hw & ->)%fmap_Some. exists w. by case_bool_decide. }
  split.
  - intros i u (w & Hw & _)%Hl. by apply (Hs i w).
  - intros i j u w (u' & Hu' & Hun & _)%Hl (w' & Hw' & Hwn & _)%Hl Heq. apply (Hu i j u' w'); congruence.
  - intros i j u w n (u' & Hu' & _ & Huc)%Hl (w' & Hw' & _ & Hwc)%Hl H1 H2. apply (Hc i j u' w' n); congruence.
Qed.

Lemma login_accounts sha scrypt ttl L env v r username password lim d : accounts_ok d →
  accounts_ok (si_db (login sha scrypt ttl L env v r username password (Site d lim)).1).
Proof.
  intros Hok. destruct (login _ _ _ _ _ _ _ _ _ _) as [s' [[ro cn]|e]] eqn:Hl; cbn [fst].
  - apply login_Ok in Hl as (id & u & _ & Hid & _ & _ & _ & _ & _ & Hf). cbn [si_db] in *.
    destruct (finish_login_Ok _ _ _ _ _ _ _ _ _ _ Hf Hid) as (_ & (h & _ & Hus) & Hseq & _).
    eapply accounts_ok_users; [| |apply (accounts_ok_alter d (fun x => UserRow (u_username x) h (u_created_at x)
      (Some (le_now env)) (u_client_name x) (u_client_serial x)) id); done]; [|done].
    rewrite Hus. cbn. apply map_eq. intros i. destruct (decide (i = id)) as [->|].
    + by rewrite lookup_alter_eq, Hid, lookup_insert_eq.
    + by rewrite lookup_alter_ne, lookup_insert_ne.
  - apply login_Raise in Hl as (Hu & _ & Hs). by eapply accounts_ok_users.
Qed.

Lemma disable_accounts sha name d : accounts_ok d → accounts_ok (disable_portal sha name d).
Proof.
  intros Hok. unfold disable_portal. destruct (client_account name d) as [[id u]|]; [|done].
  apply accounts_ok_delete. destruct (delete_user_sessions_users sha id None d). by eapply accounts_ok_users.
Qed.

Lemma renew_accounts now sh name days actor s : accounts_ok (sv_db s) → accounts_ok (sv_db (renew now sh name days actor s).1).
Proof.
  intros Hok. unfold renew. destruct (find_client now name s) as [row|]; [|done]. cbv zeta.
  destruct (cr_state (cl_cert row)); [done|..]; (destruct (renew_client sh name days (sv_pki s)) as [p|]; [|done]);
    (destruct (renewed now _ name _ _) as [r|]; [|done]); (destruct (eligible now _ name) as [[c|]|]; [| |done]);
    unfold event; cbn [set_db set_relay set_pki sv_db fst]; apply accounts_ok_event; try apply accounts_ok_follow; done.
Qed.

Lemma delete_accounts sha now sh name actor s : accounts_ok (sv_db s) → accounts_ok (sv_db (delete_client sha now sh name actor s).1).
Proof.
  intros Hok. unfold delete_client. destruct (find_client now name s) as [row|]; [|done].
  destruct (cr_state (cl_cert row)); [|done|done]. destruct (remove_client sh name (sv_access s)) as [a|]; [|done].
  unfold event. cbn [set_db set_relay set_access_dirs sv_db fst]. apply accounts_ok_event.
  assert (Hd : accounts_ok (drop_share_links name (disable_portal sha name (sv_db s)))).
  { apply (accounts_ok_users (disable_portal sha name (sv_db s))); [done|done|by apply disable_accounts]. }
  generalize (cr_serial (cl_cert row) :: (cr_serial <$> cl_history row)). intros serials. unfold hide_certs.
  match goal with |- accounts_ok (upd_clients _ ?d) => apply (accounts_ok_users d); [done|done|] end. revert Hd. generalize (drop_share_links name (disable_portal sha name (sv_db s))).
  induction serials as [|x serials IH]; intros d Hd; [done|]. cbn [foldl]. apply IH. destruct (hidden_certs d !! x); [done|]. by apply (accounts_ok_users d).
Qed.

Lemma bootstrap_accounts now guest_sub pubkey mkovpn scrypt salt generated io_ok st legacy s :
  accounts_ok (db_of s) → accounts_ok (db_of (bootstrap now guest_sub pubkey mkovpn scrypt salt generated io_ok st legacy s).2).
Proof.
  intros Hok. unfold bootstrap. unfold mbind at 1 2 3, act_bind at 1 2 3. unfold read at 1.
  destruct (raise_if _ _) as [u0|e]; [|done].
  destruct (background_migrate now guest_sub pubkey s) as [[Hu Hq _ _] _]. destruct (migrate _ _ _ s) as [[[]|e] s1]; cbn [snd] in Hu, Hq |- *;
    [|by eapply accounts_ok_users].
  assert (Hok1 : accounts_ok (db_of s1)) by (by eapply accounts_ok_users).
  unfold first_admin. unfold mbind at 1, act_bind at 1. unfold read at 1. destruct (decide (users (db_of s1) = ∅)) as [He|Hne].
  - rewrite bool_decide_eq_true_2 by done. unfold on_db. destruct (hash_password scrypt salt _) as [h|e]; [|done]. cbn [mbind result_bind].
    match goal with |- context [set_server ?x s1] => set (s2 := set_server x s1) end.
    destruct (public_host_core mkovpn io_ok st s2) as (Hu2 & _ & Hq2). destruct (catch_pki _ s2) as [r2 s3]; cbn [snd] in *.
    apply (accounts_ok_users (db_of s2)); [done|done|]. unfold s2. cbn. apply accounts_ok_insert; [done| |done].
    intros j w. by rewrite He, lookup_empty.
  - rewrite bool_decide_eq_false_2 by done. unfold mret, act_ret. destruct (public_host_core mkovpn io_ok st s1) as (Hu2 & _ & Hq2).
    destruct (catch_pki _ s1) as [r2 s3]; cbn [snd] in *. by eapply accounts_ok_users.
Qed.

(** C33. The constraints of the table users hold through everything in the running UI that writes accounts: signing in (a password hash that
    is brought up to date, the time of the login), signing out, changing the password, giving and ending portal
    access, renewing a client (whose account follows to the new certificate), deleting one, and the first
    administrator made at a start, in any order and whether they succeed or fail (the one-time import is in
    [Migration]).  User names and client names
    stay unique and the next identity value stays unused; the model's INSERT and UPDATE do not check this, so
    PostgreSQL's UNIQUE constraints refuse none of these writes. *)
Theorem accounts_stay_unique sha scrypt ttl (ops : list account_op) s :
  accounts_ok (db_of s) → accounts_ok (db_of (foldl (fun s op => account_apply sha scrypt ttl op s) s ops)).
Proof.
  revert s. induction ops as [|op ops IH]; intros s Hok; [done|]. cbn [foldl]. apply IH. clear IH.
  destruct op as [L env v r username password lim|r|now salt r u current new|now v salt name username password actor|name
    |now sh name days actor|now sh name actor|now guest_sub pubkey mkovpn salt generated io_ok st legacy]; cbn [account_apply].
  - by apply login_accounts.
  - unfold logout. cbn. destruct (delete_session_users sha (rq_cookie r) (db_of s)). by eapply accounts_ok_users.
  - change (db_of (set_server (set_db ?d (co_server s)) s)) with d. destruct (change_password _ _ _ _ _ _ _ _ _) as [d'|] eqn:Hc; [|done].
    apply change_password_Ok in Hc as (row & h & _ & _ & _ & Hu & Hs & _).
    eapply accounts_ok_users; [| |apply (accounts_ok_alter (db_of s) (set_password h) (su_id u)); done]; done.
  - change (db_of (set_server (set_db ?d (co_server s)) s)) with d. destruct (set_portal_account _ _ _ _ _ _ _ _ _) as [d'|] eqn:Hc; [|done].
    by apply set_portal_account_ok in Hc as [? _].
  - by apply disable_accounts.
  - by apply renew_accounts.
  - by apply delete_accounts.
  - by apply bootstrap_accounts.
Qed.

(** ** The fixes run once *)

(** Nothing of a handshake that was recorded as a client. *)
Record clean (d : database) : Prop := Clean {
  cl_vpn : map_Forall (fun _ r => v_client_name r ≠ "UNDEF") (vpn_sessions d);
  cl_relay : map_Forall (fun _ r => rs_client_name r ≠ "UNDEF") (relay_sessions d);
  cl_minute : map_Forall (fun k _ => k.2 ≠ "UNDEF") (traffic_minute d);
  cl_hour : map_Forall (fun k _ => k.2 ≠ "UNDEF") (traffic_hour d);
  cl_day : map_Forall (fun k _ => k.2 ≠ "UNDEF") (traffic_day d);
  cl_events : Forall (fun e => e_client_name e ≠ Some "UNDEF") (events d);
}.

Lemma purge_clean d : clean (purge_client "UNDEF" d).
Proof.
  split; cbn; try (intros k x Hx; apply map_lookup_filter_Some in Hx as [_ Hx]; exact Hx).
  apply Forall_forall. intros e [He _]%list_elem_of_filter. exact He.
Qed.

Lemma clean_purged d : clean d → purge_client "UNDEF" d = d.
Proof.
  intros [H1 H2 H3 H4 H5 H6]. unfold purge_client, upd_events, upd_traffic, upd_relay, upd_vpn. cbn.
  rewrite !map_filter_id by (intros; eauto). rewrite (filter_all_id _ (events d)) by (by rewrite <-Forall_forall). by destruct d.
Qed.

Lemma archived_key name now : name +:+ "#" +:+ now ≠ "UNDEF".
Proof.
  intros H. assert (Hm : mem_char "#" "UNDEF" = true) by (rewrite <-H, !mem_char_app; cbn; by rewrite orb_true_r). done.
Qed.

Lemma rename_traffic_clean name key before m t : key ≠ "UNDEF" → rename_traffic name key before m = Ok t →
  map_Forall (fun k _ => k.2 ≠ "UNDEF") m → map_Forall (fun k (_ : Z * Z) => k.2 ≠ "UNDEF") t.
Proof.
  intros Hk H Hm k v Hv. unfold rename_traffic in H. destruct (rename_fold _ _ _ _ (fun _ _ => 0) H) as [_ Hkeys].
  destruct (Hkeys k) as [[w Hw]|Hw]; [eauto| |congruence]. apply map_lookup_filter_Some in Hw as [Hw _]. exact (Hm k w Hw).
Qed.

Lemma archive_clean now name before d d' k : clean d → archive_client_history now name before d = Ok (d', k) → clean d'.
Proof.
  intros [H1 H2 H3 H4 H5 H6]. unfold archive_client_history. destruct (negb _); [by intros [= <- <-]|]. intros H. inv_result. injection H as <- <-.
  pose proof (archived_key name (str_of_int now)) as Hkey. cbn in *. split; cbn; try done; try (by eapply rename_traffic_clean).
  - intros i r Hr. rewrite lookup_fmap in Hr. apply fmap_Some in Hr as (r0 & Hr0 & ->). unfold rename_vpn. destruct (_ && _); [done|by eapply H1].
  - intros i r Hr. rewrite lookup_fmap in Hr. apply fmap_Some in Hr as (r0 & Hr0 & ->). unfold rename_relay. destruct (_ && _); [done|by eapply H2].
Qed.

(** [group_sessions] only fills in visits, and leaves no row without one. *)
Lemma group_fold_rows rows : ∀ acc k r, vpn_sessions (foldl group_row acc rows).2 !! k = Some r →
  ∃ r0, vpn_sessions acc.2 !! k = Some r0 ∧ v_client_name r = v_client_name r0 ∧ (v_grp r = None → v_grp r0 = None ∧ k ∉ rows.*1).
Proof.
  induction rows as [|[id x] rows IH]; intros [last d] k r Hr; cbn [foldl] in Hr.
  { exists r. split_and!; [done|done|]. intros ->. split; [done|apply not_elem_of_nil]. }
  apply IH in Hr as (r1 & Hr1 & Hn & Hg). unfold group_row in Hr1. destruct (match last !! _ with Some _ => _ | None => _ end) as [grp e]. cbn [snd] in Hr1.
  rewrite update_session_rows in Hr1. case_decide as Hk.
  - apply fmap_Some in Hr1 as (r0 & Hr0 & ->). exists r0. split_and!; [done|done|]. intros Hnone. by destruct (Hg Hnone).
  - exists r1. split_and!; [done|done|]. intros Hnone. destruct (Hg Hnone) as [Hg1 Hg2]. split; [done|]. cbn. set_solver.
Qed.

Lemma group_fold_same rows : ∀ acc, let d' := (foldl group_row acc rows).2 in
  d' = upd_vpn (fun _ => vpn_sessions d') acc.2.
Proof.
  induction rows as [|[id x] rows IH]; intros [last d]; cbn [foldl]; [by destruct d|]. cbn zeta in IH |- *. rewrite IH at 1.
  unfold group_row. by destruct (match last !! _ with Some _ => _ | None => _ end).
Qed.

Lemma group_sessions_rows d k r : vpn_sessions (group_sessions d).1 !! k = Some r →
  v_grp r ≠ None ∧ ∃ r0, vpn_sessions d !! k = Some r0 ∧ v_client_name r = v_client_name r0.
Proof.
  unfold group_sessions. cbn [fst]. intros (r0 & Hr0 & Hn & Hg)%group_fold_rows. cbn [snd] in Hr0. split; [|eauto].
  intros Hnone. destruct (Hg Hnone) as [Hg0 Hout]. apply Hout. rewrite merge_sort_Permutation. apply list_elem_of_fmap. exists (k, r0).
  split; [done|]. apply list_elem_of_filter. by rewrite elem_of_map_to_list.
Qed.

Lemma group_sessions_none d : map_Forall (fun _ r => v_grp r ≠ None) (vpn_sessions d) → group_sessions d = (d, 0%nat).
Proof.
  intros Hall. unfold group_sessions. assert (Hf : filter (fun kv : Z * vpn_session => v_grp kv.2 = None) (map_to_list (vpn_sessions d)) = []).
  { destruct (filter _ _) as [|[k r] l] eqn:E; [done|]. assert (Hin : (k, r) ∈ (k, r) :: l) by left. rewrite <-E in Hin.
    apply list_elem_of_filter in Hin as [Hn Hin]. apply elem_of_map_to_list in Hin. by destruct (Hall k r Hin). }
  by rewrite Hf.
Qed.

(** Guests that were marked have no static address left. *)
Lemma mark_guests_static names : ∀ a a', mark_guests names a = Ok a' → static_ips a' = foldr delete (static_ips a) (reverse names).
Proof.
  induction names as [|n names IH]; intros a a'; cbn [mark_guests]; [by intros <-%Ok_inj|]. unfold set_guest at 1.
  destruct (validate_name n); [|done]. cbn [mbind result_bind]. intros ->%IH. rewrite static_ips_delete. by destruct a; rewrite reverse_cons, foldr_app.
Qed.

Lemma deleted_none names : ∀ (m : gmap string string) k, k ∈ names → foldr delete m names !! k = None.
Proof.
  induction names as [|n names IH]; intros m k Hk; [by apply not_elem_of_nil in Hk|]. cbn [foldr].
  destruct (decide (n = k)) as [->|Hne]; [apply lookup_delete_eq|]. rewrite lookup_delete_ne by done. apply IH. set_solver.
Qed.
Lemma deleted_subset names : ∀ (m : gmap string string) k v, foldr delete m names !! k = Some v → m !! k = Some v.
Proof. induction names as [|n names IH]; intros m k v; [done|]. cbn [foldr]. intros [_ H]%lookup_delete_Some. by apply IH. Qed.

Lemma guests_moved_once guest_sub a a' moved : migrate_guest_static_ips guest_sub a = Ok (a', moved) → migrate_guest_static_ips guest_sub a' = Ok (a', []).
Proof.
  unfold migrate_guest_static_ips. destruct (mark_guests _ a) as [a1|] eqn:Hm; [|done]. cbn [mbind result_bind]. intros [-> <-]%Ok_inj%pair_equal_spec.
  match goal with |- context [filter ?P (map_to_list (static_ips a'))] =>
    assert (Hf : filter P (map_to_list (static_ips a')) = []); [|by rewrite Hf] end.
  destruct (filter _ (map_to_list (static_ips a'))) as [|[n ip] l] eqn:E; [done|]. exfalso. assert (Hin : (n, ip) ∈ (n, ip) :: l) by left. rewrite <-E in Hin.
  apply list_elem_of_filter in Hin as [HP Hin]. apply elem_of_map_to_list in Hin. rewrite (mark_guests_static _ _ _ Hm) in Hin.
  rewrite deleted_none in Hin; [done|]. rewrite elem_of_reverse. apply list_elem_of_fmap. exists (n, ip). split; [done|].
  apply list_elem_of_filter. split; [done|]. apply elem_of_map_to_list. by eapply deleted_subset.
Qed.

(** The books: the bytes of each table and the session rows. *)
Record books_kept (d d' : database) : Prop := BooksKept {
  bk_minute : ∀ c : Z * Z → Z, map_sum (fun _ v => c v) (traffic_minute d') = map_sum (fun _ v => c v) (traffic_minute d);
  bk_hour : ∀ c : Z * Z → Z, map_sum (fun _ v => c v) (traffic_hour d') = map_sum (fun _ v => c v) (traffic_hour d);
  bk_day : ∀ c : Z * Z → Z, map_sum (fun _ v => c v) (traffic_day d') = map_sum (fun _ v => c v) (traffic_day d);
  bk_rows : dom (vpn_sessions d') = dom (vpn_sessions d);
  bk_relay : dom (relay_sessions d') = dom (relay_sessions d);
}.
#[export] Instance books_kept_preorder : PreOrder books_kept.
Proof. split; [done|]. intros d1 d2 d3 [H1 H2 H3 H4 H5] [K1 K2 K3 K4 K5]. split; [intros c; by rewrite K1|intros c; by rewrite K2|intros c; by rewrite K3|congruence..]. Qed.

Lemma archive_books now name before d d' k : archive_client_history now name before d = Ok (d', k) → books_kept d d'.
Proof.
  unfold archive_client_history. destruct (negb _); [by intros [= <- <-]|]. intros H. inv_result. injection H as <- <-. cbn in *.
  split; cbn; try (intros c; match goal with H : rename_traffic _ _ _ (?t d) = Ok ?x |- map_sum _ ?x = map_sum _ (?t d) =>
    by destruct (rename_traffic_sum _ _ _ _ _ (fun _ v => c v) H) as [-> _] end); by rewrite dom_fmap_L.
Qed.
Lemma group_sessions_books d : books_kept d (group_sessions d).1.
Proof.
  unfold group_sessions. cbn [fst]. generalize (merge_sort oldest (filter (fun kv : Z * vpn_session => v_grp kv.2 = None) (map_to_list (vpn_sessions d)))). intros rows.
  change d with ((∅ : gmap (string * string) (Z * Z), d).2) at 1. generalize (∅ : gmap (string * string) (Z * Z), d). clear d.
  induction rows as [|[id r] rows IH]; intros [last d]; [done|]. cbn [foldl]. etrans; [|apply IH]. unfold group_row.
  destruct (match last !! _ with Some _ => _ | None => _ end). split; try done. cbn. by rewrite dom_alter_L.
Qed.

(** Statements that ran. *)
Lemma bind_ok {A B} (c : act A) (f : A → act B) s b s' : (c ≫= f) s = (Ok b, s') → ∃ a s1, c s = (Ok a, s1) ∧ f a s1 = (Ok b, s').
Proof. unfold mbind, act_bind. destruct (c s) as [[a|e] s1]; [eauto|done]. Qed.
Lemma bind_run {A B} (c : act A) (f : A → act B) s a s1 : c s = (Ok a, s1) → (c ≫= f) s = f a s1.
Proof. unfold mbind, act_bind. by intros ->. Qed.
Lemma on_db_ok f s u s' : on_db f s = (Ok u, s') → ∃ d, f (db_of s) = Ok d ∧ s' = set_server (set_db d (co_server s)) s.
Proof. unfold on_db. destruct (f (db_of s)); [|done]. intros [= _ <-]. eauto. Qed.
Lemma on_db_same f s : f (db_of s) = Ok (db_of s) → on_db f s = (Ok tt, s).
Proof. unfold on_db. intros ->. by destruct s as [[]]. Qed.

Definition other_parts (s : console) : pki_dir * access * relay_db * files * profile_dir :=
  (sv_pki (co_server s), sv_access (co_server s), sv_relay (co_server s), co_files s, co_profiles s).

Lemma archive_earlier_ok now pubkey names : ∀ s s', archive_earlier now pubkey names s = (Ok tt, s') → clean (db_of s) →
  clean (db_of s') ∧ books_kept (db_of s) (db_of s') ∧ other_parts s' = other_parts s.
Proof.
  induction names as [|n names IH]; intros s s'; cbn [archive_earlier]; [by intros [= <-]|]. intros H Hc.
  apply bind_ok in H as (start & s1 & [= <- <-] & H). apply bind_ok in H as ([] & s1 & Hone & H).
  assert (H1 : clean (db_of s1) ∧ books_kept (db_of s) (db_of s1) ∧ other_parts s1 = other_parts s).
  { destruct (client_start _ _ _) as [t|]; [|by injection Hone as <-]. destruct (t =? 0); [by injection Hone as <-|].
    apply on_db_ok in Hone as (d & Hd & ->). destruct (archive_client_history _ _ _ _) as [[d1 k]|] eqn:E; [|done]. apply Ok_inj in Hd as <-.
    split_and!; [by eapply archive_clean|by eapply archive_books|done]. }
  destruct H1 as (H1 & H2 & H3). destruct (IH s1 s' H H1) as (H4 & H5 & H6). split_and!; [done|by etrans|congruence].
Qed.

Record settled (guest_sub : string) (s : console) : Prop := Settled {
  se_clean : clean (db_of s);
  se_grouped : map_Forall (fun _ r => v_grp r ≠ None) (vpn_sessions (db_of s));
  se_events : Forall (fun e => connection_event e = false) (events (db_of s));
  se_marker : get_setting (db_of s) "migration:identities" = Some "1";
  se_access : migrate_guest_static_ips guest_sub (sv_access (co_server s)) = Ok (sv_access (co_server s), []);
}.

Lemma filter_none_connection l : Forall (fun e => connection_event e = false) l → List.filter (fun e => negb (connection_event e)) l = l.
Proof. induction 1 as [|e l He _ IH]; [done|]. cbn. by rewrite He, IH. Qed.

Lemma settled_migrate now guest_sub pubkey s : settled guest_sub s → migrate now guest_sub pubkey s = (Ok tt, s).
Proof.
  intros [H1 H2 H3 H4 H5]. unfold migrate. rewrite (bind_run _ _ s tt s) by (apply on_db_same; by rewrite clean_purged).
  rewrite (bind_run _ _ s tt s); cycle 1. { unfold on_access. rewrite H5. cbn. by destruct s as [[]]. }
  rewrite (bind_run _ _ s (Some "1") s) by (unfold read; by rewrite H4). rewrite bool_decide_eq_true_2 by done.
  rewrite (bind_run _ _ s tt s) by done. rewrite (bind_run _ _ s tt s) by (apply on_db_same; by rewrite group_sessions_none).
  apply on_db_same. unfold upd_events. rewrite filter_none_connection by done. by destruct (db_of s).
Qed.

Lemma filter_connection l : Forall (fun e => connection_event e = false) (List.filter (fun e => negb (connection_event e)) l).
Proof. induction l as [|e l IH]; [constructor|]. cbn. destruct (connection_event e) eqn:E; [exact IH|]. by constructor. Qed.
Lemma filter_forall {A} (P : A → Prop) f l : Forall P l → Forall P (List.filter f l).
Proof. induction 1 as [|x l Hx _ IH]; [constructor|]. cbn. destruct (f x); [by constructor|done]. Qed.

Lemma group_sessions_frame d : (group_sessions d).1 = upd_vpn (fun _ => vpn_sessions (group_sessions d).1) d.
Proof. apply (group_fold_same _ (∅, d)). Qed.

Lemma group_sessions_clean d : clean d → clean (group_sessions d).1.
Proof.
  intros [H1 H2 H3 H4 H5 H6]. rewrite group_sessions_frame. split; cbn; try done. intros k r Hr.
  apply group_sessions_rows in Hr as (_ & r0 & Hr0 & ->). by eapply H1.
Qed.

Lemma migrate_settles now guest_sub pubkey s s' : migrate now guest_sub pubkey s = (Ok tt, s') →
  settled guest_sub s' ∧ books_kept (purge_client "UNDEF" (db_of s)) (db_of s').
Proof.
  intros H. unfold migrate in H. apply bind_ok in H as ([] & s1 & H1 & H). apply on_db_ok in H1 as (d1 & <-%Ok_inj & ->).
  apply bind_ok in H as ([] & s2 & H2 & H). unfold on_access in H2. destruct (migrate_guest_static_ips _ _) as [[a moved]|] eqn:Ha; [|done].
  injection H2 as <-. apply guests_moved_once in Ha. apply bind_ok in H as (mark & s3 & [= <- <-] & H).
  pose proof (purge_clean (db_of s)) as Hc. set (s2 := set_server (set_access_dirs a _) _) in *. assert (Hd2 : purge_client "UNDEF" (db_of s) = db_of s2) by done.
  assert (Ha2 : sv_access (co_server s2) = a) by done. rewrite Hd2 in *. clearbody s2. clear Hd2.
  apply bind_ok in H as ([] & s3 & H3 & H).
  assert (Hmid : clean (db_of s3) ∧ books_kept (db_of s2) (db_of s3) ∧ get_setting (db_of s3) "migration:identities" = Some "1" ∧
                 sv_access (co_server s3) = a).
  { case_bool_decide as Hm; [by injection H3 as <-|]. apply bind_ok in H3 as (names & s4 & [= <- <-] & H3).
    apply bind_ok in H3 as ([] & s4 & H4 & H3). apply on_db_ok in H3 as (d4 & <-%Ok_inj & ->).
    destruct (archive_earlier_ok _ _ _ _ _ H4 Hc) as ([] & [] & Ho). split_and!; [by split|by split|cbn; apply lookup_insert_eq|].
    unfold other_parts in Ho. cbn. clear -Ho Ha2. destruct s2 as [[]], s4 as [[]]. cbn in *. congruence. }
  destruct Hmid as (Hc3 & Hb3 & Hm3 & Ha3). apply bind_ok in H as ([] & s4 & H4 & H). apply on_db_ok in H4 as (d4 & <-%Ok_inj & ->).
  apply on_db_ok in H as (d5 & <-%Ok_inj & ->). pose proof (group_sessions_clean _ Hc3) as [G1 G2 G3 G4 G5 G6].
  pose proof (group_sessions_books (db_of s3)) as [B1 B2 B3 B4 B5]. split.
  - split; cbn; [split; cbn; try done; by apply filter_forall| |apply filter_connection| |by rewrite Ha3].
    + intros k r Hr. by apply group_sessions_rows in Hr as [? _].
    + change (settings (group_sessions (db_of s3)).1 !! "migration:identities" = Some "1"). rewrite group_sessions_frame. exact Hm3.
  - etrans; [exact Hb3|]. by split.
Qed.

(** The one-time fixes are made once and lose nothing: after a start that got through them a later one
    changes nothing, the bytes of every traffic table and the session rows are those of before but for
    the handshakes recorded as a client, which are gone, and every session has its visit. *)
Theorem fixes_run_once now now' guest_sub pubkey pubkey' s s' :
  migrate now guest_sub pubkey s = (Ok tt, s') →
  migrate now' guest_sub pubkey' s' = (Ok tt, s') ∧ books_kept (purge_client "UNDEF" (db_of s)) (db_of s') ∧
  map_Forall (fun _ r => v_client_name r ≠ "UNDEF" ∧ v_grp r ≠ None) (vpn_sessions (db_of s')).
Proof.
  intros [Hs Hb]%migrate_settles. split_and!; [by apply settled_migrate|done|].
  destruct Hs as [[Hv _ _ _ _ _] Hg _ _ _]. intros k r Hr. split; [by eapply Hv|by eapply Hg].
Qed.

(** ** The public host of the environment *)

Lemma remote_host_plain fs remote : get_remote fs = Ok remote → strip remote.1 = remote.1.
Proof.
  unfold get_remote. rewrite read_client. cbn [mbind result_bind]. intros <-%Ok_inj. cbn [fst].
  destruct (re_findall_m rx_remote _) as [|m l] eqn:E; [done|]. assert (Hin : m ∈ m :: l) by left. rewrite <-E in Hin.
  apply findall_match in Hin as (prev & t & Hm). apply strip_none.
  destruct (matched_captured 1 (fun w => str_forall (fun c => negb (is_space c)) w = true) rx_remote prev t m) as [Hn|(w & Hw & Hp)]; [done| |done| |].
  - assert (Ht : takes (fun w => str_forall (fun c => negb (is_space c)) w = true) (plus rS)) by (intros st0 k x; apply rmatch_within; cbn; auto).
    by repeat split; try exact Ht.
  - unfold group. by rewrite Hn.
  - unfold group. by rewrite Hw.
Qed.

Section public_host.
Context (mkovpn : string → profile_dir → result string * profile_dir) (io_ok : bool).

Lemma save_remote_ok host s u s' : save_remote mkovpn io_ok host [] s = (Ok u, s') → set_remote host [] io_ok (co_files s) = Ok (co_files s').
Proof.
  unfold save_remote. intros ([] & s1 & H1 & H)%bind_ok. unfold on_files in H1. destruct (set_remote _ _ _ _) as [fs|]; [|done]. injection H1 as <-.
  apply bind_ok in H as (failed & s2 & H2 & H). injection H as _ <-. unfold regenerate, on_profiles in H2.
  destruct (regenerate_profiles _ _). by injection H2 as _ <-.
Qed.

Lemma in_step s : sync_remotes io_ok (co_files s) = Ok (co_files s, false) → follow_protocols mkovpn io_ok s = (Ok false, s).
Proof.
  unfold sync_remotes. destruct (get_remote _) as [remote|] eqn:Hr; [|done]. cbn [mbind result_bind].
  destruct (server_listen _) as [listen|] eqn:Hl; [|done]. cbn [mbind result_bind]. intros H. unfold follow_protocols.
  rewrite (bind_run _ _ s remote s) by (unfold read; by rewrite Hr). rewrite (bind_run _ _ s listen s) by (unfold read; by rewrite Hl).
  destruct (_ || _ : bool); [done|]. by destruct (set_remote _ _ _ _).
Qed.

Lemma follow_protocols_ok s b s' remote : get_remote (co_files s) = Ok remote → no_bare_remote (co_files s) → follow_protocols mkovpn io_ok s = (Ok b, s') →
  follow_protocols mkovpn io_ok s' = (Ok false, s') ∧ ∃ remotes, get_remote (co_files s') = Ok (remote.1, remotes).
Proof.
  intros Hr Hbare H. pose proof H as H0. unfold follow_protocols in H. apply bind_ok in H as (r & s1 & H1 & H).
  unfold read in H1. apply pair_equal_spec in H1 as [H1 <-]. assert (r = remote) as -> by congruence.
  apply bind_ok in H as (listen & s1 & H2 & H). unfold read in H2. apply pair_equal_spec in H2 as [H2 <-]. destruct (_ || _ : bool) eqn:Hc.
  - injection H as <- <-. split; [done|]. exists remote.2. by destruct remote.
  - apply bind_ok in H as ([] & s1 & Hs & H). injection H as _ <-. apply save_remote_ok in Hs.
    destruct (set_remote_read_back _ _ _ _ _ Hs Hbare) as (l & remotes & _ & _ & Hg & _ & _ & _ & Hsync).
    split; [by apply in_step|]. exists remotes. etrans; [exact Hg|]. do 2 f_equal. by eapply remote_host_plain.
Qed.
End public_host.

(** The host of the environment is applied when it is new, and when the template is back at its
    placeholder; the host an administrator chose since then is kept by later starts.  A start with the
    same environment right after changes nothing any more. *)
Theorem environment_host_once mkovpn io_ok st s s' remote :
  strip (us_public_host st) = us_public_host st → get_remote (co_files s) = Ok remote → no_bare_remote (co_files s) →
  public_host mkovpn io_ok st s = (Ok tt, s') →
  let host := us_public_host st in
  let applied := negb (empty host) && (placeholder remote.1 || bool_decide (get_setting (db_of s) "remote_from_env" ≠ Some host)) in
  (∃ remotes, get_remote (co_files s') = Ok (if applied then host else remote.1, remotes)) ∧
  get_setting (db_of s') "remote_from_env" = (if applied then Some host else get_setting (db_of s) "remote_from_env") ∧
  (host = "" ∨ placeholder host = false → public_host mkovpn io_ok st s' = (Ok tt, s')).
Proof.
  intros Hst Hr Hbare H host applied. unfold public_host in H. apply bind_ok in H as (r & s1 & H1 & H).
  unfold read in H1. apply pair_equal_spec in H1 as [H1 <-]. assert (r = remote) as -> by congruence. apply bind_ok in H as (e & s1 & H2 & H).
  unfold read in H2. apply pair_equal_spec in H2 as [<-%Ok_inj <-]. fold host applied in H. destruct applied eqn:Happ.
  - apply bind_ok in H as ([] & s1 & Hs & H). apply on_db_ok in H as (d & <-%Ok_inj & ->). apply save_remote_ok in Hs. fold host in Hs, Hst.
    destruct (set_remote_read_back _ _ _ _ _ Hs Hbare) as (l & remotes & _ & _ & Hg & _ & _ & _ & Hsync). rewrite Hst in Hg.
    set (s2 := set_server _ s1). assert (Hset : get_setting (db_of s2) "remote_from_env" = Some host) by apply lookup_insert_eq.
    split; [eauto|]. split; [done|]. intros Hh. unfold public_host. fold host. rewrite (bind_run _ _ s2 (host, remotes) s2) by (unfold read; by rewrite <-Hg).
    rewrite (bind_run _ _ s2 (Some host) s2) by (unfold read; by rewrite Hset). rewrite bool_decide_eq_false_2 by (intros ?; done).
    assert (Hc : negb (empty host) && (placeholder (host, remotes).1 || false) = false).
    { destruct Hh as [->|Hh]; [done|]. cbn [fst]. by rewrite Hh, andb_false_r. }
    rewrite Hc. rewrite (bind_run _ _ s2 false s2); [done|]. by apply in_step.
  - apply bind_ok in H as (b & s1 & Hs & H). injection H as <-. pose proof (follow_protocols_db mkovpn io_ok s) as Hd. rewrite Hs in Hd. cbn [snd] in Hd.
    destruct (follow_protocols_ok mkovpn io_ok _ _ _ _ Hr Hbare Hs) as (Hidle & remotes & Hg). split; [eauto|]. split; [by rewrite Hd|]. intros _.
    unfold public_host. fold host. rewrite (bind_run _ _ s1 (remote.1, remotes) s1) by (unfold read; by rewrite <-Hg).
    rewrite (bind_run _ _ s1 (get_setting (db_of s) "remote_from_env") s1) by (unfold read; by rewrite Hd). cbn [fst].
    change (negb (empty host) && (placeholder remote.1 || _)) with applied. rewrite Happ. by rewrite (bind_run _ _ s1 false s1).
Qed.

(** ** Witnesses *)

(** A database of an early release: a handshake recorded as a client, two connections of one visit,
    and no account. *)
Definition early_session (name : string) (from until : Z) : vpn_session :=
  VpnSession name None (Some "192.0.2.7:5000") None None None from until (Some until) 10 20 None None None None None.
Definition early_db : database :=
  add_event 5 "vpn_connect" (Some "alice") None None (add_traffic 60 "UNDEF" 1 2 (add_traffic 60 "alice" 10 20
    (upd_vpn (fun _ => {[1 := early_session "alice" 100 200; 2 := early_session "UNDEF" 150 151; 3 := early_session "alice" 210 300]}) empty_db))).
Definition early_console : console :=
  Console (Server early_db (RelayDb (RelayConfig true "https://relay" "http2") None ∅) dir_valid (Access {["guest" := "10.8.2.9"]} ∅) Lifecycle.quiet_mgmt)
    console_files demo_dir (Crl false None None 0) ∅.
Definition demo_environment (name : string) : option string := if String.eqb name "OVPN_PUBLIC_HOST" then Some " vpn.example.com " else None.
Definition start_settings : result ui_settings := settings_of demo_environment.
Definition no_pubkey (d n : string) : string := "".

Definition early_fixed : result unit * console := migrate 1500 "10.8.2.0/24" no_pubkey early_console.

Lemma fixes_run_once_witness :
  ∃ s', early_fixed = (Ok tt, s') ∧ migrate 9000 "10.8.2.0/24" no_pubkey s' = (Ok tt, s') ∧
    books_kept (purge_client "UNDEF" early_db) (db_of s') ∧ (v_grp <$> vpn_sessions (db_of s')) = {[1 := Some 1; 3 := Some 1]}.
Proof.
  assert (Hok : early_fixed.1 = Ok tt) by (vm_compute; reflexivity).
  assert (Hgrp : (v_grp <$> vpn_sessions (db_of early_fixed.2)) = {[1 := Some 1; 3 := Some 1]}) by (vm_compute; reflexivity).
  destruct early_fixed as [r s'] eqn:Hrun. cbn [fst snd] in Hok, Hgrp. subst r. exists s'.
  destruct (fixes_run_once 1500 9000 "10.8.2.0/24" no_pubkey no_pubkey early_console s' Hrun) as (H1 & H2 & _).
  split; [reflexivity|]. split; [exact H1|]. split; [exact H2|exact Hgrp].
Defined.

Definition first_start (st : ui_settings) : result unit * console :=
  bootstrap 1500 "10.8.2.0/24" no_pubkey demo_mkovpn toy_scrypt "0123456789abcdef" "hunter22" true st false early_console.

Lemma start_keeps_accounts_witness :
  ∃ st s' u, start_settings = Ok st ∧ first_start st = (Ok tt, s') ∧ users (db_of s') = {[1 := u]} ∧ u_username u = "admin" ∧
    verify_password toy_scrypt "hunter22" (u_password_hash u) = true.
Proof.
  destruct start_settings as [st|] eqn:Hst; [|vm_compute in Hst; discriminate Hst]. exists st.
  assert (Hok : (fun st => (first_start st).1) <$> start_settings = Ok (Ok tt)) by (vm_compute; reflexivity).
  rewrite Hst in Hok. apply Ok_inj in Hok. cbn in Hok. destruct (first_start st) as [r s'] eqn:Hrun. cbn [fst] in Hok. subst r.
  assert (Hadm : (fun st => (us_admin_username st, us_admin_password st)) <$> start_settings = Ok ("admin", "")) by (vm_compute; reflexivity).
  rewrite Hst in Hadm. apply Ok_inj, pair_equal_spec in Hadm as [Hadm Hpw]. cbn beta in Hadm, Hpw.
  destruct (start_keeps_accounts 1500 "10.8.2.0/24" no_pubkey demo_mkovpn toy_scrypt "0123456789abcdef" "hunter22" true st false early_console (Ok tt) s')
    as (_ & _ & Hu & _); [|exact Hrun|].
  - intros pw s n r p k d. unfold toy_scrypt. destruct (Z.leb_spec 0 k); [|discriminate]. intros [= <-].
    unfold strlen. assert (Hrep : ∀ c m, String.length (str_repeat c m) = m) by (intros c m; induction m; simpl; auto). rewrite Hrep. lia.
  - destruct (Hu eq_refl eq_refl) as (u & H1 & H2 & _ & H3). rewrite Hadm in H2. rewrite Hpw in H3. exists s', u.
    split; [reflexivity|]. split; [reflexivity|]. split; [exact H1|]. split; [exact H2|exact H3].
Defined.

Definition host_start (st : ui_settings) : result unit * console := public_host demo_mkovpn true st early_console.

Lemma environment_host_once_witness :
  ∃ st s' remotes, start_settings = Ok st ∧ host_start st = (Ok tt, s') ∧ get_remote (co_files s') = Ok ("vpn.example.com", remotes) ∧
    public_host demo_mkovpn true st s' = (Ok tt, s').
Proof.
  destruct start_settings as [st|] eqn:Hst; [|vm_compute in Hst; discriminate Hst]. exists st.
  assert (Hh : us_public_host <$> start_settings = Ok "vpn.example.com") by (vm_compute; reflexivity).
  rewrite Hst in Hh. apply Ok_inj in Hh. cbn beta in Hh.
  assert (Hok : (fun st => (host_start st).1) <$> start_settings = Ok (Ok tt)) by (vm_compute; reflexivity).
  rewrite Hst in Hok. apply Ok_inj in Hok. cbn in Hok. destruct (host_start st) as [r s'] eqn:Hrun. cbn [fst] in Hok. subst r.
  destruct (environment_host_once demo_mkovpn true st early_console s' ("127.0.0.1", [("1194", "udp")])) as ((remotes & H1) & _ & H3).
  - by rewrite Hh.
  - vm_compute; reflexivity.
  - intros text Ht. assert (Hb : (forallb (fun l => negb (bare_remote l)) ∘ splitlines) <$> read_config "client" (co_files early_console) = Ok true) by (vm_compute; reflexivity).
    rewrite Ht in Hb. apply Ok_inj in Hb. cbn in Hb. rewrite forallb_forall in Hb. apply Forall_forall. intros l Hl. apply negb_true_iff, Hb, list_elem_of_In, Hl.
  - exact Hrun.
  - exists s', remotes. split; [reflexivity|]. split; [reflexivity|]. split; [|apply H3; right; by rewrite Hh]. rewrite H1, Hh. reflexivity.
Defined.

(** A start without accounts, portal access for a client, its sign-in, and the renewal and deletion of clients. *)
Definition demo_account_ops (st : ui_settings) : list account_op :=
  [OpStart 1500 "10.8.2.0/24" no_pubkey demo_mkovpn "0123456789abcdef" "hunter22" true st false;
   OpPortal 500 portal_pki "0123456789abcdef" "alice" "alice" "hunter22" "admin";
   OpLogin default_limiter demo_env portal_pki (demo_request [] None) "alice" "hunter22" [];
   OpRenew 1600 (fun _ p => Ok p) "alice" None "admin"; OpDelete 1700 (fun a => Ok a) "alice" "admin"].

Lemma accounts_stay_unique_witness :
  ∃ st, start_settings = Ok st ∧
    accounts_ok (db_of (foldl (fun s op => account_apply id toy_scrypt 43200 op s) early_console (demo_account_ops st))).
Proof.
  destruct start_settings as [st|] eqn:Hst; [|vm_compute in Hst; discriminate Hst]. exists st. split; [reflexivity|].
  apply (accounts_stay_unique id toy_scrypt 43200 (demo_account_ops st) early_console).
  assert (He : users (db_of early_console) = ∅) by (vm_compute; reflexivity). split; rewrite He; intros i.
  - intros u Hu. rewrite lookup_empty in Hu. discriminate Hu.
  - intros j u w Hu. rewrite lookup_empty in Hu. discriminate Hu.
  - intros j u w n Hu. rewrite lookup_empty in Hu. discriminate Hu.
Defined.
