(* ===== verification/Migration.v ===== *)
(** * The schema in PostgreSQL and the migration into it

    [Database.__init__] of [ui/app/db.py] on the tables of a server, the view of the relay's policy role,
    and [ui/app/migrate_db.py]: the one-time import of a legacy SQLite file, the restoration of a dump, and
    the choice between them.  Here a table is what the SQL sees, columns with their types, keys and rows of
    cells.  How psycopg and COPY turn a cell of SQLite into one of PostgreSQL, and [pg_restore], are
    arguments; sequences are not undone by a rollback, as PostgreSQL documents. *)

From S2P Require Import Prelude PyStr ConfigEdit.

Open Scope string_scope.
Open Scope list_scope.
Open Scope Z_scope.

(** ** Tables *)

Inductive cell_value := VNull | VInt (n : Z) | VText (s : string) | VOther (s : string).   (* REAL and BLOB of SQLite *)
Inductive column_type := Bigint | Text.
Inductive column_default := NoDefault | DefaultValue (v : cell_value) | Identity.
Record column := Column { co_name : string; co_type : column_type; co_not_null : bool; co_default : column_default }.
Abbreviation pg_row := (gmap string cell_value).
Record pg_table := PgTable { tb_columns : list column; tb_keys : list (list string); tb_rows : list pg_row }.
(** [so_next]: the next value of the sequence of a table, 1 at first. *)
Record store := Store { so_tables : gmap string pg_table; so_next : gmap string Z }.

#[export] Instance cell_value_eq_dec : EqDecision cell_value.
Proof. solve_decision. Defined.

Definition cell (r : pg_row) (c : string) : cell_value := default VNull (r !! c).
Definition column_names (tb : pg_table) : list string := co_name <$> tb_columns tb.
Definition with_rows (rows : list pg_row) (tb : pg_table) : pg_table := PgTable (tb_columns tb) (tb_keys tb) rows.

Definition col (name : string) (t : column_type) : column := Column name t false NoDefault.
Definition need (name : string) (t : column_type) : column := Column name t true NoDefault.
Definition dflt (name : string) (t : column_type) (v : cell_value) : column := Column name t true (DefaultValue v).
Definition ident : column := Column "id" Bigint true Identity.

Definition traffic_columns : list column :=
  [need "ts" Bigint; need "client_name" Text; dflt "bytes_in" Bigint (VInt 0); dflt "bytes_out" Bigint (VInt 0)].

(** [SCHEMA]: the columns of each table, and its primary key and UNIQUE columns. *)
Definition SCHEMA : list (string * (list column * list (list string))) :=
  [("users", ([ident; need "username" Text; need "password_hash" Text; need "created_at" Bigint; col "last_login" Bigint], [["id"]; ["username"]]));
   ("web_sessions", ([need "token_hash" Text; need "user_id" Bigint; need "created_at" Bigint; need "expires_at" Bigint; col "ip" Text; col "user_agent" Text],
      [["token_hash"]]));
   ("settings", ([need "key" Text; need "value" Text], [["key"]]));
   ("clients", ([need "name" Text; dflt "note" Text (VText ""); need "created_at" Bigint], [["name"]]));
   ("hidden_certs", ([need "serial" Text; col "name" Text; need "hidden_at" Bigint], [["serial"]]));
   ("vpn_sessions", ([ident; need "client_name" Text; col "cid" Bigint; col "real_address" Text; col "vpn_ip" Text; col "username" Text; col "cipher" Text;
      need "connected_at" Bigint; need "last_seen" Bigint; col "disconnected_at" Bigint; dflt "bytes_in" Bigint (VInt 0); dflt "bytes_out" Bigint (VInt 0);
      col "proto" Text; col "platform" Text; col "client_ver" Text; col "end_reason" Text; col "grp" Bigint], [["id"]]));
   ("relay_sessions", ([need "id" Text; need "grp" Text; need "client_name" Text; need "credential_id" Text; need "transport" Text; need "started_at" Bigint;
      need "last_seen" Bigint; need "sampled_at" Bigint; need "active" Bigint; need "accepted" Bigint; need "denied" Bigint; need "failed" Bigint;
      need "bytes_up" Bigint; need "bytes_down" Bigint; need "uncounted" Bigint], [["id"]]));
   ("traffic_minute", (traffic_columns, [["ts"; "client_name"]]));
   ("traffic_hour", (traffic_columns, [["ts"; "client_name"]]));
   ("traffic_day", (traffic_columns, [["ts"; "client_name"]]));
   ("events", ([ident; need "ts" Bigint; need "kind" Text; col "client_name" Text; col "actor" Text; col "detail" Text], [["id"]]));
   ("archived_clients", ([need "key" Text; need "name" Text; need "archived_at" Bigint], [["key"]]));
   ("rejections", ([need "day" Bigint; need "client_name" Text; need "reason" Text; need "address" Text; need "count" Bigint; need "last_ts" Bigint],
      [["day"; "client_name"; "reason"; "address"]]));
   ("share_tokens", ([need "token_hash" Text; need "client_name" Text; need "created_at" Bigint; need "expires_at" Bigint; col "used_at" Bigint;
      col "created_by" Text], [["token_hash"]]))].
Definition TABLES : list string := SCHEMA.*1.
Definition SESSION_COLUMNS : list column := [col "proto" Text; col "platform" Text; col "client_ver" Text; col "end_reason" Text; col "grp" Bigint].

(** ** [Database.__init__] *)

(** The values of a key, when none is null: nulls never conflict. *)
Definition key_values (key : list string) (r : pg_row) : option (list cell_value) :=
  let vs := cell r <$> key in if existsb (fun v => bool_decide (v = VNull)) vs then None else Some vs.
Definition same_key (key : list string) (r r' : pg_row) : bool :=
  match key_values key r with Some vs => bool_decide (key_values key r' = Some vs) | None => false end.
Fixpoint distinct (key : list string) (rows : list pg_row) : bool :=
  match rows with [] => true | r :: rows => negb (existsb (same_key key r) rows) && distinct key rows end.

Definition create_table (d : string * (list column * list (list string))) (s : store) : store :=
  match so_tables s !! d.1 with
  | Some _ => s
  | None => Store (<[d.1 := PgTable d.2.1 d.2.2 []]> (so_tables s)) (so_next s)
  end.
Definition add_column_to (c : column) (tb : pg_table) : pg_table :=
  if existsb (String.eqb (co_name c)) (column_names tb) then tb else PgTable (tb_columns tb ++ [c]) (tb_keys tb) (tb_rows tb).
Definition add_column (table : string) (c : column) (s : store) : store := Store (alter (add_column_to c) table (so_tables s)) (so_next s).
(** [CREATE UNIQUE INDEX IF NOT EXISTS]. *)
Definition unique_index (table : string) (key : list string) (s : store) : result store :=
  match so_tables s !! table with
  | None => Raise (DatabaseError "relation does not exist")
  | Some tb =>
      if bool_decide (key ∈ tb_keys tb) then Ok s
      else if distinct key (tb_rows tb) then Ok (Store (<[table := PgTable (tb_columns tb) (tb_keys tb ++ [key]) (tb_rows tb)]> (so_tables s)) (so_next s))
      else Raise (DatabaseError "could not create unique index")
  end.

Definition open_database (s : store) : result store :=
  let s := foldl (fun s d => create_table d s) s SCHEMA in
  let s := foldl (fun s c => add_column "vpn_sessions" c s) s SESSION_COLUMNS in
  let s := foldl (fun s c => add_column "users" (col c Text) s) s ["client_name"; "client_serial"] in
  unique_index "users" ["client_name"] s.

Definition rows_of (s : store) (table : string) : list pg_row := default [] (tb_rows <$> so_tables s !! table).

(** The view [relay_policy_settings], all the relay's policy role may read. *)
Definition relay_policy_settings (s : store) : list pg_row :=
  List.filter (fun r => match cell r "key" with VText k => String.eqb k "apple_relay" || startswith "relay_client:" k | _ => false end) (rows_of s "settings").

(** ** Settings *)

Definition pg_setting (s : store) (key : string) : option cell_value :=
  (fun r => cell r "value") <$> find (fun r => bool_decide (cell r "key" = VText key)) (rows_of s "settings").
Definition setting_row (key value : string) : pg_row := <["key" := VText key]> {["value" := VText value]}.
(** [INSERT ... ON CONFLICT (key) DO UPDATE]. *)
Fixpoint put_row (key value : string) (rows : list pg_row) : list pg_row :=
  match rows with
  | [] => [setting_row key value]
  | r :: rows => if bool_decide (cell r "key" = VText key) then <["value" := VText value]> r :: rows else r :: put_row key value rows
  end.
Definition pg_set_setting (key value : string) (s : store) : store :=
  Store (alter (fun tb => with_rows (put_row key value (tb_rows tb)) tb) "settings" (so_tables s)) (so_next s).

(** ** The import *)

Definition MARKER : string := "migration:legacy_sqlite".
Definition DUMP_MARKER : string := "migration:postgres_dump".

Definition empty_database (s : store) : bool := forallb (fun t => match rows_of s t with [] => true | _ => false end) TABLES.

Record legacy_table := LegacyTable { lt_columns : list string; lt_rows : list pg_row }.
(** The source in its read transaction: [PRAGMA quick_check], and the tables of [sqlite_master]. *)
Record legacy := Legacy { lg_intact : bool; lg_tables : gmap string legacy_table }.

Inductive report := AlreadyImported | Imported (counts : list (string * Z)) | Restored | FreshInstall.

Section import.
Context (copy_in : column_type → cell_value → option cell_value).

Definition next_of (s : store) (table : string) : Z := default 1 (so_next s !! table).

(** The cell of a new row: of the source for the columns that are copied, else the default. *)
Definition new_cell (columns : list string) (next : Z) (src : pg_row) (c : column) : option cell_value :=
  if existsb (String.eqb (co_name c)) columns then copy_in (co_type c) (cell src (co_name c))
  else Some (match co_default c with NoDefault => VNull | DefaultValue v => v | Identity => VInt next end).
Definition draws (columns : list string) (cols : list column) : bool :=
  existsb (fun c => negb (existsb (String.eqb (co_name c)) columns) && match co_default c with Identity => true | _ => false end) cols.
Fixpoint new_row (columns : list string) (next : Z) (src : pg_row) (cols : list column) : option pg_row :=
  match cols with
  | [] => Some ∅
  | c :: cols => v ← new_cell columns next src c; r ← new_row columns next src cols; Some (<[co_name c := v]> r)
  end.
Definition admissible (tb : pg_table) (rows : list pg_row) (r : pg_row) : bool :=
  forallb (fun c => negb (co_not_null c) || negb (bool_decide (cell r (co_name c) = VNull))) (tb_columns tb)
  && forallb (fun key => negb (existsb (same_key key r) rows)) (tb_keys tb).

(** COPY: the rows of the table afterwards, and the sequence, drawn from also when it fails. *)
Fixpoint copy_rows (columns : list string) (tb : pg_table) (next : Z) (rows src : list pg_row) : result (list pg_row) * Z :=
  match src with
  | [] => (Ok rows, next)
  | x :: src =>
      let next' := if draws columns (tb_columns tb) then next + 1 else next in
      match new_row columns next x (tb_columns tb) with
      | Some r => if admissible tb rows r then copy_rows columns tb next' (rows ++ [r]) src else (Raise (DatabaseError "constraint violated"), next')
      | None => (Raise (DatabaseError "invalid input"), next')
      end
  end.

(** The rows other sessions commit to a table while the transaction runs; they are counted, too. *)
Context (others : string → list pg_row).

Definition import_table (lt : legacy_table) (table : string) (s : store) : result Z * store :=
  match so_tables s !! table with
  | None => (Raise (DatabaseError "syntax error"), s)
  | Some tb =>
      let columns := List.filter (fun c => existsb (String.eqb c) (column_names tb)) (lt_columns lt) in
      match columns with
      | [] => (Raise (DatabaseError "syntax error"), s)
      | _ =>
          let '(r, next) := copy_rows columns tb (next_of s table) (tb_rows tb) (lt_rows lt) in
          let s := Store (so_tables s) (<[table := next]> (so_next s)) in
          match r with
          | Raise e => (Raise e, s)
          | Ok rows =>
              let count := Z.of_nat (length (lt_rows lt)) in
              let s := Store (<[table := with_rows rows tb]> (so_tables s)) (so_next s) in
              let actual := Z.of_nat (length rows + length (others table)) in
              (if actual =? count then Ok count else Raise ValueError, s)
          end
      end
  end.

Fixpoint import_tables (have : gmap string legacy_table) (tables : list string) (counts : list (string * Z)) (s : store)
    : result (list (string * Z)) * store :=
  match tables with
  | [] => (Ok counts, s)
  | table :: tables =>
      match have !! table with
      | None => import_tables have tables counts s
      | Some lt =>
          match import_table lt table s with
          | (Ok count, s) => import_tables have tables (counts ++ [(table, count)]) s
          | (Raise e, s) => (Raise e, s)
          end
      end
  end.

Definition row_ids (rows : list pg_row) : list Z := omap (fun r => match cell r "id" with VInt n => Some n | _ => None end) rows.
Definition max_id (ids : list Z) : option Z := match ids with [] => None | n :: ids => Some (foldr Z.max n ids) end.
(** [setval]: the next id is one above the highest, or 1. *)
Definition set_sequence (table : string) (s : store) : store :=
  let next := match max_id (row_ids (rows_of s table ++ others table)) with Some m => m + 1 | None => 1 end in
  Store (so_tables s) (<[table := next]> (so_next s)).
Definition SEQUENCES : list string := ["users"; "vpn_sessions"; "events"].

(** [json.dumps]. *)
Definition count_json (c : string * Z) : string := String dquote c.1 +:+ String dquote ": " +:+ str_of_int c.2.
Definition marker_json (counts : list (string * Z)) : string :=
  "{" +:+ String dquote "tables" +:+ String dquote ": {" +:+ join ", " (count_json <$> counts) +:+ "}, " +:+ String dquote "verified" +:+ String dquote ": true}".

(** What other sessions committed, next to what is in the tables. *)
Definition with_others (s : store) : store :=
  Store (map_imap (fun t tb => Some (with_rows (tb_rows tb ++ others t) tb)) (so_tables s)) (so_next s).

(** The end of a transaction: committed; rolled back, with the exception that the caller gets; or
    committed, with an answer that is lost. *)
Inductive commit_end := Committed | RolledBack (e : exn) | LostAfter (e : exn).
(** Those of the migration: of the schema, of the import, of the transaction that [pg_restore] runs and of
    the setting that marks a restoration. *)
Record ends := Ends { en_schema : commit_end; en_import : commit_end; en_restore : commit_end; en_marker : commit_end }.
Definition all_committed : ends := Ends Committed Committed Committed Committed.
Context (f : ends).

(** The transaction: it is rolled back when it raises, but for the sequences. *)
Definition import_tx (source : legacy) (s : store) : result report * store :=
  if bool_decide (pg_setting s MARKER ≠ None) then (Ok AlreadyImported, with_others s)
  else if negb (empty_database s) then (Raise ValueError, with_others s)
  else
    match import_tables (lg_tables source) TABLES [] s with
    | (Raise e, s') => (Raise e, with_others (Store (so_tables s) (so_next s')))
    | (Ok counts, s') =>
        let s' := foldl (fun s t => set_sequence t s) s' SEQUENCES in
        let imported := with_others (pg_set_setting MARKER (marker_json counts) s') in
        match en_import f with
        | Committed => (Ok (Imported counts), imported)
        | RolledBack e => (Raise e, with_others (Store (so_tables s) (so_next s')))
        | LostAfter e => (Raise e, imported)
        end
    end.

(** [meanwhile]: what other sessions commit before the lock is taken. *)
Definition import_sqlite (source : result legacy) (meanwhile : store → store) (s : store) : result report * store :=
  if bool_decide (pg_setting s MARKER ≠ None) then (Ok AlreadyImported, s)
  else if negb (empty_database s) then (Raise ValueError, s)
  else
    match source with
    | Raise e => (Raise e, s)
    | Ok source =>
        if negb (lg_intact source) then (Raise ValueError, s)
        else if bool_decide (lg_tables source !! "vpn_sessions" = None) then (Raise ValueError, s)
        else import_tx source (meanwhile s)
    end.

(** [pg_restore] fills the tables or fails without a change ([--single-transaction]), or with one when the
    answer of its transaction is lost; the marker is set afterwards, in a transaction of its own. *)
Definition restore_dump (pg_restore : store → result store) (s : store) : result report * store :=
  if negb (empty_database s) then
    (if bool_decide (pg_setting s DUMP_MARKER ≠ None) then Ok AlreadyImported else Raise ValueError, s)
  else
    match pg_restore s, en_restore f with
    | Raise e, _ | Ok _, RolledBack e => (Raise e, s)
    | Ok s, LostAfter e => (Raise e, s)
    | Ok s, Committed =>
        match en_marker f with
        | Committed => (Ok Restored, pg_set_setting DUMP_MARKER "1" s)
        | RolledBack e => (Raise e, s)
        | LostAfter e => (Raise e, pg_set_setting DUMP_MARKER "1" s)
        end
    end.

(** [main] with the action import: [given] is the file of --source, [dump] and [legacy_file] those of the
    configuration directory when they exist; the exit status and the report. *)
Definition caught_by_main (e : exn) : bool :=
  match e with OSError | ValueError | SqliteError | DatabaseError _ | SubprocessError => true | _ => false end.
Definition exit_of (r : result report) : result (Z * option report) :=
  match r with
  | Ok report => Ok (0, Some report)
  | Raise e => if caught_by_main e then Ok (1, None) else Raise e
  end.
Definition migrate_main (given : option (result legacy)) (dump : option (store → result store)) (legacy_file : option (result legacy))
    (meanwhile : store → store) (s : store) : result (Z * option report) * store :=
  let '(r, s') :=
    match open_database s, en_schema f with
    | Raise e, _ | Ok _, RolledBack e => (Raise e, s)
    | Ok s, LostAfter e => (Raise e, s)
    | Ok s, Committed =>
        match given, dump, legacy_file with
        | Some source, _, _ => import_sqlite source meanwhile s
        | None, Some pg_restore, _ => restore_dump pg_restore s
        | None, None, Some source => import_sqlite source meanwhile s
        | None, None, None => (Ok FreshInstall, s)
        end
    end in
  (exit_of r, s').
End import.

(** ** What opening a database does *)

(** Every table of the schema is there, with each column once. *)
Definition ready (s : store) : Prop := ∀ t, t ∈ TABLES → ∃ tb, so_tables s !! t = Some tb ∧ NoDup (column_names tb).
Definition columns_once (s : store) : Prop := map_Forall (fun _ tb => NoDup (column_names tb)) (so_tables s).

Lemma existsb_name n l : existsb (String.eqb n) l = true ↔ n ∈ l.
Proof. rewrite existsb_exists. setoid_rewrite String.eqb_eq. rewrite list_elem_of_In. split; [by intros (x & Hx & ->)|eauto]. Qed.
Lemma existsb_name_false n l : existsb (String.eqb n) l = false ↔ n ∉ l.
Proof. rewrite <-existsb_name. by destruct (existsb _ _). Qed.
Lemma TABLES_nodup : NoDup TABLES.
Proof. apply (bool_decide_unpack _). by vm_compute. Qed.

(** A change of the store that keeps the rows, and columns that were there. *)
Record keeps (s s' : store) : Prop := Keeps {
  ke_rows : ∀ t, rows_of s' t = rows_of s t;
  ke_tables : ∀ t tb, so_tables s !! t = Some tb → ∃ tb', so_tables s' !! t = Some tb' ∧ column_names tb ⊆ column_names tb' ∧ tb_keys tb ⊆ tb_keys tb';
  ke_once : columns_once s → columns_once s';
  ke_next : so_next s' = so_next s;
}.
#[export] Instance keeps_preorder : PreOrder keeps.
Proof.
  split; [by split; eauto|]. intros s1 s2 s3 [H1 H2 H3 H4] [K1 K2 K3 K4]. split; [intros t; by rewrite K1| |auto|congruence].
  intros t tb Ht. destruct (H2 t tb Ht) as (tb1 & Ht1 & Hc1 & Hk1). destruct (K2 t tb1 Ht1) as (tb2 & Ht2 & Hc2 & Hk2). exists tb2. split_and!; [done|by etrans..].
Qed.

Lemma keeps_foldl {A} (f : store → A → store) l : (∀ s x, x ∈ l → keeps s (f s x)) → ∀ s, keeps s (foldl f s l).
Proof. induction l as [|x l IH]; intros Hf s; cbn [foldl]; [done|]. etrans; [apply Hf; left|]. apply IH. intros s' y Hy. apply Hf. by right. Qed.

Lemma create_keeps d s : NoDup (co_name <$> d.2.1) → keeps s (create_table d s).
Proof.
  intros Hd. unfold create_table. destruct (so_tables s !! d.1) eqn:E; [done|]. split; cbn [so_tables so_next]; [| | |done].
  - intros t. unfold rows_of. cbn [so_tables]. destruct (decide (t = d.1)) as [->|]; [by rewrite lookup_insert_eq, E|by rewrite lookup_insert_ne].
  - intros t tb Ht. exists tb. rewrite lookup_insert_ne by congruence. done.
  - intros Ho. by apply map_Forall_insert_2.
Qed.
Lemma add_column_keeps t c s : keeps s (add_column t c s).
Proof.
  unfold add_column. split; cbn [so_tables so_next]; [| | |done].
  - intros u. unfold rows_of. cbn [so_tables]. destruct (decide (u = t)) as [->|]; [|by rewrite lookup_alter_ne]. rewrite lookup_alter_eq.
    destruct (so_tables s !! t) as [tb|]; [|done]. cbn. unfold add_column_to. by destruct (existsb _ _).
  - intros u tb Hu. destruct (decide (u = t)) as [->|]; [|rewrite lookup_alter_ne by done; by eauto]. rewrite lookup_alter_eq, Hu. eexists. split; [done|].
    unfold add_column_to, column_names. destruct (existsb _ _); [done|]. cbn [tb_columns tb_keys]. split; [|done]. rewrite fmap_app. set_solver.
  - unfold columns_once. cbn [so_tables]. intros Ho u tb. destruct (decide (u = t)) as [->|]; [|rewrite lookup_alter_ne by done; by apply Ho]. rewrite lookup_alter_eq.
    intros (tb0 & Ht & ->)%fmap_Some. specialize (Ho _ _ Ht). unfold add_column_to, column_names in *. destruct (existsb _ _) eqn:E; [done|].
    apply existsb_name_false in E. cbn [tb_columns]. rewrite fmap_app. apply NoDup_app. split_and!; [done| |by apply NoDup_singleton].
    intros x Hx ->%list_elem_of_singleton. done.
Qed.
Lemma unique_keeps t key s s' : unique_index t key s = Ok s' → keeps s s'.
Proof.
  unfold unique_index. destruct (so_tables s !! t) as [tb|] eqn:E; [|done]. case_bool_decide; [by intros <-%Ok_inj|].
  destruct (distinct _ _); [|done]. intros <-%Ok_inj. split; cbn [so_tables so_next]; [| | |done].
  - intros u. unfold rows_of. cbn [so_tables]. destruct (decide (u = t)) as [->|]; [by rewrite lookup_insert_eq, E|by rewrite lookup_insert_ne].
  - intros u tb0 Hu. destruct (decide (u = t)) as [->|]; [rewrite lookup_insert_eq|rewrite lookup_insert_ne by done; by eauto].
    assert (tb0 = tb) as -> by congruence. eexists. split; [done|]. cbn [tb_columns tb_keys]. split; [done|]. set_solver.
  - intros Ho. apply map_Forall_insert_2; [|done]. exact (Ho _ _ E).
Qed.

Lemma created l : ∀ s t, t ∈ l.*1 → ∃ tb, so_tables (foldl (fun s d => create_table d s) s l) !! t = Some tb.
Proof.
  induction l as [|d l IH]; intros s t; [by intros ?%not_elem_of_nil|]. cbn [foldl fmap list_fmap]. intros [->|Hin]%elem_of_cons; [|by apply IH].
  assert (Hc : ∃ tb, so_tables (create_table d s) !! d.1 = Some tb).
  { unfold create_table. destruct (so_tables s !! d.1) eqn:E; [eauto|]. cbn. rewrite lookup_insert_eq. eauto. }
  clear IH. revert s Hc. generalize (create_table d). intros f s. generalize (f s). clear. induction l as [|e l IH]; intros s Hc; [done|]. cbn [foldl]. apply IH.
  destruct Hc as [tb Hc]. unfold create_table. destruct (so_tables s !! e.1) eqn:E; [eauto|]. cbn. rewrite lookup_insert_ne by congruence. eauto.
Qed.

Lemma open_database_ready s s' : columns_once s → open_database s = Ok s' → keeps s s' ∧ ready s'.
Proof.
  intros Ho. unfold open_database. set (s1 := foldl _ s SCHEMA). set (s2 := foldl _ s1 _). set (s3 := foldl _ s2 _). intros H.
  assert (H1 : keeps s s1).
  { apply keeps_foldl. intros s0 d Hd. apply create_keeps. assert (Hn : Forall (fun d => NoDup (co_name <$> d.2.1)) SCHEMA).
    { apply (bool_decide_unpack _). by vm_compute. }
    rewrite Forall_forall in Hn. by apply Hn. }
  assert (H2 : keeps s1 s').
  { transitivity s2; [unfold s2; apply keeps_foldl; intros; apply add_column_keeps|].
    transitivity s3; [unfold s3; apply keeps_foldl; intros; apply add_column_keeps|by eapply unique_keeps]. }
  split; [by etrans|]. intros t Ht. destruct (created SCHEMA s t Ht) as [tb Htb]. fold s1 in Htb. destruct (ke_tables _ _ H2 _ _ Htb) as (tb' & Ht' & _).
  exists tb'. split; [done|]. by apply (ke_once _ _ H2 (ke_once _ _ H1 Ho)) in Ht'.
Qed.

(** Opening again finds everything in place. *)
Definition has_column (s : store) (t c : string) : Prop := ∃ tb, so_tables s !! t = Some tb ∧ c ∈ column_names tb.

Lemma has_column_keeps s s' t c : keeps s s' → has_column s t c → has_column s' t c.
Proof. intros Hk (tb & Ht & Hc). destruct (ke_tables _ _ Hk _ _ Ht) as (tb' & Ht' & Hs & _). exists tb'. set_solver. Qed.
Lemma add_column_same s t c : has_column s t (co_name c) → add_column t c s = s.
Proof.
  intros (tb & Ht & Hc). unfold add_column. destruct s as [ts nx]. cbn [so_tables so_next] in *. f_equal. rewrite <-(insert_id ts t tb Ht) at 2.
  apply map_eq. intros u. destruct (decide (u = t)) as [->|]; [|by rewrite lookup_alter_ne, lookup_insert_ne]. rewrite lookup_alter_eq, lookup_insert_eq, Ht.
  cbn. unfold add_column_to. apply existsb_name in Hc. by rewrite Hc.
Qed.
Lemma added_columns {A} (f : A → column) t l : ∀ s, (∃ tb, so_tables s !! t = Some tb) → ∀ x, x ∈ l → has_column (foldl (fun s x => add_column t (f x) s) s l) t (co_name (f x)).
Proof.
  induction l as [|y l IH]; intros s [tb Ht] x; [by intros ?%not_elem_of_nil|]. cbn [foldl]. intros [->|Hx]%elem_of_cons.
  - apply (has_column_keeps (add_column t (f y) s)); [apply keeps_foldl; intros; apply add_column_keeps|].
    exists (add_column_to (f y) tb). split; [cbn; by rewrite lookup_alter_eq, Ht|]. unfold add_column_to. destruct (existsb _ _) eqn:E; [by apply existsb_name|].
    unfold column_names. cbn [tb_columns]. rewrite fmap_app. set_solver.
  - apply IH; [|done]. destruct (ke_tables _ _ (add_column_keeps t (f y) s) _ _ Ht) as (tb' & Ht' & _). eauto.
Qed.
Lemma foldl_same {A} (f : store → A → store) l s : (∀ x, x ∈ l → f s x = s) → foldl f s l = s.
Proof. induction l as [|x l IH]; intros Hf; [done|]. cbn [foldl]. rewrite Hf by left. apply IH. intros y Hy. apply Hf. by right. Qed.

Lemma create_same s d : (∃ tb, so_tables s !! d.1 = Some tb) → create_table d s = s.
Proof. intros [tb Ht]. unfold create_table. by rewrite Ht. Qed.
Lemma unique_same s tb t key : so_tables s !! t = Some tb → key ∈ tb_keys tb → unique_index t key s = Ok s.
Proof. intros Ht Hk. unfold unique_index. rewrite Ht. by rewrite bool_decide_eq_true_2. Qed.
Lemma unique_made s s' t key : unique_index t key s = Ok s' → ∃ tb, so_tables s' !! t = Some tb ∧ key ∈ tb_keys tb.
Proof.
  unfold unique_index. destruct (so_tables s !! t) as [tb|] eqn:E; [|done]. case_bool_decide as Hin; [intros <-%Ok_inj; eauto|].
  destruct (distinct _ _); [|done]. intros <-%Ok_inj. eexists. split; [apply lookup_insert_eq|]. apply elem_of_app. right. left.
Qed.

Lemma in_place s : (∀ t, t ∈ TABLES → ∃ tb, so_tables s !! t = Some tb) → (∀ c, c ∈ SESSION_COLUMNS → has_column s "vpn_sessions" (co_name c)) →
  (∀ c, c ∈ ["client_name"; "client_serial"] → has_column s "users" c) → (∃ tb, so_tables s !! "users" = Some tb ∧ ["client_name"] ∈ tb_keys tb) →
  open_database s = Ok s.
Proof.
  intros Ht Hv Hu (tb & Hus & Hk). unfold open_database.
  rewrite (foldl_same (fun s d => create_table d s) SCHEMA s) by (intros d Hd; apply create_same, Ht; by apply (list_elem_of_fmap_2 fst)).
  rewrite (foldl_same (fun s c => add_column "vpn_sessions" c s) SESSION_COLUMNS s) by (intros c Hc; by apply add_column_same, Hv).
  rewrite (foldl_same (fun s c => add_column "users" (col c Text) s) ["client_name"; "client_serial"] s) by (intros c Hc; by apply add_column_same, Hu).
  by eapply unique_same.
Qed.

Lemma tables_named : "users" ∈ TABLES ∧ "vpn_sessions" ∈ TABLES.
Proof. split; apply (bool_decide_unpack _); by vm_compute. Qed.

Lemma open_database_again s s' : open_database s = Ok s' → open_database s' = Ok s'.
Proof.
  unfold open_database at 1. pose proof (created SCHEMA s) as Hall. revert Hall. generalize (foldl (fun s d => create_table d s) s SCHEMA). intros s1 Hall.
  pose proof (added_columns id "vpn_sessions" SESSION_COLUMNS s1 (Hall _ (proj2 tables_named))) as Hv.
  assert (Hk2 : keeps s1 (foldl (fun s c => add_column "vpn_sessions" c s) s1 SESSION_COLUMNS)) by (apply keeps_foldl; intros; apply add_column_keeps).
  revert Hv Hk2. unfold id. generalize (foldl (fun s c => add_column "vpn_sessions" c s) s1 SESSION_COLUMNS). intros s2 Hv Hk2.
  assert (Hus : ∃ tb, so_tables s2 !! "users" = Some tb).
  { destruct (Hall _ (proj1 tables_named)) as [tb Htb]. destruct (ke_tables _ _ Hk2 _ _ Htb) as (tb' & ? & _). eauto. }
  pose proof (added_columns (fun c => col c Text) "users" ["client_name"; "client_serial"] s2 Hus) as Hu. cbn beta in Hu.
  assert (Hk3 : keeps s2 (foldl (fun s c => add_column "users" (col c Text) s) s2 ["client_name"; "client_serial"])) by (apply keeps_foldl; intros; apply add_column_keeps).
  revert Hu Hk3. generalize (foldl (fun s c => add_column "users" (col c Text) s) s2 ["client_name"; "client_serial"]). intros s3 Hu Hk3 H.
  pose proof (unique_keeps _ _ _ _ H) as Hk. assert (Hk13 : keeps s2 s') by (by etrans). apply in_place.
  - intros t Ht. destruct (Hall t Ht) as [tb Htb]. destruct (ke_tables s1 s' ltac:(by etrans) _ _ Htb) as (tb' & ? & _). eauto.
  - intros c Hc. by apply (has_column_keeps s2), Hv.
  - intros c Hc. by apply (has_column_keeps s3), Hu.
  - by eapply unique_made.
Qed.

(** An existing database gets the tables and columns it lacks and keeps its rows and sequences; after that
    every table of the schema is there, and opening it again changes nothing.  It is refused only where
    two accounts share a client. *)
Theorem open_database_upgrades s s' : columns_once s → open_database s = Ok s' →
  ready s' ∧ (∀ t, rows_of s' t = rows_of s t) ∧ so_next s' = so_next s ∧ open_database s' = Ok s'.
Proof. intros Ho H. destruct (open_database_ready s s' Ho H) as [Hk Hr]. split_and!; [done|apply Hk|apply Hk|by eapply open_database_again]. Qed.

(** ** What the import copies *)

Definition key_distinct (key : list string) (rows : list pg_row) : Prop :=
  ∀ i j r r', rows !! i = Some r → rows !! j = Some r' → same_key key r r' = true → i = j.
(** The constraints of a table. *)
Definition conforms (tb : pg_table) (rows : list pg_row) : Prop :=
  Forall (fun r => ∀ c, c ∈ tb_columns tb → co_not_null c = true → cell r (co_name c) ≠ VNull) rows ∧
  (∀ key, key ∈ tb_keys tb → key_distinct key rows).

Lemma same_key_sym key r r' : same_key key r r' = true → same_key key r' r = true.
Proof.
  unfold same_key. destruct (key_values key r) as [vs|] eqn:E; [|done]. intros H%bool_decide_eq_true_1. rewrite H. by apply bool_decide_eq_true_2.
Qed.

Lemma conforms_snoc tb rows r : conforms tb rows → admissible tb rows r = true → conforms tb (rows ++ [r]).
Proof.
  intros [Hn Hk] [Ha Hb]%andb_true_iff. rewrite forallb_forall in Ha, Hb. split.
  - apply Forall_app. split; [done|]. apply Forall_singleton. intros c Hc Hnn Hv. apply list_elem_of_In, Ha in Hc. rewrite Hnn, Hv in Hc.
    by rewrite bool_decide_eq_true_2 in Hc.
  - intros key Hkey. specialize (Hk key Hkey). apply list_elem_of_In, Hb, negb_true_iff in Hkey.
    assert (Hno : ∀ i x, rows !! i = Some x → same_key key r x = false).
    { intros i x Hx. destruct (same_key key r x) eqn:E; [|done]. rewrite <-Hkey. symmetry. apply existsb_exists. exists x. split; [|done].
      by eapply list_elem_of_In, list_elem_of_lookup_2. }
    intros i j x y Hx Hy Hs. apply lookup_snoc_Some in Hx as [[Hi Hx]|[-> ->]], Hy as [[Hj Hy]|[-> ->]]; [by eapply Hk| | |done].
    + apply same_key_sym in Hs. by rewrite (Hno i) in Hs.
    + by rewrite (Hno j) in Hs.
Qed.

Lemma conforms_nil tb : conforms tb [].
Proof. split; [constructor|]. by intros key _ i j r r' ?. Qed.

Section copied.
Context (copy_in : column_type → cell_value → option cell_value).

Definition copied (columns : list string) (tb : pg_table) (src r : pg_row) : Prop :=
  ∀ c, c ∈ tb_columns tb → co_name c ∈ columns → copy_in (co_type c) (cell src (co_name c)) = Some (cell r (co_name c)).

Lemma new_row_cells columns next src cols : NoDup (co_name <$> cols) → ∀ r, new_row copy_in columns next src cols = Some r →
  ∀ c, c ∈ cols → new_cell copy_in columns next src c = Some (cell r (co_name c)).
Proof.
  induction cols as [|c cols IH]; intros Hnd r Hr x; [by intros ?%not_elem_of_nil|]. cbn [fmap list_fmap] in Hnd. apply NoDup_cons in Hnd as [Hc Hnd].
  cbn [new_row] in Hr. destruct (new_cell copy_in columns next src c) as [v|] eqn:E; [|done]. cbn in Hr.
  destruct (new_row copy_in columns next src cols) as [r0|] eqn:E0; [|done]. injection Hr as <-. unfold cell.
  intros [->|Hx]%elem_of_cons; [by rewrite lookup_insert_eq|]. rewrite lookup_insert_ne; [by apply IH|]. intros He. apply Hc. rewrite He. by apply list_elem_of_fmap_2.
Qed.

Lemma copy_rows_ok columns tb : NoDup (column_names tb) → ∀ src next rows rows' next',
  copy_rows copy_in columns tb next rows src = (Ok rows', next') → conforms tb rows →
  ∃ new, rows' = rows ++ new ∧ Forall2 (copied columns tb) src new ∧ conforms tb rows'.
Proof.
  intros Hnd. induction src as [|x src IH]; intros next rows rows' next'; cbn [copy_rows].
  { intros [= <- <-] Hc. exists []. rewrite app_nil_r. split_and!; [done|constructor|apply Hc..]. }
  destruct (new_row _ _ _ _ _) as [r|] eqn:Er; [|done]. destruct (admissible tb rows r) eqn:Ea; [|done]. intros H Hc.
  destruct (IH _ _ _ _ H (conforms_snoc _ _ _ Hc Ea)) as (new & -> & Hf & Hc'). exists (r :: new). rewrite <-app_assoc in Hc' |- *. split_and!; [done| |apply Hc'..].
  constructor; [|done]. intros c Hc0 Hin. rewrite <-(new_row_cells _ _ _ _ Hnd _ Er c Hc0). unfold new_cell. apply existsb_name in Hin. by rewrite Hin.
Qed.

Context (others : string → list pg_row).

(** The columns of the source that the table has. *)
Definition common (lt : legacy_table) (tb : pg_table) : list string := List.filter (fun c => existsb (String.eqb c) (column_names tb)) (lt_columns lt).

Definition taken_over (lt : legacy_table) (tb : pg_table) (t : string) (s' : store) : Prop :=
  ∃ new, so_tables s' !! t = Some (with_rows new tb) ∧ Forall2 (copied (common lt tb) tb) (lt_rows lt) new ∧ conforms tb new ∧ others t = [].

(** The count of the rows proves that nothing else was in the table. *)
Lemma import_table_ok lt t s n s' tb : so_tables s !! t = Some tb → NoDup (column_names tb) → conforms tb (tb_rows tb) →
  import_table copy_in others lt t s = (Ok n, s') →
  n = Z.of_nat (length (lt_rows lt)) ∧ taken_over lt tb t s' ∧ ∀ u, u ≠ t → so_tables s' !! u = so_tables s !! u.
Proof.
  intros Ht Hnd Hc. unfold import_table. rewrite Ht. fold (common lt tb). destruct (common lt tb) as [|c cs] eqn:Ecs; [done|]. rewrite <-Ecs.
  destruct (copy_rows _ _ _ _ _ _) as [[rows|e] next] eqn:E; [|done]. destruct (Z.eqb_spec (Z.of_nat (length rows + length (others t))) (Z.of_nat (length (lt_rows lt)))) as [Hn|]; [|done].
  intros [= <- <-]. destruct (copy_rows_ok _ _ Hnd _ _ _ _ _ E Hc) as (new & -> & Hf & Hc'). pose proof (Forall2_length _ _ _ Hf) as Hl.
  rewrite length_app in Hn. assert (Hr : tb_rows tb = []) by (apply length_zero_iff_nil; lia). assert (Ho : others t = []) by (apply length_zero_iff_nil; lia).
  rewrite Hr in *. cbn [app] in *. split; [done|]. split.
  - exists new. cbn [so_tables]. rewrite lookup_insert_eq. done.
  - intros u Hu. cbn [so_tables]. by rewrite lookup_insert_ne.
Qed.

Lemma import_tables_ok have tables : NoDup tables → ∀ counts s counts' s',
  (∀ t, t ∈ tables → ∃ tb, so_tables s !! t = Some tb ∧ NoDup (column_names tb) ∧ conforms tb (tb_rows tb)) →
  import_tables copy_in others have tables counts s = (Ok counts', s') →
  counts' = counts ++ omap (fun t => (fun lt => (t, Z.of_nat (length (lt_rows lt)))) <$> have !! t) tables ∧
  (∀ t, t ∉ tables ∨ have !! t = None → so_tables s' !! t = so_tables s !! t) ∧
  (∀ t lt tb, t ∈ tables → have !! t = Some lt → so_tables s !! t = Some tb → taken_over lt tb t s').
Proof.
  induction 1 as [|t tables Hnew Hnd IH]; intros counts s counts' s' Hs; cbn [import_tables].
  { intros [= <- <-]. cbn. rewrite app_nil_r. split_and!; [done|done|]. by intros t lt tb ?%not_elem_of_nil. }
  destruct (have !! t) as [lt|] eqn:Eh; cycle 1.
  { intros H. destruct (IH counts s counts' s') as (H1 & H2 & H3); [intros u Hu; apply Hs; by right|done|]. cbn [omap list_omap]. rewrite Eh. split_and!; [done| |].
    - intros u [Hu|Hu]; apply H2; [left; set_solver|by right].
    - intros u lt tb [->|Hu]%elem_of_cons; [congruence|by apply H3]. }
  destruct (import_table _ _ _ _ _) as [[n|e] s1] eqn:E; [|done]. intros H. destruct (Hs t) as (tb & Ht & Hc & Hcf); [left|].
  destruct (import_table_ok _ _ _ _ _ _ Ht Hc Hcf E) as (-> & Hto & Hothers). destruct (IH _ s1 _ _ ltac:(intros u Hu; rewrite Hothers by set_solver; apply Hs; by right) H) as (H1 & H2 & H3).
  cbn [omap list_omap]. rewrite Eh. cbn. split_and!.
  - rewrite H1, <-app_assoc. done.
  - intros u Hu. rewrite H2, Hothers; [done| |]; destruct Hu as [Hu|Hu]; [set_solver|congruence|left; set_solver|by right].
  - intros u lt' tb' [->|Hu]%elem_of_cons Hlt Htb; [|apply H3; [done|done|rewrite Hothers by set_solver; done]].
    assert (lt' = lt) as -> by congruence. assert (tb' = tb) as -> by congruence. destruct Hto as (new & Hn & Hrest). exists new. by rewrite H2 by (by left).
Qed.
End copied.

(** ** The marker and the sequences *)

Lemma put_row_found key value rows more :
  (fun r => cell r "value") <$> find (fun r => bool_decide (cell r "key" = VText key)) (put_row key value rows ++ more) = Some (VText value).
Proof.
  induction rows as [|r rows IH]; cbn [put_row app find].
  { rewrite bool_decide_eq_true_2 by done. done. }
  case_bool_decide as Hk; cbn [app find].
  - assert (Hk' : cell (<["value" := VText value]> r) "key" = VText key) by (unfold cell; by rewrite lookup_insert_ne). rewrite bool_decide_eq_true_2 by done.
    cbn. unfold cell. by rewrite lookup_insert_eq.
  - by rewrite bool_decide_eq_false_2.
Qed.

Lemma max_id_above n ids : n ∈ ids → ∃ m, max_id ids = Some m ∧ n <= m.
Proof.
  destruct ids as [|k ids]; [by intros ?%not_elem_of_nil|]. intros Hn. exists (foldr Z.max k ids). split; [done|].
  induction ids as [|j ids IH]; cbn [foldr]; [apply list_elem_of_singleton in Hn; lia|].
  apply elem_of_cons in Hn as [->|[->|Hn]%elem_of_cons].
  - specialize (IH ltac:(left)). lia.
  - lia.
  - specialize (IH ltac:(by right)). lia.
Qed.

Lemma row_ids_elem r n rows : r ∈ rows → cell r "id" = VInt n → n ∈ row_ids rows.
Proof. intros Hr Hn. unfold row_ids. apply list_elem_of_omap. exists r. by rewrite Hn. Qed.

Section finish.
Context (others : string → list pg_row).

Lemma set_sequence_tables t s : so_tables (set_sequence others t s) = so_tables s.
Proof. done. Qed.
Lemma sequences_tables s l : so_tables (foldl (fun s t => set_sequence others t s) s l) = so_tables s.
Proof. revert s. induction l as [|t l IH]; intros s; [done|]. cbn [foldl]. by rewrite IH. Qed.
Lemma rows_same s s' t : so_tables s' = so_tables s → rows_of s' t = rows_of s t.
Proof. intros H. unfold rows_of. by rewrite H. Qed.

Lemma sequences_above l : NoDup l → ∀ s t r n, t ∈ l → r ∈ rows_of s t ++ others t → cell r "id" = VInt n →
  n < next_of (foldl (fun s t => set_sequence others t s) s l) t.
Proof.
  assert (Hskip : ∀ l s t, t ∉ l → next_of (foldl (fun s t => set_sequence others t s) s l) t = next_of s t).
  { clear. induction l as [|u l IH]; intros s t Ht; [done|]. cbn [foldl]. rewrite IH by set_solver. unfold next_of, set_sequence. cbn [so_next].
    rewrite lookup_insert_ne by set_solver. done. }
  induction 1 as [|u l Hu Hnd IH]; intros s t r n; [by intros ?%not_elem_of_nil|]. cbn [foldl]. intros [->|Ht]%elem_of_cons Hr Hn; [|by eapply IH].
  rewrite Hskip by done. unfold next_of, set_sequence. cbn [so_next]. rewrite lookup_insert_eq. unfold default, from_option, id.
  destruct (max_id_above n (row_ids (rows_of s u ++ others u))) as (m & -> & Hm); [by eapply row_ids_elem|]. lia.
Qed.

Lemma with_others_rows s t tb : so_tables s !! t = Some tb → rows_of (with_others others s) t = tb_rows tb ++ others t.
Proof. intros Ht. unfold rows_of, with_others. cbn [so_tables]. rewrite map_lookup_imap, Ht. done. Qed.

Lemma set_setting_table key value s t tb : so_tables s !! t = Some tb →
  so_tables (pg_set_setting key value s) !! t = Some (if String.eqb t "settings" then with_rows (put_row key value (tb_rows tb)) tb else tb).
Proof.
  intros Ht. unfold pg_set_setting. cbn [so_tables]. destruct (String.eqb_spec t "settings") as [->|Hne]; [by rewrite lookup_alter_eq, Ht|].
  by rewrite lookup_alter_ne.
Qed.
End finish.

(** What COPY does to a value that PostgreSQL can hold in the column. *)
Definition fits (t : column_type) (v : cell_value) : Prop :=
  match t, v with
  | _, VNull => True
  | Bigint, VInt n => - 2 ^ 63 <= n < 2 ^ 63
  | Text, VText s => mem_char (chr 0) s = false
  | _, _ => False
  end.
Definition same_cells (lt : legacy_table) (tb : pg_table) (src r : pg_row) : Prop :=
  ∀ c, c ∈ tb_columns tb → co_name c ∈ lt_columns lt → fits (co_type c) (cell src (co_name c)) → cell r (co_name c) = cell src (co_name c).

Lemma copied_same copy_in lt tb src r : (∀ t v, fits t v → copy_in t v = Some v) → copied copy_in (common lt tb) tb src r → same_cells lt tb src r.
Proof.
  intros Hc Hr c Hin Hlt Hfit. specialize (Hr c Hin). rewrite (Hc _ _ Hfit) in Hr. enough (co_name c ∈ common lt tb) as Hm by (specialize (Hr Hm); congruence).
  unfold common. apply list_elem_of_In, filter_In. split; [by apply list_elem_of_In|]. apply existsb_name. unfold column_names. by apply list_elem_of_fmap_2.
Qed.

Lemma empty_database_rows s t : empty_database s = true → t ∈ TABLES → rows_of s t = [].
Proof. unfold empty_database. rewrite forallb_forall. intros H Ht. apply list_elem_of_In, H in Ht. by destruct (rows_of s t). Qed.

Lemma ready_tables s t : ready s → empty_database s = true → t ∈ TABLES →
  ∃ tb, so_tables s !! t = Some tb ∧ NoDup (column_names tb) ∧ conforms tb (tb_rows tb).
Proof.
  intros Hr He Ht. destruct (Hr t Ht) as (tb & Htb & Hnd). exists tb. split_and!; [done|done|..]; pose proof (empty_database_rows s t He Ht) as Hrows;
    unfold rows_of in Hrows; rewrite Htb in Hrows; cbn in Hrows; rewrite Hrows; apply conforms_nil.
Qed.

Lemma settings_no_sequence : "settings" ∉ SEQUENCES.
Proof. apply (bool_decide_unpack _). by vm_compute. Qed.

(** C21. The import is exact: it only happens into tables that were all empty, and then every table of the
    source has the same rows, in the same order, with every value PostgreSQL can hold, and nothing
    else, under the constraints of the schema; the counts in the report are those of the source, new
    ids begin above the imported ones, and the marker is set, so that a second import does nothing. *)
Theorem import_exact copy_in others f source meanwhile s counts s' :
  (∀ t v, fits t v → copy_in t v = Some v) → ready (meanwhile s) →
  import_sqlite copy_in others f source meanwhile s = (Ok (Imported counts), s') →
  ∃ src, source = Ok src ∧ lg_intact src = true ∧ empty_database (meanwhile s) = true ∧
    counts = omap (fun t => (fun lt => (t, Z.of_nat (length (lt_rows lt)))) <$> lg_tables src !! t) TABLES ∧
    (∀ t lt, t ∈ TABLES → lg_tables src !! t = Some lt → ∃ tb new, so_tables (meanwhile s) !! t = Some tb ∧
       rows_of s' t = (if String.eqb t "settings" then put_row MARKER (marker_json counts) new else new) ∧
       Forall2 (same_cells lt tb) (lt_rows lt) new ∧ conforms tb new) ∧
    (∀ t r n, t ∈ SEQUENCES → r ∈ rows_of s' t → cell r "id" = VInt n → n < next_of s' t) ∧
    pg_setting s' MARKER = Some (VText (marker_json counts)) ∧
    (∀ f' source' meanwhile', import_sqlite copy_in others f' source' meanwhile' s' = (Ok AlreadyImported, s')).
Proof.
  intros Hcopy Hready. unfold import_sqlite at 1. case_bool_decide as Hmark; [done|]. destruct (negb (empty_database s)); [done|].
  destruct source as [src|e]; [|done]. destruct (lg_intact src) eqn:Hi; [|done]. cbn [negb]. case_bool_decide as Hv; [done|]. unfold import_tx.
  case_bool_decide as Hm2; [done|]. destruct (empty_database (meanwhile s)) eqn:He; [|done]. cbn [negb].
  destruct (import_tables _ _ _ _ _ _) as [[cs|e] s1] eqn:Himp; [|done]. cbv zeta. destruct (en_import f); [|done|done]. intros [Hcs <-]%pair_equal_spec. assert (cs = counts) as -> by congruence. clear Hcs.
  destruct (import_tables_ok copy_in others (lg_tables src) TABLES TABLES_nodup _ _ _ _ (fun t => ready_tables _ t Hready He) Himp) as (Hcounts & Hrest & Htaken).
  cbn [app] in Hcounts. set (s2 := foldl (fun s t => set_sequence others t s) s1 SEQUENCES). assert (Hs2 : so_tables s2 = so_tables s1) by apply sequences_tables.
  pose proof (sequences_above others SEQUENCES ltac:(apply (bool_decide_unpack _); by vm_compute) s1) as Hnext. fold s2 in Hnext. clearbody s2.
  assert (Hset : ∃ tb, so_tables s2 !! "settings" = Some tb).
  { rewrite Hs2. assert (Hin : "settings" ∈ TABLES) by (apply (bool_decide_unpack _); by vm_compute). destruct (Hready _ Hin) as (tb & Htb & _).
    destruct (lg_tables src !! "settings") as [lt|] eqn:El; [|rewrite Hrest by (by right); eauto]. destruct (Htaken _ _ _ Hin El Htb) as (new & Hnew & _). eauto. }
  assert (Hmk : pg_setting (with_others others (pg_set_setting MARKER (marker_json counts) s2)) MARKER = Some (VText (marker_json counts))).
  { destruct Hset as [tb Htb]. unfold pg_setting. rewrite (with_others_rows _ _ _ _ (set_setting_table _ _ _ _ _ Htb)). apply put_row_found. }
  exists src. split_and!; try done.
  - intros t lt Ht Hlt. destruct (Hready _ Ht) as (tb & Htb & _). destruct (Htaken _ _ _ Ht Hlt Htb) as (new & Hnew & Hf & Hc & Ho). rewrite <-Hs2 in Hnew.
    exists tb, new. split_and!; [done| | |apply Hc..].
    + rewrite (with_others_rows _ _ _ _ (set_setting_table _ _ _ _ _ Hnew)), Ho, app_nil_r. by destruct (String.eqb t "settings").
    + eapply Forall2_impl; [exact Hf|]. intros x y. by apply copied_same.
  - intros t r n Ht Hr Hn. change (next_of (with_others others (pg_set_setting MARKER (marker_json counts) s2)) t) with (next_of s2 t).
    apply (Hnext t r n Ht); [|done].
    unfold rows_of in Hr at 1. unfold with_others in Hr. cbn [so_tables] in Hr. rewrite map_lookup_imap in Hr. unfold pg_set_setting in Hr. cbn [so_tables] in Hr.
    rewrite lookup_alter_ne in Hr by (intros <-; by apply settings_no_sequence). rewrite Hs2 in Hr. unfold rows_of.
    destruct (so_tables s1 !! t) as [tb|]; [exact Hr|by apply not_elem_of_nil in Hr].
  - intros f' source' meanwhile'. unfold import_sqlite. rewrite bool_decide_eq_true_2; [done|]. by rewrite Hmk.
Qed.


(** ** Failures *)

(** What [import_sqlite] ends with, next to the same import with a commit that is answered. *)
Definition import_kept copy_in others (source : result legacy) meanwhile (f : ends) s (r : result report) s' : Prop :=
  ((∀ counts, r ≠ Ok (Imported counts)) ∧ r ≠ Ok Restored ∧ r ≠ Ok FreshInstall ∧
     (s' = s ∨ ∀ t, rows_of s' t = rows_of (with_others others (meanwhile s)) t)) ∨
  ∃ counts, import_sqlite copy_in others all_committed source meanwhile s = (Ok (Imported counts), s') ∧
    ((en_import f = Committed ∧ r = Ok (Imported counts)) ∨ ∃ e, en_import f = LostAfter e ∧ r = Raise e).

Lemma import_sqlite_kept copy_in others f source meanwhile s r s' : import_sqlite copy_in others f source meanwhile s = (r, s') →
  import_kept copy_in others source meanwhile f s r s'.
Proof.
  unfold import_kept, import_sqlite. case_bool_decide as Hd; [intros [= <- <-]; by left; auto|].
  destruct (negb (empty_database s)); [intros [= <- <-]; by left; auto|].
  destruct source as [src|e]; [|intros [= <- <-]; by left; auto]. destruct (negb (lg_intact src)); [intros [= <- <-]; by left; auto|].
  case_bool_decide as Hd2; [intros [= <- <-]; by left; auto|]. unfold import_tx.
  case_bool_decide; [intros [= <- <-]; left; by auto|]. destruct (negb _); [intros [= <- <-]; left; by auto|].
  destruct (import_tables _ _ _ _ _ _) as [[counts|e] s1]; [|intros [= <- <-]; left; by auto]. cbv zeta.
  destruct (en_import f) as [|e|e]; intros [<- <-]%pair_equal_spec; [|left; by auto|]; right; exists counts; (split; [done|]); [by left|].
  right. by exists e.
Qed.

(** Which file is imported. *)
Definition imported_file (given : option (result legacy)) (dump : option (store → result store)) (legacy_file : option (result legacy)) : option (result legacy) :=
  match given, dump with Some source, _ => Some source | None, Some _ => None | None, None => legacy_file end.

(** C22. Whatever the migration meets - an error of the source, a row that PostgreSQL refuses, writers at the same
    time, a transaction that is rolled back or one whose commit happens although its answer is lost - it ends in one
    of three ways.  The rows are those of before: the ones in the tables, or, when the import got to its
    transaction, the ones other sessions had committed by its end.  Or everything was imported, with the marker, exactly
    as by an import that succeeds: then the report says so, unless the answer to the commit was lost.  Or everything
    in the dump was restored: then the report says so and the marker is set, unless [pg_restore] or the marker, set in
    a later transaction, failed after that.  An error the program names ends it with status 1, any
    other is passed on; only after such a loss, or a marker that failed, does an error come with changed rows. *)
Theorem migration_all_or_nothing copy_in others f given dump legacy_file meanwhile s r s' :
  columns_once s → migrate_main copy_in others f given dump legacy_file meanwhile s = (r, s') →
  (((∀ t, rows_of s' t = rows_of s t) ∨
    ∃ s0, open_database s = Ok s0 ∧ ∀ t, rows_of s' t = rows_of (with_others others (meanwhile s0)) t) ∧
   (r = Ok (0, Some AlreadyImported) ∨ r = Ok (0, Some FreshInstall) ∨ ∃ e, r = exit_of (Raise e))) ∨
  (∃ s0 source counts, open_database s = Ok s0 ∧ imported_file given dump legacy_file = Some source ∧
     import_sqlite copy_in others all_committed source meanwhile s0 = (Ok (Imported counts), s') ∧
     ((en_import f = Committed ∧ r = Ok (0, Some (Imported counts))) ∨ ∃ e, en_import f = LostAfter e ∧ r = exit_of (Raise e))) ∨
  (∃ s0 s1 pg_restore, open_database s = Ok s0 ∧ given = None ∧ dump = Some pg_restore ∧
     empty_database s0 = true ∧ pg_restore s0 = Ok s1 ∧
     ((r = Ok (0, Some Restored) ∧ s' = pg_set_setting DUMP_MARKER "1" s1) ∨
      ∃ e, r = exit_of (Raise e) ∧
        ((en_restore f = LostAfter e ∧ s' = s1) ∨
         (en_restore f = Committed ∧ en_marker f = RolledBack e ∧ s' = s1) ∨
         (en_restore f = Committed ∧ en_marker f = LostAfter e ∧ s' = pg_set_setting DUMP_MARKER "1" s1)))).
Proof.
  intros Ho. unfold migrate_main. destruct (open_database s) as [s0|e] eqn:Eo; [|intros [= <- <-]; left; split; [by left|right; right; by exists e]].
  destruct (open_database_ready _ _ Ho Eo) as [[Hrows _ _ _] _].
  destruct (en_schema f) as [|e|e]; [|intros [= <- <-]; left; (split; [by left|right; right; by exists e])..].
  assert (Himp : ∀ source, imported_file given dump legacy_file = Some source →
    (let '(r, s') := import_sqlite copy_in others f source meanwhile s0 in (exit_of r, s')) = (r, s') →
    (((∀ t, rows_of s' t = rows_of s t) ∨ ∃ s1, Ok s0 = Ok s1 ∧ ∀ t, rows_of s' t = rows_of (with_others others (meanwhile s1)) t) ∧
       (r = Ok (0, Some AlreadyImported) ∨ r = Ok (0, Some FreshInstall) ∨ ∃ e, r = exit_of (Raise e))) ∨
    (∃ s1 source counts, Ok s0 = Ok s1 ∧ imported_file given dump legacy_file = Some source ∧
       import_sqlite copy_in others all_committed source meanwhile s1 = (Ok (Imported counts), s') ∧
       ((en_import f = Committed ∧ r = Ok (0, Some (Imported counts))) ∨ ∃ e, en_import f = LostAfter e ∧ r = exit_of (Raise e)))).
  { intros source Hf. destruct (import_sqlite copy_in others f source meanwhile s0) as [r0 s1] eqn:Hi. intros [<- <-]%pair_equal_spec.
    destruct (import_sqlite_kept _ _ _ _ _ _ _ _ Hi) as [(Hni & Hnr & Hnf & Hk)|(counts & Hc & Hr)].
    - left. split; [destruct Hk as [->|Hk]; [by left|right; eauto]|]. destruct r0 as [[]|e]; [by left|by destruct (Hni counts)|done|done|eauto].
    - right. exists s0, source, counts. split_and!; [done..|]. destruct Hr as [[? ->]|(e & ? & ->)]; [by left|right; eauto]. }
  destruct given as [source|]; [intros [H|H]%(Himp source eq_refl); [by left|by right; left]|].
  destruct dump as [pg_restore|].
  - unfold restore_dump. destruct (empty_database s0) eqn:He; cbn [negb].
    2: { intros [<- <-]%pair_equal_spec. left. split; [by left|]. case_bool_decide; [by left|eauto]. }
    destruct (pg_restore s0) as [s1|e] eqn:Hp; [|intros [<- <-]%pair_equal_spec; left; split; [by left|right; right; by exists e]].
    destruct (en_restore f) as [|e|e] eqn:Er.
    + destruct (en_marker f) as [|e|e] eqn:Em; intros [<- <-]%pair_equal_spec; right; right; exists s0, s1, pg_restore; (split_and!; [done..|]);
        [by left|right; exists e; split; [done|by auto]..].
    + intros [<- <-]%pair_equal_spec. left. split; [by left|right; right; by exists e].
    + intros [<- <-]%pair_equal_spec. right; right. exists s0, s1, pg_restore. split_and!; [done..|]. right. exists e. auto.
  - destruct legacy_file as [source|]; [intros [H|H]%(Himp source eq_refl); [by left|by right; left]|].
    intros [<- <-]%pair_equal_spec. left. auto.
Qed.

(** A restoration whose marker fails: the program says that the state is the one of before, with status 1, but the rows
    are those of the dump, and every later run fails. *)
Lemma restored_without_marker copy_in others f pg_restore legacy_file meanwhile s s0 s1 s2 msg :
  open_database s = Ok s0 → en_schema f = Committed → empty_database s0 = true → pg_restore s0 = Ok s1 →
  en_restore f = Committed → en_marker f = RolledBack (DatabaseError msg) →
  open_database s1 = Ok s2 → empty_database s2 = false → pg_setting s2 DUMP_MARKER = None →
  migrate_main copy_in others f None (Some pg_restore) legacy_file meanwhile s = (Ok (1, None), s1) ∧
  migrate_main copy_in others all_committed None (Some pg_restore) legacy_file meanwhile s1 = (Ok (1, None), s2).
Proof.
  intros Ho Hs He Hp Hr Hm Ho2 He2 Hk. unfold migrate_main, restore_dump. rewrite Ho, Hs, He, Hp, Hr, Hm, Ho2, He2. cbn [negb].
  split; [done|]. cbn [en_schema all_committed]. rewrite bool_decide_eq_false_2 by (rewrite Hk; by intros []). done.
Qed.

(** ** Witnesses *)

Definition plain_copy (t : column_type) (v : cell_value) : option cell_value :=
  match t, v with
  | _, VNull => Some VNull
  | Bigint, VInt n => if (- 2 ^ 63 <=? n) && (n <? 2 ^ 63) then Some v else None
  | Text, VText s => if mem_char (chr 0) s then None else Some v
  | _, _ => None
  end.
Lemma plain_copy_fits t v : fits t v → plain_copy t v = Some v.
Proof.
  destruct t, v; cbn [fits plain_copy]; try done; intros H.
  - by rewrite (proj2 (Z.leb_le _ _) (proj1 H)), (proj2 (Z.ltb_lt _ _) (proj2 H)).
  - by rewrite H.
Qed.

Definition cells (l : list (string * cell_value)) : pg_row := list_to_map l.
Definition legacy_users : legacy_table :=
  LegacyTable ["id"; "username"; "password_hash"; "created_at"; "theme"]
    [cells [("id", VInt 41); ("username", VText "operator"); ("password_hash", VText "h"); ("created_at", VInt 100); ("theme", VText "dark")]].
Definition legacy_sessions (ts : cell_value) : legacy_table :=
  LegacyTable ["id"; "client_name"; "connected_at"; "last_seen"; "bytes_in"]
    [cells [("id", VInt 95); ("client_name", VText "alice"); ("connected_at", ts); ("last_seen", VInt 120); ("bytes_in", VInt 4294967297)]].
Definition legacy_source (ts : cell_value) : legacy := Legacy true {["users" := legacy_users; "vpn_sessions" := legacy_sessions ts]}.
Definition no_tables : store := Store ∅ ∅.
Lemma no_tables_once : columns_once no_tables.
Proof. apply map_Forall_empty. Qed.
Definition demo_import (ts : cell_value) (s : store) : result report * store :=
  import_sqlite plain_copy (fun _ => []) all_committed (Ok (legacy_source ts)) id s.

Lemma open_database_upgrades_witness :
  ∃ s, open_database no_tables = Ok s ∧ ready s ∧ open_database s = Ok s.
Proof.
  destruct (open_database no_tables) as [s|] eqn:Hs; [|vm_compute in Hs; discriminate Hs]. exists s. split; [reflexivity|].
  destruct (open_database_upgrades no_tables s) as (H1 & _ & _ & H2); [apply no_tables_once|exact Hs|]. split; [exact H1|exact H2].
Defined.

Lemma import_exact_witness :
  ∃ s s' tb new, open_database no_tables = Ok s ∧ demo_import (VInt 100) s = (Ok (Imported [("users", 1); ("vpn_sessions", 1)]), s') ∧ rows_of s' "users" = new ∧
    so_tables s !! "users" = Some tb ∧ Forall2 (same_cells legacy_users tb) (lt_rows legacy_users) new ∧ demo_import (VInt 100) s' = (Ok AlreadyImported, s').
Proof.
  destruct (open_database no_tables) as [s|] eqn:Hs; [|vm_compute in Hs; discriminate Hs].
  destruct (open_database_ready no_tables s no_tables_once Hs) as [_ Hr].
  assert (Hok : (fun s => (demo_import (VInt 100) s).1) <$> open_database no_tables = Ok (Ok (Imported [("users", 1); ("vpn_sessions", 1)]))) by (vm_compute; reflexivity).
  rewrite Hs in Hok. apply Ok_inj in Hok. cbn beta in Hok. destruct (demo_import (VInt 100) s) as [r s'] eqn:Hrun. cbn [fst] in Hok. subst r.
  destruct (import_exact plain_copy (fun _ => []) all_committed (Ok (legacy_source (VInt 100))) id s [("users", 1); ("vpn_sessions", 1)] s' plain_copy_fits Hr Hrun)
    as (src & Hsrc & _ & _ & _ & Ht & _ & _ & Hagain). apply Ok_inj in Hsrc. subst src.
  destruct (Ht "users" legacy_users) as (tb & new & Htb & Hrows & Hf & _); [apply (bool_decide_unpack _); vm_compute; exact I|vm_compute; reflexivity|].
  exists s, s', tb, new. split; [reflexivity|]. split; [exact Hrun|]. split; [exact Hrows|]. split; [exact Htb|]. split; [exact Hf|]. apply Hagain.
Defined.

Definition broken_file : option (result legacy) := Some (Ok (legacy_source (VText "broken"))).

(** A row that PostgreSQL refuses: nothing is imported. *)
Lemma migration_all_or_nothing_witness :
  ∃ s', migrate_main plain_copy (fun _ => []) all_committed None None broken_file id no_tables = (Ok (1, None), s') ∧
  ((∀ t, rows_of s' t = rows_of no_tables t) ∨
   ∃ s0, open_database no_tables = Ok s0 ∧ ∀ t, rows_of s' t = rows_of (with_others (fun _ => []) (id s0)) t).
Proof.
  assert (Hok : (migrate_main plain_copy (fun _ => []) all_committed None None broken_file id no_tables).1 = Ok (1, None)) by (vm_compute; reflexivity).
  destruct (migrate_main plain_copy (fun _ => []) all_committed None None broken_file id no_tables) as [r s'] eqn:Hrun. cbn [fst] in Hok. subst r.
  exists s'. split; [reflexivity|].
  destruct (migration_all_or_nothing plain_copy (fun _ => []) all_committed None None broken_file id no_tables (Ok (1, None)) s' no_tables_once Hrun)
    as [[H _]|[(s0 & source & counts & _ & _ & _ & [[_ H]|(e & He & _)])|(s0 & s1 & pg_restore & _ & _ & Hd & _)]].
  - exact H.
  - discriminate H.
  - discriminate He.
  - discriminate Hd.
Defined.
