(* ===== verification/Routes.v ===== *)
(** * The application: routes, their checks, answers and headers

    [ui/app/main.py] as a whole: the table of its routes with the dependencies of each, the bodies
    they accept, the order boundary - checks - handler, the exception handlers and the headers every
    answer gets.  Which route of the table a path belongs to is the framework's matching and an
    argument, and so is what the handlers, modelled in the other files, do. *)

From S2P Require Import Prelude PyStr Schema Auth Relay Access Lifecycle Url Handlers.

Open Scope string_scope.
Open Scope list_scope.
Open Scope Z_scope.

(** ** The table *)

Inductive http_method := GET | POST | PUT | DELETE.
(** [dependencies=[...]]: nothing, [Csrf], [Depends(profile_download_csrf)]. *)
Inductive forgery_check := Unchecked | Scripts | Form.
(** The parameter [user]: none, [SignedIn], [Authed]. *)
Inductive user_needed := Anyone | AnyAccount | Administrator.
Record route := Route { rt_method : http_method; rt_path : string; rt_check : forgery_check; rt_user : user_needed }.

#[export] Instance http_method_eq_dec : EqDecision http_method.
Proof. solve_decision. Defined.
#[export] Instance forgery_check_eq_dec : EqDecision forgery_check.
Proof. solve_decision. Defined.
#[export] Instance user_needed_eq_dec : EqDecision user_needed.
Proof. solve_decision. Defined.

Definition route_login : route := Route POST "/api/login" Scripts Anyone.
Definition route_login_portal : route := Route POST "/api/portal/login" Scripts Anyone.
Definition route_logout : route := Route POST "/api/logout" Scripts Anyone.
Definition route_logout_portal : route := Route POST "/api/portal/logout" Scripts Anyone.
Definition route_me : route := Route GET "/api/me" Unchecked AnyAccount.
Definition route_me_portal : route := Route GET "/api/portal/me" Unchecked AnyAccount.
Definition route_change_password : route := Route POST "/api/me/password" Scripts AnyAccount.
Definition route_change_password_portal : route := Route POST "/api/portal/password" Scripts AnyAccount.
Definition route_portal_account : route := Route GET "/api/clients/{name}/portal" Unchecked Administrator.
Definition route_set_portal_account : route := Route PUT "/api/clients/{name}/portal" Scripts Administrator.
Definition route_remove_portal_account : route := Route DELETE "/api/clients/{name}/portal" Scripts Administrator.
Definition route_own_profile_info : route := Route GET "/api/portal" Unchecked AnyAccount.
Definition route_own_openvpn_profile : route := Route GET "/api/portal/ovpn" Unchecked AnyAccount.
Definition route_own_relay_status : route := Route GET "/api/portal/relay/status" Unchecked AnyAccount.
Definition route_own_relay_profile : route := Route POST "/api/portal/relay.mobileconfig" Form AnyAccount.
Definition route_overview : route := Route GET "/api/overview" Unchecked Administrator.
Definition route_stream : route := Route GET "/api/stream" Unchecked Administrator.
Definition route_list_clients : route := Route GET "/api/clients" Unchecked Administrator.
Definition route_create_client : route := Route POST "/api/clients" Scripts Administrator.
Definition route_client_detail : route := Route GET "/api/clients/{name}" Unchecked Administrator.
Definition route_download_profile : route := Route GET "/api/clients/{name}/ovpn" Unchecked Administrator.
Definition route_tfa_qr : route := Route GET "/api/clients/{name}/tfa/qr.svg" Unchecked Administrator.
Definition route_get_relay_settings : route := Route GET "/api/relay/settings" Unchecked Administrator.
Definition route_relay_status : route := Route GET "/api/relay/status" Unchecked Administrator.
Definition route_relay_signing : route := Route GET "/api/relay/signing" Unchecked Administrator.
Definition route_save_relay_signing : route := Route PUT "/api/relay/signing" Scripts Administrator.
Definition route_put_relay_settings : route := Route PUT "/api/relay/settings" Scripts Administrator.
Definition route_relay_download_form : route := Route GET "/api/clients/{name}/relay-download" Unchecked Administrator.
Definition route_download_relay_profile : route := Route POST "/api/clients/{name}/relay.mobileconfig" Form Administrator.
Definition route_revoke_relay : route := Route DELETE "/api/clients/{name}/relay" Scripts Administrator.
Definition route_authorize_relay : route := Route POST "/api/relay/authorize" Unchecked Anyone.
Definition route_set_tfa : route := Route POST "/api/clients/{name}/tfa" Scripts Administrator.
Definition route_revoke : route := Route POST "/api/clients/{name}/revoke" Scripts Administrator.
Definition route_renew : route := Route POST "/api/clients/{name}/renew" Scripts Administrator.
Definition route_revoke_previous : route := Route POST "/api/clients/{name}/revoke-previous" Scripts Administrator.
Definition route_delete_client : route := Route DELETE "/api/clients/{name}" Scripts Administrator.
Definition route_disconnect : route := Route POST "/api/clients/{name}/disconnect" Scripts Administrator.
Definition route_static_ip : route := Route PUT "/api/clients/{name}/static-ip" Scripts Administrator.
Definition route_set_access : route := Route PUT "/api/clients/{name}/access" Scripts Administrator.
Definition route_share_profile : route := Route POST "/api/clients/{name}/share" Scripts Administrator.
Definition route_shared_profile_page : route := Route GET "/p/{token}" Unchecked Anyone.
Definition route_shared_profile : route := Route GET "/p/{token}/download" Unchecked Anyone.
Definition route_set_note : route := Route PUT "/api/clients/{name}/note" Scripts Administrator.
Definition route_sessions : route := Route GET "/api/sessions" Unchecked Administrator.
Definition route_connections : route := Route GET "/api/connections" Unchecked Administrator.
Definition route_traffic : route := Route GET "/api/traffic" Unchecked Administrator.
Definition route_server_info : route := Route GET "/api/server" Unchecked Administrator.
Definition route_get_config : route := Route GET "/api/server/config/{which}" Unchecked Administrator.
Definition route_put_config : route := Route PUT "/api/server/config/{which}" Scripts Administrator.
Definition route_restart : route := Route POST "/api/server/restart" Scripts Administrator.
Definition route_server_log : route := Route GET "/api/server/log" Unchecked Administrator.
Definition route_regenerate_crl : route := Route POST "/api/server/crl" Scripts Administrator.
Definition route_backup_now : route := Route POST "/api/server/backup" Scripts Administrator.
Definition route_enforce_tfa : route := Route PUT "/api/server/tfa" Scripts Administrator.
Definition route_control_channel : route := Route PUT "/api/server/control-channel" Scripts Administrator.
Definition route_events : route := Route GET "/api/events" Unchecked Administrator.
Definition route_get_settings : route := Route GET "/api/settings" Unchecked Administrator.
Definition route_get_network_settings : route := Route GET "/api/network/settings" Unchecked Administrator.
Definition route_discover_network : route := Route POST "/api/network/discovery" Scripts Administrator.
Definition route_put_network_settings : route := Route PUT "/api/network/settings" Scripts Administrator.
Definition route_download_gateway_network : route := Route GET "/api/network/traefik.json" Unchecked Administrator.
Definition route_put_settings : route := Route PUT "/api/settings" Scripts Administrator.
Definition route_healthz : route := Route GET "/healthz" Unchecked Anyone.
Definition route_index : route := Route GET "/" Unchecked Anyone.
Definition route_index_portal : route := Route GET "/portal" Unchecked Anyone.
Definition route_static : route := Route GET "/static/{file}" Unchecked Anyone.

(** In the order of the source. *)
Definition ROUTES : list route :=
  [route_login; route_login_portal; route_logout; route_logout_portal; route_me; route_me_portal; route_change_password;
   route_change_password_portal; route_portal_account; route_set_portal_account; route_remove_portal_account; route_own_profile_info;
   route_own_openvpn_profile; route_own_relay_status; route_own_relay_profile; route_overview; route_stream; route_list_clients;
   route_create_client; route_client_detail; route_download_profile; route_tfa_qr; route_get_relay_settings; route_relay_status;
   route_relay_signing; route_save_relay_signing; route_put_relay_settings; route_relay_download_form; route_download_relay_profile;
   route_revoke_relay; route_authorize_relay; route_set_tfa; route_revoke; route_renew; route_revoke_previous; route_delete_client;
   route_disconnect; route_static_ip; route_set_access; route_share_profile; route_shared_profile_page; route_shared_profile; route_set_note;
   route_sessions; route_connections; route_traffic; route_server_info; route_get_config; route_put_config; route_restart; route_server_log;
   route_regenerate_crl; route_backup_now; route_enforce_tfa; route_control_channel; route_events; route_get_settings;
   route_get_network_settings; route_discover_network; route_put_network_settings; route_download_gateway_network; route_put_settings;
   route_healthz; route_index; route_index_portal; route_static].

(** ** Bodies *)

Inductive body :=
| NoBody
| LoginBody (username password : string)
| PasswordBody (current new : string)
| NewClientBody (name : string) (days : option Z) (passphrase static_ip : option string) (tfa guest : bool) (note : string)
| ReasonBody (reason : option string)
| DaysBody (days : option Z)
| TfaBody (enabled : bool)
| DisconnectBody (cid : option Z)
| StaticIpBody (ip : option string)
| NoteBody (note : string)
| ConfigBody (content : string)
| TfaEnforceBody (enforced : bool)
| AccessBody (guest : bool)
| PortalBody (username password : string)
| ShareBody (hours : Z)
| ControlChannelBody (per_client : bool)
| RemoteBody (host : string) (ports : list (string * Z)).

Definition length_in (low high : Z) (s : string) : bool := (low <=? strlen s) && (strlen s <=? high).
Definition if_given {A} (p : A → bool) (o : option A) : bool := match o with Some x => p x | None => true end.
Definition in_bounds (low high n : Z) : bool := (low <=? n) && (n <=? high).
Definition username_char (c : ascii) : bool := is_alpha_az c || is_decimal c || mem_char c "_.@-".

(** The constraints of the fields. *)
Definition body_ok (b : body) : bool :=
  match b with
  | LoginBody username password => length_in 1 64 username && length_in 1 256 password
  | PasswordBody current new => length_in 0 256 current && length_in 8 256 new
  | NewClientBody name days passphrase static_ip _ _ note =>
      length_in 1 64 name && if_given (in_bounds 1 3650) days && if_given (length_in 0 256) passphrase && if_given (length_in 0 15) static_ip
      && length_in 0 500 note
  | DaysBody days => if_given (in_bounds 1 3650) days
  | StaticIpBody ip => if_given (length_in 0 15) ip
  | NoteBody note => length_in 0 500 note
  | ConfigBody content => length_in 0 200000 content
  | PortalBody username password => length_in 1 64 username && str_forall username_char username && length_in 8 256 password
  | ShareBody hours => in_bounds 1 (24 * 30) hours
  | RemoteBody host _ => length_in 1 253 host
  | NoBody | ReasonBody _ | TfaBody _ | DisconnectBody _ | TfaEnforceBody _ | AccessBody _ | ControlChannelBody _ => true
  end.

(** ** Answers *)

Inductive content := Detail (msg : string) | Invalid | Page (html : string) | Empty | Content (data : string).
Record answer := Answer { rp_status : Z; rp_headers : list (string * string); rp_content : content }.

Definition rp_header (p : answer) (k : string) : option string := snd <$> find (fun h => String.eqb h.1 k) (rp_headers p).
(** [h[k] = v] and [h.setdefault(k, v)]; names are in lower case. *)
Definition set_header (k v : string) (p : answer) : answer :=
  Answer (rp_status p) ((k, v) :: List.filter (fun h => negb (String.eqb h.1 k)) (rp_headers p)) (rp_content p).
Definition set_default (k v : string) (p : answer) : answer :=
  match rp_header p k with Some _ => p | None => set_header k v p end.

Definition CSP : string :=
  "default-src 'self'; img-src 'self' data:; style-src 'self'; script-src 'self'; connect-src 'self'; frame-ancestors 'none'; base-uri 'none'; form-action 'self'".

Definition security_headers (path : string) (p : answer) : answer :=
  let p := set_default "x-content-type-options" "nosniff" p in
  let p := set_default "x-frame-options" "DENY" p in
  let p := set_default "referrer-policy" "same-origin" p in
  let p := set_default "content-security-policy" CSP p in
  if startswith "/api/" path || startswith "/p/" path then set_header "cache-control" "no-store" p
  else if startswith "/static/" path then set_header "cache-control" "no-cache" p
  else p.

(** [html.escape]. *)
Definition escape_markup (c : ascii) : string :=
  if Ascii.eqb c "&" then "&amp;"
  else if Ascii.eqb c "<" then "&lt;"
  else if Ascii.eqb c ">" then "&gt;"
  else if Ascii.eqb c (chr 34) then "&quot;"
  else if Ascii.eqb c (chr 39) then "&#x27;"
  else String c "".
Fixpoint html_escape (s : string) : string := match s with EmptyString => "" | String c s => escape_markup c +:+ html_escape s end.

Definition quote_attr (k v : string) : string := k +:+ "=" +:+ String (chr 34) v +:+ String (chr 34) "".
Definition page_head : string :=
  "<!doctype html><html " +:+ quote_attr "lang" "en" +:+ "><meta " +:+ quote_attr "charset" "utf-8" +:+ "><meta " +:+ quote_attr "name" "viewport" +:+ " "
  +:+ quote_attr "content" "width=device-width,initial-scale=1" +:+ "><title>Profile download unavailable</title><link " +:+ quote_attr "rel" "stylesheet" +:+ " "
  +:+ quote_attr "href" "/static/app.css" +:+ "><main " +:+ quote_attr "class" "download-help" +:+ "><h1>Your profile could not be downloaded</h1><p>".
Definition page_tail (back : string) : string :=
  "</p><p>Stay connected to your approved Wi-Fi, VPN or relay, then try again. If this continues, contact your administrator.</p><a "
  +:+ quote_attr "class" "btn primary" +:+ " " +:+ quote_attr "href" back +:+ ">Back to my profiles</a></main></html>".
Definition profile_download_error (message : string) (status : Z) (portal : bool) : answer :=
  Answer status [("cache-control", "no-store")]
    (Page (page_head +:+ html_escape message +:+ page_tail (if portal then "/portal" else "/#/clients"))).

Definition validation_error (path : string) : answer :=
  if String.eqb path "/api/relay/signing" then Answer 422 [("cache-control", "no-store")] (Detail "Invalid signing settings")
  else Answer 422 [] Invalid.

(** The handlers of the exceptions; any other exception leaves the application. *)
Definition error_response (native : bool) (path : string) (e : exn) : option answer :=
  let portal := startswith "/api/portal/" path in
  match e with
  | PkiError m => Some (if native then profile_download_error m 400 portal else Answer 400 [] (Detail m))
  | SigningUnavailable m =>
      Some (if native then profile_download_error m 503 portal
            else Answer 503 [("cache-control", "no-store"); ("retry-after", "5")] (Detail m))
  | HTTPException status m => Some (if native then profile_download_error m status portal else Answer status [] (Detail m))
  | ManagementError m => Some (Answer 503 [] (Detail ("OpenVPN management interface: " +:+ m)))
  | _ => None
  end.

(** ** Serving a request *)

Section serve.
Context (sha : string → string) (ttl now : Z) (mac : string → string → string) (form_token : string → result string).
(** The route a path belongs to, and what its handler does with the body for the user. *)
Context (dispatch : http_method → string → option route).
Context (handler : route → body → option session_user → server → server * result answer).

(** The check of a route; the answer is whether the page has no scripts. *)
Definition check_forgery (rt : route) (r : Access.request) (chunks : list string) : result bool :=
  match rt_check rt with
  | Unchecked => Ok false
  | Scripts => _ ← csrf_check r; Ok false
  | Form => profile_download_csrf mac form_token r chunks
  end.

Definition find_user (rt : route) (r : Access.request) (s : server) : server * result (option session_user) :=
  match rt_user rt with
  | Anyone => (s, Ok None)
  | AnyAccount => let '(d, u) := signed_in_user sha ttl now (view s) r (sv_db s) in (set_db d s, Some <$> u)
  | Administrator => let '(d, u) := current_user sha ttl now (view s) r (sv_db s) in (set_db d s, Some <$> u)
  end.

(** [request.state.native_profile_download]: set before the form is read, and when it was accepted. *)
Definition form_encoded (r : Access.request) : bool := startswith "application/x-www-form-urlencoded" (default "" (header r "content-type")).
Definition native (rt : route) (r : Access.request) (checked : result bool) : bool :=
  match rt_check rt with
  | Form => negb (from_fetch r) && (form_encoded r || match checked with Ok _ => true | Raise _ => false end)
  | _ => false
  end.

(** The dependencies are resolved in this order, then the body is validated, then the handler runs. *)
Definition run_route (rt : route) (r : Access.request) (chunks : list string) (b : body) (s : server) : server * result answer :=
  let checked := check_forgery rt r chunks in
  let failed (s : server) (e : exn) := (s, of_option e (error_response (native rt r checked) (Access.rq_path r) e)) in
  match checked with
  | Raise e => failed s e
  | Ok _ =>
      match find_user rt r s with
      | (s, Raise e) => failed s e
      | (s, Ok user) =>
          if body_ok b then
            match handler rt b user s with
            | (s, Raise e) => failed s e
            | (s, Ok p) => (s, Ok p)
            end
          else (s, Ok (validation_error (Access.rq_path r)))
      end
  end.

Definition serve (m : http_method) (r : Access.request) (chunks : list string) (b : body) (s : server) : server * result answer :=
  let '(s, p) :=
    match portal_boundary true r with
    | Redirect => (s, Ok (Answer 303 [("location", "/portal")] Empty))
    | NotFound => (s, Ok (Answer 404 [] (Detail "Not found")))
    | Pass =>
        match dispatch m (Access.rq_path r) with
        | None => (s, Ok (Answer 404 [] (Detail "Not Found")))
        | Some rt => run_route rt r chunks b s
        end
    end in
  (s, security_headers (Access.rq_path r) <$> p).

(** ** Theorems *)

(** Paths that need no account: signing in and out, the relay's own endpoint, links and public files. *)
Definition OPEN_PATHS : list string :=
  ["/api/login"; "/api/portal/login"; "/api/logout"; "/api/portal/logout"; "/api/relay/authorize"; "/p/{token}"; "/p/{token}/download";
   "/healthz"; "/"; "/portal"; "/static/{file}"].

(** The policy of the table. *)
Definition guarded (rt : route) : bool :=
  match rt_user rt with Anyone => existsb (String.eqb (rt_path rt)) OPEN_PATHS | _ => true end
  && (bool_decide (rt_method rt = GET) || negb (bool_decide (rt_check rt = Unchecked)) || String.eqb (rt_path rt) "/api/relay/authorize")
  && (bool_decide (rt_user rt ≠ AnyAccount) || startswith "/api/portal" (rt_path rt) || startswith "/api/me" (rt_path rt)).

Lemma routes_guarded : forallb guarded ROUTES = true.
Proof. vm_compute. reflexivity. Qed.

(** The request is one of the page itself: of its scripts, or with its form's token, and from no other origin. *)
Definition own_page (r : Access.request) (chunks : list string) : Prop :=
  other_origin r = Ok false ∧
  (from_fetch r = true ∨ ∃ body, read_form 256 "" chunks = Ok body ∧ truthy (rq_cookie r) = true ∧
     match form_token body with Ok t => t | Raise _ => "" end = profile_download_token mac (rq_cookie r) (Access.rq_path r)).

Lemma check_forgery_own rt r chunks x : check_forgery rt r chunks = Ok x → rt_check rt ≠ Unchecked → own_page r chunks.
Proof.
  unfold check_forgery. destruct (rt_check rt); [done| |]; intros H _.
  - destruct (csrf_check r) as [[]|] eqn:E; [|done]. apply csrf_check_Ok in E as [Hf Ho]. split; [done|by left].
  - unfold profile_download_csrf in H. destruct (from_fetch r) eqn:Ef.
    { destruct (csrf_check r) as [[]|] eqn:E; [|done]. apply csrf_check_Ok in E as [Hf Ho]. split; [done|by left]. }
    inv_result. bool_to_prop. split; [congruence|]. right. eexists. split; [exact E1|]. split; [done|].
    destruct (form_token _) as [t|[]]; by simplify_eq.
Qed.

Lemma signed_in_user_same v r d : same_but_sessions d (signed_in_user sha ttl now v r d).1.
Proof.
  unfold signed_in_user. pose proof (get_session_user_same sha now (rq_cookie r) ttl true d) as Hg.
  destruct (get_session_user _ _ _ _ _ _) as [d1 [u|]]; [|exact Hg]. cbn [fst] in Hg.
  destruct (su_role u); [destruct (portal_only r); exact Hg|].
  destruct (eligible _ _ _) as [c|]; [|exact Hg]. destruct (match c with Some _ => _ | None => _ end); [exact Hg|].
  by apply delete_session_same.
Qed.

Lemma find_user_sound rt r s s1 user : find_user rt r s = (s1, user) →
  s1 = set_db (sv_db s1) s ∧ same_but_sessions (sv_db s) (sv_db s1) ∧
  (∀ u, user = Ok (Some u) → rt_user rt ≠ Anyone ∧ (∃ d, signed_in_user sha ttl now (view s) r (sv_db s) = (d, Ok u)) ∧
     (rt_user rt = Administrator → su_role u = Admin ∧ portal_only r = false)) ∧
  (user = Ok None → rt_user rt = Anyone).
Proof.
  unfold find_user. destruct (rt_user rt).
  - intros [= <- <-]. split_and!; [by destruct s|apply same_sessions_refl|done|done].
  - pose proof (signed_in_user_same (view s) r (sv_db s)) as Hs. destruct (signed_in_user _ _ _ _ _ _) as [d a] eqn:E. intros [= <- <-].
    split_and!; [done|exact Hs| |by destruct a]. intros u Hu. destruct a as [w|]; [|done]. apply Ok_inj in Hu as [= ->]. split_and!; [done|eauto|done].
  - pose proof (current_user_same sha ttl now (view s) r (sv_db s)) as Hs. destruct (current_user _ _ _ _ _ _) as [d a] eqn:E. intros [= <- <-].
    split_and!; [done|exact Hs| |by destruct a]. intros u Hu. destruct a as [w|]; [|done]. apply Ok_inj in Hu as [= ->]. split_and!; [done| |].
    + unfold current_user in E. destruct (signed_in_user _ _ _ _ _ _) as [d' [w|]]; [|done]. destruct (su_role w); [|done]. injection E as <- <-. eauto.
    + intros _. by eapply current_user_admin.
Qed.

Lemma table_policy rt : rt ∈ ROUTES →
  (rt_user rt = Anyone → rt_path rt ∈ OPEN_PATHS) ∧
  (rt_method rt ≠ GET → rt_check rt ≠ Unchecked ∨ rt_path rt = "/api/relay/authorize") ∧
  (rt_user rt = AnyAccount → startswith "/api/portal" (rt_path rt) = true ∨ startswith "/api/me" (rt_path rt) = true).
Proof.
  intros Hin. pose proof routes_guarded as Hg. rewrite forallb_forall in Hg. apply list_elem_of_In, Hg in Hin. unfold guarded in Hin.
  apply andb_true_iff in Hin as [[H1 H2]%andb_true_iff H3]. rewrite !orb_true_iff in H2, H3. split_and!.
  - intros Hu. rewrite Hu in H1. apply existsb_exists in H1 as (x & Hx & ->%String.eqb_eq). by apply list_elem_of_In.
  - intros Hm. destruct H2 as [[H2|H2]|H2]; [by apply bool_decide_eq_true_1 in H2|left; by apply negb_true_iff, bool_decide_eq_false_1 in H2|right; by apply String.eqb_eq].
  - intros Hu. destruct H3 as [[H3|H3]|H3]; [by apply bool_decide_eq_true_1 in H3|by left|by right].
Qed.

(** C6. No request gets past the table: a handler runs only for a route of it, behind the boundary, with a
    body in its bounds; for the session's own account, an administrator's where the route is one of
    administration, and without an account only on the few open paths; a request that is not a GET
    comes from the page itself, the relay's own endpoint apart.  Any other request leaves everything
    but the session rows as it was. *)
Theorem requests_guarded m r chunks b s s' p :
  (∀ m path rt, dispatch m path = Some rt → rt ∈ ROUTES ∧ rt_method rt = m) →
  serve m r chunks b s = (s', p) →
  (∃ rt user d, rt ∈ ROUTES ∧ rt_method rt = m ∧ body_ok b = true ∧ portal_boundary true r = Pass ∧
     same_but_sessions (sv_db s) d ∧ s' = (handler rt b user (set_db d s)).1 ∧
     match user with
     | Some u => (∃ d', signed_in_user sha ttl now (view s) r (sv_db s) = (d', Ok u)) ∧
                 match su_role u with
                 | Admin => portal_only r = false ∨ rt_user rt = AnyAccount
                 | Client => startswith "/api/portal" (rt_path rt) = true ∨ startswith "/api/me" (rt_path rt) = true
                 end
     | None => rt_path rt ∈ OPEN_PATHS
     end ∧
     (m ≠ GET → own_page r chunks ∨ rt_path rt = "/api/relay/authorize")) ∨
  (s' = set_db (sv_db s') s ∧ same_but_sessions (sv_db s) (sv_db s')).
Proof.
  intros Hd. unfold serve. set (inner := match portal_boundary true r with Pass => _ | Redirect => _ | NotFound => _ end).
  assert (Hsame : s = set_db (sv_db s) s ∧ same_but_sessions (sv_db s) (sv_db s)) by (split; [by destruct s|apply same_sessions_refl]).
  destruct inner as [s1 p1] eqn:Ei. intros [= <- _]. subst inner. destruct (portal_boundary true r); [|injection Ei as <- _; by right..].
  destruct (dispatch m (Access.rq_path r)) as [rt|] eqn:Ert; [|injection Ei as <- _; by right]. destruct (Hd _ _ _ Ert) as [Hin Hm].
  unfold run_route in Ei. destruct (check_forgery rt r chunks) as [x|e] eqn:Ec; [|injection Ei as <- _; by right].
  destruct (find_user rt r s) as [s2 user] eqn:Ef. destruct (find_user_sound _ _ _ _ _ Ef) as (Hs2 & Hss & Hsome & Hnone).
  destruct user as [user|e]; [|injection Ei as <- _; by right]. destruct (body_ok b) eqn:Eb; [|injection Ei as <- _; by right]. left.
  destruct (table_policy rt Hin) as (Hopen & Hforge & Hany). exists rt, user, (sv_db s2). split_and!; try done.
  - rewrite <-Hs2. destruct (handler rt b user s2) as [s3 [q|e]]; by injection Ei as <- _.
  - destruct user as [u|]; [|by apply Hopen, Hnone]. destruct (Hsome u eq_refl) as (Hne & Hlive & Hadm). split; [done|].
    destruct (rt_user rt); [done| |]; destruct (su_role u); first [by auto | destruct (Hadm eq_refl); by auto].
  - intros Hget. destruct Hforge as [Hf|Hf]; [by rewrite Hm|left; by eapply check_forgery_own|by right].
Qed.

Lemma set_header_get k v p : rp_header (set_header k v p) k = Some v.
Proof. unfold rp_header, set_header. cbn. by rewrite String.eqb_refl. Qed.
Lemma find_filter (f g : string * string → bool) l : (∀ h, f h = true → g h = true) → find f (List.filter g l) = find f l.
Proof.
  intros Hfg. induction l as [|h l IH]; [done|]. cbn [List.filter find]. destruct (g h) eqn:Eg; cbn [find]; [by rewrite IH|].
  destruct (f h) eqn:Ef; [by rewrite (Hfg h Ef) in Eg|done].
Qed.
Lemma set_header_other k v j p : j ≠ k → rp_header (set_header k v p) j = rp_header p j.
Proof.
  intros Hj. unfold rp_header, set_header. cbn [rp_headers find fst]. destruct (String.eqb_spec k j) as [->|_]; [done|]. f_equal.
  apply find_filter. intros h ->%String.eqb_eq. apply negb_true_iff. by apply String.eqb_neq.
Qed.
Lemma set_default_get k v p : rp_header (set_default k v p) k = Some (default v (rp_header p k)).
Proof. unfold set_default. destruct (rp_header p k) as [x|] eqn:E; [done|]. by rewrite set_header_get. Qed.
Lemma set_default_other k v j p : j ≠ k → rp_header (set_default k v p) j = rp_header p j.
Proof. intros Hj. unfold set_default. destruct (rp_header p k); [done|]. by apply set_header_other. Qed.
Lemma set_default_kept k v j p x : rp_header p j = Some x → rp_header (set_default k v p) j = Some x.
Proof.
  intros H. destruct (decide (j = k)) as [->|Hj]; [|by rewrite set_default_other]. by rewrite set_default_get, H.
Qed.

(** No mark-up character of the message is left in the page. *)
Definition markup (c : ascii) : bool := mem_char c "<>" || Ascii.eqb c (chr 34) || Ascii.eqb c (chr 39).
Lemma escape_no_markup s : str_forall (fun c => negb (markup c)) (html_escape s) = true.
Proof.
  induction s as [|c s IH]; [done|]. cbn [html_escape]. rewrite str_forall_app, IH, andb_true_r. unfold escape_markup.
  repeat match goal with |- context [if Ascii.eqb c ?d then _ else _] => destruct (Ascii.eqb_spec c d); [done|] end. cbn [str_forall].
  rewrite andb_true_r. apply negb_true_iff. unfold markup, mem_char, str_exists. cbn [str_forall].
  repeat match goal with H : c ≠ ?d |- _ => apply Ascii.eqb_neq in H; try rewrite H; try rewrite (Ascii.eqb_sym d c), H end. done.
Qed.

(** Every answer has the headers that confine a page, whatever handler, check or boundary gave it;
    nothing below /api/ and /p/ may be stored. *)
Theorem answers_hardened m r chunks b s s' p :
  serve m r chunks b s = (s', Ok p) →
  (∀ k, k ∈ ["x-content-type-options"; "x-frame-options"; "referrer-policy"; "content-security-policy"] → is_Some (rp_header p k)) ∧
  (startswith "/api/" (Access.rq_path r) || startswith "/p/" (Access.rq_path r) = true → rp_header p "cache-control" = Some "no-store").
Proof.
  unfold serve. destruct (match portal_boundary true r with Pass => _ | Redirect => _ | NotFound => _ end) as [s1 [q|e]]; [|done].
  intros [= _ <-]. split.
  - intros k Hk. unfold security_headers. set (q4 := set_default "content-security-policy" CSP _).
    assert (H4 : is_Some (rp_header q4 k) ∧ k ≠ "cache-control").
    { rewrite !elem_of_cons in Hk. split; [|by destruct_or!; subst; try by apply not_elem_of_nil in Hk]. unfold q4.
      destruct Hk as [->|[->|[->|[->|Hk%not_elem_of_nil]]]]; [| | | |done]; eexists;
        repeat (first [apply set_default_get | apply set_default_kept]). }
    destruct H4 as [H4 Hne]. destruct (_ || _ : bool); [by rewrite set_header_other|]. destruct (startswith _ _); [by rewrite set_header_other|done].
  - intros Hp. unfold security_headers. rewrite Hp. apply set_header_get.
Qed.
End serve.

(** The text of an error is shown as text. *)
Lemma error_page_text message status portal : ∃ text back,
  rp_content (profile_download_error message status portal) = Page (page_head +:+ text +:+ page_tail back) ∧
  str_forall (fun c => negb (markup c)) text = true.
Proof. eexists _, _. split; [reflexivity|]. apply escape_no_markup. Qed.

(** ** Witnesses *)

Definition exact_dispatch (m : http_method) (path : string) : option route :=
  find (fun rt => bool_decide (rt_method rt = m) && String.eqb (rt_path rt) path) ROUTES.
Lemma exact_dispatch_sound m path rt : exact_dispatch m path = Some rt → rt ∈ ROUTES ∧ rt_method rt = m.
Proof. intros [Hin [Hm%bool_decide_eq_true_1 _]%andb_true_iff]%find_some. split; [by apply list_elem_of_In|done]. Qed.

Definition note_handler (rt : route) (b : body) (user : option session_user) (s : server) : server * result answer :=
  match user with
  | Some u => (event 1500 "remote_changed" (su_username u) None None s, Ok (Answer 200 [("cache-control", "max-age=60")] (Content "ok")))
  | None => (s, Raise (HTTPException 503 "The collector is not running"))
  end.
Definition settings_request : Access.request := Access.Request (Some "192.0.2.7") [("host", "vpn"); ("x-requested-with", "fetch")] (Some "tok") "/api/settings".
Definition serve_demo (r : Access.request) : server * result answer :=
  serve id 43200 1500 (fun k m => k) (fun _ => Ok "") exact_dispatch note_handler PUT r [] (RemoteBody "vpn.example.com" []) admin_server.

Lemma requests_guarded_witness :
  (rp_status <$> (serve_demo settings_request).2) = Ok 200 ∧
  ∃ rt user d, rt ∈ ROUTES ∧ rt_method rt = PUT ∧ same_but_sessions (sv_db admin_server) d ∧
    (serve_demo settings_request).1 = (note_handler rt (RemoteBody "vpn.example.com" []) user (set_db d admin_server)).1 ∧
    own_page (fun k m => k) (fun _ => Ok "") settings_request [].
Proof.
  assert (Hok : (rp_status <$> (serve_demo settings_request).2) = Ok 200) by (vm_compute; reflexivity). split; [exact Hok|].
  assert (Hev : length (events (sv_db (serve_demo settings_request).1)) = S (length (events (sv_db admin_server)))) by (vm_compute; reflexivity).
  destruct (serve_demo settings_request) as [s' p] eqn:Hrun. cbn [fst snd] in *.
  destruct (requests_guarded id 43200 1500 (fun k m => k) (fun _ => Ok "") exact_dispatch note_handler PUT settings_request []
    (RemoteBody "vpn.example.com" []) admin_server s' p exact_dispatch_sound Hrun) as [(rt & user & d & Hin & Hm & _ & _ & Hs & Hh & _ & Hown)|[_ Hsame]].
  - exists rt, user, d. split; [exact Hin|]. split; [exact Hm|]. split; [exact Hs|]. split; [exact Hh|].
    destruct Hown as [Ho|Ho]; [discriminate|exact Ho|]. exfalso.
    assert (Hno : forallb (fun rt => negb (bool_decide (rt_method rt = PUT) && String.eqb (rt_path rt) "/api/relay/authorize")) ROUTES = true) by (vm_compute; reflexivity).
    rewrite forallb_forall in Hno. apply list_elem_of_In, Hno in Hin. rewrite Ho, Hm in Hin. discriminate Hin.
  - exfalso. unfold same_but_sessions in Hsame. rewrite Hsame in Hev. cbn [upd_web_sessions events] in Hev. clear -Hev. lia.
Defined.

Lemma answers_hardened_witness :
  ∃ p, (serve_demo settings_request).2 = Ok p ∧ is_Some (rp_header p "x-frame-options") ∧ rp_header p "cache-control" = Some "no-store".
Proof.
  assert (Hok : is_ok (serve_demo settings_request).2 = true) by (vm_compute; reflexivity).
  destruct (serve_demo settings_request) as [s' [p|e]] eqn:Hrun; [|discriminate Hok]. exists p. split; [reflexivity|].
  destruct (answers_hardened id 43200 1500 (fun k m => k) (fun _ => Ok "") exact_dispatch note_handler PUT settings_request []
    (RemoteBody "vpn.example.com" []) admin_server s' p Hrun) as [H1 H2].
  split; [apply H1; right; left|apply H2; reflexivity].
Defined.
