(* ===== verification/LiveFeed.v ===== *)
(** * The live feed of the collector

    [subscribe], [unsubscribe], [_publish] and [_offer] of [ui/app/collector.py]: the collector's thread
    hands snapshots to the event loop of the web server, where each open stream has a queue of eight.
    The steps of the two threads interleave freely; a publication is one step per subscriber after the
    list was copied under the lock.  Snapshots are deep copies, so they are values here.  What a reader
    took, what was published to it and how much was lost are history, not state of the program. *)

From S2P Require Import Prelude.

Open Scope list_scope.

Definition MAXSIZE : nat := 8.

Section feed.
Context {A : Type}.

Record channel := Channel {
  ch_queue : list A;
  ch_taken : list A;
  ch_published : list A;
  ch_dropped : nat;
}.
Record feed := Feed {
  fd_live : A;                       (* [self.live] *)
  fd_subscribers : list nat;
  fd_next : nat;
  fd_todo : list (nat * A);          (* of the publication that is under way *)
  fd_ready : list (nat * A);         (* callbacks the event loop has not run *)
  fd_channels : gmap nat channel;
  fd_open : bool;                    (* the event loop runs *)
}.

Definition no_messages : channel := Channel [] [] [] 0.
Definition set_queue (f : channel → channel) (q : nat) (s : feed) : feed :=
  Feed (fd_live s) (fd_subscribers s) (fd_next s) (fd_todo s) (fd_ready s) (alter f q (fd_channels s)) (fd_open s).

Definition lost (c : channel) : channel := Channel (ch_queue c) (ch_taken c) (ch_published c) (S (ch_dropped c)).
Definition published (v : A) (c : channel) : channel := Channel (ch_queue c) (ch_taken c) (ch_published c ++ [v]) (ch_dropped c).
(** [_offer]: a slow reader skips updates. *)
Definition offer (v : A) (c : channel) : channel :=
  if Nat.ltb (length (ch_queue c)) MAXSIZE then Channel (ch_queue c ++ [v]) (ch_taken c) (ch_published c) (ch_dropped c) else lost c.

Definition subscribe (s : feed) : feed :=
  Feed (fd_live s) (fd_subscribers s ++ [fd_next s]) (S (fd_next s)) (fd_todo s) (fd_ready s) (<[fd_next s := no_messages]> (fd_channels s)) (fd_open s).
Definition unsubscribe (q : nat) (s : feed) : feed :=
  Feed (fd_live s) (List.filter (fun p => negb (Nat.eqb p q)) (fd_subscribers s)) (fd_next s) (fd_todo s) (fd_ready s) (fd_channels s) (fd_open s).
(** The copies [_publish] makes under the lock. *)
Definition publish (s : feed) : feed :=
  Feed (fd_live s) (fd_subscribers s) (fd_next s) ((fun q => (q, fd_live s)) <$> fd_subscribers s) (fd_ready s)
    (foldr (alter (published (fd_live s))) (fd_channels s) (fd_subscribers s)) (fd_open s).
(** [call_soon_threadsafe], a RuntimeError when the loop has shut down. *)
Definition hand_over (q : nat) (v : A) (todo : list (nat * A)) (s : feed) : feed :=
  let s := Feed (fd_live s) (fd_subscribers s) (fd_next s) todo (if fd_open s then fd_ready s ++ [(q, v)] else fd_ready s) (fd_channels s) (fd_open s) in
  if fd_open s then s else set_queue lost q s.

Inductive step : feed → feed → Prop :=
| step_update v s : step s (Feed v (fd_subscribers s) (fd_next s) (fd_todo s) (fd_ready s) (fd_channels s) (fd_open s))
| step_subscribe s : step s (subscribe s)
| step_unsubscribe q s : step s (unsubscribe q s)
| step_publish s : fd_todo s = [] → step s (publish s)
| step_hand q v todo s : fd_todo s = (q, v) :: todo → step s (hand_over q v todo s)
| step_callback q v ready s : fd_ready s = (q, v) :: ready → fd_open s = true →
    step s (set_queue (offer v) q (Feed (fd_live s) (fd_subscribers s) (fd_next s) (fd_todo s) ready (fd_channels s) (fd_open s)))
| step_take q v queue c s : fd_channels s !! q = Some c → ch_queue c = v :: queue →
    step s (set_queue (fun c => Channel queue (ch_taken c ++ [v]) (ch_published c) (ch_dropped c)) q s)
| step_close s : step s (Feed (fd_live s) (fd_subscribers s) (fd_next s) (fd_todo s) (fd_ready s) (fd_channels s) false).

Definition new_feed (v : A) : feed := Feed v [] 0 [] [] ∅ true.

(** ** The invariant *)

(** What is on its way to a queue. *)
Definition on_its_way (q : nat) (l : list (nat * A)) : list A := (filter (fun m => m.1 = q) l).*2.
Definition pending (q : nat) (s : feed) : list A := on_its_way q (fd_ready s ++ fd_todo s).

#[local] Arguments on_its_way : simpl never.
#[local] Arguments pending : simpl never.

Record channel_ok (l : list A) (c : channel) : Prop := ChannelOk {
  ok_size : (length (ch_queue c) ≤ MAXSIZE)%nat;
  ok_order : ch_taken c ++ ch_queue c ++ l `sublist_of` ch_published c;
  ok_count : (length (ch_taken c) + length (ch_queue c) + length l + ch_dropped c = length (ch_published c))%nat;
}.
Record inv (s : feed) : Prop := Inv {
  inv_subs : NoDup (fd_subscribers s);
  inv_known : Forall (fun q => q < fd_next s)%nat (fd_subscribers s);
  inv_ids : ∀ q, is_Some (fd_channels s !! q) ↔ (q < fd_next s)%nat;
  inv_sent : Forall (fun m => m.1 < fd_next s)%nat (fd_ready s ++ fd_todo s);
  inv_channels : ∀ q c, fd_channels s !! q = Some c → channel_ok (pending q s) c;
}.

Lemma way_app q l k : on_its_way q (l ++ k) = on_its_way q l ++ on_its_way q k.
Proof. unfold on_its_way. by rewrite filter_app, fmap_app. Qed.
Lemma way_cons q p v l : on_its_way q ((p, v) :: l) = if decide (p = q) then v :: on_its_way q l else on_its_way q l.
Proof. unfold on_its_way. rewrite filter_cons. cbn [fst]. by case_decide. Qed.
Lemma way_unknown q l : Forall (fun m => m.1 ≠ q) l → on_its_way q l = [].
Proof. induction 1 as [|[p v] l Hm _ IH]; [done|]. rewrite way_cons. cbn in Hm. by rewrite decide_False. Qed.

(** A message that is lost. *)
Lemma drop_ok l1 v l2 c : channel_ok (l1 ++ v :: l2) c → channel_ok (l1 ++ l2) (lost c).
Proof.
  intros [H1 H2 H3]. split; cbn; [done| |rewrite length_app in H3 |- *; cbn in H3; lia]. etrans; [|exact H2].
  apply sublist_app; [done|]. apply sublist_app; [done|]. apply sublist_app; [done|]. by constructor.
Qed.

Lemma offer_ok v l c : channel_ok (v :: l) c → channel_ok l (offer v c).
Proof.
  intros H. unfold offer. destruct (Nat.ltb_spec (length (ch_queue c)) MAXSIZE) as [Hl|Hl]; [|by apply (drop_ok [] v)].
  destruct H as [H1 H2 H3]. split; cbn in *; [rewrite length_app; cbn; lia| |rewrite length_app; cbn; lia]. by rewrite <-app_assoc.
Qed.

Lemma published_ok v l c : channel_ok l c → channel_ok (l ++ [v]) (published v c).
Proof.
  intros [H1 H2 H3]. split; cbn; [done| |rewrite !length_app; cbn; lia]. rewrite !app_assoc. rewrite <-!app_assoc. rewrite (app_assoc (ch_queue c)), (app_assoc (ch_taken c)).
  by apply sublist_app.
Qed.

(** Updating one channel. *)
Lemma inv_set_queue f q s s' : inv s →
  fd_subscribers s' = fd_subscribers s → fd_next s' = fd_next s → fd_channels s' = alter f q (fd_channels s) →
  Forall (fun m => m.1 < fd_next s)%nat (fd_ready s' ++ fd_todo s') →
  (∀ p, p ≠ q → pending p s' = pending p s) → (∀ c, fd_channels s !! q = Some c → channel_ok (pending q s') (f c)) → inv s'.
Proof.
  intros [H1 H2 H3 H4 H5] E1 E2 E3 Hsent Hother Hq. split.
  - by rewrite E1.
  - by rewrite E1, E2.
  - intros p. rewrite E2, E3, <-H3. destruct (decide (p = q)) as [->|Hp]; [rewrite lookup_alter_eq; apply fmap_is_Some|by rewrite lookup_alter_ne].
  - by rewrite E2.
  - intros p c. rewrite E3. destruct (decide (p = q)) as [->|Hp].
    + rewrite lookup_alter_eq. intros (c0 & Hc0 & ->)%fmap_Some. by apply Hq.
    + rewrite lookup_alter_ne by done. rewrite Hother by done. apply H5.
Qed.

Lemma foldr_alter_lookup (f : channel → channel) l : NoDup l → ∀ (m : gmap nat channel) q,
  foldr (alter f) m l !! q = if decide (q ∈ l) then f <$> m !! q else m !! q.
Proof.
  induction 1 as [|p l Hp Hnd IH]; intros m q; cbn [foldr]; [by rewrite decide_False by apply not_elem_of_nil|].
  destruct (decide (p = q)) as [->|Hne].
  - rewrite lookup_alter_eq, IH. rewrite decide_False by done. by rewrite decide_True by left.
  - rewrite lookup_alter_ne, IH by done. destruct (decide (q ∈ l)) as [Hq|Hq]; [by rewrite decide_True by (by right)|].
    rewrite decide_False; [done|]. intros [->|?]%elem_of_cons; done.
Qed.

Lemma way_fmap q v l : NoDup l → on_its_way q ((fun p => (p, v)) <$> l) = if decide (q ∈ l) then [v] else [].
Proof.
  induction 1 as [|p l Hp Hnd IH]; cbn [fmap list_fmap]; [by rewrite decide_False by apply not_elem_of_nil|].
  change (list_fmap _ _ ?f ?k) with (f <$> k). rewrite way_cons, IH. destruct (decide (p = q)) as [->|Hne].
  - rewrite decide_False by done. by rewrite decide_True by left.
  - destruct (decide (q ∈ l)); [by rewrite decide_True by (by right)|]. rewrite decide_False; [done|]. intros [->|?]%elem_of_cons; done.
Qed.

Lemma inv_subscribe s : inv s → inv (subscribe s).
Proof.
  intros [H1 H2 H3 H4 H5]. rewrite Forall_forall in H2. rewrite Forall_forall in H4. split; cbn.
  - apply NoDup_app. split_and!; [done| |by apply NoDup_singleton]. intros x Hx ->%list_elem_of_singleton. specialize (H2 _ Hx). lia.
  - apply Forall_app. split; [|apply Forall_singleton; lia]. apply Forall_forall. intros x Hx. specialize (H2 _ Hx). lia.
  - intros q. destruct (decide (q = fd_next s)) as [->|Hne]; [rewrite lookup_insert_eq; split; [lia|by eauto]|]. rewrite lookup_insert_ne by done. rewrite H3. lia.
  - apply Forall_forall. intros m Hm. specialize (H4 _ Hm). lia.
  - intros q c. unfold pending in *. cbn [subscribe fd_ready fd_todo]. destruct (decide (q = fd_next s)) as [->|Hne]; [|rewrite lookup_insert_ne by done; apply H5].
    rewrite lookup_insert_eq. intros [= <-]. assert (Hp : on_its_way (fd_next s) (fd_ready s ++ fd_todo s) = []).
    { apply way_unknown, Forall_forall. intros m Hm. specialize (H4 _ Hm). lia. }
    rewrite Hp. split; cbn; [lia|done|done].
Qed.

Lemma inv_publish s : inv s → fd_todo s = [] → inv (publish s).
Proof.
  intros [H1 H2 H3 H4 H5] Ht. split; cbn; [done|done| | |].
  - intros q. rewrite <-H3. rewrite foldr_alter_lookup by done. case_decide; [apply fmap_is_Some|done].
  - apply Forall_app. rewrite Ht, app_nil_r in H4. split; [done|]. apply Forall_fmap. exact H2.
  - intros q c. rewrite foldr_alter_lookup by done. unfold pending. cbn [fd_ready fd_todo publish]. rewrite way_app, way_fmap by done.
    assert (Hr : ∀ c, fd_channels s !! q = Some c → channel_ok (on_its_way q (fd_ready s)) c).
    { intros c0 Hc0. apply H5 in Hc0. unfold pending in Hc0. by rewrite Ht, app_nil_r in Hc0. }
    case_decide; [|rewrite app_nil_r; apply Hr]. intros (c0 & Hc0 & ->)%fmap_Some. by apply published_ok, Hr.
Qed.

Lemma inv_hand q v todo s : inv s → fd_todo s = (q, v) :: todo → inv (hand_over q v todo s).
Proof.
  intros Hi Ht. pose proof (inv_sent s Hi) as Hs. rewrite Ht in Hs. unfold hand_over. cbn [fd_open]. destruct (fd_open s) eqn:Eo.
  - assert (Heq : (fd_ready s ++ [(q, v)]) ++ todo = fd_ready s ++ (q, v) :: todo) by (by rewrite <-app_assoc).
    destruct Hi as [H1 H2 H3 H4 H5]. split; cbn; try done; [by rewrite Heq|]. intros p c Hc. unfold pending. cbn [fd_ready fd_todo]. rewrite Heq, <-Ht. by apply H5.
  - apply (inv_set_queue lost q s); try done; cbn.
    + apply Forall_app in Hs as [Hr Hs]. apply Forall_cons in Hs as [_ Hs]. by apply Forall_app.
    + intros p Hp. unfold pending. cbn [fd_ready fd_todo set_queue]. rewrite Ht, !way_app, way_cons. by rewrite decide_False by congruence.
    + intros c Hc. apply (inv_channels s Hi) in Hc. unfold pending in *. cbn [fd_ready fd_todo set_queue]. rewrite Ht, way_app, way_cons, decide_True in Hc by done.
      rewrite way_app. by eapply drop_ok.
Qed.

Lemma inv_step s s' : inv s → step s s' → inv s'.
Proof.
  intros Hi. inversion 1 as [v s0|s0|q s0|s0 Ht|q v todo s0 Ht|q v ready s0 Hr Ho|q v queue c s0 Hc Hq|s0]; subst.
  - by destruct Hi.
  - by apply inv_subscribe.
  - destruct Hi as [H1 H2 H3 H4 H5]. rewrite Forall_forall in H2. split; cbn; try done.
    + induction H1 as [|p l Hp Hnd IH]; cbn [List.filter]; [constructor|]. assert (Hl : ∀ x, x ∈ l → (x < fd_next s)%nat) by (intros x Hx; apply H2; by right).
      destruct (negb _); [|by apply IH]. constructor; [|by apply IH]. intros Hin. apply list_elem_of_In, filter_In in Hin as [Hin _]. by apply Hp, list_elem_of_In.
    + apply Forall_forall. intros x Hx. apply list_elem_of_In, filter_In in Hx as [Hx _]. by apply H2, list_elem_of_In.
  - by apply inv_publish.
  - by apply inv_hand.
  - pose proof (inv_sent s Hi) as Hs. rewrite Hr in Hs. cbn [app] in Hs. apply Forall_cons in Hs as [_ Hs]. apply (inv_set_queue (offer v) q s); try done.
    + intros p Hp. unfold pending. cbn [fd_ready fd_todo set_queue]. rewrite Hr. cbn [app]. rewrite way_cons. by rewrite decide_False by congruence.
    + intros c Hc. apply (inv_channels s Hi) in Hc. unfold pending in *. cbn [fd_ready fd_todo set_queue]. rewrite Hr in Hc. cbn [app] in Hc.
      rewrite way_cons, decide_True in Hc by done. by apply offer_ok.
  - apply (inv_set_queue (fun c => Channel queue (ch_taken c ++ [v]) (ch_published c) (ch_dropped c)) q s); try done; [apply Hi|].
    intros c0 Hc0. assert (c0 = c) as -> by congruence. apply (inv_channels s Hi) in Hc. unfold pending in *. cbn [set_queue fd_ready fd_todo].
    destruct Hc as [K1 K2 K3]. rewrite Hq in K1, K2, K3. split; cbn in *; [lia|by rewrite <-app_assoc|rewrite length_app; cbn; lia].
  - by destruct Hi.
Qed.

Lemma inv_reachable v s : rtc step (new_feed v) s → inv s.
Proof.
  intros H. assert (H0 : inv (new_feed v)).
  { split; cbn; try by constructor. intros q. rewrite lookup_empty. split; [by intros []|lia]. }
  induction H as [s|s1 s2 s3 Hs _ IH]; [done|]. apply IH. by eapply inv_step.
Qed.

(** C38. A stream shows the snapshots in the order they were published, whatever the interleaving of the
    collector with the event loop: what its reader took, then what is in its queue, then what is on its
    way, is what was published to it with some left out; nothing was left out while nothing was
    lost, a queue never holds more than eight, and the collector is never held up: it can always
    finish the publication it is at, whether readers take anything or not. *)
Theorem feed_in_order v s :
  rtc step (new_feed v) s →
  (∀ q c, fd_channels s !! q = Some c →
     (length (ch_queue c) ≤ MAXSIZE)%nat ∧
     ch_taken c ++ ch_queue c ++ pending q s `sublist_of` ch_published c ∧
     (ch_dropped c = 0%nat → ch_taken c ++ ch_queue c ++ pending q s = ch_published c)) ∧
  ∃ s', rtc step s s' ∧ fd_todo s' = [] ∧ ∀ q, ch_taken <$> fd_channels s' !! q = ch_taken <$> fd_channels s !! q.
Proof.
  intros H. pose proof (inv_reachable _ _ H) as Hi. split.
  - intros q c Hc. destruct (inv_channels s Hi q c Hc) as [H1 H2 H3]. split_and!; [done|done|]. intros Hd.
    assert (Hlen : (length (ch_taken c ++ ch_queue c ++ pending q s) = length (ch_published c))%nat) by (rewrite !length_app; lia).
    clear -H2 Hlen. induction H2 as [|x l1 l2 Hl IH|x l1 l2 Hl IH]; [done|f_equal; apply IH; by injection Hlen|]. apply sublist_length in Hl. cbn in Hlen. lia.
  - clear H Hi. remember (fd_todo s) as todo eqn:Ht. revert s Ht. induction todo as [|[q x] todo IH]; intros s Ht; [exists s; by split_and!|].
    destruct (IH (hand_over q x todo s)) as (s' & Hs & Hd & Hk); [unfold hand_over; cbn [fd_open]; by destruct (fd_open s)|].
    exists s'. split; [eapply rtc_l; [by apply (step_hand q x todo)|done]|]. split; [done|]. intros p. rewrite Hk. unfold hand_over. cbn [fd_open].
    destruct (fd_open s); [done|]. unfold set_queue. cbn [fd_channels]. destruct (decide (p = q)) as [->|Hne]; [|by rewrite lookup_alter_ne].
    rewrite lookup_alter_eq. by destruct (fd_channels s !! q).
Qed.
End feed.
Arguments feed : clear implicits.
Arguments channel : clear implicits.

(** ** Witness *)

Definition after_one : feed Z := publish (subscribe (new_feed 5%Z)).
Definition handed : feed Z := hand_over 0 5%Z [] after_one.

Lemma feed_in_order_witness :
  ∃ c, fd_channels handed !! 0%nat = Some c ∧ ch_published c = [5%Z] ∧ ch_taken c ++ ch_queue c ++ pending 0 handed = [5%Z].
Proof.
  destruct (feed_in_order 5%Z handed) as [H _].
  - eapply rtc_l; [apply step_subscribe|]. eapply rtc_l; [apply step_publish; reflexivity|]. apply rtc_once. apply (step_hand 0 5%Z []). reflexivity.
  - destruct (fd_channels handed !! 0%nat) as [c|] eqn:E; [|vm_compute in E; discriminate E]. exists c. split; [reflexivity|].
    assert (Hc : (fun c => (ch_published c, ch_dropped c)) <$> fd_channels handed !! 0%nat = Some ([5%Z], 0%nat)) by (vm_compute; reflexivity).
    rewrite E in Hc. injection Hc as Hp Hd. split; [exact Hp|]. rewrite <-Hp. apply (H 0%nat c E). exact Hd.
Defined.
