(* ===== verification/RelayExport.v ===== *)
(** * The export of a TLS identity, and commands

    [bin/export-relay-cert.py]: the choice of a certificate in Traefik's ACME store, its verification
    and the files that are replaced.  What OpenSSL says of a certificate and key, and whether a file can
    be written, are arguments.  And the commands of [ui/app/pki.py]: [_env] and [_run]; what a process
    does is an argument. *)

From S2P Require Import Prelude PyStr Regex Url Signing.

Open Scope string_scope.
Open Scope list_scope.
Open Scope Z_scope.

(** ** The export *)

Definition dns_char (c : ascii) : bool := in_range 97 122 c || is_decimal c.
Definition rx_hostname : regex :=
  RSeq (RChar dns_char) (opt (RSeq (RStar true (RChar (fun c => dns_char c || one_of ".-" c))) (RChar dns_char))).

(** [covers(pattern, hostname)]. *)
Definition pattern_covers (hostname pattern : string) : bool :=
  let pattern := rstrip_char "."%char (lower pattern) in
  String.eqb pattern hostname || (startswith "*." pattern && String.eqb (partition "."%char hostname).2 (str_drop 2 pattern)).

(** What [openssl verify] ends with. *)
Inductive verdict := Verified | Refused | Late.

Section export.
Context (load_cert_chain : string → string → result unit) (openssl_verify : string → string → verdict).

Definition skipped (e : exn) : bool := match e with KeyError | ValueError | SSLError => true | _ => false end.

(** The [try] for an entry: its identity, [None] when the loop goes on. *)
Definition try_entry (hostname : string) (e : acme_entry) : result (option (string * string)) :=
  let attempt :=
    cert ← of_option KeyError (ae_certificate e);
    cert ← of_option ValueError (b64decode_strict cert);
    key ← of_option KeyError (ae_key e);
    key ← of_option ValueError (b64decode_strict key);
    _ ← load_cert_chain cert key;
    Ok (cert, key) in
  match attempt with
  | Raise x => if skipped x then Ok None else Raise x
  | Ok (cert, key) =>
      match openssl_verify hostname cert with
      | Verified => Ok (Some (cert, key))
      | Refused => Ok None
      | Late => Raise SubprocessError
      end
  end.
Fixpoint select (hostname : string) (l : list acme_entry) : result (option (string * string)) :=
  match l with
  | [] => Ok None
  | e :: l =>
      found ← try_entry hostname e;
      match found with Some p => Ok (Some p) | None => select hostname l end
  end.

Definition matching (hostname : string) (store : list (option (list acme_entry))) : list acme_entry :=
  List.filter (fun e => existsb (pattern_covers hostname) (ae_main e :: ae_sans e)) (mjoin (map (default []) store)).

(** The files one after the other; [writable] tells whether a temporary file can be written and put in place. *)
Fixpoint replace_files (writable : string → bool) (l : list (string * string)) (out : gmap string string) : result unit * gmap string string :=
  match l with
  | [] => (Ok tt, out)
  | (name, content) :: l => if writable name then replace_files writable l (<[name := content]> out) else (Raise OSError, out)
  end.

Definition export (store : result (list (option (list acme_entry)))) (hostname : string) (writable : string → bool) (out : gmap string string)
    : result unit * gmap string string :=
  let hostname := rstrip_char "."%char (lower hostname) in
  let chosen :=
    _ ← raise_if (negb (re_fullmatch rx_hostname hostname)) ValueError;
    store ← store;
    let candidates := matching hostname store in
    _ ← raise_if (bool_decide (candidates = [])) ValueError;
    selected ← select hostname candidates;
    of_option ValueError selected in
  match chosen with
  | Raise e => (Raise e, out)
  | Ok (cert, key) => replace_files writable [("fullchain.pem", cert); ("privkey.pem", key)] out
  end.

(** [main]: the exit status. *)
Definition export_status (r : result unit) : result Z :=
  match r with
  | Ok _ => Ok 0
  | Raise e => match e with OSError | SSLError | ValueError | SubprocessError => Ok 1 | _ => Raise e end
  end.

(** ** Theorems *)

Lemma try_entry_some hostname e cert key : try_entry hostname e = Ok (Some (cert, key)) →
  (∃ c, ae_certificate e = Some c ∧ b64decode_strict c = Some cert) ∧ (∃ k, ae_key e = Some k ∧ b64decode_strict k = Some key) ∧
  load_cert_chain cert key = Ok tt ∧ openssl_verify hostname cert = Verified.
Proof.
  unfold try_entry. destruct (ae_certificate e) as [c|]; [|done]. cbn [of_option mbind result_bind]. destruct (b64decode_strict c) as [cert'|] eqn:Ec; [|done].
  cbn [of_option mbind result_bind]. destruct (ae_key e) as [k|]; [|done]. cbn [of_option mbind result_bind].
  destruct (b64decode_strict k) as [key'|] eqn:Ek; [|done]. cbn [of_option mbind result_bind].
  destruct (load_cert_chain cert' key') as [[]|x] eqn:El; cbn [mbind result_bind]; [|by destruct (skipped x)].
  destruct (openssl_verify hostname cert') eqn:Ev; [|done|done]. intros [= <- <-]. eauto 8.
Qed.

Lemma select_some hostname l p : select hostname l = Ok (Some p) → ∃ e, e ∈ l ∧ try_entry hostname e = Ok (Some p).
Proof.
  induction l as [|e l IH]; cbn [select]; [done|]. destruct (try_entry hostname e) as [[q|]|] eqn:Et; cbn [mbind result_bind]; [|intros (x & ? & ?)%IH|done].
  - intros [= ->]. exists e. split; [left|done].
  - exists x. split; [by right|done].
Qed.
Lemma select_finds hostname l : (∀ e, e ∈ l → is_ok (try_entry hostname e) = true) → (∃ e, e ∈ l ∧ ∀ r, try_entry hostname e = Ok r → r ≠ None) →
  ∃ p, select hostname l = Ok (Some p).
Proof.
  intros Hok (e & He & Hf). induction l as [|x l IH]; [by apply not_elem_of_nil in He|]. cbn [select].
  pose proof (Hok x ltac:(left)) as Hx. destruct (try_entry hostname x) as [[q|]|] eqn:Et; [by exists q| |done]. cbn [mbind result_bind].
  apply elem_of_cons in He as [->|He]; [by destruct (Hf None Et)|]. apply IH; [|done]. intros y Hy. apply Hok. by right.
Qed.

(** C39. What is exported was verified: the two files come from one entry of the store whose names cover the
    host, decoded, with a key that belongs to the certificate, and OpenSSL accepted it for that host;
    nothing else in the directory changes.  When nothing is fit, or anything fails before, the
    existing export stays as it was; a certificate that is skipped does not keep a later good one from being
    exported. *)
Theorem export_verified store hostname writable out r out' :
  export store hostname writable out = (r, out') →
  let host := rstrip_char "."%char (lower hostname) in
  (∀ e, r = Raise e → out' = out ∨ ∃ cert, writable "privkey.pem" = false ∧ out' = <["fullchain.pem" := cert]> out) ∧
  (r = Ok tt → ∃ entries entry cert key, store = Ok entries ∧ entry ∈ matching host entries ∧
     (∃ c, ae_certificate entry = Some c ∧ b64decode_strict c = Some cert) ∧ (∃ k, ae_key entry = Some k ∧ b64decode_strict k = Some key) ∧
     load_cert_chain cert key = Ok tt ∧ openssl_verify host cert = Verified ∧
     out' = <["privkey.pem" := key]> (<["fullchain.pem" := cert]> out)) ∧
  (∀ entries, store = Ok entries → re_fullmatch rx_hostname host = true → (∀ n, writable n = true) →
     (∀ e, e ∈ matching host entries → is_ok (try_entry host e) = true) →
     (∃ e, e ∈ matching host entries ∧ ∀ x, try_entry host e = Ok x → x ≠ None) → r = Ok tt).
Proof.
  intros H host. unfold export in H. fold host in H.
  destruct (re_fullmatch rx_hostname host) eqn:Er; cbn [negb raise_if mbind result_bind] in H; cycle 1.
  { injection H as <- <-. split_and!; [by left|done|done]. }
  destruct store as [entries|x]; cbn [mbind result_bind] in H; [|injection H as <- <-; split_and!; [by left|done|done]].
  case_bool_decide as Hc; cbn [raise_if mbind result_bind] in H.
  { injection H as <- <-. split_and!; [by left|done|]. intros l [= <-] _ _ _ (e & He & _). rewrite Hc in He. by apply not_elem_of_nil in He. }
  destruct (select host (matching host entries)) as [[[cert key]|]|x] eqn:Es; cbn [mbind result_bind of_option] in H.
  - destruct (select_some _ _ _ Es) as (e & He & Ht). destruct (try_entry_some _ _ _ _ Ht) as (H1 & H2 & H3 & H4). cbn [replace_files] in H.
    destruct (writable "fullchain.pem") eqn:Ew1; [destruct (writable "privkey.pem") eqn:Ew2|]; injection H as <- <-.
    + split_and!; [done| |done]. intros _. exists entries, e, cert, key. by split_and!.
    + split_and!; [intros _ _; right; by exists cert|done|]. intros l _ _ Hw. by rewrite Hw in Ew2.
    + split_and!; [by left|done|]. intros l _ _ Hw. by rewrite Hw in Ew1.
  - injection H as <- <-. split_and!; [by left|done|]. intros l [= <-] _ _ Hall Hex. destruct (select_finds _ _ Hall Hex) as [p Hp]. congruence.
  - injection H as <- <-. split_and!; [by left|done|]. intros l [= <-] _ _ Hall Hex. destruct (select_finds _ _ Hall Hex) as [p Hp]. congruence.
Qed.
End export.

Definition store_entry (names : list string) (cert key : string) : acme_entry := AcmeEntry "" names (Some cert) (Some key).
Definition demo_store : list (option (list acme_entry)) :=
  [None; Some [store_entry ["other.example.com"] "AAAA" "AAAA"; store_entry ["*.example.com"] "!" "AAAA"; store_entry ["*.Example.com."] "QUJD" "REVG"]].

Lemma export_verified_witness :
  ∃ out entry cert key, export (fun _ _ => Ok tt) (fun _ _ => Verified) (Ok demo_store) "Relay.Example.com." (fun _ => true) ∅ = (Ok tt, out) ∧
    entry ∈ matching "relay.example.com" demo_store ∧ out = <["privkey.pem" := key]> (<["fullchain.pem" := cert]> ∅).
Proof.
  assert (Hok : (export (fun _ _ => Ok tt) (fun _ _ => Verified) (Ok demo_store) "Relay.Example.com." (fun _ => true) ∅).1 = Ok tt) by (vm_compute; reflexivity).
  destruct (export (fun _ _ => Ok tt) (fun _ _ => Verified) (Ok demo_store) "Relay.Example.com." (fun _ => true) ∅) as [r out] eqn:Hrun. cbn [fst] in Hok. subst r.
  destruct (export_verified _ _ _ _ _ _ _ _ Hrun) as (_ & H & _). destruct (H eq_refl) as (entries & entry & cert & key & Hs & He & _ & _ & _ & _ & Ho).
  apply Ok_inj in Hs. subst entries. exists out, entry, cert, key. split; [reflexivity|]. split; [exact He|exact Ho].
Defined.

(** ** Commands *)

(** [_env]: nothing of the container's environment but the search path. *)
Definition command_env (path : option string) (openvpn_dir easyrsa_dir pki_dir : string) (extra : list (string * string)) : gmap string string :=
  let env : gmap string string :=
    <["PATH" := default "/usr/local/sbin:/usr/local/bin:/usr/sbin:/usr/bin:/sbin:/bin" path]> (<["HOME" := "/tmp"]>
      (<["OPENVPN_DIR" := openvpn_dir]> (<["EASYRSA_DIR" := easyrsa_dir]> (<["EASYRSA_PKI" := pki_dir]> {["EASYRSA_BATCH" := "1"]})))) in
  foldl (fun env kv => if empty kv.2 then env else <[kv.1 := kv.2]> env) env extra.

Inductive process := TimedOut | CannotRun (msg : string) | Exited (code : Z) (stdout stderr : string).

(** [Path(cmd[0]).name]. *)
Definition path_name (p : string) : string := (rpartition "/"%char p).2.

(** [_run]. *)
Definition run_command (cmd : string) (p : process) : result string :=
  match p with
  | TimedOut => Raise (PkiError (path_name cmd +:+ " timed out"))
  | CannotRun m => Raise (PkiError ("cannot run " +:+ cmd +:+ ": " +:+ m))
  | Exited code stdout stderr =>
      if code =? 0 then Ok stdout
      else
        let msg := splitlines (if empty (strip stderr) then strip stdout else strip stderr) in
        Raise (PkiError (match msg with
                         | [] => path_name cmd +:+ " failed (" +:+ str_of_int code +:+ ")"
                         | _ => join " " (drop (length msg - 3) msg)
                         end))
  end.

Lemma lstrip_first p s c t : lstrip_by p s = String c t → p c = false.
Proof. induction s as [|d s IH]; [done|]. cbn [lstrip_by]. destruct (p d) eqn:E; [exact IH|]. by intros [= <- <-]. Qed.
Lemma rstrip_first p s c t : rstrip_by p s = String c t → ∃ u, s = String c u.
Proof. destruct s as [|d s]; [done|]. cbn [rstrip_by]. destruct (rstrip_by p s); [destruct (p d); [done|]|]; intros [= <- _]; eauto. Qed.
Lemma strip_first s c t : strip s = String c t → is_space c = false.
Proof. unfold strip, strip_by. intros [u Hu]%rstrip_first. by eapply lstrip_first. Qed.
Lemma line_end_space c : is_line_end c = true → is_space c = true.
Proof. destruct c as [[] [] [] [] [] [] [] []]; vm_compute; congruence. Qed.
Lemma splitlines_first c t : is_line_end c = false → ∃ l ls, splitlines (String c t) = String c l :: ls.
Proof.
  intros Hc. cbn [splitlines]. rewrite Hc. destruct t as [|d t]; [eauto|]. destruct (is_line_end d); [eauto|]. destruct (splitlines (String d t)); eauto.
Qed.
Lemma join_nonempty l : l ≠ [] → (∀ x, l = [x] → x ≠ "") → join " " l ≠ "".
Proof.
  destruct l as [|x [|y l]]; [done|intros _ H; cbn; by apply H|]. intros _ _. change (join " " (x :: y :: l)) with (x +:+ " " +:+ join " " (y :: l)).
  by destruct x.
Qed.

Lemma env_extra l : ∀ (m : gmap string string) k v,
  foldl (fun env kv => if empty kv.2 then env else <[kv.1 := kv.2]> env) m l !! k = Some v → m !! k = Some v ∨ ((k, v) ∈ l ∧ v ≠ "").
Proof.
  induction l as [|[j w] l IH]; intros m k v; cbn [foldl fst snd]; [by left|]. intros [H|[H Hv]]%IH; [|right; split; [by right|done]].
  destruct (empty w) eqn:Ew; [by left|]. apply lookup_insert_Some in H as [[-> ->]|[_ H]]; [right; split; [left|by intros ->]|by left].
Qed.

(** A command that fails is always a [PkiError] with a text to show, never another exception, and what a
    command sees of the environment is the fixed list and what its caller passes: no secret of the
    container (database or administrator password, tokens) gets into the scripts. *)
Theorem commands_contained cmd p path openvpn_dir easyrsa_dir pki_dir extra :
  (∀ e, run_command cmd p = Raise e → ∃ m, e = PkiError m ∧ m ≠ "") ∧
  (∀ k v, command_env path openvpn_dir easyrsa_dir pki_dir extra !! k = Some v →
     k ∈ ["PATH"; "HOME"; "OPENVPN_DIR"; "EASYRSA_DIR"; "EASYRSA_PKI"; "EASYRSA_BATCH"] ∨ ((k, v) ∈ extra ∧ v ≠ "")).
Proof.
  split.
  - intros e. destruct p as [|m|code stdout stderr]; cbn [run_command].
    + intros [= <-]. eexists. split; [done|]. by destruct (path_name cmd).
    + intros [= <-]. by eexists.
    + destruct (code =? 0); [done|]. set (text := if empty (strip stderr) then strip stdout else strip stderr). intros [= <-]. eexists. split; [done|].
      destruct (splitlines text) as [|x msg] eqn:Em; [by destruct (path_name cmd)|].
      assert (Hx : x ≠ "").
      { destruct text as [|c t] eqn:Et; [done|]. assert (Hs : is_space c = false) by (unfold text in Et; destruct (empty (strip stderr)); by eapply strip_first).
        assert (Hl : is_line_end c = false). { destruct (is_line_end c) eqn:E; [|done]. by rewrite (line_end_space c E) in Hs. }
        destruct (splitlines_first c t Hl) as (l & ls & Hsp). rewrite Em in Hsp. by injection Hsp as -> ->. }
      apply join_nonempty.
      * intros Hd%(f_equal length). rewrite length_drop in Hd. cbn [length] in Hd. lia.
      * intros y Hy. destruct msg as [|z msg]; [by injection Hy as <-|]. exfalso. apply (f_equal length) in Hy. rewrite length_drop in Hy. cbn [length] in Hy. lia.
  - intros k v. unfold command_env. set (env := insert _ _ _). assert (Henv : ∀ k v, env !! k = Some v → k ∈ ["PATH"; "HOME"; "OPENVPN_DIR"; "EASYRSA_DIR"; "EASYRSA_PKI"; "EASYRSA_BATCH"]).
    { intros j w. unfold env. rewrite !lookup_insert_Some, lookup_singleton_Some. set_solver. }
    intros [H|H]%env_extra; [left; by eapply Henv|by right].
Qed.
