(* ===== verification/Services.v ===== *)
(** * Connections to the database and the policy service's state

    The rest of [ui/app/db.py] and [ui/app/policy_server.py] around a connection: the parameters and the
    environment of PostgreSQL's tools ([connection_parameters], [client_environment] of [migrate_db.py]),
    the placeholders of a statement ([Connection.execute]), and what the policy service sees of the state:
    the settings through its view, [check_metadata], and the address it binds. *)

From S2P Require Import Prelude PyStr Ipv4 Ipv6 Relay Migration.

Open Scope string_scope.
Open Scope list_scope.
Open Scope Z_scope.

(** ** Connection parameters *)

Section connection.
(** [os.environ], and [psycopg.conninfo.conninfo_to_dict]. *)
Context (environ : gmap string string) (conninfo : string → result (gmap string string)).

Definition getenv (name default_ : string) : string := default default_ (environ !! name).

Definition connection_parameters (dsn : string) : result (gmap string string) :=
  if negb (empty dsn) then conninfo dsn
  else
    let password := getenv "PGPASSWORD" (getenv "OPENVPN_DB_PASSWORD" "") in
    _ ← raise_if (empty password) ValueError;
    Ok (<["host" := getenv "PGHOST" "127.0.0.1"]> (<["port" := getenv "PGPORT" (getenv "OPENVPN_DB_PORT" "5433")]>
         (<["dbname" := getenv "PGDATABASE" "openvpn"]> (<["user" := getenv "PGUSER" "openvpn"]> {["password" := password]})))).

Definition tool_parameters : list string :=
  ["host"; "hostaddr"; "port"; "dbname"; "user"; "password"; "sslmode"; "sslcert"; "sslkey"; "sslrootcert"; "sslcrl"; "connect_timeout"; "passfile"].
Definition variable_of (name : string) : string := "PG" +:+ (if String.eqb name "dbname" then "DATABASE" else upper name).

Definition pass_on (params env : gmap string string) (name : string) : gmap string string :=
  match params !! name with Some v => <[variable_of name := v]> env | None => env end.
Definition client_environment (dsn : string) : result (gmap string string) :=
  params ← connection_parameters dsn;
  Ok (foldl (pass_on params) environ tool_parameters).

(** [dump_postgres]: the command with its environment. *)
Definition dump_command (path : option string) (schema dsn : string) : result (list string * gmap string string) :=
  env ← client_environment dsn;
  Ok (["pg_dump"; "--format=custom"; "--no-owner"; "--no-privileges"; "--schema"; schema]
      ++ match path with Some p => ["--file"; p] | None => [] end, env).

Lemma variable_of_inj a b : a ∈ tool_parameters → b ∈ tool_parameters → variable_of a = variable_of b → a = b.
Proof.
  intros Ha Hb He. assert (Hn : forallb (fun a => forallb (fun b => negb (String.eqb (variable_of a) (variable_of b)) || String.eqb a b) tool_parameters) tool_parameters = true)
    by (vm_compute; reflexivity).
  rewrite forallb_forall in Hn. apply list_elem_of_In, Hn in Ha. rewrite forallb_forall in Ha. apply list_elem_of_In, Ha in Hb.
  rewrite He, String.eqb_refl in Hb. by apply String.eqb_eq in Hb.
Qed.

Lemma pass_on_spec params l : NoDup l → (∀ a, a ∈ l → a ∈ tool_parameters) → ∀ env,
  (∀ name v, name ∈ l → params !! name = Some v → foldl (pass_on params) env l !! variable_of name = Some v) ∧
  (∀ k, (∀ name, name ∈ l → is_Some (params !! name) → k ≠ variable_of name) → foldl (pass_on params) env l !! k = env !! k).
Proof.
  induction 1 as [|n l Hn Hnd IH]; intros Hl env; cbn [foldl]; [split; [by intros name v ?%not_elem_of_nil|done]|].
  destruct (IH ltac:(intros a Ha; apply Hl; by right) (pass_on params env n)) as [H1 H2]. split.
  - intros name v [->|Hin]%elem_of_cons Hv; [|by apply H1]. rewrite H2.
    + unfold pass_on. rewrite Hv. apply lookup_insert_eq.
    + intros m Hm _ He. apply variable_of_inj in He; [by subst|apply Hl; left|apply Hl; by right].
  - intros k Hk. rewrite H2 by (intros m Hm; apply Hk; by right). unfold pass_on. destruct (params !! n) eqn:E; [|done].
    rewrite lookup_insert_ne; [done|]. intros He. apply (Hk n); [left|by eexists|done].
Qed.

(** PostgreSQL's tools work on the database the application works on: every parameter they know is passed on as
    the application uses it, by the environment and never on the command line, and nothing else of the
    environment changes. *)
Theorem tools_use_same_database path schema dsn args env :
  dump_command path schema dsn = Ok (args, env) →
  ∃ params, connection_parameters dsn = Ok params ∧
    (∀ name v, name ∈ tool_parameters → params !! name = Some v → env !! variable_of name = Some v) ∧
    (∀ k, (∀ name, name ∈ tool_parameters → is_Some (params !! name) → k ≠ variable_of name) → env !! k = environ !! k) ∧
    (∀ a, a ∈ args → a ∈ ["pg_dump"; "--format=custom"; "--no-owner"; "--no-privileges"; "--schema"; "--file"; schema] ∨ path = Some a).
Proof.
  unfold dump_command, client_environment. destruct (connection_parameters dsn) as [params|e]; [|done]. cbn [mbind result_bind].
  intros [<- <-]%Ok_inj%pair_equal_spec. exists params. split; [done|].
  assert (Hnd : NoDup tool_parameters) by (apply (bool_decide_unpack _); by vm_compute).
  destruct (pass_on_spec params tool_parameters Hnd (fun a Ha => Ha) environ) as [H1 H2]. split; [exact H1|]. split; [exact H2|].
  intros a [Ha|Ha]%elem_of_app.
  - left. apply list_elem_of_In in Ha. apply list_elem_of_In. cbn [In] in Ha |- *. tauto.
  - destruct path as [p|]; [|by apply not_elem_of_nil in Ha]. rewrite !elem_of_cons in Ha. destruct Ha as [->|[->|[]%not_elem_of_nil]]; [left|by right].
    apply list_elem_of_In. cbn [In]. tauto.
Qed.
End connection.

Definition demo_environ : gmap string string := {["OPENVPN_DB_PASSWORD" := "secret"; "PGPORT" := "5434"; "HOME" := "/root"]}.
Lemma tools_use_same_database_witness :
  ∃ args env, dump_command demo_environ (fun _ => Raise ValueError) (Some "/backup/db.dump") "public" "" = Ok (args, env) ∧
    env !! "PGPASSWORD" = Some "secret" ∧ env !! "HOME" = Some "/root".
Proof.
  assert (Hok : is_ok (dump_command demo_environ (fun _ => Raise ValueError) (Some "/backup/db.dump") "public" "") = true) by (vm_compute; reflexivity).
  destruct (dump_command demo_environ (fun _ => Raise ValueError) (Some "/backup/db.dump") "public" "") as [[args env]|] eqn:H; [|discriminate Hok].
  destruct (tools_use_same_database _ _ _ _ _ _ _ H) as (params & Hp & H1 & H2 & _). exists args, env. split; [reflexivity|].
  assert (Hpw : (fun p => p !! "password") <$> connection_parameters demo_environ (fun _ => Raise ValueError) "" = Ok (Some "secret")) by (vm_compute; reflexivity).
  rewrite Hp in Hpw. apply Ok_inj in Hpw. split.
  - apply (H1 "password"); [apply (bool_decide_unpack _); vm_compute; exact I|exact Hpw].
  - rewrite H2; [reflexivity|]. intros name _ _ He. unfold variable_of in He. discriminate He.
Defined.

(** ** Placeholders *)

(** [Connection.execute] with parameters. *)
Definition replace_char (c : ascii) (by_ : string) : string → string :=
  fix go s := match s with EmptyString => "" | String d s => (if Ascii.eqb d c then by_ else String d "") +:+ go s end.
Definition placeholders (statement : string) : string := replace_char "?" "%s" (replace_char "%" "%%" statement).

Inductive piece := Slot | Plain (c : ascii).
(** What the application means by a statement: a question mark is a parameter. *)
Fixpoint meant (s : string) : list piece :=
  match s with EmptyString => [] | String c s => (if Ascii.eqb c "?" then Slot else Plain c) :: meant s end.

(** The driver reads the statement the application means: each question mark is one parameter, in order,
    and every other character, percent signs included, is the character itself.  [driver] is how
    psycopg reads a statement with parameters, by its documentation. *)
Theorem placeholders_meant (driver : string → list piece) statement :
  driver "" = [] → (∀ s, driver ("%s" +:+ s) = Slot :: driver s) → (∀ s, driver ("%%" +:+ s) = Plain "%" :: driver s) →
  (∀ c s, c ≠ "%"%char → driver (String c s) = Plain c :: driver s) →
  driver (placeholders statement) = meant statement.
Proof.
  intros H0 Hs Hp Hc. unfold placeholders. induction statement as [|c s IH]; [done|]. cbn [replace_char meant].
  destruct (Ascii.eqb_spec c "%") as [->|Hn].
  - change (replace_char "?" "%s" ("%%" +:+ ?t)) with ("%%" +:+ replace_char "?" "%s" t). by rewrite Hp, IH.
  - cbn [String.append replace_char]. destruct (Ascii.eqb_spec c "?") as [->|Hq]; [by rewrite Hs, IH|]. cbn [String.append]. by rewrite Hc, IH.
Qed.

Fixpoint read_pieces (s : string) : list piece :=
  match s with
  | EmptyString => []
  | String c t =>
      if Ascii.eqb c "%" then
        match t with
        | String d u => if Ascii.eqb d "s" then Slot :: read_pieces u else Plain d :: read_pieces u
        | EmptyString => [Plain "%"]
        end
      else Plain c :: read_pieces t
  end.
Lemma placeholders_meant_witness :
  read_pieces (placeholders "SELECT '50%' WHERE a = ?") = meant "SELECT '50%' WHERE a = ?".
Proof.
  apply placeholders_meant; [reflexivity|reflexivity|reflexivity|]. intros c s Hc. cbn [read_pieces]. destruct (Ascii.eqb_spec c "%"); [contradiction|reflexivity].
Defined.

(** ** The state of the policy service *)

(** [ReadOnlySettings.get_setting]: through the view. *)
Definition policy_setting (s : store) (key : string) : option cell_value :=
  (fun r => cell r "value") <$> find (fun r => bool_decide (cell r "key" = VText key)) (relay_policy_settings s).

Definition policy_key (key : string) : bool := String.eqb key "apple_relay" || startswith "relay_client:" key.

(** [check_metadata]: the index can be read and the directory of the guests is there. *)
Definition check_metadata (index : option (result string)) (guests_is_dir : bool) : result unit :=
  contents ← of_option OSError index;
  _ ← contents;
  raise_if (negb guests_is_dir) OSError.

(** [is_loopback] of [ipaddress]; an IPv4 address in IPv6 counts as that address. *)
Definition loopback6 (n : Z) : bool := if n / 2 ^ 32 =? 65535 then is_loopback (n mod 2 ^ 32) else n =? 1.
Definition loopback_address (s : string) : result bool :=
  match parse_ip s with
  | Some n => Ok (is_loopback n)
  | None => match parse_ipv6 s with Some a => Ok (loopback6 (v6_int a)) | None => Raise ValueError end
  end.

(** The start of [main]: the host and port it binds. *)
Definition policy_bind (bind : option string) : result (string * Z) :=
  let '(host, found, port) := rpartition ":"%char (default "127.0.0.1:8447" bind) in
  _ ← raise_if (negb found) ValueError;
  local ← loopback_address (strip_by (fun c => Ascii.eqb c "[" || Ascii.eqb c "]") host);
  _ ← raise_if (negb local) ValueError;
  port ← of_option ValueError (py_int port);
  Ok (host, port).

Lemma find_filtered {A} (f g : A → bool) l : (∀ x, f x = true → g x = true) → find f (List.filter g l) = find f l.
Proof.
  intros Hfg. induction l as [|x l IH]; [done|]. cbn [List.filter find]. destruct (g x) eqn:Eg; cbn [find]; [by rewrite IH|].
  destruct (f x) eqn:Ef; [by rewrite (Hfg x Ef) in Eg|done].
Qed.
Lemma find_filtered_none {A} (f g : A → bool) l : (∀ x, f x = true → g x = false) → find f (List.filter g l) = None.
Proof.
  intros Hfg. induction l as [|x l IH]; [done|]. cbn [List.filter]. destruct (g x) eqn:Eg; [|done]. cbn [find].
  destruct (f x) eqn:Ef; [by rewrite (Hfg x Ef) in Eg|done].
Qed.

(** The policy service sees the relay's settings as the application saves them and no other setting, and it
    serves on this host alone: whatever address it is given, it binds only one that is a loopback
    address without its brackets. *)
Theorem policy_service_confined s key bind host port :
  (policy_key key = true → policy_setting s key = pg_setting s key) ∧ (policy_key key = false → policy_setting s key = None) ∧
  (policy_bind bind = Ok (host, port) → loopback_address (strip_by (fun c => Ascii.eqb c "[" || Ascii.eqb c "]") host) = Ok true).
Proof.
  split_and!.
  - intros Hk. unfold policy_setting, pg_setting, relay_policy_settings. f_equal. apply find_filtered. intros r Hr%bool_decide_eq_true_1. by rewrite Hr.
  - intros Hk. unfold policy_setting, relay_policy_settings. rewrite find_filtered_none; [done|]. intros r Hr%bool_decide_eq_true_1. by rewrite Hr.
  - unfold policy_bind. destruct (rpartition _ _) as [[h f] p]. destruct f; [|done]. cbn [negb raise_if mbind result_bind].
    destruct (loopback_address _) as [[]|] eqn:El; [|done|done]. cbn [negb raise_if mbind result_bind]. destruct (py_int p); [|done].
    intros [<- _]%Ok_inj%pair_equal_spec. exact El.
Qed.

Lemma policy_service_confined_witness :
  policy_bind (Some "[::1]:8447") = Ok ("[::1]", 8447) ∧ loopback_address "::1" = Ok true ∧ policy_bind (Some "0.0.0.0:8447") = Raise ValueError ∧
  ∀ s, policy_setting s "migration:legacy_sqlite" = None.
Proof.
  assert (H : policy_bind (Some "[::1]:8447") = Ok ("[::1]", 8447)) by (vm_compute; reflexivity). split; [exact H|].
  destruct (policy_service_confined (Store ∅ ∅) "" (Some "[::1]:8447") "[::1]" 8447) as (_ & _ & Hl). split; [exact (Hl H)|]. split; [vm_compute; reflexivity|].
  intros s. destruct (policy_service_confined s "migration:legacy_sqlite" None "" 0) as (_ & Hn & _). apply Hn. reflexivity.
Defined.
