(* ===== verification/SetupEnv.v ===== *)
(** * The secrets of the database, prepared on the host

    [bin/setup-env.py] runs before every upgrade: it makes the runtime configuration files that are missing and
    gives each password of the database that has no value in [.env] a fresh one.  The two patterns of the
    script are the functions [match_setting] and [match_url]; nothing in them needs backtracking but the white
    space at the end of the second, which [trailing] takes back.  Files are texts with their permissions;
    The value each turn would draw from [secrets.token_urlsafe], the permissions of a new file and the failure to
    write are arguments. *)

From S2P Require Import Prelude PyStr Regex SearchLines ConfigEdit Profiles.

Open Scope string_scope.
Open Scope list_scope.
Open Scope Z_scope.

Definition secret_keys : list string := ["POSTGRES_PASSWORD"; "OPENVPN_DB_PASSWORD"; "RELAY_POLICY_DB_PASSWORD"].
Definition former_url : string := "http://127.0.0.1:8080/api/relay/authorize".
Definition url_key : string := "APPLE_RELAY_AUTH_URL".
Definition migrated_url : string := "APPLE_RELAY_AUTH_URL=http://127.0.0.1:8447/api/relay/authorize".

(** What follows the literal [w] at the head of the text. *)
Fixpoint after (w s : string) : option string :=
  match w, s with
  | EmptyString, _ => Some s
  | String c w, String d s => if Ascii.eqb c d then after w s else None
  | _, _ => None
  end.

(** The rest of the line, and what follows it. *)
Fixpoint to_line_end (s : string) : string * string :=
  match s with
  | EmptyString => ("", "")
  | String c t => if Ascii.eqb c lf then ("", s) else let '(v, r) := to_line_end t in (String c v, r)
  end.

(** White space, the key, white space, an equals sign and the rest of the line, at a position: the group, and
    what follows the match. *)
Definition match_setting (key s : string) : option (string * string) :=
  t ← after key (lstrip_by is_space s); u ← after "=" (lstrip_by is_space t); Some (to_line_end u).

(** [re.search] with the caret under [re.M]: what precedes the first match, the group, what follows. *)
Fixpoint search_setting (key : string) (bol : bool) (s : string) : option (string * string * string) :=
  match (if bol then match_setting key s else None) with
  | Some (v, r) => Some ("", v, r)
  | None =>
      match s with
      | EmptyString => None
      | String c t => '(b, v, r) ← search_setting key (Ascii.eqb c lf) t; Some (String c b, v, r)
      end
  end.

Definition dquotes : string := String (chr 34) (String (chr 34) "").
(** [match.group(1).strip() not in (...)]. *)
Definition has_value (v : string) : bool := negb (existsb (String.eqb (strip v)) [""; "''"; dquotes]).

Definition password_line (key token : string) : string := key +:+ "='" +:+ token +:+ "'".

(** A turn of the loop over the keys. *)
Definition set_secret (text key token : string) : string :=
  match search_setting key true text with
  | Some (b, v, r) => if has_value v then text else b +:+ password_line key token +:+ r
  | None =>
      let sep := if negb (empty text) && negb (endswith (String lf "") text) then String lf "" else "" in
      text +:+ sep +:+ password_line key token +:+ String lf ""
  end.
Fixpoint set_secrets (keys tokens : list string) (text : string) : string :=
  match keys, tokens with
  | key :: keys, token :: tokens => set_secrets keys tokens (set_secret text key token)
  | _, _ => text
  end.

(** A quote, if there is one. *)
Definition opt_quote (s : string) : string :=
  match s with String c t => if Ascii.eqb c (chr 39) || Ascii.eqb c (chr 34) then t else s | EmptyString => s end.
(** The longest white space that the end of a line follows (a dollar sign under [re.M]). *)
Fixpoint trailing (s : string) : option string :=
  match s with
  | EmptyString => Some ""
  | String c t => or_else (if is_space c then trailing t else None) (if Ascii.eqb c lf then Some s else None)
  end.
Definition match_url (s : string) : option string :=
  t ← after (url_key +:+ "=") s; u ← after former_url (opt_quote t); trailing (opt_quote u).
Fixpoint search_url (bol : bool) (s : string) : option (string * string) :=
  match (if bol then match_url s else None) with
  | Some r => Some ("", r)
  | None =>
      match s with
      | EmptyString => None
      | String c t => '(b, r) ← search_url (Ascii.eqb c lf) t; Some (String c b, r)
      end
  end.
(** [re.sub]; the end of a line follows a match, and no match begins there. *)
Fixpoint sub_url (fuel : nat) (bol : bool) (s : string) : string :=
  match fuel with
  | O => s
  | S fuel =>
      match search_url bol s with
      | Some (b, r) => b +:+ migrated_url +:+ sub_url fuel false r
      | None => s
      end
  end.
Definition migrate_url (s : string) : string := sub_url (S (String.length s)) true s.

(** ** The script *)

Record host_file := HostFile { hf_text : string; hf_mode : Z }.
Notation host_fs := (gmap string host_file).
Definition private_mode : Z := 384. (* 0o600 *)

(** The name of a path is its last part; the saved copy is looked for in [config/network]. *)
Definition runtime_files : list (string * string) :=
  [("server.conf", "config/network/server.conf"); ("config/client.conf", "config/network/client.conf")].

(** A turn of the first loop: without a source the new file is left empty behind the error. *)
Definition make_runtime (new_mode : Z) (fs : host_fs) (name saved : string) : result unit * host_fs :=
  match fs !! name with
  | Some _ => (Ok tt, fs)
  | None =>
      let source := match fs !! saved with Some _ => saved | None => name +:+ ".example" end in
      match fs !! source with
      | Some f => (Ok tt, <[name := HostFile (universal_newlines (hf_text f)) private_mode]> fs)
      | None => (Raise OSError, <[name := HostFile "" new_mode]> fs)
      end
  end.
Fixpoint make_runtimes (new_mode : Z) (names : list (string * string)) (fs : host_fs) : result unit * host_fs :=
  match names with
  | [] => (Ok tt, fs)
  | (name, saved) :: names =>
      match make_runtime new_mode fs name saved with
      | (Ok _, fs) => make_runtimes new_mode names fs
      | (Raise e, fs) => (Raise e, fs)
      end
  end.

Definition env_text (fs : host_fs) : string :=
  match fs !! ".env" with Some f => universal_newlines (hf_text f) | None => "" end.
Definition prepared (tokens : list string) (previous : string) : string :=
  migrate_url (set_secrets secret_keys tokens previous).
(** [mkstemp] makes a private file, which takes the place of [.env] when it is written. *)
Definition setup_env (new_mode : Z) (tokens : list string) (write_error : option exn) (fs : host_fs) : result unit * host_fs :=
  match make_runtimes new_mode runtime_files fs with
  | (Raise e, fs) => (Raise e, fs)
  | (Ok _, fs) =>
      match write_error with
      | Some e => (Raise e, fs)
      | None => (Ok tt, <[".env" := HostFile (prepared tokens (env_text fs)) private_mode]> fs)
      end
  end.

(** ** How a setting is read *)

Definition is_ident (c : ascii) : bool := is_alnum_az c || Ascii.eqb c "_".
Definition identifier (K : string) : Prop := K ≠ "" ∧ str_forall is_ident K = true.

(** The value a text gives to a variable. *)
Definition value_of (K : string) (bol : bool) (s : string) : option string := (fun m => m.1.2) <$> search_setting K bol s.
Definition value_here (K : string) (s : string) : option string := fst <$> match_setting K s.

(** Whether a position is the start of a line, after a text. *)
Fixpoint line_start_after (b : bool) (s : string) : bool :=
  match s with EmptyString => b | String c t => line_start_after (Ascii.eqb c lf) t end.
(** A text begins with the end of a line. *)
Definition line_ended (s : string) : Prop := s = "" ∨ ∃ t, s = String lf t.

Lemma value_of_eq K b s :
  value_of K b s = or_else (if b then value_here K s else None)
    (match s with EmptyString => None | String c t => value_of K (Ascii.eqb c lf) t end).
Proof.
  unfold value_of, value_here. destruct s as [|c t]; cbn [search_setting].
  - destruct b; [destruct (match_setting K "") as [[v r]|]|]; done.
  - destruct b; [destruct (match_setting K (String c t)) as [[v r]|]; [done|]|];
      destruct (search_setting K _ t) as [[[b' v'] r']|]; done.
Qed.

Lemma ident_plain c : is_ident c = true → is_space c = false ∧ c ≠ "="%char ∧ c ≠ lf.
Proof. destruct c as [[] [] [] [] [] [] [] []]; vm_compute; intros [=]; split_and!; congruence. Qed.
Lemma space_ne c d : is_space c = true → is_space d = false → c ≠ d.
Proof. congruence. Qed.
Lemma nonspace_ne_lf c : is_space c = false → Ascii.eqb c lf = false.
Proof. intros H. destruct (Ascii.eqb_spec c lf) as [->|]; done. Qed.

Lemma lstrip_space w s : str_forall is_space w = true → lstrip_by is_space (w +:+ s) = lstrip_by is_space s.
Proof. induction w as [|c w IH]; [done|]. cbn. intros [-> Hw]%andb_true_iff. by apply IH. Qed.
Lemma value_here_space K w s : str_forall is_space w = true → value_here K (w +:+ s) = value_here K s.
Proof. intros H. unfold value_here, match_setting. by rewrite lstrip_space. Qed.

Lemma after_Some w s t : after w s = Some t ↔ s = w +:+ t.
Proof.
  revert s. induction w as [|c w IH]; intros s; cbn; [split; [by intros [= ->]|by intros ->]|]. destruct s as [|d s]; [done|].
  destruct (Ascii.eqb_spec c d) as [<-|Hn]; [rewrite IH|]; split; congruence.
Qed.
Lemma value_here_nil K : K ≠ "" → value_here K "" = None.
Proof. by destruct K. Qed.

(** White space is passed over when nothing matches behind it. *)
Lemma value_skip K b w s : str_forall is_space w = true → value_here K s = None → value_of K b (w +:+ s) = value_of K false s.
Proof.
  intros Hw Hs. revert b. induction w as [|c w IH]; intros b; cbn [str_forall String.append] in Hw |- *.
  - rewrite (value_of_eq K b), (value_of_eq K false), Hs. by destruct b.
  - apply andb_true_iff in Hw as [Hc Hw]. rewrite value_of_eq, IH by done.
    change (String c (w +:+ s)) with (String c w +:+ s). rewrite value_here_space, Hs by (cbn; by rewrite Hc, Hw). by destruct b.
Qed.
Lemma value_space K b w : K ≠ "" → str_forall is_space w = true → value_of K b w = None.
Proof. intros HK Hw. rewrite <- (str_app_nil_r w), value_skip; [|done|by apply value_here_nil]. by rewrite value_of_eq. Qed.
(** Inside a line nothing begins. *)
Lemma value_in_line K w s : mem_char lf w = false → value_of K false (w +:+ s) = value_of K false s.
Proof.
  unfold mem_char, str_exists. rewrite negb_false_iff. induction w as [|c w IH]; [done|]. cbn [str_forall String.append]. intros [Hc%negb_true_iff Hw]%andb_true_iff.
  rewrite value_of_eq. destruct (Ascii.eqb_spec c lf) as [->|]; [done|]. by apply IH.
Qed.

(** A text that ends with a line end, before another one. *)
Lemma after_closed w q r : mem_char lf w = false → line_start_after false q = true →
  after w (q +:+ r) = (fun t => t +:+ r) <$> after w q ∧ ∀ t, after w q = Some t → line_start_after false t = true.
Proof.
  unfold mem_char, str_exists. rewrite negb_false_iff. revert q. induction w as [|c w IH]; intros q Hw Hq; cbn.
  { split; [done|]. by intros t [= <-]. }
  cbn in Hw. apply andb_true_iff in Hw as [Hc%negb_true_iff Hw]. destruct q as [|d q]; [done|]. cbn [line_start_after after String.append] in Hq |- *.
  destruct (Ascii.eqb_spec c d) as [->|]; [|done]. destruct (Ascii.eqb_spec lf d) as [<-|Hn]; [done|].
  assert (Ascii.eqb d lf = false) as E by (apply Ascii.eqb_neq; congruence). rewrite E in Hq. by apply IH.
Qed.
Lemma lstrip_closed b q r : line_start_after b q = true →
  (str_forall is_space q = true ∧ lstrip_by is_space q = "" ∧ lstrip_by is_space (q +:+ r) = lstrip_by is_space r) ∨
  (lstrip_by is_space (q +:+ r) = lstrip_by is_space q +:+ r ∧ line_start_after false (lstrip_by is_space q) = true).
Proof.
  revert b. induction q as [|c q IH]; intros b Hq; [by left|]. cbn [line_start_after lstrip_by str_forall String.append] in Hq |- *.
  destruct (is_space c) eqn:Hc; [by eapply IH|]. right. split; [done|]. cbn [line_start_after]. by rewrite nonspace_ne_lf in *.
Qed.
Lemma to_line_end_closed q r : line_start_after false q = true → (to_line_end (q +:+ r)).1 = (to_line_end q).1.
Proof.
  induction q as [|c q IH]; [done|]. cbn [line_start_after to_line_end String.append]. destruct (Ascii.eqb c lf); [done|]. intros H. specialize (IH H).
  destruct (to_line_end (q +:+ r)), (to_line_end q). cbn in *. by subst.
Qed.

Lemma identifier_line K : identifier K → mem_char lf K = false.
Proof.
  intros [_ H]. unfold mem_char, str_exists. rewrite negb_false_iff. revert H. apply str_forall_impl. intros c Hc.
  destruct (Ascii.eqb_spec lf c) as [<-|]; [|done]. by vm_compute in Hc.
Qed.

Lemma equals_head r : starts_in (Ascii.eqb "=") r = false → after "=" r = None.
Proof. destruct r as [|c r]; [done|]. cbn. by intros ->. Qed.

(** A setting is complete within the lines it is in: what follows them matters only for text that is all space. *)
Lemma value_here_closed K b q r : identifier K → line_start_after b q = true → q ≠ "" → starts_in (Ascii.eqb "=") (lstrip_by is_space r) = false →
  (str_forall is_space q = true ∧ value_here K (q +:+ r) = value_here K r) ∨ value_here K (q +:+ r) = value_here K q.
Proof.
  intros HK Hq Hne Hr. destruct (lstrip_closed b q r Hq) as [(Hs & _ & _)|[Hl Hb]]; [left; split; [done|by apply value_here_space]|].
  right. unfold value_here, match_setting. rewrite Hl. destruct (after_closed K (lstrip_by is_space q) r) as [-> Ht]; [by apply identifier_line|done|].
  destruct (after K _) as [t|]; [|done]. specialize (Ht t eq_refl). cbn [fmap option_fmap option_map mbind option_bind].
  destruct (lstrip_closed false t r Ht) as [(_ & -> & ->)|[-> Hb']].
  - by rewrite equals_head.
  - destruct (after_closed "=" (lstrip_by is_space t) r) as [-> Hu]; [done|done|]. destruct (after "=" _) as [u|]; [|done].
    cbn. f_equal. by apply to_line_end_closed, Hu.
Qed.

Lemma value_app K b q r : identifier K → line_start_after b q = true → starts_in (Ascii.eqb "=") (lstrip_by is_space r) = false →
  value_of K b (q +:+ r) = or_else (value_of K b q) (value_of K true r).
Proof.
  intros HK Hq Hr. revert b Hq. induction q as [|c q IH]; intros b Hq; cbn [line_start_after String.append] in *.
  { subst b. rewrite (value_space K true "") by (try done; apply HK). done. }
  rewrite (value_of_eq K b), (value_of_eq K b (String c q)), IH by done.
  change (String c (q +:+ r)) with (String c q +:+ r).
  destruct b; [|done]. destruct (value_here_closed K true (String c q) r) as [[Hs ->]| ->]; [done..| |by destruct (value_here K (String c q))].
  rewrite <- (str_app_nil_r (String c q)), (value_here_space K _ "") by done. rewrite value_here_nil by apply HK. cbn [or_else].
  cbn in Hs. apply andb_true_iff in Hs as [_ Hs]. rewrite value_space by (done || apply HK). cbn [or_else].
  rewrite (value_of_eq K true r). by destruct (value_here K r).
Qed.

(** A setting of one variable is none of another one. *)
Lemma identifiers_agree K L t u : str_forall is_ident K = true → str_forall is_ident L = true →
  starts_in is_ident t = false → starts_in is_ident u = false → K +:+ t = L +:+ u → K = L.
Proof.
  revert L. induction K as [|c K IH]; intros [|d L]; cbn [str_forall String.append]; intros HK HL Ht Hu He; [done|subst t|subst u|].
  - apply andb_true_iff in HL as [Hd _]. cbn in Ht. congruence.
  - apply andb_true_iff in HK as [Hc _]. cbn in Hu. congruence.
  - apply andb_true_iff in HK as [_ HK]. apply andb_true_iff in HL as [_ HL]. injection He as -> He. f_equal. by eapply IH.
Qed.
Lemma ident_no_equals K s : identifier K → starts_in (Ascii.eqb "=") (K +:+ s) = false.
Proof.
  intros [Hne HK]. destruct K as [|k K]; [done|]. cbn [str_forall] in HK. apply andb_true_iff in HK as [Hk _].
  cbn [String.append starts_in]. destruct (Ascii.eqb_spec "=" k) as [<-|]; [by vm_compute in Hk|done].
Qed.
Lemma lstrip_ident K s : identifier K → lstrip_by is_space (K +:+ s) = K +:+ s.
Proof.
  intros [Hne HK]. destruct K as [|c K]; [done|]. cbn [str_forall] in HK. apply andb_true_iff in HK as [Hc _]. cbn [String.append lstrip_by].
  by rewrite (proj1 (ident_plain c Hc)).
Qed.
Lemma space_or_equals_ends t u : after "=" (lstrip_by is_space t) = Some u → starts_in is_ident t = false.
Proof.
  destruct t as [|c t]; [done|]. cbn [lstrip_by starts_in]. destruct (is_ident c) eqn:Hc; [|done].
  destruct (ident_plain c Hc) as (-> & Hn & _). cbn [after]. destruct (Ascii.eqb_spec "=" c); congruence.
Qed.
Lemma equals_after_space w s : str_forall is_space w = true → after "=" (lstrip_by is_space (w +:+ "=" +:+ s)) = Some s.
Proof. intros H. by rewrite lstrip_space. Qed.

Lemma value_here_other K L w s : identifier K → identifier L → K ≠ L → str_forall is_space w = true → value_here K (L +:+ w +:+ "=" +:+ s) = None.
Proof.
  intros HK HL Hne Hw. unfold value_here, match_setting. rewrite lstrip_ident by done.
  destruct (after K _) as [t|] eqn:Ht; [|done]. cbn [mbind option_bind]. destruct (after "=" (lstrip_by _ t)) as [u|] eqn:Hu; [|done].
  destruct Hne. apply after_Some in Ht. apply (identifiers_agree K L t (w +:+ "=" +:+ s)); [apply HK|apply HL|by eapply space_or_equals_ends| |done].
  eapply space_or_equals_ends. by apply equals_after_space.
Qed.
Lemma value_here_equals K s : identifier K → value_here K ("=" +:+ s) = None.
Proof.
  intros [Hne HK]. destruct K as [|c K]; [done|]. cbn [str_forall] in HK. apply andb_true_iff in HK as [Hc _].
  unfold value_here, match_setting. cbn [String.append]. change (lstrip_by is_space (String "=" s)) with (String "=" s). cbn [after].
  destruct (Ascii.eqb_spec c "=") as [->|]; [by vm_compute in Hc|done].
Qed.
Lemma has_char_app c s t : mem_char c (s +:+ t) = mem_char c s || mem_char c t.
Proof. unfold mem_char, str_exists. rewrite str_forall_app. by destruct (str_forall _ s). Qed.

Lemma value_block_other K L b w1 w2 v r : identifier K → identifier L → K ≠ L → str_forall is_space w1 = true → str_forall is_space w2 = true →
  mem_char lf v = false → value_of K b (w1 +:+ L +:+ w2 +:+ "=" +:+ v +:+ r) = value_of K false r.
Proof.
  intros HK HL Hne H1 H2 Hv. rewrite value_skip by (done || by apply value_here_other).
  rewrite value_in_line by by apply identifier_line. rewrite value_skip by (done || by apply value_here_equals).
  rewrite <- (str_app_assoc "=" v r). apply value_in_line. by rewrite has_char_app, Hv.
Qed.

Lemma to_line_end_spec s v r : to_line_end s = (v, r) ↔ s = v +:+ r ∧ mem_char lf v = false ∧ line_ended r.
Proof.
  revert v. induction s as [|c s IH]; intros v; cbn [to_line_end].
  - split; [intros [= <- <-]; split_and!; [done..|by left]|]. intros (He & _ & _). destruct v, r; naive_solver.
  - destruct (Ascii.eqb_spec c lf) as [->|Hc].
    + split; [intros [= <- <-]; split_and!; [done..|right; by eexists]|]. intros (He & Hv & _). destruct v as [|d v]; cbn in He; [by subst|].
      injection He as <- _. done.
    + destruct (to_line_end s) as [v' r'] eqn:E. split.
      * intros [= <- <-]. destruct (proj1 (IH v') eq_refl) as (-> & Hv & Hr). split_and!; [done| |done].
        unfold mem_char, str_exists in *. cbn [str_forall]. rewrite negb_false_iff in *. rewrite Hv. destruct (Ascii.eqb_spec lf c); [congruence|done].
      * intros (He & Hv & Hr). destruct v as [|d v]; cbn in He; [destruct Hr as [->|[t ->]]; congruence|]. injection He as <- He.
        assert (mem_char lf v = false) as Hv'. { unfold mem_char, str_exists in *. cbn [str_forall] in Hv. rewrite negb_false_iff in *. by apply andb_true_iff in Hv as [_ Hv]. }
        assert ((v', r') = (v, r)) as [= -> ->]; [by apply IH|done].
Qed.

Lemma match_block K w1 w2 v r : identifier K → str_forall is_space w1 = true → str_forall is_space w2 = true → mem_char lf v = false → line_ended r →
  match_setting K (w1 +:+ K +:+ w2 +:+ "=" +:+ v +:+ r) = Some (v, r).
Proof.
  intros HK H1 H2 Hv Hr. unfold match_setting. rewrite lstrip_space, lstrip_ident by done. rewrite (proj2 (after_Some K _ _) eq_refl). cbn [mbind option_bind].
  rewrite equals_after_space by done. cbn [mbind option_bind]. f_equal. by apply to_line_end_spec.
Qed.
Lemma match_Some K s v r : match_setting K s = Some (v, r) →
  ∃ w1 w2, s = w1 +:+ K +:+ w2 +:+ "=" +:+ v +:+ r ∧ str_forall is_space w1 = true ∧ str_forall is_space w2 = true ∧ mem_char lf v = false ∧ line_ended r.
Proof.
  assert (Hs : ∀ s, ∃ w, s = w +:+ lstrip_by is_space s ∧ str_forall is_space w = true).
  { intros t. induction t as [|c t (w & Ht & Hw)]; [by exists ""|]. cbn [lstrip_by]. destruct (is_space c) eqn:Hc; [|by exists ""].
    exists (String c w). cbn [String.append str_forall]. by rewrite Hc, <- Ht. }
  unfold match_setting. destruct (Hs s) as (w1 & E1 & H1). destruct (after K _) as [t|] eqn:Ht; [|done]. cbn [mbind option_bind].
  destruct (Hs t) as (w2 & E2 & H2). destruct (after "=" _) as [u|] eqn:Hu; [|done]. cbn [mbind option_bind].
  intros [= (-> & Hv & Hr)%to_line_end_spec]. apply after_Some in Ht, Hu. exists w1, w2. split_and!; [|done..]. by rewrite E1, Ht, E2, Hu at 1.
Qed.

Lemma search_Some K b s p v r : identifier K → search_setting K b s = Some (p, v, r) →
  line_start_after b p = true ∧ value_of K b p = None ∧
  ∃ w1 w2, s = p +:+ w1 +:+ K +:+ w2 +:+ "=" +:+ v +:+ r ∧ str_forall is_space w1 = true ∧ str_forall is_space w2 = true ∧ mem_char lf v = false ∧ line_ended r.
Proof.
  intros HK. revert b p. induction s as [|c s IH]; intros b p.
  { cbn [search_setting]. assert (match_setting K "" = None) as -> by (destruct K; [by destruct HK|done]). by destruct b. }
  cbn [search_setting]. destruct (if b then match_setting K (String c s) else None) as [[v' r']|] eqn:Hm.
  - intros [= <- -> ->]. destruct b; [|done]. split; [done|]. split; [by apply value_space; [apply HK|]|]. apply match_Some in Hm as (w1 & w2 & H). by exists w1, w2.
  - destruct (search_setting K _ s) as [[[p' v'] r']|] eqn:Hs; [|done]. cbn [mbind option_bind]. intros [= <- -> ->].
    destruct (IH _ _ Hs) as (Hp & Hn & w1 & w2 & -> & Hrest). cbn [line_start_after]. split; [done|]. split; [|exists w1, w2; by cbn].
    rewrite value_of_eq, Hn. destruct b; [|done].
    destruct (value_here_closed K true (String c p') (w1 +:+ K +:+ w2 +:+ "=" +:+ v +:+ r)) as [[Hsp _]|He]; [done..| | |].
    + destruct Hrest as (H1 & _). rewrite lstrip_space, lstrip_ident by done. by apply ident_no_equals.
    + rewrite <- (str_app_nil_r (String c p')), value_here_space, value_here_nil by (done || apply HK). done.
    + rewrite <- He. change (String c p' +:+ ?x) with (String c (p' +:+ x)). unfold value_here. by rewrite Hm.
Qed.

(** A line end at the end of the text changes no value. *)
Lemma after_final w s y : mem_char lf w = false → after w (s +:+ String lf y) = (fun t => t +:+ String lf y) <$> after w s.
Proof.
  unfold mem_char, str_exists. rewrite negb_false_iff. revert s. induction w as [|c w IH]; intros s Hw; [done|].
  cbn [str_forall] in Hw. apply andb_true_iff in Hw as [Hc%negb_true_iff Hw]. destruct s as [|d s]; cbn [after String.append].
  - destruct (Ascii.eqb_spec c lf) as [->|]; done.
  - destruct (Ascii.eqb c d); [by apply IH|done].
Qed.
Lemma lstrip_final s : lstrip_by is_space (s +:+ String lf "") = lstrip_by is_space s +:+ String lf "" ∨
  (lstrip_by is_space (s +:+ String lf "") = "" ∧ lstrip_by is_space s = "").
Proof.
  induction s as [|c s IH]; [by right|]. cbn [lstrip_by String.append]. destruct (is_space c); [done|by left].
Qed.
Lemma to_line_end_final s : (to_line_end (s +:+ String lf "")).1 = (to_line_end s).1.
Proof.
  induction s as [|c s IH]; [done|]. cbn [to_line_end String.append]. destruct (Ascii.eqb c lf); [done|].
  destruct (to_line_end (s +:+ _)), (to_line_end s). cbn in *. by subst.
Qed.
Lemma value_here_final K s : identifier K → value_here K (s +:+ String lf "") = value_here K s.
Proof.
  intros HK. unfold value_here, match_setting. destruct (lstrip_final s) as [-> |[-> ->]]; [|done].
  rewrite after_final by by apply identifier_line. destruct (after K _) as [t|]; [|done]. cbn [fmap option_fmap option_map mbind option_bind].
  destruct (lstrip_final t) as [-> |[-> ->]]; [|done]. rewrite after_final by done. destruct (after "=" _) as [u|]; [|done].
  cbn. f_equal. apply to_line_end_final.
Qed.
Lemma value_final K b s : identifier K → value_of K b (s +:+ String lf "") = value_of K b s.
Proof.
  intros HK. revert b. induction s as [|c s IH]; intros b.
  - rewrite !value_space; by try apply HK.
  - rewrite (value_of_eq K b (String c s)). cbn [String.append]. rewrite value_of_eq, IH.
    change (String c (s +:+ ?x)) with (String c s +:+ x). by rewrite value_here_final.
Qed.

Lemma line_start_after_snoc b s c : line_start_after b (s +:+ String c "") = Ascii.eqb c lf.
Proof. revert b. induction s as [|d s IH]; intros b; [done|]. apply IH. Qed.
Lemma ends_line s : negb (empty s) && negb (endswith (String lf "") s) = negb (line_start_after true s).
Proof.
  destruct (str_snoc_cases s) as [->|(t & c & ->)]; [done|]. rewrite line_start_after_snoc. unfold endswith, str_rev. rewrite str_rev_app_snoc.
  change (str_rev_app (String lf "") "") with (String lf ""). cbn [startswith]. rewrite andb_true_r.
  replace (empty _) with false by (by destruct t). rewrite Ascii.eqb_sym. by destruct (Ascii.eqb c lf).
Qed.

(** [secrets.token_urlsafe]: letters, digits, hyphens and underscores. *)
Definition is_urlsafe (c : ascii) : bool := is_ident c || Ascii.eqb c "-".
Definition url_token (t : string) : Prop := t ≠ "" ∧ str_forall is_urlsafe t = true.
Definition in_quotes (t : string) : string := "'" +:+ t +:+ "'".

Lemma rstrip_snoc p s c : p c = false → rstrip_by p (s +:+ String c "") = s +:+ String c "".
Proof. intros Hc. induction s as [|d s IH]; cbn [rstrip_by String.append]; [by rewrite Hc|]. rewrite IH. by destruct s. Qed.
Lemma in_quotes_value t : url_token t → has_value (in_quotes t) = true ∧ mem_char lf (in_quotes t) = false ∧ mem_char cr (in_quotes t) = false.
Proof.
  intros [Hne Ht]. assert (Hsafe : ∀ c, is_urlsafe c = false → mem_char c t = false).
  { intros c Hc. unfold mem_char, str_exists. rewrite negb_false_iff. revert Ht. apply str_forall_impl. intros d Hd. by destruct (Ascii.eqb_spec c d); [congruence|]. }
  unfold in_quotes. rewrite !has_char_app, !Hsafe by done. split_and!; [|done..]. unfold has_value, strip, strip_by.
  change (lstrip_by is_space ("'" +:+ ?x)) with ("'" +:+ x). rewrite <- (str_app_assoc "'" t "'"), rstrip_snoc by done.
  destruct t as [|c t]; [done|]. cbn [String.append existsb String.eqb]. change (Ascii.eqb "'" "'") with true. cbv iota.
  replace (Ascii.eqb "'" (chr 34)) with false by done. destruct (Ascii.eqb_spec c "'") as [->|]; [|done].
  by cbn [str_forall] in Ht.
Qed.

(** Where the value of a key ends up. *)
Lemma set_secret_shape text key token : identifier key →
  set_secret text key token = text ∧ (∃ v, value_of key true text = Some v ∧ has_value v = true) ∨
  ∃ q r, line_start_after true q = true ∧ line_ended r ∧ value_of key true q = None ∧
    (∀ v, value_of key true text = Some v → has_value v = false) ∧
    (∀ K, identifier K → K ≠ key → or_else (value_of K true q) (value_of K false r) = value_of K true text) ∧
    (mem_char cr text = false → mem_char cr q = false ∧ mem_char cr r = false) ∧
    set_secret text key token = q +:+ password_line key token +:+ r.
Proof.
  intros Hkey. unfold set_secret. destruct (search_setting key true text) as [[[q v] r]|] eqn:Hs.
  - destruct (has_value v) eqn:Hv; [left; split; [done|]; exists v; unfold value_of; by rewrite Hs|]. right. exists q, r.
    destruct (search_Some _ _ _ _ _ _ Hkey Hs) as (Hq & Hn & w1 & w2 & -> & H1 & H2 & Hlf & Hr). split_and!; [done..| | | |done].
    + unfold value_of. rewrite Hs. by intros v' [= <-].
    + intros K HK Hne. rewrite value_app; [by rewrite value_block_other|done..|]. rewrite lstrip_space, lstrip_ident by done. by apply ident_no_equals.
    + rewrite !has_char_app, !orb_false_iff. tauto.
  - right. set (sep := if negb (empty text) && _ then _ else _). exists (text +:+ sep), (String lf ""). assert (Hval : ∀ K, identifier K → value_of K true (text +:+ sep) = value_of K true text).
    { intros K HK. subst sep. destruct (_ && _); [by apply value_final|by rewrite str_app_nil_r]. }
    assert (Hnone : value_of key true text = None) by (unfold value_of; by rewrite Hs).
    split_and!; [|right; by eexists|by rewrite Hval|by rewrite Hnone| | |by rewrite str_app_assoc].
    + subst sep. rewrite ends_line. destruct (line_start_after true text) eqn:E; cbn [negb]; [by rewrite str_app_nil_r|apply line_start_after_snoc].
    + intros K HK _. rewrite Hval, (value_space K false) by (done || apply HK). by destruct (value_of K true text).
    + intros Hcr. rewrite has_char_app, Hcr. split; [|done]. subst sep. by destruct (_ && _).
Qed.

(** ** The former address *)

Definition url_here (s : string) : bool := match match_url s with Some _ => true | None => false end.
Definition has_url (b : bool) (s : string) : bool := match search_url b s with Some _ => true | None => false end.

Lemma has_url_eq b s : has_url b s = (b && url_here s) || match s with EmptyString => false | String c t => has_url (Ascii.eqb c lf) t end.
Proof.
  unfold has_url, url_here. destruct s as [|c t]; cbn [search_url].
  - by destruct b.
  - destruct b; [destruct (match_url (String c t)); [done|]|]; destruct (search_url _ t) as [[? ?]|]; done.
Qed.

Lemma opt_quote_line x y : opt_quote (x +:+ String lf y) = opt_quote x +:+ String lf y.
Proof. destruct x as [|c x]; [done|]. cbn [opt_quote String.append]. by destruct (_ || _). Qed.
Lemma trailing_line x y : is_Some (trailing (x +:+ String lf y)) ↔ is_Some (trailing x).
Proof.
  induction x as [|c x IH]; cbn [trailing String.append].
  - change (is_space lf) with true. change (Ascii.eqb lf lf) with true. destruct (trailing y); split; by eexists.
  - assert (Hend : ∀ u v : string, is_Some (if Ascii.eqb c lf then Some u else None) ↔ is_Some (if Ascii.eqb c lf then Some v else None)).
    { intros u v. destruct (Ascii.eqb c lf); [split; by eexists|done]. }
    destruct (is_space c); [|apply Hend]. destruct (trailing (x +:+ _)), (trailing x); cbn [or_else]; [split; by eexists|..|apply Hend].
    + by destruct (proj1 IH).
    + by destruct (proj2 IH).
Qed.
Lemma url_here_line x y : url_here (x +:+ String lf y) = url_here x.
Proof.
  unfold url_here, match_url. rewrite after_final by done. destruct (after (url_key +:+ "=") x) as [t|]; [|done].
  cbn [fmap option_fmap option_map mbind option_bind]. rewrite opt_quote_line, after_final by done. destruct (after former_url _) as [u|]; [|done].
  cbn [fmap option_fmap option_map mbind option_bind]. rewrite opt_quote_line. pose proof (trailing_line (opt_quote u) y) as Ht.
  destruct (trailing (_ +:+ _)), (trailing (opt_quote u)); [done|..|done].
  - by destruct (proj1 Ht).
  - by destruct (proj2 Ht).
Qed.
Lemma has_url_line b x y : has_url b (x +:+ String lf y) = has_url b x || has_url true y.
Proof.
  revert b. induction x as [|c x IH]; intros b; rewrite has_url_eq, url_here_line; cbn [String.append].
  - rewrite (has_url_eq b ""). by destruct b.
  - rewrite IH, (has_url_eq b (String c x)). apply orb_assoc.
Qed.
Lemma closed_cases b p : line_start_after b p = true → (p = "" ∧ b = true) ∨ ∃ q, p = q +:+ String lf "".
Proof.
  destruct (str_snoc_cases p) as [->|(q & c & ->)]; [by left|]. rewrite line_start_after_snoc. intros ->%Ascii.eqb_eq. right. by exists q.
Qed.
Lemma has_url_app b p r : line_start_after b p = true → has_url b (p +:+ r) = has_url b p || has_url true r.
Proof.
  intros [[-> ->]|[q ->]]%closed_cases; [done|]. rewrite str_app_assoc. cbn [String.append]. rewrite !has_url_line. by rewrite orb_false_r.
Qed.

Lemma trailing_Some s r : trailing s = Some r → ∃ w, s = w +:+ r ∧ str_forall is_space w = true ∧ line_ended r.
Proof.
  revert r. induction s as [|c s IH]; intros r; cbn [trailing]; [intros [= <-]; exists ""; split_and!; [done..|by left]|].
  assert (Hend : (if Ascii.eqb c lf then Some (String c s) else None) = Some r → ∃ w, String c s = w +:+ r ∧ str_forall is_space w = true ∧ line_ended r).
  { destruct (Ascii.eqb_spec c lf) as [->|]; [|done]. intros [= <-]. exists "". split_and!; [done..|right; by eexists]. }
  destruct (is_space c) eqn:Hc; [|done]. destruct (trailing s) as [r'|]; [|done]. cbn [or_else]. intros [= ->].
  destruct (IH _ eq_refl) as (w & -> & Hw & Hr). exists (String c w). split_and!; [done|cbn; by rewrite Hc|done].
Qed.
Lemma opt_quote_split s : ∃ q, s = q +:+ opt_quote s ∧ mem_char lf q = false.
Proof.
  destruct s as [|c s]; [by exists ""|]. cbn [opt_quote]. destruct (_ || _) eqn:Hc; [|by exists ""]. exists (String c ""). split; [done|].
  apply orb_true_iff in Hc as [->%Ascii.eqb_eq| ->%Ascii.eqb_eq]; done.
Qed.
Lemma match_url_Some s r : match_url s = Some r →
  ∃ v w, s = url_key +:+ "=" +:+ v +:+ w +:+ r ∧ mem_char lf v = false ∧ str_forall is_space w = true ∧ line_ended r.
Proof.
  unfold match_url. destruct (after _ s) as [t|] eqn:Ht; [|done]. cbn [mbind option_bind]. destruct (after former_url _) as [u|] eqn:Hu; [|done].
  cbn [mbind option_bind]. intros (w & Hw & Hsp & Hr)%trailing_Some. apply after_Some in Ht, Hu.
  destruct (opt_quote_split t) as (q1 & E1 & H1), (opt_quote_split u) as (q2 & E2 & H2).
  exists (q1 +:+ former_url +:+ q2), w. split_and!; [|by rewrite !has_char_app, H1, H2|done..].
  rewrite Ht, E1, Hu, E2, Hw, !str_app_assoc. done.
Qed.
Lemma search_url_Some b s p r : search_url b s = Some (p, r) → line_start_after b p = true ∧ has_url b p = false ∧
  ∃ v w, s = p +:+ url_key +:+ "=" +:+ v +:+ w +:+ r ∧ mem_char lf v = false ∧ str_forall is_space w = true ∧ line_ended r.
Proof.
  revert b p. induction s as [|c s IH]; intros b p; cbn [search_url]; [by destruct b|].
  destruct (if b then match_url (String c s) else None) as [r'|] eqn:Hm.
  - intros [= <- ->]. destruct b; [|done]. split; [done|]. split; [done|]. by apply match_url_Some.
  - destruct (search_url _ s) as [[p' r']|] eqn:Hs; [|done]. cbn [mbind option_bind]. intros [= <- ->].
    destruct (IH _ _ Hs) as (Hp & Hn & v & w & -> & H). cbn [line_start_after]. split; [done|]. split; [|exists v, w; by cbn].
    rewrite has_url_eq, Hn, orb_false_r. destruct b; [|done]. cbn [andb].
    destruct (closed_cases true (String c p') Hp) as [[? _]|[q Hq]]; [done|].
    assert (Hh : url_here (String c p' +:+ url_key +:+ "=" +:+ v +:+ w +:+ r) = url_here (String c p')).
    { rewrite Hq, str_app_assoc. cbn [String.append]. by rewrite !url_here_line. }
    rewrite <- Hh. change (String c p' +:+ ?x) with (String c (p' +:+ x)). unfold url_here. by rewrite Hm.
Qed.

Lemma value_skip_end K b w r : str_forall is_space w = true → line_ended r → value_of K b (w +:+ r) = value_of K false r.
Proof.
  intros Hw Hr. destruct (value_here K r) as [v|] eqn:Hv; [|by apply value_skip].
  assert (Hline : ∀ b, value_of K b r = Some v).
  { intros b'. destruct Hr as [->|[t ->]]; [by destruct K; cbn in Hv; [|done]|]. assert (Ht : value_here K t = Some v).
    { rewrite <- Hv. symmetry. by apply (value_here_space K (String lf "")). }
    rewrite value_of_eq, (value_of_eq K _ t), Hv. change (Ascii.eqb lf lf) with true. cbv iota. rewrite Ht. by destruct b'. }
  rewrite (Hline false). revert b. induction w as [|c w IH]; intros b; [apply Hline|]. rewrite value_of_eq.
  rewrite value_here_space, Hv by done. cbn [str_forall] in Hw. apply andb_true_iff in Hw as [_ Hw]. cbn [String.append]. rewrite IH by done. by destruct b.
Qed.

Lemma url_key_identifier : identifier url_key. Proof. done. Qed.
Lemma migrated_shape r : migrated_url +:+ r = "" +:+ url_key +:+ "" +:+ "=" +:+ "http://127.0.0.1:8447/api/relay/authorize" +:+ r.
Proof. done. Qed.

Lemma sub_url_line_ended fuel r : line_ended r → line_ended (sub_url fuel false r).
Proof.
  intros Hr. destruct fuel as [|fuel]; [done|]. cbn [sub_url]. destruct (search_url false r) as [[p r']|] eqn:Hs; [|done].
  destruct Hr as [->|[t ->]]; [done|]. right. cbn [search_url] in Hs. destruct (search_url _ t) as [[p' r'']|]; [|done].
  injection Hs as <- <-. by eexists.
Qed.

(** The values of all other variables are kept. *)
Lemma value_sub_url K fuel b s : identifier K → K ≠ url_key → value_of K b (sub_url fuel b s) = value_of K b s.
Proof.
  intros HK Hne. revert b s. induction fuel as [|fuel IH]; intros b s; [done|]. cbn [sub_url].
  destruct (search_url b s) as [[p r]|] eqn:Hs; [|done]. destruct (search_url_Some _ _ _ _ Hs) as (Hp & _ & v & w & -> & Hv & Hw & Hr).
  rewrite (value_app K b p (migrated_url +:+ _)), (value_app K b p (url_key +:+ _)) by (done || by apply (ident_no_equals url_key)). f_equal.
  rewrite migrated_shape, value_block_other by done. rewrite IH. symmetry.
  etransitivity; [apply (value_block_other K url_key true "" "" v (w +:+ r)); done|]. by apply value_skip_end.
Qed.

(** With the fuel of [migrate_url] none of the former addresses is left. *)
Lemma sub_url_gone fuel b s : (String.length s < fuel)%nat → has_url b (sub_url fuel b s) = false.
Proof.
  revert b s. induction fuel as [|fuel IH]; intros b s Hlen; [lia|]. cbn [sub_url].
  destruct (search_url b s) as [[p r]|] eqn:Hs; [|unfold has_url; by rewrite Hs].
  destruct (search_url_Some _ _ _ _ Hs) as (Hp & Hn & v & w & -> & Hv & Hw & Hr). rewrite has_url_app, Hn by done.
  rewrite !str_length_app in Hlen. change (String.length url_key) with 20%nat in Hlen. assert (Hsub : has_url false (sub_url fuel false r) = false) by (apply IH; lia).
  destruct (sub_url_line_ended fuel r Hr) as [->|[t Ht]]; [by vm_compute|]. rewrite Ht in *. rewrite has_url_line.
  rewrite has_url_eq in Hsub. change (Ascii.eqb lf lf) with true in Hsub. cbn [andb orb] in *. by rewrite Hsub.
Qed.
Lemma sub_url_no_cr fuel b s : mem_char cr s = false → mem_char cr (sub_url fuel b s) = false.
Proof.
  revert b s. induction fuel as [|fuel IH]; intros b s Hcr; [done|]. cbn [sub_url].
  destruct (search_url b s) as [[p r]|] eqn:Hs; [|done]. destruct (search_url_Some _ _ _ _ Hs) as (_ & _ & v & w & -> & _).
  rewrite !has_char_app, !orb_false_iff in *. destruct Hcr as (? & _ & _ & _ & _ & Hr). by rewrite IH.
Qed.

(** A turn of the loop, and the loop. *)
Lemma password_line_block key token r : password_line key token +:+ r = "" +:+ key +:+ "" +:+ "=" +:+ in_quotes token +:+ r.
Proof. unfold password_line, in_quotes. rewrite !str_app_assoc. done. Qed.

Lemma set_secret_spec text key token : identifier key → url_token token →
  let new := set_secret text key token in
  (∀ K, identifier K → K ≠ key → value_of K true new = value_of K true text) ∧
  (∃ v, value_of key true new = Some v ∧ has_value v = true ∧ ∀ old, value_of key true text = Some old → has_value old = true → v = old) ∧
  (mem_char cr text = false → mem_char cr key = false → mem_char cr new = false).
Proof.
  intros Hkey Htok. cbn zeta. destruct (in_quotes_value token Htok) as (Hval & Hlf & Hcr).
  destruct (set_secret_shape text key token Hkey) as [[-> (v & Hv & Hh)]|(q & r & Hq & Hr & Hn & Hblank & Hother & Hc & ->)].
  { split_and!; [done| |done]. exists v. split_and!; [done..|]. intros old Ho _. congruence. }
  rewrite password_line_block. split_and!.
  - intros K HK Hne. rewrite <- (Hother K HK Hne), value_app; [f_equal; by apply value_block_other|done..|].
    cbn [String.append]. rewrite lstrip_ident by done. by apply ident_no_equals.
  - exists (in_quotes token). split_and!; [|done|intros old Ho Hh; rewrite (Hblank _ Ho) in Hh; done].
    rewrite value_app; [|done..|cbn [String.append]; rewrite lstrip_ident by done; by apply ident_no_equals]. rewrite Hn. cbn [or_else].
    rewrite value_of_eq. unfold value_here. by rewrite match_block.
  - intros Ht Hk. destruct (Hc Ht) as [Hcq Hcr']. by rewrite !has_char_app, Hcq, Hk, Hcr, Hcr'.
Qed.
Lemma set_secret_same text key token v : value_of key true text = Some v → has_value v = true → set_secret text key token = text.
Proof.
  unfold value_of, set_secret. destruct (search_setting key true text) as [[[q v'] r]|]; [|done]. cbn. intros [= ->] H. by rewrite H.
Qed.

Lemma set_secrets_spec keys tokens text : Forall identifier keys → NoDup keys → Forall url_token tokens → length tokens = length keys →
  let new := set_secrets keys tokens text in
  (∀ K, identifier K → K ∉ keys → value_of K true new = value_of K true text) ∧
  (∀ K, K ∈ keys → ∃ v, value_of K true new = Some v ∧ has_value v = true ∧ ∀ old, value_of K true text = Some old → has_value old = true → v = old) ∧
  (mem_char cr text = false → Forall (fun k => mem_char cr k = false) keys → mem_char cr new = false).
Proof.
  cbn zeta. revert tokens text. induction keys as [|key keys IH]; intros [|token tokens] text Hid Hnd Htok Hlen; cbn in Hlen; [|done..|].
  { cbn [set_secrets]. split_and!; [done| |done]. by intros K ?%not_elem_of_nil. }
  apply Forall_cons in Hid as [Hkey Hid], Htok as [Ht Htok]. apply NoDup_cons in Hnd as [Hnotin Hnd]. cbn [set_secrets].
  destruct (set_secret_spec text key token Hkey Ht) as (H1 & (v & Hv & Hh & Hold) & H3).
  destruct (IH tokens (set_secret text key token) Hid Hnd Htok ltac:(lia)) as (I1 & I2 & I3). split_and!.
  - intros K HK [Hne Hni]%not_elem_of_cons. by rewrite I1, H1.
  - intros K [->|Hin]%elem_of_cons.
    + exists v. by rewrite I1.
    + destruct (I2 K Hin) as (v' & Hv' & Hh' & Ho'). exists v'. split_and!; [done..|]. intros old. rewrite <- (H1 K); [apply Ho'| |by intros ->].
      by rewrite Forall_forall in Hid; apply Hid.
  - intros Hcr [Hk Hks]%Forall_cons. apply I3; [by apply H3|done].
Qed.
Lemma set_secrets_same keys tokens text : (∀ K, K ∈ keys → ∃ v, value_of K true text = Some v ∧ has_value v = true) → set_secrets keys tokens text = text.
Proof.
  revert tokens. induction keys as [|key keys IH]; intros [|token tokens] H; [done..|]. cbn [set_secrets].
  destruct (H key) as (v & Hv & Hh); [left|]. rewrite (set_secret_same _ _ _ v) by done. apply IH. intros K HK. apply H. by right.
Qed.

(** The files. *)
Lemma make_runtimes_spec new_mode names fs res fs' : make_runtimes new_mode names fs = (res, fs') → ".env" ∉ names.*1 →
  (∀ name f, fs !! name = Some f → fs' !! name = Some f) ∧ fs' !! ".env" = fs !! ".env" ∧
  (res = Ok tt → ∀ name, name ∈ names.*1 → is_Some (fs' !! name)).
Proof.
  revert fs. induction names as [|[name saved] names IH]; intros fs; cbn [make_runtimes].
  { intros [<- <-]%pair_equal_spec _. split_and!; [done..|]. by intros _ name ?%not_elem_of_nil. }
  assert (Hstep : ∀ r fs1, make_runtime new_mode fs name saved = (r, fs1) → name ≠ ".env" →
    (∀ n f, fs !! n = Some f → fs1 !! n = Some f) ∧ fs1 !! ".env" = fs !! ".env" ∧ is_Some (fs1 !! name)).
  { unfold make_runtime. intros r fs1 Hm Hne. destruct (fs !! name) as [f0|] eqn:Hl.
    - apply pair_equal_spec in Hm as [_ <-]. split_and!; [done..|]. by eexists.
    - assert (Hins : ∀ (g : host_file) n f, fs !! n = Some f → (<[name := g]> fs) !! n = Some f).
      { intros g n f Hn. rewrite lookup_insert_ne; [done|]. intros ->. congruence. }
      destruct (fs !! match fs !! saved with Some _ => saved | None => _ end); apply pair_equal_spec in Hm as [_ <-];
        (split_and!; [apply Hins|by rewrite lookup_insert_ne|rewrite lookup_insert_eq; by eexists]). }
  destruct (make_runtime new_mode fs name saved) as [r fs1]. intros Hm [Hne Hni]%not_elem_of_cons.
  destruct (Hstep r fs1 eq_refl (not_eq_sym Hne)) as (S1 & S2 & S3). destruct r as [u|e].
  - destruct (IH fs1 Hm Hni) as (I1 & I2 & I3). split_and!; [auto|congruence|]. intros Hok n [->|Hin]%elem_of_cons; [|by apply I3].
    destruct S3 as [f Hf]. exists f. by apply I1.
  - apply pair_equal_spec in Hm as [<- <-]. split_and!; [done..|]. intros [=].
Qed.
Lemma make_runtimes_same new_mode names fs : (∀ name, name ∈ names.*1 → is_Some (fs !! name)) → make_runtimes new_mode names fs = (Ok tt, fs).
Proof.
  induction names as [|[name saved] names IH]; intros H; [done|]. cbn [make_runtimes]. unfold make_runtime.
  destruct (H name) as [f ->]; [left|]. apply IH. intros n Hn. apply H. by right.
Qed.

Lemma secret_keys_ok : Forall identifier secret_keys ∧ NoDup secret_keys ∧ url_key ∉ secret_keys ∧ Forall (fun k => mem_char cr k = false) secret_keys.
Proof.
  split_and!; [repeat constructor; done|apply (bool_decide_unpack _); by vm_compute|apply (bool_decide_unpack _); by vm_compute|by repeat constructor].
Qed.

Lemma prepared_spec tokens text : length tokens = 3%nat → Forall url_token tokens → mem_char cr text = false →
  let new := prepared tokens text in
  (∀ K, identifier K → K ∉ secret_keys → K ≠ url_key → value_of K true new = value_of K true text) ∧
  (∀ K, K ∈ secret_keys → ∃ v, value_of K true new = Some v ∧ has_value v = true ∧ ∀ old, value_of K true text = Some old → has_value old = true → v = old) ∧
  has_url true new = false ∧ mem_char cr new = false.
Proof.
  intros Hlen Htok Hcr. destruct secret_keys_ok as (Hid & Hnd & Hurl & Hk). cbn zeta. unfold prepared, migrate_url.
  destruct (set_secrets_spec secret_keys tokens text Hid Hnd Htok Hlen) as (H1 & H2 & H3). split_and!.
  - intros K HK Hni Hne. rewrite value_sub_url by done. by apply H1.
  - intros K HK. rewrite value_sub_url; [by apply H2| |by intros ->]. by rewrite Forall_forall in Hid; apply Hid.
  - apply sub_url_gone. lia.
  - apply sub_url_no_cr. by apply H3.
Qed.
Lemma prepared_same tokens text : (∀ K, K ∈ secret_keys → ∃ v, value_of K true text = Some v ∧ has_value v = true) → has_url true text = false →
  prepared tokens text = text.
Proof.
  intros Hk Hu. unfold prepared, migrate_url. rewrite set_secrets_same by done. cbn [sub_url]. unfold has_url in Hu. by destruct (search_url true text).
Qed.
Lemma env_text_no_cr fs : mem_char cr (env_text fs) = false.
Proof. unfold env_text. destruct (fs !! ".env"); [apply universal_newlines_cr|done]. Qed.

(** ** The theorem *)

(** C36. The script never replaces what is there: every file but [.env] keeps its text, and when the script fails [.env] does
    too.  When it succeeds, a password that had a value has the same value, the others have a new one, every other
    variable but the address of the evaluator reads as before, the former address is gone, [.env] is readable by its
    owner only, and running the script again, with whatever random values, changes nothing. *)
Theorem secrets_kept new_mode tokens write_error fs res fs' :
  length tokens = 3%nat → Forall url_token tokens → setup_env new_mode tokens write_error fs = (res, fs') →
  (∀ name f, fs !! name = Some f → name ≠ ".env" → fs' !! name = Some f) ∧
  match res with
  | Raise _ => fs' !! ".env" = fs !! ".env"
  | Ok _ =>
      (∀ K, K ∈ secret_keys → ∃ v, value_of K true (env_text fs') = Some v ∧ has_value v = true ∧
         ∀ old, value_of K true (env_text fs) = Some old → has_value old = true → v = old) ∧
      (∀ K, identifier K → K ∉ secret_keys → K ≠ url_key → value_of K true (env_text fs') = value_of K true (env_text fs)) ∧
      has_url true (env_text fs') = false ∧ hf_mode <$> fs' !! ".env" = Some private_mode ∧
      ∀ tokens', setup_env new_mode tokens' None fs' = (Ok tt, fs')
  end.
Proof.
  intros Hlen Htok. unfold setup_env at 1. destruct (make_runtimes new_mode runtime_files fs) as [r fs1] eqn:Hm.
  destruct (make_runtimes_spec _ _ _ _ _ Hm) as (Hkeep & Henv & Hall); [apply (bool_decide_unpack _); by vm_compute|].
  assert (Hraise : ∀ e, (Raise e, fs1) = (res, fs') → (∀ name f, fs !! name = Some f → name ≠ ".env" → fs' !! name = Some f) ∧ match res with Ok _ => False | Raise _ => fs' !! ".env" = fs !! ".env" end).
  { intros e [<- <-]%pair_equal_spec. split; [by intros ? ? ? _; apply Hkeep|done]. }
  destruct r as [[]|e]; [|by intros H%Hraise; destruct H; destruct res]. destruct write_error as [e|]; [by intros H%Hraise; destruct H; destruct res|].
  intros [<- <-]%pair_equal_spec. split; [intros name f Hf Hne; rewrite lookup_insert_ne by done; by apply Hkeep|].
  assert (Htext : env_text fs1 = env_text fs) by (unfold env_text; by rewrite Henv). rewrite Htext.
  destruct (prepared_spec tokens (env_text fs) Hlen Htok (env_text_no_cr fs)) as (P1 & P2 & P3 & P4).
  set (new := prepared tokens (env_text fs)) in *. set (fs2 := <[".env" := _]> fs1).
  assert (Hnew : env_text fs2 = new). { unfold env_text, fs2. rewrite lookup_insert_eq. by apply universal_newlines_no_cr. }
  rewrite Hnew. split_and!; [done..|by unfold fs2; rewrite lookup_insert_eq|]. intros tokens'. unfold setup_env.
  rewrite make_runtimes_same.
  - rewrite Hnew, prepared_same; [|intros K HK; destruct (P2 K HK) as (v & ? & ? & _); by exists v|done]. unfold fs2. by rewrite insert_insert_eq.
  - intros name Hn. unfold fs2. destruct (decide (name = ".env")) as [->|Hne]; [rewrite lookup_insert_eq; by eexists|].
    rewrite lookup_insert_ne by done. by apply Hall.
Qed.

Definition demo_host : host_fs :=
  <[".env" := HostFile ("POSTGRES_PASSWORD='kept'" +:+ String lf ("OPENVPN_DB_PASSWORD=''" +:+ String lf "APPLE_RELAY_AUTH_URL=http://127.0.0.1:8080/api/relay/authorize")) 420]>
  (<["server.conf" := HostFile "port 1194" 420]> (<["config/client.conf.example" := HostFile "client" 420]> ∅)).

Lemma secrets_kept_witness : ∃ fs', setup_env 420 ["a"; "b"; "c"] None demo_host = (Ok tt, fs') ∧
  value_of "POSTGRES_PASSWORD" true (env_text fs') = Some "'kept'" ∧ has_url true (env_text fs') = false.
Proof.
  destruct (setup_env 420 ["a"; "b"; "c"] None demo_host) as [res fs'] eqn:E. exists fs'.
  destruct (secrets_kept 420 ["a"; "b"; "c"] None demo_host res fs') as [_ H]; [done|repeat constructor; done|done|].
  assert (Hres : res = Ok tt) by (change res with (res, fs').1; rewrite <- E; by vm_compute). rewrite Hres in *.
  split; [done|]. destruct H as (H1 & _ & H3 & _). split; [|done]. destruct (H1 "POSTGRES_PASSWORD") as (v & Hv & _ & Ho); [left|].
  rewrite Hv. f_equal. apply Ho; by vm_compute.
Defined.
