(* ===== verification/Locks.v ===== *)
(** * The lock of the PKI

    [pki.lock] is a [threading.RLock] around everything that changes the PKI, the profiles or a configuration file.
    A request is a program of steps on the shared state, between which other threads run; the machine interleaves
    them as it likes.  The lock makes the sections it protects one step each: the machine is related to one that
    runs a section at a time, and the creation of clients to the handler of [Lifecycle], which runs as a whole. *)

From S2P Require Import Prelude PyStr Schema Auth Traffic Sessions Mgmt Addressing Relay Access Clients Lifecycle.

Open Scope string_scope.
Open Scope list_scope.
Open Scope nat_scope.

(** ** Programs *)

Section programs.
Context {St : Type}.

(** [Act f k] changes the state in one step and goes on with what it saw; [Acquire] and [Release] are those of the lock. *)
Inductive prog (A : Type) : Type :=
| Ret (a : A)
| Act (f : St → St) (k : St → prog A)
| Acquire (k : prog A)
| Release (k : prog A).

Fixpoint bind {A B : Type} (p : prog A) (g : A → prog B) : prog B :=
  match p with
  | Ret _ a => g a
  | Act _ f k => Act B f (fun s => bind (k s) g)
  | Acquire _ k => Acquire B (bind k g)
  | Release _ k => Release B (bind k g)
  end.

(** An operation that gives a value. *)
Definition op {X : Type} (f : St → St * X) : prog X := Act X (fun s => (f s).1) (fun s => Ret X (f s).2).

(** [with lock: ...], also the decorator [_locked]: an exception is a value, so the lock is given back either way. *)
Definition with_lock {A : Type} (p : prog A) : prog A := Acquire A (bind p (fun a => Release A (Ret A a))).

(** What a program does when nothing comes in between. *)
Fixpoint run_alone {A : Type} (p : prog A) (s : St) : St * A :=
  match p with
  | Ret _ a => (s, a)
  | Act _ f k => run_alone (k s) (f s)
  | Acquire _ k => run_alone k s
  | Release _ k => run_alone k s
  end.

(** The rest of a section that holds the lock [n] times: the state and the program behind it. *)
Fixpoint section {A : Type} (n : nat) (p : prog A) (s : St) : St * prog A :=
  match p with
  | Ret _ _ => (s, p)
  | Act _ f k => section n (k s) (f s)
  | Acquire _ k => section (S n) k s
  | Release _ k => match n with S (S m) => section (S m) k s | _ => (s, k) end
  end.

(** A program that holds the lock [n] times changes the state under the lock only, and gives it back. *)
Fixpoint held {A : Type} (n : nat) (p : prog A) : Prop :=
  match p with
  | Ret _ _ => n = 0
  | Act _ f k => n ≠ 0 ∧ ∀ s, held n (k s)
  | Acquire _ k => held (S n) k
  | Release _ k => match n with S m => held m k | O => False end
  end.

(** The body of a section: what it takes again it gives back, [d] times from here. *)
Fixpoint nested {A : Type} (d : nat) (p : prog A) : Prop :=
  match p with
  | Ret _ _ => d = 0
  | Act _ _ k => ∀ s, nested d (k s)
  | Acquire _ k => nested (S d) k
  | Release _ k => match d with S e => nested e k | O => False end
  end.

(** ** The machine *)

Context {A : Type}.

(** The owner of the lock and how often it holds it. *)
Record machine := Machine { mc_state : St; mc_lock : option (nat * nat); mc_threads : list (prog A) }.

Definition acquire (t : nat) (l : option (nat * nat)) : option (option (nat * nat)) :=
  match l with
  | None => Some (Some (t, 1))
  | Some (o, n) => if decide (o = t) then Some (Some (t, S n)) else None
  end.
(** Another thread's lock cannot be given back: that is a [RuntimeError]. *)
Definition release (t : nat) (l : option (nat * nat)) : option (option (nat * nat)) :=
  match l with
  | Some (o, S n) => if decide (o = t) then Some (match n with O => None | S _ => Some (t, n) end) else None
  | _ => None
  end.

Inductive lstep : machine → machine → Prop :=
| step_act s l ths t f k : ths !! t = Some (Act A f k) → lstep (Machine s l ths) (Machine (f s) l (<[t := k s]> ths))
| step_acquire s l l' ths t k : ths !! t = Some (Acquire A k) → acquire t l = Some l' →
    lstep (Machine s l ths) (Machine s l' (<[t := k]> ths))
| step_release s l l' ths t k : ths !! t = Some (Release A k) → release t l = Some l' →
    lstep (Machine s l ths) (Machine s l' (<[t := k]> ths)).

(** The machine that runs a section at a time. *)
Inductive atomic_step : St * list (prog A) → St * list (prog A) → Prop :=
| atomic_section s ths t k : ths !! t = Some (Acquire A k) →
    atomic_step (s, ths) ((section 1 k s).1, <[t := (section 1 k s).2]> ths).

(** ** Lemmas *)

Lemma nested_bind {B C} d (p : prog B) (g : B → prog C) : nested d p → (∀ a, nested 0 (g a)) → nested d (bind p g).
Proof.
  intros Hp Hg. revert d Hp. induction p as [a|f k IH|k IH|k IH]; intros d Hp; cbn in *; [subst d; apply Hg|auto..|].
  destruct d; [done|auto].
Qed.
Lemma nested_op {X} (f : St → St * X) : nested 0 (op f).
Proof. by intros s. Qed.

Lemma held_nested {B C} d b (p : prog B) (g : B → prog C) : nested d p → (∀ a, held (S b) (g a)) → held (d + S b) (bind p g).
Proof.
  intros Hp Hg. revert d Hp. induction p as [a|f k IH|k IH|k IH]; intros d Hp; cbn in *.
  - subst d. apply Hg.
  - split; [lia|auto].
  - by apply (IH (S d)).
  - destruct d as [|d]; [done|]. by apply IH.
Qed.
Lemma section_nested {B C} d b (p : prog B) (g : B → prog C) s : nested d p →
  section (d + S b) (bind p g) s = section (S b) (g (run_alone p s).2) (run_alone p s).1.
Proof.
  revert d s. induction p as [a|f k IH|k IH|k IH]; intros d s Hp; cbn in *.
  - by subst d.
  - by apply IH.
  - by apply (IH (S d)).
  - destruct d as [|d]; [done|]. rewrite <- (IH d) by done. by destruct d.
Qed.
Lemma run_bind {B C} (p : prog B) (g : B → prog C) s : run_alone (bind p g) s = run_alone (g (run_alone p s).2) (run_alone p s).1.
Proof. revert s. induction p as [a|f k IH|k IH|k IH]; intros s; cbn; auto. Qed.

(** A section in the lock, seen from outside, from inside, and as a whole. *)
Lemma with_lock_held {B} (p : prog B) : nested 0 p → held 0 (with_lock p).
Proof. intros Hp. by apply (held_nested 0 0). Qed.
Lemma with_lock_nested {B} (p : prog B) : nested 0 p → nested 0 (with_lock p).
Proof.
  intros Hp. cbn. assert (H : ∀ d, nested d p → nested (S d) (bind p (fun a => Release B (Ret B a)))); [|by apply H].
  clear. induction p as [a|f k IH|k IH|k IH]; intros d Hp; cbn in *; [done|auto..|]. destruct d; [done|auto].
Qed.
Lemma with_lock_section {B} (p : prog B) s : nested 0 p →
  section 1 (bind p (fun a => Release B (Ret B a))) s = ((run_alone p s).1, Ret B (run_alone p s).2).
Proof. intros Hp. by rewrite (section_nested 0 0). Qed.
Lemma run_with_lock {B} (p : prog B) s : run_alone (with_lock p) s = run_alone p s.
Proof. cbn. rewrite run_bind. cbn. by destruct (run_alone p s). Qed.

(** ** The lock makes sections atomic *)

(** Only the owner is inside a section. *)
Definition disciplined (m : machine) : Prop :=
  match mc_lock m with
  | None => ∀ t p, mc_threads m !! t = Some p → held 0 p
  | Some (o, n) => n ≠ 0 ∧ (∃ p, mc_threads m !! o = Some p ∧ held n p) ∧ ∀ t p, t ≠ o → mc_threads m !! t = Some p → held 0 p
  end.

(** The atomic machine has not begun the section the owner of the lock is in. *)
Definition behind (m : machine) (a : St * list (prog A)) : Prop :=
  match mc_lock m with
  | None => a = (mc_state m, mc_threads m)
  | Some (o, n) => ∃ p k, mc_threads m !! o = Some p ∧ a.2 = <[o := Acquire A k]> (mc_threads m) ∧
                     section 1 k a.1 = section n p (mc_state m)
  end.

Lemma threads_update {P : nat → prog A → Prop} (ths : list (prog A)) t k : (∀ u p, u ≠ t → ths !! u = Some p → P u p) → P t k →
  ∀ u p, <[t := k]> ths !! u = Some p → P u p.
Proof.
  intros Ho Ht u p Hu. destruct (decide (u = t)) as [->|Hne].
  - destruct (lookup_lt_is_Some (<[t := k]> ths) t) as [Hl _]. specialize (Hl (ex_intro _ _ Hu)). rewrite length_insert in Hl.
    rewrite list_lookup_insert_eq in Hu by done. by injection Hu as <-.
  - rewrite list_lookup_insert_ne in Hu by done. by apply Ho.
Qed.

Lemma owner_inside m t : disciplined m → ∀ p, mc_threads m !! t = Some p → ¬ held 0 p → ∃ n, mc_lock m = Some (t, n) ∧ n ≠ 0 ∧ held n p.
Proof.
  unfold disciplined. destruct (mc_lock m) as [[o n]|]; intros Hd p Hp Hh; [|by destruct Hh; eapply Hd].
  destruct Hd as (Hn & (q & Hq & Hqn) & Ho). destruct (decide (t = o)) as [->|Hne]; [|by destruct Hh; eapply Ho].
  exists n. by simplify_eq.
Qed.

Lemma simulation m m' a : disciplined m → behind m a → lstep m m' → disciplined m' ∧ ∃ a', rtc atomic_step a a' ∧ behind m' a'.
Proof.
  intros Hd Hb Hs. destruct Hs as [s l ths t f k Ht|s l l' ths t k Ht Hl|s l l' ths t k Ht Hl].
  - destruct (owner_inside _ t Hd (Act A f k) Ht) as (n & Hlk & Hn & Hh); [by intros [[] _]|]. cbn in Hlk. subst l.
    destruct Hd as (_ & _ & Ho). destruct Hh as [_ Hh]. pose proof (lookup_lt_Some _ _ _ Ht) as Hlt. split.
    + split; [done|]. split; [exists (k s); split; [by apply list_lookup_insert_eq|apply Hh]|].
      intros u p Hu. cbn. rewrite list_lookup_insert_ne by done. by apply Ho.
    + exists a. split; [done|]. destruct Hb as (p & k0 & Hp & Ha & He). cbn in Hp, Ha, He. rewrite Ht in Hp. injection Hp as <-.
      exists (k s), k0. cbn. split; [by apply list_lookup_insert_eq|]. by rewrite list_insert_insert_eq.
  - pose proof (lookup_lt_Some _ _ _ Ht) as Hlt. destruct l as [[o n]|]; cbn in Hl.
    + destruct (decide (o = t)) as [->|]; [|done]. injection Hl as <-. destruct Hd as (Hn & (p & Hp & Hh) & Ho). cbn in Hp, Ho.
      rewrite Ht in Hp. injection Hp as <-. split.
      * split; [done|]. split; [exists k; split; [by apply list_lookup_insert_eq|done]|].
        intros u p Hu. cbn. rewrite list_lookup_insert_ne by done. by apply Ho.
      * exists a. split; [done|]. destruct Hb as (p & k0 & Hp & Ha & He). cbn in Hp, Ha, He. rewrite Ht in Hp. injection Hp as <-.
        exists k, k0. cbn. split; [by apply list_lookup_insert_eq|]. by rewrite list_insert_insert_eq.
    + injection Hl as <-. cbn in Hd, Hb. subst a. split.
      * split; [done|]. split; [exists k; split; [by apply list_lookup_insert_eq|by apply (Hd t (Acquire A k))]|].
        intros u p Hu. cbn. rewrite list_lookup_insert_ne by done. by apply Hd.
      * exists (s, ths). split; [done|]. exists k, k. cbn. split; [by apply list_lookup_insert_eq|].
        by rewrite list_insert_insert_eq, list_insert_id.
  - pose proof (lookup_lt_Some _ _ _ Ht) as Hlt. destruct l as [[o [|n]]|]; cbn in Hl; [done| |done].
    destruct (decide (o = t)) as [->|]; [|done]. injection Hl as <-. destruct Hd as (_ & (p & Hp & Hh) & Ho). cbn in Hp, Ho.
    rewrite Ht in Hp. injection Hp as <-. destruct Hb as (p & k0 & Hp & Ha & He). cbn in Hp, Ha, He. rewrite Ht in Hp. injection Hp as <-.
    destruct n as [|n].
    + split; [intros u p; apply (threads_update (P := fun _ => held 0)); [done|exact Hh]|]. exists (s, <[t := k]> ths). split; [|done]. apply rtc_once.
      destruct a as [sa tha]. cbn in Ha, He. pose proof (atomic_section sa tha t k0) as Hat. rewrite He in Hat. subst tha.
      rewrite list_insert_insert_eq in Hat. apply Hat. by apply list_lookup_insert_eq.
    + split.
      * split; [done|]. split; [exists k; split; [by apply list_lookup_insert_eq|done]|].
        intros u p Hu. cbn. rewrite list_lookup_insert_ne by done. by apply Ho.
      * exists a. split; [done|]. exists k, k0. cbn. split; [by apply list_lookup_insert_eq|]. by rewrite list_insert_insert_eq.
Qed.

Definition all_free (ths : list (prog A)) : Prop := Forall (held 0) ths.

Lemma simulation_steps m m' a : rtc lstep m m' → disciplined m → behind m a → disciplined m' ∧ ∃ a', rtc atomic_step a a' ∧ behind m' a'.
Proof.
  intros Hr. revert a. induction Hr as [m|m m1 m' Hs Hr IH]; intros a Hd Hb; [eauto using rtc_refl|].
  destruct (simulation _ _ _ Hd Hb Hs) as (Hd1 & a1 & Ha1 & Hb1). destruct (IH a1 Hd1 Hb1) as (? & a' & ? & ?).
  split; [done|]. exists a'. split; [by etransitivity|done].
Qed.
Lemma free_disciplined s ths : all_free ths → disciplined (Machine s None ths).
Proof. intros H t p Hp. by eapply (Forall_lookup_1 _ _ _ _ H). Qed.

Lemma free_atomic s ths s' ths' : all_free ths → rtc lstep (Machine s None ths) (Machine s' None ths') → rtc atomic_step (s, ths) (s', ths').
Proof.
  intros Hf Hr. destruct (simulation_steps _ _ (s, ths) Hr) as (_ & a & Ha & ->); [by apply free_disciplined|done|done].
Qed.

(** ** No request waits for ever *)

Definition all_answered (m : machine) : Prop := ∀ t p, mc_threads m !! t = Some p → ∃ a, p = Ret A a.

Lemma disciplined_progress m : disciplined m → all_answered m ∨ ∃ m', lstep m m'.
Proof.
  destruct m as [s [[o n]|] ths]; cbn; intros Hd.
  - destruct Hd as (Hn & (p & Hp & Hh) & _). right. destruct p as [a|f k|k|k]; cbn in Hh; [done| | |].
    + eexists. by eapply step_act.
    + eexists. eapply step_acquire; [done|]. cbn. by rewrite decide_True.
    + destruct n as [|n]; [done|]. eexists. eapply step_release; [done|]. cbn. by rewrite decide_True.
  - destruct (decide (Exists (fun p => match p with Acquire _ _ => true | _ => false end = true) ths)) as [(p & Hin & Hp)%Exists_exists|Hno].
    + right. apply list_elem_of_lookup in Hin as [t Ht]. destruct p as [a|f k|k|k]; try done. eexists. by eapply step_acquire.
    + left. intros t p Hp. cbn in Hp. specialize (Hd t p Hp). destruct p as [a|f k|k|k]; [by eexists|by destruct Hd|exfalso|done].
      apply Hno, Exists_exists. exists (Acquire A k). split; [by eapply list_elem_of_lookup_2|done].
Qed.

Inductive smaller : prog A → prog A → Prop :=
| smaller_act f k s : smaller (k s) (Act A f k)
| smaller_acquire k : smaller k (Acquire A k)
| smaller_release k : smaller k (Release A k).
Lemma smaller_wf p : Acc smaller p.
Proof. induction p as [a|f k IH|k IH|k IH]; constructor; intros q Hq; inversion Hq; subst; auto. Qed.

Inductive one_smaller : list (prog A) → list (prog A) → Prop :=
| one_here p q ths : smaller q p → one_smaller (q :: ths) (p :: ths)
| one_later p ths ths' : one_smaller ths' ths → one_smaller (p :: ths') (p :: ths).
Lemma one_smaller_wf ths : Acc one_smaller ths.
Proof.
  induction ths as [|p ths IH]; [constructor; intros ? H; inversion H|]. revert p. induction IH as [ths _ IH]. intros p.
  induction (smaller_wf p) as [p _ IHp]. constructor. intros ths' H. inversion H; subst; auto.
Qed.
Lemma insert_smaller (ths : list (prog A)) t p q : ths !! t = Some p → smaller q p → one_smaller (<[t := q]> ths) ths.
Proof.
  revert t. induction ths as [|r ths IH]; intros [|t] Hp Hq; [done..| |]; cbn in *.
  - injection Hp as ->. by constructor.
  - constructor. by apply IH.
Qed.
Lemma lstep_smaller m m' : lstep m m' → one_smaller (mc_threads m') (mc_threads m).
Proof. intros H. destruct H; cbn; (eapply insert_smaller; [done|constructor]). Qed.
Lemma machine_stops m : Acc (fun x y => lstep y x) m.
Proof.
  remember (mc_threads m) as ths eqn:E. revert m E. induction (one_smaller_wf ths) as [ths _ IH]. intros m ->. constructor. intros m' Hs.
  by eapply (IH (mc_threads m')); [apply lstep_smaller|].
Qed.

(** ** Requests that hold the lock all along *)

(** The requests one after the other: the state they leave, and the answer of each. *)
Fixpoint one_by_one (ps : list (prog A)) (order : list nat) (s : St) : St * list (nat * A) :=
  match order with
  | [] => (s, [])
  | i :: order =>
      match ps !! i with
      | Some p => let '(s1, a) := run_alone p s in let '(s2, log) := one_by_one ps order s1 in (s2, (i, a) :: log)
      | None => one_by_one ps order s
      end
  end.

Lemma one_by_one_snoc ps order i p s s1 log : ps !! i = Some p → one_by_one ps order s = (s1, log) →
  one_by_one ps (order ++ [i]) s = ((run_alone p s1).1, log ++ [(i, (run_alone p s1).2)]).
Proof.
  intros Hp. revert s log. induction order as [|j order IH]; intros s log; cbn [one_by_one app].
  { intros [<- <-]%pair_equal_spec. rewrite Hp. by destruct (run_alone p s). }
  destruct (ps !! j) as [q|]; [|apply IH]. destruct (run_alone q s) as [s2 a]. destruct (one_by_one ps order s2) as [s3 log3] eqn:E.
  intros [<- <-]%pair_equal_spec. by rewrite (IH _ _ E).
Qed.

(** The requests in [order] are answered, the others have not begun. *)
Definition served (ps : list (prog A)) (s0 : St) (order : list nat) (a : St * list (prog A)) : Prop :=
  ∃ log, one_by_one ps order s0 = (a.1, log) ∧ NoDup order ∧ (∀ i, i ∈ order → i < length ps) ∧ length a.2 = length ps ∧
    ∀ i p, ps !! i = Some p → (i ∉ order ∧ a.2 !! i = Some (with_lock p)) ∨ (i ∈ order ∧ ∃ r, (i, r) ∈ log ∧ a.2 !! i = Some (Ret A r)).

Lemma served_step ps s0 order a a' : Forall (nested 0) ps → served ps s0 order a → atomic_step a a' → ∃ i, served ps s0 (order ++ [i]) a'.
Proof.
  intros Hps (log & Hlog & Hnd & Hin & Hlen & Hth) Hs. destruct Hs as [s ths t k Ht]. cbn in Hlen, Hth, Hlog.
  pose proof (lookup_lt_Some _ _ _ Ht) as Hlt. destruct (lookup_lt_is_Some_2 ps t) as [p Hp]; [lia|].
  assert (Hnested : nested 0 p) by exact (Forall_lookup_1 _ _ _ _ Hps Hp).
  destruct (Hth t p Hp) as [[Hni Hw]|(_ & r & _ & Hr)]; [|congruence]. rewrite Ht in Hw. injection Hw as ->.
  rewrite with_lock_section by done. cbn [fst snd]. exists t. exists (log ++ [(t, (run_alone p s).2)]). cbn. split_and!.
  - by apply one_by_one_snoc.
  - apply NoDup_app. split_and!; [done| |by apply NoDup_singleton]. by intros j Hj ->%list_elem_of_singleton.
  - intros j [Hj| ->%list_elem_of_singleton]%elem_of_app; [by apply Hin|lia].
  - by rewrite length_insert.
  - intros j q Hq. destruct (decide (j = t)) as [->|Hne].
    + right. split; [set_solver|]. exists (run_alone p s).2. split; [set_solver|]. by apply list_lookup_insert_eq.
    + rewrite list_lookup_insert_ne by done. destruct (Hth j q Hq) as [[Hj Hw]|(Hj & r & Hr & Hw)].
      * left. split; [|done]. rewrite elem_of_app, list_elem_of_singleton. by intros [?|?].
      * right. split; [set_solver|]. exists r. split; [set_solver|done].
Qed.
Lemma served_steps ps s0 order a a' : Forall (nested 0) ps → served ps s0 order a → rtc atomic_step a a' → ∃ order', served ps s0 order' a'.
Proof.
  intros Hps Hs Hr. revert order Hs. induction Hr as [a|a a1 a' H1 Hr IH]; intros order Hs; [eauto|].
  destruct (served_step _ _ _ _ _ Hps Hs H1) as [i Hi]. by eapply IH.
Qed.

Lemma requests_held ps : Forall (nested 0) ps → all_free (with_lock <$> ps).
Proof. intros H. apply Forall_fmap. eapply Forall_impl; [exact H|]. intros p. apply with_lock_held. Qed.

(** Whoever runs when, the requests have the effect and the answers of some order of whole requests. *)
Lemma requests_serial ps s0 m : Forall (nested 0) ps → rtc lstep (Machine s0 None (with_lock <$> ps)) m → all_answered m →
  ∃ order log, order ≡ₚ seq 0 (length ps) ∧ one_by_one ps order s0 = (mc_state m, log) ∧
    ∀ i, i < length ps → ∃ r, (i, r) ∈ log ∧ mc_threads m !! i = Some (Ret A r).
Proof.
  intros Hps Hr Hfin. destruct (simulation_steps _ _ (s0, with_lock <$> ps) Hr) as (Hd & a & Ha & Hb); [by apply free_disciplined, requests_held|done|].
  assert (Ha' : a = (mc_state m, mc_threads m)).
  { unfold disciplined in Hd. unfold behind in Hb. destruct (mc_lock m) as [[o n]|]; [|done]. destruct Hd as (Hn & (p & Hp & Hh) & _).
    destruct (Hfin o p Hp) as [r ->]. by cbn in Hh. }
  assert (H0 : served ps s0 [] (s0, with_lock <$> ps)).
  { exists []. cbn. split_and!; [done|by apply NoDup_nil|set_solver|by rewrite length_fmap|]. intros i p Hp. left.
    split; [set_solver|]. by rewrite list_lookup_fmap, Hp. }
  destruct (served_steps _ _ _ _ _ Hps H0 Ha) as (order & log & Hlog & Hnd & Hin & Hlen & Hth). rewrite Ha' in *. cbn in *.
  assert (Hall : ∀ i, i < length ps → i ∈ order ∧ ∃ r, (i, r) ∈ log ∧ mc_threads m !! i = Some (Ret A r)).
  { intros i Hi. destruct (lookup_lt_is_Some_2 ps i Hi) as [p Hp]. destruct (Hth i p Hp) as [[_ Hw]|H]; [|done].
    destruct (Hfin i _ Hw) as [r Hr']. discriminate Hr'. }
  exists order, log. split_and!; [|done|by intros i Hi; apply Hall]. apply NoDup_Permutation; [done|apply NoDup_seq|].
  intros i. rewrite elem_of_seq. split; [intros H%Hin; lia|]. intros H. apply Hall. lia.
Qed.
(** And they are all answered. *)
Lemma requests_answered ps s0 m : Forall (nested 0) ps → rtc lstep (Machine s0 None (with_lock <$> ps)) m → ∃ m', rtc lstep m m' ∧ all_answered m'.
Proof.
  intros Hps Hr. destruct (simulation_steps _ _ (s0, with_lock <$> ps) Hr) as (Hd & a & _ & Hb); [by apply free_disciplined, requests_held|done|].
  clear Hr. revert a Hd Hb. induction (machine_stops m) as [m _ IH]. intros a Hd Hb.
  destruct (disciplined_progress m Hd) as [|[m1 H1]]; [by exists m|]. destruct (simulation _ _ _ Hd Hb H1) as (Hd1 & a1 & _ & Hb1).
  destruct (IH m1 H1 a1 Hd1 Hb1) as (m' & Hr & Hf). exists m'. split; [by eapply rtc_l|done].
Qed.
End programs.
Arguments Ret {St A} a.
Arguments Act {St A} f k.
Arguments Acquire {St A} k.
Arguments Release {St A} k.

(** ** The creation of a client, step by step *)

(** An exception ends the request. *)
Definition try {St A B : Type} (p : prog (St := St) (result A)) (k : A → prog (result B)) : prog (result B) :=
  bind p (fun r => match r with Ok a => k a | Raise e => Ret (Raise e) end).
Definition look {St X : Type} (f : St → X) : prog X := op (fun s => (s, f s)).
(** An operation on the directories; when it fails it has changed nothing. *)
Definition on_dirs (f : pki_dir * access → result (pki_dir * access)) : prog (result unit) :=
  op (fun s => match f (sv_pki s, sv_access s) with
               | Ok (p, a) => (set_access_dirs a (set_pki p s), Ok tt)
               | Raise e => (s, Raise e)
               end).
Definition change_access (f : access → result access) : prog (result unit) :=
  op (fun s => match f (sv_access s) with Ok a => (set_access_dirs a s, Ok tt) | Raise e => (s, Raise e) end).
Definition change_db (f : database → result database) : prog (result unit) :=
  op (fun s => match f (sv_db s) with Ok d => (set_db d s, Ok tt) | Raise e => (s, Raise e) end).

Record creation := Creation {
  cn_now : Z;
  cn_conf : string;
  cn_guest_sub : string;
  cn_tfa : result (option string);
  cn_body : new_client;
  cn_actor : string;
}.

Section creation.
(** genclient.sh: the name, the days of validity, the static address. *)
Context (genclient : string → option Z → option string → pki_dir * access → result (pki_dir * access)).

(** [pki.create_client]: the checks, and the script under the lock. *)
Definition pki_create_steps (c : creation) (name : string) (passphrase static_ip : option string) : prog (result unit) :=
  let days := nc_days (cn_body c) in
  try (look (fun s =>
        _ ← validate_name name;
        _ ← raise_if (negb (days_ok days)) (PkiError "Validity must be between 1 and 3650 days");
        problem ← (if truthy static_ip then static_ip_problem (cn_conf c) (cn_guest_sub c) (sv_access s) name (default "" static_ip) else Ok None);
        _ ← raise_if (match problem with Some _ => true | None => false end) (PkiError (default "" problem));
        raise_if (truthy passphrase && Z.ltb (strlen (default "" passphrase)) 4) (PkiError "Passphrase must be at least 4 characters")))
  (fun _ => with_lock (on_dirs (genclient name days static_ip))).

(** The state of a listed client. *)
Definition listed_state (now : Z) (name : string) (p : pki_dir) : option cstate :=
  (fun x => cr_state (cl_cert x)) <$> find (fun x => String.eqb (cl_name x) name)
    (list_clients now (pd_index p) ∅ (pd_issued p) (pd_renewed p) (pd_revoked p)).

(** [_create_client]. *)
Definition create_steps (c : creation) : prog (result (client * option string)) :=
  let body := cn_body c in
  let now := cn_now c in
  match validate_name (strip (nc_name body)) with
  | Raise e => Ret (Raise e)
  | Ok name =>
      bind (look (fun s => listed_state now name (sv_pki s))) (fun existing =>
      match taken existing with
      | Some e => Ret (Raise e)
      | None =>
          let ip := strip (default "" (nc_static_ip body)) in
          let static_ip := if empty ip then None else Some ip in
          if nc_guest body && truthy static_ip
          then Ret (Raise (HTTPException 400 "Guests get an address from the guest range for each device, not a static IP"))
          else
            try (pki_create_steps c name (if truthy (nc_passphrase body) then nc_passphrase body else None) static_ip) (fun _ =>
            try (change_db (fun d => r ← archive_client_history now name None d; Ok r.1)) (fun _ =>
            try (change_db (fun d => Ok (drop_share_links name d))) (fun _ =>
            try (with_lock (change_access (set_guest name (nc_guest body)))) (fun _ =>
            try (if truthy static_ip then Ret (Ok tt) else with_lock (change_access (set_static_ip (cn_conf c) (cn_guest_sub c) name None))) (fun _ =>
            try (change_db (fun d => Ok (upd_clients (<[name := ClientRow (strip (nc_note body)) now]>) d))) (fun _ =>
            try (Ret (cn_tfa c)) (fun uri =>
            bind (op (fun s => (event now "client_created" (cn_actor c) (Some name)
                                  (Some ("static_ip=" +:+ default "-" static_ip +:+ " guest=" +:+ str_of_bool (nc_guest body)
                                         +:+ " tfa=" +:+ str_of_bool (nc_tfa body))) s, tt))) (fun _ =>
            look (fun s => row ← find_client now name s; Ok (row, uri))))))))))
      end)
  end.

(** The handler [create_client]: all of it under the lock. *)
Definition create_request (c : creation) : prog (result (client * option string)) := with_lock (create_steps c).

(** The handler as a whole, in [Lifecycle]. *)
Definition create_whole (c : creation) (s : server) : server * result (client * option string) :=
  create_client (cn_now c) (cn_conf c) (cn_guest_sub c) (genclient (strip (nc_name (cn_body c)))) (cn_tfa c) (cn_body c) (cn_actor c) s.

Lemma nested_try {St A B} (p : prog (St := St) (result A)) (k : A → prog (result B)) : nested 0 p → (∀ a, nested 0 (k a)) → nested 0 (try p k).
Proof. intros Hp Hk. apply nested_bind; [done|]. intros [a|e]; [apply Hk|done]. Qed.
Lemma run_try {St A B} (p : prog (St := St) (result A)) (k : A → prog (result B)) s :
  run_alone (try p k) s = match (run_alone p s).2 with Ok a => run_alone (k a) (run_alone p s).1 | Raise e => ((run_alone p s).1, Raise e) end.
Proof. unfold try. rewrite run_bind. by destruct (run_alone p s).2. Qed.

Lemma pki_create_nested c name pass ip : nested 0 (pki_create_steps c name pass ip).
Proof. apply nested_try; [done|]. intros _. by apply with_lock_nested. Qed.
Lemma create_steps_nested c : nested 0 (create_steps c).
Proof.
  unfold create_steps. destruct (validate_name _) as [name|]; [|done]. apply nested_bind; [done|]. intros existing.
  destruct (taken existing); [done|]. cbv zeta. set (ip := if empty _ then _ else _). destruct (nc_guest _ && truthy ip); [done|].
  apply nested_try; [apply pki_create_nested|intros _].
  repeat (apply nested_try; [try done; try by apply with_lock_nested|intros ?]); [|done]. destruct (truthy ip); [done|by apply with_lock_nested].
Qed.

(** Without interruption the steps are the handler. *)
Lemma run_pki_create c name passphrase static_ip s : run_alone (pki_create_steps c name passphrase static_ip) s =
  match pki_create_client (genclient name) (cn_conf c) (cn_guest_sub c) name (nc_days (cn_body c)) passphrase static_ip (sv_pki s, sv_access s) with
  | Ok (p, a) => (set_access_dirs a (set_pki p s), Ok tt)
  | Raise e => (s, Raise e)
  end.
Proof.
  unfold pki_create_steps, pki_create_client. cbv zeta. rewrite run_try. cbn [look op run_alone fst snd].
  destruct (validate_name name); [|done]. cbn [mbind result_bind]. destruct (raise_if (negb _) _); [|done]. cbn [mbind result_bind].
  cbn [fst snd].
  destruct (if truthy static_ip then _ else _) as [[problem|]|]; [done| |done]. cbn [mbind result_bind raise_if]. destruct (raise_if (truthy passphrase && _) _) as [u|]; [|done]. cbn [mbind result_bind].
  rewrite run_with_lock. unfold on_dirs. cbn [op run_alone]. by destruct (genclient _ _ _ _) as [[]|].
Qed.
Lemma run_change_db f s : run_alone (change_db f) s = match f (sv_db s) with Ok d => (set_db d s, Ok tt) | Raise e => (s, Raise e) end.
Proof. unfold change_db. cbn [op run_alone]. by destruct (f _). Qed.
Lemma run_change_access f s : run_alone (with_lock (change_access f)) s =
  match f (sv_access s) with Ok a => (set_access_dirs a s, Ok tt) | Raise e => (s, Raise e) end.
Proof. rewrite run_with_lock. unfold change_access. cbn [op run_alone]. by destruct (f _). Qed.

Lemma run_create_steps c s : run_alone (create_steps c) s = create_whole c s.
Proof.
  unfold create_steps, create_whole, create_client. destruct (validate_name (strip _)) as [name|e] eqn:Hv; [|done].
  assert (name = strip (nc_name (cn_body c))) as ->. { unfold validate_name in Hv. inv_result. congruence. }
  set (name := strip (nc_name _)) in *. rewrite run_bind. cbn [look op run_alone fst snd]. unfold listed_state at 1, listing.
  destruct (taken _); [done|]. cbv zeta. set (ip := if empty _ then _ else _). destruct (nc_guest _ && truthy ip); [done|].
  rewrite run_try, run_pki_create. destruct (pki_create_client _ _ _ _ _ _ _ _) as [[p a]|]; [|done]. cbn [fst snd].
  rewrite run_try, run_change_db. destruct (archive_client_history _ _ _ _) as [[d key]|]; [|done]. cbn [mbind result_bind fst snd].
  rewrite run_try, run_change_db. cbn [fst snd]. rewrite run_try, run_change_access.
  destruct (set_guest _ _ _) as [a1|]; [|done]. cbn [fst snd].
  assert (Hst : ∀ s, run_alone (if truthy ip then Ret (Ok tt) else with_lock (change_access (set_static_ip (cn_conf c) (cn_guest_sub c) name None))) s =
    match (if truthy ip then Ok (sv_access s) else set_static_ip (cn_conf c) (cn_guest_sub c) name None (sv_access s)) with
    | Ok a => (set_access_dirs a s, Ok tt) | Raise e => (s, Raise e) end).
  { intros [d0 r0 p0 a0 m0]. destruct (truthy ip); [done|apply run_change_access]. }
  rewrite run_try, Hst. clear Hst. destruct (if truthy ip then _ else _) as [a2|]; [|done]. cbn [fst snd].
  rewrite run_try, run_change_db. cbn [fst snd]. rewrite run_try. cbn [run_alone fst snd]. destruct (cn_tfa c) as [uri|]; [|done].
  rewrite run_bind. done.
Qed.


(** ** Theorems on creations *)

(** Whole requests one after the other. *)
Fixpoint in_order (reqs : list creation) (order : list nat) (s : server) : server * list (nat * result (client * option string)) :=
  match order with
  | [] => (s, [])
  | i :: order =>
      match reqs !! i with
      | Some c => let '(s1, r) := create_whole c s in let '(s2, log) := in_order reqs order s1 in (s2, (i, r) :: log)
      | None => in_order reqs order s
      end
  end.
Lemma in_order_one_by_one reqs order s : one_by_one (create_steps <$> reqs) order s = in_order reqs order s.
Proof.
  revert s. induction order as [|i order IH]; intros s; [done|]. cbn [one_by_one in_order]. rewrite list_lookup_fmap.
  destruct (reqs !! i) as [c|]; [|apply IH]. cbn [fmap option_fmap option_map]. rewrite run_create_steps. destruct (create_whole c s) as [s1 r]. by rewrite IH.
Qed.
Lemma creations_nested (reqs : list creation) : Forall (nested 0) (create_steps <$> reqs).
Proof. apply Forall_fmap, Forall_true. intros c. apply create_steps_nested. Qed.
Lemma create_requests (reqs : list creation) : create_request <$> reqs = with_lock <$> (create_steps <$> reqs).
Proof. by rewrite <- list_fmap_compose. Qed.

Definition client_name (c : creation) : string := strip (nc_name (cn_body c)).

(** What a creation does to the PKI. *)
Lemma create_whole_pki c s s' r : create_whole c s = (s', r) →
  (sv_pki s' = sv_pki s ∧ (∀ x, r ≠ Ok x)) ∨
  (listed_state (cn_now c) (client_name c) (sv_pki s) ≠ Some Valid ∧
   ∃ days ip a a', genclient (client_name c) days ip (sv_pki s, a) = Ok (sv_pki s', a')).
Proof.
  unfold create_whole, create_client, client_name. destruct (validate_name _) as [name|e] eqn:Hv; [|by intros [<- <-]%pair_equal_spec; left].
  assert (name = strip (nc_name (cn_body c))) as ->. { unfold validate_name in Hv. inv_result. congruence. }
  set (name := strip (nc_name _)) in *. fold (listing (cn_now c) ∅ s). change (_ <$> find _ (listing (cn_now c) ∅ s)) with (listed_state (cn_now c) name (sv_pki s)).
  destruct (taken _) eqn:Ht; [by intros [<- <-]%pair_equal_spec; left|]. cbv zeta. set (ip := if empty _ then _ else _).
  destruct (nc_guest _ && truthy ip); [by intros [<- <-]%pair_equal_spec; left|].
  destruct (pki_create_client _ _ _ _ _ _ _ _) as [[p a]|] eqn:Hp; [|by intros [<- <-]%pair_equal_spec; left]. intros H. right.
  split; [by intros Hs; rewrite Hs in Ht|]. exists (nc_days (cn_body c)), ip, (sv_access s), a.
  assert (Hpki : sv_pki s' = p).
  { destruct (archive_client_history _ _ _ _) as [[d key]|]; [|by apply pair_equal_spec in H as [<- _]].
    destruct (set_guest _ _ _); [|by apply pair_equal_spec in H as [<- _]]. destruct (if truthy ip then _ else _); [|by apply pair_equal_spec in H as [<- _]].
    destruct (cn_tfa c); by apply pair_equal_spec in H as [<- _]. }
  rewrite Hpki. unfold pki_create_client in Hp. inv_result. done.
Qed.

(** genclient.sh makes a valid certificate, and takes no other client's away; the requests come while it is valid. *)
Definition makes_valid (reqs : list creation) : Prop :=
  ∀ name days ip p a p' a' c, genclient name days ip (p, a) = Ok (p', a') → c ∈ reqs → listed_state (cn_now c) name p' = Some Valid.
Definition keeps_valid (reqs : list creation) : Prop :=
  ∀ name days ip p a p' a' c other, genclient name days ip (p, a) = Ok (p', a') → c ∈ reqs →
    listed_state (cn_now c) other p = Some Valid → listed_state (cn_now c) other p' = Some Valid.

Definition name_taken (reqs : list creation) (name : string) (s : server) : Prop :=
  ∀ c, c ∈ reqs → listed_state (cn_now c) name (sv_pki s) = Some Valid.

Lemma taken_stays reqs name c s s' r : keeps_valid reqs → c ∈ reqs → create_whole c s = (s', r) → name_taken reqs name s → name_taken reqs name s'.
Proof.
  intros Hk Hc Hw Ht c' Hc'. destruct (create_whole_pki _ _ _ _ Hw) as [[-> _]|(_ & days & ip & a & a' & Hg)]; [by apply Ht|].
  eapply Hk; [done..|by apply Ht].
Qed.
Lemma taken_refused reqs name order s s' log i x : keeps_valid reqs → in_order reqs order s = (s', log) → name_taken reqs name s →
  (i, Ok x) ∈ log → ∀ c, reqs !! i = Some c → client_name c ≠ name.
Proof.
  intros Hk. revert s log. induction order as [|j order IH]; intros s log; cbn [in_order]; [intros [_ <-]%pair_equal_spec; set_solver|].
  destruct (reqs !! j) as [cj|] eqn:Hj; [|apply IH]. destruct (create_whole cj s) as [s1 r] eqn:Hw. destruct (in_order reqs order s1) as [s2 log2] eqn:Ho.
  assert (Hin : cj ∈ reqs) by by eapply list_elem_of_lookup_2.
  intros [-> <-]%pair_equal_spec Ht [[-> <-]%pair_equal_spec|Hi]%elem_of_cons c Hc.
  2: { eapply (IH s1); [exact Ho| |done|done]. by eapply taken_stays. }
  rewrite Hj in Hc. injection Hc as <-.
  destruct (create_whole_pki _ _ _ _ Hw) as [[_ Hr]|(Hn & _)]; [by destruct (Hr x)|]. intros Heq. apply Hn. rewrite Heq. by apply Ht.
Qed.
Lemma in_order_once reqs order s s' log : makes_valid reqs → keeps_valid reqs → NoDup order → in_order reqs order s = (s', log) →
  ∀ i j x y ci cj, (i, Ok x) ∈ log → (j, Ok y) ∈ log → reqs !! i = Some ci → reqs !! j = Some cj → client_name ci = client_name cj → i = j.
Proof.
  intros Hm Hk. revert s log. induction order as [|k order IH]; intros s log Hnd; cbn [in_order]; [intros [_ <-]%pair_equal_spec; set_solver|].
  apply NoDup_cons in Hnd as [Hk' Hnd]. destruct (reqs !! k) as [ck|] eqn:Hrk; [|by apply IH]. destruct (create_whole ck s) as [s1 r] eqn:Hw.
  destruct (in_order reqs order s1) as [s2 log2] eqn:Ho. intros [-> <-]%pair_equal_spec i j x y ci cj Hi Hj Hci Hcj Hn.
  assert (Htaken : ∀ z, r = Ok z → name_taken reqs (client_name ck) s1).
  { intros z ->. destruct (create_whole_pki _ _ _ _ Hw) as [[_ Hr]|(_ & days & ip & a & a' & Hg)]; [by destruct (Hr z)|]. intros c Hc. by eapply Hm. }
  rewrite !elem_of_cons in Hi, Hj. destruct Hi as [[-> Hx]%pair_equal_spec|Hi], Hj as [[-> Hy]%pair_equal_spec|Hj]; [done| | |by eapply IH].
  - rewrite Hrk in Hci. injection Hci as <-. by destruct (taken_refused reqs (client_name ck) order s1 s' log2 j y Hk Ho (Htaken x (eq_sym Hx)) Hj cj).
  - rewrite Hrk in Hcj. injection Hcj as <-. by destruct (taken_refused reqs (client_name ck) order s1 s' log2 i x Hk Ho (Htaken y (eq_sym Hy)) Hi ci).
Qed.
End creation.

(** ** A scheduler, for concrete runs *)

(** A thread that waits for the lock, or is done, lets its turn go. *)
Definition give_turn {St A : Type} (t : nat) (m : machine (St := St) (A := A)) : machine :=
  match mc_threads m !! t with
  | Some (Act f k) => Machine (f (mc_state m)) (mc_lock m) (<[t := k (mc_state m)]> (mc_threads m))
  | Some (Acquire k) => match acquire t (mc_lock m) with Some l => Machine (mc_state m) l (<[t := k]> (mc_threads m)) | None => m end
  | Some (Release k) => match release t (mc_lock m) with Some l => Machine (mc_state m) l (<[t := k]> (mc_threads m)) | None => m end
  | _ => m
  end.
Definition schedule {St A : Type} (ts : list nat) (m : machine (St := St) (A := A)) : machine := fold_left (fun m t => give_turn t m) ts m.
Lemma schedule_steps {St A} ts (m : machine (St := St) (A := A)) : rtc lstep m (schedule ts m).
Proof.
  revert m. induction ts as [|t ts IH]; intros m; [done|]. cbn [schedule fold_left]. etransitivity; [|apply IH]. unfold give_turn.
  destruct m as [s l ths]. cbn. destruct (ths !! t) as [[a|f k|k|k]|] eqn:Ht; [done| | | |done].
  - by apply rtc_once, step_act.
  - destruct (acquire t l) eqn:Hl; [|done]. by apply rtc_once, step_acquire.
  - destruct (release t l) eqn:Hl; [|done]. by apply rtc_once, step_release.
Qed.
Definition is_ret {St A : Type} (p : prog (St := St) A) : bool := match p with Ret _ => true | _ => false end.
Lemma all_ret_answered {St A} (m : machine (St := St) (A := A)) : forallb is_ret (mc_threads m) = true → all_answered m.
Proof. intros H t p Hp. rewrite forallb_forall in H. specialize (H p). destruct p as [a| | |]; [by exists a|..]; by discriminate H; apply list_elem_of_In, (list_elem_of_lookup_2 _ t). Qed.

(** ** Theorems *)

(** C10. Creation requests that run at the same time, interleaved step by step, are all answered after finitely many
    steps, and have the effect and the answers of the handler of [Lifecycle] run as a whole, in some order of the requests. *)
Theorem creations_serial genclient reqs s0 m :
  rtc lstep (Machine s0 None (create_request genclient <$> reqs)) m →
  Acc (fun x y => lstep y x) m ∧ (∃ m', rtc lstep m m' ∧ all_answered m') ∧
  (all_answered m → ∃ order log, order ≡ₚ seq 0 (length reqs) ∧ in_order genclient reqs order s0 = (mc_state m, log) ∧
     ∀ i, i < length reqs → ∃ r, (i, r) ∈ log ∧ mc_threads m !! i = Some (Ret r)).
Proof.
  rewrite create_requests. intros Hr. pose proof (creations_nested genclient reqs) as Hn. split_and!.
  - apply machine_stops.
  - by eapply requests_answered.
  - intros Hf. destruct (requests_serial _ _ _ Hn Hr Hf) as (order & log & Hp & Ho & Hall). rewrite length_fmap in Hp, Hall.
    exists order, log. by rewrite <- in_order_one_by_one.
Qed.

(** C32. A second click finds the client created: of any number of requests for one name that run at the same time, at most one succeeds. *)
Theorem one_creation_wins genclient reqs s0 m i j ci cj x y :
  makes_valid genclient reqs → keeps_valid genclient reqs →
  rtc lstep (Machine s0 None (create_request genclient <$> reqs)) m → all_answered m →
  reqs !! i = Some ci → reqs !! j = Some cj → client_name ci = client_name cj →
  mc_threads m !! i = Some (Ret (Ok x)) → mc_threads m !! j = Some (Ret (Ok y)) → i = j.
Proof.
  rewrite create_requests. intros Hm Hk Hr Hf Hi Hj Hn Hx Hy.
  destruct (requests_serial _ _ _ (creations_nested genclient reqs) Hr Hf) as (order & log & Hp & Ho & Hall). rewrite length_fmap in Hp, Hall.
  rewrite in_order_one_by_one in Ho. assert (Hlog : ∀ k r, k < length reqs → mc_threads m !! k = Some (Ret r) → (k, r) ∈ log).
  { intros k r Hlt Hk'. destruct (Hall k Hlt) as (r' & Hin & Hr'). rewrite Hr' in Hk'. by injection Hk' as ->. }
  eapply (in_order_once genclient reqs order s0 _ log Hm Hk); [rewrite Hp; apply NoDup_seq|done|..|done|done|done].
  - apply Hlog; [by eapply lookup_lt_Some|done].
  - apply Hlog; [by eapply lookup_lt_Some|done].
Qed.

(** ** Two clicks *)

Definition toy_genclient (name : string) (days : option Z) (ip : option string) (pa : pki_dir * access) : result (pki_dir * access) :=
  match pd_issued pa.1, pd_renewed pa.1, pd_revoked pa.1 with
  | [], [], [] => if String.eqb name "alice" then Ok (dir_valid, pa.2) else Raise (PkiError "")
  | _, _, _ => Raise (PkiError "")
  end.
Definition click : creation := Creation 3000 "" "10.8.0.128/25" (Ok None) (NewClient " alice " None None None false false "") "admin".
Definition no_clients : server := set_pki (PkiDir ∅ [] [] []) demo_server.
Definition two_clicks : machine := Machine no_clients None (create_request toy_genclient <$> [click; click]).
Definition alternating : list nat := concat (repeat [0; 1] 40).

Lemma creations_serial_witness : ∃ order log, order ≡ₚ [0; 1] ∧
  in_order toy_genclient [click; click] order no_clients = (mc_state (schedule alternating two_clicks), log).
Proof.
  destruct (creations_serial toy_genclient [click; click] no_clients (schedule alternating two_clicks) (schedule_steps alternating two_clicks)) as (_ & _ & H).
  destruct H as (order & log & Hp & Ho & _); [|by exists order, log]. apply all_ret_answered. vm_compute. reflexivity.
Defined.

Definition succeeded {St X : Type} (p : option (prog (St := St) (result X))) : bool := match p with Some (Ret (Ok _)) => true | _ => false end.

Lemma one_creation_wins_witness :
  succeeded (mc_threads (schedule alternating two_clicks) !! 0) = true ∧ ∀ y, mc_threads (schedule alternating two_clicks) !! 1 ≠ Some (Ret (Ok y)).
Proof.
  assert (H0 : succeeded (mc_threads (schedule alternating two_clicks) !! 0) = true) by (vm_compute; reflexivity).
  split; [exact H0|]. intros y Hy. destruct (mc_threads (schedule alternating two_clicks) !! 0) as [[[x|]| | |]|] eqn:Hx; try discriminate H0.
  enough (0 = 1) by discriminate. 
  apply (one_creation_wins toy_genclient [click; click] no_clients (schedule alternating two_clicks) 0 1 click click x y).
  - intros name days ip p a p' a' c Hg Hc. unfold toy_genclient in Hg. cbn in Hg.
    destruct (pd_issued p), (pd_renewed p), (pd_revoked p); try discriminate Hg. destruct (String.eqb_spec name "alice") as [->|]; [|discriminate Hg].
    injection Hg as <- <-. rewrite !elem_of_cons in Hc. destruct Hc as [->|[->|[]%not_elem_of_nil]]; vm_compute; reflexivity.
  - intros name days ip p a p' a' c other Hg Hc Hv. unfold toy_genclient in Hg. cbn in Hg.
    unfold listed_state in Hv. destruct (pd_issued p), (pd_renewed p), (pd_revoked p); try discriminate Hg. discriminate Hv.
  - apply schedule_steps.
  - apply all_ret_answered. vm_compute. reflexivity.
  - reflexivity.
  - reflexivity.
  - reflexivity.
  - exact Hx.
  - exact Hy.
Defined.
