(* ===== verification/Connections.v ===== *)
(** * The connections of the application to PostgreSQL

    [Database] of [ui/app/db.py] keeps a connection per thread, makes a new one when it finds the old one closed or
    broken, and runs every change in a transaction.  The server keeps the committed data and, for a connection that
    has sent BEGIN, the data its transaction works on; COMMIT makes these the committed ones, and a lost connection
    takes its transaction along.  A body is a program of statements whose answers it sees, errors included.  Where
    the connection is lost is an argument: while it is made, at BEGIN, at any statement, at ROLLBACK or at COMMIT,
    where nobody knows whether the server has committed.  Every use of a connection that is closed or broken
    raises.  Changes of one process wait for each other ([_write_lock]); a [tx] inside a [tx] is not modelled. *)

From S2P Require Import Prelude PyStr.

Open Scope string_scope.
Open Scope list_scope.

Section connections.
(** The data, and the answer of a statement. *)
Context {D A : Type}.

(** A connection of psycopg, with the schema its search path names. *)
Record raw := Raw { raw_closed : bool; raw_broken : bool; raw_schema : string }.
Definition raw_usable (r : raw) : bool := negb (raw_closed r || raw_broken r).

(** The connections by thread. *)
Record handle := Handle { h_schema : string; h_local : gmap nat raw }.

(** The server: the committed data, the schemas, and the transactions that are open, by the thread whose connection
    has begun them.  After a statement that failed, a transaction can only be rolled back. *)
Inductive txn := InTx (d : D) | Failed.
Record pg := Pg { pg_data : D; pg_schemas : gset string; pg_open : gmap nat txn }.

Definition set_local (t : nat) (r : raw) (h : handle) : handle := Handle (h_schema h) (<[t := r]> (h_local h)).
Definition drop_local (t : nat) (h : handle) : handle := Handle (h_schema h) (delete t (h_local h)).
Definition set_data (d : D) (p : pg) : pg := Pg d (pg_schemas p) (pg_open p).
Definition set_txn (t : nat) (x : txn) (p : pg) : pg := Pg (pg_data p) (pg_schemas p) (<[t := x]> (pg_open p)).
Definition end_txn (t : nat) (p : pg) : pg := Pg (pg_data p) (pg_schemas p) (delete t (pg_open p)).

(** What fails while a connection is made: the connection, the look at the schemas, the new schema, the search path. *)
Record conn_fate := ConnFate { cf_connect : option exn; cf_lookup : option exn; cf_create : option exn; cf_path : option exn }.
Definition no_trouble : conn_fate := ConnFate None None None None.

(** [_conn]. *)
Definition get_conn (f : conn_fate) (t : nat) (h : handle) (p : pg) : result raw * handle * pg :=
  let fresh :=
    match cf_connect f, cf_lookup f with
    | Some e, _ | None, Some e => (Raise e, h, p)
    | None, None =>
        let known := bool_decide (h_schema h ∈ pg_schemas p) in
        match (if known then None else cf_create f) with
        | Some e => (Raise e, h, p)
        | None =>
            let p := if known then p else Pg (pg_data p) ({[h_schema h]} ∪ pg_schemas p) (pg_open p) in
            match cf_path f with
            | Some e => (Raise e, h, p)
            | None => let r := Raw false false (h_schema h) in (Ok r, set_local t r h, p)
            end
        end
    end in
  match h_local h !! t with
  | Some r => if raw_usable r then (Ok r, h, p) else fresh
  | None => fresh
  end.

(** The connection is lost: psycopg notes it on the connection, and the server ends its transaction. *)
Definition lose (t : nat) (r : raw) (h : handle) : handle := set_local t (Raw (raw_closed r) true (raw_schema r)) h.

(** A command on the connection of the thread: psycopg refuses a connection that is closed or broken. *)
Definition unusable : exn := DatabaseError "the connection is closed".
Definition on_wire {Y : Type} (lost : option exn) (t : nat) (command : pg → result Y * pg) (h : handle) (p : pg) : result Y * handle * pg :=
  match h_local h !! t with
  | Some r =>
      if raw_usable r then
        match lost with
        | Some e => (Raise e, lose t r h, end_txn t p)
        | None => let '(y, p) := command p in (y, h, p)
        end
      else (Raise unusable, h, p)
  | None => (Raise unusable, h, p)
  end.

(** The commands of the server.  A statement outside a transaction is committed at once. *)
Definition begin_txn (t : nat) (p : pg) : result unit * pg := (Ok tt, set_txn t (InTx (pg_data p)) p).
Definition statement (t : nat) (s : D → result (A * D)) (p : pg) : result A * pg :=
  match pg_open p !! t with
  | Some (InTx d) => match s d with Ok (a, d) => (Ok a, set_txn t (InTx d) p) | Raise e => (Raise e, set_txn t Failed p) end
  | Some Failed => (Raise (DatabaseError "current transaction is aborted"), p)
  | None => match s (pg_data p) with Ok (a, d) => (Ok a, set_data d p) | Raise e => (Raise e, p) end
  end.
Definition rollback (t : nat) (p : pg) : result unit * pg := (Ok tt, end_txn t p).
(** COMMIT of a transaction with a failed statement rolls it back. *)
Definition commit (t : nat) (p : pg) : pg :=
  end_txn t (match pg_open p !! t with Some (InTx d) => set_data d p | _ => p end).

(** The end of a transaction: committed, refused by the server and rolled back, or lost before or after it was committed. *)
Inductive commit_fate := Committed | Refused (e : exn) | LostBefore (e : exn) | LostAfter (e : exn).
Definition commit_on_wire (f : commit_fate) (t : nat) (h : handle) (p : pg) : result unit * handle * pg :=
  match f with
  | Committed => on_wire None t (fun p => (Ok tt, commit t p)) h p
  | Refused e => on_wire None t (fun p => (Raise e, end_txn t p)) h p
  | LostBefore e => on_wire (Some e) t (rollback t) h p
  | LostAfter e =>
      let '(y, h, p) := on_wire None t (fun p => (Ok tt, commit t p)) h p in
      match y with Raise e => (Raise e, h, p) | Ok _ => on_wire (Some e) t (rollback t) h p end
  end.

(** A body: statements, each with what the body does with its answer or its exception. *)
Inductive tx_body (X : Type) :=
| Return (r : result X)
| Execute (s : D → result (A * D)) (go_on : result A → tx_body X).
Arguments Return {X} r.
Arguments Execute {X} s go_on.

(** [lost n] is whether the connection is lost at the n-th statement. *)
Fixpoint run_body {X : Type} (lost : nat → option exn) (n t : nat) (b : tx_body X) (h : handle) (p : pg) : result X * handle * pg :=
  match b with
  | Return r => (r, h, p)
  | Execute s go_on =>
      let '(a, h, p) := on_wire (lost n) t (statement t s) h p in
      run_body lost (S n) t (go_on a) h p
  end.

Record tx_fate := TxFate {
  tf_conn : conn_fate;
  tf_begin : option exn;              (* lost at BEGIN *)
  tf_body : nat → option exn;         (* lost at a statement *)
  tf_rollback : option exn;           (* lost at ROLLBACK: the exception of the body goes on *)
  tf_commit : commit_fate;
}.
Definition good_fate : tx_fate := TxFate no_trouble None (fun _ => None) None Committed.

(** The handler of [tx]: a connection that is closed or broken is let go. *)
Definition on_error (t : nat) (h : handle) : handle :=
  match h_local h !! t with
  | Some r => if raw_usable r then h else drop_local t h
  | None => h
  end.

(** psycopg's [transaction] around the body. *)
Definition transaction {X : Type} (f : tx_fate) (t : nat) (b : tx_body X) (h : handle) (p : pg) : result X * handle * pg :=
  let '(begun, h, p) := on_wire (tf_begin f) t (begin_txn t) h p in
  match begun with
  | Raise e => (Raise e, h, p)
  | Ok _ =>
      let '(x, h, p) := run_body (tf_body f) 0 t b h p in
      match x with
      | Raise e => let '(_, h, p) := on_wire (tf_rollback f) t (rollback t) h p in (Raise e, h, p)
      | Ok x => let '(ended, h, p) := commit_on_wire (tf_commit f) t h p in
                (match ended with Ok _ => Ok x | Raise e => Raise e end, h, p)
      end
  end.

(** [tx]. *)
Definition tx {X : Type} (f : tx_fate) (t : nat) (b : tx_body X) (h : handle) (p : pg) : result X * handle * pg :=
  let '(c, h, p) := get_conn (tf_conn f) t h p in
  match c with
  | Raise e => (Raise e, h, p)
  | Ok _ =>
      let '(answer, h, p) := transaction f t b h p in
      (answer, match answer with Ok _ => h | Raise _ => on_error t h end, p)
  end.

(** [execute]: one statement in a transaction of its own. *)
Definition execute (f : tx_fate) (t : nat) (s : D → result (A * D)) : handle → pg → result A * handle * pg :=
  tx f t (Execute s Return).

(** [query] and [one]: a SELECT outside a transaction; a broken connection stays, marked. *)
Definition query (f : conn_fate) (lost : option exn) (t : nat) (select : D → result A) (h : handle) (p : pg) : result A * handle * pg :=
  let '(c, h, p) := get_conn f t h p in
  match c with
  | Raise e => (Raise e, h, p)
  | Ok _ => on_wire lost t (statement t (fun d => a ← select d; Ok (a, d))) h p
  end.

(** [close] of the connection a thread has. *)
Definition close_conn (t : nat) (h : handle) : handle :=
  match h_local h !! t with Some r => set_local t (Raw true (raw_broken r) (raw_schema r)) h | None => h end.

(** ** The reference: a body on data of its own *)

Fixpoint body_on {X : Type} (b : tx_body X) (st : txn) : result X * txn :=
  match b with
  | Return r => (r, st)
  | Execute s go_on =>
      match st with
      | InTx d => match s d with Ok (a, d) => body_on (go_on (Ok a)) (InTx d) | Raise e => body_on (go_on (Raise e)) Failed end
      | Failed => body_on (go_on (Raise (DatabaseError "current transaction is aborted"))) Failed
      end
  end.

(** All of it, when it returns and no statement failed, or nothing. *)
Definition all_or_nothing {X : Type} (b : tx_body X) (d : D) : result X * D :=
  match body_on b (InTx d) with
  | (Ok x, InTx d') => (Ok x, d')
  | (x, _) => (x, d)
  end.

(** ** Invariant *)

(** A connection that is used again works in the schema of the settings. *)
Definition paths_set (h : handle) : Prop := ∀ t r, h_local h !! t = Some r → raw_schema r = h_schema h.

(** Between two transactions none is open. *)
Definition good (h : handle) (p : pg) : Prop := paths_set h ∧ pg_open p = ∅.

Lemma paths_local t r h : paths_set h → raw_schema r = h_schema h → paths_set (set_local t r h).
Proof. intros Hh Hr t' r'. cbn. intros [[<- <-]|[_ H]]%lookup_insert_Some; [done|by apply (Hh t')]. Qed.
Lemma paths_drop t h : paths_set h → paths_set (drop_local t h).
Proof. intros Hh t' r'. cbn. intros [_ H]%lookup_delete_Some. by apply (Hh t'). Qed.
Lemma paths_error t h : paths_set h → paths_set (on_error t h).
Proof. intros Hh. unfold on_error. destruct (h_local h !! t) as [r|]; [|done]. destruct (raw_usable r); [done|by apply paths_drop]. Qed.
Lemma paths_lose t r h : paths_set h → h_local h !! t = Some r → paths_set (lose t r h).
Proof. intros Hh Hr. apply paths_local; [done|]. exact (Hh t r Hr). Qed.
Lemma paths_close t h : paths_set h → paths_set (close_conn t h).
Proof. intros Hh. unfold close_conn. destruct (h_local h !! t) as [r|] eqn:E; [|done]. apply paths_local; [done|]. exact (Hh t r E). Qed.

(** The connection of the thread can be used. *)
Definition ready (t : nat) (h : handle) : Prop := ∃ r, h_local h !! t = Some r ∧ raw_usable r = true.

Lemma get_conn_spec f t h p res h' p' : good h p → get_conn f t h p = (res, h', p') →
  good h' p' ∧ pg_data p' = pg_data p ∧ (∀ r, res = Ok r → ready t h') ∧ (∀ e, res = Raise e → h' = h).
Proof.
  intros [Hh Ho]. unfold get_conn, good. cbv zeta. set (fresh := match cf_connect f, cf_lookup f with Some _, _ => _ | _, _ => _ end).
  assert (Hfresh : fresh = (res, h', p') → (paths_set h' ∧ pg_open p' = ∅) ∧ pg_data p' = pg_data p ∧
    (∀ r, res = Ok r → ready t h') ∧ (∀ e, res = Raise e → h' = h)).
  { unfold fresh. destruct (cf_connect f), (cf_lookup f); try by intros [[<- <-]%pair_equal_spec <-]%pair_equal_spec.
    destruct (if bool_decide _ then None else cf_create f); [by intros [[<- <-]%pair_equal_spec <-]%pair_equal_spec|].
    destruct (cf_path f); intros [[<- <-]%pair_equal_spec <-]%pair_equal_spec; [by destruct (bool_decide _)|].
    split_and!; [by apply paths_local|by destruct (bool_decide _)|by destruct (bool_decide _)| |done].
    intros r _. exists (Raw false false (h_schema h)). cbn. by rewrite lookup_insert_eq. }
  destruct (h_local h !! t) as [r|] eqn:Hr; [|done]. destruct (raw_usable r) eqn:Hu; [|done].
  intros [[<- <-]%pair_equal_spec <-]%pair_equal_spec. split_and!; try done. intros r' _. by exists r.
Qed.
Lemma get_conn_good t h p : ∃ r h' p', get_conn no_trouble t h p = (Ok r, h', p').
Proof.
  unfold get_conn. cbn. destruct (bool_decide _), (h_local h !! t) as [r|]; try destruct (raw_usable r); by repeat eexists.
Qed.

(** ** A transaction *)

(** The connection of the thread was lost since [h], and with it the transaction. *)
Definition gone (t : nat) (h : handle) (p : pg) : Prop :=
  (∀ r, h_local h !! t = Some r → raw_usable r = false) ∧ pg_open p = ∅.

Lemma delete_only (t : nat) (x : txn) : delete t ({[t := x]} : gmap nat txn) = ∅.
Proof. apply delete_singleton_eq. Qed.

Lemma wire_gone {Y} lost t (c : pg → result Y * pg) h p : gone t h p → on_wire lost t c h p = (Raise unusable, h, p).
Proof. intros [Hu _]. unfold on_wire. destruct (h_local h !! t) as [r|]; [|done]. by rewrite (Hu r). Qed.

Lemma wire_ready {Y} t (c : pg → result Y * pg) h p : ready t h → on_wire None t c h p = (let '(y, p) := c p in (y, h, p)).
Proof. intros (r & Hr & Hu). unfold on_wire. by rewrite Hr, Hu. Qed.

Lemma wire_lost {Y} e t (c : pg → result Y * pg) h p h' p' y : paths_set h → ready t h →
  delete t (pg_open p) = ∅ → on_wire (Some e) t c h p = (y, h', p') →
  y = Raise e ∧ paths_set h' ∧ gone t h' p' ∧ pg_data p' = pg_data p ∧ h_schema h' = h_schema h.
Proof.
  intros Hh (r & Hr & Hu) Hd. unfold on_wire. rewrite Hr, Hu. intros [[<- <-]%pair_equal_spec <-]%pair_equal_spec.
  split_and!; [done|by apply paths_lose| |done|done]. split; [|done]. intros r'. cbn. rewrite lookup_insert_eq.
  intros [= <-]. unfold raw_usable. cbn. by rewrite orb_true_r.
Qed.

(** The body of a transaction that is open: it does what it does on data of its own, unless the connection goes. *)
Lemma run_body_spec {X} lost t (b : tx_body X) : ∀ n h p st x h' p',
  paths_set h → ready t h → pg_open p = {[t := st]} → run_body lost n t b h p = (x, h', p') →
  pg_data p' = pg_data p ∧ paths_set h' ∧
  (gone t h' p' ∨ (h' = h ∧ x = (body_on b st).1 ∧ pg_open p' = {[t := (body_on b st).2]})).
Proof.
  assert (Hgone : ∀ (b : tx_body X) n h p x h' p', gone t h p → run_body lost n t b h p = (x, h', p') → h' = h ∧ p' = p).
  { clear b. induction b as [r|s go_on IH]; intros n h p x h' p' Hg; cbn [run_body]; [by intros [[_ <-]%pair_equal_spec <-]%pair_equal_spec|].
    rewrite wire_gone by done. by apply IH. }
  induction b as [r|s go_on IH]; intros n h p st x h' p' Hh Hready Ho; cbn [run_body body_on].
  { intros [[<- <-]%pair_equal_spec <-]%pair_equal_spec. split_and!; auto. }
  destruct (lost n) as [e|].
  - destruct (on_wire (Some e) t (statement t s) h p) as [[y h1] p1] eqn:Hw. apply wire_lost in Hw as (-> & H1 & Hg & Hd & _); [|done..|].
    2: { rewrite Ho. apply delete_only. }
    intros [-> ->]%Hgone; [|done]. split_and!; auto.
  - rewrite wire_ready by done. unfold statement. rewrite Ho, lookup_singleton_eq.
    destruct st as [d|]; [destruct (s d) as [[a d']|e]|].
    + intros (Hd & H1 & H2)%(IH _ _ _ _ (InTx d')); [by split_and!|done..|]. cbn [set_txn pg_open]. rewrite Ho. apply insert_singleton_eq.
    + intros (Hd & H1 & H2)%(IH _ _ _ _ Failed); [by split_and!|done..|]. cbn [set_txn pg_open]. rewrite Ho. apply insert_singleton_eq.
    + intros (Hd & H1 & H2)%(IH _ _ _ _ Failed); [by split_and!|done..].
Qed.

(** What a transaction may leave: an answer, and the data as they were or as the body leaves them. *)
Definition outcome_ok {X} (b : tx_body X) (d : D) (answer : result X) (d' : D) : Prop :=
  (d' = d ∨ d' = (all_or_nothing b d).2) ∧
  (∀ x, answer = Ok x → all_or_nothing b d = (Ok x, d')) ∧
  (∀ e, (all_or_nothing b d).1 = Raise e → d' = d ∧ ∃ e', answer = Raise e').

Lemma outcome_unchanged {X} (b : tx_body X) d e : outcome_ok b d (Raise e) d.
Proof. split_and!; [by left|done|eauto]. Qed.

Lemma commit_spec t f h p st ended h' p' :
  paths_set h → ready t h → pg_open p = {[t := st]} → commit_on_wire f t h p = (ended, h', p') →
  paths_set h' ∧ pg_open p' = ∅ ∧
  (pg_data p' = pg_data p ∨ pg_data p' = match st with InTx d => d | Failed => pg_data p end) ∧
  (ended = Ok tt → pg_data p' = match st with InTx d => d | Failed => pg_data p end).
Proof.
  intros Hh Hr Ho. assert (Hc : pg_open (commit t p) = ∅ ∧ pg_data (commit t p) = match st with InTx d => d | Failed => pg_data p end).
  { unfold commit. rewrite Ho, lookup_singleton_eq. destruct st; cbn; by rewrite Ho, delete_only. }
  destruct Hc as [Hco Hcd]. destruct f as [|e|e|e]; cbn [commit_on_wire].
  - rewrite wire_ready by done. intros [[<- <-]%pair_equal_spec <-]%pair_equal_spec. split_and!; auto.
  - rewrite wire_ready by done. intros [[<- <-]%pair_equal_spec <-]%pair_equal_spec. cbn. rewrite Ho, delete_only. split_and!; auto. done.
  - intros (-> & H1 & [_ H2] & H3 & _)%wire_lost; [|done|done|by rewrite Ho, delete_only]. split_and!; auto. done.
  - rewrite wire_ready by done. intros (-> & H1 & [_ H2] & H3 & _)%wire_lost; [|done|done|by rewrite Hco, delete_empty].
    rewrite H3. split_and!; auto.
Qed.

Lemma transaction_spec {X} f t (b : tx_body X) h p answer h' p' :
  good h p → ready t h → transaction f t b h p = (answer, h', p') →
  good h' p' ∧ outcome_ok b (pg_data p) answer (pg_data p').
Proof.
  intros [Hh Ho] Hr. unfold transaction. destruct (on_wire (tf_begin f) t (begin_txn t) h p) as [[begun h1] p1] eqn:Hb.
  destruct (tf_begin f) as [e|].
  { apply wire_lost in Hb as (-> & H1 & [_ H2] & H3 & _); [|done|done|by rewrite Ho, delete_empty].
    intros [[<- <-]%pair_equal_spec <-]%pair_equal_spec. split; [done|]. rewrite H3. apply outcome_unchanged. }
  rewrite wire_ready in Hb by done. apply pair_equal_spec in Hb as [[<- <-]%pair_equal_spec <-].
  destruct (run_body (tf_body f) 0 t b h (set_txn t (InTx (pg_data p)) p)) as [[x h2] p2] eqn:Hrun.
  apply (run_body_spec _ t b 0 h _ (InTx (pg_data p))) in Hrun as (Hd & H2 & Hcase); [|done|done|cbn; by rewrite Ho].
  cbn [set_txn pg_data] in Hd.
  destruct Hcase as [Hg|(-> & Hx & Ho2)].
  { destruct x as [x|e].
    - assert (commit_on_wire (tf_commit f) t h2 p2 = (Raise unusable, h2, p2)) as ->.
      { destruct (tf_commit f); cbn [commit_on_wire]; by rewrite !wire_gone by done. }
      intros [[<- <-]%pair_equal_spec <-]%pair_equal_spec. split; [split; [done|apply Hg]|]. rewrite Hd. apply outcome_unchanged.
    - rewrite wire_gone by done. intros [[<- <-]%pair_equal_spec <-]%pair_equal_spec. split; [split; [done|apply Hg]|]. rewrite Hd.
      apply outcome_unchanged. }
  destruct (body_on b (InTx (pg_data p))) as [x' st] eqn:Hbody. cbn [fst snd] in Hx, Ho2. subst x'. destruct x as [x|e].
  - destruct (commit_on_wire (tf_commit f) t h p2) as [[ended h3] p3] eqn:Hc.
    apply (commit_spec t (tf_commit f) h p2 st) in Hc as (H3 & Ho3 & Hd3 & Hok); [|done..]. rewrite Hd in Hd3, Hok.
    intros [[<- <-]%pair_equal_spec <-]%pair_equal_spec. split; [done|]. unfold outcome_ok, all_or_nothing. rewrite Hbody.
    destruct ended as [[]|e]; destruct st; cbn; (split_and!; [tauto|intros y [= <-]; by rewrite Hok|done]).
  - destruct (on_wire (tf_rollback f) t (rollback t) h p2) as [[y h3] p3] eqn:Hb.
    assert (good h3 p3 ∧ pg_data p3 = pg_data p2) as [Hg Hd3].
    { destruct (tf_rollback f) as [e'|].
      - apply wire_lost in Hb as (-> & H3 & [_ H4] & H5 & _); [done|done|done|by rewrite Ho2, delete_only].
      - rewrite wire_ready in Hb by done. apply pair_equal_spec in Hb as [[<- <-]%pair_equal_spec <-]. split; [|done]. split; [done|].
        cbn. by rewrite Ho2, delete_only. }
    intros [[<- <-]%pair_equal_spec <-]%pair_equal_spec. split; [done|]. rewrite Hd3, Hd. apply outcome_unchanged.
Qed.

Lemma tx_spec {X} f t (b : tx_body X) h p answer h' p' :
  good h p → tx f t b h p = (answer, h', p') →
  good h' p' ∧ outcome_ok b (pg_data p) answer (pg_data p') ∧
  (∀ e, answer = Raise e → h' = h ∨ ∀ r, h_local h' !! t = Some r → raw_usable r = true).
Proof.
  intros Hg. unfold tx. destruct (get_conn (tf_conn f) t h p) as [[c h1] p1] eqn:Hc.
  destruct (get_conn_spec _ _ _ _ _ _ _ Hg Hc) as (H1 & Hd & Hready & Hfail). destruct c as [r|e].
  - destruct (transaction f t b h1 p1) as [[a h2] p2] eqn:Ht. apply transaction_spec in Ht as [[H2 Ho2] Hout]; [|done|by eapply Hready].
    intros [[<- <-]%pair_equal_spec <-]%pair_equal_spec. rewrite Hd in Hout. split_and!; [|done|].
    + split; [|done]. destruct a; [done|by apply paths_error].
    + intros e ->. right. intros r'. unfold on_error. destruct (h_local h2 !! t) as [r0|] eqn:H0; [|congruence].
      destruct (raw_usable r0) eqn:Hu; [congruence|]. cbn. by rewrite lookup_delete_eq.
  - intros [[<- <-]%pair_equal_spec <-]%pair_equal_spec. split_and!; [done|rewrite Hd; apply outcome_unchanged|]. left. by eapply Hfail.
Qed.

(** When nothing fails, a body runs as it would on the data alone. *)
Lemma run_body_good {X} t (b : tx_body X) : ∀ n h p st, ready t h → pg_open p = {[t := st]} →
  ∃ p', run_body (fun _ => None) n t b h p = ((body_on b st).1, h, p') ∧ pg_open p' = {[t := (body_on b st).2]} ∧ pg_data p' = pg_data p.
Proof.
  induction b as [r|s go_on IH]; intros n h p st Hr Ho; cbn [run_body body_on]; [eauto|].
  rewrite wire_ready by done. unfold statement. rewrite Ho, lookup_singleton_eq. destruct st as [d|].
  - destruct (s d) as [[a d']|e].
    + destruct (IH (Ok a) (S n) h (set_txn t (InTx d') p) (InTx d')) as (p' & ? & ? & ?); [done|cbn; rewrite Ho; apply insert_singleton_eq|eauto].
    + destruct (IH (Raise e) (S n) h (set_txn t Failed p) Failed) as (p' & ? & ? & ?); [done|cbn; rewrite Ho; apply insert_singleton_eq|eauto].
  - by apply IH.
Qed.

Lemma tx_good {X} t (b : tx_body X) h p : good h p →
  (tx good_fate t b h p).1.1 = (all_or_nothing b (pg_data p)).1 ∧ pg_data (tx good_fate t b h p).2 = (all_or_nothing b (pg_data p)).2.
Proof.
  intros Hg. unfold tx. cbn [tf_conn good_fate]. destruct (get_conn_good t h p) as (r & h1 & p1 & Hc). rewrite Hc.
  destruct (get_conn_spec _ _ _ _ _ _ _ Hg Hc) as ([_ Ho] & Hd & Hready & _). specialize (Hready r eq_refl). rewrite <- Hd.
  unfold transaction. cbn [tf_begin tf_body tf_rollback tf_commit good_fate]. rewrite wire_ready by done. cbn [begin_txn].
  destruct (run_body_good t b 0 h1 (set_txn t (InTx (pg_data p1)) p1) (InTx (pg_data p1)) Hready) as (p2 & -> & Ho2 & Hd2).
  { cbn. by rewrite Ho. }
  cbn [set_txn pg_data] in Hd2. unfold all_or_nothing. destruct (body_on b (InTx (pg_data p1))) as [[x|e] st]; cbn [fst snd].
  - cbn [commit_on_wire]. rewrite wire_ready by done. unfold commit. cbn [snd] in Ho2. rewrite Ho2, lookup_singleton_eq. by destruct st.
  - rewrite wire_ready by done. done.
Qed.

(** What has been done with a handle: transactions, queries, closed connections, and other programs that change the data. *)
Inductive reached : handle → pg → Prop :=
| reached_new schema d schemas : reached (Handle schema ∅) (Pg d schemas ∅)
| reached_tx {X} h p f t (b : tx_body X) : reached h p → reached (tx f t b h p).1.2 (tx f t b h p).2
| reached_query h p f lost t select : reached h p → reached (query f lost t select h p).1.2 (query f lost t select h p).2
| reached_close h p t : reached h p → reached (close_conn t h) p
| reached_other h p d : reached h p → reached h (set_data d p).

Lemma reached_good h p : reached h p → good h p.
Proof.
  induction 1 as [schema d schemas|X h p f t b _ IH|h p f lost t select _ IH|h p t _ [IH Ho]|h p d _ IH]; [done| | |by split; [apply paths_close|]|done].
  - destruct (tx f t b h p) as [[a h'] p'] eqn:E. by apply tx_spec in E as [? _].
  - unfold query. destruct (get_conn f t h p) as [[c h1] p1] eqn:Hc. destruct (get_conn_spec _ _ _ _ _ _ _ IH Hc) as ([H1 Ho] & _ & Hready & _).
    destruct c as [r|e]; [|done]. specialize (Hready r eq_refl). destruct lost as [e|].
    + destruct (on_wire _ _ _ _ _) as [[y h2] p2] eqn:Hw. apply wire_lost in Hw as (_ & ? & [_ ?] & _); [done|done|done|by rewrite Ho, delete_empty].
    + rewrite wire_ready by done. unfold statement. rewrite Ho, lookup_empty. destruct (select (pg_data p1)); done.
Qed.
End connections.
Arguments raw_usable : simpl never.
Arguments reached {D A} h p.
Arguments tx_body : clear implicits.
Arguments Return {D A X} r.
Arguments Execute {D A X} s go_on.

(** ** Theorem *)

(** C16. Changes are all or nothing, and trouble does not last.  Whatever was done with the handle before - transactions,
    queries, connections that were lost or closed - and wherever the connection fails now: the data are as they were
    or as the whole body leaves them; an answer is the body's on these data, and means that they are as it leaves them; an
    exception of the body means that they are as they were, and that the caller gets an exception; no transaction is left open;
    connections work in the schema of the settings; no connection that [tx] lost is kept; and the next transaction, of
    any thread, does what its body does when nothing fails, although a connection that is closed or broken
    refuses every command. *)
Theorem transactions_sound {D A X : Type} (h : handle) (p : pg) f t (b : tx_body D A X) answer h' p' :
  reached (A := A) h p → tx f t b h p = (answer, h', p') →
  (pg_data p' = pg_data p ∨ pg_data p' = (all_or_nothing b (pg_data p)).2) ∧
  (∀ x, answer = Ok x → all_or_nothing b (pg_data p) = (Ok x, pg_data p')) ∧
  (∀ e, (all_or_nothing b (pg_data p)).1 = Raise e → pg_data p' = pg_data p ∧ ∃ e', answer = Raise e') ∧
  pg_open p' = ∅ ∧
  (∀ u r, h_local h' !! u = Some r → raw_schema r = h_schema h') ∧
  (∀ e, answer = Raise e → h' = h ∨ ∀ r, h_local h' !! t = Some r → raw_usable r = true) ∧
  (∀ (Y : Type) u (next : tx_body D A Y),
     (tx good_fate u next h' p').1.1 = (all_or_nothing next (pg_data p')).1 ∧
     pg_data (tx good_fate u next h' p').2 = (all_or_nothing next (pg_data p')).2).
Proof.
  intros Hreach%reached_good Htx. destruct (tx_spec _ _ _ _ _ _ _ _ Hreach Htx) as (Hg & (Hd & Ha & He) & Hl).
  split_and!; [done..|apply Hg|apply Hg|done|]. intros Y u next. by apply tx_good.
Qed.

(** Two statements; the connection is lost while a query of the same thread waits, then after the server committed. *)
Definition add_one (d : nat) : result (nat * nat) := Ok (d, S d).
Definition two_more : tx_body nat nat nat := Execute add_one (fun _ => Execute add_one Return).
Definition demo_fate : tx_fate := TxFate no_trouble None (fun _ => None) None (LostAfter (DatabaseError "connection lost")).
Definition demo_pg : @pg nat := Pg 7%nat ∅ ∅.

Lemma transactions_sound_witness :
  let '(_, h, p) := query (A := nat) no_trouble (Some (DatabaseError "gone")) 1 (fun d => Ok d) (Handle "public" ∅) demo_pg in
  raw_usable <$> h_local h !! 1%nat = Some false ∧
  let '(answer, h', p') := tx demo_fate 1 two_more h p in
  answer = Raise (DatabaseError "connection lost") ∧ pg_data p' = 9%nat ∧ (tx good_fate 1 two_more h' p').1.1 = Ok 10%nat.
Proof.
  pose proof (reached_query (A := nat) (Handle "public" ∅) demo_pg no_trouble (Some (DatabaseError "gone")) 1 (fun d => Ok d)
    (reached_new "public" 7%nat ∅)) as Hreach.
  destruct (query (A := nat) _ _ _ _ _ _) as [[y h] p] eqn:Eq. cbn [fst snd] in Hreach.
  vm_compute in Eq. apply pair_equal_spec in Eq as [[_ <-]%pair_equal_spec <-]. split; [vm_compute; reflexivity|].
  destruct (tx demo_fate 1 two_more _ _) as [[answer h'] p'] eqn:E.
  destruct (transactions_sound _ _ _ _ _ _ _ _ Hreach E) as (_ & _ & _ & _ & _ & _ & Hnext).
  destruct (Hnext nat 1%nat two_more) as [-> _].
  vm_compute in E. apply pair_equal_spec in E as [[<- <-]%pair_equal_spec <-]. split_and!; reflexivity.
Defined.
