(* ===== verification/Caches.v ===== *)
(** * The caches of certificates and of index.txt

    [pki.cert_info] keeps what openssl said about a file with the time the file was written, and [relay._index] the
    last eight versions of index.txt with all that [stat] says of them.  Threads look files up while scripts
    change them: between the [stat] of a lookup and its reading the file can be another one.  The disk is the
    sequence of states that a sequence of changes makes; a lookup has the moment of its [stat] and that of its
    reading.  What the caches rely on is a property of the changes, not of the lookups: a file that is written or
    moved into place gets a stamp that no file of its name had before. *)

From S2P Require Import Prelude PyStr Mgmt Regex LogLines Addressing Relay Clients ConfigEdit.

Open Scope string_scope.
Open Scope list_scope.
Open Scope Z_scope.

Record fstat := FStat { st_ino : Z; st_mtime_ns : Z; st_ctime_ns : Z; st_size : Z }.
#[global] Instance fstat_eq_dec : EqDecision fstat.
Proof. solve_decision. Defined.
Record disk_file := DiskFile { df_text : string; df_stat : fstat }.
Abbreviation disk_state := (gmap string disk_file).

Abbreviation cert_cache := (gmap string (Z * info)).
(** The most recently used entry first. *)
Abbreviation index_cache := (list (fstat * gmap string index_entry)).
Definition INDEX_VERSIONS : nat := 8.

Section caches.
(** [zones] as in [Clients]; what openssl prints about a certificate file; [st_mtime], a float, of the nanoseconds. *)
Context (zones : list string) (openssl : string → option string) (seconds : Z → Z).

(** ** The lookups *)

Definition st_mtime (s : fstat) : Z := seconds (st_mtime_ns s).

(** What a file says at a moment. *)
Definition cert_of_file (d : disk_state) (path : string) : option info :=
  f ← d !! path; cert_info zones (openssl (df_text f)).

(** [cert_info] with [stat] in [d1] and openssl run in [d2]: the answer, and what is put into the cache. *)
Definition cached_cert_info (c : cert_cache) (path : string) (d1 d2 : disk_state) : option info * option (Z * info) :=
  match d1 !! path with
  | None => (None, None)
  | Some f =>
      let mtime := st_mtime (df_stat f) in
      let fresh := match cert_of_file d2 path with
                   | None => (None, None)
                   | Some i => (Some i, Some (mtime, i))
                   end in
      match c !! path with
      | Some (m, i) => if m =? mtime then (Some i, None) else fresh
      | None => fresh
      end
  end.

Definition index_of_disk (d : disk_state) (path : string) : option (gmap string index_entry) :=
  (fun f => parse_index (universal_newlines (df_text f))) <$> d !! path.

(** [functools.lru_cache]: a hit becomes the most recent entry, the oldest of nine is dropped; an exception is not kept. *)
Definition lru_find (sig : fstat) (l : index_cache) : option (gmap string index_entry) :=
  snd <$> find (fun e => bool_decide (e.1 = sig)) l.
Definition lru_put (sig : fstat) (v : gmap string index_entry) (l : index_cache) : index_cache :=
  take INDEX_VERSIONS ((sig, v) :: filter (fun e => e.1 ≠ sig) l).
(** [_index(str(path), signature)], with [stat] in [d1] and the file read in [d2]; [None] stands for an [OSError]. *)
Definition cached_index (l : index_cache) (path : string) (d1 d2 : disk_state) : option (gmap string index_entry) * index_cache :=
  match d1 !! path with
  | None => (None, l)
  | Some f =>
      match lru_find (df_stat f) l with
      | Some v => (Some v, lru_put (df_stat f) v l)
      | None =>
          match index_of_disk d2 path with
          | Some v => (Some v, lru_put (df_stat f) v l)
          | None => (None, l)
          end
      end
  end.

Context (pki : string).
Definition cert_path (name : string) : string := pki +:+ "/issued/" +:+ name +:+ ".crt".
Definition index_path : string := pki +:+ "/index.txt".

(** [relay.eligible] on the caches: [stat] and reading of the certificate in [d1] and [d2], of index.txt in [d3] and [d4]. *)
Definition cached_eligible (now : Z) (c : cert_cache) (l : index_cache) (name : string) (d1 d2 d3 d4 : disk_state) : result (option cert) :=
  _ ← validate_name name;
  match (cached_cert_info c (cert_path name) d1 d2).1 with
  | None => Ok None
  | Some i =>
      if negb (String.eqb (in_cn i) name) then Ok None
      else
        match (cached_index l index_path d3 d4).1 with
        | None => Ok None
        | Some index =>
            if negb (bool_decide (ie_status <$> index !! in_serial i = Some "V")) || (or_zero (in_not_after i) =? 0)
               || (or_zero (in_not_after i) <=? now) || (now <? or_zero (in_not_before i))
            then Ok None else Ok (Some (cert_of i))
        end
  end.

(** ** Coherence *)

(** What scripts and other programs do to the disk, one change after the other: a file appears under a name, written or moved
    there, or goes away; or nothing happens. *)
Inductive change := Put (path : string) (f : disk_file) | Remove (path : string) | Nothing.
Definition apply_change (x : change) (d : disk_state) : disk_state :=
  match x with Put path f => <[path := f]> d | Remove path => delete path d | Nothing => d end.

Context (first : disk_state) (changes : nat → change).
Fixpoint disk (n : nat) : disk_state := match n with O => first | S n => apply_change (changes n) (disk n) end.

(** What a cache relies on: a file that appears has a stamp that no earlier file of its name had. *)
Definition new_stamps {A} (stamp : fstat → A) (path : string) : Prop := ∀ n f, changes n = Put path f →
  ∀ m g, (m ≤ n)%nat → disk m !! path = Some g → stamp (df_stat f) ≠ stamp (df_stat g).

(** Then a file that is found with the same stamp at two moments was there, the same, all the time between. *)
Lemma unchanged {A} (stamp : fstat → A) path a fa : new_stamps stamp path → disk a !! path = Some fa →
  ∀ b fb, (a ≤ b)%nat → disk b !! path = Some fb → stamp (df_stat fa) = stamp (df_stat fb) →
  ∀ t, (a ≤ t ≤ b)%nat → disk t !! path = Some fb.
Proof.
  intros Hnew Ha b. induction b as [|b IH]; intros fb Hab Hb Hs t Ht.
  { replace t with 0%nat by lia. done. }
  destruct (decide (t = S b)) as [->|Hne]; [done|]. cbn [disk] in Hb.
  assert (Hsame : disk b !! path = Some fb); [|apply IH; [lia|done|done|lia]].
  destruct (changes b) as [q f|q|] eqn:Hc; cbn [apply_change] in Hb; [| |done].
  - apply lookup_insert_Some in Hb as [[-> ->]|[_ Hb]]; [|done]. exfalso. eapply (Hnew b fb Hc a fa); [lia|done|done].
  - by apply lookup_delete_Some in Hb as [_ Hb].
Qed.

(** The caches as other lookups have left them by a moment: an entry is put in after the file was read. *)
Inductive cert_cache_at : nat → cert_cache → Prop :=
| certs_empty n : cert_cache_at n ∅
| certs_later n n' c : cert_cache_at n c → (n ≤ n')%nat → cert_cache_at n' c
| certs_store n c path a b e : cert_cache_at n c → (a ≤ b)%nat → (b ≤ n)%nat →
    (∃ c0, (cached_cert_info c0 path (disk a) (disk b)).2 = Some e) → cert_cache_at n (<[path := e]> c).
Inductive index_cache_at : nat → index_cache → Prop :=
| index_empty n : index_cache_at n []
| index_later n n' l : index_cache_at n l → (n ≤ n')%nat → index_cache_at n' l
| index_lookup n l a b : index_cache_at n l → (a ≤ b)%nat → (b ≤ n)%nat →
    index_cache_at n (cached_index l index_path (disk a) (disk b)).2.

(** Every entry was read after the file had the time it is kept under. *)
Definition cert_entries_ok (n : nat) (c : cert_cache) : Prop := ∀ path m i, c !! path = Some (m, i) →
  ∃ a b f, (a ≤ b ≤ n)%nat ∧ disk a !! path = Some f ∧ st_mtime (df_stat f) = m ∧ cert_of_file (disk b) path = Some i.
Definition index_entries_ok (n : nat) (l : index_cache) : Prop := ∀ sig v, (sig, v) ∈ l →
  ∃ a b f, (a ≤ b ≤ n)%nat ∧ disk a !! index_path = Some f ∧ df_stat f = sig ∧ index_of_disk (disk b) index_path = Some v.

Lemma cached_cert_stores c path d1 d2 e : (cached_cert_info c path d1 d2).2 = Some e →
  ∃ f, d1 !! path = Some f ∧ e.1 = st_mtime (df_stat f) ∧ cert_of_file d2 path = Some e.2.
Proof.
  unfold cached_cert_info. destruct (d1 !! path) as [f|]; [|done]. cbv zeta.
  assert (Hf : (match cert_of_file d2 path with None => (None, None) | Some i => (Some i, Some (st_mtime (df_stat f), i)) end).2 = Some e →
    ∃ f0, Some f = Some f0 ∧ e.1 = st_mtime (df_stat f0) ∧ cert_of_file d2 path = Some e.2).
  { destruct (cert_of_file d2 path); [|done]. intros [= <-]. by exists f. }
  destruct (c !! path) as [[m i]|]; [|done]. match goal with |- context [if ?b then _ else _] => by destruct b end.
Qed.
Lemma cert_cache_ok n c : cert_cache_at n c → cert_entries_ok n c.
Proof.
  induction 1 as [n|n n' c _ IH Hle|n c path a b e _ IH Hab Hbn (c0 & He)]; intros p m i Hp.
  - by rewrite lookup_empty in Hp.
  - destruct (IH p m i Hp) as (a & b & f & ? & H). exists a, b, f. split; [lia|done].
  - apply lookup_insert_Some in Hp as [[<- ->]|[_ Hp]]; [|by apply IH]. destruct (cached_cert_stores _ _ _ _ _ He) as (f & Hf & Hm & Hi).
    exists a, b, f. by split_and!.
Qed.

Lemma lru_put_elem sig v l e : e ∈ lru_put sig v l → e = (sig, v) ∨ e ∈ l.
Proof.
  unfold lru_put. intros H. assert (He : e ∈ (sig, v) :: filter (fun e => e.1 ≠ sig) l) by (rewrite <- (take_drop INDEX_VERSIONS); set_solver).
  apply elem_of_cons in He as [->|He]; [by left|]. right. by apply list_elem_of_filter in He as [_ He].
Qed.
Lemma lru_find_Some sig l v : lru_find sig l = Some v → (sig, v) ∈ l.
Proof.
  unfold lru_find. intros ([s' v'] & Hf & ->)%fmap_Some. apply find_some in Hf as [Hin Hs]. apply bool_decide_eq_true in Hs. cbn in Hs. subst.
  by apply list_elem_of_In.
Qed.
Lemma cached_index_entries n l a b : index_entries_ok n l → (a ≤ b ≤ n)%nat → index_entries_ok n (cached_index l index_path (disk a) (disk b)).2.
Proof.
  intros Hl Hab. unfold cached_index. destruct (disk a !! index_path) as [f|] eqn:Hf; [|done].
  destruct (lru_find (df_stat f) l) as [v|] eqn:Hv.
  - intros sig v' [[-> ->]%pair_equal_spec|Hin]%lru_put_elem; [|by apply Hl]. by apply Hl, lru_find_Some.
  - destruct (index_of_disk (disk b) index_path) as [v|] eqn:Hi; [|done].
    intros sig v' [[-> ->]%pair_equal_spec|Hin]%lru_put_elem; [|by apply Hl]. by exists a, b, f.
Qed.
Lemma index_cache_ok n l : index_cache_at n l → index_entries_ok n l.
Proof.
  induction 1 as [n|n n' l _ IH Hle|n l a b _ IH Hab Hbn]; [intros sig v H; by apply not_elem_of_nil in H| |].
  - intros sig v H. destruct (IH sig v H) as (a & b & f & ? & Hx). exists a, b, f. split; [lia|done].
  - by apply cached_index_entries.
Qed.
Lemma index_cache_bounded n l : index_cache_at n l → (length l ≤ INDEX_VERSIONS)%nat.
Proof.
  assert (Hput : ∀ sig v l, (length (lru_put sig v l) ≤ INDEX_VERSIONS)%nat) by (intros; unfold lru_put; rewrite length_take; lia).
  induction 1 as [n|n n' l _ IH Hle|n l a b _ IH Hab Hbn]; [unfold INDEX_VERSIONS; cbn; lia|done|]. unfold cached_index.
  destruct (disk a !! index_path); [|done]. destruct (lru_find _ l); [apply Hput|]. destruct (index_of_disk _ _); [apply Hput|done].
Qed.

(** The answer of a lookup that begins at [a] and ends at [n] is that of the file at a moment between. *)
Lemma cached_cert_current n c path a b : new_stamps st_mtime path → cert_entries_ok n c → (a ≤ b ≤ n)%nat →
  ∃ t, (a ≤ t ≤ n)%nat ∧ (cached_cert_info c path (disk a) (disk b)).1 = cert_of_file (disk t) path.
Proof.
  intros Hfresh Hc Hab. unfold cached_cert_info. destruct (disk a !! path) as [f|] eqn:Hf.
  2: { exists a. split; [lia|]. unfold cert_of_file. by rewrite Hf. }
  cbv zeta. assert (Hmiss : ∃ t, (a ≤ t ≤ n)%nat ∧ (match cert_of_file (disk b) path with None => (None, None) | Some i => (Some i, Some (st_mtime (df_stat f), i)) end).1 = cert_of_file (disk t) path).
  { exists b. split; [lia|]. by destruct (cert_of_file (disk b) path). }
  destruct (c !! path) as [[m i]|] eqn:Hp; [|done]. destruct (Z.eqb_spec m (st_mtime (df_stat f))) as [->|]; [|done].
  destruct (Hc path _ _ Hp) as (a0 & b0 & f0 & Hle & Hf0 & Hm & Hi). destruct (decide (a ≤ b0)%nat).
  - exists b0. split; [lia|]. by rewrite Hi.
  - exists a. split; [lia|]. destruct (decide (a0 ≤ a)%nat); [|lia].
    pose proof (unchanged st_mtime path a0 f0 Hfresh Hf0 a f ltac:(lia) Hf Hm b0 ltac:(lia)) as Ht. unfold cert_of_file in *.
    rewrite Ht in Hi. rewrite Hf. cbn in Hi |- *. by rewrite Hi.
Qed.
Lemma cached_index_current n l a b : new_stamps id index_path → index_entries_ok n l → (a ≤ b ≤ n)%nat →
  ∃ t, (a ≤ t ≤ n)%nat ∧ (cached_index l index_path (disk a) (disk b)).1 = index_of_disk (disk t) index_path.
Proof.
  intros Hfresh Hl Hab. unfold cached_index. destruct (disk a !! index_path) as [f|] eqn:Hf.
  2: { exists a. split; [lia|]. unfold index_of_disk. by rewrite Hf. }
  destruct (lru_find (df_stat f) l) as [v|] eqn:Hv.
  - apply lru_find_Some in Hv. destruct (Hl _ _ Hv) as (a0 & b0 & f0 & Hle & Hf0 & Hs & Hi). cbn. destruct (decide (a ≤ b0)%nat).
    + exists b0. split; [lia|done].
    + exists a. split; [lia|]. pose proof (unchanged id index_path a0 f0 Hfresh Hf0 a f ltac:(lia) Hf Hs b0 ltac:(lia)) as Ht. unfold index_of_disk in *.
      rewrite Ht in Hi. rewrite Hf. by rewrite Hi.
  - exists b. split; [lia|]. by destruct (index_of_disk (disk b) index_path).
Qed.

(** What [Relay.eligible] is given of the disk at two moments. *)
Definition view_at (name : string) (t1 t2 : nat) : pki_view :=
  PkiView (match cert_of_file (disk t1) (cert_path name) with Some i => {[name := cert_of i]} | None => ∅ end)
          ((fun index : gmap string index_entry => ie_status <$> index) <$> index_of_disk (disk t2) index_path).

(** C8. The decision on the caches is the decision of [Relay.eligible], which has none, on the certificate and the index.txt
    as they are on the disk during the lookup, whatever other threads looked up before and meanwhile, in any order, and
    whatever scripts changed between and during the lookups, as long as every change leaves a stamp: a certificate that is
    written or moved into place has a modification time that no earlier one of its name had, and an index.txt
    differs from every earlier one in its inode, its times or its size.  (A change that leaves no such stamp, two
    versions of a certificate within one tick of the clock, is not noticed: [same_tick_missed].) *)
Theorem cached_eligible_current now name c l a b a' b' n :
  new_stamps st_mtime (cert_path name) → new_stamps id index_path → cert_cache_at n c → index_cache_at n l → (a ≤ b ≤ n)%nat → (b ≤ a' ≤ b')%nat → (b' ≤ n)%nat →
  ∃ t1 t2, (a ≤ t1 ≤ n)%nat ∧ (a' ≤ t2 ≤ n)%nat ∧
    cached_eligible now c l name (disk a) (disk b) (disk a') (disk b') = eligible now (view_at name t1 t2) name.
Proof.
  intros Ht Hs Hc Hl Hab Hab' Hn. destruct (cached_cert_current n c (cert_path name) a b Ht (cert_cache_ok _ _ Hc) Hab) as (t1 & H1 & E1).
  destruct (cached_index_current n l a' b' Hs (index_cache_ok _ _ Hl)) as (t2 & H2 & E2); [lia|].
  exists t1, t2. split_and!; [lia..|]. unfold cached_eligible, eligible, view_at. rewrite E1, E2. destruct (validate_name name); [|done].
  cbn [mbind result_bind pv_issued pv_index]. destruct (cert_of_file (disk t1) (cert_path name)) as [i|]; [|by rewrite lookup_empty].
  rewrite lookup_singleton_eq. cbn [cert_of ce_cn ce_serial ce_not_before ce_not_after]. destruct (negb _); [done|].
  destruct (index_of_disk (disk t2) index_path) as [index|]; [|done]. cbn [fmap option_fmap option_map]. by rewrite lookup_fmap.
Qed.
End caches.

(** ** A revocation between two lookups *)

Definition toy_cert : string := "serial=01" +:+ String lf ("notAfter=Jan  1 00:00:00 2030 GMT" +:+ String lf "subject=CN=alice").
Definition toy_index (status : string) : string :=
  status +:+ String tab "300101000000Z" +:+ String tab "" +:+ String tab "01" +:+ String tab "unknown" +:+ String tab "/CN=alice".
Definition toy_first : disk_state :=
  {["pki/issued/alice.crt" := DiskFile toy_cert (FStat 5 100 100 60); "pki/index.txt" := DiskFile (toy_index "V") (FStat 6 100 100 40)]}.
Definition toy_changes (n : nat) : change :=
  match n with 1%nat => Put "pki/index.txt" (DiskFile (toy_index "R") (FStat 7 200 200 40)) | _ => Nothing end.
Definition toy_disk : nat → disk_state := disk toy_first toy_changes.
Definition toy_lookup (c : cert_cache) (l : index_cache) (t : nat) : result (option cert) :=
  cached_eligible ["gmt"] Some id "pki" 1000 c l "alice" (toy_disk t) (toy_disk t) (toy_disk t) (toy_disk t).
Definition warm_certs : cert_cache :=
  match (cached_cert_info ["gmt"] Some id ∅ "pki/issued/alice.crt" (toy_disk 0) (toy_disk 0)).2 with
  | Some e => {["pki/issued/alice.crt" := e]} | None => ∅
  end.
Definition warm_index : index_cache := (cached_index [] "pki/index.txt" (toy_disk 0) (toy_disk 0)).2.

Lemma toy_stamps {A} (stamp : fstat → A) path : stamp (FStat 7 200 200 40) ≠ stamp (FStat 6 100 100 40) → new_stamps toy_first toy_changes stamp path.
Proof.
  intros Hs n f Hn m g Hm Hg. unfold toy_changes in Hn. destruct n as [|[|n]]; [discriminate Hn| |discriminate Hn].
  injection Hn as <- <-. assert (Hd : disk toy_first toy_changes m = toy_first) by (destruct m as [|[|m]]; [done|done|lia]).
  rewrite Hd in Hg. vm_compute in Hg. injection Hg as <-. exact Hs.
Qed.

Lemma cached_eligible_current_witness :
  toy_lookup warm_certs warm_index 0 = Ok (Some (Cert "alice" "01" None (Some 1893456000))) ∧
  ∃ t1 t2, (2 ≤ t1 ≤ 2)%nat ∧ (2 ≤ t2 ≤ 2)%nat ∧
    toy_lookup warm_certs warm_index 2 = eligible 1000 (view_at ["gmt"] Some "pki" toy_first toy_changes "alice" t1 t2) "alice".
Proof.
  split; [vm_compute; reflexivity|].
  apply (cached_eligible_current ["gmt"] Some id "pki" toy_first toy_changes 1000 "alice" warm_certs warm_index 2 2 2 2 2); try lia.
  - apply toy_stamps. discriminate.
  - apply toy_stamps. discriminate.
  - eapply (certs_store _ _ _ _ _ 2 ∅ "pki/issued/alice.crt" 0 0); [constructor|lia|lia|]. exists ∅. vm_compute. reflexivity.
  - apply (index_later _ _ _ 0); [|lia]. apply (index_lookup "pki" toy_first toy_changes 0 [] 0 0); [constructor|lia|lia].
Defined.

(** Another certificate of the name with the time of the first: the cache answers with the first. *)
Example same_tick_missed :
  let d f := {["pki/issued/alice.crt" := DiskFile f (FStat 5 100 100 60)]} : disk_state in
  let other := "serial=02" +:+ String lf "subject=CN=alice" in
  (fun i => in_serial i) <$> (cached_cert_info ["gmt"] Some id warm_certs "pki/issued/alice.crt" (d other) (d other)).1 = Some "01" ∧
  (fun i => in_serial i) <$> cert_of_file ["gmt"] Some (d other) "pki/issued/alice.crt" = Some "02".
Proof. vm_compute. split; reflexivity. Qed.
