(* ===== verification/SharePage.v ===== *)
(** * The page behind a one-time link

    [shared_profile_page] of [ui/app/main.py] is the only page that people without an account see.  It puts an address,
    part of which comes from the request's Host header, into two links; [html.escape] is in
    [Routes]. *)

From S2P Require Import Prelude PyStr Schema Auth Access Clients Routes.

Open Scope string_scope.
Open Scope list_scope.
Open Scope Z_scope.

Definition dq : ascii := chr 34.

(** ** [str.replace], for a text that is not empty: [skip] characters belong to an occurrence that is replaced *)

Fixpoint replace_from (skip : nat) (w new s : string) : string :=
  match s with
  | EmptyString => ""
  | String c t =>
      match skip with
      | S k => replace_from k w new t
      | O => if startswith w s then new +:+ replace_from (pred (String.length w)) w new t else String c (replace_from 0 w new t)
      end
  end.
Definition str_replace (w new s : string) : string := replace_from 0 w new s.

(** ** The page *)

Definition SHARE_CSS : string :=
  "body{font:17px/1.5 system-ui,sans-serif;max-width:26rem;margin:12vh auto;padding:0 20px;" +:+
  "color:#16181d;background:#fff}h1{font-size:1.4rem}a{display:block;margin:14px 0;padding:13px 16px;" +:+
  "border-radius:8px;text-align:center;text-decoration:none;font-weight:600;color:#fff;background:#1f6feb}" +:+
  "a+a{color:#1f6feb;background:none;border:1px solid}" +:+
  "@media(prefers-color-scheme:dark){body{color:#e6e8eb;background:#111418}}".
Definition SHARE_PAGE : string :=
  "<!doctype html><html " +:+ quote_attr "lang" "en" +:+ "><head><meta " +:+ quote_attr "charset" "utf-8" +:+ ">" +:+
  "<meta " +:+ quote_attr "name" "viewport" +:+ " " +:+ quote_attr "content" "width=device-width,initial-scale=1" +:+ "><meta " +:+
  quote_attr "name" "robots" +:+ " " +:+ quote_attr "content" "noindex" +:+ ">" +:+
  "<title>OpenVPN profile</title><style>" +:+ SHARE_CSS +:+ "</style></head><body><h1>OpenVPN profile</h1>" +:+
  "<p>Open this page on the device that will use the VPN. The profile can be fetched once.</p>" +:+
  "<a " +:+ quote_attr "href" "IMPORT_URL" +:+ ">Open in OpenVPN Connect</a><a " +:+ quote_attr "href" "DOWNLOAD_URL" +:+ ">Download the .ovpn file</a>" +:+
  "</body></html>".

(** [base_url] is the address the request names. *)
Definition share_base (profile_base_url base_url : string) : string :=
  if empty profile_base_url then rstrip_char "/" base_url else profile_base_url.
Definition import_link (url : string) : string := "openvpn://import-profile/" +:+ url.
Definition share_page (url : string) : string :=
  str_replace "DOWNLOAD_URL" (html_escape url) (str_replace "IMPORT_URL" (html_escape (import_link url)) SHARE_PAGE).
(** [digest] is the SHA-256 of the style sheet in base 64. *)
Definition SHARE_CSP (digest : string) : string :=
  "default-src 'none'; style-src 'sha256-" +:+ digest +:+ "'; frame-ancestors 'none'; base-uri 'none'".

(** [shared_profile_page]: the page and its policy. *)
Definition shared_profile_page (sha : string → string) (L : limiter) (digest profile_base_url base_url : string) (now now_ns : Z)
    (issued : string → bool) (token : string) (r : request) (s : site) : site * result (string * string) :=
  match shared_client sha L now now_ns issued token r s with
  | (s, Raise e) => (s, Raise e)
  | (s, Ok _) =>
      let url := share_base profile_base_url base_url +:+ "/p/" +:+ token +:+ "/download" in
      (s, Ok (share_page url, SHARE_CSP digest))
  end.

(** ** What a browser makes of it *)

(** A character reference at the head of an attribute's text, and the length of the rest of it. *)
Definition reference (s : string) : option (ascii * nat) :=
  if startswith "&amp;" s then Some ("&"%char, 4%nat) else if startswith "&lt;" s then Some ("<"%char, 3%nat)
  else if startswith "&gt;" s then Some (">"%char, 3%nat) else if startswith "&quot;" s then Some (dq, 5%nat)
  else if startswith "&#x27;" s then Some (chr 39, 5%nat) else None.
Fixpoint decode_from (skip : nat) (s : string) : string :=
  match s with
  | EmptyString => ""
  | String c t =>
      match skip with
      | S k => decode_from k t
      | O => match reference s with Some (d, n) => String d (decode_from n t) | None => String c (decode_from 0 t) end
      end
  end.
(** The value of an attribute, from behind its opening quote to the closing one. *)
Fixpoint until_quote (s : string) : string * string :=
  match s with
  | EmptyString => ("", "")
  | String c t => if Ascii.eqb c dq then ("", t) else let '(v, r) := until_quote t in (String c v, r)
  end.
Definition attribute_value (s : string) : string := decode_from 0 (until_quote s).1.
(** Text that stays inside an attribute and opens no element. *)
Definition attr_safe (s : string) : bool := str_forall (fun c => negb (markup c)) s.
(** The page up to the first link, between the links, and behind the second, the quotes included. *)
Definition page_start : string :=
  "<!doctype html><html " +:+ quote_attr "lang" "en" +:+ "><head><meta " +:+ quote_attr "charset" "utf-8" +:+ ">" +:+
  "<meta " +:+ quote_attr "name" "viewport" +:+ " " +:+ quote_attr "content" "width=device-width,initial-scale=1" +:+ "><meta " +:+
  quote_attr "name" "robots" +:+ " " +:+ quote_attr "content" "noindex" +:+ ">" +:+
  "<title>OpenVPN profile</title><style>" +:+ SHARE_CSS +:+ "</style></head><body><h1>OpenVPN profile</h1>" +:+
  "<p>Open this page on the device that will use the VPN. The profile can be fetched once.</p><a href=" +:+ String dq "".
Definition page_middle : string := ">Open in OpenVPN Connect</a><a href=" +:+ String dq "".
Definition page_end : string := ">Download the .ovpn file</a></body></html>".

Lemma decode_escape s : decode_from 0 (html_escape s) = s.
Proof.
  induction s as [|c s IH]; [done|]. cbn [html_escape]. unfold escape_markup.
  repeat match goal with |- context [Ascii.eqb c ?b] => destruct (Ascii.eqb_spec c b) as [->|?]; [cbn -[html_escape]; by rewrite IH|] end.
  cbn [String.append decode_from]. assert (reference (String c (html_escape s)) = None) as ->; [|by rewrite IH].
  unfold reference. cbn [startswith]. destruct (Ascii.eqb_spec "&" c); [congruence|done].
Qed.
Lemma until_quote_app x r : attr_safe x = true → until_quote (x +:+ String dq r) = (x, r).
Proof.
  induction x as [|c x IH]; [done|]. unfold attr_safe. cbn [str_forall]. intros [Hc Hx]%andb_true_iff. cbn [String.append until_quote].
  destruct (Ascii.eqb_spec c dq) as [->|]; [done|]. by rewrite IH.
Qed.
Lemma attribute_escape s r : attribute_value (html_escape s +:+ String dq r) = s.
Proof. unfold attribute_value. rewrite until_quote_app by apply escape_no_markup. apply decode_escape. Qed.

(** Replacing inside an attribute stays inside it. *)
Lemma startswith_quote w x r : mem_char dq w = false → startswith w (x +:+ String dq r) = startswith w x.
Proof.
  unfold mem_char, str_exists. rewrite negb_false_iff. revert x. induction w as [|c w IH]; intros [|d x]; cbn [str_forall startswith String.append]; [done..| |].
  - intros [Hc _]%andb_true_iff. rewrite Ascii.eqb_sym. apply negb_true_iff in Hc. by rewrite Hc.
  - intros [_ Hw]%andb_true_iff. by rewrite IH.
Qed.
Lemma startswith_length w x : startswith w x = true → (String.length w ≤ String.length x)%nat.
Proof. intros [t ->]%startswith_iff. rewrite str_length_app. lia. Qed.
Lemma replace_attribute k w new x r : mem_char dq w = false → w ≠ "" → attr_safe new = true → attr_safe x = true → (k ≤ String.length x)%nat →
  ∃ x', replace_from k w new (x +:+ String dq r) = x' +:+ String dq (replace_from 0 w new r) ∧ attr_safe x' = true ∧
    (k = 0%nat → contains w x = false → x' = x).
Proof.
  intros Hw Hne Hnew. revert k. induction x as [|c x IH]; intros k Hx Hk.
  - cbn in Hk. assert (k = 0%nat) as -> by lia. exists "". cbn [String.append replace_from]. change (String dq r) with ("" +:+ String dq r).
    rewrite startswith_quote by done. by destruct w.
  - unfold attr_safe in Hx. cbn [str_forall] in Hx. apply andb_true_iff in Hx as [Hc Hx]. cbn [String.append replace_from]. destruct k as [|k].
    + change (String c (x +:+ String dq r)) with (String c x +:+ String dq r). rewrite startswith_quote by done. cbn [contains].
      destruct (startswith w (String c x)) eqn:Hs.
      * apply startswith_length in Hs. cbn in Hs. destruct (IH (pred (String.length w)) Hx ltac:(lia)) as (x' & -> & Hx' & _).
        exists (new +:+ x'). split_and!; [by rewrite str_app_assoc| |done]. unfold attr_safe in *. by rewrite str_forall_app, Hnew.
      * destruct (IH 0%nat Hx ltac:(lia)) as (x' & -> & Hx' & Hno). exists (String c x'). split_and!; [done| |].
        { unfold attr_safe in *. cbn [str_forall]. by rewrite Hc. }
        intros _ Hcont. f_equal. by apply Hno.
    + destruct (IH k Hx ltac:(cbn in Hk; lia)) as (x' & -> & Hx' & _). by exists x'.
Qed.

(** The marker of the second link is in an escaped text only where it is in the text. *)
Lemma startswith_escape w s : str_forall (fun c => is_upper_az c || Ascii.eqb c "_") w = true → startswith w (html_escape s) = true → startswith w s = true.
Proof.
  revert s. induction w as [|c w IH]; intros [|d s]; [done..|]. cbn [str_forall html_escape]. intros [Hc Hw]%andb_true_iff. unfold escape_markup.
  repeat match goal with |- context [Ascii.eqb d ?b] => destruct (Ascii.eqb_spec d b) as [->|?];
    [cbn [String.append startswith]; destruct (Ascii.eqb_spec c "&") as [->|]; [by vm_compute in Hc|done]|] end.
  cbn [String.append startswith]. destruct (Ascii.eqb c d); [|done]. by apply IH.
Qed.
Lemma marker_escape s : contains "DOWNLOAD_URL" s = false → contains "DOWNLOAD_URL" (html_escape s) = false.
Proof.
  induction s as [|c s IH]; [done|]. cbn [contains]. intros [Hs Hc]%orb_false_iff. specialize (IH Hc).
  assert (Hstart : startswith "DOWNLOAD_URL" (html_escape (String c s)) = false).
  { apply not_true_iff_false. intros H%startswith_escape; [congruence|done]. }
  cbn [html_escape] in *. unfold escape_markup in *.
  repeat match goal with H : context [Ascii.eqb c ?b] |- _ => destruct (Ascii.eqb_spec c b) as [->|?]; [cbn -[html_escape startswith]; cbn -[html_escape contains]; exact IH|] end.
  cbn [String.append contains] in *. by rewrite Hstart.
Qed.

Lemma import_replaced X : str_replace "IMPORT_URL" X SHARE_PAGE = page_start +:+ X +:+ String dq (page_middle +:+ "DOWNLOAD_URL" +:+ String dq page_end).
Proof. vm_compute. reflexivity. Qed.
Lemma start_kept Y Z : replace_from 0 "DOWNLOAD_URL" Y (page_start +:+ Z) = page_start +:+ replace_from 0 "DOWNLOAD_URL" Y Z.
Proof. vm_compute. reflexivity. Qed.
Lemma rest_replaced Y : replace_from 0 "DOWNLOAD_URL" Y (page_middle +:+ "DOWNLOAD_URL" +:+ String dq page_end) = page_middle +:+ Y +:+ String dq page_end.
Proof. vm_compute. reflexivity. Qed.

Lemma share_page_shape url : ∃ x, share_page url = page_start +:+ x +:+ String dq (page_middle +:+ html_escape url +:+ String dq page_end) ∧
  attr_safe x = true ∧ (contains "DOWNLOAD_URL" url = false → x = html_escape (import_link url)).
Proof.
  unfold share_page. rewrite import_replaced. unfold str_replace. rewrite start_kept.
  destruct (replace_attribute 0 "DOWNLOAD_URL" (html_escape url) (html_escape (import_link url)) (page_middle +:+ "DOWNLOAD_URL" +:+ String dq page_end))
    as (x & -> & Hx & Hno); [done|done|apply escape_no_markup|apply escape_no_markup|lia|].
  exists x. rewrite rest_replaced. split_and!; [done..|]. intros Hc. apply Hno; [done|]. by apply marker_escape.
Qed.

(** ** Theorem *)

(** C24. The page is for whoever holds a link that still works, and looking at it leaves the link as it is.  Whatever the
    Host header says, the address stays inside the two links: nothing of it ends an attribute or opens an element.
    A browser reads the address in the second link, and the import address in the first, unless the
    address contains the marker of the second link. *)
Theorem share_page_confined sha L digest profile_base_url base_url now now_ns issued token r s s' page csp :
  shared_profile_page sha L digest profile_base_url base_url now now_ns issued token r s = (s', Ok (page, csp)) →
  let url := share_base profile_base_url base_url +:+ "/p/" +:+ token +:+ "/download" in
  si_db s' = si_db s ∧ csp = SHARE_CSP digest ∧
  (∃ t, share_tokens (si_db s) !! sha token = Some t ∧ st_used_at t = None ∧ now < st_expires_at t) ∧
  ∃ x y, page = page_start +:+ x +:+ String dq (page_middle +:+ y +:+ String dq page_end) ∧ attr_safe x = true ∧ attr_safe y = true ∧
    attribute_value (y +:+ String dq page_end) = url ∧
    (contains "DOWNLOAD_URL" url = false → attribute_value (x +:+ String dq (page_middle +:+ y +:+ String dq page_end)) = import_link url).
Proof.
  unfold shared_profile_page. destruct (shared_client _ _ _ _ _ _ _ _) as [s1 [name|e]] eqn:Hc; [|done].
  intros [<- [<- <-]%Ok_inj%pair_equal_spec]%pair_equal_spec. cbv zeta. set (url := share_base _ _ +:+ _).
  apply shared_client_spec in Hc as [Hdb Hs]. destruct (Hs name eq_refl) as (t & Ht & _ & Hu & He & _). split; [done|]. split; [done|]. split; [by exists t|].
  destruct (share_page_shape url) as (x & -> & Hx & Hno). exists x, (html_escape url). split_and!; [done|done|apply escape_no_markup|apply attribute_escape|].
  intros Hm. rewrite (Hno Hm). apply attribute_escape.
Qed.

Definition evil_base : string := "http://a" +:+ String dq "><script>x".
Lemma share_page_confined_witness :
  ∃ s' page csp, shared_profile_page id default_limiter "d" "" evil_base 200 (200 * ns) link_issued "secret" (demo_request [] None) (Site link_made []) = (s', Ok (page, csp)) ∧
    ∃ x y, page = page_start +:+ x +:+ String dq (page_middle +:+ y +:+ String dq page_end) ∧ attr_safe x = true ∧ attr_safe y = true ∧
      attribute_value (y +:+ String dq page_end) = evil_base +:+ "/p/secret/download".
Proof.
  destruct (shared_profile_page id default_limiter "d" "" evil_base 200 (200 * ns) link_issued "secret" (demo_request [] None) (Site link_made [])) as [s' [[page csp]|e]] eqn:E.
  2: { exfalso. apply (f_equal (fun a => is_ok a.2)) in E. vm_compute in E. discriminate E. }
  exists s', page, csp. split; [reflexivity|].
  destruct (share_page_confined id default_limiter "d" "" evil_base 200 (200 * ns) link_issued "secret" (demo_request [] None) (Site link_made []) s' page csp E)
    as (_ & _ & _ & x & y & Hp & Hx & Hy & Ha & _).
  exists x, y. split; [exact Hp|]. split; [exact Hx|]. split; [exact Hy|]. rewrite Ha. vm_compute. reflexivity.
Defined.
