(* ===== verification/Views.v ===== *)
(** * Pages that show the state

    What is left of the handlers of [ui/app/main.py] that only read, with what they read: a client's own page, the
    download form of a relay profile, the code of the second factor, the state of the PKI ([pki.pki_status]) and
    of the relay ([relay_services.runtime_status]); and the address a request is taken to come from
    ([network.NetworkProxyHeaders]).  uvicorn's middleware is an argument. *)

From S2P Require Import Prelude PyStr Regex Mgmt Schema Auth Addressing Relay Access Clients Lifecycle Handlers Gateway Profiles Signing Endpoint.

Open Scope string_scope.
Open Scope list_scope.
Open Scope Z_scope.

(** ** A client's own pages *)

Record own_identity := Identity { id_username : string; id_version : string; id_guest_sub : string; id_role : role; id_client_name : option string }.
(** [me]. *)
Definition me (version guest_sub : string) (user : session_user) : own_identity :=
  Identity (su_username user) version guest_sub (su_role user) (su_client_name user).

Record own_profile := OwnProfile {
  op_name : string; op_guest : bool; op_expires_at : option Z; op_links : list string;
  op_relay_available : bool; op_signed_profiles : bool; op_relay_csrf : string;
}.
(** [own_profile_info]; [saved] is the gateway of the network settings, [signing_url] that of [signing_config]. *)
Definition own_profile_info (mac : string → string → string) (now : Z) (v : pki_view) (guests : gset string) (saved : option gateway)
    (signing_url : result string) (cookie : option string) (user : session_user) (d : relay_db) : result own_profile :=
  name ← client_only user;
  cert ← eligible now v name;
  match cert with
  | None => Raise (HTTPException 401 "Client access is no longer valid")
  | Some c =>
      let guest := bool_decide (name ∈ guests) in
      url ← signing_url;
      Ok (OwnProfile name guest (ce_not_after c) (if guest then guest_links saved else []) (rc_enabled (rd_config d)) (negb (empty url))
            (profile_download_token mac cookie "/api/portal/relay.mobileconfig"))
  end.

(** [own_openvpn_profile]: the profile and the name of the file; [build] is [pki.build_profile]. *)
Definition own_openvpn_profile (now : Z) (build : string → result string) (user : session_user) (s : server) : server * result (string * string) :=
  match (name ← client_only user; content ← build name; Ok (name, content)) with
  | Raise e => (s, Raise e)
  | Ok (name, content) => (event now "portal_openvpn_downloaded" (su_username user) (Some name) None s, Ok (content, name +:+ ".ovpn"))
  end.

(** ** Pages of the administrator *)

(** [tfa_qr]; [qr_svg] draws the code. *)
Definition tfa_qr (qr_svg : string → string) (issuer : string) (secrets : gmap string string) (name : string) : result string :=
  _ ← validate_name name;
  match tfa_uri issuer secrets name with
  | Some uri => if empty uri then Raise (HTTPException 404 "2FA is not enabled for this client") else Ok (qr_svg uri)
  | None => Raise (HTTPException 404 "2FA is not enabled for this client")
  end.
(** [relay_download_form]: where the form is sent, and its token. *)
Definition relay_download_form (mac : string → string → string) (now : Z) (name : string) (cookie : option string) (s : server) : result (string * string) :=
  _ ← find_client now name s;
  let path := "/api/clients/" +:+ name +:+ "/relay.mobileconfig" in
  Ok (path, profile_download_token mac cookie path).
(** [authorize_relay]. *)
Definition authorize_relay (sha : string → string) (now : Z) (v : pki_view) (guests : gset string) (net : network_view) (authorization : option string)
    (d : relay_db) : result policy :=
  p ← authorize sha now v guests net false (default "" authorization) d;
  of_option (HTTPException 403 "Relay access denied") p.

(** [runtime_status]: what the relay on the loopback address answers; [None] stands for an answer that is no JSON. *)
Record relay_runtime := RelayRuntime { rr_ready : bool; rr_message : string; rr_events : list status_row; rr_active : list status_row; rr_clients : list status_row }.
Definition status_endpoint (urlencode : string → string) (client : option string) : string :=
  "http://127.0.0.1:8446/status" +:+ (if truthy client then "?client=" +:+ urlencode (default "" client) else "").
Definition MAX_STATUS : Z := 2 * 1024 * 1024.
Definition runtime_status (json_loads : string → option relay_runtime) (answer : result string) : result relay_runtime :=
  let unreachable := Ok (RelayRuntime false "Relay backend is unreachable on this host" [] [] []) in
  match answer with
  | Raise OSError | Raise ValueError => unreachable
  | Raise e => Raise e
  | Ok content =>
      if MAX_STATUS <? strlen content then unreachable
      else match json_loads content with Some s => Ok s | None => unreachable end
  end.

(** ** The state of the PKI *)

(** The variable of easy-rsa, white space, perhaps a quote, and the value in group 1. *)
Definition rx_var (name : string) (value : regex) : regex :=
  RSeq (lit name) (RSeq (plus rs_) (RSeq (opt (RChar (Ascii.eqb (chr 34)))) (RGroup 1 (plus value)))).
Definition find_var (name : string) (value : regex) (text : string) : option string :=
  m ← search_from (rx_var name value) None text; m !! 1%nat.
(** The days of validity are not quoted. *)
Definition rx_days : regex := RSeq (lit "EASYRSA_CERT_EXPIRE") (RSeq (plus rs_) (RGroup 1 (plus rd))).

(** [int] of decimal digits: more than 4300 are a ValueError. *)
Definition int_of_digits (s : string) : result Z := if 4300 <? strlen s then Raise ValueError else of_option ValueError (py_int s).
Definition int_or (default : option Z) (s : option string) : result (option Z) :=
  match s with Some s => n ← int_of_digits s; Ok (Some n) | None => Ok default end.

Record pki_state := PkiState {
  ps_ca : option info; ps_server : option info; ps_crl : crl; ps_tls_key : bool;
  ps_algo : string; ps_curve : option string; ps_key_size : option Z; ps_cert_days : option Z;
}.
Definition pki_status (ca server : option info) (c : crl) (tls_key : bool) (vars_text : string) : result pki_state :=
  key_size ← int_or None (find_var "EASYRSA_KEY_SIZE" rd vars_text);
  cert_days ← int_or (Some 825) (m ← search_from rx_days None vars_text; m !! 1%nat);
  Ok (PkiState ca server c tls_key (default "rsa" (find_var "EASYRSA_ALGO" rw vars_text))
        (find_var "EASYRSA_CURVE" (RChar (fun c => is_word c || Ascii.eqb c "-")) vars_text) key_size cert_days).

(** ** Where a request comes from *)

(** [NetworkProxyHeaders]: [config] is [proxy_cidrs] of [settings.read_network()], [env] FORWARDED_ALLOW_IPS. *)
Definition trusted_hosts (config : option (list string)) (env : option string) : list string :=
  match config with Some l => l | None => split ","%char (default "127.0.0.1" env) end.
(** The request the application sees, and the peer that [discover_network] shows. *)
Definition proxied (middleware : list string → request → request) (config : option (list string)) (env : option string) (r : request)
    : request * option string :=
  (middleware (trusted_hosts config env) r, rq_ip r).

(** ** Lemmas *)

Lemma digits_val_decimal acc s : str_forall is_decimal s = true → ∃ n, digits_val acc s = Some n.
Proof. revert acc. induction s as [|c s IH]; intros acc; [by eexists|]. cbn [str_forall digits_val]. intros [-> Hs]%andb_true_iff. by apply IH. Qed.
Lemma py_int_decimal s : s ≠ "" → str_forall is_decimal s = true → ∃ n, py_int s = Some n.
Proof.
  intros Hne Hd. unfold py_int. rewrite strip_decimal by done. destruct s as [|c s]; [done|]. cbn [str_forall] in Hd.
  apply andb_true_iff in Hd as [Hc Hs]. destruct (Ascii.eqb_spec c "-") as [->|]; [done|]. destruct (Ascii.eqb_spec c "+") as [->|]; [done|].
  cbn [unsigned_int]. rewrite Hc. by apply digits_val_decimal.
Qed.
Lemma plus_nonempty p st k x : rmatch (RGroup 1 (plus (RChar p))) st k = Some x →
  ∃ w st', w ≠ "" ∧ str_forall p w = true ∧ k (ReState (re_prev st') (re_rest st') (<[1%nat := w]> (re_caps st'))) = Some x.
Proof.
  destruct st as [prev rest caps]. rewrite rmatch_group. unfold plus. rewrite rmatch_seq. destruct rest as [|c t]; [done|]. rewrite rmatch_char. destruct (p c) eqn:Hc; [|done].
  intros (w & st' & Hr & Hw & Hk)%(rmatch_within p (RStar true (RChar p)) (fun c Hc => Hc)). cbn [re_rest] in Hr, Hk.
  exists (String c w), st'. split_and!; [done|cbn; by rewrite Hc|]. rewrite Hr in Hk. change (String c (w +:+ re_rest st')) with (String c w +:+ re_rest st') in Hk.
  by rewrite str_take_app in Hk.
Qed.

(** A pattern that ends with a group of one class of characters. *)
Definition ends_in_group (p : ascii → bool) (r : regex) : Prop :=
  ∀ st m, rmatch r st (fun st => Some (re_caps st)) = Some m → ∃ w, w ≠ "" ∧ str_forall p w = true ∧ m !! 1%nat = Some w.
Lemma group_ends p : ends_in_group p (RGroup 1 (plus (RChar p))).
Proof. intros st m (w & st' & Hne & Hw & [= <-])%plus_nonempty. exists w. cbn. by rewrite lookup_insert_eq. Qed.
Lemma seq_ends p a b : ends_in_group p b → ends_in_group p (RSeq a b).
Proof. intros Hb st m. rewrite rmatch_seq. intros (w & st' & _ & _ & Hk)%(rmatch_within _ _ (within_any a)). by eapply Hb. Qed.
Lemma search_ends p r s prev m : ends_in_group p r → search_from r prev s = Some m → ∃ w, w ≠ "" ∧ str_forall p w = true ∧ m !! 1%nat = Some w.
Proof.
  intros Hr. revert prev. induction s as [|c s IH]; intros prev; cbn [search_from]; destruct (rmatch r _ _) eqn:E; try done.
  - intros [= <-]. by eapply Hr.
  - intros [= <-]. by eapply Hr.
  - apply IH.
Qed.
#[local] Hint Resolve group_ends seq_ends : group_ends.
Lemma search_digits r s : ends_in_group is_decimal r → ∀ w, (m ← search_from r None s; m !! 1%nat) = Some w → w ≠ "" ∧ str_forall is_decimal w = true.
Proof.
  intros Hr w. destruct (search_from r None s) as [m|] eqn:E; [|done]. cbn [mbind option_bind].
  destruct (search_ends _ _ _ _ _ Hr E) as (w' & Hne & Hd & ->). by intros [= <-].
Qed.
Lemma int_or_digits def s : (∀ w, s = Some w → w ≠ "" ∧ str_forall is_decimal w = true) →
  (∃ n, int_or def s = Ok n) ∨ ∃ w, s = Some w ∧ 4300 < strlen w.
Proof.
  intros Hs. destruct s as [w|]; [|by left; eexists]. destruct (Hs w eq_refl) as [Hne Hd]. cbn [int_or]. unfold int_of_digits.
  destruct (Z.ltb_spec 4300 (strlen w)); [right; by exists w|]. destruct (py_int_decimal w Hne Hd) as [n ->]. left. by eexists.
Qed.

(** ** Theorems *)

(** A client account's page is about its own client, for as long as that client has access: an administrator gets none, a
    client without a valid certificate gets none, and the links of the gateway are shown to guests only. *)
Theorem own_page_own_client mac now v guests saved signing_url cookie user d p :
  own_profile_info mac now v guests saved signing_url cookie user d = Ok p →
  su_role user = Client ∧ op_name p = default "" (su_client_name user) ∧
  (∃ c, eligible now v (op_name p) = Ok (Some c) ∧ op_expires_at p = ce_not_after c ∧ now < or_zero (ce_not_after c)) ∧
  (op_guest p = true ↔ op_name p ∈ guests) ∧
  (op_links p ≠ [] → op_name p ∈ guests ∧ op_links p = guest_links saved).
Proof.
  unfold own_profile_info, client_only. destruct (su_role user); [done|]. cbn [mbind result_bind].
  set (name := default "" _). destruct (eligible now v name) as [[c|]|] eqn:He; [|done|done]. cbn [mbind result_bind].
  destruct signing_url as [url|]; [|done]. cbn [mbind result_bind]. intros <-%Ok_inj. cbn. split_and!; [done..| | |].
  - exists c. split_and!; [done..|]. unfold eligible in He. destruct (validate_name name); [|done]. cbn [mbind result_bind] in He.
    destruct (pv_issued v !! name) as [c'|]; [|done]. destruct (negb _); [done|]. destruct (pv_index v) as [index|]; [|done].
    destruct (_ || _) eqn:Hc in He; [done|]. injection He as ->. rewrite !orb_false_iff, Z.leb_gt in Hc. tauto.
  - apply bool_decide_eq_true.
  - case_bool_decide; [|done]. by intros _.
Qed.

Definition portal_user : session_user := SessionUser 2 "alice" (Some "alice") (Some "01") Client.
Definition portal_view : pki_view := PkiView {["alice" := Cert "alice" "01" (Some 10) (Some 1000)]} (Some {["01" := "V"]}).
Definition portal_relay : relay_db := RelayDb (RelayConfig true "https://relay.example.com" "http2") None ∅.
Lemma own_page_own_client_witness :
  ∃ p, own_profile_info String.append 100 portal_view ∅ None (Ok "") (Some "tok") portal_user portal_relay = Ok p ∧ op_name p = "alice" ∧ op_guest p = false.
Proof.
  destruct (own_profile_info String.append 100 portal_view ∅ None (Ok "") (Some "tok") portal_user portal_relay) as [p|e] eqn:E.
  - exists p. split; [reflexivity|]. destruct (own_page_own_client String.append 100 portal_view ∅ None (Ok "") (Some "tok") portal_user portal_relay p E) as (_ & Hn & _ & Hg & _).
    split; [exact Hn|]. apply not_true_is_false. intros H. apply Hg in H. set_solver.
  - exfalso. vm_compute in E. discriminate E.
Defined.

(** The state of the PKI can always be shown: whatever the variables of easy-rsa say, the numbers found in them are numbers;
    only a number of more than 4300 digits, Python's limit, is an error.  A variable that is not there has its default. *)
Theorem pki_status_shown ca server c tls_key vars_text :
  (∃ s, pki_status ca server c tls_key vars_text = Ok s ∧
     (find_var "EASYRSA_ALGO" rw vars_text = None → ps_algo s = "rsa") ∧
     (search_from rx_days None vars_text = None → ps_cert_days s = Some 825)) ∨
  ∃ w, 4300 < strlen w ∧ str_forall is_decimal w = true ∧
    (find_var "EASYRSA_KEY_SIZE" rd vars_text = Some w ∨ (m ← search_from rx_days None vars_text; m !! 1%nat) = Some w).
Proof.
  assert (Hk : ends_in_group is_decimal (rx_var "EASYRSA_KEY_SIZE" rd)) by (unfold rx_var; auto 10 with group_ends).
  assert (Hd : ends_in_group is_decimal rx_days) by (unfold rx_days; auto 10 with group_ends).
  pose proof (search_digits _ vars_text Hk) as Hk'. pose proof (search_digits _ vars_text Hd) as Hd'.
  destruct (int_or_digits None _ Hk') as [[n Hn]|(w & Hw & Hl)]; [|right; exists w; split_and!; [done|by apply Hk'|by left]].
  destruct (int_or_digits (Some 825) _ Hd') as [[m Hm]|(w & Hw & Hl)]; [|right; exists w; split_and!; [done|by apply Hd'|by right]].
  left. unfold pki_status. change (int_or None (find_var "EASYRSA_KEY_SIZE" rd vars_text) = Ok n) in Hn. rewrite Hn. cbn [mbind result_bind]. rewrite Hm. eexists. split; [reflexivity|]. cbn [ps_algo ps_cert_days]. split.
  - by intros ->.
  - intros He. rewrite He in Hm. cbn in Hm. by injection Hm as <-.
Qed.
